(* ===== verification/_CoqProject ===== *)
-Q . S2P
Prelude.v
PyStr.v
PyNum.v
PyValue.v
PyDate.v
JsonText.v
VoteConfigs.v
Tally.v
TallyFacts.v
Election.v
ElectionFacts.v
Lexorank.v
LexorankFacts.v
JsonLogic.v
JsonLogicFacts.v
Guards.v
GuardsFacts.v
FlowGraph.v
FlowGraphFacts.v
BudgetRules.v
BudgetFacts.v
FormFields.v
FormValidation.v
FormFacts.v
FlowDb.v
Decision.v
FlowEngine.v
FlowEngineFacts.v
Policy.v
Room.v
Delegations.v
DelegationService.v
VoteRows.v
VoteService.v
VoteClose.v
VoteSpec.v
VoteServiceFacts.v
VoteCastFacts.v
DelegationFacts.v
Turnout.v
Sha256.v
JsonCanon.v
AuditLog.v
AuditFacts.v
Ledger.v
Bookings.v
LedgerFacts.v
LedgerSteps.v
LedgerProps.v
AllocationFacts.v
BookingFacts.v
SubBookingFacts.v
Todo.v
TodoService.v
TodoCards.v
TodoEvents.v
TodoCore.v
TodoSim.v
TodoMerge.v
TodoRights.v
TodoOrder.v
TodoProps.v
Files.v
Tickets.v
TicketFacts.v
VoteWrites.v
Meetings.v
Agenda.v
Guests.v
Lifecycle.v
MeetingCore.v
MeetingInv.v
MeetingSim.v
LifeSim.v
MeetingSteps.v
MeetingFacts.v
AppAccess.v
AppService.v
AppFacts.v
AppEdits.v
