(* ===== verification/Prelude.v ===== *)
(** * The STUPA-Workflow backend: a verification library

    The program is the backend of a platform for the applications, the meetings and the
    budget of a student parliament.  An applicant fills a form; the application moves through
    a flow of states with guarded transitions; in a vote state a Gremium votes, in a meeting or
    in its own window, with members that give their vote to others; the approved amount binds a
    cost center of the budget tree, where bookings and transfers follow; an audit log with a
    hash chain records what happened.  The code is Python; the paths below are under
    [src/backend/app], those of a module under [src/backend/app/modules].  This library models
    the rules that decide and the services that change the tables, and proves what they
    promise.

    ** How the program is modelled

    A Python function is a Rocq function with its name.  A function that can raise returns
    [res E A] ([Ok] or [Err]); the monad and its laws are in this file.  A JSON value is a
    [pyval] ([PyValue]); a dict keeps its insertion order, as Python's does.  A [float] is a
    binary64 number of [SpecFloat], a [Decimal] a coefficient and an exponent with the
    rounding, the limits and the exceptions of the default context ([PyNum]).  A text is the
    list of its UTF-8 bytes: equality, order and prefixes agree with Python; the character
    classes are the ASCII ones, so a text with other letters or digits is out of the model
    where the code asks for a class ([PyStr]).  A database table is a list or a finite map of
    records; a transaction is a function from tables to tables, and an error leaves them as
    they were.  A row lock or an advisory lock that the code takes makes the locked part one
    step.  Amounts of [Numeric(12, 2)] columns are cents.  The code of a refusal by permission
    is dropped where every refusal of the operation is the same 403.

    What is not in the repository is a parameter: the regex engine ([full_match] and
    [compiles] of the form engine), [secrets.choice] ([choose]), the order of a Python set
    ([set_of]), fresh ids and the time.  The Pydantic validators that turn the texts of an audit
    entry back into fields are parameters of the reverts of the budget.

    ** The files

    The ground:
    - [Prelude]: results, lists, sums, sorting, shared tactics ([inv_ok], [bool_prop], [case_if]);
    - [PyStr], [PyNum], [PyValue], [PyDate], [JsonText], [JsonCanon], [Sha256]: the parts of Python
      and its standard library that the code uses (texts, floats and decimals, values and dicts,
      dates, JSON as it is read and as [json.dumps] writes it, [hashlib.sha256]).

    The rules, each with a file of definitions and a file [...Facts] of theorems:
    - [VoteConfigs] ([shared/config_schemas.py]): the rules of a vote, an election and a poll;
      [Tally] ([voting/tally.py]): quorum, majorities, elections with their lot, polls;
      [Election] ([voting/election.py]): the ballots and the stored result of an election.
      [TallyFacts]: a motion passes exactly when its quorum and its majority say so, the quorum
      wins over the majority, the order of the ballots does not count, and a yes vote never
      hurts.  [ElectionFacts]: who is elected is strictly ahead of who is not, a tie leaves a
      lot, no vote is lost, an accepted ballot counts as it was cast, the lot ends and fills the
      seats.
    - [FlowGraph] ([shared/config_schemas.py]): the check of a flow at its save.
      [FlowGraphFacts]: it accepts exactly the well-formed flows; its two searches compute
      reachability and find a cycle exactly when there is one.
    - [Guards] ([shared/guards.py]) and [JsonLogic] ([shared/jsonlogic.py]): the two expression
      languages.  [GuardsFacts], [JsonLogicFacts]: what the save accepts does not fail for its
      structure at run time, an automatic guard does not depend on an actor, an expression reads
      only what it names.
    - [BudgetRules] ([budget/tree_rules.py], [budget/decision.py]): paths, roll-up, fiscal years,
      the deciding Gremium, the forest that a Gremium sees.  [BudgetFacts]: the path prefix is
      the ancestor relation, the roll-up conserves the amounts, fiscal years are gapless, the
      walk up the tree ends on every table, also on a cyclic one.
    - [FormFields], [FormValidation] ([forms/validation.py]): the field types, the check of a
      definition and of the answers, the sections, the cost table, the promoted amount.
      [FormFacts]: accepted answers are complete and typed and the funding is covered by the
      costs, the IBAN check finds a wrong character, a cost table is accepted exactly when it is
      well formed, the amount is finite.
    - [Lexorank] ([todos/lexorank.py], [todos/merge.py], [todos/grouping.py]): the sort keys of
      the to-do boards.  [LexorankFacts]: a key between two keys, spread keys in order, appended
      cards at the end of their column.

    The engine of the applications:
    - [FlowDb], [Decision], [FlowEngine] ([flow/context.py], [flow/vote_gremium.py],
      [applications/decision.py], [flow/service.py], [flow/dispatch.py], and the parts of
      [voting/service.py] and [livevote/agenda_service.py] that a state change calls): the
      tables, the guard context, the decisions, and the operations list, fire, automatic
      advance, start, vote branch, forced status and revert.  A state change is split at its
      conditional [UPDATE] into [plan_*] and [write_*], which take the database before and after
      the commits of other transactions.  [FlowEngineFacts]: the step relation [step] lets every
      interleaving happen; the status history stays a path, one of two competing changes loses,
      the lists agree with the fires, the Gremium of the vote follows the state, and no vote of
      a left state stays open.

    Rights, meetings and votes:
    - [Policy] ([auth/principal.py], [auth/policy.py], [auth/rbac.py], [auth/oauth.py], [deps.py]):
      what a principal may do, by role, in a Gremium and through an access token.  [DelegationFacts]:
      a token never has more than its scope and its principal.
    - [Room] ([livevote/service/permissions.py], [delegations/pool.py] and the models): the tables
      of a meeting and its rights; [Delegations] ([delegations/pool_seat.py],
      [livevote/attendance_service.py]): pool seats, attendance and the gate of a delegated vote;
      [DelegationService] ([delegations/service.py]): grants, revokes, the pool.
      [DelegationFacts]: under every order of [delegation_step] and [room_step] nobody chains a
      vote, and the view of a member agrees with the gate.
    - [VoteRows], [VoteService], [VoteClose] ([voting/service.py], [voting/poll.py]):
      the rows and counts of a vote; create, open, cast and cancel; close and delete; who may
      read and manage.  [VoteSpec] is the abstract ballot box.  [VoteServiceFacts]: every
      [vote_step] is a step of the box, one ballot per voter, an ended vote is sealed, its result
      is what a recount gives.  [VoteCastFacts]: who can still cast; what a
      close fires and that an expired vote always ends.  [Turnout]: a meeting casts at most as
      many ballots as its Gremium has votes (for a Gremium whose members do not change during
      the vote); the witnesses of the votes are there too.

    The audit log:
    - [AuditLog] ([audit/service.py], [audit/hashing.py], [audit/models.py]): the chain, its check,
      the stored checks, the queries.  [AuditFacts] ([append_step], [check_step]): a change of the
      past shows or SHA-256 has a collision, the check names the first break, what only [record]
      wrote verifies, the evidence of a break survives every prune.  The witnesses are there too.

    The budget:
    - [Ledger] ([budget/tree/service_base.py], [nodes.py], [fiscal_years.py], [allocations.py],
      [applications.py], [flow/extras_dispatcher.py]) and [Bookings] ([expenses.py],
      [subbookings.py], [transfers.py], [revert.py]): the tables and every operation that writes
      them.  [LedgerFacts]: the tree of the cost centers; [LedgerSteps]: the relation
      [budget_step] and what each operation does to the rows; [LedgerProps], [AllocationFacts],
      [BookingFacts], [SubBookingFacts]: in every reachable state the paths tell the tree, the
      years belong to their cost centers, the children hold at most what their parent holds, a
      closed year is frozen, a parent booking is the sum of its parts.  [SubBookingFacts] ends
      with the witnesses and the edges where the code departs from its documentation.

    The to-do boards:
    - [Todo] ([todos/models.py], [todos/access.py], [todos/live.py], the lookups and ranks of
      [todos/service.py]): the tables, the access rules, the pings; [TodoService] (boards,
      columns, labels), [TodoCards] (cards, assignees, checklists), [TodoEvents] (links, Events,
      comments, the agenda link; [todos/hooks.py], [todos/merge.py], [src/backend/worker/todos.py]):
      every operation that writes them, the requests of a principal and the steps of the system,
      and what a [history] is.  An operation
      that waits for the lock of its board takes the tables before ([k]) and under ([d]) the lock;
      apart from that each transaction is one step.  [TodoCore] is the abstract state of a board
      that the invariants need, [TodoSim] and [TodoMerge] show that every operation is a step of
      it, [TodoRights] what a request leaves alone, [TodoOrder] the order of a column.
      [TodoProps]: cards, columns and labels stay consistent, an application has one Event, a
      request leaves the boards alone that its author does not write, a move lands where it
      should, the read rules agree, the cron archives what is due; then the witnesses and the
      merge that finishes an open card.

    The meetings ([livevote/]):
    - [Meetings] ([models.py], [open_window.py], [service/service_base.py]): the tables on top of
      [Room], the row updates, the open window; [Agenda] ([agenda_service.py]); [Guests]
      ([guests.py]): the join code, the requests, what a device does with its token; [Lifecycle]
      ([keepers.py], [service/handover.py], [service/lifecycle.py]): the keeper of the minutes and
      the handover, create, patch, start, close, delete.  [VoteWrites]: what the transactions of
      the votes may write in a room.
    - [MeetingCore]: the part of the tables that the invariants speak of ([MCore]), the invariants
      ([mcore_ok]) and the moves that change it: [quiet] ones, that leave every status, and
      [meeting_move]s (a new meeting, a start, a close, a delete).  [MeetingInv]: every move keeps
      the invariants.  [MeetingSim], [LifeSim]: every operation is a run of moves.
    - [MeetingSteps]: the requests of a principal, of a device and of the rest of the program as
      [meeting_step].  A request without a lock reads tables [k] that may be older than the tables
      [d] that it writes.  Only a patch changes a status.  [MeetingFacts]: in every reached state a
      live meeting has its keeper, a vote follows its meeting, guests stay private, a join code is
      unique; a closed meeting is frozen for every request that reads what it writes.  Then a
      concrete history, the witnesses, and the patch of a title that misses the close.

    The tickets:
    - [Files] ([files/drafts.py], parts of [files/service.py], [src/backend/worker/files_drafts.py]):
      the draft uploads of a token, their bind to an owner, the removal of the files of a message
      or a ticket, the purge, the result of a scan.  [Tickets] ([tickets/service.py],
      [src/backend/worker/tickets.py], the ticket part of [privacy/service.py]): report, change,
      notes, sender blocks, the routes of the reporter, the lists and details, the anonymization
      with the retention cron and the erasure.
    - [TicketFacts]: [ticket_step] lets a request without a lock read old tables [k]; the [View] is
      the part of the tables with personal data, and every transaction is a run of its [move]s.
      An anonymized ticket has no personal data and gets none back, the detail of the reporter
      depends on the redacted tables alone, a block holds back exactly the reports of its sender,
      the routes of the reporter hide every other ticket, an uninterrupted run of the cron
      anonymizes what is due.  Then a history, the witnesses, and two races around the closing time.

    The applications ([applications/]):
    - [AppAccess] ([access.py], [service/listing.py], [mentions.py], [budget/tree/view.py]): the tables
      on top of [Room], who reads and edits an application, the read scope, the filters and the order
      of the list, the open tasks, the persons of a mention.  [AppService] ([service/], [diff.py]): the
      detail, the timeline, the versions and the comments as each reader gets them; comments, edits,
      archive, delete, anonymization, create and capture.  An operation without a row lock reads the
      tables [k] and writes its columns in [d]; an edit is split at its flush into [plan_edit] and
      [write_edit].
    - [AppFacts]: the list shows what the detail opens; whom a comment may mention reads it; a
      reader without the right gets the same answers from two states that differ in personal fields
      only ([pii_alike]); the applicant sees no member.  [AppEdits]: [app_run] is a history in which an
      edit may have read any earlier state, and [version_effect] the abstract effect of an operation
      on the versions: they are numbered without a gap; what an edit has checked and written; what an
      anonymization leaves.  Then a concrete office, the witnesses, and the examples where the code
      departs from its documentation.

    ** How the parts meet

    [FlowGraph] checks every guard and action of a flow with [Guards.validate_guard] and
    [validate_action].  [FlowEngine] evaluates the guards in the context that [FlowDb] builds,
    asks [BudgetRules.decision_gremium_of] for the Gremium of the cost center, writes through
    [Decision], and releases the link of an election through [Election].  [FormValidation]
    evaluates [visibleIf] and [compute] with [JsonLogic] and gives the amount that
    [FlowDb._budget_fits] compares.  The vote service asks a class, [VotingRights], for what a
    meeting lends to a vote; [DelegationFacts.meeting_rights] is its instance over [Delegations].
    The close of a vote calls [FlowEngine.stage_branch].  [Ledger.flow_db] shows the cost centers
    and the bookings to the flow engine.  The to-do boards ask [Policy] for the Gremien of a
    principal and [Lexorank] for their sort keys; who reads the target of a link is their
    parameter [readable], since the modules of the targets decide it.  The meetings live in the
    tables of [Room], where the votes, the delegations and the flow engine read them; a close
    calls [VoteClose.cancel_drafts_for_meeting], a delete [delete_for_meeting], an agenda item that
    goes [delete_for_agenda_item], and [vote_op] is the interface in the other direction: its
    transactions open a vote only in a live meeting and touch no row of it.  The tickets stand on the
    tables of the to-do boards: the boards write [todo_done] events into the timeline of a ticket,
    and the close of a ticket completes its cards through [TodoEvents.complete_ticket].  The
    applications share the tables of [Room] with the engine, the votes and the meetings and the tree
    of [Ledger] with the budget: their gate asks [Room.gremium_reader_ids], their tasks ask
    [VoteService.can_still_cast] and [FlowEngine.available_transitions], a create ends with
    [FlowEngine.start_confirmed], the answers of a form go through [FormValidation], and the rows of
    the files through [Files].  The mentions and the tickets use the same holders of a permission
    ([Todo.role_holders]).

    ** Bounds and fuel

    The loops of the code that do not descend on their data run on fuel: the middle of two sort
    keys takes at most two steps more than the lower key has characters, the breadth-first
    search one layer per state, the depth-first search one visit per state, the walk up the budget tree one step
    per row, the forest one level per node, the lot one draw per seat.  In each case a theorem
    shows that the fuel suffices: the function is total or its error for missing fuel is
    never returned.  [JsonLogic] recurses on the depth budget of the code itself, 64 levels
    ([between_spec], [reachable_spec], [first_cycle_spec],
    [resolve_decision_gremium_spec], [build_forest_total], [draw_lot_spec]).

    ** Not modelled

    HTTP routes, SQL text, sessions and cryptography but SHA-256, storage, mail, rendering and
    WebSockets.  Of the flow engine: the sending of the actions and events after a commit, labels
    and colours, and the list of the states for the forced status, which orders by the collation
    of the database.  Of the votes: the SQL of the list of visible votes.  Of the audit log: the
    labels read from other tables and the filters by time; the theorem on its tampering is for
    data without floats.  Of the budget: the lists, the views of the tree and the invoices.  Of the
    to-do boards: the attachments, the views (labels of links, totals and decisions of an Event,
    search, tiles), the sockets; a day of the archive limit has 86400 seconds.  Of the
    meetings: the views, the lists, the broadcasts, the QR code.  The save of a flow, which moves
    all applications to a new version, and the protocols.  Of the tickets: the target of the context,
    which the modules of the applications and meetings resolve, and the routes.  Of the files: the
    checks of the content, the object storage, the scanner, and the upload to an application.  Of the
    applications: [updated_at], the digests of the tokens, the colours and labels of the states, the
    mails, the export, the search of the capture dialog, the limits of guest applications, the rows of
    the budget, the boards and the protocols that refer to a deleted application; the full text
    functions of the database are parameters.  The protocols (their text is a document of its own), the
    administration (the edit of configuration tables), login and sessions, and every route that only
    calls a service. *)

From stdpp Require Export base decidable option list list_numbers strings gmap sorting.
From Stdlib Require Export Ascii ZArith Lia.

Create HintDb sorting.
Declare Scope py_scope.
Delimit Scope py_scope with py.
Open Scope Z_scope.

(** ** Results

    A Python call that can raise is a value of [res E A]: [Ok] for a return,
    [Err] for the raised exception.  The monad is stdpp's, so the bind notation
    is [x ← c; k]. *)
Inductive res (E A : Type) : Type :=
| Ok (a : A)
| Err (e : E).
Arguments Ok {E A} a.
Arguments Err {E A} e.

#[export] Instance res_ret {E} : MRet (res E) := λ A a, Ok a.
#[export] Instance res_bind {E} : MBind (res E) :=
  λ A B f c, match c with Ok a => f a | Err e => Err e end.
#[export] Instance res_fmap {E} : FMap (res E) :=
  λ A B f c, match c with Ok a => Ok (f a) | Err e => Err e end.

(** [raise_if b e] is Python's [if b: raise e]. *)
Definition raise_if {E} (b : bool) (e : E) : res E unit :=
  if b then Err e else Ok tt.

Definition is_ok {E A} (c : res E A) : bool :=
  match c with Ok _ => true | Err _ => false end.

Section Results.
Context {E : Type}.

Lemma bind_ok {A B} (c : res E A) (f : A → res E B) b :
  (c ≫= f) = Ok b ↔ ∃ a, c = Ok a ∧ f a = Ok b.
Proof. destruct c; cbn; naive_solver. Qed.

Lemma bind_err {A B} (c : res E A) (f : A → res E B) e :
  (c ≫= f) = Err e ↔ c = Err e ∨ ∃ a, c = Ok a ∧ f a = Err e.
Proof. destruct c; cbn; naive_solver. Qed.

Lemma raise_if_ok b (e : E) u : raise_if b e = Ok u ↔ b = false.
Proof. destruct b, u; cbn; naive_solver. Qed.

Lemma raise_if_err b (e e' : E) : raise_if b e = Err e' ↔ b = true ∧ e' = e.
Proof. destruct b; cbn; naive_solver. Qed.

Lemma bind_Ok_l {A B} (a : A) (f : A → res E B) : (Ok a ≫= f) = f a.
Proof. reflexivity. Qed.

(** A loop whose body only raises or passes, as [for x in l: check(x)]. *)
Fixpoint for_each {A} (f : A → res E unit) (l : list A) : res E unit :=
  match l with
  | [] => Ok tt
  | x :: r => f x ≫= λ _, for_each f r
  end.

Lemma for_each_ok {A} (f : A → res E unit) l u :
  for_each f l = Ok u ↔ Forall (λ x, f x = Ok tt) l.
Proof.
  destruct u. induction l as [|x r IH]; cbn; [by split|].
  rewrite Forall_cons, <- IH. destruct (f x) as [[]|]; cbn; naive_solver.
Qed.
(** A comprehension that stops at the first error. *)
Fixpoint map_res {A B} (f : A → res E B) (l : list A) : res E (list B) :=
  match l with
  | [] => Ok []
  | x :: r => y ← f x; ys ← map_res f r; Ok (y :: ys)
  end.

Lemma map_res_ok {A B} (f : A → res E B) l ys :
  map_res f l = Ok ys ↔ Forall2 (λ x y, f x = Ok y) l ys.
Proof.
  revert ys. induction l as [|x r IH]; intros ys; cbn.
  - split; [intros [= <-]; constructor|by inversion 1].
  - rewrite bind_ok. split.
    + intros (y & Hy & (zs & Hz & [= <-])%bind_ok). constructor; [done|by apply IH].
    + inversion 1; subst. eexists. split; [done|]. apply bind_ok. eexists. split; [|done]. by apply IH.
Qed.

Lemma map_res_err {A B} (f : A → res E B) l e :
  map_res f l = Err e → ∃ x, x ∈ l ∧ f x = Err e.
Proof.
  induction l as [|x r IH]; cbn; [done|].
  intros [H|(y & _ & [H|(ys & _ & H)]%bind_err)]%bind_err; [| |done].
  - exists x. split; [left|done].
  - destruct (IH H) as (z & Hz & Ez). exists z. split; [by right|done].
Qed.

Lemma map_res_ext {A B} (f g : A → res E B) l :
  (∀ x, x ∈ l → f x = g x) → map_res f l = map_res g l.
Proof.
  induction l as [|x r IH]; intros H; cbn; [done|]. rewrite (H x) by left.
  by rewrite IH by (intros y Hy; apply H; by right).
Qed.

Lemma for_each_err {A} (f : A → res E unit) l e :
  for_each f l = Err e → ∃ x, x ∈ l ∧ f x = Err e.
Proof.
  induction l as [|x r IH]; cbn; [done|]. intros [H|(y & _ & H)]%bind_err.
  - exists x. split; [left|done].
  - destruct (IH H) as (z & Hz & Ez). exists z. split; [by right|done].
Qed.
End Results.

Lemma Ok_inj {E A} (a b : A) : Ok (E := E) a = Ok b → a = b.
Proof. congruence. Qed.
(** Break a successful monadic computation into the success of its parts. *)
Ltac inv_ok :=
  repeat match goal with
  | H : (_ ≫= _) = Ok _ |- _ => apply bind_ok in H as (? & ? & ?)
  | H : raise_if _ _ = Ok _ |- _ => apply raise_if_ok in H
  | H : Ok _ = Ok _ |- _ => injection H as H; symmetry in H; subst
  | H : Err _ = Ok _ |- _ => discriminate H
  | H : Ok _ = Err _ |- _ => discriminate H
  end.

(** Turn boolean tests of the code into propositions. *)
Ltac bool_prop :=
  repeat match goal with
  | H : _ && _ = true |- _ => apply andb_true_iff in H as [??]
  | H : _ || _ = false |- _ => apply orb_false_iff in H as [??]
  | H : negb _ = true |- _ => apply negb_true_iff in H
  | H : negb _ = false |- _ => apply negb_false_iff in H
  | H : bool_decide _ = true |- _ => apply bool_decide_eq_true in H
  | H : bool_decide _ = false |- _ => apply bool_decide_eq_false in H
  | H : Z.ltb _ _ = true |- _ => apply Z.ltb_lt in H
  | H : Z.ltb _ _ = false |- _ => apply Z.ltb_ge in H
  | H : Z.leb _ _ = true |- _ => apply Z.leb_le in H
  | H : Z.leb _ _ = false |- _ => apply Z.leb_gt in H
  | H : Z.eqb _ _ = true |- _ => apply Z.eqb_eq in H
  | H : Z.eqb _ _ = false |- _ => apply Z.eqb_neq in H
  end.

Ltac case_if :=
  match goal with |- context [if ?b then _ else _] => destruct b eqn:? end.

(** ** [dict.fromkeys(xs)]: the distinct elements in first-seen order *)
Section FromKeys.
Context {A : Type} `{EqDecision A}.

Fixpoint fromkeys_aux (seen : list A) (l : list A) : list A :=
  match l with
  | [] => []
  | x :: r => if decide (x ∈ seen) then fromkeys_aux seen r
              else x :: fromkeys_aux (x :: seen) r
  end.
Definition fromkeys (l : list A) : list A := fromkeys_aux [] l.

Lemma elem_of_fromkeys_aux seen l x :
  x ∈ fromkeys_aux seen l ↔ x ∈ l ∧ x ∉ seen.
Proof.
  revert seen; induction l as [|y r IH]; intros seen; cbn.
  - split; [intros []%not_elem_of_nil|intros [[]%not_elem_of_nil _]].
  - case_decide; rewrite ?elem_of_cons, IH, ?elem_of_cons; [naive_solver|].
    destruct (decide (x = y)); naive_solver.
Qed.

Lemma elem_of_fromkeys l x : x ∈ fromkeys l ↔ x ∈ l.
Proof. unfold fromkeys. rewrite elem_of_fromkeys_aux. set_solver. Qed.

Lemma NoDup_fromkeys_aux seen l : NoDup (fromkeys_aux seen l).
Proof.
  revert seen; induction l as [|y r IH]; intros seen; cbn; [constructor|].
  case_decide; [apply IH|]. constructor; [|apply IH].
  rewrite elem_of_fromkeys_aux. set_solver.
Qed.

Lemma NoDup_fromkeys l : NoDup (fromkeys l).
Proof. apply NoDup_fromkeys_aux. Qed.

Lemma fromkeys_aux_id seen (l : list A) :
  NoDup l → (∀ x, x ∈ l → x ∉ seen) → fromkeys_aux seen l = l.
Proof.
  intros Hnd. revert seen. induction Hnd as [|x r Hx Hnd IH]; intros seen Hs; [done|].
  cbn. rewrite decide_False by set_solver. f_equal. apply IH. set_solver.
Qed.

Lemma fromkeys_id (l : list A) : NoDup l → fromkeys l = l.
Proof. intros. apply fromkeys_aux_id; set_solver. Qed.
End FromKeys.

(** ** [Counter(xs)[x]]: the number of occurrences *)
Section Counting.
Context {A : Type} `{EqDecision A}.

Fixpoint hits (l : list A) (x : A) : Z :=
  match l with
  | [] => 0
  | y :: r => (if decide (y = x) then 1 else 0) + hits r x
  end.

Lemma hits_nonneg l x : 0 ≤ hits l x.
Proof. induction l as [|y r IH]; cbn; [lia|]. case_decide; lia. Qed.

Lemma hits_app l k x : hits (l ++ k) x = hits l x + hits k x.
Proof. induction l as [|y r IH]; cbn; [lia|]. case_decide; lia. Qed.

Lemma hits_not_elem l x : x ∉ l → hits l x = 0.
Proof.
  induction l as [|y r IH]; [done|]. cbn. intros H.
  rewrite decide_False, IH by set_solver. lia.
Qed.

Lemma hits_pos l x : 0 < hits l x ↔ x ∈ l.
Proof.
  split.
  - intros H. destruct (decide (x ∈ l)) as [|Hn]; [done|].
    rewrite (hits_not_elem _ _ Hn) in H. lia.
  - induction 1 as [x l|x y l Hin IH]; cbn.
    + rewrite decide_True by done. pose proof (hits_nonneg l x). lia.
    + case_decide; lia.
Qed.

Lemma hits_le_length l x : hits l x ≤ Z.of_nat (length l).
Proof. induction l as [|y r IH]; cbn [hits length]; [lia|]. case_decide; lia. Qed.

Lemma hits_NoDup l x : NoDup l → hits l x ≤ 1.
Proof.
  induction 1 as [|y r Hy Hnd IH]; cbn; [lia|]. case_decide; [|lia].
  subst. rewrite (hits_not_elem _ _ Hy). lia.
Qed.

Lemma hits_Permutation l k x : l ≡ₚ k → hits l x = hits k x.
Proof. induction 1; cbn; lia. Qed.
End Counting.

(** ** Sums *)
Fixpoint zsum (l : list Z) : Z :=
  match l with [] => 0 | x :: r => x + zsum r end.

Lemma zsum_app l k : zsum (l ++ k) = zsum l + zsum k.
Proof. induction l; cbn; lia. Qed.

Lemma zsum_nonneg l : Forall (λ x, 0 ≤ x) l → 0 ≤ zsum l.
Proof. induction 1; cbn; lia. Qed.

Lemma zsum_Permutation l k : l ≡ₚ k → zsum l = zsum k.
Proof. induction 1; cbn; lia. Qed.

Section SumsOf.
Context {A : Type} `{EqDecision A}.

Lemma zsum_map_ext (f g : A → Z) l :
  (∀ x, x ∈ l → f x = g x) → zsum (f <$> l) = zsum (g <$> l).
Proof.
  induction l as [|x r IH]; [done|]. intros H. cbn.
  rewrite (H x) by set_solver. rewrite IH; [done|]. set_solver.
Qed.

Lemma zsum_map_add (f g : A → Z) l :
  zsum ((λ x, f x + g x) <$> l) = zsum (f <$> l) + zsum (g <$> l).
Proof. induction l as [|x r IH]; cbn; [lia|]. rewrite IH. lia. Qed.

Lemma zsum_map_le (f g : A → Z) l :
  (∀ x, x ∈ l → f x ≤ g x) → zsum (f <$> l) ≤ zsum (g <$> l).
Proof.
  induction l as [|x r IH]; [done|]. intros H. cbn.
  pose proof (H x ltac:(set_solver)). pose proof (IH ltac:(set_solver)). lia.
Qed.

Lemma zsum_map_const_if l (x : A) :
  NoDup l → zsum ((λ y, if decide (x = y) then 1 else 0) <$> l) =
            if decide (x ∈ l) then 1 else 0.
Proof.
  induction 1 as [|y r Hy Hnd IH]; cbn; [by rewrite decide_False by set_solver|].
  rewrite IH. destruct (decide (x = y)) as [->|].
  - rewrite (decide_False (P := y ∈ r)), decide_True by set_solver. lia.
  - repeat case_decide; set_solver.
Qed.

(** Every element counts once: the hits of the distinct known keys add up to
    the number of known elements. *)
Lemma zsum_hits (keys l : list A) :
  NoDup keys →
  zsum (hits l <$> keys) = Z.of_nat (length (filter (λ x, x ∈ keys) l)).
Proof.
  intros Hnd. induction l as [|x r IH].
  - cbn. induction keys as [|k ks IHk]; cbn; [done|].
    apply NoDup_cons in Hnd as [_ Hnd]. rewrite IHk; done.
  - change (hits (x :: r)) with
      (λ y, (if decide (x = y) then 1 else 0) + hits r y).
    rewrite zsum_map_add, zsum_map_const_if, IH, filter_cons by done.
    case_decide; cbn [length]; lia.
Qed.
End SumsOf.

(** ** [sorted(xs, key=...)]: a stable sort

    [leb x y] says that the key of [x] is at most the key of [y].  Python's sort is
    stable, so on a total preorder its result is the one of this insertion sort. *)
Section Sort.
Context {A : Type} (leb : A → A → bool).
Hypothesis leb_total : ∀ x y, leb x y = true ∨ leb y x = true.
Hypothesis leb_trans : ∀ x y z, leb x y = true → leb y z = true → leb x z = true.

Fixpoint insert_by (x : A) (l : list A) : list A :=
  match l with
  | [] => [x]
  | y :: r => if leb x y then x :: l else y :: insert_by x r
  end.
Fixpoint sort_by (l : list A) : list A :=
  match l with
  | [] => []
  | x :: r => insert_by x (sort_by r)
  end.

Lemma insert_by_Permutation x l : insert_by x l ≡ₚ x :: l.
Proof.
  induction l as [|y r IH]; cbn; [done|]. destruct (leb x y); [done|].
  rewrite IH. apply Permutation_swap.
Qed.

Lemma sort_by_Permutation l : sort_by l ≡ₚ l.
Proof. induction l as [|x r IH]; cbn; [done|]. by rewrite insert_by_Permutation, IH. Qed.

Lemma elem_of_sort_by x l : x ∈ sort_by l ↔ x ∈ l.
Proof. by rewrite sort_by_Permutation. Qed.

Lemma length_sort_by l : length (sort_by l) = length l.
Proof. by rewrite sort_by_Permutation. Qed.

Lemma insert_by_sorted x l :
  StronglySorted (λ a b, leb a b = true) l →
  StronglySorted (λ a b, leb a b = true) (insert_by x l).
Proof.
  induction 1 as [|y r Hs IH Hy]; cbn; [repeat constructor|].
  destruct (leb x y) eqn:E.
  - constructor; [by constructor|]. constructor; [done|].
    eapply Forall_impl; [exact Hy|]. cbn; eauto.
  - constructor; [done|]. rewrite insert_by_Permutation. constructor; [|done].
    destruct (leb_total x y); congruence.
Qed.

Lemma sort_by_sorted l : StronglySorted (λ a b, leb a b = true) (sort_by l).
Proof. induction l as [|x r IH]; cbn; [constructor|]. by apply insert_by_sorted. Qed.

(** A list that is in order already stays as it is. *)
Lemma sort_by_id l : StronglySorted (λ a b, leb a b = true) l → sort_by l = l.
Proof.
  induction 1 as [|x r Hs IH Hx]; cbn; [done|]. rewrite IH.
  destruct r as [|y r]; [done|]. cbn. inversion_clear Hx as [|?? E]. by rewrite E.
Qed.

(** Stability: the elements of one key class keep their order. *)
Definition same_key (x y : A) : Prop := leb x y = true ∧ leb y x = true.
#[local] Instance same_key_dec x y : Decision (same_key x y).
Proof. unfold same_key. apply _. Defined.

Lemma insert_by_stable k x l :
  StronglySorted (λ a b, leb a b = true) l →
  filter (same_key k) (insert_by x l) = filter (same_key k) (x :: l).
Proof.
  intros Hs. induction Hs as [|y r Hs IH Hy]; [done|].
  cbn [insert_by]. destruct (leb x y) eqn:E; [done|].
  rewrite (filter_cons _ y), IH, !filter_cons.
  destruct (decide (same_key k x)) as [[K1 K2]|]; [|done].
  rewrite !(decide_False (P := same_key k y)); [done|..]; intros [K3 K4];
  by rewrite (leb_trans x k y) in E.
Qed.

Lemma sort_by_stable k l : filter (same_key k) (sort_by l) = filter (same_key k) l.
Proof.
  induction l as [|x r IH]; [done|]. cbn [sort_by].
  rewrite insert_by_stable by apply sort_by_sorted.
  rewrite !filter_cons. by rewrite IH.
Qed.
End Sort.

(** Two lists related element by element stay so when they are sorted by orders that agree. *)
Section SortRelated.
Context {A B : Type} (R : A → B → Prop) (leA : A → A → bool) (leB : B → B → bool).
Hypothesis agree : ∀ a a' b b', R a b → R a' b' → leA a a' = leB b b'.
Lemma Forall2_insert_by a b l k : R a b → Forall2 R l k → Forall2 R (insert_by leA a l) (insert_by leB b k).
Proof.
  intros Hab H. induction H as [|x y l k Hxy Hl IH]; cbn; [by constructor|].
  rewrite (agree _ _ _ _ Hab Hxy). destruct (leB b y); by repeat constructor.
Qed.
Lemma Forall2_sort_by l k : Forall2 R l k → Forall2 R (sort_by leA l) (sort_by leB k).
Proof. induction 1; cbn; [constructor|]. by apply Forall2_insert_by. Qed.
End SortRelated.

(** Descending order of an integer key, [key=lambda x: -f(x)]. *)
Definition desc {A} (f : A → Z) (x y : A) : bool := f y <=? f x.
Lemma desc_total {A} (f : A → Z) x y : desc f x y = true ∨ desc f y x = true.
Proof. unfold desc. lia. Qed.
Lemma desc_trans {A} (f : A → Z) x y z :
  desc f x y = true → desc f y z = true → desc f x z = true.
Proof. unfold desc. lia. Qed.
#[export] Hint Resolve desc_total desc_trans : sorting.

Lemma StronglySorted_lookup {A} (R : A → A → Prop) l i j x y :
  StronglySorted R l → l !! i = Some x → l !! j = Some y → (i < j)%nat → R x y.
Proof.
  intros Hs. revert i j. induction Hs as [|z r Hs IH Hz]; intros i j Hi Hj Hlt; [done|].
  destruct j as [|j]; [lia|]. destruct i as [|i]; cbn in *.
  - injection Hi as ->. eapply Forall_forall; [exact Hz|].
    by eapply list_elem_of_lookup_2.
  - eapply IH; [done..|lia].
Qed.

(** [l[:n]], with Python's meaning of a negative [n]. *)
Definition slice_to {A} (n : Z) (l : list A) : list A :=
  if n <? 0 then take (Z.to_nat (Z.of_nat (length l) + n)) l else take (Z.to_nat n) l.

(** [l.index(x)]. *)
Section IndexOf.
Context {A : Type} `{EqDecision A}.
Fixpoint index_of (x : A) (l : list A) : option nat :=
  match l with
  | [] => None
  | y :: r => if decide (y = x) then Some 0%nat else S <$> index_of x r
  end.

Lemma index_of_Some x l i : index_of x l = Some i → l !! i = Some x.
Proof.
  revert i; induction l as [|y r IH]; intros i; cbn; [done|].
  case_decide; [intros [= <-]; by subst|].
  destruct (index_of x r) as [j|]; cbn; [|done]. intros [= <-]. by apply IH.
Qed.

Lemma index_of_elem x l : x ∈ l → is_Some (index_of x l).
Proof.
  induction 1 as [x l|x y l Hin [j Hj]]; cbn.
  - rewrite decide_True by done. by eexists.
  - case_decide; [by eexists|]. rewrite Hj. by eexists.
Qed.

Lemma index_of_split x l i :
  index_of x l = Some i → l = take i l ++ x :: drop (S i) l.
Proof. intros H%index_of_Some. symmetry. by apply take_drop_middle. Qed.
End IndexOf.

(** ** Prefixes of a sorted list *)
Section SortedPrefix.
Context {A : Type} (f : A → Z).
Let R (x y : A) : Prop := desc f x y = true.
Context (P : A → Prop) `{∀ x, Decision (P x)}.
(** [P] holds for the elements of a large key. *)
Hypothesis P_up : ∀ x y, P x → f x ≤ f y → P y.

Lemma sorted_filter_take l :
  StronglySorted R l → filter P l = take (length (filter P l)) l.
Proof.
  induction 1 as [|x r Hs IH Hx]; [done|]. rewrite filter_cons.
  destruct (decide (P x)) as [Hp|Hp]; cbn [length take]; [by rewrite <- IH|].
  assert (filter P r = []) as ->; [|done].
  destruct (filter P r) as [|y k] eqn:E; [done|]. exfalso.
  assert (Hy : y ∈ filter P r) by (rewrite E; left).
  apply list_elem_of_filter in Hy as [Hy Hin]. apply Hp, (P_up y); [done|].
  eapply Forall_forall in Hx; [|exact Hin]. unfold R, desc in Hx. lia.
Qed.

Lemma sorted_filter_lt l i x :
  StronglySorted R l → l !! i = Some x → P x → (i < length (filter P l))%nat.
Proof.
  intros Hs. revert i. induction Hs as [|y r Hs IH Hy]; intros i Hi Hp; [done|].
  rewrite filter_cons. destruct i as [|i]; cbn in Hi.
  - injection Hi as ->. rewrite decide_True by done. cbn. lia.
  - rewrite decide_True; [cbn; specialize (IH i Hi Hp); lia|].
    apply (P_up x); [done|]. eapply Forall_forall in Hy; [|by eapply list_elem_of_lookup_2].
    unfold R, desc in Hy. lia.
Qed.

Lemma sorted_filter_ge l i x :
  StronglySorted R l → l !! i = Some x → ¬ P x → (length (filter P l) ≤ i)%nat.
Proof.
  intros Hs. revert i. induction Hs as [|y r Hs IH Hy]; intros i Hi Hp; [done|].
  destruct i as [|i]; cbn in Hi.
  - injection Hi as ->. enough (filter P (x :: r) = []) as -> by (cbn; lia).
    rewrite filter_cons, decide_False by done.
    destruct (filter P r) as [|z k] eqn:E; [done|]. exfalso.
    assert (Hz : z ∈ filter P r) by (rewrite E; left).
    apply list_elem_of_filter in Hz as [Hz Hin]. apply Hp, (P_up z); [done|].
    eapply Forall_forall in Hy; [|exact Hin]. unfold R, desc in Hy. lia.
  - rewrite filter_cons. specialize (IH i Hi Hp). case_decide; cbn; lia.
Qed.
End SortedPrefix.

Lemma length_slice_to {A} (n : Z) (l : list A) :
  0 ≤ n → Z.of_nat (length (slice_to n l)) = Z.min n (Z.of_nat (length l)).
Proof. intros Hn. unfold slice_to. case_if; bool_prop; [lia|]. rewrite length_take. lia. Qed.

Lemma slice_to_sublist {A} (n : Z) (l : list A) : slice_to n l `sublist_of` l.
Proof. unfold slice_to. case_if; apply sublist_take. Qed.

(** ** Lists *)
Lemma head_in {A} (l : list A) x : head l = Some x → x ∈ l.
Proof. destruct l; [done|]. intros [= ->]. by left. Qed.
Lemma forallb_in {A} (f : A → bool) l x : forallb f l = true → x ∈ l → f x = true.
Proof. rewrite forallb_forall, list_elem_of_In. auto. Qed.
Lemma not_all_in {A} (f : A → bool) l x : negb (forallb f l) = false → x ∈ l → f x = true.
Proof. intros H%negb_false_iff. by apply forallb_in. Qed.
Section Lists.
Context {A : Type}.

Lemma filter_all (P : A → Prop) `{∀ x, Decision (P x)} l : Forall P l → filter P l = l.
Proof. induction 1 as [|x r Hx Hr IH]; [done|]. by rewrite filter_cons, decide_True, IH. Qed.

Lemma filter_none (P : A → Prop) `{∀ x, Decision (P x)} l :
  (∀ x, x ∈ l → ¬ P x) → filter P l = [].
Proof.
  induction l as [|x r IH]; [done|]. intros H'.
  rewrite filter_cons, decide_False, IH; [done| |].
  - intros y Hy. apply H'. by right.
  - apply H'. by left.
Qed.

Lemma elem_of_concat (ls : list (list A)) x : x ∈ concat ls ↔ ∃ l, l ∈ ls ∧ x ∈ l.
Proof.
  rewrite list_elem_of_In, in_concat. split; intros (l & H1 & H2); exists l.
  - by rewrite !list_elem_of_In.
  - by rewrite <- !list_elem_of_In.
Qed.

Lemma concat_Permutation (ls ks : list (list A)) : ls ≡ₚ ks → concat ls ≡ₚ concat ks.
Proof.
  induction 1 as [|l ls ks _ IH|l k ls|ls ks ms _ IH1 _ IH2]; cbn.
  - done.
  - by rewrite IH.
  - rewrite !app_assoc. by rewrite (Permutation_app_comm l k).
  - by rewrite IH1.
Qed.

Lemma filter_length_split (P Q R : A → Prop) `{∀ x, Decision (P x)}
    `{∀ x, Decision (Q x)} `{∀ x, Decision (R x)} l :
  (∀ x, P x ↔ Q x ∨ R x) → (∀ x, Q x → ¬ R x) →
  length (filter P l) = (length (filter Q l) + length (filter R l))%nat.
Proof.
  intros Hor Hex. induction l as [|x r IH]; [done|].
  rewrite !filter_cons. specialize (Hor x). specialize (Hex x).
  repeat case_decide; cbn [length]; rewrite ?IH; try lia; tauto.
Qed.
End Lists.

Lemma existsb_false {A} (f : A → bool) l : existsb f l = false ↔ ∀ x, x ∈ l → f x = false.
Proof.
  rewrite <- Bool.not_true_iff_false, existsb_exists. split.
  - intros H x Hx. destruct (f x) eqn:E; [|done]. exfalso. apply H. exists x.
    by rewrite <- list_elem_of_In.
  - intros H (x & Hx%list_elem_of_In & E). by rewrite (H x Hx) in E.
Qed.
