(* ===== verification/PyStr.v ===== *)
(** Python's [str] operations that the modelled code uses.  A Rocq [string] holds the
    UTF-8 bytes of the text.  Equality, the code point order and [startswith] agree with
    the byte operations; [len] counts code points.  The character classes ([isdigit],
    [isalpha], [isspace]) and the case maps are those of the ASCII characters: a byte
    above 127 belongs to no class and has no case. *)

From S2P Require Import Prelude.

Definition code (c : ascii) : Z := Z.of_N (N_of_ascii c).
Definition chars : string → list ascii := String.list_ascii_of_string.
Definition of_chars : list ascii → string := String.string_of_list_ascii.
Definition char (z : Z) : ascii := ascii_of_N (Z.to_N z).

Lemma of_chars_chars s : of_chars (chars s) = s.
Proof. apply String.string_of_list_ascii_of_string. Qed.
Lemma chars_of_chars l : chars (of_chars l) = l.
Proof. apply String.list_ascii_of_string_of_list_ascii. Qed.
Lemma chars_inj s t : chars s = chars t → s = t.
Proof. intros H. by rewrite <- (of_chars_chars s), H, of_chars_chars. Qed.
Lemma chars_app s t : chars (s +:+ t) = chars s ++ chars t.
Proof. induction s as [|c s IH]; [done|]. cbn. by rewrite <- IH. Qed.
Lemma of_chars_app l k : of_chars (l ++ k) = of_chars l +:+ of_chars k.
Proof. apply chars_inj. by rewrite chars_app, !chars_of_chars. Qed.

Lemma code_inj a b : code a = code b → a = b.
Proof.
  unfold code. intros H%N2Z.inj.
  by rewrite <- (ascii_N_embedding a), <- (ascii_N_embedding b), H.
Qed.
Lemma code_bound c : 0 ≤ code c < 256.
Proof. unfold code. pose proof (N_ascii_bounded c). lia. Qed.
Lemma code_char z : 0 ≤ z < 256 → code (char z) = z.
Proof. intros H. unfold code, char. rewrite N_ascii_embedding; lia. Qed.

Definition is_digit (c : ascii) : bool := (48 <=? code c) && (code c <=? 57).
Definition is_upper (c : ascii) : bool := (65 <=? code c) && (code c <=? 90).
Definition is_lower (c : ascii) : bool := (97 <=? code c) && (code c <=? 122).
Definition is_alpha (c : ascii) : bool := is_upper c || is_lower c.
Definition is_alnum (c : ascii) : bool := is_alpha c || is_digit c.
Definition is_space (c : ascii) : bool :=
  (code c =? 32) || ((9 <=? code c) && (code c <=? 13)) ||
  ((28 <=? code c) && (code c <=? 31)).
Definition lower_char (c : ascii) : ascii := if is_upper c then char (code c + 32) else c.
Definition upper_char (c : ascii) : ascii := if is_lower c then char (code c - 32) else c.
Definition digit_val (c : ascii) : Z := code c - 48.

(** [len(s)]: a UTF-8 continuation byte (10xxxxxx) starts no code point. *)
Definition py_len (s : string) : Z :=
  Z.of_nat (length (filter (λ c, negb ((128 <=? code c) && (code c <? 192)) = true) (chars s))).

Fixpoint drop_while {A} (p : A → bool) (l : list A) : list A :=
  match l with
  | [] => []
  | x :: r => if p x then drop_while p r else l
  end.
Definition py_lower (s : string) : string := of_chars (lower_char <$> chars s).
Definition py_upper (s : string) : string := of_chars (upper_char <$> chars s).
Definition py_strip (s : string) : string :=
  of_chars (reverse (drop_while is_space (reverse (drop_while is_space (chars s))))).
Definition py_rstrip_char (c : ascii) (s : string) : string :=
  of_chars (reverse (drop_while (λ x, bool_decide (x = c)) (reverse (chars s)))).

(** [s.startswith(p)]. *)
Fixpoint prefixb (p s : list ascii) : bool :=
  match p, s with
  | [], _ => true
  | a :: p', b :: s' => bool_decide (a = b) && prefixb p' s'
  | _ :: _, [] => false
  end.
Definition startswith (s p : string) : bool := prefixb (chars p) (chars s).

Lemma prefixb_spec p s : prefixb p s = true ↔ p `prefix_of` s.
Proof.
  revert s; induction p as [|a p IH]; intros s; cbn.
  - split; [intros _; apply prefix_nil|done].
  - destruct s as [|b s].
    + split; [done|]. by intros ?%prefix_nil_not.
    + rewrite andb_true_iff, bool_decide_eq_true, IH. split.
      * intros [-> H]. by apply prefix_cons.
      * intros H. by apply prefix_cons_inv_1 in H as H1; apply prefix_cons_inv_2 in H.
Qed.

Lemma startswith_spec s p : startswith s p = true ↔ ∃ t, s = p +:+ t.
Proof.
  unfold startswith. rewrite prefixb_spec. split.
  - intros [k Hk]. exists (of_chars k). apply chars_inj.
    by rewrite chars_app, chars_of_chars.
  - intros [t ->]. exists (chars t). apply chars_app.
Qed.

(** [needle in text] for two strings. *)
Fixpoint infixb (p s : list ascii) : bool :=
  prefixb p s || match s with [] => false | _ :: r => infixb p r end.
Definition str_contains (needle text : string) : bool := infixb (chars needle) (chars text).

(** [s.split(sep)] for a one-character separator. *)
Fixpoint split_chars (sep : ascii) (cur : list ascii) (l : list ascii) : list string :=
  match l with
  | [] => [of_chars (reverse cur)]
  | c :: r => if bool_decide (c = sep) then of_chars (reverse cur) :: split_chars sep [] r
              else split_chars sep (c :: cur) r
  end.
Definition py_split (sep : ascii) (s : string) : list string := split_chars sep [] (chars s).

(** [sep.join(parts)]. *)
Fixpoint join (sep : string) (parts : list string) : string :=
  match parts with
  | [] => ""
  | [x] => x
  | x :: r => x +:+ sep +:+ join sep r
  end.

(** The code point order of Python's string comparison. *)
Fixpoint chars_ltb (a b : list ascii) : bool :=
  match a, b with
  | [], [] => false
  | [], _ :: _ => true
  | _ :: _, [] => false
  | x :: a', y :: b' => (code x <? code y) || ((code x =? code y) && chars_ltb a' b')
  end.
Definition str_ltb (s t : string) : bool := chars_ltb (chars s) (chars t).
Definition str_leb (s t : string) : bool := negb (str_ltb t s).

Lemma chars_ltb_irrefl a : chars_ltb a a = false.
Proof. induction a as [|x a IH]; [done|]. cbn. rewrite IH, Z.ltb_irrefl. lia. Qed.
Lemma chars_ltb_trans a b c :
  chars_ltb a b = true → chars_ltb b c = true → chars_ltb a c = true.
Proof.
  revert b c; induction a as [|x a IH]; intros [|y b] [|z c]; try done.
  cbn. intros H1 H2.
  apply orb_true_iff in H1 as [?|[? H1]%andb_true_iff];
  apply orb_true_iff in H2 as [?|[? H2]%andb_true_iff]; try lia.
  rewrite (IH b c) by done. lia.
Qed.
Lemma chars_ltb_total a b : a ≠ b → chars_ltb a b = true ∨ chars_ltb b a = true.
Proof.
  revert b; induction a as [|x a IH]; intros [|y b] Hne; [done|cbn; auto..|]. cbn.
  destruct (Z.lt_trichotomy (code x) (code y)) as [?|[E|?]]; [left; lia| |right; lia].
  rewrite E, Z.ltb_irrefl, Z.eqb_refl. cbn. apply code_inj in E as ->.
  apply IH. congruence.
Qed.

Lemma str_ltb_irrefl s : str_ltb s s = false.
Proof. apply chars_ltb_irrefl. Qed.
Lemma str_ltb_trans s t u : str_ltb s t = true → str_ltb t u = true → str_ltb s u = true.
Proof. apply chars_ltb_trans. Qed.
Lemma str_ltb_total s t : s ≠ t → str_ltb s t = true ∨ str_ltb t s = true.
Proof. intros H. apply chars_ltb_total. intros E. by apply H, chars_inj. Qed.

(** [s[:n]], in code points. *)
Fixpoint take_code_points (n : nat) (l : list ascii) : list ascii :=
  match l with
  | [] => []
  | c :: r =>
      if (128 <=? code c) && (code c <? 192) then c :: take_code_points n r
      else match n with O => [] | S n => c :: take_code_points n r end
  end.
Definition py_take (n : nat) (s : string) : string := of_chars (take_code_points n (chars s)).
