(* ===== verification/PyNum.v ===== *)
(** Python's numbers: [float] as IEEE 754 binary64 (the executable [SpecFloat] of
    Rocq, so no axiom on primitive floats), and [decimal.Decimal] under the default
    context (28 digits, half-even rounding, exponents -999999 to 999999, traps on
    overflow and on an invalid operation).  Nothing in this file models code of the
    repository: it is the part of the language and of its standard library that the
    modelled code computes with. *)

From Stdlib Require Import SpecFloat.
From stdpp Require Import pretty.
From S2P Require Import Prelude PyStr.

(** ** Binary64 *)
Definition float := spec_float.
Definition fprec : Z := 53.
Definition femax : Z := 1024.
Definition fadd : float → float → float := SFadd fprec femax.
Definition fsub : float → float → float := SFsub fprec femax.
Definition fmul : float → float → float := SFmul fprec femax.
Definition fdiv : float → float → float := SFdiv fprec femax.
Definition fopp : float → float := SFopp.
Definition fabs : float → float := SFabs.
Definition fzero : float := S754_zero false.
Definition fone : float := binary_normalize fprec femax 1 0 false.
Definition fltb : float → float → bool := SFltb.
Definition fleb : float → float → bool := SFleb.
Definition feqb : float → float → bool := SFeqb.
Definition fis_finite (f : float) : bool :=
  match f with S754_zero _ | S754_finite _ _ _ => true | _ => false end.
Definition fis_nan (f : float) : bool := match f with S754_nan => true | _ => false end.

(** [float(z)]: round to nearest even; [None] is [OverflowError]. *)
Definition float_of_int (z : Z) : option float :=
  let f := binary_normalize fprec femax z 0 false in
  if fis_finite f then Some f else None.

(** The double nearest to [m * 10^k] with the sign [s], as [float(text)] gives it. *)
Definition float_of_decimal (s : bool) (m : positive) (k : Z) : float :=
  if 0 <=? k then
    binary_normalize fprec femax ((if s then -1 else 1) * Zpos m * 10 ^ k) 0 false
  else
    match 10 ^ (- k) with
    | Zpos d => fdiv (S754_finite s m 0) (S754_finite false d 0)
    | _ => S754_nan
    end.

(** The exact comparison of an [int] with a [float] for [==]. *)
Definition int_eq_float (z : Z) (f : float) : bool :=
  match f with
  | S754_zero _ => z =? 0
  | S754_finite s m e =>
      let v := if s then Zneg m else Zpos m in
      if 0 <=? e then z =? v * 2 ^ e else z * 2 ^ (- e) =? v
  | _ => false
  end.

(** CPython's [sum] over floats, which starts at the int 0: a Neumaier compensated
    sum ([acc] is the running sum, [c] the compensation). *)
Definition fsum_step (st : float * float) (x : float) : float * float :=
  let '(acc, c) := st in
  let t := fadd acc x in
  let c' := if fleb (fabs x) (fabs acc)
            then fadd c (fadd (fsub acc t) x)
            else fadd c (fadd (fsub x t) acc) in
  (t, c').
Definition fsum (xs : list float) : float :=
  match xs with
  | [] => fzero
  | x :: r =>
      let '(acc, c) := foldl fsum_step (fadd fzero x, fzero) r in
      if negb (feqb c fzero) && fis_finite c then fadd acc c else acc
  end.
(** [math.prod(xs, start=1.0)]. *)
Definition fprod (xs : list float) : float := foldl fmul fone xs.

(** ** The shortest decimal that reads back as the float ([repr]) *)

(** [n * 10^q] within the rounding interval of the double; [lo], [hi] and the value
    [v] are scaled by [den]. *)
Definition in_interval (lo hi den : Z) (incl : bool) (n q : Z) : bool :=
  let '(x, d) := if 0 <=? q then (n * 10 ^ q * den, 1) else (n * den, 10 ^ (- q)) in
  if incl then (lo * d <=? x) && (x <=? hi * d) else (lo * d <? x) && (x <? hi * d).

Definition scaled_floor (v den q : Z) : Z :=
  if 0 <=? q then v / (den * 10 ^ q) else (v * 10 ^ (- q)) / den.

Fixpoint shortest (fuel : nat) (v lo hi den : Z) (incl : bool) (q : Z) : Z * Z :=
  let n := scaled_floor v den q in
  let fallback := (n, q) in
  let near_low :=
    (* is n the closer one of n and n+1? compare 2 v with (2 n + 1) 10^q *)
    if 0 <=? q then (2 * v) <=? ((2 * n + 1) * 10 ^ q * den)
    else (2 * v * 10 ^ (- q)) <=? ((2 * n + 1) * den) in
  let ok := in_interval lo hi den incl in
  match fuel with
  | O => fallback
  | S k =>
      if ok n q && (near_low || negb (ok (n + 1) q)) && (0 <? n) then (n, q)
      else if ok (n + 1) q then (n + 1, q)
      else shortest k v lo hi den incl (q - 1)
  end.

Fixpoint strip_zeros (fuel : nat) (n q : Z) : Z * Z :=
  match fuel with
  | O => (n, q)
  | S k => if (n mod 10 =? 0) && negb (n =? 0) then strip_zeros k (n / 10) (q + 1) else (n, q)
  end.

(** The digits [n] and the exponent [q] of the shortest decimal of [m * 2^e]. *)
Definition repr_digits (m : positive) (e : Z) : Z * Z :=
  let s := Z.max 0 (2 - e) in
  let v := Zpos m * 2 ^ (e + s) in
  let hi := (2 * Zpos m + 1) * 2 ^ (e - 1 + s) in
  let lo := if (Zpos m =? 2 ^ 52) && (-1074 <? e)
            then (4 * Zpos m - 1) * 2 ^ (e - 2 + s)
            else (2 * Zpos m - 1) * 2 ^ (e - 1 + s) in
  let e0 := ((Z.log2 (Zpos m) + e) * 30103) / 100000 + 1 in
  let '(n, q) := shortest 20 v lo hi (2 ^ s) (Z.even (Zpos m)) e0 in
  strip_zeros 400 n q.

(** The number of decimal digits of the magnitude, 1 for 0.  A number below [2^(k+1)]
    has at most [k + 1] digits, so the binary logarithm is enough fuel. *)
Fixpoint digits_loop (fuel : nat) (n : Z) : Z :=
  match fuel with
  | O => 1
  | S k => if n <? 10 then 1 else 1 + digits_loop k (n / 10)
  end.
Definition zdigits (n : Z) : Z := digits_loop (Z.to_nat (Z.log2 (Z.abs n)) + 1) (Z.abs n).

Fixpoint zeros (n : nat) : string :=
  match n with O => "" | S k => "0" +:+ zeros k end.

(** [repr(f)]: fixed notation for exponents -4 to 15, else scientific. *)
Definition float_repr (f : float) : string :=
  match f with
  | S754_nan => "nan"
  | S754_infinity s => if s then "-inf" else "inf"
  | S754_zero s => if s then "-0.0" else "0.0"
  | S754_finite s m e =>
      let '(n, q) := repr_digits m e in
      let ds := pretty (Z.to_N n) in
      let len := Z.of_nat (String.length ds) in
      let pt := len + q in
      let body :=
        if (-4 <? pt) && (pt <=? 16) then
          if 0 <=? q then ds +:+ zeros (Z.to_nat q) +:+ ".0"
          else if pt <=? 0 then "0." +:+ zeros (Z.to_nat (- pt)) +:+ ds
          else String.substring 0 (Z.to_nat pt) ds +:+ "." +:+
               String.substring (Z.to_nat pt) (Z.to_nat (- q)) ds
        else
          let mant := if len =? 1 then ds
                      else String.substring 0 1 ds +:+ "." +:+
                           String.substring 1 (String.length ds - 1) ds in
          let x := pt - 1 in
          let ax := pretty (Z.abs_N x) in
          mant +:+ "e" +:+ (if x <? 0 then "-" else "+") +:+
          (if Z.abs x <? 10 then "0" +:+ ax else ax) in
      if s then "-" +:+ body else body
  end.

(** ** Exceptions of the language and its standard library that the modelled code
    can let escape *)
Inductive pyexc :=
| TypeError
| ValueError
| OverflowError
| KeyError
| IndexError
| InvalidOperation
| DecimalOverflow.
#[export] Instance pyexc_eq_dec : EqDecision pyexc.
Proof. solve_decision. Defined.

(** ** [decimal.Decimal]

    [DFin c x] is [c * 10^x]; the sign of a zero is not kept, because no modelled code
    can observe it. *)
Inductive decimal :=
| DFin (coef exp : Z)
| DInf (neg : bool)
| DNaN (signaling : bool).
#[export] Instance decimal_eq_dec : EqDecision decimal.
Proof. solve_decision. Defined.

Definition dec_of_Z (z : Z) : decimal := DFin z 0.
Definition dec_is_finite (d : decimal) : bool := match d with DFin _ _ => true | _ => false end.

Definition dec_prec : Z := 28.
Definition dec_emax : Z := 999999.
Definition dec_etiny : Z := -1000026.

(** Half-even division by [10^k], on the magnitude. *)
Definition round_half_even (c k : Z) : Z :=
  let a := Z.abs c in
  let p := 10 ^ k in
  let q := a / p in
  let r := a mod p in
  let q' := if (2 * r <? p) || ((2 * r =? p) && Z.even q) then q else q + 1 in
  Z.sgn c * q'.

(** Round an exact result to the context. *)
Definition dec_finalize (c x : Z) : res pyexc decimal :=
  if c =? 0 then Ok (DFin 0 (Z.max dec_etiny (Z.min dec_emax x)))
  else
    let x' := Z.max x (Z.max dec_etiny (x + zdigits c - dec_prec)) in
    let c' := if x <? x' then round_half_even c (x' - x) else c in
    let '(c'', x'') := if dec_prec <? zdigits c' then (c' / 10, x' + 1) else (c', x') in
    if negb (c'' =? 0) && (dec_emax <? x'' + zdigits c'' - 1) then Err DecimalOverflow
    else Ok (DFin c'' x'').

Definition dec_align (c x m : Z) : Z := c * 10 ^ (x - m).

Definition dec_add (a b : decimal) : res pyexc decimal :=
  match a, b with
  | DNaN true, _ | _, DNaN true => Err InvalidOperation
  | DNaN false, _ | _, DNaN false => Ok (DNaN false)
  | DInf s, DInf t => if Bool.eqb s t then Ok a else Err InvalidOperation
  | DInf _, _ => Ok a
  | _, DInf _ => Ok b
  | DFin c x, DFin d y =>
      let m := Z.min x y in dec_finalize (dec_align c x m + dec_align d y m) m
  end.

Definition dec_mul (a b : decimal) : res pyexc decimal :=
  match a, b with
  | DNaN true, _ | _, DNaN true => Err InvalidOperation
  | DNaN false, _ | _, DNaN false => Ok (DNaN false)
  | DInf s, DInf t => Ok (DInf (xorb s t))
  | DInf s, DFin c _ | DFin c _, DInf s =>
      if c =? 0 then Err InvalidOperation else Ok (DInf (xorb s (c <? 0)))
  | DFin c x, DFin d y => dec_finalize (c * d) (x + y)
  end.

Lemma digits_loop_le fuel n k : 0 ≤ n < 10 ^ k → 1 ≤ k → 1 ≤ digits_loop fuel n ≤ k.
Proof.
  revert n k; induction fuel as [|f IH]; intros n k Hn Hk; cbn [digits_loop]; [lia|].
  case_if; bool_prop; [lia|].
  assert (k ≠ 1) by (intros ->; lia).
  assert (1 ≤ digits_loop f (n / 10) ≤ k - 1); [|lia].
  apply IH; [|lia]. split; [by apply Z.div_pos; lia|].
  apply Z.div_lt_upper_bound; [lia|].
  replace (10 * 10 ^ (k - 1)) with (10 ^ k); [lia|].
  rewrite <- Z.pow_succ_r by lia. f_equal. lia.
Qed.

Lemma zdigits_le n k : Z.abs n < 10 ^ k → 1 ≤ k → 1 ≤ zdigits n ≤ k.
Proof. intros. apply digits_loop_le; lia. Qed.

(** A result of at most 28 digits with an exponent far from the limits is exact. *)
Lemma dec_finalize_exact c x :
  Z.abs c < 10 ^ dec_prec → -1000000 ≤ x ≤ 900000 → dec_finalize c x = Ok (DFin c x).
Proof.
  unfold dec_finalize, dec_prec, dec_etiny, dec_emax. intros Hc Hx.
  pose proof (zdigits_le c 28 Hc ltac:(lia)) as Hd.
  case_if; bool_prop.
  - subst. do 2 f_equal. lia.
  - replace (Z.max x (Z.max (-1000026) (x + zdigits c - 28))) with x by lia.
    rewrite Z.ltb_irrefl. replace (28 <? zdigits c) with false by lia.
    by replace (negb (c =? 0) && (999999 <? x + zdigits c - 1)) with false by lia.
Qed.

(** The exact order of two decimals without a NaN. *)
Definition dec_compare (a b : decimal) : comparison :=
  match a, b with
  | DFin c x, DFin d y => let m := Z.min x y in dec_align c x m ?= dec_align d y m
  | DInf s, DInf t => if Bool.eqb s t then Eq else if s then Lt else Gt
  | DInf s, _ => if s then Lt else Gt
  | _, DInf s => if s then Gt else Lt
  | _, _ => Eq
  end.
Definition dec_has_nan (a b : decimal) : bool :=
  match a, b with DNaN _, _ | _, DNaN _ => true | _, _ => false end.
Definition dec_has_snan (a b : decimal) : bool :=
  match a, b with DNaN true, _ | _, DNaN true => true | _, _ => false end.

(** [a == b] raises for a signaling NaN only; the order operators raise for any NaN. *)
Definition dec_eq (a b : decimal) : res pyexc bool :=
  if dec_has_snan a b then Err InvalidOperation
  else if dec_has_nan a b then Ok false
  else Ok (match dec_compare a b with Eq => true | _ => false end).
Definition dec_ord (p : comparison → bool) (a b : decimal) : res pyexc bool :=
  if dec_has_nan a b then Err InvalidOperation else Ok (p (dec_compare a b)).
Definition is_lt (c : comparison) : bool := match c with Lt => true | _ => false end.
Definition is_le (c : comparison) : bool := match c with Gt => false | _ => true end.
Definition is_gt (c : comparison) : bool := match c with Gt => true | _ => false end.
Definition is_ge (c : comparison) : bool := match c with Lt => false | _ => true end.

(** [Decimal(text)]: surrounding whitespace and every underscore go away. *)
Fixpoint digits_prefix (l : list ascii) (acc : Z) (n : nat) : Z * nat * list ascii :=
  match l with
  | c :: r => if is_digit c then digits_prefix r (acc * 10 + digit_val c) (S n) else (acc, n, l)
  | [] => (acc, n, [])
  end.

Definition dec_exp_min : Z := -1999999999999999997.
Definition dec_exp_max : Z := 999999999999999999.

(** [None] is [decimal.InvalidOperation], the only exception of the constructor. *)
Definition decimal_of_str (s : string) : option decimal :=
  let body := filter (λ c, negb (bool_decide (c = "_"%char)) = true) (chars (py_strip s)) in
  let '(neg, rest) := match body with
                      | "-"%char :: r => (true, r)
                      | "+"%char :: r => (false, r)
                      | _ => (false, body)
                      end in
  let low := of_chars (lower_char <$> rest) in
  if bool_decide (low = "inf") || bool_decide (low = "infinity") then Some (DInf neg)
  else if startswith low "nan" && forallb is_digit (drop 3 rest) then Some (DNaN false)
  else if startswith low "snan" && forallb is_digit (drop 4 rest) then Some (DNaN true)
  else
    let '(ip, ni, r1) := digits_prefix rest 0 0 in
    let '(m, nf, r2) := match r1 with
                        | "."%char :: r => digits_prefix r ip 0
                        | _ => (ip, 0%nat, r1)
                        end in
    let mk (e : Z) : option decimal :=
      let c := if neg then - m else m in
      let x := e - Z.of_nat nf in
      if (x <? dec_exp_min) || (dec_exp_max <? x + zdigits m - 1) then None
      else Some (DFin c x) in
    if (ni + nf =? 0)%nat then None
    else match r2 with
         | [] => mk 0
         | e :: r =>
             if bool_decide (lower_char e = "e"%char) then
               let '(eneg, r') := match r with
                                  | "-"%char :: k => (true, k)
                                  | "+"%char :: k => (false, k)
                                  | _ => (false, r)
                                  end in
               let '(ex, ne, r3) := digits_prefix r' 0 0 in
               match ne, r3 with
               | S _, [] => mk (if eneg then - ex else ex)
               | _, _ => None
               end
             else None
         end.

(** [str(d)]: the scientific string of the General Decimal Arithmetic. *)
Definition decimal_str (d : decimal) : string :=
  match d with
  | DNaN sg => if sg then "sNaN" else "NaN"
  | DInf s => if s then "-Infinity" else "Infinity"
  | DFin c x =>
      let ds := pretty (Z.abs_N c) in
      let len := Z.of_nat (String.length ds) in
      let adj := x + len - 1 in
      let body :=
        if (x <=? 0) && (-6 <=? adj) then
          if x =? 0 then ds
          else if 0 <=? adj then
            String.substring 0 (Z.to_nat (len + x)) ds +:+ "." +:+
            String.substring (Z.to_nat (len + x)) (Z.to_nat (- x)) ds
          else "0." +:+ zeros (Z.to_nat (- (len + x))) +:+ ds
        else
          (if len =? 1 then ds
           else String.substring 0 1 ds +:+ "." +:+ String.substring 1 (String.length ds - 1) ds)
          +:+ "E" +:+ (if adj <? 0 then "-" else "+") +:+ pretty (Z.abs_N adj) in
      if c <? 0 then "-" +:+ body else body
  end.

(** [Decimal(str(f))]: the decimal of the shortest representation, with the exponent of
    the fixed or the scientific notation that [repr] chooses. *)
Definition decimal_of_float (f : float) : decimal :=
  match f with
  | S754_nan => DNaN false
  | S754_infinity s => DInf s
  | S754_zero _ => DFin 0 (-1)
  | S754_finite s m e =>
      let '(n, q) := repr_digits m e in
      let pt := zdigits n + q in
      let c := if s then - n else n in
      if (-4 <? pt) && (pt <=? 16) && (0 <=? q) then DFin (c * 10 ^ (q + 1)) (-1) else DFin c q
  end.

Example decimal_of_float_repr :
  forallb (λ f, bool_decide (decimal_of_str (float_repr f) = Some (decimal_of_float f)))
    [float_of_decimal false 125 (-1); float_of_decimal true 1 22; float_of_decimal false 5 (-324);
     float_of_decimal false 100 0; float_of_decimal false 17976931348623157 292; S754_zero true;
     float_of_decimal false 3333333333333333 (-17); S754_infinity true; S754_nan] = true.
Proof. vm_compute. reflexivity. Qed.

Lemma shortest_nonneg fuel v lo hi den incl q :
  0 ≤ v → 0 < den → 0 ≤ (shortest fuel v lo hi den incl q).1.
Proof.
  intros Hv Hd.
  assert (Hf : ∀ q, 0 ≤ scaled_floor v den q).
  { intros q'. unfold scaled_floor. case_if; apply Z.div_pos; try lia; nia. }
  revert q. induction fuel as [|k IH]; intros q; cbn; [apply Hf|].
  case_if; [apply Hf|]. case_if; [cbn; specialize (Hf q); lia|]. apply IH.
Qed.

Lemma strip_zeros_nonneg fuel n q : 0 ≤ n → 0 ≤ (strip_zeros fuel n q).1.
Proof.
  revert n q; induction fuel as [|k IH]; intros n q Hn; cbn; [done|].
  case_if; [|done]. apply IH. by apply Z.div_pos.
Qed.

Lemma repr_digits_nonneg m e : 0 ≤ (repr_digits m e).1.
Proof.
  unfold repr_digits.
  match goal with |- context [shortest ?a ?b ?c ?d ?e ?f ?g] =>
    pose proof (shortest_nonneg a b c d e f g) as H; destruct (shortest a b c d e f g) as [n q] end.
  apply strip_zeros_nonneg, H; [|lia]. apply Z.mul_nonneg_nonneg; lia.
Qed.

(** A float that is at least 0 gives a decimal that is at least 0. *)
Lemma decimal_of_float_nonneg f :
  fleb fzero f = true →
  match decimal_of_float f with DFin c _ => 0 ≤ c | DInf s => s = false | DNaN _ => False end.
Proof.
  destruct f as [s|[]| |[] m e]; cbn; try done. intros _.
  pose proof (repr_digits_nonneg m e) as H. destruct (repr_digits m e) as [n q]; cbn in *.
  case_if; [|done]. apply Z.mul_nonneg_nonneg; lia.
Qed.
