(* ===== verification/PyValue.v ===== *)
(** The dynamic values of the program: what [json.loads] gives, plus the [Decimal] and
    date values the ORM reads from a column.  A dict keeps the insertion order, as
    Python's does.  With the values come truthiness, [==], [str] and [repr]. *)

From Stdlib Require Import SpecFloat.
From stdpp Require Import pretty.
From S2P Require Import Prelude PyStr PyNum.

(** ** Dicts with string keys, in insertion order *)
Section Dict.
Context {V : Type}.
Implicit Types (d : list (string * V)).

Fixpoint dict_get (k : string) d : option V :=
  match d with
  | [] => None
  | (k', v) :: r => if decide (k = k') then Some v else dict_get k r
  end.
Definition dict_mem (k : string) d : bool :=
  match dict_get k d with Some _ => true | None => false end.
Fixpoint dict_set (k : string) (v : V) d : list (string * V) :=
  match d with
  | [] => [(k, v)]
  | (k', v') :: r => if decide (k = k') then (k', v) :: r else (k', v') :: dict_set k v r
  end.
(** [{**a, **b}]. *)
Definition dict_merge (a b : list (string * V)) : list (string * V) :=
  foldl (λ acc kv, dict_set kv.1 kv.2 acc) a b.
Definition dict_of_pairs (l : list (string * V)) : list (string * V) := dict_merge [] l.

Lemma dict_get_set k k' v d :
  dict_get k (dict_set k' v d) = if decide (k = k') then Some v else dict_get k d.
Proof.
  induction d as [|[k0 v0] r IH]; cbn; [done|].
  destruct (decide (k' = k0)) as [->|]; cbn; repeat case_decide; congruence.
Qed.

Lemma dict_get_merge k a b :
  NoDup b.*1 →
  dict_get k (dict_merge a b) =
    match dict_get k b with Some v => Some v | None => dict_get k a end.
Proof.
  unfold dict_merge. revert a. induction b as [|[k0 v0] r IH]; intros a Hnd; [done|].
  cbn in *. apply NoDup_cons in Hnd as [Hk Hnd].
  rewrite IH by done. rewrite dict_get_set. case_decide; subst; [|done].
  destruct (dict_get k0 r) eqn:E; [|done]. exfalso. apply Hk. clear -E.
  induction r as [|[k1 v1] r IH]; cbn in *; [done|].
  case_decide; subst; [by left|right; auto].
Qed.

Lemma dict_get_Some_elem k v d : dict_get k d = Some v → (k, v) ∈ d.
Proof.
  induction d as [|[k0 v0] r IH]; cbn; [done|].
  case_decide; [intros [= ->]; subst; left|intros; right; auto].
Qed.

Lemma dict_get_None d k : dict_get k d = None ↔ k ∉ d.*1.
Proof.
  induction d as [|[k0 v0] r IH]; cbn.
  - split; [intros _; apply not_elem_of_nil|done].
  - rewrite not_elem_of_cons. case_decide; naive_solver.
Qed.
Lemma dict_get_app k a b :
  dict_get k (a ++ b) = match dict_get k a with Some v => Some v | None => dict_get k b end.
Proof. induction a as [|[k' v] a IH]; [done|]. cbn. by case_decide. Qed.
End Dict.

(** ** Values *)
Record pydate := Date { dyear : Z; dmonth : Z; dday : Z }.
#[export] Instance pydate_eq_dec : EqDecision pydate.
Proof. solve_decision. Defined.

Inductive pyval :=
| PNone
| PBool (b : bool)
| PInt (z : Z)
| PFloat (f : float)
| PStr (s : string)
| PList (l : list pyval)
| PDict (d : list (string * pyval))
| PDec (d : decimal)
| PDate (d : pydate)
| PDateTime (d : pydate) (second_of_day : Z).

(** The induction principle that reaches into lists and dicts. *)
Section PyvalInd.
Variable P : pyval → Prop.
Hypothesis Hlist : ∀ l, Forall P l → P (PList l).
Hypothesis Hdict : ∀ d, Forall (λ kv, P kv.2) d → P (PDict d).
Hypothesis Hatom : ∀ v, (∀ l, v ≠ PList l) → (∀ d, v ≠ PDict d) → P v.
Fixpoint pyval_ind' (v : pyval) : P v :=
  match v as v0 return P v0 with
  | PList l => Hlist l ((fix go l := match l return Forall P l with
                         | [] => @List.Forall_nil _ P
                         | x :: r => @List.Forall_cons _ P x r (pyval_ind' x) (go r)
                         end) l)
  | PDict d => Hdict d ((fix go d := match d return Forall (λ kv, P kv.2) d with
                         | [] => @List.Forall_nil _ (λ kv, P kv.2)
                         | kv :: r => @List.Forall_cons _ (λ kv, P kv.2) kv r (pyval_ind' kv.2) (go r)
                         end) d)
  | PNone => Hatom PNone ltac:(done) ltac:(done)
  | PBool b => Hatom (PBool b) ltac:(done) ltac:(done)
  | PInt z => Hatom (PInt z) ltac:(done) ltac:(done)
  | PFloat f => Hatom (PFloat f) ltac:(done) ltac:(done)
  | PStr s => Hatom (PStr s) ltac:(done) ltac:(done)
  | PDec d => Hatom (PDec d) ltac:(done) ltac:(done)
  | PDate d => Hatom (PDate d) ltac:(done) ltac:(done)
  | PDateTime d n => Hatom (PDateTime d n) ltac:(done) ltac:(done)
  end.
End PyvalInd.

Definition is_dict (v : pyval) : bool := match v with PDict _ => true | _ => false end.
Definition is_list (v : pyval) : bool := match v with PList _ => true | _ => false end.
Definition is_str (v : pyval) : bool := match v with PStr _ => true | _ => false end.
Definition is_bool (v : pyval) : bool := match v with PBool _ => true | _ => false end.

(** [bool(v)]. *)
Definition truthy (v : pyval) : bool :=
  match v with
  | PNone => false
  | PBool b => b
  | PInt z => negb (z =? 0)
  | PFloat f => match f with S754_zero _ => false | _ => true end
  | PStr s => negb (bool_decide (s = ""))
  | PList l => match l with [] => false | _ => true end
  | PDict d => match d with [] => false | _ => true end
  | PDec d => match d with DFin c _ => negb (c =? 0) | _ => true end
  | PDate _ | PDateTime _ _ => true
  end.

(** *** [==] *)

(** A number as an exact fraction, for the comparisons across numeric types. *)
Inductive xnum := XQ (num den : Z) | XInf (neg : bool) | XNaN.
Definition scale_frac (v base e : Z) : xnum :=
  if 0 <=? e then XQ (v * base ^ e) 1 else XQ v (base ^ (- e)).
Definition num_of (v : pyval) : option xnum :=
  match v with
  | PBool b => Some (XQ (if b then 1 else 0) 1)
  | PInt z => Some (XQ z 1)
  | PFloat (S754_zero _) => Some (XQ 0 1)
  | PFloat (S754_finite s m e) => Some (scale_frac (if s then Zneg m else Zpos m) 2 e)
  | PFloat (S754_infinity s) => Some (XInf s)
  | PFloat S754_nan => Some XNaN
  | PDec (DFin c x) => Some (scale_frac c 10 x)
  | PDec (DInf s) => Some (XInf s)
  | PDec (DNaN _) => Some XNaN
  | _ => None
  end.
Definition xnum_eqb (a b : xnum) : bool :=
  match a, b with
  | XQ n d, XQ n' d' => n * d' =? n' * d
  | XInf s, XInf t => Bool.eqb s t
  | _, _ => false
  end.

(** A NaN differs from every value (the identity shortcut of the containers for one
    and the same NaN object is not modelled). *)
Fixpoint py_eqb (a b : pyval) {struct a} : bool :=
  match a, b with
  | PNone, PNone => true
  | PStr s, PStr t => bool_decide (s = t)
  | PList l, PList k =>
      (fix go l k := match l, k with
                     | [], [] => true
                     | x :: l', y :: k' => py_eqb x y && go l' k'
                     | _, _ => false
                     end) l k
  | PDict d, PDict e =>
      (length d =? length e)%nat &&
      (fix go d := match d with
                   | [] => true
                   | (key, v) :: r =>
                       match dict_get key e with Some w => py_eqb v w | None => false end && go r
                   end) d
  | PDate d, PDate e => bool_decide (d = e)
  | PDateTime d s, PDateTime e t => bool_decide (d = e) && (s =? t)
  | _, _ => match num_of a, num_of b with
            | Some x, Some y => xnum_eqb x y
            | _, _ => false
            end
  end.

(** *** [str] and [repr] *)
Definition hexdigit (z : Z) : string :=
  String.substring (Z.to_nat z) 1 "0123456789abcdef".
Definition hex2 (z : Z) : string := hexdigit (z / 16) +:+ hexdigit (z mod 16).
Definition squote : ascii := char 39.
Definition dquote : ascii := char 34.
Definition backslash : ascii := char 92.
Definition char_str (c : ascii) : string := of_chars [c].

Definition repr_char (q c : ascii) : string :=
  let z := code c in
  if bool_decide (c = q) || bool_decide (c = backslash) then char_str backslash +:+ char_str c
  else if z =? 10 then char_str backslash +:+ "n"
  else if z =? 13 then char_str backslash +:+ "r"
  else if z =? 9 then char_str backslash +:+ "t"
  else if (z <? 32) || (z =? 127) then char_str backslash +:+ "x" +:+ hex2 z
  else char_str c.
Definition str_repr (s : string) : string :=
  let cs := chars s in
  let q := if bool_decide (squote ∈ cs) && negb (bool_decide (dquote ∈ cs)) then dquote else squote in
  char_str q +:+ foldr (λ c acc, repr_char q c +:+ acc) "" cs +:+ char_str q.

Definition pad (n : nat) (s : string) : string := zeros (n - String.length s) +:+ s.
Definition int_str (z : Z) : string := pretty z.
Definition date_iso (d : pydate) : string :=
  pad 4 (int_str (dyear d)) +:+ "-" +:+ pad 2 (int_str (dmonth d)) +:+ "-" +:+ pad 2 (int_str (dday d)).
Definition time_iso (s : Z) : string :=
  pad 2 (int_str (s / 3600)) +:+ ":" +:+ pad 2 (int_str ((s / 60) mod 60)) +:+ ":" +:+
  pad 2 (int_str (s mod 60)).

Fixpoint py_repr (v : pyval) : string :=
  match v with
  | PNone => "None"
  | PBool b => if b then "True" else "False"
  | PInt z => int_str z
  | PFloat f => float_repr f
  | PStr s => str_repr s
  | PList l =>
      "[" +:+ join ", " ((fix go l := match l with [] => [] | x :: r => py_repr x :: go r end) l) +:+ "]"
  | PDict d =>
      "{" +:+ join ", " ((fix go d := match d with
                                     | [] => []
                                     | (k, x) :: r => (str_repr k +:+ ": " +:+ py_repr x) :: go r
                                     end) d) +:+ "}"
  | PDec d => "Decimal('" +:+ decimal_str d +:+ "')"
  | PDate d => "datetime.date(" +:+ int_str (dyear d) +:+ ", " +:+ int_str (dmonth d) +:+ ", " +:+
               int_str (dday d) +:+ ")"
  | PDateTime d s => "datetime.datetime(" +:+ int_str (dyear d) +:+ ", " +:+ int_str (dmonth d) +:+
                     ", " +:+ int_str (dday d) +:+ ", " +:+ int_str (s / 3600) +:+ ", " +:+
                     int_str ((s / 60) mod 60) +:+
                     (if s mod 60 =? 0 then "" else ", " +:+ int_str (s mod 60)) +:+ ")"
  end.
Definition py_str (v : pyval) : string :=
  match v with
  | PStr s => s
  | PDec d => decimal_str d
  | PDate d => date_iso d
  | PDateTime d s => date_iso d +:+ " " +:+ time_iso s
  | _ => py_repr v
  end.
