(* ===== verification/PyDate.v ===== *)
(** Python's [datetime.date]: the calendar, the order, the step of one day and
    [date.fromisoformat] (the calendar and the ISO week forms, with the bytes after a form
    without separators ignored, as CPython does). *)

From S2P Require Import Prelude PyStr PyValue.

Definition is_leap (y : Z) : bool := (y mod 4 =? 0) && (negb (y mod 100 =? 0) || (y mod 400 =? 0)).
Definition days_in_month (y m : Z) : Z :=
  if m =? 2 then (if is_leap y then 29 else 28)
  else if (m =? 4) || (m =? 6) || (m =? 9) || (m =? 11) then 30 else 31.

(** [date(y, m, d)]: out of range is a [ValueError], [None] here. *)
Definition mk_date (y m d : Z) : option pydate :=
  if (1 <=? y) && (y <=? 9999) && (1 <=? m) && (m <=? 12) && (1 <=? d) && (d <=? days_in_month y m)
  then Some (Date y m d) else None.
Definition date_ok (d : pydate) : Prop :=
  1 ≤ dyear d ≤ 9999 ∧ 1 ≤ dmonth d ≤ 12 ∧ 1 ≤ dday d ≤ days_in_month (dyear d) (dmonth d).

Definition date_compare (a b : pydate) : comparison :=
  match dyear a ?= dyear b with
  | Eq => match dmonth a ?= dmonth b with Eq => dday a ?= dday b | c => c end
  | c => c
  end.
Definition date_ltb (a b : pydate) : bool := match date_compare a b with Lt => true | _ => false end.
Definition date_leb (a b : pydate) : bool := match date_compare a b with Gt => false | _ => true end.

(** [d - timedelta(days=1)]; below the first date it is an [OverflowError]. *)
Definition prev_day (d : pydate) : option pydate :=
  if 1 <? dday d then Some (Date (dyear d) (dmonth d) (dday d - 1))
  else if 1 <? dmonth d
  then Some (Date (dyear d) (dmonth d - 1) (days_in_month (dyear d) (dmonth d - 1)))
  else if 1 <? dyear d then Some (Date (dyear d - 1) 12 31) else None.
Definition next_day (d : pydate) : option pydate :=
  if dday d <? days_in_month (dyear d) (dmonth d)
  then Some (Date (dyear d) (dmonth d) (dday d + 1))
  else if dmonth d <? 12 then Some (Date (dyear d) (dmonth d + 1) 1)
  else if dyear d <? 9999 then Some (Date (dyear d + 1) 1 1) else None.

(** ** Ordinals *)
Definition days_before_year (y : Z) : Z :=
  (y - 1) * 365 + (y - 1) / 4 - (y - 1) / 100 + (y - 1) / 400.
Definition cumulative_days (m : Z) : Z :=
  nth (Z.to_nat m) [0; 0; 31; 59; 90; 120; 151; 181; 212; 243; 273; 304; 334] 0.
Definition days_before_month (y m : Z) : Z :=
  cumulative_days m + (if (2 <? m) && is_leap y then 1 else 0).
Definition toordinal (d : pydate) : Z :=
  days_before_year (dyear d) + days_before_month (dyear d) (dmonth d) + dday d.
Definition weekday (d : pydate) : Z := (toordinal d + 6) mod 7.

(** [date.fromordinal]; the year can leave the range, the caller checks it. *)
Definition ord_to_ymd (ordinal : Z) : Z * Z * Z :=
  let n := ordinal - 1 in
  let n400 := n / 146097 in let n := n mod 146097 in
  let n100 := n / 36524 in let n := n mod 36524 in
  let n4 := n / 1461 in let n := n mod 1461 in
  let n1 := n / 365 in let n := n mod 365 in
  let year := n400 * 400 + 1 + n100 * 100 + n4 * 4 + n1 in
  if (n1 =? 4) || (n100 =? 4) then (year - 1, 12, 31)
  else
    let month := Z.shiftr (n + 50) 5 in
    if n <? days_before_month year month
    then (year, month - 1, n - days_before_month year (month - 1) + 1)
    else (year, month, n - days_before_month year month + 1).

(** ** ISO weeks *)
Definition week1_monday (y : Z) : Z :=
  let first_day := toordinal (Date y 1 1) in
  let first_weekday := (first_day + 6) mod 7 in
  let monday := first_day - first_weekday in
  if 3 <? first_weekday then monday + 7 else monday.
Definition iso_to_date (y week day : Z) : option pydate :=
  if negb ((1 <=? y) && (y <=? 9999)) then None
  else
    let long_year := let w := weekday (Date y 1 1) in (w =? 3) || ((w =? 2) && is_leap y) in
    if negb ((1 <=? week) && ((week <? 53) || ((week =? 53) && long_year))) then None
    else if negb ((1 <=? day) && (day <=? 7)) then None
    else
      match ord_to_ymd (week1_monday y + (week - 1) * 7 + (day - 1)) with
      | (y', m, d) => mk_date y' m d
      end.

(** ** [date.fromisoformat] *)
Fixpoint take_digits (n : nat) (acc : Z) (l : list ascii) : option (Z * list ascii) :=
  match n with
  | O => Some (acc, l)
  | S n => match l with
           | c :: r => if is_digit c then take_digits n (10 * acc + digit_val c) r else None
           | [] => None
           end
  end.
Definition take_char (c : ascii) (l : list ascii) : option (list ascii) :=
  match l with x :: r => if decide (x = c) then Some r else None | [] => None end.

Definition fromisoformat (s : string) : option pydate :=
  let l := chars s in
  if negb (existsb (Nat.eqb (length l)) [7; 8; 10]%nat) then None
  else
    '(y, l) ← take_digits 4 0 l;
    let '(sep, l) := match take_char "-" l with Some r => (true, r) | None => (false, l) end in
    match take_char "W" l with
    | Some l =>
        '(week, l) ← take_digits 2 0 l;
        match l with
        | [] => iso_to_date y week 1
        | _ =>
            l ← (if sep : bool then take_char "-" l else Some l);
            '(day, _) ← take_digits 1 0 l;
            iso_to_date y week day
        end
    | None =>
        '(m, l) ← take_digits 2 0 l;
        l ← (if sep : bool then take_char "-" l else Some l);
        '(d, _) ← take_digits 2 0 l;
        mk_date y m d
    end.

(** ** The order and the step of one day *)
Lemma mk_date_ok y m d r : mk_date y m d = Some r → r = Date y m d ∧ date_ok r.
Proof. unfold mk_date, date_ok. case_if; [|done]. intros [= <-]. bool_prop. split; [done|cbn; lia]. Qed.

Lemma date_ltb_spec a b :
  date_ltb a b = true ↔
  dyear a < dyear b ∨ (dyear a = dyear b ∧
    (dmonth a < dmonth b ∨ (dmonth a = dmonth b ∧ dday a < dday b))).
Proof.
  unfold date_ltb, date_compare.
  destruct (Z.compare_spec (dyear a) (dyear b)); try (split; [done|lia]); try (split; [lia|done]).
  destruct (Z.compare_spec (dmonth a) (dmonth b)); try (split; [done|lia]); try (split; [lia|done]).
  destruct (Z.compare_spec (dday a) (dday b)); (split; [done || lia|done || lia]).
Qed.
Lemma date_leb_spec a b : date_leb a b = negb (date_ltb b a).
Proof.
  unfold date_leb, date_ltb, date_compare.
  rewrite (Z.compare_antisym (dyear a)), (Z.compare_antisym (dmonth a)), (Z.compare_antisym (dday a)).
  destruct (dyear a ?= dyear b), (dmonth a ?= dmonth b), (dday a ?= dday b); reflexivity.
Qed.

Lemma days_in_month_bounds y m : 28 ≤ days_in_month y m ≤ 31.
Proof. unfold days_in_month. repeat case_if; lia. Qed.

Lemma prev_next d e :
  date_ok d → prev_day d = Some e → date_ok e ∧ next_day e = Some d ∧ date_ltb e d = true.
Proof.
  destruct d as [y m d]. unfold date_ok, prev_day, next_day. cbn [dyear dmonth dday].
  intros (Hy & Hm & Hd).
  pose proof (days_in_month_bounds y (m - 1)). pose proof (days_in_month_bounds y m).
  rewrite date_ltb_spec.
  destruct (1 <? d) eqn:E1; [|destruct (1 <? m) eqn:E2; [|destruct (1 <? y) eqn:E3; [|done]]];
    intros [= <-]; cbn [dyear dmonth dday]; bool_prop.
  - split; [lia|]. rewrite (proj2 (Z.ltb_lt _ _)) by lia. split; [f_equal; f_equal; lia|lia].
  - split; [lia|]. rewrite Z.ltb_irrefl, (proj2 (Z.ltb_lt _ _)) by lia.
    split; [f_equal; f_equal; lia|lia].
  - change (days_in_month (y - 1) 12) with 31. split; [lia|].
    rewrite !Z.ltb_irrefl, (proj2 (Z.ltb_lt _ _)) by lia. split; [f_equal; f_equal; lia|lia].
Qed.
