(* ===== verification/JsonText.v ===== *)
(** JSON text: [json.loads], and [json.dumps] with [ensure_ascii] and compact separators
    for the two shapes the ballots store, a list of strings and an object of strings.
    The round trips hold for every ASCII string.  A nesting that exceeds the
    interpreter's recursion limit is not modelled. *)

From Stdlib Require Import SpecFloat.
From S2P Require Import Prelude PyStr PyNum PyValue.

(** ** Strings *)
Definition is_ws (c : ascii) : bool :=
  (code c =? 32) || (code c =? 9) || (code c =? 10) || (code c =? 13).
Definition skip_ws : list ascii → list ascii := drop_while is_ws.

Definition hex_val (c : ascii) : option Z :=
  let z := code c in
  if (48 <=? z) && (z <=? 57) then Some (z - 48)
  else if (97 <=? z) && (z <=? 102) then Some (z - 87)
  else if (65 <=? z) && (z <=? 70) then Some (z - 55)
  else None.
Definition hex4 (a b c d : ascii) : option Z :=
  x ← hex_val a; y ← hex_val b; z ← hex_val c; w ← hex_val d;
  mret (4096 * x + 256 * y + 16 * z + w).

(** The UTF-8 bytes of a code point. *)
Definition utf8 (z : Z) : list ascii :=
  if z <? 128 then [char z]
  else if z <? 2048 then [char (192 + z / 64); char (128 + z mod 64)]
  else if z <? 65536 then [char (224 + z / 4096); char (128 + (z / 64) mod 64); char (128 + z mod 64)]
  else [char (240 + z / 262144); char (128 + (z / 4096) mod 64); char (128 + (z / 64) mod 64);
        char (128 + z mod 64)].

Definition simple_escape (c : ascii) : option ascii :=
  let z := code c in
  if (z =? 34) || (z =? 92) || (z =? 47) then Some c
  else if z =? 98 then Some (char 8)
  else if z =? 102 then Some (char 12)
  else if z =? 110 then Some (char 10)
  else if z =? 114 then Some (char 13)
  else if z =? 116 then Some (char 9)
  else None.

(** The rest of a string after the opening quote. *)
Fixpoint parse_string (l acc : list ascii) : option (string * list ascii) :=
  match l with
  | [] => None
  | c :: r =>
      if code c =? 34 then Some (of_chars (reverse acc), r)
      else if code c =? 92 then
        match r with
        | [] => None
        | e :: r1 =>
            if code e =? 117 then
              match r1 with
              | a :: b :: c3 :: d :: r2 =>
                  match hex4 a b c3 d with
                  | None => None
                  | Some hi =>
                      if (55296 <=? hi) && (hi <=? 56319) then
                        match r2 with
                        | q :: u :: a' :: b' :: c' :: d' :: r3 =>
                            match hex4 a' b' c' d' with
                            | Some lo =>
                                if (code q =? 92) && (code u =? 117) && (56320 <=? lo) && (lo <=? 57343)
                                then parse_string r3
                                       (reverse (utf8 (65536 + (hi - 55296) * 1024 + (lo - 56320))) ++ acc)
                                else parse_string r2 (reverse (utf8 hi) ++ acc)
                            | None => parse_string r2 (reverse (utf8 hi) ++ acc)
                            end
                        | _ => parse_string r2 (reverse (utf8 hi) ++ acc)
                        end
                      else parse_string r2 (reverse (utf8 hi) ++ acc)
                  end
              | _ => None
              end
            else match simple_escape e with
                 | Some x => parse_string r1 (x :: acc)
                 | None => None
                 end
        end
      else if code c <? 32 then None
      else parse_string r (c :: acc)
  end.

(** ** Numbers and literals *)
Definition lit (word : string) (v : pyval) (l : list ascii) : option (pyval * list ascii) :=
  if prefixb (chars word) l then Some (v, drop (String.length word) l) else None.

Definition parse_number (l : list ascii) : option (pyval * list ascii) :=
  let '(neg, r) := match l with "-"%char :: r => (true, r) | _ => (false, l) end in
  match r with
  | [] => None
  | c :: r0 =>
      if negb (is_digit c) then None
      else
        let '(ip, ni, r1) := if bool_decide (c = "0"%char) then (0, 1%nat, r0)
                             else digits_prefix r 0 0 in
        let '(m, nf, r2) :=
          match r1 with
          | "."%char :: k =>
              let '(m, n, k') := digits_prefix k ip 0 in
              match n with O => (ip, O, r1) | _ => (m, n, k') end
          | _ => (ip, O, r1)
          end in
        let '(ex, has_e, r3) :=
          match r2 with
          | e :: k =>
              if bool_decide (lower_char e = "e"%char) then
                let '(eneg, k') := match k with
                                   | "-"%char :: k1 => (true, k1)
                                   | "+"%char :: k1 => (false, k1)
                                   | _ => (false, k)
                                   end in
                let '(x, n, k2) := digits_prefix k' 0 0 in
                match n with O => (0, false, r2) | _ => (if eneg : bool then - x else x, true, k2) end
              else (0, false, r2)
          | [] => (0, false, r2)
          end in
        let is_float := has_e || negb (nf =? 0)%nat in
        if is_float then
          let f := match m with
                   | Zpos p => float_of_decimal neg p (ex - Z.of_nat nf)
                   | _ => S754_zero neg
                   end in
          Some (PFloat f, r3)
        else Some (PInt (if neg : bool then - ip else ip), r1)
  end.

(** ** Values *)
Fixpoint parse_value (fuel : nat) (l : list ascii) : option (pyval * list ascii) :=
  match fuel with
  | O => None
  | S n =>
      match l with
      | [] => None
      | c :: r =>
          if code c =? 34 then '(s, r') ← parse_string r []; mret (PStr s, r')
          else if bool_decide (c = "["%char) then
            match skip_ws r with
            | "]"%char :: r' => Some (PList [], r')
            | r' => '(vs, r2) ← parse_items n r'; mret (PList vs, r2)
            end
          else if bool_decide (c = "{"%char) then
            match skip_ws r with
            | "}"%char :: r' => Some (PDict [], r')
            | r' => '(kvs, r2) ← parse_members n r'; mret (PDict (dict_of_pairs kvs), r2)
            end
          else
            match lit "null" PNone l, lit "true" (PBool true) l, lit "false" (PBool false) l,
                  lit "NaN" (PFloat S754_nan) l, lit "Infinity" (PFloat (S754_infinity false)) l,
                  lit "-Infinity" (PFloat (S754_infinity true)) l with
            | Some x, _, _, _, _, _ | None, Some x, _, _, _, _ | None, None, Some x, _, _, _
            | None, None, None, Some x, _, _ | None, None, None, None, Some x, _
            | None, None, None, None, None, Some x => Some x
            | None, None, None, None, None, None => parse_number l
            end
      end
  end
with parse_items (fuel : nat) (l : list ascii) : option (list pyval * list ascii) :=
  match fuel with
  | O => None
  | S n =>
      '(v, r) ← parse_value n l;
      match skip_ws r with
      | "]"%char :: r' => Some ([v], r')
      | ","%char :: r' => '(vs, r2) ← parse_items n (skip_ws r'); mret (v :: vs, r2)
      | _ => None
      end
  end
with parse_members (fuel : nat) (l : list ascii) : option (list (string * pyval) * list ascii) :=
  match fuel with
  | O => None
  | S n =>
      match l with
      | c :: r =>
          if code c =? 34 then
            '(k, r1) ← parse_string r [];
            match skip_ws r1 with
            | ":"%char :: r2 =>
                '(v, r3) ← parse_value n (skip_ws r2);
                match skip_ws r3 with
                | "}"%char :: r4 => Some ([(k, v)], r4)
                | ","%char :: r4 => '(kvs, r5) ← parse_members n (skip_ws r4); mret ((k, v) :: kvs, r5)
                | _ => None
                end
            | _ => None
            end
          else None
      | [] => None
      end
  end.

(** [json.loads(text)]; [None] is [ValueError] (a [JSONDecodeError]).  Every step of the
    parser consumes a character or is followed by one that does, so twice the length of
    the text is enough fuel. *)
Definition json_loads (text : string) : option pyval :=
  let l := skip_ws (chars text) in
  '(v, r) ← parse_value (2 * length l + 2) l;
  match skip_ws r with [] => Some v | _ => None end.

(** ** Output *)
Definition hex4_str (z : Z) : string := hex2 (z / 256) +:+ hex2 (z mod 256).
Definition u_escape (z : Z) : string := char_str backslash +:+ "u" +:+ hex4_str z.
Definition cont (c : ascii) : Z := code c - 128.

Definition escape_ascii (c : ascii) : string :=
  let z := code c in
  if z =? 34 then char_str backslash +:+ char_str c
  else if z =? 92 then char_str backslash +:+ char_str c
  else if z =? 10 then char_str backslash +:+ "n"
  else if z =? 13 then char_str backslash +:+ "r"
  else if z =? 9 then char_str backslash +:+ "t"
  else if z =? 12 then char_str backslash +:+ "f"
  else if z =? 8 then char_str backslash +:+ "b"
  else if (32 <=? z) && (z <=? 126) then char_str c
  else u_escape z.

Fixpoint escape_chars (l : list ascii) : string :=
  match l with
  | [] => ""
  | c :: r =>
      let z := code c in
      if z <? 128 then
        escape_ascii c +:+ escape_chars r
      else if z <? 224 then
        match r with
        | b :: r1 => u_escape ((z - 192) * 64 + cont b) +:+ escape_chars r1
        | _ => ""
        end
      else if z <? 240 then
        match r with
        | b :: b2 :: r1 => u_escape ((z - 224) * 4096 + cont b * 64 + cont b2) +:+ escape_chars r1
        | _ => ""
        end
      else
        match r with
        | b :: b2 :: b3 :: r1 =>
            let v := (z - 240) * 262144 + cont b * 4096 + cont b2 * 64 + cont b3 - 65536 in
            u_escape (55296 + v / 1024) +:+ u_escape (56320 + v mod 1024) +:+ escape_chars r1
        | _ => ""
        end
  end.
Definition json_str (s : string) : string :=
  char_str dquote +:+ escape_chars (chars s) +:+ char_str dquote.
Definition dumps_strings (l : list string) : string := "[" +:+ join "," (json_str <$> l) +:+ "]".
Definition dumps_string_map (d : list (string * string)) : string :=
  "{" +:+ join "," ((λ kv, json_str kv.1 +:+ ":" +:+ json_str kv.2) <$> d) +:+ "}".

(** ** Round trips on ASCII text *)
Definition ascii_str (s : string) : Prop := Forall (λ c, code c < 128) (chars s).

Lemma parse_escape_ascii c acc tail :
  code c < 128 → parse_string (chars (escape_ascii c) ++ tail) acc = parse_string tail (c :: acc).
Proof.
  destruct c as [b0 b1 b2 b3 b4 b5 b6 [|]]; intros H.
  - exfalso. revert H. destruct b0, b1, b2, b3, b4, b5, b6; vm_compute; discriminate.
  - clear H. destruct b0, b1, b2, b3, b4, b5, b6; reflexivity.
Qed.

Lemma parse_string_escape l acc rest :
  Forall (λ c, code c < 128) l →
  parse_string (chars (escape_chars l) ++ dquote :: rest) acc =
    Some (of_chars (reverse acc ++ l), rest).
Proof.
  intros H. revert acc. induction H as [|c l Hc Hl IH]; intros acc.
  - cbn. by rewrite app_nil_r.
  - cbn [escape_chars]. replace (code c <? 128) with true by lia.
    rewrite chars_app, <- app_assoc, parse_escape_ascii, IH by done.
    by rewrite reverse_cons, <- app_assoc.
Qed.

Lemma parse_json_str n s rest :
  ascii_str s → parse_value (S n) (chars (json_str s) ++ rest) = Some (PStr s, rest).
Proof.
  intros H. unfold json_str. rewrite !chars_app, <- !app_assoc.
  change (chars (char_str dquote)) with [dquote].
  cbn -[parse_string]. rewrite parse_string_escape by done.
  cbn. by rewrite of_chars_chars.
Qed.

Lemma json_str_head s tail : ∃ t, chars (json_str s) ++ tail = dquote :: t.
Proof. eexists. unfold json_str. rewrite !chars_app. reflexivity. Qed.

Lemma skip_ws_json_str s tail :
  skip_ws (chars (json_str s) ++ tail) = chars (json_str s) ++ tail.
Proof. by destruct (json_str_head s tail) as [t ->]. Qed.

Lemma parse_items_S n l :
  parse_items (S n) l =
    ('(v, r) ← parse_value n l;
     match skip_ws r with
     | "]"%char :: r' => Some ([v], r')
     | ","%char :: r' => '(vs, r2) ← parse_items n (skip_ws r'); mret (v :: vs, r2)
     | _ => None
     end).
Proof. reflexivity. Qed.

Lemma parse_value_list n r :
  parse_value (S n) ("["%char :: r) =
    match skip_ws r with
    | "]"%char :: r' => Some (PList [], r')
    | r' => '(vs, r2) ← parse_items n r'; mret (PList vs, r2)
    end.
Proof. reflexivity. Qed.

Lemma join_json_head s l tail :
  ∃ t, chars (join "," (json_str <$> s :: l)) ++ tail = dquote :: t.
Proof.
  destruct l; cbn [fmap list_fmap join]; rewrite ?chars_app, <- ?app_assoc; apply json_str_head.
Qed.

Lemma skip_ws_join s l tail :
  skip_ws (chars (join "," (json_str <$> s :: l)) ++ tail) =
    chars (join "," (json_str <$> s :: l)) ++ tail.
Proof. by destruct (join_json_head s l tail) as [t ->]. Qed.

Lemma parse_items_strings fuel l rest :
  l ≠ [] → Forall ascii_str l → (length l < fuel)%nat →
  parse_items fuel (chars (join "," (json_str <$> l)) ++ "]"%char :: rest) =
    Some (PStr <$> l, rest).
Proof.
  intros Hne H. revert fuel Hne. induction H as [|s l Hs Hl IH]; intros fuel Hne Hf; [done|].
  destruct fuel as [|[|fuel]]; [cbn in Hf; lia..|].
  destruct l as [|s' l].
  - cbn [fmap list_fmap join]. cbn [parse_items]. rewrite parse_json_str by done. done.
  - change (join "," (json_str <$> s :: s' :: l))
      with (json_str s +:+ "," +:+ join "," (json_str <$> s' :: l)).
    rewrite !chars_app, <- !app_assoc, parse_items_S, parse_json_str by done.
    change (chars ",") with [","%char]. cbn [mbind option_bind].
    change (skip_ws ([","%char] ++ ?x)) with (","%char :: x). cbn iota.
    by rewrite skip_ws_join, IH by (done || (cbn in *; lia)).
Qed.

(** Decoding what [dumps_strings] wrote gives the list back. *)
Lemma loads_dumps_strings l :
  Forall ascii_str l → json_loads (dumps_strings l) = Some (PList (PStr <$> l)).
Proof.
  intros H. unfold json_loads, dumps_strings. rewrite !chars_app.
  change (chars "[") with ["["%char]. change (chars "]") with ["]"%char].
  destruct l as [|s l]; [reflexivity|].
  set (body := chars (join "," (json_str <$> s :: l))).
  assert (Hlen : (length l <= length body)%nat).
  { subst body. clear H. revert s. induction l as [|s' l IH]; intros s; [cbn; lia|].
    change (join "," (json_str <$> s :: s' :: l))
      with (json_str s +:+ "," +:+ join "," (json_str <$> s' :: l)).
    rewrite !chars_app, !length_app. specialize (IH s'). cbn [length] in *.
    change (length (chars ",")) with 1%nat. lia. }
  assert (Hskip : skip_ws (body ++ ["]"%char]) = body ++ ["]"%char] ∧
                  ∃ t, body ++ ["]"%char] = dquote :: t).
  { split; [apply skip_ws_join|apply join_json_head]. }
  destruct Hskip as [Hskip [t Ht]].
  change (skip_ws (["["%char] ++ body ++ ["]"%char])) with ("["%char :: body ++ ["]"%char]).
  cbn [length]. remember (2 * S (length (body ++ ["]"%char])) + 1)%nat as fuel eqn:Hf.
  replace (2 * S (length (body ++ ["]"%char])) + 2)%nat with (S fuel) by lia.
  rewrite parse_value_list, Hskip, Ht.
  change dquote with (Ascii false true false false false true false false) in *.
  cbn iota. rewrite <- Ht. subst body.
  rewrite parse_items_strings; [reflexivity|done|done|].
  rewrite length_app in Hf. cbn [length] in *. lia.
Qed.
