(* ===== verification/VoteConfigs.v ===== *)
(** The rules of a vote, an election and a poll ([shared/config_schemas.py]): the
    records, their validators and the projection of an election and of a poll on the
    motion rules.  The field constraints that a pydantic declaration states ([min_length],
    [ge], [le], the id pattern) are part of the validity predicate of the record. *)

From Stdlib Require Import SpecFloat.
From S2P Require Import Prelude PyStr PyNum PyValue.

(** ** Quorum *)
Inductive QuorumType := count | percent.
Record Quorum := MkQuorum { q_type : QuorumType; q_value : float }.
(** [value: float = Field(ge=0)]; a NaN fails the comparison. *)
Definition Quorum_valid (q : Quorum) : bool := fleb fzero (q_value q).

(** ** VoteConfig *)
Inductive MajorityRule := simple | absolute | two_thirds.
Inductive VoteResult := passed | rejected | tie.
#[export] Instance MajorityRule_eq_dec : EqDecision MajorityRule.
Proof. solve_decision. Defined.
#[export] Instance VoteResult_eq_dec : EqDecision VoteResult.
Proof. solve_decision. Defined.

Record VoteConfig := MkVoteConfig {
  options : list string;
  majority_rule : MajorityRule;
  quorum : option Quorum;
  abstain_counts_quorum : bool;
  secret : bool;
  tie_break : VoteResult;
  guests_vote : bool
}.

Definition has_quorum (q : option Quorum) : bool := match q with Some _ => true | None => false end.

(** A vote with guests has no quorum. *)
Definition _guests_vote_has_no_quorum (c : VoteConfig) : bool :=
  negb (guests_vote c && has_quorum (quorum c)).

(** [len(set(v)) != len(v)] refuses duplicates. *)
Definition unique {A} `{EqDecision A} (l : list A) : bool :=
  (length (fromkeys l) =? length l)%nat.
Definition _unique_options (v : list string) : bool := unique v.

Definition VoteConfig_valid (c : VoteConfig) : bool :=
  (2 <=? length (options c))%nat && _unique_options (options c) &&
  match quorum c with Some q => Quorum_valid q | None => true end &&
  _guests_vote_has_no_quorum c.

(** ** ElectionConfig *)
Definition ELECTION_RESERVED_IDS : list string := ["yes"; "no"; "abstain"].
Definition ELECTION_MAX_CANDIDATES : Z := 50.

Record ElectionCandidate := MkCandidate {
  cand_id : string;
  cand_name : string;
  principal_id : option string;
  erased : bool
}.

(** The pattern of a candidate id: letters, digits, underscore and minus, 1 to 64. *)
Definition cand_id_char (c : ascii) : bool :=
  is_alnum c || bool_decide (c = "_"%char) || bool_decide (c = "-"%char).
Definition cand_id_ok (s : string) : bool :=
  forallb cand_id_char (chars s) && (1 <=? py_len s) && (py_len s <=? 64).
(** [_strip_name] strips the name and refuses an empty one; the length bound applies
    to the text before the strip. *)
Definition _strip_name (v : string) : option string :=
  let stripped := py_strip v in if bool_decide (stripped = "") then None else Some stripped.

Record ElectionConfig := MkElectionConfig {
  seats : Z;
  candidates : list ElectionCandidate;
  e_secret : bool;
  e_quorum : option Quorum;
  e_abstain_counts_quorum : bool;
  e_guests_vote : bool
}.

(** [candidate_ids]: the ids in ballot order. *)
Definition candidate_ids (c : ElectionConfig) : list string := cand_id <$> candidates c.
(** [yes_no]: the ballot is Ja/Nein/Enthaltung. *)
Definition yes_no (c : ElectionConfig) : bool := (length (candidates c) =? 1)%nat.

Inductive ElectionConfigError :=
| IdsNotUnique | ReservedId | PersonTwice | TooFewCandidates | GuestsWithQuorum.

(** The model validator: the first broken rule raises. *)
Definition ElectionConfig__check (c : ElectionConfig) : res ElectionConfigError ElectionConfig :=
  let ids := candidate_ids c in
  _ ← raise_if (negb (unique ids)) IdsNotUnique;
  _ ← raise_if (existsb (λ i, bool_decide (i ∈ ELECTION_RESERVED_IDS)) ids) ReservedId;
  let principals := omap principal_id (candidates c) in
  _ ← raise_if (negb (unique principals)) PersonTwice;
  _ ← raise_if (Z.of_nat (length (candidates c)) <? seats c) TooFewCandidates;
  _ ← raise_if (e_guests_vote c && has_quorum (e_quorum c)) GuestsWithQuorum;
  Ok c.

(** The field constraints of the declaration and the model validator. *)
Definition ElectionConfig_valid (c : ElectionConfig) : bool :=
  (1 <=? seats c) && (seats c <=? ELECTION_MAX_CANDIDATES) &&
  (1 <=? length (candidates c))%nat &&
  (Z.of_nat (length (candidates c)) <=? ELECTION_MAX_CANDIDATES) &&
  forallb (λ x, cand_id_ok (cand_id x)) (candidates c) &&
  match e_quorum c with Some q => Quorum_valid q | None => true end &&
  is_ok (ElectionConfig__check c).

(** [public]: the account links of the candidates go away. *)
Definition public (c : ElectionConfig) : ElectionConfig :=
  if forallb (λ x, match principal_id x with None => true | Some _ => false end) (candidates c)
  then c
  else MkElectionConfig (seats c)
         ((λ x, MkCandidate (cand_id x) (cand_name x) None (erased x)) <$> candidates c)
         (e_secret c) (e_quorum c) (e_abstain_counts_quorum c) (e_guests_vote c).

Definition ElectionConfig_as_vote_config (c : ElectionConfig) : VoteConfig :=
  MkVoteConfig
    (if yes_no c then ["yes"; "no"; "abstain"] else candidate_ids c ++ ["abstain"])
    simple (e_quorum c) (e_abstain_counts_quorum c) (e_secret c) tie (e_guests_vote c).

(** ** PollConfig *)
Definition POLL_MIN_OPTIONS : Z := 2.
Definition POLL_MAX_OPTIONS : Z := 20.
Definition POLL_LABEL_MAX : Z := 200.
Inductive PollMode := single | multi | date.
#[export] Instance PollMode_eq_dec : EqDecision PollMode.
Proof. solve_decision. Defined.

(** An aware timestamp is its UTC instant, in microseconds. *)
Record PollOption := MkPollOption {
  opt_id : string;
  opt_label : option string;
  opt_start : option Z;
  opt_end : option Z
}.
(** The pattern of an option id: [o] and digits, at most 16 characters. *)
Definition opt_id_ok (s : string) : bool :=
  match chars s with
  | c :: (_ :: _) as ds => bool_decide (c = "o"%char) && forallb is_digit (drop 1 (chars s)) &&
                         (py_len s <=? 16)
  | _ => false
  end.
(** [_strip_label]: outer [None] is the refusal, inner [None] the absent label. *)
Definition _strip_label (v : option string) : option (option string) :=
  match v with
  | None => Some None
  | Some s => let stripped := py_strip s in
              if bool_decide (stripped = "") then None else Some (Some stripped)
  end.
(** [_end_after_start]: the end of a date option comes after its start. *)
Definition _end_after_start (o : PollOption) : bool :=
  match opt_end o, opt_start o with
  | None, _ => true
  | Some _, None => false
  | Some e, Some s => s <? e
  end.
Definition PollOption_valid (o : PollOption) : bool := opt_id_ok (opt_id o) && _end_after_start o.

Record PollConfig := MkPollConfig {
  mode : PollMode;
  p_options : list PollOption;
  max_choices : option Z;
  p_secret : bool;
  p_guests_vote : bool
}.

Definition option_ids (c : PollConfig) : list string := opt_id <$> p_options c.

(** [choice_limit]: [self.max_choices or len(self.options)]. *)
Definition choice_limit (c : PollConfig) : Z :=
  match mode c with
  | single => 1
  | _ => match max_choices c with
         | Some n => if n =? 0 then Z.of_nat (length (p_options c)) else n
         | None => Z.of_nat (length (p_options c))
         end
  end.

Inductive PollConfigError :=
| PollIdsNotUnique | DateNeedsStart | PollNeedsLabel | BadMaxChoices.

Definition is_none {A} (o : option A) : bool := match o with None => true | Some _ => false end.

Definition PollConfig__check (c : PollConfig) : res PollConfigError PollConfig :=
  _ ← raise_if (negb (unique (option_ids c))) PollIdsNotUnique;
  let dated := bool_decide (mode c = date) in
  _ ← for_each (λ o,
        _ ← raise_if (dated && (is_none (opt_start o) || negb (is_none (opt_label o)))) DateNeedsStart;
        raise_if (negb dated && (is_none (opt_label o) || negb (is_none (opt_start o)))) PollNeedsLabel)
      (p_options c);
  _ ← raise_if (match max_choices c with
                | Some n => negb (bool_decide (mode c = multi)) ||
                            (Z.of_nat (length (p_options c)) <? n)
                | None => false
                end) BadMaxChoices;
  Ok c.

Definition PollConfig_valid (c : PollConfig) : bool :=
  (POLL_MIN_OPTIONS <=? Z.of_nat (length (p_options c))) &&
  (Z.of_nat (length (p_options c)) <=? POLL_MAX_OPTIONS) &&
  forallb PollOption_valid (p_options c) &&
  match max_choices c with Some n => 1 <=? n | None => true end &&
  is_ok (PollConfig__check c).

Definition PollConfig_as_vote_config (c : PollConfig) : VoteConfig :=
  MkVoteConfig
    (if bool_decide (mode c = date) then option_ids c else option_ids c ++ ["abstain"])
    simple None true (p_secret c) tie (p_guests_vote c).

(** ** Lemmas *)
Lemma unique_NoDup {A} `{EqDecision A} (l : list A) : unique l = true ↔ NoDup l.
Proof.
  unfold unique. rewrite Nat.eqb_eq. split; [|intros H; by rewrite fromkeys_id].
  intros H. assert (Hp : fromkeys l ≡ₚ l).
  { apply submseteq_length_Permutation; [|lia].
    apply NoDup_submseteq; [apply NoDup_fromkeys|]. intros x. by rewrite elem_of_fromkeys. }
  rewrite <- Hp. apply NoDup_fromkeys.
Qed.

(** What the model validator of an election guarantees. *)
Lemma ElectionConfig_check_ok c c' :
  ElectionConfig__check c = Ok c' →
    c' = c ∧ NoDup (candidate_ids c) ∧ (∀ i, i ∈ candidate_ids c → i ∉ ELECTION_RESERVED_IDS) ∧
    NoDup (omap principal_id (candidates c)) ∧ seats c ≤ Z.of_nat (length (candidates c)) ∧
    (e_guests_vote c = true → e_quorum c = None).
Proof.
  unfold ElectionConfig__check. intros H. inv_ok. bool_prop.
  repeat match goal with H : unique _ = true |- _ => apply unique_NoDup in H end.
  repeat split; try done.
  - intros i Hi. match goal with H : existsb _ _ = false |- _ =>
      by eapply existsb_false, bool_decide_eq_false in H end.
  - intros Hg. rewrite Hg in *. by destruct (e_quorum c).
Qed.

(** What a valid election configuration gives its readers. *)
Lemma ElectionConfig_valid_facts c :
  ElectionConfig_valid c = true →
    NoDup (candidate_ids c) ∧ 1 ≤ seats c ≤ Z.of_nat (length (candidate_ids c)) ∧
    (∀ q, e_quorum c = Some q → Quorum_valid q = true).
Proof.
  unfold ElectionConfig_valid. intros H. bool_prop.
  destruct (ElectionConfig__check c) as [c'|] eqn:E; [|done].
  apply ElectionConfig_check_ok in E as (-> & ? & ? & ? & ? & ?).
  unfold candidate_ids. rewrite length_fmap. repeat split; try done.
  intros q Hq. by rewrite Hq in *.
Qed.

Lemma PollConfig_valid_facts c :
  PollConfig_valid c = true →
    NoDup (option_ids c) ∧ 2 ≤ Z.of_nat (length (option_ids c)) ∧
    1 ≤ choice_limit c ≤ Z.of_nat (length (option_ids c)).
Proof.
  unfold PollConfig_valid, POLL_MIN_OPTIONS. intros H. bool_prop.
  destruct (PollConfig__check c) as [c'|] eqn:E; [|done].
  unfold PollConfig__check in E. inv_ok. bool_prop.
  unfold option_ids. rewrite length_fmap. split; [by apply unique_NoDup|]. split; [done|].
  unfold choice_limit. destruct (mode c); [lia| |].
  all: destruct (max_choices c) as [n|]; [|lia]; bool_prop;
    destruct (n =? 0) eqn:?; bool_prop; [lia|].
  all: repeat match goal with H : _ || _ = false |- _ => apply orb_false_iff in H as [??] end;
    bool_prop; try lia; done.
Qed.
