(* ===== verification/Tally.v ===== *)
(** Counting a vote, an election and a poll ([voting/tally.py]): pure functions without
    a database and without a clock.  A decimal operation can raise, so the results are
    values of [res pyexc]; the theorems show that no valid configuration makes it raise. *)

From stdpp Require Import pretty.
From S2P Require Import Prelude PyStr PyNum PyValue JsonText VoteConfigs.

Definition YES : string := "yes".
Definition NO : string := "no".
Definition ABSTAIN : string := "abstain".

Inductive FailedReason := by_quorum | by_majority.

(** The reason of a rejection; a missed quorum wins. *)
Definition failed_reason (result : VoteResult) (quorum_met : bool) : option FailedReason :=
  if negb (bool_decide (result = rejected)) then None
  else Some (if quorum_met then by_majority else by_quorum).

Record Outcome := MkOutcome {
  o_result : VoteResult;
  o_quorum_met : bool;
  o_leading : option string
}.

(** ** Motions *)
Definition counts_t := list (string * Z).
Definition get0 (counts : counts_t) (k : string) : Z :=
  match dict_get k counts with Some n => n | None => 0 end.

Definition tally (options : list string) (choices : list (option string)) : counts_t :=
  let keys := fromkeys options in
  let hits := hits choices in
  (λ opt, (opt, hits (Some opt))) <$> keys.

(** [max(counts.values(), default=0)]. *)
Definition max_default0 (l : list Z) : Z :=
  match l with [] => 0 | x :: r => foldl Z.max x r end.

Definition leading (counts : counts_t) : option string :=
  let top := max_default0 (counts.*2) in
  let winners := (filter (λ kv, kv.2 = top) counts).*1 in
  match winners with
  | [w] => if 0 <? top then Some w else None
  | _ => None
  end.

Definition _quorum_met (quorum : option Quorum) (participation eligible : Z) : res pyexc bool :=
  match quorum with
  | None => Ok true
  | Some q =>
      let value := decimal_of_float (q_value q) in
      match q_type q with
      | count => dec_ord is_ge (dec_of_Z participation) value
      | percent =>
          if 0 <? eligible then
            lhs ← dec_mul (dec_of_Z participation) (dec_of_Z 100);
            rhs ← dec_mul value (dec_of_Z eligible);
            dec_ord is_ge lhs rhs
          else Ok false
      end
  end.

Definition _by_sign (margin : Z) : VoteResult :=
  if 0 <? margin then passed else if margin <? 0 then rejected else tie.

Definition _two_thirds (yes no : Z) : VoteResult :=
  let decisive := yes + no in
  let passes := (0 <? decisive) && (2 * decisive <=? 3 * yes) in
  let rejects := (0 <? decisive) && (2 * decisive <=? 3 * no) in
  if passes then passed else if rejects then rejected else tie.

Definition _majority (rule : MajorityRule) (yes no cast : Z) : VoteResult :=
  match rule with
  | simple => _by_sign (yes - no)
  | absolute => _by_sign (2 * yes - cast)
  | two_thirds => _two_thirds yes no
  end.

Definition result (config : VoteConfig) (counts : counts_t) (eligible : Z) : res pyexc Outcome :=
  let yes := get0 counts YES in
  let no := get0 counts NO in
  let abstain := get0 counts ABSTAIN in
  let cast := zsum (counts.*2) in
  let participation := if abstain_counts_quorum config then cast else cast - abstain in
  quorum_met ← _quorum_met (quorum config) participation eligible;
  let lead := leading counts in
  let raw := if quorum_met : bool then _majority (majority_rule config) yes no cast else rejected in
  let final := if decide (raw = tie) then tie_break config else raw in
  Ok (MkOutcome final quorum_met lead).

(** ** Elections *)
Inductive ElectionResult := elected | runoff | e_tie | e_rejected.
#[export] Instance ElectionResult_eq_dec : EqDecision ElectionResult.
Proof. solve_decision. Defined.

(** [json.dumps(sorted(candidate_ids), separators=(",", ":"))]. *)
Definition encode_election_choice (candidate_ids : list string) : string :=
  dumps_strings (sort_by str_leb candidate_ids).

Definition str_of (v : pyval) : option string := match v with PStr s => Some s | _ => None end.

Definition decode_election_choice (raw : option string) : option (list string) :=
  match raw with
  | None => None
  | Some t => match json_loads t with
              | Some (PList l) => mapM str_of l
              | _ => None
              end
  end.

Record ElectionOutcome := MkElectionOutcome {
  eo_result : ElectionResult;
  eo_quorum_met : bool;
  eo_counts : counts_t;
  eo_abstentions : Z;
  eo_ballots : Z;
  eo_elected : list string;
  eo_tied : list string;
  eo_open_seats : Z;
  eo_yes : option Z;
  eo_no : option Z
}.
Definition ElectionOutcome_display_counts (o : ElectionOutcome) : counts_t :=
  dict_set "abstain" (eo_abstentions o) (eo_counts o).

Definition _yes_no_outcome (config : ElectionConfig) (choices : list (option string))
    (eligible : Z) : res pyexc ElectionOutcome :=
  let counts := tally ["yes"; "no"; "abstain"] choices in
  let ballots := zsum (counts.*2) in
  let participation := if e_abstain_counts_quorum config then ballots
                       else ballots - get0 counts "abstain" in
  quorum_met ← _quorum_met (e_quorum config) participation eligible;
  let is_elected := quorum_met && (get0 counts "no" <? get0 counts "yes") in
  Ok (MkElectionOutcome (if is_elected then elected else e_rejected) quorum_met
        [("yes", get0 counts "yes"); ("no", get0 counts "no")]
        (get0 counts "abstain") ballots
        (if is_elected then take 1 (candidate_ids config) else [])
        [] 0 (Some (get0 counts "yes")) (Some (get0 counts "no"))).

(** The known ids of one ballot, without repeats, cut at [limit]. *)
Definition _list_picks (raw : option string) (known : list string) (limit : Z) : list string :=
  let distinct := fromkeys (default [] (decode_election_choice raw)) in
  slice_to limit (filter (λ c, c ∈ known) distinct).

(** Fill the seats from the ranked candidates.  A configuration has at least one seat,
    so the index [seats - 1] is not negative. *)
Definition nth_count (counts : counts_t) (ranked : list string) (i : Z) : Z :=
  match ranked !! Z.to_nat i with Some c => get0 counts c | None => 0 end.

Definition _seat_outcome (base : ElectionOutcome) (ranked : list string) (seats : Z)
    : ElectionOutcome :=
  let counts := eo_counts base in
  let fits := Z.of_nat (length ranked) <=? seats in
  let boundary := if fits then 0 else nth_count counts ranked (seats - 1) in
  let clear_cut := fits || (nth_count counts ranked seats <? boundary) in
  let above := filter (λ c, boundary < get0 counts c) ranked in
  let tied := filter (λ c, get0 counts c = boundary) ranked in
  if clear_cut then
    MkElectionOutcome (match ranked with [] => e_rejected | _ => elected end) true
      counts (eo_abstentions base) (eo_ballots base) (slice_to seats ranked)
      (eo_tied base) (eo_open_seats base) (eo_yes base) (eo_no base)
  else
    MkElectionOutcome e_tie true counts (eo_abstentions base) (eo_ballots base) above
      tied (seats - Z.of_nat (length above)) (eo_yes base) (eo_no base).

Definition tally_election (choices : list (option string)) (config : ElectionConfig)
    (eligible : Z) : res pyexc ElectionOutcome :=
  if yes_no config then _yes_no_outcome config choices eligible
  else
    let known := candidate_ids config in
    let picks := (λ item, _list_picks item known (seats config)) <$> choices in
    let hits := hits (concat picks) in
    let counts := (λ cid, (cid, hits cid)) <$> known in
    let ballots := Z.of_nat (length choices) in
    let full_abstentions := Z.of_nat (length (filter (λ b, b = []) picks)) in
    let participation := if e_abstain_counts_quorum config then ballots
                         else ballots - full_abstentions in
    quorum_met ← _quorum_met (e_quorum config) participation eligible;
    let missed := MkElectionOutcome e_rejected false counts
                    (zsum ((λ b, seats config - Z.of_nat (length b)) <$> picks)) ballots
                    [] [] 0 None None in
    let ranked := sort_by (desc (get0 counts)) (filter (λ c, 0 < get0 counts c) known) in
    Ok (if quorum_met : bool then _seat_outcome missed ranked (seats config) else missed).

(** ** The lot *)
Definition _draw_one_more (draw_rest : list string → res pyexc (list string))
    (pool : list string) (choose : list string → string) : res pyexc (list string) :=
  let pick := choose pool in
  match index_of pick pool with
  | None => Err ValueError
  | Some index => rest ← draw_rest (take index pool ++ drop (S index) pool); Ok (pick :: rest)
  end.

Fixpoint draw_seats (n : nat) (among : list string) (choose : list string → string)
    : res pyexc (list string) :=
  match n, among with
  | O, _ | _, [] => Ok []
  | S k, _ => _draw_one_more (λ pool, draw_seats k pool choose) among choose
  end.
Definition draw_lot (among : list string) (seats : Z) (choose : list string → string)
    : res pyexc (list string) := draw_seats (Z.to_nat seats) among choose.

(** ** Polls *)
Definition encode_poll_answers (answers : list (string * string)) : string :=
  dumps_string_map (sort_by (λ a b, str_leb a.1 b.1) answers).

Definition decode_poll_answers (raw : option string) : option (list (string * string)) :=
  match raw with
  | None => None
  | Some t => match json_loads t with
              | Some (PDict d) => mapM (λ kv, (λ s, (kv.1, s)) <$> str_of kv.2) d
              | _ => None
              end
  end.

Record PollOutcome := MkPollOutcome {
  po_counts : counts_t;
  po_maybe : option counts_t;
  po_abstentions : Z;
  po_ballots : Z;
  po_order : list string;
  po_top : list string
}.
Definition PollOutcome_display_counts (o : PollOutcome) : counts_t :=
  match po_maybe o with
  | Some _ => po_counts o
  | None => dict_set ABSTAIN (po_abstentions o) (po_counts o)
  end.

Definition date_key (counts maybe : counts_t) (oid : string) : Z * Z :=
  (get0 counts oid, get0 counts oid + get0 maybe oid).
(** The order of [(-key[0], -key[1])]. *)
Definition date_leb (key : string → Z * Z) (x y : string) : bool :=
  ((key y).1 <? (key x).1) || (((key y).1 =? (key x).1) && ((key y).2 <=? (key x).2)).

Definition _date_poll (raw : list (option string)) (known : list string)
    : res pyexc PollOutcome :=
  let answers := filter (λ oa, oa.1 ∈ known)
                   (concat ((λ item, default [] (decode_poll_answers item)) <$> raw)) in
  let yes_hits := hits (filter (λ oa, oa.2 = YES) answers).*1 in
  let maybe_hits := hits (filter (λ oa, oa.2 = "maybe") answers).*1 in
  let counts := (λ oid, (oid, yes_hits oid)) <$> known in
  let maybe := (λ oid, (oid, maybe_hits oid)) <$> known in
  let key := date_key counts maybe in
  let order := sort_by (date_leb key) known in
  match order with
  | [] => Err IndexError
  | first :: _ =>
      let best := key first in
      let top := if 0 <? best.2 then filter (λ oid, key oid = best) order else [] in
      Ok (MkPollOutcome counts (Some maybe) 0 (Z.of_nat (length raw)) order top)
  end.

Definition _list_poll (raw : list (option string)) (known : list string) (limit : Z)
    : res pyexc PollOutcome :=
  let picks := (λ item, _list_picks item known limit) <$> raw in
  let hits := hits (concat picks) in
  let counts := (λ oid, (oid, hits oid)) <$> known in
  let abstentions := Z.of_nat (length (filter (λ b, b = []) picks)) in
  let order := sort_by (desc (get0 counts)) known in
  match order with
  | [] => Err IndexError
  | first :: _ =>
      let most := get0 counts first in
      let top := if 0 <? most then filter (λ oid, get0 counts oid = most) order else [] in
      Ok (MkPollOutcome counts None abstentions (Z.of_nat (length raw)) order top)
  end.

Definition tally_poll (choices : list (option string)) (config : PollConfig)
    : res pyexc PollOutcome :=
  if decide (mode config = date) then _date_poll choices (option_ids config)
  else _list_poll choices (option_ids config) (choice_limit config).
