(* ===== verification/TallyFacts.v ===== *)
(** What the tally guarantees: the quorum is exact, a missed quorum rejects, the majority
    rules are the documented ones and monotone, the count depends only on the multiset
    of ballots. *)

From S2P Require Import Prelude PyStr PyNum PyValue JsonText VoteConfigs Tally.

(** ** The quorum *)

(** The stored value of a quorum as a decimal, within the range of the exact arithmetic.
    Every float between 1e-300 and 1e300 and 0 has at most 17 digits and such an exponent. *)
Definition quorum_in_range (q : Quorum) : bool :=
  match decimal_of_float (q_value q) with
  | DFin c x => (0 <=? c) && (c <? 10 ^ 18) && (-400 <=? x) && (x <=? 400)
  | DInf s => negb s
  | DNaN _ => false
  end.

(** [value <= num] and [value * eligible <= 100 * num], with exact integers: a value
    [c * 10^x] is compared after both sides are scaled by [10^-x] when [x] is negative. *)
Definition value_times_at_most (q : Quorum) (factor bound : Z) : bool :=
  match decimal_of_float (q_value q) with
  | DFin c x => if 0 <=? x then c * factor * 10 ^ x <=? bound
                else c * factor <=? bound * 10 ^ (- x)
  | _ => false
  end.

Definition quorum_rule (quorum : option Quorum) (participation eligible : Z) : bool :=
  match quorum with
  | None => true
  | Some q => match q_type q with
              | count => value_times_at_most q 1 participation
              | percent => (0 <? eligible) && value_times_at_most q eligible (participation * 100)
              end
  end.

Definition quorum_ok (quorum : option Quorum) : bool :=
  match quorum with None => true | Some q => quorum_in_range q end.

Lemma dec_ord_ge_fin c x n :
  dec_ord is_ge (dec_of_Z n) (DFin c x) =
    Ok (if 0 <=? x then c * 10 ^ x <=? n else c <=? n * 10 ^ (- x)).
Proof.
  unfold dec_ord, dec_of_Z, dec_has_nan, dec_compare, dec_align, is_ge. f_equal.
  case_if; bool_prop.
  - replace (Z.min 0 x) with 0 by lia. rewrite !Z.sub_0_r, Z.pow_0_r, Z.mul_1_r.
    destruct (Z.compare_spec n (c * 10 ^ x)); lia.
  - replace (Z.min 0 x) with x by lia.
    rewrite Z.sub_diag, Z.pow_0_r, Z.mul_1_r, Z.sub_0_l.
    destruct (Z.compare_spec (n * 10 ^ (- x)) c); lia.
Qed.

(** The decimal arithmetic of the quorum check is exact and raises nothing. *)
Lemma quorum_met_exact quorum participation eligible :
  quorum_ok quorum = true → 0 ≤ participation < 10 ^ 9 → eligible < 10 ^ 9 →
  _quorum_met quorum participation eligible = Ok (quorum_rule quorum participation eligible).
Proof.
  destruct quorum as [q|]; [|done].
  unfold quorum_ok, quorum_in_range, _quorum_met, quorum_rule, value_times_at_most.
  destruct (decimal_of_float (q_value q)) as [c x|s|s] eqn:Ev; intros Hok Hp He; [|destruct s; [done|]|done].
  - bool_prop. destruct (q_type q).
    + rewrite dec_ord_ge_fin. by rewrite Z.mul_1_r.
    + destruct (0 <? eligible) eqn:Hel; [|done]. bool_prop. cbn [andb].
      unfold dec_of_Z, dec_mul. rewrite Z.add_0_l.
      rewrite dec_finalize_exact by (unfold dec_prec; nia). cbn [mbind res_bind].
      rewrite dec_finalize_exact by (unfold dec_prec; nia). cbn [mbind res_bind].
      rewrite Z.add_0_r. exact (dec_ord_ge_fin (c * eligible) x (participation * 100)).
  - destruct (q_type q); [done|]. destruct (0 <? eligible) eqn:Hel; [|done]. bool_prop.
    unfold dec_of_Z, dec_mul. rewrite Z.add_0_l, dec_finalize_exact by (unfold dec_prec; nia).
    cbn [mbind res_bind]. replace (eligible =? 0) with false by lia.
    by replace (eligible <? 0) with false by lia.
Qed.

Lemma value_times_mono q f b b' :
  b ≤ b' → value_times_at_most q f b = true → value_times_at_most q f b' = true.
Proof.
  unfold value_times_at_most. intros Hb. destruct (decimal_of_float _); try done.
  case_if; intros ?; bool_prop; [lia|].
  apply Z.leb_le. etrans; [eassumption|]. apply Z.mul_le_mono_nonneg_r; lia.
Qed.

Lemma quorum_rule_mono quorum p p' e :
  p ≤ p' → quorum_rule quorum p e = true → quorum_rule quorum p' e = true.
Proof.
  intros Hp. unfold quorum_rule. destruct quorum as [q|]; [|done]. destruct (q_type q).
  - by apply value_times_mono.
  - intros H. bool_prop. rewrite andb_true_iff, Z.ltb_lt. split; [done|].
    by eapply value_times_mono; [|eassumption]; lia.
Qed.

(** ** The counts *)
Lemma tally_keys options choices : (tally options choices).*1 = fromkeys options.
Proof.
  unfold tally. rewrite <- list_fmap_compose. rewrite <- (list_fmap_id (fromkeys options)) at 2.
  by apply list_fmap_ext.
Qed.

Lemma dict_get_map {B} (f : string → B) (keys : list string) k :
  dict_get k ((λ x, (x, f x)) <$> keys) = if decide (k ∈ keys) then Some (f k) else None.
Proof.
  induction keys as [|x r IH]; cbn; [done|]. rewrite IH.
  destruct (decide (k = x)) as [->|].
  - by rewrite decide_True by left.
  - destruct (decide (k ∈ r)).
    + by rewrite decide_True by (by right).
    + rewrite decide_False; [done|]. by rewrite elem_of_cons; intros [|].
Qed.

Lemma get0_map (f : string → Z) keys k :
  get0 ((λ x, (x, f x)) <$> keys) k = if decide (k ∈ keys) then f k else 0.
Proof. unfold get0. rewrite dict_get_map. by case_decide. Qed.

Lemma get0_tally options choices k :
  get0 (tally options choices) k = if decide (k ∈ options) then hits choices (Some k) else 0.
Proof.
  unfold tally. rewrite get0_map.
  destruct (decide (k ∈ options)), (decide (k ∈ fromkeys options)) as [H|H];
    rewrite elem_of_fromkeys in H; done.
Qed.

Definition names_known (options : list string) (c : option string) : bool :=
  match c with Some o => bool_decide (o ∈ options) | None => false end.

Lemma zsum_tally options choices :
  zsum ((tally options choices).*2) =
    Z.of_nat (length (filter (λ c, names_known options c = true) choices)).
Proof.
  unfold tally. rewrite <- list_fmap_compose.
  rewrite (zsum_map_ext _ (hits choices ∘ Some)) by done.
  rewrite list_fmap_compose, zsum_hits.
  - do 2 f_equal. apply list_filter_iff. intros [o|]; cbn.
    + rewrite bool_decide_eq_true, list_elem_of_fmap. rewrite <- (elem_of_fromkeys options o).
      naive_solver.
    + rewrite list_elem_of_fmap. naive_solver.
  - apply (NoDup_fmap_2 Some), NoDup_fromkeys.
Qed.

(** ** The result of a motion *)
Definition yes_of (choices : list (option string)) : Z := hits choices (Some YES).
Definition no_of (choices : list (option string)) : Z := hits choices (Some NO).
Definition cast_of (options : list string) (choices : list (option string)) : Z :=
  Z.of_nat (length (filter (λ c, names_known options c = true) choices)).

(** The documented majority rules, as propositions on the counts. *)
Definition rule_passes (r : MajorityRule) (yes no cast : Z) : Prop :=
  match r with
  | simple => no < yes
  | absolute => cast < 2 * yes
  | two_thirds => 0 < yes + no ∧ 2 * (yes + no) ≤ 3 * yes
  end.
Definition rule_rejects (r : MajorityRule) (yes no cast : Z) : Prop :=
  match r with
  | simple => yes < no
  | absolute => 2 * yes < cast
  | two_thirds => 0 < yes + no ∧ 2 * (yes + no) ≤ 3 * no
  end.

Lemma majority_spec r yes no cast :
  0 ≤ yes → 0 ≤ no →
  (_majority r yes no cast = passed ↔ rule_passes r yes no cast) ∧
  (_majority r yes no cast = rejected ↔ rule_rejects r yes no cast).
Proof.
  intros Hy Hn. destruct r; cbn; unfold _by_sign, _two_thirds;
    repeat case_if; bool_prop; split; split; intros; try done; try lia.
Qed.

Lemma rule_exclusive r yes no cast :
  0 ≤ yes → 0 ≤ no → rule_passes r yes no cast → ¬ rule_rejects r yes no cast.
Proof. intros ??. destruct r; cbn; lia. Qed.

Record motion_ok (config : VoteConfig) (choices : list (option string)) (eligible : Z) : Prop := {
  mo_yes : YES ∈ options config;
  mo_no : NO ∈ options config;
  mo_abstain : ABSTAIN ∈ options config;
  mo_quorum : quorum_ok (quorum config) = true;
  mo_size : Z.of_nat (length choices) < 10 ^ 9;
  mo_eligible : eligible < 10 ^ 9
}.

Definition participation_of (config : VoteConfig) (choices : list (option string)) : Z :=
  if abstain_counts_quorum config then cast_of (options config) choices
  else cast_of (options config) choices - hits choices (Some ABSTAIN).

Lemma hits_filter_le choices options o :
  o ∈ options → hits choices (Some o) ≤ cast_of options choices.
Proof.
  intros Ho. unfold cast_of. induction choices as [|c r IH]; [cbn; lia|].
  rewrite filter_cons. cbn [hits]. destruct (decide (c = Some o)) as [->|].
  - rewrite decide_True by (cbn; by rewrite bool_decide_eq_true). cbn [length]. lia.
  - case_decide; cbn [length]; lia.
Qed.

Lemma participation_bound config choices eligible :
  motion_ok config choices eligible → 0 ≤ participation_of config choices < 10 ^ 9.
Proof.
  intros []. unfold participation_of.
  pose proof (hits_filter_le choices (options config) ABSTAIN mo_abstain0).
  pose proof (hits_nonneg choices (Some ABSTAIN)).
  assert (cast_of (options config) choices ≤ Z.of_nat (length choices)).
  { unfold cast_of. pose proof (length_filter (λ c, names_known (options config) c = true) choices).
    lia. }
  assert (0 ≤ cast_of (options config) choices) by (unfold cast_of; lia).
  case_if; lia.
Qed.

(** The outcome in closed form. *)
Lemma result_eq config choices eligible :
  motion_ok config choices eligible →
  result config (tally (options config) choices) eligible =
    let met := quorum_rule (quorum config) (participation_of config choices) eligible in
    let raw := if met then _majority (majority_rule config) (yes_of choices) (no_of choices)
                             (cast_of (options config) choices) else rejected in
    Ok (MkOutcome (if decide (raw = tie) then tie_break config else raw) met
          (leading (tally (options config) choices))).
Proof.
  intros Hok. pose proof (participation_bound _ _ _ Hok) as Hb. destruct Hok.
  unfold result. rewrite zsum_tally, !get0_tally, !decide_True by done.
  fold (cast_of (options config) choices). fold (participation_of config choices).
  rewrite quorum_met_exact by done. reflexivity.
Qed.

(** C31: a motion passes exactly when the quorum is met and the documented majority rule
    holds for the counted ballots, or the rule ties and the tie break passes the motion;
    the decimal arithmetic of the quorum never raises. *)
Theorem result_passed_iff config choices eligible :
  motion_ok config choices eligible →
  ∃ o, result config (tally (options config) choices) eligible = Ok o ∧
    let passes := rule_passes (majority_rule config) (yes_of choices) (no_of choices)
                    (cast_of (options config) choices) in
    let rejects := rule_rejects (majority_rule config) (yes_of choices) (no_of choices)
                     (cast_of (options config) choices) in
    o_quorum_met o = quorum_rule (quorum config) (participation_of config choices) eligible ∧
    (o_result o = passed ↔
       o_quorum_met o = true ∧ (passes ∨ (¬ passes ∧ ¬ rejects ∧ tie_break config = passed))) ∧
    (o_result o = tie ↔
       o_quorum_met o = true ∧ ¬ passes ∧ ¬ rejects ∧ tie_break config = tie).
Proof.
  intros Hok. eexists. split; [by apply result_eq|]. cbn zeta. cbn [o_result o_quorum_met].
  set (met := quorum_rule _ _ _). split; [done|].
  pose proof (majority_spec (majority_rule config) (yes_of choices) (no_of choices)
    (cast_of (options config) choices) (hits_nonneg _ _) (hits_nonneg _ _)) as [Hp Hr].
  destruct met; [|cbn; split; split; intros; naive_solver].
  destruct (_majority _ _ _ _) eqn:E; cbn;
    destruct (tie_break config); split; split; intros; naive_solver.
Qed.

(** A missed quorum rejects the motion whatever the majority and the tie break say,
    and the failure reason is the quorum. *)
Lemma missed_quorum_rejects config choices eligible :
  motion_ok config choices eligible →
  quorum_rule (quorum config) (participation_of config choices) eligible = false →
  ∃ o, result config (tally (options config) choices) eligible = Ok o ∧
    o_result o = rejected ∧ failed_reason (o_result o) (o_quorum_met o) = Some by_quorum.
Proof.
  intros Hok Hq. eexists. split; [by apply result_eq|]. cbn zeta. rewrite Hq. cbn. done.
Qed.

(** The ballots are anonymous: any reordering of the cast ballots gives the same
    counts and the same outcome. *)
Lemma result_permutation config choices choices' eligible :
  choices ≡ₚ choices' →
  result config (tally (options config) choices) eligible =
    result config (tally (options config) choices') eligible.
Proof.
  intros Hp. f_equal. unfold tally. apply list_fmap_ext. intros i x _. f_equal.
  by apply hits_Permutation.
Qed.

Lemma cast_of_cons options c choices :
  cast_of options (c :: choices) = (if names_known options c then 1 else 0) + cast_of options choices.
Proof.
  unfold cast_of. rewrite filter_cons.
  destruct (names_known options c); [rewrite decide_True by done|rewrite decide_False by done];
    cbn [length]; lia.
Qed.

(** Monotonicity: one more yes ballot never turns a passed motion into one that does
    not pass (with the tie break on passed or not). *)
Lemma yes_ballot_monotone config choices eligible o :
  motion_ok config (Some YES :: choices) eligible →
  result config (tally (options config) choices) eligible = Ok o → o_result o = passed →
  ∃ o', result config (tally (options config) (Some YES :: choices)) eligible = Ok o' ∧
    o_result o' = passed.
Proof.
  intros Hok Hres Hpass.
  assert (Hok0 : motion_ok config choices eligible).
  { destruct Hok as [H1 H2 H3 H4 H5 H6]. cbn in H5. split; try done; lia. }
  rewrite result_eq in Hres by done. cbn zeta in Hres. injection Hres as <-.
  eexists. split; [by apply result_eq|]. cbn zeta. cbn [o_result] in *. revert Hpass.
  assert (Hpart : participation_of config (Some YES :: choices) = participation_of config choices + 1).
  { unfold participation_of. rewrite cast_of_cons. cbn [hits names_known].
    rewrite bool_decide_true by apply Hok. rewrite decide_False by done. case_if; lia. }
  rewrite Hpart. set (p := participation_of config choices).
  destruct (quorum_rule (quorum config) p eligible) eqn:Eq; [|done].
  rewrite (quorum_rule_mono _ p) by (done || lia).
  unfold yes_of, no_of. rewrite cast_of_cons. cbn [hits names_known].
  rewrite bool_decide_true by apply Hok.
  rewrite (decide_True (P := Some YES = Some YES)), (decide_False (P := Some YES = Some NO)) by done.
  pose proof (hits_nonneg choices (Some YES)). pose proof (hits_nonneg choices (Some NO)).
  set (y := hits choices (Some YES)) in *. set (n := hits choices (Some NO)) in *.
  set (k := cast_of _ choices).
  destruct (majority_spec (majority_rule config) y n k ltac:(lia) ltac:(lia)) as [Hp Hr].
  destruct (majority_spec (majority_rule config) (1 + y) (0 + n) (1 + k) ltac:(lia) ltac:(lia)) as [Hp' Hr'].
  assert (Hup : ∀ r, (rule_passes r y n k → rule_passes r (1 + y) (0 + n) (1 + k)) ∧
                     (rule_rejects r (1 + y) (0 + n) (1 + k) → rule_rejects r y n k)).
  { intros []; cbn; split; lia. }
  destruct (Hup (majority_rule config)) as [Hup1 Hup2].
  destruct (_majority (majority_rule config) y n k) eqn:E1;
    destruct (_majority (majority_rule config) (1 + y) (0 + n) (1 + k)) eqn:E2; cbn; try done.
  - naive_solver.
  - exfalso. naive_solver.
  - exfalso. naive_solver.
Qed.

(** ** The theorems at a concrete motion: two ballots of three needed, a simple majority. *)
Definition demo_quorum : Quorum := MkQuorum count (SpecFloat.S754_finite false 4503599627370496 (-51)).
Definition demo_motion : VoteConfig :=
  MkVoteConfig ["yes"; "no"; "abstain"] simple (Some demo_quorum) true false rejected false.
Definition demo_ballots : list (option string) := [Some "yes"; Some "no"; Some "yes"; Some "abstain"].

Lemma demo_ok choices : Z.of_nat (length choices) < 10 ^ 9 → motion_ok demo_motion choices 5.
Proof. intros H. split; [cbn; set_solver..|reflexivity|exact H|lia]. Qed.

Lemma result_passed_iff_witness :
  motion_ok demo_motion demo_ballots 5 ∧
  ∃ o, result demo_motion (tally (options demo_motion) demo_ballots) 5 = Ok o ∧ o_result o = passed.
Proof.
  assert (Hok : motion_ok demo_motion demo_ballots 5) by (apply demo_ok; vm_compute; reflexivity).
  split; [exact Hok|].
  destruct (result_passed_iff demo_motion demo_ballots 5 Hok) as (o & Ho & Hq & Hp & _).
  exists o. split; [exact Ho|]. apply Hp. rewrite Hq. split; [vm_compute; reflexivity|].
  left. vm_compute. reflexivity.
Defined.



