(* ===== verification/Election.v ===== *)
(** Personnel elections ([voting/election.py]): the check of a ballot, the stored result of
    a closed election, the lot and the runoff link.  The rows of the [vote] table that the
    functions read and write are a finite map; an exception leaves the map as it was,
    because the request session rolls back. *)

From S2P Require Import Prelude PyStr PyNum PyValue JsonText VoteConfigs Tally.

Inductive VoteKind := motion | election | poll.
Inductive VoteStatus := draft | open | closed | cancelled.
#[export] Instance VoteKind_eq_dec : EqDecision VoteKind.
Proof. solve_decision. Defined.
#[export] Instance VoteStatus_eq_dec : EqDecision VoteStatus.
Proof. solve_decision. Defined.

(** *** The stored result *)
Record ElectionRunoffOut := MkRunoff {
  ro_candidate_ids : list string;
  ro_seats : Z;
  ro_vote_id : option string
}.
Record ElectionLotOut := MkLot {
  among : list string;
  lot_seats : Z;
  drawn : option (list string);
  lot_at : option Z;
  lot_by : option string;
  lot_by_name : option string
}.
Record ElectionResultOut := MkElectionResult {
  er_counts : counts_t;
  er_abstentions : Z;
  er_ballots : Z;
  er_yes : option Z;
  er_no : option Z;
  er_elected : list string;
  er_runoff : option ElectionRunoffOut;
  er_lot : option ElectionLotOut
}.

(** The stored result: the text of the literal. *)
Definition election_result_text (r : ElectionResult) : string :=
  match r with elected => "elected" | runoff => "runoff" | e_tie => "tie" | e_rejected => "rejected" end.

(** The columns of a vote row that this component reads. *)
Record VoteRow := MkVoteRow {
  v_kind : VoteKind;
  v_status : VoteStatus;
  v_result : option string;
  v_election_result : option ElectionResultOut;
  v_parent_vote_id : option string
}.

Inductive ElectionError :=
| VoteNotFound
| NotAnElection
| NoLotPending
| LotAlreadyDrawn
| Escaped (e : pyexc).

(** *** Ballots *)
Inductive Choice := CText (s : string) | CList (l : list string).
Inductive InvalidChoice :=
| NotYesNoAbstain | NotAList | ChosenTwice | MoreThanSeats | UnknownCandidate.

Definition is_election (vote : VoteRow) : bool := bool_decide (v_kind vote = election).

Definition stored_choice (config : ElectionConfig) (choice : Choice) : res InvalidChoice string :=
  if yes_no config then
    match choice with
    | CText s => if bool_decide (s ∈ ["yes"; "no"; "abstain"]) then Ok s else Err NotYesNoAbstain
    | CList _ => Err NotYesNoAbstain
    end
  else
    match choice with
    | CText _ => Err NotAList
    | CList l =>
        _ ← raise_if (negb (length (fromkeys l) =? length l)%nat) ChosenTwice;
        _ ← raise_if (seats config <? Z.of_nat (length l)) MoreThanSeats;
        _ ← raise_if (negb (forallb (λ c, bool_decide (c ∈ candidate_ids config)) l)) UnknownCandidate;
        Ok (encode_election_choice l)
    end.

Definition outcome_of (config : ElectionConfig) (choices : list (option string)) (eligible : Z)
    : res pyexc ElectionOutcome := tally_election choices config eligible.

Definition result_of (outcome : ElectionOutcome) : ElectionResultOut :=
  let runoff := if decide (eo_result outcome = runoff)
                then Some (MkRunoff (eo_tied outcome) (eo_open_seats outcome) None) else None in
  let lot := if decide (eo_result outcome = e_tie)
             then Some (MkLot (eo_tied outcome) (eo_open_seats outcome) None None None None)
             else None in
  MkElectionResult (eo_counts outcome) (eo_abstentions outcome) (eo_ballots outcome)
    (eo_yes outcome) (eo_no outcome) (eo_elected outcome) runoff lot.

(** *** The service *)
Record LotAudit := MkLotAudit {
  la_actor : string;
  la_vote : string;
  la_among : list string;
  la_seats : Z;
  la_drawn : list string
}.
Record ElectionDb := MkElectionDb {
  votes_table : gmap string VoteRow;
  lot_audits : list LotAudit
}.

(** Lock a closed election and return it with its stored result. *)
Definition _closed_election (db : ElectionDb) (vote_id : string)
    : res ElectionError (VoteRow * ElectionResultOut) :=
  match votes_table db !! vote_id with
  | None => Err VoteNotFound
  | Some vote =>
      match v_election_result vote with
      | Some stored =>
          if negb (is_election vote) || negb (bool_decide (v_status vote = closed))
          then Err NotAnElection else Ok (vote, stored)
      | None => Err NotAnElection
      end
  end.

(** [ElectionService.draw_lot]; [choose] is [secrets.choice]. *)
Definition service_draw_lot (db : ElectionDb) (vote_id sub name : string) (now : Z)
    (choose : list string → string) : res ElectionError ElectionDb :=
  '(vote, result) ← _closed_election db vote_id;
  match er_lot result with
  | None => Err NoLotPending
  | Some lot =>
      match drawn lot with
      | Some _ => Err LotAlreadyDrawn
      | None =>
          match draw_lot (among lot) (lot_seats lot) choose with
          | Err e => Err (Escaped e)
          | Ok d =>
              let lot' := MkLot (among lot) (lot_seats lot) (Some d) (Some now) (Some sub) (Some name) in
              let decided := MkElectionResult (er_counts result) (er_abstentions result)
                               (er_ballots result) (er_yes result) (er_no result)
                               (er_elected result ++ d) (er_runoff result) (Some lot') in
              let vote' := MkVoteRow (v_kind vote) (v_status vote) (Some "elected") (Some decided)
                             (v_parent_vote_id vote) in
              Ok (MkElectionDb (<[vote_id := vote']> (votes_table db))
                    (lot_audits db ++ [MkLotAudit sub vote_id (among lot) (lot_seats lot) d]))
          end
      end
  end.

(** [release_runoff_link]: a runoff that goes away frees the link of its parent. *)
Definition release_runoff_link (db : ElectionDb) (vote_id : string) (vote : VoteRow) : ElectionDb :=
  match v_parent_vote_id vote with
  | Some parent_id =>
      if is_election vote then
        match votes_table db !! parent_id with
        | Some parent =>
            match v_election_result parent with
            | Some result =>
                match er_runoff result with
                | Some r =>
                    if decide (ro_vote_id r = Some vote_id) then
                      let result' := MkElectionResult (er_counts result) (er_abstentions result)
                                       (er_ballots result) (er_yes result) (er_no result)
                                       (er_elected result)
                                       (Some (MkRunoff (ro_candidate_ids r) (ro_seats r) None))
                                       (er_lot result) in
                      MkElectionDb (<[parent_id := MkVoteRow (v_kind parent) (v_status parent)
                                        (v_result parent) (Some result') (v_parent_vote_id parent)]>
                                      (votes_table db)) (lot_audits db)
                    else db
                | None => db
                end
            | None => db
            end
        | None => db
        end
      else db
  | None => db
  end.
