(* ===== verification/ElectionFacts.v ===== *)
(** What the count of an election guarantees: the votes and the abstentions add up to the
    seats of the ballots, no unelected candidate has as many votes as an elected one, a
    tie at the seat boundary leaves a lot that fills the seats exactly. *)

From S2P Require Import Prelude PyStr PyNum PyValue JsonText VoteConfigs Tally TallyFacts Election.

(** ** The picks of one ballot *)
Lemma list_picks_NoDup raw known limit : NoDup (_list_picks raw known limit).
Proof.
  unfold _list_picks. eapply sublist_NoDup; [|apply slice_to_sublist].
  apply NoDup_filter, NoDup_fromkeys.
Qed.

Lemma list_picks_known raw known limit x : x ∈ _list_picks raw known limit → x ∈ known.
Proof.
  unfold _list_picks. intros H. eapply elem_of_sublist in H; [|apply slice_to_sublist].
  by apply list_elem_of_filter in H as [? _].
Qed.

Lemma list_picks_length raw known limit :
  0 ≤ limit → Z.of_nat (length (_list_picks raw known limit)) ≤ limit.
Proof. intros H. unfold _list_picks. rewrite length_slice_to by done. lia. Qed.

Section Count.
Context (known : list string) (Hnd : NoDup known) (limit : Z) (Hlimit : 0 ≤ limit).
Context (choices : list (option string)).
Let picks := (λ item, _list_picks item known limit) <$> choices.

Lemma picks_known : Forall (λ x, x ∈ known) (concat picks).
Proof.
  apply Forall_forall. intros x (b & Hb & Hx)%elem_of_concat.
  apply list_elem_of_fmap in Hb as (item & -> & _). by eapply list_picks_known.
Qed.

Lemma zsum_counts :
  zsum (((λ cid, (cid, hits (concat picks) cid)) <$> known).*2) =
    Z.of_nat (length (concat picks)).
Proof.
  rewrite <- list_fmap_compose.
  rewrite (zsum_map_ext _ (hits (concat picks))) by done.
  rewrite zsum_hits by done. by rewrite filter_all by apply picks_known.
Qed.

Lemma length_concat_picks :
  zsum ((λ b : list string, limit - Z.of_nat (length b)) <$> picks) + Z.of_nat (length (concat picks))
    = limit * Z.of_nat (length choices).
Proof.
  unfold picks. clear picks. induction choices as [|c r IH]; [cbn; lia|].
  rewrite !fmap_cons. cbn [zsum concat length]. rewrite length_app. lia.
Qed.
End Count.

(** ** Filling the seats *)
Section Seats.
Context (counts : counts_t) (ranked : list string) (n : Z).
Hypothesis Hsorted : StronglySorted (λ a b, desc (get0 counts) a b = true) ranked.
Hypothesis Hnd : NoDup ranked.
Hypothesis Hn : 1 ≤ n.
Let f := get0 counts.

Lemma nth_count_lookup i c : ranked !! Z.to_nat i = Some c → nth_count counts ranked i = f c.
Proof. unfold nth_count. by intros ->. Qed.

Section Boundary.
Hypothesis Hlong : n < Z.of_nat (length ranked).

Lemma boundary_lookup :
  ∃ c d, ranked !! Z.to_nat (n - 1) = Some c ∧ ranked !! Z.to_nat n = Some d ∧
    nth_count counts ranked (n - 1) = f c ∧ nth_count counts ranked n = f d ∧ f d ≤ f c.
Proof.
  destruct (lookup_lt_is_Some_2 ranked (Z.to_nat (n - 1))) as [c Hc]; [lia|].
  destruct (lookup_lt_is_Some_2 ranked (Z.to_nat n)) as [d Hd]; [lia|].
  exists c, d. repeat split; try done; try by apply nth_count_lookup.
  pose proof (StronglySorted_lookup _ _ _ _ _ _ Hsorted Hc Hd ltac:(lia)) as H.
  cbn in H. unfold desc in H. fold f in H. lia.
Qed.

(** A tie across the boundary: fewer candidates are above it than there are seats, and
    more are on it than seats stay open. *)
Lemma tie_lengths b :
  nth_count counts ranked (n - 1) = b → b ≤ nth_count counts ranked n →
  Z.of_nat (length (filter (λ c, (b < f c)) ranked)) < n ∧
  n < Z.of_nat (length (filter (λ c, (b < f c)) ranked)) +
      Z.of_nat (length (filter (λ c, (f c = b)) ranked)).
Proof.
  intros Hb Hle. destruct boundary_lookup as (c & d & Hc & Hd & Ec & Ed & _).
  assert (H1 : (length (filter (λ c, (b < f c)%Z) ranked) ≤ Z.to_nat (n - 1))%nat).
  { eapply (sorted_filter_ge f); [|exact Hsorted|exact Hc|cbn; lia]. cbn. lia. }
  assert (H2 : (Z.to_nat n < length (filter (λ c, (b ≤ f c)%Z) ranked))%nat).
  { eapply (sorted_filter_lt f); [|exact Hsorted|exact Hd|cbn; lia]. cbn. lia. }
  rewrite (filter_length_split _ (λ c, b < f c) (λ c, f c = b)) in H2 by (intros; lia).
  lia.
Qed.

(** A clear boundary: the candidates past it have fewer votes. *)
Lemma clear_boundary c :
  nth_count counts ranked n < nth_count counts ranked (n - 1) →
  c ∈ slice_to n ranked → nth_count counts ranked (n - 1) ≤ f c.
Proof.
  intros Hlt. unfold slice_to. replace (n <? 0) with false by lia.
  intros (i & Hi)%list_elem_of_lookup. apply lookup_take_Some in Hi as [Hi Hin].
  destruct boundary_lookup as (x & d & Hx & _ & Ex & _ & _). rewrite Ex.
  destruct (decide (i = Z.to_nat (n - 1))) as [->|]; [by simplify_eq|].
  pose proof (StronglySorted_lookup _ _ _ _ _ _ Hsorted Hi Hx ltac:(lia)) as H.
  cbn in H. unfold desc in H. fold f in H. lia.
Qed.

Lemma past_boundary c :
  c ∈ ranked → c ∉ slice_to n ranked → f c ≤ nth_count counts ranked n.
Proof.
  unfold slice_to. replace (n <? 0) with false by lia.
  intros (i & Hi)%list_elem_of_lookup Hnot.
  destruct boundary_lookup as (_ & d & _ & Hd & _ & Ed & _). rewrite Ed.
  destruct (decide (i < Z.to_nat n)%nat) as [Hlt|Hge].
  { exfalso. apply Hnot, list_elem_of_lookup. exists i. by rewrite lookup_take_lt. }
  destruct (decide (i = Z.to_nat n)) as [->|]; [by simplify_eq|].
  pose proof (StronglySorted_lookup _ _ _ _ _ _ Hsorted Hd Hi ltac:(lia)) as H.
  cbn in H. unfold desc in H. fold f in H. lia.
Qed.
End Boundary.
End Seats.

(** ** The count of a list election *)
Section Tallied.
Context (config : ElectionConfig) (choices : list (option string)) (eligible : Z).
Hypothesis Hvalid : ElectionConfig_valid config = true.
Hypothesis Hlist : yes_no config = false.
Let known := candidate_ids config.
Let picks := (λ item, _list_picks item known (seats config)) <$> choices.

(** The votes of one candidate: the ballots whose valid picks name it. *)
Definition votes (c : string) : Z := hits (concat picks) c.
Definition election_counts : counts_t := (λ cid, (cid, votes cid)) <$> known.
Definition ranking : list string :=
  sort_by (desc (get0 election_counts)) (filter (λ c, 0 < get0 election_counts c) known).
Definition election_abstentions : Z :=
  zsum ((λ b : list string, seats config - Z.of_nat (length b)) <$> picks).
Definition election_missed : ElectionOutcome :=
  MkElectionOutcome e_rejected false election_counts election_abstentions
    (Z.of_nat (length choices)) [] [] 0 None None.
Definition election_participation : Z :=
  if e_abstain_counts_quorum config then Z.of_nat (length choices)
  else Z.of_nat (length choices) - Z.of_nat (length (filter (λ b, b = []) picks)).

Lemma tally_election_eq :
  tally_election choices config eligible =
    (met ← _quorum_met (e_quorum config) election_participation eligible;
     Ok (if met : bool then _seat_outcome election_missed ranking (seats config)
         else election_missed)).
Proof. unfold tally_election. by rewrite Hlist. Qed.

Lemma get0_election c : c ∈ known → get0 election_counts c = votes c.
Proof. intros H. unfold election_counts. by rewrite get0_map, decide_True. Qed.

Lemma ranking_sorted :
  StronglySorted (λ a b, desc (get0 election_counts) a b = true) ranking.
Proof. apply sort_by_sorted; [apply desc_total|apply desc_trans]. Qed.

Lemma elem_of_ranking c : c ∈ ranking ↔ c ∈ known ∧ 0 < votes c.
Proof.
  unfold ranking. rewrite elem_of_sort_by, list_elem_of_filter. split.
  - intros [H ?]. rewrite get0_election in H by done. done.
  - intros [? ?]. by rewrite get0_election.
Qed.

Lemma NoDup_ranking : NoDup ranking.
Proof.
  unfold ranking. rewrite sort_by_Permutation.
  apply NoDup_filter. by apply ElectionConfig_valid_facts in Hvalid as [? _].
Qed.

Lemma seats_pos : 1 ≤ seats config.
Proof. by apply ElectionConfig_valid_facts in Hvalid as (_ & [? _] & _). Qed.

Lemma tally_election_cases o :
  tally_election choices config eligible = Ok o →
  o = election_missed ∨ o = _seat_outcome election_missed ranking (seats config).
Proof. rewrite tally_election_eq. intros H. inv_ok. by destruct x; auto. Qed.
End Tallied.

(** The standing of a candidate list against the other known candidates. *)
Definition beats_all (config : ElectionConfig) (choices : list (option string))
    (winners : list string) : Prop :=
  ∀ c d, c ∈ winners → d ∈ candidate_ids config → d ∉ winners →
    votes config choices d < votes config choices c.

(** C34: a decided election elects distinct candidates of the list, exactly as many as there
    are seats or, when fewer candidates have a vote, every one with a vote; each of them
    has strictly more votes than every candidate who is not elected. *)
Theorem decided_election config choices eligible o :
  ElectionConfig_valid config = true → yes_no config = false →
  tally_election choices config eligible = Ok o → eo_result o = elected →
  NoDup (eo_elected o) ∧ (∀ c, c ∈ eo_elected o → c ∈ candidate_ids config) ∧
  eo_elected o ≠ [] ∧
  Z.of_nat (length (eo_elected o)) =
    Z.min (seats config)
      (Z.of_nat (length (filter (λ c, 0 < votes config choices c) (candidate_ids config)))) ∧
  beats_all config choices (eo_elected o).
Proof.
  intros Hv Hl Ho Hres. pose proof (seats_pos config Hv) as Hseats.
  pose proof (ranking_sorted config choices) as Hs. pose proof (NoDup_ranking config choices Hv) as Hnd.
  assert (Hlen : length (ranking config choices) =
                 length (filter (λ c, 0 < votes config choices c) (candidate_ids config))).
  { apply Permutation_length, NoDup_Permutation; [done| |].
    - apply NoDup_filter. by apply ElectionConfig_valid_facts in Hv as [? _].
    - intros c. rewrite elem_of_ranking, list_elem_of_filter. tauto. }
  destruct (tally_election_cases config choices eligible Hl o Ho) as [->| ->]; [done|].
  unfold _seat_outcome in *. cbn [eo_counts election_missed] in *.
  set (rk := ranking config choices) in *. set (n := seats config) in *.
  set (fits := Z.of_nat (length rk) <=? n) in *.
  match type of Hres with eo_result (if ?b then _ else _) = _ => destruct b eqn:Hclear end; [|done].
  cbn [eo_elected eo_result] in *.
  assert (Hsub : slice_to n rk `sublist_of` rk) by apply slice_to_sublist.
  assert (Hin : ∀ c, c ∈ slice_to n rk → c ∈ rk) by (intros c Hc; by eapply elem_of_sublist).
  split; [by eapply sublist_NoDup|].
  split; [intros c Hc; by apply (elem_of_ranking config choices), Hin|].
  split. { destruct rk as [|x rk'] eqn:E; [done|]. intros H0%(f_equal length).
    apply (f_equal Z.of_nat) in H0. rewrite length_slice_to in H0 by lia. cbn [length] in H0. lia. }
  split; [rewrite length_slice_to, <- Hlen by lia; done|].
  intros c d Hc Hd Hnot.
  assert (Hgc : get0 (election_counts config choices) c = votes config choices c).
  { by apply get0_election, (elem_of_ranking config choices), Hin. }
  assert (Hgd := get0_election config choices d Hd).
  destruct (decide (d ∈ rk)) as [Hdr|Hdr].
  - destruct fits eqn:Hf; subst fits; bool_prop.
    + exfalso. apply Hnot. unfold slice_to. replace (n <? 0) with false by lia.
      by rewrite take_ge by lia.
    + cbn [orb] in Hclear. bool_prop.
      pose proof (clear_boundary _ rk n Hs Hseats ltac:(lia) c Hclear Hc).
      pose proof (past_boundary _ rk n Hs Hseats ltac:(lia) d Hdr Hnot). lia.
  - apply Hin, (elem_of_ranking config choices) in Hc as [_ Hc].
    pose proof (hits_nonneg (concat ((λ item, _list_picks item (candidate_ids config) (seats config)) <$> choices)) d).
    assert (¬ 0 < votes config choices d) by (intros ?; by apply Hdr, elem_of_ranking). lia.
Qed.

(** The outcome of a tie, boundary and all. *)
Lemma tied_outcome_facts config choices eligible o :
  ElectionConfig_valid config = true → yes_no config = false →
  tally_election choices config eligible = Ok o → eo_result o = e_tie →
  NoDup (eo_elected o ++ eo_tied o) ∧
  (∀ c, c ∈ eo_elected o ++ eo_tied o → c ∈ candidate_ids config) ∧
  Z.of_nat (length (eo_elected o)) + eo_open_seats o = seats config ∧
  0 < eo_open_seats o < Z.of_nat (length (eo_tied o)) ∧
  ∃ b, (∀ c, c ∈ eo_tied o → votes config choices c = b) ∧
       (∀ c, c ∈ eo_elected o → b < votes config choices c) ∧
       (∀ c, c ∈ candidate_ids config → c ∉ eo_elected o ++ eo_tied o →
             votes config choices c < b).
Proof.
  intros Hv Hl Ho Hres. pose proof (seats_pos config Hv) as Hseats.
  pose proof (ranking_sorted config choices) as Hs. pose proof (NoDup_ranking config choices Hv) as Hnd.
  destruct (tally_election_cases config choices eligible Hl o Ho) as [->| ->]; [done|].
  unfold _seat_outcome in *. cbn [eo_counts election_missed] in *.
  set (rk := ranking config choices) in *. set (n := seats config) in *.
  set (cs := election_counts config choices) in *.
  assert (Hg : ∀ c, c ∈ rk → get0 cs c = votes config choices c).
  { intros c [Hc _]%(elem_of_ranking config choices). by apply get0_election. }
  destruct (Z.of_nat (length rk) <=? n) eqn:Hfits; cbn [orb] in *; [by destruct rk|].
  destruct (nth_count cs rk n <? nth_count cs rk (n - 1)) eqn:Hclear; [by destruct rk|].
  bool_prop. cbn [eo_elected eo_tied eo_open_seats].
  set (b := nth_count cs rk (n - 1)) in *.
  destruct (tie_lengths cs rk n Hs Hseats ltac:(lia) b eq_refl Hclear) as [H1 H2].
  assert (Hin : ∀ c, c ∈ filter (λ c, b < get0 cs c) rk ++ filter (λ c, get0 cs c = b) rk → c ∈ rk).
  { intros c. rewrite elem_of_app, !list_elem_of_filter. tauto. }
  split; [apply NoDup_app; repeat split; [by apply NoDup_filter| |by apply NoDup_filter];
          intros c; rewrite !list_elem_of_filter; lia|].
  split; [intros c Hc%Hin; by apply (elem_of_ranking config choices)|].
  split; [lia|]. split; [lia|].
  exists b. repeat split; intros c.
  - intros [Hc ?]%list_elem_of_filter. by rewrite <- Hg.
  - intros [Hc ?]%list_elem_of_filter. by rewrite <- Hg.
  - intros Hk Hnot. destruct (decide (c ∈ rk)) as [Hr|Hr].
    + rewrite <- Hg by done. rewrite elem_of_app, !list_elem_of_filter in Hnot.
      destruct (Z.lt_trichotomy (get0 cs c) b) as [?|[?|?]]; [done|exfalso..]; tauto.
    + assert (¬ 0 < votes config choices c) by (intros ?; by apply Hr, elem_of_ranking).
      destruct (boundary_lookup cs rk n Hs Hseats ltac:(lia)) as (x & _ & Hx & _ & Ex & _ & _).
      apply list_elem_of_lookup_2 in Hx. fold b in Ex. rewrite (Hg x Hx) in Ex.
      apply (elem_of_ranking config choices) in Hx as [_ Hx]. lia.
Qed.

(** A tied election elects the candidates strictly above the boundary and leaves a lot
    among more tied candidates than there are open seats: elected and open seats add up to
    the seats, the tied candidates have equal votes, every other candidate has fewer. *)
Lemma tied_election config choices eligible o :
  ElectionConfig_valid config = true → yes_no config = false →
  tally_election choices config eligible = Ok o → eo_result o = e_tie →
  NoDup (eo_elected o ++ eo_tied o) ∧
  (∀ c, c ∈ eo_elected o ++ eo_tied o → c ∈ candidate_ids config) ∧
  Z.of_nat (length (eo_elected o)) + eo_open_seats o = seats config ∧
  0 < eo_open_seats o < Z.of_nat (length (eo_tied o)) ∧
  ∃ b, (∀ c, c ∈ eo_tied o → votes config choices c = b) ∧
       (∀ c, c ∈ eo_elected o → b < votes config choices c) ∧
       (∀ c, c ∈ candidate_ids config → c ∉ eo_elected o ++ eo_tied o →
             votes config choices c < b).
Proof. apply tied_outcome_facts. Qed.

(** Every seat of every ballot is accounted for: the votes of the candidates and the
    abstentions add up to the seats times the ballots, and no abstention count is negative. *)
Lemma election_seats_conserved config choices eligible o :
  ElectionConfig_valid config = true → yes_no config = false →
  tally_election choices config eligible = Ok o →
  zsum ((eo_counts o).*2) + eo_abstentions o = seats config * Z.of_nat (length choices) ∧
  0 ≤ eo_abstentions o ∧ eo_ballots o = Z.of_nat (length choices).
Proof.
  intros Hv Hl Ho. pose proof (seats_pos config Hv) as Hseats.
  apply ElectionConfig_valid_facts in Hv as (Hnd & _ & _).
  assert (eo_counts o = election_counts config choices ∧
               eo_abstentions o = election_abstentions config choices ∧
               eo_ballots o = Z.of_nat (length choices)) as (-> & -> & ->).
  { destruct (tally_election_cases config choices eligible Hl o Ho) as [->| ->]; [done|].
    unfold _seat_outcome. by case_if. }
  split; [|split; [|done]].
  - unfold election_counts, votes. rewrite zsum_counts by done.
    unfold election_abstentions.
    pose proof (length_concat_picks (candidate_ids config) (seats config) choices). lia.
  - apply zsum_nonneg, Forall_forall. intros x (b & -> & (item & -> & _)%list_elem_of_fmap)%list_elem_of_fmap.
    pose proof (list_picks_length item (candidate_ids config) (seats config) ltac:(lia)). lia.
Qed.

(** The outcome of an election does not depend on the order of the ballots. *)
Lemma election_permutation config choices choices' eligible :
  choices ≡ₚ choices' →
  tally_election choices config eligible = tally_election choices' config eligible.
Proof.
  intros Hp. destruct (yes_no config) eqn:Hyn.
  - unfold tally_election. rewrite Hyn. unfold _yes_no_outcome.
    assert (tally ["yes"; "no"; "abstain"] choices = tally ["yes"; "no"; "abstain"] choices') as ->;
      [|done].
    unfold tally. apply list_fmap_ext. intros i x _. f_equal. by apply hits_Permutation.
  - rewrite !tally_election_eq by done.
    set (g := λ item, _list_picks item (candidate_ids config) (seats config)).
    assert (Hpk : g <$> choices ≡ₚ g <$> choices') by (apply fmap_Permutation, Hp).
    assert (Ecount : election_counts config choices = election_counts config choices').
    { unfold election_counts. apply list_fmap_ext. intros i x _. f_equal.
      unfold votes. apply hits_Permutation. by apply concat_Permutation. }
    assert (Epart : election_participation config choices = election_participation config choices').
    { unfold election_participation. fold g.
      rewrite (Permutation_length (filter_Permutation (λ b : list string, b = []) _ _ Hpk)).
      by rewrite (Permutation_length Hp). }
    assert (Emiss : election_missed config choices = election_missed config choices').
    { unfold election_missed. rewrite Ecount, (Permutation_length Hp). f_equal.
      unfold election_abstentions. apply zsum_Permutation. fold g. by apply fmap_Permutation. }
    unfold ranking. by rewrite Ecount, Epart, Emiss.
Qed.

(** ** The lot *)
Lemma draw_seats_spec n among choose :
  (∀ pool, pool ≠ [] → choose pool ∈ pool) →
  ∃ drawn rest, draw_seats n among choose = Ok drawn ∧ drawn ++ rest ≡ₚ among ∧
    length drawn = Nat.min n (length among).
Proof.
  intros Hch. revert among. induction n as [|n IH]; intros among.
  - exists [], among. done.
  - destruct among as [|x l]; [by exists [], []|]. cbn [draw_seats]. unfold _draw_one_more.
    destruct (index_of_elem (choose (x :: l)) (x :: l)) as [i Hi]; [by apply Hch|].
    rewrite Hi. apply index_of_split in Hi as Hsplit.
    destruct (IH (take i (x :: l) ++ drop (S i) (x :: l))) as (drawn & rest & E & Hp & Hlen).
    exists (choose (x :: l) :: drawn), rest. rewrite E. split; [done|].
    assert (Hall : choose (x :: l) :: (take i (x :: l) ++ drop (S i) (x :: l)) ≡ₚ x :: l).
    { rewrite Hsplit at 4. by rewrite Permutation_middle. }
    split; [cbn [app]; by rewrite Hp|].
    apply Permutation_length in Hall. cbn [length] in *. lia.
Qed.

(** C35: the lot always ends and draws distinct seats: with a chooser that picks a member of
    the pool, [draw_lot] never raises and returns the smaller of the seats and the pool as a
    part of the pool, so a candidate is drawn at most once. *)
Theorem draw_lot_spec among seats choose :
  (∀ pool, pool ≠ [] → choose pool ∈ pool) →
  ∃ drawn rest, draw_lot among seats choose = Ok drawn ∧ drawn ++ rest ≡ₚ among ∧
    length drawn = Nat.min (Z.to_nat seats) (length among).
Proof. apply draw_seats_spec. Qed.

(** ** Ballots *)
Lemma cand_id_ascii s : cand_id_ok s = true → ascii_str s.
Proof.
  unfold cand_id_ok, ascii_str. intros H. bool_prop. apply Forall_forall. intros c Hc.
  match goal with H : forallb _ _ = true |- _ => eapply forallb_forall in H;
    [|by apply list_elem_of_In] end.
  unfold cand_id_char, is_alnum, is_alpha, is_upper, is_lower, is_digit in *.
  repeat match goal with H : _ || _ = true |- _ => apply orb_true_iff in H as [H|H] end;
    bool_prop; subst; try lia; reflexivity.
Qed.

Lemma valid_ids_ascii config c :
  ElectionConfig_valid config = true → c ∈ candidate_ids config → ascii_str c.
Proof.
  unfold ElectionConfig_valid. intros H (x & -> & Hx)%list_elem_of_fmap. bool_prop.
  apply cand_id_ascii. match goal with H : forallb _ _ = true |- _ =>
    eapply (proj1 (forallb_forall _ _)) in H; [exact H|by apply list_elem_of_In] end.
Qed.

Lemma mapM_str_of l : mapM str_of (PStr <$> l) = Some l.
Proof. induction l as [|s l IH]; [done|]. cbn. by rewrite IH. Qed.

Lemma decode_encode_choice l :
  Forall ascii_str l → decode_election_choice (Some (encode_election_choice l)) = Some (sort_by str_leb l).
Proof.
  intros H. unfold decode_election_choice, encode_election_choice.
  rewrite loads_dumps_strings; [apply mapM_str_of|]. by rewrite sort_by_Permutation.
Qed.

(** C36: round trip of a ballot: the stored form of an accepted list ballot decodes to the
    chosen candidates and counts exactly them, each once. *)
Theorem accepted_ballot_counts config l s :
  ElectionConfig_valid config = true → yes_no config = false →
  stored_choice config (CList l) = Ok s →
  decode_election_choice (Some s) = Some (sort_by str_leb l) ∧
  _list_picks (Some s) (candidate_ids config) (seats config) ≡ₚ l ∧ NoDup l.
Proof.
  intros Hv Hl H. unfold stored_choice in H. rewrite Hl in H. inv_ok. bool_prop.
  fold (unique l) in *. apply unique_NoDup in H as Hnd.
  assert (Hk : Forall (λ c, c ∈ candidate_ids config) l).
  { apply Forall_forall. intros c Hc. match goal with H : forallb _ _ = true |- _ =>
      eapply forallb_forall in H; [by eapply bool_decide_eq_true|by apply list_elem_of_In] end. }
  assert (Hd : decode_election_choice (Some (encode_election_choice l)) = Some (sort_by str_leb l)).
  { apply decode_encode_choice. eapply Forall_impl; [exact Hk|].
    intros c. by apply valid_ids_ascii. }
  split; [done|]. split; [|done]. unfold _list_picks. rewrite Hd. cbn [from_option]. unfold id.
  rewrite fromkeys_id by (by rewrite sort_by_Permutation).
  rewrite filter_all by (by rewrite sort_by_Permutation).
  unfold slice_to. pose proof (seats_pos config Hv).
  replace (seats config <? 0) with false by lia.
  rewrite take_ge; [apply sort_by_Permutation|]. rewrite length_sort_by. lia.
Qed.

Lemma result_of_tie o :
  eo_result o = e_tie →
  result_of o = MkElectionResult (eo_counts o) (eo_abstentions o) (eo_ballots o) (eo_yes o) (eo_no o)
                  (eo_elected o) None
                  (Some (MkLot (eo_tied o) (eo_open_seats o) None None None None)).
Proof. intros H. unfold result_of. by rewrite H. Qed.

(** The lot of a tied election fills the seats: the draw succeeds once, elects as many
    distinct candidates of the list as there are seats, and a second draw is refused. *)
Lemma lot_fills_seats config choices eligible o db vote_id sub name now choose :
  ElectionConfig_valid config = true → yes_no config = false →
  tally_election choices config eligible = Ok o → eo_result o = e_tie →
  votes_table db !! vote_id =
    Some (MkVoteRow election closed (Some "tie") (Some (result_of o)) None) →
  (∀ pool, pool ≠ [] → choose pool ∈ pool) →
  ∃ db' row r, service_draw_lot db vote_id sub name now choose = Ok db' ∧
    votes_table db' !! vote_id = Some row ∧ v_result row = Some (election_result_text elected) ∧
    v_election_result row = Some r ∧
    NoDup (er_elected r) ∧ (∀ c, c ∈ er_elected r → c ∈ candidate_ids config) ∧
    Z.of_nat (length (er_elected r)) = seats config ∧
    (∀ sub' name' now', service_draw_lot db' vote_id sub' name' now' choose = Err LotAlreadyDrawn).
Proof.
  intros Hv Hl Ho Ht Hrow Hch.
  destruct (tied_outcome_facts config choices eligible o Hv Hl Ho Ht) as (Hnd & Hin & Hsum & Hopen & _).
  rewrite result_of_tie in Hrow by done. unfold service_draw_lot, _closed_election. rewrite Hrow.
  unfold is_election. cbn [v_kind v_status v_election_result].
  rewrite !bool_decide_true by done. cbn -[draw_lot insert lookup]. unfold draw_lot.
  destruct (draw_seats_spec (Z.to_nat (eo_open_seats o)) (eo_tied o) choose Hch) as (d & rest & -> & Hp & Hlen).
  cbn -[insert lookup]. eexists _, _, _. split; [reflexivity|].
  cbn -[insert lookup]. rewrite lookup_insert_eq. split; [reflexivity|].
  split; [reflexivity|]. split; [reflexivity|]. cbn [er_elected].
  assert (Hsub : ∀ c, c ∈ d → c ∈ eo_tied o) by (intros c Hc; rewrite <- Hp; set_solver).
  apply NoDup_app in Hnd as (Hnd1 & Hdis & Hnd2).
  split.
  { rewrite <- Hp in Hnd2. apply NoDup_app in Hnd2 as [? _].
    apply NoDup_app. split; [done|]. split; [|done]. intros c H1 H2. by eapply Hdis, Hsub. }
  split; [intros c [?|?]%elem_of_app; apply Hin, elem_of_app; eauto|].
  split; [rewrite length_app; lia|]. done.
Qed.

(** ** The theorems at a concrete election: three candidates for two seats. *)
Definition demo_candidate (c : string) : ElectionCandidate := MkCandidate c c None false.
Definition demo_election : ElectionConfig :=
  MkElectionConfig 2 (demo_candidate <$> ["a"; "b"; "c"]) true None true false.
Definition demo_ballot (l : list string) : option string := Some (encode_election_choice l).
(** [a] and [b] are ahead. *)
Definition clear_ballots : list (option string) :=
  [demo_ballot ["a"; "b"]; demo_ballot ["a"]; demo_ballot ["b"; "c"]; demo_ballot ["b"]].
(** [a] is ahead, [b] and [c] tie. *)
Definition tied_ballots : list (option string) :=
  [demo_ballot ["a"; "b"]; demo_ballot ["a"; "c"]; demo_ballot ["a"]].
Definition outcome_at (choices : list (option string)) : ElectionOutcome :=
  match tally_election choices demo_election 9 with
  | Ok o => o
  | Err _ => MkElectionOutcome e_rejected false [] 0 0 [] [] 0 None None
  end.

Lemma decided_election_witness :
  eo_elected (outcome_at clear_ballots) = ["b"; "a"] ∧
  beats_all demo_election clear_ballots (eo_elected (outcome_at clear_ballots)).
Proof.
  split; [vm_compute; reflexivity|].
  apply (decided_election demo_election clear_ballots 9 (outcome_at clear_ballots));
    vm_compute; reflexivity.
Defined.



(** The first of the pool, a chooser that meets the contract of [secrets.choice]. *)
Definition first_of (pool : list string) : string := match pool with [] => "" | x :: _ => x end.
Lemma first_of_in pool : pool ≠ [] → first_of pool ∈ pool.
Proof. destruct pool; [done|]. intros _. apply list_elem_of_here. Qed.

Lemma draw_lot_spec_witness :
  ∃ d rest, draw_lot ["b"; "c"; "d"] 2 first_of = Ok d ∧ d ++ rest ≡ₚ ["b"; "c"; "d"] ∧
    length d = 2%nat.
Proof. exact (draw_lot_spec ["b"; "c"; "d"] 2 first_of first_of_in). Defined.

Lemma accepted_ballot_counts_witness :
  _list_picks (Some (encode_election_choice ["c"; "a"])) (candidate_ids demo_election) 2 ≡ₚ ["c"; "a"].
Proof.
  apply (accepted_ballot_counts demo_election ["c"; "a"]); vm_compute; reflexivity.
Defined.

Definition demo_db : ElectionDb :=
  MkElectionDb {["v" := MkVoteRow election closed (Some "tie")
                          (Some (result_of (outcome_at tied_ballots))) None]} [].
