(* ===== verification/LexorankFacts.v ===== *)
(** The order theorems of the sort keys: [between] is total on valid bounds and lands
    strictly between them, [spread] and [_chain] give ascending ranks, [grouped] keeps the
    values of each key in order, and appended cards keep their order in their column. *)

From S2P Require Import Prelude PyStr PyNum PyValue Lexorank.

#[local] Ltac Zify.zify_post_hook ::= Z.div_mod_to_equations.

(** ** Digits *)
Definition digit_chars (l : list ascii) : Prop := Forall (λ c, ∃ i, _digit c = Ok i) l.
Definition rank_chars (l : list ascii) : Prop :=
  l ≠ [] ∧ last l ≠ Some "0"%char ∧ digit_chars l.
Definition is_rank (s : string) : Prop := rank_chars (chars s).

Lemma digit_code c i :
  _digit c = Ok i → 0 ≤ i < 36 ∧ code c = (if i <? 10 then 48 + i else 87 + i) ∧ digit_at i = Ok c.
Proof.
  destruct c as [[] [] [] [] [] [] [] []]; vm_compute; try discriminate; intros [= <-];
    (split; [split; [discriminate|reflexivity]|split; reflexivity]).
Qed.

Lemma digit_at_ok i : 0 ≤ i < 36 → ∃ c, digit_at i = Ok c ∧ _digit c = Ok i.
Proof.
  intros Hi. assert (H : Forall (λ n, ∃ c, digit_at (Z.of_nat n) = Ok c ∧ _digit c = Ok (Z.of_nat n)) (seq 0 36)).
  { repeat constructor; eexists; split; vm_compute; reflexivity. }
  rewrite Forall_forall in H. rewrite <- (Z2Nat.id i) by lia. apply H, elem_of_seq. lia.
Qed.

Lemma digit_lt a b i j : _digit a = Ok i → _digit b = Ok j → i < j → code a < code b.
Proof.
  intros [_ [-> _]]%digit_code [_ [-> _]]%digit_code H. repeat case_if; lia.
Qed.
Lemma code_digit_lt a b i j : _digit a = Ok i → _digit b = Ok j → code a < code b → i < j.
Proof.
  intros (? & -> & _)%digit_code (? & -> & _)%digit_code. repeat case_if; lia.
Qed.
Lemma digit_zero c i : _digit c = Ok i → (c = "0"%char ↔ i = 0).
Proof.
  intros H. split; [intros ->; vm_compute in H; by injection H|intros ->].
  apply digit_code in H as (_ & _ & H). vm_compute in H. by injection H.
Qed.

Lemma check_ok rank : _check rank = Ok () ↔ is_rank rank.
Proof.
  assert (Hd : ∀ c, (_ ← _digit c; Ok ()) = Ok () ↔ ∃ i, _digit c = Ok i).
  { intros c. destruct (_digit c); cbn; naive_solver. }
  unfold _check, is_rank, rank_chars, digit_chars. rewrite bind_ok. split.
  - intros ([] & H1 & H2). apply raise_if_ok in H1. apply for_each_ok in H2. bool_prop.
    split; [by intros ?%(chars_inj rank "")|]. split; [done|].
    eapply Forall_impl; [exact H2|]. intros c. apply Hd.
  - intros (H1 & H2 & H3). exists (). rewrite raise_if_ok, for_each_ok. split.
    + apply orb_false_iff. split; apply bool_decide_eq_false; [by intros ->|done].
    + eapply Forall_impl; [exact H3|]. intros c. apply Hd.
Qed.

(** ** The order of the characters *)
Lemma ltb_app_same p s t : chars_ltb (p ++ s) (p ++ t) = chars_ltb s t.
Proof. induction p as [|x p IH]; [done|]. cbn. by rewrite Z.ltb_irrefl, Z.eqb_refl, IH. Qed.
Lemma ltb_prefix p s : s ≠ [] → chars_ltb p (p ++ s) = true.
Proof.
  intros H. rewrite <- (app_nil_r p) at 1. rewrite ltb_app_same. by destruct s.
Qed.
Lemma ltb_cons x a b : chars_ltb (x :: a) (x :: b) = chars_ltb a b.
Proof. apply (ltb_app_same [x]). Qed.
Lemma ltb_head x y a b : code x < code y → chars_ltb (x :: a) (y :: b) = true.
Proof. intros H. cbn. lia. Qed.
Lemma last_cons_ne {A} (x : A) l : l ≠ [] → last (x :: l) = last l.
Proof. by destruct l. Qed.
Lemma last_app_ne {A} (p l : list A) : l ≠ [] → last (p ++ l) = last l.
Proof.
  induction p as [|x p IH]; [done|]. intros H. cbn [app]. rewrite last_cons_ne; [by apply IH|].
  by intros [_ ?]%app_eq_nil.
Qed.
Lemma rank_chars_app p s : digit_chars p → rank_chars s → rank_chars (p ++ s).
Proof.
  intros Hp (H1 & H2 & H3). split; [by intros [_ ?]%app_eq_nil|].
  split; [by rewrite last_app_ne|]. by apply Forall_app.
Qed.
Lemma rank_chars_one c i : _digit c = Ok i → 0 < i → rank_chars [c].
Proof.
  intros H Hi. split; [done|]. split; [|by repeat econstructor].
  intros [= ->]. vm_compute in H. injection H as <-. lia.
Qed.

(** ** [_shared] *)
(** The value of the first digit, [0] past the end. *)
Definition head_digit (l : list ascii) (i : Z) : Prop :=
  match l with [] => i = 0 | c :: _ => _digit c = Ok i end.

Lemma shared_spec high : ∀ low,
  chars_ltb low high = true → digit_chars low → rank_chars high →
  ∃ k c hs lo hi, _shared low high = Ok k ∧ drop k high = c :: hs ∧
    head_digit (drop k low) lo ∧ _digit c = Ok hi ∧ lo < hi ∧
    (∀ s, s ≠ [] → chars_ltb (drop k low) s = true → chars_ltb low (take k high ++ s) = true).
Proof.
  induction high as [|h high IH]; intros low Hlt Hlow (_ & Hlast & Hhigh).
  { by destruct low. }
  apply Forall_cons in Hhigh as [[i Hi] Hhigh]. cbn [_shared].
  assert (Hne : high ≠ [] → rank_chars high).
  { intros H. split; [done|]. by rewrite last_cons_ne in Hlast. }
  destruct low as [|l low].
  - case_bool_decide as E.
    + assert (high ≠ []) by (intros ->; by subst).
      destruct (IH []) as (k & c & hs & lo & hi & E1 & E2 & E3 & E4 & E5 & _);
        [by destruct high|constructor|by apply Hne|].
      cbn [tail]. rewrite E1. exists (S k), c, hs, lo, hi. rewrite drop_nil in *.
      split_and!; [done..|]. intros s Hs _. cbn. done.
    + exists 0%nat, h, high, 0, i. split_and!; [done..| |done].
      apply digit_code in Hi as Hb. pose proof (digit_zero h i Hi).
      destruct (decide (i = 0)); [|lia]. exfalso. apply E. symmetry. tauto.
  - apply Forall_cons in Hlow as [[j Hj] Hlow]. case_bool_decide as E.
    + subst l. rewrite ltb_cons in Hlt. assert (high ≠ []) by (intros ->; by destruct low).
      destruct (IH low) as (k & c & hs & lo & hi & E1 & E2 & E3 & E4 & E5 & E6); [done|done|by apply Hne|].
      cbn [tail]. rewrite E1. exists (S k), c, hs, lo, hi.
      split_and!; [done..|]. intros s Hs H0. cbn [take app drop] in *. rewrite ltb_cons. auto.
    + exists 0%nat, h, high, j, i. split_and!; [done..| |done].
      cbn in Hlt. apply orb_true_iff in Hlt as [Hlt|[Hlt _]%andb_true_iff].
      * eapply code_digit_lt; [done..|lia].
      * exfalso. apply E, code_inj. lia.
Qed.

(** ** [_midpoint] *)
Lemma loop_none fuel : ∀ low prefix,
  (length low < fuel)%nat → digit_chars low →
  ∃ s, midpoint_loop fuel prefix low None = Ok (prefix ++ s) ∧ rank_chars s ∧
    chars_ltb low s = true.
Proof.
  induction fuel as [|fuel IH]; intros low prefix Hf Hd; [lia|]. cbn [midpoint_loop].
  rewrite bind_Ok_l. set (d := match low with [] => Ok 0 | c :: _ => _digit c end).
  assert (∃ lo, d = Ok lo ∧ 0 ≤ lo < 36 ∧ head_digit low lo) as (lo & -> & Hb & Hh).
  { subst d. destruct low as [|c low]; [by exists 0|].
    apply Forall_cons in Hd as [[i Hi] _]. exists i. split; [done|].
    destruct (digit_code _ _ Hi) as (Hb & _ & _). split; [lia|exact Hi]. }
  rewrite !bind_Ok_l. unfold _BASE. case_if.
  - destruct (digit_at_ok ((lo + 36) / 2)) as (c & -> & Hc); [lia|]. rewrite bind_Ok_l.
    exists [c]. split; [done|]. split; [eapply rank_chars_one; [done|lia]|].
    destruct low as [|x low]; [done|]. apply ltb_head. eapply digit_lt; [done..|lia].
  - destruct low as [|x low]; [cbn in Hh; lia|]. cbn [length tail] in *.
    apply Forall_cons in Hd as [_ Hd]. cbn in Hh.
    assert (digit_at lo = Ok x) as -> by (by destruct (digit_code _ _ Hh) as (_ & _ & ?)). rewrite bind_Ok_l.
    destruct (IH low (prefix ++ [x])) as (s & -> & Hs & Hlt); [lia|done|].
    exists (x :: s). rewrite <- app_assoc. split; [done|]. rewrite ltb_cons. split; [|done].
    apply (rank_chars_app [x]); [by repeat econstructor|done].
Qed.

Lemma loop_some fuel low high :
  (length low + 2 ≤ fuel)%nat → digit_chars low → rank_chars high → chars_ltb low high = true →
  ∃ s, midpoint_loop fuel [] low (Some high) = Ok s ∧ rank_chars s ∧
    chars_ltb low s = true ∧ chars_ltb s high = true.
Proof.
  intros Hf Hd Hr Hlt. destruct fuel as [|fuel]; [lia|]. cbn [midpoint_loop].
  destruct (shared_spec high low Hlt Hd Hr) as (k & c & hs & lo & hi & -> & Ehigh & Hlo & Hhi & Hlohi & Hup).
  rewrite bind_Ok_l.
  assert ((if (0 <? k)%nat then Ok ([] ++ take k high, drop k low, Some (drop k high))
           else Ok ([], low, Some high)) =
          Ok (E := rank_exc) (take k high, drop k low, Some (c :: hs))) as ->.
  { rewrite <- Ehigh. destruct k; [by rewrite !drop_0|done]. }
  rewrite bind_Ok_l.
  assert (Htake : high = take k high ++ c :: hs) by (by rewrite <- Ehigh, take_drop).
  destruct Hr as (Hne & Hlast & Hdh).
  assert (Hdp : digit_chars (take k high)) by (by apply Forall_take).
  assert (Hdl : digit_chars (drop k low)) by (by apply Forall_drop).
  assert (Hll : (length (drop k low) ≤ length low)%nat) by (rewrite length_drop; lia).
  generalize dependent (take k high). intros p Hup Htake Hdp.
  generalize dependent (drop k low). intros l Hlo Hdl Hll Hup.
  assert (match l with [] => Ok 0 | x :: _ => _digit x end = Ok lo) as ->.
  { destruct l; cbn in Hlo; [by rewrite Hlo|done]. }
  rewrite Hhi, !bind_Ok_l. apply digit_code in Hhi as Hhb. destruct Hhb as (Hb & _ & _).
  assert (0 ≤ lo).
  { unfold head_digit in Hlo. destruct l; [lia|]. apply digit_code in Hlo. lia. }
  assert (Habove : ∀ x i s, _digit x = Ok i → lo < i → chars_ltb low (p ++ x :: s) = true).
  { intros x i s Hx Hi. apply Hup; [done|]. unfold head_digit in Hlo. destruct l as [|y l']; [done|].
    apply ltb_head. by eapply digit_lt. }
  assert (Hbelow : ∀ s, chars_ltb s (c :: hs) = true → chars_ltb (p ++ s) high = true).
  { intros s Hs. by rewrite Htake, ltb_app_same. }
  case_if.
  - destruct (digit_at_ok ((lo + hi) / 2)) as (x & -> & Hx); [lia|]. rewrite bind_Ok_l.
    eexists. split; [done|]. split; [apply rank_chars_app; [done|eapply rank_chars_one; [done|lia]]|].
    split; [eapply Habove; [done|lia]|]. apply Hbelow, ltb_head. eapply digit_lt; [done..|lia].
  - destruct hs as [|c2 hs].
    + destruct (digit_at_ok lo) as (x & -> & Hx); [lia|]. rewrite bind_Ok_l.
      destruct (loop_none fuel (tail l) (p ++ [x])) as (s & -> & Hs & Hls).
      { destruct l; cbn in *; lia. }
      { destruct l; [constructor|]. by apply Forall_cons in Hdl as [_ ?]. }
      eexists. split; [done|]. rewrite <- app_assoc. cbn [app].
      split; [apply rank_chars_app; [done|]; apply (rank_chars_app [x]); [by repeat econstructor|done]|].
      split; [|apply Hbelow, ltb_head; by eapply digit_lt].
      apply Hup; [done|]. unfold head_digit in Hlo. destruct l as [|y l']; [done|].
      cbn [tail] in Hls. assert (x = y) as ->.
      { apply digit_code in Hlo as (_ & _ & Hlo). apply digit_code in Hx as (_ & _ & Hx). congruence. }
      by rewrite ltb_cons.
    + eexists. split; [done|].
      split; [apply rank_chars_app; [done|eapply rank_chars_one; [done|lia]]|].
      split; [by eapply Habove|]. apply Hbelow. by apply (ltb_prefix [c] (c2 :: hs)).
Qed.

Definition below (low : option string) (s : string) : Prop :=
  match low with None => True | Some l => str_ltb l s = true end.
Definition above (high : option string) (s : string) : Prop :=
  match high with None => True | Some h => str_ltb s h = true end.
Definition bound_ok (b : option string) : Prop :=
  match b with None => True | Some s => is_rank s end.

Lemma between_facts low high :
  bound_ok low → bound_ok high →
  (∀ l h, low = Some l → high = Some h → str_ltb l h = true) →
  ∃ s, between low high = Ok s ∧ is_rank s ∧ below low s ∧ above high s.
Proof.
  intros Hl Hh Hlt. unfold between.
  assert (match low with Some l => _check l | None => Ok () end = Ok ()) as ->.
  { destruct low; [by apply check_ok|done]. }
  assert (match high with Some h => _check h | None => Ok () end = Ok ()) as ->.
  { destruct high; [by apply check_ok|done]. }
  rewrite !bind_Ok_l.
  assert (match low, high with Some l, Some h => raise_if (str_leb h l) RankError | _, _ => Ok () end = Ok ()) as ->.
  { destruct low as [l|], high as [h|]; [|done..]. apply raise_if_ok. unfold str_leb.
    by rewrite (Hlt l h). }
  rewrite bind_Ok_l. unfold _midpoint.
  set (lo := match low with Some l => l | None => "" end).
  assert (Hdl : digit_chars (chars lo)).
  { subst lo. destruct low as [l|]; [by destruct Hl as (_ & _ & ?)|constructor]. }
  assert (Hfin : ∀ s, rank_chars s → chars_ltb (chars lo) s = true →
                 is_rank (of_chars s) ∧ below low (of_chars s)).
  { intros s Hs H. unfold is_rank, below, str_ltb. rewrite chars_of_chars. split; [done|].
    subst lo. by destruct low. }
  destruct high as [h|]; cbn [fmap option_fmap option_map].
  - assert (Hlt' : chars_ltb (chars lo) (chars h) = true).
    { subst lo. destruct low as [l|]; [by apply (Hlt l h)|]. destruct Hh as (H & _ & _).
      by destruct (chars h). }
    destruct (loop_some (length (chars lo) + 2) (chars lo) (chars h)) as (s & -> & Hs & H1 & H2);
      [lia|done..|].
    exists (of_chars s). split; [done|]. destruct (Hfin s Hs H1) as [H3 H4]. split; [done|].
    split; [done|]. unfold above, str_ltb. by rewrite chars_of_chars.
  - destruct (loop_none (length (chars lo) + 2) (chars lo) []) as (s & -> & Hs & H1); [lia|done|].
    exists (of_chars s). split; [done|]. destruct (Hfin s Hs H1). done.
Qed.

Lemma check_cases rank : _check rank = Ok () ∨ _check rank = Err RankError.
Proof.
  unfold _check. destruct (_ || _); cbn; [by right|].
  induction (chars rank) as [|c l IH]; cbn; [by left|].
  unfold _digit. destruct (index_of c (chars DIGITS)); cbn; [done|by right].
Qed.

Definition in_order (low high : option string) : Prop :=
  bound_ok low ∧ bound_ok high ∧ (∀ l h, low = Some l → high = Some h → str_ltb l h = true).
Lemma between_cases low high :
  (in_order low high ∧ ∃ s, between low high = Ok s ∧ is_rank s ∧ below low s ∧ above high s) ∨
  (¬ in_order low high ∧ between low high = Err RankError).
Proof.
  unfold in_order, between.
  destruct (match low with Some l => _check l | None => Ok () end) as [[]|e] eqn:El.
  2:{ right. split; [intros [H _]; destruct low as [l|]; [|done]; apply check_ok in H; congruence|].
      destruct low as [l|]; [|done]. destruct (check_cases l) as [H|H]; rewrite H in El; by simplify_eq/=. }
  destruct (match high with Some h => _check h | None => Ok () end) as [[]|e] eqn:Eh.
  2:{ right. split; [intros (_ & H & _); destruct high as [h|]; [|done]; apply check_ok in H; congruence|].
      destruct high as [h|]; [|done]. destruct (check_cases h) as [H|H]; rewrite H in Eh; by simplify_eq/=. }
  assert (Hl : bound_ok low) by (destruct low; [by apply check_ok|done]).
  assert (Hh : bound_ok high) by (destruct high; [by apply check_ok|done]).
  assert (Hd : (∀ l h, low = Some l → high = Some h → str_ltb l h = true) ∨
               ∃ l h, low = Some l ∧ high = Some h ∧ str_ltb l h = false).
  { destruct low as [l|], high as [h|]; [|left; by intros ???..].
    destruct (str_ltb l h) eqn:E; [left; by intros ?? [= <-] [= <-]|right; eauto]. }
  destruct Hd as [Hlt|(l & h & -> & -> & Hlt)].
  - left. split; [done|]. destruct (between_facts low high Hl Hh Hlt) as (s & Hs & H).
    exists s. split; [|done]. unfold between in Hs. by rewrite El, Eh in Hs.
  - right. split; [intros (_ & _ & H); rewrite (H l h) in Hlt by done; done|].
    rewrite !bind_Ok_l. unfold str_leb. by rewrite Hlt.
Qed.

(** C36: [between] decides every pair of bounds: for two ranks in order (or an open end) it
    ends with a valid rank strictly between them, and for every other pair it raises
    [RankError] and nothing else. *)
Lemma between_spec low high :
  let valid := bound_ok low ∧ bound_ok high ∧
    (∀ l h, low = Some l → high = Some h → str_ltb l h = true) in
  (valid ∧ ∃ s, between low high = Ok s ∧ is_rank s ∧ below low s ∧ above high s) ∨
  (¬ valid ∧ between low high = Err RankError).
Proof. apply between_cases. Qed.

(** ** [spread] *)
Lemma digit_char_ok d : 0 ≤ d < 36 → _digit (digit_char d) = Ok d.
Proof. intros H. unfold digit_char. by destruct (digit_at_ok d H) as (c & -> & ?). Qed.

Lemma digit_of_bound v k : 0 ≤ v / _BASE ^ k mod _BASE < 36.
Proof. unfold _BASE. lia. Qed.

Lemma digits_of_digits v w : digit_chars (digits_of v w).
Proof.
  induction w as [|w IH]; cbn [digits_of]; constructor; [|done].
  eexists. apply digit_char_ok, digit_of_bound.
Qed.
Lemma length_digits_of v w : length (digits_of v w) = w.
Proof. induction w as [|w IH]; [done|]. cbn [digits_of length]. by rewrite IH. Qed.

(** The order of the fixed-width numerals is the order of the numbers. *)
Lemma digits_of_lt a b w :
  a mod _BASE ^ Z.of_nat w < b mod _BASE ^ Z.of_nat w →
  chars_ltb (digits_of a w) (digits_of b w) = true.
Proof.
  induction w as [|w IH]; [rewrite !Z.mod_1_r; lia|].
  rewrite Nat2Z.inj_succ, Z.pow_succ_r by lia. rewrite Z.mul_comm.
  assert (0 < _BASE ^ Z.of_nat w) by (apply Z.pow_pos_nonneg; [reflexivity|lia]).
  rewrite !Z.rem_mul_r by (unfold _BASE; lia). intros H1. cbn [digits_of].
  pose proof (digit_of_bound a (Z.of_nat w)) as Ha. pose proof (digit_of_bound b (Z.of_nat w)) as Hb.
  set (da := a / _BASE ^ Z.of_nat w mod _BASE) in *. set (db := b / _BASE ^ Z.of_nat w mod _BASE) in *.
  pose proof (Z.mod_pos_bound a (_BASE ^ Z.of_nat w) ltac:(done)).
  pose proof (Z.mod_pos_bound b (_BASE ^ Z.of_nat w) ltac:(done)).
  set (p := _BASE ^ Z.of_nat w) in *.
  destruct (Z.lt_trichotomy da db) as [Hd|[Hd|Hd]].
  - apply ltb_head. eapply digit_lt; [apply digit_char_ok..|]; done.
  - rewrite Hd, ltb_cons. apply IH. nia.
  - exfalso. nia.
Qed.

Lemma rstrip_split l :
  ∃ r n, chars (py_rstrip_char "0" (of_chars l)) = r ∧ l = r ++ replicate n "0"%char ∧
    last r ≠ Some "0"%char.
Proof.
  unfold py_rstrip_char. rewrite !chars_of_chars.
  induction l as [|c l IH] using rev_ind; [by exists [], 0%nat|].
  rewrite reverse_snoc. cbn [drop_while].
  case_bool_decide as E.
  - destruct IH as (r & n & E1 & E2 & E3). subst c.
    exists r, (S n). split; [exact E1|]. split; [|done].
    rewrite E2 at 1. rewrite <- app_assoc. f_equal.
    change ["0"%char] with (replicate 1 "0"%char). rewrite <- replicate_add.
    by rewrite Nat.add_comm.
  - eexists _, 0%nat. split; [reflexivity|]. cbn [replicate]. rewrite app_nil_r.
    rewrite reverse_cons, reverse_involutive. split; [done|].
    rewrite last_snoc. by intros [= ->].
Qed.

Lemma zeros_least l n : digit_chars l → length l = n → chars_ltb l (replicate n "0"%char) = false.
Proof.
  revert n; induction l as [|c l IH]; intros [|n] Hd Hn; try done. cbn [length] in Hn.
  apply Forall_cons in Hd as [[i Hi] Hd]. cbn. rewrite IH by (done || lia).
  destruct (digit_code c i Hi) as (Hb & Hc & _).
  assert (code "0" = 48) by reflexivity. rewrite Hc. case_if; lia.
Qed.

(** Trailing zeros go without a change of the order. *)
Lemma strip_lt r1 : ∀ r2 n1 n2,
  length (r1 ++ replicate n1 "0"%char) = length (r2 ++ replicate n2 "0"%char) →
  digit_chars r1 → digit_chars (replicate n1 "0"%char) → last r2 ≠ Some "0"%char →
  chars_ltb (r1 ++ replicate n1 "0"%char) (r2 ++ replicate n2 "0"%char) = true →
  chars_ltb r1 r2 = true.
Proof.
  induction r1 as [|x r1 IH]; intros [|y r2] n1 n2 Hlen H1 H2 Hlast Hlt.
  - cbn [app] in *. rewrite !length_replicate in Hlen. subst. by rewrite chars_ltb_irrefl in Hlt.
  - done.
  - cbn [app] in Hlt, Hlen. rewrite length_replicate in Hlen.
    change (x :: r1 ++ replicate n1 "0"%char) with ((x :: r1) ++ replicate n1 "0"%char) in Hlt, Hlen.
    rewrite zeros_least in Hlt; [done| |done]. by apply Forall_app.
  - apply Forall_cons in H1 as [_ H1]. cbn [app] in *. cbn in Hlt |- *.
    apply orb_true_iff in Hlt as [Hlt|[Hc Hlt]%andb_true_iff]; [by rewrite Hlt|].
    rewrite Hc. rewrite (IH r2 n1 n2); [by rewrite orb_true_r| |done|done| |done].
    + cbn in Hlen. lia.
    + destruct r2; [done|]. by rewrite last_cons_ne in Hlast.
Qed.

Lemma rstrip_lt a b :
  length a = length b → digit_chars a → digit_chars b → chars_ltb a b = true →
  str_ltb (py_rstrip_char "0" (of_chars a)) (py_rstrip_char "0" (of_chars b)) = true ∧
  is_rank (py_rstrip_char "0" (of_chars b)).
Proof.
  intros Hlen Ha Hb Hlt. unfold str_ltb, is_rank.
  destruct (rstrip_split a) as (r1 & n1 & -> & -> & _).
  destruct (rstrip_split b) as (r2 & n2 & -> & -> & L2).
  apply Forall_app in Ha as [Ha1 Ha2]. apply Forall_app in Hb as [Hb1 Hb2].
  assert (H : chars_ltb r1 r2 = true) by (eapply strip_lt; eauto).
  split; [done|]. split; [|done]. intros ->. by destruct r1.
Qed.

Lemma first_width_spec fuel : ∀ w count,
  count < _BASE ^ Z.of_nat (w + fuel) → count < _BASE ^ Z.of_nat (first_width fuel w count).
Proof.
  induction fuel as [|fuel IH]; intros w count H; cbn [first_width].
  - by rewrite Nat.add_0_r in H.
  - case_if; [lia|]. apply IH. by replace (S w + fuel)%nat with (w + S fuel)%nat by lia.
Qed.
Lemma spread_width_spec count : Z.of_nat count < _BASE ^ Z.of_nat (spread_width count).
Proof.
  apply first_width_spec. unfold _BASE.
  assert (Z.of_nat (1 + S count) < 36 ^ Z.of_nat (1 + S count)) by (apply Z.pow_gt_lin_r; lia). lia.
Qed.

Definition ascending : list string → Prop := StronglySorted (λ a b, str_ltb a b = true).

Lemma ascending_seq (f : nat → string) n : ∀ s,
  (∀ i j, (s ≤ i)%nat → (i < j)%nat → (j < s + n)%nat → str_ltb (f i) (f j) = true) →
  ascending (f <$> seq s n).
Proof.
  induction n as [|n IH]; intros s H; cbn; [constructor|]. constructor.
  - apply IH. intros i j ???. apply H; lia.
  - apply Forall_fmap, Forall_forall. intros j ?%elem_of_seq. cbn. apply H; lia.
Qed.

(** A fresh order has one valid rank per card, in strictly ascending order. *)
Lemma spread_spec count :
  length (spread count) = count ∧ Forall is_rank (spread count) ∧ ascending (spread count).
Proof.
  unfold spread. pose proof (spread_width_spec count) as Hw.
  set (w := spread_width count) in *. set (total := _BASE ^ Z.of_nat w) in *.
  set (step := total / (Z.of_nat count + 1)).
  assert (Hstep : 1 ≤ step) by (apply Z.div_le_lower_bound; lia).
  assert (Hmul : (Z.of_nat count + 1) * step ≤ total) by (apply Z.mul_div_le; lia).
  assert (Hlt : ∀ i j, 0 ≤ i → i < j → j ≤ Z.of_nat count →
    str_ltb (py_rstrip_char "0" (_digits (i * step) w)) (py_rstrip_char "0" (_digits (j * step) w)) = true ∧
    is_rank (py_rstrip_char "0" (_digits (j * step) w))).
  { intros i j Hi Hij Hj. apply rstrip_lt; [by rewrite !length_digits_of|apply digits_of_digits..|].
    apply digits_of_lt. fold total. rewrite !Z.mod_small by nia. nia. }
  split; [by rewrite length_fmap, length_seq|]. split.
  - apply Forall_fmap, Forall_forall. intros i Hi%elem_of_seq. cbn. apply (Hlt 0); lia.
  - apply ascending_seq. intros i j ???. apply Hlt; lia.
Qed.

(** ** Appended cards *)
Lemma chain_from_spec n : ∀ first,
  is_rank first →
  ∃ l, chain_from first n = Ok l ∧ length l = S n ∧ Forall is_rank l ∧ head l = Some first ∧
    ascending l.
Proof.
  induction n as [|n IH]; intros first Hr; cbn [chain_from].
  - exists [first]. split_and!; try done; [by constructor|repeat constructor].
  - destruct (between_facts (Some first) None) as (s & -> & Hs & Hlt & _); [done..|].
    cbn [below] in Hlt. destruct (IH s Hs) as (l & E & Hlen & Hl & Hh & Ha).
    rewrite bind_Ok_l, E. exists (first :: l). split_and!; [done|cbn; lia|by constructor|done|].
    destruct l as [|x l]; [done|]. injection Hh as ->. constructor; [done|].
    constructor; [done|]. inversion_clear Ha as [|?? _ Hall].
    eapply Forall_impl; [exact Hall|]. intros y. by apply str_ltb_trans.
Qed.

Lemma chain_spec last n :
  bound_ok last →
  ∃ l, _chain last n = Ok l ∧ length l = n ∧ Forall is_rank l ∧ Forall (below last) l ∧ ascending l.
Proof.
  intros Hb. destruct n as [|n]; [exists []; split_and!; try done; constructor|]. cbn [_chain].
  destruct (between_facts last None) as (s & -> & Hs & Hlt & _); [done..|].
  destruct (chain_from_spec n s Hs) as (l & E & Hlen & Hl & Hh & Ha).
  rewrite bind_Ok_l, E. exists l. split_and!; try done.
  destruct l as [|x l]; [done|]. injection Hh as ->. constructor; [done|].
  inversion_clear Ha as [|?? _ Hall]. eapply Forall_impl; [exact Hall|].
  intros y Hy. unfold below in *. destruct last as [b|]; [|done]. by eapply str_ltb_trans.
Qed.

Section GroupingFacts.
Context {V : Type}.
Implicit Types (l pairs : list (string * V)).
Definition values_of (k : string) l : list V := (filter (λ p, p.1 = k) l).*2.

Lemma values_of_cons k p l :
  values_of k (p :: l) = if decide (p.1 = k) then p.2 :: values_of k l else values_of k l.
Proof. unfold values_of. rewrite filter_cons. by case_decide. Qed.

(** Over pairs in the order of a rank of their keys, the groups are the keys with all their
    values. *)
Lemma groupby_spec (f : string → nat) l :
  (∀ x y, x ∈ l.*1 → y ∈ l.*1 → f x = f y → x = y) →
  StronglySorted (λ p q, (f p.1 ≤ f q.1)%nat) l →
  (∀ k vs g, groupby l = (k, vs) :: g → ∃ v r, l = (k, v) :: r) ∧
  NoDup (groupby l).*1 ∧ (∀ k, k ∈ (groupby l).*1 ↔ k ∈ l.*1) ∧
  ∀ k vs, (k, vs) ∈ groupby l → vs = values_of k l.
Proof.
  intros Hinj Hs. induction Hs as [|[k v] r Hs IH Hle]; [cbn; split_and!; try done; [constructor|set_solver]|].
  destruct IH as (Hhd & Hnd & Hkeys & Hvs).
  { intros x y Hx Hy. apply Hinj; cbn; by right. }
  cbn [groupby]. destruct (groupby r) as [|[k' vs'] g] eqn:Eg.
  - cbn in Hkeys. split_and!; [by intros ??? [= <- <- <-]; eauto|cbn; apply NoDup_singleton| |].
    + intros x. cbn. rewrite !list_elem_of_In. cbn. rewrite <- !list_elem_of_In, <- Hkeys. set_solver.
    + intros x vs [= -> ->]%list_elem_of_singleton. rewrite values_of_cons. cbn [fst snd].
      rewrite decide_True by done. f_equal. unfold values_of.
      destruct (filter (λ p, p.1 = k) r) as [|[x y] q] eqn:Ef; [done|]. exfalso.
      assert (Hin : (x, y) ∈ filter (λ p, p.1 = k) r) by (rewrite Ef; left).
      apply list_elem_of_filter in Hin as [_ Hin]. apply (list_elem_of_fmap_2 fst) in Hin.
      apply Hkeys in Hin. by apply not_elem_of_nil in Hin.
  - destruct (Hhd k' vs' g eq_refl) as (v' & r' & ->). case_decide as E.
    + subst k'. cbn in Hkeys, Hnd. split_and!; [by intros ??? [= <- <- <-]; eauto|exact Hnd| |].
      * intros x. specialize (Hkeys x). cbn. rewrite !elem_of_cons in *. tauto.
      * intros x vs [H|H]%elem_of_cons; rewrite values_of_cons; cbn [fst snd].
        -- injection H as -> ->. rewrite decide_True by done. f_equal. apply Hvs. left.
        -- rewrite decide_False; [apply Hvs; by right|]. intros <-.
           apply NoDup_cons in Hnd as [Hnot _]. apply Hnot.
           apply (list_elem_of_fmap_2 fst) in H. exact H.
    + assert (Hk : k ∉ ((k', v') :: r').*1).
      { intros Hin. apply E. apply Hinj; [by left|cbn; right; left|].
        apply list_elem_of_fmap in Hin as ([x y] & -> & Hin). cbn in *.
        apply Nat.le_antisymm; [by inversion_clear Hle|].
        apply elem_of_cons in Hin as [[= -> ->]|Hin]; [done|].
        inversion_clear Hs as [|?? _ Hall]. rewrite Forall_forall in Hall.
        by apply (Hall (x, y)). }
      split_and!; [by intros ??? [= <- <- <-]; eauto| | |].
      * cbn [fmap list_fmap]. apply NoDup_cons. split; [|done]. intros H. by apply Hk, Hkeys.
      * intros x. specialize (Hkeys x). cbn in *. rewrite !elem_of_cons in *. tauto.
      * intros x vs [H|H]%elem_of_cons; rewrite values_of_cons; cbn [fst snd].
        -- injection H as -> ->. rewrite decide_True by done. f_equal. unfold values_of.
           rewrite filter_none; [done|]. intros [x y] Hxy. cbn. intros ->. apply Hk.
           by apply (list_elem_of_fmap_2 fst) in Hxy.
        -- rewrite decide_False; [by apply Hvs|]. intros <-. apply Hk, Hkeys.
           by apply (list_elem_of_fmap_2 fst) in H.
Qed.
End GroupingFacts.

Lemma dict_set_fresh {V} k (v : V) d : k ∉ d.*1 → dict_set k v d = d ++ [(k, v)].
Proof.
  induction d as [|[k' v'] d IH]; [done|]. cbn. rewrite not_elem_of_cons. intros [H1 H2].
  rewrite decide_False by done. by rewrite IH.
Qed.
Lemma dict_merge_fresh {V} (b a : list (string * V)) : NoDup (a ++ b).*1 → dict_merge a b = a ++ b.
Proof.
  unfold dict_merge. revert a. induction b as [|[k v] b IH]; intros a H; cbn; [by rewrite app_nil_r|].
  rewrite dict_set_fresh.
  - rewrite IH; rewrite <- app_assoc; done.
  - rewrite fmap_app in H. apply NoDup_app in H as (_ & H & _). cbn in H.
    intros Hin. apply (H k Hin). left.
Qed.

Lemma first_of_key_inj keys x y :
  x ∈ keys → y ∈ keys → first_of_key keys x = first_of_key keys y → x = y.
Proof.
  intros [i Hi]%index_of_elem [j Hj]%index_of_elem. unfold first_of_key. rewrite Hi, Hj.
  intros ->. apply index_of_Some in Hi, Hj. congruence.
Qed.

#[local] Existing Instance same_key_dec.
Lemma filter_ext_in {A} (P Q : A → Prop) `{∀ x, Decision (P x)} `{∀ x, Decision (Q x)}
    (l : list A) :
  (∀ x, x ∈ l → P x ↔ Q x) → filter P l = filter Q l.
Proof.
  induction l as [|x l IH]; [done|]. intros Hpq. rewrite !filter_cons.
  rewrite IH by (intros y Hy; apply Hpq; by right). specialize (Hpq x ltac:(left)).
  repeat case_decide; tauto.
Qed.

(** [grouped] keeps every value under its key, in the order of the pairs: a key of the
    pairs maps to exactly its values, any other key is absent. *)
Lemma grouped_spec {V} (pairs : list (string * V)) :
  NoDup (grouped pairs).*1 ∧ (∀ k, k ∈ (grouped pairs).*1 ↔ k ∈ pairs.*1) ∧
  ∀ k vs, (k, vs) ∈ grouped pairs → vs = (filter (λ p, p.1 = k) pairs).*2.
Proof.
  unfold grouped. set (f := first_of_key (fromkeys pairs.*1)).
  set (leb := λ p q : string * V, (f p.1 <=? f q.1)%nat).
  assert (Htot : ∀ p q, leb p q = true ∨ leb q p = true) by (intros p q; unfold leb; rewrite !Nat.leb_le; lia).
  assert (Htr : ∀ p q r, leb p q = true → leb q r = true → leb p r = true)
    by (intros p q r; unfold leb; rewrite !Nat.leb_le; lia).
  assert (Hin : ∀ x y, x ∈ pairs.*1 → y ∈ pairs.*1 → f x = f y → x = y).
  { intros x y Hx Hy. apply first_of_key_inj; by rewrite elem_of_fromkeys. }
  assert (Hp : ∀ k, k ∈ (sort_by leb pairs).*1 ↔ k ∈ pairs.*1).
  { intros k. by rewrite (sort_by_Permutation leb pairs). }
  destruct (groupby_spec f (sort_by leb pairs)) as (_ & Hnd & Hk & Hv).
  { intros x y Hx%Hp Hy%Hp. by apply Hin. }
  { eapply StronglySorted_ind with (P := λ l, StronglySorted (λ p q, (f p.1 ≤ f q.1)%nat) l);
      [constructor| |by apply (sort_by_sorted leb)].
    intros p l _ IH Hall. constructor; [done|]. eapply Forall_impl; [exact Hall|].
    intros q. unfold leb. cbn. by rewrite Nat.leb_le. }
  assert (Hm : dict_of_pairs (groupby (sort_by leb pairs)) = groupby (sort_by leb pairs)).
  { unfold dict_of_pairs. by rewrite dict_merge_fresh. }
  rewrite Hm. split; [done|]. split; [intros k; by rewrite Hk, Hp|].
  intros k vs H. assert (Hkk : k ∈ pairs.*1).
  { apply Hp, Hk. by apply (list_elem_of_fmap_2 fst) in H. }
  apply Hv in H as ->. unfold values_of. f_equal.
  pose proof Hkk as ([k0 v0] & -> & _)%list_elem_of_fmap. cbn [fst] in *.
  assert (Hsame : ∀ p, p ∈ pairs → p.1 = k0 ↔ same_key leb (k0, v0) p).
  { intros p Hpin%(list_elem_of_fmap_2 fst). unfold same_key, leb. cbn. rewrite !Nat.leb_le. split.
    - by intros <-.
    - intros [H1 H2]. symmetry. apply Hin; [done|done|lia]. }
  rewrite !(filter_ext_in (λ p, p.1 = k0) (same_key leb (k0, v0)));
    [by apply (sort_by_stable leb)|done|].
  intros p Hpin. apply Hsame. by rewrite <- (sort_by_Permutation leb pairs).
Qed.

Lemma nat_get_elem {V} i (v : V) d : nat_get i d = Some v → (i, v) ∈ d.
Proof.
  induction d as [|[j w] d IH]; [done|]. cbn. case_decide; [intros [= ->]; subst; left|].
  intros Hg. right. auto.
Qed.
Lemma nat_get_key {V} i (d : list (nat * V)) : i ∈ d.*1 → ∃ v, nat_get i d = Some v.
Proof.
  induction d as [|[j w] d IH]; cbn; [by intros ?%not_elem_of_nil|].
  intros [->|H]%elem_of_cons; [rewrite decide_True by done; eauto|case_decide; eauto].
Qed.

Lemma lookup_all_ok {V} (d : list (nat * V)) l :
  (∀ i, i ∈ l → i ∈ d.*1) →
  ∃ vs, lookup_all d l = Ok vs ∧ length vs = length l ∧
    ∀ n i v, l !! n = Some i → vs !! n = Some v → (i, v) ∈ d.
Proof.
  induction l as [|i l IH]; intros H; cbn [lookup_all]; [by exists []|].
  destruct (nat_get_key i d) as [v Hv]; [apply H; left|]. rewrite Hv.
  destruct IH as (vs & -> & Hlen & Hvs); [intros j Hj; apply H; by right|].
  exists (v :: vs). split; [done|]. split; [cbn; lia|].
  intros [|n] j w; cbn; [intros [= <-] [= <-]; by apply nat_get_elem|apply Hvs].
Qed.

(** Where the pairs of [ranks_of_slots] come from. *)
Definition from_slot (slots : list (string * list nat)) (last : list (string * option string))
    (i : nat) (r : string) : Prop :=
  ∃ k indexes l chain n, (k, indexes) ∈ slots ∧ dict_get k last = Some l ∧
    _chain l (length indexes) = Ok chain ∧ indexes !! n = Some i ∧ chain !! n = Some r.

Lemma ranks_of_slots_spec last slots :
  (∀ k, k ∈ slots.*1 → ∃ l, dict_get k last = Some l ∧ bound_ok l) →
  ∃ d, ranks_of_slots slots last = Ok d ∧
    (∀ k indexes i, (k, indexes) ∈ slots → i ∈ indexes → i ∈ d.*1) ∧
    (∀ i r, (i, r) ∈ d → from_slot slots last i r).
Proof.
  induction slots as [|[k indexes] slots IH]; intros Hlast; cbn [ranks_of_slots].
  - exists []. split; [done|]. split; [by intros ??? ?%not_elem_of_nil|by intros ?? ?%not_elem_of_nil].
  - destruct (Hlast k) as (l & El & Hl); [left|]. rewrite El, bind_Ok_l.
    destruct (chain_spec l (length indexes) Hl) as (chain & Ec & Hlen & _). rewrite Ec, bind_Ok_l.
    destruct IH as (d & -> & Hk & Hd); [intros k' Hk'; apply Hlast; by right|]. rewrite bind_Ok_l.
    eexists. split; [done|]. split.
    + intros k' is' i [[= -> ->]|Hs]%elem_of_cons Hi; rewrite fmap_app, elem_of_app.
      * left. rewrite fst_zip by lia. done.
      * right. by eapply Hk.
    + intros i r [Hz|Hr]%elem_of_app.
      * apply list_elem_of_lookup in Hz as [n Hn]. apply lookup_zip_with_Some in Hn as (x & y & [= <- <-] & Hx & Hy).
        exists k, indexes, l, chain, n. split_and!; try done. left.
      * destruct (Hd i r Hr) as (k' & is' & l' & c' & n & H1 & H2). exists k', is', l', c', n.
        split; [by right|done].
Qed.

(** The indexes of one column, in order. *)
Definition indexes_of (columns : list string) (k : string) : list nat :=
  (filter (λ p, p.1 = k) (imap (λ index column_id, (column_id, index)) columns)).*2.

Lemma indexes_of_spec columns k i : i ∈ indexes_of columns k ↔ columns !! i = Some k.
Proof.
  unfold indexes_of. rewrite list_elem_of_fmap. split.
  - intros ([k' j] & -> & [Hk Hin]%list_elem_of_filter). cbn in *. subst.
    apply elem_of_lookup_imap_1 in Hin as (n & x & [= <- <-] & ?). done.
  - intros H. exists (k, i). split; [done|]. apply list_elem_of_filter. split; [done|].
    apply elem_of_lookup_imap. eauto.
Qed.

Lemma indexes_of_sorted columns k : ∀ s,
  StronglySorted lt (filter (λ p : string * nat, p.1 = k)
    (imap (λ index column_id, (column_id, (s + index)%nat)) columns)).*2.
Proof.
  induction columns as [|c columns IH]; intros s; cbn [imap]; [constructor|].
  rewrite filter_cons. cbn [fst].
  assert (E : imap ((λ index column_id, (column_id, (s + index)%nat)) ∘ S) columns =
              imap (λ index column_id, (column_id, (S s + index)%nat)) columns).
  { apply imap_ext. intros i x _. cbn. f_equal. lia. }
  rewrite E. case_decide; [|apply IH]. cbn [fmap list_fmap snd]. constructor; [apply IH|].
  apply Forall_fmap, Forall_forall. intros [x i] [_ Hin]%list_elem_of_filter. cbn.
  apply elem_of_lookup_imap_1 in Hin as (n & y & [= -> ->] & _). lia.
Qed.

(** The chain of its column that the rank of a card comes from. *)
Lemma appended_ranks_source columns last :
  (∀ c, c ∈ columns → ∃ l, dict_get c last = Some l ∧ bound_ok l) →
  ∃ ranks, _appended_ranks columns last = Ok ranks ∧ length ranks = length columns ∧
    ∀ i c r, columns !! i = Some c → ranks !! i = Some r →
    ∃ l chain n, dict_get c last = Some l ∧ _chain l (length (indexes_of columns c)) = Ok chain ∧
      indexes_of columns c !! n = Some i ∧ chain !! n = Some r.
Proof.
  intros Hlast. unfold _appended_ranks.
  set (pairs := imap (λ index column_id, (column_id, index)) columns).
  destruct (grouped_spec pairs) as (_ & Hkeys & Hvals).
  assert (Hcol : ∀ k, k ∈ pairs.*1 → k ∈ columns).
  { intros k ([k' i] & -> & Hin)%list_elem_of_fmap.
    apply elem_of_lookup_imap_1 in Hin as (n & y & [= -> ->] & Hy). cbn.
    by eapply list_elem_of_lookup_2. }
  destruct (ranks_of_slots_spec last (grouped pairs)) as (d & -> & Hd & Hfrom).
  { intros k Hk%Hkeys%Hcol. by apply Hlast. }
  rewrite bind_Ok_l.
  destruct (lookup_all_ok d (seq 0 (length columns))) as (ranks & E & Hlen & Hr).
  { intros i [_ [c Hc]%lookup_lt_is_Some]%elem_of_seq.
    assert (Hk : c ∈ (grouped pairs).*1).
    { apply Hkeys, list_elem_of_fmap. exists (c, i). split; [done|].
      apply elem_of_lookup_imap. eauto. }
    apply list_elem_of_fmap in Hk as ([c' vs] & Hc' & Hin). cbn in Hc'. subst c'.
    apply (Hd c vs); [done|]. rewrite (Hvals c vs Hin). by apply indexes_of_spec. }
  rewrite length_seq in Hlen. exists ranks. split; [done|]. split; [done|].
  intros i c r Hc Hri. apply lookup_lt_Some in Hc as Hi.
  assert (Hin : (i, r) ∈ d) by (apply (Hr i i); [by rewrite lookup_seq_lt|done]).
  destruct (Hfrom i r Hin) as (k & vs & l & chain & n & Hs & Hl & Hch & Hn & Hcn).
  apply Hvals in Hs as ->. fold (indexes_of columns k) in *.
  assert (k = c) as ->.
  { apply list_elem_of_lookup_2, indexes_of_spec in Hn. congruence. }
  by exists l, chain, n.
Qed.

(** Every appended card gets a valid rank after the last rank of its column, and the
    cards of one column keep their order. *)
Lemma appended_ranks_spec columns last :
  (∀ c, c ∈ columns → ∃ l, dict_get c last = Some l ∧ bound_ok l) →
  ∃ ranks, _appended_ranks columns last = Ok ranks ∧ length ranks = length columns ∧
    (∀ i c l r, columns !! i = Some c → dict_get c last = Some l → ranks !! i = Some r →
       is_rank r ∧ below l r) ∧
    (∀ i j c r s, (i < j)%nat → columns !! i = Some c → columns !! j = Some c →
       ranks !! i = Some r → ranks !! j = Some s → str_ltb r s = true).
Proof.
  intros Hlast. destruct (appended_ranks_source columns last Hlast) as (ranks & E & Hlen & Hpos).
  exists ranks. split; [done|]. split; [done|].
  split.
  - intros i c l r Hc Hl Hri. destruct (Hpos i c r Hc Hri) as (l' & chain & n & Hl' & Hch & _ & Hcn).
    assert (l' = l) as -> by congruence.
    destruct (Hlast c) as (l2 & Hl2 & Hb); [by eapply list_elem_of_lookup_2|].
    assert (l2 = l) as -> by congruence.
    destruct (chain_spec l (length (indexes_of columns c)) Hb) as (ch & Ech & _ & Hall & Hbel & _).
    assert (ch = chain) as -> by congruence. apply list_elem_of_lookup_2 in Hcn.
    rewrite Forall_forall in Hall, Hbel. auto.
  - intros i j c r s Hij Hci Hcj Hri Hsj.
    destruct (Hpos i c r Hci Hri) as (l & chain & n & Hl & Hch & Hn & Hcn).
    destruct (Hpos j c s Hcj Hsj) as (l' & chain' & m & Hl' & Hch' & Hm & Hcm).
    assert (l' = l) as -> by congruence. assert (chain' = chain) as -> by congruence.
    destruct (Hlast c) as (l2 & Hl2 & Hb); [by eapply list_elem_of_lookup_2|].
    assert (l2 = l) as -> by congruence.
    destruct (chain_spec l (length (indexes_of columns c)) Hb) as (ch & Ech & _ & _ & _ & Hasc).
    assert (ch = chain) as -> by congruence.
    pose proof (indexes_of_sorted columns c 0) as Hsorted. cbn in Hsorted.
    fold (indexes_of columns c) in Hsorted.
    eapply (StronglySorted_lookup (λ a b, str_ltb a b = true) chain n m); [done..|].
    destruct (Nat.lt_trichotomy n m) as [?|[->|Hmn]]; [done| |]; exfalso.
    + assert (i = j) by congruence. lia.
    + pose proof (StronglySorted_lookup lt (indexes_of columns c) m n j i Hsorted Hm Hn Hmn). lia.
Qed.

