(* ===== verification/JsonLogic.v ===== *)
(** The evaluator of the JsonLogic subset behind [visibleIf] and [compute]
    ([shared/jsonlogic.py]).  An expression is a JSON value ([pyval]); the depth counter of
    the code is the number of levels that are left, so the recursion is structural in it.
    A [JsonLogicError] carries its reason; an exception of Python that the module does not
    catch is [JEscaped]. *)

From Stdlib Require Import SpecFloat.
From S2P Require Import Prelude PyStr PyNum PyValue.

Inductive jl_exc :=
| TooDeep | NotOneOperator | UnknownOperator (op : string)
| WrongArity (op : string) | NotANumber | NotAContainer | DivisionByZero | VarPathNotAString
| JEscaped (e : pyexc).
Notation jl := (res jl_exc).

Definition _MAX_DEPTH : nat := 64.
(** [int(s)] refuses more digits than [sys.get_int_max_str_digits()]. *)
Definition max_str_digits : Z := 4300.

Definition _as_args (value : pyval) : list pyval :=
  match value with PList l => l | _ => [value] end.

(** *** [var] *)
Definition _var_spec (path : pyval) : pyval * pyval :=
  match path with
  | PList l => (match l with p :: _ => p | [] => PStr "" end,
                match l with _ :: d :: _ => d | _ => PNone end)
  | _ => (path, PNone)
  end.

Definition py_isdigit (s : string) : bool := negb (bool_decide (s = "")) && forallb is_digit (chars s).
Definition int_of_digits (s : string) : Z := foldl (λ acc c, 10 * acc + digit_val c) 0 (chars s).
(** [current[i]] of a path segment; [None] is [_MISSING]. *)
Definition _step (current : option pyval) (part : string) : jl (option pyval) :=
  match current with
  | Some (PDict d) => Ok (dict_get part d)
  | Some (PList l) =>
      if py_isdigit part then
        if max_str_digits <? py_len part then Err (JEscaped ValueError)
        else if int_of_digits part <? Z.of_nat (length l)
             then Ok (l !! Z.to_nat (int_of_digits part)) else Ok None
      else Ok None
  | _ => Ok None
  end.
(** [reduce(_step, parts, root)]. *)
Fixpoint steps (current : option pyval) (parts : list string) : jl (option pyval) :=
  match parts with
  | [] => Ok current
  | part :: r => next ← _step current part; steps next r
  end.

Definition context := list (string * pyval).
Definition _resolve_var (path : pyval) (ctx : context) : jl pyval :=
  let '(target, default) := _var_spec path in
  match target with
  | PNone => Ok (PDict ctx)
  | PStr s =>
      if bool_decide (s = "") then Ok (PDict ctx)
      else resolved ← steps (Some (PDict ctx)) (py_split "." s);
           Ok (match resolved with Some v => v | None => default end)
  | _ => Err VarPathNotAString
  end.

(** *** Operators *)
Definition _num (value : pyval) : jl float :=
  match value with
  | PInt z => match float_of_int z with Some f => Ok f | None => Err (JEscaped OverflowError) end
  | PFloat f => Ok f
  | _ => Err NotANumber
  end.
Fixpoint nums (args : list pyval) : jl (list float) :=
  match args with
  | [] => Ok []
  | a :: r => x ← _num a; xs ← nums r; Ok (x :: xs)
  end.

Definition evaluator := list pyval → jl pyval.
Definition _arity (op : string) (n : nat) (fn : evaluator) : evaluator :=
  λ args, if negb (length args =? n)%nat then Err (WrongArity op) else fn args.
Definition _compare (op : string) (p : float → float → bool) : evaluator :=
  λ args, match args with
          | [a; b] => x ← _num a; y ← _num b; Ok (PBool (p x y))
          | _ => Err (WrongArity op)
          end.
Definition fgtb (x y : float) : bool := fltb y x.
Definition fgeb (x y : float) : bool := fleb y x.

Definition _eval_subtract : evaluator := λ args,
  match args with
  | [a] => x ← _num a; Ok (PFloat (fopp x))
  | [a; b] => x ← _num a; y ← _num b; Ok (PFloat (fsub x y))
  | _ => Err (WrongArity "-")
  end.
Definition _eval_divide : evaluator := λ args,
  match args with
  | [a; b] =>
      divisor ← _num b;
      _ ← raise_if (feqb divisor fzero) DivisionByZero;
      x ← _num a;
      Ok (PFloat (fdiv x divisor))
  | _ => Err (WrongArity "/")
  end.
(** A needle that is not a string in a string haystack is a [TypeError] of Python. *)
Definition _contains (container needle : pyval) : jl bool :=
  match container with
  | PList l => Ok (existsb (λ x, py_eqb x needle) l)
  | PStr s => match needle with PStr n => Ok (str_contains n s) | _ => Err (JEscaped TypeError) end
  | _ => Err NotAContainer
  end.
Definition _eval_in : evaluator := λ args,
  match args with
  | [needle; haystack] =>
      match haystack with
      | PList _ | PStr _ => b ← _contains haystack needle; Ok (PBool b)
      | _ => Err NotAContainer
      end
  | _ => Err (WrongArity "in")
  end.
Definition _eval_add : evaluator := λ args,
  match args with
  | [] => Err (WrongArity "+")
  | _ => xs ← nums args; Ok (PFloat (fsum xs))
  end.
Definition _eval_multiply : evaluator := λ args,
  match args with
  | [] => Err (WrongArity "*")
  | _ => xs ← nums args; Ok (PFloat (fprod xs))
  end.
Definition eval_eq (neg : bool) : evaluator := λ args,
  match args with
  | [a; b] => Ok (PBool (xorb neg (py_eqb a b)))
  | _ => Err (JEscaped IndexError)
  end.
Definition eval_not : evaluator := λ args,
  match args with
  | a :: _ => Ok (PBool (negb (truthy a)))
  | [] => Err (JEscaped IndexError)
  end.

Definition _EVALUATORS : list (string * evaluator) :=
  [("==", _arity "==" 2 (eval_eq false));
   ("!=", _arity "!=" 2 (eval_eq true));
   (">", _compare ">" fgtb);
   (">=", _compare ">=" fgeb);
   ("<", _compare "<" fltb);
   ("<=", _compare "<=" fleb);
   ("and", λ a, Ok (PBool (forallb truthy a)));
   ("or", λ a, Ok (PBool (existsb truthy a)));
   ("not", _arity "not" 1 eval_not);
   ("+", _eval_add);
   ("-", _eval_subtract);
   ("*", _eval_multiply);
   ("/", _eval_divide);
   ("in", _eval_in)].
Definition JSONLOGIC_OPERATORS : list string := _EVALUATORS.*1 ++ ["var"].

(** [room] levels are left: [_MAX_DEPTH - _depth]. *)
Fixpoint eval_at (room : nat) (expr : pyval) (ctx : context) : jl pyval :=
  match expr with
  | PDict d =>
      match room with
      | O => Err TooDeep
      | S room =>
          match d with
          | [(op, raw)] =>
              if bool_decide (op = "var") then _resolve_var raw ctx
              else
                match dict_get op _EVALUATORS with
                | None => Err (UnknownOperator op)
                | Some evaluator =>
                    args ← map_res (λ a, eval_at room a ctx) (_as_args raw);
                    evaluator args
                end
          | _ => Err NotOneOperator
          end
      end
  | _ => Ok expr
  end.
Definition eval_jsonlogic (expr : pyval) (ctx : context) : jl pyval := eval_at _MAX_DEPTH expr ctx.

Fixpoint validate_at (room : nat) (expr : pyval) : jl () :=
  match expr with
  | PDict d =>
      match room with
      | O => Err TooDeep
      | S room =>
          match d with
          | [(op, raw)] =>
              _ ← raise_if (negb (bool_decide (op ∈ JSONLOGIC_OPERATORS))) (UnknownOperator op);
              if bool_decide (op = "var") then Ok ()
              else for_each (validate_at room) (_as_args raw)
          | _ => Err NotOneOperator
          end
      end
  | _ => Ok ()
  end.
Definition validate_jsonlogic (expr : pyval) : jl () := validate_at _MAX_DEPTH expr.
