(* ===== verification/JsonLogicFacts.v ===== *)
(** What the save-time check of a JsonLogic expression promises to its evaluation, what an
    evaluation reads of its context, and the boolean algebra of the operators. *)

From S2P Require Import Prelude PyStr PyNum PyValue JsonLogic.

(** ** The shape of a valid expression *)
Inductive well_formed : pyval → Prop :=
| wf_literal v : is_dict v = false → well_formed v
| wf_var raw : well_formed (PDict [("var", raw)])
| wf_op op raw :
    op ∈ _EVALUATORS.*1 → Forall well_formed (_as_args raw) → well_formed (PDict [(op, raw)]).

(** How deep the operations of an expression nest. *)
Fixpoint nesting (e : pyval) : nat :=
  match e with
  | PDict [(op, raw)] =>
      if bool_decide (op = "var") then 1%nat
      else S (match raw with
              | PList l => (fix go l := match l with
                                        | [] => 0%nat
                                        | x :: r => Nat.max (nesting x) (go r)
                                        end) l
              | _ => nesting raw
              end)
  | PDict _ => 1%nat
  | _ => 0%nat
  end.

Lemma nesting_op op raw :
  op ≠ "var" → nesting (PDict [(op, raw)]) = S (max_list_with nesting (_as_args raw)).
Proof.
  intros H. cbn [nesting]. rewrite bool_decide_false by done. f_equal.
  by destruct raw; cbn [_as_args max_list_with]; rewrite ?Nat.max_0_r.
Qed.

Lemma max_list_le l n : (max_list_with nesting l ≤ n)%nat ↔ Forall (λ x, (nesting x ≤ n)%nat) l.
Proof.
  induction l as [|x r IH]; cbn; [split; [constructor|lia]|].
  rewrite Forall_cons, <- IH. lia.
Qed.

Lemma var_not_op : "var" ∉ _EVALUATORS.*1.
Proof. apply (bool_decide_eq_false _). vm_compute. reflexivity. Qed.
Lemma operators_cases op : op ∈ JSONLOGIC_OPERATORS ↔ op = "var" ∨ op ∈ _EVALUATORS.*1.
Proof. unfold JSONLOGIC_OPERATORS. rewrite elem_of_app, list_elem_of_singleton. tauto. Qed.

Lemma well_formed_dict d :
  well_formed (PDict d) ↔
  ∃ op raw, d = [(op, raw)] ∧
    (op = "var" ∨ (op ∈ _EVALUATORS.*1 ∧ Forall well_formed (_as_args raw))).
Proof.
  split; [inversion 1; subst; [done|..]; eauto 8|].
  intros (op & raw & -> & [->|[? ?]]); by constructor.
Qed.

Lemma validate_at_spec room : ∀ expr,
  validate_at room expr = Ok () ↔ well_formed expr ∧ (nesting expr ≤ room)%nat.
Proof.
  assert (Hlit : ∀ room expr, is_dict expr = false →
            validate_at room expr = Ok () ↔ well_formed expr ∧ (nesting expr ≤ room)%nat).
  { intros r expr H. destruct expr, r; try done; cbn; (split; [split; [by constructor|lia]|done]). }
  induction room as [|room IH]; intros expr; (destruct (is_dict expr) eqn:Hd; [|by apply Hlit]);
    destruct expr; try done; rewrite well_formed_dict.
  - cbn. split; [done|]. intros [(op & raw & -> & _) H]. cbn in H. destruct (bool_decide _); lia.
  - destruct d as [|[op raw] [|p d]].
    + cbn. split; [done|]. by intros [(? & ? & ? & _) _].
    + destruct (decide (op = "var")) as [->|Hop].
      * change (Ok () = Ok (E := jl_exc) () ↔ (∃ op raw0, [("var", raw)] = [(op, raw0)] ∧
          (op = "var" ∨ op ∈ _EVALUATORS.*1 ∧ Forall well_formed (_as_args raw0))) ∧ (1 ≤ S room)%nat).
        split; [|done]. split; [eauto 6|lia].
      * rewrite nesting_op by done. cbn [validate_at]. rewrite (bool_decide_false (op = "var")) by done.
        assert (Hargs : for_each (validate_at room) (_as_args raw) = Ok () ↔
                Forall well_formed (_as_args raw) ∧
                (max_list_with nesting (_as_args raw) ≤ room)%nat).
        { rewrite for_each_ok, max_list_le, <- Forall_and. apply Forall_iff. intros x. apply IH. }
        pose proof (operators_cases op) as Hops. split.
        -- intros ([] & H1%raise_if_ok & H2)%bind_ok. bool_prop. apply Hargs in H2 as [H2 H3].
           split; [|lia]. exists op, raw. tauto.
        -- intros [(? & ? & [= <- <-] & [?|[H1 H2]]) H3]; [done|]. apply bind_ok. exists ().
           rewrite raise_if_ok, negb_false_iff, bool_decide_eq_true. split; [tauto|].
           apply Hargs. split; [done|lia].
    + cbn. split; [done|]. by intros [(? & ? & ? & _) _].
Qed.

(** The save-time check accepts exactly the expressions whose every operation has one
    known operator and that nest at most 64 levels deep. *)
Lemma validate_jsonlogic_spec expr :
  validate_jsonlogic expr = Ok () ↔ well_formed expr ∧ (nesting expr ≤ 64)%nat.
Proof. apply validate_at_spec. Qed.

(** ** Validation and evaluation *)
(** The errors that the save-time check is there to exclude. *)
Definition structural (e : jl_exc) : bool :=
  match e with TooDeep | NotOneOperator | UnknownOperator _ => true | _ => false end.

Definition runtime {A} (c : jl A) : Prop := ∀ e, c = Err e → structural e = false.
Lemma runtime_ok {A} (a : A) : runtime (Ok a).
Proof. by intros e. Qed.
Lemma runtime_err {A} e : structural e = false → runtime (A := A) (Err e).
Proof. by intros H e' [= <-]. Qed.
Lemma runtime_bind {A B} (c : jl A) (f : A → jl B) :
  runtime c → (∀ a, runtime (f a)) → runtime (c ≫= f).
Proof. intros Hc Hf e [H|(a & _ & H)]%bind_err; [by apply Hc|by eapply Hf]. Qed.
Create HintDb runtime.
#[export] Hint Resolve runtime_ok runtime_err runtime_bind : runtime.

Lemma runtime_num v : runtime (_num v).
Proof. destruct v; cbn; auto with runtime. destruct (float_of_int z); auto with runtime. Qed.
Lemma runtime_nums l : runtime (nums l).
Proof.
  induction l as [|v l IH]; cbn; [auto with runtime|].
  apply runtime_bind; [apply runtime_num|intros x]. apply runtime_bind; auto with runtime.
Qed.
#[export] Hint Resolve runtime_num runtime_nums : runtime.

(** Walk through a body: a test, an operand list or a sequence at a time. *)
Ltac runtime_body :=
  repeat first
    [ apply runtime_bind; [|intros ?]
    | progress auto with runtime
    | match goal with
      | |- runtime (match ?x with _ => _ end) => destruct x
      | |- runtime (raise_if ?b _) => destruct b; cbn [raise_if]
      end ].

Lemma runtime_evaluators op ev args : dict_get op _EVALUATORS = Some ev → runtime (ev args).
Proof.
  intros H%dict_get_Some_elem. unfold _EVALUATORS in H.
  repeat (apply elem_of_cons in H as [[= -> ->]|H];
    [unfold _arity, _compare, eval_eq, eval_not, _eval_add, _eval_subtract, _eval_multiply,
       _eval_divide, _eval_in, _contains; runtime_body|]).
  by apply not_elem_of_nil in H.
Qed.

Lemma runtime_steps parts cur : runtime (steps cur parts).
Proof.
  revert cur. induction parts as [|p r IH]; intros cur; cbn [steps]; [auto with runtime|].
  apply runtime_bind; [|intros; apply IH]. unfold _step. runtime_body.
Qed.
Lemma runtime_resolve_var path ctx : runtime (_resolve_var path ctx).
Proof.
  unfold _resolve_var. destruct (_var_spec path) as [[] d]; try (by auto with runtime).
  destruct (bool_decide _); [auto with runtime|].
  apply runtime_bind; [apply runtime_steps|auto with runtime].
Qed.

Lemma dict_get_evaluators op : op ∈ _EVALUATORS.*1 → ∃ ev, dict_get op _EVALUATORS = Some ev.
Proof.
  intros H. destruct (dict_get op _EVALUATORS) eqn:E; [eauto|].
  by apply dict_get_None in E.
Qed.

Lemma valid_eval_runtime room ctx : ∀ expr,
  validate_at room expr = Ok () → runtime (eval_at room expr ctx).
Proof.
  induction room as [|room IH]; intros expr H; destruct expr; try (cbn; auto with runtime; done).
  cbn [validate_at eval_at] in *. destruct d as [|[op raw] [|]]; try done.
  case_bool_decide as Hop; [apply runtime_resolve_var|].
  apply bind_ok in H as ([] & H1%raise_if_ok & H2). bool_prop.
  assert (op ∈ _EVALUATORS.*1) as [ev Hev]%dict_get_evaluators.
  { match goal with H : op ∈ JSONLOGIC_OPERATORS |- _ => by apply operators_cases in H as [?|?] end. }
  rewrite Hev. apply for_each_ok in H2. rewrite Forall_forall in H2.
  apply runtime_bind; [|intros args; by eapply runtime_evaluators].
  intros e (x & Hx & He)%map_res_err. by eapply IH; [apply H2|].
Qed.

Lemma eval_ok_valid room ctx : ∀ expr v,
  eval_at room expr ctx = Ok v → validate_at room expr = Ok ().
Proof.
  induction room as [|room IH]; intros expr v H; destruct expr; try done.
  cbn [validate_at eval_at] in *. destruct d as [|[op raw] [|]]; try done.
  destruct (decide (op = "var")) as [->|Hop]; [done|].
  rewrite (bool_decide_false (op = "var")) in * by done.
  destruct (dict_get op _EVALUATORS) as [ev|] eqn:Eev; [|done].
  apply dict_get_Some_elem, (list_elem_of_fmap_2 fst) in Eev. cbn in Eev.
  apply bind_ok in H as (args & Hargs & _). apply map_res_ok in Hargs.
  apply bind_ok. exists (). split.
  - apply raise_if_ok, negb_false_iff, bool_decide_eq_true, operators_cases. by right.
  - apply for_each_ok. induction Hargs as [|x y l k Hxy _ IHl]; constructor; [by eapply IH|done].
Qed.

(** The save-time check and the evaluation agree: a saved expression never raises for
    its structure in any context, and an expression that evaluates in some context passes
    the check, so that no short circuit hides an unknown operator. *)
Lemma validation_guards_evaluation expr :
  (validate_jsonlogic expr = Ok () →
     ∀ ctx e, eval_jsonlogic expr ctx = Err e → structural e = false) ∧
  (∀ ctx v, eval_jsonlogic expr ctx = Ok v → validate_jsonlogic expr = Ok ()).
Proof.
  split; [intros H ctx; by apply valid_eval_runtime|].
  intros ctx v. apply eval_ok_valid.
Qed.

(** ** What an evaluation reads *)
(** The entries of the context that an expression names; [None] is the whole context. *)
Definition path_root (path : pyval) : list (option string) :=
  match (_var_spec path).1 with
  | PNone => [None]
  | PStr s => if bool_decide (s = "") then [None]
              else match py_split "." s with p :: _ => [Some p] | [] => [None] end
  | _ => []
  end.
Fixpoint var_roots (e : pyval) : list (option string) :=
  match e with
  | PDict [(op, raw)] =>
      if bool_decide (op = "var") then path_root raw
      else match raw with
           | PList l => (fix go l := match l with [] => [] | x :: r => var_roots x ++ go r end) l
           | _ => var_roots raw
           end
  | _ => []
  end.

Lemma var_roots_op op raw :
  op ≠ "var" → var_roots (PDict [(op, raw)]) = concat (var_roots <$> _as_args raw).
Proof.
  intros H. cbn [var_roots]. rewrite bool_decide_false by done.
  destruct raw; try (cbn [_as_args fmap list_fmap concat]; by rewrite app_nil_r).
  cbn [_as_args]. induction l as [|x r IH]; [done|]. cbn [fmap list_fmap concat]. by rewrite <- IH.
Qed.

(** Two contexts that agree on what an expression names. *)
Definition agree_on (roots : list (option string)) (ctx ctx' : context) : Prop :=
  None ∉ roots ∧ ∀ k, Some k ∈ roots → dict_get k ctx = dict_get k ctx'.

Lemma resolve_var_agree path ctx ctx' :
  agree_on (path_root path) ctx ctx' → _resolve_var path ctx = _resolve_var path ctx'.
Proof.
  unfold path_root, _resolve_var. destruct (_var_spec path) as [t d]. cbn [fst].
  intros [Hall Hk]. destruct t; try done.
  - exfalso. apply Hall. left.
  - case_bool_decide; [exfalso; apply Hall; left|].
    destruct (py_split "." s) as [|p r]; [exfalso; apply Hall; left|]. cbn [steps _step].
    by rewrite (Hk p) by left.
Qed.

Lemma eval_at_agree room ctx ctx' : ∀ expr,
  agree_on (var_roots expr) ctx ctx' → eval_at room expr ctx = eval_at room expr ctx'.
Proof.
  induction room as [|room IH]; intros expr H; destruct expr; try done.
  destruct d as [|[op raw] [|]]; try done. cbn [eval_at].
  destruct (decide (op = "var")) as [->|Hop].
  - rewrite !bool_decide_true by done. apply resolve_var_agree, H.
  - rewrite !bool_decide_false by done. destruct (dict_get op _EVALUATORS) as [ev|]; [|done].
    rewrite var_roots_op in H by done. f_equal. apply map_res_ext. intros x Hx. apply IH.
    assert (Hin : ∀ k, k ∈ var_roots x → k ∈ concat (var_roots <$> _as_args raw)).
    { intros k Hk. apply elem_of_concat. exists (var_roots x). split; [|done].
      by apply list_elem_of_fmap_2. }
    destruct H as [H1 H2]. split; [by intros ?%Hin|]. intros k Hk. by apply H2, Hin.
Qed.

(** The value of an expression depends only on the context entries that it names: two
    contexts that agree on them give the same value or the same error. *)
Lemma eval_frame expr ctx ctx' :
  agree_on (var_roots expr) ctx ctx' → eval_jsonlogic expr ctx = eval_jsonlogic expr ctx'.
Proof. apply eval_at_agree. Qed.

(** ** Boolean operators *)
Definition not_ (e : pyval) : pyval := PDict [("not", PList [e])].
Definition and_ (l : list pyval) : pyval := PDict [("and", PList l)].
Definition or_ (l : list pyval) : pyval := PDict [("or", PList l)].

Lemma eval_not_room room e ctx :
  eval_at (S room) (not_ e) ctx = v ← eval_at room e ctx; Ok (PBool (negb (truthy v))).
Proof. cbn. by destruct (eval_at room e ctx). Qed.

Lemma map_res_not room ctx (l : list pyval) :
  map_res (λ a, eval_at (S room) a ctx) (not_ <$> l) =
    (vs ← map_res (λ a, eval_at room a ctx) l;
     Ok (list_fmap _ _ (λ v, PBool (negb (truthy v))) vs)).
Proof.
  induction l as [|x l IH]; [done|]. cbn [fmap list_fmap map_res]. rewrite eval_not_room, IH.
  destruct (eval_at room x ctx); [|done]. cbn. by destruct (map_res _ l).
Qed.

Lemma existsb_not l :
  existsb truthy (list_fmap _ _ (λ v, PBool (negb (truthy v))) l) = negb (forallb truthy l).
Proof. induction l as [|x l IH]; [done|]. cbn. rewrite IH. by destruct (truthy x). Qed.

(** De Morgan: the negation of a conjunction is the disjunction of the negations, with
    the same error when an operand raises. *)
Lemma eval_de_morgan (l : list pyval) ctx :
  eval_jsonlogic (not_ (and_ l)) ctx = eval_jsonlogic (or_ (not_ <$> l)) ctx.
Proof.
  unfold eval_jsonlogic. change _MAX_DEPTH with (S (S 62)). rewrite eval_not_room.
  change (eval_at (S 62) (and_ l) ctx) with
    (args ← map_res (λ a, eval_at 62 a ctx) l; Ok (PBool (forallb truthy args)) : jl pyval).
  change (eval_at (S (S 62)) (or_ (not_ <$> l)) ctx) with
    (args ← map_res (λ a, eval_at (S 62) a ctx) (not_ <$> l); Ok (PBool (existsb truthy args)) : jl pyval).
  rewrite map_res_not. destruct (map_res _ l) as [vs|]; [|done]. cbn. by rewrite existsb_not.
Qed.

(** ** The theorems at a concrete form rule *)
Definition demo_rule : pyval :=
  and_ [PDict [(">", PList [PDict [("var", PStr "amount")]; PInt 100])]; not_ (PDict [("var", PStr "paid")])].
