(* ===== verification/Guards.v ===== *)
(** The guards and actions of the flow engine ([shared/guards.py]): the evaluator of a
    guard tree, the save-time checks and the questions other modules ask of a guard or an
    action.  A guard and an action are JSON values; a [GuardError] carries its reason, and
    an exception of Python that the module does not catch is [GEscaped]. *)

From S2P Require Import Prelude PyStr PyNum PyValue PyDate.

Definition GUARD_CONDITION_OPERATORS : list string :=
  ["applicantRoleIs"; "applicantCommitteeIs"; "applicationTypeIs"; "attachmentPresent"; "budgetIs";
   "budgetFitsApplication"; "hasField"; "compare"; "budgetHasDecisionGremium"].
Definition GUARD_ACTOR_OPERATORS : list string :=
  ["roleIs"; "isInCommittee"; "actorIsApplicant"; "isInVoteGremium"].
Definition GUARD_LEAF_OPERATORS : list string := GUARD_CONDITION_OPERATORS ++ GUARD_ACTOR_OPERATORS.
Definition GUARD_COMBINATORS : list string := ["and"; "or"; "not"].
Definition GUARD_OPERATORS : list string := GUARD_LEAF_OPERATORS ++ GUARD_COMBINATORS.
Definition _NUMERIC_OPS : list string := ["=="; "!="; "<"; "<="; ">"; ">="].
Definition _DATE_OPS : list string := _NUMERIC_OPS.
Definition _TEXT_OPS : list string := ["=="; "!="; "in"].
Definition _BOOL_OPS : list string := ["=="].
Definition _STRING_VALUE_OPERATORS : list string :=
  ["roleIs"; "isInCommittee"; "applicantRoleIs"; "applicantCommitteeIs"; "applicationTypeIs";
   "budgetIs"; "hasField"].
Definition _BOOL_VALUE_OPERATORS : list string :=
  ["budgetFitsApplication"; "actorIsApplicant"; "attachmentPresent"; "isInVoteGremium";
   "budgetHasDecisionGremium"].
Definition ACTION_TYPES : list string :=
  ["webhook"; "notify"; "addToNextSession"; "assignBudget"; "assignBudgetFromField";
   "assignBudgetFromApplicantGremium"; "assignBudgetFromMap"].
Definition GREMIUM_SOURCE_BUDGET : string := "budget".
Definition ASSIGN_BUDGET_ACTION_TYPES : list string :=
  ["assignBudget"; "assignBudgetFromField"; "assignBudgetFromApplicantGremium"; "assignBudgetFromMap"].
Definition _ACTION_REQUIRED_FIELD : list (string * string) :=
  [("webhook", "webhookId"); ("assignBudget", "budgetId"); ("assignBudgetFromField", "field")].
Definition _ACTION_OPTIONAL_FIELD : list (string * string) :=
  [("addToNextSession", "gremiumId"); ("assignBudgetFromApplicantGremium", "parentId")].
Definition NOTIFY_RECIPIENT_KINDS : list string :=
  ["gremium"; "role"; "applicant"; "email"; "voteGremium"; "budgetGremium"].
Definition _NOTIFY_KINDS_WITHOUT_REF : list string := ["applicant"; "voteGremium"; "budgetGremium"].

Inductive guard_exc := GuardError (reason : string) | GEscaped (e : pyexc).
Notation gres := (res guard_exc).

Record GuardContext := MkGuardContext {
  manual : bool;
  actor_is_applicant : bool;
  roles : list string;
  actor_committees : list string;
  applicant_roles : list string;
  applicant_committees : list string;
  budget_id : option string;
  budget_fits : bool;
  application_type_key : option string;
  has_attachment : bool;
  field_values : list (string * pyval);
  field_types : list (string * string);
  vote_gremium_id : option string;
  budget_has_decision_gremium : bool
}.

(** [v in s] for a set [s] of strings: a list or a dict has no hash. *)
Definition in_set (v : pyval) (s : list string) : gres bool :=
  match v with
  | PStr x => Ok (bool_decide (x ∈ s))
  | PList _ | PDict _ => Err (GEscaped TypeError)
  | _ => Ok false
  end.
Definition get_or_none (k : string) (d : list (string * pyval)) : pyval :=
  match dict_get k d with Some v => v | None => PNone end.

(** ** Conversions *)
Definition _to_decimal (value : pyval) : option decimal :=
  match value with
  | PNone | PBool _ => None
  | _ => decimal_of_str (py_str value)
  end.
Definition _iso_date (value : string) : option pydate := fromisoformat (py_take 10 value).
Definition _to_date (value : pyval) : option pydate :=
  match value with
  | PDateTime d _ => Some d
  | PDate d => Some d
  | PStr s => _iso_date s
  | _ => None
  end.
Definition _to_bool (value : pyval) : bool :=
  match value with
  | PBool b => b
  | PStr s => bool_decide (py_lower (py_strip s) ∈ ["true"; "1"; "yes"; "on"; "ja"])
  | _ => truthy value
  end.
Definition ops_for_type (value_type : string) : list string :=
  if bool_decide (value_type = "number" ∨ value_type = "currency") then _NUMERIC_OPS
  else if bool_decide (value_type = "date") then _DATE_OPS
  else if bool_decide (value_type = "bool") then _BOOL_OPS
  else _TEXT_OPS.

(** ** Comparisons *)
Inductive ordered := ODec (d : decimal) | ODate (d : pydate).
Definition escaped {A} (c : res pyexc A) : gres A :=
  match c with Ok a => Ok a | Err e => Err (GEscaped e) end.
(** The two sides of a call have the same constructor. *)
Definition ordered_eq (l r : ordered) : gres bool :=
  match l, r with
  | ODec a, ODec b => escaped (dec_eq a b)
  | ODate a, ODate b => Ok (bool_decide (a = b))
  | _, _ => Ok false
  end.
Definition ordered_rel (p : comparison → bool) (l r : ordered) : gres bool :=
  match l, r with
  | ODec a, ODec b => escaped (dec_ord p a b)
  | ODate a, ODate b => Ok (p (date_compare a b))
  | _, _ => Err (GEscaped TypeError)
  end.
Definition _ORDERED_OPS : list (string * (ordered → ordered → gres bool)) :=
  [("==", ordered_eq);
   ("!=", λ l r, b ← ordered_eq l r; Ok (negb b));
   ("<", ordered_rel is_lt);
   ("<=", ordered_rel is_le);
   (">", ordered_rel is_gt);
   (">=", ordered_rel is_ge)].
Definition _apply_ordered (op : string) (left right : ordered) : gres bool :=
  match dict_get op _ORDERED_OPS with Some fn => fn left right | None => Ok false end.
Definition _compare_ordered (op : string) (left right : option ordered) : gres bool :=
  match left, right with
  | Some l, Some r => _apply_ordered op l r
  | _, _ => Ok false
  end.
Definition _compare_text (op left : string) (operand : pyval) : gres bool :=
  if bool_decide (op = "==") then Ok (bool_decide (left = py_str operand))
  else if bool_decide (op = "!=") then Ok (negb (bool_decide (left = py_str operand)))
  else if bool_decide (op = "in") then
    Ok (match operand with PList l => bool_decide (left ∈ py_str <$> l) | _ => false end)
  else Ok false.

Definition _eval_compare (spec : pyval) (ctx : GuardContext) : gres bool :=
  match spec with
  | PDict d =>
      let operand := get_or_none "value" d in
      match get_or_none "field" d with
      | PStr fld =>
          _ ← raise_if (bool_decide (fld = "")) (GuardError "compare.field must be a non-empty string");
          match get_or_none "op" d with
          | PStr op =>
              let value_type := match dict_get fld (field_types ctx) with Some t => t | None => "text" end in
              if negb (bool_decide (op ∈ ops_for_type value_type)) then Ok false
              else
                match dict_get fld (field_values ctx) with
                | None | Some PNone => Ok false
                | Some lhs =>
                    if match lhs with PStr s => bool_decide (s = "") | _ => false end then Ok false
                    else if bool_decide (value_type = "number" ∨ value_type = "currency") then
                      _compare_ordered op (ODec <$> _to_decimal lhs) (ODec <$> _to_decimal operand)
                    else if bool_decide (value_type = "date") then
                      _compare_ordered op (ODate <$> _to_date lhs) (ODate <$> _to_date operand)
                    else if bool_decide (value_type = "bool") then
                      Ok (Bool.eqb (_to_bool lhs) (_to_bool operand))
                    else _compare_text op (py_str lhs) operand
                end
          | _ => Err (GuardError "compare.op must be a string")
          end
      | _ => Err (GuardError "compare.field must be a non-empty string")
      end
  | _ => Err (GuardError "compare requires an object {field, op, value}")
  end.

Definition _has_field (value : pyval) (ctx : GuardContext) : bool :=
  match dict_get (py_str value) (field_values ctx) with
  | None | Some PNone => false
  | Some (PStr s) => negb (bool_decide (s = ""))
  | Some (PList l) => match l with [] => false | _ => true end
  | Some _ => true
  end.

(** ** Leaf operators *)
Definition opt_is (o : option string) (s : string) : bool := bool_decide (o = Some s).
Definition in_vote_gremium (ctx : GuardContext) : bool :=
  match vote_gremium_id ctx with Some g => bool_decide (g ∈ actor_committees ctx) | None => false end.
Definition _LEAF_EVALUATORS : list (string * (pyval → GuardContext → gres bool)) :=
  [("roleIs", λ value ctx, in_set value (roles ctx));
   ("isInCommittee", λ value ctx, Ok (bool_decide (py_str value ∈ actor_committees ctx)));
   ("actorIsApplicant", λ value ctx, Ok (Bool.eqb (actor_is_applicant ctx) (truthy value)));
   ("applicantRoleIs", λ value ctx, in_set value (applicant_roles ctx));
   ("applicantCommitteeIs", λ value ctx, Ok (bool_decide (py_str value ∈ applicant_committees ctx)));
   ("applicationTypeIs", λ value ctx, Ok (opt_is (application_type_key ctx) (py_str value)));
   ("budgetIs", λ value ctx, Ok (opt_is (budget_id ctx) (py_str value)));
   ("budgetFitsApplication", λ value ctx, Ok (Bool.eqb (budget_fits ctx) (truthy value)));
   ("attachmentPresent", λ value ctx, Ok (Bool.eqb (has_attachment ctx) (truthy value)));
   ("isInVoteGremium", λ value ctx, Ok (Bool.eqb (in_vote_gremium ctx) (truthy value)));
   ("budgetHasDecisionGremium", λ value ctx,
      Ok (Bool.eqb (budget_has_decision_gremium ctx) (truthy value)));
   ("hasField", λ value ctx, Ok (_has_field value ctx));
   ("compare", _eval_compare)].
Definition _eval_leaf (op : string) (value : pyval) (ctx : GuardContext) : gres bool :=
  match dict_get op _LEAF_EVALUATORS with
  | Some evaluator => evaluator value ctx
  | None => Err (GuardError "unknown guard operator")
  end.

(** ** The guard tree *)
Definition as_list (value : pyval) : list pyval := match value with PList l => l | _ => [value] end.
Definition _children (op : string) (value : pyval) : gres (list pyval) :=
  let raw := as_list value in
  _ ← raise_if (negb (forallb is_dict raw)) (GuardError "children must be guard objects");
  Ok raw.
Definition _only_child (op : string) (value : pyval) : gres pyval :=
  children ← _children op value;
  match children with
  | [c] => Ok c
  | _ => Err (GuardError "'not' requires exactly one child guard")
  end.

(** [all] and [any] over results that can raise: they stop at the first answer. *)
Definition all_res {E A} (f : A → res E bool) : list A → res E bool :=
  fix go l := match l with [] => Ok true | x :: r => b ← f x; if b : bool then go r else Ok false end.
Definition any_res {E A} (f : A → res E bool) : list A → res E bool :=
  fix go l := match l with [] => Ok false | x :: r => b ← f x; if b : bool then Ok true else go r end.

(** The body of [eval_guard] for one operator; [eval] is the recursive call. *)
Definition not_one_operator : guard_exc := GuardError "guard must have exactly one operator".
Definition unknown_operator : guard_exc := GuardError "unknown guard operator".

(** [_children] returns the children as they are, so the recursion runs over the value;
    [eval_guard_eq] states the body with [_children] and [_only_child]. *)
Fixpoint eval_guard (guard : pyval) (ctx : GuardContext) : gres bool :=
  match guard with
  | PDict [(op, value)] =>
      if bool_decide (op = "and") then
        _ ← _children op value;
        match value with
        | PList l => all_res (λ g, eval_guard g ctx) l
        | _ => eval_guard value ctx
        end
      else if bool_decide (op = "or") then
        _ ← _children op value;
        match value with
        | PList l => any_res (λ g, eval_guard g ctx) l
        | _ => eval_guard value ctx
        end
      else if bool_decide (op = "not") then
        _ ← _only_child op value;
        match value with
        | PList [g] => b ← eval_guard g ctx; Ok (negb b)
        | _ => b ← eval_guard value ctx; Ok (negb b)
        end
      else if bool_decide (op ∈ GUARD_LEAF_OPERATORS) then _eval_leaf op value ctx
      else Err unknown_operator
  | PDict (_ :: _ :: _) => Err not_one_operator
  | _ => if truthy guard then Err (GEscaped TypeError) else Ok true
  end.

Fixpoint guard_requires_applicant (guard : pyval) : bool :=
  match guard with
  | PDict [(op, value)] =>
      if bool_decide (op = "actorIsApplicant") then true
      else if bool_decide (op ∈ GUARD_COMBINATORS) then
        match value with
        | PList l => existsb (λ c, is_dict c && guard_requires_applicant c) l
        | _ => is_dict value && guard_requires_applicant value
        end
      else false
  | _ => false
  end.

Definition _validate_compare (spec : pyval) : gres () :=
  match spec with
  | PDict d =>
      match get_or_none "field" d with
      | PStr fld =>
          _ ← raise_if (bool_decide (fld = "")) (GuardError "compare.field must be a non-empty string");
          let op := get_or_none "op" d in
          known ← in_set op (_NUMERIC_OPS ++ _TEXT_OPS);
          _ ← raise_if (negb known) (GuardError "unknown compare operator");
          raise_if (match op with PStr s => bool_decide (s = "in") | _ => false end &&
                    negb (is_list (get_or_none "value" d)))
            (GuardError "compare operator 'in' requires a list value")
      | _ => Err (GuardError "compare.field must be a non-empty string")
      end
  | _ => Err (GuardError "compare requires an object {field, op, value}")
  end.

(** [isinstance(v, str) and v]. *)
Definition non_empty_str (v : pyval) : bool :=
  match v with PStr s => negb (bool_decide (s = "")) | _ => false end.

Definition validate_leaf (op : string) (value : pyval) (allow_actor_ops : bool) : gres () :=
  _ ← raise_if (negb (bool_decide (op ∈ GUARD_LEAF_OPERATORS))) unknown_operator;
  _ ← raise_if (bool_decide (op ∈ GUARD_ACTOR_OPERATORS) && negb allow_actor_ops)
        (GuardError "actor gate is only allowed on manual transitions");
  _ ← raise_if (bool_decide (op ∈ _STRING_VALUE_OPERATORS) && negb (non_empty_str value))
        (GuardError "requires a non-empty string value");
  _ ← raise_if (bool_decide (op ∈ _BOOL_VALUE_OPERATORS) && negb (is_bool value))
        (GuardError "requires a boolean value");
  if bool_decide (op = "compare") then _validate_compare value else Ok ().

Fixpoint validate_guard (guard : pyval) (allow_actor_ops : bool) : gres () :=
  match guard with
  | PDict [(op, value)] =>
      if bool_decide (op ∈ GUARD_COMBINATORS) then
        children ← _children op value;
        _ ← raise_if (bool_decide (op = "not") && negb (length children =? 1)%nat)
              (GuardError "'not' requires exactly one child guard");
        _ ← raise_if (bool_decide (op = "and" ∨ op = "or") && (length children =? 0)%nat)
              (GuardError "requires at least one child guard");
        match value with
        | PList l => for_each (λ g, validate_guard g allow_actor_ops) l
        | _ => validate_guard value allow_actor_ops
        end
      else validate_leaf op value allow_actor_ops
  | PDict (_ :: _ :: _) => Err not_one_operator
  | _ => if truthy guard then Err (GEscaped TypeError) else Ok ()
  end.

(** ** Actions *)
Definition _validate_budget_map (action : list (string * pyval)) : gres () :=
  _ ← raise_if (negb (non_empty_str (get_or_none "field" action)))
        (GuardError "assignBudgetFromMap action requires 'field'");
  match get_or_none "map" action with
  | PDict ((_ :: _) as mapping) =>
      for_each (λ kv, raise_if (bool_decide (kv.1 = "") || negb (non_empty_str kv.2))
                        (GuardError "'map' needs non-empty field values and budget ids")) mapping
  | _ => Err (GuardError "assignBudgetFromMap action requires a non-empty 'map'")
  end.

Definition validate_recipient (r : pyval) : gres () :=
  match r with
  | PDict d =>
      let kind := get_or_none "kind" d in
      known ← in_set kind NOTIFY_RECIPIENT_KINDS;
      _ ← raise_if (negb known) (GuardError "unknown notify recipient kind");
      needs_ref ← in_set kind ["gremium"; "role"; "email"];
      _ ← raise_if (needs_ref && negb (truthy (get_or_none "ref" d)))
            (GuardError "notify recipient kind requires 'ref'");
      without_ref ← in_set kind _NOTIFY_KINDS_WITHOUT_REF;
      raise_if (without_ref && match get_or_none "ref" d with PNone => false | _ => true end)
        (GuardError "notify recipient kind must not have 'ref'")
  | _ => Err (GuardError "each notify recipient must be an object")
  end.
Definition _validate_notify_recipients (recipients : pyval) : gres () :=
  match recipients with
  | PList ((_ :: _) as l) => for_each validate_recipient l
  | _ => Err (GuardError "notify action requires a non-empty 'recipients' list")
  end.

Definition validate_action (action : pyval) : gres () :=
  match action with
  | PDict d =>
      match get_or_none "type" d with
      | PNone => Err (GuardError "action is missing 'type'")
      | action_type =>
          known ← in_set action_type ACTION_TYPES;
          _ ← raise_if (negb known) (GuardError "unknown action type");
          let t := match action_type with PStr t => t | _ => "" end in
          if bool_decide (t = "notify") then _validate_notify_recipients (get_or_none "recipients" d)
          else if bool_decide (t = "assignBudgetFromMap") then _validate_budget_map d
          else
            match dict_get t _ACTION_OPTIONAL_FIELD with
            | Some optional =>
                raise_if (match dict_get optional d with Some v => negb (non_empty_str v) | None => false end)
                  (GuardError "optional field must be a non-empty string")
            | None =>
                match dict_get t _ACTION_REQUIRED_FIELD with
                | Some field =>
                    raise_if (negb (non_empty_str (get_or_none field d)))
                      (GuardError "action requires a field")
                | None => Err (GEscaped KeyError)
                end
            end
      end
  | _ => Err (GuardError "action must be an object")
  end.

(** [v == s] for a string literal [s]. *)
Definition is_text (v : pyval) (s : string) : bool :=
  match v with PStr x => bool_decide (x = s) | _ => false end.
Definition budget_ids_of_action (action : list (string * pyval)) : list string :=
  let action_type := get_or_none "type" action in
  let parent := get_or_none "parentId" action in
  if is_text action_type "assignBudgetFromMap" && is_dict (get_or_none "map" action) then
    match get_or_none "map" action with PDict m => (λ kv, py_str kv.2) <$> m | _ => [] end
  else if is_text action_type "assignBudgetFromApplicantGremium" && truthy parent then [py_str parent]
  else [].
