(* ===== verification/GuardsFacts.v ===== *)
(** What the save-time checks of a guard and an action promise: a saved guard raises no
    guard error, the guard of an automatic transition does not read the actor, a guard
    without the applicant gate does not read whether the actor is the applicant, and a
    saved action names usable cost centers. *)

From S2P Require Import Prelude PyStr PyNum PyValue PyDate Guards.

(** ** The evaluator in the form of the code *)
Lemma children_ok op value cs :
  _children op value = Ok cs ↔ cs = as_list value ∧ forallb is_dict (as_list value) = true.
Proof.
  unfold _children. rewrite bind_ok. split.
  - intros (u & H%raise_if_ok & [= <-]). by bool_prop.
  - intros [-> H]. exists (). rewrite H. done.
Qed.
Lemma children_err op value e :
  _children op value = Err e → ∃ m, e = GuardError m.
Proof. unfold _children. destruct (negb _); cbn; [|done]. intros [= <-]. eauto. Qed.

Lemma eval_guard_and value ctx :
  eval_guard (PDict [("and", value)]) ctx =
    cs ← _children "and" value; all_res (λ g, eval_guard g ctx) cs.
Proof.
  cbn [eval_guard]. rewrite (bool_decide_true ("and" = "and")) by done.
  destruct (_children "and" value) as [cs|] eqn:E; [|done]. apply children_ok in E as [-> _].
  rewrite !bind_Ok_l. destruct value; try done; cbn [as_list all_res];
    by destruct (eval_guard _ ctx) as [[]|].
Qed.
Lemma eval_guard_or value ctx :
  eval_guard (PDict [("or", value)]) ctx =
    cs ← _children "or" value; any_res (λ g, eval_guard g ctx) cs.
Proof.
  cbn [eval_guard]. rewrite (bool_decide_false ("or" = "and")) by done.
  rewrite (bool_decide_true ("or" = "or")) by done.
  destruct (_children "or" value) as [cs|] eqn:E; [|done]. apply children_ok in E as [-> _].
  rewrite !bind_Ok_l. destruct value; try done; cbn [as_list any_res];
    by destruct (eval_guard _ ctx) as [[]|].
Qed.
Lemma only_child_ok op value c :
  _only_child op value = Ok c ↔ as_list value = [c] ∧ is_dict c = true.
Proof.
  unfold _only_child. rewrite bind_ok. setoid_rewrite children_ok. split.
  - intros (cs & [-> H] & Hc). destruct (as_list value) as [|x [|]]; try done.
    injection Hc as ->. cbn in H. bool_prop. done.
  - intros [H1 H2]. exists [c]. rewrite H1. cbn. by rewrite H2.
Qed.
Lemma only_child_err op value e : _only_child op value = Err e → ∃ m, e = GuardError m.
Proof.
  unfold _only_child. intros [H|(cs & _ & H)]%bind_err; [by eapply children_err|].
  destruct cs as [|? [|]]; try done; injection H as <-; eauto.
Qed.
Lemma eval_guard_not value ctx :
  eval_guard (PDict [("not", value)]) ctx =
    c ← _only_child "not" value; b ← eval_guard c ctx; Ok (negb b).
Proof.
  cbn [eval_guard]. rewrite (bool_decide_false ("not" = "and")) by done.
  rewrite (bool_decide_false ("not" = "or")) by done. rewrite (bool_decide_true ("not" = "not")) by done.
  destruct (_only_child "not" value) as [c|] eqn:E; [|done]. apply only_child_ok in E as [E _].
  rewrite !bind_Ok_l. destruct value; cbn [as_list] in E; try (by injection E as <-). by subst l.
Qed.
Lemma eval_guard_leaf op value ctx :
  op ∉ GUARD_COMBINATORS →
  eval_guard (PDict [(op, value)]) ctx =
    if bool_decide (op ∈ GUARD_LEAF_OPERATORS) then _eval_leaf op value ctx else Err unknown_operator.
Proof.
  unfold GUARD_COMBINATORS. rewrite !not_elem_of_cons. intros (H1 & H2 & H3 & _).
  cbn [eval_guard]. by rewrite !bool_decide_false by done.
Qed.

Lemma validate_guard_op op value a :
  validate_guard (PDict [(op, value)]) a =
    if bool_decide (op ∈ GUARD_COMBINATORS) then
      children ← _children op value;
      _ ← raise_if (bool_decide (op = "not") && negb (length children =? 1)%nat)
            (GuardError "'not' requires exactly one child guard");
      _ ← raise_if (bool_decide (op = "and" ∨ op = "or") && (length children =? 0)%nat)
            (GuardError "requires at least one child guard");
      for_each (λ g, validate_guard g a) children
    else validate_leaf op value a.
Proof.
  cbn [validate_guard]. case_bool_decide; [|done].
  destruct (_children op value) as [cs|] eqn:E; [|done]. apply children_ok in E as [-> _].
  rewrite !bind_Ok_l. destruct (raise_if _ _); [|done]. rewrite !bind_Ok_l.
  destruct (raise_if _ _); [|done]. rewrite !bind_Ok_l.
  destruct value; try done; cbn [as_list for_each]; by destruct (validate_guard _ a) as [[]|].
Qed.

(** Induction over a guard tree. *)
Lemma guard_ind (P : pyval → Prop) :
  (∀ g, (∀ op value, g ≠ PDict [(op, value)]) → P g) →
  (∀ op value, Forall P (as_list value) → P (PDict [(op, value)])) →
  ∀ g, P g.
Proof.
  intros Hbase Hop. assert (H : ∀ g, P g ∧ ∀ l, g = PList l → Forall P l); [|intros g; apply H].
  induction g as [l IH|d IH|v Hl Hd] using pyval_ind'.
  - split; [by apply Hbase|]. intros ? [= <-]. eapply Forall_impl; [exact IH|]. by intros ? [? _].
  - split; [|done]. destruct d as [|[op value] [|]]; [by apply Hbase| |by apply Hbase].
    apply Hop. apply Forall_cons in IH as [[H1 H2] _]. cbn in *.
    destruct value; cbn [as_list]; try (by repeat constructor). by apply H2.
  - split; [apply Hbase; by intros ?? ->; eapply Hd|]. by intros l ->; destruct (Hl l).
Qed.

Lemma eval_guard_base g ctx ctx' :
  (∀ op value, g ≠ PDict [(op, value)]) → eval_guard g ctx = eval_guard g ctx'.
Proof.
  intros H. destruct g; try done. destruct d as [|[op v] [|]]; try done. by destruct (H op v).
Qed.

Lemma all_res_err {A} (f : A → gres bool) l e :
  all_res f l = Err e → ∃ x, x ∈ l ∧ f x = Err e.
Proof.
  induction l as [|x l IH]; [done|]. cbn. intros [H|([] & _ & H)]%bind_err; try done.
  - exists x. split; [left|done].
  - destruct (IH H) as (y & Hy & Ey). exists y. split; [by right|done].
Qed.
Lemma any_res_err {A} (f : A → gres bool) l e :
  any_res f l = Err e → ∃ x, x ∈ l ∧ f x = Err e.
Proof.
  induction l as [|x l IH]; [done|]. cbn. intros [H|([] & _ & H)]%bind_err; try done.
  - exists x. split; [left|done].
  - destruct (IH H) as (y & Hy & Ey). exists y. split; [by right|done].
Qed.
Lemma all_res_ext {A} (f g : A → gres bool) l :
  Forall (λ x, f x = g x) l → all_res f l = all_res g l.
Proof. induction 1 as [|x l H _ IH]; [done|]. cbn. rewrite H. by destruct (g x) as [[]|]. Qed.
Lemma any_res_ext {A} (f g : A → gres bool) l :
  Forall (λ x, f x = g x) l → any_res f l = any_res g l.
Proof. induction 1 as [|x l H _ IH]; [done|]. cbn. rewrite H. by destruct (g x) as [[]|]. Qed.

Lemma combinator_cases op : op ∈ GUARD_COMBINATORS → op = "and" ∨ op = "or" ∨ op = "not".
Proof. unfold GUARD_COMBINATORS. rewrite !elem_of_cons, elem_of_nil. tauto. Qed.

(** A guard tree evaluates alike in two contexts when its leaves do. *)
Lemma eval_guard_ext ctx ctx' (ok : pyval → Prop) :
  (∀ op value, op ∉ GUARD_COMBINATORS → ok (PDict [(op, value)]) →
     _eval_leaf op value ctx = _eval_leaf op value ctx') →
  (∀ op value, op ∈ GUARD_COMBINATORS → ok (PDict [(op, value)]) →
     forallb is_dict (as_list value) = true → Forall ok (as_list value)) →
  ∀ g, ok g → eval_guard g ctx = eval_guard g ctx'.
Proof.
  intros Hleaf Hsub g. induction g as [g Hg|op value IH] using guard_ind; intros Hok.
  { by apply eval_guard_base. }
  destruct (decide (op ∈ GUARD_COMBINATORS)) as [Hop|Hop].
  2:{ rewrite !eval_guard_leaf by done. case_bool_decide; [by apply Hleaf|done]. }
  assert (Hall : forallb is_dict (as_list value) = true →
            Forall (λ g, eval_guard g ctx = eval_guard g ctx') (as_list value)).
  { intros Hd. specialize (Hsub op value Hop Hok Hd). clear -IH Hsub.
    induction IH as [|x l Hx _ IHl]; constructor; inversion Hsub; subst; auto. }
  apply combinator_cases in Hop as [->|[->| ->]].
  - rewrite !eval_guard_and. destruct (_children "and" value) as [cs|] eqn:E; [|done].
    apply children_ok in E as [-> Hd]. rewrite !bind_Ok_l. by apply all_res_ext, Hall.
  - rewrite !eval_guard_or. destruct (_children "or" value) as [cs|] eqn:E; [|done].
    apply children_ok in E as [-> Hd]. rewrite !bind_Ok_l. by apply any_res_ext, Hall.
  - rewrite !eval_guard_not. destruct (_only_child "not" value) as [c|] eqn:E; [|done].
    apply only_child_ok in E as [E Hd]. rewrite !bind_Ok_l. rewrite E in Hall.
    cbn in Hall. rewrite Hd in Hall. specialize (Hall eq_refl). inversion Hall; subst.
    by match goal with H : eval_guard c ctx = _ |- _ => rewrite H end.
Qed.

Lemma guard_requires_applicant_op op value :
  guard_requires_applicant (PDict [(op, value)]) =
    if bool_decide (op = "actorIsApplicant") then true
    else if bool_decide (op ∈ GUARD_COMBINATORS)
         then existsb (λ c, is_dict c && guard_requires_applicant c) (as_list value)
         else false.
Proof.
  cbn [guard_requires_applicant]. repeat case_bool_decide; try done.
  destruct value; cbn [as_list existsb]; by rewrite ?orb_false_r.
Qed.

Lemma validated_children op value a :
  op ∈ GUARD_COMBINATORS → validate_guard (PDict [(op, value)]) a = Ok () →
  forallb is_dict (as_list value) = true ∧ (op = "not" → ∃ c, as_list value = [c]) ∧
  Forall (λ g, validate_guard g a = Ok ()) (as_list value).
Proof.
  intros Hop H. rewrite validate_guard_op, bool_decide_true in H by done.
  apply bind_ok in H as (cs & [-> Hd]%children_ok & H).
  apply bind_ok in H as (u1 & H1%raise_if_ok & H). apply bind_ok in H as (u2 & _ & H%for_each_ok).
  split; [done|]. split; [|done]. intros ->. rewrite bool_decide_true in H1 by done. cbn in H1.
  destruct (as_list value) as [|c [|]]; try done. eauto.
Qed.

Lemma validated_leaf op value a :
  op ∉ GUARD_COMBINATORS → validate_guard (PDict [(op, value)]) a = Ok () →
  validate_leaf op value a = Ok ().
Proof. intros Hop H. by rewrite validate_guard_op, bool_decide_false in H by done. Qed.

(** *** Errors of a comparison *)
Lemma dec_eq_err a b e : dec_eq a b = Err e → e = InvalidOperation.
Proof. unfold dec_eq. repeat case_if; congruence. Qed.
Lemma dec_ord_err p a b e : dec_ord p a b = Err e → e = InvalidOperation.
Proof. unfold dec_ord. case_if; congruence. Qed.
Definition nan_error {A} (c : gres A) : Prop := ∀ e, c = Err e → e = GEscaped InvalidOperation.
Lemma escaped_err {A} (c : res pyexc A) :
  (∀ e, c = Err e → e = InvalidOperation) → nan_error (escaped c).
Proof. intros H e. destruct c as [|x]; [done|]. cbn. intros [= <-]. by rewrite (H x eq_refl). Qed.
Lemma ok_nan_error {A} (a : A) : nan_error (Ok a).
Proof. by intros e. Qed.
Lemma bind_nan_error {A B} (c : gres A) (f : A → gres B) :
  nan_error c → (∀ a, nan_error (f a)) → nan_error (c ≫= f).
Proof. intros Hc Hf e [H|(a & _ & H)]%bind_err; [by apply Hc|by eapply Hf]. Qed.
Create HintDb guards.
#[export] Hint Resolve ok_nan_error escaped_err dec_eq_err dec_ord_err bind_nan_error : guards.

Definition same_kind (l r : ordered) : Prop :=
  match l, r with ODec _, ODec _ | ODate _, ODate _ => True | _, _ => False end.
Lemma apply_ordered_err op l r : same_kind l r → nan_error (_apply_ordered op l r).
Proof.
  intros Hk. unfold _apply_ordered. destruct (dict_get op _ORDERED_OPS) as [fn|] eqn:E; [|by auto with guards].
  apply dict_get_Some_elem in E. unfold _ORDERED_OPS in E.
  repeat (apply elem_of_cons in E as [[= -> ->]|E];
    [unfold ordered_eq, ordered_rel; destruct l, r; try done;
     try apply bind_nan_error; eauto with guards|]).
  by apply not_elem_of_nil in E.
Qed.
Lemma compare_text_ok op s v : nan_error (_compare_text op s v).
Proof. unfold _compare_text. repeat case_bool_decide; auto with guards. Qed.

Lemma eval_compare_err spec ctx :
  _validate_compare spec = Ok () → nan_error (_eval_compare spec ctx).
Proof.
  destruct spec; try done. cbn [_validate_compare _eval_compare].
  destruct (get_or_none "field" d) as [| | | |fld| | | | |]; try done.
  intros (u & H1%raise_if_ok & H2)%bind_ok. rewrite H1. cbn [raise_if]. rewrite bind_Ok_l.
  destruct (get_or_none "op" d) as [| | | |op| | | | |]; try done.
  generalize (match dict_get fld (field_types ctx) with Some t => t | None => "text" end). intros t.
  case_if; [auto with guards|].
  destruct (dict_get fld (field_values ctx)) as [v|]; [|by auto with guards].
  assert (Hord : ∀ (l r : option ordered), (∀ x y, l = Some x → r = Some y → same_kind x y) →
            nan_error (_compare_ordered op l r)).
  { intros [l|] [r|] H; cbn; auto with guards. apply apply_ordered_err. by apply H. }
  destruct v; auto with guards; repeat case_if; auto with guards;
    try apply compare_text_ok; apply Hord; intros x y Hx Hy;
    apply fmap_Some in Hx as (? & _ & ->); by apply fmap_Some in Hy as (? & _ & ->).
Qed.

Lemma eval_leaf_err op value a ctx :
  op ∈ GUARD_LEAF_OPERATORS → validate_leaf op value a = Ok () → nan_error (_eval_leaf op value ctx).
Proof.
  intros Hop H. unfold validate_leaf in H.
  apply bind_ok in H as (u1 & _ & H). apply bind_ok in H as (u2 & _ & H).
  apply bind_ok in H as (u3 & Hs%raise_if_ok & H). apply bind_ok in H as (u4 & _ & H).
  unfold _eval_leaf.
  assert (Hstr : op ∈ _STRING_VALUE_OPERATORS → ∃ s, value = PStr s).
  { intros Hin. rewrite bool_decide_true in Hs by done. cbn in Hs.
    destruct value; try done. eauto. }
  destruct (dict_get op _LEAF_EVALUATORS) as [ev|] eqn:E.
  - apply dict_get_Some_elem in E. unfold _LEAF_EVALUATORS in E.
    repeat (apply elem_of_cons in E as [[= -> ->]|E]; [try (by auto with guards)|]).
    + destruct Hstr as [s ->]; [apply (bool_decide_eq_true _); reflexivity|]. apply ok_nan_error.
    + destruct Hstr as [s ->]; [apply (bool_decide_eq_true _); reflexivity|]. apply ok_nan_error.
    + rewrite bool_decide_true in H by done. by apply eval_compare_err.
    + by apply not_elem_of_nil in E.
  - exfalso. apply dict_get_None in E. apply E.
    assert (Hf : Forall (λ o, o ∈ _LEAF_EVALUATORS.*1) GUARD_LEAF_OPERATORS).
    { apply (bool_decide_eq_true _). vm_compute. reflexivity. }
    rewrite Forall_forall in Hf. by apply Hf.
Qed.

(** C37: a guard that the save-time check accepts raises no guard error in any context: the
    one exception it can let out is the [InvalidOperation] of an ordered comparison with a
    NaN. *)
Theorem validated_guard_evaluates g allow ctx e :
  validate_guard g allow = Ok () → eval_guard g ctx = Err e → e = GEscaped InvalidOperation.
Proof.
  intros Hv. revert e. change (nan_error (eval_guard g ctx)). revert Hv.
  induction g as [g Hg|op value IH] using guard_ind; intros Hv.
  { destruct (truthy g) eqn:Ht.
    - exfalso. destruct g; cbn [validate_guard] in Hv; rewrite ?Ht in Hv; try done.
      destruct d as [|[op v] [|]]; try done. by destruct (Hg op v).
    - destruct g; cbn [eval_guard]; rewrite ?Ht; try by auto with guards.
      destruct d as [|]; [auto with guards|done]. }
  destruct (decide (op ∈ GUARD_COMBINATORS)) as [Hop|Hop].
  2:{ rewrite eval_guard_leaf by done. pose proof (validated_leaf _ _ _ Hop Hv) as Hl.
      case_bool_decide as Hin; [by eapply eval_leaf_err|].
      exfalso. unfold validate_leaf in Hl. rewrite (bool_decide_false (op ∈ GUARD_LEAF_OPERATORS)) in Hl by done. done. }
  destruct (validated_children op value allow Hop Hv) as (Hd & Hone & Hall).
  assert (Hsub : ∀ c, c ∈ as_list value → nan_error (eval_guard c ctx)).
  { rewrite Forall_forall in IH, Hall. auto. }
  assert (Hch : _children op value = Ok (as_list value)) by (by apply children_ok).
  apply combinator_cases in Hop as [->|[->| ->]].
  - rewrite eval_guard_and, Hch, bind_Ok_l. intros e (c & Hc & He)%all_res_err. by apply (Hsub c).
  - rewrite eval_guard_or, Hch, bind_Ok_l. intros e (c & Hc & He)%any_res_err. by apply (Hsub c).
  - destruct (Hone eq_refl) as [c Ec]. rewrite Ec in *. cbn in Hd. bool_prop.
    rewrite eval_guard_not. assert (_only_child "not" value = Ok c) as -> by (by apply only_child_ok).
    rewrite bind_Ok_l. apply bind_nan_error; [apply Hsub; left|auto with guards].
Qed.

(** ** The actor of an automatic transition *)
(** The context with another actor behind the transition. *)
Definition with_actor (ctx : GuardContext) (m a : bool) (r c : list string) : GuardContext :=
  MkGuardContext m a r c (applicant_roles ctx) (applicant_committees ctx) (budget_id ctx)
    (budget_fits ctx) (application_type_key ctx) (has_attachment ctx) (field_values ctx)
    (field_types ctx) (vote_gremium_id ctx) (budget_has_decision_gremium ctx).

Lemma eval_leaf_ext op value ctx ctx' :
  (∀ ev, (op, ev) ∈ _LEAF_EVALUATORS → ev value ctx = ev value ctx') →
  _eval_leaf op value ctx = _eval_leaf op value ctx'.
Proof.
  intros H. unfold _eval_leaf. destruct (dict_get op _LEAF_EVALUATORS) eqn:E; [|done].
  apply H. by apply dict_get_Some_elem.
Qed.

(** The guard of an automatic transition does not look at the actor: when the check
    without actor gates accepts it, its value is the same for every actor. *)
Lemma automatic_guard_ignores_actor g ctx m a r c :
  validate_guard g false = Ok () → eval_guard g (with_actor ctx m a r c) = eval_guard g ctx.
Proof.
  apply (eval_guard_ext (with_actor ctx m a r c) ctx (λ g, validate_guard g false = Ok ())).
  - intros op value Hop Hv%validated_leaf; [|done]. apply eval_leaf_ext. intros ev Hev.
    assert (Hact : op ∉ GUARD_ACTOR_OPERATORS).
    { unfold validate_leaf in Hv. apply bind_ok in Hv as (u1 & _ & Hv).
      apply bind_ok in Hv as (u2 & H%raise_if_ok & _). rewrite andb_true_r in H. by bool_prop. }
    unfold _LEAF_EVALUATORS in Hev.
    repeat (apply elem_of_cons in Hev as [[= -> ->]|Hev];
      [first [reflexivity
             |exfalso; apply Hact; apply (bool_decide_eq_true _); vm_compute; reflexivity]|]).
    by apply not_elem_of_nil in Hev.
  - intros op value Hop Hv _. by apply validated_children in Hv as (_ & _ & ?).
Qed.

(** The context with another answer to whether the actor is the applicant. *)
Definition with_applicant (ctx : GuardContext) (b : bool) : GuardContext :=
  with_actor ctx (manual ctx) b (roles ctx) (actor_committees ctx).

(** C25: [guard_requires_applicant] misses no applicant gate: a guard that it denies has the
    same value whether the actor is the applicant or not. *)
Lemma no_applicant_gate_ignores_applicant g ctx b :
  guard_requires_applicant g = false → eval_guard g (with_applicant ctx b) = eval_guard g ctx.
Proof.
  apply (eval_guard_ext (with_applicant ctx b) ctx (λ g, guard_requires_applicant g = false)).
  - intros op value Hop Hv. rewrite guard_requires_applicant_op in Hv.
    destruct (decide (op = "actorIsApplicant")) as [->|Happ]; [done|]. apply eval_leaf_ext. intros ev Hev.
    unfold _LEAF_EVALUATORS in Hev.
    repeat (apply elem_of_cons in Hev as [[= -> ->]|Hev]; [first [reflexivity|done]|]).
    by apply not_elem_of_nil in Hev.
  - intros op value Hop Hv Hd. rewrite guard_requires_applicant_op in Hv.
    rewrite (bool_decide_true (op ∈ _)) in Hv by done.
    destruct (bool_decide (op = "actorIsApplicant")); [done|]. apply Forall_forall. intros c Hc.
    rewrite forallb_forall in Hd. rewrite list_elem_of_In in Hc.
    destruct (guard_requires_applicant c) eqn:E; [|done]. exfalso.
    assert (existsb (λ c, is_dict c && guard_requires_applicant c) (as_list value) = true); [|congruence].
    apply existsb_exists. exists c. split; [done|]. by rewrite (Hd c Hc), E.
Qed.

(** ** Actions *)
Lemma non_empty_str_spec v : non_empty_str v = true → ∃ s, v = PStr s ∧ s ≠ "".
Proof. destruct v; try done. cbn. intros H. bool_prop. eauto. Qed.

Lemma validate_budget_map_ids d m kv :
  _validate_budget_map d = Ok () → get_or_none "map" d = PDict m → kv ∈ m → py_str kv.2 ≠ "".
Proof.
  unfold _validate_budget_map. intros (u & _ & H)%bind_ok Em Hkv. rewrite Em in H.
  destruct m as [|kv0 m]; [done|]. apply for_each_ok in H. rewrite Forall_forall in H.
  specialize (H kv Hkv). apply raise_if_ok in H. bool_prop.
  match goal with H : non_empty_str _ = true |- _ => apply non_empty_str_spec in H as (s & E & ?) end.
  by rewrite E.
Qed.

(** Every cost center that a saved action names is a non-empty id. *)
Lemma validated_action_budget_ids d id :
  validate_action (PDict d) = Ok () → id ∈ budget_ids_of_action d → id ≠ "".
Proof.
  intros Hv Hid. unfold budget_ids_of_action in Hid. unfold validate_action in Hv.
  destruct (is_text _ "assignBudgetFromMap" && _) eqn:E1.
  - bool_prop. destruct (get_or_none "type" d) as [| | | |t| | | | |]; try done. cbn in *. bool_prop.
    subst t. change (_validate_budget_map d = Ok ()) in Hv.
    destruct (get_or_none "map" d) eqn:Em; try done.
    apply list_elem_of_fmap in Hid as (kv & -> & Hkv). by eapply validate_budget_map_ids.
  - destruct (is_text _ "assignBudgetFromApplicantGremium" && _) eqn:E2;
      [|by apply not_elem_of_nil in Hid].
    apply list_elem_of_singleton in Hid as ->. bool_prop.
    destruct (get_or_none "type" d) as [| | | |t| | | | |]; try done. cbn [is_text] in *. bool_prop.
    subst t. change (raise_if (match dict_get "parentId" d with
                        | Some v => negb (non_empty_str v) | None => false end)
                (GuardError "optional field must be a non-empty string") = Ok ()) in Hv.
    apply raise_if_ok in Hv. unfold get_or_none in *.
    destruct (dict_get "parentId" d) as [v|]; [|done].
    bool_prop. by apply non_empty_str_spec in Hv as (s & -> & Hs).
Qed.

(** ** The theorems at a concrete flow *)
Definition demo_guard : pyval :=
  PDict [("and", PList [PDict [("applicantRoleIs", PStr "student")];
                        PDict [("not", PDict [("compare", PDict [("field", PStr "amount"); ("op", PStr ">");
                                                                 ("value", PInt 100)])])]])].
Definition demo_ctx (v : pyval) : GuardContext :=
  MkGuardContext false false [] [] ["student"] [] None false None false [("amount", v)]
    [("amount", "currency")] None false.

Lemma validated_guard_evaluates_witness :
  eval_guard demo_guard (demo_ctx (PStr "nan")) = Err (GEscaped InvalidOperation) ∧
  GEscaped InvalidOperation = GEscaped InvalidOperation.
Proof.
  split; [vm_compute; reflexivity|].
  apply (validated_guard_evaluates demo_guard false (demo_ctx (PStr "nan"))); vm_compute; reflexivity.
Defined.
Lemma automatic_guard_ignores_actor_witness :
  eval_guard demo_guard (with_actor (demo_ctx (PInt 80)) true true ["chair"] ["asta"]) =
    eval_guard demo_guard (demo_ctx (PInt 80)).
Proof. apply automatic_guard_ignores_actor. vm_compute. reflexivity. Defined.
Lemma no_applicant_gate_ignores_applicant_witness :
  eval_guard demo_guard (with_applicant (demo_ctx (PInt 80)) true) =
    eval_guard demo_guard (demo_ctx (PInt 80)).
Proof. apply no_applicant_gate_ignores_applicant. vm_compute. reflexivity. Defined.
Definition demo_action : list (string * pyval) :=
  [("type", PStr "assignBudgetFromMap"); ("field", PStr "kind");
   ("map", PDict [("trip", PStr "b1"); ("party", PStr "b2")])].
