(* ===== verification/FlowGraph.v ===== *)
(** The save-time check of a flow ([shared/config_schemas.py], [validate_flow_graph] and its
    helpers): the states, the transitions, the vote states, the breadth-first search for
    unreachable states and the depth-first search for a cycle of automatic transitions.
    The iteration order of a Python set is not specified, so the functions take the list of
    its elements in some order. *)

From S2P Require Import Prelude PyStr PyNum PyValue Guards.

Inductive StateKind := normal | vote.
Inductive TransitionBranch := br_pass | br_fail.
#[export] Instance StateKind_eq_dec : EqDecision StateKind.
Proof. solve_decision. Defined.
#[export] Instance TransitionBranch_eq_dec : EqDecision TransitionBranch.
Proof. solve_decision. Defined.
Definition branch_str (b : TransitionBranch) : string :=
  match b with br_pass => "pass" | br_fail => "fail" end.

Record StateDef := MkState {
  st_key : string;
  st_label : list (string * string);
  st_color : option string;
  edit_allowed : bool;
  is_initial : bool;
  is_terminal : bool;
  st_kind : StateKind;
  config : list (string * pyval)
}.
Record TransitionDef := MkTransition {
  from_ : string;
  to : string;
  tr_label : list (string * string);
  tr_color : option string;
  guard : pyval;
  actions : list pyval;
  order : option Z;
  automatic : bool;
  branch : option TransitionBranch;
  requires_action : bool
}.
Record FlowGraph := MkFlowGraph {
  states : list StateDef;
  transitions : list TransitionDef;
  layout : option pyval
}.

Inductive flow_exc := FlowValidationError (reason : string) | FEscaped (e : pyexc).
Notation fres := (res flow_exc).

(** [except GuardError as exc: raise FlowValidationError(str(exc))]. *)
Definition guarded {A} (c : gres A) : fres A :=
  match c with
  | Ok a => Ok a
  | Err (GuardError m) => Err (FlowValidationError m)
  | Err (GEscaped e) => Err (FEscaped e)
  end.

(** ** Successors *)
(** [{k: tuple(t.to for t in transitions if t.from_ == k) for k in key_set}], with the
    transitions that [p] keeps; each [to] is a key, so the subscript always succeeds. *)
Definition targets (p : TransitionDef → bool) (transitions : list TransitionDef) (k : string)
    : list string :=
  to <$> filter (λ t, p t && bool_decide (from_ t = k) = true) transitions.

(** ** Reachability *)
Definition layer : Type := gset string * gset string.
Definition bfs_step (adjacency : string → list string) (l : layer) (_ : string) : layer :=
  let '(frontier, seen) := l in
  let visited := seen ∪ frontier in
  let following := list_to_set (concat (adjacency <$> elements frontier)) ∖ visited in
  if decide (frontier = ∅) then l else (following, visited).
Definition _reachable (initial : string) (keys : list string) (adjacency : string → list string)
    : gset string :=
  let '(frontier, seen) := foldl (bfs_step adjacency) ({[initial]}, ∅) keys in
  seen ∪ frontier.

Definition _assert_all_reachable (initial : string) (key_set : list string)
    (transitions : list TransitionDef) : fres () :=
  let seen := _reachable initial key_set (targets (λ _, true) transitions) in
  let unreachable := list_to_set key_set ∖ seen in
  raise_if (negb (bool_decide (unreachable = ∅))) (FlowValidationError "unreachable states").

(** ** Cycles of automatic transitions *)
(** The cycle that was found, if any, and the finished nodes. *)
Definition cycle_search : Type := option (list string) * gset string.
(** [None] is a search that used its fuel up. *)
Fixpoint _first_cycle (fuel : nat) (nodes trail : list string) (done : gset string)
    (adjacency : string → list string) : option cycle_search :=
  match fuel with
  | O => None
  | S fuel =>
      foldl (λ acc node,
        found ← acc;
        let '(cycle, finished) := found in
        match cycle with
        | Some _ => Some found
        | None =>
            match index_of node trail with
            | Some i => Some (Some (drop i trail ++ [node]), finished)
            | None =>
                if decide (node ∈ finished) then Some found
                else
                  '(inner, searched) ← _first_cycle fuel (adjacency node) (trail ++ [node])
                                         finished adjacency;
                  Some (inner, {[node]} ∪ searched)
            end
        end) (Some (None, done)) nodes
  end.
Definition _assert_no_automatic_cycle (key_set : list string) (transitions : list TransitionDef)
    : fres () :=
  match _first_cycle (S (length key_set)) key_set [] ∅ (targets automatic transitions) with
  | Some (None, _) => Ok ()
  | Some (Some _, _) => Err (FlowValidationError "automatic transitions form a cycle")
  | None => Err (FlowValidationError "search out of fuel")
  end.

(** ** Vote states *)
Definition _validate_vote_gremium (state : StateDef) : fres () :=
  let has_id := dict_mem "gremiumId" (config state) in
  let has_source := dict_mem "gremiumSource" (config state) in
  _ ← raise_if (has_id && has_source) (FlowValidationError "gremiumId and gremiumSource");
  if has_source then
    _ ← raise_if (negb (is_text (get_or_none "gremiumSource" (config state)) GREMIUM_SOURCE_BUDGET))
          (FlowValidationError "unknown gremiumSource");
    raise_if (is_initial state) (FlowValidationError "initial state with gremiumSource")
  else
    raise_if (negb (non_empty_str (get_or_none "gremiumId" (config state))))
      (FlowValidationError "vote state without a Gremium").

Definition branches_of (outgoing : list TransitionDef) : list string :=
  omap (λ t, branch_str <$> branch t) outgoing.
Definition has_branch (t : TransitionDef) : bool :=
  match branch t with Some _ => true | None => false end.
Definition validate_state_kind (transitions : list TransitionDef) (s : StateDef) : fres () :=
  let outgoing := filter (λ t, from_ t = st_key s) transitions in
  let branches := sort_by str_leb (branches_of outgoing) in
  match st_kind s with
  | vote =>
      _ ← _validate_vote_gremium s;
      _ ← raise_if (negb (bool_decide (branches = ["fail"; "pass"])))
            (FlowValidationError "vote state needs pass and fail");
      for_each (λ t, raise_if (automatic t && negb (has_branch t))
                       (FlowValidationError "automatic exit of a vote state")) outgoing
  | normal =>
      raise_if (negb (bool_decide (branches = []))) (FlowValidationError "branch of a normal state")
  end.
Definition _validate_state_kinds (graph : FlowGraph) : fres () :=
  for_each (validate_state_kind (transitions graph)) (states graph).

(** ** The graph *)
Definition keys_of (graph : FlowGraph) : list string := st_key <$> states graph.
Definition kind_is_vote (graph : FlowGraph) (k : string) : bool :=
  match dict_get k ((λ s, (st_key s, st_kind s)) <$> states graph) with
  | Some vote => true
  | _ => false
  end.
Definition budget_vote_keys (graph : FlowGraph) : list string :=
  st_key <$> filter (λ s, st_kind s = vote ∧
    is_text (get_or_none "gremiumSource" (config s)) GREMIUM_SOURCE_BUDGET = true) (states graph).

Definition recipient_is_vote_gremium (r : pyval) : bool :=
  match r with PDict d => is_text (get_or_none "kind" d) "voteGremium" | _ => false end.
(** [action.get("recipients") or []]. *)
Definition recipients_of (action : list (string * pyval)) : list pyval :=
  match get_or_none "recipients" action with PList l => l | _ => [] end.

Definition check_action (graph : FlowGraph) (t : TransitionDef) (action : pyval) : gres () :=
  _ ← validate_action action;
  match action with
  | PDict d =>
      let action_type := get_or_none "type" d in
      let into_vote := kind_is_vote graph (to t) in
      let into_budget_vote := bool_decide (to t ∈ budget_vote_keys graph) in
      _ ← raise_if (is_text action_type "addToNextSession" && negb into_vote)
            (GuardError "addToNextSession outside a vote state");
      assigns ← in_set action_type ASSIGN_BUDGET_ACTION_TYPES;
      _ ← raise_if (assigns && into_budget_vote) (GuardError "budget assignment comes too late");
      _ ← raise_if (is_text action_type "addToNextSession" && dict_mem "gremiumId" d && into_budget_vote)
            (GuardError "gremiumId on a cost center vote");
      raise_if (is_text action_type "notify" && negb into_vote &&
                existsb recipient_is_vote_gremium (recipients_of d))
        (GuardError "voteGremium outside a vote state")
  | _ => Err (GEscaped TypeError)
  end.

Definition check_transition (graph : FlowGraph) (t : TransitionDef) : fres () :=
  _ ← raise_if (negb (bool_decide (from_ t ∈ keys_of graph))) (FlowValidationError "unknown from-state");
  _ ← raise_if (negb (bool_decide (to t ∈ keys_of graph))) (FlowValidationError "unknown to-state");
  _ ← raise_if (bool_decide (from_ t = to t)) (FlowValidationError "self-loop");
  guarded (
    _ ← validate_guard (guard t) (negb (automatic t));
    for_each (check_action graph t) (actions t)).

(** [set_of] lists the elements of [set(keys)] in the order of the set. *)
Definition validate_flow_graph (set_of : list string → list string) (graph : FlowGraph) : fres () :=
  let keys := keys_of graph in
  _ ← raise_if (bool_decide (states graph = [])) (FlowValidationError "no states");
  _ ← raise_if (existsb (λ k, 1 <? hits keys k) keys) (FlowValidationError "duplicate state keys");
  let key_set := set_of keys in
  match st_key <$> filter (λ s, is_initial s = true) (states graph) with
  | [] => Err (FlowValidationError "no initial state")
  | [initial] =>
      _ ← for_each (check_transition graph) (transitions graph);
      _ ← _validate_state_kinds graph;
      _ ← _assert_all_reachable initial key_set (transitions graph);
      _assert_no_automatic_cycle key_set (transitions graph)
  | _ => Err (FlowValidationError "multiple initial states")
  end.
