(* ===== verification/FlowGraphFacts.v ===== *)
(** The flow check against its specification: the breadth-first search computes the
    reflexive transitive closure of the transitions, the depth-first search ends and finds
    a cycle exactly when there is one, and the check accepts exactly the well-formed
    graphs. *)

From stdpp Require Import relations fin_sets.
From S2P Require Import Prelude PyStr PyNum PyValue Guards FlowGraph.

Section Graph.
Context (adj : string → list string) (U : gset string).
Hypothesis adj_closed : ∀ x y, x ∈ U → y ∈ adj x → y ∈ U.
Definition edge (x y : string) : Prop := y ∈ adj x.

(** ** Breadth-first search *)
Section Bfs.
Context (initial : string).
Hypothesis initial_in : initial ∈ U.

Record bfs_inv (k : nat) (l : layer) : Prop := {
  bi_disjoint : l.1 ## l.2;
  bi_bound : l.1 ∪ l.2 ⊆ U;
  bi_initial : initial ∈ l.1 ∪ l.2;
  bi_closed : ∀ x y, x ∈ l.2 → edge x y → y ∈ l.1 ∪ l.2;
  bi_reach : ∀ x, x ∈ l.1 ∪ l.2 → rtc edge initial x;
  bi_size : l.1 ≠ ∅ → (k ≤ size l.2)%nat
}.

Lemma elem_of_following frontier visited x :
  x ∈ (list_to_set (concat (adj <$> elements (frontier : gset string))) ∖ visited : gset string) ↔
  (∃ y, y ∈ frontier ∧ edge y x) ∧ x ∉ visited.
Proof.
  rewrite elem_of_difference, elem_of_list_to_set, elem_of_concat. unfold edge.
  setoid_rewrite list_elem_of_fmap. setoid_rewrite elem_of_elements. naive_solver.
Qed.

Lemma bfs_step_inv k l s : bfs_inv k l → bfs_inv (S k) (bfs_step adj l s).
Proof.
  destruct l as [frontier seen]. intros []. cbn [fst snd] in *. unfold bfs_step.
  destruct (decide (frontier = ∅)) as [->|Hne]; [by split|].
  split; cbn [fst snd].
  - intros x Hx%elem_of_following. set_solver.
  - intros x [Hx|Hx]%elem_of_union; [|set_solver].
    apply elem_of_following in Hx as [(y & Hy & He) _]. eapply adj_closed; [|exact He]. set_solver.
  - set_solver.
  - intros x y [Hx|Hx]%elem_of_union He.
    + specialize (bi_closed0 x y Hx He). set_solver.
    + destruct (decide (y ∈ seen ∪ frontier)); [set_solver|].
      apply elem_of_union. left. apply elem_of_following. eauto.
  - intros x [Hx|Hx]%elem_of_union; [|apply bi_reach0; set_solver].
    apply elem_of_following in Hx as [(y & Hy & He) _].
    eapply rtc_r; [apply bi_reach0|exact He]. set_solver.
  - intros _. rewrite size_union by set_solver.
    assert (size frontier ≠ 0%nat) by (by intros ?%size_empty_inv%leibniz_equiv).
    specialize (bi_size0 Hne). lia.
Qed.

Lemma bfs_inv_start : bfs_inv 0 ({[initial]}, ∅).
Proof.
  split; cbn [fst snd]; [set_solver..| |lia].
  intros x Hx. assert (x = initial) as -> by set_solver. apply rtc_refl.
Qed.

Lemma bfs_fold_inv keys k l : bfs_inv k l → bfs_inv (length keys + k) (foldl (bfs_step adj) l keys).
Proof.
  revert k l. induction keys as [|s keys IH]; intros k l H; [done|]. cbn [foldl length].
  replace (S (length keys) + k)%nat with (length keys + S k)%nat by lia. by apply IH, bfs_step_inv.
Qed.

Lemma reachable_closure keys x :
  (size U ≤ length keys)%nat → x ∈ _reachable initial keys adj ↔ rtc edge initial x.
Proof.
  intros Hsize. unfold _reachable. pose proof (bfs_fold_inv keys 0 _ bfs_inv_start) as H.
  destruct (foldl _ _ keys) as [frontier seen]. destruct H. cbn [fst snd] in *.
  assert (frontier = ∅) as ->.
  { destruct (decide (frontier = ∅)) as [|Hne]; [done|]. exfalso. specialize (bi_size0 Hne).
    assert (size frontier ≠ 0%nat) by (by intros ?%size_empty_inv%leibniz_equiv).
    pose proof (subseteq_size (frontier ∪ seen) U bi_bound0) as Hs.
    rewrite size_union in Hs by done. lia. }
  rewrite !union_empty_l_L in *. rewrite union_empty_r_L. split; [apply bi_reach0|].
  assert (Hcl : ∀ a b, rtc edge a b → a ∈ seen → b ∈ seen).
  { induction 1 as [|a b c Hab _ IH]; eauto. }
  intros Hr. by apply (Hcl initial).
Qed.
End Bfs.

(** ** Depth-first search *)
(** A finished set: closed under edges and without a cycle. *)
Definition finished_ok (D : gset string) : Prop :=
  (∀ x y, x ∈ D → edge x y → y ∈ D) ∧ (∀ x, x ∈ D → ¬ tc edge x x).
(** A path along edges. *)
Fixpoint path (l : list string) : Prop :=
  match l with
  | x :: (y :: _) as r => edge x y ∧ path r
  | _ => True
  end.

Lemma finished_tc D x y : finished_ok D → x ∈ D → tc edge x y → y ∈ D.
Proof.
  intros [Hc _] Hx Ht. induction Ht as [x y H|x y z H _ IH]; [by eapply Hc|]. by apply IH, (Hc x).
Qed.

Lemma finished_add D x :
  finished_ok D → x ∉ D → (∀ y, edge x y → y ∈ D) → finished_ok ({[x]} ∪ D).
Proof.
  intros HD Hx Hsucc. split.
  - intros a b [->%elem_of_singleton|Ha]%elem_of_union He; apply elem_of_union; right; [by apply Hsucc|].
    destruct HD as [Hc _]. by eapply Hc.
  - intros a [->%elem_of_singleton|Ha]%elem_of_union Ht; [|by destruct HD as [_ H]; apply (H a)].
    assert (Hin : ∀ y, edge x y → tc edge y x → False).
    { intros y He Hy. apply Hx. exact (finished_tc D y x HD (Hsucc y He) Hy). }
    inversion Ht as [? ? H|? y ? H1 H2]; subst; [|by eapply Hin]. by apply Hx, Hsucc.
Qed.

(** The walk from an element of a path to its end and one edge on. *)
Lemma path_tc l x i y z :
  path l → l !! i = Some x → last l = Some y → edge y z → tc edge x z.
Proof.
  revert x i. induction l as [|a l IH]; intros x i Hp Hi Hl He; [done|].
  destruct l as [|b l].
  - destruct i; [|done]. injection Hi as ->. injection Hl as ->. by apply tc_once.
  - destruct Hp as [Hab Hp]. destruct i as [|i].
    + injection Hi as ->. eapply tc_l; [exact Hab|]. by eapply (IH b 0%nat).
    + by eapply (IH x i).
Qed.
Lemma path_snoc l x : path l → (∀ y, last l = Some y → edge y x) → path (l ++ [x]).
Proof.
  induction l as [|a [|b l] IH]; intros Hp Hl; [done|by split; [apply Hl|]|].
  destruct Hp as [Hab Hp]. split; [done|]. by apply IH.
Qed.

Record dfs_pre (nodes trail : list string) (D : gset string) : Prop := {
  dp_nodes : ∀ n, n ∈ nodes → n ∈ U;
  dp_trail : ∀ n, n ∈ trail → n ∈ U;
  dp_nodup : NoDup trail;
  dp_path : path trail;
  dp_last : ∀ y n, last trail = Some y → n ∈ nodes → edge y n;
  dp_done : finished_ok D;
  dp_apart : ∀ n, n ∈ trail → n ∉ D
}.
(** A finished search or a real cycle. *)
Definition dfs_post (nodes trail : list string) (D : gset string) (r : cycle_search) : Prop :=
  match r with
  | (None, D') => D ⊆ D' ∧ finished_ok D' ∧ (∀ n, n ∈ nodes → n ∈ D') ∧ (∀ n, n ∈ trail → n ∉ D')
  | (Some _, _) => ∃ x, x ∈ U ∧ tc edge x x
  end.

Lemma dfs_pre_cons n nodes trail D D' :
  dfs_pre (n :: nodes) trail D → finished_ok D' → (∀ n, n ∈ trail → n ∉ D') → dfs_pre nodes trail D'.
Proof. intros [] HD Ha. split; try done; [set_solver|]. intros y m Hy Hm. apply dp_last0; [done|by right]. Qed.

Lemma NoDup_length_size (l : list string) :
  NoDup l → (∀ x, x ∈ l → x ∈ U) → (length l ≤ size U)%nat.
Proof.
  intros Hnd Hin. rewrite <- (size_list_to_set (C := gset string)) by done.
  apply subseteq_size. intros x. rewrite elem_of_list_to_set. apply Hin.
Qed.

(** One node of the loop, given the recursive search. *)
Definition dfs_visit (search : list string → list string → gset string → option cycle_search)
    (trail : list string) (acc : option cycle_search) (node : string) : option cycle_search :=
  found ← acc;
  let '(cycle, finished) := found in
  match cycle with
  | Some _ => Some found
  | None =>
      match index_of node trail with
      | Some i => Some (Some (drop i trail ++ [node]), finished)
      | None =>
          if decide (node ∈ finished) then Some found
          else
            '(inner, searched) ← search (adj node) (trail ++ [node]) finished;
            Some (inner, {[node]} ∪ searched)
      end
  end.
Definition search (fuel : nat) (nodes trail : list string) (D : gset string) : option cycle_search :=
  _first_cycle fuel nodes trail D adj.
Lemma search_S fuel nodes trail D :
  search (S fuel) nodes trail D = foldl (dfs_visit (search fuel) trail) (Some (None, D)) nodes.
Proof. reflexivity. Qed.

Lemma dfs_visit_eq srch trail D n :
  dfs_visit srch trail (Some (None, D)) n =
    match index_of n trail with
    | Some i => Some (Some (drop i trail ++ [n]), D)
    | None =>
        if decide (n ∈ D) then Some (None, D)
        else
          '(inner, searched) ← srch (adj n) (trail ++ [n]) D;
          Some (inner, {[n]} ∪ searched)
    end.
Proof. reflexivity. Qed.

(** A cycle that was found ends the loop. *)
Lemma dfs_visit_found srch trail nodes c D :
  foldl (dfs_visit srch trail) (Some (Some c, D)) nodes = Some (Some c, D).
Proof. by induction nodes. Qed.

Lemma index_of_None x (l : list string) : index_of x l = None → x ∉ l.
Proof. intros H Hin. apply index_of_elem in Hin as [i Hi]. congruence. Qed.

Lemma dfs_loop fuel trail :
  (∀ nodes' trail' D', dfs_pre nodes' trail' D' → (size U < length trail' + fuel)%nat →
     ∃ r, search fuel nodes' trail' D' = Some r ∧ dfs_post nodes' trail' D' r) →
  (size U < length trail + S fuel)%nat →
  ∀ nodes D, dfs_pre nodes trail D →
  ∃ r, foldl (dfs_visit (search fuel) trail) (Some (None, D)) nodes = Some r ∧
    dfs_post nodes trail D r.
Proof.
  intros IHf Hfuel nodes. induction nodes as [|n nodes IH]; intros D Hpre.
  { eexists. split; [done|]. destruct Hpre. split_and!; try done. by intros ? ?%not_elem_of_nil. }
  assert (Hnext : ∀ D', D ⊆ D' → finished_ok D' → (∀ m, m ∈ trail → m ∉ D') → n ∈ D' →
    ∃ r, foldl (dfs_visit (search fuel) trail) (Some (None, D')) nodes = Some r ∧
      dfs_post (n :: nodes) trail D r).
  { intros D' Hsub HD' Hap Hn. destruct (IH D') as ([[c|] E] & -> & Hr); [by eapply dfs_pre_cons|..].
    - eexists. split; [done|]. exact Hr.
    - eexists. split; [done|]. destruct Hr as (H1 & H2 & H3 & H4).
      split_and!; [set_solver|done| |done]. intros m [->|Hm]%elem_of_cons; auto. }
  cbn [foldl]. rewrite dfs_visit_eq.
  destruct (index_of n trail) as [i|] eqn:Ei.
  - rewrite dfs_visit_found. eexists. split; [done|]. apply index_of_Some in Ei.
    destruct Hpre. exists n. split; [apply dp_nodes0; left|].
    destruct (last trail) as [y|] eqn:El; [|by apply last_None in El; subst].
    eapply path_tc; [done..|]. apply dp_last0; [done|left].
  - apply index_of_None in Ei. destruct (decide (n ∈ D)) as [HnD|HnD].
    + destruct Hpre. by apply Hnext.
    + destruct (IHf (adj n) (trail ++ [n]) D) as ([[c|] D1] & -> & Hr).
      * destruct Hpre. assert (Hn : n ∈ U) by (apply dp_nodes0; left). split.
        -- intros m Hm. by eapply adj_closed.
        -- intros m [Hm|Hm%list_elem_of_singleton]%elem_of_app; [by apply dp_trail0|by subst].
        -- apply NoDup_app. split; [done|]. split; [set_solver|apply NoDup_singleton].
        -- apply path_snoc; [done|]. intros y Hy. apply dp_last0; [done|left].
        -- intros y m Hy Hm. rewrite last_snoc in Hy. by injection Hy as <-.
        -- done.
        -- intros m [Hm|Hm%list_elem_of_singleton]%elem_of_app; [by apply dp_apart0|by subst].
      * rewrite length_app. cbn [length]. lia.
      * cbn [mbind option_bind]. rewrite dfs_visit_found. eexists. split; [done|]. exact Hr.
      * cbn [mbind option_bind]. destruct Hr as (H1 & H2 & H3 & H4). apply Hnext.
        -- set_solver.
        -- apply finished_add; [done|apply H4; set_solver|done].
        -- intros m Hm. assert (m ≠ n) by (by intros ->). specialize (H4 m). set_solver.
        -- set_solver.
Qed.

(** The search ends within its fuel, and its answer is right. *)
Lemma search_spec fuel : ∀ nodes trail D,
  dfs_pre nodes trail D → (size U < length trail + fuel)%nat →
  ∃ r, search fuel nodes trail D = Some r ∧ dfs_post nodes trail D r.
Proof.
  induction fuel as [|fuel IH]; intros nodes trail D Hpre Hfuel.
  - exfalso. destruct Hpre. pose proof (NoDup_length_size trail dp_nodup0 dp_trail0). lia.
  - rewrite search_S. by apply dfs_loop.
Qed.
End Graph.

(** ** The specification of a flow *)
Definition edge_of (p : TransitionDef → bool) (ts : list TransitionDef) (x y : string) : Prop :=
  ∃ t, t ∈ ts ∧ p t = true ∧ from_ t = x ∧ to t = y.
Definition flow_edge (g : FlowGraph) : string → string → Prop := edge_of (λ _, true) (transitions g).
Definition auto_edge (g : FlowGraph) : string → string → Prop := edge_of automatic (transitions g).

Definition has_type (d : list (string * pyval)) (t : string) : Prop := get_or_none "type" d = PStr t.
Definition into_vote (g : FlowGraph) (t : TransitionDef) : Prop :=
  ∃ s, s ∈ states g ∧ st_key s = to t ∧ st_kind s = vote.
Definition into_budget_vote (g : FlowGraph) (t : TransitionDef) : Prop :=
  ∃ s, s ∈ states g ∧ st_key s = to t ∧ st_kind s = vote ∧
    get_or_none "gremiumSource" (config s) = PStr "budget".

Record action_ok (g : FlowGraph) (t : TransitionDef) (a : pyval) (d : list (string * pyval)) : Prop := {
  ao_dict : a = PDict d;
  ao_valid : validate_action a = Ok ();
  ao_session : has_type d "addToNextSession" → into_vote g t;
  ao_late : ∀ T, T ∈ ASSIGN_BUDGET_ACTION_TYPES → has_type d T → ¬ into_budget_vote g t;
  ao_gremium : has_type d "addToNextSession" → dict_mem "gremiumId" d = true → ¬ into_budget_vote g t;
  ao_notify : has_type d "notify" →
    (∃ r, r ∈ recipients_of d ∧ recipient_is_vote_gremium r = true) → into_vote g t
}.

(** A vote state names its Gremium in exactly one way. *)
Definition vote_gremium_ok (s : StateDef) : Prop :=
  (dict_get "gremiumSource" (config s) = Some (PStr "budget") ∧
   dict_get "gremiumId" (config s) = None ∧ is_initial s = false) ∨
  (dict_get "gremiumSource" (config s) = None ∧
   ∃ k, dict_get "gremiumId" (config s) = Some (PStr k) ∧ k ≠ "").

Definition outgoing (g : FlowGraph) (s : StateDef) : list TransitionDef :=
  filter (λ t, from_ t = st_key s) (transitions g).
Definition state_ok (g : FlowGraph) (s : StateDef) : Prop :=
  match st_kind s with
  | vote =>
      vote_gremium_ok s ∧ branches_of (outgoing g s) ≡ₚ ["pass"; "fail"] ∧
      ∀ t, t ∈ outgoing g s → automatic t = true → branch t ≠ None
  | normal => ∀ t, t ∈ outgoing g s → branch t = None
  end.

Record transition_ok (g : FlowGraph) (t : TransitionDef) : Prop := {
  to_from : from_ t ∈ keys_of g;
  to_to : to t ∈ keys_of g;
  to_loop : from_ t ≠ to t;
  to_guard : validate_guard (guard t) (negb (automatic t)) = Ok ();
  to_actions : ∀ a, a ∈ actions t → ∃ d, action_ok g t a d
}.

Record flow_ok (g : FlowGraph) : Prop := {
  fo_unique : NoDup (keys_of g);
  fo_initial : ∃ s, filter (λ s, is_initial s = true) (states g) = [s] ∧
    ∀ k, k ∈ keys_of g → rtc (flow_edge g) (st_key s) k;
  fo_transitions : ∀ t, t ∈ transitions g → transition_ok g t;
  fo_states : ∀ s, s ∈ states g → state_ok g s;
  fo_acyclic : ∀ k, ¬ tc (auto_edge g) k k
}.

(** ** The searches over a flow *)
Lemma edge_targets p ts x y : edge (targets p ts) x y ↔ edge_of p ts x y.
Proof.
  unfold edge, targets, edge_of. rewrite list_elem_of_fmap.
  setoid_rewrite list_elem_of_filter. setoid_rewrite andb_true_iff.
  setoid_rewrite bool_decide_eq_true. naive_solver.
Qed.
Lemma rtc_targets p ts x y : rtc (edge (targets p ts)) x y ↔ rtc (edge_of p ts) x y.
Proof.
  split; (induction 1 as [|a b c Hab _ IH]; [apply rtc_refl|eapply rtc_l; [|exact IH]; by apply edge_targets]).
Qed.
Lemma tc_targets p ts x y : tc (edge (targets p ts)) x y ↔ tc (edge_of p ts) x y.
Proof.
  split; (induction 1 as [a b Hab|a b c Hab _ IH];
    [apply tc_once; by apply edge_targets|eapply tc_l; [|exact IH]; by apply edge_targets]).
Qed.

Section Searches.
Context (key_set : list string) (ts : list TransitionDef).
Hypothesis key_set_nodup : NoDup key_set.
Hypothesis ts_known : ∀ t, t ∈ ts → from_ t ∈ key_set ∧ to t ∈ key_set.

Let U : gset string := list_to_set key_set.
Lemma targets_closed p x y : x ∈ U → y ∈ targets p ts x → y ∈ U.
Proof.
  intros _ Hy. apply edge_targets in Hy as (t & Ht & _ & _ & <-).
  apply elem_of_list_to_set, ts_known, Ht.
Qed.

Lemma assert_all_reachable_ok initial :
  initial ∈ key_set →
  _assert_all_reachable initial key_set ts = Ok () ↔
  ∀ k, k ∈ key_set → rtc (edge_of (λ _, true) ts) initial k.
Proof.
  intros Hi. unfold _assert_all_reachable. rewrite raise_if_ok, negb_false_iff, bool_decide_eq_true.
  assert (Hc : ∀ k, k ∈ _reachable initial key_set (targets (λ _, true) ts) ↔
               rtc (edge_of (λ _, true) ts) initial k).
  { intros k. rewrite <- rtc_targets. apply (reachable_closure _ U (targets_closed _)).
    - by apply elem_of_list_to_set.
    - unfold U. by rewrite size_list_to_set. }
  split.
  - intros H k Hk. apply Hc. destruct (decide (k ∈ _reachable initial key_set (targets (λ _, true) ts))); [done|].
    exfalso. apply (not_elem_of_empty (C := gset string) k). rewrite <- H.
    apply elem_of_difference. by rewrite elem_of_list_to_set.
  - intros H. apply leibniz_equiv. intros k. rewrite elem_of_difference, elem_of_list_to_set, Hc.
    split; [intros [Hk Hn]; by destruct Hn; apply H|by intros ?%not_elem_of_empty].
Qed.

Lemma assert_no_automatic_cycle_ok :
  _assert_no_automatic_cycle key_set ts = Ok () ↔ ∀ k, ¬ tc (edge_of automatic ts) k k.
Proof.
  unfold _assert_no_automatic_cycle.
  destruct (search_spec (targets automatic ts) U (targets_closed _) (S (length key_set)) key_set [] ∅)
    as ([[c|] D] & E & Hpost).
  - split.
    + intros n Hn. by apply elem_of_list_to_set.
    + by intros ? ?%not_elem_of_nil.
    + constructor.
    + done.
    + by intros ? ? ?.
    + split; intros x; set_solver.
    + by intros ? ?%not_elem_of_nil.
  - unfold U. rewrite size_list_to_set by done. cbn. lia.
  - unfold search in E. rewrite E. split; [done|]. intros H. exfalso.
    destruct Hpost as (x & _ & Hx). apply (H x), tc_targets, Hx.
  - unfold search in E. rewrite E. split; [|done]. intros _ k Hk.
    destruct Hpost as (_ & [_ Hno] & Hall & _).
    apply (Hno k); [|by apply tc_targets]. apply Hall.
    inversion Hk as [? ? (t & Ht & _ & <- & _)|? ? ? (t & Ht & _ & <- & _)]; subst;
      by apply ts_known.
Qed.
End Searches.

(** ** The checks of the parts *)
Lemma is_text_spec v s : is_text v s = true ↔ v = PStr s.
Proof.
  destruct v; cbn; try (by split). rewrite bool_decide_eq_true. split; [by intros ->|by intros [= ->]].
Qed.

Section Parts.
Context (g : FlowGraph).
Hypothesis unique_keys : NoDup (keys_of g).

Lemma kind_is_vote_spec t : kind_is_vote g (to t) = true ↔ into_vote g t.
Proof.
  unfold kind_is_vote, into_vote. unfold keys_of in unique_keys. induction (states g) as [|s l IH]; cbn.
  - split; [done|]. by intros (s & Hs%not_elem_of_nil & _).
  - cbn in unique_keys. apply NoDup_cons in unique_keys as [Hn Hnd]. case_decide as E.
    + split.
      * destruct (st_kind s) eqn:K; [done|]. intros _. exists s. split; [left|done].
      * intros (s' & [->|Hs']%elem_of_cons & Hk & Hv); [by rewrite Hv|].
        exfalso. apply Hn. rewrite <- E, <- Hk. by apply list_elem_of_fmap_2.
    + rewrite (IH Hnd). split; intros (s' & Hs' & Hk & Hv).
      * exists s'. split; [by right|done].
      * apply elem_of_cons in Hs' as [->|Hs']; [by destruct E|eauto].
Qed.

Lemma budget_vote_spec t : to t ∈ budget_vote_keys g ↔ into_budget_vote g t.
Proof.
  unfold budget_vote_keys, into_budget_vote. rewrite list_elem_of_fmap.
  setoid_rewrite list_elem_of_filter. setoid_rewrite is_text_spec. unfold GREMIUM_SOURCE_BUDGET.
  naive_solver.
Qed.

Lemma in_set_type d T :
  in_set (get_or_none "type" d) ASSIGN_BUDGET_ACTION_TYPES = Ok T →
  T = true ↔ ∃ t, t ∈ ASSIGN_BUDGET_ACTION_TYPES ∧ has_type d t.
Proof.
  unfold has_type. destruct (get_or_none "type" d) as [| | | |s| | | | |]; cbn; try done;
    try (by intros [= <-]; split; [done|intros (? & _ & ?)]).
  intros [= <-]. rewrite bool_decide_eq_true. split; [eauto|]. by intros (t & Ht & [= <-]).
Qed.

(** A valid action has a known type. *)
Lemma valid_action_type d :
  validate_action (PDict d) = Ok () → ∃ t, has_type d t ∧ t ∈ ACTION_TYPES.
Proof.
  unfold validate_action, has_type. destruct (get_or_none "type" d) as [| | | |s| | | | |]; try done.
  cbn [in_set]. rewrite bind_Ok_l. intros (u & H%raise_if_ok & _)%bind_ok. bool_prop. eauto.
Qed.

Lemma check_action_spec t a : check_action g t a = Ok () ↔ ∃ d, action_ok g t a d.
Proof.
  unfold check_action. rewrite bind_ok. split.
  - intros ([] & Hv & H). destruct a as [| | | | | |d| | |]; try done. exists d.
    apply bind_ok in H as (u1 & H1%raise_if_ok & H). apply bind_ok in H as (b & Hb & H).
    apply bind_ok in H as (u2 & H2%raise_if_ok & H). apply bind_ok in H as (u3 & H3%raise_if_ok & H).
    apply raise_if_ok in H. rewrite !andb_false_iff, !negb_false_iff, !bool_decide_eq_false in *.
    rewrite kind_is_vote_spec in *. rewrite budget_vote_spec in *.
    apply in_set_type in Hb. split; [done|done|..].
    + intros Ht%is_text_spec. destruct H1; congruence.
    + intros T HT HtT Hi. destruct H2 as [->|H2]; [|done].
      discriminate (proj2 Hb (ex_intro _ T (conj HT HtT))).
    + intros Ht%is_text_spec Hm. destruct H3 as [[?|?]|?]; congruence.
    + intros Ht%is_text_spec (r & Hr & Hrv). destruct H as [[?|?]|H]; [congruence|done|].
      exfalso. rewrite list_elem_of_In in Hr.
      assert (existsb recipient_is_vote_gremium (recipients_of d) = true); [|congruence].
      apply existsb_exists. eauto.
  - intros (d & []). exists (). split; [done|]. subst a.
    destruct (valid_action_type d ao_valid0) as (T & HT & HTin).
    assert (exists b, in_set (get_or_none "type" d) ASSIGN_BUDGET_ACTION_TYPES = Ok b) as [b Hb].
    { rewrite HT. cbn. eauto. }
    apply bind_ok. exists (). split.
    { apply raise_if_ok, andb_false_iff. destruct (is_text _ "addToNextSession") eqn:E; [right|by left].
      apply negb_false_iff, kind_is_vote_spec, ao_session0, is_text_spec, E. }
    rewrite Hb, bind_Ok_l. apply in_set_type in Hb. apply bind_ok. exists (). split.
    { apply raise_if_ok, andb_false_iff. destruct b; [right|by left].
      destruct (proj1 Hb eq_refl) as (T' & HT' & HtT'). rewrite bool_decide_eq_false, budget_vote_spec.
      by eapply ao_late0. }
    apply bind_ok. exists (). split.
    { apply raise_if_ok. destruct (is_text _ "addToNextSession") eqn:E; [|done].
      destruct (dict_mem "gremiumId" d) eqn:M; [|done]. cbn.
      rewrite bool_decide_eq_false, budget_vote_spec. apply ao_gremium0; [by apply is_text_spec|done]. }
    apply raise_if_ok. destruct (is_text _ "notify") eqn:E; [|done]. cbn.
    destruct (existsb _ _) eqn:X; [|by rewrite andb_false_r]. rewrite andb_true_r.
    apply negb_false_iff, kind_is_vote_spec, ao_notify0; [by apply is_text_spec|].
    apply existsb_exists in X as (r & Hr & Hrv). exists r. by rewrite list_elem_of_In.
Qed.

Lemma guarded_ok {A} (c : gres A) a : guarded c = Ok a ↔ c = Ok a.
Proof. destruct c as [|[]]; cbn; naive_solver. Qed.

Lemma check_transition_spec t : check_transition g t = Ok () ↔ transition_ok g t.
Proof.
  unfold check_transition. split.
  - intros (u1 & H1%raise_if_ok & H)%bind_ok. apply bind_ok in H as (u2 & H2%raise_if_ok & H).
    apply bind_ok in H as (u3 & H3%raise_if_ok & H%guarded_ok). bool_prop.
    apply bind_ok in H as ([] & Hg & Ha%for_each_ok). split; [done..|].
    rewrite Forall_forall in Ha. intros a Hin. apply check_action_spec. by apply Ha.
  - intros []. apply bind_ok. exists (). split; [by rewrite bool_decide_true|].
    apply bind_ok. exists (). split; [by rewrite bool_decide_true|].
    apply bind_ok. exists (). split; [by rewrite bool_decide_false|].
    apply guarded_ok, bind_ok. exists (). split; [done|]. apply for_each_ok, Forall_forall.
    intros a Ha. apply check_action_spec. by apply to_actions0.
Qed.
End Parts.

Lemma validate_vote_gremium_spec s : _validate_vote_gremium s = Ok () ↔ vote_gremium_ok s.
Proof.
  unfold _validate_vote_gremium, vote_gremium_ok, dict_mem, get_or_none, GREMIUM_SOURCE_BUDGET.
  destruct (dict_get "gremiumId" (config s)) as [i|], (dict_get "gremiumSource" (config s)) as [v|];
    cbn [andb raise_if].
  - split; [done|naive_solver].
  - rewrite bind_Ok_l. rewrite raise_if_ok. split.
    + intros H. bool_prop. right. split; [done|]. destruct i; try done. cbn in H. bool_prop. eauto.
    + intros [(? & ? & _)|(_ & k & [= ->] & Hk)]; [done|]. cbn. by rewrite bool_decide_false.
  - rewrite bind_Ok_l, bind_ok. split.
    + intros (u & H1%raise_if_ok & H2%raise_if_ok). bool_prop. apply is_text_spec in H1 as ->. by left.
    + intros [([= ->] & _ & H)|(? & _)]; [|done]. exists (). rewrite H. done.
  - rewrite bind_Ok_l, raise_if_ok. split; [done|]. naive_solver.
Qed.

Lemma branches_nil ts : branches_of ts = [] ↔ ∀ t, t ∈ ts → branch t = None.
Proof.
  unfold branches_of. induction ts as [|t ts IH]; cbn; [split; [by intros _ ? ?%not_elem_of_nil|done]|].
  destruct (branch t) eqn:E; cbn.
  - split; [done|]. intros H. specialize (H t). rewrite E in H. discriminate H. left.
  - rewrite IH. split; [intros H t' [->|Ht]%elem_of_cons; auto|]. intros H t' Ht. apply H. by right.
Qed.

Lemma sorted_branches ts :
  sort_by str_leb (branches_of ts) = ["fail"; "pass"] ↔ branches_of ts ≡ₚ ["pass"; "fail"].
Proof.
  split.
  - intros H. rewrite <- (sort_by_Permutation str_leb (branches_of ts)), H. constructor.
  - intros H. assert (H2 : length (branches_of ts) = 2%nat) by (by rewrite H).
    destruct (branches_of ts) as [|a [|b [|]]]; try done.
    apply Permutation_length_2_inv in H as [[= <- <-]|[= <- <-]]; vm_compute; reflexivity.
Qed.

Lemma validate_state_kind_spec g s : validate_state_kind (transitions g) s = Ok () ↔ state_ok g s.
Proof.
  unfold validate_state_kind, state_ok. fold (outgoing g s). destruct (st_kind s).
  - rewrite raise_if_ok, negb_false_iff, bool_decide_eq_true, <- branches_nil.
    split; [|by intros ->]. intros H. apply Permutation_nil_r.
    by rewrite <- (sort_by_Permutation str_leb), H.
  - rewrite bind_ok. split.
    + intros ([] & H1%validate_vote_gremium_spec & H). apply bind_ok in H as (u & H2%raise_if_ok & H3).
      bool_prop. apply for_each_ok in H3. rewrite Forall_forall in H3.
      match goal with H : sort_by _ _ = _ |- _ => apply sorted_branches in H end.
      split; [done|]. split; [done|]. intros t Ht Ha Hb. specialize (H3 t Ht).
      apply raise_if_ok in H3. unfold has_branch in H3. by rewrite Ha, Hb in H3.
    + intros (H1 & H2 & H3). exists (). split; [by apply validate_vote_gremium_spec|].
      apply bind_ok. exists (). split.
      * apply raise_if_ok, negb_false_iff, bool_decide_eq_true. by apply sorted_branches.
      * apply for_each_ok, Forall_forall. intros t Ht. apply raise_if_ok. unfold has_branch.
        destruct (automatic t) eqn:Ha; [|done]. specialize (H3 t Ht Ha). by destruct (branch t).
Qed.

Lemma duplicates_spec (keys : list string) : existsb (λ k, 1 <? hits keys k) keys = false ↔ NoDup keys.
Proof.
  rewrite existsb_false. split.
  - intros H. induction keys as [|k keys IH]; constructor.
    + intros Hk. specialize (H k ltac:(left)). cbn in H. rewrite decide_True in H by done.
      apply hits_pos in Hk. bool_prop. lia.
    + apply IH. intros x Hx. specialize (H x ltac:(by right)). cbn in H. bool_prop.
      apply Z.ltb_ge. case_decide; lia.
  - intros H k _. apply Z.ltb_ge. by apply hits_NoDup.
Qed.

(** C38: the flow check is exactly the specification of a well-formed flow: unique keys, one
    initial state that reaches every state, valid guards and actions on every transition,
    vote states with one pass and one fail exit, and no cycle of automatic transitions. *)
Theorem validate_flow_graph_spec set_of g :
  (∀ l, NoDup (set_of l) ∧ ∀ x, x ∈ set_of l ↔ x ∈ l) →
  validate_flow_graph set_of g = Ok () ↔ flow_ok g.
Proof.
  intros Hset. destruct (Hset (keys_of g)) as [Hnd Hin].
  unfold validate_flow_graph, _validate_state_kinds. split.
  - intros (u1 & _ & H)%bind_ok. apply bind_ok in H as (u2 & Hdup%raise_if_ok%duplicates_spec & H).
    destruct (filter _ (states g)) as [|s [|]] eqn:Ei; try done. cbn [fmap list_fmap] in H.
    apply bind_ok in H as ([] & Ht%for_each_ok & H). apply bind_ok in H as ([] & Hs%for_each_ok & H).
    apply bind_ok in H as ([] & Hr & Hc). rewrite Forall_forall in Ht. rewrite Forall_forall in Hs.
    assert (Htr : ∀ t, t ∈ transitions g → transition_ok g t).
    { intros t Hin'. apply check_transition_spec; [done|]. by apply Ht. }
    assert (Hkn : ∀ t, t ∈ transitions g → from_ t ∈ set_of (keys_of g) ∧ to t ∈ set_of (keys_of g)).
    { intros t Hin'. rewrite !Hin. split; by destruct (Htr t Hin'). }
    assert (Hsin : st_key s ∈ set_of (keys_of g)).
    { apply Hin, list_elem_of_fmap_2. apply (list_elem_of_filter (λ s, is_initial s = true)).
      rewrite Ei. left. }
    split; try done.
    + exists s. split; [done|]. intros k Hk.
      apply (assert_all_reachable_ok _ _ Hnd Hkn (st_key s) Hsin); [done|by apply Hin].
    + intros s' Hs'. apply validate_state_kind_spec. by apply Hs.
    + by apply (assert_no_automatic_cycle_ok _ _ Hnd Hkn).
  - intros [Hdup (s & Ei & Hreach) Htr Hst Hac].
    assert (Hkn : ∀ t, t ∈ transitions g → from_ t ∈ set_of (keys_of g) ∧ to t ∈ set_of (keys_of g)).
    { intros t Hin'. rewrite !Hin. split; by destruct (Htr t Hin'). }
    assert (Hs : s ∈ states g).
    { apply (list_elem_of_filter (λ s, is_initial s = true)). rewrite Ei. left. }
    apply bind_ok. exists (). split; [apply raise_if_ok, bool_decide_eq_false; intros E; rewrite E in Hs;
      by apply not_elem_of_nil in Hs|].
    apply bind_ok. exists (). split; [by apply raise_if_ok, duplicates_spec|].
    rewrite Ei. cbn [fmap list_fmap]. apply bind_ok. exists (). split.
    { apply for_each_ok, Forall_forall. intros t Ht. apply check_transition_spec; [done|]. by apply Htr. }
    apply bind_ok. exists (). split.
    { apply for_each_ok, Forall_forall. intros s' Hs'. by apply validate_state_kind_spec, Hst. }
    apply bind_ok. exists (). split.
    + apply (assert_all_reachable_ok _ _ Hnd Hkn (st_key s)); [by apply Hin, list_elem_of_fmap_2|].
      intros k Hk. by apply Hreach, Hin.
    + by apply (assert_no_automatic_cycle_ok _ _ Hnd Hkn).
Qed.

(** The breadth-first search of n layers computes the reflexive transitive closure: a
    state is found exactly when transitions lead to it from the initial state. *)
Lemma reachable_spec key_set ts initial k :
  NoDup key_set → (∀ t, t ∈ ts → from_ t ∈ key_set ∧ to t ∈ key_set) → initial ∈ key_set →
  k ∈ _reachable initial key_set (targets (λ _, true) ts) ↔ rtc (edge_of (λ _, true) ts) initial k.
Proof.
  intros Hnd Hk Hi. rewrite <- rtc_targets.
  apply (reachable_closure _ (list_to_set key_set)).
  - by apply targets_closed.
  - by apply elem_of_list_to_set.
  - by rewrite size_list_to_set.
Qed.

(** The depth-first search ends within a recursion depth of one more than the number of
    states, and reports a cycle exactly when the automatic transitions have one. *)
Lemma first_cycle_spec key_set ts :
  NoDup key_set → (∀ t, t ∈ ts → from_ t ∈ key_set ∧ to t ∈ key_set) →
  ∃ cycle done, _first_cycle (S (length key_set)) key_set [] ∅ (targets automatic ts) = Some (cycle, done) ∧
    (cycle = None ↔ ∀ k, ¬ tc (edge_of automatic ts) k k).
Proof.
  intros Hnd Hk. pose proof (assert_no_automatic_cycle_ok key_set ts Hnd Hk) as H.
  unfold _assert_no_automatic_cycle in H.
  destruct (search_spec (targets automatic ts) (list_to_set key_set)
    (targets_closed key_set ts Hk _) (S (length key_set)) key_set [] ∅) as ([c D] & E & _).
  - split.
    + intros n Hn. by apply elem_of_list_to_set.
    + by intros ? ?%not_elem_of_nil.
    + constructor.
    + done.
    + by intros ? ? ?.
    + split; intros x; set_solver.
    + by intros ? ?%not_elem_of_nil.
  - rewrite size_list_to_set by done. cbn. lia.
  - unfold search in E. rewrite E in *. exists c, D. split; [done|]. rewrite <- H.
    destruct c; split; congruence.
Qed.

(** ** A flow with a vote *)
Definition demo_state (k : string) (initial : bool) (kind : StateKind) (c : list (string * pyval))
    : StateDef := MkState k [] None true initial false kind c.
Definition demo_transition (f t : string) (auto : bool) (b : option TransitionBranch) : TransitionDef :=
  MkTransition f t [] None PNone [] None auto b true.
Definition demo_flow : FlowGraph :=
  MkFlowGraph
    [demo_state "new" true normal []; demo_state "vote" false vote [("gremiumId", PStr "asta")];
     demo_state "done" false normal []; demo_state "out" false normal []]
    [demo_transition "new" "vote" true None; demo_transition "vote" "done" false (Some br_pass);
     demo_transition "vote" "out" false (Some br_fail)] None.
Lemma fromkeys_set (l : list string) : NoDup (fromkeys l) ∧ ∀ x, x ∈ fromkeys l ↔ x ∈ l.
Proof. split; [apply NoDup_fromkeys|]. intros x. apply elem_of_fromkeys. Qed.

Lemma validate_flow_graph_spec_witness : flow_ok demo_flow.
Proof.
  apply (proj1 (validate_flow_graph_spec fromkeys demo_flow fromkeys_set)).
  vm_compute. reflexivity.
Defined.

Lemma demo_known t :
  t ∈ transitions demo_flow → from_ t ∈ keys_of demo_flow ∧ to t ∈ keys_of demo_flow.
Proof.
  intros Ht. assert (H : Forall (λ t, from_ t ∈ keys_of demo_flow ∧ to t ∈ keys_of demo_flow)
                           (transitions demo_flow)).
  { apply (bool_decide_eq_true _). vm_compute. reflexivity. }
  rewrite Forall_forall in H. by apply H.
Qed.
Lemma demo_keys_nodup : NoDup (keys_of demo_flow).
Proof. apply (bool_decide_eq_true _). vm_compute. reflexivity. Qed.

Definition cycle_of (r : option cycle_search) : option (list string) :=
  match r with Some (c, _) => c | None => None end.
