(* ===== verification/BudgetRules.v ===== *)
(** The rules of the budget tree ([budget/tree_rules.py] and the ancestor query of
    [budget/decision.py]): path keys, the distribution of allocations, the roll-up of the
    consumption, fiscal years, the deciding Gremium and the forest that the budget view
    shows.

    An amount is an integer number of cents: the columns hold two decimals, and a sum of
    [Decimal]s of two decimals is exact below 10^26 (see [cents_add_exact]).  Ids are
    strings.  A [res pyexc] is a function that can raise. *)

From S2P Require Import Prelude PyStr PyNum PyValue PyDate.

Definition _SEP : string := "-".
Definition _KEY_MAX : Z := 64.

(** [_KEY_RE.match(key)] for [^[A-Za-z0-9]+$]: the end anchor also matches before a final
    line feed. *)
Definition newline : ascii := char 10.
Definition key_re_match (key : string) : bool :=
  let l := chars key in
  let body := match last l with
              | Some c => if decide (c = newline) then take (length l - 1) l else l
              | None => l
              end in
  negb (bool_decide (body = [])) && forallb is_alnum body.
Definition is_valid_key (key : string) : bool := (py_len key <=? _KEY_MAX) && key_re_match key.

Definition compose_path_key (parent_path : option string) (key : string) : string :=
  match parent_path with
  | None => key
  | Some p => p +:+ _SEP +:+ key
  end.
Definition is_descendant_path (ancestor_path node_path : string) : bool :=
  startswith node_path (ancestor_path +:+ _SEP).
Definition is_self_or_descendant_path (ancestor_path node_path : string) : bool :=
  bool_decide (node_path = ancestor_path) || is_descendant_path ancestor_path node_path.

Definition fiscal_year_delete_blocker (has_bookings has_allocations has_applications : bool)
    : option string :=
  match has_bookings, has_allocations, has_applications with
  | true, _, _ => Some "bookings"
  | _, true, _ => Some "allocations"
  | _, _, true => Some "applications"
  | _, _, _ => None
  end.

Definition transfer_pair_changed (current_from current_to : string)
    (requested_from requested_to : option string) : bool :=
  let from_changed :=
    match requested_from with Some r => negb (bool_decide (r = current_from)) | None => false end in
  from_changed ||
  match requested_to with Some r => negb (bool_decide (r = current_to)) | None => false end.

(** ** Amounts *)
Definition as_amount (value : option Z) : Z := match value with Some v => v | None => 0 end.
Definition children_allocation_exceeds_parent (parent_allocated : option Z)
    (siblings_sum_excluding new_value : Z) : bool :=
  as_amount parent_allocated <? siblings_sum_excluding + new_value.
Definition parent_allocation_below_children (new_parent_value children_sum : Z) : bool :=
  new_parent_value <? children_sum.

Definition rollup_one (leaves : list (string * Z)) (node_path : string) : Z :=
  zsum (snd <$> filter (λ l, is_self_or_descendant_path node_path l.1 = true) leaves).
Definition rollup_committed (node_paths : list (string * string))
    (leaf_amounts : list (string * option Z)) : list (string * Z) :=
  let leaves := (λ l, (l.1, as_amount l.2)) <$> leaf_amounts in
  dict_of_pairs ((λ n, (n.1, rollup_one leaves n.2)) <$> node_paths).

Definition node_available (allocated : option Z) (bound expended income : Z) : Z :=
  as_amount allocated - bound - expended + income.

(** ** Fiscal years *)
Definition pick_fiscal_year {T} (candidates : list (T * pydate * pydate)) (today : pydate) : option T :=
  let current := (λ c, c.1.1) <$>
    filter (λ c, date_leb c.1.2 today && date_leb today c.2 = true) candidates in
  match candidates, current with
  | [(only, _, _)], _ => Some only
  | _, [only] => Some only
  | _, _ => None
  end.

Definition is_valid_fiscal_start (start_month start_day : Z) : bool :=
  (1 <=? start_month) && (start_month <=? 12) && (1 <=? start_day) && (start_day <=? 28).

Definition date_or_raise (d : option pydate) (e : pyexc) : res pyexc pydate :=
  match d with Some d => Ok d | None => Err e end.
Definition fiscal_year_bounds (year start_month start_day : Z) : res pyexc (pydate * pydate) :=
  _ ← raise_if (negb (is_valid_fiscal_start start_month start_day)) ValueError;
  start ← date_or_raise (mk_date year start_month start_day) ValueError;
  next ← date_or_raise (mk_date (year + 1) start_month start_day) ValueError;
  last ← date_or_raise (prev_day next) OverflowError;
  Ok (start, last).
Definition fiscal_year_display (year start_month start_day : Z) : string :=
  if (start_month =? 1) && (start_day =? 1) then int_str year
  else int_str year +:+ "/" +:+ pad 2 (int_str ((year + 1) mod 100)).

(** ** The deciding Gremium *)
(** [parent_of.get(k)]: outer [None] is a missing key. *)
Definition parents_t := list (string * option string).
(** [own_of.get(k)]: a missing key and a [None] value read alike. *)
Definition own_get (own_of : list (string * option string)) (k : string) : option string :=
  match dict_get k own_of with Some (Some g) => Some g | _ => None end.

(** The walk of [_decision_from]; [None] is a walk that used its fuel up. *)
Fixpoint _decision_from (fuel : nat) (node_id : option string) (parent_of : parents_t)
    (own_of : list (string * option string)) (seen : list string)
    : option (option string * option string) :=
  match fuel with
  | O => None
  | S fuel =>
      match node_id with
      | None => Some (None, None)
      | Some n =>
          if bool_decide (n ∈ seen) then Some (None, None)
          else
            match dict_get n parent_of with
            | None => Some (None, None)
            | Some parent =>
                match own_get own_of n with
                | Some own => Some (Some own, Some n)
                | None => _decision_from fuel parent parent_of own_of (n :: seen)
                end
            end
      end
  end.
Definition resolve_decision_gremium (node_id : string) (parent_of : parents_t)
    (own_of : list (string * option string)) : option (option string * option string) :=
  _decision_from (S (length parent_of)) (Some node_id) parent_of own_of [].

(** [decision_gremium_of]: the query loads the nodes whose path is a prefix of the path of
    the node. *)
Record BudgetRow := MkBudgetRow {
  b_id : string;
  b_parent_id : option string;
  b_path_key : string;
  b_decision_gremium_id : option string
}.
Fixpoint prefixes_of (done segments : list string) : list string :=
  match segments with
  | [] => []
  | s :: r => join _SEP (done ++ [s]) :: prefixes_of (done ++ [s]) r
  end.
Definition decision_gremium_of (rows : list BudgetRow) (budget_id : string)
    : option (option string * option string) :=
  match filter (λ b, b_id b = budget_id) rows with
  | [] => Some (None, None)
  | b :: _ =>
      let prefixes := prefixes_of [] (py_split "-" (b_path_key b)) in
      let hits := filter (λ r, b_path_key r ∈ prefixes) rows in
      resolve_decision_gremium budget_id
        (dict_of_pairs ((λ r, (b_id r, b_parent_id r)) <$> hits))
        (dict_of_pairs ((λ r, (b_id r, b_decision_gremium_id r)) <$> hits))
  end.

(** ** The forest of the budget view *)
Record NodeTuple := MkNode {
  n_id : string;
  n_parent_id : option string;
  n_gremium_id : option string;
  n_key : string;
  n_path_key : string;
  n_name : string;
  n_currency : string;
  n_active : bool;
  n_color : option string;
  n_accepted_state_keys : list string;
  n_denied_state_keys : list string;
  n_fiscal_start_month : Z;
  n_fiscal_start_day : Z;
  n_hidden_in_budget : bool;
  n_view_gremium_id : option string;
  n_decision_gremium_id : option string
}.
Record AllocationView := MkAllocationView {
  av_fiscal_year_id : string;
  av_allocated : Z;
  av_bound : Z;
  av_expended : Z;
  av_income : Z;
  av_committed : Z;
  av_requested : Z;
  av_available : Z
}.
Inductive BudgetView := View {
  v_node : NodeTuple;
  v_effective_decision_gremium_id : option string;
  v_decision_gremium_source_id : option string;
  v_by_fiscal_year : list AllocationView;
  v_children : list BudgetView
}.

(** The keys of a table are a node id and a fiscal year id. *)
Definition table := list (string * string * Z).
Fixpoint table_get (k : string * string) (t : table) : Z :=
  match t with
  | [] => 0
  | (k', v) :: r => if decide (k' = k) then v else table_get k r
  end.

Definition _rollup_by_fy (node_paths : list (string * string)) (rows : list (string * string * option Z))
    : table :=
  concat ((λ fy_id,
    let leaves := (λ r, (r.1.2, r.2)) <$> filter (λ r, r.1.1 = fy_id) rows in
    (λ n, ((n.1, fy_id), n.2)) <$> filter (λ n, n.2 ≠ 0) (rollup_committed node_paths leaves))
    <$> fromkeys ((λ r, r.1.1) <$> rows)).

Definition _view (node_id fy : string) (alloc bound requested expended income : table)
    : AllocationView :=
  let k := (node_id, fy) in
  MkAllocationView fy (table_get k alloc) (table_get k bound) (table_get k expended)
    (table_get k income) (table_get k bound + table_get k expended) (table_get k requested)
    (node_available (Some (table_get k alloc)) (table_get k bound) (table_get k expended)
       (table_get k income)).
Definition _views_for_node (node_id : string) (alloc bound requested expended income : table)
    : list AllocationView :=
  let fys := fromkeys ((λ e, e.1.2) <$>
    filter (λ e, e.1.1 = node_id) (alloc ++ bound ++ requested ++ expended ++ income)) in
  (λ fy, _view node_id fy alloc bound requested expended income) <$> sort_by str_leb fys.

(** [{(bid, fy): as_amount(value) for ...}]: a later row of the same key wins. *)
Definition alloc_table (allocations : list (string * string * option Z)) : table :=
  reverse ((λ a, (a.1, as_amount a.2)) <$> allocations).
Definition children_of (nodes : list NodeTuple) (parent : option string) : list NodeTuple :=
  filter (λ n, n_parent_id n = parent) nodes.

Section Forest.
Context (nodes : list NodeTuple) (alloc bound requested expended income : table).
Definition parent_map : parents_t := dict_of_pairs ((λ n, (n_id n, n_parent_id n)) <$> nodes).
Definition decision_map : parents_t :=
  dict_of_pairs ((λ n, (n_id n, n_decision_gremium_id n)) <$> nodes).

Fixpoint collect {A B} (f : A → option B) (l : list A) : option (list B) :=
  match l with
  | [] => Some []
  | x :: r => y ← f x; ys ← collect f r; Some (y :: ys)
  end.
(** [to_dict]; [None] is a recursion that used its fuel up. *)
Fixpoint to_dict (fuel : nat) (n : NodeTuple) : option BudgetView :=
  match fuel with
  | O => None
  | S fuel =>
      '(effective, source) ← resolve_decision_gremium (n_id n) parent_map decision_map;
      children ← collect (to_dict fuel) (children_of nodes (Some (n_id n)));
      Some (View n effective source
              (_views_for_node (n_id n) alloc bound requested expended income) children)
  end.
End Forest.

Definition build_forest (nodes : list NodeTuple) (allocations : list (string * string * option Z))
    (bound_rows requested_rows expended_rows income_rows : list (string * string * option Z))
    (gremium_id : option string) : option (list BudgetView) :=
  let node_paths := (λ n, (n_id n, n_path_key n)) <$> nodes in
  let view := to_dict nodes (alloc_table allocations) (_rollup_by_fy node_paths bound_rows)
                (_rollup_by_fy node_paths requested_rows) (_rollup_by_fy node_paths expended_rows)
                (_rollup_by_fy node_paths income_rows) (S (length nodes)) in
  let roots := children_of nodes None in
  collect view
    (filter (λ r, match gremium_id with
                  | None => true
                  | Some g => bool_decide (n_gremium_id r = Some g)
                  end = true) roots).

(** ** The forest of a Gremium *)
Fixpoint _scoped (gremium_ids : list string) (node : BudgetView) : list BudgetView :=
  match n_view_gremium_id (v_node node) with
  | Some g => if bool_decide (g ∈ gremium_ids) then [node]
              else concat (_scoped gremium_ids <$> v_children node)
  | None => concat (_scoped gremium_ids <$> v_children node)
  end.
Definition scope_forest (forest : list BudgetView) (gremium_ids : list string) : list BudgetView :=
  match gremium_ids with [] => [] | _ => concat (_scoped gremium_ids <$> forest) end.
