(* ===== verification/BudgetFacts.v ===== *)
(** The budget tree rules against what they promise: a path prefix is an ancestor, the
    roll-up conserves the consumption, fiscal years leave no gap, the deciding Gremium is
    that of the nearest ancestor, the forest ends, and a Gremium sees whole subtrees. *)

From S2P Require Import Prelude PyStr PyNum PyValue PyDate BudgetRules.

(** Amounts of two decimals add exactly. *)
Lemma cents_add_exact a b :
  Z.abs (a + b) < 10 ^ 28 → dec_add (DFin a (-2)) (DFin b (-2)) = Ok (DFin (a + b) (-2)).
Proof.
  intros H. cbn [dec_add]. unfold dec_align. rewrite Z.min_id, Z.sub_diag, !Z.mul_1_r.
  by apply dec_finalize_exact.
Qed.

(** ** Paths *)
Definition sep : ascii := "-"%char.
(** A key without the separator. *)
Definition key_ok (k : string) : Prop := sep ∉ chars k.
Definition path (keys : list string) : string := join _SEP keys.

Lemma valid_key_ok k : is_valid_key k = true → key_ok k.
Proof.
  unfold is_valid_key, key_re_match, key_ok. intros H Hin. bool_prop.
  match goal with H : forallb _ _ = true |- _ => rename H into Hall end.
  assert (Hsep : is_alnum sep = false) by reflexivity.
  assert (Hno : ∀ l, forallb is_alnum l = true → sep ∉ l).
  { intros l Hl Hs. rewrite forallb_forall in Hl. rewrite list_elem_of_In in Hs.
    apply Hl in Hs. congruence. }
  destruct (last (chars k)) as [c|] eqn:El; [|by eapply Hno].
  case_decide as Hc; [|by eapply Hno]. subst c.
  apply last_Some in El as [l El]. rewrite El in *.
  rewrite length_app in Hall. cbn [length] in Hall. rewrite Nat.add_sub, take_app_length in Hall.
  apply elem_of_app in Hin as [Hin|Hin%list_elem_of_singleton]; [by eapply Hno|]. done.
Qed.

Definition coded (keys : list string) : list ascii := concat ((λ k, chars k ++ [sep]) <$> keys).

Lemma chars_path keys : keys ≠ [] → chars (path keys) ++ [sep] = coded keys.
Proof.
  induction keys as [|k [|k' keys] IH]; [done|by cbn; rewrite app_nil_r|]. intros _.
  change (path (k :: k' :: keys)) with (k +:+ _SEP +:+ path (k' :: keys)).
  rewrite !chars_app. change (chars _SEP) with [sep].
  rewrite <- !app_assoc. rewrite IH by done. unfold coded. cbn [fmap list_fmap concat].
  by rewrite <- !app_assoc.
Qed.

Lemma sep_split a b x y : sep ∉ a → sep ∉ b → a ++ sep :: x = b ++ sep :: y → a = b ∧ x = y.
Proof.
  revert b. induction a as [|c a IH]; intros [|d b] Ha Hb H; cbn in H; injection H; intros; subst.
  - done.
  - exfalso. apply Hb. left.
  - exfalso. apply Ha. left.
  - destruct (IH b) as [-> ->]; [set_solver..|done|done].
Qed.

Lemma coded_prefix ks ls :
  Forall key_ok ks → Forall key_ok ls → (∃ t, coded ls = coded ks ++ t) ↔ ks `prefix_of` ls.
Proof.
  intros Hk. revert ls. induction Hk as [|k ks Hk _ IH]; intros ls Hl.
  - split; [intros _; apply prefix_nil|]. intros _. by exists (coded ls).
  - destruct Hl as [|l ls Hl Hls].
    + split; [|by intros ?%prefix_nil_not]. intros [t Ht]. unfold coded in Ht. cbn in Ht.
      by destruct (chars k).
    + unfold coded. cbn [fmap list_fmap concat]. fold (coded ls). fold (coded ks). split.
      * intros [t Ht]. rewrite <- !app_assoc in Ht. apply sep_split in Ht as [E1 E2]; [|done..].
        apply chars_inj in E1 as ->. apply prefix_cons, IH; [done|]. by exists t.
      * intros Hp. pose proof (prefix_cons_inv_1 _ _ _ _ Hp) as ->.
        apply prefix_cons_inv_2, IH in Hp as [t ->]; [|done]. exists t. by rewrite <- !app_assoc.
Qed.

Lemma self_or_descendant_iff a b :
  is_self_or_descendant_path a b = true ↔ ∃ t, chars b ++ [sep] = chars a ++ [sep] ++ t.
Proof.
  unfold is_self_or_descendant_path, is_descendant_path. rewrite orb_true_iff, bool_decide_eq_true.
  rewrite startswith_spec. split.
  - intros [->|[t ->]]; [by exists []|]. exists (chars t ++ [sep]).
    rewrite !chars_app. change (chars _SEP) with [sep]. by rewrite <- !app_assoc.
  - intros [t Ht]. destruct t as [|c t] using rev_ind; [left|right].
    + rewrite app_nil_r in Ht. apply app_inj_tail in Ht as [Ht _]. by apply chars_inj.
    + rewrite !app_assoc in Ht. apply app_inj_tail in Ht as [Ht _]. exists (of_chars t).
      apply chars_inj. rewrite !chars_app, chars_of_chars, Ht. done.
Qed.

Lemma path_prefix ks ls :
  Forall key_ok ks → Forall key_ok ls → ks ≠ [] → ls ≠ [] →
  is_self_or_descendant_path (path ks) (path ls) = true ↔ ks `prefix_of` ls.
Proof.
  intros Hk Hl Hk0 Hl0. rewrite self_or_descendant_iff, <- coded_prefix by done.
  rewrite chars_path by done. setoid_rewrite app_assoc. by rewrite chars_path.
Qed.

Lemma compose_path keys k : keys ≠ [] → compose_path_key (Some (path keys)) k = path (keys ++ [k]).
Proof.
  induction keys as [|x [|y keys] IH]; [done|done|]. intros _.
  change ((x :: y :: keys) ++ [k]) with (x :: y :: (keys ++ [k])).
  change (path (x :: y :: keys ++ [k])) with (x +:+ _SEP +:+ path ((y :: keys) ++ [k])).
  rewrite <- IH by done. cbn [compose_path_key].
  change (path (x :: y :: keys)) with (x +:+ _SEP +:+ path (y :: keys)).
  apply chars_inj. rewrite !chars_app. by rewrite <- !app_assoc.
Qed.

Lemma path_inj ks ls : Forall key_ok ks → Forall key_ok ls → ks ≠ [] → ls ≠ [] → path ks = path ls → ks = ls.
Proof.
  intros Hk Hl Hk0 Hl0 E. apply (anti_symm prefix); apply path_prefix; try done;
    rewrite E; unfold is_self_or_descendant_path; by rewrite bool_decide_true.
Qed.
Lemma descendant_iff ks ls :
  Forall key_ok ks → Forall key_ok ls → ks ≠ [] → ls ≠ [] →
  is_descendant_path (path ks) (path ls) = true ↔ ks `prefix_of` ls ∧ ks ≠ ls.
Proof.
  intros Hks Hls Hk Hl. rewrite <- (path_prefix ks ls) by done.
  unfold is_self_or_descendant_path. rewrite orb_true_iff, bool_decide_eq_true. split.
  - intros Hd. split; [by right|]. intros ->. unfold is_descendant_path in Hd.
    apply startswith_spec in Hd as [t Ht]. apply (f_equal (λ s, length (chars s))) in Ht.
    rewrite !chars_app, !length_app in Ht. cbn in Ht. lia.
  - intros [[E|Hd] Hne]; [|done]. destruct Hne. symmetry. by apply path_inj.
Qed.

(** The path prefix test is the ancestor test of the tree: for paths that are composed
    of valid keys, a node counts as a descendant exactly when the keys of the ancestor are
    the first keys of the node, so a key is never taken for the beginning of another. *)
Lemma descendant_is_prefix ks ls :
  Forall (λ k, is_valid_key k = true) (ks ++ ls) → ks ≠ [] → ls ≠ [] →
  (is_self_or_descendant_path (path ks) (path ls) = true ↔ ks `prefix_of` ls) ∧
  (is_descendant_path (path ks) (path ls) = true ↔ ks `prefix_of` ls ∧ ks ≠ ls) ∧
  (∀ k, compose_path_key (Some (path ks)) k = path (ks ++ [k])).
Proof.
  intros Hv Hk Hl. apply Forall_app in Hv as [Hvk Hvl].
  assert (Hks : Forall key_ok ks) by (eapply Forall_impl; [exact Hvk|apply valid_key_ok]).
  assert (Hls : Forall key_ok ls) by (eapply Forall_impl; [exact Hvl|apply valid_key_ok]).
  split; [by apply path_prefix|]. split; [by apply descendant_iff|]. intros k. by apply compose_path.
Qed.

(** ** Roll-up *)
Definition indicator (P : Prop) `{Decision P} : Z := if decide P then 1 else 0.

Lemma rollup_one_sum leaves p :
  rollup_one leaves p =
    zsum ((λ l, l.2 * indicator (is_self_or_descendant_path p l.1 = true)) <$> leaves).
Proof.
  unfold rollup_one, indicator. induction leaves as [|[q a] l IH]; [done|]. rewrite filter_cons.
  cbn [fmap list_fmap zsum fst snd]. case_decide; cbn [fmap list_fmap zsum snd]; rewrite IH; lia.
Qed.

Lemma zsum_map_mul {A} (c : Z) (f : A → Z) l : zsum ((λ x, c * f x) <$> l) = c * zsum (f <$> l).
Proof. induction l as [|x l IH]; cbn; [lia|]. rewrite IH. lia. Qed.
Lemma zsum_swap {A B} (f : A → B → Z) (l : list A) (k : list B) :
  zsum ((λ a, zsum (f a <$> k)) <$> l) = zsum ((λ b, zsum ((λ a, f a b) <$> l)) <$> k).
Proof.
  induction l as [|a l IH]; cbn.
  - induction k as [|b k IHk]; [done|]. cbn. by rewrite <- IHk.
  - rewrite IH. clear IH. induction k as [|b k IHk]; [done|]. cbn. rewrite <- IHk. lia.
Qed.

(** A leaf at or below a node is at the node or below exactly one of its children. *)
Lemma leaf_indicator ks ls cs :
  Forall key_ok ks → Forall key_ok ls → Forall key_ok cs → ks ≠ [] → ls ≠ [] → NoDup cs →
  (ks `prefix_of` ls → ks = ls ∨ ∃ c, c ∈ cs ∧ (ks ++ [c]) `prefix_of` ls) →
  indicator (is_self_or_descendant_path (path ks) (path ls) = true) =
    indicator (ls = ks) +
    zsum ((λ c, indicator (is_self_or_descendant_path (path (ks ++ [c])) (path ls) = true)) <$> cs).
Proof.
  intros Hks Hls Hcs Hk Hl Hnd Hcov.
  assert (Hchild : ∀ c, c ∈ cs → is_self_or_descendant_path (path (ks ++ [c])) (path ls) = true ↔
                   (ks ++ [c]) `prefix_of` ls).
  { intros c Hc. rewrite Forall_forall in Hcs. apply path_prefix; try done; [|by destruct ks].
    apply Forall_app. split; [done|]. constructor; [by apply Hcs|constructor]. }
  unfold indicator at 1 2.
  destruct (decide (is_self_or_descendant_path (path ks) (path ls) = true)) as [Hp|Hp];
    rewrite path_prefix in Hp by done.
  - destruct (decide (ls = ks)) as [->|Hne].
    + rewrite (zsum_map_ext _ (λ _, 0)); [clear; induction cs; cbn in *; lia|].
      intros c Hc. unfold indicator. rewrite decide_False; [done|]. rewrite Hchild by done.
      intros [t Ht]. apply (f_equal length) in Ht. rewrite !length_app in Ht. cbn in Ht. lia.
    + destruct (Hcov Hp) as [?|(c0 & Hc0 & t & Ht)]; [congruence|].
      rewrite (zsum_map_ext _ (λ c, if decide (c0 = c) then 1 else 0)).
      * rewrite zsum_map_const_if by done. by rewrite decide_True.
      * intros c Hc. unfold indicator. case_decide as H1; case_decide as H2; try done; exfalso.
        -- apply H2. apply Hchild in H1 as [t' Ht']; [|done]. rewrite Ht in Ht'.
           rewrite <- !app_assoc in Ht'. apply app_inv_head in Ht'. by injection Ht' as ->.
        -- apply H1. subst c. apply Hchild; [done|]. by exists t.
  - rewrite decide_False by (intros ->; by apply Hp).
    rewrite (zsum_map_ext _ (λ _, 0)); [clear; induction cs; cbn in *; lia|].
    intros c Hc. unfold indicator. rewrite decide_False; [done|]. rewrite Hchild by done.
    intros [t ->]. apply Hp. exists (c :: t). by rewrite <- app_assoc.
Qed.

(** The amount that is booked on the node itself. *)
Definition direct_amount (leaves : list (list string * Z)) (ks : list string) : Z :=
  zsum (snd <$> filter (λ l, l.1 = ks) leaves).

(** The roll-up conserves the consumption: when every booking at or below a node sits
    on the node or below one of its children, the sum of the node is its own bookings and
    the sums of its children, nothing counted twice and nothing lost. *)
Lemma rollup_conserves leaves ks cs :
  Forall (λ k, is_valid_key k = true) (ks ++ cs) → ks ≠ [] → NoDup cs →
  (∀ l, l ∈ leaves → l.1 ≠ [] ∧ Forall (λ k, is_valid_key k = true) l.1 ∧
     (ks `prefix_of` l.1 → ks = l.1 ∨ ∃ c, c ∈ cs ∧ (ks ++ [c]) `prefix_of` l.1)) →
  let rows := (λ l, (path l.1, l.2)) <$> leaves in
  rollup_one rows (path ks) =
    direct_amount leaves ks +
    zsum ((λ c, rollup_one rows (compose_path_key (Some (path ks)) c)) <$> cs).
Proof.
  intros Hv Hk Hnd Hleaves rows. apply Forall_app in Hv as [Hvk Hvc].
  assert (Hks : Forall key_ok ks) by (eapply Forall_impl; [exact Hvk|apply valid_key_ok]).
  assert (Hcs : Forall key_ok cs) by (eapply Forall_impl; [exact Hvc|apply valid_key_ok]).
  rewrite rollup_one_sum. subst rows.
  rewrite (zsum_map_ext (λ c, rollup_one _ (compose_path_key (Some (path ks)) c))
    (λ c, zsum ((λ l, l.2 * indicator (is_self_or_descendant_path (path (ks ++ [c])) (path l.1) = true)) <$> leaves))).
  2:{ intros c _. rewrite compose_path, rollup_one_sum by done. f_equal. by rewrite <- list_fmap_compose. }
  rewrite <- (zsum_swap (λ l c, l.2 * indicator (is_self_or_descendant_path (path (ks ++ [c])) (path l.1) = true))).
  unfold direct_amount. rewrite <- list_fmap_compose. unfold compose. cbn [fst snd].
  induction leaves as [|[ls a] leaves IH]; [done|]. cbn [fmap list_fmap zsum fst snd].
  rewrite IH by (intros l Hl; apply Hleaves; by right). clear IH.
  destruct (Hleaves (ls, a)) as (Hl & Hlv & Hcov); [left|]. cbn [fst] in *.
  rewrite (leaf_indicator ks ls cs); try done.
  2:{ eapply Forall_impl; [exact Hlv|apply valid_key_ok]. }
  rewrite zsum_map_mul, filter_cons. cbn [fst]. unfold indicator at 1.
  destruct (decide (ls = ks)); cbn [fmap list_fmap zsum snd]; lia.
Qed.

(** ** Fiscal years *)
Lemma mk_date_valid y m d :
  1 ≤ y ≤ 9999 → 1 ≤ m ≤ 12 → 1 ≤ d ≤ 28 → mk_date y m d = Some (Date y m d) ∧ date_ok (Date y m d).
Proof.
  intros Hy Hm Hd. pose proof (days_in_month_bounds y m). unfold mk_date, date_ok. cbn.
  rewrite !(proj2 (Z.leb_le _ _)) by lia. split; [done|lia].
Qed.

Lemma prev_day_some y m d : 2 ≤ y → ∃ e, prev_day (Date y m d) = Some e.
Proof.
  intros H. unfold prev_day. cbn [dyear dmonth dday]. repeat case_if; eauto.
  bool_prop. lia.
Qed.

Lemma date_ltb_next a b e :
  date_ltb a b = true → next_day e = Some b → date_ok e → date_ok a → date_leb a e = true.
Proof.
  rewrite date_leb_spec, negb_true_iff, <- not_true_iff_false, !date_ltb_spec.
  destruct e as [y m d], b as [y' m' d'], a as [y0 m0 d0]. unfold next_day, date_ok.
  cbn [dyear dmonth dday]. intros Hlt Hn Hok Ha Hgt. revert Hn.
  assert (y = y0 → m = m0 → d0 ≤ days_in_month y m) by (intros; subst; lia).
  pose proof (days_in_month_bounds y m).
  repeat case_if; intros [= <- <- <-]; bool_prop; lia.
Qed.

Lemma fiscal_year_bounds_ok y m d :
  is_valid_fiscal_start m d = true → 1 ≤ y ≤ 9998 →
  ∃ e, fiscal_year_bounds y m d = Ok (Date y m d, e) ∧ next_day e = Some (Date (y + 1) m d) ∧
    date_leb (Date y m d) e = true.
Proof.
  intros Hs Hy. unfold fiscal_year_bounds. rewrite Hs. cbn [negb raise_if]. rewrite bind_Ok_l.
  unfold is_valid_fiscal_start in Hs. bool_prop.
  destruct (mk_date_valid y m d) as [-> Hoks]; [lia..|]. cbn [date_or_raise]. rewrite bind_Ok_l.
  destruct (mk_date_valid (y + 1) m d) as [-> Hok]; [lia..|]. cbn [date_or_raise]. rewrite bind_Ok_l.
  destruct (prev_day_some (y + 1) m d ltac:(lia)) as [e He]. rewrite He.
  destruct (prev_next _ _ Hok He) as (Hoke & Hn & _). exists e. split; [done|]. split; [done|].
  eapply date_ltb_next; [|exact Hn|exact Hoke|exact Hoks]. apply date_ltb_spec. cbn. lia.
Qed.

(** Fiscal years are gapless and disjoint: for every valid cutoff the bounds of a year
    exist, the year is not empty, and the day after its end is the start of the next year;
    an impossible cutoff raises [ValueError]. *)
Lemma fiscal_years_gapless y m d :
  (is_valid_fiscal_start m d = false → fiscal_year_bounds y m d = Err ValueError) ∧
  (is_valid_fiscal_start m d = true → 1 ≤ y ≤ 9997 →
   ∃ s e s' e', fiscal_year_bounds y m d = Ok (s, e) ∧ fiscal_year_bounds (y + 1) m d = Ok (s', e') ∧
     date_leb s e = true ∧ next_day e = Some s').
Proof.
  split.
  - intros H. unfold fiscal_year_bounds. by rewrite H.
  - intros Hs Hy. destruct (fiscal_year_bounds_ok y m d Hs) as (e & E & Hn & Hle); [lia|].
    destruct (fiscal_year_bounds_ok (y + 1) m d Hs) as (e' & E' & _ & _); [lia|].
    by exists (Date y m d), e, (Date (y + 1) m d), e'.
Qed.

(** ** The deciding Gremium *)
Section Decision.
Context (parent_of : parents_t) (own_of : list (string * option string)).

(** The nodes from [n] up to, not including, [m], each the child of the next. *)
Inductive climb : string → list string → string → Prop :=
| climb_here n : climb n [] n
| climb_up n p l m : dict_get n parent_of = Some (Some p) → climb p l m → climb n (n :: l) m.

(** The nearest node with an own Gremium: the nodes below it on the way have none. *)
Definition nearest (n g m : string) : Prop :=
  ∃ l, climb n l m ∧ (∀ x, x ∈ l → own_get own_of x = None) ∧
    own_get own_of m = Some g ∧ m ∈ parent_of.*1.

Lemma climb_from n l m : climb n l m → l = [] ∧ n = m ∨ ∃ p l', l = n :: l' ∧
  dict_get n parent_of = Some (Some p) ∧ climb p l' m.
Proof. inversion 1; subst; [by left|right]. eauto. Qed.

(** Two ways from one node agree on the nodes without an own Gremium. *)
Lemma nearest_unique n g m g' m' : nearest n g m → nearest n g' m' → g = g' ∧ m = m'.
Proof.
  intros (l & Hc & Hno & Hg & _) (l' & Hc' & Hno' & Hg' & _). revert l' Hc' Hno'.
  induction Hc as [n|n p l m Hp Hc IH]; intros l' Hc' Hno'.
  - apply climb_from in Hc' as [[_ <-]|(p & l2 & -> & _)]; [naive_solver|].
    rewrite Hno' in Hg by left. done.
  - apply climb_from in Hc' as [[_ <-]|(p' & l2 & -> & Hp' & Hc')].
    + rewrite Hno in Hg' by left. done.
    + assert (p' = p) as -> by congruence.
      apply (IH ltac:(intros x Hx; apply Hno; by right) Hg l2 Hc').
      intros x Hx. apply Hno'. by right.
Qed.

Definition answer (r : option string * option string) (n : string) : Prop :=
  match r with
  | (Some g, Some m) => nearest n g m
  | (None, None) => ∀ g m, ¬ nearest n g m
  | _ => False
  end.

Lemma nearest_step n p g m :
  dict_get n parent_of = Some (Some p) → own_get own_of n = None → nearest n g m → nearest p g m.
Proof.
  intros Hp Hn (l & Hc & Hno & Hg & Hin). apply climb_from in Hc as [[_ <-]|(p' & l' & -> & Hp' & Hc)].
  - congruence.
  - assert (p' = p) as -> by congruence. exists l'. split; [done|].
    split; [intros x Hx; apply Hno; by right|done].
Qed.

(** The nodes of the walk so far: none has an own Gremium, and the parent of each is the
    current node or another of them. *)
Record walked (seen : list string) (cur : option string) : Prop := {
  w_nodup : NoDup seen;
  w_known : ∀ x, x ∈ seen → x ∈ parent_of.*1;
  w_none : ∀ x, x ∈ seen → own_get own_of x = None;
  w_parent : ∀ x, x ∈ seen → ∃ p, dict_get x parent_of = Some p ∧
    (p = cur ∨ ∃ y, y ∈ seen ∧ p = Some y)
}.

Lemma walked_length seen cur : walked seen cur → (length seen ≤ length parent_of)%nat.
Proof.
  intros []. rewrite <- (length_fmap fst parent_of).
  by apply submseteq_length, NoDup_submseteq.
Qed.

(** The walk of a cycle never leaves it, so it meets no Gremium. *)
Lemma cycle_no_answer seen n : walked seen (Some n) → n ∈ seen → ∀ g m, ¬ nearest n g m.
Proof.
  intros Hw Hn g m (l & Hc & _ & Hg & _).
  assert (Hclosed : ∀ x p, x ∈ seen → dict_get x parent_of = Some (Some p) → p ∈ seen).
  { intros x p Hx Hp. destruct (w_parent _ _ Hw x Hx) as (q & Hq & [->|(y & Hy & ->)]);
      rewrite Hp in Hq; injection Hq as ->; done. }
  assert (Hm : ∀ a l, climb a l m → a ∈ seen → m ∈ seen).
  { clear -Hclosed. induction 1 as [|a p l m Hp _ IH]; eauto. }
  by rewrite (w_none _ _ Hw m (Hm n l Hc Hn)) in Hg.
Qed.

Lemma decision_from_spec fuel : ∀ cur seen,
  walked seen cur → (length parent_of < length seen + fuel)%nat →
  ∃ r, _decision_from fuel cur parent_of own_of seen = Some r ∧
    match cur with Some n => answer r n | None => r = (None, None) end.
Proof.
  induction fuel as [|fuel IH]; intros cur seen Hw Hf.
  { pose proof (walked_length _ _ Hw). lia. }
  cbn [_decision_from]. destruct cur as [n|]; [|by eexists].
  case_bool_decide as Hin; [eexists; split; [done|]; exact (cycle_no_answer seen n Hw Hin)|].
  destruct (dict_get n parent_of) as [parent|] eqn:Hp.
  2:{ eexists. split; [done|]. intros g m (l & Hc & _ & _ & Hm).
      apply climb_from in Hc as [[_ <-]|(p & l' & _ & Hp' & _)]; [|congruence].
      by apply dict_get_None in Hp. }
  assert (Hk : n ∈ parent_of.*1).
  { apply dict_get_Some_elem, (list_elem_of_fmap_2 fst) in Hp. done. }
  destruct (own_get own_of n) as [g|] eqn:Hg.
  { eexists. split; [done|]. exists []. split; [constructor|].
    split; [by intros ? ?%not_elem_of_nil|done]. }
  destruct (IH parent (n :: seen)) as (r & -> & Hr).
  - destruct Hw. split.
    + by constructor.
    + intros x [->|Hx]%elem_of_cons; auto.
    + intros x [->|Hx]%elem_of_cons; auto.
    + intros x [->|Hx]%elem_of_cons; [by exists parent; split; [|left]|].
      destruct (w_parent0 x Hx) as (q & Hq & [->|(y & Hy & ->)]); eexists; (split; [done|]); right.
      * exists n. split; [left|done].
      * exists y. split; [by right|done].
  - cbn [length]. lia.
  - exists r. split; [done|]. destruct parent as [p|].
    + destruct r as [[g|] [m|]]; cbn in Hr |- *; try done.
      * destruct Hr as (l & Hc & Hno & H). exists (n :: l). split; [by econstructor|].
        split; [|done]. intros x [->|Hx]%elem_of_cons; auto.
      * intros g m Hne. by eapply Hr, nearest_step.
    + subst r. intros g m (l & Hc & _ & Hg' & _).
      apply climb_from in Hc as [[_ <-]|(p & l' & _ & Hp' & _)]; congruence.
Qed.
End Decision.

(** The walk up the tree always ends, cycles in the data included, and answers with the
    nearest node that has an own deciding Gremium, or with nothing when there is none. *)
Lemma resolve_decision_gremium_spec node_id parent_of own_of :
  ∃ r, resolve_decision_gremium node_id parent_of own_of = Some r ∧
    match r with
    | (Some g, Some m) =>
        nearest parent_of own_of node_id g m ∧
        ∀ g' m', nearest parent_of own_of node_id g' m' → g' = g ∧ m' = m
    | (None, None) => ∀ g m, ¬ nearest parent_of own_of node_id g m
    | _ => False
    end.
Proof.
  destruct (decision_from_spec parent_of own_of (S (length parent_of)) (Some node_id) [])
    as (r & E & Hr).
  - split; try (by intros ? ?%not_elem_of_nil). constructor.
  - cbn. lia.
  - exists r. split; [exact E|]. destruct r as [[g|] [m|]]; cbn in Hr; try done.
    split; [done|]. intros g' m' H. by eapply nearest_unique.
Qed.

(** ** The forest of a Gremium *)
Section ViewInd.
Variable P : BudgetView → Prop.
Hypothesis Hview : ∀ n e s y cs, Forall P cs → P (View n e s y cs).
Fixpoint view_ind' (v : BudgetView) : P v :=
  match v with
  | View n e s y cs =>
      Hview n e s y cs ((fix go cs := match cs return Forall P cs with
                         | [] => @List.Forall_nil _ P
                         | x :: r => @List.Forall_cons _ P x r (view_ind' x) (go r)
                         end) cs)
  end.
End ViewInd.

(** [m] is [v] or lies in its subtree. *)
Inductive within (m : BudgetView) : BudgetView → Prop :=
| within_self : within m m
| within_child v c : c ∈ v_children v → within m c → within m v.
Definition may_see (ids : list string) (v : BudgetView) : Prop :=
  ∃ g, n_view_gremium_id (v_node v) = Some g ∧ g ∈ ids.

Lemma within_trans a b c : within a b → within b c → within a c.
Proof. intros Hab. induction 1 as [|v c' Hc _ IH]; [done|]. by eapply within_child. Qed.

Lemma scoped_eq ids v :
  (may_see ids v ∧ _scoped ids v = [v]) ∨
  (¬ may_see ids v ∧ _scoped ids v = concat (_scoped ids <$> v_children v)).
Proof.
  unfold may_see. destruct v as [n e s y cs]. cbn [_scoped v_node v_children].
  destruct (n_view_gremium_id n) as [g|]; [case_bool_decide|].
  - left. eauto.
  - right. split; [|done]. by intros (g' & [= ->] & ?).
  - right. split; [|done]. by intros (g' & ? & _).
Qed.

(** The hits of a subtree: visible roots, and nothing visible above them. *)
Definition hit_of (ids : list string) (h v : BudgetView) : Prop :=
  within h v ∧ may_see ids h ∧ ∀ a, within a v → within h a → may_see ids a → a = h ∨ within a h.

Lemma elem_of_scoped_child ids h v :
  h ∈ concat (_scoped ids <$> v_children v) ↔ ∃ c, c ∈ v_children v ∧ h ∈ _scoped ids c.
Proof.
  rewrite elem_of_concat. setoid_rewrite list_elem_of_fmap. naive_solver.
Qed.

Lemma scoped_sound ids v : ∀ h, h ∈ _scoped ids v → within h v ∧ may_see ids h.
Proof.
  induction v as [n e s y cs IH] using view_ind'. intros h Hh.
  destruct (scoped_eq ids (View n e s y cs)) as [[Hm E]|[_ E]]; rewrite E in Hh.
  - apply list_elem_of_singleton in Hh as ->. split; [constructor|done].
  - apply elem_of_scoped_child in Hh as (c & Hc & Hh). rewrite Forall_forall in IH.
    destruct (IH c Hc h Hh) as [H1 H2]. split; [by eapply within_child|done].
Qed.

Lemma scoped_complete ids v : ∀ a,
  within a v → may_see ids a → ∃ h, h ∈ _scoped ids v ∧ within a h.
Proof.
  induction v as [n e s y cs IH] using view_ind'. intros a Ha Hm.
  destruct (scoped_eq ids (View n e s y cs)) as [[Hv E]|[Hv E]]; rewrite E.
  - eexists. split; [by apply list_elem_of_singleton|done].
  - inversion Ha as [|? c Hc Hac]; subst; [done|]. cbn in Hc. rewrite Forall_forall in IH.
    destruct (IH c Hc a Hac Hm) as (h & Hh & Hah). exists h. split; [|done].
    apply elem_of_scoped_child. eauto.
Qed.

(** A Gremium sees exactly the subtrees of its cost centers: a node lies in a returned
    subtree exactly when it lies at or below a node of the forest that the Gremium may see,
    and every returned root is such a node; without Gremien nothing comes back. *)
Lemma scope_forest_spec forest ids :
  (∀ n, (∃ h, h ∈ scope_forest forest ids ∧ within n h) ↔
        (∃ r a, r ∈ forest ∧ within a r ∧ may_see ids a ∧ within n a)) ∧
  (∀ h, h ∈ scope_forest forest ids → may_see ids h ∧ ∃ r, r ∈ forest ∧ within h r).
Proof.
  assert (Hin : ∀ h, h ∈ scope_forest forest ids ↔ ∃ r, r ∈ forest ∧ h ∈ _scoped ids r).
  { intros h. unfold scope_forest. destruct ids as [|i ids].
    - split; [by intros ?%not_elem_of_nil|]. intros (r & _ & Hh).
      apply scoped_sound in Hh as [_ (g & _ & ?%not_elem_of_nil)]. done.
    - rewrite elem_of_concat. setoid_rewrite list_elem_of_fmap. naive_solver. }
  split.
  - intros n. split.
    + intros (h & (r & Hr & Hh)%Hin & Hn). apply scoped_sound in Hh as [H1 H2].
      exists r, h. done.
    + intros (r & a & Hr & Ha & Hm & Hn).
      destruct (scoped_complete ids r a Ha Hm) as (h & Hh & Hah).
      exists h. split; [apply Hin; eauto|]. by eapply within_trans.
  - intros h (r & Hr & Hh)%Hin. apply scoped_sound in Hh as [H1 H2]. eauto.
Qed.

(** ** The forest ends *)
Section ForestTotal.
Context (nodes : list NodeTuple).
Hypothesis unique_ids : NoDup (n_id <$> nodes).

(** [n] is [k] steps below a root. *)
Inductive rooted : nat → NodeTuple → Prop :=
| rooted_root n : n ∈ nodes → n_parent_id n = None → rooted 0 n
| rooted_child k n p :
    n ∈ nodes → n_parent_id n = Some (n_id p) → rooted k p → rooted (S k) n.

Lemma rooted_in k n : rooted k n → n ∈ nodes.
Proof. by destruct 1. Qed.
Lemma same_id n m : n ∈ nodes → m ∈ nodes → n_id n = n_id m → n = m.
Proof.
  intros [i Hi]%list_elem_of_lookup [j Hj]%list_elem_of_lookup E.
  assert (i = j) as ->; [|congruence].
  eapply (NoDup_lookup (n_id <$> nodes)); [done| |]; rewrite list_lookup_fmap.
  - rewrite Hi. done.
  - rewrite Hj. cbn. by rewrite E.
Qed.

Lemma rooted_unique k n : rooted k n → ∀ k', rooted k' n → k = k'.
Proof.
  induction 1 as [n Hn Hp|k n p Hn Hp Hr IH]; intros k' Hk'; inversion Hk'; subst; try congruence.
  f_equal. apply IH. match goal with H : rooted _ ?q |- rooted _ p =>
    assert (p = q) as ->; [|exact H] end.
  apply same_id; [by eapply rooted_in|by eapply rooted_in|congruence].
Qed.

(** The nodes on the way to the root. *)
Lemma rooted_chain k n :
  rooted k n → ∃ l, length l = S k ∧ NoDup l ∧ ∀ m, m ∈ l → m ∈ nodes ∧ ∃ j, (j ≤ k)%nat ∧ rooted j m.
Proof.
  induction 1 as [n Hn Hp|k n p Hn Hp Hr IH].
  - exists [n]. split; [done|]. split; [apply NoDup_singleton|].
    intros m ->%list_elem_of_singleton. split; [done|]. exists 0%nat. split; [done|]. by constructor.
  - destruct IH as (l & Hlen & Hnd & Hl). exists (n :: l). split; [cbn; lia|].
    assert (Hself : rooted (S k) n) by (by econstructor). split.
    + constructor; [|done]. intros (_ & j & Hj & Hrj)%Hl.
      pose proof (rooted_unique _ _ Hself _ Hrj). lia.
    + intros m [->|(Hm & j & Hj & Hrj)%Hl]%elem_of_cons; [eauto|]. split; [done|]. exists j.
      split; [lia|done].
Qed.
Lemma rooted_bound k n : rooted k n → (S k ≤ length nodes)%nat.
Proof.
  intros (l & <- & Hnd & Hl)%rooted_chain. apply submseteq_length, NoDup_submseteq; [done|].
  intros m Hm. by apply Hl.
Qed.

Lemma collect_total {A B} (f : A → option B) l :
  (∀ x, x ∈ l → ∃ y, f x = Some y) → ∃ ys, collect f l = Some ys.
Proof.
  induction l as [|x l IH]; intros H; cbn; [eauto|].
  destruct (H x) as [y ->]; [left|]. destruct IH as [ys ->]; [intros z Hz; apply H; by right|].
  cbn. eauto.
Qed.

Lemma to_dict_total a b r e i fuel : ∀ k n,
  rooted k n → (length nodes < k + fuel)%nat → ∃ v, to_dict nodes a b r e i fuel n = Some v.
Proof.
  induction fuel as [|fuel IH]; intros k n Hr Hf.
  { apply rooted_bound in Hr. lia. }
  cbn [to_dict].
  destruct (resolve_decision_gremium (n_id n) (parent_map nodes) (decision_map nodes)) as [[eff src]|] eqn:E.
  2:{ destruct (decision_from_spec (parent_map nodes) (decision_map nodes)
        (S (length (parent_map nodes))) (Some (n_id n)) []) as (x & Ex & _).
      - split; try (by intros ? ?%not_elem_of_nil). constructor.
      - cbn. lia.
      - unfold resolve_decision_gremium in E. congruence. }
  cbn [mbind option_bind].
  destruct (collect_total (to_dict nodes a b r e i fuel) (children_of nodes (Some (n_id n)))) as [cs Hcs].
  { intros c [Hc Hin]%list_elem_of_filter. apply (IH (S k)); [by econstructor|lia]. }
  rewrite Hcs. cbn. eauto.
Qed.
End ForestTotal.

(** The budget view ends for every table of nodes with unique ids, whatever the parent
    links are: one level of recursion more than there are nodes is enough. *)
Lemma build_forest_total nodes allocations bound requested expended income gremium_id :
  NoDup (n_id <$> nodes) →
  ∃ forest, build_forest nodes allocations bound requested expended income gremium_id = Some forest.
Proof.
  intros Hnd. unfold build_forest. apply collect_total. intros n [_ Hn]%list_elem_of_filter.
  apply list_elem_of_filter in Hn as [Hp Hn].
  apply (to_dict_total nodes Hnd _ _ _ _ _ _ 0 n); [by constructor|lia].
Qed.

(** ** The theorems at a concrete tree *)
Definition demo_keys : list string := ["VS"; "800"].
Lemma demo_keys_valid l :
  forallb is_valid_key l = true → Forall (λ k, is_valid_key k = true) l.
Proof. intros H. apply Forall_forall. intros x Hx. rewrite forallb_forall in H.
  apply H. by apply list_elem_of_In. Qed.

Definition demo_leaves : list (list string * Z) := [(["VS"], 500); (["VS"; "800"], 1200); (["QS"], 70)].

Definition demo_node (i : string) (p : option string) : NodeTuple :=
  MkNode i p None "k" "k" "n" "EUR" true None [] [] 1 1 false None None.
