(* ===== verification/FormFields.v ===== *)
(** The fields of a form ([shared/config_schemas.py]) and the checks of one answer against
    its field type ([forms/validation.py]): text, numbers, dates, options, references,
    e-mail, IBAN, tables and cost positions.

    The regex engine behind [validation.pattern] is a parameter: [full_match] is the outcome
    of [re.fullmatch] in the worker thread, [None] when the pattern is broken or the match
    does not end in time.  A check can let an exception of Python out, so its result is a
    [res pyexc]. *)

From Stdlib Require Import SpecFloat.
From S2P Require Import Prelude PyStr PyNum PyValue PyDate.

(** ** Field definitions *)
Inductive FieldType :=
| FText | FTextarea | FNumber | FCurrency | FDate | FSelect | FMultiselect | FGremiumSelect
| FBudgetSelect | FEmail | FIban | FDaterange | FCheckbox | FFile | FTable | FMarkdown
| FComputed | FPositions | FFunding | FSection.
#[export] Instance FieldType_eq_dec : EqDecision FieldType.
Proof. solve_decision. Defined.

Record FieldOption := MkFieldOption {
  fo_value : string;
  fo_label : list (string * string);
  fo_parent_id : option string;
  fo_key : option string;
  fo_color : option string
}.
Record FieldValidation := MkFieldValidation {
  fv_min : option float;
  fv_max : option float;
  min_len : option Z;
  max_len : option Z;
  pattern : option string;
  file_types : option (list string);
  max_size_mb : option float;
  max_rows : option Z;
  min_offers : option Z;
  min_positions : option Z;
  max_positions : option Z;
  max_offers : option Z;
  allow_no_offers : option bool
}.
Record FormFieldDef := MkField {
  key : string;
  ftype : FieldType;
  label : list (string * string);
  help : list (string * string);
  required : bool;
  validation : option FieldValidation;
  options : option (list FieldOption);
  visible_if : option pyval;
  compute : option pyval;
  is_pii : bool;
  is_promoted : bool;
  promote_target : option string
}.

Definition is_numeric_type (t : FieldType) : bool :=
  match t with FNumber | FCurrency => true | _ => false end.

Record FieldError := MkFieldError { fe_field : string; fe_msg : string }.
Notation errors := (list FieldError).
Notation checked := (res pyexc errors).

Definition _err (key msg : string) : errors := [MkFieldError key msg].
Definition _err_if (condition : bool) (key msg : string) : errors :=
  if condition then _err key msg else [].

(** A value counts as present when it is not [None] and not empty. *)
Definition _is_present (value : pyval) : bool :=
  match value with
  | PNone => false
  | PStr s => negb (bool_decide (s = ""))
  | PList l => match l with [] => false | _ => true end
  | PDict d => match d with [] => false | _ => true end
  | _ => true
  end.

(** ** Numbers *)
(** [Decimal(str(value))] of the accepted types. *)
Definition decimal_of_value (value : pyval) : option decimal := decimal_of_str (py_str value).
Definition is_number_like (value : pyval) : bool :=
  match value with PInt _ | PFloat _ | PStr _ | PDec _ => true | _ => false end.
(** A bound of the builder, as [Decimal(str(v.min))]. *)
Definition bound_decimal (f : float) : decimal :=
  match decimal_of_value (PFloat f) with Some d => d | None => DNaN false end.

Definition _validate_number (field : FormFieldDef) (value : pyval) : checked :=
  if negb (is_number_like value) then Ok (_err (key field) "must be a number")
  else
    match decimal_of_value value with
    | None => Ok (_err (key field) "must be a number")
    | Some num =>
        if negb (dec_is_finite num) then Ok (_err (key field) "must be a finite number")
        else
          match validation field with
          | None => Ok []
          | Some v =>
              low ← match fv_min v with
                    | Some m => b ← dec_ord is_lt num (bound_decimal m);
                                Ok (_err_if b (key field) ("less than minimum " +:+ float_repr m))
                    | None => Ok []
                    end;
              high ← match fv_max v with
                     | Some m => b ← dec_ord is_gt num (bound_decimal m);
                                 Ok (_err_if b (key field) ("greater than maximum " +:+ float_repr m))
                     | None => Ok []
                     end;
              Ok (low ++ high)
          end
    end.

(** [Decimal(str(value))] where a bad literal raises. *)
Definition decimal_or_raise (value : pyval) : res pyexc decimal :=
  match decimal_of_value value with Some d => Ok d | None => Err InvalidOperation end.
Definition _validate_funding (field : FormFieldDef) (value : pyval) : checked :=
  errs ← _validate_number field value;
  match errs with
  | [] =>
      num ← decimal_or_raise value;
      b ← dec_ord is_lt num (dec_of_Z 0);
      Ok (_err_if b (key field) "must not be negative")
  | _ => Ok errs
  end.
Definition _check_funding_total (field : FormFieldDef) (value : pyval) (cost_total : decimal)
    (errs : errors) : checked :=
  if existsb (λ e, bool_decide (fe_field e = key field)) errs then Ok []
  else
    num ← decimal_or_raise value;
    b ← dec_ord is_gt num cost_total;
    Ok (_err_if b (key field) ("greater than the cost total " +:+ decimal_str cost_total)).

(** ** Text *)
Definition _PATTERN_MAX_INPUT_LEN : Z := 4096.
Section Text.
Context (full_match : string → string → option bool).

(** [None] is [_PatternMatchError]. *)
Definition _pattern_matches (pattern value : string) : option bool :=
  if _PATTERN_MAX_INPUT_LEN <? py_len value then Some false else full_match pattern value.
Definition _pattern_errors (key pattern value : string) : errors :=
  match _pattern_matches pattern value with
  | None => _err key "field has an invalid validation pattern"
  | Some matched => _err_if (negb matched) key "does not match required pattern"
  end.
Definition _validate_text (field : FormFieldDef) (value : pyval) : errors :=
  match value with
  | PStr s =>
      match validation field with
      | None => []
      | Some v =>
          match min_len v with
          | Some n => _err_if (py_len s <? n) (key field) ("shorter than minimum length " +:+ int_str n)
          | None => []
          end ++
          match max_len v with
          | Some n => _err_if (n <? py_len s) (key field) ("longer than maximum length " +:+ int_str n)
          | None => []
          end ++
          match pattern v with Some p => _pattern_errors (key field) p s | None => [] end
      end
  | _ => _err (key field) "must be a string"
  end.
End Text.

(** ** Dates *)
Definition _validate_date (field : FormFieldDef) (value : pyval) : errors :=
  match value with
  | PStr s => match fromisoformat s with
              | Some _ => []
              | None => _err (key field) "must be an ISO date (YYYY-MM-DD)"
              end
  | _ => _err (key field) "must be an ISO date string"
  end.
Definition dict_value (k : string) (d : list (string * pyval)) : pyval :=
  match dict_get k d with Some v => v | None => PNone end.
Definition _validate_daterange (field : FormFieldDef) (value : pyval) : errors :=
  match value with
  | PDict d =>
      match dict_value "from" d, dict_value "to" d with
      | PStr raw_from, PStr raw_to =>
          match fromisoformat raw_from, fromisoformat raw_to with
          | Some d_from, Some d_to =>
              _err_if (date_ltb d_to d_from) (key field) "'from' must not be after 'to'"
          | _, _ => _err (key field) "'from'/'to' must be ISO dates (YYYY-MM-DD)"
          end
      | _, _ => _err (key field) "'from' and 'to' must be ISO date strings"
      end
  | _ => _err (key field) "must be an object with 'from' and 'to'"
  end.

(** ** Options *)
Definition _option_values (field : FormFieldDef) : list string :=
  match options field with Some l => fo_value <$> l | None => [] end.
Definition is_option (field : FormFieldDef) (value : pyval) : bool :=
  match value with PStr s => bool_decide (s ∈ _option_values field) | _ => false end.
Definition _validate_select (field : FormFieldDef) (value : pyval) : errors :=
  _err_if (negb (is_option field value)) (key field) "is not a valid option".
Definition _validate_multiselect (field : FormFieldDef) (value : pyval) : errors :=
  match value with
  | PList l =>
      let invalid := filter (λ v, is_option field v = false) l in
      _err_if (match invalid with [] => false | _ => true end) (key field)
        ("contains invalid options: " +:+ py_repr (PList invalid))
  | _ => _err (key field) "must be a list"
  end.
Definition _validate_checkbox (field : FormFieldDef) (value : pyval) : errors :=
  _err_if (negb (is_bool value)) (key field) "must be a boolean".
Definition _validate_file (field : FormFieldDef) (value : pyval) : errors :=
  let is_reference := match value with PStr _ => true | PList l => forallb is_str l | _ => false end in
  _err_if (negb is_reference) (key field)
    "must be an attachment reference (string or list of strings)".

(** ** UUID references *)
(** [s.replace(sub, "")]. *)
Fixpoint remove_all (fuel : nat) (sub l : list ascii) : list ascii :=
  match fuel with
  | O => l
  | S fuel =>
      match l with
      | [] => []
      | c :: r => if prefixb sub l then remove_all fuel sub (drop (length sub) l)
                  else c :: remove_all fuel sub r
      end
  end.
Definition py_remove (sub : string) (l : list ascii) : list ascii :=
  remove_all (length l) (chars sub) l.
Definition is_brace (c : ascii) : bool := (code c =? 123) || (code c =? 125).
Definition strip_by (p : ascii → bool) (l : list ascii) : list ascii :=
  reverse (drop_while p (reverse (drop_while p l))).
Definition is_hex (c : ascii) : bool :=
  is_digit c || ((97 <=? code c) && (code c <=? 102)) || ((65 <=? code c) && (code c <=? 70)).
(** The whitespace of [int]. *)
Definition int_space (c : ascii) : bool := (code c =? 32) || ((9 <=? code c) && (code c <=? 13)).
(** Hex digits with single underscores between them. *)
Fixpoint hex_digits (after_digit : bool) (l : list ascii) : bool :=
  match l with
  | [] => after_digit
  | c :: r => if is_hex c then hex_digits true r
              else if bool_decide (c = "_"%char) then after_digit && hex_digits false r else false
  end.
(** What [int(s, 16)] reads after the whitespace, the sign and the prefix; the value is never
    negative, because [UUID] drops every minus. *)
Definition int16_text (l : list ascii) : list ascii :=
  let l := strip_by int_space l in
  let l := match l with c :: r => if bool_decide (c = "+"%char) then r else l | [] => [] end in
  match l with
  | a :: b :: r =>
      if bool_decide (a = "0"%char) && (bool_decide (b = "x"%char) || bool_decide (b = "X"%char))
      then match r with c :: r' => if bool_decide (c = "_"%char) then r' else r | [] => r end
      else l
  | _ => l
  end.
Definition int16_ok (l : list ascii) : bool := hex_digits false (int16_text l).
Definition uuid_hex (s : string) : list ascii :=
  py_remove "-" (strip_by is_brace (py_remove "uuid:" (py_remove "urn:" (chars s)))).
Definition uuid_ok (s : string) : bool :=
  (py_len (of_chars (uuid_hex s)) =? 32) && int16_ok (uuid_hex s).
Definition _validate_uuid_ref (field : FormFieldDef) (value : pyval) (lbl : string) : errors :=
  match value with
  | PStr s =>
      if bool_decide (s = "") then _err (key field) ("must be a " +:+ lbl)
      else if uuid_ok s then [] else _err (key field) ("is not a valid " +:+ lbl)
  | _ => _err (key field) ("must be a " +:+ lbl)
  end.

(** ** E-mail *)
(** A dot with a character on both sides. *)
Fixpoint inner_dot (l : list ascii) : bool :=
  match l with
  | _ :: ((c :: _ :: _) as r) => bool_decide (c = "."%char) || inner_dot r
  | _ => false
  end.
(** [_EMAIL_RE.match]; the end anchor also matches before a final line feed. *)
Definition email_ok (s : string) : bool :=
  let l := chars s in
  let body := match last l with
              | Some c => if decide (c = char 10) then take (length l - 1) l else l
              | None => l
              end in
  forallb (λ c, negb (is_space c)) body &&
  match index_of "@"%char body with
  | Some (S _ as i) =>
      let domain := drop (S i) body in
      forallb (λ c, negb (bool_decide (c = "@"%char))) domain && inner_dot domain
  | _ => false
  end.
Definition _validate_email (field : FormFieldDef) (value : pyval) : errors :=
  _err_if (match value with PStr s => negb (email_ok s) | _ => true end) (key field)
    "is not a valid e-mail address".

(** ** IBAN *)
(** [int(ch, 36)] of an ASCII letter or digit. *)
Definition base36 (c : ascii) : Z :=
  if is_digit c then code c - 48 else if is_upper c then code c - 55 else code c - 87.
(** [int("".join(str(d) for d in digits))] for values below 36. *)
Definition append_number (acc d : Z) : Z := if d <? 10 then acc * 10 + d else acc * 100 + d.
Definition digits_number (l : list ascii) : Z := foldl (λ acc c, append_number acc (base36 c)) 0 l.
Definition iban_form (l : list ascii) : bool :=
  (15 <=? Z.of_nat (length l)) && (Z.of_nat (length l) <=? 34) && forallb is_alnum l &&
  forallb is_alpha (take 2 l) && forallb is_digit (take 2 (drop 2 l)).
Definition iban_chars (iban : string) : list ascii :=
  upper_char <$> filter (λ c, c ≠ " "%char) (chars iban).
Definition _iban_mod97_ok (iban : string) : bool :=
  let s := iban_chars iban in
  iban_form s && (digits_number (drop 4 s ++ take 4 s) mod 97 =? 1).
Definition _validate_iban (field : FormFieldDef) (value : pyval) : errors :=
  _err_if (match value with PStr s => negb (_iban_mod97_ok s) | _ => true end) (key field)
    "is not a valid IBAN".
