(* ===== verification/FormValidation.v ===== *)
(** The form engine ([forms/validation.py]): cost positions and tables, the check of a form
    definition, the sections of the effective form, the check of the answers and the
    promoted values.  [full_match] and [compiles] stand for the regex engine ([FormFields]);
    the text of a [JsonLogicError] is left out of the messages. *)

From S2P Require Import Prelude PyStr PyNum PyValue PyDate JsonLogic FormFields.

Definition _DEFAULT_MIN_OFFERS : Z := 3.
Definition _DEFAULT_MIN_POSITIONS : Z := 1.
Definition _DEFAULT_MAX_POSITIONS : Z := 200.
Definition _DEFAULT_MAX_OFFERS : Z := 50.
Definition _DEFAULT_MAX_ROWS : Z := 1000.

(** [enumerate] with a running index. *)
Fixpoint enumerate_from {A B} (i : nat) (f : nat → A → list B) (l : list A) : list B :=
  match l with [] => [] | x :: r => f i x ++ enumerate_from (S i) f r end.
Definition of_len {A} (l : list A) : Z := Z.of_nat (length l).
Definition index_str (i : nat) : string := int_str (Z.of_nat i).

(** ** Tables *)
Definition default_to (o : option Z) (d : Z) : Z := match o with Some n => n | None => d end.
Definition field_of {A} (f : FieldValidation → option A) (v : option FieldValidation) : option A :=
  match v with Some v => f v | None => None end.
Definition _validate_table (field : FormFieldDef) (value : pyval) : errors :=
  match value with
  | PList rows =>
      let cap := Z.min (default_to (field_of max_rows (validation field)) _DEFAULT_MAX_ROWS)
                   _DEFAULT_MAX_ROWS in
      _err_if (cap <? of_len rows) (key field) ("has more than " +:+ int_str cap +:+ " rows") ++
      enumerate_from 0 (λ i row, _err_if (negb (is_dict row)) (key field)
                                   ("row " +:+ index_str i +:+ " must be an object")) rows
  | _ => _err (key field) "must be a list of rows"
  end.

(** ** Cost positions *)
Definition decimal_finite (value : pyval) : option decimal :=
  match decimal_of_value value with
  | Some d => if dec_is_finite d then Some d else None
  | None => None
  end.
Definition _offer_value (offer : list (string * pyval)) : option decimal :=
  match dict_value "value" offer with
  | PNone | PBool _ => None
  | raw => decimal_finite raw
  end.

Record _PositionRules := MkPositionRules {
  r_min_offers : Z;
  r_allow_no_offers : bool;
  r_min_positions : Z;
  r_max_positions : Z;
  r_max_offers : Z
}.
(** [x or d]: an absent value and 0 give the default. *)
Definition or_default (o : option Z) (d : Z) : Z :=
  match o with Some n => if n =? 0 then d else n | None => d end.
Definition _position_rules (v : option FieldValidation) : _PositionRules :=
  MkPositionRules
    (or_default (field_of min_offers v) _DEFAULT_MIN_OFFERS)
    (match field_of allow_no_offers v with Some b => b | None => true end)
    (or_default (field_of min_positions v) _DEFAULT_MIN_POSITIONS)
    (Z.min (default_to (field_of max_positions v) _DEFAULT_MAX_POSITIONS) _DEFAULT_MAX_POSITIONS)
    (Z.min (default_to (field_of max_offers v) _DEFAULT_MAX_OFFERS) _DEFAULT_MAX_OFFERS).

(** [isinstance(v, str) and v.strip()]. *)
Definition has_text (v : pyval) : bool :=
  match v with PStr s => negb (bool_decide (py_strip s = "")) | _ => false end.
(** [v is True]. *)
Definition is_true (v : pyval) : bool := match v with PBool b => b | _ => false end.
Definition dec_negative (d : decimal) : bool := is_lt (dec_compare d (dec_of_Z 0)).

Definition _offer_errors (where_ : string) (offer : pyval) : errors :=
  match offer with
  | PDict d =>
      _err_if (negb (has_text (dict_value "label" d))) where_ "offer needs a label" ++
      match _offer_value d with
      | None => _err where_ "offer value must be a finite number"
      | Some num => _err_if (dec_negative num) where_ "offer value must not be negative"
      end
  | _ => _err where_ "must be an object"
  end.
Definition is_preferred (offer : pyval) : bool :=
  match offer with PDict d => is_true (dict_value "preferred" d) | _ => false end.
Definition _offers_errors (where_ : string) (offers : list pyval) (rules : _PositionRules)
    (no_offers : bool) : errors :=
  let required_offers := if no_offers then 1 else r_min_offers rules in
  let preferred_count := of_len (filter (λ o, is_preferred o = true) offers) in
  _err_if (of_len offers <? required_offers) where_
    ("needs at least " +:+ int_str required_offers +:+ " comparison offer(s)") ++
  _err_if (r_max_offers rules <? of_len offers) where_
    ("has more than " +:+ int_str (r_max_offers rules) +:+ " comparison offer(s)") ++
  enumerate_from 0 (λ j offer, _offer_errors (where_ +:+ ".offers[" +:+ index_str j +:+ "]") offer) offers ++
  _err_if (negb (of_len offers =? 0) && negb (preferred_count =? 1)) where_
    "exactly one offer must be marked preferred".
Definition _position_errors (where_ : string) (pos : pyval) (rules : _PositionRules) : errors :=
  match pos with
  | PDict d =>
      let no_offers := is_true (dict_value "noOffers" d) in
      _err_if (negb (has_text (dict_value "label" d))) where_ "position needs a label" ++
      _err_if (no_offers && negb (r_allow_no_offers rules)) where_
        "opting out of comparison offers is not allowed here" ++
      _err_if (no_offers && negb (has_text (dict_value "noOffersReason" d))) where_
        "opting out of comparison offers needs a reason" ++
      match dict_value "offers" d with
      | PList offers => _offers_errors where_ offers rules no_offers
      | _ => _err where_ "offers must be a list"
      end
  | _ => _err where_ "must be an object"
  end.
Definition _validate_positions (field : FormFieldDef) (value : pyval) : errors :=
  match value with
  | PList l =>
      let rules := _position_rules (validation field) in
      _err_if (of_len l <? r_min_positions rules) (key field)
        ("needs at least " +:+ int_str (r_min_positions rules) +:+ " position(s)") ++
      _err_if (r_max_positions rules <? of_len l) (key field)
        ("has more than " +:+ int_str (r_max_positions rules) +:+ " position(s)") ++
      enumerate_from 0 (λ i pos,
        _position_errors (key field +:+ "[" +:+ index_str i +:+ "]") pos rules) l
  | _ => _err (key field) "must be a list of positions"
  end.

(** [pos.get("offers") or []]; a value that is not iterable raises. *)
Definition offers_of (pos : list (string * pyval)) : res pyexc (list pyval) :=
  match dict_value "offers" pos with
  | PList l => Ok l
  | PStr _ | PDict _ => Ok []
  | v => if truthy v then Err TypeError else Ok []
  end.
Definition _preferred_value (pos : list (string * pyval)) : res pyexc (option decimal) :=
  offers ← offers_of pos;
  Ok (match filter (λ o, is_preferred o = true) offers with
      | PDict d :: _ => _offer_value d
      | _ => None
      end).
Definition dec_sum (l : list decimal) : res pyexc decimal :=
  foldl (λ acc d, a ← acc; dec_add a d) (Ok (dec_of_Z 0)) l.
(** The dicts of a list. *)
Definition dicts (l : list pyval) : list (list (string * pyval)) :=
  omap (λ v, match v with PDict d => Some d | _ => None end) l.
Definition positions_total (value : pyval) : res pyexc (option decimal) :=
  match value with
  | PList l =>
      preferred ← map_res _preferred_value (dicts l);
      match omap id preferred with
      | [] => Ok None
      | found => total ← dec_sum found; Ok (Some total)
      end
  | _ => Ok None
  end.

Section Engine.
Context (full_match : string → string → option bool) (compiles : string → bool).

Definition _value_errors (field : FormFieldDef) (value : pyval) : checked :=
  match ftype field with
  | FText | FTextarea | FMarkdown => Ok (_validate_text full_match field value)
  | FNumber | FCurrency => _validate_number field value
  | FFunding => _validate_funding field value
  | FDate => Ok (_validate_date field value)
  | FSelect => Ok (_validate_select field value)
  | FMultiselect => Ok (_validate_multiselect field value)
  | FGremiumSelect => Ok (_validate_uuid_ref field value "gremium id")
  | FBudgetSelect => Ok (_validate_uuid_ref field value "budget id")
  | FEmail => Ok (_validate_email field value)
  | FIban => Ok (_validate_iban field value)
  | FDaterange => Ok (_validate_daterange field value)
  | FCheckbox => Ok (_validate_checkbox field value)
  | FFile => Ok (_validate_file field value)
  | FTable => Ok (_validate_table field value)
  | FPositions => Ok (_validate_positions field value)
  | FComputed | FSection => Ok (_err (key field) "unknown field type")
  end.

(** ** The definition *)
Inductive form_exc :=
| FormDefinitionError (reason : string)
| AnswerValidationError (errs : errors)
| FormEscaped (e : pyexc).

(** [validate_jsonlogic] with [except JsonLogicError]. *)
Definition check_expression (expr : option pyval) : res form_exc () :=
  match expr with
  | None => Ok ()
  | Some e =>
      match validate_jsonlogic e with
      | Ok _ => Ok ()
      | Err (JEscaped x) => Err (FormEscaped x)
      | Err _ => Err (FormDefinitionError "invalid expression")
      end
  end.
Definition check_field_definition (f : FormFieldDef) : res form_exc () :=
  _ ← raise_if (is_promoted f && negb (is_numeric_type (ftype f)))
        (FormDefinitionError "promoted field must be numeric");
  _ ← for_each check_expression [visible_if f; compute f];
  match field_of pattern (validation f) with
  | Some p => raise_if (negb (compiles p)) (FormDefinitionError "invalid validation pattern")
  | None => Ok ()
  end.
Definition of_type (t : FieldType) (fields : list FormFieldDef) : list FormFieldDef :=
  filter (λ f, ftype f = t) fields.
Definition validate_definition (fields : list FormFieldDef) : res form_exc () :=
  let keys := key <$> fields in
  let funding := of_type FFunding fields in
  _ ← raise_if (existsb (λ k, 1 <? hits keys k) keys) (FormDefinitionError "duplicate field keys");
  _ ← raise_if (1 <? of_len funding) (FormDefinitionError "more than one funding field");
  _ ← raise_if (negb (of_len funding =? 0) && (of_len (of_type FPositions fields) =? 0))
        (FormDefinitionError "funding needs a positions field");
  for_each check_field_definition fields.

(** ** Sections *)
Definition SYSTEM_TITLE_KEY : string := "title".
Definition system_title_field : FormFieldDef :=
  MkField SYSTEM_TITLE_KEY FText [("de", "Titel"); ("en", "Title")] [] true None None None None
    false false None.
Record FormSection := MkSection {
  s_key : string;
  s_fields : list FormFieldDef;
  s_label : option (list (string * string))
}.
Record _SectionDraft := MkDraft {
  closed : list FormSection;
  d_key : string;
  d_label : option (list (string * string));
  d_fields : list FormFieldDef
}.
Definition section_of (draft : _SectionDraft) : FormSection :=
  MkSection (d_key draft) (d_fields draft) (d_label draft).
Definition is_empty {A} (l : list A) : bool := match l with [] => true | _ => false end.
Definition _section_step (draft : _SectionDraft) (field : FormFieldDef) : _SectionDraft :=
  match ftype field with
  | FSection =>
      MkDraft (if is_empty (d_fields draft) then closed draft else closed draft ++ [section_of draft])
        (key field) (match label field with [] => None | l => Some l end) []
  | _ => MkDraft (closed draft) (d_key draft) (d_label draft) (d_fields draft ++ [field])
  end.
Definition _split_sections (fields : list FormFieldDef) : list FormSection :=
  let draft := foldl _section_step (MkDraft [] "main" None []) fields in
  if negb (is_empty (d_fields draft)) || is_empty (closed draft)
  then closed draft ++ [section_of draft] else closed draft.
Definition effective_form (type_fields : list FormFieldDef) : list FormSection :=
  let sections := _split_sections type_fields in
  let has_title := existsb (λ s, existsb (λ f, bool_decide (key f = SYSTEM_TITLE_KEY)) (s_fields s)) sections in
  if has_title then sections
  else match sections with
       | first :: rest =>
           MkSection (s_key first) (system_title_field :: s_fields first) (s_label first) :: rest
       | [] => []
       end.

(** ** Answers *)
Record _Computed := MkComputed { c_values : list (string * pyval); c_errors : errors }.
Definition _compute_step (state : _Computed) (key : string) (expr : pyval) (ctx : context)
    : res form_exc _Computed :=
  match eval_jsonlogic expr (dict_merge ctx (c_values state)) with
  | Ok value => Ok (MkComputed (dict_set key value (c_values state)) (c_errors state))
  | Err (JEscaped e) => Err (FormEscaped e)
  | Err _ => Ok (MkComputed (c_values state) (c_errors state ++ _err key "compute failed"))
  end.
(** The [compute] expressions of the computed fields, in field order. *)
Definition computations (fields : list FormFieldDef) : list (string * pyval) :=
  omap (λ f, match compute f with
             | Some e => if decide (ftype f = FComputed) then Some (key f, e) else None
             | None => None
             end) fields.
Fixpoint compute_all (state : _Computed) (ctx : context) (l : list (string * pyval))
    : res form_exc _Computed :=
  match l with
  | [] => Ok state
  | (k, e) :: r => s ← _compute_step state k e ctx; compute_all s ctx r
  end.

Definition _is_visible (field : FormFieldDef) (ctx : context) : res form_exc bool :=
  match visible_if field with
  | None => Ok true
  | Some e =>
      match eval_jsonlogic e ctx with
      | Ok v => Ok (truthy v)
      | Err (JEscaped x) => Err (FormEscaped x)
      | Err _ => Ok true
      end
  end.
Definition answer_of (data : context) (f : FormFieldDef) : pyval := dict_value (key f) data.
Definition has_answer (f : FormFieldDef) : bool :=
  match ftype f with FComputed | FSection => false | _ => true end.
Fixpoint visible_fields (fields : list FormFieldDef) (ctx : context) : res form_exc (list FormFieldDef) :=
  match fields with
  | [] => Ok []
  | f :: r =>
      if has_answer f then
        v ← _is_visible f ctx; rest ← visible_fields r ctx; Ok (if v : bool then f :: rest else rest)
      else visible_fields r ctx
  end.

Definition lift {A} (c : res pyexc A) : res form_exc A :=
  match c with Ok a => Ok a | Err e => Err (FormEscaped e) end.
Definition _answer_errors (field : FormFieldDef) (value : pyval) : checked :=
  if _is_present value then _value_errors field value
  else Ok (_err_if (required field) (key field) "required").

(** The addend of one positions field: [positions_total(value) or Decimal(0)]. *)
Definition position_cost (value : pyval) : res pyexc decimal :=
  t ← positions_total value;
  Ok (match t with
      | Some (DFin c x) => if c =? 0 then dec_of_Z 0 else DFin c x
      | Some d => d
      | None => dec_of_Z 0
      end).
Fixpoint add_costs (acc : decimal) (values : list pyval) : res pyexc decimal :=
  match values with
  | [] => Ok acc
  | v :: r => c ← position_cost v; acc ← dec_add acc c; add_costs acc r
  end.

Definition validate_answers (fields : list FormFieldDef) (data ctx : context) : res form_exc context :=
  let base_ctx := dict_merge ctx data in
  computed ← compute_all (MkComputed [] []) base_ctx (computations fields);
  let result := dict_merge data (c_values computed) in
  let eval_ctx := dict_merge ctx result in
  checked ← visible_fields fields eval_ctx;
  field_errors ← lift (map_res (λ f, _answer_errors f (answer_of data f)) checked);
  let collected := c_errors computed ++ concat field_errors in
  let present := filter (λ f, _is_present (answer_of data f) = true) checked in
  cost_total ← lift (add_costs (dec_of_Z 0) (answer_of data <$> of_type FPositions present));
  funding_errors ←
    match last (of_type FFunding present) with
    | Some f => lift (_check_funding_total f (answer_of data f) cost_total collected)
    | None => Ok []
    end;
  match collected ++ funding_errors with
  | [] => Ok result
  | errs => Err (AnswerValidationError errs)
  end.

(** ** Promoted values *)
Definition _finite_decimal (value : pyval) : option decimal :=
  match value with
  | PNone | PBool _ => None
  | PStr s => if bool_decide (s = "") then None else decimal_finite value
  | _ => decimal_finite value
  end.
Definition _promote_flagged (out : context) (field : FormFieldDef) (value : pyval) : context :=
  match promote_target field, value with
  | _, PNone => out
  | Some target, _ =>
      if negb (is_promoted field) || bool_decide (target = "") then out
      else if is_numeric_type (ftype field)
           then match _finite_decimal value with
                | Some d => dict_set target (PDec d) out
                | None => out
                end
           else dict_set target value out
  | None, _ => out
  end.
(** [out.get("amount", Decimal(0)) + total]. *)
Definition add_amount (out : context) (total : decimal) : res pyexc decimal :=
  match dict_get "amount" out with
  | None => dec_add (dec_of_Z 0) total
  | Some (PDec d) => dec_add d total
  | Some (PInt z) => dec_add (dec_of_Z z) total
  | Some (PBool b) => dec_add (dec_of_Z (if b then 1 else 0)) total
  | Some _ => Err TypeError
  end.
Definition _promote (out : context) (field : FormFieldDef) (data : context) : res pyexc context :=
  match ftype field with
  | FFunding => Ok out
  | FPositions =>
      total ← positions_total (answer_of data field);
      match total with
      | None => Ok out
      | Some t => a ← add_amount out t; Ok (dict_set "amount" (PDec a) out)
      end
  | _ => Ok (_promote_flagged out field (answer_of data field))
  end.
Fixpoint promote_all (out : context) (fields : list FormFieldDef) (data : context)
    : res pyexc context :=
  match fields with
  | [] => Ok out
  | f :: r => out ← _promote out f data; promote_all out r data
  end.
Definition extract_promoted (fields : list FormFieldDef) (data : context) : res pyexc context :=
  promoted ← promote_all [] fields data;
  match last (of_type FFunding fields) with
  | Some f => match _finite_decimal (answer_of data f) with
              | Some funding => Ok (dict_set "amount" (PDec funding) promoted)
              | None => Ok promoted
              end
  | None => Ok promoted
  end.
End Engine.
