(* ===== verification/FormFacts.v ===== *)
(** What the form engine promises: accepted answers are complete and typed and the funding
    stays below the cost total, an IBAN with one wrong character is refused, the sections of
    the effective form hold every field once, accepted cost positions are bounded, and the
    promoted amount is finite. *)

From Stdlib Require Import Znumtheory.
From S2P Require Import Prelude PyStr PyNum PyValue PyDate JsonLogic FormFields FormValidation.

(** ** Answers *)
Section Answers.
Context (full_match : string → string → option bool).

Definition visible_in (ctx : context) (f : FormFieldDef) : Prop :=
  has_answer f = true ∧ _is_visible f ctx = Ok true.

Lemma visible_fields_elem fields ctx l f :
  visible_fields fields ctx = Ok l → f ∈ l ↔ f ∈ fields ∧ visible_in ctx f.
Proof.
  revert l. induction fields as [|g fields IH]; intros l H; cbn [visible_fields] in H.
  - inv_ok. split; [by intros ?%not_elem_of_nil|by intros [?%not_elem_of_nil _]].
  - unfold visible_in. rewrite elem_of_cons. destruct (has_answer g) eqn:Hg.
    + apply bind_ok in H as (v & Hv & H). apply bind_ok in H as (rest & Hrest & H). inv_ok.
      destruct v; rewrite ?elem_of_cons, (IH rest Hrest); unfold visible_in; split.
      * intros [->|?]; tauto.
      * intros [[->|?] ?]; tauto.
      * tauto.
      * intros [[->|?] [? ?]]; [congruence|tauto].
    + rewrite (IH l H). unfold visible_in. split; [tauto|]. intros [[->|?] [? ?]]; [congruence|tauto].
Qed.

Lemma lift_ok {A} (c : res pyexc A) a : lift c = Ok a ↔ c = Ok a.
Proof. destruct c; cbn; naive_solver. Qed.

(** The funding fields and the cost fields among the visible answers. *)
Definition shown (fields : list FormFieldDef) (data ctx : context) (l : list FormFieldDef) : Prop :=
  ∃ checked, visible_fields fields ctx = Ok checked ∧
    l = filter (λ f, _is_present (answer_of data f) = true) checked.

(** C39: accepted answers are complete and well typed: the result is the data with the
    computed values; every visible field that needs an answer has one, every visible answer
    passes the check of its type, and the requested funding is at most the sum of the
    visible cost positions. *)
Theorem accepted_answers fields data ctx r :
  validate_answers full_match fields data ctx = Ok r →
  (∃ values, r = dict_merge data values) ∧
  (∀ f, f ∈ fields → visible_in (dict_merge ctx r) f →
     (required f = true → _is_present (answer_of data f) = true) ∧
     (_is_present (answer_of data f) = true → _value_errors full_match f (answer_of data f) = Ok [])) ∧
  (∃ present total, shown fields data (dict_merge ctx r) present ∧
     add_costs (dec_of_Z 0) (answer_of data <$> of_type FPositions present) = Ok total ∧
     ∀ f, last (of_type FFunding present) = Some f →
       ∃ num, decimal_of_value (answer_of data f) = Some num ∧ dec_ord is_gt num total = Ok false).
Proof.
  unfold validate_answers. intros H.
  apply bind_ok in H as (computed & Hc & H). apply bind_ok in H as (checked & Hch & H).
  apply bind_ok in H as (fe & Hfe%lift_ok & H). apply bind_ok in H as (total & Ht%lift_ok & H).
  apply bind_ok in H as (fund & Hf & H).
  set (present := filter (λ f, _is_present (answer_of data f) = true) checked) in *.
  destruct ((c_errors computed ++ concat fe) ++ fund) eqn:E; [|done]. inv_ok.
  apply app_eq_nil in E as [E ->]. pose proof E as Ecol. apply app_eq_nil in E as [_ Efe].
  split; [by eexists|]. split.
  - intros f Hin Hvis. assert (Hfc : f ∈ checked) by (by apply (visible_fields_elem _ _ _ _ Hch)).
    apply map_res_ok in Hfe. apply list_elem_of_lookup in Hfc as [i Hi].
    destruct (Forall2_lookup_l _ _ _ _ _ Hfe Hi) as (e & He & Hae).
    assert (e = []) as ->.
    { destruct e as [|x e]; [done|]. exfalso. apply list_elem_of_lookup_2 in He.
      assert (Hx : x ∈ concat fe) by (apply elem_of_concat; exists (x :: e); split; [done|left]).
      rewrite Efe in Hx. by apply not_elem_of_nil in Hx. }
    unfold _answer_errors in Hae. destruct (_is_present (answer_of data f)) eqn:Hp.
    + split; [done|]. intros _. done.
    + split; [|done]. intros Hr. rewrite Hr in Hae. by injection Hae.
  - exists present, total. split; [by exists checked|]. split; [done|]. intros f Hl. rewrite Hl in Hf.
    apply lift_ok in Hf. unfold _check_funding_total in Hf. rewrite Ecol in Hf. cbn [existsb] in Hf.
    unfold decimal_or_raise in Hf. destruct (decimal_of_value (answer_of data f)) as [num|]; [|done].
    exists num. split; [done|]. rewrite bind_Ok_l in Hf. apply bind_ok in Hf as (b & Hb & Hf).
    unfold _err_if in Hf. by destruct b.
Qed.
End Answers.

(** ** IBAN *)
Definition width (c : ascii) : Z := if base36 c <? 10 then 1 else 2.
Definition widths (l : list ascii) : Z := zsum (width <$> l).

Lemma widths_nonneg l : 0 ≤ widths l.
Proof.
  apply zsum_nonneg, Forall_fmap, Forall_forall. intros c _. cbn. unfold width. case_if; lia.
Qed.
Lemma digits_number_acc l : ∀ acc,
  foldl (λ acc c, append_number acc (base36 c)) acc l = acc * 10 ^ widths l + digits_number l.
Proof.
  unfold digits_number. induction l as [|c l IH]; intros acc; cbn [foldl]; [cbn; lia|].
  rewrite IH, (IH (append_number 0 _)). unfold widths. cbn [fmap list_fmap zsum].
  fold (widths l). pose proof (widths_nonneg l). unfold append_number, width.
  destruct (base36 c <? 10); rewrite Z.pow_add_r by lia; lia.
Qed.
Lemma digits_number_middle p c q :
  digits_number (p ++ c :: q) =
    (digits_number p * 10 ^ width c + base36 c) * 10 ^ widths q + digits_number q.
Proof.
  unfold digits_number at 1. rewrite foldl_app. cbn [foldl]. rewrite digits_number_acc.
  fold (digits_number p). f_equal. f_equal. unfold append_number, width. case_if; lia.
Qed.

Lemma ninety_seven k d : 0 ≤ k → (97 | d * 10 ^ k) → (97 | d).
Proof.
  intros Hk. pattern k. apply natlike_ind; [by rewrite Z.mul_1_r| |done]. clear k Hk.
  intros k Hk IH H. apply IH. rewrite Z.pow_succ_r in H by done.
  replace (d * (10 * 10 ^ k)) with (10 * (d * 10 ^ k)) in H by lia.
  by apply (Gauss 97 10); [|apply Zgcd_1_rel_prime].
Qed.

(** The two characters have one width and another value. *)
Definition same_width (c d : ascii) : Prop := width c = width d ∧ base36 c ≠ base36 d ∧
  0 ≤ base36 c < 36 ∧ 0 ≤ base36 d < 36.
Lemma substitution_changes p q c d :
  same_width c d → digits_number (p ++ c :: q) mod 97 ≠ digits_number (p ++ d :: q) mod 97.
Proof.
  intros (Hw & Hne & Hc & Hd) E. rewrite !digits_number_middle, Hw in E.
  assert (Hdiv : (97 | (base36 c - base36 d) * 10 ^ widths q)).
  { apply Z.mod_divide; [lia|].
    replace ((base36 c - base36 d) * 10 ^ widths q) with
      (((digits_number p * 10 ^ width d + base36 c) * 10 ^ widths q + digits_number q) -
       ((digits_number p * 10 ^ width d + base36 d) * 10 ^ widths q + digits_number q)) by lia.
    rewrite Zminus_mod, E, Z.sub_diag. done. }
  apply ninety_seven in Hdiv; [|apply widths_nonneg].
  apply Z.divide_abs_l in Hdiv. destruct Hdiv as [x Hx]. lia.
Qed.

(** The rearrangement moves a character, but keeps what stands around it. *)
Lemma rearranged_split l1 l2 :
  ∃ p q, ∀ x : ascii, drop 4 (l1 ++ x :: l2) ++ take 4 (l1 ++ x :: l2) = p ++ x :: q.
Proof.
  destruct (decide (length l1 < 4)%nat) as [H|H].
  - exists (drop (3 - length l1) l2 ++ l1), (take (3 - length l1) l2). intros x.
    rewrite drop_app_ge, take_app_ge by lia.
    destruct (4 - length l1)%nat as [|n] eqn:E; [lia|]. cbn [take drop].
    replace (3 - length l1)%nat with n by lia. by rewrite <- app_assoc.
  - exists (drop 4 l1), (l2 ++ take 4 l1). intros x.
    rewrite drop_app_le, take_app_le by lia. by rewrite <- app_assoc.
Qed.

(** The IBAN check catches every single wrong character: when one digit is replaced by
    another digit, or one letter by another letter, a valid IBAN becomes invalid. *)
Lemma iban_detects_substitution s s' l1 l2 c d :
  iban_chars s = l1 ++ c :: l2 → iban_chars s' = l1 ++ d :: l2 →
  same_width c d → _iban_mod97_ok s = true → _iban_mod97_ok s' = false.
Proof.
  unfold _iban_mod97_ok. intros -> -> Hcd H. bool_prop.
  destruct (rearranged_split l1 l2) as (p & q & Hpq). rewrite !Hpq in *.
  apply andb_false_iff. right. apply Z.eqb_neq. intros E.
  apply (substitution_changes p q c d Hcd). rewrite E.
  match goal with H : _ mod 97 = 1 |- _ => exact H end.
Qed.

(** ** Sections *)
Definition is_marker (f : FormFieldDef) : bool := bool_decide (ftype f = FSection).
Definition fields_of (sections : list FormSection) : list FormFieldDef := concat (s_fields <$> sections).

Lemma fields_of_app a b : fields_of (a ++ b) = fields_of a ++ fields_of b.
Proof. unfold fields_of. by rewrite fmap_app, concat_app. Qed.

Definition draft_fields (d : _SectionDraft) : list FormFieldDef := fields_of (closed d) ++ d_fields d.

Lemma section_step_fields d f :
  draft_fields (_section_step d f) = draft_fields d ++ (if is_marker f then [] else [f]) ∧
  (Forall (λ s, s_fields s ≠ []) (closed d) → Forall (λ s, s_fields s ≠ []) (closed (_section_step d f))).
Proof.
  unfold _section_step, draft_fields, is_marker.
  destruct (ftype f); cbn [closed d_fields]; try (split; [by rewrite <- app_assoc|done]).
  rewrite bool_decide_true by done. destruct (d_fields d) as [|x l] eqn:E; cbn [is_empty].
  - split; [by rewrite !app_nil_r|done].
  - rewrite fields_of_app, !app_nil_r. unfold fields_of at 2, section_of. cbn. rewrite E, app_nil_r.
    split; [done|]. intros H. apply Forall_app. split; [done|]. by constructor.
Qed.

Lemma section_fold_fields fields d :
  Forall (λ s, s_fields s ≠ []) (closed d) →
  draft_fields (foldl _section_step d fields) =
    draft_fields d ++ filter (λ f, is_marker f = false) fields ∧
  Forall (λ s, s_fields s ≠ []) (closed (foldl _section_step d fields)).
Proof.
  revert d. induction fields as [|f fields IH]; intros d Hd; cbn [foldl]; [by rewrite app_nil_r|].
  destruct (section_step_fields d f) as [E Hc].
  destruct (IH (_section_step d f) (Hc Hd)) as [E2 Hc2]. split; [|done].
  rewrite E2, E, filter_cons, <- app_assoc. f_equal. by destruct (is_marker f).
Qed.

Lemma split_sections_fields fields :
  fields_of (_split_sections fields) = filter (λ f, is_marker f = false) fields ∧
  _split_sections fields ≠ [] ∧
  ∀ s, s ∈ _split_sections fields → s_fields s = [] →
    _split_sections fields = [s] ∧ filter (λ f, is_marker f = false) fields = [].
Proof.
  unfold _split_sections. destruct (section_fold_fields fields (MkDraft [] "main" None [])) as [E Hc];
    [constructor|]. cbn [draft_fields] in E.
  set (d := foldl _section_step _ fields) in *. unfold draft_fields in E. cbn in E.
  rewrite <- E. rewrite Forall_forall in Hc.
  destruct (d_fields d) as [|x l] eqn:Ed; destruct (closed d) as [|c cs] eqn:Ec; cbn [negb is_empty orb].
  - unfold fields_of, section_of. cbn. rewrite Ed. split; [done|]. split; [done|].
    by intros s ->%list_elem_of_singleton _.
  - rewrite app_nil_r. split; [done|]. split; [done|]. intros s Hin Hn. by destruct (Hc _ Hin).
  - rewrite fields_of_app. unfold fields_of at 2, section_of. cbn. rewrite Ed, app_nil_r.
    split; [done|]. split; [done|]. by intros s ->%list_elem_of_singleton Hn.
  - rewrite fields_of_app. unfold fields_of at 2. cbn [fmap list_fmap concat]. unfold section_of at 1.
    cbn [s_fields]. rewrite Ed, app_nil_r. split; [done|]. split; [done|]. intros s Hin Hn.
    apply elem_of_app in Hin as [Hin|Hin]; [by destruct (Hc _ Hin)|].
    apply list_elem_of_singleton in Hin as ->. change (d_fields d = []) in Hn. congruence.
Qed.

(** The effective form holds every field exactly once and in order, behind a title: its
    sections concatenate to the fields without the markers, with the system title first when
    the form has no title of its own, and no section is empty. *)
Lemma effective_form_spec fields :
  let own := filter (λ f, is_marker f = false) fields in
  let has_title := existsb (λ f, bool_decide (key f = SYSTEM_TITLE_KEY)) own in
  fields_of (effective_form fields) = (if has_title then own else system_title_field :: own) ∧
  Forall (λ s, s_fields s ≠ []) (effective_form fields).
Proof.
  cbn zeta. destruct (split_sections_fields fields) as (E & Hne & Hempty).
  unfold effective_form. set (sections := _split_sections fields) in *.
  set (own := filter (λ f, is_marker f = false) fields) in *.
  assert (Hex : existsb (λ s, existsb (λ f, bool_decide (key f = SYSTEM_TITLE_KEY)) (s_fields s)) sections =
                existsb (λ f, bool_decide (key f = SYSTEM_TITLE_KEY)) own).
  { rewrite <- E. clear. unfold fields_of. induction sections as [|s l IH]; [done|].
    cbn [existsb fmap list_fmap concat]. by rewrite existsb_app, IH. }
  rewrite Hex. destruct (existsb _ own) eqn:Ht.
  - split; [done|]. apply Forall_forall. intros s Hs Hn.
    destruct (Hempty s Hs Hn) as [_ Ho]. by rewrite Ho in Ht.
  - destruct sections as [|first rest] eqn:Es; [done|]. split.
    + unfold fields_of in *. cbn [fmap list_fmap concat s_fields] in *. by rewrite <- E.
    + constructor; [done|]. apply Forall_forall. intros s Hs Hn.
      destruct (Hempty s (list_elem_of_further _ _ _ Hs) Hn) as [[= -> ->] _]. by apply not_elem_of_nil in Hs.
Qed.

(** ** Cost positions *)
Lemma err_if_nil b k m : _err_if b k m = [] ↔ b = false.
Proof. by destruct b. Qed.
Lemma enumerate_from_nil {A B} (f : nat → A → list B) l i :
  enumerate_from i f l = [] ↔ ∀ j x, l !! j = Some x → f (i + j)%nat x = [].
Proof.
  revert i. induction l as [|x l IH]; intros i; cbn [enumerate_from]; [done|]. split.
  - intros [H1 H2]%app_eq_nil j y Hj. destruct j as [|j]; cbn in Hj.
    + injection Hj as <-. by rewrite Nat.add_0_r.
    + rewrite Nat.add_succ_r. apply (proj1 (IH (S i)) H2 j y Hj).
  - intros H. pose proof (H 0%nat x eq_refl) as H0. rewrite Nat.add_0_r in H0. rewrite H0. cbn.
    apply IH. intros j y Hj. specialize (H (S j) y Hj). by rewrite Nat.add_succ_r in H.
Qed.
(** The errors of the elements do not depend on the index. *)
Lemma enumerate_from_nil_all {A B} (f : nat → A → list B) (P : A → Prop) l i :
  (∀ j x, f j x = [] ↔ P x) → enumerate_from i f l = [] ↔ Forall P l.
Proof.
  intros Hf. rewrite enumerate_from_nil, Forall_lookup. by setoid_rewrite Hf.
Qed.

(** What a comparison offer and a cost position must be. *)
Definition offer_ok (o : pyval) : Prop :=
  ∃ d value, o = PDict d ∧ has_text (dict_value "label" d) = true ∧
    _offer_value d = Some value ∧ dec_negative value = false.
Definition offers_ok (rules : _PositionRules) (no_offers : bool) (offers : list pyval) : Prop :=
  (if no_offers then 1 else r_min_offers rules) ≤ of_len offers ≤ r_max_offers rules ∧
  Forall offer_ok offers ∧
  (offers ≠ [] → ∃ o, filter (λ o, is_preferred o = true) offers = [o]).
Definition position_ok (rules : _PositionRules) (pos : pyval) : Prop :=
  ∃ d offers, pos = PDict d ∧ has_text (dict_value "label" d) = true ∧
    dict_value "offers" d = PList offers ∧
    let no_offers := is_true (dict_value "noOffers" d) in
    (no_offers = true → r_allow_no_offers rules = true ∧
                        has_text (dict_value "noOffersReason" d) = true) ∧
    offers_ok rules no_offers offers.

Lemma offer_errors_nil w o : _offer_errors w o = [] ↔ offer_ok o.
Proof.
  unfold offer_ok. destruct o; try (cbn; split; [done|by intros (? & ? & ? & _)]).
  cbn [_offer_errors]. split.
  - intros [H1 H2]%app_eq_nil. rewrite err_if_nil, negb_false_iff in H1.
    destruct (_offer_value d) as [num|] eqn:E; [|done]. apply err_if_nil in H2. naive_solver.
  - intros (d' & v & [= <-] & H1 & H2 & H3). by rewrite H1, H2, H3.
Qed.

Lemma singleton_length {A} (l : list A) : of_len l = 1 ↔ ∃ x, l = [x].
Proof.
  unfold of_len. split; [|by intros [x ->]]. intros H.
  destruct l as [|x [|y l]]; [done|by exists x|cbn in H; lia].
Qed.
Lemma of_len_0 {A} (l : list A) : (of_len l =? 0) = is_empty l.
Proof. by destruct l. Qed.

Lemma offers_errors_nil w offers rules no : _offers_errors w offers rules no = [] ↔ offers_ok rules no offers.
Proof.
  unfold _offers_errors, offers_ok. cbn zeta.
  rewrite !app_nil, !err_if_nil, (enumerate_from_nil_all _ offer_ok) by (intros; apply offer_errors_nil).
  rewrite andb_false_iff, !negb_false_iff, of_len_0, Z.eqb_eq, singleton_length, !Z.ltb_ge.
  destruct offers; cbn [is_empty]; naive_solver.
Qed.

Lemma position_errors_nil w pos rules : _position_errors w pos rules = [] ↔ position_ok rules pos.
Proof.
  unfold position_ok. destruct pos; try (cbn; split; [done|by intros (? & ? & ? & _)]).
  cbn [_position_errors]. cbn zeta. rewrite !app_nil, !err_if_nil, !andb_false_iff, !negb_false_iff.
  destruct (is_true (dict_value "noOffers" d)) eqn:Hno; split.
  - intros (H1 & H2 & H3 & H4). destruct (dict_value "offers" d) eqn:Ho; try done.
    apply offers_errors_nil in H4. exists d, l. rewrite Hno. naive_solver.
  - intros (d' & offers & [= <-] & H1 & Ho & H2 & H3). rewrite Ho. rewrite Hno in *.
    rewrite offers_errors_nil. naive_solver.
  - intros (H1 & H2 & H3 & H4). destruct (dict_value "offers" d) eqn:Ho; try done.
    apply offers_errors_nil in H4. exists d, l. rewrite Hno. naive_solver.
  - intros (d' & offers & [= <-] & H1 & Ho & H2 & H3). rewrite Ho. rewrite Hno in *.
    rewrite offers_errors_nil. naive_solver.
Qed.

(** The check of a cost table accepts exactly the well-formed ones: between the configured
    minimum and the configured maximum of positions (at most 200), each with a label, a reason
    when it opts out of comparison offers where that is allowed, enough offers and at most 50,
    every offer with a label and a finite value that is not negative, and exactly one of them
    preferred. *)
Lemma positions_spec field value :
  let rules := _position_rules (validation field) in
  (_validate_positions field value = [] ↔
     ∃ l, value = PList l ∧ r_min_positions rules ≤ of_len l ≤ r_max_positions rules ∧
       Forall (position_ok rules) l) ∧
  r_max_positions rules ≤ 200 ∧ r_max_offers rules ≤ 50.
Proof.
  cbn zeta. split; [|cbn; unfold _DEFAULT_MAX_POSITIONS, _DEFAULT_MAX_OFFERS; lia].
  destruct value; try (cbn; split; [done|by intros (? & ? & _)]).
  unfold _validate_positions. cbn zeta.
  rewrite !app_nil, !err_if_nil, !Z.ltb_ge,
    (enumerate_from_nil_all _ (position_ok (_position_rules (validation field))))
    by (intros; apply position_errors_nil).
  naive_solver.
Qed.

(** ** Promoted values *)
Definition finite_dec (v : pyval) : Prop := ∃ d, v = PDec d ∧ dec_is_finite d = true.
Definition finite_values (out : context) : Prop := ∀ k v, dict_get k out = Some v → finite_dec v.

Lemma finite_dec_intro d : dec_is_finite d = true → finite_dec (PDec d).
Proof. by exists d. Qed.
#[local] Hint Resolve finite_dec_intro : core.

Lemma finite_values_set k v out : finite_dec v → finite_values out → finite_values (dict_set k v out).
Proof.
  intros Hv Ho k' v'. rewrite dict_get_set. destruct (decide _) as [_|_]; [|apply Ho].
  by intros [= <-].
Qed.

Lemma dec_finalize_finite c x d : dec_finalize c x = Ok d → dec_is_finite d = true.
Proof. unfold dec_finalize. repeat case_match; naive_solver. Qed.
Lemma dec_add_finite a b d :
  dec_add a b = Ok d → dec_is_finite a = true → dec_is_finite b = true → dec_is_finite d = true.
Proof. destruct a, b; try done. intros H _ _. by eapply dec_finalize_finite. Qed.

Lemma decimal_finite_finite v d : decimal_finite v = Some d → dec_is_finite d = true.
Proof. unfold decimal_finite. repeat case_match; naive_solver. Qed.
Lemma offer_value_finite o d : _offer_value o = Some d → dec_is_finite d = true.
Proof. unfold _offer_value. destruct (dict_value _ _); try done; apply decimal_finite_finite. Qed.
Lemma finite_decimal_finite v d : _finite_decimal v = Some d → dec_is_finite d = true.
Proof.
  destruct v; try done; try apply decimal_finite_finite. cbn. case_bool_decide; [done|].
  apply (decimal_finite_finite (PStr s)).
Qed.
Lemma preferred_value_finite pos d :
  _preferred_value pos = Ok (Some d) → dec_is_finite d = true.
Proof.
  unfold _preferred_value. intros (l & _ & H)%bind_ok. injection H as H.
  destruct (filter _ l) as [|[] ?]; try done. by eapply offer_value_finite.
Qed.

Lemma foldl_dec_err e l : foldl (λ acc d, a ← acc; dec_add a d) (Err e) l = Err e.
Proof. by induction l. Qed.
Lemma dec_sum_finite l d :
  dec_sum l = Ok d → Forall (λ d, dec_is_finite d = true) l → dec_is_finite d = true.
Proof.
  unfold dec_sum. assert (H0 : dec_is_finite (dec_of_Z 0) = true) by done.
  revert H0. generalize (dec_of_Z 0). induction l as [|x l IH]; intros a Ha H Hl; cbn in H.
  - by injection H as <-.
  - inversion_clear Hl. destruct (dec_add a x) as [b|e] eqn:E; [|by rewrite foldl_dec_err in H].
    eapply (IH b); [by eapply dec_add_finite|done|done].
Qed.

Lemma positions_total_finite v d : positions_total v = Ok (Some d) → dec_is_finite d = true.
Proof.
  destruct v; try done. cbn [positions_total]. intros (found & Hf & H)%bind_ok.
  destruct (omap id found) as [|x r] eqn:E; [done|]. apply bind_ok in H as (t & Ht & [= <-]).
  eapply dec_sum_finite; [done|]. apply map_res_ok in Hf. apply Forall_forall. intros y Hy.
  assert (Hin : Some y ∈ found).
  { rewrite <- E in Hy. apply list_elem_of_omap in Hy as (o & Ho & Hoy). by cbn in Hoy; subst. }
  apply list_elem_of_lookup in Hin as [i Hi].
  destruct (Forall2_lookup_r _ _ _ _ _ Hf Hi) as (pos & _ & Hp). by eapply preferred_value_finite.
Qed.

(** The promise of [validate_definition] that the promotion uses. *)
Lemma definition_numeric compiles fields f :
  validate_definition compiles fields = Ok () → f ∈ fields →
  is_promoted f = true → is_numeric_type (ftype f) = true.
Proof.
  unfold validate_definition. intros H Hf Hp.
  apply bind_ok in H as (_ & _ & H). apply bind_ok in H as (_ & _ & H). apply bind_ok in H as (_ & _ & H).
  apply for_each_ok in H. rewrite Forall_forall in H. specialize (H f Hf).
  apply bind_ok in H as (u & H & _). rewrite raise_if_ok, Hp in H. by destruct (is_numeric_type _).
Qed.

Lemma promote_finite out f data out' :
  (is_promoted f = true → is_numeric_type (ftype f) = true) →
  finite_values out → _promote out f data = Ok out' → finite_values out'.
Proof.
  intros Hn Ho H.
  assert (Hflag : finite_values (_promote_flagged out f (answer_of data f))).
  { unfold _promote_flagged. destruct (promote_target f) as [t|]; [|by destruct (answer_of data f)].
    destruct (answer_of data f) as [| | | | | | | | |] eqn:Ea; try done;
      (destruct (is_promoted f); [|done]; rewrite (Hn eq_refl); cbn [negb orb];
       case_bool_decide; [done|]; destruct (_finite_decimal _) eqn:E; [|done];
       apply finite_values_set; [|done]; apply finite_dec_intro; by eapply finite_decimal_finite). }
  unfold _promote in H. destruct (ftype f) eqn:Ht; try (injection H as <-; done).
  apply bind_ok in H as (t & Hpt & H). destruct t as [t|]; [|by injection H as <-].
  apply bind_ok in H as (a & Ha & [= <-]). apply finite_values_set; [|done]. apply finite_dec_intro.
  apply positions_total_finite in Hpt. unfold add_amount in Ha.
  destruct (dict_get "amount" out) as [v|] eqn:E; [|by eapply dec_add_finite].
  destruct (Ho _ _ E) as (d & -> & Hd). by eapply dec_add_finite.
Qed.

(** C40: the promoted values of a form whose definition was accepted are finite decimals, so the
    amount of an application is never a NaN or an infinity whatever the answers hold. *)
Theorem promoted_values_finite compiles fields data out :
  validate_definition compiles fields = Ok () → extract_promoted fields data = Ok out →
  finite_values out.
Proof.
  intros Hdef H. unfold extract_promoted in H. apply bind_ok in H as (p & Hp & H).
  assert (Hfin : finite_values p).
  { assert (Hall : Forall (λ f, is_promoted f = true → is_numeric_type (ftype f) = true) fields).
    { apply Forall_forall. intros f Hf. by eapply definition_numeric. }
    assert (H0 : finite_values []) by done. clear Hdef H.
    revert H0 Hp. generalize (@nil (string * pyval)). induction fields as [|f fs IH]; intros o Ho Hp.
    - cbn in Hp. by injection Hp as <-.
    - inversion_clear Hall. cbn in Hp. apply bind_ok in Hp as (o' & Ho' & Hp).
      apply (IH ltac:(done) o'); [|done]. by eapply promote_finite. }
  destruct (last _) as [f|]; [|by injection H as <-].
  destruct (_finite_decimal _) eqn:E; injection H as <-; [|done].
  apply finite_values_set; [|done]. apply finite_dec_intro. by eapply finite_decimal_finite.
Qed.

(** ** Witnesses *)
(** A form with a title, a cost table and a funding request. *)
Definition example_field (k : string) (t : FieldType) : FormFieldDef :=
  MkField k t [] [] true None None None None false false None.
Definition example_form : list FormFieldDef :=
  [example_field "title" FText; example_field "costs" FPositions; example_field "funding" FFunding].
Definition example_offer (value : Z) (preferred : bool) : pyval :=
  PDict [("label", PStr "shop"); ("value", PInt value); ("preferred", PBool preferred)].
Definition example_answers : context :=
  [("title", PStr "Summer party");
   ("costs", PList [PDict [("label", PStr "Tent");
      ("offers", PList [example_offer 100 true; example_offer 120 false; example_offer 150 false])]]);
   ("funding", PStr "80.50")].

Lemma accepted_answers_witness :
  ∃ present total,
    shown example_form example_answers example_answers present ∧
    add_costs (dec_of_Z 0) (answer_of example_answers <$> of_type FPositions present) = Ok total ∧
    ∀ f, last (of_type FFunding present) = Some f →
      ∃ num, decimal_of_value (answer_of example_answers f) = Some num ∧ dec_ord is_gt num total = Ok false.
Proof.
  destruct (accepted_answers (λ _ _, Some true) example_form example_answers [] example_answers)
    as (_ & _ & H).
  - vm_compute. reflexivity.
  - exact H.
Defined.


Lemma promoted_values_finite_witness :
  finite_values [("amount", PDec (DFin 8050 (-2)))].
Proof.
  apply (promoted_values_finite (λ _, true) example_form example_answers).
  - vm_compute. reflexivity.
  - vm_compute. reflexivity.
Defined.

(** An answer that is not well formed can raise instead of collecting an error: the cost total
    is computed before the collected errors are raised, and it iterates over [offers]. *)
Lemma malformed_offers_raise :
  validate_answers (λ _ _, Some true) [example_field "costs" FPositions]
    [("costs", PList [PDict [("label", PStr "Tent"); ("offers", PInt 5)]])] [] =
  Err (FormEscaped TypeError).
Proof. vm_compute. reflexivity. Qed.
