(* ===== verification/FlowDb.v ===== *)
(** The tables that the flow engine reads and writes, the guard context that it builds from
    them ([flow/context.py]) and the deciding Gremium of a vote state
    ([flow/vote_gremium.py], [budget/decision.py]).

    An id is the canonical text of its UUID.  A [Numeric(12, 2)] amount is its number of
    cents.  A JSON column is a [pyval].  A table is a list in the order of its rows, or a
    finite map by id where the engine updates single rows. *)

From stdpp Require Import gmap strings.
From S2P Require Import Prelude PyStr PyNum PyValue PyDate FormFields Guards BudgetRules VoteConfigs Tally Election.

(** ** UUID texts *)
Definition hex_digit (c : ascii) : Z :=
  let n := code c in if n <? 58 then n - 48 else if n <? 91 then n - 55 else n - 87.
Definition hex_number (l : list ascii) : Z :=
  foldl (λ acc c, acc * 16 + hex_digit c) 0 (filter (λ c, is_hex c = true) l).
Definition hex_char (n : Z) : ascii := char (if n <? 10 then n + 48 else n + 87).
Fixpoint hex_text (digits : nat) (n : Z) : list ascii :=
  match digits with O => [] | S k => hex_text k (n / 16) ++ [hex_char (n mod 16)] end.
Definition uuid_text (n : Z) : string :=
  let h := hex_text 32 n in
  of_chars (take 8 h) +:+ "-" +:+ of_chars (take 4 (drop 8 h)) +:+ "-" +:+
  of_chars (take 4 (drop 12 h)) +:+ "-" +:+ of_chars (take 4 (drop 16 h)) +:+ "-" +:+
  of_chars (drop 20 h).
(** [str(UUID(s))]; [None] is the [ValueError]. *)
Definition parse_uuid (s : string) : option string :=
  if uuid_ok s then Some (uuid_text (hex_number (int16_text (uuid_hex s)))) else None.

(** ** Rows *)
Record State := MkState {
  st_id : string;
  st_flow_version_id : string;
  st_key : string;
  st_kind : string;
  st_config : pyval;
  st_is_initial : bool;
  st_edit_allowed : bool
}.
Record Transition := MkTransition {
  tr_id : string;
  tr_flow_version_id : string;
  tr_from_state_id : string;
  tr_to_state_id : string;
  tr_guard : pyval;
  tr_actions : list (list (string * pyval));
  tr_order : Z;
  tr_automatic : bool;
  tr_branch : option string;
  tr_requires_action : bool
}.
Record Application := MkApplication {
  ap_id : string;
  ap_type_id : string;
  ap_form_version_id : string;
  ap_flow_version_id : string;
  ap_current_state_id : option string;
  ap_budget_id : option string;
  ap_fiscal_year_id : option string;
  ap_gremium_id : option string;
  ap_vote_gremium_id : option string;
  ap_amount : option Z;
  ap_approved_amount : option Z;
  ap_data : pyval;
  ap_created_by : option string;
  ap_email_confirmed : bool
}.
(** A decision, also the stored proposal of a vote. *)
Record DecisionIn := MkDecisionIn { approved_amount : option decimal; conditions : list string }.
(** The rules in [vote.config]: the JSON object of one of the three models. *)
Inductive AnyConfig :=
| MotionRules (c : VoteConfig)
| ElectionRules (c : ElectionConfig)
| PollRules (c : PollConfig).
Record PollResultOut := MkPollResult {
  pr_counts : counts_t;
  pr_maybe : option counts_t;
  pr_abstentions : Z;
  pr_ballots : Z;
  pr_order : list string;
  pr_top : list string
}.
(** The columns of a vote that only the vote service reads. *)
Record VoteBody := MkVoteBody {
  vb_agenda_item_id : option string;
  vb_question : option string;
  vb_config : AnyConfig;
  vb_proposal : option DecisionIn;
  vb_eligible_count : option Z;
  vb_opens_at : option Z;
  vb_closes_at : option Z;
  vb_result_branch_transition_id : option string;
  vb_present_members : option Z;
  vb_present_guests : option Z;
  vb_round : Z;
  vb_poll_result : option PollResultOut;
  vb_reminded_at : option Z;
  vb_repeat_of_id : option string;
  vb_attempt : Z
}.
(** One row of [vote]; [vo_row] holds the columns that the election service reads. *)
Record Vote := MkVote {
  vo_row : VoteRow;
  vo_body : VoteBody;
  vo_application_id : option string;
  vo_meeting_id : option string;
  vo_eligible_group : string;
  vo_opens_state_id : option string;
  vo_created_at : Z;
  vo_closed_at : option Z
}.
Record StatusEvent := MkStatusEvent {
  ev_id : string;
  ev_application_id : string;
  ev_from_state_id : option string;
  ev_to_state_id : string;
  ev_transition_id : option string;
  ev_actor : option string;
  ev_note : option string;
  ev_vote_id : option string
}.
Record ApplicationDecision := MkDecision {
  de_id : string;
  de_application_id : string;
  de_approved_amount : option Z;
  de_conditions : list string;
  de_vote_id : option string;
  de_status_event_id : option string;
  de_decided_at : Z;
  de_decided_by : option string;
  de_superseded_at : option Z
}.
Record AuditEntry := MkAudit {
  au_actor : option string;
  au_action : string;
  au_target_type : string;
  au_target_id : string;
  au_data : list (string * pyval)
}.
Inductive ExpenseKind := income | expense.
#[export] Instance ExpenseKind_eq_dec : EqDecision ExpenseKind.
Proof. solve_decision. Defined.
Record BudgetExpense := MkExpense {
  ex_budget_id : string;
  ex_fiscal_year_id : string;
  ex_kind : ExpenseKind;
  ex_amount : Z
}.
Record Attachment := MkAttachment {
  at_application_id : option string;
  at_storage_key : option string;
  at_scanned : bool;
  at_scan_result : option string
}.
(** [me_start] is [planned_start_utc]: the date and the start time in the zone of the server.  A
    time of day is its number of microseconds. *)
Record Meeting := MkMeeting {
  me_id : string;
  me_status : string;
  me_gremium_id : string;
  me_protokollant_id : option string;
  me_start : option Z;
  me_title : string;
  me_date : option pydate;
  me_start_time : option Z;
  me_end_time : option Z;
  me_started_at : option Z;
  me_closed_at : option Z;
  me_active_application_id : option string;
  me_current_agenda_item_id : option string;
  me_created_by : option string;
  me_public_join : bool;
  me_guests_mode : string;
  me_join_code : option string
}.
Record AgendaItem := MkAgendaItem {
  ai_id : string;
  ai_meeting_id : string;
  ai_application_id : option string;
  ai_position : Z;
  ai_non_public : bool;
  ai_title : option string;
  ai_todo_id : option string;
  ai_body : option string;
  ai_done_at : option Z;
  ai_created_at : Z
}.

Record Gremium := MkGremium {
  gr_id : string;
  gr_allow_vote_delegation : bool;
  gr_delegation_allow_external : bool;
  gr_delegation_lead_minutes : Z;
  gr_quorum_percent : option Z
}.
Record PrincipalRow := MkPrincipalRow {
  pr_id : string;
  pr_sub : string;
  pr_display_name : option string;
  pr_email : option string
}.
(** A membership, joined with the permissions of its role. *)
Record GremiumMembership := MkMembership {
  gm_gremium_id : string;
  gm_principal_id : string;
  gm_permissions : list string
}.

(** The tables that other parts of the program write. *)
Record Config := MkConfig {
  states : list State;
  transitions : list Transition;
  budgets : list BudgetRow;
  (** The [accepted_state_keys] of each budget, by budget id. *)
  accepted_keys : list (string * list pyval);
  gremium_rows : list Gremium;
  principals : list PrincipalRow;
  memberships : list GremiumMembership;
  (** The allocation of a budget in a fiscal year. *)
  allocations : list ((string * string) * Z);
  expenses : list BudgetExpense;
  attachments : list Attachment;
  application_types : list (string * string);
  (** Form version, field key and field type. *)
  form_fields : list (string * (string * string));
  meetings : list Meeting
}.
Definition gremien (c : Config) : list string := gr_id <$> gremium_rows c.
(** The tables that the engine writes. *)
Record Db := MkDb {
  conf : Config;
  applications : gmap string Application;
  votes : gmap string Vote;
  status_events : list StatusEvent;
  decisions : list ApplicationDecision;
  agenda_items : list AgendaItem;
  audit : list AuditEntry
}.

(** [scalar_one_or_none] and [session.get] on a primary key. *)
Definition find_by {A} (id_of : A → string) (id : string) (l : list A) : option A :=
  head (filter (λ x, id_of x = id) l).
Definition state_of (d : Db) (id : string) : option State := find_by st_id id (states (conf d)).

(** ** Actors *)
(** [scope_permissions] is the cap of an OAuth token; a session cookie has none. *)
Record Principal := MkPrincipal {
  sub : string;
  p_roles : list string;
  p_permissions : list string;
  p_groups : list string;
  scope_permissions : option (list string)
}.
(** The memberships of the principal with this [sub]: the join on [principal]. *)
Definition memberships_of (c : Config) (s : string) : list GremiumMembership :=
  filter (λ m, existsb (λ p, bool_decide (pr_id p = gm_principal_id m) && bool_decide (pr_sub p = s))
                 (principals c) = true) (memberships c).

(** ** The deciding Gremium *)
Definition effective_decision_gremium (d : Db) (budget : option string) : option string :=
  match budget with
  | None => None
  | Some b => match decision_gremium_of (budgets (conf d)) b with Some (g, _) => g | None => None end
  end.
Definition _config (state : State) : list (string * pyval) :=
  match st_config state with PDict c => c | _ => [] end.
Definition is_vote_kind (state : State) : bool := bool_decide (st_kind state = "vote").
Definition gremium_from_budget (state : option State) : bool :=
  match state with
  | Some s => is_vote_kind s && is_text (get_or_none "gremiumSource" (_config s)) GREMIUM_SOURCE_BUDGET
  | None => false
  end.
Definition fixed_gremium_ref (state : State) : option string :=
  match get_or_none "gremiumId" (_config state) with
  | PStr ref => if bool_decide (ref = "") then None else parse_uuid ref
  | _ => None
  end.
Definition resolve_vote_gremium (d : Db) (state : option State) (budget : option string) : option string :=
  match state with
  | Some s =>
      if negb (is_vote_kind s) then None
      else if gremium_from_budget state then effective_decision_gremium d budget
      else match fixed_gremium_ref s with
           | Some ref => if bool_decide (ref ∈ gremien (conf d)) then Some ref else None
           | None => None
           end
  | None => None
  end.

Inductive FlowError :=
| NotFoundError
| ForbiddenError
| ConflictError (err_code : string)
| ValidationProblem (err_code : string)
| FlowGuard (e : guard_exc)
| FlowEscaped (e : pyexc).
Notation fres := (res FlowError).

Definition NO_VOTE_GREMIUM : string := "no_vote_gremium".
Definition snapshot_for_entry (d : Db) (state : option State) (budget : option string)
    : fres (option string) :=
  let gremium := resolve_vote_gremium d state budget in
  if negb (bool_decide (is_Some gremium)) && gremium_from_budget state
  then Err (ConflictError NO_VOTE_GREMIUM) else Ok gremium.

(** The lock and the later snapshot of an application in a vote state of its cost center. *)
Definition in_budget_vote_state (d : Db) (app : Application) : bool :=
  match ap_current_state_id app, ap_vote_gremium_id app with
  | Some s, Some _ => gremium_from_budget (state_of d s)
  | _, _ => false
  end.
Definition set_vote_gremium (g : option string) (a : Application) : Application :=
  MkApplication (ap_id a) (ap_type_id a) (ap_form_version_id a) (ap_flow_version_id a)
    (ap_current_state_id a) (ap_budget_id a) (ap_fiscal_year_id a) (ap_gremium_id a) g (ap_amount a)
    (ap_approved_amount a) (ap_data a) (ap_created_by a) (ap_email_confirmed a).
Definition fill_snapshot (d : Db) (app : Application) : Application :=
  match ap_current_state_id app, ap_vote_gremium_id app with
  | Some s, None =>
      if gremium_from_budget (state_of d s)
      then set_vote_gremium (effective_decision_gremium d (ap_budget_id app)) app else app
  | _, _ => app
  end.

(** ** The guard context *)
Definition _FIELD_TYPE_MAP : list (string * string) :=
  [("number", "number"); ("currency", "currency"); ("funding", "currency"); ("date", "date");
   ("checkbox", "bool"); ("boolean", "bool")].
Definition _compare_type (field_type : string) : string :=
  match dict_get field_type _FIELD_TYPE_MAP with Some t => t | None => "text" end.
Definition committee_ids_for_sub (d : Db) (who : option string) : list string :=
  match who with
  | Some s =>
      if bool_decide (s = "") then []
      else gm_gremium_id <$> memberships_of (conf d) s
  | None => []
  end.
Definition committed_amount (requested approved : option Z) : option Z :=
  match approved with Some a => Some a | None => requested end.
(** [coalesce(sum(case kind = 'income' then amount else -amount), 0)]. *)
Definition expense_flow (d : Db) (budget year : string) : Z :=
  zsum ((λ e, if decide (ex_kind e = income) then ex_amount e else - ex_amount e)
        <$> filter (λ e, ex_budget_id e = budget ∧ ex_fiscal_year_id e = year) (expenses (conf d))).
Definition allocated_of (d : Db) (budget year : string) : Z :=
  match filter (λ a, a.1 = (budget, year)) (allocations (conf d)) with a :: _ => a.2 | [] => 0 end.
Definition _budget_fits (d : Db) (app : Application) : bool :=
  match ap_budget_id app, ap_fiscal_year_id app,
        committed_amount (ap_amount app) (ap_approved_amount app) with
  | Some budget, Some year, Some amount =>
      amount <=? allocated_of d budget year + expense_flow d budget year
  | _, _, _ => false
  end.
Definition _has_attachment (d : Db) (app : Application) : bool :=
  existsb (λ a, bool_decide (at_application_id a = Some (ap_id app)) &&
                bool_decide (is_Some (at_storage_key a)) && at_scanned a &&
                bool_decide (at_scan_result a = Some "clean")) (attachments (conf d)).
Definition _application_type_key (d : Db) (app : Application) : option string :=
  dict_get (ap_type_id app) (application_types (conf d)).
(** A dict display: a later key replaces an earlier one. *)
Definition _field_types (d : Db) (app : Application) : list (string * string) :=
  dict_set "amount" "currency"
    (dict_of_pairs ((λ f, (f.2.1, _compare_type f.2.2)) <$>
                      filter (λ f, f.1 = ap_form_version_id app) (form_fields (conf d)))).
(** A [Numeric(12, 2)] column as Python reads it. *)
Definition money (cents : option Z) : pyval :=
  match cents with Some c => PDec (DFin c (-2)) | None => PNone end.
Definition data_of (app : Application) : list (string * pyval) :=
  match ap_data app with PDict d => d | _ => [] end.
(** [frozenset(raw_roles)]: an unhashable element raises; only the texts can equal a role. *)
Definition raw_roles (app : Application) : fres (list string) :=
  match get_or_none "_applicantRoles" (data_of app) with
  | PList l =>
      if existsb (λ v, match v with PList _ | PDict _ => true | _ => false end) l
      then Err (FlowEscaped TypeError)
      else Ok (omap (λ v, match v with PStr s => Some s | _ => None end) l)
  | _ => Ok []
  end.
Definition build_base_context (d : Db) (app : Application) (is_manual : bool) : fres GuardContext :=
  app_roles ← raw_roles app;
  Ok (MkGuardContext is_manual false [] [] app_roles (committee_ids_for_sub d (ap_created_by app))
        (ap_budget_id app) (_budget_fits d app) (_application_type_key d app)
        (_has_attachment d app) (dict_set "amount" (money (ap_amount app)) (data_of app))
        (_field_types d app) (ap_vote_gremium_id app)
        (bool_decide (is_Some (effective_decision_gremium d (ap_budget_id app))))).
Definition with_actor (ctx : GuardContext) (actor_roles committees : list string) (is_applicant : bool)
    : GuardContext :=
  let '(r, c, a) := if manual ctx then (actor_roles, committees, is_applicant) else ([], [], false) in
  MkGuardContext (manual ctx) a r c (applicant_roles ctx) (applicant_committees ctx)
    (budget_id ctx) (budget_fits ctx) (application_type_key ctx) (has_attachment ctx)
    (field_values ctx) (field_types ctx) (vote_gremium_id ctx) (budget_has_decision_gremium ctx).
Definition build_context (d : Db) (app : Application) (principal : Principal) (is_manual as_applicant : bool)
    : fres GuardContext :=
  base ← build_base_context d app is_manual;
  let committees := if is_manual then committee_ids_for_sub d (Some (sub principal)) else [] in
  Ok (with_actor base (p_roles principal) committees
        (as_applicant || bool_decide (ap_created_by app = Some (sub principal)))).

(** [bool(guard)] and [eval_guard] with its exceptions. *)
Definition guard_holds (guard : pyval) (ctx : GuardContext) : fres bool :=
  match eval_guard guard ctx with Ok b => Ok b | Err e => Err (FlowGuard e) end.

(** ** Rows by their id *)
Lemma find_by_id {A} (id_of : A → string) id l x : find_by id_of id l = Some x → id_of x = id.
Proof.
  unfold find_by. intros H. assert (Hin : x ∈ filter (λ x, id_of x = id) l).
  { destruct (filter _ l); [done|]. injection H as ->. left. }
  by apply list_elem_of_filter in Hin as [? _].
Qed.
Lemma find_by_elem {A} (id_of : A → string) id l x : find_by id_of id l = Some x → x ∈ l.
Proof.
  unfold find_by. intros H. assert (Hin : x ∈ filter (λ x, id_of x = id) l).
  { destruct (filter _ l); [done|]. injection H as ->. left. }
  by apply list_elem_of_filter in Hin as [_ ?].
Qed.
Lemma find_by_NoDup {A} (id_of : A → string) l x :
  NoDup (id_of <$> l) → x ∈ l → find_by id_of (id_of x) l = Some x.
Proof.
  unfold find_by. induction l as [|y l IH]; intros Hnd Hx; [by apply not_elem_of_nil in Hx|].
  cbn in Hnd. apply NoDup_cons in Hnd as [Hy Hnd]. rewrite filter_cons.
  apply elem_of_cons in Hx as [->|Hx]; [by rewrite decide_True|].
  rewrite decide_False; [by apply IH|]. intros E. apply Hy. rewrite E. by apply list_elem_of_fmap_2.
Qed.
Lemma same_row {A} (id_of : A → string) l x y :
  NoDup (id_of <$> l) → x ∈ l → y ∈ l → id_of x = id_of y → x = y.
Proof.
  intros Hnd Hx Hy E. apply (find_by_NoDup _ _ _ Hnd) in Hx, Hy. rewrite E in Hx. congruence.
Qed.
(** [setattr] on the row with this id. *)
Definition update_row {A} (id_of : A → string) (id : string) (f : A → A) (rows : list A) : list A :=
  (λ r, if bool_decide (id_of r = id) then f r else r) <$> rows.
(** A column that a transaction writes only when it changed it. *)
Definition if_changed {A} `{EqDecision A} (old new stored : A) : A := if bool_decide (old = new) then stored else new.
Lemma update_row_in {A} (id_of : A → string) i (f : A → A) rows x :
  x ∈ update_row id_of i f rows → ∃ y, y ∈ rows ∧ (x = y ∨ id_of y = i ∧ x = f y).
Proof. intros (y & -> & Hy)%list_elem_of_fmap. exists y. split; [done|]. case_bool_decide; [right|left]; done. Qed.
Lemma update_row_map {A B} (id_of : A → string) (g : A → B) i (f : A → A) rows :
  (∀ x, x ∈ rows → id_of x = i → g (f x) = g x) → g <$> update_row id_of i f rows = g <$> rows.
Proof.
  intros H. unfold update_row. rewrite <- list_fmap_compose. apply list_fmap_ext. intros k x Hx. cbn.
  apply list_elem_of_lookup_2 in Hx. case_bool_decide; [by apply H|done].
Qed.
Lemma filter_sub {A} (P Q : A → Prop) `{∀ x, Decision (P x)} `{∀ x, Decision (Q x)} (l : list A) :
  (∀ x, x ∈ l → Q x → P x) → filter Q (filter P l) = filter Q l.
Proof.
  induction l as [|x r IH]; intros HQ; [done|].
  assert (IH' : filter Q (filter P r) = filter Q r) by (apply IH; intros z Hz; apply HQ; by right).
  rewrite (filter_cons P), (filter_cons Q x r). destruct (decide (P x)) as [HP|HP].
  - rewrite filter_cons. by destruct (decide (Q x)); rewrite IH'.
  - rewrite decide_False; [done|]. intros Hq. apply HP, HQ; [left|done].
Qed.
Lemma filter_replace {A} {id_of : A → string} (P : A → Prop) `{∀ x, Decision (P x)} i f (rows : list A) :
  (∀ x, x ∈ rows → id_of x = i → ¬ P x ∧ ¬ P (f x)) → filter P (update_row id_of i f rows) = filter P rows.
Proof.
  unfold update_row. induction rows as [|x rows IH]; intros HP; [done|]. rewrite fmap_cons, !filter_cons.
  rewrite IH by (intros y Hy; apply HP; by right). case_bool_decide as Hi; [|done].
  destruct (HP x (list_elem_of_here _ _) Hi). by rewrite !decide_False.
Qed.
Lemma keys_filter {A B} (g : A → B) (P : A → Prop) `{∀ x, Decision (P x)} (l : list A) : NoDup (g <$> l) → NoDup (g <$> filter P l).
Proof.
  induction l as [|x l IH]; [done|]. rewrite fmap_cons, filter_cons. intros [Hx Hl]%NoDup_cons. case_decide; [|by apply IH].
  rewrite fmap_cons. apply NoDup_cons. split; [|by apply IH]. intros (y & E & [_ Hy]%list_elem_of_filter)%list_elem_of_fmap. apply Hx. rewrite E.
  by apply list_elem_of_fmap_2.
Qed.
Lemma elem_update_row {A} (id_of : A → string) (f : A → A) (l : list A) m x :
  NoDup (id_of <$> l) → m ∈ l →
  x ∈ update_row id_of (id_of m) f l ↔ (x ∈ l ∧ id_of x ≠ id_of m) ∨ x = f m.
Proof.
  intros Hnd Hm. unfold update_row. rewrite list_elem_of_fmap. split.
  - intros (y & -> & Hy). case_bool_decide as E; [right|by left]. by rewrite (same_row id_of l y m).
  - intros [[Hx Hne]| ->]; [exists x|exists m]; (split; [|done]); by case_bool_decide.
Qed.
(** A view that knows the id of its row. *)
Lemma elem_update_view {A B} (id_of : A → string) (key : B → string) (g : A → B) (f : A → A) (l : list A) m v :
  (∀ x, key (g x) = id_of x) → NoDup (id_of <$> l) → m ∈ l →
  v ∈ g <$> update_row id_of (id_of m) f l ↔ (v ∈ g <$> l ∧ key v ≠ id_of m) ∨ v = g (f m).
Proof.
  intros Hk Hnd Hm. rewrite !list_elem_of_fmap. split.
  - intros (x & -> & [[Hx Hne]| ->]%(elem_update_row id_of)); [left|by right|done|done]. rewrite Hk. eauto.
  - intros [[(x & -> & Hx) Hne]| ->]; [exists x|exists (f m)]; (split; [done|]); apply (elem_update_row id_of); try done; [|by right].
    left. by rewrite Hk in Hne.
Qed.
Lemma update_row_same {A} (id_of : A → string) i (f g : A → A) l :
  (∀ x, x ∈ l → id_of x = i → f x = g x) → update_row id_of i f l = update_row id_of i g l.
Proof.
  intros H. unfold update_row. apply list_fmap_ext. intros n x Hx%list_elem_of_lookup_2. case_bool_decide; [by apply H|done].
Qed.
Lemma update_row_twice {A} (id_of : A → string) i (f g : A → A) l :
  (∀ x, id_of (f x) = id_of x) → update_row id_of i g (update_row id_of i f l) = update_row id_of i (λ x, g (f x)) l.
Proof.
  intros H. unfold update_row. rewrite <- list_fmap_compose. apply list_fmap_ext. intros n x _. cbn.
  destruct (bool_decide (id_of x = i)) eqn:E; [by rewrite H, E|by rewrite E].
Qed.
Lemma update_row_id {A} (id_of : A → string) i (f : A → A) l :
  (∀ x, x ∈ l → id_of x = i → f x = x) → update_row id_of i f l = l.
Proof.
  intros H. rewrite <- (list_fmap_id l) at 2. unfold update_row. apply list_fmap_ext. intros n x Hx%list_elem_of_lookup_2.
  case_bool_decide; [by apply H|done].
Qed.
Lemma find_by_other {A} (id_of : A → string) i j (f : A → A) l :
  (∀ x, id_of (f x) = id_of x) → i ≠ j → find_by id_of i (update_row id_of j f l) = find_by id_of i l.
Proof.
  intros Hf Hne. unfold find_by, update_row. f_equal. induction l as [|x l IH]; [done|]. rewrite fmap_cons, !filter_cons, IH.
  case_bool_decide as E; [|done]. by rewrite !decide_False by (rewrite ?Hf; congruence).
Qed.
