(* ===== verification/Decision.v ===== *)
(** Approval with deviations ([applications/decision.py]): the check of a decision, the valid
    decision of an application, and the swap of decisions that a revert of a status change
    makes and its redo makes back.  The order of two rows with the same time is the order of
    the table. *)

From stdpp Require Import gmap strings.
From S2P Require Import Prelude PyStr PyNum PyValue BudgetRules FlowDb.

Definition MAX_CONDITIONS : Z := 20.
Definition MAX_CONDITION_LENGTH : Z := 1000.
Definition MAX_AMOUNT : decimal := DFin 999999999999 (-2).
Definition CODE_AMOUNT_INVALID : string := "approved_amount_invalid".
Definition CODE_AMOUNT_EXCEEDS : string := "approved_amount_exceeds_requested".
Definition CODE_NOT_ALLOWED : string := "decision_not_allowed".

(** [DecisionIn._clean_conditions]; [None] is the [ValueError]. *)
Definition _clean_conditions (value : list string) : option (list string) :=
  if MAX_CONDITIONS <? Z.of_nat (length value) then None
  else
    let cleaned := py_strip <$> value in
    if existsb (λ t, bool_decide (t = "") || (MAX_CONDITION_LENGTH <? py_len t)) cleaned
    then None else Some cleaned.

(** The cents of [d.quantize(Decimal("0.01"))]. *)
Definition quantize_cents (c x : Z) : Z :=
  if -2 <=? x then c * 10 ^ (x + 2) else round_half_even c (-2 - x).
Definition cents_of (d : decimal) : option Z :=
  match d with DFin c x => Some (quantize_cents c x) | _ => None end.
(** A decision amount in its [Numeric(12, 2)] column. *)
Definition stored_amount (decision : DecisionIn) : option Z :=
  match approved_amount decision with Some d => cents_of d | None => None end.
Definition dec_money (cents : Z) : decimal := DFin cents (-2).

Definition dec_cmp (p : comparison → bool) (a b : decimal) : fres bool :=
  match dec_ord p a b with Ok r => Ok r | Err e => Err (FlowEscaped e) end.
Definition check_approved_amount (requested : option Z) (approved : option decimal) : fres () :=
  match approved with
  | None => Ok ()
  | Some a =>
      negative ← dec_cmp is_lt a (dec_of_Z 0);
      _ ← raise_if negative (ValidationProblem CODE_AMOUNT_INVALID);
      huge ← dec_cmp is_gt a MAX_AMOUNT;
      _ ← raise_if huge (ValidationProblem CODE_AMOUNT_INVALID);
      match cents_of a, requested with
      | Some cents, Some r =>
          _ ← raise_if (negb (bool_decide (dec_compare a (dec_money cents) = Eq)))
                (ValidationProblem CODE_AMOUNT_INVALID);
          exceeds ← dec_cmp is_gt a (dec_money r);
          raise_if exceeds (ValidationProblem CODE_AMOUNT_EXCEEDS)
      | _, _ => Err (ValidationProblem CODE_AMOUNT_INVALID)
      end
  end.

Definition amount_deviates (requested approved : option Z) : bool :=
  bool_decide (is_Some approved) && negb (bool_decide (approved = requested)).

(** The accepted states of the top budget: the node whose path is the first segment. *)
Definition accepted_state_keys (d : Db) (budget : option string) : list string :=
  match budget with
  | None => []
  | Some b =>
      match find_by b_id b (budgets (conf d)) with
      | None => []
      | Some row =>
          match find_by b_path_key (hd "" (py_split "-" (b_path_key row))) (budgets (conf d)) with
          | None => []
          | Some top =>
              match dict_get (b_id top) (accepted_keys (conf d)) with
              | Some keys => omap (λ v, match v with PStr s => Some s | _ => None end) keys
              | None => []
              end
          end
      end
  end.
Definition check_decision_target (d : Db) (app : Application) (target_key : option string) : fres () :=
  match target_key with
  | Some k => raise_if (negb (bool_decide (k ∈ accepted_state_keys d (ap_budget_id app))))
                (ValidationProblem CODE_NOT_ALLOWED)
  | None => Err (ValidationProblem CODE_NOT_ALLOWED)
  end.

(** ** Writing decisions *)
Definition set_approved (a : option Z) (app : Application) : Application :=
  MkApplication (ap_id app) (ap_type_id app) (ap_form_version_id app) (ap_flow_version_id app)
    (ap_current_state_id app) (ap_budget_id app) (ap_fiscal_year_id app) (ap_gremium_id app)
    (ap_vote_gremium_id app) (ap_amount app) a (ap_data app) (ap_created_by app) (ap_email_confirmed app).
Definition set_superseded (at_ : option Z) (r : ApplicationDecision) : ApplicationDecision :=
  MkDecision (de_id r) (de_application_id r) (de_approved_amount r) (de_conditions r) (de_vote_id r)
    (de_status_event_id r) (de_decided_at r) (de_decided_by r) at_.
(** [UPDATE application SET ... WHERE id = ...]. *)
Definition update_application (id : string) (f : Application → Application) (d : Db) : Db :=
  MkDb (conf d) (alter f id (applications d)) (votes d) (status_events d) (decisions d)
    (agenda_items d) (audit d).
Definition with_decisions (l : list ApplicationDecision) (d : Db) : Db :=
  MkDb (conf d) (applications d) (votes d) (status_events d) l (agenda_items d) (audit d).
Definition audit_record (entry : AuditEntry) (d : Db) : Db :=
  MkDb (conf d) (applications d) (votes d) (status_events d) (decisions d) (agenda_items d)
    (audit d ++ [entry]).

Definition str_or_none (o : option string) : pyval := match o with Some s => PStr s | None => PNone end.
Definition _money (cents : option Z) : pyval :=
  match cents with Some c => PStr (decimal_str (dec_money c)) | None => PNone end.
Definition of_application (app_id : string) (r : ApplicationDecision) : Prop :=
  de_application_id r = app_id ∧ de_superseded_at r = None.
#[export] Instance of_application_dec app_id r : Decision (of_application app_id r).
Proof. unfold of_application. apply _. Defined.

Definition record_decision (app : Application) (decision : DecisionIn) (actor decided_by : option string)
    (old_approved : option Z) (vote_id status_event_id : option string) (now : Z) (new_id : string)
    (d : Db) : Db :=
  let superseded := (λ r, if decide (of_application (ap_id app) r) then set_superseded (Some now) r else r)
                    <$> decisions d in
  let row := MkDecision new_id (ap_id app) (stored_amount decision) (conditions decision) vote_id
               status_event_id now decided_by None in
  let d := update_application (ap_id app) (set_approved (stored_amount decision))
             (with_decisions (superseded ++ [row]) d) in
  audit_record
    (MkAudit actor "application_decision" "application" (ap_id app)
       [("applicationId", PStr (ap_id app)); ("decisionId", PStr new_id);
        ("requestedAmount", _money (ap_amount app)); ("approvedAmountOld", _money old_approved);
        ("approvedAmountNew", _money (stored_amount decision));
        ("conditionCount", PInt (Z.of_nat (length (conditions decision))));
        ("voteId", str_or_none vote_id); ("statusEventId", str_or_none status_event_id)]) d.

Record DecisionSwap := MkSwap { undone_id : option string; restored_id : option string }.
(** The newest of the rows, the first one of a tie. *)
Fixpoint newest (l : list ApplicationDecision) : option ApplicationDecision :=
  match l with
  | [] => None
  | r :: l =>
      match newest l with
      | Some s => if de_decided_at r <? de_decided_at s then Some s else Some r
      | None => Some r
      end
  end.
Definition update_decision (id : string) (f : ApplicationDecision → ApplicationDecision) (d : Db) : Db :=
  with_decisions ((λ r, if decide (de_id r = id) then f r else r) <$> decisions d) d.
Definition update_opt (r : option ApplicationDecision) (at_ : option Z) (d : Db) : Db :=
  match r with Some r => update_decision (de_id r) (set_superseded at_) d | None => d end.
Definition amount_of (r : option ApplicationDecision) : option Z :=
  match r with Some r => de_approved_amount r | None => None end.
Definition _swap (app_id : string) (requested : option Z) (undone restored : option ApplicationDecision)
    (actor status_event_id : option string) (stamp : Z) (d : Db) : Db * DecisionSwap :=
  let old_approved := match applications d !! app_id with Some a => ap_approved_amount a | None => None end in
  let d := update_opt restored None (update_opt undone (Some stamp) d) in
  let d := update_application app_id (set_approved (amount_of restored)) d in
  let swap := MkSwap (de_id <$> undone) (de_id <$> restored) in
  (audit_record
     (MkAudit actor "application_decision" "application" app_id
        [("applicationId", PStr app_id); ("decisionId", str_or_none (undone_id swap));
         ("restoredDecisionId", str_or_none (restored_id swap));
         ("requestedAmount", _money requested); ("approvedAmountOld", _money old_approved);
         ("approvedAmountNew", _money (amount_of restored));
         ("conditionCount", PInt (match restored with Some r => Z.of_nat (length (de_conditions r)) | None => 0 end));
         ("statusEventId", str_or_none status_event_id); ("reverted", PBool true)]) d, swap).

Definition valid_decision (d : Db) (app_id : string) : option ApplicationDecision :=
  newest (filter (of_application app_id) (decisions d)).

Definition revert_decision_for_event (app_id : string) (requested : option Z)
    (status_event_id actor : option string) (now : Z) (d : Db) : Db * option DecisionSwap :=
  match status_event_id with
  | None => (d, None)
  | Some ev =>
      match filter (λ r, of_application app_id r ∧ de_status_event_id r = Some ev) (decisions d) with
      | [] => (d, None)
      | undone :: _ =>
          let previous := newest (filter (λ r, de_application_id r = app_id ∧ de_id r ≠ de_id undone ∧
                                               de_superseded_at r = Some (de_decided_at undone))
                                    (decisions d)) in
          let '(d, swap) := _swap app_id requested (Some undone) previous actor (Some ev) now d in
          (d, Some swap)
      end
  end.
Definition redo_decision_swap (app_id : string) (requested : option Z) (swap : DecisionSwap)
    (actor : option string) (now : Z) (d : Db) : Db * option DecisionSwap :=
  let current := valid_decision d app_id in
  let again := match undone_id swap with Some id => find_by de_id id (decisions d) | None => None end in
  if negb (bool_decide (de_id <$> current = restored_id swap)) then (d, None)
  else if bool_decide (is_Some (undone_id swap)) &&
          negb (bool_decide (de_application_id <$> again = Some app_id)) then (d, None)
  else
    let '(d, swap) := _swap app_id requested current again actor None now d in (d, Some swap).
