(* ===== verification/FlowEngine.v ===== *)
(** The flow engine ([flow/service.py], [flow/dispatch.py]): which transitions an actor may
    fire, the firing of a transition, the automatic advance, the branch of a vote, the forced
    status and the revert of a status change, with the votes that a state change cancels
    ([VotingService.cancel_for_application]) and the agenda item of a manual fire
    ([AgendaService.add_in_tx]).

    An operation that changes the state of an application has two parts, as its transaction
    has: [plan_*] reads and checks, and [write_*] runs the conditional [UPDATE] and all that
    follows it.  Another transaction can commit between the two, so they take two databases;
    the operation without an interleaving is [write_* d (plan_* d)].  The row lock of the
    [UPDATE] keeps the rest of the transaction together.  An error leaves the database as it
    was.  A fresh id and the time are arguments; [assert_can_read] of the meeting service is
    a parameter. *)

From stdpp Require Import gmap strings.
From S2P Require Import Prelude PyStr PyNum PyValue FormFields Guards BudgetRules Election FlowDb Decision.

(** ** Dispatch *)
Definition WORKER_ACTION_TYPES : list string :=
  ["notify"; "webhook"; "addToNextSession"; "assignBudget"; "assignBudgetFromField";
   "assignBudgetFromApplicantGremium"; "assignBudgetFromMap"].
Notation action := (list (string * pyval)).
Record DispatchedAction := MkDispatched {
  da_type : string;
  da_application_id : string;
  da_transition_id : option string;
  da_status_event_id : string;
  da_idempotency_key : string;
  da_params : action
}.
(** [x in s] for a frozenset of texts. *)
Definition in_texts (v : pyval) (s : list string) : fres bool :=
  match in_set v s with Ok b => Ok b | Err e => Err (FlowGuard e) end.
Fixpoint dispatched_from (index : nat) (actions : list action) (app_id : string)
    (transition_id : option string) (event_id : string) : fres (list DispatchedAction) :=
  match actions with
  | [] => Ok []
  | a :: r =>
      let action_type := get_or_none "type" a in
      known ← in_texts action_type WORKER_ACTION_TYPES;
      rest ← dispatched_from (S index) r app_id transition_id event_id;
      Ok (if known : bool
          then MkDispatched (py_str action_type) app_id transition_id event_id
                 (app_id +:+ ":" +:+ event_id +:+ ":" +:+ int_str (Z.of_nat index) +:+ ":" +:+
                  py_str action_type)
                 (filter (λ kv, kv.1 ≠ "type") a) :: rest
          else rest)
  end.
Definition build_dispatched_actions (actions : list action) (app_id : string)
    (transition_id : option string) (event_id : string) : fres (list DispatchedAction) :=
  dispatched_from 0 actions app_id transition_id event_id.

Definition is_applicant_recipient (r : pyval) : bool :=
  match r with PDict d => is_text (get_or_none "kind" d) "applicant" | _ => false end.
(** [action.get("recipients", [])]: a value that is not iterable raises. *)
Definition recipients_of (a : action) : fres (list pyval) :=
  match dict_get "recipients" a with
  | None => Ok []
  | Some (PList l) => Ok l
  | Some (PStr _) | Some (PDict _) => Ok []
  | Some _ => Err (FlowEscaped TypeError)
  end.
Fixpoint applicant_covered (actions : list action) : fres bool :=
  match actions with
  | [] => Ok false
  | a :: r =>
      if is_text (get_or_none "type" a) "notify" then
        l ← recipients_of a;
        if existsb is_applicant_recipient l then Ok true else applicant_covered r
      else applicant_covered r
  end.
Definition task_mail (app_id : string) (transition_id : option string) (event_id : string)
    : DispatchedAction :=
  MkDispatched "taskNotify" app_id transition_id event_id
    (app_id +:+ ":" +:+ event_id +:+ ":auto:task") [].
Definition applicant_mail (app_id : string) (transition_id : option string) (event_id : string)
    : DispatchedAction :=
  MkDispatched "notify" app_id transition_id event_id
    (app_id +:+ ":" +:+ event_id +:+ ":auto:applicant")
    [("templateKey", PStr "status_update");
     ("recipients", PList [PDict [("kind", PStr "applicant")]])].
Definition build_implicit_notifications (actions : list action) (app_id : string)
    (transition_id : option string) (event_id : string) : fres (list DispatchedAction) :=
  covered ← applicant_covered actions;
  Ok (if covered : bool then [task_mail app_id transition_id event_id]
      else [applicant_mail app_id transition_id event_id; task_mail app_id transition_id event_id]).

(** ** Loading *)
Definition _load_app (d : Db) (app_id : string) (allow_unconfirmed : bool) : fres Application :=
  match applications d !! app_id with
  | Some app =>
      if negb allow_unconfirmed && negb (ap_email_confirmed app) then Err NotFoundError else Ok app
  | None => Err NotFoundError
  end.
Definition _load_transition (d : Db) (transition_id : string) : fres Transition :=
  match find_by tr_id transition_id (transitions (conf d)) with
  | Some t => Ok t
  | None => Err NotFoundError
  end.
Definition by_order (a b : Transition) : bool := tr_order a <=? tr_order b.
Definition _outgoing (d : Db) (app : Application) : list Transition :=
  sort_by by_order
    (filter (λ t, tr_flow_version_id t = ap_flow_version_id app ∧
                  Some (tr_from_state_id t) = ap_current_state_id app) (transitions (conf d))).

(** ** The agenda *)
Definition _agenda_action (actions : list action) : option action :=
  head (filter (λ a, is_text (get_or_none "type" a) "addToNextSession" = true) actions).
Definition agenda_gremium_id (actions : list action) : option string :=
  match _agenda_action actions with
  | Some a => parse_uuid (py_str (get_or_none "gremiumId" a))
  | None => None
  end.
Definition _agenda_gremium (d : Db) (t : Transition) (target : option State) (budget : option string)
    : option string :=
  match _agenda_action (tr_actions t), target with
  | Some a, Some s =>
      if negb (is_vote_kind s) then None
      else if bool_decide (is_Some (dict_get "gremiumId" a)) then agenda_gremium_id (tr_actions t)
      else resolve_vote_gremium d target budget
  | _, _ => None
  end.
Definition AGENDA_MEETING_INVALID : FlowError := ValidationProblem "agenda_meeting_invalid".

(** [AgendaService.add_in_tx] for an application. *)
Definition meeting_of (d : Db) (id : string) : option Meeting := find_by me_id id (meetings (conf d)).
Definition _AGENDA_OPEN : list string := ["planned"; "live"].
Definition _next_position (d : Db) (meeting_id : string) : Z :=
  match filter (λ i, ai_meeting_id i = meeting_id) (agenda_items d) with
  | [] => 0
  | i :: r => foldl Z.max (ai_position i) (ai_position <$> r) + 1
  end.
Definition with_agenda (l : list AgendaItem) (d : Db) : Db :=
  MkDb (conf d) (applications d) (votes d) (status_events d) (decisions d) l (audit d).
Definition add_in_tx (meeting_id app_id : string) (non_public : bool) (actor : option string)
    (item_id : string) (now : Z) (d : Db) : fres (Db * bool) :=
  match meeting_of d meeting_id with
  | None => Err NotFoundError
  | Some meeting =>
      _ ← raise_if (negb (bool_decide (me_status meeting ∈ _AGENDA_OPEN))) (ConflictError "meeting_closed");
      match applications d !! app_id with
      | None => Err NotFoundError
      | Some app =>
          _ ← raise_if (negb (bool_decide (ap_vote_gremium_id app = Some (me_gremium_id meeting))))
                (ConflictError "application_not_voting");
          if existsb (λ i, bool_decide (ai_meeting_id i = meeting_id) &&
                           bool_decide (ai_application_id i = Some app_id)) (agenda_items d)
          then Ok (d, false)
          else
            let item := MkAgendaItem item_id meeting_id (Some app_id) (_next_position d meeting_id) non_public
                          None None None None now in
            Ok (audit_record (MkAudit actor "agenda_item_add" "meeting" meeting_id
                                [("agendaItemId", PStr item_id); ("applicationId", PStr app_id);
                                 ("nonPublic", PBool non_public)])
                  (with_agenda (agenda_items d ++ [item]) d), true)
      end
  end.

(** ** The votes that a state change orphans *)
Definition _draft_orphaned (opens left_state : option string) (left_is_vote : bool) : bool :=
  match left_state, opens with
  | None, _ => false
  | Some _, None => left_is_vote
  | Some l, Some o => bool_decide (o = l)
  end.
Definition vote_status (v : Vote) : VoteStatus := v_status (vo_row v).
Definition _orphaned (v : Vote) (left_state : option string) (left_is_vote : bool) : bool :=
  negb (bool_decide (vote_status v = draft)) || _draft_orphaned (vo_opens_state_id v) left_state left_is_vote.
Definition _is_vote_state (d : Db) (state_id : string) : bool :=
  match state_of d state_id with Some s => is_vote_kind s | None => false end ||
  existsb (λ t, bool_decide (tr_from_state_id t = state_id) && bool_decide (is_Some (tr_branch t)))
    (transitions (conf d)).
Definition with_votes (m : gmap string Vote) (d : Db) : Db :=
  MkDb (conf d) (applications d) m (status_events d) (decisions d) (agenda_items d) (audit d).
Definition set_row (row : VoteRow) (v : Vote) : Vote :=
  MkVote row (vo_body v) (vo_application_id v) (vo_meeting_id v) (vo_eligible_group v) (vo_opens_state_id v)
    (vo_created_at v) (vo_closed_at v).
(** [release_runoff_link] on the rows of the vote table. *)
Definition release_link (vote_id : string) (row : VoteRow) (m : gmap string Vote) : gmap string Vote :=
  let rows := votes_table (release_runoff_link (MkElectionDb (vo_row <$> m) []) vote_id row) in
  map_imap (λ id v, Some (match rows !! id with Some r => set_row r v | None => v end)) m.
Definition status_text (s : VoteStatus) : string :=
  match s with draft => "draft" | open => "open" | closed => "closed" | cancelled => "cancelled" end.
Definition _mark_cancelled (d : Db) (vote_id : string) (v : Vote) (now : Z) (actor : option string)
    (reason : string) : Db :=
  let row := MkVoteRow (v_kind (vo_row v)) cancelled (v_result (vo_row v))
               (v_election_result (vo_row v)) (v_parent_vote_id (vo_row v)) in
  let v' := MkVote row (vo_body v) (vo_application_id v) (vo_meeting_id v) (vo_eligible_group v)
              (vo_opens_state_id v) (vo_created_at v) (Some now) in
  audit_record
    (MkAudit actor "vote_cancel" "vote" vote_id
       [("applicationId", str_or_none (vo_application_id v));
        ("meetingId", str_or_none (vo_meeting_id v)); ("eligibleGroup", PStr (vo_eligible_group v));
        ("reason", PStr reason); ("previousStatus", PStr (status_text (vote_status v)))])
    (with_votes (release_link vote_id row (<[vote_id := v']> (votes d))) d).
(** The open and draft votes of an application, in the order of their creation. *)
Definition running (app_id : string) (v : Vote) : bool :=
  bool_decide (vo_application_id v = Some app_id) && bool_decide (vote_status v ∈ [open; draft]).
Definition by_created (a b : string * Vote) : bool := vo_created_at a.2 <=? vo_created_at b.2.
Definition votes_of (d : Db) (app_id : string) : list (string * Vote) :=
  sort_by by_created (filter (λ kv, running app_id kv.2 = true) (map_to_list (votes d))).
Definition cancel_for_application (d : Db) (app_id : string) (now : Z) (actor : option string)
    (left_state entered : option string) : Db * list string :=
  let rows := votes_of d app_id in
  let state_left := if decide (left_state = entered) then None else left_state in
  let unbound_draft := existsb (λ kv, bool_decide (vote_status kv.2 = draft) &&
                                       bool_decide (vo_opens_state_id kv.2 = None)) rows in
  let left_is_vote := match state_left with
                      | Some s => unbound_draft && _is_vote_state d s
                      | None => false
                      end in
  let orphans := filter (λ kv, _orphaned kv.2 state_left left_is_vote = true) rows in
  (foldl (λ d id, match votes d !! id with
                  | Some v => _mark_cancelled d id v now actor "state_left"
                  | None => d
                  end) d orphans.*1, orphans.*1).

(** ** Firing a transition *)
Definition _entry_snapshot (d : Db) (app : Application) (from_state : option string)
    (target : option State) : fres (option string) :=
  match target with
  | Some s =>
      if is_vote_kind s && bool_decide (Some (st_id s) = from_state) then Ok (ap_vote_gremium_id app)
      else snapshot_for_entry d target (ap_budget_id app)
  | None => snapshot_for_entry d target (ap_budget_id app)
  end.
(** The clause of the [UPDATE] that pins the cost center, on the current row. *)
Definition _budget_unchanged (read : Application) (target : option State) (row : Application) : bool :=
  negb (gremium_from_budget target) || bool_decide (ap_budget_id row = ap_budget_id read).
Definition _enterable (d : Db) (target : option State) (budget : option string) : bool :=
  negb (gremium_from_budget target) || bool_decide (is_Some (resolve_vote_gremium d target budget)).
Definition set_state (to_state : string) (gremium : option string) (a : Application) : Application :=
  MkApplication (ap_id a) (ap_type_id a) (ap_form_version_id a) (ap_flow_version_id a)
    (Some to_state) (ap_budget_id a) (ap_fiscal_year_id a) (ap_gremium_id a) gremium (ap_amount a)
    (ap_approved_amount a) (ap_data a) (ap_created_by a) (ap_email_confirmed a).
Definition add_event (e : StatusEvent) (d : Db) : Db :=
  MkDb (conf d) (applications d) (votes d) (status_events d ++ [e]) (decisions d) (agenda_items d)
    (audit d).

(** A state change after its checks: the row as it was read, the states, the target and the
    Gremium of its vote. *)
Record Move := MkMove {
  mv_app : Application;
  mv_from : string;
  mv_to : string;
  mv_target : option State;
  mv_gremium : option string
}.
(** [UPDATE application SET current_state_id, vote_gremium_id WHERE ...]: [None] is a row
    count of 0. *)
Definition move_application (m : Move) (d : Db) : option Db :=
  match applications d !! ap_id (mv_app m) with
  | Some row =>
      if bool_decide (ap_current_state_id row = Some (mv_from m)) &&
         _budget_unchanged (mv_app m) (mv_target m) row
      then Some (update_application (ap_id (mv_app m)) (set_state (mv_to m) (mv_gremium m)) d)
      else None
  | None => None
  end.

(** The arguments of a fire, and the fresh values of its transaction. *)
Record FireArgs := MkFireArgs {
  fa_principal : Principal;
  fa_note : option string;
  fa_manual : bool;
  fa_as_applicant : bool;
  fa_meeting_id : option string;
  fa_non_public : bool;
  fa_allow_unconfirmed : bool;
  fa_vote_id : option string;
  fa_decision : option DecisionIn
}.
Record Fresh := MkFresh {
  fr_event_id : string;
  fr_decision_id : string;
  fr_item_id : string;
  fr_now : Z
}.
(** [pl_old_approved] is the approved amount before the decision of the fire. *)
Record FirePlan := MkFirePlan {
  pl_move : Move;
  pl_transition : Transition;
  pl_old_approved : option Z
}.
Record StagedFire := MkStaged {
  sf_application_id : string;
  sf_transition : Transition;
  sf_to_state_id : string;
  sf_status_event_id : string;
  sf_agenda_added : bool;
  sf_cancelled_vote_ids : list string
}.

Section Engine.
(** [MeetingService.assert_can_read]. *)
Context (can_read_meeting : Db → string → Principal → bool).

Definition _check_agenda_meeting (d : Db) (t : Transition) (meeting_id : string) (principal : Principal)
    (vote_gremium : option string) : fres () :=
  let action := _agenda_action (tr_actions t) in
  let gremium := match action with
                 | Some a => if bool_decide (is_Some (dict_get "gremiumId" a))
                             then agenda_gremium_id (tr_actions t) else vote_gremium
                 | None => vote_gremium
                 end in
  _ ← raise_if (negb (bool_decide (is_Some action)) || negb (bool_decide (is_Some gremium)))
        AGENDA_MEETING_INVALID;
  _ ← raise_if (match state_of d (tr_to_state_id t) with Some s => negb (is_vote_kind s) | None => true end)
        AGENDA_MEETING_INVALID;
  _ ← raise_if (negb (can_read_meeting d meeting_id principal)) AGENDA_MEETING_INVALID;
  match meeting_of d meeting_id with
  | Some m =>
      _ ← raise_if (negb (bool_decide (me_status m = "planned"))) AGENDA_MEETING_INVALID;
      raise_if (negb (bool_decide (Some (me_gremium_id m) = gremium))) AGENDA_MEETING_INVALID
  | None => Err AGENDA_MEETING_INVALID
  end.

(** A decision applies before the guard runs. *)
Definition apply_decision (d : Db) (app : Application) (t : Transition) (decision : option DecisionIn)
    : fres Application :=
  match decision with
  | None => Ok app
  | Some dec =>
      _ ← check_decision_target d app (st_key <$> state_of d (tr_to_state_id t));
      _ ← check_approved_amount (ap_amount app) (approved_amount dec);
      Ok (set_approved (stored_amount dec) app)
  end.

(** [stage_fire] up to the [UPDATE]. *)
Definition plan_fire (d : Db) (app_id transition_id : string) (a : FireArgs) : fres FirePlan :=
  app ← _load_app d app_id (fa_allow_unconfirmed a);
  t ← _load_transition d transition_id;
  _ ← raise_if (negb (bool_decide (tr_flow_version_id t = ap_flow_version_id app))) NotFoundError;
  _ ← raise_if (negb (bool_decide (Some (tr_from_state_id t) = ap_current_state_id app)))
        (ConflictError "transition_not_available");
  _ ← raise_if (fa_manual a && bool_decide (is_Some (tr_branch t)))
        (ConflictError "branch_transition_manual");
  _ ← raise_if (fa_manual a && tr_automatic t) (ConflictError "automatic_transition_manual");
  let old_approved := ap_approved_amount app in
  app ← apply_decision d app t (fa_decision a);
  ctx ← build_context d app (fa_principal a) (fa_manual a) (fa_as_applicant a);
  holds ← guard_holds (tr_guard t) ctx;
  _ ← raise_if (negb holds) (ConflictError "guard_failed");
  let target := state_of d (tr_to_state_id t) in
  gremium ← _entry_snapshot d app (Some (tr_from_state_id t)) target;
  _ ← match fa_meeting_id a with
      | Some m => _check_agenda_meeting d t m (fa_principal a) gremium
      | None => Ok ()
      end;
  Ok (MkFirePlan (MkMove app (tr_from_state_id t) (tr_to_state_id t) target gremium) t old_approved).

Definition fire_audit (m : Move) (t : Transition) (a : FireArgs) (event_id : string) : AuditEntry :=
  MkAudit (Some (sub (fa_principal a))) "status_change" "application" (ap_id (mv_app m))
    [("fromStateId", PStr (mv_from m)); ("toStateId", PStr (mv_to m));
     ("transitionId", PStr (tr_id t)); ("statusEventId", PStr event_id);
     ("manual", PBool (fa_manual a)); ("hasNote", PBool (bool_decide (is_Some (fa_note a))))].
Definition _add_to_agenda_in_tx (app_id : string) (a : FireArgs) (fresh : Fresh) (d : Db) : fres Db :=
  match fa_meeting_id a with
  | None => Ok d
  | Some meeting_id =>
      match add_in_tx meeting_id app_id (fa_non_public a) (Some (sub (fa_principal a)))
              (fr_item_id fresh) (fr_now fresh) d with
      | Ok (d, _) => Ok d
      | Err _ => Err AGENDA_MEETING_INVALID
      end
  end.
Definition write_decision (old_approved : option Z) (app : Application) (a : FireArgs) (fresh : Fresh)
    (d : Db) : Db :=
  match fa_decision a with
  | Some dec =>
      record_decision app dec (Some (sub (fa_principal a))) (Some (sub (fa_principal a))) old_approved
        None (Some (fr_event_id fresh)) (fr_now fresh) (fr_decision_id fresh) d
  | None => d
  end.
(** [stage_fire] from the [UPDATE] on. *)
Definition write_fire (d : Db) (p : FirePlan) (a : FireArgs) (fresh : Fresh) : fres (Db * StagedFire) :=
  let m := pl_move p in
  let t := pl_transition p in
  let app_id := ap_id (mv_app m) in
  let who := Some (sub (fa_principal a)) in
  match move_application m d with
  | None => Err (ConflictError "concurrent_state_change")
  | Some d =>
      let d := add_event (MkStatusEvent (fr_event_id fresh) app_id (Some (mv_from m)) (mv_to m)
                            (Some (tr_id t)) who (fa_note a) (fa_vote_id a)) d in
      let '(d, cancelled_ids) :=
        if bool_decide (tr_branch t = None)
        then cancel_for_application d app_id (fr_now fresh) who (Some (mv_from m)) (Some (mv_to m))
        else (d, []) in
      let d := audit_record (fire_audit m t a (fr_event_id fresh)) d in
      let d := write_decision (pl_old_approved p) (mv_app m) a fresh d in
      d ← _add_to_agenda_in_tx app_id a fresh d;
      Ok (d, MkStaged app_id t (mv_to m) (fr_event_id fresh)
               (bool_decide (is_Some (fa_meeting_id a))) cancelled_ids)
  end.

Definition stage_fire (d : Db) (app_id transition_id : string) (a : FireArgs) (fresh : Fresh)
    : fres (Db * StagedFire) :=
  p ← plan_fire d app_id transition_id a; write_fire d p a fresh.

(** The worker actions of a committed fire. *)
Definition after_commit (staged : StagedFire) : fres (list DispatchedAction) :=
  let t := sf_transition staged in
  configured ← build_dispatched_actions (tr_actions t) (sf_application_id staged) (Some (tr_id t))
                 (sf_status_event_id staged);
  let kept := if sf_agenda_added staged
              then filter (λ a, da_type a ≠ "addToNextSession") configured else configured in
  implicit ← build_implicit_notifications (tr_actions t) (sf_application_id staged) (Some (tr_id t))
               (sf_status_event_id staged);
  Ok (kept ++ implicit).

(** [fire] commits; [after_commit] then runs on what was committed. *)
Definition fire (d : Db) (app_id transition_id : string) (a : FireArgs) (fresh : Fresh)
    : fres (Db * StagedFire) := stage_fire d app_id transition_id a fresh.

(** ** What an actor may fire *)
Record TransitionOut := MkTransitionOut {
  to_id : string;
  to_from_state_id : string;
  to_to_state_id : string;
  to_requires_action : bool;
  to_adds_to_agenda : bool;
  to_agenda_gremium_id : option string;
  to_allows_decision : bool
}.
Definition _transition_out (t : Transition) (gremium : option string) (allows_decision : bool)
    : TransitionOut :=
  MkTransitionOut (tr_id t) (tr_from_state_id t) (tr_to_state_id t) (tr_requires_action t)
    (bool_decide (is_Some gremium)) gremium allows_decision.
Definition _firable_out (d : Db) (app : Application) (accepted : list string) (t : Transition)
    : option TransitionOut :=
  let target := state_of d (tr_to_state_id t) in
  if _enterable d target (ap_budget_id app) then
    Some (_transition_out t (_agenda_gremium d t target (ap_budget_id app))
            match target with Some s => bool_decide (st_key s ∈ accepted) | None => false end)
  else None.
Definition _transitions_out (d : Db) (app : Application) (l : list Transition) : list TransitionOut :=
  omap (_firable_out d app (accepted_state_keys d (ap_budget_id app))) l.
(** [not t.branch]. *)
Definition no_branch (t : Transition) : bool :=
  match tr_branch t with Some b => bool_decide (b = "") | None => true end.
(** A filter whose condition can raise. *)
Fixpoint filter_res {A} (f : A → fres bool) (l : list A) : fres (list A) :=
  match l with
  | [] => Ok []
  | x :: r => b ← f x; rest ← filter_res f r; Ok (if b : bool then x :: rest else rest)
  end.
Definition available_transitions (d : Db) (app_id : string) (principal : Principal)
    (allow_unconfirmed : bool) : fres (list TransitionOut) :=
  app ← _load_app d app_id allow_unconfirmed;
  match ap_current_state_id app with
  | None => Ok []
  | Some _ =>
      ctx ← build_context d app principal true false;
      visible ← filter_res (λ t, if negb (tr_automatic t) && no_branch t
                                 then guard_holds (tr_guard t) ctx else Ok false) (_outgoing d app);
      Ok (_transitions_out d app visible)
  end.

Definition _APPLICANT : Principal := MkPrincipal "applicant" [] [] [] None.
Definition available_applicant_transitions (d : Db) (app_id : string) (allow_unconfirmed : bool)
    : fres (list TransitionOut) :=
  app ← _load_app d app_id allow_unconfirmed;
  match ap_current_state_id app with
  | None => Ok []
  | Some _ =>
      ctx ← build_context d app _APPLICANT true true;
      visible ← filter_res (λ t, if negb (tr_automatic t) && no_branch t && guard_requires_applicant (tr_guard t)
                                 then guard_holds (tr_guard t) ctx else Ok false) (_outgoing d app);
      Ok (_transitions_out d app visible)
  end.
Definition fire_as_applicant (d : Db) (app_id transition_id : string) (note : option string)
    (allow_unconfirmed : bool) (fresh : Fresh) : fres (Db * StagedFire) :=
  t ← _load_transition d transition_id;
  _ ← raise_if (tr_automatic t || negb (guard_requires_applicant (tr_guard t))) ForbiddenError;
  fire d app_id transition_id
    (MkFireArgs _APPLICANT note true true None false allow_unconfirmed None None) fresh.

(** ** The automatic advance *)
Definition system_args (principal : Principal) (note : option string) (vote_id : option string) : FireArgs :=
  MkFireArgs principal note false false None false true vote_id None.
(** The first automatic transition that holds and whose target takes the application. *)
Fixpoint automatic_candidate (d : Db) (app : Application) (ctx : GuardContext) (l : list Transition)
    : fres (option Transition) :=
  match l with
  | [] => Ok None
  | t :: r =>
      holds ← (if tr_automatic t then guard_holds (tr_guard t) ctx else Ok false);
      if (holds : bool) && _enterable d (state_of d (tr_to_state_id t)) (ap_budget_id app)
      then Ok (Some t) else automatic_candidate d app ctx r
  end.
Definition auto_advance (d : Db) (app_id : string) (principal : Principal) (fresh : Fresh)
    : fres (option (Db * StagedFire)) :=
  app ← _load_app d app_id true;
  match ap_current_state_id app with
  | None => Ok None
  | Some s =>
      if match state_of d s with Some st => is_vote_kind st | None => false end then Ok None
      else
        ctx ← build_context d app principal false false;
        candidate ← automatic_candidate d app ctx (_outgoing d app);
        match candidate with
        | Some t => staged ← fire d app_id (tr_id t) (system_args principal (Some "auto") None) fresh;
                    Ok (Some staged)
        | None => Ok None
        end
  end.

(** [start_confirmed]: a failed start leaves the confirmed application as it was. *)
Definition _SYSTEM : Principal := MkPrincipal "system:confirmation" ["system"] ["application.manage"] [] None.
Definition _announce_current_state (d : Db) (app_id : string) : list DispatchedAction :=
  match last (filter (λ e, ev_application_id e = app_id) (status_events d)) with
  | Some e => [task_mail app_id None (ev_id e)]
  | None => []
  end.
Definition start_confirmed (d : Db) (app_id : string) (fresh : Fresh)
    : fres (Db * option StagedFire * list DispatchedAction) :=
  app ← _load_app d app_id true;
  match ap_current_state_id app with
  | None => Ok (d, None, [])
  | Some _ =>
      Ok match auto_advance d app_id _SYSTEM fresh with
         | Ok (Some (d', staged)) =>
             match after_commit staged with
             | Ok l => (d', Some staged, l)
             | Err _ => (d', None, [])
             end
         | Ok None => (d, None, _announce_current_state d app_id)
         | Err _ => (d, None, [])
         end
  end.

(** ** The branch of a vote *)
Definition branch_transition (d : Db) (app_id branch : string) : fres (option Transition) :=
  app ← _load_app d app_id true;
  Ok (head (filter (λ t, tr_branch t = Some branch) (_outgoing d app))).
Definition stage_branch (d : Db) (app_id branch : string) (principal : Principal)
    (note vote_id : option string) (fresh : Fresh) : fres (Db * StagedFire) :=
  t ← branch_transition d app_id branch;
  match t with
  | None => Err NotFoundError
  | Some t =>
      let note := match note with Some n => if decide (n = "") then branch else n | None => branch end in
      stage_fire d app_id (tr_id t) (system_args principal (Some note) vote_id) fresh
  end.

(** ** Forced status and revert *)
(** What both write after their checks. *)
Definition write_direct (conflict : FlowError) (d : Db) (m : Move) (actor : string) (note : string)
    (fresh : Fresh) : fres (Db * list string) :=
  match move_application m d with
  | None => Err conflict
  | Some d =>
      let app_id := ap_id (mv_app m) in
      let d := add_event (MkStatusEvent (fr_event_id fresh) app_id (Some (mv_from m)) (mv_to m) None
                            (Some actor) (Some note) None) d in
      Ok (cancel_for_application d app_id (fr_now fresh) (Some actor) (Some (mv_from m)) (Some (mv_to m)))
  end.
Definition direct_audit (m : Move) (actor event_id : string) (extra : list (string * pyval)) : AuditEntry :=
  MkAudit (Some actor) "status_change" "application" (ap_id (mv_app m))
    ([("fromStateId", PStr (mv_from m)); ("toStateId", PStr (mv_to m)); ("transitionId", PNone);
      ("statusEventId", PStr event_id); ("manual", PBool true); ("hasNote", PBool true)] ++ extra).

Definition plan_force (d : Db) (app_id target_state_id : string) (allow_unconfirmed : bool) : fres Move :=
  app ← _load_app d app_id allow_unconfirmed;
  match ap_current_state_id app with
  | None => Err (ConflictError "no_current_state")
  | Some from_state =>
      match state_of d target_state_id with
      | None => Err NotFoundError
      | Some target =>
          _ ← raise_if (negb (bool_decide (st_flow_version_id target = ap_flow_version_id app))) NotFoundError;
          _ ← raise_if (bool_decide (target_state_id = from_state)) (ConflictError "already_in_state");
          gremium ← _entry_snapshot d app (Some from_state) (Some target);
          Ok (MkMove app from_state target_state_id (Some target) gremium)
      end
  end.
Definition write_force (d : Db) (m : Move) (principal : Principal) (note : string) (fresh : Fresh)
    : fres (Db * list string) :=
  '(d, ids) ← write_direct (ConflictError "concurrent_state_change") d m (sub principal) note fresh;
  Ok (audit_record (direct_audit m (sub principal) (fr_event_id fresh) [("forced", PBool true)]) d, ids).
Definition force_status (d : Db) (app_id target_state_id : string) (principal : Principal) (note : string)
    (allow_unconfirmed : bool) (fresh : Fresh) : fres (Db * list string) :=
  m ← plan_force d app_id target_state_id allow_unconfirmed; write_force d m principal note fresh.

Definition STALE_REVERT : FlowError := ConflictError "stale_revert".
Definition plan_revert (d : Db) (app_id from_state to_state : string) : fres Move :=
  app ← _load_app d app_id true;
  _ ← raise_if (negb (bool_decide (ap_current_state_id app = Some to_state))) STALE_REVERT;
  let restored := state_of d from_state in
  gremium ← _entry_snapshot d app (Some to_state) restored;
  Ok (MkMove app to_state from_state restored gremium).
(** The decision that the undone change wrote gives way, or a redo swaps it back. *)
Definition swap_decisions (app : Application) (redo : option DecisionSwap) (undone_event : option string)
    (actor : string) (now : Z) (d : Db) : Db * option DecisionSwap :=
  match redo with
  | Some swap => redo_decision_swap (ap_id app) (ap_amount app) swap (Some actor) now d
  | None => revert_decision_for_event (ap_id app) (ap_amount app) undone_event (Some actor) now d
  end.
Definition swap_data (swap : option DecisionSwap) : list (string * pyval) :=
  match swap with
  | Some s => [("decisionUndoneId", str_or_none (undone_id s));
               ("decisionRestoredId", str_or_none (restored_id s))]
  | None => []
  end.
Definition write_revert (d : Db) (m : Move) (actor : string) (reverted_audit_id : Z)
    (undone_event : option string) (redo : option DecisionSwap) (note : string) (fresh : Fresh)
    : fres (Db * list string) :=
  '(d, ids) ← write_direct STALE_REVERT d m actor note fresh;
  let '(d, swap) := swap_decisions (mv_app m) redo undone_event actor (fr_now fresh) d in
  Ok (audit_record (direct_audit m actor (fr_event_id fresh)
                      ([("reverted", PBool true); ("revertedAuditId", PInt reverted_audit_id)] ++
                       swap_data swap)) d, ids).
Definition revert_status (d : Db) (app_id from_state to_state actor : string) (reverted_audit_id : Z)
    (undone_event : option string) (redo : option DecisionSwap) (note : string) (fresh : Fresh)
    : fres (Db * list string) :=
  m ← plan_revert d app_id from_state to_state;
  write_revert d m actor reverted_audit_id undone_event redo note fresh.
End Engine.
