(* ===== verification/FlowEngineFacts.v ===== *)
(** What the flow engine promises: the status history of an application is a path that ends
    in its current state under every interleaving, of two changes from one state at most one
    commits, the list of the transitions agrees with what the engine fires, an application in
    a vote state of its cost center has its Gremium, and a manual exit leaves no open vote. *)

From stdpp Require Import gmap strings.
From S2P Require Import Prelude PyStr PyNum PyValue FormFields VoteConfigs Guards BudgetRules Election FlowDb.
From S2P Require Import Decision FlowEngine.

(** ** What the parts of a transaction keep *)
(** A row without its approved amount. *)
Definition core (a : Application) : Application := set_approved None a.
Record keeps (d d' : Db) : Prop := {
  keeps_conf : conf d' = conf d;
  keeps_events : status_events d' = status_events d;
  keeps_apps : ∀ id, core <$> applications d' !! id = core <$> applications d !! id
}.
#[export] Instance keeps_preorder : PreOrder keeps.
Proof.
  split; [done|]. intros a b c [C1 E1 A1] [C2 E2 A2].
  split; [congruence|congruence|]. intros id. by rewrite A2, A1.
Qed.

Lemma keeps_same d d' :
  conf d' = conf d → status_events d' = status_events d → applications d' = applications d → keeps d d'.
Proof. intros C E A. split; [done|done|]. intros id. by rewrite A. Qed.
#[export] Hint Extern 1 (keeps _ _) => apply keeps_same; reflexivity : core.

Lemma keeps_trans a b c : keeps a b → keeps b c → keeps a c.
Proof. apply transitivity. Qed.

Lemma keeps_approved id x d : keeps d (update_application id (set_approved x) d).
Proof.
  split; [done|done|]. intros i. cbn [applications update_application].
  destruct (decide (i = id)) as [->|]; [|by rewrite lookup_alter_ne].
  rewrite lookup_alter_eq. by destruct (applications d !! id).
Qed.
Lemma keeps_audit e d : keeps d (audit_record e d).
Proof. auto. Qed.
Lemma keeps_record_decision app dec actor by_ old v ev now id d :
  keeps d (record_decision app dec actor by_ old v ev now id d).
Proof.
  unfold record_decision. eapply keeps_trans; [|apply keeps_audit].
  eapply keeps_trans; [|apply keeps_approved]. auto.
Qed.
Lemma keeps_write_decision old app a fresh d : keeps d (write_decision old app a fresh d).
Proof. unfold write_decision. destruct (fa_decision a); [apply keeps_record_decision|auto]. Qed.
Lemma keeps_foldl {A} (f : Db → A → Db) l d : (∀ d x, keeps d (f d x)) → keeps d (foldl f d l).
Proof. intros Hf. revert d. induction l as [|x l IH]; intros d; cbn; [reflexivity|].
  eapply keeps_trans; [apply Hf|apply IH].
Qed.
Lemma keeps_cancel d app now actor l e : keeps d (cancel_for_application d app now actor l e).1.
Proof.
  unfold cancel_for_application. cbn [fst]. apply keeps_foldl. intros d' x.
  destruct (votes d' !! x); auto.
Qed.
Lemma keeps_cancelled d app now actor l e d' ids :
  cancel_for_application d app now actor l e = (d', ids) → keeps d d'.
Proof. intros H. pose proof (keeps_cancel d app now actor l e) as Hk. by rewrite H in Hk. Qed.
Lemma keeps_add_in_tx m app np actor item now d d' b :
  add_in_tx m app np actor item now d = Ok (d', b) → keeps d d' ∧ votes d' = votes d.
Proof.
  unfold add_in_tx. destruct (meeting_of d m); [|done]. intros (_ & _ & H)%bind_ok.
  destruct (applications d !! app); [|done]. apply bind_ok in H as (_ & _ & H).
  destruct (existsb _ _); simplify_eq; by split; [auto|].
Qed.
Lemma keeps_agenda app a fresh d d' :
  _add_to_agenda_in_tx app a fresh d = Ok d' → keeps d d' ∧ votes d' = votes d.
Proof.
  unfold _add_to_agenda_in_tx. destruct (fa_meeting_id a); [|intros [= ->]; by split; [auto|]].
  destruct (add_in_tx _ _ _ _ _ _ _) as [[d1 b]|] eqn:E; [|done]. intros [= ->].
  by eapply keeps_add_in_tx.
Qed.
Lemma keeps_swap id r u v actor ev t d : keeps d (_swap id r u v actor ev t d).1.
Proof.
  unfold _swap. cbn [fst]. eapply keeps_trans; [|apply keeps_audit].
  eapply keeps_trans; [|apply keeps_approved]. unfold update_opt, update_decision.
  destruct u, v; auto.
Qed.
Lemma keeps_swap_decisions app redo ev actor now d : keeps d (swap_decisions app redo ev actor now d).1.
Proof.
  unfold swap_decisions, redo_decision_swap, revert_decision_for_event.
  repeat case_match; cbn [fst]; auto;
  match goal with H : _swap ?a ?b ?c ?e ?f ?g ?h ?d = _ |- _ =>
    pose proof (keeps_swap a b c e f g h d) as Hk; rewrite H in Hk; exact Hk end.
Qed.

(** ** A state change *)
Record moved (m : Move) (d d' : Db) : Prop := {
  moved_row : ∃ row, applications d !! ap_id (mv_app m) = Some row ∧
    ap_current_state_id row = Some (mv_from m) ∧
    _budget_unchanged (mv_app m) (mv_target m) row = true ∧
    core <$> applications d' !! ap_id (mv_app m) = Some (core (set_state (mv_to m) (mv_gremium m) row));
  moved_other : ∀ id, id ≠ ap_id (mv_app m) → core <$> applications d' !! id = core <$> applications d !! id;
  moved_conf : conf d' = conf d;
  moved_event : ∃ e, status_events d' = status_events d ++ [e] ∧ ev_application_id e = ap_id (mv_app m) ∧
    ev_from_state_id e = Some (mv_from m) ∧ ev_to_state_id e = mv_to m
}.

Lemma move_then_keep m d d1 d' e :
  move_application m d = Some d1 → ev_application_id e = ap_id (mv_app m) →
  ev_from_state_id e = Some (mv_from m) → ev_to_state_id e = mv_to m →
  keeps (add_event e d1) d' → moved m d d'.
Proof.
  unfold move_application. intros Hm He1 He2 He3 [Kc Ke Ka].
  destruct (applications d !! ap_id (mv_app m)) as [row|] eqn:Hrow; [|done].
  destruct (bool_decide _ && _) eqn:Hok; [|done]. bool_prop. injection Hm as <-.
  split.
  - exists row. split; [done|]. split; [done|]. split; [done|].
    rewrite Ka. cbn [applications add_event update_application].
    by rewrite lookup_alter_eq, Hrow.
  - intros id Hid. rewrite Ka. cbn [applications add_event update_application].
    by rewrite lookup_alter_ne.
  - done.
  - exists e. by rewrite Ke.
Qed.

Section Facts.
Context (can_read_meeting : Db → string → Principal → bool).
Notation plan_fire := (plan_fire can_read_meeting).
Notation fire := (fire can_read_meeting).

Lemma write_fire_moved d p a fresh d' s :
  write_fire d p a fresh = Ok (d', s) → moved (pl_move p) d d'.
Proof.
  unfold write_fire. cbn zeta. destruct (move_application (pl_move p) d) as [d1|] eqn:Hm; [|done].
  intros H.
  set (e := MkStatusEvent _ _ _ _ _ _ _ _) in H.
  assert (Hc : ∃ d2 ids, (if bool_decide (tr_branch (pl_transition p) = None)
      then cancel_for_application (add_event e d1) (ap_id (mv_app (pl_move p))) (fr_now fresh)
             (Some (sub (fa_principal a))) (Some (mv_from (pl_move p))) (Some (mv_to (pl_move p)))
      else (add_event e d1, [])) = (d2, ids) ∧ keeps (add_event e d1) d2).
  { case_bool_decide; [|by do 2 eexists].
    destruct (cancel_for_application _ _ _ _ _ _) as [d2 ids] eqn:E. exists d2, ids.
    split; [done|by eapply keeps_cancelled]. }
  destruct Hc as (d2 & ids & Hc & Hk2). rewrite Hc in H.
  apply bind_ok in H as (d3 & Hag & [= -> _]).
  eapply (move_then_keep _ _ _ _ e Hm); [done|done|done|].
  eapply keeps_trans; [exact Hk2|]. eapply keeps_trans; [apply keeps_audit|].
  eapply keeps_trans; [apply keeps_write_decision|]. by eapply keeps_agenda.
Qed.

Lemma write_direct_moved conflict d m actor note fresh d' ids :
  write_direct conflict d m actor note fresh = Ok (d', ids) → moved m d d'.
Proof.
  unfold write_direct. destruct (move_application m d) as [d1|] eqn:Hm; [|done].
  set (e := MkStatusEvent _ _ _ _ _ _ _ _). intros H%Ok_inj.
  eapply (move_then_keep _ _ _ _ e Hm); [done|done|done|]. by eapply keeps_cancelled.
Qed.
Lemma moved_keeps m d d1 d' : moved m d d1 → keeps d1 d' → moved m d d'.
Proof.
  intros [R O C E] [Kc Ke Ka]. split.
  - by rewrite Ka.
  - intros id Hid. by rewrite Ka, O.
  - congruence.
  - by rewrite Ke.
Qed.
Lemma write_force_moved d m principal note fresh d' ids :
  write_force d m principal note fresh = Ok (d', ids) → moved m d d'.
Proof.
  unfold write_force. intros ([d1 ids1] & Hw & [= <- _])%bind_ok.
  eapply moved_keeps; [by eapply write_direct_moved|apply keeps_audit].
Qed.
Lemma write_revert_moved d m actor aid ev redo note fresh d' ids :
  write_revert d m actor aid ev redo note fresh = Ok (d', ids) → moved m d d'.
Proof.
  unfold write_revert. intros ([d1 ids1] & Hw & H)%bind_ok.
  destruct (swap_decisions (mv_app m) redo ev actor (fr_now fresh) d1) as [d2 sw] eqn:E.
  injection H as <- _. eapply moved_keeps; [by eapply write_direct_moved|].
  eapply keeps_trans; [|apply keeps_audit].
  replace d2 with (swap_decisions (mv_app m) redo ev actor (fr_now fresh) d1).1 by (by rewrite E).
  apply keeps_swap_decisions.
Qed.

(** ** The status history *)
Definition events_of (d : Db) (id : string) : list StatusEvent :=
  filter (λ e, ev_application_id e = id) (status_events d).
(** The events lead from one state to another, each from where the one before it ended. *)
Fixpoint leads (from : option string) (events : list StatusEvent) (to : option string) : Prop :=
  match events with
  | [] => from = to
  | e :: r => ev_from_state_id e = from ∧ leads (Some (ev_to_state_id e)) r to
  end.
Lemma leads_app from l e to :
  leads from l (ev_from_state_id e) → ev_to_state_id e = to → leads from (l ++ [e]) (Some to).
Proof.
  revert from. induction l as [|x l IH]; cbn; intros from H He; [by subst|].
  destruct H as [Hx H]. split; [done|]. by apply IH.
Qed.
Definition history_ok (d : Db) : Prop :=
  ∀ id app, applications d !! id = Some app → leads None (events_of d id) (ap_current_state_id app).

(** A committed status change, checked on any database [d0] that another transaction may have
    left behind since.  The flag tells that the change cancels votes: no branch fired. *)
Inductive status_change : bool → Db → Db → Db → Move → Prop :=
| change_fire d0 d app_id transition_id p a fresh d' s :
    plan_fire d0 app_id transition_id a = Ok p → write_fire d p a fresh = Ok (d', s) →
    status_change (bool_decide (tr_branch (pl_transition p) = None)) d0 d d' (pl_move p)
| change_force d0 d app_id target allow m principal note fresh d' ids :
    plan_force d0 app_id target allow = Ok m → write_force d m principal note fresh = Ok (d', ids) →
    status_change true d0 d d' m
| change_revert d0 d app_id from to m actor aid ev redo note fresh d' ids :
    plan_revert d0 app_id from to = Ok m →
    write_revert d m actor aid ev redo note fresh = Ok (d', ids) →
    status_change true d0 d d' m.
Lemma status_change_moved b d0 d d' m : status_change b d0 d d' m → moved m d d'.
Proof. intros []; eauto using write_fire_moved, write_force_moved, write_revert_moved. Qed.

(** One committed transaction. *)
Inductive step : Db → Db → Prop :=
| step_create d id app e s :
    applications d !! id = None → events_of d id = [] → ap_current_state_id app = Some s →
    ev_application_id e = id → ev_from_state_id e = None → ev_to_state_id e = s →
    step d (add_event e (MkDb (conf d) (<[id := app]> (applications d)) (votes d) (status_events d)
                           (decisions d) (agenda_items d) (audit d)))
| step_change b d0 d d' m : status_change b d0 d d' m → step d d'
| step_other d d' :
    (** Any write that leaves the state and the events of the remaining applications alone. *)
    (∀ id app', applications d' !! id = Some app' → ∃ app, applications d !! id = Some app ∧
       ap_current_state_id app' = ap_current_state_id app ∧ events_of d' id = events_of d id) →
    step d d'.

Lemma core_some o a : core <$> o = Some (core a) → ∃ b, o = Some b ∧ core b = core a.
Proof. destruct o as [b|]; [|done]. intros H%(inj Some). by exists b. Qed.
Lemma core_state a b : core a = core b → ap_current_state_id a = ap_current_state_id b.
Proof. intros H. exact (f_equal ap_current_state_id H). Qed.
Lemma core_gremium a b : core a = core b → ap_vote_gremium_id a = ap_vote_gremium_id b.
Proof. intros H. exact (f_equal ap_vote_gremium_id H). Qed.
Lemma core_budget a b : core a = core b → ap_budget_id a = ap_budget_id b.
Proof. intros H. exact (f_equal ap_budget_id H). Qed.

Lemma events_of_app d d' e id :
  status_events d' = status_events d ++ [e] →
  events_of d' id = events_of d id ++ (if decide (ev_application_id e = id) then [e] else []).
Proof. unfold events_of. intros ->. rewrite filter_app. cbn. by destruct (decide _). Qed.

Lemma moved_history m d d' : moved m d d' → history_ok d → history_ok d'.
Proof.
  intros [(row & Hrow & Hcur & _ & Hnew) Ho _ (e & He & Hid' & Hfrom & Hto)] Hd id app Happ.
  rewrite (events_of_app _ _ _ id He). destruct (decide _) as [Hid|Hid].
  - assert (id = ap_id (mv_app m)) as -> by congruence.
    rewrite Happ in Hnew. apply (inj Some) in Hnew. apply core_state in Hnew. rewrite Hnew.
    apply leads_app; [|done]. rewrite Hfrom, <- Hcur. by apply Hd.
  - rewrite app_nil_r. assert (Hne : id ≠ ap_id (mv_app m)) by congruence.
    specialize (Ho id Hne). rewrite Happ in Ho. symmetry in Ho.
    apply (core_some _ app) in Ho as (b & Hb & Hc). rewrite <- (core_state _ _ Hc). by apply Hd.
Qed.

Lemma step_history d d' : step d d' → history_ok d → history_ok d'.
Proof.
  intros [d1 id app e s Hn Hev Hcur He1 He2 He3|b d0 d1 d2 m H|d1 d2 H] Hd.
  - intros i a Ha. set (d3 := add_event _ _). rewrite (events_of_app d1 d3 e i) by done.
    cbn [applications add_event] in Ha. destruct (decide _) as [Hi|Hi].
    + assert (i = id) as -> by congruence. rewrite lookup_insert_eq in Ha. injection Ha as <-.
      rewrite Hev. cbn. by rewrite He2, He3, Hcur.
    + rewrite lookup_insert_ne in Ha by congruence. rewrite app_nil_r. by apply Hd.
  - eapply moved_history; [by eapply status_change_moved|done].
  - intros id app' Ha. destruct (H id app' Ha) as (app & Happ & -> & ->). by apply Hd.
Qed.


(** ** The optimistic lock *)
Lemma moved_blocks m m' d d' :
  moved m d d' → ap_id (mv_app m') = ap_id (mv_app m) → mv_from m' ≠ mv_to m →
  move_application m' d' = None.
Proof.
  intros [(row & _ & _ & _ & Hnew) _ _ _] Hid Hne. unfold move_application. rewrite Hid.
  apply core_some in Hnew as (b & -> & Hc). apply core_state in Hc. rewrite Hc. cbn.
  rewrite bool_decide_false by congruence. done.
Qed.

(** Of two status changes of an application that were checked in the same state, at most
    one commits: after the first commit into another state, the second fire, force or revert
    gives 409, also when its checks ran before that commit. *)
Lemma optimistic_lock b d0 d d' m :
  status_change b d0 d d' m → mv_to m ≠ mv_from m →
  (∀ p a fresh, ap_id (mv_app (pl_move p)) = ap_id (mv_app m) → mv_from (pl_move p) = mv_from m →
     write_fire d' p a fresh = Err (ConflictError "concurrent_state_change")) ∧
  (∀ m' principal note fresh, ap_id (mv_app m') = ap_id (mv_app m) → mv_from m' = mv_from m →
     write_force d' m' principal note fresh = Err (ConflictError "concurrent_state_change")) ∧
  (∀ m' actor aid ev redo note fresh, ap_id (mv_app m') = ap_id (mv_app m) → mv_from m' = mv_from m →
     write_revert d' m' actor aid ev redo note fresh = Err STALE_REVERT).
Proof.
  intros H%status_change_moved Hne. split; [|split].
  - intros p a fresh Hid Hf. unfold write_fire. cbn zeta.
    rewrite (moved_blocks _ (pl_move p) _ _ H Hid); [done|congruence].
  - intros m' principal note fresh Hid Hf. unfold write_force, write_direct.
    by rewrite (moved_blocks _ m' _ _ H Hid) by congruence.
  - intros m' actor aid ev redo note fresh Hid Hf. unfold write_revert, write_direct.
    by rewrite (moved_blocks _ m' _ _ H Hid) by congruence.
Qed.

(** ** The Gremium of the vote *)
(** What the checks of a status change fix. *)
Record planned (d0 : Db) (m : Move) : Prop := {
  planned_target : mv_target m = state_of d0 (mv_to m);
  planned_gremium : _entry_snapshot d0 (mv_app m) (Some (mv_from m)) (mv_target m) = Ok (mv_gremium m)
}.
Lemma plan_fire_planned d0 app_id t a p : plan_fire d0 app_id t a = Ok p → planned d0 (pl_move p).
Proof.
  unfold FlowEngine.plan_fire. intros H.
  apply bind_ok in H as (app & _ & H). apply bind_ok in H as (tr & _ & H).
  do 4 (apply bind_ok in H as (? & _ & H)). apply bind_ok in H as (app' & _ & H).
  apply bind_ok in H as (ctx & _ & H). apply bind_ok in H as (g & _ & H). apply bind_ok in H as (? & _ & H).
  apply bind_ok in H as (gr & Hg & H). apply bind_ok in H as (? & _ & [= <-]). by split.
Qed.
Lemma plan_force_planned d0 app_id t allow m : plan_force d0 app_id t allow = Ok m → planned d0 m.
Proof.
  unfold plan_force. intros (app & _ & H)%bind_ok. destruct (ap_current_state_id app) as [f|]; [|done].
  destruct (state_of d0 t) as [st|] eqn:Hs; [|done].
  apply bind_ok in H as (? & _ & H). apply bind_ok in H as (? & _ & H).
  apply bind_ok in H as (g & Hg & [= <-]). by split.
Qed.
Lemma plan_revert_planned d0 app_id f t m : plan_revert d0 app_id f t = Ok m → planned d0 m.
Proof.
  unfold plan_revert. intros (app & _ & H)%bind_ok. apply bind_ok in H as (? & _ & H).
  apply bind_ok in H as (g & Hg & [= <-]). by split.
Qed.
Lemma status_change_planned b d0 d d' m : status_change b d0 d d' m → planned d0 m.
Proof. intros []; eauto using plan_fire_planned, plan_force_planned, plan_revert_planned. Qed.

Lemma resolve_not_budget d s b b' :
  gremium_from_budget s = false → resolve_vote_gremium d s b = resolve_vote_gremium d s b'.
Proof. unfold resolve_vote_gremium. intros ->. done. Qed.
Lemma snapshot_ok d s b g :
  snapshot_for_entry d s b = Ok g → g = resolve_vote_gremium d s b ∧ (gremium_from_budget s = true → is_Some g).
Proof.
  unfold snapshot_for_entry. intros H. destruct (negb _ && _) eqn:E; [done|]. injection H as <-.
  split; [done|]. intros Hb. rewrite Hb, andb_true_r in E. by bool_prop.
Qed.

(** An application that changes its state has exactly the Gremium that decides its new
    state for the cost center it has at the commit: none outside a vote state, the fixed one
    of a vote state or the one of the cost center; and it never enters a vote state of the
    cost center without one, although the cost center may change while the change is checked. *)
Lemma vote_gremium_snapshot b d0 d d' m :
  status_change b d0 d d' m → mv_to m ≠ mv_from m →
  ∃ app, applications d' !! ap_id (mv_app m) = Some app ∧ ap_current_state_id app = Some (mv_to m) ∧
    ap_vote_gremium_id app = resolve_vote_gremium d0 (state_of d0 (mv_to m)) (ap_budget_id app) ∧
    (gremium_from_budget (state_of d0 (mv_to m)) = true → is_Some (ap_vote_gremium_id app)).
Proof.
  intros H Hne. destruct (status_change_planned _ _ _ _ _ H) as [Ht Hg].
  destruct (status_change_moved _ _ _ _ _ H) as [(row & Hrow & _ & Hb & Hnew) _ _ _].
  apply core_some in Hnew as (app & Happ & Hc). exists app. split; [done|].
  rewrite (core_state _ _ Hc), (core_gremium _ _ Hc), (core_budget _ _ Hc). cbn. split; [done|].
  assert (Hs : snapshot_for_entry d0 (mv_target m) (ap_budget_id (mv_app m)) = Ok (mv_gremium m)).
  { unfold _entry_snapshot in Hg. destruct (mv_target m) as [st|] eqn:E; [|done].
    rewrite bool_decide_false, andb_false_r in Hg; [done|]. intros [= He]. symmetry in Ht.
    apply find_by_id in Ht. congruence. }
  apply snapshot_ok in Hs as [-> Hsome]. rewrite Ht in *. split; [|done].
  unfold _budget_unchanged in Hb. destruct (gremium_from_budget _) eqn:E.
  - cbn in Hb. bool_prop. by rewrite Hb.
  - by apply resolve_not_budget.
Qed.

(** ** The votes of an application that leaves its state *)
(** A vote without its end time and the link to its runoff: the columns that decide whether a
    state change orphans it, and what the counting reads. *)
Definition view : Type := option string * VoteStatus * option string *
  (VoteKind * option string * option ElectionLotOut * string * (option string * VoteBody)).
(** The lot of a closed election. *)
Definition lot_of (r : VoteRow) : option ElectionLotOut :=
  match v_election_result r with Some e => er_lot e | None => None end.
Definition vview (v : Vote) : view :=
  (vo_application_id v, vote_status v, vo_opens_state_id v, (v_kind (vo_row v), v_result (vo_row v), lot_of (vo_row v), vo_eligible_group v,
    (vo_meeting_id v, vo_body v))).

Lemma release_row_status db id row i r :
  votes_table (release_runoff_link db id row) !! i = Some r →
  ∃ r0, votes_table db !! i = Some r0 ∧ v_status r = v_status r0 ∧ v_kind r = v_kind r0 ∧
    v_result r = v_result r0 ∧ lot_of r = lot_of r0.
Proof.
  unfold release_runoff_link. repeat case_match; eauto 6. cbn.
  intros [[<- <-]|[_ Hr]]%lookup_insert_Some; eauto 6. eexists. split; [done|]. unfold lot_of. cbn.
  repeat split. by match goal with H : v_election_result _ = Some _ |- _ => rewrite H end.
Qed.
Lemma release_link_view id row m i : vview <$> release_link id row m !! i = vview <$> m !! i.
Proof.
  unfold release_link. rewrite map_lookup_imap. destruct (m !! i) as [v|] eqn:Ei; [|done]. cbn.
  f_equal. destruct (votes_table _ !! i) as [r|] eqn:Er; [|done].
  apply release_row_status in Er as (r0 & Hr0 & Hs & Hk & Hre & Hlo). cbn in Hr0. rewrite lookup_fmap, Ei in Hr0.
  injection Hr0 as <-. unfold vview, vote_status. cbn. by rewrite Hs, Hk, Hre, Hlo.
Qed.
Definition cancel_view (v : view) : view := (v.1.1.1, cancelled, v.1.2, v.2).
Lemma mark_cancelled_view d id v now actor reason i :
  vview <$> votes (_mark_cancelled d id v now actor reason) !! i =
    if decide (i = id) then Some (cancel_view (vview v)) else vview <$> votes d !! i.
Proof.
  unfold _mark_cancelled. cbn [votes audit_record with_votes]. rewrite release_link_view.
  case_decide as Hi; [by rewrite Hi, lookup_insert_eq|by rewrite lookup_insert_ne by congruence].
Qed.
Lemma cancel_all_view now actor reason ids d i :
  vview <$> votes (foldl (λ d id, match votes d !! id with
                                  | Some v => _mark_cancelled d id v now actor reason
                                  | None => d
                                  end) d ids) !! i =
    if decide (i ∈ ids) then cancel_view <$> (vview <$> votes d !! i) else vview <$> votes d !! i.
Proof.
  revert d. induction ids as [|id ids IH]; intros d; cbn [foldl].
  - rewrite decide_False; [done|apply not_elem_of_nil].
  - rewrite IH. destruct (votes d !! id) as [v|] eqn:E.
    + rewrite mark_cancelled_view. destruct (decide (i = id)) as [->|Hi].
      * rewrite E, (decide_True (P := id ∈ id :: ids)) by left. by destruct (decide _).
      * destruct (decide (i ∈ ids)) as [Hin|Hin].
        -- rewrite decide_True by (by right). done.
        -- rewrite decide_False; [done|]. rewrite elem_of_cons. tauto.
    + destruct (decide (i = id)) as [->|Hi].
      * rewrite E. by repeat destruct (decide _).
      * destruct (decide (i ∈ ids)) as [Hin|Hin].
        -- by rewrite decide_True by (by right).
        -- rewrite decide_False; [done|]. rewrite elem_of_cons. tauto.
Qed.

(** The votes that a change from [from] to [to] cancels. *)
Definition left_of (from to : string) : option string := if decide (from = to) then None else Some from.
Definition orphan (d : Db) (app_id from to : string) (v : Vote) : Prop :=
  running app_id v = true ∧
  (vote_status v = open ∨
   vote_status v = draft ∧ from ≠ to ∧
     (vo_opens_state_id v = Some from ∨ vo_opens_state_id v = None ∧ _is_vote_state d from = true)).

Lemma elem_of_votes_of d app_id id v :
  (id, v) ∈ votes_of d app_id ↔ votes d !! id = Some v ∧ running app_id v = true.
Proof.
  unfold votes_of. rewrite elem_of_sort_by, list_elem_of_filter, elem_of_map_to_list. cbn. tauto.
Qed.

Lemma running_status app_id v : running app_id v = true → vote_status v = open ∨ vote_status v = draft.
Proof. unfold running. intros H. bool_prop. set_solver. Qed.

Lemma orphaned_spec from to v left_is_vote :
  vote_status v = open ∨ vote_status v = draft →
  _orphaned v (if decide (Some from = Some to) then None else Some from) left_is_vote = true ↔
  vote_status v = open ∨
  vote_status v = draft ∧ from ≠ to ∧
    (vo_opens_state_id v = Some from ∨ vo_opens_state_id v = None ∧ left_is_vote = true).
Proof.
  unfold _orphaned, _draft_orphaned. intros [E|E]; rewrite E.
  - rewrite bool_decide_false by done. cbn. tauto.
  - rewrite bool_decide_true by done. cbn [negb orb].
    destruct (decide (Some from = Some to)) as [[= ->]|Hne]; [naive_solver|].
    assert (from ≠ to) by congruence.
    destruct (vo_opens_state_id v) as [o|]; rewrite ?bool_decide_eq_true; naive_solver.
Qed.

Lemma cancelled_ids d app_id now actor from to d' ids id :
  cancel_for_application d app_id now actor (Some from) (Some to) = (d', ids) →
  id ∈ ids ↔ ∃ v, votes d !! id = Some v ∧ orphan d app_id from to v.
Proof.
  unfold cancel_for_application. intros [= _ <-]. rewrite list_elem_of_fmap.
  set (lv := match (if decide _ then None else _) with Some s => _ | None => false end).
  setoid_rewrite list_elem_of_filter. unfold orphan.
  assert (Hlv : ∀ v, votes d !! id = Some v → running app_id v = true → vote_status v = draft →
    vo_opens_state_id v = None → from ≠ to → lv = _is_vote_state d from).
  { intros v Hv Hr Hd Ho Hne. unfold lv. rewrite decide_False by congruence.
    replace (existsb _ _) with true; [done|]. symmetry. apply existsb_exists. exists (id, v).
    cbn [fst snd]. rewrite Hd, Ho. split; [|by rewrite !bool_decide_true].
    apply list_elem_of_In. by apply elem_of_votes_of. }
  split.
  - intros ([i v] & -> & Ho & Hin). cbn [fst snd] in *. apply elem_of_votes_of in Hin as [Hv Hr].
    exists v. split; [done|]. split; [done|]. apply orphaned_spec in Ho; [|by eapply running_status].
    destruct Ho as [|(Hd & Hne & [|[Hn Hl]])]; [tauto|tauto|].
    right. split; [done|]. split; [done|]. right. split; [done|].
    by rewrite <- (Hlv v Hv Hr Hd Hn Hne).
  - intros (v & Hv & Hr & Ho). exists (id, v). cbn [fst snd]. split; [done|].
    split; [|by apply elem_of_votes_of]. apply orphaned_spec; [by eapply running_status|].
    destruct Ho as [|(Hd & Hne & [|[Hn Hl]])]; [tauto|tauto|].
    right. split; [done|]. split; [done|]. right. split; [done|].
    by rewrite (Hlv v Hv Hr Hd Hn Hne).
Qed.

Lemma cancelled_view d app_id now actor from to d' ids id :
  cancel_for_application d app_id now actor (Some from) (Some to) = (d', ids) →
  vview <$> votes d' !! id =
    if decide (id ∈ ids) then cancel_view <$> (vview <$> votes d !! id) else vview <$> votes d !! id.
Proof. unfold cancel_for_application. intros [= <- <-]. apply cancel_all_view. Qed.

Lemma move_votes m d d1 : move_application m d = Some d1 → votes d1 = votes d ∧ conf d1 = conf d.
Proof.
  unfold move_application. destruct (applications d !! _); [|done]. by destruct (_ && _); intros [= <-].
Qed.
Lemma orphan_conf d d1 app_id from to v :
  conf d1 = conf d → orphan d1 app_id from to v ↔ orphan d app_id from to v.
Proof. unfold orphan, _is_vote_state, state_of. by intros ->. Qed.

(** The votes that a committed change cancels, seen from the database before it. *)
Definition cancels (b : bool) (d : Db) (m : Move) (ids : list string) : Prop :=
  ∀ id, id ∈ ids ↔ b = true ∧ ∃ v, votes d !! id = Some v ∧
    orphan d (ap_id (mv_app m)) (mv_from m) (mv_to m) v.
Definition cancelled_in (d d' : Db) (ids : list string) : Prop :=
  ∀ id, vview <$> votes d' !! id =
    if decide (id ∈ ids) then cancel_view <$> (vview <$> votes d !! id) else vview <$> votes d !! id.

Lemma cancel_after_move m d d1 e now actor d2 ids :
  move_application m d = Some d1 →
  cancel_for_application (add_event e d1) (ap_id (mv_app m)) now actor (Some (mv_from m)) (Some (mv_to m)) =
    (d2, ids) →
  cancels true d m ids ∧ cancelled_in d d2 ids.
Proof.
  intros [Hv Hc]%move_votes E. split; intros id.
  - rewrite (cancelled_ids _ _ _ _ _ _ _ _ id E). cbn [votes add_event]. rewrite Hv.
    setoid_rewrite (orphan_conf d (add_event e d1)); [|done]. tauto.
  - rewrite (cancelled_view _ _ _ _ _ _ _ _ id E). cbn [votes add_event]. by rewrite Hv.
Qed.

Lemma votes_swap_decisions app redo ev actor now d :
  votes (swap_decisions app redo ev actor now d).1 = votes d.
Proof.
  unfold swap_decisions, redo_decision_swap, revert_decision_for_event, _swap, update_opt.
  repeat case_match; simplify_eq; cbn; repeat case_match; done.
Qed.
Lemma votes_write_decision old app a fresh d : votes (write_decision old app a fresh d) = votes d.
Proof. unfold write_decision. by destruct (fa_decision a). Qed.

Lemma status_change_votes b d0 d d' m :
  status_change b d0 d d' m → ∃ ids, cancels b d m ids ∧ cancelled_in d d' ids.
Proof.
  intros [u0 u ? ? p a fresh u1 s _ H|u0 u ? ? ? m0 pr note fresh u1 ids _ H
         |u0 u ? ? ? m0 actor aid ev redo note fresh u1 ids _ H].
  - unfold write_fire in H. cbn zeta in H. destruct (move_application _ _) as [d2|] eqn:Hm; [|done].
    case_bool_decide.
    + destruct (cancel_for_application _ _ _ _ _ _) as [d3 ids] eqn:E.
      destruct (cancel_after_move _ _ _ _ _ _ _ _ Hm E) as [Hc Hv].
      apply bind_ok in H as (d4 & [_ Hag]%keeps_agenda & [= <- _]). exists ids. split; [done|].
      intros id. rewrite Hag, votes_write_decision. apply Hv.
    + apply bind_ok in H as (d4 & [_ Hag]%keeps_agenda & [= <- _]). exists []. split; intros id.
      * split; [by intros ?%not_elem_of_nil|by intros [? _]].
      * rewrite Hag, votes_write_decision. cbn [votes audit_record add_event].
        apply move_votes in Hm as [-> _]. rewrite decide_False; [done|apply not_elem_of_nil].
  - unfold write_force, write_direct in H. apply bind_ok in H as ([d2 ids2] & H & [= <- _]).
    destruct (move_application _ _) as [d3|] eqn:Hm; [|done]. apply Ok_inj in H.
    destruct (cancel_after_move _ _ _ _ _ _ _ _ Hm H) as [Hc Hv]. by exists ids2.
  - unfold write_revert, write_direct in H. apply bind_ok in H as ([d2 ids2] & H & Hs).
    destruct (move_application _ _) as [d3|] eqn:Hm; [|done]. apply Ok_inj in H.
    destruct (cancel_after_move _ _ _ _ _ _ _ _ Hm H) as [Hc Hv]. exists ids2. split; [done|].
    pose proof (votes_swap_decisions (mv_app m0) redo ev actor (fr_now fresh) d2) as Hsw.
    destruct (swap_decisions _ _ _ _ _ _) as [d4 sw]. injection Hs as <- _.
    intros id. cbn [votes audit_record fst] in *. rewrite Hsw. apply Hv.
Qed.

(** A transition without a branch, a forced status and a revert leave no open vote of the
    application and no draft of the state that it left, and they cancel no other vote; the
    branch that a vote fires cancels nothing. *)
Lemma left_votes_cancelled b d0 d d' m :
  status_change b d0 d d' m →
  (b = true → ∀ id v, votes d' !! id = Some v → vo_application_id v = Some (ap_id (mv_app m)) →
     vote_status v ≠ open ∧
     (vote_status v = draft → mv_from m ≠ mv_to m → vo_opens_state_id v ≠ Some (mv_from m))) ∧
  (∀ id, vview <$> votes d' !! id ≠ vview <$> votes d !! id →
     b = true ∧ ∃ v v', votes d !! id = Some v ∧ votes d' !! id = Some v' ∧
       orphan d (ap_id (mv_app m)) (mv_from m) (mv_to m) v ∧ vote_status v' = cancelled).
Proof.
  intros (ids & Hids & Hv)%status_change_votes. split.
  - intros Hb id v Hl Happ. specialize (Hv id). rewrite Hl in Hv. cbn in Hv.
    destruct (decide (id ∈ ids)) as [Hin|Hin].
    + destruct (votes d !! id) as [w|]; [|done]. injection Hv as _ Hs _ _ _ _ _ _. rewrite Hs. done.
    + destruct (votes d !! id) as [w|] eqn:Ew; [|done]. injection Hv as Ha Hs Ho _ _ _ _ _.
      assert (Hno : ¬ orphan d (ap_id (mv_app m)) (mv_from m) (mv_to m) w).
      { intros Hor. apply Hin, Hids. eauto. }
      rewrite Hs, Ho. unfold orphan, running in Hno. rewrite <- Ha, Happ, bool_decide_true in Hno by done.
      split.
      * intros E. apply Hno. rewrite E, bool_decide_true by set_solver. tauto.
      * intros E Hne Hop. apply Hno. rewrite E, bool_decide_true by set_solver. tauto.
  - intros id Hne. specialize (Hv id). destruct (decide (id ∈ ids)) as [Hin|Hin]; [|by rewrite Hv in Hne].
    destruct (proj1 (Hids id) Hin) as (Hb & v & Hd & Hor). split; [done|].
    rewrite Hd in Hv. destruct (votes d' !! id) as [v'|]; [|done]. injection Hv as _ Hs _ _ _ _ _ _.
    exists v, v'. done.
Qed.

(** ** The list of the transitions and the fire *)
(** What the save of a flow ensures, and that a row stands under its own id. *)
Record tables_ok (d : Db) : Prop := {
  transition_ids : NoDup (tr_id <$> transitions (conf d));
  no_self_loop : ∀ t, t ∈ transitions (conf d) → tr_from_state_id t ≠ tr_to_state_id t;
  branch_names : ∀ t, t ∈ transitions (conf d) → tr_branch t ≠ Some "";
  application_ids : ∀ id app, applications d !! id = Some app → ap_id app = id
}.
Definition manual_args (principal : Principal) (note : option string) (as_applicant allow : bool) : FireArgs :=
  MkFireArgs principal note true as_applicant None false allow None None.

Lemma load_transition_elem d t id : _load_transition d id = Ok t → t ∈ transitions (conf d) ∧ tr_id t = id.
Proof.
  unfold _load_transition. destruct (find_by _ _ _) eqn:E; [|done]. intros [= <-].
  split; [by eapply find_by_elem|by eapply find_by_id].
Qed.

Lemma entry_snapshot_enterable d app t :
  tr_from_state_id t ≠ tr_to_state_id t →
  (∃ g, _entry_snapshot d app (Some (tr_from_state_id t)) (state_of d (tr_to_state_id t)) = Ok g) ↔
  _enterable d (state_of d (tr_to_state_id t)) (ap_budget_id app) = true.
Proof.
  intros Hne. unfold _enterable.
  transitivity (∃ g, snapshot_for_entry d (state_of d (tr_to_state_id t)) (ap_budget_id app) = Ok g).
  - unfold _entry_snapshot. destruct (state_of d (tr_to_state_id t)) as [s|] eqn:E; [|done].
    rewrite bool_decide_false, andb_false_r; [done|]. intros [= He]. apply find_by_id in E. congruence.
  - unfold snapshot_for_entry. destruct (gremium_from_budget _); cbn; [|rewrite andb_false_r; naive_solver].
    rewrite andb_true_r. destruct (resolve_vote_gremium _ _ _) as [g|]; cbn; naive_solver.
Qed.

(** The fire of a user without a meeting and without a decision. *)
Definition firable (d : Db) (app : Application) (t : Transition) (ctx : GuardContext) : Prop :=
  tr_flow_version_id t = ap_flow_version_id app ∧ Some (tr_from_state_id t) = ap_current_state_id app ∧
  tr_branch t = None ∧ tr_automatic t = false ∧ guard_holds (tr_guard t) ctx = Ok true ∧
  _enterable d (state_of d (tr_to_state_id t)) (ap_budget_id app) = true.

Lemma write_fire_ok d app t g old a fresh :
  applications d !! ap_id app = Some app → Some (tr_from_state_id t) = ap_current_state_id app →
  fa_meeting_id a = None →
  ∃ r, write_fire d (MkFirePlan (MkMove app (tr_from_state_id t) (tr_to_state_id t)
                       (state_of d (tr_to_state_id t)) g) t old) a fresh = Ok r.
Proof.
  intros Happ Hcur Hm. unfold write_fire. cbn zeta. cbn [pl_move pl_transition mv_app mv_from mv_to mv_target].
  unfold move_application. cbn [mv_app mv_from mv_to mv_target mv_gremium]. rewrite Happ, <- Hcur.
  rewrite bool_decide_true by done. unfold _budget_unchanged.
  rewrite (bool_decide_true (ap_budget_id app = ap_budget_id app)) by done. rewrite orb_true_r. cbn [andb].
  destruct (if bool_decide _ then _ else _) as [d2 ids].
  unfold _add_to_agenda_in_tx. rewrite Hm. eexists. reflexivity.
Qed.

Lemma fire_manual_iff d app_id tid principal note as_app allow fresh app ctx :
  tables_ok d → _load_app d app_id allow = Ok app → build_context d app principal true as_app = Ok ctx →
  (∃ r, fire d app_id tid (manual_args principal note as_app allow) fresh = Ok r) ↔
  ∃ t, t ∈ transitions (conf d) ∧ tr_id t = tid ∧ firable d app t ctx.
Proof.
  intros [Hnd Hloop _ Hids] Happ Hctx. unfold FlowEngine.fire, stage_fire, FlowEngine.plan_fire, firable.
  cbn [fa_principal fa_note fa_manual fa_as_applicant fa_meeting_id fa_allow_unconfirmed fa_decision
       manual_args]. rewrite Happ. cbn [andb]. split.
  - intros (r & (p & H & _)%bind_ok). rewrite bind_Ok_l in H. apply bind_ok in H as (t & Ht & H).
    apply load_transition_elem in Ht as [Hin Hid].
    apply bind_ok in H as (? & H1 & H). apply bind_ok in H as (? & H2 & H).
    apply bind_ok in H as (? & H3 & H). apply bind_ok in H as (? & H4 & H).
    apply bind_ok in H as (app' & H5 & H). cbn in H5. injection H5 as <-. rewrite Hctx in H.
    rewrite bind_Ok_l in H. apply bind_ok in H as (h & H6 & H). apply bind_ok in H as (? & H7 & H).
    apply bind_ok in H as (g & Hg & _). inv_ok. bool_prop. exists t. split; [done|]. split; [done|].
    split; [done|]. split; [done|]. split; [by apply eq_None_not_Some|]. split; [done|].
    split; [by rewrite H6, H7|].
    apply (entry_snapshot_enterable d app t (Hloop t Hin)). eauto.
  - intros (t & Hin & <- & Hv & Hcur & Hb & Ha & Hg & He).
    apply (entry_snapshot_enterable d app t (Hloop t Hin)) in He as [g Hsnap].
    assert (Hrow : applications d !! ap_id app = Some app).
    { unfold _load_app in Happ. destruct (applications d !! app_id) as [b|] eqn:E; [|done].
      destruct (_ && _); [done|]. injection Happ as <-. by rewrite (Hids _ _ E). }
    destruct (write_fire_ok d app t g (ap_approved_amount app) (manual_args principal note as_app allow)
                fresh Hrow Hcur eq_refl) as [r Hr].
    exists r. rewrite <- Hr. unfold _load_transition. rewrite (find_by_NoDup _ _ _ Hnd Hin).
    rewrite !bind_Ok_l. rewrite Hv, <- Hcur, Hb, Ha, !(bool_decide_true (_ = _)) by done.
    cbn [negb raise_if andb]. rewrite bool_decide_false by (by intros []). cbn [apply_decision].
    rewrite !bind_Ok_l, Hctx, bind_Ok_l, Hg, bind_Ok_l. cbn [negb raise_if]. rewrite bind_Ok_l, Hsnap.
    done.
Qed.

Lemma filter_res_elem {A} (f : A → fres bool) l v x :
  filter_res f l = Ok v → x ∈ v ↔ x ∈ l ∧ f x = Ok true.
Proof.
  revert v. induction l as [|y l IH]; intros v H; cbn in H.
  - injection H as <-. split; [by intros ?%not_elem_of_nil|by intros [?%not_elem_of_nil _]].
  - apply bind_ok in H as (b & Hb & (r & Hr & [= <-])%bind_ok). specialize (IH r Hr).
    destruct b; rewrite ?elem_of_cons, IH; split.
    + intros [->|]; tauto.
    + intros [[->|] ?]; tauto.
    + tauto.
    + intros [[->|] ?]; [congruence|tauto].
Qed.
Lemma filter_res_ext {A} (f g : A → fres bool) l : (∀ x, f x = g x) → filter_res f l = filter_res g l.
Proof. intros H. induction l as [|x l IH]; [done|]. cbn. by rewrite H, IH. Qed.
Lemma elem_of_outgoing d app t :
  t ∈ _outgoing d app ↔ t ∈ transitions (conf d) ∧ tr_flow_version_id t = ap_flow_version_id app ∧
    Some (tr_from_state_id t) = ap_current_state_id app.
Proof. unfold _outgoing. rewrite elem_of_sort_by, list_elem_of_filter. tauto. Qed.
Lemma elem_of_transitions_out d app l tid :
  (∃ o, o ∈ _transitions_out d app l ∧ to_id o = tid) ↔
  ∃ t, t ∈ l ∧ tr_id t = tid ∧ _enterable d (state_of d (tr_to_state_id t)) (ap_budget_id app) = true.
Proof.
  unfold _transitions_out. setoid_rewrite list_elem_of_omap. unfold _firable_out. split.
  - intros (o & (t & Ht & Ho) & <-). exists t. destruct (_enterable _ _ _); [|done].
    by injection Ho as <-.
  - intros (t & Ht & <- & He). eexists. split; [exists t; split; [done|by rewrite He]|done].
Qed.
Lemma no_branch_None d t : tables_ok d → t ∈ transitions (conf d) → no_branch t = true ↔ tr_branch t = None.
Proof.
  intros Hd Ht. pose proof (branch_names d Hd t Ht) as Hb. unfold no_branch.
  destruct (tr_branch t) as [b|]; [|done]. rewrite bool_decide_eq_true. naive_solver.
Qed.

(** The listed transitions, for a further condition on the transition. *)
Lemma listed_firable d app ctx (extra : Transition → bool) visible tid :
  tables_ok d →
  filter_res (λ t, if negb (tr_automatic t) && no_branch t && extra t then guard_holds (tr_guard t) ctx
                   else Ok false) (_outgoing d app) = Ok visible →
  (∃ o, o ∈ _transitions_out d app visible ∧ to_id o = tid) ↔
  ∃ t, t ∈ transitions (conf d) ∧ tr_id t = tid ∧ firable d app t ctx ∧ extra t = true.
Proof.
  intros Hd Hv. rewrite elem_of_transitions_out.
  setoid_rewrite (filter_res_elem _ _ _ _ Hv). setoid_rewrite elem_of_outgoing. unfold firable.
  assert (Hcond : ∀ t, t ∈ transitions (conf d) →
    (if negb (tr_automatic t) && no_branch t && extra t then guard_holds (tr_guard t) ctx else Ok false) = Ok true ↔
    tr_automatic t = false ∧ tr_branch t = None ∧ extra t = true ∧ guard_holds (tr_guard t) ctx = Ok true).
  { intros t Ht. rewrite <- (no_branch_None d t Hd Ht).
    destruct (tr_automatic t), (no_branch t), (extra t); cbn; naive_solver. }
  split.
  - intros (t & ((Ht & Hver & Hcur) & Hif) & Hid & He). apply (Hcond t Ht) in Hif. exists t. tauto.
  - intros (t & Ht & Hid & (Hver & Hcur & Hb & Ha & Hg & He) & Hx). exists t.
    rewrite (Hcond t Ht). tauto.
Qed.

Lemma fire_in_state d app_id tid a fresh app :
  _load_app d app_id (fa_allow_unconfirmed a) = Ok app → ap_current_state_id app = None →
  ¬ ∃ r, fire d app_id tid a fresh = Ok r.
Proof.
  intros Happ Hcur (r & (p & H & _)%bind_ok). unfold FlowEngine.plan_fire in H.
  rewrite Happ, bind_Ok_l in H. apply bind_ok in H as (t & _ & H). apply bind_ok in H as (? & _ & H).
  apply bind_ok in H as (? & H & _). rewrite Hcur in H. done.
Qed.

Lemma fire_as_applicant_iff d app_id tid note allow fresh :
  tables_ok d →
  (∃ r, fire_as_applicant can_read_meeting d app_id tid note allow fresh = Ok r) ↔
  (∃ r, fire d app_id tid (manual_args _APPLICANT note true allow) fresh = Ok r) ∧
  ∃ t, t ∈ transitions (conf d) ∧ tr_id t = tid ∧ tr_automatic t = false ∧
    guard_requires_applicant (tr_guard t) = true.
Proof.
  intros [Hnd _ _ _]. unfold fire_as_applicant. split.
  - intros (r & (t & Ht & (u & Hc%raise_if_ok & H)%bind_ok)%bind_ok).
    apply load_transition_elem in Ht as [Hin Hid]. bool_prop. split; [by exists r|]. by exists t.
  - intros ((r & H) & t & Hin & <- & Ha & Hg). exists r. unfold _load_transition.
    by rewrite (find_by_NoDup _ _ _ Hnd Hin), bind_Ok_l, Ha, Hg.
Qed.

(** C33: the list of the transitions of a user holds exactly the transitions that a fire of that
    user accepts, and the list of an applicant exactly those that the applicant can fire: no
    offered transition is refused and no transition that is hidden can be fired. *)
Theorem listed_transitions_fire d app_id principal allow note fresh tid :
  tables_ok d →
  (∀ l, available_transitions d app_id principal allow = Ok l →
     (∃ o, o ∈ l ∧ to_id o = tid) ↔
     ∃ r, fire d app_id tid (manual_args principal note false allow) fresh = Ok r) ∧
  (∀ l, available_applicant_transitions d app_id allow = Ok l →
     (∃ o, o ∈ l ∧ to_id o = tid) ↔
     ∃ r, fire_as_applicant can_read_meeting d app_id tid note allow fresh = Ok r).
Proof.
  intros Hd. split; intros l H.
  - unfold available_transitions in H. apply bind_ok in H as (app & Happ & H).
    destruct (ap_current_state_id app) as [s|] eqn:Hcur.
    + apply bind_ok in H as (ctx & Hctx & (v & Hv & [= <-])%bind_ok).
      rewrite (fire_manual_iff d app_id tid principal note false allow fresh app ctx Hd Happ Hctx).
      erewrite (listed_firable d app ctx (λ _, true) v tid Hd); [naive_solver|].
      rewrite <- Hv. apply filter_res_ext. intros t. by rewrite andb_true_r.
    + injection H as <-. split; [by intros (o & ?%not_elem_of_nil & _)|].
      intros Hf. by apply (fire_in_state _ _ _ (manual_args principal note false allow) _ app) in Hf.
  - rewrite (fire_as_applicant_iff d app_id tid note allow fresh Hd).
    unfold available_applicant_transitions in H. apply bind_ok in H as (app & Happ & H).
    destruct (ap_current_state_id app) as [s|] eqn:Hcur.
    + apply bind_ok in H as (ctx & Hctx & (v & Hv & [= <-])%bind_ok).
      rewrite (fire_manual_iff d app_id tid _APPLICANT note true allow fresh app ctx Hd Happ Hctx).
      rewrite (listed_firable d app ctx (λ t, guard_requires_applicant (tr_guard t)) v tid Hd Hv).
      split; [unfold firable; naive_solver|].
      intros ((t & Ht & <- & Hf) & t' & Ht' & Hid & _ & Hg). exists t.
      assert (t' = t) as -> by (eapply same_row; eauto using transition_ids). done.
    + injection H as <-. split; [by intros (o & ?%not_elem_of_nil & _)|].
      intros [Hf _]. by apply (fire_in_state _ _ _ (manual_args _APPLICANT note true allow) _ app) in Hf.
Qed.
End Facts.

(** ** Witnesses *)
(** A flow from a draft over the vote of the cost center, an application and its open vote. *)
Definition ex_state (id kind : string) (config : pyval) : State :=
  MkState id "flow" id kind config (bool_decide (id = "draft")) true.
Definition ex_transition (id from to : string) (branch : option string) : Transition :=
  MkTransition id "flow" from to PNone [[("type", PStr "webhook"); ("webhookId", PStr "w")]] 0 false branch true.
Definition ex_conf : Config :=
  MkConfig
    [ex_state "draft" "normal" (PDict []);
     ex_state "vote" "vote" (PDict [("gremiumSource", PStr "budget")]);
     ex_state "done" "normal" (PDict [])]
    [ex_transition "submit" "draft" "vote" None; ex_transition "pass" "vote" "done" (Some "pass");
     ex_transition "withdraw" "vote" "draft" None]
    [MkBudgetRow "budget" None "VS" (Some "stupa")] [] [MkGremium "stupa" true false 60 None]
    [MkPrincipalRow "p1" "alice" None None] [MkMembership "stupa" "p1" ["vote.cast"]] [] [] [] [] [] [].
Definition ex_app (state : string) (gremium : option string) : Application :=
  MkApplication "app" "type" "form" "flow" (Some state) (Some "budget") None None gremium (Some 10000) None
    (PDict []) None true.
Definition ex_empty : Db := MkDb ex_conf ∅ ∅ [] [] [] [].
Definition ex_created_event : StatusEvent :=
  MkStatusEvent "e0" "app" None "draft" None (Some "alice") None None.
Definition ex_created : Db :=
  add_event ex_created_event
    (MkDb ex_conf (<["app" := ex_app "draft" None]> ∅) ∅ [] [] [] []).
Definition ex_body : VoteBody :=
  MkVoteBody None None
    (MotionRules (MkVoteConfig ["yes"; "no"; "abstain"] simple None true true rejected false))
    None (Some 3) None None None None None 1 None None None 1.
(** The application in its vote state with an open vote. *)
Definition ex_voting : Db :=
  MkDb ex_conf (<["app" := ex_app "vote" (Some "stupa")]> ∅)
    (<["v" := MkVote (MkVoteRow motion open None None None) ex_body (Some "app") None "stupa" None 0 None]> ∅)
    [] [] [] [].
Definition ex_alice : Principal := MkPrincipal "alice" [] [] [] None.
Definition ex_fresh (n : string) : Fresh := MkFresh n n n 7.
Definition ex_args : FireArgs := manual_args ex_alice None false true.
Definition ex_readable (d : Db) (meeting : string) (p : Principal) : bool := true.

Definition ex_plan (d : Db) (tid : string) : FirePlan :=
  match FlowEngine.plan_fire ex_readable d "app" tid ex_args with
  | Ok p => p
  | Err _ => MkFirePlan (MkMove (ex_app "" None) "" "" None None) (ex_transition "" "" "" None) None
  end.
Definition ex_after (d : Db) (tid : string) : Db :=
  match write_fire d (ex_plan d tid) ex_args (ex_fresh "e1") with Ok (d', _) => d' | Err _ => d end.
Lemma ex_change d tid :
  match FlowEngine.plan_fire ex_readable d "app" tid ex_args with Ok _ => true | Err _ => false end = true →
  match write_fire d (ex_plan d tid) ex_args (ex_fresh "e1") with Ok _ => true | Err _ => false end = true →
  status_change ex_readable (bool_decide (tr_branch (pl_transition (ex_plan d tid)) = None)) d d
    (ex_after d tid) (pl_move (ex_plan d tid)).
Proof.
  intros Hp Hw. destruct (FlowEngine.plan_fire ex_readable d "app" tid ex_args) as [p|] eqn:E; [|done].
  destruct (write_fire d (ex_plan d tid) ex_args (ex_fresh "e1")) as [[d' s]|] eqn:F; [|done].
  apply (change_fire ex_readable d d "app" tid (ex_plan d tid) ex_args (ex_fresh "e1") (ex_after d tid) s).
  - unfold ex_plan. by rewrite E.
  - unfold ex_after. by rewrite F.
Qed.





Lemma ex_tables_ok : tables_ok ex_created.
Proof.
  split.
  - vm_compute. repeat constructor; set_solver.
  - intros t Ht. cbn in Ht. rewrite !elem_of_cons in Ht.
    destruct Ht as [->|[->|[->|?%not_elem_of_nil]]]; done.
  - intros t Ht. cbn in Ht. rewrite !elem_of_cons in Ht.
    destruct Ht as [->|[->|[->|?%not_elem_of_nil]]]; done.
  - intros id app Ha. cbn in Ha.
    apply lookup_insert_Some in Ha as [[<- <-]|[_ Ha]]; [done|by rewrite lookup_empty in Ha].
Qed.
Lemma listed_transitions_fire_witness :
  ∃ r, FlowEngine.fire ex_readable ex_created "app" "submit" ex_args (ex_fresh "e1") = Ok r.
Proof.
  apply (proj1 (listed_transitions_fire ex_readable ex_created "app" ex_alice true None (ex_fresh "e1")
                  "submit" ex_tables_ok)
           [MkTransitionOut "submit" "draft" "vote" true false None false]).
  - vm_compute. reflexivity.
  - eexists. split; [left|reflexivity].
Defined.
