(* ===== verification/Policy.v ===== *)
(** Who may do what ([auth/principal.py], [auth/policy.py], [auth/rbac.py], [auth/oauth.py],
    [admin/gremium_roles.py]): the rights of a resolved principal, the permissions of a role in
    a Gremium, and the scope of an OAuth token, which caps both. *)

From stdpp Require Import gmap strings.
From S2P Require Import Prelude PyStr PyValue FlowDb.

(** ** The principal *)
Definition is_admin (p : Principal) : bool := bool_decide ("admin" ∈ p_roles p).
Definition scope_allows (p : Principal) (perm : string) : bool :=
  match scope_permissions p with None => true | Some s => bool_decide (perm ∈ s) end.
Definition has (p : Principal) (perm : string) : bool :=
  if match scope_permissions p with Some s => negb (bool_decide (perm ∈ s)) | None => false end
  then false else is_admin p || bool_decide (perm ∈ p_permissions p).
Definition in_group (p : Principal) (group : string) : bool := bool_decide (group ∈ p_groups p).

(** ** Roles of a Gremium *)
Definition gremium_ids_with_permission (c : Config) (s perm : string) : list string :=
  gm_gremium_id <$> filter (λ m, perm ∈ gm_permissions m) (memberships_of c s).
Definition gremium_member_ids (c : Config) (s : string) : list string :=
  gm_gremium_id <$> memberships_of c s.

Definition GREMIUM_VIEW_ALL : string := "gremium.view_all".
(** [ALL_GREMIEN] or a set of ids. *)
Inductive GremiumScope := ALL_GREMIEN | Gremien (ids : list string).
Definition in_scope (g : string) (s : GremiumScope) : bool :=
  match s with ALL_GREMIEN => true | Gremien ids => bool_decide (g ∈ ids) end.
Definition expand (s : GremiumScope) (every : list string) : list string :=
  match s with ALL_GREMIEN => every | Gremien ids => ids end.

Definition admin_bypass (p : Principal) (perm : string) : bool := is_admin p && scope_allows p perm.
Definition held_gremium_ids (c : Config) (p : Principal) (perm : string) : list string :=
  if negb (scope_allows p perm) then [] else gremium_ids_with_permission c (sub p) perm.
Definition holds_gremium_permission (c : Config) (p : Principal) (perm gremium : string) : bool :=
  bool_decide (gremium ∈ held_gremium_ids c p perm).
Definition gremium_ids_with (c : Config) (p : Principal) (perm : string) : GremiumScope :=
  if admin_bypass p perm then ALL_GREMIEN else Gremien (held_gremium_ids c p perm).
Definition has_gremium_permission (c : Config) (p : Principal) (perm gremium : string) : bool :=
  in_scope gremium (gremium_ids_with c p perm).
(** [None] is every Gremium. *)
Definition gremium_view_scope (c : Config) (p : Principal) : option (list string) :=
  if has p GREMIUM_VIEW_ALL then None
  else if negb (scope_allows p GREMIUM_VIEW_ALL) then Some []
  else Some (gremium_member_ids c (sub p)).
Definition can_view_gremium (c : Config) (p : Principal) (gremium : string) : bool :=
  match gremium_view_scope c p with None => true | Some ids => bool_decide (gremium ∈ ids) end.

(** ** The resolution of a principal *)
Definition VOTE_GROUP_PREFIX : string := "vote:".
Definition vote_group_key (gremium_id : string) : string := VOTE_GROUP_PREFIX +:+ gremium_id.
(** The tables of the global roles. *)
Record RoleTables := MkRoleTables {
  role_assignments : list (string * string);   (** principal id, role id *)
  group_mappings : list (string * string);     (** OIDC group, role id *)
  role_permissions : list (string * string);   (** role id, permission *)
  role_keys : list (string * string)           (** role id, key *)
}.
Definition _assigned_role_ids (t : RoleTables) (principal_id : string) : list string :=
  (filter (λ a, a.1 = principal_id) (role_assignments t)).*2.
Definition _mapped_role_ids (t : RoleTables) (groups : list string) : list string :=
  (filter (λ m, m.1 ∈ groups) (group_mappings t)).*2.
Definition _role_permissions (t : RoleTables) (role_ids : list string) : list string :=
  (filter (λ r, r.1 ∈ role_ids) (role_permissions t)).*2.
Definition _role_keys (t : RoleTables) (role_ids : list string) : list string :=
  (filter (λ r, r.1 ∈ role_ids) (role_keys t)).*2.
Definition _vote_keys (c : Config) (principal_id : string) : list string :=
  (λ m, vote_group_key (gm_gremium_id m)) <$>
    filter (λ m, gm_principal_id m = principal_id ∧ "vote.cast" ∈ gm_permissions m) (memberships c).
(** [oidc_groups] are the claims of the identity provider. *)
Definition resolve_principal (t : RoleTables) (c : Config) (row : PrincipalRow) (oidc_groups : list string)
    : Principal :=
  let claimed := filter (λ g, negb (startswith g VOTE_GROUP_PREFIX) = true) oidc_groups in
  let role_ids := _assigned_role_ids t (pr_id row) ++ _mapped_role_ids t claimed in
  MkPrincipal (pr_sub row) (_role_keys t role_ids) (_role_permissions t role_ids)
    (claimed ++ _vote_keys c (pr_id row)) None.

(** ** OAuth scopes *)
Definition FORBIDDEN_PERMISSIONS : list string :=
  ["vote.cast"; "backup.manage"; "admin.users.merge"; "admin.users.revoke_groups"].
Definition SCOPES : list (string * list string) :=
  [("read", ["application.read"; "application.export"; "budget.view"; "budget.export"; "audit.read";
             "audit.verify"; "meeting.view_all"; "gremium.view_all"; "todo.read_all"]);
   ("applications:write", ["application.transition"; "application.manage"; "application.create_on_behalf"]);
   ("votes:write", ["vote.manage"]);
   ("budget:write", ["budget.structure"; "budget.book"]);
   ("meetings:write", ["session.manage"; "protocol.write"; "protocol.finalize"]);
   ("tickets:write", ["ticket.manage"]);
   ("todos:write", ["todo.write"; "todo.configure"; "todo.all"]);
   ("forms:write", ["form.configure"]);
   ("flows:write", ["flow.configure"]);
   ("admin:write", ["admin.site"; "admin.gremien"; "admin.types"; "admin.roles"; "admin.users";
                    "admin.group_mappings"; "admin.gremium_roles"; "admin.cd_variants";
                    "admin.delegations"; "admin.deadlines"; "admin.translations"; "webhook.manage"])].
Definition DEFAULT_SCOPE : list string := SCOPES.*1.
Definition MAX_LIFETIME_SECONDS : Z := 90 * 24 * 3600.
Definition LIFETIMES : list (string * option Z) :=
  [("1h", Some 3600); ("8h", Some (8 * 3600)); ("1d", Some (24 * 3600)); ("30d", Some (30 * 24 * 3600));
   ("90d", Some (90 * 24 * 3600)); ("never", None)].
Definition DEFAULT_LIFETIME : string := "30d".
Definition resolve_lifetime (key : option string) : option Z :=
  let key := match key with
             | Some k => if bool_decide (k ∈ LIFETIMES.*1) then k else DEFAULT_LIFETIME
             | None => DEFAULT_LIFETIME
             end in
  match dict_get key LIFETIMES with
  | Some (Some ttl) => Some (Z.min ttl MAX_LIFETIME_SECONDS)
  | _ => None
  end.
(** [raw.split()]: the words between runs of white space. *)
Definition py_words (s : string) : list string :=
  filter (λ w, w ≠ "")
    (of_chars <$> foldr (λ c acc, if is_space c then [] :: acc
                                  else match acc with w :: r => (c :: w) :: r | [] => [[c]] end)
                    [[]] (chars s)).
(** [None] is the [OAuthError] of an unknown scope. *)
Definition parse_scope (raw : option string) : option (list string) :=
  let requested := match raw with
                   | Some r => if bool_decide (py_strip r = "") then DEFAULT_SCOPE else py_words r
                   | None => DEFAULT_SCOPE
                   end in
  if forallb (λ tok, bool_decide (tok ∈ SCOPES.*1)) requested then Some (fromkeys requested) else None.
(** [oauth.scope_permissions]. *)
Definition scope_permission_set (scopes : list string) : list string :=
  let granted := concat ((λ s, default [] (dict_get s SCOPES)) <$> scopes) in
  filter (λ p, p ∉ FORBIDDEN_PERMISSIONS) granted.
(** The principal of an access token ([deps.py]), after the lookup of the token and its row. *)
Definition _principal_from_access_token (p : Principal) (scope : option string) : fres (option Principal) :=
  if negb (has p "mcp.use") then Ok None
  else match parse_scope scope with
       | Some scopes => Ok (Some (MkPrincipal (sub p) (p_roles p) (p_permissions p) (p_groups p)
                                    (Some (scope_permission_set scopes))))
       | None => Err (FlowEscaped PyNum.ValueError)
       end.

(** ** Lemmas *)
Lemma memberships_of_spec c s m :
  m ∈ memberships_of c s ↔
    m ∈ memberships c ∧ ∃ p, p ∈ principals c ∧ pr_id p = gm_principal_id m ∧ pr_sub p = s.
Proof.
  unfold memberships_of. rewrite list_elem_of_filter, existsb_exists.
  split.
  - intros [(p & Hp & H) Hm]. bool_prop. split; [done|]. exists p. by rewrite <- list_elem_of_In in Hp.
  - intros (Hm & p & Hp & H1 & H2). split; [|done]. exists p. rewrite <- list_elem_of_In.
    split; [done|]. by rewrite !bool_decide_true.
Qed.

Lemma held_capped c p perm g : g ∈ held_gremium_ids c p perm → scope_allows p perm = true.
Proof. unfold held_gremium_ids. destruct (scope_allows p perm); [done|cbn; set_solver]. Qed.
