(* ===== verification/Room.v ===== *)
(** The tables of a meeting that its services write: the delegations, the substitute pool, the
    attendance, the guests, and the ballots of its votes.  The substitute pool
    ([delegations/pool.py]) and the rights in a meeting ([livevote/service/permissions.py]).

    A ballot has two rows without a link: the marker of the voter and the choice. *)

From stdpp Require Import gmap strings.
From S2P Require Import Prelude PyStr PyValue FlowDb Decision Policy.

(** ** Tables *)
Record MeetingDelegation := MkDelegation {
  dl_id : string;
  dl_meeting_id : string;
  dl_gremium_id : string;
  dl_delegator_id : string;
  dl_delegate_id : string;
  dl_voting : bool;
  dl_via_pool : bool;
  dl_created_by : option string
}.
(** [ds_member_id] is [None] for an entry that covers every member. *)
Record DelegationSubstitute := MkSubstitute {
  ds_id : string;
  ds_gremium_id : string;
  ds_member_id : option string;
  ds_substitute_id : string;
  ds_created_by : option string
}.
Record MeetingAttendance := MkAttendance {
  mt_meeting_id : string;
  mt_principal_id : string;
  mt_status : string;
  mt_source : string;
  mt_note : option string
}.
(** [mg_seq] is the number of the pseudonym; [mg_token_hash] the digest of the device token. *)
Record MeetingGuest := MkGuest {
  mg_id : string;
  mg_meeting_id : string;
  mg_status : string;
  mg_seq : Z;
  mg_display_name : option string;
  mg_token_hash : option string;
  mg_requested_at : Z;
  mg_decided_at : option Z;
  mg_decided_by : option string;
  mg_admitted_at : option Z;
  mg_last_seen_at : option Z
}.
Record RoomDb := MkRoomDb {
  flow_db : Db;
  delegations : list MeetingDelegation;
  substitutes : list DelegationSubstitute;
  attendance : list MeetingAttendance;
  guests : list MeetingGuest;
  (** Pairs of a vote and the [sub] of a voter; [UNIQUE (vote_id, voter_sub)]. *)
  voted_markers : list (string * string);
  (** Pairs of a vote and a choice. *)
  secret_ballots : list (string * string)
}.
Definition cfg (d : RoomDb) : Config := conf (flow_db d).
Definition with_flow (x : Db) (d : RoomDb) : RoomDb :=
  MkRoomDb x (delegations d) (substitutes d) (attendance d) (guests d) (voted_markers d) (secret_ballots d).
Definition with_delegations (l : list MeetingDelegation) (d : RoomDb) : RoomDb :=
  MkRoomDb (flow_db d) l (substitutes d) (attendance d) (guests d) (voted_markers d) (secret_ballots d).
Definition with_substitutes (l : list DelegationSubstitute) (d : RoomDb) : RoomDb :=
  MkRoomDb (flow_db d) (delegations d) l (attendance d) (guests d) (voted_markers d) (secret_ballots d).
Definition with_attendance (l : list MeetingAttendance) (d : RoomDb) : RoomDb :=
  MkRoomDb (flow_db d) (delegations d) (substitutes d) l (guests d) (voted_markers d) (secret_ballots d).
Definition with_ballots (markers choices : list (string * string)) (d : RoomDb) : RoomDb :=
  MkRoomDb (flow_db d) (delegations d) (substitutes d) (attendance d) (guests d) markers choices.
Definition room_audit (entry : AuditEntry) (d : RoomDb) : RoomDb :=
  with_flow (audit_record entry (flow_db d)) d.

Definition principal_by_sub (d : RoomDb) (s : string) : option PrincipalRow :=
  find_by pr_sub s (principals (cfg d)).
Definition principal_by_id (d : RoomDb) (id : string) : option PrincipalRow :=
  find_by pr_id id (principals (cfg d)).
Definition gremium_by_id (d : RoomDb) (id : string) : option Gremium :=
  find_by gr_id id (gremium_rows (cfg d)).
Definition meeting_by_id (d : RoomDb) (id : string) : option Meeting :=
  find_by me_id id (meetings (cfg d)).
Definition get_meeting (d : RoomDb) (id : string) : fres Meeting :=
  match meeting_by_id d id with Some m => Ok m | None => Err NotFoundError end.

(** ** The substitute pool *)
Definition substitutes_for (d : RoomDb) (gremium member : string) : list string :=
  ds_substitute_id <$> filter (λ e, ds_gremium_id e = gremium ∧
                                    (ds_member_id e = None ∨ ds_member_id e = Some member)) (substitutes d).
Definition members_for_substitute (d : RoomDb) (gremium substitute : string) : list string * bool :=
  let members := ds_member_id <$> filter (λ e, ds_gremium_id e = gremium ∧ ds_substitute_id e = substitute)
                                    (substitutes d) in
  (omap id members, bool_decide (None ∈ members)).
Definition substitute_gremien_for_sub (d : RoomDb) (s : string) : list string :=
  match principal_by_sub d s with
  | Some p => ds_gremium_id <$> filter (λ e, ds_substitute_id e = pr_id p) (substitutes d)
  | None => []
  end.
Definition gremium_reader_ids (d : RoomDb) (s : string) : list string :=
  gremium_member_ids (cfg d) s ++ substitute_gremien_for_sub d s.
Definition pool_entries_of (d : RoomDb) (principal_id : string) : list DelegationSubstitute :=
  filter (λ e, ds_substitute_id e = principal_id ∨ ds_member_id e = Some principal_id) (substitutes d).

(** ** The rights in a meeting *)
Definition can_manage (d : RoomDb) (gremium : string) (p : Principal) : bool :=
  has_gremium_permission (cfg d) p "session.manage" gremium.
Definition _is_protokollant (d : RoomDb) (m : Meeting) (p : Principal) : bool :=
  match me_protokollant_id m with
  | None => false
  | Some id => bool_decide (Some id = pr_id <$> principal_by_sub d (sub p))
  end.
Definition can_write (d : RoomDb) (m : Meeting) (p : Principal) : bool :=
  can_manage d (me_gremium_id m) p || admin_bypass p "protocol.write" ||
  (scope_allows p "protocol.write" && _is_protokollant d m p) ||
  has_gremium_permission (cfg d) p "protocol.write" (me_gremium_id m).
Definition can_set_current_item (d : RoomDb) (m : Meeting) (p : Principal) : bool :=
  scope_allows p "protocol.write" && _is_protokollant d m p.
Definition can_mark_done (d : RoomDb) (m : Meeting) (p : Principal) : bool :=
  if negb (can_write d m p) then false
  else if bool_decide (me_status m = "live") && bool_decide (is_Some (me_protokollant_id m))
  then _is_protokollant d m p else true.
Definition can_run_votes (d : RoomDb) (m : Meeting) (p : Principal) : bool :=
  scope_allows p "vote.manage" && _is_protokollant d m p.
Definition assert_can_run_votes (d : RoomDb) (meeting_id : string) (p : Principal) : fres () :=
  m ← get_meeting d meeting_id;
  raise_if (negb (can_run_votes d m p)) ForbiddenError.
(** [holds_gremium_vote_role] and [manages_votes_in_gremium] of [voting/service.py]. *)
Definition holds_gremium_vote_role (d : RoomDb) (gremium : string) (p : Principal) : bool :=
  existsb (λ perm, holds_gremium_permission (cfg d) p perm gremium) ["vote.manage"; "session.manage"].
Definition manages_votes_in_gremium (d : RoomDb) (gremium : string) (p : Principal) : bool :=
  admin_bypass p "vote.manage" || holds_gremium_vote_role d gremium p.
Definition can_manage_votes (d : RoomDb) (m : Meeting) (p : Principal) : bool :=
  can_manage d (me_gremium_id m) p || manages_votes_in_gremium d (me_gremium_id m) p ||
  (scope_allows p "vote.manage" && _is_protokollant d m p).
Definition can_finalize (d : RoomDb) (m : Meeting) (p : Principal) : bool :=
  can_write d m p && has_gremium_permission (cfg d) p "protocol.finalize" (me_gremium_id m).
Definition _vote_cast_gremium_ids (d : RoomDb) (p : Principal) : list string :=
  match scope_permissions p with
  | Some _ => []
  | None => gremium_ids_with_permission (cfg d) (sub p) "vote.cast"
  end.
Definition _delegated_meeting_ids (d : RoomDb) (s : string) (voting_only : bool) : list string :=
  match principal_by_sub d s with
  | Some p => dl_meeting_id <$> filter (λ x, dl_delegate_id x = pr_id p ∧
                                             (voting_only = true → dl_voting x = true)) (delegations d)
  | None => []
  end.
Definition can_vote (d : RoomDb) (m : Meeting) (p : Principal) : bool :=
  bool_decide (me_gremium_id m ∈ _vote_cast_gremium_ids d p) ||
  bool_decide (me_id m ∈ _delegated_meeting_ids d (sub p) true).
Definition is_member (d : RoomDb) (gremium : string) (p : Principal) : bool :=
  has p "meeting.view_all" || bool_decide (gremium ∈ gremium_member_ids (cfg d) (sub p)).
Definition is_participant (d : RoomDb) (meeting_id gremium : string) (p : Principal) : bool :=
  is_member d gremium p || has p "meeting.view_all" ||
  bool_decide (meeting_id ∈ _delegated_meeting_ids d (sub p) false).
(** [None] is every Gremium. *)
Definition _visible_gremium_ids (d : RoomDb) (p : Principal) : option (list string) :=
  if has p "meeting.view_all" || admin_bypass p "session.manage" then None
  else Some (gremium_member_ids (cfg d) (sub p) ++ substitute_gremien_for_sub d (sub p)).
Definition assert_can_read (d : RoomDb) (meeting_id : string) (p : Principal) : fres () :=
  m ← get_meeting d meeting_id;
  let seen := match _visible_gremium_ids d p with
              | None => true
              | Some ids => bool_decide (me_gremium_id m ∈ ids)
              end in
  raise_if (negb (seen || bool_decide (meeting_id ∈ _delegated_meeting_ids d (sub p) false))) ForbiddenError.
Definition meeting_read_scope (d : RoomDb) (p : Principal) : option (list string) * list string :=
  match _visible_gremium_ids d p with
  | None => (None, [])
  | Some ids => (Some ids, _delegated_meeting_ids d (sub p) false)
  end.
(** The voting members: the roster of the quorum ([vote_eligible_count]). *)
Definition _voting_member_ids (d : RoomDb) (gremium : string) : list string :=
  remove_dups (gm_principal_id <$> filter (λ m, gm_gremium_id m = gremium ∧ "vote.cast" ∈ gm_permissions m)
                                     (memberships (cfg d))).
Definition vote_eligible_count (d : RoomDb) (gremium : string) : Z :=
  Z.of_nat (length (_voting_member_ids d gremium)).
