(* ===== verification/Delegations.v ===== *)
(** Delegations of a meeting and pool seats ([delegations/service.py], [delegations/pool_seat.py])
    and the attendance of the members ([livevote/attendance_service.py]).

    An advisory lock serializes the writers of the delegations of one meeting, so each
    operation is one step.  The id of a new row and the time are arguments. *)

From stdpp Require Import gmap strings.
From S2P Require Import Prelude PyStr PyValue FlowDb Decision Policy Room.

(** ** The two sides of a delegated vote *)
(** [pool_seat_clause]: the substitute created the row for itself. *)
Definition pool_seat_clause (d : RoomDb) (x : MeetingDelegation) : bool :=
  dl_via_pool x &&
  match principal_by_id d (dl_delegate_id x) with
  | Some p => bool_decide (dl_created_by x = Some (pr_sub p))
  | None => false
  end.
(** The rows of [voting_delegation_check]: whether the caller is the delegator, whether the row
    counts, and the [sub] of the delegator. *)
Definition check_row (d : RoomDb) (pid : string) (x : MeetingDelegation) : option (bool * bool * string) :=
  match principal_by_id d (dl_delegator_id x), principal_by_id d (dl_delegate_id x) with
  | Some delegator, Some _ =>
      let is_delegator := bool_decide (dl_delegator_id x = pid) in
      Some (is_delegator, dl_voting x && (negb is_delegator || negb (pool_seat_clause d x)), pr_sub delegator)
  | _, _ => None
  end.
Definition _check_rows (d : RoomDb) (s meeting gremium : string) : list (bool * bool * string) :=
  match principal_by_sub d s with
  | None => []
  | Some p =>
      omap (check_row d (pr_id p))
        (filter (λ x, dl_meeting_id x = meeting ∧ dl_gremium_id x = gremium ∧
                      (dl_delegator_id x = pr_id p ∨ dl_delegate_id x = pr_id p)) (delegations d))
  end.
Definition voting_delegation_check (d : RoomDb) (s : string) (meeting_id : option string)
    (eligible_group : string) : bool * option string :=
  match meeting_id, parse_uuid eligible_group with
  | Some meeting, Some gremium =>
      let rows := _check_rows d s meeting gremium in
      (existsb (λ r, r.1.1 && r.1.2) rows,
       head (omap (λ r, if negb r.1.1 && r.1.2 then Some r.2 else None) rows))
  | _, _ => (false, None)
  end.

(** ** Pool seats *)
Definition _meeting_live (d : RoomDb) (meeting gremium : string) : bool :=
  match meeting_by_id d meeting with
  | Some m => bool_decide (me_status m = "live") && bool_decide (me_gremium_id m = gremium)
  | None => false
  end.
Definition present_ids (d : RoomDb) (meeting : string) : list string :=
  mt_principal_id <$> filter (λ a, mt_meeting_id a = meeting ∧ mt_status a = "present") (attendance d).
Definition delegations_in (d : RoomDb) (meeting : string) : list MeetingDelegation :=
  filter (λ x, dl_meeting_id x = meeting) (delegations d).
(** The members whose seat the substitute may take, before the choice of one. *)
Definition free_seats (d : RoomDb) (meeting gremium deputy : string) : list string :=
  let '(personal, gremium_wide) := members_for_substitute d gremium deputy in
  let rows := delegations_in d meeting in
  let taken := (dl_delegator_id <$> rows) ++ (dl_delegate_id <$> rows) in
  let voters := _voting_member_ids d gremium in
  let pool := if gremium_wide then voters else filter (λ v, v ∈ personal) voters in
  filter (λ v, v ∉ taken ∧ v ∉ present_ids d meeting ∧ v ≠ deputy) pool.
(** [(m.id not in personal, (m.display_name or "").casefold(), str(m.id))]. *)
Definition seat_key (personal : list string) (m : PrincipalRow) : bool * string * string :=
  (negb (bool_decide (pr_id m ∈ personal)), py_lower (default "" (pr_display_name m)), pr_id m).
Definition seat_ltb (a b : bool * string * string) : bool :=
  (negb a.1.1 && b.1.1) ||
  (bool_decide (a.1.1 = b.1.1) &&
   (str_ltb a.1.2 b.1.2 || (bool_decide (a.1.2 = b.1.2) && str_ltb a.2 b.2))).
(** [min] over the members; the first one of equal keys. *)
Fixpoint min_seat (personal : list string) (l : list PrincipalRow) : option PrincipalRow :=
  match l with
  | [] => None
  | m :: r =>
      match min_seat personal r with
      | Some n => if seat_ltb (seat_key personal n) (seat_key personal m) then Some n else Some m
      | None => Some m
      end
  end.
Definition _find_seat (d : RoomDb) (s : string) (meeting_id : option string) (eligible_group : string)
    : option (PrincipalRow * PrincipalRow) :=
  meeting ← meeting_id;
  gremium ← parse_uuid eligible_group;
  if negb (_meeting_live d meeting gremium) then None
  else
    deputy ← principal_by_sub d s;
    let '(personal, gremium_wide) := members_for_substitute d gremium (pr_id deputy) in
    if bool_decide (personal = []) && negb gremium_wide then None
    else if existsb (λ x, bool_decide (dl_delegator_id x = pr_id deputy) ||
                          (dl_voting x && bool_decide (dl_delegate_id x = pr_id deputy)))
              (delegations_in d meeting) then None
    else
      let free := free_seats d meeting gremium (pr_id deputy) in
      first ← min_seat personal (filter (λ p, pr_id p ∈ free) (principals (cfg d)));
      Some (deputy, first).
Definition pool_seat_for (d : RoomDb) (s : string) (meeting_id : option string) (eligible_group : string)
    : option PrincipalRow := snd <$> _find_seat d s meeting_id eligible_group.
Definition claim_audit (s meeting group : string) (row : MeetingDelegation) : AuditEntry :=
  MkAudit (Some s) "delegation_grant" "meeting_delegation" (dl_id row)
    [("meetingId", PStr meeting); ("gremiumId", PStr group); ("delegatorId", PStr (dl_delegator_id row));
     ("delegateId", PStr (dl_delegate_id row)); ("delegateVoting", PBool true); ("viaPool", PBool true);
     ("poolSeat", PBool true)].
(** [None] is no free seat. *)
Definition claim_pool_seat (d : RoomDb) (s : string) (meeting_id : option string) (eligible_group row_id : string)
    : option (string * RoomDb) :=
  match meeting_id, parse_uuid eligible_group, _find_seat d s meeting_id eligible_group with
  | Some meeting, Some gremium, Some (deputy, member) =>
      let row := MkDelegation row_id meeting gremium (pr_id member) (pr_id deputy) true true (Some s) in
      Some (pr_sub member,
            room_audit (claim_audit s meeting eligible_group row) (with_delegations (delegations d ++ [row]) d))
  | _, _, _ => None
  end.
Definition delete_delegation (id : string) (d : RoomDb) : RoomDb :=
  with_delegations (filter (λ x, dl_id x ≠ id) (delegations d)) d.
Definition release_pool_seat (d : RoomDb) (meeting member_id actor_sub : string) : RoomDb * bool :=
  match head (filter (λ x, dl_meeting_id x = meeting ∧ dl_delegator_id x = member_id ∧
                           pool_seat_clause d x = true) (delegations d)) with
  | None => (d, false)
  | Some row =>
      (room_audit (MkAudit (Some actor_sub) "delegation_revoke" "meeting_delegation" (dl_id row)
                     [("meetingId", PStr meeting); ("delegatorId", PStr member_id); ("poolSeat", PBool true)])
         (delete_delegation (dl_id row) d), true)
  end.
Definition release_pool_seat_of (d : RoomDb) (meeting member_sub : string) : RoomDb * bool :=
  match principal_by_sub d member_sub with
  | Some p => release_pool_seat d meeting (pr_id p) member_sub
  | None => (d, false)
  end.

(** ** Attendance *)
Definition _current_members (d : RoomDb) (gremium : string) : list PrincipalRow :=
  filter (λ p, pr_id p ∈ gm_principal_id <$> filter (λ m, gm_gremium_id m = gremium) (memberships (cfg d)))
    (principals (cfg d)).
Definition _record (d : RoomDb) (meeting principal : string) : option MeetingAttendance :=
  head (filter (λ a, mt_meeting_id a = meeting ∧ mt_principal_id a = principal) (attendance d)).
Definition _resolve_note (status : string) (existing : option MeetingAttendance) (note : option string)
    (replace_note : bool) : option string :=
  if negb (bool_decide (status = "excused")) then None
  else if replace_note then note
  else match existing with Some a => mt_note a | None => None end.
(** [_write]: a new row, or the update of the existing one. *)
Definition _write (existing : option MeetingAttendance) (row : MeetingAttendance) (d : RoomDb) : RoomDb :=
  match existing with
  | None => with_attendance (attendance d ++ [row]) d
  | Some _ =>
      with_attendance
        ((λ a, if decide (mt_meeting_id a = mt_meeting_id row ∧ mt_principal_id a = mt_principal_id row)
               then row else a) <$> attendance d) d
  end.
Definition _has_delegation (d : RoomDb) (meeting principal : string) : bool :=
  existsb (λ x, bool_decide (dl_meeting_id x = meeting) && bool_decide (dl_delegator_id x = principal))
    (delegations d).
Definition _delegated (d : RoomDb) (meeting principal actor_sub : string) : RoomDb * bool :=
  let d := (release_pool_seat d meeting principal actor_sub).1 in (d, _has_delegation d meeting principal).
Definition _ensure_not_closed (m : Meeting) : fres () :=
  raise_if (bool_decide (me_status m = "closed")) (ConflictError "meeting_closed").
Definition change_of (before after : option string) : pyval :=
  PDict [("from", str_or_none before); ("to", str_or_none after)].
Definition attendance_audit (action actor meeting principal : string) (extra : list (string * pyval))
    : AuditEntry :=
  MkAudit (Some actor) action "meeting" meeting (("principalId", PStr principal) :: extra).

Definition set_self (d : RoomDb) (meeting_id status requester_sub : string) (note : option string)
    (replace_note : bool) : fres RoomDb :=
  m ← get_meeting d meeting_id;
  _ ← _ensure_not_closed m;
  match find_by pr_sub requester_sub (_current_members d (me_gremium_id m)) with
  | None => Err ForbiddenError
  | Some member =>
      let existing := _record d meeting_id (pr_id member) in
      _ ← raise_if match existing with Some a => bool_decide (mt_source a = "lead") | None => false end
            (ConflictError "attendance_set_by_lead");
      let '(d, delegated) := if bool_decide (status = "present")
                             then _delegated d meeting_id (pr_id member) requester_sub else (d, false) in
      _ ← raise_if delegated (ConflictError "delegation_active");
      Ok (_write existing (MkAttendance meeting_id (pr_id member) status "self"
                             (_resolve_note status existing note replace_note)) d)
  end.
Definition mark_present_on_cast (d : RoomDb) (meeting_id voter_sub : string) : fres RoomDb :=
  m ← get_meeting d meeting_id;
  if bool_decide (me_status m = "closed") then Ok d
  else match find_by pr_sub voter_sub (_current_members d (me_gremium_id m)) with
       | None => Ok d
       | Some member =>
           let existing := _record d meeting_id (pr_id member) in
           let before := mt_status <$> existing in
           if bool_decide (before = Some "present") then Ok d
           else if _has_delegation d meeting_id (pr_id member) then Ok d
           else
             Ok (room_audit (attendance_audit "attendance_set" voter_sub meeting_id (pr_id member)
                               [("status", change_of before (Some "present")); ("reason", PStr "vote_cast")])
                   (_write existing
                      (MkAttendance meeting_id (pr_id member) "present"
                         match existing with Some a => mt_source a | None => "self" end None) d))
       end.
Definition set_for (d : RoomDb) (meeting_id principal_id status requester_sub : string)
    (note : option string) (replace_note : bool) : fres RoomDb :=
  m ← get_meeting d meeting_id;
  _ ← _ensure_not_closed m;
  _ ← raise_if (negb (existsb (λ p, bool_decide (pr_id p = principal_id)) (_current_members d (me_gremium_id m))))
        NotFoundError;
  let '(d, delegated) := if bool_decide (status = "present")
                         then _delegated d meeting_id principal_id requester_sub else (d, false) in
  _ ← raise_if delegated (ConflictError "delegation_active");
  let existing := _record d meeting_id principal_id in
  Ok (room_audit (attendance_audit "attendance_set" requester_sub meeting_id principal_id
                    [("status", change_of (mt_status <$> existing) (Some status));
                     ("source", change_of (mt_source <$> existing) (Some "lead"))])
        (_write existing (MkAttendance meeting_id principal_id status "lead"
                            (_resolve_note status existing note replace_note)) d)).
Definition reset (d : RoomDb) (meeting_id principal_id requester_sub : string) : fres RoomDb :=
  m ← get_meeting d meeting_id;
  _ ← _ensure_not_closed m;
  match _record d meeting_id principal_id with
  | None => Ok d
  | Some a =>
      let d := room_audit (attendance_audit "attendance_reset" requester_sub meeting_id principal_id
                             [("status", change_of (Some (mt_status a)) None);
                              ("source", change_of (Some (mt_source a)) None)]) d in
      Ok (with_attendance (filter (λ a, ¬ (mt_meeting_id a = meeting_id ∧ mt_principal_id a = principal_id))
                             (attendance d)) d)
  end.
