(* ===== verification/DelegationService.v ===== *)
(** The delegation service ([delegations/service.py]): the delegation of a member before the
    meeting, the lead entry during it, the revoke, the recipients, the view of one vote, and the
    substitute pool of a Gremium. *)

From stdpp Require Import gmap strings.
From S2P Require Import Prelude PyStr PyValue FlowDb Decision Policy Room Delegations.

Definition _ADMIN_PERM : string := "admin.delegations".
Definition _POOL_MANAGE_PERM : string := "session.manage".
Definition _MISSING_STATES : list string := ["excused"; "absent"].
Definition VALIDATION_ERROR : FlowError := ValidationProblem "validation_error".
Definition MINUTE : Z := 60 * 1000000.

Definition _membership_with_vote_cast (d : RoomDb) (principal_id gremium : string) : bool :=
  existsb (λ m, bool_decide (gm_principal_id m = principal_id) && bool_decide (gm_gremium_id m = gremium) &&
                bool_decide ("vote.cast" ∈ gm_permissions m)) (memberships (cfg d)).
Definition _independently_eligible (d : RoomDb) (principal_id gremium : string) : bool :=
  _membership_with_vote_cast d principal_id gremium.
Definition _member_ids (d : RoomDb) (gremium : string) : list string :=
  gm_principal_id <$> filter (λ m, gm_gremium_id m = gremium) (memberships (cfg d)).
Definition _gremium (d : RoomDb) (id : string) : fres Gremium :=
  match gremium_by_id d id with Some g => Ok g | None => Err NotFoundError end.
Definition or_not_found {A} (o : option A) : fres A := match o with Some x => Ok x | None => Err NotFoundError end.
Definition or_forbidden {A} (o : option A) : fres A := match o with Some x => Ok x | None => Err ForbiddenError end.

Definition _assert_can_view_gremium (d : RoomDb) (gremium : string) (actor : Principal) : fres () :=
  raise_if (negb (has actor _ADMIN_PERM || has actor "meeting.view_all" ||
                  bool_decide (gremium ∈ gremium_member_ids (cfg d) (sub actor)) ||
                  bool_decide (gremium ∈ substitute_gremien_for_sub d (sub actor)) ||
                  holds_gremium_permission (cfg d) actor _POOL_MANAGE_PERM gremium)) ForbiddenError.
Definition _can_manage (d : RoomDb) (gremium : string) (actor : Principal) : bool :=
  has_gremium_permission (cfg d) actor _POOL_MANAGE_PERM gremium.
Definition _revocable (m : Meeting) (now : Z) (lead own : bool) : bool :=
  if lead && bool_decide (me_status m = "live") then true
  else if negb own || negb (bool_decide (me_status m = "planned")) then false
  else match me_start m with None => true | Some start => now <? start end.
Definition _direction (x : MeetingDelegation) (me_id : option string) : option string :=
  match me_id with
  | None => None
  | Some me => if decide (dl_delegator_id x = me) then Some "outgoing"
               else if decide (dl_delegate_id x = me) then Some "incoming" else None
  end.

(** ** The insert and its chain rules *)
Definition chain_check (delegator delegate : string) (delegate_voting : bool) (x : MeetingDelegation) : fres () :=
  _ ← raise_if (bool_decide (dl_delegator_id x = delegator)) (ConflictError "delegation_exists");
  _ ← raise_if (bool_decide (dl_delegate_id x = delegator)) VALIDATION_ERROR;
  _ ← raise_if (bool_decide (dl_delegator_id x = delegate)) VALIDATION_ERROR;
  raise_if (delegate_voting && dl_voting x && bool_decide (dl_delegate_id x = delegate))
    (ConflictError "delegate_already_voting").
Definition _lead_data (delegator_id : string) (by_lead : bool) : list (string * pyval) :=
  if by_lead then [("delegatorId", PStr delegator_id); ("byLead", PBool true)] else [].
Definition _insert (d : RoomDb) (meeting : Meeting) (gremium : Gremium) (delegator delegate : PrincipalRow)
    (delegate_voting via_pool : bool) (actor : Principal) (by_lead : bool) (row_id : string)
    : fres (RoomDb * MeetingDelegation) :=
  _ ← for_each (chain_check (pr_id delegator) (pr_id delegate) delegate_voting) (delegations_in d (me_id meeting));
  let row := MkDelegation row_id (me_id meeting) (gr_id gremium) (pr_id delegator) (pr_id delegate)
               delegate_voting via_pool (Some (sub actor)) in
  Ok (room_audit
        (MkAudit (Some (sub actor)) "delegation_grant" "meeting_delegation" row_id
           ([("meetingId", PStr (me_id meeting)); ("gremiumId", PStr (gr_id gremium));
             ("delegateId", PStr (pr_id delegate)); ("delegateVoting", PBool delegate_voting);
             ("viaPool", PBool via_pool)] ++ _lead_data (pr_id delegator) by_lead))
        (with_delegations (delegations d ++ [row]) d), row).

(** ** Create *)
Record DelegationCreate := MkDelegationCreate {
  dc_meeting_id : string;
  dc_delegate_id : string;
  dc_delegate_voting : bool;
  dc_delegator_id : option string
}.
Definition _create_by_lead (d : RoomDb) (payload : DelegationCreate) (delegator_id : string)
    (actor : Principal) (row_id : string) : fres (RoomDb * MeetingDelegation) :=
  meeting ← get_meeting d (dc_meeting_id payload);
  gremium ← _gremium d (me_gremium_id meeting);
  _ ← raise_if (negb (_can_manage d (gr_id gremium) actor)) ForbiddenError;
  _ ← raise_if (negb (gr_allow_vote_delegation gremium)) ForbiddenError;
  _ ← raise_if (negb (bool_decide (me_status meeting = "live"))) VALIDATION_ERROR;
  delegator ← or_not_found (principal_by_id d delegator_id);
  delegate ← or_not_found (principal_by_id d (dc_delegate_id payload));
  _ ← raise_if (bool_decide (pr_id delegate = pr_id delegator)) VALIDATION_ERROR;
  _ ← raise_if (bool_decide (pr_sub delegate = sub actor)) ForbiddenError;
  _ ← raise_if (negb (_independently_eligible d (pr_id delegator) (gr_id gremium))) ForbiddenError;
  _ ← raise_if match _record d (me_id meeting) (pr_id delegator) with
               | Some a => negb (bool_decide (mt_status a ∈ _MISSING_STATES))
               | None => false
               end VALIDATION_ERROR;
  _ ← raise_if (negb (bool_decide (pr_id delegate ∈ substitutes_for d (gr_id gremium) (pr_id delegator))))
        ForbiddenError;
  _insert d meeting gremium delegator delegate (dc_delegate_voting payload) true actor true row_id.
Definition create (d : RoomDb) (payload : DelegationCreate) (actor : Principal) (now : Z) (row_id : string)
    : fres (RoomDb * MeetingDelegation) :=
  match dc_delegator_id payload with
  | Some delegator_id => _create_by_lead d payload delegator_id actor row_id
  | None =>
      meeting ← get_meeting d (dc_meeting_id payload);
      gremium ← _gremium d (me_gremium_id meeting);
      _ ← raise_if (negb (gr_allow_vote_delegation gremium)) ForbiddenError;
      _ ← raise_if (negb (bool_decide (me_status meeting = "planned"))) VALIDATION_ERROR;
      me ← or_forbidden (principal_by_sub d (sub actor));
      delegate ← or_not_found (principal_by_id d (dc_delegate_id payload));
      _ ← raise_if (bool_decide (pr_id delegate = pr_id me)) VALIDATION_ERROR;
      _ ← raise_if (negb (_independently_eligible d (pr_id me) (gr_id gremium))) ForbiddenError;
      let via_pool := bool_decide (pr_id delegate ∈ substitutes_for d (gr_id gremium) (pr_id me)) in
      _ ← raise_if (negb via_pool && negb (bool_decide (pr_id delegate ∈ _member_ids d (gr_id gremium))) &&
                    negb (gr_delegation_allow_external gremium)) ForbiddenError;
      _ ← raise_if match me_start meeting with
                   | Some start =>
                       (if via_pool then start else start - gr_delegation_lead_minutes gremium * MINUTE) <=? now
                   | None => false
                   end VALIDATION_ERROR;
      _insert d meeting gremium me delegate (dc_delegate_voting payload) via_pool actor false row_id
  end.

(** ** Revoke *)
Definition _revoke_as_lead (d : RoomDb) (row : MeetingDelegation) (actor : Principal) (now : Z) : fres bool :=
  meeting ← get_meeting d (dl_meeting_id row);
  if bool_decide (me_status meeting = "live") && _can_manage d (me_gremium_id meeting) actor then Ok true
  else
    _ ← raise_if (negb (bool_decide (Some (dl_delegator_id row) = pr_id <$> principal_by_sub d (sub actor))))
          ForbiddenError;
    _ ← raise_if (negb (_revocable meeting now false true)) VALIDATION_ERROR;
    Ok false.
Definition revoke (d : RoomDb) (delegation_id : string) (actor : Principal) (now : Z) : fres RoomDb :=
  row ← or_not_found (find_by dl_id delegation_id (delegations d));
  by_lead ← (if has actor _ADMIN_PERM then Ok false else _revoke_as_lead d row actor now);
  Ok (room_audit
        (MkAudit (Some (sub actor)) "delegation_revoke" "meeting_delegation" delegation_id
           (("meetingId", PStr (dl_meeting_id row)) :: _lead_data (dl_delegator_id row) by_lead))
        (delete_delegation delegation_id d)).

(** ** Reads *)
(** The rows that the actor sees in the list. *)
Definition list_rows (d : RoomDb) (actor : Principal) (meeting_id : option string) : list MeetingDelegation :=
  let me := principal_by_sub d (sub actor) in
  let lead := match meeting_id ≫= meeting_by_id d with
              | Some m => _can_manage d (me_gremium_id m) actor
              | None => false
              end in
  let sees_all := has actor _ADMIN_PERM || lead in
  filter (λ x, (meeting_id = None ∨ meeting_id = Some (dl_meeting_id x)) ∧
               (sees_all = true ∨ Some (dl_delegator_id x) = pr_id <$> me ∨ Some (dl_delegate_id x) = pr_id <$> me))
    (delegations d).
Record VoteDelegationStatus := MkVoteDelegationStatus {
  vs_blocked : bool;
  vs_delegated_to : option string;
  vs_exercising : bool;
  vs_delegated_by : option string
}.
(** The view of one vote; the principals stand for their names. *)
Definition delegation_vote_status (d : RoomDb) (vote_id : string) (actor : Principal) : fres VoteDelegationStatus :=
  vote ← or_not_found (votes (flow_db d) !! vote_id);
  let empty := MkVoteDelegationStatus false None false None in
  match vo_meeting_id vote, principal_by_sub d (sub actor), parse_uuid (vo_eligible_group vote) with
  | Some meeting, Some me, Some gremium =>
      let rows := filter (λ x, dl_meeting_id x = meeting ∧ dl_gremium_id x = gremium ∧ dl_voting x = true ∧
                               is_Some (principal_by_id d (dl_delegate_id x)) ∧
                               (dl_delegator_id x = pr_id me ∨ dl_delegate_id x = pr_id me)) (delegations d) in
      let incoming := dl_delegator_id <$> filter (λ x, dl_delegator_id x ≠ pr_id me) rows in
      let outgoing := dl_delegate_id <$> filter (λ x, dl_delegator_id x = pr_id me ∧
                                                      pool_seat_clause d x = false) rows in
      let free := match incoming with
                  | [] => pool_seat_for d (sub actor) (vo_meeting_id vote) (vo_eligible_group vote)
                  | _ => None
                  end in
      Ok (MkVoteDelegationStatus (negb (bool_decide (outgoing = []))) (last outgoing)
            (negb (bool_decide (incoming = [])) || bool_decide (is_Some free))
            match last incoming with Some i => Some i | None => pr_id <$> free end)
  | _, _, _ => Ok empty
  end.

(** ** The pool of a Gremium *)
Definition _require_pool_manage (d : RoomDb) (gremium : string) (actor : Principal) : fres () :=
  if has actor _ADMIN_PERM then Ok ()
  else raise_if (negb (holds_gremium_permission (cfg d) actor _POOL_MANAGE_PERM gremium)) ForbiddenError.
Record SubstituteCreate := MkSubstituteCreate {
  sc_gremium_id : string;
  sc_member_id : option string;
  sc_substitute_id : string
}.
Definition substitute_create (d : RoomDb) (payload : SubstituteCreate) (actor : Principal) (row_id : string)
    : fres RoomDb :=
  _ ← _require_pool_manage d (sc_gremium_id payload) actor;
  _ ← _gremium d (sc_gremium_id payload);
  substitute ← or_not_found (principal_by_id d (sc_substitute_id payload));
  _ ← match sc_member_id payload with
      | Some m => member ← or_not_found (principal_by_id d m);
                  raise_if (bool_decide (pr_id member = pr_id substitute)) VALIDATION_ERROR
      | None => Ok ()
      end;
  _ ← raise_if (existsb (λ e, bool_decide (ds_gremium_id e = sc_gremium_id payload) &&
                              bool_decide (ds_substitute_id e = pr_id substitute) &&
                              bool_decide (ds_member_id e = sc_member_id payload)) (substitutes d))
        (ConflictError "substitute_exists");
  let row := MkSubstitute row_id (sc_gremium_id payload) (sc_member_id payload) (pr_id substitute)
               (Some (sub actor)) in
  Ok (room_audit
        (MkAudit (Some (sub actor)) "delegation_substitute_add" "delegation_substitute" row_id
           [("gremiumId", PStr (sc_gremium_id payload)); ("memberId", str_or_none (sc_member_id payload));
            ("substituteId", PStr (pr_id substitute))])
        (with_substitutes (substitutes d ++ [row]) d)).
Definition substitute_delete (d : RoomDb) (substitute_id : string) (actor : Principal) : fres RoomDb :=
  row ← or_not_found (find_by ds_id substitute_id (substitutes d));
  _ ← _require_pool_manage d (ds_gremium_id row) actor;
  Ok (room_audit
        (MkAudit (Some (sub actor)) "delegation_substitute_remove" "delegation_substitute" substitute_id
           [("gremiumId", PStr (ds_gremium_id row))])
        (with_substitutes (filter (λ e, ds_id e ≠ substitute_id) (substitutes d)) d)).
(** The recipients of a delegation: the members and the pool of the caller, without the caller. *)
Definition candidate_ids_of (d : RoomDb) (gremium me_id : string) : list string :=
  filter (λ p, p ≠ me_id) (remove_dups (_member_ids d gremium ++ substitutes_for d gremium me_id)).
(** The pool substitutes of a member for the lead entry, without the member and the lead. *)
Definition _lead_recipients (d : RoomDb) (gremium delegator_id : string) (actor : Principal)
    : fres (list string) :=
  _ ← raise_if (negb (_can_manage d gremium actor)) ForbiddenError;
  let me := principal_by_sub d (sub actor) in
  Ok (filter (λ p, p ≠ delegator_id ∧ Some p ≠ pr_id <$> me) (remove_dups (substitutes_for d gremium delegator_id))).
