(* ===== verification/VoteRows.v ===== *)
(** The rows of a vote and its counts ([voting/service.py], [voting/poll.py]): the stored rules,
    the tally and the turnout, the attendance, the Gremium of a vote, and the class of the rights
    that a meeting lends to a vote.

    What a meeting lends, the delegated rights and the check-in of a voter, is the class
    [VotingRights]; [VotingRightsLaws] states what the vote service relies on.  A [config]
    column holds the object of its model ([AnyConfig]), a [proposal] its decision. *)

From stdpp Require Import gmap strings.
From S2P Require Import Prelude PyStr PyNum PyValue JsonText VoteConfigs Tally Election FlowDb Decision.
From S2P Require Import FlowEngine Policy Room.

(** ** The rights that a meeting gives *)
Class VotingRights := {
  (** Whether the own vote is given away, and the [sub] of the represented member. *)
  rights_check : RoomDb → string → option string → string → bool * option string;
  (** The [sub] of the member whose free seat the caller takes, with the row of the seat. *)
  claim_seat : RoomDb → string → option string → string → string → option (string * RoomDb);
  free_seat : RoomDb → string → option string → string → option string;
  (** The own ballot of a member frees its seat and checks the member in. *)
  join_meeting : RoomDb → string → string → fres RoomDb
}.
(** The tables that decide a vote. *)
Definition same_votes (d d' : RoomDb) : Prop :=
  cfg d' = cfg d ∧ votes (flow_db d') = votes (flow_db d) ∧
  applications (flow_db d') = applications (flow_db d) ∧
  voted_markers d' = voted_markers d ∧ secret_ballots d' = secret_ballots d.
Class VotingRightsLaws `{VotingRights} := {
  claim_same d s m g row v d' : claim_seat d s m g row = Some (v, d') → same_votes d d';
  join_same d m s d' : join_meeting d m s = Ok d' → same_votes d d';
  join_ok d m s : is_Some (meeting_by_id d m) → ∃ d', join_meeting d m s = Ok d';
  free_seat_claim d s m g row : free_seat d s m g = fst <$> claim_seat d s m g row
}.

(** ** Rows *)
Definition ALREADY_VOTED : string := "already_voted".
Definition VOTE_GREMIUM_MISMATCH : string := "vote_gremium_mismatch".
Definition vote_gremium_mismatch_error : FlowError := ConflictError VOTE_GREMIUM_MISMATCH.
Definition GUEST_VOTER_PREFIX : string := "guest:".
Definition guest_voter_sub (guest_id : string) : string := GUEST_VOTER_PREFIX +:+ guest_id.
Definition VALIDATION : FlowError := ValidationProblem "validation_error".
(** An exception of the counting or of a stored row. *)
Definition escaped {A} (c : res pyexc A) : fres A := match c with Ok a => Ok a | Err e => Err (FlowEscaped e) end.

Definition as_vote_config (c : AnyConfig) : VoteConfig :=
  match c with
  | MotionRules c => c
  | ElectionRules c => ElectionConfig_as_vote_config c
  | PollRules c => PollConfig_as_vote_config c
  end.
Definition _vote_config (c : AnyConfig) : VoteConfig := as_vote_config c.
Definition _kind_of (c : AnyConfig) : VoteKind :=
  match c with ElectionRules _ => election | PollRules _ => poll | MotionRules _ => motion end.
Definition kind_text (k : VoteKind) : string :=
  match k with motion => "motion" | election => "election" | poll => "poll" end.
(** [VotingService._config]. *)
Definition vote_config (v : Vote) : VoteConfig := as_vote_config (vb_config (vo_body v)).
Definition election_config (v : Vote) : fres ElectionConfig :=
  match vb_config (vo_body v) with ElectionRules c => Ok c | _ => Err (FlowEscaped ValueError) end.
Definition poll_config (v : Vote) : fres PollConfig :=
  match vb_config (vo_body v) with PollRules c => Ok c | _ => Err (FlowEscaped ValueError) end.
Definition is_poll (v : Vote) : bool := bool_decide (v_kind (vo_row v) = poll).
Definition is_election_vote (v : Vote) : bool := is_election (vo_row v).
Definition secret_only (secret : option bool) : fres bool :=
  match secret with Some false => Err (ValidationProblem "open_vote_unavailable") | _ => Ok true end.

Definition put_vote (id : string) (v : Vote) (d : RoomDb) : RoomDb :=
  with_flow (with_votes (<[id := v]> (votes (flow_db d))) (flow_db d)) d.
Definition with_status (s : VoteStatus) (r : VoteRow) : VoteRow :=
  MkVoteRow (v_kind r) s (v_result r) (v_election_result r) (v_parent_vote_id r).
Definition with_body (b : VoteBody) (v : Vote) : Vote :=
  MkVote (vo_row v) b (vo_application_id v) (vo_meeting_id v) (vo_eligible_group v) (vo_opens_state_id v)
    (vo_created_at v) (vo_closed_at v).
Definition _get_vote (d : RoomDb) (id : string) : fres Vote :=
  match votes (flow_db d) !! id with Some v => Ok v | None => Err NotFoundError end.
Definition _get_application (d : RoomDb) (id : string) (confirmed_only : bool) : fres Application :=
  match applications (flow_db d) !! id with
  | Some a => if confirmed_only && negb (ap_email_confirmed a) then Err NotFoundError else Ok a
  | None => Err NotFoundError
  end.
Definition _audit_refs (v : Vote) : list (string * pyval) :=
  [("applicationId", str_or_none (vo_application_id v)); ("meetingId", str_or_none (vo_meeting_id v));
   ("eligibleGroup", PStr (vo_eligible_group v))].
Definition vote_audit (actor : option string) (action vote_id : string) (data : list (string * pyval))
    (d : RoomDb) : RoomDb := room_audit (MkAudit actor action "vote" vote_id data) d.

(** The meeting lock: a live meeting, or a planned one for a prepared draft. *)
Definition _lock_live_meeting (d : RoomDb) (meeting_id : string) (agenda_item_id : option string)
    (planned_ok : bool) : fres () :=
  m ← get_meeting d meeting_id;
  _ ← raise_if (bool_decide (me_status m = "planned") && negb planned_ok) (ConflictError "meeting_not_started");
  _ ← raise_if (bool_decide (me_status m = "closed")) (ConflictError "meeting_closed");
  match agenda_item_id with
  | Some item =>
      raise_if (negb (existsb (λ i, bool_decide (ai_id i = item) && bool_decide (ai_meeting_id i = meeting_id))
                        (agenda_items (flow_db d)))) NotFoundError
  | None => Ok ()
  end.

(** ** Counting *)
Definition choices_of (d : RoomDb) (vote_id : string) : list string :=
  (filter (λ b, b.1 = vote_id) (secret_ballots d)).*2.
Definition markers_of (d : RoomDb) (vote_id : string) : list string :=
  (filter (λ m, m.1 = vote_id) (voted_markers d)).*2.
Definition _aggregate (d : RoomDb) (vote_id : string) (config : VoteConfig) : counts_t :=
  tally (options config) (Some <$> choices_of d vote_id).
Definition _ballot_count (d : RoomDb) (vote_id : string) : Z :=
  Z.of_nat (length (choices_of d vote_id)) + Z.of_nat (length (markers_of d vote_id)).
Definition _election_outcome (d : RoomDb) (vote_id : string) (v : Vote) (eligible : Z) : fres ElectionOutcome :=
  config ← election_config v;
  escaped (outcome_of config (Some <$> choices_of d vote_id) eligible).
Definition _poll_outcome (d : RoomDb) (vote_id : string) (v : Vote) : fres PollOutcome :=
  config ← poll_config v;
  escaped (tally_poll (Some <$> choices_of d vote_id) config).
Definition eligible_of (v : Vote) : Z := default 0 (vb_eligible_count (vo_body v)).

Definition _present_count (d : RoomDb) (v : Vote) : Z :=
  match vo_meeting_id v with
  | None => 0
  | Some m => Z.of_nat (length (filter (λ a, mt_meeting_id a = m ∧ mt_status a = "present") (attendance d)))
  end.
Definition admitted_guests (d : RoomDb) (meeting : option string) : list string :=
  mg_id <$> filter (λ g, Some (mg_meeting_id g) = meeting ∧ mg_status g = "admitted") (guests d).
Definition _admitted_guest_count (d : RoomDb) (v : Vote) : Z :=
  match vo_meeting_id v with None => 0 | Some _ => Z.of_nat (length (admitted_guests d (vo_meeting_id v))) end.
Definition guest_voters (d : RoomDb) (vote_id : string) : list string :=
  filter (λ s, startswith s GUEST_VOTER_PREFIX = true) (markers_of d vote_id).
Definition _guest_attendance (d : RoomDb) (vote_id : string) (v : Vote) (config : VoteConfig) : Z :=
  if negb (guests_vote config) then _admitted_guest_count d v
  else Z.of_nat (length (remove_dups ((guest_voter_sub <$> admitted_guests d (vo_meeting_id v)) ++
                                      guest_voters d vote_id))).
Record _Counted := MkCounted {
  ct_counts : counts_t;
  ct_voted : Z;
  ct_quorum_met : bool;
  ct_leading : option string
}.
Definition _counted (d : RoomDb) (vote_id : string) (v : Vote) (config : VoteConfig) (counts : counts_t)
    (eligible : Z) : fres _Counted :=
  match v_kind (vo_row v) with
  | election =>
      ev ← _election_outcome d vote_id v eligible;
      Ok (MkCounted (ElectionOutcome_display_counts ev) (eo_ballots ev) (eo_quorum_met ev) None)
  | poll =>
      pv ← _poll_outcome d vote_id v;
      Ok (MkCounted (PollOutcome_display_counts pv) (po_ballots pv) true None)
  | motion =>
      outcome ← escaped (result config counts eligible);
      Ok (MkCounted counts (zsum (counts.*2)) (o_quorum_met outcome) (o_leading outcome))
  end.
Definition _attendance (d : RoomDb) (vote_id : string) (v : Vote) (config : VoteConfig)
    : option Z * option Z * Z :=
  if bool_decide (vote_status v = closed)
  then (vb_present_members (vo_body v), vb_present_guests (vo_body v), 0)
  else match vo_meeting_id v with
       | Some _ =>
           let members := _present_count d v in
           let guests := _guest_attendance d vote_id v config in
           (Some members, Some guests, if guests_vote config then members + guests else members)
       | None => (None, None, 0)
       end.
Record TallyOut := MkTallyOut {
  t_counts : counts_t;
  t_eligible : Z;
  t_voted : Z;
  t_present : Z;
  t_revealed : bool;
  t_quorum_met : bool;
  t_leading : option string;
  t_result : option string;
  t_failed_reason : option FailedReason;
  t_present_members : option Z;
  t_present_guests : option Z
}.
Definition _tally_out (d : RoomDb) (vote_id : string) (v : Vote) (config : VoteConfig) (counts : counts_t)
    (eligible : Z) : fres TallyOut :=
  counted ← _counted d vote_id v config counts eligible;
  let '(members, guests, present) := _attendance d vote_id v config in
  let revealed := bool_decide (vote_status v = closed) in
  Ok (MkTallyOut (if revealed then ct_counts counted else []) eligible (ct_voted counted) present revealed
        (ct_quorum_met counted) (if revealed then ct_leading counted else None) None None members guests).
(** [_with_stored_result]; only the text "rejected" has a reason. *)
Definition _with_stored_result (t : TallyOut) (v : Vote) : TallyOut :=
  match v_result (vo_row v) with
  | Some stored =>
      if bool_decide (vote_status v = closed) then
        MkTallyOut (t_counts t) (t_eligible t) (t_voted t) (t_present t) (t_revealed t) (t_quorum_met t)
          (t_leading t) (Some stored)
          (if bool_decide (stored = "rejected")
           then Some (if t_quorum_met t then by_majority else by_quorum) else None)
          (t_present_members t) (t_present_guests t)
      else t
  | None => t
  end.
(** [VotingService.get]: the tally of the vote as a reader sees it. *)
Definition get (d : RoomDb) (vote_id : string) : fres TallyOut :=
  v ← _get_vote d vote_id;
  let config := vote_config v in
  t ← _tally_out d vote_id v config (_aggregate d vote_id config) (eligible_of v);
  Ok (_with_stored_result t v).

(** ** The Gremium of a vote *)
Definition _vote_gremium_id (d : RoomDb) (meeting_id : option string) (eligible_group : string)
    : option string :=
  match meeting_id ≫= meeting_by_id d with
  | Some m => Some (me_gremium_id m)
  | None => parse_uuid eligible_group
  end.
Definition vote_gremium_mismatch (d : RoomDb) (v : Vote) : bool :=
  match vo_application_id v ≫= (λ a, applications (flow_db d) !! a) with
  | None => false
  | Some app =>
      match ap_current_state_id app ≫= state_of (flow_db d) with
      | Some s =>
          if negb (is_vote_kind s) then false
          else negb (bool_decide (is_Some (ap_vote_gremium_id app))) ||
               negb (bool_decide (_vote_gremium_id d (vo_meeting_id v) (vo_eligible_group v) =
                                  ap_vote_gremium_id app))
      | None => false
      end
  end.
(** The Gremium that decides on the application. *)
Definition _application_gremium_id (d : RoomDb) (app : Application) : option string :=
  match ap_current_state_id app with
  | None => ap_gremium_id app
  | Some s =>
      match state_of (flow_db d) s with
      | Some st =>
          if is_vote_kind st then ap_vote_gremium_id app
          else match fixed_gremium_ref st with Some g => Some g | None => ap_gremium_id app end
      | None => ap_gremium_id app
      end
  end.
Definition _check_proposal (app : Application) (proposal : option DecisionIn) : fres () :=
  match proposal with
  | Some p => check_approved_amount (ap_amount app) (approved_amount p)
  | None => Ok ()
  end.
