(* ===== verification/VoteService.v ===== *)
(** The life cycle of a vote ([voting/service.py], [voting/poll.py]): create, edit, open, cast,
    cancel, close and delete.

    The row lock of the vote serializes its writers, so each operation is one step on the
    tables; an error leaves them as they were.  Ids of new rows and the time are arguments. *)

From stdpp Require Import gmap strings.
From S2P Require Import Prelude PyStr PyNum PyValue JsonText VoteConfigs Tally Election FlowDb Decision.
From S2P Require Import FlowEngine Policy Room VoteRows.

(** ** Create *)
Record VoteCreateInternal := MkVoteCreateInternal {
  vc_config : AnyConfig;
  vc_eligible_group : string;
  vc_question : option string;
  vc_parent_vote_id : option string;
  vc_round : Z;
  vc_repeat_of_id : option string;
  vc_attempt : Z;
  vc_eligible_count : option Z;
  vc_opens_state_id : option string;
  vc_closes_at : option Z;
  vc_result_branch_transition_id : option string;
  vc_proposal : option DecisionIn
}.
Definition mode_text (m : PollMode) : string :=
  match m with single => "single" | multi => "multi" | date => "date" end.
(** [poll.audit_data]. *)
Definition poll_audit_data (meeting_id : option string) (group : string) (c : PollConfig)
    : list (string * pyval) :=
  [("meetingId", str_or_none meeting_id); ("eligibleGroup", PStr group); ("kind", PStr "poll");
   ("mode", PStr (mode_text (mode c))); ("options", PInt (Z.of_nat (length (p_options c))));
   ("secret", PBool (p_secret c))].
(** The new row of a vote. *)
Definition draft_vote (application_id meeting_id agenda_item_id : option string) (payload : VoteCreateInternal)
    (now : Z) : Vote :=
  MkVote (MkVoteRow (_kind_of (vc_config payload)) draft None None (vc_parent_vote_id payload))
    (MkVoteBody agenda_item_id (vc_question payload) (vc_config payload) (vc_proposal payload)
       (vc_eligible_count payload) None (vc_closes_at payload) (vc_result_branch_transition_id payload)
       None None (vc_round payload) None None (vc_repeat_of_id payload) (vc_attempt payload))
    application_id meeting_id (vc_eligible_group payload) (vc_opens_state_id payload) now None.
Definition _insert (d : RoomDb) (application_id meeting_id agenda_item_id : option string)
    (payload : VoteCreateInternal) (vote_id : string) (actor : option string) (now : Z) : RoomDb :=
  let v := draft_vote application_id meeting_id agenda_item_id payload now in
  let d := put_vote vote_id v d in
  match vc_config payload with
  | PollRules c =>
      vote_audit actor "poll_created" vote_id (poll_audit_data meeting_id (vc_eligible_group payload) c) d
  | _ => d
  end.

Record VoteCreate := MkVoteCreate {
  cr_config : VoteConfig;
  (** [config.secret] as the client sent it. *)
  cr_secret_sent : option bool;
  cr_eligible_group : string;
  cr_question : option string;
  cr_opens_state_id : option string;
  cr_closes_at : option Z;
  cr_result_branch_transition_id : option string;
  cr_proposal : option DecisionIn
}.
Definition _gremium_exists (d : RoomDb) (id : string) : bool := bool_decide (is_Some (gremium_by_id d id)).
Definition make_secret (secret : bool) (c : VoteConfig) : VoteConfig :=
  MkVoteConfig (options c) (majority_rule c) (quorum c) (abstain_counts_quorum c) secret (tie_break c)
    (guests_vote c).
Definition create_vote (d : RoomDb) (application_id : string) (payload : VoteCreate) (principal : Principal)
    (vote_id : string) (now : Z) : fres RoomDb :=
  _ ← raise_if (guests_vote (cr_config payload)) (ValidationProblem "guests_vote_unavailable");
  _ ← raise_if (negb (bool_decide (tie_break (cr_config payload) = rejected)))
        (ValidationProblem "tie_break_unavailable");
  secret ← secret_only (cr_secret_sent payload);
  let config := make_secret secret (cr_config payload) in
  let gremium_id := cr_eligible_group payload in
  _ ← raise_if (negb (_gremium_exists d gremium_id)) (ValidationProblem "eligible_group_invalid");
  application ← _get_application d application_id true;
  let expected := _application_gremium_id d application in
  _ ← raise_if (bool_decide (expected = None) && negb (admin_bypass principal "vote.manage")) ForbiddenError;
  _ ← raise_if (bool_decide (is_Some expected) && negb (bool_decide (expected = Some gremium_id)))
        (ValidationProblem "eligible_group_mismatch");
  _ ← _check_proposal application (cr_proposal payload);
  Ok (_insert d (Some application_id) None None
        (MkVoteCreateInternal (MotionRules config) gremium_id (cr_question payload) None 1 None 1
           (Some (vote_eligible_count d gremium_id)) (cr_opens_state_id payload) (cr_closes_at payload)
           (cr_result_branch_transition_id payload) (cr_proposal payload)) vote_id None now).
Definition create_internal (d : RoomDb) (application_id : option string) (payload : VoteCreateInternal)
    (meeting_id agenda_item_id : option string) (planned_ok : bool) (actor : option string)
    (vote_id : string) (now : Z) : fres RoomDb :=
  _ ← raise_if (bool_decide (application_id = None) && bool_decide (is_Some (vc_proposal payload)))
        (ValidationProblem CODE_NOT_ALLOWED);
  _ ← match meeting_id with
      | Some m => _lock_live_meeting d m agenda_item_id planned_ok
      | None => Ok ()
      end;
  _ ← match application_id with
      | Some a => app ← _get_application d a false; _check_proposal app (vc_proposal payload)
      | None => Ok ()
      end;
  Ok (_insert d application_id meeting_id agenda_item_id payload vote_id actor now).
Definition update_draft (d : RoomDb) (vote_id : string) (payload : VoteCreateInternal) (meeting_id : string)
    (actor : option string) : fres RoomDb :=
  vote ← _get_vote d vote_id;
  _ ← raise_if (negb (bool_decide (vo_meeting_id vote = Some meeting_id))) NotFoundError;
  _ ← raise_if (negb (bool_decide (vote_status vote = draft))) (ConflictError "vote_not_editable");
  _ ← raise_if (bool_decide (vo_application_id vote = None) && bool_decide (is_Some (vc_proposal payload)))
        (ValidationProblem CODE_NOT_ALLOWED);
  _ ← match vo_application_id vote with
      | Some a => app ← _get_application d a false; _check_proposal app (vc_proposal payload)
      | None => Ok ()
      end;
  let kind := _kind_of (vc_config payload) in
  let r := vo_row vote in
  let b := vo_body vote in
  let body := MkVoteBody (vb_agenda_item_id b) (vc_question payload) (vc_config payload) (vc_proposal payload)
                (vc_eligible_count payload) (vb_opens_at b) (vb_closes_at b) (vb_result_branch_transition_id b)
                (vb_present_members b) (vb_present_guests b) (vb_round b) (vb_poll_result b) (vb_reminded_at b)
                (vb_repeat_of_id b) (vb_attempt b) in
  let vote' := with_body body
                 (set_row (MkVoteRow kind (v_status r) (v_result r) (v_election_result r) (v_parent_vote_id r)) vote) in
  Ok (vote_audit actor "vote_update" vote_id
        [("kind", PStr (kind_text kind)); ("meetingId", PStr meeting_id);
         ("agendaItemId", str_or_none (vb_agenda_item_id b));
         ("applicationId", str_or_none (vo_application_id vote))] (put_vote vote_id vote' d)).

(** ** Open *)
Definition MIN_RUNTIME : Z := 3600 * 1000000.
Definition CLOSES_AT_TOO_SOON : FlowError := ValidationProblem "closes_at_too_soon".
Definition _check_end (closes_at now : Z) : fres () := raise_if (closes_at <? now + MIN_RUNTIME) CLOSES_AT_TOO_SOON.
Definition check_open (v : Vote) (now : Z) : fres () :=
  if negb (is_poll v) || bool_decide (is_Some (vo_meeting_id v)) then Ok ()
  else match vb_closes_at (vo_body v) with
       | None => Err CLOSES_AT_TOO_SOON
       | Some c => _check_end c now
       end.
Definition opened (eligible_count : option Z) (now : Z) (b : VoteBody) : VoteBody :=
  MkVoteBody (vb_agenda_item_id b) (vb_question b) (vb_config b) (vb_proposal b)
    match eligible_count with Some n => Some n | None => vb_eligible_count b end (Some now) (vb_closes_at b)
    (vb_result_branch_transition_id b) (vb_present_members b) (vb_present_guests b) (vb_round b)
    (vb_poll_result b) (vb_reminded_at b) (vb_repeat_of_id b) (vb_attempt b).
Definition open_vote (d : RoomDb) (vote_id : string) (now : Z) (actor : option string) (eligible_count : option Z)
    : fres RoomDb :=
  _ ← match votes (flow_db d) !! vote_id ≫= vo_meeting_id with
      | Some m => _lock_live_meeting d m None false
      | None => Ok ()
      end;
  vote ← _get_vote d vote_id;
  _ ← raise_if (negb (bool_decide (vote_status vote = draft))) (ConflictError "vote_not_draft");
  _ ← raise_if (vote_gremium_mismatch d vote) vote_gremium_mismatch_error;
  _ ← check_open vote now;
  let vote' := with_body (opened eligible_count now (vo_body vote)) (set_row (with_status open (vo_row vote)) vote) in
  Ok (vote_audit actor "vote_open" vote_id
        (_audit_refs vote ++ [("guestsVote", PBool (guests_vote (vote_config vote)))] ++
         (if is_poll vote then [("kind", PStr "poll")] else [])) (put_vote vote_id vote' d)).

(** ** Cast *)
(** A ballot: a text or a list of ids, or the answers of a date poll. *)
Inductive Ballot := Answer (c : Choice) | Answers (l : list (string * string)).
Definition _DATE_ANSWERS : list string := ["yes"; "maybe"; "no"].
Definition poll_stored_choice (config : PollConfig) (choice : Ballot) : fres string :=
  let known := option_ids config in
  match choice with
  | Answers l =>
      if bool_decide (mode config = date) then
        _ ← raise_if (negb (forallb (λ k, bool_decide (k ∈ known)) l.*1 && forallb (λ k, bool_decide (k ∈ l.*1)) known))
              VALIDATION;
        _ ← raise_if (negb (forallb (λ a, bool_decide (a ∈ _DATE_ANSWERS)) l.*2)) VALIDATION;
        Ok (encode_poll_answers l)
      else Err VALIDATION
  | Answer (CText _) => Err VALIDATION
  | Answer (CList l) =>
      if bool_decide (mode config = date) then Err VALIDATION
      else
        _ ← raise_if (negb (length (fromkeys l) =? length l)%nat) VALIDATION;
        _ ← raise_if (choice_limit config <? Z.of_nat (length l)) VALIDATION;
        _ ← raise_if (negb (forallb (λ k, bool_decide (k ∈ known)) l)) VALIDATION;
        Ok (encode_election_choice l)
  end.
Definition _stored_choice (v : Vote) (config : VoteConfig) (choice : Ballot) : fres string :=
  if is_poll v then c ← poll_config v; poll_stored_choice c choice
  else match choice with
       | Answers _ => Err VALIDATION
       | Answer c =>
           if is_election_vote v then
             config ← election_config v;
             match Election.stored_choice config c with Ok s => Ok s | Err _ => Err VALIDATION end
           else match c with
                | CText s => if bool_decide (s ∈ options config) then Ok s else Err VALIDATION
                | CList _ => Err VALIDATION
                end
       end.
Definition _is_gremium_group (eligible_group : string) : bool := bool_decide (is_Some (parse_uuid eligible_group)).
Definition _may_cast (p : Principal) (eligible_group : string) : bool :=
  if negb (_is_gremium_group eligible_group) then false else in_group p (vote_group_key eligible_group).
Definition can_cast_own (v : Vote) (p : Principal) : bool :=
  bool_decide (scope_permissions p = None) && _may_cast p (vo_eligible_group v).
Definition window_closed (v : Vote) (now : Z) : bool :=
  match vb_closes_at (vo_body v) with Some c => c <=? now | None => false end.
(** The marker and the ballot without an identity. *)
Definition _cast_secret (d : RoomDb) (vote_id voter_sub choice : string) : fres RoomDb :=
  if bool_decide ((vote_id, voter_sub) ∈ voted_markers d) then Err (ConflictError ALREADY_VOTED)
  else Ok (with_ballots (voted_markers d ++ [(vote_id, voter_sub)]) (secret_ballots d ++ [(vote_id, choice)]) d).
Definition my_ballot (d : RoomDb) (vote_id voter_sub : string) : bool :=
  bool_decide ((vote_id, voter_sub) ∈ voted_markers d).

Section Cast.
Context `{VotingRights}.

Definition _represented_voter (d : RoomDb) (p : Principal) (v : Vote) (delegator_sub : option string)
    (row_id : string) : fres (string * RoomDb) :=
  match delegator_sub with
  | Some s => Ok (s, d)
  | None =>
      match claim_seat d (sub p) (vo_meeting_id v) (vo_eligible_group v) row_id with
      | Some r => Ok r
      | None => Err ForbiddenError
      end
  end.
Definition _own_voter (p : Principal) (v : Vote) (blocked : bool) : fres string :=
  _ ← raise_if blocked ForbiddenError;
  _ ← raise_if (negb (_may_cast p (vo_eligible_group v))) ForbiddenError;
  Ok (sub p).
Definition _voter (d : RoomDb) (p : Principal) (v : Vote) (as_delegation : bool) (row_id : string)
    : fres (string * RoomDb) :=
  let '(blocked, delegator_sub) := rights_check d (sub p) (vo_meeting_id v) (vo_eligible_group v) in
  if as_delegation then _represented_voter d p v delegator_sub row_id
  else s ← _own_voter p v blocked; Ok (s, d).
Definition cast_vote (d : RoomDb) (vote_id : string) (p : Principal) (choice : Ballot) (now : Z)
    (as_delegation : bool) (row_id : string) : fres RoomDb :=
  vote ← _get_vote d vote_id;
  _ ← raise_if (negb (bool_decide (vote_status vote = open))) (ConflictError "vote_not_open");
  _ ← raise_if (window_closed vote now) (ConflictError "vote_window_closed");
  _ ← raise_if (bool_decide (is_Some (scope_permissions p))) ForbiddenError;
  '(voter_sub, d) ← _voter d p vote as_delegation row_id;
  stored ← _stored_choice vote (vote_config vote) choice;
  let d := if as_delegation
           then vote_audit (Some (sub p)) "delegation_use" vote_id
                  [("eligibleGroup", PStr (vo_eligible_group vote))] d
           else d in
  d ← match vo_meeting_id vote with
      | Some m => if as_delegation then Ok d else join_meeting d m (sub p)
      | None => Ok d
      end;
  _cast_secret d vote_id voter_sub stored.
Definition cast_guest (d : RoomDb) (vote_id guest_id : string) (choice : Ballot) (now : Z) : fres RoomDb :=
  vote ← _get_vote d vote_id;
  _ ← raise_if (negb (bool_decide (vote_status vote = open))) (ConflictError "vote_not_open");
  _ ← raise_if (window_closed vote now) (ConflictError "vote_window_closed");
  let config := vote_config vote in
  _ ← raise_if (negb (guests_vote config)) ForbiddenError;
  stored ← _stored_choice vote config choice;
  let voter_sub := guest_voter_sub guest_id in
  _cast_secret (vote_audit (Some voter_sub) "vote_cast" vote_id (_audit_refs vote) d) vote_id voter_sub stored.
Definition can_still_cast (d : RoomDb) (vote_id : string) (v : Vote) (p : Principal) (now : Z) : bool :=
  if negb (bool_decide (vote_status v = open)) then false
  else if window_closed v now then false
  else if bool_decide (is_Some (scope_permissions p)) then false
  else
    let '(blocked, delegator_sub) := rights_check d (sub p) (vo_meeting_id v) (vo_eligible_group v) in
    if negb blocked && _may_cast p (vo_eligible_group v) && negb (my_ballot d vote_id (sub p)) then true
    else match (match delegator_sub with
                | Some s => Some s
                | None => free_seat d (sub p) (vo_meeting_id v) (vo_eligible_group v)
                end) with
         | Some s => negb (my_ballot d vote_id s)
         | None => false
         end.
Definition represented_cast (d : RoomDb) (vote_id : string) (v : Vote) (s : string) : bool :=
  match snd (rights_check d s (vo_meeting_id v) (vo_eligible_group v)) with
  | None => false
  | Some delegator => my_ballot d vote_id delegator
  end.
End Cast.

(** ** Cancel *)
Definition room_mark_cancelled (d : RoomDb) (vote_id : string) (v : Vote) (now : Z) (actor : option string)
    (reason : string) : RoomDb :=
  with_flow (_mark_cancelled (flow_db d) vote_id v now actor reason) d.
Definition cancel (d : RoomDb) (vote_id : string) (now : Z) (actor : option string) : fres RoomDb :=
  vote ← _get_vote d vote_id;
  _ ← raise_if (negb (bool_decide (vote_status vote = open))) (ConflictError "vote_not_open");
  Ok (room_mark_cancelled d vote_id vote now actor "manual").
(** The votes of a meeting in the order of their creation. *)
Definition meeting_votes (d : RoomDb) (meeting_id : string) : list (string * Vote) :=
  sort_by by_created (filter (λ kv, vo_meeting_id kv.2 = Some meeting_id) (map_to_list (votes (flow_db d)))).
Definition cancel_drafts_for_meeting (d : RoomDb) (meeting_id : string) (now : Z) (actor : option string)
    (reason : string) : RoomDb * list string :=
  let ids := (filter (λ kv, vote_status kv.2 = draft) (meeting_votes d meeting_id)).*1 in
  (foldl (λ d id, match votes (flow_db d) !! id with
                  | Some v => room_mark_cancelled d id v now actor reason
                  | None => d
                  end) d ids, ids).
