(* ===== verification/VoteClose.v ===== *)
(** The end of a vote ([voting/service.py]): the close with its result and the branch of the
    application, the deletes, the edit of a poll, and who reads and manages a vote.

    The branch runs in a SAVEPOINT: a refused branch leaves the closed vote and its decision. *)

From stdpp Require Import gmap strings.
From S2P Require Import Prelude PyStr PyNum PyValue JsonText VoteConfigs Tally Election FlowDb Decision FlowEngine.
From S2P Require Import Policy Room VoteRows VoteService.

(** [assert_can_read] of a meeting for the flow engine, on the rows of the room. *)
Definition room_can_read (d : RoomDb) (x : Db) (meeting_id : string) (p : Principal) : bool :=
  is_ok (assert_can_read (with_flow x d) meeting_id p).

(** ** Close *)
Definition _check_closable (v : Vote) (quorum_met : bool) (now : option Z) : fres () :=
  let window_expired := match now with Some n => window_closed v n | None => false end in
  raise_if (negb quorum_met && negb window_expired) (ConflictError "quorum_not_met").
Definition attended (members guests : Z) (with_guests : bool) (b : VoteBody) : VoteBody :=
  MkVoteBody (vb_agenda_item_id b) (vb_question b) (vb_config b) (vb_proposal b)
    (if with_guests then Some (members + guests) else vb_eligible_count b) (vb_opens_at b) (vb_closes_at b)
    (vb_result_branch_transition_id b) (Some members) (Some guests) (vb_round b) (vb_poll_result b)
    (vb_reminded_at b) (vb_repeat_of_id b) (vb_attempt b).
(** The vote with its attendance; the caller reads [eligible_of] of it. *)
Definition _fix_attendance (d : RoomDb) (vote_id : string) (v : Vote) (config : VoteConfig) : Vote :=
  match vo_meeting_id v with
  | None => v
  | Some _ => with_body (attended (_present_count d v) (_guest_attendance d vote_id v config)
                           (guests_vote config) (vo_body v)) v
  end.
(** [status = "closed"], the result and [closed_at]. *)
Definition closed_vote (v : Vote) (result : option string) (election_result : option ElectionResultOut)
    (poll_result : option PollResultOut) (closed_at : Z) : Vote :=
  let r := vo_row v in
  let b := vo_body v in
  MkVote (MkVoteRow (v_kind r) closed result
            match election_result with Some e => Some e | None => v_election_result r end (v_parent_vote_id r))
    (MkVoteBody (vb_agenda_item_id b) (vb_question b) (vb_config b) (vb_proposal b) (vb_eligible_count b)
       (vb_opens_at b) (vb_closes_at b) (vb_result_branch_transition_id b) (vb_present_members b)
       (vb_present_guests b) (vb_round b)
       match poll_result with Some p => Some p | None => vb_poll_result b end (vb_reminded_at b)
       (vb_repeat_of_id b) (vb_attempt b))
    (vo_application_id v) (vo_meeting_id v) (vo_eligible_group v) (vo_opens_state_id v) (vo_created_at v)
    (Some closed_at).
Definition fired_by (transition_id : string) (v : Vote) : Vote :=
  let b := vo_body v in
  with_body (MkVoteBody (vb_agenda_item_id b) (vb_question b) (vb_config b) (vb_proposal b)
    (vb_eligible_count b) (vb_opens_at b) (vb_closes_at b) (Some transition_id) (vb_present_members b)
    (vb_present_guests b) (vb_round b) (vb_poll_result b) (vb_reminded_at b) (vb_repeat_of_id b)
    (vb_attempt b)) v.
Definition counts_value (c : counts_t) : pyval := PDict ((λ kv, (kv.1, PInt kv.2)) <$> c).
Definition texts_value (l : list string) : pyval := PList (PStr <$> l).
Record VoteClosed := MkVoteClosed {
  cl_meeting_id : option string;
  cl_application_id : option string;
  cl_result : option string;
  cl_tally : TallyOut;
  cl_kind : VoteKind;
  cl_election_result : option ElectionResultOut;
  cl_poll_result : option PollResultOut;
  cl_closed_at : Z;
  cl_staged : option StagedFire
}.
Definition branch_fired (c : VoteClosed) : bool := bool_decide (is_Some (cl_staged c)).
Definition result_text (r : VoteResult) : string :=
  match r with passed => "passed" | rejected => "rejected" | tie => "tie" end.

(** The decision of a passed vote, before the SAVEPOINT; the id of the row, when there is one. *)
Definition _record_proposal (d : RoomDb) (vote_id : string) (v : Vote) (application_id : string)
    (principal : Principal) (fresh : Fresh) : fres (RoomDb * option string) :=
  match vb_proposal (vo_body v) with
  | None => Ok (d, None)
  | Some proposal =>
      application ← _get_application d application_id false;
      exceeds ← match approved_amount proposal with
                | None => Ok false
                | Some a => match ap_amount application with
                            | None => Ok true
                            | Some r => dec_cmp is_gt a (dec_money r)
                            end
                end;
      let binding := if exceeds : bool then MkDecisionIn None (conditions proposal) else proposal in
      Ok (with_flow (record_decision application binding (Some (sub principal)) None
                       (ap_approved_amount application) (Some vote_id) None (fr_now fresh) (fr_decision_id fresh)
                       (flow_db d)) d, Some (fr_decision_id fresh))
  end.
(** The branch, or the reason why it is blocked. *)
Definition _try_stage (d : RoomDb) (application_id branch : string) (principal : Principal) (note : string)
    (vote_id : string) (fresh : Fresh) : fres (RoomDb * (StagedFire + string)) :=
  match FlowEngine.stage_branch (room_can_read d) (flow_db d) application_id branch principal (Some note)
          (Some vote_id) fresh with
  | Ok (x, staged) => Ok (with_flow x d, inl staged)
  | Err (ConflictError code) => Ok (d, inr code)
  | Err NotFoundError => Ok (d, inr "no_branch")
  | Err e => Err e
  end.
Definition _stage_branch (d : RoomDb) (vote_id : string) (v : Vote) (application_id branch : string)
    (principal : Principal) (note : string) (decide_it : bool) (fresh : Fresh)
    : fres (RoomDb * option StagedFire * option string) :=
  let mismatch := vote_gremium_mismatch d v in
  '(d, decision) ← (if decide_it && negb mismatch
                    then _record_proposal d vote_id v application_id principal fresh else Ok (d, None));
  '(d, staged) ← (if mismatch then Ok (d, inr VOTE_GREMIUM_MISMATCH)
                  else _try_stage d application_id branch principal note vote_id fresh);
  match staged with
  | inl s => Ok (d, Some s, decision)
  | inr reason =>
      Ok (vote_audit (Some (sub principal)) "vote_branch_blocked" vote_id
            (_audit_refs v ++ [("branch", PStr branch); ("reason", PStr reason)]) d, None, decision)
  end.
(** The links that a fired branch leaves: the transition on the vote, the event on the decision. *)
Definition link_branch (d : RoomDb) (vote_id : string) (staged : option StagedFire) (decision : option string)
    : RoomDb :=
  match staged with
  | None => d
  | Some s =>
      let d := match votes (flow_db d) !! vote_id with
               | Some v => put_vote vote_id (fired_by (tr_id (sf_transition s)) v) d
               | None => d
               end in
      match decision with
      | Some id =>
          with_flow (update_decision id
            (λ r, MkDecision (de_id r) (de_application_id r) (de_approved_amount r) (de_conditions r) (de_vote_id r)
                    (Some (sf_status_event_id s)) (de_decided_at r) (de_decided_by r) (de_superseded_at r))
            (flow_db d)) d
      | None => d
      end
  end.

Definition _close_election (d : RoomDb) (vote_id : string) (v : Vote) (principal : Principal) (now : option Z)
    (closed_at : Z) : fres (RoomDb * VoteClosed) :=
  let config := vote_config v in
  outcome ← _election_outcome d vote_id v (eligible_of v);
  _ ← _check_closable v (eo_quorum_met outcome) now;
  let v := _fix_attendance d vote_id v config in
  let result := result_of outcome in
  let v := closed_vote v (Some (election_result_text (eo_result outcome))) (Some result) None closed_at in
  let d := vote_audit (Some (sub principal)) "vote_close" vote_id
             (_audit_refs v ++ [("kind", PStr "election");
                ("result", PStr (election_result_text (eo_result outcome)));
                ("counts", counts_value (ElectionOutcome_display_counts outcome));
                ("elected", texts_value (eo_elected outcome)); ("quorumMet", PBool (eo_quorum_met outcome))])
             (put_vote vote_id v d) in
  let t := MkTallyOut (ElectionOutcome_display_counts outcome) (eligible_of v) (eo_ballots outcome) 0 true
             (eo_quorum_met outcome) None (Some (election_result_text (eo_result outcome)))
             (if eo_quorum_met outcome then None else Some by_quorum)
             (vo_meeting_id v ≫= λ _, vb_present_members (vo_body v))
             (vo_meeting_id v ≫= λ _, vb_present_guests (vo_body v)) in
  Ok (d, MkVoteClosed (vo_meeting_id v) None (Some (election_result_text (eo_result outcome))) t election
           (Some result) None closed_at None).

(** [poll.result_of]. *)
Definition poll_result_of (o : PollOutcome) : PollResultOut :=
  MkPollResult (po_counts o) (po_maybe o) (po_abstentions o) (po_ballots o) (po_order o) (po_top o).
Definition _close_poll (d : RoomDb) (vote_id : string) (v : Vote) (principal : Principal) (closed_at : Z)
    : fres (RoomDb * VoteClosed) :=
  let config := vote_config v in
  outcome ← _poll_outcome d vote_id v;
  let v := _fix_attendance d vote_id v config in
  let result := poll_result_of outcome in
  let v := closed_vote v None None (Some result) closed_at in
  let d := vote_audit (Some (sub principal)) "vote_close" vote_id
             (_audit_refs v ++ [("kind", PStr "poll"); ("counts", counts_value (PollOutcome_display_counts outcome));
                ("ballots", PInt (po_ballots outcome))]) (put_vote vote_id v d) in
  let t := MkTallyOut (PollOutcome_display_counts outcome) (eligible_of v) (po_ballots outcome) 0 true true None
             None None (vo_meeting_id v ≫= λ _, vb_present_members (vo_body v))
             (vo_meeting_id v ≫= λ _, vb_present_guests (vo_body v)) in
  Ok (d, MkVoteClosed (vo_meeting_id v) None None t poll None (Some result) closed_at None).

(** The result that a close stores for a motion. *)
Definition motion_result (o : Outcome) : VoteResult := if o_quorum_met o then o_result o else rejected.
Definition _close_motion (d : RoomDb) (vote_id : string) (v : Vote) (principal : Principal) (now : option Z)
    (closed_at : Z) (fresh : Fresh) : fres (RoomDb * VoteClosed) :=
  let config := vote_config v in
  let counts := _aggregate d vote_id config in
  outcome ← escaped (result config counts (eligible_of v));
  _ ← _check_closable v (o_quorum_met outcome) now;
  let result_value := motion_result outcome in
  let v := closed_vote (_fix_attendance d vote_id v config) (Some (result_text result_value)) None None closed_at in
  let d := vote_audit (Some (sub principal)) "vote_close" vote_id
             (_audit_refs v ++ [("result", PStr (result_text result_value)); ("counts", counts_value counts);
                ("quorumMet", PBool (o_quorum_met outcome))]) (put_vote vote_id v d) in
  let branch_name := if bool_decide (result_value = passed) then "pass" else "fail" in
  '(d, staged, decision) ← match vo_application_id v with
                           | Some a => _stage_branch d vote_id v a branch_name principal
                                         ("vote:" +:+ result_text result_value)
                                         (bool_decide (result_value = passed)) fresh
                           | None => Ok (d, None, None)
                           end;
  let t := MkTallyOut counts (eligible_of v) 0 0 true (o_quorum_met outcome) (o_leading outcome)
             (Some (result_text result_value)) (failed_reason result_value (o_quorum_met outcome))
             (vb_present_members (vo_body v)) (vb_present_guests (vo_body v)) in
  Ok (link_branch d vote_id staged decision,
      MkVoteClosed (vo_meeting_id v) (vo_application_id v) (Some (result_text result_value)) t motion None None
        closed_at staged).
(** [now] is [None] for a manual close; [clock] is the time of the server. *)
Definition close_vote (d : RoomDb) (vote_id : string) (principal : Principal) (now : option Z) (clock : Z)
    (fresh : Fresh) : fres (RoomDb * VoteClosed) :=
  v ← _get_vote d vote_id;
  _ ← raise_if (negb (bool_decide (vote_status v = open))) (ConflictError "vote_not_open");
  let closed_at := default clock now in
  match v_kind (vo_row v) with
  | election => _close_election d vote_id v principal now closed_at
  | poll => _close_poll d vote_id v principal closed_at
  | motion => _close_motion d vote_id v principal now closed_at fresh
  end.

(** ** Delete *)
(** The delete of a row: its markers and ballots go with it (ON DELETE CASCADE), and the rows
    that point to it lose the link (ON DELETE SET NULL). *)
Definition forget_link (id : string) (o : option string) : option string :=
  if decide (o = Some id) then None else o.
Definition unlinked (id : string) (v : Vote) : Vote :=
  let r := vo_row v in
  let b := vo_body v in
  with_body (MkVoteBody (vb_agenda_item_id b) (vb_question b) (vb_config b) (vb_proposal b)
    (vb_eligible_count b) (vb_opens_at b) (vb_closes_at b) (vb_result_branch_transition_id b)
    (vb_present_members b) (vb_present_guests b) (vb_round b) (vb_poll_result b) (vb_reminded_at b)
    (forget_link id (vb_repeat_of_id b)) (vb_attempt b))
    (set_row (MkVoteRow (v_kind r) (v_status r) (v_result r) (v_election_result r)
                (forget_link id (v_parent_vote_id r))) v).
Definition unlink_event (id : string) (e : StatusEvent) : StatusEvent :=
  MkStatusEvent (ev_id e) (ev_application_id e) (ev_from_state_id e) (ev_to_state_id e) (ev_transition_id e)
    (ev_actor e) (ev_note e) (forget_link id (ev_vote_id e)).
Definition unlink_decision (id : string) (r : ApplicationDecision) : ApplicationDecision :=
  MkDecision (de_id r) (de_application_id r) (de_approved_amount r) (de_conditions r)
    (forget_link id (de_vote_id r)) (de_status_event_id r) (de_decided_at r) (de_decided_by r) (de_superseded_at r).
Definition delete_row (id : string) (d : RoomDb) : RoomDb :=
  let x := flow_db d in
  with_ballots (filter (λ m, m.1 ≠ id) (voted_markers d)) (filter (λ b, b.1 ≠ id) (secret_ballots d))
    (with_flow (MkDb (conf x) (applications x) (unlinked id <$> delete id (votes x))
                  (unlink_event id <$> status_events x) (unlink_decision id <$> FlowDb.decisions x)
                  (agenda_items x) (audit x)) d).
Definition _delete_audited (d : RoomDb) (vote_id : string) (v : Vote) (actor : string) (reason : option string)
    : RoomDb :=
  let d := with_flow (with_votes (release_link vote_id (vo_row v) (votes (flow_db d))) (flow_db d)) d in
  let d := vote_audit (Some actor) "vote_delete" vote_id
             (_audit_refs v ++ [("agendaItemId", str_or_none (vb_agenda_item_id (vo_body v)));
                ("status", PStr (status_text (vote_status v)))] ++
              match reason with Some r => [("reason", PStr r)] | None => [] end) d in
  delete_row vote_id d.
Definition in_record (v : Vote) : bool := bool_decide (vote_status v ∈ [open; closed]).
Definition delete_vote (d : RoomDb) (vote_id meeting_id actor : string) : fres RoomDb :=
  v ← _get_vote d vote_id;
  _ ← raise_if (negb (bool_decide (vo_meeting_id v = Some meeting_id))) NotFoundError;
  _ ← raise_if (in_record v) (ConflictError "vote_not_deletable");
  Ok (_delete_audited d vote_id v actor None).
Definition delete_standalone (d : RoomDb) (vote_id actor : string) : fres RoomDb :=
  v ← _get_vote d vote_id;
  _ ← raise_if (bool_decide (is_Some (vo_meeting_id v))) (ConflictError "vote_meeting_bound");
  _ ← raise_if (in_record v) (ConflictError "vote_not_deletable");
  Ok (_delete_audited d vote_id v actor None).
(** Delete the rows one after the other. *)
Definition delete_all (d : RoomDb) (rows : list (string * Vote)) (actor : string) (reason : option string) : RoomDb :=
  foldl (λ d kv, _delete_audited d kv.1 kv.2 actor reason) d rows.
Definition delete_for_agenda_item (d : RoomDb) (agenda_item_id actor : string) (may_delete : bool)
    : fres (RoomDb * list string) :=
  let rows := sort_by by_created (filter (λ kv, vb_agenda_item_id (vo_body kv.2) = Some agenda_item_id)
                                    (map_to_list (votes (flow_db d)))) in
  _ ← raise_if (existsb (λ kv, in_record kv.2) rows) (ConflictError "agenda_item_has_vote");
  _ ← raise_if (negb (bool_decide (rows = [])) && negb may_delete) ForbiddenError;
  Ok (delete_all d rows actor None, rows.*1).
Definition _refuse_open (rows : list (string * Vote)) : fres () :=
  raise_if (existsb (λ kv, bool_decide (vote_status kv.2 = open)) rows) (ConflictError "open_vote").
(** The bulk deletes of the ballots and markers come first; the rows then find none. *)
Definition delete_locked_votes (d : RoomDb) (rows : list (string * Vote)) (actor reason : string)
    : RoomDb * list string :=
  let ids := rows.*1 in
  let x := flow_db d in
  let d := with_ballots (filter (λ m, m.1 ∉ ids) (voted_markers d)) (filter (λ b, b.1 ∉ ids) (secret_ballots d))
             (with_flow (MkDb (conf x) (applications x) (votes x)
                ((λ e, foldr unlink_event e ids) <$> status_events x) (FlowDb.decisions x) (agenda_items x) (audit x)) d) in
  (delete_all d rows actor (Some reason), ids).
Definition delete_for_meeting (d : RoomDb) (meeting_id actor : string) : fres (RoomDb * list string) :=
  let rows := meeting_votes d meeting_id in
  _ ← _refuse_open rows;
  Ok (delete_locked_votes d rows actor "meeting_deleted").
Definition lock_for_gremium_delete (d : RoomDb) (gremium_id : string) (meeting_ids : list string)
    : fres (list (string * Vote)) :=
  let rows := sort_by (λ a b, str_leb a.1 b.1)
                (filter (λ kv, vo_meeting_id kv.2 ∈ Some <$> meeting_ids ∨
                               (vo_eligible_group kv.2 = gremium_id ∧ vo_meeting_id kv.2 = None))
                   (map_to_list (votes (flow_db d)))) in
  _ ← _refuse_open rows;
  Ok rows.

(** ** Read and manage *)
Definition vote_can_read (d : RoomDb) (v : Vote) (p : Principal) : fres () :=
  match vo_meeting_id v with
  | Some m => assert_can_read d m p
  | None =>
      let globally := if is_poll v then admin_bypass p "application.read"
                      else has p "application.read" || has p "application.read_all" in
      let gremium := match _vote_gremium_id d None (vo_eligible_group v) with
                     | Some g => holds_gremium_vote_role d g p
                     | None => false
                     end in
      raise_if (negb (globally || _may_cast p (vo_eligible_group v) || gremium)) ForbiddenError
  end.
Definition _meeting_grants_vote_management (d : RoomDb) (meeting_id : string) (p : Principal) : bool :=
  match meeting_by_id d meeting_id with Some m => can_manage_votes d m p | None => false end.
Definition can_manage_group (d : RoomDb) (eligible_group : string) (meeting_id : option string) (p : Principal)
    : bool :=
  if match meeting_id with Some m => _meeting_grants_vote_management d m p | None => false end then true
  else match _vote_gremium_id d meeting_id eligible_group with
       | None => admin_bypass p "vote.manage"
       | Some g => manages_votes_in_gremium d g p
       end.
Definition assert_can_manage_group (d : RoomDb) (eligible_group : string) (meeting_id : option string)
    (p : Principal) : fres () := raise_if (negb (can_manage_group d eligible_group meeting_id p)) ForbiddenError.
(** [PollService.can_create]. *)
Definition can_create (d : RoomDb) (gremium_id : string) (p : Principal) : bool :=
  has_gremium_permission (cfg d) p "vote.manage" gremium_id.
Definition vote_can_manage (d : RoomDb) (v : Vote) (p : Principal) : bool :=
  if is_poll v && bool_decide (vo_meeting_id v = None) then
    match _vote_gremium_id d None (vo_eligible_group v) with
    | None => admin_bypass p "vote.manage"
    | Some g => can_create d g p
    end
  else can_manage_group d (vo_eligible_group v) (vo_meeting_id v) p.
Definition assert_can_manage (d : RoomDb) (v : Vote) (p : Principal) : fres () :=
  raise_if (negb (vote_can_manage d v p)) ForbiddenError.
Definition assert_can_manage_vote (d : RoomDb) (vote_id : string) (p : Principal) : fres () :=
  v ← _get_vote d vote_id; assert_can_manage d v p.
Definition assert_can_run_vote (d : RoomDb) (vote_id : string) (p : Principal) : fres () :=
  _ ← assert_can_manage_vote d vote_id p;
  match votes (flow_db d) !! vote_id ≫= vo_meeting_id with
  | None => Ok ()
  | Some m => assert_can_run_votes d m p
  end.
(** The scoped read of a vote: the tally and the flags of the reader. *)
Record ScopedVote := MkScopedVote {
  sv_tally : TallyOut;
  sv_can_manage : bool;
  sv_can_cast : bool;
  sv_my_ballot : bool;
  sv_represented_cast : bool
}.
Definition get_scoped `{VotingRights} (d : RoomDb) (vote_id : string) (p : Principal) : fres ScopedVote :=
  v ← _get_vote d vote_id;
  _ ← vote_can_read d v p;
  t ← get d vote_id;
  Ok (MkScopedVote t (vote_can_manage d v p) (can_cast_own v p) (my_ballot d vote_id (sub p))
        (represented_cast d vote_id v (sub p))).

(** ** Polls *)
Record PollOptionIn := MkPollOptionIn { in_label : option string; in_start : option Z; in_end : option Z }.
(** [o1], [o2], ... *)
Fixpoint numbered (n : Z) (l : list PollOptionIn) : option (list PollOption) :=
  match l with
  | [] => Some []
  | o :: r =>
      label ← _strip_label (in_label o);
      rest ← numbered (n + 1) r;
      Some (MkPollOption ("o" +:+ int_str n) label (in_start o) (in_end o) :: rest)
  end.
Definition POLL_INVALID : FlowError := ValidationProblem "poll_invalid".
Definition build_config (m : PollMode) (options : list PollOptionIn) (max_choices : option Z)
    (secret guests_vote : bool) : fres PollConfig :=
  match numbered 1 options with
  | None => Err POLL_INVALID
  | Some l =>
      let c := MkPollConfig m l max_choices secret guests_vote in
      if PollConfig_valid c then Ok c else Err POLL_INVALID
  end.
Record PollCreate := MkPollCreate {
  pc_mode : PollMode;
  pc_options : list PollOptionIn;
  pc_max_choices : option Z;
  pc_eligible_group : string;
  pc_question : string;
  pc_secret : option bool;
  pc_closes_at : Z;
  pc_draft : bool
}.
Definition create_poll (d : RoomDb) (payload : PollCreate) (p : Principal) (now : Z) (vote_id : string)
    : fres RoomDb :=
  let gremium_id := pc_eligible_group payload in
  _ ← raise_if (negb (_gremium_exists d gremium_id)) (ValidationProblem "eligible_group_invalid");
  _ ← raise_if (negb (can_create d gremium_id p)) ForbiddenError;
  _ ← _check_end (pc_closes_at payload) now;
  secret ← secret_only (pc_secret payload);
  config ← build_config (pc_mode payload) (pc_options payload) (pc_max_choices payload) secret false;
  let d := _insert d None None None
             (MkVoteCreateInternal (PollRules config) gremium_id (Some (pc_question payload)) None 1 None 1
                (Some (vote_eligible_count d gremium_id)) None (Some (pc_closes_at payload)) None None)
             vote_id (Some (sub p)) now in
  if pc_draft payload then Ok d else open_vote d vote_id now (Some (sub p)) None.
Record PollPatch := MkPollPatch {
  pp_question : option string;
  pp_options : option (list PollOptionIn);
  (** ["max_choices" in payload.model_fields_set]. *)
  pp_max_set : bool;
  pp_max_choices : option Z;
  pp_closes_at : option Z
}.
Definition _patched_question (question : option string) : fres (option string) :=
  match question with
  | None => Ok None
  | Some q => let stripped := py_strip q in
              if bool_decide (stripped = "") then Err POLL_INVALID else Ok (Some stripped)
  end.
Definition option_in (o : PollOption) : PollOptionIn := MkPollOptionIn (opt_label o) (opt_start o) (opt_end o).
Definition _patched_config (payload : PollPatch) (config : PollConfig) : fres (option PollConfig) :=
  if bool_decide (is_Some (pp_options payload)) || pp_max_set payload then
    c ← build_config (mode config)
          match pp_options payload with Some l => l | None => option_in <$> p_options config end
          (if pp_max_set payload then pp_max_choices payload else max_choices config)
          (p_secret config) (p_guests_vote config);
    Ok (Some c)
  else Ok None.
Definition _check_patched_end (v : Vote) (closes_at now : Z) : fres () :=
  _ ← raise_if (bool_decide (is_Some (vo_meeting_id v))) CLOSES_AT_TOO_SOON;
  _check_end closes_at now.
Definition patched (question : option string) (config : option PollConfig) (closes_at : option Z) (b : VoteBody)
    : VoteBody :=
  MkVoteBody (vb_agenda_item_id b) match question with Some q => Some q | None => vb_question b end
    match config with Some c => PollRules c | None => vb_config b end (vb_proposal b) (vb_eligible_count b)
    (vb_opens_at b) match closes_at with Some c => Some c | None => vb_closes_at b end
    (vb_result_branch_transition_id b) (vb_present_members b) (vb_present_guests b) (vb_round b)
    (vb_poll_result b) match closes_at with Some _ => None | None => vb_reminded_at b end (vb_repeat_of_id b)
    (vb_attempt b).
Definition patch (d : RoomDb) (vote_id : string) (payload : PollPatch) (p : Principal) (now : Z) : fres RoomDb :=
  v ← _get_vote d vote_id;
  _ ← raise_if (negb (is_poll v)) (ConflictError "not_a_poll");
  _ ← raise_if (negb (bool_decide (vote_status v ∈ [draft; open]))) (ConflictError "poll_not_editable");
  _ ← raise_if (0 <? _ballot_count d vote_id) (ConflictError "poll_has_answers");
  stored ← poll_config v;
  question ← _patched_question (pp_question payload);
  new_config ← _patched_config payload stored;
  _ ← match pp_closes_at payload with Some c => _check_patched_end v c now | None => Ok () end;
  let changed := (if bool_decide (is_Some question) then ["question"] else []) ++
                 (if bool_decide (is_Some new_config) then ["options"] else []) ++
                 (if bool_decide (is_Some (pp_closes_at payload)) then ["closesAt"] else []) in
  Ok (vote_audit (Some (sub p)) "poll_updated" vote_id
        (poll_audit_data (vo_meeting_id v) (vo_eligible_group v) (default stored new_config) ++
         [("changed", PList (PStr <$> changed))])
        (put_vote vote_id (with_body (patched question new_config (pp_closes_at payload) (vo_body v)) v) d)).
