(* ===== verification/VoteSpec.v ===== *)
(** What a vote promises, without its tables: the ballot box of one vote, its steps and its
    invariant.  [VoteServiceFacts] shows that every operation of the vote service is a step of
    each box. *)

From stdpp Require Import gmap strings.
From S2P Require Import Prelude PyStr PyNum PyValue JsonText VoteConfigs Tally TallyFacts Election FlowDb.
From S2P Require Import FlowEngine FlowEngineFacts Policy Room VoteRows VoteService VoteClose.

(** ** The box of a vote *)
(** The columns of a vote that decide who may vote and what counts. *)
Record Rules := MkRules {
  ru_group : string;
  ru_kind : VoteKind;
  ru_status : VoteStatus;
  ru_config : AnyConfig;
  ru_eligible : option Z;
  ru_result : option string;
  ru_lot : option ElectionLotOut
}.
(** The rules of the vote, when it exists, with its voters and its choices. *)
Record Box := MkBox { bx_rules : option Rules; bx_voters : list string; bx_choices : list string }.
Definition rules_of (v : Vote) : Rules :=
  MkRules (vo_eligible_group v) (v_kind (vo_row v)) (vote_status v) (vb_config (vo_body v)) (vb_eligible_count (vo_body v))
    (v_result (vo_row v)) (lot_of (vo_row v)).
Definition box (d : RoomDb) (id : string) : Box :=
  MkBox (rules_of <$> votes (flow_db d) !! id) (markers_of d id) (choices_of d id).

(** The validators of the stored rules. *)
Definition config_ok (c : AnyConfig) : Prop :=
  match c with
  | MotionRules c => VoteConfig_valid c = true
  | ElectionRules c => ElectionConfig_valid c = true
  | PollRules c => PollConfig_valid c = true
  end.
(** The text is the stored form of a ballot of this vote. *)
Definition admissible (c : AnyConfig) (s : string) : Prop :=
  match c with
  | MotionRules c => s ∈ options c
  | ElectionRules c => ∃ choice, Election.stored_choice c choice = Ok s
  | PollRules c => ∃ choice, poll_stored_choice c choice = Ok s
  end.
(** The result and the lot that the choices give; [None] when the count raises. *)
Definition recount (c : AnyConfig) (choices : list string) (eligible : option Z)
    : option (option string * option ElectionLotOut) :=
  match c with
  | MotionRules c =>
      match result c (tally (options c) (Some <$> choices)) (default 0 eligible) with
      | Ok o => Some (Some (result_text (motion_result o)), None)
      | Err _ => None
      end
  | ElectionRules c =>
      match outcome_of c (Some <$> choices) (default 0 eligible) with
      | Ok o => Some (Some (election_result_text (eo_result o)), er_lot (result_of o))
      | Err _ => None
      end
  | PollRules c =>
      match tally_poll (Some <$> choices) c with Ok _ => Some (None, None) | Err _ => None end
  end.

(** ** Steps *)
(** The rules of a vote after a change of its status, its result and its lot. *)
Definition moved_to (s : VoteStatus) (e : option Z) (res : option string) (lot : option ElectionLotOut) (r : Rules)
    : Rules := MkRules (ru_group r) (ru_kind r) s (ru_config r) e res lot.
Inductive ballot_step : Box → Box → Prop :=
| b_edit r c e vs cs :
    ru_status r = draft → config_ok c →
    ballot_step (MkBox (Some r) vs cs)
      (MkBox (Some (MkRules (ru_group r) (_kind_of c) draft c e (ru_result r) (ru_lot r))) vs cs)
| b_patch r c :
    ru_kind r = poll → (ru_status r = draft ∨ ru_status r = open) → config_ok (PollRules c) →
    ballot_step (MkBox (Some r) [] [])
      (MkBox (Some (MkRules (ru_group r) poll (ru_status r) (PollRules c) (ru_eligible r) (ru_result r) (ru_lot r))) [] [])
| b_open r e vs cs :
    ru_status r = draft →
    ballot_step (MkBox (Some r) vs cs) (MkBox (Some (moved_to open e (ru_result r) (ru_lot r) r)) vs cs)
| b_cast r s c vs cs :
    ru_status r = open → s ∉ vs → (ru_kind r = _kind_of (ru_config r) → admissible (ru_config r) c) →
    ballot_step (MkBox (Some r) vs cs) (MkBox (Some r) (vs ++ [s]) (cs ++ [c]))
| b_cancel r vs cs :
    ru_status r = draft ∨ ru_status r = open →
    ballot_step (MkBox (Some r) vs cs)
      (MkBox (Some (moved_to cancelled (ru_eligible r) (ru_result r) (ru_lot r) r)) vs cs)
| b_close r e res lot vs cs :
    ru_status r = open →
    (ru_kind r = _kind_of (ru_config r) → ru_lot r = None →
       recount (ru_config r) cs (ru_eligible r) = Some (res, lot)) →
    (e = ru_eligible r ∨ guests_vote (as_vote_config (ru_config r)) = true) →
    ballot_step (MkBox (Some r) vs cs) (MkBox (Some (moved_to closed e res lot r)) vs cs)
| b_lot r lot lot' vs cs :
    ru_status r = closed → ru_lot r = Some lot → drawn lot = None → is_Some (drawn lot') →
    ballot_step (MkBox (Some r) vs cs)
      (MkBox (Some (moved_to closed (ru_eligible r) (Some "elected") (Some lot') r)) vs cs)
| b_delete r vs cs :
    ru_status r ≠ open → ballot_step (MkBox (Some r) vs cs) (MkBox None [] []).
(** The box of a new vote. *)
Definition new_box (g : string) (c : AnyConfig) (e : option Z) : Box :=
  MkBox (Some (MkRules g (_kind_of c) draft c e None None)) [] [].
(** One operation: a box moves, or a vote begins and may open at once. *)
Inductive box_step : Box → Box → Prop :=
| box_moves b b' : rtc ballot_step b b' → box_step b b'
| box_begins g c e b' : config_ok c → rtc ballot_step (new_box g c e) b' → box_step (MkBox None [] []) b'.

(** ** The invariant *)
(** The stored result: none before the close, then the recount, or the drawn lot of a tie. *)
Definition result_ok (r : Rules) (cs : list string) : Prop :=
  if decide (ru_status r = closed)
  then recount (ru_config r) cs (ru_eligible r) = Some (ru_result r, ru_lot r) ∨
       ∃ lot lot', recount (ru_config r) cs (ru_eligible r) = Some (Some "tie", Some lot) ∧
         ru_result r = Some "elected" ∧ ru_lot r = Some lot' ∧ is_Some (drawn lot')
  else ru_result r = None ∧ ru_lot r = None.
Record rules_ok (r : Rules) (vs cs : list string) : Prop := {
  ro_config : config_ok (ru_config r);
  ro_kind : ru_kind r = _kind_of (ru_config r);
  ro_one_each : NoDup vs;
  ro_as_many : length cs = length vs;
  ro_admissible : Forall (admissible (ru_config r)) cs;
  ro_draft_empty : ru_status r = draft → vs = [];
  ro_result : result_ok r cs
}.
Definition box_ok (b : Box) : Prop :=
  match bx_rules b with
  | None => bx_voters b = [] ∧ bx_choices b = []
  | Some r => rules_ok r (bx_voters b) (bx_choices b)
  end.

(** A vote with guests has no quorum, so the number of the eligible voters does not count. *)
Lemma recount_guests c cs e e' :
  config_ok c → guests_vote (as_vote_config c) = true → recount c cs e' = recount c cs e.
Proof.
  destruct c as [c|c|c]; cbn; intros Hv Hg; [| |done].
  - assert (quorum c = None) as Hq.
    { unfold VoteConfig_valid, _guests_vote_has_no_quorum in Hv. bool_prop. rewrite Hg in *. by destruct (quorum c). }
    unfold result. by rewrite Hq.
  - assert (e_quorum c = None) as Hq.
    { unfold ElectionConfig_valid in Hv. bool_prop. destruct (ElectionConfig__check c) as [c'|] eqn:E; [|done].
      apply ElectionConfig_check_ok in E as (_ & _ & _ & _ & _ & H6). auto. }
    unfold outcome_of, tally_election, _yes_no_outcome. rewrite Hq. by destruct (yes_no c).
Qed.
(** Only a tie leaves a lot. *)
Lemma recount_lot c cs e res lot : recount c cs e = Some (res, Some lot) → res = Some "tie".
Proof.
  destruct c as [c|c|c]; cbn; [by case_match| |by case_match].
  destruct (outcome_of _ _ _) as [o|]; [|done]. intros [= <- Hl]. unfold result_of in Hl. cbn in Hl.
  destruct (decide (eo_result o = e_tie)) as [->|]; [done|discriminate Hl].
Qed.
Lemma result_running r cs :
  ru_status r ≠ closed → result_ok r cs → ru_result r = None ∧ ru_lot r = None.
Proof. intros Hs. unfold result_ok. by rewrite decide_False. Qed.

Lemma ballot_step_ok b b' : ballot_step b b' → box_ok b → box_ok b'.
Proof.
  destruct 1 as [r c e vs cs Hs Hc|r c Hk Hs Hc|r e vs cs Hs|r s c vs cs Hs Hn Ha|r vs cs Hs
                |r e res lot vs cs Hs Hr He|r lot lot' vs cs Hs Hl Hd Hd'|r vs cs Hs]; cbn; try done;
    try (intros [H1 H2 H3 H4 H5 H6 H7]).
  - specialize (H6 Hs) as ->. destruct cs; [|done]. apply result_running in H7; [|by rewrite Hs].
    split; cbn; try done.
  - apply result_running in H7; [|by destruct Hs as [-> | ->]]. split; cbn; try done.
    unfold result_ok. cbn. rewrite decide_False by (destruct Hs as [-> | ->]; done). done.
  - apply result_running in H7; [|by rewrite Hs]. by split; cbn.
  - apply result_running in H7; [|by rewrite Hs]. split; try done.
    + apply NoDup_app. split; [done|]. split; [set_solver|]. apply NoDup_singleton.
    + rewrite !length_app. cbn. lia.
    + apply Forall_app. split; [done|]. constructor; [auto|constructor].
    + by rewrite Hs.
    + unfold result_ok. by rewrite decide_False by (by rewrite Hs).
  - apply result_running in H7; [|by destruct Hs as [-> | ->]]. by split; cbn.
  - apply result_running in H7 as [_ H7]; [|by rewrite Hs]. split; cbn; try done.
    unfold result_ok. cbn. left. specialize (Hr H2 H7). destruct He as [->|Hg]; [done|].
    by rewrite (recount_guests _ _ (ru_eligible r)).
  - split; cbn; try done. unfold result_ok in *. cbn. rewrite decide_True in H7 by done. right.
    destruct H7 as [H7|(l & l' & Hr & _ & Hl' & Hdr)].
    + rewrite Hl in H7. pose proof (recount_lot _ _ _ _ _ H7) as Ht. rewrite Ht in H7. eauto 6.
    + rewrite Hl in Hl'. injection Hl' as ->. rewrite Hd in Hdr. by destruct Hdr.
Qed.
Lemma ballot_steps_ok b b' : rtc ballot_step b b' → box_ok b → box_ok b'.
Proof. induction 1; eauto using ballot_step_ok. Qed.
Lemma box_step_ok b b' : box_step b b' → box_ok b → box_ok b'.
Proof.
  intros [|g c e b1 Hc Hs]; eauto using ballot_steps_ok. intros _. eapply ballot_steps_ok; [done|].
  by split; cbn; [| |constructor| |constructor| |].
Qed.
Lemma box_step_then b b1 b2 : box_step b b1 → rtc ballot_step b1 b2 → box_step b b2.
Proof.
  intros [u v Hs|g c e v Hc Hs] H2; [apply box_moves|eapply box_begins; [done|]]; by etransitivity.
Qed.

(** ** What the end of a vote fixes *)
Definition ended (s : VoteStatus) : bool := bool_decide (s ∈ [closed; cancelled]).
(** The box keeps its ballots, its rules and its result; the lot of a tie may still be drawn. *)
Definition sealed (b b' : Box) : Prop :=
  bx_voters b' = bx_voters b ∧ bx_choices b' = bx_choices b ∧
  ∃ r r', bx_rules b = Some r ∧ bx_rules b' = Some r' ∧ ru_status r' = ru_status r ∧
    ru_config r' = ru_config r ∧ ru_kind r' = ru_kind r ∧
    (ru_result r' = ru_result r ∨ (ru_result r = Some "tie" ∧ ru_result r' = Some "elected")).
Lemma sealed_refl b r : bx_rules b = Some r → sealed b b.
Proof. intros Hr. split; [done|]. split; [done|]. exists r, r. repeat split; try done. by left. Qed.
Lemma ballot_step_sealed b b' r :
  box_ok b → bx_rules b = Some r → ended (ru_status r) = true → ballot_step b b' →
  bx_rules b' = None ∨ sealed b b'.
Proof.
  intros Hok Hr He Hst.
  destruct Hst as [r0 c e vs cs Hs Hc|r0 c Hk Hs Hc|r0 e vs cs Hs|r0 s c vs cs Hs Hn Ha|r0 vs cs Hs
                |r0 e res lot vs cs Hs Hre Hel|r0 lot lot' vs cs Hs Hl Hd Hd'|r0 vs cs Hs];
    cbn in Hr; simplify_eq; try (by left).
  all: try (by rewrite Hs in He).
  all: try (destruct Hs as [Hs|Hs]; by rewrite Hs in He).
  right. split; [done|]. split; [done|]. exists r, (moved_to closed (ru_eligible r) (Some "elected") (Some lot') r).
  cbn. repeat split; try done.
  right. split; [|done]. apply ro_result in Hok. unfold result_ok in Hok. rewrite decide_True in Hok by done.
  destruct Hok as [Hok|(l & l' & Hr' & _ & Hl' & Hdr)].
  - rewrite Hl in Hok. by apply recount_lot in Hok.
  - simplify_eq. rewrite Hd in Hdr. by destruct Hdr.
Qed.
Lemma sealed_then b b1 b2 :
  sealed b b1 → sealed b1 b2 → box_ok b1 → sealed b b2.
Proof.
  intros (V1 & C1 & r & r1 & Hr & Hr1 & S1 & F1 & K1 & R1) (V2 & C2 & r1' & r2 & Hr1' & Hr2 & S2 & F2 & K2 & R2) Hok.
  simplify_eq. split; [congruence|]. split; [congruence|]. exists r, r2. repeat split; try congruence.
  destruct R1 as [R1|[R1 R1']], R2 as [R2|[R2 R2']]; [left|right|right|right]; try split; congruence.
Qed.
(** An ended vote keeps its ballots and its result, or it is deleted. *)
Lemma box_step_sealed b b' r :
  box_ok b → bx_rules b = Some r → ended (ru_status r) = true → box_step b b' →
  bx_rules b' = None ∨ sealed b b'.
Proof.
  intros Hok Hr He Hst. revert r Hok Hr He. destruct Hst as [u v Hs|]; [|done]. induction Hs as [u|u v w Huv Hvw IH]; intros r Hok Hr He.
  { right. by eapply sealed_refl. }
  pose proof (ballot_step_ok _ _ Huv Hok) as Hok'.
  destruct (ballot_step_sealed _ _ _ Hok Hr He Huv) as [Hn|Hse].
  - left. destruct Hvw as [|v x w Hvx _]; [done|]. by inversion Hvx; subst.
  - pose proof Hse as (_ & _ & r0 & r1 & Hr0 & Hr1 & Hst & _). rewrite Hr in Hr0. injection Hr0 as <-.
    destruct (IH r1) as [Hw|Hw]; [done|done|by rewrite Hst|by left|right]. by eapply sealed_then.
Qed.
