(* ===== verification/VoteServiceFacts.v ===== *)
(** The vote service implements the ballot box of [VoteSpec], under every interleaving of its
    operations with the rest of the program: one ballot per voter, no ballot before the open or
    after the end, and a stored result that a recount confirms. *)

From stdpp Require Import gmap strings.
From S2P Require Import Prelude PyStr PyNum PyValue VoteConfigs Tally TallyFacts Election FlowDb Decision.
From S2P Require Import FlowEngine FlowEngineFacts Policy Room VoteRows VoteService VoteClose VoteSpec.

(** ** The boxes after an update of the tables *)
Lemma markers_app d vid s id :
  (filter (λ m, m.1 = id) (d ++ [(vid, s)]) : list (string * string)).*2 =
    (filter (λ m, m.1 = id) d).*2 ++ (if decide (id = vid) then [s] else []).
Proof.
  rewrite filter_app, fmap_app. f_equal. rewrite filter_cons, filter_nil. cbn [fst].
  destruct (decide (vid = id)), (decide (id = vid)); try congruence; done.
Qed.

Lemma box_same d d' :
  votes (flow_db d') = votes (flow_db d) → voted_markers d' = voted_markers d →
  secret_ballots d' = secret_ballots d → ∀ id, box d' id = box d id.
Proof. intros Hv Hm Hs id. unfold box, markers_of, choices_of. by rewrite Hv, Hm, Hs. Qed.
Lemma box_audit actor action vid data d id : box (vote_audit actor action vid data d) id = box d id.
Proof. by apply box_same. Qed.
Lemma box_same_votes d d' : same_votes d d' → ∀ id, box d' id = box d id.
Proof. intros (_ & Hv & _ & Hm & Hs). by apply box_same. Qed.
Lemma box_put vid v d id :
  box (put_vote vid v d) id =
    if decide (id = vid) then MkBox (Some (rules_of v)) (markers_of d id) (choices_of d id) else box d id.
Proof.
  unfold box, put_vote, markers_of, choices_of. cbn [flow_db with_flow with_votes votes voted_markers secret_ballots].
  case_decide as Hi; [by rewrite Hi, lookup_insert_eq|by rewrite lookup_insert_ne by congruence].
Qed.
Lemma box_vote d id v :
  votes (flow_db d) !! id = Some v → box d id = MkBox (Some (rules_of v)) (markers_of d id) (choices_of d id).
Proof. intros H. unfold box. by rewrite H. Qed.

(** The rules of a vote in its view. *)
Definition rules_in (v : view) : Rules :=
  let '(_, s, _, (k, r, l, g, (_, b))) := v in MkRules g k s (vb_config b) (vb_eligible_count b) r l.
Lemma rules_of_view (m m' : gmap string Vote) i :
  vview <$> m' !! i = vview <$> m !! i → rules_of <$> m' !! i = rules_of <$> m !! i.
Proof.
  intros H. assert (E : ∀ o : option Vote, rules_of <$> o = rules_in <$> (vview <$> o)) by by intros [].
  by rewrite !E, H.
Qed.
Lemma release_link_rules id row m i : rules_of <$> release_link id row m !! i = rules_of <$> m !! i.
Proof. apply rules_of_view, release_link_view. Qed.
Lemma box_release d vid row id :
  box (with_flow (with_votes (release_link vid row (votes (flow_db d))) (flow_db d)) d) id = box d id.
Proof.
  unfold box, markers_of, choices_of. cbn [flow_db with_flow with_votes votes voted_markers secret_ballots].
  by rewrite release_link_rules.
Qed.
Lemma box_cancelled d vid v now actor reason id :
  box (room_mark_cancelled d vid v now actor reason) id =
    if decide (id = vid)
    then MkBox (Some (MkRules (vo_eligible_group v) (v_kind (vo_row v)) cancelled (vb_config (vo_body v)) (vb_eligible_count (vo_body v))
                        (v_result (vo_row v)) (lot_of (vo_row v)))) (markers_of d id) (choices_of d id)
    else box d id.
Proof.
  unfold room_mark_cancelled, _mark_cancelled, box, markers_of, choices_of.
  cbn [flow_db with_flow audit_record with_votes votes voted_markers secret_ballots].
  rewrite release_link_rules.
  case_decide as Hi; [by rewrite Hi, lookup_insert_eq|by rewrite lookup_insert_ne by congruence].
Qed.
Lemma filter_other {B} (l : list (string * B)) id i :
  filter (λ m, m.1 = i) (filter (λ m, m.1 ≠ id) l) = if decide (i = id) then [] else filter (λ m, m.1 = i) l.
Proof.
  induction l as [|x l IH]; [by case_decide|]. rewrite !filter_cons.
  destruct (decide (x.1 ≠ id)) as [Hx|Hx]; [rewrite filter_cons, IH|rewrite IH].
  - destruct (decide (x.1 = i)), (decide (i = id)); congruence.
  - destruct (decide (x.1 = i)), (decide (i = id)); try done. exfalso. apply Hx. congruence.
Qed.
Lemma box_deleted d vid v actor reason id :
  box (_delete_audited d vid v actor reason) id = if decide (id = vid) then MkBox None [] [] else box d id.
Proof.
  unfold _delete_audited. set (d1 := vote_audit _ _ _ _ _).
  assert (Hb : box d1 id = box d id) by (unfold d1; by rewrite box_audit, box_release).
  rewrite <- Hb. unfold delete_row, box, markers_of, choices_of.
  cbn [flow_db with_flow with_ballots votes voted_markers secret_ballots]. rewrite !filter_other.
  case_decide as Hi.
  - by rewrite Hi, lookup_fmap, lookup_delete_eq.
  - f_equal. rewrite lookup_fmap, lookup_delete_ne by congruence.
    destruct (votes (flow_db d1) !! id) as [u|]; [|done]. by destruct u as [[] []].
Qed.

(** A cast ballot goes to the box of its vote. *)
Lemma box_cast d vid s c d' id :
  _cast_secret d vid s c = Ok d' →
  s ∉ markers_of d vid ∧
  box d' id = if decide (id = vid)
              then MkBox (bx_rules (box d id)) (markers_of d id ++ [s]) (choices_of d id ++ [c]) else box d id.
Proof.
  unfold _cast_secret. case_bool_decide as Hm; [done|]. intros [= <-]. split.
  - unfold markers_of. rewrite list_elem_of_fmap. intros ([v' s'] & E & Hin). cbn in E. subst.
    apply list_elem_of_filter in Hin as [Hv Hin]. cbn in Hv. by subst.
  - unfold box, markers_of, choices_of. cbn [flow_db with_ballots voted_markers secret_ballots bx_rules].
    rewrite !markers_app. case_decide; [done|]. by rewrite !app_nil_r.
Qed.
(** What the count of a stored vote reads. *)
Lemma stored_choice_admissible v b s :
  _stored_choice v (vote_config v) b = Ok s →
  v_kind (vo_row v) = _kind_of (vb_config (vo_body v)) → admissible (vb_config (vo_body v)) s.
Proof.
  unfold _stored_choice, is_poll, is_election_vote, is_election, vote_config, poll_config, election_config.
  intros H Hk. rewrite Hk in H. destruct (vb_config (vo_body v)) as [c|c|c]; cbn in H |- *.
  - destruct b as [[t|l]|l]; repeat (case_bool_decide; try done). by injection H as <-.
  - destruct b as [ch|l]; repeat (case_bool_decide; try done). exists ch.
    destruct (stored_choice c ch) as [x|]; [|done]. by injection H as <-.
  - rewrite bool_decide_true in H by done. by exists b.
Qed.

(** ** Each operation is a step of each box *)
Definition steps (d d' : RoomDb) : Prop := ∀ id, rtc ballot_step (box d id) (box d' id).
Definition boxes_ok (d : RoomDb) : Prop := ∀ id, box_ok (box d id).
#[export] Instance steps_preorder : PreOrder steps.
Proof. split; [intros d id; reflexivity|]. intros a b c Hab Hbc id. by transitivity (box b id). Qed.
Lemma steps_ok d d' : steps d d' → boxes_ok d → boxes_ok d'.
Proof. intros Hs Hb id. eapply ballot_steps_ok; [apply Hs|apply Hb]. Qed.
Lemma steps_same d d' : (∀ id, box d' id = box d id) → steps d d'.
Proof. intros H id. by rewrite H. Qed.
(** One box moves, the others stay. *)
Lemma steps_one d d' vid b :
  (∀ id, box d' id = if decide (id = vid) then b id else box d id) →
  ballot_step (box d vid) (b vid) → steps d d'.
Proof.
  intros H Hst id. rewrite H. case_decide as Hi; [|done]. subst. by apply rtc_once.
Qed.
Lemma steps_audit d d' actor action vid data : steps d d' → steps d (vote_audit actor action vid data d').
Proof. intros H id. by rewrite box_audit. Qed.
(** A vote row that changes as its box allows. *)
Lemma steps_put d vid v :
  ballot_step (box d vid) (MkBox (Some (rules_of v)) (markers_of d vid) (choices_of d vid)) →
  steps d (put_vote vid v d).
Proof.
  intros H. apply (steps_one _ _ vid (λ id, MkBox (Some (rules_of v)) (markers_of d id) (choices_of d id))); [|done].
  intros id. apply box_put.
Qed.
#[export] Hint Resolve steps_audit : core.

Lemma get_vote_ok d id v : _get_vote d id = Ok v → votes (flow_db d) !! id = Some v.
Proof. unfold _get_vote. case_match; [|done]. by intros [= ->]. Qed.
(** The head of an operation: the vote and its guards. *)
Ltac inv_vote :=
  inv_ok; bool_prop;
  repeat match goal with H : _get_vote _ _ = Ok _ |- _ => apply get_vote_ok in H end.

(** Operations that may begin a vote. *)
Definition begins (d d' : RoomDb) : Prop := ∀ id, box_step (box d id) (box d' id).
Lemma steps_begins d d' : steps d d' → begins d d'.
Proof. intros H id. by apply box_moves. Qed.
Lemma begins_then d d1 d2 : begins d d1 → steps d1 d2 → begins d d2.
Proof. intros H1 H2 id. by eapply box_step_then. Qed.
Lemma insert_begins d app m item payload vid actor now :
  boxes_ok d → votes (flow_db d) !! vid = None → config_ok (vc_config payload) →
  begins d (_insert d app m item payload vid actor now).
Proof.
  intros Hok Hn Hc. assert (Hp : begins d (put_vote vid (draft_vote app m item payload now) d)).
  { intros id. rewrite box_put. case_decide as Hi; [subst id|by apply box_moves].
    specialize (Hok vid). unfold box, box_ok in *. rewrite Hn in *. cbn in *.
    destruct Hok as [-> ->]. by apply (box_begins (vc_eligible_group payload) (vc_config payload) (vc_eligible_count payload)). }
  unfold _insert. cbn zeta. destruct (vc_config payload); [exact Hp|exact Hp|].
  eapply begins_then; [exact Hp|by apply steps_audit].
Qed.
Lemma create_vote_begins d app payload p vid now d' :
  boxes_ok d → votes (flow_db d) !! vid = None → VoteConfig_valid (cr_config payload) = true →
  create_vote d app payload p vid now = Ok d' → begins d d'.
Proof. intros Hok Hn Hv H. unfold create_vote in H. inv_ok. by apply insert_begins. Qed.
Lemma create_internal_begins d app payload m item ok actor vid now d' :
  boxes_ok d → votes (flow_db d) !! vid = None → config_ok (vc_config payload) →
  create_internal d app payload m item ok actor vid now = Ok d' → begins d d'.
Proof. intros Hok Hn Hv H. unfold create_internal in H. inv_ok. by apply insert_begins. Qed.
Lemma update_draft_steps d vid payload m actor d' :
  config_ok (vc_config payload) → update_draft d vid payload m actor = Ok d' → steps d d'.
Proof.
  intros Hc H. unfold update_draft in H. apply bind_ok in H as (v & Hv & H). inv_vote.
  apply steps_audit, steps_put. rewrite (box_vote _ _ _ Hv).
  match goal with |- ballot_step _ (MkBox (Some ?r) _ _) =>
    assert (r = MkRules (vo_eligible_group v) (_kind_of (vc_config payload)) draft (vc_config payload) (vc_eligible_count payload)
                  (v_result (vo_row v)) (lot_of (vo_row v))) as -> end.
  { unfold rules_of, vote_status, lot_of in *. cbn. by f_equal. }
  by apply (b_edit (rules_of v)).
Qed.
Lemma open_vote_steps d vid now actor n d' : open_vote d vid now actor n = Ok d' → steps d d'.
Proof.
  intros H. unfold open_vote in H. apply bind_ok in H as (_ & _ & H). apply bind_ok in H as (v & Hv & H).
  inv_vote. apply steps_audit, steps_put. rewrite (box_vote _ _ _ Hv). by apply (b_open (rules_of v)).
Qed.
Lemma cancelled_steps d vid v now actor reason :
  votes (flow_db d) !! vid = Some v → vote_status v = draft ∨ vote_status v = open →
  steps d (room_mark_cancelled d vid v now actor reason).
Proof.
  intros Hv Hs. eapply steps_one; [intros id; apply box_cancelled|]. cbn. rewrite (box_vote _ _ _ Hv).
  by apply (b_cancel (rules_of v)).
Qed.
Lemma cancel_steps d vid now actor d' : cancel d vid now actor = Ok d' → steps d d'.
Proof. intros H. unfold cancel in H. inv_vote. apply cancelled_steps; auto. Qed.
Lemma deleted_steps d vid v actor reason :
  votes (flow_db d) !! vid = Some v → vote_status v ≠ open → steps d (_delete_audited d vid v actor reason).
Proof.
  intros Hv Hs. eapply steps_one; [intros id; apply box_deleted|]. cbn. rewrite (box_vote _ _ _ Hv).
  by apply b_delete.
Qed.
Lemma not_in_record v : in_record v = false → vote_status v ≠ open.
Proof. unfold in_record. intros H%bool_decide_eq_false E. apply H. rewrite E. set_solver. Qed.
Lemma delete_vote_steps d vid m actor d' : delete_vote d vid m actor = Ok d' → steps d d'.
Proof. intros H. unfold delete_vote in H. inv_vote. apply deleted_steps; auto using not_in_record. Qed.
Lemma delete_standalone_steps d vid actor d' : delete_standalone d vid actor = Ok d' → steps d d'.
Proof. intros H. unfold delete_standalone in H. inv_vote. apply deleted_steps; auto using not_in_record. Qed.

(** The rows of several votes. *)
Lemma box_delete_all rows d actor reason id :
  box (delete_all d rows actor reason) id = if decide (id ∈ rows.*1) then MkBox None [] [] else box d id.
Proof.
  revert d. induction rows as [|[i v] rows IH]; intros d.
  - by rewrite decide_False by apply not_elem_of_nil.
  - change (delete_all d ((i, v) :: rows) actor reason) with
      (delete_all (_delete_audited d i v actor reason) rows actor reason).
    rewrite IH, box_deleted. rewrite fmap_cons. cbn [fst].
    destruct (decide (id ∈ rows.*1)), (decide (id = i)), (decide (id ∈ i :: rows.*1)) as [H|H]; try done;
      rewrite elem_of_cons in H; tauto.
Qed.
Lemma deleted_all_steps d d' (rows : list (string * Vote)) :
  (∀ id, box d' id = if decide (id ∈ rows.*1) then MkBox None [] [] else box d id) →
  (∀ kv, kv ∈ rows → votes (flow_db d) !! kv.1 = Some kv.2 ∧ vote_status kv.2 ≠ open) → steps d d'.
Proof.
  intros Hb Hr id. rewrite Hb. case_decide as Hin; [|done].
  apply list_elem_of_fmap in Hin as (kv & -> & Hin). destruct (Hr kv Hin) as [Hv Hs].
  rewrite (box_vote _ _ _ Hv). apply rtc_once. by apply b_delete.
Qed.
Lemma sort_filter_elem (P : string * Vote → Prop) `{∀ x, Decision (P x)} leb (m : gmap string Vote) kv :
  kv ∈ sort_by leb (filter P (map_to_list m)) → m !! kv.1 = Some kv.2 ∧ P kv.
Proof.
  rewrite elem_of_sort_by, list_elem_of_filter. destruct kv as [i v]. rewrite elem_of_map_to_list. tauto.
Qed.
Lemma delete_item_steps d item actor may d' ids :
  delete_for_agenda_item d item actor may = Ok (d', ids) → steps d d'.
Proof.
  unfold delete_for_agenda_item. cbn zeta. set (rows := sort_by _ _). intros H. inv_ok.
  match goal with H : existsb _ _ = false |- _ => rename H into Hno end. simplify_eq.
  eapply (deleted_all_steps _ _ rows); [intros id; apply box_delete_all|].
  intros kv Hin. split; [by apply sort_filter_elem in Hin as [? _]|].
  apply not_in_record. by eapply existsb_false in Hno.
Qed.
Lemma delete_meeting_steps d m actor d' ids :
  delete_for_meeting d m actor = Ok (d', ids) → steps d d'.
Proof.
  unfold delete_for_meeting, _refuse_open. cbn zeta. intros H. inv_ok.
  match goal with H : existsb _ _ = false |- _ => rename H into Hno end.
  unfold delete_locked_votes in *. simplify_eq. apply (deleted_all_steps _ _ (meeting_votes d m)).
  - intros id. rewrite box_delete_all. case_decide as Hin; [done|].
    unfold box, markers_of, choices_of. cbn [flow_db with_flow with_ballots votes voted_markers secret_ballots].
    rewrite !list_filter_filter. f_equal; f_equal; apply list_filter_iff; intros y; naive_solver.
  - intros kv Hin. split; [by apply sort_filter_elem in Hin as [? _]|].
    eapply existsb_false in Hno; [|done]. by apply bool_decide_eq_false in Hno.
Qed.

(** ** Votes that a state change or the end of a meeting cancels *)
Lemma cancelled_view_steps d x ids :
  cancelled_in (flow_db d) x ids →
  (∀ id v, id ∈ ids → votes (flow_db d) !! id = Some v → vote_status v = open ∨ vote_status v = draft) →
  steps d (with_flow x d).
Proof.
  intros Hc Hs id. specialize (Hc id). unfold box, markers_of, choices_of. cbn [flow_db with_flow voted_markers secret_ballots].
  destruct (decide (id ∈ ids)) as [Hin|Hin]; [|by rewrite (rules_of_view _ _ _ Hc)].
  assert (E : rules_of <$> votes x !! id = rules_in <$> (vview <$> votes x !! id)) by by destruct (votes x !! id) as [[]|].
  rewrite E, Hc. destruct (votes (flow_db d) !! id) as [v|] eqn:Ev; [|done]. apply rtc_once.
  apply (b_cancel (rules_of v)). cbn. destruct (Hs id v); auto.
Qed.
Lemma status_change_steps can b d d0 x m : status_change can b d0 (flow_db d) x m → steps d (with_flow x d).
Proof.
  intros (ids & Hids & Hc)%status_change_votes. eapply cancelled_view_steps; [done|].
  intros id v Hin Hv. apply Hids in Hin as (_ & w & Hw & Hor). rewrite Hv in Hw. injection Hw as <-.
  destruct Hor as [Hr _]. by apply running_status in Hr.
Qed.
Lemma cancel_fold_flow ids d now actor reason :
  foldl (λ d id, match votes (flow_db d) !! id with
                 | Some v => room_mark_cancelled d id v now actor reason
                 | None => d
                 end) d ids =
  with_flow (foldl (λ x id, match votes x !! id with
                            | Some v => _mark_cancelled x id v now actor reason
                            | None => x
                            end) (flow_db d) ids) d.
Proof.
  revert d. induction ids as [|id ids IH]; intros d; cbn [foldl]; [by destruct d|].
  rewrite IH. by destruct (votes (flow_db d) !! id).
Qed.
Lemma cancel_drafts_steps d m now actor reason : steps d (cancel_drafts_for_meeting d m now actor reason).1.
Proof.
  unfold cancel_drafts_for_meeting. cbn [fst]. rewrite cancel_fold_flow.
  set (ids := (filter _ _).*1). apply (cancelled_view_steps _ _ ids); [intros i; apply (cancel_all_view (λ _ _ _, true))|].
  intros vid v Hid Hv. apply list_elem_of_fmap in Hid as (kv & -> & Hin).
  apply list_elem_of_filter in Hin as [Hs Hin]. apply sort_filter_elem in Hin as [Hk _]. rewrite Hv in Hk. injection Hk as ->. auto.
Qed.

(** ** Cast *)
Lemma cast_secret_steps d vid s c d' v :
  votes (flow_db d) !! vid = Some v → vote_status v = open →
  (v_kind (vo_row v) = _kind_of (vb_config (vo_body v)) → admissible (vb_config (vo_body v)) c) →
  _cast_secret d vid s c = Ok d' → steps d d'.
Proof.
  intros Hv Hs Ha H. destruct (box_cast _ _ _ _ _ vid H) as [Hn Hb].
  apply (steps_one _ _ vid (λ id, MkBox (bx_rules (box d id)) (markers_of d id ++ [s]) (choices_of d id ++ [c])));
    [intros id; by destruct (box_cast _ _ _ _ _ id H)|].
  cbn. rewrite (box_vote _ _ _ Hv), Hv. by apply b_cast.
Qed.

Section Cast.
Context `{VotingRightsLaws}.

Lemma voter_same d p v as_delegation row s d' :
  _voter d p v as_delegation row = Ok (s, d') → same_votes d d'.
Proof.
  unfold _voter, _represented_voter. destruct (rights_check _ _ _ _) as [blocked delegator].
  destruct as_delegation; [|intros Hv; inv_ok; by simplify_eq].
  destruct delegator; [by intros [= <- <-]|].
  destruct (claim_seat _ _ _ _ _) as [[s' d1]|] eqn:E; [|done].
  intros [= <- <-]. by eapply claim_same.
Qed.
Lemma same_votes_steps d d' : same_votes d d' → steps d d'.
Proof. intros Hs. by apply steps_same, box_same_votes. Qed.
Lemma cast_vote_steps d vid p choice now as_delegation row d' :
  cast_vote d vid p choice now as_delegation row = Ok d' → steps d d'.
Proof.
  intros Hc. unfold cast_vote in Hc. apply bind_ok in Hc as (v & Hv & Hc). inv_vote.
  match goal with Hx : _voter _ _ _ _ _ = Ok ?r |- _ => destruct r as [s d1]; rename Hx into Hvo end.
  pose proof (voter_same _ _ _ _ _ _ _ Hvo) as Hs1. inv_ok.
  match goal with Hx : _stored_choice _ _ _ = Ok ?c |- _ => rename Hx into Hst end.
  match goal with Hx : _cast_secret ?d2 _ _ _ = Ok _ |- _ => rename Hx into Hca; set (d2' := d2) in * end.
  assert (Hs2 : same_votes d d2').
  { match goal with Hx : match vo_meeting_id v with _ => _ end = Ok _ |- _ => rename Hx into Hj end.
    set (d1' := if as_delegation then _ else _) in Hj.
    assert (Hs1' : same_votes d d1') by (unfold d1'; by destruct as_delegation).
    destruct (vo_meeting_id v); [destruct as_delegation; [by simplify_eq|]|by simplify_eq].
    apply join_same in Hj. unfold same_votes in *. destruct_and!. repeat split; congruence. }
  transitivity d2'; [by apply same_votes_steps|].
  eapply cast_secret_steps; [|done| |done].
  - destruct Hs2 as (_ & -> & _). done.
  - by apply (stored_choice_admissible v choice).
Qed.
Lemma cast_guest_steps d vid g choice now d' : cast_guest d vid g choice now = Ok d' → steps d d'.
Proof.
  intros Hc. unfold cast_guest in Hc. apply bind_ok in Hc as (v & Hv & Hc). inv_vote.
  match goal with Hx : _stored_choice _ _ _ = Ok ?c |- _ => rename Hx into Hst end.
  match goal with Hx : _cast_secret ?d2 _ _ _ = Ok _ |- _ => transitivity d2; [auto|] end.
  { by apply steps_audit. }
  eapply cast_secret_steps; [| |by apply (stored_choice_admissible v choice)|done]; done.
Qed.
End Cast.

(** ** Close *)
Lemma record_proposal_same d vid v app p fresh d' o :
  _record_proposal d vid v app p fresh = Ok (d', o) →
  votes (flow_db d') = votes (flow_db d) ∧ voted_markers d' = voted_markers d ∧ secret_ballots d' = secret_ballots d.
Proof.
  unfold _record_proposal. destruct (vb_proposal _); [|by intros [= <- _]]. intros Hr. inv_ok. by simplify_eq.
Qed.
Lemma try_stage_steps d app branch p note vid fresh d' s :
  _try_stage d app branch p note vid fresh = Ok (d', s) → steps d d'.
Proof.
  unfold _try_stage. destruct (stage_branch _ _ _ _ _ _ _ _) as [[x st]|e] eqn:E.
  - intros [= <- _]. unfold stage_branch in E. apply bind_ok in E as ([t|] & _ & E); [|done].
    unfold stage_fire in E. apply bind_ok in E as (pl & Hp & Hw).
    eapply status_change_steps. by eapply change_fire.
  - by destruct e; intros [= <- _].
Qed.
Lemma stage_branch_steps d vid v app branch p note decide_it fresh d' s o :
  _stage_branch d vid v app branch p note decide_it fresh = Ok (d', s, o) → steps d d'.
Proof.
  intros Hs. unfold _stage_branch in Hs. cbn zeta in Hs. apply bind_ok in Hs as ([d1 dec] & H1 & Hs).
  apply bind_ok in Hs as ([d2 st] & H2 & Hs).
  assert (steps d d1) as ->.
  { destruct (_ && _); [|by simplify_eq].
    apply record_proposal_same in H1 as (Hv & Hm & Hc). by apply steps_same, box_same. }
  assert (steps d1 d2) as ->.
  { destruct (vote_gremium_mismatch d v); [by simplify_eq|]. by eapply try_stage_steps. }
  destruct st; simplify_eq; [done|]. by apply steps_audit.
Qed.
Lemma link_branch_steps d vid s o : steps d (link_branch d vid s o).
Proof.
  apply steps_same. intros id. unfold link_branch. destruct s as [s|]; [|done].
  set (d1 := match votes _ !! vid with Some v => _ | None => d end).
  assert (Hb : box d1 id = box d id).
  { unfold d1. destruct (votes (flow_db d) !! vid) as [v|] eqn:Ev; [|done]. rewrite box_put.
    case_decide as Hi; [subst|done]. by rewrite (box_vote _ _ _ Ev). }
  by destruct o.
Qed.
(** A closed row is the close of its box, when the count gives its result. *)
Lemma closed_steps d vid v res er pr t :
  votes (flow_db d) !! vid = Some v → vote_status v = open →
  (v_kind (vo_row v) = _kind_of (vb_config (vo_body v)) → lot_of (vo_row v) = None →
     recount (vb_config (vo_body v)) (choices_of d vid) (vb_eligible_count (vo_body v)) =
       Some (res, lot_of (vo_row (closed_vote v res er pr t)))) →
  steps d (put_vote vid (closed_vote (_fix_attendance d vid v (vote_config v)) res er pr t) d).
Proof.
  intros Hv Hs Hr. apply steps_put. rewrite (box_vote _ _ _ Hv).
  set (v' := _fix_attendance d vid v (vote_config v)).
  assert (E : rules_of (closed_vote v' res er pr t) =
              moved_to closed (vb_eligible_count (vo_body v')) res (lot_of (vo_row (closed_vote v res er pr t)))
                (rules_of v)).
  { unfold v', _fix_attendance, rules_of, vote_status. by destruct (vo_meeting_id v). }
  rewrite E. apply b_close; [done|done|].
  unfold v', _fix_attendance. destruct (vo_meeting_id v); [|by left]. cbn.
  destruct (guests_vote (vote_config v)) eqn:Hg; [by right|by left].
Qed.
Lemma escaped_ok {A} (c : res pyexc A) a : escaped c = Ok a → c = Ok a.
Proof. destruct c; [|done]. by intros [= ->]. Qed.
Lemma close_vote_steps d vid p now clock fresh d' out :
  close_vote d vid p now clock fresh = Ok (d', out) → steps d d'.
Proof.
  intros Hc. unfold close_vote in Hc. apply bind_ok in Hc as (v & Hv%get_vote_ok & Hc).
  apply bind_ok in Hc as (u & Hs%raise_if_ok & Hc). bool_prop.
  destruct (v_kind (vo_row v)) eqn:Hk.
  - unfold _close_motion in Hc. cbn zeta in Hc. apply bind_ok in Hc as (o & Ho%escaped_ok & Hc).
    apply bind_ok in Hc as (_ & _ & Hc). apply bind_ok in Hc as ([[d1 st] dec] & Hb & Hc). simplify_eq.
    etransitivity; [|apply link_branch_steps].
    match type of Hb with context [vote_audit ?a ?b ?c ?e (put_vote _ _ _)] =>
      assert (steps d (vote_audit a b c e (put_vote vid
        (closed_vote (_fix_attendance d vid v (vote_config v)) (Some (result_text (motion_result o))) None None
           (default clock now)) d))) as ->
    end.
    { apply steps_audit, closed_steps; [done|done|]. intros Hkind Hl. rewrite Hk in Hkind.
      unfold vote_config, _aggregate in Ho. destruct (vb_config (vo_body v)) as [c|c|c]; [|done|done].
      cbn in Ho |- *. unfold eligible_of in Ho. rewrite Ho. f_equal. f_equal. exact (eq_sym Hl). }
    destruct (vo_application_id _); [by eapply stage_branch_steps|]. by simplify_eq.
  - unfold _close_election in Hc. cbn zeta in Hc. apply bind_ok in Hc as (o & Ho & Hc).
    apply bind_ok in Hc as (_ & _ & Hc). simplify_eq. apply steps_audit, closed_steps; [done|done|].
    intros Hkind Hl. unfold _election_outcome, election_config in Ho.
    destruct (vb_config (vo_body v)) as [c|c|c]; [done| |done]. cbn in Ho. apply escaped_ok in Ho.
    cbn. unfold eligible_of in Ho. by rewrite Ho.
  - unfold _close_poll in Hc. cbn zeta in Hc. apply bind_ok in Hc as (o & Ho & Hc).
    simplify_eq. apply steps_audit, closed_steps; [done|done|].
    intros Hkind Hl. unfold _poll_outcome, poll_config in Ho.
    destruct (vb_config (vo_body v)) as [c|c|c]; [done|done|]. cbn in Ho. apply escaped_ok in Ho.
    cbn. rewrite Ho. f_equal. f_equal. exact (eq_sym Hl).
Qed.

(** ** Polls and the lot *)
Lemma build_config_ok m l n s g c : build_config m l n s g = Ok c → PollConfig_valid c = true.
Proof.
  unfold build_config. destruct (numbered 1 l); [|done]. cbn zeta.
  destruct (PollConfig_valid _) eqn:E; [|done]. by intros [= <-].
Qed.
Lemma patch_steps d vid payload p now d' :
  boxes_ok d → patch d vid payload p now = Ok d' → steps d d'.
Proof.
  intros Hok Hp. unfold patch in Hp. apply bind_ok in Hp as (v & Hv%get_vote_ok & Hp).
  apply bind_ok in Hp as (u1 & Hk%raise_if_ok & Hp). apply bind_ok in Hp as (u2 & Hs%raise_if_ok & Hp).
  apply bind_ok in Hp as (u3 & Hn%raise_if_ok & Hp). apply bind_ok in Hp as (c & Hc & Hp).
  apply bind_ok in Hp as (q & _ & Hp). apply bind_ok in Hp as (nc & Hnc & Hp). apply bind_ok in Hp as (u4 & _ & Hp).
  simplify_eq. apply steps_audit, steps_put. bool_prop.
  specialize (Hok vid). rewrite (box_vote _ _ _ Hv) in Hok |- *. destruct Hok as [Hcf Hkind _ _ _ _ _].
  unfold poll_config in Hc. unfold is_poll in Hk. bool_prop.
  assert (Hc' : vb_config (vo_body v) = PollRules c) by (destruct (vb_config (vo_body v)); by simplify_eq).
  assert (choices_of d vid = [] ∧ markers_of d vid = []) as [-> ->].
  { unfold _ballot_count in Hn. destruct (choices_of d vid), (markers_of d vid); cbn in Hn; [done|lia..]. }
  match goal with |- ballot_step _ (MkBox (Some ?r) _ _) =>
    assert (r = MkRules (vo_eligible_group v) poll (vote_status v) (PollRules (default c nc)) (vb_eligible_count (vo_body v))
                  (v_result (vo_row v)) (lot_of (vo_row v))) as -> end.
  { unfold rules_of, vote_status. cbn. rewrite Hk. by destruct nc; [|rewrite Hc']. }
  apply (b_patch (rules_of v)).
  - done.
  - cbn. set_solver.
  - unfold _patched_config in Hnc. destruct (_ || _) in Hnc.
    + apply bind_ok in Hnc as (c' & Hb & Hnc). simplify_eq. by eapply build_config_ok.
    + simplify_eq. cbn in *. by rewrite Hc' in Hcf.
Qed.
Lemma create_poll_begins d payload p now vid d' :
  boxes_ok d → votes (flow_db d) !! vid = None → create_poll d payload p now vid = Ok d' → begins d d'.
Proof.
  intros Hok Hn Hp. unfold create_poll in Hp. inv_ok.
  match goal with Hb : build_config _ _ _ _ _ = Ok _ |- _ => apply build_config_ok in Hb as Hv end.
  set (d1 := _insert d None None None _ vid _ now) in *.
  assert (Hb : begins d d1) by (by apply insert_begins).
  destruct (pc_draft payload); [by simplify_eq|]. eapply begins_then; [done|]. by eapply open_vote_steps.
Qed.
(** The rows of the vote table after the election service. *)
Definition with_rows (rows : gmap string VoteRow) (d : RoomDb) : RoomDb :=
  with_flow (with_votes (map_imap (λ id v, Some match rows !! id with Some r => set_row r v | None => v end)
                           (votes (flow_db d))) (flow_db d)) d.
Lemma draw_lot_steps d vid who name now choose audits db' :
  service_draw_lot (MkElectionDb (vo_row <$> votes (flow_db d)) audits) vid who name now choose = Ok db' →
  steps d (with_rows (votes_table db') d).
Proof.
  unfold service_draw_lot, _closed_election. cbn [votes_table lot_audits]. rewrite lookup_fmap. intros Hd.
  apply bind_ok in Hd as ([row res] & Hrow & Hd).
  destruct (votes (flow_db d) !! vid) as [v|] eqn:Hv; [|done]. cbn in Hrow.
  destruct (v_election_result (vo_row v)) as [r|] eqn:Hr; [|done].
  destruct (negb (is_election (vo_row v)) || _) eqn:Hg; [done|]. simplify_eq. bool_prop.
  destruct (er_lot res) as [lot|] eqn:Hl; [|done]. destruct (drawn lot) eqn:Hdr; [done|].
  destruct (draw_lot _ _ _) as [dr|]; [|done]. simplify_eq. cbn [votes_table].
  match goal with |- steps d (with_rows (<[vid:=?r0]> _) d) => set (row' := r0) end.
  apply (steps_one _ _ vid (λ id, MkBox (Some (rules_of (set_row row' v))) (markers_of d id) (choices_of d id))).
  - intros id. unfold box, with_rows, markers_of, choices_of.
    cbn [flow_db with_flow with_votes votes voted_markers secret_ballots]. rewrite map_lookup_imap.
    case_decide as Hi.
    + subst id. by rewrite Hv, lookup_insert_eq.
    + rewrite lookup_insert_ne by congruence. rewrite lookup_fmap.
      destruct (votes (flow_db d) !! id) as [w|] eqn:Ew; [|done]. cbn. by destruct w.
  - cbn. rewrite (box_vote _ _ _ Hv). unfold rules_of, vote_status, is_election in *. bool_prop.
    match goal with Hs : v_status (vo_row v) = closed |- _ => cbn; rewrite Hs end.
    apply (b_lot (MkRules (vo_eligible_group v) (v_kind (vo_row v)) closed (vb_config (vo_body v)) (vb_eligible_count (vo_body v))
                    (v_result (vo_row v)) (lot_of (vo_row v))) lot); [done| |done|by eexists].
    cbn. unfold lot_of. by rewrite Hr.
Qed.

(** ** Runs of the program *)
Section Runs.
Context `{VotingRightsLaws}.

(** One committed transaction: an operation on votes, a state change of an application, the lot
    of an election, or anything else that leaves the votes and the ballots alone.  The payloads
    passed the validators of their models; a new id is fresh. *)
Inductive vote_step : RoomDb → RoomDb → Prop :=
| s_create d app payload p vid now d' :
    votes (flow_db d) !! vid = None → VoteConfig_valid (cr_config payload) = true →
    create_vote d app payload p vid now = Ok d' → vote_step d d'
| s_create_internal d app payload m item ok actor vid now d' :
    votes (flow_db d) !! vid = None → config_ok (vc_config payload) →
    create_internal d app payload m item ok actor vid now = Ok d' → vote_step d d'
| s_create_poll d payload p now vid d' :
    votes (flow_db d) !! vid = None → create_poll d payload p now vid = Ok d' → vote_step d d'
| s_update_draft d vid payload m actor d' :
    config_ok (vc_config payload) → update_draft d vid payload m actor = Ok d' → vote_step d d'
| s_patch d vid payload p now d' : patch d vid payload p now = Ok d' → vote_step d d'
| s_open d vid now actor n d' : open_vote d vid now actor n = Ok d' → vote_step d d'
| s_cast d vid p choice now as_delegation row d' :
    cast_vote d vid p choice now as_delegation row = Ok d' → vote_step d d'
| s_cast_guest d vid g choice now d' : cast_guest d vid g choice now = Ok d' → vote_step d d'
| s_cancel d vid now actor d' : cancel d vid now actor = Ok d' → vote_step d d'
| s_close d vid p now clock fresh d' out :
    close_vote d vid p now clock fresh = Ok (d', out) → vote_step d d'
| s_delete d vid m actor d' : delete_vote d vid m actor = Ok d' → vote_step d d'
| s_delete_standalone d vid actor d' : delete_standalone d vid actor = Ok d' → vote_step d d'
| s_delete_item d item actor may d' ids :
    delete_for_agenda_item d item actor may = Ok (d', ids) → vote_step d d'
| s_delete_meeting d m actor d' ids : delete_for_meeting d m actor = Ok (d', ids) → vote_step d d'
| s_cancel_drafts d m now actor reason : vote_step d (cancel_drafts_for_meeting d m now actor reason).1
| s_status can b d d0 x m : status_change can b d0 (flow_db d) x m → vote_step d (with_flow x d)
| s_lot d vid who name now choose audits db' :
    service_draw_lot (MkElectionDb (vo_row <$> votes (flow_db d)) audits) vid who name now choose = Ok db' →
    vote_step d (with_rows (votes_table db') d)
| s_other d d' :
    votes (flow_db d') = votes (flow_db d) → voted_markers d' = voted_markers d →
    secret_ballots d' = secret_ballots d → vote_step d d'.

Lemma vote_step_begins d d' : boxes_ok d → vote_step d d' → begins d d'.
Proof.
  intros Hok. destruct 1;
    eauto using create_vote_begins, create_internal_begins, create_poll_begins; apply steps_begins;
    eauto using update_draft_steps, patch_steps, open_vote_steps, cast_vote_steps, cast_guest_steps, cancel_steps,
      close_vote_steps, delete_vote_steps, delete_standalone_steps, delete_item_steps, delete_meeting_steps,
      cancel_drafts_steps, status_change_steps, draw_lot_steps.
  by apply steps_same, box_same.
Qed.
Lemma begins_ok d d' : begins d d' → boxes_ok d → boxes_ok d'.
Proof. intros Hb Hok id. eapply box_step_ok; [apply Hb|apply Hok]. Qed.

(** A room before its first vote. *)
Definition no_votes (d : RoomDb) : Prop :=
  votes (flow_db d) = ∅ ∧ voted_markers d = [] ∧ secret_ballots d = [].
Definition reachable (d : RoomDb) : Prop := ∃ d0, no_votes d0 ∧ rtc vote_step d0 d.
Lemma no_votes_ok d : no_votes d → boxes_ok d.
Proof. intros (Hv & Hm & Hs) id. unfold box, markers_of, choices_of. by rewrite Hv, Hm, Hs. Qed.
Lemma reachable_ok d : reachable d → boxes_ok d.
Proof.
  intros (d0 & Hstart & Hr). apply no_votes_ok in Hstart. induction Hr as [d|a b c Hab _ IH]; [done|].
  apply IH. eapply begins_ok; [|done]. by apply vote_step_begins.
Qed.
Lemma reachable_rules d id v :
  reachable d → votes (flow_db d) !! id = Some v → rules_ok (rules_of v) (markers_of d id) (choices_of d id).
Proof. intros Hr Hv. specialize (reachable_ok d Hr id). by rewrite (box_vote _ _ _ Hv). Qed.


(** C2: in every reachable state each voter has one marker in a vote, there are as many ballots
    as voters, every ballot is a valid choice of the vote, and a draft has none. *)
Theorem one_ballot_per_voter d id v :
  reachable d → votes (flow_db d) !! id = Some v →
  NoDup (markers_of d id) ∧ length (choices_of d id) = length (markers_of d id) ∧
  Forall (admissible (vb_config (vo_body v))) (choices_of d id) ∧
  (vote_status v = draft → markers_of d id = [] ∧ choices_of d id = []).
Proof.
  intros Hr Hv. destruct (reachable_rules d id v Hr Hv) as [_ _ H1 H2 H3 H4 _].
  split; [done|]. split; [done|]. split; [done|]. intros Hd. specialize (H4 Hd). split; [done|].
  rewrite H4 in H2. by destruct (choices_of d id).
Qed.

(** C3: a closed motion keeps the result that a recount of its stored ballots gives, whatever
    happened since: the missed quorum rejects, else the majority decides. *)
Theorem closed_result_recounts d id v c :
  reachable d → votes (flow_db d) !! id = Some v → vote_status v = closed →
  vb_config (vo_body v) = MotionRules c →
  ∃ o, result c (_aggregate d id c) (eligible_of v) = Ok o ∧
       v_result (vo_row v) = Some (result_text (motion_result o)).
Proof.
  intros Hr Hv Hs Hc. destruct (reachable_rules d id v Hr Hv) as [_ _ _ _ _ _ H7].
  unfold result_ok in H7. cbn in H7. rewrite decide_True, Hc in H7 by done. cbn in H7.
  unfold _aggregate, eligible_of. destruct (result c _ _) as [o|]; [|naive_solver].
  exists o. split; [done|]. destruct H7 as [H7|(l & l' & H7 & _)]; [|done]. by injection H7 as <- _.
Qed.

End Runs.
