(* ===== verification/VoteCastFacts.v ===== *)
(** Who can cast a ballot: the gate of [cast] and its mirror [can_still_cast] agree, and the guard of
    each operation.  What a close does: an expired vote always ends, the branch that fires belongs to
    the result, and a refused branch leaves the application where it is. *)

From stdpp Require Import gmap strings.
From S2P Require Import Prelude PyStr PyNum PyValue JsonText VoteConfigs Tally TallyFacts Election FlowDb Decision.
From S2P Require Import FlowEngine FlowEngineFacts Policy Room VoteRows VoteService VoteClose VoteSpec.
From S2P Require Import VoteServiceFacts.

(** ** Every vote has a choice that it takes *)
Lemma forallb_true {A} (f : A → bool) l : (∀ x, x ∈ l → f x = true) → forallb f l = true.
Proof. intros H. apply forallb_forall. intros x Hx. apply H. by apply list_elem_of_In. Qed.

Lemma some_choice v :
  config_ok (vb_config (vo_body v)) → v_kind (vo_row v) = _kind_of (vb_config (vo_body v)) →
  ∃ choice s, _stored_choice v (vote_config v) choice = Ok s.
Proof.
  unfold _stored_choice, is_poll, is_election_vote, is_election, vote_config, poll_config, election_config.
  intros Hc ->. destruct (vb_config (vo_body v)) as [c|c|c]; cbn [_kind_of config_ok as_vote_config] in *.
  - unfold VoteConfig_valid in Hc. bool_prop. destruct (options c) as [|o l] eqn:Eo; [done|].
    exists (Answer (CText o)), o. repeat (rewrite bool_decide_false by done). cbn.
    rewrite bool_decide_true; [done|by left].
  - apply ElectionConfig_valid_facts in Hc as (_ & Hs & _). destruct (yes_no c) eqn:Ey.
    + exists (Answer (CText "abstain")), "abstain". rewrite bool_decide_false, bool_decide_true by done.
      unfold stored_choice. cbn. by rewrite Ey.
    + exists (Answer (CList [])), (encode_election_choice []).
      rewrite bool_decide_false, bool_decide_true by done. unfold stored_choice. cbn. rewrite Ey. cbn.
      change (Z.of_nat 0) with 0. destruct (Z.ltb_spec (seats c) 0); [lia|done].
  - apply PollConfig_valid_facts in Hc as (_ & _ & Hl). destruct (decide (mode c = date)) as [Hd|Hd].
    + exists (Answers ((λ k, (k, "no")) <$> option_ids c)), (encode_poll_answers ((λ k, (k, "no")) <$> option_ids c)).
      rewrite bool_decide_true by done. unfold poll_stored_choice. cbn -[option_ids encode_poll_answers].
      rewrite bool_decide_true by done.
      assert (E1 : ((λ k : string, (k, "no")) <$> option_ids c).*1 = option_ids c).
      { rewrite <- list_fmap_compose. cbn. by rewrite list_fmap_id. }
      rewrite E1. rewrite (forallb_true _ (option_ids c)) by (intros k Hk; by apply bool_decide_eq_true).
      cbn -[option_ids encode_poll_answers]. rewrite forallb_true; [done|].
      intros k Hk. apply list_elem_of_fmap in Hk as ([k' a] & -> & Hk).
      apply list_elem_of_fmap in Hk as (k2 & [= -> ->] & _). done.
    + exists (Answer (CList [])), (encode_election_choice []). rewrite bool_decide_true by done.
      unfold poll_stored_choice. cbn -[choice_limit]. rewrite bool_decide_false by done. cbn -[choice_limit].
      change (Z.of_nat 0) with 0. destruct (Z.ltb_spec (choice_limit c) 0); [lia|done].
Qed.

Section Casting.
Context `{VotingRightsLaws}.

Lemma cast_secret_ok d id s c : (∃ d', _cast_secret d id s c = Ok d') ↔ my_ballot d id s = false.
Proof. unfold _cast_secret, my_ballot. case_bool_decide; naive_solver. Qed.
Lemma my_ballot_same d d' id s : same_votes d d' → my_ballot d' id s = my_ballot d id s.
Proof. intros (_ & _ & _ & Hm & _). unfold my_ballot. by rewrite Hm. Qed.

(** The sub that a ballot of the principal runs under, own or represented. *)
Definition ballot_sub (d : RoomDb) (p : Principal) (v : Vote) (as_delegation : bool) : option string :=
  let '(blocked, delegator_sub) := rights_check d (sub p) (vo_meeting_id v) (vo_eligible_group v) in
  if as_delegation then
    match delegator_sub with
    | Some s => Some s
    | None => free_seat d (sub p) (vo_meeting_id v) (vo_eligible_group v)
    end
  else if negb blocked && _may_cast p (vo_eligible_group v) then Some (sub p) else None.
Lemma voter_iff d p v as_delegation row s :
  (∃ d', _voter d p v as_delegation row = Ok (s, d')) ↔ ballot_sub d p v as_delegation = Some s.
Proof.
  unfold _voter, ballot_sub, _represented_voter, _own_voter.
  destruct (rights_check _ _ _ _) as [blocked delegator]. destruct as_delegation.
  - destruct delegator as [x|]; [naive_solver|]. rewrite (free_seat_claim _ _ _ _ row).
    destruct (claim_seat _ _ _ _ _) as [[x d1]|]; cbn; naive_solver.
  - destruct blocked, (_may_cast p _); cbn; naive_solver.
Qed.
Lemma can_still_cast_subs d id v p now :
  can_still_cast d id v p now = true ↔
    vote_status v = open ∧ window_closed v now = false ∧ scope_permissions p = None ∧
    ∃ as_delegation s, ballot_sub d p v as_delegation = Some s ∧ my_ballot d id s = false.
Proof.
  unfold can_still_cast, ballot_sub. destruct (rights_check _ _ _ _) as [blocked delegator].
  case_bool_decide as Ho; cbn [negb]; [|naive_solver].
  destruct (window_closed v now); [naive_solver|].
  destruct (scope_permissions p) as [sc|].
  { rewrite bool_decide_true by by eexists. naive_solver. }
  rewrite bool_decide_false by (intros [? ?]; done).
  destruct (negb blocked && _may_cast p _ && negb (my_ballot d id (sub p))) eqn:E1.
  - bool_prop. split; [|done]. intros _. repeat split; try done. exists false, (sub p).
    by repeat match goal with Hx : _ = _ |- _ => rewrite Hx end.
  - set (rep := match delegator with Some s => Some s | None => _ end).
    split.
    + intros Hr. repeat split; try done. destruct rep as [s|]; [|done]. exists true, s. by apply negb_true_iff in Hr.
    + intros (_ & _ & _ & [|] & s & Hs & Hm); [by rewrite Hs, Hm|].
      destruct (negb blocked && _may_cast p _) eqn:E2; [|done]. injection Hs as <-. by rewrite Hm in E1.
Qed.

Lemma no_result {E A} (e : E) (P : Prop) : ¬ P → (∃ a : A, Err e = Ok a) ↔ P.
Proof. intros HP. split; [by intros [? ?]|by intros ?%HP]. Qed.
(** The gate of [cast] in one line. *)
Lemma cast_vote_ok d id v p choice now as_delegation row :
  votes (flow_db d) !! id = Some v → (∀ m, vo_meeting_id v = Some m → is_Some (meeting_by_id d m)) →
  (∃ d', cast_vote d id p choice now as_delegation row = Ok d') ↔
    vote_status v = open ∧ window_closed v now = false ∧ scope_permissions p = None ∧
    is_ok (_stored_choice v (vote_config v) choice) = true ∧
    ∃ s, ballot_sub d p v as_delegation = Some s ∧ my_ballot d id s = false.
Proof.
  intros Hv Hm. unfold cast_vote, _get_vote. rewrite Hv. rewrite bind_Ok_l.
  destruct (decide (vote_status v = open)) as [Ho|Ho].
  2: { rewrite (bool_decide_false (vote_status v = open)) by done. apply no_result. tauto. }
  rewrite (bool_decide_true (vote_status v = open)) by done. cbn [negb raise_if]. rewrite bind_Ok_l.
  destruct (window_closed v now); cbn [raise_if]; [apply no_result; by intros (_ & ? & _)|]. rewrite bind_Ok_l.
  destruct (scope_permissions p) as [sc|].
  { rewrite bool_decide_true by by eexists. apply no_result. by intros (_ & _ & ? & _). }
  rewrite bool_decide_false by (intros [? ?]; done). cbn [raise_if]. rewrite bind_Ok_l.
  pose proof (voter_iff d p v as_delegation row) as Hvo.
  destruct (_voter d p v as_delegation row) as [[s d1]|e] eqn:Ev; cycle 1.
  { apply no_result. intros (_ & _ & _ & _ & s & Hs & _). by apply Hvo in Hs as (d' & ?). }
  pose proof (voter_same _ _ _ _ _ _ _ Ev) as Hs1.
  assert (Hsub : ballot_sub d p v as_delegation = Some s) by (apply Hvo; eauto). clear Hvo Ev.
  rewrite bind_Ok_l. destruct (_stored_choice _ _ _) as [st|e]; cbn [is_ok]; [|apply no_result; by intros (_ & _ & _ & ? & _)].
  rewrite bind_Ok_l. cbn zeta. set (d2 := if as_delegation then _ else _).
  assert (Hs2 : same_votes d d2) by (unfold d2; by destruct as_delegation).
  assert (∃ d3, match vo_meeting_id v with
                | Some m => if as_delegation then Ok d2 else join_meeting d2 m (sub p)
                | None => Ok d2
                end = Ok d3 ∧ same_votes d d3) as (d3 & -> & Hs3).
  { destruct (vo_meeting_id v) as [m|]; [|by exists d2]. destruct as_delegation; [by exists d2|].
    destruct (join_ok d2 m (sub p)) as [d3 Hj].
    { destruct Hs2 as (Hcf & _). unfold meeting_by_id. rewrite Hcf. by apply Hm. }
    exists d3. split; [done|]. apply join_same in Hj. unfold same_votes in *. destruct_and!. repeat split; congruence. }
  rewrite bind_Ok_l, cast_secret_ok, (my_ballot_same d d3) by done. rewrite Hsub. naive_solver.
Qed.

(** C8: the flag that a client reads agrees with the gate: a principal can still cast exactly
    when some call of [cast] takes a ballot, own or represented, and stores it. *)
Theorem can_still_cast_iff d id v p now row :
  reachable d → votes (flow_db d) !! id = Some v → (∀ m, vo_meeting_id v = Some m → is_Some (meeting_by_id d m)) →
  can_still_cast d id v p now = true ↔
    ∃ as_delegation choice d', cast_vote d id p choice now as_delegation row = Ok d'.
Proof.
  intros Hr Hv Hm. rewrite can_still_cast_subs. split.
  - intros (Ho & Hw & Hs & as_del & s & Hsub & Hb).
    destruct (reachable_rules d id v Hr Hv) as [Hc Hk _ _ _ _ _].
    destruct (some_choice v Hc Hk) as (choice & st & Hst). exists as_del, choice.
    apply (cast_vote_ok d id v); try done. rewrite Hst. eauto 8.
  - intros (as_del & choice & Hcast). apply (cast_vote_ok d id v) in Hcast; [|done|done]. naive_solver.
Qed.
End Casting.

(** ** The count never raises *)
Lemma get0_tally_le options choices k :
  0 ≤ get0 (tally options choices) k ≤ cast_of options choices.
Proof.
  rewrite get0_tally. case_decide as Hk.
  - split; [apply hits_nonneg|by apply hits_filter_le].
  - unfold cast_of. lia.
Qed.
Lemma cast_of_le options choices : 0 ≤ cast_of options choices ≤ Z.of_nat (length choices).
Proof.
  unfold cast_of. pose proof (length_filter (λ c, names_known options c = true) choices). lia.
Qed.
Lemma quorum_total quorum participation eligible :
  quorum_ok quorum = true → 0 ≤ participation < 10 ^ 9 → eligible < 10 ^ 9 →
  ∃ b, _quorum_met quorum participation eligible = Ok b.
Proof. intros. eexists. by apply quorum_met_exact. Qed.
Lemma result_total config choices eligible :
  quorum_ok (quorum config) = true → Z.of_nat (length choices) < 10 ^ 9 → eligible < 10 ^ 9 →
  ∃ o, result config (tally (options config) choices) eligible = Ok o.
Proof.
  intros Hq Hs He. unfold result. rewrite zsum_tally. fold (cast_of (options config) choices).
  pose proof (get0_tally_le (options config) choices ABSTAIN). pose proof (cast_of_le (options config) choices).
  set (part := if abstain_counts_quorum config then _ else _).
  destruct (quorum_total (quorum config) part eligible Hq) as [b ->]; [|done|by eexists].
  unfold part. destruct (abstain_counts_quorum config); lia.
Qed.
Lemma length_filter_le {A} (P : A → Prop) `{∀ x, Decision (P x)} l :
  0 ≤ Z.of_nat (length (filter P l)) ≤ Z.of_nat (length l).
Proof. pose proof (length_filter P l). lia. Qed.
Lemma election_total config choices eligible :
  quorum_ok (e_quorum config) = true → Z.of_nat (length choices) < 10 ^ 9 → eligible < 10 ^ 9 →
  ∃ o, outcome_of config choices eligible = Ok o.
Proof.
  intros Hq Hs He. unfold outcome_of, tally_election. destruct (yes_no config).
  - unfold _yes_no_outcome. rewrite zsum_tally. fold (cast_of ["yes"; "no"; "abstain"] choices).
    pose proof (get0_tally_le ["yes"; "no"; "abstain"] choices "abstain").
    pose proof (cast_of_le ["yes"; "no"; "abstain"] choices). cbn zeta.
    set (part := if e_abstain_counts_quorum config then _ else _).
    destruct (quorum_total (e_quorum config) part eligible Hq) as [b ->]; [|done|by eexists].
    unfold part. destruct (e_abstain_counts_quorum config); lia.
  - cbn zeta. set (picks := _ <$> choices).
    assert (Hp : length picks = length choices) by (unfold picks; apply length_fmap).
    pose proof (length_filter_le (λ b, b = []) picks) as Hf. rewrite Hp in Hf.
    set (part := if e_abstain_counts_quorum config then _ else _).
    destruct (quorum_total (e_quorum config) part eligible Hq) as [b ->]; [|done|by eexists].
    unfold part. destruct (e_abstain_counts_quorum config); lia.
Qed.
Lemma poll_total config choices : PollConfig_valid config = true → ∃ o, tally_poll choices config = Ok o.
Proof.
  intros (_ & Hn & _)%PollConfig_valid_facts. unfold tally_poll.
  assert (Hne : ∀ leb, ∃ x l, sort_by leb (option_ids config) = x :: l).
  { intros leb. pose proof (length_sort_by leb (option_ids config)).
    destruct (sort_by leb (option_ids config)) as [|x l]; [cbn in *; lia|]. eauto. }
  case_decide; [unfold _date_poll|unfold _list_poll]; cbn zeta;
    match goal with |- context [sort_by ?leb _] => destruct (Hne leb) as (x & l & ->) end; by eexists.
Qed.
Definition quorum_of (c : AnyConfig) : option Quorum := quorum (as_vote_config c).
Lemma recount_total c cs e :
  config_ok c → quorum_ok (quorum_of c) = true → Z.of_nat (length cs) < 10 ^ 9 → default 0 e < 10 ^ 9 →
  is_Some (recount c cs e).
Proof.
  intros Hc Hq Hn He. rewrite <- (length_fmap Some) in Hn. destruct c as [c|c|c]; cbn in *.
  - destruct (result_total c (Some <$> cs) _ Hq Hn He) as [o ->]. by eexists.
  - destruct (election_total c (Some <$> cs) _ Hq Hn He) as [o ->]. by eexists.
  - destruct (poll_total c (Some <$> cs) Hc) as [o ->]. by eexists.
Qed.

(** ** A refused branch *)
(** The errors that the SAVEPOINT of the close takes. *)
Definition refusal (e : FlowError) : bool :=
  match e with ConflictError _ | NotFoundError => true | _ => false end.
Definition or_refusal {A} (c : fres A) : bool := match c with Ok _ => true | Err e => refusal e end.
Lemma or_refusal_bind {A B} (c : fres A) (f : A → fres B) :
  or_refusal c = true → (∀ a, c = Ok a → or_refusal (f a) = true) → or_refusal (c ≫= f) = true.
Proof. destruct c; cbn; eauto. Qed.
Lemma raise_refuses b e : refusal e = true → or_refusal (raise_if b e) = true.
Proof. by destruct b. Qed.
Lemma load_app_refuses d id allow : or_refusal (_load_app d id allow) = true.
Proof. unfold _load_app. by repeat case_match. Qed.
Lemma load_app_row d id allow app : _load_app d id allow = Ok app → applications d !! id = Some app.
Proof. unfold _load_app. repeat case_match; try done. by intros [= ->]. Qed.
Lemma load_transition_refuses d id : or_refusal (_load_transition d id) = true.
Proof. unfold _load_transition. by case_match. Qed.
Lemma entry_snapshot_refuses d app s t : or_refusal (_entry_snapshot d app s t) = true.
Proof. unfold _entry_snapshot, snapshot_for_entry. by repeat case_match. Qed.
(** The guards of the flow and the answers of the application evaluate without an exception. *)
Record evaluates (d : Db) (app_id : string) : Prop := {
  ev_roles : ∀ app, applications d !! app_id = Some app → is_ok (raw_roles app) = true;
  ev_guards : ∀ t ctx, t ∈ transitions (conf d) → is_ok (guard_holds (tr_guard t) ctx) = true
}.
Lemma plan_fire_refuses can d app_id tid a :
  fa_decision a = None → fa_meeting_id a = None → evaluates d app_id →
  or_refusal (plan_fire can d app_id tid a) = true.
Proof.
  intros Hd Hm [Hr Hg]. unfold plan_fire, apply_decision, build_context, build_base_context. rewrite Hd, Hm.
  apply or_refusal_bind; [apply load_app_refuses|]. intros app Happ%load_app_row.
  apply or_refusal_bind; [apply load_transition_refuses|]. intros t [Hin _]%load_transition_elem.
  do 4 (apply or_refusal_bind; [by apply raise_refuses|intros ? _]). cbn zeta. rewrite bind_Ok_l.
  apply or_refusal_bind; [specialize (Hr _ Happ); by destruct (raw_roles app)|]. intros ctx _.
  apply or_refusal_bind; [specialize (Hg t ctx Hin); by destruct (guard_holds _ _)|]. intros b _.
  apply or_refusal_bind; [by apply raise_refuses|intros _ _].
  apply or_refusal_bind; [apply entry_snapshot_refuses|done].
Qed.
Lemma write_fire_refuses d p a fresh : fa_meeting_id a = None → or_refusal (write_fire d p a fresh) = true.
Proof.
  intros Hm. unfold write_fire. cbn zeta. destruct (move_application _ _); [|done].
  destruct (if bool_decide _ then _ else _) as [d1 ids]. unfold _add_to_agenda_in_tx. by rewrite Hm.
Qed.
Lemma stage_branch_refuses can d app_id branch p note vid fresh :
  evaluates d app_id → or_refusal (stage_branch can d app_id branch p note vid fresh) = true.
Proof.
  intros He. unfold stage_branch, branch_transition.
  apply or_refusal_bind; [apply or_refusal_bind; [apply load_app_refuses|done]|]. intros [t|] _; [|done]. unfold stage_fire.
  apply or_refusal_bind; [by apply plan_fire_refuses|]. intros pl _. by apply write_fire_refuses.
Qed.

Lemma record_proposal_evaluates d vid v app_id p fresh d' o :
  _record_proposal d vid v app_id p fresh = Ok (d', o) → evaluates (flow_db d) app_id → evaluates (flow_db d') app_id.
Proof.
  unfold _record_proposal. destruct (vb_proposal _); [|by intros [= <- _]]. intros Hr [Hro Hgu]. inv_ok. simplify_eq.
  split; cbn [flow_db with_flow]; [|done]. intros app Happ.
  unfold record_decision in Happ. cbn [applications audit_record update_application with_decisions] in Happ.
  rewrite lookup_alter in Happ. case_decide as Hi; [subst app_id|by apply Hro].
  apply fmap_Some in Happ as (app0 & Happ0 & ->). exact (Hro _ Happ0).
Qed.

(** ** An expired vote ends *)
(** The vote can be counted with the decimals of the quorum, and its application is there. *)
Record can_end (d : RoomDb) (id : string) (v : Vote) : Prop := {
  ce_quorum : quorum_ok (quorum_of (vb_config (vo_body v))) = true;
  ce_ballots : Z.of_nat (length (choices_of d id)) < 10 ^ 9;
  ce_eligible : eligible_of v < 10 ^ 9;
  ce_proposal : ∀ p a, vb_proposal (vo_body v) = Some p → approved_amount p = Some a → ∃ c x, a = DFin c x;
  ce_application : ∀ a, vo_application_id v = Some a →
    is_Some (applications (flow_db d) !! a) ∧ evaluates (flow_db d) a
}.
Lemma record_proposal_total d vid v app_id p fresh :
  (∀ q a, vb_proposal (vo_body v) = Some q → approved_amount q = Some a → ∃ c x, a = DFin c x) →
  is_Some (applications (flow_db d) !! app_id) →
  ∃ r, _record_proposal d vid v app_id p fresh = Ok r.
Proof.
  intros Hp [app Happ]. unfold _record_proposal, _get_application.
  destruct (vb_proposal _) as [q|] eqn:Eq; [|by eexists]. rewrite Happ. cbn [andb]. rewrite bind_Ok_l.
  destruct (approved_amount q) as [a|] eqn:Ea; [|by eexists].
  destruct (Hp q a eq_refl Ea) as (c & x & ->). destruct (ap_amount app) as [r|]; by eexists.
Qed.
Lemma stage_branch_total d vid v app_id branch p note decide_it fresh :
  (∀ q a, vb_proposal (vo_body v) = Some q → approved_amount q = Some a → ∃ c x, a = DFin c x) →
  is_Some (applications (flow_db d) !! app_id) → evaluates (flow_db d) app_id →
  ∃ r, _stage_branch d vid v app_id branch p note decide_it fresh = Ok r.
Proof.
  intros Hp Happ He. unfold _stage_branch. cbn zeta.
  assert (∃ r, (if decide_it && negb (vote_gremium_mismatch d v)
                then _record_proposal d vid v app_id p fresh else Ok (d, None)) = Ok r ∧
               evaluates (flow_db r.1) app_id) as ([d1 dec] & -> & He1).
  { destruct (_ && _); [|by eexists].
    destruct (record_proposal_total d vid v app_id p fresh Hp Happ) as [[d1 o] Hr]. exists (d1, o).
    split; [done|]. by eapply record_proposal_evaluates. }
  rewrite bind_Ok_l. destruct (vote_gremium_mismatch d v); [by eexists|]. unfold _try_stage.
  pose proof (stage_branch_refuses (room_can_read d1) (flow_db d1) app_id branch p (Some note) (Some vid) fresh He1) as Hs.
  destruct (stage_branch _ _ _ _ _ _ _ _) as [[x s]|e]; [by eexists|]. destruct e; try done; by eexists.
Qed.

(** ** The row and the application after the close *)
(** The branch of a close leaves a closed row closed. *)
Definition closed_in (d : RoomDb) (id : string) : Prop :=
  ∃ v, votes (flow_db d) !! id = Some v ∧ vote_status v = closed.
Lemma closed_change can b d0 d x m id :
  status_change can b d0 (flow_db d) x m → closed_in d id → closed_in (with_flow x d) id.
Proof.
  intros (ids & Hids & Hc)%status_change_votes (v & Hv & Hs). specialize (Hc id). rewrite decide_False in Hc.
  - rewrite Hv in Hc. unfold closed_in. cbn [flow_db with_flow]. destruct (votes x !! id) as [w|]; [|done].
    exists w. split; [done|]. injection Hc as _ Hw _ _ _ _ _ _. by rewrite Hw.
  - intros (_ & w & Hw & Hor & _)%Hids. rewrite Hv in Hw. injection Hw as <-.
    apply running_status in Hor. rewrite Hs in Hor. by destruct Hor.
Qed.
Lemma staged_change d app branch p note vid fresh d' s :
  _try_stage d app branch p note vid fresh = Ok (d', inl s) →
  ∃ t pl, branch_transition (flow_db d) app branch = Ok (Some t) ∧
    plan_fire (room_can_read d) (flow_db d) app (tr_id t)
      (system_args p (Some (if decide (note = "") then branch else note)) (Some vid)) = Ok pl ∧
    write_fire (flow_db d) pl
      (system_args p (Some (if decide (note = "") then branch else note)) (Some vid)) fresh = Ok (flow_db d', s) ∧
    d' = with_flow (flow_db d') d.
Proof.
  unfold _try_stage. destruct (stage_branch _ _ _ _ _ _ _ _) as [[x st]|e] eqn:E; [|by destruct e].
  intros [= <- <-]. unfold stage_branch in E. apply bind_ok in E as ([t|] & Ht & E); [|done].
  unfold stage_fire in E. apply bind_ok in E as (pl & Hp & Hw). eauto 8.
Qed.
Lemma blocked_same d app branch p note vid fresh d' reason :
  _try_stage d app branch p note vid fresh = Ok (d', inr reason) → d' = d.
Proof.
  unfold _try_stage. destruct (stage_branch _ _ _ _ _ _ _ _) as [[x st]|e]; [done|]. by destruct e; intros [= <- _].
Qed.
Lemma link_closed d vid s o id : closed_in d id → closed_in (link_branch d vid s o) id.
Proof.
  intros (v & Hv & Hs). unfold link_branch. destruct s as [s|]; [|by exists v].
  assert (H : closed_in (match votes (flow_db d) !! vid with
    | Some v => put_vote vid (fired_by (tr_id (sf_transition s)) v) d | None => d end) id).
  { destruct (votes (flow_db d) !! vid) as [w|] eqn:Ew; [|by exists v].
    unfold closed_in, put_vote. cbn [flow_db with_flow with_votes votes].
    destruct (decide (id = vid)) as [->|Hne].
    - exists (fired_by (tr_id (sf_transition s)) w). rewrite lookup_insert_eq. split; [done|].
      rewrite Hv in Ew. by injection Ew as <-.
    - exists v. by rewrite lookup_insert_ne by congruence. }
  by destruct o.
Qed.
Lemma stage_branch_closed d vid v app branch p note decide_it fresh d' s o id :
  _stage_branch d vid v app branch p note decide_it fresh = Ok (d', s, o) → closed_in d id → closed_in d' id.
Proof.
  intros Hs Hc. unfold _stage_branch in Hs. cbn zeta in Hs. apply bind_ok in Hs as ([d1 dec] & H1 & Hs).
  apply bind_ok in Hs as ([d2 st] & H2 & Hs).
  assert (Hc1 : closed_in d1 id).
  { destruct (_ && _); [|by simplify_eq]. apply record_proposal_same in H1 as (Hv & _ & _).
    unfold closed_in. by rewrite Hv. }
  assert (Hc2 : closed_in d2 id).
  { destruct (vote_gremium_mismatch d v); [by simplify_eq|]. destruct st as [s0|r].
    - apply staged_change in H2 as (t & pl & _ & Hp & Hw & ->). eapply closed_change; [|done].
      by eapply change_fire.
    - by apply blocked_same in H2 as ->. }
  by destruct st; simplify_eq.
Qed.
Lemma put_closed d vid v res er pr t actor action data :
  closed_in (vote_audit actor action vid data (put_vote vid (closed_vote v res er pr t) d)) vid.
Proof. eexists. split; [apply lookup_insert_eq|done]. Qed.
Lemma close_vote_closed d id p now clock fresh d' out :
  close_vote d id p now clock fresh = Ok (d', out) → closed_in d' id.
Proof.
  intros Hc. unfold close_vote in Hc. apply bind_ok in Hc as (v & _ & Hc). apply bind_ok in Hc as (u & _ & Hc).
  destruct (v_kind (vo_row v)).
  - unfold _close_motion in Hc. cbn zeta in Hc. apply bind_ok in Hc as (o & _ & Hc).
    apply bind_ok in Hc as (_ & _ & Hc). apply bind_ok in Hc as ([[d1 st] dec] & Hb & Hc). simplify_eq.
    apply link_closed. destruct (vo_application_id _).
    + eapply stage_branch_closed; [exact Hb|apply put_closed].
    + simplify_eq. apply put_closed.
  - unfold _close_election in Hc. cbn zeta in Hc. apply bind_ok in Hc as (o & _ & Hc).
    apply bind_ok in Hc as (_ & _ & Hc). simplify_eq. apply put_closed.
  - unfold _close_poll in Hc. cbn zeta in Hc. apply bind_ok in Hc as (o & _ & Hc). simplify_eq. apply put_closed.
Qed.


(** ** The branch that fires *)
(** The columns of an application that a decision writes. *)
Definition award (a : Application) : option Z := ap_approved_amount a.
(** A fire of a branch: the move, one event and one audit row. *)
Lemma write_branch_fire d pl p note vid fresh d' s :
  write_fire d pl (system_args p note vid) fresh = Ok (d', s) → tr_branch (pl_transition pl) ≠ None →
  ∃ d1, move_application (pl_move pl) d = Some d1 ∧ applications d' = applications d1 ∧
    FlowDb.decisions d' = FlowDb.decisions d1 ∧ sf_transition s = pl_transition pl.
Proof.
  unfold write_fire. cbn zeta. destruct (move_application _ _) as [d1|]; [|done]. intros H Hb.
  rewrite bool_decide_false in H by done. unfold _add_to_agenda_in_tx in H. cbn [fa_meeting_id system_args] in H.
  rewrite bind_Ok_l in H. simplify_eq. by exists d1.
Qed.
Lemma plan_branch_fire can d app_id t p note vid pl :
  tables_ok d → t ∈ transitions (conf d) → tr_branch t ≠ None →
  plan_fire can d app_id (tr_id t) (system_args p note vid) = Ok pl →
  pl_transition pl = t ∧ mv_to (pl_move pl) = tr_to_state_id t ∧ ap_id (mv_app (pl_move pl)) = app_id.
Proof.
  intros [Hnd _ _ Hids] Hin Hb H. unfold plan_fire in H. apply bind_ok in H as (app & Happ%load_app_row & H).
  apply bind_ok in H as (t' & Ht & H). unfold _load_transition in Ht. rewrite (find_by_NoDup _ _ _ Hnd Hin) in Ht.
  injection Ht as <-. do 4 (apply bind_ok in H as (? & _ & H)). cbn [fa_decision system_args apply_decision] in H.
  cbn zeta in H. rewrite bind_Ok_l in H. apply bind_ok in H as (ctx & _ & H). apply bind_ok in H as (g & _ & H).
  apply bind_ok in H as (? & _ & H). apply bind_ok in H as (gr & _ & H). apply bind_ok in H as (? & _ & H).
  injection H as <-. cbn. by rewrite (Hids _ _ Happ).
Qed.
Lemma move_application_state m d d1 :
  move_application m d = Some d1 →
  (∀ id, award <$> applications d1 !! id = award <$> applications d !! id) ∧
  (∀ id, id ≠ ap_id (mv_app m) → applications d1 !! id = applications d !! id) ∧
  applications d1 !! ap_id (mv_app m) ≫= ap_current_state_id = Some (mv_to m) ∧
  FlowDb.decisions d1 = FlowDb.decisions d.
Proof.
  unfold move_application. destruct (applications d !! ap_id (mv_app m)) as [row|] eqn:Hrow; [|done].
  destruct (_ && _); [|done]. intros [= <-]. cbn [applications update_application FlowDb.decisions].
  split; [|split; [|split; [|done]]].
  - intros id. destruct (decide (id = ap_id (mv_app m))) as [->|]; [|by rewrite lookup_alter_ne].
    by rewrite lookup_alter_eq, Hrow.
  - intros id Hid. by rewrite lookup_alter_ne.
  - by rewrite lookup_alter_eq, Hrow.
Qed.
Lemma branch_transition_spec d app_id branch t app :
  applications d !! app_id = Some app → branch_transition d app_id branch = Ok (Some t) →
  t ∈ _outgoing d app ∧ tr_branch t = Some branch.
Proof.
  intros Happ H. unfold branch_transition in H. apply bind_ok in H as (app' & Happ'%load_app_row & H).
  rewrite Happ in Happ'. injection Happ' as <-. injection H as H. apply head_Some_elem_of in H.
  apply list_elem_of_filter in H. tauto.
Qed.
(** What the record of a decision leaves of the applications. *)
Lemma record_proposal_apps d vid v app_id p fresh d' o :
  tables_ok (flow_db d) → _record_proposal d vid v app_id p fresh = Ok (d', o) →
  keeps (flow_db d) (flow_db d') ∧
  ∀ id, id ≠ app_id → applications (flow_db d') !! id = applications (flow_db d) !! id.
Proof.
  intros Hok. unfold _record_proposal, _get_application. destruct (vb_proposal _); [|by intros [= <- _]].
  destruct (applications (flow_db d) !! app_id) as [app|] eqn:Happ; [|done]. cbn [andb]. rewrite bind_Ok_l.
  intros Hr. apply bind_ok in Hr as (ex & _ & Hr). simplify_eq. cbn [flow_db with_flow].
  split; [apply keeps_record_decision|]. intros id Hid.
  unfold record_decision. cbn [applications audit_record update_application with_decisions].
  by rewrite (application_ids _ Hok _ _ Happ), lookup_alter_ne.
Qed.
Lemma keeps_tables d d' : keeps d d' → tables_ok d → tables_ok d'.
Proof.
  intros [Hc _ Ha] [H1 H2 H3 H4]. split; rewrite ?Hc; try done. intros id app Happ. specialize (Ha id).
  rewrite Happ in Ha. destruct (applications d !! id) as [b|] eqn:E; [|done]. injection Ha as Ha _ _ _ _ _ _ _ _ _ _ _ _.
  rewrite Ha. by apply H4.
Qed.
Lemma keeps_outgoing d d' app app' : keeps d d' → core app' = core app → _outgoing d' app' = _outgoing d app.
Proof.
  intros [Hc _ _] He. unfold _outgoing. rewrite Hc. injection He as _ _ _ Hv Hs _ _ _ _ _ _ _ _. by rewrite Hv, Hs.
Qed.

(** The outcome of a branch for the applications: the fired transition leaves the state of the
    application, has the name of the branch and sets the state; otherwise the state stays. *)
Definition branch_outcome (x x' : Db) (app_id branch : string) (app : Application) (mismatch : bool)
    (staged : option StagedFire) : Prop :=
  (∀ i, i ≠ app_id → applications x' !! i = applications x !! i) ∧
  match staged with
  | Some s =>
      mismatch = false ∧ sf_transition s ∈ _outgoing x app ∧ tr_branch (sf_transition s) = Some branch ∧
      applications x' !! app_id ≫= ap_current_state_id = Some (tr_to_state_id (sf_transition s))
  | None => core <$> applications x' !! app_id = Some (core app)
  end.
Definition awards_same (x x' : Db) : Prop :=
  FlowDb.decisions x' = FlowDb.decisions x ∧ ∀ i, award <$> applications x' !! i = award <$> applications x !! i.
Lemma try_stage_outcome d app_id branch p note vid fresh d' s app :
  tables_ok (flow_db d) → applications (flow_db d) !! app_id = Some app →
  _try_stage d app_id branch p note vid fresh = Ok (d', s) →
  branch_outcome (flow_db d) (flow_db d') app_id branch app false (match s with inl s => Some s | inr _ => None end) ∧
  awards_same (flow_db d) (flow_db d').
Proof.
  intros Hok Happ H. destruct s as [s|r].
  - apply staged_change in H as (t & pl & Ht & Hp & Hw & _).
    destruct (branch_transition_spec _ _ _ _ _ Happ Ht) as [Hout Hb]. pose proof Hout as (Hin & _ & _)%(elem_of_outgoing (room_can_read d)).
    destruct (plan_branch_fire _ _ _ t _ _ _ _ Hok Hin ltac:(by rewrite Hb) Hp) as (Hpt & Hto & Hid).
    apply write_branch_fire in Hw as (x & Hm & Ha & Hdec & Hs); [|by rewrite Hpt, Hb].
    apply move_application_state in Hm as (Haw & Hot & Hst & Hde). rewrite Hid, Hto in *. rewrite Hpt in Hs.
    split; [split|split].
    + intros i Hi. by rewrite Ha, Hot.
    + rewrite Hs, Ha. done.
    + congruence.
    + intros i. by rewrite Ha.
  - apply blocked_same in H as ->. split; [split|]; [done|by rewrite Happ|done].
Qed.
Lemma stage_branch_outcome d vid v app_id branch p note decide_it fresh d' s o app :
  tables_ok (flow_db d) → applications (flow_db d) !! app_id = Some app →
  _stage_branch d vid v app_id branch p note decide_it fresh = Ok (d', s, o) →
  branch_outcome (flow_db d) (flow_db d') app_id branch app (vote_gremium_mismatch d v) s ∧
  (decide_it = false ∨ vote_gremium_mismatch d v = true → awards_same (flow_db d) (flow_db d') ∧ o = None).
Proof.
  intros Hok Happ Hs. unfold _stage_branch in Hs. cbn zeta in Hs. apply bind_ok in Hs as ([d1 dec] & H1 & Hs).
  apply bind_ok in Hs as ([d2 st] & H2 & Hs).
  destruct (vote_gremium_mismatch d v) eqn:Hmis.
  - rewrite andb_false_r in H1. injection H1 as <- <-. injection H2 as <- <-. injection Hs as <- <- <-.
    split; [split|]; [done|by cbn; rewrite Happ|done].
  - rewrite andb_true_r in H1.
    assert (keeps (flow_db d) (flow_db d1) ∧
      (∀ i, i ≠ app_id → applications (flow_db d1) !! i = applications (flow_db d) !! i) ∧
      (decide_it = false → d1 = d ∧ dec = None)) as (Hk & Hot & Hno).
    { destruct decide_it; [|by simplify_eq]. by destruct (record_proposal_apps _ _ _ _ _ _ _ _ Hok H1). }
    assert (∃ app1, applications (flow_db d1) !! app_id = Some app1 ∧ core app1 = core app) as (app1 & Happ1 & Hc1).
    { pose proof (keeps_apps _ _ Hk app_id) as He. rewrite Happ in He. by apply core_some. }
    destruct (try_stage_outcome _ _ _ _ _ _ _ _ _ _ (keeps_tables _ _ Hk Hok) Happ1 H2) as [[Ho Hm] Ha].
    assert (Hout : _outgoing (flow_db d1) app1 = _outgoing (flow_db d) app) by by apply keeps_outgoing.
    split.
    + destruct st as [s0|r]; injection Hs as <- <- <-; (split; [intros i Hi; cbn; by rewrite Ho, Hot|]).
      * by rewrite <- Hout.
      * etransitivity; [exact Hm|by f_equal].
    + intros [Hd|]; [|done]. destruct (Hno Hd) as [-> ->]. by destruct st; simplify_eq.
Qed.
Lemma link_branch_apps d vid s o :
  applications (flow_db (link_branch d vid s o)) = applications (flow_db d) ∧
  (o = None → FlowDb.decisions (flow_db (link_branch d vid s o)) = FlowDb.decisions (flow_db d)).
Proof.
  unfold link_branch. destruct s as [s|]; [|done].
  destruct (votes (flow_db d) !! vid); by destruct o.
Qed.

(** C6: the close of a motion on an application stores the result, and moves the application along
    the branch of that result or not at all: the transition that fires leaves the state of the
    application and has the name of the result, a vote of another Gremium fires nothing, a lost
    vote awards nothing, and no other application changes. *)
Theorem close_fires_branch d id p now clock fresh d' out v c a app :
  tables_ok (flow_db d) → votes (flow_db d) !! id = Some v → v_kind (vo_row v) = motion →
  vb_config (vo_body v) = MotionRules c →
  vo_application_id v = Some a → applications (flow_db d) !! a = Some app →
  close_vote d id p now clock fresh = Ok (d', out) →
  ∃ o, result c (_aggregate d id c) (eligible_of v) = Ok o ∧
    cl_result out = Some (result_text (motion_result o)) ∧ closed_in d' id ∧
    branch_outcome (flow_db d) (flow_db d') a
      (if bool_decide (motion_result o = passed) then "pass" else "fail") app (vote_gremium_mismatch d v)
      (cl_staged out) ∧
    (motion_result o ≠ passed ∨ vote_gremium_mismatch d v = true → awards_same (flow_db d) (flow_db d')).
Proof.
  intros Hok Hv Hk Hcf Ha Happ Hc. pose proof (close_vote_closed _ _ _ _ _ _ _ _ Hc) as Hcl.
  unfold close_vote in Hc. apply bind_ok in Hc as (v1 & Hv1%get_vote_ok & Hc). rewrite Hv in Hv1.
  injection Hv1 as <-. apply bind_ok in Hc as (u & _ & Hc). rewrite Hk in Hc.
  unfold _close_motion, vote_config in Hc. rewrite Hcf in Hc. cbn [as_vote_config] in Hc. cbn zeta in Hc.
  apply bind_ok in Hc as (o & Ho%escaped_ok & Hc). apply bind_ok in Hc as (_ & _ & Hc).
  apply bind_ok in Hc as ([[d1 st] dec] & Hb & Hc). injection Hc as <- <-. exists o. split; [done|].
  set (v' := closed_vote _ _ _ _ _) in *.
  assert (Hf : vo_application_id v' = Some a ∧ vote_gremium_mismatch d v' = vote_gremium_mismatch d v).
  { unfold v', _fix_attendance. by destruct (vo_meeting_id v). }
  destruct Hf as [Hf Hmis]. rewrite Hf in Hb. set (d0 := vote_audit _ _ _ _ _) in Hb.
  assert (Hok0 : tables_ok (flow_db d0)) by (destruct Hok; by split).
  destruct (stage_branch_outcome _ _ _ _ _ _ _ _ _ _ _ _ _ Hok0 Happ Hb) as [Hout Haw].
  change (vote_gremium_mismatch d0 v') with (vote_gremium_mismatch d v') in Hout, Haw. rewrite Hmis in Hout, Haw.
  destruct (link_branch_apps d1 id st dec) as [Hla Hld]. cbn [cl_result cl_staged].
  split; [done|]. split; [done|]. split.
  - unfold branch_outcome in *. by rewrite Hla.
  - intros Hno. destruct Haw as [[Had Hap] ->]; [by destruct Hno; [left; apply bool_decide_false|right]|].
    split; [by rewrite Hld|]. intros i. by rewrite Hla.
Qed.
