(* ===== verification/DelegationFacts.v ===== *)
(** The rights that a meeting lends to a vote: the delegations implement the class of the vote
    service, every writer of the delegations keeps their rules, and the view of a member agrees
    with the gate of the ballot.  Then what an access token can do: its scope caps the permissions,
    the roles in a Gremium and the ballots of its principal.  At the end the bound of the turnout:
    the members and their substitutes together never cast more ballots than the Gremium has voting
    members. *)

From stdpp Require Import gmap strings sorting.
From S2P Require Import Prelude PyStr PyNum PyValue VoteConfigs Tally Election FlowDb Decision FlowEngine.
From S2P Require Import FlowEngineFacts Policy Room Delegations DelegationService VoteRows VoteService VoteSpec.
From S2P Require Import VoteServiceFacts VoteCastFacts.

(** ** The instance *)
#[export] Instance meeting_rights : VotingRights := {
  rights_check := voting_delegation_check;
  claim_seat := claim_pool_seat;
  free_seat := λ d s m g, pr_sub <$> pool_seat_for d s m g;
  join_meeting := λ d m s, mark_present_on_cast (release_pool_seat_of d m s).1 m s
}.
Lemma release_same d m id s : same_votes d (release_pool_seat d m id s).1.
Proof. unfold release_pool_seat. by case_match. Qed.
Lemma release_of_same d m s : same_votes d (release_pool_seat_of d m s).1.
Proof. unfold release_pool_seat_of. case_match; [apply release_same|done]. Qed.
Lemma write_same e row d : same_votes d (_write e row d).
Proof. by destruct e. Qed.
Lemma mark_present_same d m s d' : mark_present_on_cast d m s = Ok d' → same_votes d d'.
Proof.
  unfold mark_present_on_cast. intros (me & _ & H)%bind_ok. repeat case_match; simplify_eq; try done;
    unfold _write; by case_match.
Qed.
Lemma mark_present_total d m s : is_Some (meeting_by_id d m) → ∃ d', mark_present_on_cast d m s = Ok d'.
Proof.
  intros [me Hm]. unfold mark_present_on_cast, get_meeting. rewrite Hm, bind_Ok_l.
  repeat case_match; eauto.
Qed.
#[export] Instance meeting_rights_laws : VotingRightsLaws.
Proof.
  split; cbn.
  - intros d s m g row v d'. unfold claim_pool_seat. repeat case_match; intros; by simplify_eq.
  - intros d m s d' H. pose proof (release_of_same d m s) as H1. apply mark_present_same in H.
    unfold same_votes in *. destruct_and!. repeat split; congruence.
  - intros d m s Hm. apply mark_present_total. destruct (release_of_same d m s) as [Hc _].
    unfold meeting_by_id. by rewrite Hc.
  - intros d s m g row. unfold pool_seat_for, claim_pool_seat, _find_seat.
    destruct m as [m|]; [|done]. cbn. destruct (parse_uuid g) as [u|]; [|done]. cbn.
    repeat case_match; done.
Qed.

(** ** The rules of the delegations *)
(** Two delegations of one meeting: a member gives one, nobody gives and holds one, and nobody
    holds two votes. *)
Definition compatible (x y : MeetingDelegation) : Prop :=
  dl_meeting_id x = dl_meeting_id y →
  dl_delegator_id x ≠ dl_delegator_id y ∧ dl_delegate_id x ≠ dl_delegator_id y ∧
  dl_delegator_id x ≠ dl_delegate_id y ∧
  (dl_voting x = true → dl_voting y = true → dl_delegate_id x ≠ dl_delegate_id y).
Definition no_chains (l : list MeetingDelegation) : Prop :=
  StronglySorted compatible l ∧ Forall (λ x, dl_delegator_id x ≠ dl_delegate_id x) l.
(** The delegator is a voting member of the Gremium of the meeting. *)
Definition row_ok (d : RoomDb) (x : MeetingDelegation) : Prop :=
  dl_delegator_id x ∈ _voting_member_ids d (dl_gremium_id x) ∧
  me_gremium_id <$> meeting_by_id d (dl_meeting_id x) = Some (dl_gremium_id x).
(** A delegation that may join the others. *)
Definition grantable (d : RoomDb) (y : MeetingDelegation) : Prop :=
  Forall (λ x, compatible x y) (delegations d) ∧ dl_delegator_id y ≠ dl_delegate_id y ∧ row_ok d y.
(** A write of the delegations: some rows go, or one joins. *)
Definition delegation_write (d d' : RoomDb) : Prop :=
  delegations d' `sublist_of` delegations d ∨
  ∃ y, grantable d y ∧ delegations d' = delegations d ++ [y].

Lemma Forall_sublist {A} (P : A → Prop) l k : l `sublist_of` k → Forall P k → Forall P l.
Proof.
  induction 1 as [|x l k Hs IH|x l k Hs IH]; [done| |]; intros [Hx Hk]%Forall_cons; [constructor|]; auto.
Qed.
Lemma filter_sublist {A} (P : A → Prop) `{∀ x, Decision (P x)} l : filter P l `sublist_of` l.
Proof.
  induction l as [|x l IH]; [done|]. rewrite filter_cons. case_decide; by constructor.
Qed.
Lemma sublist_sorted {A} (R : A → A → Prop) l k : l `sublist_of` k → StronglySorted R k → StronglySorted R l.
Proof.
  induction 1 as [|x l k Hs IH|x l k Hs IH]; [done| |].
  - rewrite !StronglySorted_cons. intros [Hx Hk]. split; [|by apply IH]. eapply Forall_sublist; [exact Hs|done].
  - rewrite StronglySorted_cons. intros [_ Hk]. by apply IH.
Qed.
Lemma write_no_chains d d' : delegation_write d d' → no_chains (delegations d) → no_chains (delegations d').
Proof.
  intros [Hs|(y & (Hc & Hne & _) & ->)] [H1 H2].
  - split; [by eapply sublist_sorted|by eapply Forall_sublist].
  - split; [|apply Forall_app; split; [done|by constructor]].
    apply StronglySorted_app_2; [|done|by repeat constructor].
    intros x z Hx [->|[]%not_elem_of_nil]%elem_of_cons. by eapply Forall_forall in Hc.
Qed.
Lemma write_rows_ok d d' :
  cfg d' = cfg d → delegation_write d d' → Forall (row_ok d) (delegations d) → Forall (row_ok d') (delegations d').
Proof.
  intros Hcf Hw Hr.
  assert (E : ∀ x, row_ok d x → row_ok d' x).
  { intros x. unfold row_ok, _voting_member_ids, meeting_by_id. by rewrite Hcf. }
  destruct Hw as [Hs|(y & (_ & _ & Hy) & ->)].
  - eapply Forall_impl; [|exact E]. by eapply Forall_sublist.
  - apply Forall_app. split; [by eapply Forall_impl|]. constructor; [by apply E|constructor].
Qed.
Lemma write_same_rows d d' : delegations d' = delegations d → delegation_write d d'.
Proof. unfold delegation_write. intros ->. by left. Qed.

(** ** The operations *)
Lemma voting_member d p g : _independently_eligible d p g = true ↔ p ∈ _voting_member_ids d g.
Proof.
  unfold _independently_eligible, _membership_with_vote_cast, _voting_member_ids.
  rewrite elem_of_remove_dups, existsb_exists, list_elem_of_fmap. setoid_rewrite list_elem_of_filter. split.
  - intros (m & Hin & H). bool_prop. exists m. by rewrite (list_elem_of_In (memberships (cfg d)) m).
  - intros (m & -> & (Hg & Hv) & Hin). exists m. rewrite <- (list_elem_of_In (memberships (cfg d)) m). split; [done|].
    by rewrite !bool_decide_true.
Qed.
Lemma meeting_id_of d id m : meeting_by_id d id = Some m → me_id m = id.
Proof.
  unfold meeting_by_id, find_by. intros H. assert (Hin : m ∈ filter (λ x, me_id x = id) (meetings (cfg d))).
  { destruct (filter _ _); [done|]. injection H as ->. left. }
  by apply list_elem_of_filter in Hin as [? _].
Qed.
Lemma gremium_id_of d id g : gremium_by_id d id = Some g → gr_id g = id.
Proof.
  unfold gremium_by_id, find_by. intros H. assert (Hin : g ∈ filter (λ x, gr_id x = id) (gremium_rows (cfg d))).
  { destruct (filter _ _); [done|]. injection H as ->. left. }
  by apply list_elem_of_filter in Hin as [? _].
Qed.
Lemma chain_check_ok x y :
  chain_check (dl_delegator_id y) (dl_delegate_id y) (dl_voting y) x = Ok () →
  dl_meeting_id x = dl_meeting_id y → compatible x y.
Proof.
  unfold chain_check. intros H Hm _. inv_ok. bool_prop. repeat split; try done.
  intros Hx Hy E. by rewrite Hx, Hy, bool_decide_true in *.
Qed.
(** The insert behind both ways to delegate. *)
Lemma insert_writes d m g delegator delegate voting via actor lead id d' row :
  meeting_by_id d (me_id m) = Some m → me_gremium_id m = gr_id g → pr_id delegate ≠ pr_id delegator →
  _independently_eligible d (pr_id delegator) (gr_id g) = true →
  DelegationService._insert d m g delegator delegate voting via actor lead id = Ok (d', row) →
  cfg d' = cfg d ∧ delegation_write d d'.
Proof.
  unfold DelegationService._insert. intros Hm Hg Hne He H. apply bind_ok in H as (u & Hc & H). simplify_eq.
  split; [done|]. right. set (y := MkDelegation _ _ _ _ _ _ _ _). exists y. split; [|done].
  split; [|split; [done|split; [by apply voting_member|]]].
  - apply for_each_ok in Hc. apply Forall_forall. intros x Hx Hmx. apply (chain_check_ok x y); [|done|done].
    eapply Forall_forall in Hc; [exact Hc|]. unfold delegations_in. apply list_elem_of_filter. by split.
  - cbn. by rewrite Hm, <- Hg.
Qed.
Lemma create_writes d payload actor now id d' row :
  create d payload actor now id = Ok (d', row) → cfg d' = cfg d ∧ delegation_write d d'.
Proof.
  unfold create, _create_by_lead, get_meeting, _gremium. intros H.
  destruct (dc_delegator_id payload) as [did|].
  all: destruct (meeting_by_id d (dc_meeting_id payload)) as [m|] eqn:Hm; [|done]; rewrite bind_Ok_l in H.
  all: destruct (gremium_by_id d (me_gremium_id m)) as [g|] eqn:Hg; [|done]; rewrite bind_Ok_l in H.
  all: pose proof (meeting_id_of _ _ _ Hm) as Hmi; pose proof (gremium_id_of _ _ _ Hg) as Hgi.
  - do 3 (apply bind_ok in H as (? & _ & H)). apply bind_ok in H as (a & _ & H). apply bind_ok in H as (b & _ & H).
    apply bind_ok in H as (? & Hne%raise_if_ok & H). apply bind_ok in H as (? & _ & H).
    apply bind_ok in H as (? & He%raise_if_ok & H). do 2 (apply bind_ok in H as (? & _ & H)). bool_prop.
    eapply insert_writes; [| | | |exact H]; [by rewrite Hmi|done|done|done].
  - do 2 (apply bind_ok in H as (? & _ & H)). apply bind_ok in H as (a & _ & H). apply bind_ok in H as (b & _ & H).
    apply bind_ok in H as (? & Hne%raise_if_ok & H). apply bind_ok in H as (? & He%raise_if_ok & H).
    cbn zeta in H. do 2 (apply bind_ok in H as (? & _ & H)). bool_prop.
    eapply insert_writes; [| | | |exact H]; [by rewrite Hmi|done|done|done].
Qed.
Lemma revoke_writes d id actor now d' : revoke d id actor now = Ok d' → cfg d' = cfg d ∧ delegation_write d d'.
Proof.
  unfold revoke. intros H. apply bind_ok in H as (row & _ & H). apply bind_ok in H as (b & _ & H). simplify_eq.
  split; [done|]. left. apply filter_sublist.
Qed.
Lemma release_writes d m id s :
  cfg (release_pool_seat d m id s).1 = cfg d ∧ delegations (release_pool_seat d m id s).1 `sublist_of` delegations d.
Proof. unfold release_pool_seat. case_match; [|done]. split; [done|]. apply filter_sublist. Qed.
(** The seat that a substitute takes. *)
Lemma min_seat_elem personal l m : min_seat personal l = Some m → m ∈ l.
Proof.
  revert m. induction l as [|x l IH]; [done|]. cbn. intros m. destruct (min_seat personal l) as [n|].
  - destruct (seat_ltb _ _); intros [= <-]; [right; by apply IH|left].
  - intros [= <-]. left.
Qed.
Lemma find_seat_spec d s meeting group u deputy member :
  parse_uuid group = Some u → _find_seat d s (Some meeting) group = Some (deputy, member) →
  _meeting_live d meeting u = true ∧ principal_by_sub d s = Some deputy ∧ member ∈ principals (cfg d) ∧
  pr_id member ∈ free_seats d meeting u (pr_id deputy) ∧
  Forall (λ x, dl_delegator_id x ≠ pr_id deputy ∧ (dl_voting x = true → dl_delegate_id x ≠ pr_id deputy))
    (delegations_in d meeting).
Proof.
  intros Hu. unfold _find_seat. cbn. rewrite Hu. cbn. destruct (_meeting_live d meeting u); [|done]. cbn.
  destruct (principal_by_sub d s) as [dep|]; [|done]. cbn.
  match goal with |- context [if ?c then None else _] => destruct c; [done|] end.
  destruct (existsb _ _) eqn:Ex; [done|].
  match goal with |- context [min_seat ?q ?l] => destruct (min_seat q l) as [f|] eqn:Hf; [|done] end. cbn. intros [= <- <-].
  apply min_seat_elem, list_elem_of_filter in Hf as [Hf Hin]. repeat split; try done.
  apply Forall_forall. intros x Hx. eapply existsb_false in Ex; [|exact Hx]. bool_prop. split; [done|].
  intros Hv E. rewrite Hv, bool_decide_true in * by done. done.
Qed.
Lemma find_seat_grantable d s meeting group u deputy member id :
  parse_uuid group = Some u → _find_seat d s (Some meeting) group = Some (deputy, member) →
  grantable d (MkDelegation id meeting u (pr_id member) (pr_id deputy) true true (Some s)).
Proof.
  intros Hu (Hl & _ & _ & Hfree & Hno)%(find_seat_spec _ _ _ _ _ _ _ Hu). unfold free_seats in Hfree.
  destruct (members_for_substitute _ _ _) as [personal wide]. apply list_elem_of_filter in Hfree as [(Ht & _ & Hne) Hpool].
  split; [|split; [done|split]].
  - apply Forall_forall. intros x Hx Hm. cbn in Hm |- *. rewrite elem_of_app in Ht.
    assert (Hin : x ∈ delegations_in d meeting) by (apply list_elem_of_filter; by split).
    eapply Forall_forall in Hno as [H1 H2]; [|exact Hin].
    split; [|split; [|split]]; [| |done|by intros Hv _; apply H2].
    + intros E. apply Ht. left. apply list_elem_of_fmap. by exists x.
    + intros E. apply Ht. right. apply list_elem_of_fmap. by exists x.
  - cbn. destruct wide; [done|]. by apply list_elem_of_filter in Hpool as [_ ?].
  - cbn. unfold _meeting_live in Hl. destruct (meeting_by_id d meeting) as [m|]; [|done]. bool_prop. cbn. by f_equal.
Qed.
Lemma claim_writes d s m g id v d' :
  claim_pool_seat d s m g id = Some (v, d') → cfg d' = cfg d ∧ delegation_write d d'.
Proof.
  unfold claim_pool_seat. destruct m as [m|]; [|done]. destruct (parse_uuid g) as [u|] eqn:Hu; [|done].
  destruct (_find_seat d s (Some m) g) as [[dep mem]|] eqn:Hf; [|done]. intros [= _ <-]. split; [done|].
  right. eexists. split; [by eapply find_seat_grantable|done].
Qed.
Lemma delegated_writes d m id s d' b :
  _delegated d m id s = (d', b) → cfg d' = cfg d ∧ delegations d' `sublist_of` delegations d.
Proof. unfold _delegated. intros [= <- _]. apply release_writes. Qed.
Lemma write_rows e row d : cfg (_write e row d) = cfg d ∧ delegations (_write e row d) = delegations d.
Proof. by destruct e. Qed.
Lemma checked_in_writes d d1 e row (status m id s : string) b :
  (if bool_decide (status = "present") then _delegated d m id s else (d, false)) = (d1, b) →
  cfg (_write e row d1) = cfg d ∧ delegation_write d (_write e row d1).
Proof.
  intros H. destruct (write_rows e row d1) as [Hc Hd]. unfold delegation_write. rewrite Hc, Hd.
  destruct (bool_decide _); [|injection H as <- _; by split; [|left]].
  apply delegated_writes in H as [H1 H2]. split; [done|by left].
Qed.
Lemma set_self_writes d m status s note replace d' :
  set_self d m status s note replace = Ok d' → cfg d' = cfg d ∧ delegation_write d d'.
Proof.
  unfold set_self. intros H. do 2 (apply bind_ok in H as (? & _ & H)). destruct (find_by _ _ _); [|done].
  apply bind_ok in H as (? & _ & H). destruct (if bool_decide _ then _ else _) as [d1 b] eqn:E.
  apply bind_ok in H as (? & _ & H). injection H as <-. by eapply checked_in_writes.
Qed.
Lemma set_for_writes d m p status s note replace d' :
  set_for d m p status s note replace = Ok d' → cfg d' = cfg d ∧ delegation_write d d'.
Proof.
  unfold set_for. intros H. do 3 (apply bind_ok in H as (? & _ & H)).
  destruct (if bool_decide _ then _ else _) as [d1 b] eqn:E. apply bind_ok in H as (? & _ & H). injection H as <-.
  exact (checked_in_writes _ _ _ _ _ _ _ _ _ E).
Qed.
Lemma mark_present_rows d m s d' :
  mark_present_on_cast d m s = Ok d' → cfg d' = cfg d ∧ delegations d' = delegations d.
Proof.
  unfold mark_present_on_cast. intros (me & _ & H)%bind_ok.
  repeat case_match; simplify_eq; try done; unfold _write; by case_match.
Qed.
Lemma join_writes d m s d' : join_meeting d m s = Ok d' → cfg d' = cfg d ∧ delegations d' `sublist_of` delegations d.
Proof.
  cbn. intros [Hc Hd]%mark_present_rows. rewrite Hc, Hd. unfold release_pool_seat_of.
  destruct (principal_by_sub d s); [apply release_writes|done].
Qed.
(** The ballot claims a seat or frees one. *)
Lemma cast_vote_writes d vid p choice now as_delegation id d' :
  cast_vote d vid p choice now as_delegation id = Ok d' → cfg d' = cfg d ∧ delegation_write d d'.
Proof.
  intros Hc. unfold cast_vote in Hc. apply bind_ok in Hc as (v & _ & Hc).
  do 3 (apply bind_ok in Hc as (? & _ & Hc)). apply bind_ok in Hc as ([s d1] & Hv & Hc).
  apply bind_ok in Hc as (st & _ & Hc). cbn zeta in Hc. apply bind_ok in Hc as (d2 & Hj & Hc).
  assert (H2 : cfg d' = cfg d2 ∧ delegations d' = delegations d2).
  { unfold _cast_secret in Hc. case_bool_decide; [done|]. by injection Hc as <-. }
  unfold delegation_write. destruct H2 as [-> ->]. unfold _voter in Hv. destruct (rights_check _ _ _ _) as [bl del].
  destruct as_delegation.
  - assert (cfg d2 = cfg d1 ∧ delegations d2 = delegations d1) as [-> ->].
    { destruct (vo_meeting_id v); by injection Hj as <-. }
    unfold _represented_voter in Hv. destruct del; [injection Hv as _ <-; by split; [|left]|].
    destruct (claim_seat _ _ _ _ _) as [[s' d3]|] eqn:Hcl; [|done]. injection Hv as _ <-. by eapply claim_writes.
  - apply bind_ok in Hv as (? & _ & Hv). injection Hv as _ <-. destruct (vo_meeting_id v).
    + apply join_writes in Hj as [-> Hd]. by split; [|left].
    + injection Hj as <-. by split; [|left].
Qed.

(** ** Runs *)
(** A transaction that writes delegations, or any other one. *)
Inductive delegation_step : RoomDb → RoomDb → Prop :=
| g_create d payload actor now id d' row : create d payload actor now id = Ok (d', row) → delegation_step d d'
| g_revoke d id actor now d' : revoke d id actor now = Ok d' → delegation_step d d'
| g_self d m status s note replace d' :
    set_self d m status s note replace = Ok d' → delegation_step d d'
| g_lead d m p status s note replace d' :
    set_for d m p status s note replace = Ok d' → delegation_step d d'
| g_cast d vid p choice now as_delegation id d' :
    cast_vote d vid p choice now as_delegation id = Ok d' → delegation_step d d'
| g_other d d' : delegations d' = delegations d → delegation_step d d'.
Lemma delegation_step_writes d d' : delegation_step d d' → delegation_write d d'.
Proof.
  destruct 1.
  - by eapply create_writes.
  - by eapply revoke_writes.
  - by eapply set_self_writes.
  - by eapply set_for_writes.
  - by eapply cast_vote_writes.
  - by apply write_same_rows.
Qed.

(** C9: no order of grants, lead entries, claims of pool seats, check-ins, ballots and revokes
    makes a chain: in a meeting each member gives the vote to at most one other, nobody gives and
    holds a delegation, and nobody votes for two. *)
Theorem delegations_no_chain d0 d :
  delegations d0 = [] → rtc delegation_step d0 d → no_chains (delegations d).
Proof.
  intros H0 Hr. assert (Hok : no_chains (delegations d0)) by (rewrite H0; split; constructor). clear H0.
  induction Hr as [d|a b c Hab _ IH]; [done|]. apply IH. eapply write_no_chains; [|done].
  by apply delegation_step_writes.
Qed.

Lemma scope_set_elem scopes perm :
  perm ∈ scope_permission_set scopes ↔
  perm ∉ FORBIDDEN_PERMISSIONS ∧ ∃ w perms, w ∈ scopes ∧ dict_get w SCOPES = Some perms ∧ perm ∈ perms.
Proof.
  unfold scope_permission_set. rewrite list_elem_of_filter. apply and_iff_compat_l.
  rewrite list_elem_of_In, in_concat. setoid_rewrite <- list_elem_of_In. setoid_rewrite list_elem_of_fmap. split.
  - intros (l & (w & -> & Hw) & Hp). destruct (dict_get w SCOPES) as [perms|] eqn:E; [by exists w, perms|].
    by apply not_elem_of_nil in Hp.
  - intros (w & perms & Hw & E & Hp). exists perms. split; [|done]. exists w. by rewrite E.
Qed.
Lemma has_scoped p perm s : scope_permissions p = Some s → has p perm = true → perm ∈ s.
Proof. unfold has. intros ->. case_bool_decide; done. Qed.
Lemma gremium_scoped c p perm g s :
  scope_permissions p = Some s → has_gremium_permission c p perm g = true → perm ∈ s.
Proof.
  unfold has_gremium_permission, gremium_ids_with, admin_bypass, held_gremium_ids, scope_allows. intros ->.
  destruct (decide (perm ∈ s)) as [|Hn]; [done|]. rewrite bool_decide_false, andb_false_r by done. cbn.
  by rewrite bool_decide_false by apply not_elem_of_nil.
Qed.
(** The token gives nothing that its principal has not. *)
Lemma has_unscoped p q perm :
  p_roles q = p_roles p → p_permissions q = p_permissions p → scope_permissions p = None →
  has q perm = true → has p perm = true.
Proof.
  unfold has, is_admin. intros -> -> ->. destruct (scope_permissions q); [|done]. by case_bool_decide.
Qed.
Lemma gremium_unscoped c p q perm g :
  sub q = sub p → p_roles q = p_roles p → scope_permissions p = None →
  has_gremium_permission c q perm g = true → has_gremium_permission c p perm g = true.
Proof.
  unfold has_gremium_permission, gremium_ids_with, admin_bypass, held_gremium_ids, scope_allows, is_admin.
  intros -> -> ->. rewrite !andb_true_r. case_bool_decide; [done|]. cbn [andb negb in_scope].
  destruct (scope_permissions q) as [s|]; [|done]. destruct (bool_decide (perm ∈ s)); [done|]. cbn.
  by rewrite (bool_decide_false (g ∈ [])) by apply not_elem_of_nil.
Qed.

(** C10: an access token has a permission, by a role or by a role in a Gremium, only when a word
    of its scope names it, it is none of the forbidden ones and the principal of the token has it;
    and no token casts a ballot. *)
Theorem access_token_capped c p scope q :
  scope_permissions p = None → _principal_from_access_token p scope = Ok (Some q) →
  (∀ perm g, has q perm = true ∨ has_gremium_permission c q perm g = true →
     perm ∉ FORBIDDEN_PERMISSIONS ∧
     (∃ words w perms, parse_scope scope = Some words ∧ w ∈ words ∧ dict_get w SCOPES = Some perms ∧ perm ∈ perms) ∧
     (has p perm = true ∨ has_gremium_permission c p perm g = true)) ∧
  ∀ d vid choice now as_delegation id d', cast_vote d vid q choice now as_delegation id ≠ Ok d'.
Proof.
  intros Hp. unfold _principal_from_access_token. destruct (has p "mcp.use"); [|done]. cbn [negb].
  destruct (parse_scope scope) as [words|] eqn:Hw; [|done]. intros [= <-]. split.
  - intros perm g H. set (q := MkPrincipal _ _ _ _ _) in *.
    assert (Hs : perm ∈ scope_permission_set words).
    { destruct H; [by apply (has_scoped q)|by apply (gremium_scoped c q perm g)]. }
    apply scope_set_elem in Hs as (Hf & w & perms & H1 & H2 & H3). split; [done|]. split; [eauto 8|].
    destruct H as [H|H]; [left; by apply (has_unscoped p q)|right; by apply (gremium_unscoped c p q)].
  - intros d vid choice now as_del id d' Hc. unfold cast_vote in Hc.
    do 3 (apply bind_ok in Hc as (? & _ & Hc)). apply bind_ok in Hc as (? & Hs%raise_if_ok & _).
    apply bool_decide_eq_false in Hs. apply Hs. by eexists.
Qed.

(** ** One incoming vote *)
Lemma filter_agree {A} (P Q : A → Prop) `{∀ x, Decision (P x)} `{∀ x, Decision (Q x)} (l : list A) :
  (∀ x, x ∈ l → P x ↔ Q x) → filter P l = filter Q l.
Proof.
  induction l as [|x l IH]; intros Ha; [done|]. rewrite !filter_cons.
  rewrite IH by (intros y Hy; apply Ha; by right). specialize (Ha x (list_elem_of_here x l)).
  repeat case_decide; tauto.
Qed.
(** The voting delegations that a principal holds in a meeting of the Gremium. *)
Definition holds (meeting gremium pid : string) (x : MeetingDelegation) : Prop :=
  dl_meeting_id x = meeting ∧ dl_gremium_id x = gremium ∧ dl_voting x = true ∧ dl_delegate_id x = pid.
#[export] Instance holds_dec m g p x : Decision (holds m g p x).
Proof. unfold holds. apply _. Defined.
Definition held_by (d : RoomDb) (meeting gremium pid : string) : list MeetingDelegation :=
  filter (holds meeting gremium pid) (delegations d).
Lemma holds_one l meeting gremium pid :
  StronglySorted compatible l →
  filter (holds meeting gremium pid) l = [] ∨ ∃ x, filter (holds meeting gremium pid) l = [x] ∧ x ∈ l.
Proof.
  induction l as [|x l IH]; [by left|]. rewrite StronglySorted_cons. intros [Hx Hl].
  rewrite filter_cons. case_decide as Hh.
  - right. exists x. split; [|left]. f_equal. apply filter_none. intros y Hy (H1 & _ & H3 & H4).
    eapply Forall_forall in Hx; [|exact Hy]. destruct Hh as (G1 & _ & G3 & G4).
    destruct Hx as (_ & _ & _ & Hx); [congruence|]. apply Hx; congruence.
  - destruct (IH Hl) as [->|(y & -> & Hy)]; [by left|]. right. exists y. split; [done|by right].
Qed.

(** The foreign keys of the delegations, and the key of the principals. *)
Record rows_linked (d : RoomDb) : Prop := {
  rl_delegator : ∀ x, x ∈ delegations d → is_Some (principal_by_id d (dl_delegator_id x));
  rl_delegate : ∀ x, x ∈ delegations d → is_Some (principal_by_id d (dl_delegate_id x));
  rl_principals : NoDup (pr_id <$> principals (cfg d))
}.
Lemma principal_key d p : rows_linked d → p ∈ principals (cfg d) → principal_by_id d (pr_id p) = Some p.
Proof. intros [_ _ Hnd] Hp. unfold principal_by_id. by apply find_by_NoDup. Qed.

Section Views.
Context (d : RoomDb) (Hc : no_chains (delegations d)) (Hl : rows_linked d).

Lemma row_linked x : x ∈ delegations d →
  dl_delegator_id x ≠ dl_delegate_id x ∧ is_Some (principal_by_id d (dl_delegator_id x)) ∧
  is_Some (principal_by_id d (dl_delegate_id x)).
Proof.
  intros Hx. split; [|by destruct Hl; auto]. destruct Hc as [_ Hne]. by eapply Forall_forall in Hne.
Qed.
(** The represented member of the gate is the delegator of the one row. *)
Lemma check_incoming p meeting gremium :
  head (omap (λ r, if negb r.1.1 && r.1.2 then Some r.2 else None)
         (omap (check_row d (pr_id p))
            (filter (λ x, dl_meeting_id x = meeting ∧ dl_gremium_id x = gremium ∧
                          (dl_delegator_id x = pr_id p ∨ dl_delegate_id x = pr_id p)) (delegations d)))) =
  head (omap (λ x, pr_sub <$> principal_by_id d (dl_delegator_id x)) (held_by d meeting gremium (pr_id p))).
Proof.
  f_equal. unfold held_by. pose proof row_linked as Hrow. revert Hrow.
  generalize (delegations d) as l. induction l as [|x l IH]; intros Hrow; [done|].
  destruct (Hrow x) as (Hne & [a Ha] & [b Hb]); [left|]. specialize (IH (λ y Hy, Hrow y (list_elem_of_further y x l Hy))).
  rewrite !filter_cons. case_decide as H1.
  - cbn [omap list_omap]. unfold check_row at 1. rewrite Ha, Hb. cbn [fst snd].
    destruct (decide (holds meeting gremium (pr_id p) x)) as [H2|H2].
    + destruct H2 as (_ & _ & H3 & H4). rewrite bool_decide_false by congruence. rewrite H3. cbn [negb andb orb omap list_omap].
      rewrite Ha. cbn. by f_equal.
    + destruct (decide (dl_delegator_id x = pr_id p)) as [E|E].
      * rewrite bool_decide_true by done. exact IH.
      * rewrite bool_decide_false by done. destruct (dl_voting x) eqn:Ev; [|exact IH].
        exfalso. apply H2. unfold holds. tauto.
  - rewrite decide_False; [exact IH|]. intros (H2 & H3 & _ & H4). apply H1. tauto.
Qed.
Lemma status_incoming p meeting gremium :
  filter (λ x, dl_delegator_id x ≠ pr_id p)
    (filter (λ x, dl_meeting_id x = meeting ∧ dl_gremium_id x = gremium ∧ dl_voting x = true ∧
                  is_Some (principal_by_id d (dl_delegate_id x)) ∧
                  (dl_delegator_id x = pr_id p ∨ dl_delegate_id x = pr_id p)) (delegations d)) =
  held_by d meeting gremium (pr_id p).
Proof.
  unfold held_by. rewrite list_filter_filter. apply filter_agree. intros x Hx%row_linked. unfold holds.
  destruct Hx as (Hne & _ & Hs). split; naive_solver congruence.
Qed.
End Views.

Lemma head_omap_one {A B} (f : A → option B) l : l = [] ∨ (∃ x, l = [x]) → head (omap f l) = last l ≫= f.
Proof. intros [->|[x ->]]; [done|]. cbn. by destruct (f x). Qed.
Lemma bool_iff (a b : bool) : (a = true ↔ b = true) → a = b.
Proof. destruct a, b; naive_solver. Qed.
Lemma some_is {A} (o : option A) a : o = Some a → is_Some o.
Proof. intros ->. by eexists. Qed.
(** The own vote is given away by a row that is not a pool seat. *)
Lemma blocked_agrees d p meeting gremium :
  (∀ x, x ∈ delegations d → is_Some (principal_by_id d (dl_delegator_id x)) ∧ is_Some (principal_by_id d (dl_delegate_id x))) →
  existsb (λ r, r.1.1 && r.1.2)
    (omap (check_row d (pr_id p))
       (filter (λ x, dl_meeting_id x = meeting ∧ dl_gremium_id x = gremium ∧
                     (dl_delegator_id x = pr_id p ∨ dl_delegate_id x = pr_id p)) (delegations d))) =
  negb (bool_decide (dl_delegate_id <$> filter (λ x, dl_delegator_id x = pr_id p ∧ pool_seat_clause d x = false)
    (filter (λ x, dl_meeting_id x = meeting ∧ dl_gremium_id x = gremium ∧ dl_voting x = true ∧
                  is_Some (principal_by_id d (dl_delegate_id x)) ∧
                  (dl_delegator_id x = pr_id p ∨ dl_delegate_id x = pr_id p)) (delegations d)) = [])).
Proof.
  intros Hrow. apply bool_iff. rewrite existsb_exists, negb_true_iff, bool_decide_eq_false.
  transitivity (∃ x, x ∈ delegations d ∧ dl_meeting_id x = meeting ∧ dl_gremium_id x = gremium ∧
    dl_voting x = true ∧ dl_delegator_id x = pr_id p ∧ pool_seat_clause d x = false).
  - setoid_rewrite <- list_elem_of_In. setoid_rewrite list_elem_of_omap. setoid_rewrite list_elem_of_filter. split.
    + intros (r & (x & ((H1 & H2 & H3) & Hx) & Hr) & Hb). exists x. unfold check_row in Hr.
      destruct (principal_by_id d (dl_delegator_id x)); [|done]. destruct (principal_by_id d (dl_delegate_id x)); [|done].
      injection Hr as <-. cbn in Hb. bool_prop. rewrite bool_decide_true in * by done. cbn in *. bool_prop. repeat split; try done.
    + intros (x & Hx & H1 & H2 & H3 & H4 & H5). destruct (Hrow x Hx) as [[a Ha] [b Hb]].
      exists (true, true, pr_sub a). split; [|done]. exists x. split; [naive_solver|]. unfold check_row.
      by rewrite Ha, Hb, H3, H5, (bool_decide_true (_ = _)).
  - split.
    + intros (x & Hx & H1 & H2 & H3 & H4 & H5) E%fmap_nil_inv. destruct (Hrow x Hx) as [_ Hb].
      assert (Hin : x ∈ (@nil MeetingDelegation)); [|by apply not_elem_of_nil in Hin]. rewrite <- E.
      apply list_elem_of_filter. split; [done|]. apply list_elem_of_filter. naive_solver.
    + intros Hne. destruct (filter _ (filter _ _)) as [|x k] eqn:E; [done|]. exists x.
      assert (Hin : x ∈ x :: k) by left. rewrite <- E in Hin.
      apply list_elem_of_filter in Hin as [[? ?] Hin]. apply list_elem_of_filter in Hin. naive_solver.
Qed.

(** The view of a member agrees with the gate of the ballot: it shows the own vote as given
    away exactly when the gate refuses the own ballot for it, and it names the member whose vote
    the caller can cast, by a delegation or by a free pool seat, exactly when the gate takes the
    represented ballot, under the [sub] of that member. *)
Lemma vote_status_agrees d vid v actor st :
  no_chains (delegations d) → rows_linked d → votes (flow_db d) !! vid = Some v →
  delegation_vote_status d vid actor = Ok st →
  vs_blocked st = (rights_check d (sub actor) (vo_meeting_id v) (vo_eligible_group v)).1 ∧
  pr_sub <$> (vs_delegated_by st ≫= principal_by_id d) = ballot_sub d actor v true ∧
  vs_exercising st = bool_decide (is_Some (ballot_sub d actor v true)).
Proof.
  intros Hc Hl Hv. unfold delegation_vote_status, ballot_sub. rewrite Hv. cbn [or_not_found]. rewrite bind_Ok_l.
  cbn [rights_check free_seat meeting_rights]. unfold voting_delegation_check, _check_rows.
  destruct (vo_meeting_id v) as [m|]; [|by intros [= <-]].
  destruct (principal_by_sub d (sub actor)) as [me|] eqn:Hme; cycle 1.
  { intros [= <-]. unfold pool_seat_for, _find_seat. cbn. destruct (parse_uuid (vo_eligible_group v)); [|done].
    cbn. rewrite Hme. by destruct (_meeting_live _ _ _). }
  destruct (parse_uuid (vo_eligible_group v)) as [g|] eqn:Hg; cycle 1.
  { intros [= <-]. unfold pool_seat_for, _find_seat. cbn. by rewrite Hg. }
  cbn zeta. rewrite (status_incoming d Hc Hl), (check_incoming d Hc Hl).
  rewrite blocked_agrees by (intros x Hx; by apply (row_linked d Hc Hl)).
  assert (Hfree : ∀ f, pool_seat_for d (sub actor) (Some m) (vo_eligible_group v) = Some f →
                       principal_by_id d (pr_id f) = Some f).
  { intros f Hf. unfold pool_seat_for in Hf. destruct (_find_seat _ _ _ _) as [[dep mem]|] eqn:E; [|done].
    injection Hf as <-. apply (find_seat_spec _ _ _ _ _ _ _ Hg) in E as (_ & _ & Hin & _). by apply principal_key. }
  intros [= <-]. cbn [vs_blocked vs_delegated_by vs_exercising fst]. split; [done|].
  unfold held_by. destruct (holds_one (delegations d) m g (pr_id me) (proj1 Hc)) as [->|(x & -> & Hx)].
  - revert Hfree. generalize (pool_seat_for d (sub actor) (Some m) (vo_eligible_group v)) as o. intros o Hfree. cbn.
    destruct o as [f|]; [|done]. cbn. by rewrite Hfree.
  - destruct (rl_delegator d Hl x Hx) as [a Ha]. cbn. rewrite Ha. cbn. done.
Qed.
