(* ===== verification/Turnout.v ===== *)
(** The bound of the turnout: in a vote of a meeting the members and their substitutes together
    never cast more ballots than the Gremium has voting members, whatever delegations and pool
    seats the meeting has. *)

From stdpp Require Import gmap strings sorting.
From S2P Require Import Prelude PyStr PyNum PyValue VoteConfigs Tally Election BudgetRules FlowDb Decision FlowEngine.
From S2P Require Import FlowEngineFacts Policy Room Delegations DelegationService VoteRows VoteService VoteClose.
From S2P Require Import VoteSpec VoteServiceFacts VoteCastFacts DelegationFacts.

(** ** The group of a vote stays *)
Lemma ballot_step_group b b' r' :
  ballot_step b b' → bx_rules b' = Some r' → ∃ r, bx_rules b = Some r ∧ ru_group r' = ru_group r.
Proof. destruct 1; cbn; intros; simplify_eq; eauto. Qed.
Lemma ballot_steps_group b b' r' :
  rtc ballot_step b b' → bx_rules b' = Some r' → ∃ r, bx_rules b = Some r ∧ ru_group r' = ru_group r.
Proof.
  induction 1 as [b|a b c Hab _ IH]; [eauto|]. intros (r1 & H1 & E1)%IH.
  destruct (ballot_step_group _ _ _ Hab H1) as (r & Hr & E). exists r. split; [done|congruence].
Qed.
Lemma box_step_group b b' r' :
  box_step b b' → bx_rules b' = Some r' →
  (∃ r, bx_rules b = Some r ∧ ru_group r' = ru_group r) ∨ bx_voters b = [].
Proof. destruct 1 as [u w Hs|]; [|by right]. intros Hr. left. by eapply ballot_steps_group. Qed.

(** ** Who a ballot stands for *)
(** The voting members of the Gremium of a vote, and the [sub]s that they vote under. *)
Definition member_sub (d : RoomDb) (group s : string) : Prop :=
  ∃ g p, parse_uuid group = Some g ∧ p ∈ principals (cfg d) ∧ pr_id p ∈ _voting_member_ids d g ∧ pr_sub p = s.
(** The membership rows name a Gremium by the text of its id. *)
Definition canonical_ids (c : Config) : Prop :=
  ∀ m, m ∈ memberships c → parse_uuid (gm_gremium_id m) = Some (gm_gremium_id m).

Lemma startswith_app p s : startswith (p +:+ s) p = true.
Proof. apply startswith_spec. by exists s. Qed.
(** A vote key comes from a membership with [vote.cast], never from the identity provider. *)
Lemma vote_key_member t c row groups g :
  in_group (resolve_principal t c row groups) (vote_group_key g) = true ↔
  ∃ m, m ∈ memberships c ∧ gm_principal_id m = pr_id row ∧ "vote.cast" ∈ gm_permissions m ∧ gm_gremium_id m = g.
Proof.
  unfold in_group, resolve_principal. cbn [p_groups]. rewrite bool_decide_eq_true, elem_of_app. unfold _vote_keys.
  rewrite list_elem_of_fmap. setoid_rewrite list_elem_of_filter. split.
  - intros [[H _]|(m & E & (H1 & H2) & Hm)].
    + unfold vote_group_key in H. by rewrite startswith_app in H.
    + exists m. unfold vote_group_key in E. apply (inj _) in E. done.
  - intros (m & Hm & H1 & H2 & <-). right. exists m. done.
Qed.
Lemma principal_by_id_elem d i p : principal_by_id d i = Some p → p ∈ principals (cfg d) ∧ pr_id p = i.
Proof. unfold principal_by_id. intros H. split; [by eapply find_by_elem|by eapply find_by_id]. Qed.
Lemma free_seat_voter d meeting u i x : x ∈ free_seats d meeting u i → x ∈ _voting_member_ids d u.
Proof.
  unfold free_seats. destruct (members_for_substitute _ _ _) as [personal wide].
  intros [_ Hp]%list_elem_of_filter. destruct wide; [done|]. by apply list_elem_of_filter in Hp as [_ ?].
Qed.
Lemma ballot_sub_member d t row groups v as_delegation s :
  canonical_ids (cfg d) → Forall (row_ok d) (delegations d) → row ∈ principals (cfg d) →
  ballot_sub d (resolve_principal t (cfg d) row groups) v as_delegation = Some s →
  member_sub d (vo_eligible_group v) s.
Proof.
  intros Hcan Hok Hrow. unfold ballot_sub. cbn [rights_check free_seat meeting_rights].
  destruct (voting_delegation_check _ _ _ _) as [blocked delegator] eqn:Ec. destruct as_delegation; cycle 1.
  - destruct blocked; [done|]. cbn [negb andb]. unfold _may_cast. destruct (_is_gremium_group _) eqn:Eg; [|done].
    cbn [negb]. destruct (in_group _ _) eqn:Ei; [|done]. intros [= <-].
    apply vote_key_member in Ei as (m & Hm & Hp & Hvc & Hg). exists (gm_gremium_id m), row. rewrite <- Hg.
    split; [by apply Hcan|]. split; [done|]. split; [|done].
    unfold _voting_member_ids. apply elem_of_remove_dups, list_elem_of_fmap. exists m. split; [done|].
    by apply list_elem_of_filter.
  - unfold voting_delegation_check, _check_rows in Ec. destruct delegator as [x|]; cycle 1.
    + unfold pool_seat_for. destruct (_find_seat _ _ _ _) as [[dep mem]|] eqn:Ef; [|done]. intros [= <-].
      destruct (vo_meeting_id v) as [m|]; [|done]. destruct (parse_uuid (vo_eligible_group v)) as [u|] eqn:Hu; cycle 1.
      { unfold _find_seat in Ef. cbn in Ef. by rewrite Hu in Ef. }
      apply (find_seat_spec _ _ _ _ _ _ _ Hu) in Ef as (_ & _ & Hin & Hf & _). exists u, mem.
      split; [done|]. split; [done|]. split; [by eapply free_seat_voter|done].
    + intros [= ->]. destruct (vo_meeting_id v) as [m|]; [|done].
      destruct (parse_uuid (vo_eligible_group v)) as [u|] eqn:Hu; [|done]. injection Ec as _ Hh. destruct (principal_by_sub d _) as [p|]; [|done].
      apply head_Some_elem_of, list_elem_of_omap in Hh as (r & Hr & Hs).
      apply list_elem_of_omap in Hr as (y & Hy & Hr). apply list_elem_of_filter in Hy as [(_ & Hgr & _) Hy].
      unfold check_row in Hr. destruct (principal_by_id d (dl_delegator_id y)) as [a|] eqn:Ha; [|done].
      destruct (principal_by_id d (dl_delegate_id y)); [|done]. injection Hr as <-. cbn in Hs.
      match type of Hs with (if ?b then _ else _) = _ => destruct b; [|done] end.
      injection Hs as <-. apply principal_by_id_elem in Ha as [Ha Hi].
      exists u, a. split; [done|]. split; [done|]. split; [|done].
      eapply Forall_forall in Hok as [Hv _]; [|exact Hy]. by rewrite Hi, <- Hgr.
Qed.

(** A ballot stores the marker of the represented member. *)
Lemma cast_vote_marker d vid p choice now as_delegation id d' :
  cast_vote d vid p choice now as_delegation id = Ok d' →
  ∃ v s, votes (flow_db d) !! vid = Some v ∧ ballot_sub d p v as_delegation = Some s ∧
    voted_markers d' = voted_markers d ++ [(vid, s)] ∧ votes (flow_db d') = votes (flow_db d).
Proof.
  intros Hc. unfold cast_vote in Hc. apply bind_ok in Hc as (v & Hv%get_vote_ok & Hc).
  do 3 (apply bind_ok in Hc as (? & _ & Hc)). apply bind_ok in Hc as ([s d1] & Hvo & Hc).
  apply bind_ok in Hc as (st & _ & Hc). cbn zeta in Hc. apply bind_ok in Hc as (d2 & Hj & Hc).
  exists v, s. split; [done|]. split; [by apply (voter_iff d p v as_delegation id); eauto|].
  assert (Hs : same_votes d d2).
  { apply voter_same in Hvo. destruct (vo_meeting_id v); destruct as_delegation;
      try (injection Hj as <-; exact Hvo).
    apply join_same in Hj. unfold same_votes in *. destruct_and!. repeat split; congruence. }
  destruct Hs as (_ & Hs1 & _ & Hs2 & _). unfold _cast_secret in Hc. case_bool_decide; [done|]. injection Hc as <-.
  cbn. by rewrite Hs2.
Qed.
Lemma cast_guest_marker d vid g choice now d' :
  cast_guest d vid g choice now = Ok d' →
  voted_markers d' = voted_markers d ++ [(vid, guest_voter_sub g)] ∧ votes (flow_db d') = votes (flow_db d) ∧
  cfg d' = cfg d ∧ delegations d' = delegations d.
Proof.
  intros Hc. unfold cast_guest in Hc. apply bind_ok in Hc as (v & _ & Hc).
  do 3 (apply bind_ok in Hc as (? & _ & Hc)). apply bind_ok in Hc as (st & _ & Hc). cbn zeta in Hc.
  unfold _cast_secret in Hc. case_bool_decide; [done|]. by injection Hc as <-.
Qed.

(** ** Runs of a room *)
(** The rosters stay: the memberships and the principals of the Gremium are those of the start. *)
Inductive room_step : RoomDb → RoomDb → Prop :=
| m_cast d t row groups vid choice now as_delegation id d' :
    row ∈ principals (cfg d) →
    cast_vote d vid (resolve_principal t (cfg d) row groups) choice now as_delegation id = Ok d' → room_step d d'
| m_guest d vid g choice now d' : cast_guest d vid g choice now = Ok d' → room_step d d'
| m_create d payload actor now id d' row : create d payload actor now id = Ok (d', row) → room_step d d'
| m_revoke d id actor now d' : revoke d id actor now = Ok d' → room_step d d'
| m_self d m status s note replace d' : set_self d m status s note replace = Ok d' → room_step d d'
| m_lead d m p status s note replace d' : set_for d m p status s note replace = Ok d' → room_step d d'
| m_other d d' :
    vote_step d d' → cfg d' = cfg d → delegations d' = delegations d →
    (∀ x, x ∈ voted_markers d' → x ∈ voted_markers d) → room_step d d'.

Definition GUEST : string → Prop := λ s, startswith s GUEST_VOTER_PREFIX = true.
Record seats_ok (d : RoomDb) : Prop := {
  so_reachable : reachable d;
  so_rows : Forall (row_ok d) (delegations d);
  so_markers : ∀ id v s, votes (flow_db d) !! id = Some v → s ∈ markers_of d id →
    GUEST s ∨ member_sub d (vo_eligible_group v) s
}.
Lemma elem_of_markers d id s : s ∈ markers_of d id ↔ (id, s) ∈ voted_markers d.
Proof.
  unfold markers_of. rewrite list_elem_of_fmap. setoid_rewrite list_elem_of_filter. split.
  - by intros ([i x] & -> & <- & Hin).
  - intros Hin. by exists (id, s).
Qed.
Lemma member_sub_cfg d d' g s : cfg d' = cfg d → member_sub d' g s ↔ member_sub d g s.
Proof. unfold member_sub, _voting_member_ids. by intros ->. Qed.

(** The writers of the delegations leave the votes alone. *)
Lemma released_votes d d' m id s b :
  _delegated d m id s = (d', b) → votes (flow_db d') = votes (flow_db d) ∧ voted_markers d' = voted_markers d ∧
    secret_ballots d' = secret_ballots d.
Proof. unfold _delegated. intros [= <- _]. destruct (release_same d m id s) as (_ & -> & _ & -> & ->). done. Qed.
Definition same_boxes (d d' : RoomDb) : Prop :=
  votes (flow_db d') = votes (flow_db d) ∧ voted_markers d' = voted_markers d ∧ secret_ballots d' = secret_ballots d.
Lemma create_boxes d payload actor now id d' row : create d payload actor now id = Ok (d', row) → same_boxes d d'.
Proof.
  assert (Hi : ∀ m g a b v via ac l, DelegationService._insert d m g a b v via ac l id = Ok (d', row) → same_boxes d d').
  { unfold DelegationService._insert. intros m g a b v via ac l (? & _ & H)%bind_ok. by injection H as <- _. }
  unfold create, _create_by_lead. intros H. destruct (dc_delegator_id payload).
  - do 12 (apply bind_ok in H as (? & _ & H)). by eapply Hi.
  - cbn zeta in H. do 10 (apply bind_ok in H as (? & _ & H)). by eapply Hi.
Qed.
Lemma revoke_boxes d id actor now d' : revoke d id actor now = Ok d' → same_boxes d d'.
Proof. unfold revoke. intros (row & _ & (b & _ & [= <-])%bind_ok)%bind_ok. done. Qed.
Lemma write_boxes e row d d1 : same_boxes d d1 → same_boxes d (_write e row d1).
Proof. by destruct e. Qed.
Lemma checked_boxes d d1 (status m id s : string) b :
  (if bool_decide (status = "present") then _delegated d m id s else (d, false)) = (d1, b) → same_boxes d d1.
Proof. destruct (bool_decide _); [apply released_votes|by intros [= <- _]]. Qed.
Lemma set_self_boxes d m status s note replace d' : set_self d m status s note replace = Ok d' → same_boxes d d'.
Proof.
  unfold set_self. intros H. do 2 (apply bind_ok in H as (? & _ & H)). destruct (find_by _ _ _); [|done].
  apply bind_ok in H as (? & _ & H). destruct (if bool_decide _ then _ else _) as [d1 b] eqn:E.
  apply bind_ok in H as (? & _ & H). injection H as <-. apply write_boxes. by eapply checked_boxes.
Qed.
Lemma set_for_boxes d m p status s note replace d' : set_for d m p status s note replace = Ok d' → same_boxes d d'.
Proof.
  unfold set_for. intros H. do 3 (apply bind_ok in H as (? & _ & H)).
  destruct (if bool_decide _ then _ else _) as [d1 b] eqn:E. apply bind_ok in H as (? & _ & H). injection H as <-.
  eapply (write_boxes _ _ d d1). by eapply checked_boxes.
Qed.

(** Without a new marker the old markers keep their votes. *)
Lemma seats_ok_same d d' :
  seats_ok d → vote_step d d' → cfg d' = cfg d → delegation_write d d' →
  (∀ x, x ∈ voted_markers d' → x ∈ voted_markers d) → seats_ok d'.
Proof.
  intros [Hr Hrow Hm] Hs Hc Hw Hsub. split.
  - destruct Hr as (d0 & H0 & Hr). exists d0. split; [done|]. by eapply rtc_r.
  - by eapply write_rows_ok.
  - intros id v s Hv Hin. assert (Hin0 : s ∈ markers_of d id) by (by apply elem_of_markers, Hsub, elem_of_markers).
    destruct (box_step_group (box d id) (box d' id) (rules_of v)) as [(r & Hr0 & Hg)|Hn].
    + apply vote_step_begins; [by apply reachable_ok|done].
    + by rewrite (box_vote _ _ _ Hv).
    + unfold box in Hr0. cbn in Hr0. destruct (votes (flow_db d) !! id) as [w|] eqn:Ew; [|done].
      injection Hr0 as <-. cbn in Hg. rewrite Hg. destruct (Hm id w s Ew Hin0) as [|Hmem]; [by left|right].
      by apply (member_sub_cfg d).
    + cbn in Hn. rewrite Hn in Hin0. by apply not_elem_of_nil in Hin0.
Qed.
(** A new marker stands for a member, or for a guest. *)
Lemma seats_ok_cast d d' vid x :
  seats_ok d → vote_step d d' → cfg d' = cfg d → delegation_write d d' →
  votes (flow_db d') = votes (flow_db d) → voted_markers d' = voted_markers d ++ [(vid, x)] →
  (GUEST x ∨ ∃ v, votes (flow_db d) !! vid = Some v ∧ member_sub d (vo_eligible_group v) x) → seats_ok d'.
Proof.
  intros [Hr Hrow Hm] Hs Hc Hw Hv Hmk Hx. split.
  - destruct Hr as (d0 & H0 & Hr). exists d0. split; [done|]. by eapply rtc_r.
  - by eapply write_rows_ok.
  - intros id v s Hl Hin. rewrite Hv in Hl. apply elem_of_markers in Hin. rewrite Hmk in Hin.
    rewrite (member_sub_cfg d d') by done. apply elem_of_app in Hin as [Hin|Hin].
    + apply Hm with id; [done|]. by apply elem_of_markers.
    + apply list_elem_of_singleton in Hin. injection Hin as -> ->. destruct Hx as [|(w & Hw' & Hms)]; [by left|].
      right. rewrite Hl in Hw'. by injection Hw' as ->.
Qed.
Lemma room_step_ok d d' : canonical_ids (cfg d) → room_step d d' → seats_ok d → seats_ok d' ∧ cfg d' = cfg d.
Proof.
  intros Hcan Hst Hok.
  assert (Hdel : same_boxes d d' → cfg d' = cfg d → delegation_write d d' → seats_ok d' ∧ cfg d' = cfg d).
  { intros (Hv & Hm & Hs) Hc Hw. split; [|done]. eapply seats_ok_same; try done; [by apply s_other|by rewrite Hm]. }
  destruct Hst as [d t row groups vid choice now as_del id d' Hrow Hcast|d vid g choice now d' Hg
    |d payload actor now id d' row Hcr|d id actor now d' Hre|d m status s note replace d' Hse
    |d m p status s note replace d' Hle|d d' Hvs Hc Hd Hm].
  - destruct (cast_vote_writes _ _ _ _ _ _ _ _ Hcast) as [Hc Hw]. split; [|done].
    destruct (cast_vote_marker _ _ _ _ _ _ _ _ Hcast) as (v & s & Hv & Hsub & Hmk & Hvo).
    eapply (seats_ok_cast d d' vid s); try done; [by eapply s_cast|]. right. exists v. split; [done|].
    eapply ballot_sub_member; [done|apply Hok|exact Hrow|exact Hsub].
  - destruct (cast_guest_marker _ _ _ _ _ _ Hg) as (Hmk & Hvo & Hc & Hd). split; [|done].
    eapply (seats_ok_cast d d' vid (guest_voter_sub g)); try done; [by eapply s_cast_guest|by apply write_same_rows|].
    left. apply startswith_app.
  - destruct (create_writes _ _ _ _ _ _ _ Hcr). apply Hdel; [by eapply create_boxes|done|done].
  - destruct (revoke_writes _ _ _ _ _ Hre). apply Hdel; [by eapply revoke_boxes|done|done].
  - destruct (set_self_writes _ _ _ _ _ _ _ Hse). apply Hdel; [by eapply set_self_boxes|done|done].
  - destruct (set_for_writes _ _ _ _ _ _ _ _ Hle). apply Hdel; [by eapply set_for_boxes|done|done].
  - split; [|done]. eapply seats_ok_same; try done. by apply write_same_rows.
Qed.

(** Distinct voters under the [sub]s of principals are at most the principals. *)
Lemma distinct_subs d (ids l : list string) :
  NoDup (pr_id <$> principals (cfg d)) → NoDup l →
  (∀ s, s ∈ l → ∃ p, p ∈ principals (cfg d) ∧ pr_id p ∈ ids ∧ pr_sub p = s) → (length l ≤ length ids)%nat.
Proof.
  intros Hnd Hl Hs. transitivity (length (omap (λ i, pr_sub <$> principal_by_id d i) ids)).
  - apply submseteq_length, NoDup_submseteq; [done|]. intros s (p & Hp & Hi & <-)%Hs.
    apply list_elem_of_omap. exists (pr_id p). split; [done|]. unfold principal_by_id. by rewrite find_by_NoDup.
  - clear. induction ids as [|i ids IH]; [done|]. cbn. destruct (pr_sub <$> _); cbn; lia.
Qed.


(** ** The room *)
Definition g1 : string := "11111111-1111-1111-1111-111111111111".
Definition room_conf : Config :=
  MkConfig
    [ex_state "vote" "vote" (PDict [("gremiumSource", PStr "budget")]); ex_state "done" "normal" (PDict []);
     ex_state "lost" "normal" (PDict [])]
    [ex_transition "t-pass" "vote" "done" (Some "pass"); ex_transition "t-fail" "vote" "lost" (Some "fail")]
    [MkBudgetRow "budget" None "VS" (Some g1)] [] [MkGremium g1 true false 60 None]
    [MkPrincipalRow "p1" "alice" None None; MkPrincipalRow "p2" "bob" None None;
     MkPrincipalRow "p3" "carol" None None]
    [MkMembership g1 "p1" ["vote.cast"]; MkMembership g1 "p2" ["vote.cast"]] [] [] [] [] []
    [MkMeeting "m" "live" g1 None None "Sitzung" None None None None None None None None false "vote" None].
Definition room0 : RoomDb :=
  MkRoomDb (MkDb room_conf (<["app" := ex_app "vote" (Some g1)]> ∅) ∅ [] [] [] [])
    [] [MkSubstitute "s" g1 None "p3" None] [] [] [] [].
Definition room_rules : VoteConfig := MkVoteConfig ["yes"; "no"; "abstain"] simple None true true rejected false.
Definition room_payload : VoteCreateInternal :=
  MkVoteCreateInternal (MotionRules room_rules) g1 None None 1 None 1 (Some 2) None (Some 100) None None.
Definition no_roles : RoleTables := MkRoleTables [] [] [] [].
Definition human (id s : string) : Principal := resolve_principal no_roles room_conf (MkPrincipalRow id s None None) [].
(** The state after an operation that succeeds. *)
Definition after (d : RoomDb) (r : fres RoomDb) : RoomDb := match r with Ok d' => d' | Err _ => d end.
Lemma after_ok d r : is_ok r = true → r = Ok (after d r).
Proof. by destruct r. Qed.

Definition room_draft : RoomDb :=
  after room0 (create_internal room0 (Some "app") room_payload (Some "m") None false None "v" 1).
Definition room_open : RoomDb := after room_draft (open_vote room_draft "v" 2 None None).
(** Alice casts; Carol takes the free seat of Bob. *)
Definition room_alice : RoomDb :=
  after room_open (cast_vote room_open "v" (human "p1" "alice") (Answer (CText "yes")) 3 false "d1").
Definition room_carol : RoomDb :=
  after room_alice (cast_vote room_alice "v" (human "p3" "carol") (Answer (CText "yes")) 4 true "d1").
Definition room_closed : RoomDb * VoteClosed :=
  match close_vote room_carol "v" (human "p1" "alice") (Some 200) 5 (ex_fresh "e9") with
  | Ok r => r
  | Err _ => (room_carol, MkVoteClosed None None None (MkTallyOut [] 0 0 0 false false None None None None None)
                            motion None None 0 None)
  end.
Example room_closed_fires : cl_result room_closed.2 = Some "passed" ∧ branch_fired room_closed.2 = true.
Proof. vm_compute. done. Qed.

Lemma room_run_draft : vote_step room0 room_draft.
Proof.
  apply (s_create_internal room0 (Some "app") room_payload (Some "m") None false None "v" 1);
    [reflexivity|reflexivity|]. apply after_ok. vm_compute. reflexivity.
Qed.
Lemma room_run_open : vote_step room_draft room_open.
Proof. apply (s_open room_draft "v" 2 None None), after_ok. vm_compute. reflexivity. Qed.
Lemma room_run_alice : vote_step room_open room_alice.
Proof. eapply s_cast, after_ok. vm_compute. reflexivity. Qed.
Lemma room_run_carol : vote_step room_alice room_carol.
Proof. eapply s_cast, after_ok. vm_compute. reflexivity. Qed.
Lemma room_close_ok :
  close_vote room_carol "v" (human "p1" "alice") (Some 200) 5 (ex_fresh "e9") = Ok room_closed.
Proof. unfold room_closed. destruct (close_vote _ _ _ _ _ _) eqn:E; [done|]. by vm_compute in E. Qed.
Lemma room_run_close : vote_step room_carol room_closed.1.
Proof.
  apply (s_close room_carol "v" (human "p1" "alice") (Some 200) 5 (ex_fresh "e9") room_closed.1 room_closed.2).
  rewrite room_close_ok. by destruct room_closed.
Qed.
Lemma room0_empty : no_votes room0.
Proof. done. Qed.
Lemma reachable_step d d' : reachable d → vote_step d d' → reachable d'.
Proof. intros (d0 & H0 & Hr) Hs. exists d0. split; [done|]. by eapply rtc_r. Qed.
Lemma room0_reachable : reachable room0.
Proof. by exists room0. Qed.
Lemma room_open_reachable : reachable room_open.
Proof. eapply reachable_step, room_run_open. eapply reachable_step, room_run_draft. apply room0_reachable. Qed.
Lemma room_carol_reachable : reachable room_carol.
Proof.
  eapply reachable_step, room_run_carol. eapply reachable_step, room_run_alice. apply room_open_reachable.
Qed.
Lemma room_closed_reachable : reachable room_closed.1.
Proof. eapply reachable_step, room_run_close. apply room_carol_reachable. Qed.
(** The vote of a state. *)
Definition the_vote (d : RoomDb) : Vote :=
  match votes (flow_db d) !! "v" with
  | Some v => v
  | None => draft_vote None None None room_payload 0
  end.

(** ** Witnesses *)
Lemma passed_text r : Some (result_text r) = Some "passed" → r = passed.
Proof. by destruct r. Qed.
Lemma one_ballot_per_voter_witness :
  markers_of room_carol "v" = ["alice"; "bob"] ∧ NoDup (markers_of room_carol "v").
Proof.
  split; [vm_compute; reflexivity|].
  apply (one_ballot_per_voter room_carol "v" (the_vote room_carol) room_carol_reachable). vm_compute. reflexivity.
Defined.
Lemma closed_result_recounts_witness :
  ∃ o, result room_rules (_aggregate room_closed.1 "v" room_rules) 2 = Ok o ∧ motion_result o = passed.
Proof.
  destruct (closed_result_recounts room_closed.1 "v" (the_vote room_closed.1) room_rules room_closed_reachable)
    as (o & Ho & Hr); [vm_compute; reflexivity..|].
  exists o. split; [exact Ho|]. apply passed_text. rewrite <- Hr. vm_compute. reflexivity.
Defined.
Lemma can_still_cast_iff_witness :
  ∃ as_delegation choice d', cast_vote room_open "v" (human "p3" "carol") choice 3 as_delegation "d" = Ok d'.
Proof.
  apply (can_still_cast_iff room_open "v" (the_vote room_open) (human "p3" "carol") 3 "d" room_open_reachable).
  - vm_compute. reflexivity.
  - intros m Hm. vm_compute in Hm. injection Hm as <-. vm_compute. by eexists.
  - vm_compute. reflexivity.
Defined.
Lemma room_open_conf : conf (flow_db room_open) = room_conf.
Proof. vm_compute. reflexivity. Qed.
Lemma room_carol_conf : conf (flow_db room_carol) = room_conf.
Proof. vm_compute. reflexivity. Qed.
Lemma room_tables_ok : tables_ok (flow_db room_carol).
Proof.
  split.
  - vm_compute. repeat constructor; set_solver.
  - intros t Ht. rewrite room_carol_conf in Ht. cbn in Ht. rewrite !elem_of_cons in Ht. destruct Ht as [->|[->|?%not_elem_of_nil]]; done.
  - intros t Ht. rewrite room_carol_conf in Ht. cbn in Ht. rewrite !elem_of_cons in Ht. destruct Ht as [->|[->|?%not_elem_of_nil]]; done.
  - change (map_Forall (λ id app, ap_id app = id) (applications (flow_db room_carol))).
    apply (bool_decide_unpack _). vm_compute. exact I.
Qed.
Lemma close_fires_branch_witness :
  branch_outcome (flow_db room_carol) (flow_db room_closed.1) "app" "pass" (ex_app "vote" (Some g1)) false
    (cl_staged room_closed.2).
Proof.
  destruct (close_fires_branch room_carol "v" (human "p1" "alice") (Some 200) 5 (ex_fresh "e9") room_closed.1
              room_closed.2 (the_vote room_carol) room_rules "app" (ex_app "vote" (Some g1)) room_tables_ok)
    as (o & Ho & Hr & _ & Hb & _); [vm_compute; reflexivity..|by rewrite room_close_ok; destruct room_closed|].
  assert (Hp : motion_result o = passed) by (apply passed_text; rewrite <- Hr; vm_compute; reflexivity).
  rewrite Hp in Hb. exact Hb.
Defined.
Lemma room_run_delegations : rtc delegation_step room0 room_carol.
Proof.
  apply (rtc_l _ _ room_open); [by apply g_other; vm_compute|].
  apply (rtc_l _ _ room_alice); [eapply g_cast, after_ok; vm_compute; reflexivity|].
  apply rtc_once. eapply g_cast, after_ok. vm_compute. reflexivity.
Qed.
Lemma delegations_no_chain_witness :
  length (delegations room_carol) = 1%nat ∧ no_chains (delegations room_carol).
Proof.
  split; [vm_compute; reflexivity|]. apply (delegations_no_chain room0 room_carol eq_refl room_run_delegations).
Defined.
Lemma room_carol_rows :
  delegations room_carol = [MkDelegation "d1" "m" g1 "p2" "p3" true true (Some "carol")].
Proof. vm_compute. reflexivity. Qed.
Lemma room_rows_linked : rows_linked room_carol.
Proof.
  split.
  - intros x Hx. rewrite room_carol_rows in Hx. apply list_elem_of_singleton in Hx as ->. vm_compute. by eexists.
  - intros x Hx. rewrite room_carol_rows in Hx. apply list_elem_of_singleton in Hx as ->. vm_compute. by eexists.
  - vm_compute. repeat constructor; set_solver.
Qed.
Lemma room_no_chains : no_chains (delegations room_carol).
Proof. vm_compute. split; repeat constructor; done. Qed.
Lemma vote_status_agrees_witness :
  ∃ st, delegation_vote_status room_carol "v" (human "p3" "carol") = Ok st ∧ vs_exercising st = true ∧
    pr_sub <$> (vs_delegated_by st ≫= principal_by_id room_carol) = Some "bob".
Proof.
  eexists. split; [vm_compute; reflexivity|].
  destruct (vote_status_agrees room_carol "v" (the_vote room_carol) (human "p3" "carol")
              (MkVoteDelegationStatus false None true (Some "p2")) room_no_chains room_rows_linked) as (_ & -> & ->);
    [vm_compute; reflexivity..|]. split; vm_compute; reflexivity.
Defined.
Lemma room_steps : rtc room_step room0 room_carol.
Proof.
  apply (rtc_l _ _ room_draft); [apply m_other; [apply room_run_draft|by vm_compute..]|].
  apply (rtc_l _ _ room_open); [apply m_other; [apply room_run_open|by vm_compute..]|].
  apply (rtc_l _ _ room_alice).
  - apply (m_cast room_open no_roles (MkPrincipalRow "p1" "alice" None None) [] "v" (Answer (CText "yes")) 3 false "d1").
    + left.
    + apply after_ok. vm_compute. reflexivity.
  - apply rtc_once.
    apply (m_cast room_alice no_roles (MkPrincipalRow "p3" "carol" None None) [] "v" (Answer (CText "yes")) 4 true "d1").
    + right. right. left.
    + apply after_ok. vm_compute. reflexivity.
Qed.
Definition token_user : Principal := MkPrincipal "alice" ["admin"] ["mcp.use"] [] None.
Lemma access_token_capped_witness :
  ∃ q, _principal_from_access_token token_user (Some "votes:write") = Ok (Some q) ∧
    has q "vote.manage" = true ∧ "vote.manage" ∉ FORBIDDEN_PERMISSIONS ∧ has q "vote.cast" = false.
Proof.
  eexists. split; [vm_compute; reflexivity|]. split; [vm_compute; reflexivity|]. split.
  - destruct (access_token_capped room_conf token_user (Some "votes:write")
                (MkPrincipal "alice" ["admin"] ["mcp.use"] [] (Some ["vote.manage"])) eq_refl) as [Hc _];
      [vm_compute; reflexivity|].
    apply (Hc "vote.manage" g1). left. vm_compute. reflexivity.
  - vm_compute. reflexivity.
Defined.
