(* ===== verification/Sha256.v ===== *)
(** SHA-256 as [hashlib.sha256] computes it (FIPS 180-4), on the bytes of a text: the padding, the
    message schedule, the compression of 32-bit words and the digest of 32 bytes. *)

From S2P Require Import Prelude PyStr.

(** ** 32-bit words *)
Definition w32 (z : Z) : Z := Z.land z 4294967295.
Definition rotr (n x : Z) : Z := Z.lor (Z.shiftr x n) (w32 (Z.shiftl x (32 - n))).
Definition add32 (a b : Z) : Z := w32 (a + b).
Definition ch (x y z : Z) : Z := Z.lxor (Z.land x y) (Z.land (Z.lxor x 4294967295) z).
Definition maj (x y z : Z) : Z := Z.lxor (Z.lxor (Z.land x y) (Z.land x z)) (Z.land y z).
Definition big_sigma0 (x : Z) : Z := Z.lxor (Z.lxor (rotr 2 x) (rotr 13 x)) (rotr 22 x).
Definition big_sigma1 (x : Z) : Z := Z.lxor (Z.lxor (rotr 6 x) (rotr 11 x)) (rotr 25 x).
Definition sigma0 (x : Z) : Z := Z.lxor (Z.lxor (rotr 7 x) (rotr 18 x)) (Z.shiftr x 3).
Definition sigma1 (x : Z) : Z := Z.lxor (Z.lxor (rotr 17 x) (rotr 19 x)) (Z.shiftr x 10).
(** The fractional parts of the cube roots of the first 64 primes. *)
Definition round_constants : list Z :=
  [1116352408; 1899447441; 3049323471; 3921009573; 961987163; 1508970993; 2453635748; 2870763221;
    3624381080; 310598401; 607225278; 1426881987; 1925078388; 2162078206; 2614888103; 3248222580;
    3835390401; 4022224774; 264347078; 604807628; 770255983; 1249150122; 1555081692; 1996064986; 2554220882;
    2821834349; 2952996808; 3210313671; 3336571891; 3584528711; 113926993; 338241895; 666307205; 773529912;
    1294757372; 1396182291; 1695183700; 1986661051; 2177026350; 2456956037; 2730485921; 2820302411;
    3259730800; 3345764771; 3516065817; 3600352804; 4094571909; 275423344; 430227734; 506948616; 659060556;
    883997877; 958139571; 1322822218; 1537002063; 1747873779; 1955562222; 2024104815; 2227730452;
    2361852424; 2428436474; 2756734187; 3204031479; 3329325298].

(** ** Blocks *)
Fixpoint word_bytes (n : nat) (z : Z) : list Z :=
  match n with O => [] | S k => word_bytes k (z / 256) ++ [z mod 256] end.
Definition be (l : list Z) : Z := foldl (λ acc b, acc * 256 + b) 0 l.
(** One bit, zeros up to 56 bytes modulo 64, and the length in bits. *)
Definition padded (l : list Z) : list Z :=
  let n := Z.of_nat (length l) in
  l ++ 128 :: replicate (Z.to_nat ((55 - n) mod 64)) 0 ++ word_bytes 8 (8 * n).
Fixpoint chunks (fuel size : nat) (l : list Z) : list (list Z) :=
  match fuel, l with
  | S k, _ :: _ => take size l :: chunks k size (drop size l)
  | _, _ => []
  end.
(** The schedule, newest word first. *)
Fixpoint schedule (n : nat) (ws : list Z) : list Z :=
  match n with
  | O => ws
  | S k =>
      let at_ i := nth i ws 0 in
      schedule k (add32 (add32 (sigma1 (at_ 1%nat)) (at_ 6%nat)) (add32 (sigma0 (at_ 14%nat)) (at_ 15%nat)) :: ws)
  end.
Record state := MkState8 { sa : Z; sb : Z; sc : Z; sd : Z; se : Z; sf : Z; sg : Z; sh : Z }.
Definition round (s : state) (kw : Z * Z) : state :=
  let t1 := add32 (add32 (sh s) (big_sigma1 (se s))) (add32 (ch (se s) (sf s) (sg s)) (add32 kw.1 kw.2)) in
  let t2 := add32 (big_sigma0 (sa s)) (maj (sa s) (sb s) (sc s)) in
  MkState8 (add32 t1 t2) (sa s) (sb s) (sc s) (add32 (sd s) t1) (se s) (sf s) (sg s).
Definition compress (h : state) (block : list Z) : state :=
  let ws := reverse (schedule 48 (reverse (be <$> chunks 16 4 block))) in
  let s := foldl round h (zip round_constants ws) in
  MkState8 (add32 (sa h) (sa s)) (add32 (sb h) (sb s)) (add32 (sc h) (sc s)) (add32 (sd h) (sd s))
    (add32 (se h) (se s)) (add32 (sf h) (sf s)) (add32 (sg h) (sg s)) (add32 (sh h) (sh s)).
Definition initial : state :=
  MkState8 1779033703 3144134277 1013904242 2773480762 1359893119 2600822924 528734635 1541459225.

(** ** The digest *)
Definition sha256 (text : string) : string :=
  let p := padded (code <$> chars text) in
  let h := foldl compress initial (chunks (length p) 64 p) in
  of_chars (char <$> concat (word_bytes 4 <$> [sa h; sb h; sc h; sd h; se h; sf h; sg h; sh h])).

Lemma length_word_bytes n z : length (word_bytes n z) = n.
Proof. revert z. induction n as [|n IH]; intros z; [done|]. cbn. rewrite length_app, IH. cbn. lia. Qed.
Lemma length_sha256 text : length (chars (sha256 text)) = 32%nat.
Proof.
  unfold sha256. rewrite chars_of_chars, length_fmap. cbn [fmap list_fmap concat].
  rewrite !length_app, !length_word_bytes. done.
Qed.

(** ** [hmac.new(key, text, hashlib.sha256).digest()] *)
Definition xor_bytes (l : list Z) (b : Z) : string := of_chars ((λ x, char (Z.lxor x b)) <$> l).
Definition hmac_sha256 (key text : string) : string :=
  let k := code <$> chars (if 64 <? Z.of_nat (length (chars key)) then sha256 key else key) in
  let block := k ++ replicate (64 - length k) 0 in
  sha256 (xor_bytes block 92 +:+ sha256 (xor_bytes block 54 +:+ text)).

(** *** Test vectors of FIPS 180-4 and RFC 4231 *)
Definition hex (text : string) : list Z := code <$> chars text.
Example sha256_empty : hex (sha256 "") = [227; 176; 196; 66; 152; 252; 28; 20; 154; 251; 244; 200; 153; 111; 185; 36; 39; 174; 65; 228; 100; 155; 147; 76; 164; 149; 153; 27; 120; 82; 184; 85].
Proof. vm_compute. reflexivity. Qed.
Example sha256_abc : hex (sha256 "abc") = [186; 120; 22; 191; 143; 1; 207; 234; 65; 65; 64; 222; 93; 174; 34; 35; 176; 3; 97; 163; 150; 23; 122; 156; 180; 16; 255; 97; 242; 0; 21; 173].
Proof. vm_compute. reflexivity. Qed.
Example sha256_two_blocks :
  hex (sha256 "abcdbcdecdefdefgefghfghighijhijkijkljklmklmnlmnomnopnopq") =
    [36; 141; 106; 97; 210; 6; 56; 184; 229; 192; 38; 147; 12; 62; 96; 57; 163; 60; 228; 89; 100; 255; 33; 103; 246; 236; 237; 212; 25; 219; 6; 193].
Proof. vm_compute. reflexivity. Qed.
Example hmac_jefe :
  hex (hmac_sha256 "Jefe" "what do ya want for nothing?") =
    [91; 220; 193; 70; 191; 96; 117; 78; 106; 4; 36; 38; 8; 149; 117; 199; 90; 0; 63; 8; 157; 39; 57; 131; 157; 236; 88; 185; 100; 236; 56; 67].
Proof. vm_compute. reflexivity. Qed.
