(* ===== verification/JsonCanon.v ===== *)
(** [json.dumps(v, sort_keys=True, separators=(",", ":"), ensure_ascii=False)]: the compact text
    of a value with the keys of its objects in order.  The text determines the value up to the
    order of the keys. *)

From Stdlib Require Import SpecFloat.
From stdpp Require Import pretty.
From S2P Require Import Prelude PyStr PyNum PyValue JsonText.

(** ** The text *)
(** The characters that [ESCAPE] replaces. *)
Definition escape_raw (c : ascii) : list ascii :=
  let z := code c in
  if z =? 34 then [backslash; c]
  else if z =? 92 then [backslash; c]
  else if z =? 10 then [backslash; "n"%char]
  else if z =? 13 then [backslash; "r"%char]
  else if z =? 9 then [backslash; "t"%char]
  else if z =? 12 then [backslash; "f"%char]
  else if z =? 8 then [backslash; "b"%char]
  else if z <? 32 then chars (u_escape z)
  else [c].
Definition escaped_chars (l : list ascii) : list ascii := concat (escape_raw <$> l).
Definition quoted (s : string) : list ascii := dquote :: escaped_chars (chars s) ++ [dquote].
Definition json_float (f : float) : string :=
  match f with
  | S754_nan => "NaN"
  | S754_infinity s => if s then "-Infinity" else "Infinity"
  | _ => float_repr f
  end.
Definition tail_items (l : list (list ascii)) : list ascii := concat ((λ x, ","%char :: x) <$> l).
Definition commas (l : list (list ascii)) : list ascii :=
  match l with [] => [] | x :: r => x ++ tail_items r end.
Definition by_key {A} (a b : string * A) : bool := str_leb a.1 b.1.
Definition member_text (kv : string * list ascii) : list ascii := quoted kv.1 ++ ":"%char :: kv.2.
(** [None] is the [TypeError] of a value without a JSON form. *)
Fixpoint dumps_canonical (v : pyval) : option (list ascii) :=
  match v with
  | PNone => Some (chars "null")
  | PBool b => Some (chars (if b then "true" else "false"))
  | PInt z => Some (chars (int_str z))
  | PFloat f => Some (chars (json_float f))
  | PStr s => Some (quoted s)
  | PList l =>
      parts ← (fix go l := match l with
                           | [] => Some []
                           | x :: r => a ← dumps_canonical x; b ← go r; Some (a :: b)
                           end) l;
      Some ("["%char :: commas parts ++ ["]"%char])
  | PDict d =>
      pairs ← (fix go d := match d with
                           | [] => Some []
                           | kv :: r => a ← dumps_canonical kv.2; b ← go r; Some ((kv.1, a) :: b)
                           end) d;
      Some ("{"%char :: commas (member_text <$> sort_by by_key pairs) ++ ["}"%char])
  | PDec _ | PDate _ | PDateTime _ _ => None
  end.

(** ** The value behind the text *)
(** The value with the keys of its objects in order. *)
Fixpoint sorted_keys (v : pyval) : pyval :=
  match v with
  | PList l => PList (List.map sorted_keys l)
  | PDict d => PDict (sort_by by_key (List.map (λ kv, (kv.1, sorted_keys kv.2)) d))
  | _ => v
  end.
(** No float, whose text is the shortest decimal. *)
Fixpoint no_floats (v : pyval) : bool :=
  match v with
  | PFloat _ => false
  | PList l => forallb no_floats l
  | PDict d => forallb (λ kv, no_floats kv.2) d
  | _ => true
  end.

(** *** Escapes *)
Definition all_chars : list ascii := char <$> seqZ 0 256.
Lemma all_chars_in c : c ∈ all_chars.
Proof.
  apply list_elem_of_fmap. exists (code c). split; [apply code_inj; by rewrite code_char by apply code_bound|].
  apply elem_of_seqZ. pose proof (code_bound c). lia.
Qed.
Lemma escapes_prefix_free :
  forallb (λ a, forallb (λ b, bool_decide (a = b) || negb (prefixb (escape_raw a) (escape_raw b))) all_chars)
    all_chars = true.
Proof. vm_compute. reflexivity. Qed.
Lemma escapes_no_quote : forallb (λ c, negb (prefixb [dquote] (escape_raw c)) && negb (bool_decide (escape_raw c = []))) all_chars = true.
Proof. vm_compute. reflexivity. Qed.
Lemma app_prefix {A} (a b r r' : list A) : a ++ r = b ++ r' → a `prefix_of` b ∨ b `prefix_of` a.
Proof.
  revert b. induction a as [|x a IH]; intros b H; [left; apply prefix_nil|].
  destruct b as [|y b]; [right; apply prefix_nil|]. injection H as -> H.
  destruct (IH _ H); [left|right]; by apply prefix_cons.
Qed.
Lemma escape_inj a b r r' : escape_raw a ++ r = escape_raw b ++ r' → a = b ∧ r = r'.
Proof.
  intros H. assert (a = b) as ->; [|split; [done|by apply app_inv_head in H]].
  assert (F : ∀ x y, escape_raw x `prefix_of` escape_raw y → x = y).
  { intros x y Hp%prefixb_spec. pose proof (forallb_in _ _ x escapes_prefix_free (all_chars_in x)) as E.
    pose proof (forallb_in _ _ y E (all_chars_in y)) as Exy. cbn in Exy. rewrite Hp, orb_false_r in Exy. by bool_prop. }
  destruct (app_prefix _ _ _ _ H) as [Hp|Hp]; [by apply F|by symmetry; apply F].
Qed.
Lemma escape_head c r r' : escape_raw c ++ r ≠ dquote :: r'.
Proof.
  pose proof (forallb_in _ _ c escapes_no_quote (all_chars_in c)) as E. cbn beta in E.
  destruct (escape_raw c) as [|x l]; [done|]. intros [= -> _]. cbn [prefixb] in E.
  by rewrite bool_decide_true in E.
Qed.
Lemma escaped_inj l l' r r' :
  escaped_chars l ++ dquote :: r = escaped_chars l' ++ dquote :: r' → l = l' ∧ r = r'.
Proof.
  revert l'. induction l as [|c l IH]; intros [|c' l'] H.
  - by injection H as ->.
  - symmetry in H. cbn in H. rewrite <- app_assoc in H. by apply escape_head in H.
  - cbn in H. rewrite <- app_assoc in H. by apply escape_head in H.
  - cbn in H. rewrite <- !app_assoc in H. apply escape_inj in H as [-> H]. by destruct (IH _ H) as [-> ->].
Qed.
Lemma quoted_inj s t r r' : quoted s ++ r = quoted t ++ r' → s = t ∧ r = r'.
Proof.
  unfold quoted. cbn. rewrite <- !app_assoc. intros [= H]. apply escaped_inj in H as [H ->].
  by apply chars_inj in H.
Qed.

(** *** Numbers *)
Definition ends (r : list ascii) : Prop :=
  match r with [] => True | c :: _ => c = ","%char ∨ c = "]"%char ∨ c = "}"%char end.
Definition number_char (c : ascii) : bool := is_digit c || bool_decide (c = "-"%char).
Lemma pretty_N_go_chars x s :
  Forall (λ c, number_char c = true) (chars s) → Forall (λ c, number_char c = true) (chars (pretty_N_go x s)).
Proof.
  revert s. induction (N.lt_wf_0 x) as [x _ IH]. intros s Hs. destruct (decide (0 < x)%N) as [Hx|Hx].
  - rewrite pretty_N_go_step by done. apply IH; [apply N.div_lt; lia|]. cbn. constructor; [|done].
    pose proof (N.mod_lt x 10 ltac:(lia)) as Hm. generalize dependent (x mod 10)%N. clear. intros y Hy.
    assert (y = 0 ∨ y = 1 ∨ y = 2 ∨ y = 3 ∨ y = 4 ∨ y = 5 ∨ y = 6 ∨ y = 7 ∨ y = 8 ∨ y = 9)%N as Hc by lia.
    repeat destruct Hc as [->|Hc]; try reflexivity. by subst.
  - assert (x = 0%N) as -> by lia. by rewrite pretty_N_go_0.
Qed.
Lemma int_str_chars z : Forall (λ c, number_char c = true) (chars (int_str z)) ∧ chars (int_str z) ≠ [].
Proof.
  assert (HN : ∀ n : N, Forall (λ c, number_char c = true) (chars (pretty n)) ∧ chars (pretty n : string) ≠ []).
  { intros n. split.
    - unfold pretty, pretty_N. destruct (decide _); [by repeat constructor|]. apply pretty_N_go_chars. constructor.
    - intros E. assert (Hp : (pretty n : string) = "") by by apply chars_inj.
      assert (∀ x s, s ≠ "" → pretty_N_go x s ≠ "") as Hne.
      { intros x. induction (N.lt_wf_0 x) as [x _ IH]. intros s Hs. destruct (decide (0 < x)%N).
        - rewrite pretty_N_go_step by done. apply IH; [apply N.div_lt; lia|done].
        - assert (x = 0%N) as -> by lia. by rewrite pretty_N_go_0. }
      unfold pretty, pretty_N in Hp. destruct (decide (n = 0)%N); [done|].
      rewrite pretty_N_go_step in Hp by lia. by apply Hne in Hp. }
  unfold int_str, pretty, pretty_Z. destruct z as [|p|p].
  - split; [by repeat constructor|done].
  - apply HN.
  - cbn. split; [constructor; [done|apply HN]|done].
Qed.
Lemma number_inj a b r r' :
  Forall (λ c, number_char c = true) a → Forall (λ c, number_char c = true) b → ends r → ends r' →
  a ++ r = b ++ r' → a = b ∧ r = r'.
Proof.
  assert (Hend : ∀ c l r, ends r → number_char c = true → r ≠ c :: l).
  { intros c l s Hs Hc ->. destruct Hs as [->|[->| ->]]; discriminate Hc. }
  intros Ha Hb Hr Hr'. revert b Hb. induction Ha as [|c a Hc Ha IH]; intros b Hb H.
  - destruct Hb as [|d b Hd Hb]; [done|]. by apply Hend in H.
  - destruct Hb as [|d b Hd Hb]; [by symmetry in H; apply Hend in H|].
    injection H as -> H. by destruct (IH b Hb H) as [-> ->].
Qed.
Lemma int_inj z z' r r' : ends r → ends r' → chars (int_str z) ++ r = chars (int_str z') ++ r' → z = z' ∧ r = r'.
Proof.
  intros Hr Hr' H. apply number_inj in H as [H ->]; try done; try apply int_str_chars.
  apply chars_inj in H. by apply pretty_Z_inj in H.
Qed.

(** *** Lists of items *)
Lemma items_inj {T} (Q : T → list ascii → Prop) close ns ns' es es' r r' :
  close = "]"%char ∨ close = "}"%char →
  Forall2 (λ n e, ∀ n' e' s s', Q n' e' → ends s → ends s' → e ++ s = e' ++ s' → n = n' ∧ s = s') ns es →
  Forall2 Q ns' es' → tail_items es ++ close :: r = tail_items es' ++ close :: r' → ns = ns' ∧ r = r'.
Proof.
  intros Hc Hes. assert (Hcomma : close ≠ ","%char) by (by destruct Hc as [->| ->]).
  assert (Hend : ∀ l s, ends (tail_items l ++ close :: s)).
  { intros [|x l] s; cbn; [right; destruct Hc; auto|by left]. }
  revert ns' es'. induction Hes as [|n e ns es Hn Hes IH]; intros ns' es' Hes' H;
    destruct Hes' as [|n' e' ns' es' Hn' Hes']; cbn in H.
  - by injection H as ->.
  - by injection H as ? _.
  - by injection H as ? _.
  - injection H as H. rewrite <- !app_assoc in H.
    destruct (Hn n' e' _ _ Hn' (Hend es r) (Hend es' r') H) as [-> H'].
    by destruct (IH _ _ Hes' H') as [-> ->].
Qed.
Lemma commas_inj {T} (Q : T → list ascii → Prop) close ns ns' es es' r r' :
  close = "]"%char ∨ close = "}"%char →
  (∀ n e s, Q n e → e ++ s ≠ close :: r ∧ e ++ s ≠ close :: r') → Forall2 Q ns es →
  Forall2 (λ n e, ∀ n' e' s s', Q n' e' → ends s → ends s' → e ++ s = e' ++ s' → n = n' ∧ s = s') ns es →
  Forall2 Q ns' es' → commas es ++ close :: r = commas es' ++ close :: r' → ns = ns' ∧ r = r'.
Proof.
  intros Hc Hne Hq Hes Hes' H.
  destruct Hes as [|n e ns es Hn Hes], Hes' as [|n' e' ns' es' Hn' Hes']; cbn in H.
  - by injection H as ->.
  - symmetry in H. rewrite <- app_assoc in H. by apply (Hne _ _ _ Hn') in H.
  - apply Forall2_cons in Hq as [Hq _]. rewrite <- app_assoc in H. by apply (Hne _ _ _ Hq) in H.
  - rewrite <- !app_assoc in H.
    assert (Hend : ∀ l s, ends (tail_items l ++ close :: s)).
    { intros [|x l] s; cbn; [right; destruct Hc; auto|by left]. }
    destruct (Hn n' e' _ _ Hn' (Hend es r) (Hend es' r') H) as [-> H'].
    by destruct (items_inj Q close ns ns' es es' r r' Hc Hes Hes' H') as [-> ->].
Qed.

(** *** The parts of a text *)
Lemma list_parts l parts :
  (fix go l := match l with [] => Some [] | x :: r => a ← dumps_canonical x; b ← go r; Some (a :: b) end) l =
    Some parts → Forall2 (λ x a, dumps_canonical x = Some a) l parts.
Proof.
  revert parts. induction l as [|x l IH]; intros parts H; [by injection H as <-|].
  destruct (dumps_canonical x) as [a|] eqn:Ea; [|done]. cbn in H.
  match type of H with ?c ≫= _ = _ => destruct c as [b|] eqn:Eb; [|done] end. injection H as <-. constructor; [done|by apply IH].
Qed.
Definition same_member (kv : string * pyval) (ka : string * list ascii) : Prop :=
  kv.1 = ka.1 ∧ dumps_canonical kv.2 = Some ka.2.
Lemma dict_parts d pairs :
  (fix go d := match d with
               | [] => Some []
               | kv :: r => a ← dumps_canonical kv.2; b ← go r; Some ((kv.1, a) :: b)
               end) d = Some pairs → Forall2 same_member d pairs.
Proof.
  revert pairs. induction d as [|[k x] d IH]; intros pairs H; [by injection H as <-|]. cbn in H.
  destruct (dumps_canonical x) as [a|] eqn:Ea; [|done]. cbn in H.
  match type of H with ?c ≫= _ = _ => destruct c as [b|] eqn:Eb; [|done] end. injection H as <-. constructor; [done|by apply IH].
Qed.
Lemma dumps_list l a :
  dumps_canonical (PList l) = Some a →
  ∃ es, a = "["%char :: commas es ++ ["]"%char] ∧ Forall2 (λ x e, dumps_canonical x = Some e) l es.
Proof.
  cbn. intros H. match type of H with ?c ≫= _ = _ => destruct c as [parts|] eqn:E; [|done] end. injection H as <-.
  exists parts. split; [done|by apply list_parts].
Qed.
Lemma dumps_dict d a :
  dumps_canonical (PDict d) = Some a →
  ∃ ms, a = "{"%char :: commas (member_text <$> ms) ++ ["}"%char] ∧ Forall2 same_member (sort_by by_key d) ms.
Proof.
  cbn. intros H. match type of H with ?c ≫= _ = _ => destruct c as [pairs|] eqn:E; [|done] end. injection H as <-.
  exists (sort_by by_key pairs). split; [done|]. apply Forall2_sort_by; [|by apply dict_parts].
  intros x x' y y' [Hk _] [Hk' _]. unfold by_key. by rewrite Hk, Hk'.
Qed.
Lemma sorted_dict d :
  sorted_keys (PDict d) = PDict (List.map (λ kv, (kv.1, sorted_keys kv.2)) (sort_by by_key d)).
Proof.
  cbn. f_equal. set (f := λ kv : string * pyval, (kv.1, sorted_keys kv.2)).
  assert (H : Forall2 (λ a b, b = f a) (sort_by by_key d) (sort_by by_key (List.map f d))).
  { apply Forall2_sort_by; [by intros x x' y y' -> ->|]. induction d; by constructor. }
  induction H as [|x y l k -> _ IH]; [done|]. cbn. by rewrite IH.
Qed.

(** *** The text determines the value *)
(** The kind of a value by the first character of its text. *)
Definition tag (c : ascii) : Z :=
  if number_char c then 2
  else if bool_decide (c = dquote) then 3
  else match c with "n"%char => 0 | "t"%char | "f"%char => 1 | "["%char => 4 | "{"%char => 5 | _ => 9 end.
Definition tag_of (v : pyval) : Z :=
  match v with
  | PNone => 0 | PBool _ => 1 | PInt _ => 2 | PStr _ => 3 | PList _ => 4 | PDict _ => 5 | _ => 8
  end.
Lemma dumps_head v a : no_floats v = true → dumps_canonical v = Some a → ∃ c t, a = c :: t ∧ tag c = tag_of v.
Proof.
  destruct v as [|b|z| |s|l|d| | |]; intros Hn H; try done.
  - injection H as <-. by eexists _, _.
  - injection H as <-. destruct b; by eexists _, _.
  - injection H as <-. destruct (int_str_chars z) as [Hz Hne]. destruct (chars (int_str z)) as [|c t]; [done|].
    exists c, t. split; [done|]. inversion Hz as [|? ? Hc]; subst. unfold tag. by rewrite Hc.
  - injection H as <-. by eexists _, _.
  - apply dumps_list in H as (es & -> & _). by eexists _, _.
  - apply dumps_dict in H as (ms & -> & _). by eexists _, _.
Qed.
Lemma dumps_tags v v' a b r r' :
  no_floats v = true → no_floats v' = true → dumps_canonical v = Some a → dumps_canonical v' = Some b →
  a ++ r = b ++ r' → tag_of v = tag_of v'.
Proof.
  intros Hn Hn' (c & t & -> & <-)%(dumps_head _ _ Hn) (c' & t' & -> & <-)%(dumps_head _ _ Hn') [= -> _]. done.
Qed.
Lemma dumps_not_close v e s c r :
  no_floats v = true → dumps_canonical v = Some e → tag c = 9 → e ++ s ≠ c :: r.
Proof.
  intros Hn (x & t & -> & Ht)%(dumps_head _ _ Hn) Hc [= -> _]. rewrite Hc in Ht. by destruct v.
Qed.
Definition determined (v : pyval) : Prop := ∀ v' a b r r',
  no_floats v = true → no_floats v' = true → dumps_canonical v = Some a → dumps_canonical v' = Some b →
  ends r → ends r' → a ++ r = b ++ r' → sorted_keys v = sorted_keys v' ∧ r = r'.

Lemma Forall2_fmap_same {A B C} (f : A → C) (R : A → B → Prop) (Q : C → B → Prop) l k :
  Forall2 R l k → (∀ x y, x ∈ l → R x y → Q (f x) y) → Forall2 Q (List.map f l) k.
Proof.
  intros H. induction H as [|x y l k Hxy H IH]; intros Hq; cbn; [constructor|].
  constructor; [apply Hq; [left|done]|]. apply IH. intros x' y' Hx. apply Hq. by right.
Qed.
(** What a list item, or a member of an object, stands for. *)
Definition item_of (n : pyval) (e : list ascii) : Prop :=
  ∃ v, n = sorted_keys v ∧ no_floats v = true ∧ dumps_canonical v = Some e.
Definition member_of (n : string * pyval) (e : list ascii) : Prop :=
  ∃ v a, n = (n.1, sorted_keys v) ∧ no_floats v = true ∧ dumps_canonical v = Some a ∧ e = member_text (n.1, a).
Lemma list_determined l : Forall determined l → determined (PList l).
Proof.
  intros Hl v' a b r r' Hn Hn' Ha Hb Hr Hr' H.
  pose proof (dumps_tags _ _ _ _ _ _ Hn Hn' Ha Hb H) as Ht. destruct v' as [| | | | |l'| | | |]; try done.
  apply dumps_list in Ha as (es & -> & Hes), Hb as (es' & -> & Hes'). cbn in Hn, Hn'.
  injection H as H. rewrite <- !app_assoc in H. cbn in H.
  assert (Hi : ∀ k ks, forallb no_floats k = true → Forall2 (λ x e, dumps_canonical x = Some e) k ks →
                       Forall2 item_of (List.map sorted_keys k) ks).
  { intros k ks Hk Hks. eapply Forall2_fmap_same; [exact Hks|]. intros x y Hx Hxy. exists x. split; [done|].
    split; [by eapply forallb_in|done]. }
  destruct (commas_inj item_of "]"%char (List.map sorted_keys l) (List.map sorted_keys l') es es' r r') as [E ->]; auto.
  - intros n e s (v & -> & Hv & He). split; by eapply dumps_not_close.
  - eapply Forall2_fmap_same; [exact Hes|]. intros x y Hx Hxy n' e' s s' (v & -> & Hv & He') Hs Hs' E.
    eapply Forall_forall in Hl; [|exact Hx]. exact (Hl v _ _ _ _ (forallb_in _ _ x Hn Hx) Hv Hxy He' Hs Hs' E).
  - split; [|done]. cbn. by rewrite E.
Qed.
Lemma dict_determined d : Forall (λ kv, determined kv.2) d → determined (PDict d).
Proof.
  intros Hd v' a b r r' Hn Hn' Ha Hb Hr Hr' H.
  pose proof (dumps_tags _ _ _ _ _ _ Hn Hn' Ha Hb H) as Ht. destruct v' as [| | | | | |d'| | |]; try done.
  apply dumps_dict in Ha as (es & -> & Hes), Hb as (es' & -> & Hes'). cbn in Hn, Hn'.
  injection H as H. rewrite <- !app_assoc in H. cbn in H. rewrite !sorted_dict.
  set (f := λ kv : string * pyval, (kv.1, sorted_keys kv.2)).
  assert (Hi : ∀ k ks, forallb (λ kv, no_floats kv.2) k = true → Forall2 same_member (sort_by by_key k) ks →
                       Forall2 member_of (List.map f (sort_by by_key k)) (member_text <$> ks)).
  { intros k ks Hk Hks. apply Forall2_fmap_r. eapply Forall2_fmap_same; [exact Hks|]. intros x y Hx [Hk1 Hk2].
    exists x.2, y.2. cbn. split; [done|]. rewrite Hk1. split; [|by destruct y].
    apply elem_of_sort_by in Hx. by apply (forallb_in _ _ x) in Hk. }
  destruct (commas_inj member_of "}"%char (List.map f (sort_by by_key d)) (List.map f (sort_by by_key d'))
              (member_text <$> es) (member_text <$> es') r r') as [E ->]; auto.
  - by intros n e s (v & x & _ & _ & _ & ->).
  - apply Forall2_fmap_r. eapply Forall2_fmap_same; [exact Hes|].
    intros x y Hx [Hk Hxy] n' e' s s' (v & c & Hn1 & Hv & He' & ->) Hs Hs' E.
    unfold member_text in E. cbn in E. rewrite <- !app_assoc in E. cbn in E.
    change (dquote :: escaped_chars (chars y.1) ++ dquote :: ":"%char :: y.2 ++ s) with
      (dquote :: escaped_chars (chars y.1) ++ dquote :: (":"%char :: y.2 ++ s)) in E.
    injection E as E. apply escaped_inj in E as [Ek E]. apply chars_inj in Ek. injection E as E.
    apply elem_of_sort_by in Hx. eapply Forall_forall in Hd; [|exact Hx]. cbn in Hd.
    assert (Hf : no_floats x.2 = true) by (by apply (forallb_in _ _ x) in Hn).
    destruct (Hd v y.2 c s s' Hf Hv Hxy He' Hs Hs' E) as [Hsk ->]. split; [|done].
    rewrite Hn1. unfold f. by rewrite Hk, Ek, Hsk.
  - split; [|done]. by rewrite E.
Qed.
Lemma dumps_determines v : determined v.
Proof.
  induction v as [l Hl|d Hd|v Hl Hd] using pyval_ind'; [by apply list_determined|by apply dict_determined|].
  intros v' a b r r' Hn Hn' Ha Hb Hr Hr' H.
  pose proof (dumps_tags _ _ _ _ _ _ Hn Hn' Ha Hb H) as Ht.
  destruct v as [|x|z| |s|l|d| | |]; try done; try (by destruct (Hl l)); try (by destruct (Hd d));
    destruct v' as [|x'|z'| |s'|l'|d'| | |]; try done;
    injection Ha as <-; injection Hb as <-.
  - split; [done|]. by apply app_inv_head in H.
  - destruct x, x'; try discriminate H; (split; [done|]); by injection H.
  - by apply int_inj in H as [-> ->].
  - by apply quoted_inj in H as [-> ->].
Qed.
(** The canonical text of two values without floats is the same only when they differ at most in
    the order of their keys. *)
Lemma canonical_text_inj v v' a :
  no_floats v = true → no_floats v' = true → dumps_canonical v = Some a → dumps_canonical v' = Some a →
  sorted_keys v = sorted_keys v'.
Proof.
  intros Hn Hn' Ha Hb. by destruct (dumps_determines v v' a a [] [] Hn Hn' Ha Hb I I eq_refl).
Qed.
