(* ===== verification/AuditLog.v ===== *)
(** The audit log ([audit/hashing.py], [audit/service.py]): the canonical payload of an entry, the
    hash chain, its append and its check, the stored checks with their prune, and the reads.

    An advisory lock serializes the appends, so an append is one step; the id of a row comes from a
    sequence.  A time is in UTC; the times of the stored checks are microseconds. *)

From stdpp Require Import gmap strings.
From S2P Require Import Prelude PyStr PyNum PyValue PyDate JsonText JsonCanon Sha256 FormFields FlowDb.

(** ** The canonical payload *)
Record datetime := MkDatetime { dt_date : pydate; dt_second : Z; dt_micro : Z }.
(** [at_utc.isoformat()]. *)
Definition isoformat (t : datetime) : string :=
  date_iso (dt_date t) +:+ "T" +:+ time_iso (dt_second t) +:+
  (if dt_micro t =? 0 then "" else "." +:+ pad 6 (int_str (dt_micro t))) +:+ "+00:00".
Definition opt_str (s : option string) : pyval := match s with Some t => PStr t | None => PNone end.
Definition payload_of (actor : option string) (action : string) (target_type target_id : option string)
    (at_ : datetime) (data : pyval) : pyval :=
  PDict [("action", PStr action); ("actor", opt_str actor); ("at", PStr (isoformat at_)); ("data", data);
         ("target_id", opt_str target_id); ("target_type", opt_str target_type)].
Definition canonical_payload (actor : option string) (action : string) (target_type target_id : option string)
    (at_ : datetime) (data : pyval) : res pyexc string :=
  match dumps_canonical (payload_of actor action target_type target_id at_ data) with
  | Some text => Ok (of_chars text)
  | None => Err TypeError
  end.
Definition compute_hash (prev_hash : option string) (canonical : string) : string :=
  sha256 (default "" prev_hash +:+ canonical).

(** ** The chain *)
Record AuditRow := MkAuditRow {
  row_id : Z;
  row_actor : option string;
  row_action : string;
  row_target_type : option string;
  row_target_id : option string;
  row_at : datetime;
  row_data : pyval;
  row_prev_hash : option string;
  row_hash : string
}.
Definition by_id (a b : AuditRow) : bool := row_id a <=? row_id b.
(** [ORDER BY id]. *)
Definition chain (log : list AuditRow) : list AuditRow := sort_by by_id log.
(** The fields of an entry that the caller gives. *)
Record NewEntry := MkNewEntry {
  ne_actor : option string;
  ne_action : string;
  ne_target_type : option string;
  ne_target_id : option string;
  ne_at : datetime;
  ne_data : pyval
}.
Definition entry_payload (e : NewEntry) : res pyexc string :=
  canonical_payload (ne_actor e) (ne_action e) (ne_target_type e) (ne_target_id e) (ne_at e) (ne_data e).
Definition record (log : list AuditRow) (e : NewEntry) (id : Z) : res pyexc (list AuditRow) :=
  let prev_hash := row_hash <$> last (chain log) in
  canonical ← entry_payload e;
  Ok (log ++ [MkAuditRow id (ne_actor e) (ne_action e) (ne_target_type e) (ne_target_id e) (ne_at e) (ne_data e)
                prev_hash (compute_hash prev_hash canonical)]).
Definition content (r : AuditRow) : NewEntry :=
  MkNewEntry (row_actor r) (row_action r) (row_target_type r) (row_target_id r) (row_at r) (row_data r).
Definition _entry_hash (r : AuditRow) : res pyexc string :=
  canonical ← entry_payload (content r); Ok (compute_hash (row_prev_hash r) canonical).
Inductive ChainBreak := prev_hash_mismatch | hash_mismatch.
#[export] Instance ChainBreak_eq_dec : EqDecision ChainBreak.
Proof. solve_decision. Defined.
Definition _link_break (prev_hash : option string) (r : AuditRow) : res pyexc (option ChainBreak) :=
  if negb (bool_decide (row_prev_hash r = prev_hash)) then Ok (Some prev_hash_mismatch)
  else h ← _entry_hash r; Ok (if bool_decide (h = row_hash r) then None else Some hash_mismatch).
Record ChainVerification := MkVerification {
  cv_valid : bool;
  cv_checked : Z;
  cv_broken_at : option Z;
  cv_reason : option ChainBreak
}.
Fixpoint verify_from (prev_hash : option string) (checked : Z) (rows : list AuditRow) : res pyexc ChainVerification :=
  match rows with
  | [] => Ok (MkVerification true checked None None)
  | r :: rest =>
      reason ← _link_break prev_hash r;
      match reason with
      | Some b => Ok (MkVerification false checked (Some (row_id r)) (Some b))
      | None => verify_from (Some (row_hash r)) (checked + 1) rest
      end
  end.
Definition verify_chain (log : list AuditRow) : res pyexc ChainVerification := verify_from None 0 (chain log).

(** ** The stored checks *)
Inductive VerificationTrigger := cron | manual | restore.
#[export] Instance VerificationTrigger_eq_dec : EqDecision VerificationTrigger.
Proof. solve_decision. Defined.
Record AuditVerification := MkCheck {
  ck_id : string;
  ck_started_at : Z;
  ck_finished_at : Z;
  ck_valid : bool;
  ck_checked : Z;
  ck_broken_at : option Z;
  ck_reason : option ChainBreak;
  ck_trigger : VerificationTrigger;
  ck_triggered_by : option string
}.
Definition VERIFICATION_KEEP : nat := 100.
Definition MANUAL_VERIFICATION_COOLDOWN : Z := 5 * 60 * 1000000.
(** [ORDER BY started_at, id]. *)
Definition older (a b : AuditVerification) : bool :=
  (ck_started_at a <? ck_started_at b) || ((ck_started_at a =? ck_started_at b) && str_leb (ck_id a) (ck_id b)).
Definition oldest_first (l : list AuditVerification) : list AuditVerification := sort_by older l.
Definition newest_first (l : list AuditVerification) : list AuditVerification := sort_by (λ a b, older b a) l.
(** [DISTINCT ON (key)] of an ordered query: the first row of each key. *)
Fixpoint distinct_on {K} `{EqDecision K} (key : AuditVerification → K) (seen : list K) (l : list AuditVerification)
    : list AuditVerification :=
  match l with
  | [] => []
  | r :: rest => if bool_decide (key r ∈ seen) then distinct_on key seen rest
                 else r :: distinct_on key (key r :: seen) rest
  end.
Definition break_of (r : AuditVerification) : option Z * option ChainBreak := (ck_broken_at r, ck_reason r).
Definition newest (keep : nat) (l : list AuditVerification) : list AuditVerification := take keep (newest_first l).
Definition newest_per_trigger (l : list AuditVerification) : list AuditVerification :=
  distinct_on ck_trigger [] (newest_first l).
Definition first_per_break (l : list AuditVerification) : list AuditVerification :=
  distinct_on break_of [] (oldest_first (filter (λ r, ck_valid r = false) l)).
Definition kept (keep : nat) (l : list AuditVerification) : list string :=
  ck_id <$> newest keep l ++ newest_per_trigger l ++ first_per_break l.
Definition prune_verifications (keep : nat) (l : list AuditVerification) : list AuditVerification :=
  filter (λ r, ck_id r ∈ kept keep l) l.
(** The log and the stored checks; the check reads the log of its transaction. *)
Definition _verify_and_store_locked (log : list AuditRow) (checks : list AuditVerification)
    (trigger : VerificationTrigger) (triggered_by : option string) (keep : nat) (id : string) (started finished : Z)
    : res pyexc (list AuditVerification * AuditVerification) :=
  result ← verify_chain log;
  let row := MkCheck id started finished (cv_valid result) (cv_checked result) (cv_broken_at result)
               (cv_reason result) trigger triggered_by in
  Ok (prune_verifications keep (checks ++ [row]), row).
Inductive VerifyError := verify_running | verify_cooldown (retry_after : Z) | verify_escaped (e : pyexc).
Definition last_manual (checks : list AuditVerification) : option Z :=
  match ck_started_at <$> filter (λ r, ck_trigger r = manual) checks with
  | [] => None
  | t :: r => Some (foldl Z.max t r)
  end.
(** [locked] is the answer of the lock, [now] the clock of the request. *)
Definition run_manual_verification (log : list AuditRow) (checks : list AuditVerification) (triggered_by : string)
    (cooldown : Z) (locked : bool) (now : Z) (id : string) (started finished : Z)
    : res VerifyError (list AuditVerification * AuditVerification) :=
  _ ← raise_if (negb locked) verify_running;
  let wait := match last_manual checks with Some t => t + cooldown - now | None => 0 end in
  _ ← raise_if (0 <? wait) (verify_cooldown (wait / 1000000 + 1));
  match _verify_and_store_locked log checks manual (Some triggered_by) VERIFICATION_KEEP id started finished with
  | Ok r => Ok r
  | Err e => Err (verify_escaped e)
  end.
Definition latest_verification (checks : list AuditVerification) : option AuditVerification :=
  head (newest_first checks).

(** ** Reads *)
Record EntryFilters := MkFilters {
  fi_action : option string;
  fi_actor : option string;
  fi_target_type : option string;
  fi_target_id : option string;
  fi_before : option Z
}.
Definition matches {A} (f : option A) (p : A → bool) : bool := match f with Some x => p x | None => true end.
(** The filters without the times; a comparison with NULL is not true. *)
Definition _entry_filters (f : EntryFilters) (r : AuditRow) : bool :=
  matches (fi_action f) (λ a, bool_decide (row_action r = a)) &&
  matches (fi_actor f) (λ a, bool_decide (row_actor r = Some a)) &&
  matches (fi_target_type f) (λ t, bool_decide (row_target_type r = Some t)) &&
  matches (fi_target_id f) (λ t, bool_decide (row_target_id r = Some t)) &&
  matches (fi_before f) (λ i, row_id r <? i).
Definition newest_entries (f : EntryFilters) (log : list AuditRow) : list AuditRow :=
  sort_by (λ a b, by_id b a) (filter (λ r, _entry_filters f r = true) log).
Definition query (log : list AuditRow) (f : EntryFilters) (limit offset : nat) : list AuditRow * Z :=
  (take limit (drop offset (newest_entries f log)), Z.of_nat (length (newest_entries f log))).
Definition query_cursor (log : list AuditRow) (f : EntryFilters) (limit : nat) : list AuditRow * bool :=
  let rows := take (S limit) (newest_entries f log) in (take limit rows, (limit <? length rows)%nat).

(** *** Labels *)
Fixpoint data_uuid_strings (data : pyval) : list string :=
  match data with
  | PStr s => if bool_decide (is_Some (parse_uuid s)) then [s] else []
  | PDict d => flat_map (λ kv, data_uuid_strings kv.2) d
  | PList l => flat_map data_uuid_strings l
  | _ => []
  end.
Definition _i18n_label (names : pyval) : pyval :=
  match names with
  | PDict ((k, v) :: r) =>
      match dict_get "de" ((k, v) :: r) with
      | Some g => if truthy g then g else v
      | None => v
      end
  | _ => PNone
  end.
Definition _application_title (data : list (string * pyval)) : option string :=
  match dict_get "title" data with
  | Some (PStr t) => if bool_decide (py_strip t = "") then None else Some (py_strip t)
  | _ => None
  end.
Definition _first_wins (pairs : list (string * option string)) : list (string * string) :=
  dict_of_pairs (reverse (omap (λ kv, match kv.2 with
                                      | Some l => if bool_decide (l = "") then None else Some (kv.1, l)
                                      | None => None
                                      end) pairs)).

(** *** Reverts *)
Definition REVERTABLE_BUDGET_ACTIONS : list string :=
  ["budget_node_create"; "budget_node_update"; "budget_allocation_set"; "budget_transfer_create";
   "budget_expense_create"; "budget_expense_update"].
Definition truthy_get (k : string) (data : list (string * pyval)) : bool :=
  match dict_get k data with Some v => truthy v | None => false end.
Definition _revertable_without_revision (action : string) (data : list (string * pyval)) : bool :=
  if bool_decide (action = "status_change") then truthy_get "fromStateId" data && truthy_get "toStateId" data
  else if bool_decide (action ∈ ["budget_node_update"; "budget_expense_update"]) then truthy_get "before" data
  else if bool_decide (action = "budget_allocation_set") then dict_mem "previousAllocated" data
  else bool_decide (action ∈ REVERTABLE_BUDGET_ACTIONS).
Definition row_data_dict (r : AuditRow) : list (string * pyval) := match row_data r with PDict d => d | _ => [] end.
Definition revision_id (r : AuditRow) : option string :=
  if truthy_get "revisionId" (row_data_dict r)
  then Some (py_str (default PNone (dict_get "revisionId" (row_data_dict r)))) else None.
(** The row of each revision; the last row wins. *)
Definition by_revision (rows : list AuditRow) : list (string * Z) :=
  dict_of_pairs (omap (λ r, rid ← revision_id r; u ← parse_uuid rid; Some (u, row_id r)) rows).
(** [revisions] maps the id of each config revision to its predecessor. *)
Definition _revision_predecessors (revisions : list (string * option string)) (by_rev : list (string * Z))
    : list (Z * bool) :=
  omap (λ rev, eid ← dict_get rev.1 by_rev; Some (eid, bool_decide (is_Some rev.2))) revisions.
Definition revertable_flags (revisions : list (string * option string)) (rows : list AuditRow) : Z → option bool :=
  let predecessors := _revision_predecessors revisions (by_revision rows) in
  let static := (λ r, (row_id r, negb (bool_decide (is_Some (revision_id r))) &&
                                  _revertable_without_revision (row_action r) (row_data_dict r))) <$> rows in
  λ eid, snd <$> last (filter (λ p, p.1 = eid) (static ++ predecessors)).
