(* ===== verification/AuditFacts.v ===== *)
(** The theorems of the audit log: an appended log verifies, the report of the check, what an
    anchored hash determines, and what the prune keeps; and the same on a concrete log: three
    entries that [record] wrote, and this log with a changed amount, which the check reports. *)

From stdpp Require Import pretty strings.
From S2P Require Import Prelude PyStr PyNum PyValue PyDate JsonText Sha256 JsonCanon AuditLog.

(** ** Times *)
Definition digits_value (l : list ascii) : Z := foldl (λ acc c, 10 * acc + digit_val c) 0 l.
Lemma digits_value_snoc l c : digits_value (l ++ [c]) = 10 * digits_value l + digit_val c.
Proof. unfold digits_value. by rewrite foldl_app. Qed.
Lemma digits_value_zeros n l : digits_value (replicate n "0"%char ++ l) = digits_value l.
Proof.
  unfold digits_value. rewrite foldl_app. replace (foldl _ 0 (replicate n _)) with 0; [done|].
  induction n as [|n IH]; [done|]. exact IH.
Qed.
Lemma pretty_digits x s :
  ∃ ds, chars (pretty_N_go x s) = ds ++ chars s ∧ digits_value ds = Z.of_N x ∧
        ∀ n, Z.of_N x < 10 ^ Z.of_nat n → (length ds ≤ n)%nat.
Proof.
  revert s. induction (N.lt_wf_0 x) as [x _ IH]. intros s. destruct (decide (0 < x)%N) as [Hx|Hx].
  - destruct (IH (x / 10)%N ltac:(apply N.div_lt; lia) (String (pretty_N_char (x mod 10)) s)) as (ds & E & Hv & Hl).
    exists (ds ++ [pretty_N_char (x mod 10)]). rewrite pretty_N_go_step, E by done. split_and!.
    + by rewrite <- app_assoc.
    + rewrite digits_value_snoc, Hv. pose proof (N.mod_lt x 10 ltac:(lia)) as Hm.
      assert (Hd : ∀ y, (y < 10)%N → digit_val (pretty_N_char y) = Z.of_N y).
      { clear. intros y Hy.
        assert (y = 0 ∨ y = 1 ∨ y = 2 ∨ y = 3 ∨ y = 4 ∨ y = 5 ∨ y = 6 ∨ y = 7 ∨ y = 8 ∨ y = 9)%N as Hc by lia.
        repeat destruct Hc as [->|Hc]; try reflexivity. by subst. }
      rewrite Hd, N2Z.inj_div, N2Z.inj_mod by done. pose proof (Z.div_mod (Z.of_N x) 10). lia.
    + intros [|n] Hn; [cbn in Hn; lia|]. rewrite length_app. cbn.
      enough (length ds ≤ n)%nat by lia. apply Hl. rewrite N2Z.inj_div.
      rewrite Nat2Z.inj_succ, Z.pow_succ_r in Hn by lia. apply Z.div_lt_upper_bound; lia.
  - exists []. assert (x = 0%N) as -> by lia. rewrite pretty_N_go_0. repeat split. intros. cbn. lia.
Qed.
Lemma chars_length s : length (chars s) = String.length s.
Proof. induction s as [|c s IH]; [done|]. cbn. by rewrite <- IH. Qed.
Lemma chars_zeros n : chars (zeros n) = replicate n "0"%char.
Proof. induction n as [|n IH]; [done|]. cbn. by rewrite <- IH. Qed.
Lemma pad_digits n z :
  (0 < n)%nat → 0 ≤ z < 10 ^ Z.of_nat n →
  length (chars (pad n (int_str z))) = n ∧ digits_value (chars (pad n (int_str z))) = z.
Proof.
  intros Hn Hz. assert (∃ ds, chars (int_str z) = ds ∧ digits_value ds = z ∧ (length ds ≤ n)%nat) as (ds & E & Hv & Hl).
  { eexists. split; [done|]. destruct z as [|p|p]; [cbn; split; [done|lia]| |lia].
    change (int_str (Z.pos p)) with (pretty_N_go (N.pos p) "").
    destruct (pretty_digits (N.pos p) "") as (ds & E & Hv & Hl). rewrite app_nil_r in E. rewrite E.
    split; [done|]. apply Hl. cbn. lia. }
  unfold pad. rewrite chars_app, chars_zeros, E, digits_value_zeros, length_app, length_replicate, <- chars_length, E.
  split; [lia|done].
Qed.
Lemma pad_app_inj n x y r r' :
  (0 < n)%nat → 0 ≤ x < 10 ^ Z.of_nat n → 0 ≤ y < 10 ^ Z.of_nat n →
  chars (pad n (int_str x)) ++ r = chars (pad n (int_str y)) ++ r' → x = y ∧ r = r'.
Proof.
  intros Hn Hx Hy. destruct (pad_digits n x Hn Hx) as [Lx Vx], (pad_digits n y Hn Hy) as [Ly Vy].
  intros [E ->]%app_inj_1; [|congruence]. split; [|done]. congruence.
Qed.
Definition datetime_ok (t : datetime) : Prop :=
  date_ok (dt_date t) ∧ 0 ≤ dt_second t < 86400 ∧ 0 ≤ dt_micro t < 1000000.
Lemma days_in_month_le y m : days_in_month y m ≤ 31.
Proof. unfold days_in_month. repeat case_match; lia. Qed.
Lemma isoformat_inj t u : datetime_ok t → datetime_ok u → isoformat t = isoformat u → t = u.
Proof.
  destruct t as [[y m d] s k], u as [[y' m' d'] s' k'].
  intros ((Hy & Hm & Hd) & Hs & Hk) ((Hy' & Hm' & Hd') & Hs' & Hk') E. cbn in *.
  pose proof (days_in_month_le y m). pose proof (days_in_month_le y' m').
  apply (f_equal chars) in E. unfold isoformat, date_iso, time_iso in E. cbn [dt_date dt_second dt_micro dyear dmonth dday] in E.
  rewrite !chars_app, <- !app_assoc in E.
  assert (Hq : ∀ z, 0 ≤ z < 86400 → 0 ≤ z / 3600 < 100 ∧ 0 ≤ (z / 60) mod 60 < 100 ∧ 0 ≤ z mod 60 < 100).
  { intros z Hz. pose proof (Z.mod_pos_bound (z / 60) 60). pose proof (Z.mod_pos_bound z 60).
    split; [split; [apply Z.div_pos; lia|apply Z.div_lt_upper_bound; lia]|lia]. }
  destruct (Hq _ Hs) as (? & ? & ?), (Hq _ Hs') as (? & ? & ?).
  apply pad_app_inj in E as [-> E]; try (cbn; lia). injection E as E.
  apply pad_app_inj in E as [-> E]; try (cbn; lia). injection E as E.
  apply pad_app_inj in E as [-> E]; try (cbn; lia). injection E as E.
  apply pad_app_inj in E as [Eh E]; try (cbn; lia). injection E as E.
  apply pad_app_inj in E as [Em E]; try (cbn; lia). injection E as E.
  apply pad_app_inj in E as [Es E]; try (cbn; lia).
  assert (s = s') as ->.
  { pose proof (Z.div_mod s 60). pose proof (Z.div_mod s' 60).
    pose proof (Z.div_mod (s / 60) 60). pose proof (Z.div_mod (s' / 60) 60).
    rewrite !Z.div_div in * by lia. change (60 * 60) with 3600 in *. lia. }
  f_equal. destruct (Z.eqb_spec k 0) as [->|], (Z.eqb_spec k' 0) as [->|]; [done| | |];
    rewrite ?chars_app in E; cbn in E; try (by injection E).
  injection E as E. rewrite <- ?app_assoc in E. apply pad_app_inj in E as [-> _]; [done| | |]; cbn; lia.
Qed.

(** ** The chain *)
Lemma by_id_total a b : by_id a b = true ∨ by_id b a = true.
Proof. unfold by_id. rewrite !Z.leb_le. lia. Qed.
Lemma by_id_trans a b c : by_id a b = true → by_id b c = true → by_id a c = true.
Proof. unfold by_id. rewrite !Z.leb_le. lia. Qed.
Lemma insert_by_snoc x r l : by_id x r = true → insert_by by_id x (l ++ [r]) = insert_by by_id x l ++ [r].
Proof.
  intros Hx. induction l as [|y l IH]; cbn; [by rewrite Hx|]. destruct (by_id x y); [done|]. by rewrite IH.
Qed.
(** The id of a new row comes from a sequence, so it is the largest. *)
Definition fresh_id (id : Z) (log : list AuditRow) : Prop := Forall (λ r, row_id r < id) log.
Lemma chain_snoc log r : fresh_id (row_id r) log → chain (log ++ [r]) = chain log ++ [r].
Proof.
  unfold chain. induction 1 as [|x log Hx _ IH]; [done|]. cbn. rewrite IH.
  apply insert_by_snoc, Z.leb_le. lia.
Qed.
(** Every row links to its predecessor and holds the hash of its fields. *)
Fixpoint linked (prev : option string) (rows : list AuditRow) : Prop :=
  match rows with
  | [] => True
  | r :: rest => row_prev_hash r = prev ∧ _entry_hash r = Ok (row_hash r) ∧ linked (Some (row_hash r)) rest
  end.
Definition end_hash (prev : option string) (rows : list AuditRow) : option string :=
  match last rows with Some r => Some (row_hash r) | None => prev end.
Lemma end_hash_cons prev r rows : end_hash prev (r :: rows) = end_hash (Some (row_hash r)) rows.
Proof. unfold end_hash. rewrite last_cons. by destruct (last rows). Qed.
Lemma linked_app prev rows rest : linked prev (rows ++ rest) ↔ linked prev rows ∧ linked (end_hash prev rows) rest.
Proof.
  revert prev. induction rows as [|r rows IH]; intros prev; [by unfold end_hash; cbn; tauto|].
  cbn [linked app]. rewrite IH, end_hash_cons. tauto.
Qed.
Lemma link_break_none prev r :
  _link_break prev r = Ok None ↔ row_prev_hash r = prev ∧ _entry_hash r = Ok (row_hash r).
Proof.
  unfold _link_break. destruct (decide (row_prev_hash r = prev)) as [E|E].
  - rewrite bool_decide_true by done. cbn. destruct (_entry_hash r) as [h|e]; cbn; [|split; [done|by intros [_ ?]]].
    case_bool_decide; split; try done; [by intros _; split; [done|f_equal]|by intros [_ [= ->]]].
  - rewrite bool_decide_false by done. split; [done|by intros [? _]].
Qed.
(** The report of the check names the first row that does not continue the chain. *)
Definition report_of (prev : option string) (rows : list AuditRow) (v : ChainVerification) : Prop :=
  ∃ good, linked prev good ∧ cv_checked v = Z.of_nat (length good) ∧
    match cv_reason v with
    | None => rows = good ∧ cv_valid v = true ∧ cv_broken_at v = None
    | Some b => ∃ bad rest, rows = good ++ bad :: rest ∧ cv_valid v = false ∧ cv_broken_at v = Some (row_id bad) ∧
                match b with
                | prev_hash_mismatch => row_prev_hash bad ≠ end_hash prev good
                | hash_mismatch => row_prev_hash bad = end_hash prev good ∧
                                   ∃ h, _entry_hash bad = Ok h ∧ h ≠ row_hash bad
                end
    end.
Definition shift_checked (k : Z) (v : ChainVerification) : ChainVerification :=
  MkVerification (cv_valid v) (cv_checked v + k) (cv_broken_at v) (cv_reason v).
Lemma link_break_some prev r b :
  _link_break prev r = Ok (Some b) ↔
  match b with
  | prev_hash_mismatch => row_prev_hash r ≠ prev
  | hash_mismatch => row_prev_hash r = prev ∧ ∃ h, _entry_hash r = Ok h ∧ h ≠ row_hash r
  end.
Proof.
  unfold _link_break. destruct (decide (row_prev_hash r = prev)) as [E|E].
  - rewrite bool_decide_true by done. cbn. destruct (_entry_hash r) as [h|e]; cbn.
    + case_bool_decide as Hh; destruct b; split; try done; naive_solver.
    + destruct b; naive_solver.
  - rewrite bool_decide_false by done. destruct b; naive_solver.
Qed.
Lemma verify_from_report prev k rows v :
  verify_from prev k rows = Ok v → ∃ w, report_of prev rows w ∧ v = shift_checked k w.
Proof.
  revert prev k. induction rows as [|r rows IH]; intros prev k H; cbn in H.
  - injection H as <-. exists (MkVerification true 0 None None). split; [|done]. by exists [].
  - apply bind_ok in H as ([b|] & Hb & H).
    + injection H as <-. exists (MkVerification false 0 (Some (row_id r)) (Some b)). split; [|done].
      exists []. do 2 (split; [done|]). exists r, rows. split_and!; try done.
      apply link_break_some in Hb. by destruct b.
    + apply link_break_none in Hb as [Hp Hh]. apply IH in H as (w & (good & Hl & Hc & Hr) & ->).
      exists (shift_checked 1 w). split; [|unfold shift_checked; cbn; f_equal; lia].
      exists (r :: good). split; [done|]. cbn [cv_checked shift_checked length]. split; [lia|].
      cbn [shift_checked cv_reason cv_valid cv_broken_at]. revert Hr. destruct (cv_reason w) as [b|]; intros Hr.
      * destruct Hr as (bad & rest & -> & ? & ? & ?). exists bad, rest. by rewrite end_hash_cons.
      * by destruct Hr as (-> & ? & ?).
Qed.
Lemma verify_from_linked prev k rows :
  linked prev rows → verify_from prev k rows = Ok (MkVerification true (k + Z.of_nat (length rows)) None None).
Proof.
  revert prev k. induction rows as [|r rows IH]; intros prev k Hl; cbn; [by rewrite Z.add_0_r|].
  destruct Hl as (Hp & Hh & Hl). replace (_link_break prev r) with (@Ok pyexc (option ChainBreak) None) by (symmetry; by apply link_break_none).
  cbn. rewrite IH by done. do 2 f_equal. lia.
Qed.
Lemma verify_chain_valid log v :
  verify_chain log = Ok v → cv_valid v = true → linked None (chain log).
Proof.
  intros (w & (good & Hl & _ & Hr) & ->)%verify_from_report Hv. cbn in Hv. revert Hr.
  destruct (cv_reason w); [by intros (? & ? & _ & Hf & _); congruence|]. by intros [-> _].
Qed.
(** *** Data of a JSON column *)
Fixpoint is_json (v : pyval) : bool :=
  match v with
  | PList l => forallb is_json l
  | PDict d => forallb (λ kv, is_json kv.2) d
  | PDec _ | PDate _ | PDateTime _ _ => false
  | _ => true
  end.
Lemma dumps_json v : is_json v = true → is_Some (dumps_canonical v).
Proof.
  induction v as [l Hl|d Hd|v Hl Hd] using pyval_ind'; intros Hj.
  - cbn in *. enough (∀ k, Forall (λ x, is_json x = true → is_Some (dumps_canonical x)) k → forallb is_json k = true →
      is_Some ((fix go l := match l with [] => Some [] | x :: r => a ← dumps_canonical x; b ← go r; Some (a :: b) end) k))
      as H; [by destruct (H l Hl Hj) as [ps ->]|].
    clear. induction 1 as [|x k Hx _ IH]; [done|]. intros [Hj Hk]%andb_true_iff.
    destruct (Hx Hj) as [a ->], (IH Hk) as [b Hb]. cbn. by rewrite Hb.
  - cbn in *. enough (∀ k, Forall (λ kv, is_json kv.2 = true → is_Some (dumps_canonical kv.2)) k →
      forallb (λ kv, is_json kv.2) k = true →
      is_Some ((fix go (d : list (string * pyval)) : option (list (string * list ascii)) := match d with
                            | [] => Some []
                            | kv :: r => a ← dumps_canonical kv.2; b ← go r; Some ((kv.1, a) :: b)
                            end) k)) as H; [by destruct (H d Hd Hj) as [ps ->]|].
    clear. induction 1 as [|x k Hx _ IH]; [done|]. intros [Hj Hk]%andb_true_iff.
    destruct (Hx Hj) as [a ->], (IH Hk) as [b Hb]. cbn. by rewrite Hb.
  - destruct v; try done; [by destruct (Hl l)|by destruct (Hd d)].
Qed.
Lemma entry_payload_total e : is_json (ne_data e) = true → ∃ t, entry_payload e = Ok t.
Proof.
  intros Hj. unfold entry_payload, canonical_payload.
  destruct (dumps_json (payload_of (ne_actor e) (ne_action e) (ne_target_type e) (ne_target_id e) (ne_at e) (ne_data e)))
    as [t ->]; [|by eexists].
  cbn. rewrite Hj. by destruct (ne_actor e), (ne_target_id e), (ne_target_type e).
Qed.
Lemma verify_from_total prev k rows :
  Forall (λ r, is_json (row_data r) = true) rows → ∃ v, verify_from prev k rows = Ok v.
Proof.
  intros Hj. revert prev k. induction Hj as [|r rows Hr _ IH]; intros prev k; cbn; [by eexists|].
  assert (∃ b, _link_break prev r = Ok b) as [[b|] ->]; cbn; [|by eexists|by apply IH].
  unfold _link_break, _entry_hash. case_match; [by eexists|]. destruct (entry_payload_total (content r)) as [t ->]; [done|].
  by eexists.
Qed.

(** *** Appends *)
Inductive append_step : list AuditRow → list AuditRow → Prop :=
  | append_record log e id log' : fresh_id id log → record log e id = Ok log' → append_step log log'.
Lemma record_linked log e id log' :
  fresh_id id log → record log e id = Ok log' → linked None (chain log) →
  ∃ r, content r = e ∧ row_id r = id ∧ chain log' = chain log ++ [r] ∧ linked None (chain log').
Proof.
  intros Hid (t & Ht & [= <-])%bind_ok Hl. eexists. split; [|split; [|split; [by apply chain_snoc|]]]; [by destruct e|done|].
  rewrite chain_snoc by done. apply linked_app. split; [done|]. cbn. unfold end_hash.
  split; [by destruct (last (chain log))|]. split; [|done]. unfold _entry_hash. cbn. 
  replace (content _) with e by by destruct e. by rewrite Ht.
Qed.
Lemma appended_linked log log' :
  rtc append_step log log' → linked None (chain log) →
  linked None (chain log') ∧ ∃ rest, chain log' = chain log ++ rest.
Proof.
  induction 1 as [log|log log1 log2 [? e id log' Hid Hr] _ IH]; intros Hl; [split; [done|]; exists []; by rewrite app_nil_r|].
  destruct (record_linked _ _ _ _ Hid Hr Hl) as (r & _ & _ & E & Hl'). destruct (IH Hl') as (H & rest & E').
  split; [done|]. exists (r :: rest). by rewrite E', E, <- app_assoc.
Qed.

(** *** What a hash determines *)
Definition sha256_collision : Prop := ∃ x y, x ≠ y ∧ sha256 x = sha256 y.
(** The same entry, its data up to the order of its keys. *)
Definition same_entry (r r' : AuditRow) : Prop :=
  row_actor r = row_actor r' ∧ row_action r = row_action r' ∧ row_target_type r = row_target_type r' ∧
  row_target_id r = row_target_id r' ∧ row_at r = row_at r' ∧ sorted_keys (row_data r) = sorted_keys (row_data r') ∧
  row_prev_hash r = row_prev_hash r' ∧ row_hash r = row_hash r'.
Definition row_ok (r : AuditRow) : Prop := datetime_ok (row_at r) ∧ no_floats (row_data r) = true.
Lemma opt_str_inj a b : opt_str a = opt_str b → a = b.
Proof. destruct a, b; cbn; congruence. Qed.
Lemma payload_no_floats a c ty ti t d : no_floats d = true → no_floats (payload_of a c ty ti t d) = true.
Proof. intros Hd. by destruct a, ty, ti; cbn; rewrite Hd. Qed.
Lemma payload_sorted a c ty ti t d : sorted_keys (payload_of a c ty ti t d) = payload_of a c ty ti t (sorted_keys d).
Proof. by destruct a, ty, ti. Qed.
Lemma payload_inj a c ty ti t d a' c' ty' ti' t' d' text :
  datetime_ok t → datetime_ok t' → no_floats d = true → no_floats d' = true →
  dumps_canonical (payload_of a c ty ti t d) = Some text → dumps_canonical (payload_of a' c' ty' ti' t' d') = Some text →
  a = a' ∧ c = c' ∧ ty = ty' ∧ ti = ti' ∧ t = t' ∧ sorted_keys d = sorted_keys d'.
Proof.
  intros Ht Ht' Hd Hd' H H'.
  pose proof (canonical_text_inj _ _ _ (payload_no_floats a c ty ti t d Hd) (payload_no_floats a' c' ty' ti' t' d' Hd') H H') as E.
  rewrite !payload_sorted in E.
  injection E as Ec Ea Et Ed Ei Ey. apply opt_str_inj in Ea, Ei, Ey.
  pose proof (isoformat_inj t t' Ht Ht' Et). done.
Qed.
Lemma entry_hash_text r h :
  _entry_hash r = Ok h →
  ∃ text, dumps_canonical (payload_of (row_actor r) (row_action r) (row_target_type r) (row_target_id r) (row_at r) (row_data r))
            = Some text ∧ h = sha256 (default "" (row_prev_hash r) +:+ of_chars text).
Proof.
  intros (t & Ht & [= <-])%bind_ok. unfold entry_payload, canonical_payload in Ht.
  cbn [content ne_actor ne_action ne_target_type ne_target_id ne_at ne_data] in Ht.
  destruct (dumps_canonical _) as [text|] eqn:E in Ht; [|done]. injection Ht as <-. by exists text.
Qed.
Lemma linked_end_length prev rows h :
  linked prev rows → end_hash prev rows = Some h → rows ≠ [] → length (chars h) = 32%nat.
Proof.
  destruct rows as [|r rows _] using rev_ind; [done|]. intros (_ & (_ & Hh & _))%linked_app He _.
  unfold end_hash in He. rewrite last_snoc in He. injection He as <-.
  apply entry_hash_text in Hh as (text & _ & ->). apply length_sha256.
Qed.
Lemma last_entry_same r r' :
  row_ok r → row_ok r' → _entry_hash r = Ok (row_hash r) → _entry_hash r' = Ok (row_hash r') → row_hash r = row_hash r' →
  length (chars (default "" (row_prev_hash r))) = length (chars (default "" (row_prev_hash r'))) →
  (row_prev_hash r = None ↔ row_prev_hash r' = None) → same_entry r r' ∨ sha256_collision.
Proof.
  intros [Ht Hn] [Ht' Hn'] (text & Hd & Eh)%entry_hash_text (text' & Hd' & Eh')%entry_hash_text E Hlen Hnone.
  destruct (decide (default "" (row_prev_hash r) +:+ of_chars text = default "" (row_prev_hash r') +:+ of_chars text')) as [Eq|Ne].
  - left. apply (f_equal chars) in Eq. rewrite !chars_app, !chars_of_chars in Eq.
    apply app_inj_1 in Eq as [Ep ->]; [|done]. apply chars_inj in Ep.
    destruct (payload_inj _ _ _ _ _ _ _ _ _ _ _ _ _ Ht Ht' Hn Hn' Hd Hd') as (? & ? & ? & ? & ? & ?).
    repeat split; try done. destruct (row_prev_hash r), (row_prev_hash r'); naive_solver.
  - right. exists (default "" (row_prev_hash r) +:+ of_chars text), (default "" (row_prev_hash r') +:+ of_chars text').
    split; [done|]. congruence.
Qed.
Lemma linked_same_end rows rows' :
  length rows = length rows' → linked None rows → linked None rows' → Forall row_ok rows → Forall row_ok rows' →
  end_hash None rows = end_hash None rows' → Forall2 same_entry rows rows' ∨ sha256_collision.
Proof.
  revert rows'. induction rows as [|r rows IH] using rev_ind; intros rows' Hlen Hl Hl' Hk Hk' He;
    destruct rows' as [|r' rows' _] using rev_ind; rewrite ?length_app in Hlen; cbn in Hlen; try lia; [by left|].
  apply linked_app in Hl as (Hl & Hp & Hh & _), Hl' as (Hl' & Hp' & Hh' & _).
  apply Forall_app in Hk as [Hk [Hr _]%Forall_cons], Hk' as [Hk' [Hr' _]%Forall_cons].
  unfold end_hash in He. rewrite !last_snoc in He. injection He as He.
  assert (Hends : end_hash None rows = None ∧ end_hash None rows' = None ∨
    ∃ h h', end_hash None rows = Some h ∧ end_hash None rows' = Some h' ∧ length (chars h) = length (chars h')).
  { destruct rows as [|x l _] using rev_ind; destruct rows' as [|x' l' _] using rev_ind; rewrite ?length_app in Hlen; cbn in Hlen; try lia; [by left|].
    right. unfold end_hash. rewrite !last_snoc. eexists _, _. split_and!; try done.
    transitivity 32%nat; [|symmetry]; [apply (linked_end_length None (l ++ [x]) _ Hl)|apply (linked_end_length None (l' ++ [x']) _ Hl')];
      try (unfold end_hash; by rewrite last_snoc); intros E%(f_equal length); rewrite length_app in E; cbn in E; lia. }
  assert (same_entry r r' ∨ sha256_collision) as [Hs|Hc]; [| |by right].
  { apply last_entry_same; try done; rewrite Hp, Hp'; by destruct Hends as [[-> ->]|(h & h' & -> & -> & E)]. }
  assert (Forall2 same_entry rows rows' ∨ sha256_collision) as [Hall|Hc]; [|left|by right].
  - apply IH; try done; [lia|]. rewrite <- Hp, <- Hp'. by destruct Hs as (_ & _ & _ & _ & _ & _ & ? & _).
  - apply Forall2_app; [done|]. constructor; [done|constructor].
Qed.
Lemma chain_take log n : chain (take n (chain log)) = take n (chain log).
Proof.
  apply sort_by_id. pose proof (sort_by_sorted by_id by_id_total by_id_trans log) as H.
  rewrite <- (take_drop n (sort_by by_id log)) in H. by apply StronglySorted_app_1_l in H.
Qed.
(** The rows of the chain before the last ones verify without them: the check alone does not see
    that the newest entries are gone. *)
Lemma newest_removed_verifies log v n :
  verify_chain log = Ok v → cv_valid v = true →
  verify_chain (take n (chain log)) = Ok (MkVerification true (Z.of_nat (length (take n (chain log)))) None None).
Proof.
  intros H Hv. pose proof (verify_chain_valid _ _ H Hv) as Hl. rewrite <- (take_drop n (chain log)) in Hl.
  apply linked_app in Hl as [Hl _]. unfold verify_chain. rewrite chain_take. by apply verify_from_linked.
Qed.

(** ** The properties of the chain *)
(** C26: [verify_chain] answers for every log of JSON data, and its report is the truth about the
    chain: it is valid exactly when every row links to its predecessor and holds the hash of its
    fields; otherwise it names the first row that does not, how many rows are intact before it,
    and which of the two checks it fails. *)
Lemma verify_chain_reports log :
  Forall (λ r, is_json (row_data r) = true) log → ∃ v, verify_chain log = Ok v ∧ report_of None (chain log) v.
Proof.
  intros Hj. destruct (verify_from_total None 0 (chain log)) as [v Hv].
  { apply Forall_forall. intros r Hr. apply elem_of_sort_by in Hr. revert r Hr. by apply Forall_forall. }
  exists v. split; [done|]. apply verify_from_report in Hv as (w & Hw & ->). unfold shift_checked. rewrite Z.add_0_r. by destruct w.
Qed.
(** A log that only [record] wrote, with ids from a sequence, verifies with all its rows, and
    every earlier state of it is a prefix of it: an entry is never changed. *)
Lemma recorded_log_verifies log log' :
  rtc append_step [] log → rtc append_step log log' →
  verify_chain log' = Ok (MkVerification true (Z.of_nat (length log')) None None) ∧
  ∃ rest, chain log' = chain log ++ rest.
Proof.
  intros H H'. destruct (appended_linked _ _ H I) as [Hl _]. destruct (appended_linked _ _ H' Hl) as [Hl' Hp].
  split; [|done]. unfold verify_chain. rewrite verify_from_linked by done. unfold chain. by rewrite length_sort_by.
Qed.

(** ** The stored checks *)
Lemma str_leb_total s t : str_leb s t = true ∨ str_leb t s = true.
Proof.
  unfold str_leb. destruct (decide (s = t)) as [->|Hn]; [left; by rewrite str_ltb_irrefl|].
  destruct (str_ltb t s) eqn:E; [right|by left]. destruct (str_ltb s t) eqn:E'; [|done].
  pose proof (str_ltb_trans _ _ _ E' E) as H. by rewrite str_ltb_irrefl in H.
Qed.
Lemma str_leb_trans s t u : str_leb s t = true → str_leb t u = true → str_leb s u = true.
Proof.
  unfold str_leb. rewrite !negb_true_iff. intros Hst Htu. destruct (str_ltb u s) eqn:E; [|done].
  destruct (decide (s = t)) as [->|Hn]; [congruence|]. destruct (str_ltb_total s t Hn) as [H|H]; [|congruence].
  by rewrite (str_ltb_trans _ _ _ E H) in Htu.
Qed.
Lemma older_total a b : older a b = true ∨ older b a = true.
Proof.
  unfold older. destruct (Z.lt_trichotomy (ck_started_at a) (ck_started_at b)) as [H|[H|H]].
  - left. apply orb_true_iff. left. by apply Z.ltb_lt.
  - rewrite H, Z.eqb_refl, Z.ltb_irrefl. cbn. apply str_leb_total.
  - right. apply orb_true_iff. left. by apply Z.ltb_lt.
Qed.
Lemma older_started a b : older a b = true → ck_started_at a ≤ ck_started_at b.
Proof. unfold older. intros [H%Z.ltb_lt|[H%Z.eqb_eq _]%andb_true_iff]%orb_true_iff; lia. Qed.
Lemma older_trans a b c : older a b = true → older b c = true → older a c = true.
Proof.
  unfold older. rewrite !orb_true_iff, !andb_true_iff, !Z.ltb_lt, !Z.eqb_eq.
  intros [H|[H Hs]] [H'|[H' Hs']]; try (left; lia). right. split; [lia|]. by eapply str_leb_trans.
Qed.
Lemma oldest_first_sorted l : StronglySorted (λ a b, older a b = true) (oldest_first l).
Proof. apply sort_by_sorted; [apply older_total|apply older_trans]. Qed.
Lemma newest_first_sorted l : StronglySorted (λ a b, older b a = true) (newest_first l).
Proof.
  apply (sort_by_sorted (λ a b, older b a)); [intros; apply older_total|intros x y z H H'; by eapply older_trans].
Qed.
Section DistinctOn.
Context {K : Type} `{EqDecision K} (key : AuditVerification → K).
Lemma distinct_on_sublist seen l : distinct_on key seen l `sublist_of` l.
Proof.
  revert seen. induction l as [|x l IH]; intros seen; cbn; [done|]. case_bool_decide; by constructor.
Qed.
Lemma distinct_on_fresh seen l r : r ∈ distinct_on key seen l → key r ∉ seen.
Proof.
  revert seen. induction l as [|x l IH]; intros seen; cbn; [by intros ?%elem_of_nil|].
  case_bool_decide; [apply IH|]. intros [->|Hr]%elem_of_cons; [done|]. apply IH in Hr. set_solver.
Qed.
Lemma distinct_on_NoDup seen l : NoDup (key <$> distinct_on key seen l).
Proof.
  revert seen. induction l as [|x l IH]; intros seen; cbn; [constructor|]. case_bool_decide; [apply IH|].
  constructor; [|apply IH]. intros (r & E & Hr)%list_elem_of_fmap. apply distinct_on_fresh in Hr. set_solver.
Qed.
Lemma distinct_on_first (R : AuditVerification → AuditVerification → Prop) seen l r :
  (∀ x, R x x) → StronglySorted R l → r ∈ l → key r ∉ seen → ∃ x, x ∈ distinct_on key seen l ∧ key x = key r ∧ R x r.
Proof.
  intros HR Hs. revert seen. induction Hs as [|x l Hs IH Hx]; intros seen Hr Hseen; [by apply elem_of_nil in Hr|]. cbn.
  apply elem_of_cons in Hr as [->|Hr].
  - rewrite bool_decide_false by done. exists x. split; [left|]. split; [done|apply HR].
  - case_bool_decide as Hx'; [by apply IH|]. destruct (decide (key x = key r)) as [E|E].
    + exists x. split; [left|]. split; [done|]. eapply Forall_forall in Hx; [exact Hx|done].
    + destruct (IH (key x :: seen) Hr) as (y & ? & ? & ?); [set_solver|]. exists y. split; [by right|done].
Qed.
End DistinctOn.
Lemma older_refl a : older a a = true.
Proof. by destruct (older_total a a). Qed.
Lemma prune_in keep l r :
  r ∈ l → (r ∈ newest keep l ∨ r ∈ newest_per_trigger l ∨ r ∈ first_per_break l) → r ∈ prune_verifications keep l.
Proof.
  intros Hr H. apply list_elem_of_filter. split; [|done]. apply list_elem_of_fmap. exists r. split; [done|]. rewrite !elem_of_app. tauto.
Qed.
Lemma prune_keeps_trigger keep l r :
  r ∈ l → ∃ x, x ∈ prune_verifications keep l ∧ ck_trigger x = ck_trigger r ∧ older r x = true.
Proof.
  intros Hr. destruct (distinct_on_first ck_trigger (λ a b, older b a = true) [] (newest_first l) r) as (x & Hx & E & Ho).
  - intros; apply older_refl.
  - apply newest_first_sorted.
  - by apply elem_of_sort_by.
  - apply not_elem_of_nil.
  - exists x. split; [|done]. apply prune_in; [|by right; left]. apply (elem_of_sort_by (λ a b, older b a)).
    eapply elem_of_sublist; [exact Hx|apply distinct_on_sublist].
Qed.
Lemma prune_keeps_break keep l r :
  r ∈ l → ck_valid r = false →
  ∃ x, x ∈ prune_verifications keep l ∧ ck_valid x = false ∧ break_of x = break_of r ∧ older x r = true.
Proof.
  intros Hr Hv. set (failed := filter (λ r, ck_valid r = false) l).
  destruct (distinct_on_first break_of (λ a b, older a b = true) [] (oldest_first failed) r) as (x & Hx & E & Ho).
  - intros; apply older_refl.
  - apply oldest_first_sorted.
  - apply elem_of_sort_by, list_elem_of_filter. done.
  - apply not_elem_of_nil.
  - assert (Hf : x ∈ failed).
    { apply (elem_of_sort_by older). eapply elem_of_sublist; [exact Hx|apply distinct_on_sublist]. }
    apply list_elem_of_filter in Hf as [Hf Hl]. exists x. split; [|done]. apply prune_in; [done|by right; right].
Qed.
Lemma prune_sublist keep l : prune_verifications keep l `sublist_of` l.
Proof. apply sublist_filter. Qed.
Definition breaks (l : list AuditVerification) : list (option Z * option ChainBreak) :=
  fromkeys (break_of <$> filter (λ r, ck_valid r = false) l).
Lemma NoDup_length_le {A} (l k : list A) : NoDup l → (∀ x, x ∈ l → x ∈ k) → (length l ≤ length k)%nat.
Proof. intros Hn Hs. apply NoDup_incl_length; [by apply NoDup_ListNoDup|]. intros x. rewrite <- !list_elem_of_In. apply Hs. Qed.
Lemma prune_length keep l :
  NoDup (ck_id <$> l) → (length (prune_verifications keep l) ≤ keep + 3 + length (breaks l))%nat.
Proof.
  intros Hn. transitivity (length (kept keep l)).
  - rewrite <- (length_fmap ck_id (prune_verifications keep l)). apply NoDup_length_le.
    + eapply sublist_NoDup; [exact Hn|]. apply fmap_sublist, prune_sublist.
    + intros x (r & -> & Hr)%list_elem_of_fmap. by apply list_elem_of_filter in Hr as [? _].
  - unfold kept. rewrite length_fmap, !length_app.
    assert (length (newest keep l) ≤ keep)%nat by (unfold newest; rewrite length_take; lia).
    assert (length (newest_per_trigger l) ≤ 3)%nat.
    { rewrite <- (length_fmap ck_trigger (newest_per_trigger l)).
      apply (NoDup_length_le _ [cron; manual; restore]); [apply distinct_on_NoDup|]. intros t _. destruct t; [left|right; left|right; right; left]. }
    enough (length (first_per_break l) ≤ length (breaks l))%nat by lia.
    rewrite <- (length_fmap break_of (first_per_break l)). apply NoDup_length_le; [apply distinct_on_NoDup|].
    intros x (r & -> & Hr)%list_elem_of_fmap. apply elem_of_fromkeys, list_elem_of_fmap. exists r. split; [done|].
    apply (elem_of_sort_by older). eapply elem_of_sublist; [exact Hr|apply distinct_on_sublist].
Qed.
(** *** Checks over time *)
(** A check of any trigger, at any time, against any state of the log. *)
Inductive check_step : list AuditVerification → list AuditVerification → Prop :=
  | checked log checks trigger by_ keep id started finished checks' row :
      _verify_and_store_locked log checks trigger by_ keep id started finished = Ok (checks', row) →
      check_step checks checks'.
Lemma check_step_keeps checks checks' r :
  check_step checks checks' → r ∈ checks →
  (∃ x, x ∈ checks' ∧ ck_trigger x = ck_trigger r ∧ older r x = true) ∧
  (ck_valid r = false → ∃ x, x ∈ checks' ∧ ck_valid x = false ∧ break_of x = break_of r ∧ older x r = true).
Proof.
  intros [log l trigger by_ keep id started finished l' row (v & Hv & [= <- _])%bind_ok] Hr.
  assert (Hr' : r ∈ l ++ [MkCheck id started finished (cv_valid v) (cv_checked v) (cv_broken_at v) (cv_reason v) trigger by_])
    by (apply elem_of_app; by left).
  split; [by apply prune_keeps_trigger|]. intros Hf. by apply prune_keeps_break.
Qed.
Lemma foldl_max_le t l x : x ∈ t :: l → x ≤ foldl Z.max t l.
Proof.
  revert t x. induction l as [|y l IH]; intros t x Hx; cbn; [by apply list_elem_of_singleton in Hx as ->|].
  apply elem_of_cons in Hx as [->|[->|Hx]%elem_of_cons].
  - transitivity (Z.max t y); [lia|]. apply IH. left.
  - transitivity (Z.max t y); [lia|]. apply IH. left.
  - apply IH. by right.
Qed.
Lemma last_manual_le checks r :
  r ∈ checks → ck_trigger r = manual → ∃ t, last_manual checks = Some t ∧ ck_started_at r ≤ t.
Proof.
  intros Hr Ht. unfold last_manual.
  assert (Hx : ck_started_at r ∈ ck_started_at <$> filter (λ r, ck_trigger r = manual) checks).
  { apply list_elem_of_fmap. exists r. split; [done|]. by apply list_elem_of_filter. }
  destruct (ck_started_at <$> _) as [|t l]; [by apply elem_of_nil in Hx|]. eexists. split; [done|]. by apply foldl_max_le.
Qed.
Lemma check_steps_trigger checks checks' r :
  rtc check_step checks checks' → r ∈ checks →
  ∃ x, x ∈ checks' ∧ ck_trigger x = ck_trigger r ∧ ck_started_at r ≤ ck_started_at x.
Proof.
  intros H. revert r. induction H as [c|c c1 c2 Hs _ IH]; intros r Hr; [by exists r|].
  destruct (check_step_keeps _ _ r Hs Hr) as [(x & Hx & Ht & Ho%older_started) _].
  destruct (IH x Hx) as (y & Hy & Ht' & Ho'). exists y. split; [done|]. split; [congruence|lia].
Qed.
Lemma check_steps_break checks checks' r :
  rtc check_step checks checks' → r ∈ checks → ck_valid r = false →
  ∃ x, x ∈ checks' ∧ ck_valid x = false ∧ break_of x = break_of r ∧ older x r = true.
Proof.
  intros H. revert r. induction H as [c|c c1 c2 Hs _ IH]; intros r Hr Hv; [exists r; by rewrite older_refl|].
  destruct (check_step_keeps _ _ r Hs Hr) as [_ (x & Hx & Hv' & Hb & Ho)]; [done|].
  destruct (IH x Hx Hv') as (y & Hy & Hyv & Hyb & Hyo). exists y. split_and!; [done|done|congruence|by eapply older_trans].
Qed.

(** ** The properties of the stored checks *)
(** The evidence of tampering stays in the bounded store.  After any number of further checks,
    each with its own prune, a failed check still has a stored check of the same break that is not
    newer; and a prune leaves at most [keep] rows, one per trigger and one per break. *)
Lemma evidence_survives_prune checks checks' keep :
  rtc check_step checks checks' → NoDup (ck_id <$> checks') →
  (∀ r, r ∈ checks → ck_valid r = false →
     ∃ x, x ∈ checks' ∧ ck_valid x = false ∧ break_of x = break_of r ∧ older x r = true) ∧
  (length (prune_verifications keep checks') ≤ keep + 3 + length (breaks checks'))%nat.
Proof. intros H Hn. split; [|by apply prune_length]. intros r Hr Hv. by eapply check_steps_break. Qed.
(** The prune cannot reset the cooldown of the manual check.  Once a manual check is stored,
    then after any further checks a manual run inside the cooldown is refused: because another
    check runs, or with the time to wait. *)
Lemma cooldown_survives_prune log checks checks' r cooldown locked now by_ id started finished :
  r ∈ checks → ck_trigger r = manual → rtc check_step checks checks' → now < ck_started_at r + cooldown →
  ∃ e, run_manual_verification log checks' by_ cooldown locked now id started finished = Err e ∧
       (e = verify_running ∧ locked = false ∨ locked = true ∧ ∃ t, e = verify_cooldown t ∧ 1 ≤ t).
Proof.
  intros Hr Ht H Hnow. destruct (check_steps_trigger _ _ _ H Hr) as (x & Hx & Hxt & Hs). rewrite Ht in Hxt.
  destruct (last_manual_le _ _ Hx Hxt) as (t & Hl & Hle). unfold run_manual_verification. rewrite Hl.
  destruct locked; cbn; [|by exists verify_running; auto].
  assert (Hw : 0 <? t + cooldown - now = true) by (apply Z.ltb_lt; lia). rewrite Hw. cbn.
  eexists. split; [done|]. right. split; [done|]. eexists. split; [done|].
  enough (0 ≤ (t + cooldown - now) / 1000000) by lia. apply Z.div_pos; [apply Z.ltb_lt in Hw; lia|lia].
Qed.

Definition or_nil {E A} (r : res E (list A)) : list A := match r with Ok l => l | Err _ => [] end.
Definition at_noon (day : Z) : datetime := MkDatetime (Date 2026 3 day) 43200 250000.
Definition expense (amount : string) (day : Z) : NewEntry :=
  MkNewEntry (Some "sub-1") "budget_expense_create" (Some "budget") (Some "b-1") (at_noon day)
    (PDict [("amount", PStr amount); ("count", PInt 2); ("tags", PList [PStr "a"; PNone])]).
Definition log1 : list AuditRow := Eval vm_compute in or_nil (record [] (expense "12.50" 1) 1).
Definition log2 : list AuditRow := Eval vm_compute in or_nil (record log1 (expense "7.00" 2) 2).
Definition log3 : list AuditRow := Eval vm_compute in or_nil (record log2 (expense "1.00" 3) 5).
(** The amount of the second entry is changed. *)
Definition set_data (d : pyval) (r : AuditRow) : AuditRow :=
  MkAuditRow (row_id r) (row_actor r) (row_action r) (row_target_type r) (row_target_id r) (row_at r) d
    (row_prev_hash r) (row_hash r).
Definition tampered : list AuditRow := Eval vm_compute in alter (set_data (PDict [("amount", PStr "700.00")])) 1%nat log3.
(** The second entry is removed. *)
Definition removed : list AuditRow := Eval vm_compute in delete 1%nat log3.

Example log3_verifies : verify_chain log3 = Ok (MkVerification true 3 None None).
Proof. vm_compute. reflexivity. Qed.
Example tampered_reported : verify_chain tampered = Ok (MkVerification false 1 (Some 2) (Some hash_mismatch)).
Proof. vm_compute. reflexivity. Qed.
Example removed_reported : verify_chain removed = Ok (MkVerification false 1 (Some 5) (Some prev_hash_mismatch)).
Proof. vm_compute. reflexivity. Qed.

Lemma steps_to_log2 : rtc append_step [] log2.
Proof.
  eapply rtc_l; [apply (append_record [] (expense "12.50" 1) 1 log1); [constructor|vm_compute; reflexivity]|].
  eapply rtc_l; [|apply rtc_refl].
  apply (append_record log1 (expense "7.00" 2) 2 log2); [repeat constructor|vm_compute; reflexivity].
Qed.
Lemma step_to_log3 : rtc append_step log2 log3.
Proof.
  eapply rtc_l; [|apply rtc_refl].
  apply (append_record log2 (expense "1.00" 3) 5 log3); [repeat constructor|vm_compute; reflexivity].
Qed.
Lemma demo_log_ok : Forall row_ok log3.
Proof. repeat (apply Forall_cons; split); try apply Forall_nil; by repeat split. Qed.
(** Two checks of the changed log, and a manual one of the log before. *)
Definition store (l : list AuditRow) (c : list AuditVerification) (t : VerificationTrigger) (id : string) (at_ : Z)
    : list AuditVerification :=
  match _verify_and_store_locked l c t None 1 id at_ (at_ + 5) with Ok (c', _) => c' | Err _ => [] end.
Definition checks1 : list AuditVerification := Eval vm_compute in store log3 [] manual "a" 1000.
Definition checks2 : list AuditVerification := Eval vm_compute in store tampered checks1 cron "b" 2000.
Definition checks3 : list AuditVerification := Eval vm_compute in store tampered checks2 cron "c" 3000.
Definition checks4 : list AuditVerification := Eval vm_compute in store tampered checks3 cron "d" 4000.
(** The third check is gone: the second holds the evidence, the fourth is the newest of its trigger. *)
Example checks4_ids : ck_id <$> checks4 = ["a"; "b"; "d"].
Proof. reflexivity. Qed.
Lemma step_to_checks2 : check_step checks1 checks2.
Proof.
  apply (checked tampered checks1 cron None 1 "b" 2000 2005 checks2 (MkCheck "b" 2000 2005 false 1 (Some 2) (Some hash_mismatch) cron None)); vm_compute; reflexivity.
Qed.
Lemma steps_to_checks4 : rtc check_step checks2 checks4.
Proof.
  eapply rtc_l; [apply (checked tampered checks2 cron None 1 "c" 3000 3005 checks3 (MkCheck "c" 3000 3005 false 1 (Some 2) (Some hash_mismatch) cron None)); vm_compute; reflexivity|].
  eapply rtc_l; [|apply rtc_refl].
  apply (checked tampered checks3 cron None 1 "d" 4000 4005 checks4 (MkCheck "d" 4000 4005 false 1 (Some 2) (Some hash_mismatch) cron None)); vm_compute; reflexivity.
Qed.
Lemma cooldown_survives_prune_witness :
  ∃ e, run_manual_verification log3 checks4 "sub-2" MANUAL_VERIFICATION_COOLDOWN true 5000 "e" 5000 5005 = Err e ∧
       (e = verify_running ∧ true = false ∨ true = true ∧ ∃ t, e = verify_cooldown t ∧ 1 ≤ t).
Proof.
  apply (cooldown_survives_prune log3 checks1 checks4 (MkCheck "a" 1000 1005 true 3 None None manual None)
           MANUAL_VERIFICATION_COOLDOWN); [left|reflexivity|exact (rtc_l _ _ _ _ step_to_checks2 steps_to_checks4)|vm_compute; reflexivity].
Defined.
