(* ===== verification/Ledger.v ===== *)
(** The tables of the budget and the operations on cost centers, fiscal years, allocations and the
    cost center of an application ([budget/tree/service_base.py], [nodes.py], [fiscal_years.py],
    [allocations.py], [applications.py], the assignment of [flow/extras_dispatcher.py]).

    An operation is one transaction: it answers with the new tables or with an error, and an error
    changes nothing.  An amount is its number of cents in the [Numeric(12, 2)] column; the only
    currency is EUR.  The applications, the states and the Gremien are those of the flow engine,
    which sees the cost centers through [flow_db]. *)

From stdpp Require Import gmap strings.
From S2P Require Import Prelude PyStr PyNum PyValue PyDate FormFields BudgetRules FlowDb Decision.

(** ** Tables *)
Record Budget := MkBudget {
  bu_id : string;
  bu_parent_id : option string;
  bu_gremium_id : option string;
  bu_key : string;
  bu_path_key : string;
  bu_name : string;
  bu_active : bool;
  bu_color : option string;
  bu_accepted_state_keys : list string;
  bu_denied_state_keys : list string;
  bu_hidden_in_budget : bool;
  bu_view_gremium_id : option string;
  bu_decision_gremium_id : option string;
  bu_fiscal_start_month : Z;
  bu_fiscal_start_day : Z
}.
Record FiscalYear := MkFiscalYear {
  fy_id : string;
  fy_budget_id : string;
  fy_year : Z;
  fy_start_date : pydate;
  fy_end_date : pydate;
  fy_active : bool;
  fy_closed_at : option Z
}.
Record BudgetAllocation := MkAllocation {
  al_budget_id : string;
  al_fiscal_year_id : string;
  al_allocated : Z
}.
(** One row of [budget_expense]; [bk_cols] holds the description, the two dates, the correspondent,
    the note, the reference, the payment method, the category and the invoice. *)
Record Booking := MkBooking {
  bk_id : string;
  bk_budget_id : string;
  bk_fiscal_year_id : string;
  bk_application_id : option string;
  bk_transfer_id : option string;
  bk_kind : ExpenseKind;
  bk_amount : Z;
  bk_actor : option string;
  bk_parent_expense_id : option string;
  bk_created_at : Z;
  bk_cols : list (string * pyval)
}.
Record Ledger := MkLedger {
  flow : Db;
  nodes : list Budget;
  years : list FiscalYear;
  allocs : list BudgetAllocation;
  bookings : list Booking;
  invoices : list string
}.
Definition with_flow (d : Db) (l : Ledger) : Ledger := MkLedger d (nodes l) (years l) (allocs l) (bookings l) (invoices l).
Definition with_nodes (n : list Budget) (l : Ledger) : Ledger :=
  MkLedger (flow l) n (years l) (allocs l) (bookings l) (invoices l).
Definition with_years (y : list FiscalYear) (l : Ledger) : Ledger :=
  MkLedger (flow l) (nodes l) y (allocs l) (bookings l) (invoices l).
Definition with_allocs (a : list BudgetAllocation) (l : Ledger) : Ledger :=
  MkLedger (flow l) (nodes l) (years l) a (bookings l) (invoices l).
Definition with_bookings (b : list Booking) (l : Ledger) : Ledger :=
  MkLedger (flow l) (nodes l) (years l) (allocs l) b (invoices l).
Definition apps (l : Ledger) : gmap string Application := applications (flow l).
(** The cost centers as the flow engine reads them. *)
Definition flow_db (l : Ledger) : Db :=
  let d := flow l in let c := conf d in
  MkDb (MkConfig (states c) (transitions c)
          ((λ b, MkBudgetRow (bu_id b) (bu_parent_id b) (bu_path_key b) (bu_decision_gremium_id b)) <$> nodes l)
          ((λ b, (bu_id b, PStr <$> bu_accepted_state_keys b)) <$> nodes l)
          (gremium_rows c) (principals c) (memberships c)
          ((λ a, ((al_budget_id a, al_fiscal_year_id a), al_allocated a)) <$> allocs l)
          ((λ b, MkExpense (bk_budget_id b) (bk_fiscal_year_id b) (bk_kind b) (bk_amount b)) <$> bookings l)
          (attachments c) (application_types c) (form_fields c) (meetings c))
    (applications d) (votes d) (status_events d) (decisions d) (agenda_items d) (audit d).

(** ** Errors *)
(** [database] is a statement that a constraint of the database refuses. *)
Inductive BudgetError :=
| not_found
| conflict (code : string)
| invalid (code : string)
| database
| raised (e : pyexc).
Notation bres := (res BudgetError).
#[export] Instance BudgetError_eq_dec : EqDecision BudgetError.
Proof. solve_decision. Defined.
Definition get_or {A} (o : option A) (e : BudgetError) : bres A := match o with Some a => Ok a | None => Err e end.
Definition _audit (actor : option string) (action target_type target_id : string) (data : list (string * pyval))
    (l : Ledger) : Ledger :=
  with_flow (audit_record (MkAudit actor action target_type target_id data) (flow l)) l.
(** [_json_safe]. *)
Definition _json_safe (v : pyval) : pyval :=
  match v with
  | PDec d => PStr (decimal_str d)
  | PDate d => PStr (date_iso d)
  | PDateTime d s => PStr (date_iso d +:+ "T" +:+ time_iso s)
  | _ => v
  end.

(** ** Lookups *)
Definition _get_node (l : Ledger) (id : string) : bres Budget := get_or (find_by bu_id id (nodes l)) not_found.
Definition _get_fiscal_year (l : Ledger) (id : string) : bres FiscalYear :=
  get_or (find_by fy_id id (years l)) not_found.
Definition is_closed (fy : FiscalYear) : bool := bool_decide (is_Some (fy_closed_at fy)).
Definition _refuse_closed (fy : FiscalYear) : bres () := raise_if (is_closed fy) (conflict "fiscal_year_closed").
Definition _require_open_fiscal_year (l : Ledger) (id : option string) : bres () :=
  match id ≫= λ i, find_by fy_id i (years l) with Some fy => _refuse_closed fy | None => Ok () end.
(** [path_key.split(_SEP, 1)[0]]. *)
Definition top_segment (path : string) : string := hd "" (py_split "-" path).
Definition _top_level (l : Ledger) (node : Budget) : bres Budget :=
  get_or (head (filter (λ b, bu_path_key b = top_segment (bu_path_key node) ∧ bu_parent_id b = None) (nodes l))) not_found.
Definition _fiscal_years_of (l : Ledger) (id : string) : list FiscalYear :=
  sort_by (λ a b, fy_year a <=? fy_year b) (filter (λ f, fy_budget_id f = id) (years l)).
Definition _fiscal_year_bounds (year month day : Z) : bres (pydate * pydate) :=
  match fiscal_year_bounds year month day with
  | Ok b => Ok b
  | Err ValueError => Err (invalid "fiscalStartDay")
  | Err e => Err (raised e)
  end.
Definition candidate_years (l : Ledger) (top : Budget) : list (string * pydate * pydate) :=
  (λ f, (fy_id f, fy_start_date f, fy_end_date f)) <$>
    filter (λ f, fy_active f = true ∧ fy_closed_at f = None) (_fiscal_years_of l (bu_id top)).
Definition _resolve_fiscal_year (l : Ledger) (today : pydate) (node : Budget) (fiscal_year_id : option string)
    : bres string :=
  top ← _top_level l node;
  match fiscal_year_id with
  | Some id =>
      fy ← _get_fiscal_year l id;
      _ ← raise_if (negb (bool_decide (fy_budget_id fy = bu_id top))) (invalid "wrong top-level budget");
      _ ← _refuse_closed fy;
      Ok (fy_id fy)
  | None => get_or (pick_fiscal_year (candidate_years l top) today) (invalid "ambiguous or missing")
  end.

(** ** Cost centers *)
Record BudgetNodeCreate := MkNodeCreate {
  nc_key : string;
  nc_name : string;
  nc_parent_id : option string;
  nc_gremium_id : option string;
  nc_decision_gremium_id : option string;
  nc_active : bool;
  nc_color : option string;
  nc_fiscal_start_month : Z;
  nc_fiscal_start_day : Z
}.
Definition _check_decision_gremium (l : Ledger) (g : option string) : bres () :=
  match g with
  | Some g => raise_if (negb (bool_decide (g ∈ gremien (conf (flow l))))) (invalid "decision_gremium_invalid")
  | None => Ok ()
  end.
Definition _sibling_exists (l : Ledger) (parent : option string) (key : string) : bool :=
  existsb (λ b, bool_decide (bu_parent_id b = parent) && bool_decide (bu_key b = key)) (nodes l).
Definition get_opt_node (l : Ledger) (id : option string) : bres (option Budget) :=
  match id with Some i => n ← _get_node l i; Ok (Some n) | None => Ok None end.
Definition create_node (l : Ledger) (actor : option string) (payload : BudgetNodeCreate) (id : string) : bres Ledger :=
  _ ← raise_if (negb (is_valid_key (nc_key payload))) (invalid "must be alphanumeric (no '-')");
  parent ← get_opt_node l (nc_parent_id payload);
  _ ← match parent, nc_gremium_id payload with
      | None, Some g => raise_if (negb (bool_decide (g ∈ gremien (conf (flow l))))) not_found
      | _, _ => Ok ()
      end;
  let gremium_id := match parent with Some p => bu_gremium_id p | None => nc_gremium_id payload end in
  _ ← raise_if (_sibling_exists l (nc_parent_id payload) (nc_key payload)) (conflict "budget_key_exists");
  _ ← _check_decision_gremium l (nc_decision_gremium_id payload);
  let node := MkBudget id (nc_parent_id payload) gremium_id (nc_key payload)
                (compose_path_key (bu_path_key <$> parent) (nc_key payload)) (nc_name payload) (nc_active payload)
                (nc_color payload) [] [] false None (nc_decision_gremium_id payload)
                (nc_fiscal_start_month payload) (nc_fiscal_start_day payload) in
  Ok (_audit actor "budget_node_create" "budget" id
        [("pathKey", PStr (bu_path_key node)); ("gremiumId", str_or_none gremium_id);
         ("decisionGremiumId", str_or_none (nc_decision_gremium_id payload))]
        (with_nodes (nodes l ++ [node]) l)).

(** The fields of a [BudgetNodeUpdate] that the request sets; [None] is a NULL in a column that
    refuses it. *)
Definition text_list (v : pyval) : option (list string) :=
  match v with
  | PList l => Some (omap (λ x, match x with PStr s => Some s | _ => None end) l)
  | _ => None
  end.
Definition opt_text (v : pyval) : option (option string) :=
  match v with PStr s => Some (Some s) | PNone => Some None | _ => None end.
Definition node_getattr (b : Budget) (field : string) : pyval :=
  match field with
  | "key" => PStr (bu_key b)
  | "name" => PStr (bu_name b)
  | "active" => PBool (bu_active b)
  | "color" => str_or_none (bu_color b)
  | "accepted_state_keys" => PList (PStr <$> bu_accepted_state_keys b)
  | "denied_state_keys" => PList (PStr <$> bu_denied_state_keys b)
  | "hidden_in_budget" => PBool (bu_hidden_in_budget b)
  | "view_gremium_id" => str_or_none (bu_view_gremium_id b)
  | "decision_gremium_id" => str_or_none (bu_decision_gremium_id b)
  | "fiscal_start_month" => PInt (bu_fiscal_start_month b)
  | "fiscal_start_day" => PInt (bu_fiscal_start_day b)
  | _ => PNone
  end.
Definition node_setattr (b : Budget) (field : string) (v : pyval) : option Budget :=
  let '(MkBudget i p g k pk nm ac co acc den hid vg dg mo da) := b in
  let named n := bool_decide (field = n) in
  if named "name" then match v with PStr s => Some (MkBudget i p g k pk s ac co acc den hid vg dg mo da) | _ => None end
  else if named "active" then match v with PBool x => Some (MkBudget i p g k pk nm x co acc den hid vg dg mo da) | _ => None end
  else if named "color" then c ← opt_text v; Some (MkBudget i p g k pk nm ac c acc den hid vg dg mo da)
  else if named "accepted_state_keys" then x ← text_list v; Some (MkBudget i p g k pk nm ac co x den hid vg dg mo da)
  else if named "denied_state_keys" then x ← text_list v; Some (MkBudget i p g k pk nm ac co acc x hid vg dg mo da)
  else if named "hidden_in_budget" then
    match v with PBool x => Some (MkBudget i p g k pk nm ac co acc den x vg dg mo da) | _ => None end
  else if named "view_gremium_id" then x ← opt_text v; Some (MkBudget i p g k pk nm ac co acc den hid x dg mo da)
  else if named "decision_gremium_id" then x ← opt_text v; Some (MkBudget i p g k pk nm ac co acc den hid vg x mo da)
  else if named "fiscal_start_month" then
    match v with PInt x => Some (MkBudget i p g k pk nm ac co acc den hid vg dg x da) | _ => None end
  else if named "fiscal_start_day" then
    match v with PInt x => Some (MkBudget i p g k pk nm ac co acc den hid vg dg mo x) | _ => None end
  else None.
Fixpoint node_setattrs (b : Budget) (fields : list (string * pyval)) : option Budget :=
  match fields with
  | [] => Some b
  | (f, v) :: r => b ← node_setattr b f v; node_setattrs b r
  end.
Definition set_path (path : string) (b : Budget) : Budget :=
  let '(MkBudget i p g k _ nm ac co acc den hid vg dg mo da) := b in
  MkBudget i p g k path nm ac co acc den hid vg dg mo da.
Definition set_key (key : string) (b : Budget) : Budget :=
  let '(MkBudget i p g _ pk nm ac co acc den hid vg dg mo da) := b in
  MkBudget i p g key pk nm ac co acc den hid vg dg mo da.
(** [new_path + path[len(old_path):]]. *)
Definition moved_path (old_path new_path path : string) : string :=
  new_path +:+ of_chars (drop (length (chars old_path)) (chars path)).
Definition _rename_key (l : Ledger) (node : Budget) (new_key : string) : bres Ledger :=
  _ ← raise_if (negb (is_valid_key new_key)) (invalid "must be alphanumeric (no '-')");
  _ ← raise_if (_sibling_exists l (bu_parent_id node) new_key) (conflict "budget_key_exists");
  parent ← get_opt_node l (bu_parent_id node);
  let old_path := bu_path_key node in
  let new_path := compose_path_key (bu_path_key <$> parent) new_key in
  Ok (with_nodes ((λ b, if bool_decide (bu_id b = bu_id node) then set_path new_path (set_key new_key b)
                        else if is_descendant_path old_path (bu_path_key b)
                             then set_path (moved_path old_path new_path (bu_path_key b)) b else b) <$> nodes l) l).
Definition set_bounds (bounds : pydate * pydate) (f : FiscalYear) : FiscalYear :=
  MkFiscalYear (fy_id f) (fy_budget_id f) (fy_year f) bounds.1 bounds.2 (fy_active f) (fy_closed_at f).
(** The years of a top-level budget follow its new cutoff. *)
Definition move_bounds (node : Budget) (y : list FiscalYear) : bres (list FiscalYear) :=
  map_res (λ f, if bool_decide (fy_budget_id f = bu_id node)
                then b ← _fiscal_year_bounds (fy_year f) (bu_fiscal_start_month node) (bu_fiscal_start_day node);
                     Ok (set_bounds b f)
                else Ok f) y.
Definition update_node (l : Ledger) (actor : option string) (budget_id : string) (dumped : list (string * pyval))
    : bres Ledger :=
  node ← _get_node l budget_id;
  let new_key := match dict_get "key" dumped with Some (PStr k) => Some k | _ => None end in
  let provided := filter (λ kv, kv.1 ≠ "key") dumped in
  _ ← match dict_get "decision_gremium_id" provided with
      | Some v => match opt_text v with Some g => _check_decision_gremium l g | None => Err database end
      | None => Ok ()
      end;
  node' ← get_or (node_setattrs node provided) database;
  let stichtag_changed := negb (bool_decide (bu_fiscal_start_month node' = bu_fiscal_start_month node)) ||
                          negb (bool_decide (bu_fiscal_start_day node' = bu_fiscal_start_day node)) in
  let l1 := with_nodes (update_row bu_id budget_id (λ _, node') (nodes l)) l in
  l2 ← match new_key with
       | Some k => if bool_decide (k = bu_key node) then Ok l1 else _rename_key l1 node' k
       | None => Ok l1
       end;
  l3 ← (if stichtag_changed && negb (bool_decide (is_Some (bu_parent_id node)))
        then y ← move_bounds node' (years l2); Ok (with_years y l2) else Ok l2);
  let fields := fst <$> provided in
  let before := (fst <$> provided) ++ (if bool_decide (is_Some new_key) then ["key"] else []) in
  after ← _get_node l3 budget_id;
  Ok (_audit actor "budget_node_update" "budget" budget_id
        [("fields", PList (PStr <$> sort_by str_leb fields)); ("keyProvided", PBool (bool_decide (is_Some new_key)));
         ("before", PDict ((λ f, (f, _json_safe (node_getattr node f))) <$> before));
         ("after", PDict ((λ f, (f, _json_safe (node_getattr after f))) <$> before))] l3).
(** [DELETE FROM budget WHERE id = ...] and its cascades. *)
Definition delete_budget_row (l : Ledger) (id : string) : bres Ledger :=
  let gone := fy_id <$> filter (λ f, fy_budget_id f = id) (years l) in
  _ ← raise_if (existsb (λ a, match ap_fiscal_year_id a with Some y => bool_decide (y ∈ gone) | None => false end)
                  (snd <$> map_to_list (apps l))) database;
  Ok (MkLedger (flow l) (filter (λ b, bu_id b ≠ id) (nodes l)) (filter (λ f, fy_budget_id f ≠ id) (years l))
        (filter (λ a, al_budget_id a ≠ id ∧ al_fiscal_year_id a ∉ gone) (allocs l))
        (filter (λ b, bk_budget_id b ≠ id ∧ bk_fiscal_year_id b ∉ gone) (bookings l)) (invoices l)).
Definition delete_node (l : Ledger) (actor : option string) (budget_id : string) : bres Ledger :=
  node ← _get_node l budget_id;
  _ ← raise_if (existsb (λ b, bool_decide (bu_parent_id b = Some budget_id)) (nodes l)) (conflict "budget_has_children");
  _ ← raise_if (existsb (λ b, bool_decide (bk_budget_id b = budget_id)) (bookings l)) (conflict "budget_has_bookings");
  _ ← raise_if (existsb (λ a, bool_decide (ap_budget_id a = Some budget_id)) (snd <$> map_to_list (apps l)))
        (conflict "budget_has_applications");
  l' ← delete_budget_row l budget_id;
  Ok (_audit actor "budget_node_delete" "budget" budget_id [("pathKey", PStr (bu_path_key node))] l').

(** ** Fiscal years *)
Definition _require_top_level (l : Ledger) (budget_id : string) : bres Budget :=
  node ← _get_node l budget_id;
  _ ← raise_if (bool_decide (is_Some (bu_parent_id node))) (invalid "not a top-level budget");
  Ok node.
(** [_root_of]; [None] is a parent chain longer than the fuel. *)
Fixpoint _root_of (fuel : nat) (l : Ledger) (node : Budget) : option (bres Budget) :=
  match fuel with
  | O => None
  | S k =>
      match bu_parent_id node with
      | None => Some (Ok node)
      | Some p => match _get_node l p with Ok n => _root_of k l n | Err e => Some (Err e) end
      end
  end.
Definition list_fiscal_years (l : Ledger) (budget_id : string) : option (bres (list FiscalYear)) :=
  match _get_node l budget_id with
  | Ok node => top ← _root_of (S (length (nodes l))) l node;
               Some (match top with Ok t => Ok (_fiscal_years_of l (bu_id t)) | Err e => Err e end)
  | Err e => Some (Err e)
  end.
Definition create_fiscal_year (l : Ledger) (budget_id : string) (year : Z) (active : bool) (id : string) : bres Ledger :=
  top ← _require_top_level l budget_id;
  bounds ← _fiscal_year_bounds year (bu_fiscal_start_month top) (bu_fiscal_start_day top);
  _ ← raise_if (existsb (λ f, fy_year f =? year) (_fiscal_years_of l budget_id)) (invalid "fiscal year already exists");
  Ok (with_years (years l ++ [MkFiscalYear id budget_id year bounds.1 bounds.2 active None]) l).
Definition set_year (year : option (Z * (pydate * pydate))) (active : option bool) (f : FiscalYear) : FiscalYear :=
  let a := default (fy_active f) active in
  match year with
  | Some (y, b) => MkFiscalYear (fy_id f) (fy_budget_id f) y b.1 b.2 a (fy_closed_at f)
  | None => MkFiscalYear (fy_id f) (fy_budget_id f) (fy_year f) (fy_start_date f) (fy_end_date f) a (fy_closed_at f)
  end.
(** [year] and [active] are the fields that the request sets to a value. *)
Definition update_fiscal_year (l : Ledger) (budget_id fiscal_year_id : string) (year : option Z) (active : option bool)
    : bres Ledger :=
  top ← _require_top_level l budget_id;
  fy ← _get_fiscal_year l fiscal_year_id;
  let new_year := default (fy_year fy) year in
  let moved := negb (new_year =? fy_year fy) in
  _ ← (if moved then _refuse_closed fy else Ok ());
  _ ← raise_if (moved && existsb (λ f, (fy_year f =? new_year) && negb (bool_decide (fy_id f = fiscal_year_id)))
                           (_fiscal_years_of l budget_id)) (invalid "fiscal year already exists");
  bounds ← match year with
           | Some _ => b ← _fiscal_year_bounds new_year (bu_fiscal_start_month top) (bu_fiscal_start_day top);
                       Ok (Some (new_year, b))
           | None => Ok None
           end;
  _ ← raise_if (moved && existsb (λ f, (fy_year f =? new_year) && bool_decide (fy_budget_id f = fy_budget_id fy) &&
                                       negb (bool_decide (fy_id f = fiscal_year_id))) (years l)) database;
  Ok (with_years (update_row fy_id fiscal_year_id (set_year bounds active) (years l)) l).
Definition _own_fiscal_year (l : Ledger) (top : Budget) (fiscal_year_id : string) : bres FiscalYear :=
  fy ← _get_fiscal_year l fiscal_year_id;
  _ ← raise_if (negb (bool_decide (fy_budget_id fy = bu_id top))) not_found;
  Ok fy.
Definition in_use (l : Ledger) (fiscal_year_id : string) : option string :=
  fiscal_year_delete_blocker
    (existsb (λ b, bool_decide (bk_fiscal_year_id b = fiscal_year_id)) (bookings l))
    (existsb (λ a, bool_decide (al_fiscal_year_id a = fiscal_year_id)) (allocs l))
    (existsb (λ a, bool_decide (ap_fiscal_year_id a = Some fiscal_year_id)) (snd <$> map_to_list (apps l))).
Definition delete_fiscal_year (l : Ledger) (actor : option string) (budget_id fiscal_year_id : string) : bres Ledger :=
  top ← _require_top_level l budget_id;
  fy ← _own_fiscal_year l top fiscal_year_id;
  _ ← _refuse_closed fy;
  _ ← raise_if (bool_decide (is_Some (in_use l fiscal_year_id))) (conflict "fiscal_year_in_use");
  Ok (_audit actor "budget_fiscal_year_delete" "fiscal_year" fiscal_year_id
        [("budgetId", PStr (bu_id top)); ("year", PInt (fy_year fy))]
        (with_years (filter (λ f, fy_id f ≠ fiscal_year_id) (years l)) l)).
Definition set_closed (at_ : option Z) (f : FiscalYear) : FiscalYear :=
  MkFiscalYear (fy_id f) (fy_budget_id f) (fy_year f) (fy_start_date f) (fy_end_date f) (fy_active f) at_.
Definition set_fiscal_year_closed (l : Ledger) (actor : option string) (budget_id fiscal_year_id : string)
    (closed : bool) (now : Z) : bres Ledger :=
  top ← _require_top_level l budget_id;
  fy ← _own_fiscal_year l top fiscal_year_id;
  if bool_decide (closed = is_closed fy) then Ok l
  else Ok (_audit actor (if closed then "budget_fiscal_year_close" else "budget_fiscal_year_reopen") "fiscal_year"
             (fy_id fy) [("budgetId", PStr (bu_id top)); ("year", PInt (fy_year fy))]
             (with_years (update_row fy_id fiscal_year_id (set_closed (if closed then Some now else None)) (years l)) l)).

(** ** Allocations *)
Definition alloc_key (a : BudgetAllocation) : string * string := (al_budget_id a, al_fiscal_year_id a).
Definition _allocation (l : Ledger) (budget_id fiscal_year_id : string) : option BudgetAllocation :=
  head (filter (λ a, alloc_key a = (budget_id, fiscal_year_id)) (allocs l)).
Definition _children_alloc_sum (l : Ledger) (parent_id fiscal_year_id : string) (exclude : option string) : Z :=
  let children := filter (λ b, bu_parent_id b = Some parent_id ∧ exclude ≠ Some (bu_id b)) (nodes l) in
  zsum ((λ b, zsum (al_allocated <$> filter (λ a, alloc_key a = (bu_id b, fiscal_year_id)) (allocs l))) <$> children).
Definition put_allocation (l : Ledger) (budget_id fiscal_year_id : string) (allocated : Z) : Ledger :=
  let row := MkAllocation budget_id fiscal_year_id allocated in
  with_allocs (match _allocation l budget_id fiscal_year_id with
               | Some _ => (λ a, if bool_decide (alloc_key a = (budget_id, fiscal_year_id)) then row else a) <$> allocs l
               | None => allocs l ++ [row]
               end) l.
Definition amount_text (cents : Z) : pyval := PStr (decimal_str (dec_money cents)).
(** The row locks of the node and of its parent make the read of the sums and the write one step. *)
Definition set_allocation (l : Ledger) (actor : option string) (budget_id fiscal_year_id : string) (allocated : Z)
    : bres Ledger :=
  node ← _get_node l budget_id;
  fy ← _get_fiscal_year l fiscal_year_id;
  top ← _top_level l node;
  _ ← raise_if (negb (bool_decide (fy_budget_id fy = bu_id top))) (invalid "wrong top-level budget");
  _ ← _refuse_closed fy;
  _ ← match bu_parent_id node with
      | Some p =>
          raise_if (children_allocation_exceeds_parent (al_allocated <$> _allocation l p fiscal_year_id)
                      (_children_alloc_sum l p fiscal_year_id (Some (bu_id node))) allocated)
            (invalid "exceeds parent budget")
      | None => Ok ()
      end;
  _ ← raise_if (parent_allocation_below_children allocated (_children_alloc_sum l (bu_id node) fiscal_year_id None))
        (invalid "below children allocations");
  let previous := al_allocated <$> _allocation l budget_id fiscal_year_id in
  Ok (_audit actor "budget_allocation_set" "budget_allocation" budget_id
        [("fiscalYearId", PStr fiscal_year_id); ("allocated", amount_text allocated);
         ("previousAllocated", match previous with Some p => amount_text p | None => PNone end)]
        (put_allocation l budget_id fiscal_year_id allocated)).

(** ** The cost center of an application *)
Definition set_assignment (budget_id fiscal_year_id : option string) (a : Application) : Application :=
  MkApplication (ap_id a) (ap_type_id a) (ap_form_version_id a) (ap_flow_version_id a) (ap_current_state_id a)
    budget_id fiscal_year_id (ap_gremium_id a) (ap_vote_gremium_id a) (ap_amount a) (ap_approved_amount a)
    (ap_data a) (ap_created_by a) (ap_email_confirmed a).
Definition _get_application (l : Ledger) (id : string) : bres Application := get_or (apps l !! id) not_found.
Definition put_application (a : Application) (l : Ledger) : Ledger :=
  with_flow (update_application (ap_id a) (λ _, a) (flow l)) l.
Definition assign_budget (l : Ledger) (actor : option string) (today : pydate) (application_id : string)
    (budget_id fiscal_year_id : option string) : bres Ledger :=
  app ← _get_application l application_id;
  _ ← raise_if (in_budget_vote_state (flow_db l) app) (conflict "budget_locked_by_vote");
  _ ← _require_open_fiscal_year l (ap_fiscal_year_id app);
  node ← get_opt_node l budget_id;
  fy ← match node with
       | Some n => y ← _resolve_fiscal_year l today n fiscal_year_id; Ok (Some y)
       | None => Ok None
       end;
  let app' := set_assignment (bu_id <$> node) fy app in
  Ok (put_application (fill_snapshot (flow_db l) app')
        (_audit actor "budget_assign" "application" (ap_id app)
           [("budgetId", str_or_none (bu_id <$> node)); ("fiscalYearId", str_or_none fy)] l)).
Definition move_fiscal_year (l : Ledger) (actor : option string) (application_id fiscal_year_id : string) : bres Ledger :=
  app ← _get_application l application_id;
  budget_id ← get_or (ap_budget_id app) (invalid "assign a cost-center first");
  node ← _get_node l budget_id;
  top ← _top_level l node;
  fy ← _get_fiscal_year l fiscal_year_id;
  _ ← raise_if (negb (bool_decide (fy_budget_id fy = bu_id top))) (invalid "wrong top-level budget");
  _ ← _require_open_fiscal_year l (ap_fiscal_year_id app);
  _ ← _refuse_closed fy;
  Ok (put_application (set_assignment (Some budget_id) (Some (fy_id fy)) app)
        (_audit actor "budget_move_fiscal_year" "application" (ap_id app)
           [("budgetId", PStr budget_id); ("fiscalYearId", PStr (fy_id fy))] l)).
(** [_walk_up] of the flow dispatcher; [None] is a chain longer than the fuel. *)
Fixpoint _walk_up (fuel : nat) (l : Ledger) (node : Budget) (seen : list string) : option Budget :=
  match fuel with
  | O => None
  | S k =>
      let parent := match bu_parent_id node with
                    | Some p => if bool_decide (p ∈ seen) then None else find_by bu_id p (nodes l)
                    | None => None
                    end in
      match parent with Some p => _walk_up k l p (bu_id node :: seen) | None => Some node end
  end.
(** [_assign_node]: [None] is a call that changes nothing. *)
Definition _assign_node (l : Ledger) (today : pydate) (app : Application) (budget_id source : string) : option Ledger :=
  node ← find_by bu_id budget_id (nodes l);
  if in_budget_vote_state (flow_db l) app then None
  else if is_ok (_require_open_fiscal_year l (ap_fiscal_year_id app)) then
    if bool_decide (ap_budget_id app = Some (bu_id node)) then None
    else
      top ← _walk_up (S (length (nodes l))) l node [];
      let picked := pick_fiscal_year (candidate_years l top) today in
      let fy := match picked with Some y => Some y | None => ap_fiscal_year_id app end in
      let app' := set_assignment (Some (bu_id node)) fy app in
      Some (put_application (fill_snapshot (flow_db l) app')
              (_audit (Some "system:flow") "budget_assign" "application" (ap_id app)
                 [("budgetId", PStr (bu_id node)); ("fiscalYearId", str_or_none fy); ("source", PStr source)] l))
  else None.
