(* ===== verification/Bookings.v ===== *)
(** Bookings, sub-bookings, transfers and the revert of a budget change from the audit log
    ([budget/tree/expenses.py], [subbookings.py], [transfers.py], [revert.py]).

    A request sets the fields of a patch as pairs of a field and a value.  An amount of a request
    is the number of cents that its column holds; the column refuses an amount that is not
    positive and one above twelve digits. *)

From stdpp Require Import gmap strings.
From S2P Require Import Prelude PyStr PyNum PyValue PyDate FormFields BudgetRules FlowDb Decision Ledger.

(** ** Rows *)
Definition getattr (b : Booking) (field : string) : pyval :=
  if bool_decide (field = "amount") then PDec (dec_money (bk_amount b))
  else if bool_decide (field = "budget_id") then PStr (bk_budget_id b)
  else default PNone (dict_get field (bk_cols b)).
Definition set_amount (a : Z) (b : Booking) : Booking :=
  MkBooking (bk_id b) (bk_budget_id b) (bk_fiscal_year_id b) (bk_application_id b) (bk_transfer_id b) (bk_kind b) a
    (bk_actor b) (bk_parent_expense_id b) (bk_created_at b) (bk_cols b).
Definition set_budget (i : string) (b : Booking) : Booking :=
  MkBooking (bk_id b) i (bk_fiscal_year_id b) (bk_application_id b) (bk_transfer_id b) (bk_kind b) (bk_amount b)
    (bk_actor b) (bk_parent_expense_id b) (bk_created_at b) (bk_cols b).
Definition set_col (field : string) (v : pyval) (b : Booking) : Booking :=
  MkBooking (bk_id b) (bk_budget_id b) (bk_fiscal_year_id b) (bk_application_id b) (bk_transfer_id b) (bk_kind b)
    (bk_amount b) (bk_actor b) (bk_parent_expense_id b) (bk_created_at b) (dict_set field v (bk_cols b)).
(** [CHECK (amount > 0)] and [Numeric(12, 2)]. *)
Definition amount_ok (a : Z) : bool := (0 <? a) && (a <=? 999999999999).
(** [setattr]; [None] is a value that the column refuses. *)
Definition setattr (field : string) (v : pyval) (b : Booking) : option Booking :=
  if bool_decide (field = "amount")
  then match v with PDec d => c ← cents_of d; if amount_ok c then Some (set_amount c b) else None | _ => None end
  else if bool_decide (field = "budget_id") then match v with PStr i => Some (set_budget i b) | _ => None end
  else if bool_decide (field = "description") && match v with PNone => true | _ => false end then None
  else Some (set_col field v b).
Fixpoint setattrs (changes : list (string * pyval)) (b : Booking) : option Booking :=
  match changes with
  | [] => Some b
  | (f, v) :: r => b ← setattr f v b; setattrs r b
  end.
Definition find_booking (l : Ledger) (id : string) : bres Booking := get_or (find_by bk_id id (bookings l)) not_found.
Definition put_booking (id : string) (f : Booking → Booking) (l : Ledger) : Ledger :=
  with_bookings (update_row bk_id id f (bookings l)) l.
(** [DELETE] of the rows with these ids; their sub-bookings cascade. *)
Definition is_gone (ids : list string) (b : Booking) : bool :=
  bool_decide (bk_id b ∈ ids) ||
  match bk_parent_expense_id b with Some p => bool_decide (p ∈ ids) | None => false end.
Definition delete_bookings (ids : list string) (l : Ledger) : Ledger :=
  with_bookings (filter (λ b, is_gone ids b = false) (bookings l)) l.
Definition children (l : Ledger) (parent : string) : list Booking :=
  filter (λ b, bk_parent_expense_id b = Some parent) (bookings l).
Definition _recompute_parent_amount (l : Ledger) (parent_id : string) : bres Ledger :=
  let total := zsum (bk_amount <$> children l parent_id) in
  if 0 <? total then
    _ ← raise_if (negb (amount_ok total) && bool_decide (is_Some (find_by bk_id parent_id (bookings l)))) database;
    Ok (put_booking parent_id (set_amount total) l)
  else Ok l.
Definition _require_invoice (l : Ledger) (v : option pyval) : bres () :=
  match v with
  | Some (PStr i) => raise_if (negb (bool_decide (i ∈ invoices l))) not_found
  | _ => Ok ()
  end.

(** ** Bookings *)
Record ExpenseCreate := MkExpenseCreate {
  ec_amount : Z;
  ec_kind : ExpenseKind;
  ec_budget_id : option string;
  ec_fiscal_year_id : option string;
  ec_application_id : option string;
  ec_cols : list (string * pyval)
}.
Definition kind_text (k : ExpenseKind) : pyval := PStr (match k with income => "income" | expense => "expense" end).
(** [ExpenseCreate._income_not_linkable]. *)
Definition _income_not_linkable (p : ExpenseCreate) : bool :=
  negb (bool_decide (ec_kind p = income) && bool_decide (is_Some (ec_application_id p))).
Definition _bound_target (l : Ledger) (application_id : string) : bres (Budget * string) :=
  app ← _get_application l application_id;
  match ap_budget_id app, ap_fiscal_year_id app with
  | Some b, Some y =>
      node ← _get_node l b;
      _ ← _require_open_fiscal_year l (Some y);
      Ok (node, y)
  | _, _ => Err (invalid "no budget assigned")
  end.
Definition _standalone_target (l : Ledger) (today : pydate) (p : ExpenseCreate) : bres (Budget * string) :=
  b ← get_or (ec_budget_id p) (invalid "required");
  node ← _get_node l b;
  y ← _resolve_fiscal_year l today node (ec_fiscal_year_id p);
  Ok (node, y).
Definition book_expense (l : Ledger) (today : pydate) (p : ExpenseCreate) (actor : string) (id : string) (now : Z)
    : bres Ledger :=
  target ← match ec_application_id p with
           | Some a => _bound_target l a
           | None => _standalone_target l today p
           end;
  let row := MkBooking id (bu_id target.1) target.2 (ec_application_id p) None (ec_kind p) (ec_amount p) (Some actor)
               None now (ec_cols p) in
  _ ← _require_invoice l (dict_get "invoice_id" (ec_cols p));
  _ ← raise_if (negb (amount_ok (ec_amount p))) database;
  Ok (_audit (Some actor) "budget_expense_create" "budget_expense" id
        [("budgetId", PStr (bu_id target.1)); ("fiscalYearId", PStr target.2); ("kind", kind_text (ec_kind p));
         ("amount", amount_text (ec_amount p)); ("applicationId", str_or_none (ec_application_id p))]
        (with_bookings (bookings l ++ [row]) l)).
Definition create_expense (l : Ledger) (today : pydate) (budget_id : string) (p : ExpenseCreate) (actor id : string)
    (now : Z) : bres Ledger :=
  book_expense l today (MkExpenseCreate (ec_amount p) (ec_kind p) (Some budget_id) (ec_fiscal_year_id p)
                          (ec_application_id p) (ec_cols p)) actor id now.
(** The columns that a patch writes. *)
Definition optional_fields : list string :=
  ["invoice_date"; "payment_date"; "correspondent"; "note"; "reference_number"; "payment_method"; "category"; "invoice_id"].
Definition unless_none (field : string) (fields : list (string * pyval)) : list (string * pyval) :=
  match dict_get field fields with Some PNone | None => [] | Some v => [(field, v)] end.
Definition _expense_changes (fields : list (string * pyval)) (target : option Budget) : list (string * pyval) :=
  unless_none "amount" fields ++ unless_none "description" fields ++
  match target with Some t => [("budget_id", PStr (bu_id t))] | None => [] end ++
  omap (λ f, v ← dict_get f fields; Some (f, v)) optional_fields.
Definition update_expense (l : Ledger) (actor : option string) (today : pydate) (expense_id : string)
    (fields : list (string * pyval)) : bres Ledger :=
  e ← find_booking l expense_id;
  _ ← _require_open_fiscal_year l (Some (bk_fiscal_year_id e));
  let sets_amount := negb (bool_decide (unless_none "amount" fields = [])) in
  _ ← raise_if (sets_amount && negb (bool_decide (children l expense_id = [])))
        (invalid "subbooking_parent_amount_readonly");
  _ ← raise_if (bool_decide (is_Some (bk_parent_expense_id e)) && dict_mem "budget_id" fields)
        (invalid "subbooking_inherited_field");
  target ← match dict_get "budget_id" fields with
           | Some (PStr b) =>
               node ← _get_node l b;
               _ ← _resolve_fiscal_year l today node (Some (bk_fiscal_year_id e));
               Ok (Some node)
           | _ => Ok None
           end;
  e' ← get_or (setattrs (_expense_changes fields target) e) database;
  _ ← _require_invoice l (dict_get "invoice_id" fields);
  let l1 := _audit actor "budget_expense_update" "budget_expense" expense_id
              [("fields", PList (PStr <$> sort_by str_leb (fst <$> fields))); ("amount", amount_text (bk_amount e'));
               ("before", PDict ((λ f, (f, _json_safe (getattr e f))) <$> (fst <$> fields)));
               ("after", PDict ((λ f, (f, _json_safe (getattr e' f))) <$> (fst <$> fields)))]
              (put_booking expense_id (λ _, e') l) in
  match bk_parent_expense_id e with
  | Some p => if dict_mem "amount" fields then _recompute_parent_amount l1 p else Ok l1
  | None => Ok l1
  end.
Definition transfer_rows (l : Ledger) (transfer_id : string) : list Booking :=
  filter (λ b, bk_transfer_id b = Some transfer_id) (bookings l).
Definition delete_expense (l : Ledger) (actor : option string) (expense_id : string) : bres Ledger :=
  e ← find_booking l expense_id;
  _ ← _require_open_fiscal_year l (Some (bk_fiscal_year_id e));
  let ids := match bk_transfer_id e with
             | Some t => bk_id <$> transfer_rows l t
             | None => [expense_id]
             end in
  let l1 := _audit actor "budget_expense_delete" "budget_expense" expense_id
              [("budgetId", PStr (bk_budget_id e)); ("kind", kind_text (bk_kind e)); ("amount", amount_text (bk_amount e));
               ("priorActor", str_or_none (bk_actor e)); ("transferId", str_or_none (bk_transfer_id e))]
              (delete_bookings ids l) in
  match bk_parent_expense_id e with Some p => _recompute_parent_amount l1 p | None => Ok l1 end.

(** ** Sub-bookings *)
Definition list_sub_expenses (l : Ledger) (parent_id : string) : bres (list Booking) :=
  _ ← find_booking l parent_id;
  Ok (sort_by (λ a b, bk_created_at a <=? bk_created_at b) (children l parent_id)).
Definition _subbooking_parent_or_error (l : Ledger) (parent_id : string) : bres Booking :=
  parent ← find_booking l parent_id;
  _ ← raise_if (bool_decide (is_Some (bk_parent_expense_id parent))) (invalid "subbooking_nested");
  _ ← raise_if (bool_decide (is_Some (bk_transfer_id parent))) (invalid "subbooking_on_transfer");
  Ok parent.
Definition create_sub_booking (l : Ledger) (parent_id : string) (amount : Z) (cols : list (string * pyval))
    (actor id : string) (now : Z) : bres Ledger :=
  parent ← _subbooking_parent_or_error l parent_id;
  _ ← _require_open_fiscal_year l (Some (bk_fiscal_year_id parent));
  let child := MkBooking id (bk_budget_id parent) (bk_fiscal_year_id parent) None None (bk_kind parent) amount
                 (Some actor) (Some parent_id) now cols in
  _ ← raise_if (negb (amount_ok amount)) database;
  l1 ← _recompute_parent_amount (with_bookings (bookings l ++ [child]) l) parent_id;
  Ok (_audit (Some actor) "budget_expense_create" "budget_expense" id
        [("parentExpenseId", PStr parent_id); ("amount", amount_text amount)] l1).

(** ** Transfers *)
Record TransferCreate := MkTransferCreate {
  tc_from_budget_id : string;
  tc_to_budget_id : string;
  tc_fiscal_year_id : string;
  tc_amount : Z;
  tc_description : string
}.
Definition _distinct (p : TransferCreate) : bool :=
  negb (bool_decide (tc_from_budget_id p = tc_to_budget_id p)).
Definition create_transfer (l : Ledger) (today : pydate) (p : TransferCreate) (actor transfer_id out_id in_id : string)
    (now : Z) : bres Ledger :=
  src ← _get_node l (tc_from_budget_id p);
  dst ← _get_node l (tc_to_budget_id p);
  fy_src ← _resolve_fiscal_year l today src (Some (tc_fiscal_year_id p));
  fy_dst ← _resolve_fiscal_year l today dst (Some (tc_fiscal_year_id p));
  _ ← raise_if (negb (bool_decide (fy_src = fy_dst))) (invalid "must match for both");
  _ ← raise_if (negb (amount_ok (tc_amount p))) database;
  let leg id node y kind := MkBooking id (bu_id node) y None (Some transfer_id) kind (tc_amount p) (Some actor) None now
                              [("description", PStr (tc_description p))] in
  Ok (_audit (Some actor) "budget_transfer_create" "budget_transfer" transfer_id
        [("fromBudgetId", PStr (bu_id src)); ("toBudgetId", PStr (bu_id dst)); ("fiscalYearId", PStr fy_src);
         ("amount", amount_text (tc_amount p))]
        (with_bookings (bookings l ++ [leg out_id src fy_src expense; leg in_id dst fy_dst income]) l)).
Definition _legs (l : Ledger) (transfer_id : string) : bres (Booking * Booking) :=
  let rows := transfer_rows l transfer_id in
  match head (filter (λ r, bk_kind r = expense) rows), head (filter (λ r, bk_kind r = income) rows) with
  | Some out, Some inc => Ok (out, inc)
  | _, _ => Err not_found
  end.
Definition _PATCHABLE : list string := ["amount"; "description"; "note"; "invoice_date"; "payment_date"].
Definition opt_str_field (v : option pyval) : option string := match v with Some (PStr s) => Some s | _ => None end.
Definition update_transfer (l : Ledger) (actor : option string) (transfer_id : string) (fields : list (string * pyval))
    : bres Ledger :=
  legs ← _legs l transfer_id;
  let out := legs.1 in let inc := legs.2 in
  _ ← _require_open_fiscal_year l (Some (bk_fiscal_year_id out));
  _ ← raise_if (transfer_pair_changed (bk_budget_id out) (bk_budget_id inc)
                  (opt_str_field (dict_get "from_budget_id" fields)) (opt_str_field (dict_get "to_budget_id" fields)))
        (conflict "transfer_cost_centres_immutable");
  let changes := omap (λ f, v ← dict_get f fields; Some (f, v)) _PATCHABLE in
  out' ← get_or (setattrs changes out) database;
  inc' ← get_or (setattrs changes inc) database;
  Ok (_audit actor "budget_expense_update" "budget_transfer" transfer_id
        [("fields", PList (PStr <$> sort_by str_leb (fst <$> changes)));
         ("expenseId", PStr (bk_id out)); ("incomeId", PStr (bk_id inc));
         ("prior", PDict ((λ f, (f, _json_safe (getattr out f))) <$> (fst <$> changes)));
         ("current", PDict ((λ f, (f, _json_safe (getattr out' f))) <$> (fst <$> changes)))]
        (put_booking (bk_id inc) (λ _, inc') (put_booking (bk_id out) (λ _, out') l))).
Definition delete_transfer (l : Ledger) (actor : option string) (transfer_id : string) : bres Ledger :=
  legs ← _legs l transfer_id;
  _ ← _require_open_fiscal_year l (Some (bk_fiscal_year_id legs.1));
  Ok (_audit actor "budget_expense_delete" "budget_transfer" transfer_id
        [("fromBudgetId", PStr (bk_budget_id legs.1)); ("toBudgetId", PStr (bk_budget_id legs.2));
         ("fiscalYearId", PStr (bk_fiscal_year_id legs.1)); ("amount", amount_text (bk_amount legs.1));
         ("priorActor", str_or_none (bk_actor legs.1))]
        (delete_bookings [bk_id legs.1; bk_id legs.2] l)).

(** ** Reverts *)
(** An entry of the audit log, with its id. *)
Record LogEntry := MkLogEntry { le_id : Z; le_action : string; le_target_id : string; le_data : list (string * pyval) }.
Definition data_dict (k : string) (data : list (string * pyval)) : option (list (string * pyval)) :=
  match dict_get k data with Some (PDict ((kv :: r) as d)) => Some d | _ => None end.
Definition _revert_expense_create (l : Ledger) (actor : option string) (expense_id : string) (entry : Z) : bres Ledger :=
  e ← get_or (find_by bk_id expense_id (bookings l)) (conflict "already_reverted");
  _ ← _require_open_fiscal_year l (Some (bk_fiscal_year_id e));
  Ok (_audit actor "budget_expense_delete" "budget_expense" expense_id
        [("budgetId", PStr (bk_budget_id e)); ("kind", kind_text (bk_kind e)); ("amount", amount_text (bk_amount e));
         ("reverted", PBool true); ("revertedAuditId", PInt entry)] (delete_bookings [expense_id] l)).
Definition _revert_transfer_create (l : Ledger) (actor : option string) (transfer_id : string) (entry : Z) : bres Ledger :=
  first ← get_or (head (transfer_rows l transfer_id)) (conflict "already_reverted");
  _ ← _require_open_fiscal_year l (Some (bk_fiscal_year_id first));
  Ok (_audit actor "budget_expense_delete" "budget_transfer" transfer_id
        [("amount", amount_text (bk_amount first)); ("reverted", PBool true); ("revertedAuditId", PInt entry)]
        (delete_bookings (bk_id <$> transfer_rows l transfer_id) l)).
Definition _revert_node_create (l : Ledger) (actor : option string) (budget_id : string) : bres Ledger :=
  _ ← get_or (find_by bu_id budget_id (nodes l)) (conflict "already_reverted");
  delete_node l actor budget_id.
(** Two texts match as they are, or as decimal numbers. *)
Definition _value_matches (current expected : pyval) : bool :=
  py_eqb current expected ||
  match decimal_of_str (py_str current), decimal_of_str (py_str expected) with
  | Some a, Some b => match dec_eq a b with Ok r => r | Err _ => false end
  | _, _ => false
  end.
Definition _assert_not_stale (attr : string → pyval) (after : option pyval) : bres () :=
  match after with
  | Some (PDict d) =>
      raise_if (existsb (λ kv, negb (_value_matches (_json_safe (attr kv.1)) kv.2)) d) (conflict "stale_revert")
  | _ => Ok ()
  end.
Definition _revert_allocation_set (l : Ledger) (actor : option string) (budget_id : string)
    (data : list (string * pyval)) (entry : Z) : bres Ledger :=
  fiscal_year_id ← match dict_get "fiscalYearId" data with
                   | Some (PStr y) => if bool_decide (y = "") then Err (conflict "not_revertable") else Ok y
                   | _ => Err (conflict "not_revertable")
                   end;
  cur ← get_or (_allocation l budget_id fiscal_year_id) (conflict "stale_revert");
  set_value ← match dict_get "allocated" data with
              | Some (PStr t) => get_or (decimal_of_str t) (raised InvalidOperation)
              | _ => Err (conflict "stale_revert")
              end;
  _ ← raise_if (negb (bool_decide (dec_compare (dec_money (al_allocated cur)) set_value = Eq))) (conflict "stale_revert");
  match dict_get "previousAllocated" data with
  | None | Some PNone =>
      Ok (_audit actor "budget_allocation_set" "budget_allocation" budget_id
            [("fiscalYearId", PStr fiscal_year_id); ("allocated", PNone); ("reverted", PBool true);
             ("revertedAuditId", PInt entry)]
            (with_allocs (filter (λ a, alloc_key a ≠ (budget_id, fiscal_year_id)) (allocs l)) l))
  | Some previous =>
      d ← get_or (decimal_of_str (py_str previous)) (raised InvalidOperation);
      c ← get_or (cents_of d) (raised ValueError);
      _ ← raise_if (negb ((0 <=? c) && (c <=? 999999999999))) (raised ValueError);
      set_allocation l actor budget_id fiscal_year_id c
  end.

(** [BudgetNodeUpdate] and [ExpenseUpdate] turn the recorded texts back into typed fields; [None]
    is the error of their validation. *)
Section Revert.
Context (BudgetNodeUpdate ExpenseUpdate : list (string * pyval) → option (list (string * pyval))).
Definition _revert_node_update (l : Ledger) (actor : option string) (budget_id : string)
    (data : list (string * pyval)) : bres Ledger :=
  before ← get_or (data_dict "before" data) (conflict "not_revertable");
  node ← get_or (find_by bu_id budget_id (nodes l)) (conflict "already_reverted");
  _ ← _assert_not_stale (node_getattr node) (dict_get "after" data);
  fields ← get_or (BudgetNodeUpdate before) (raised ValueError);
  update_node l actor budget_id fields.
Definition _revert_expense_update (l : Ledger) (actor : option string) (today : pydate) (expense_id : string)
    (data : list (string * pyval)) : bres Ledger :=
  before ← get_or (data_dict "before" data) (conflict "not_revertable");
  e ← get_or (find_by bk_id expense_id (bookings l)) (conflict "already_reverted");
  _ ← _assert_not_stale (getattr e) (dict_get "after" data);
  fields ← get_or (ExpenseUpdate before) (raised ValueError);
  update_expense l actor today expense_id fields.
Definition revert_audit (l : Ledger) (actor : string) (today : pydate) (e : LogEntry) : bres Ledger :=
  let who := Some actor in
  let is_action n := bool_decide (le_action e = n) in
  if is_action "budget_expense_create" then _revert_expense_create l who (le_target_id e) (le_id e)
  else if is_action "budget_transfer_create" then _revert_transfer_create l who (le_target_id e) (le_id e)
  else if is_action "budget_node_create" then _revert_node_create l who (le_target_id e)
  else if is_action "budget_node_update" then _revert_node_update l who (le_target_id e) (le_data e)
  else if is_action "budget_allocation_set" then
    _revert_allocation_set l who (le_target_id e) (le_data e) (le_id e)
  else if is_action "budget_expense_update" then
    _revert_expense_update l who today (le_target_id e) (le_data e)
  else Err (conflict "not_revertable").
End Revert.
