(* ===== verification/LedgerFacts.v ===== *)
(** The invariant of the tree of cost centers: every path is the list of the keys from the root,
    no two cost centers share one, and the operations keep it, the rename of a key included. *)

From stdpp Require Import gmap strings.
From S2P Require Import Prelude PyStr PyNum PyValue PyDate BudgetRules BudgetFacts FlowDb Decision Ledger.

(** ** Chains *)
Section Chains.
Context (n : list Budget).
(** The keys on the way from the root [t] to a node. *)
Inductive chain : string → string → list string → Prop :=
| chain_top b : b ∈ n → bu_parent_id b = None → chain (bu_id b) (bu_id b) [bu_key b]
| chain_child b p t ks :
    b ∈ n → bu_parent_id b = Some p → chain p t ks → chain (bu_id b) t (ks ++ [bu_key b]).
(** The root above a node, by the parent links alone. *)
Inductive root_of : string → string → Prop :=
| root_top b : b ∈ n → bu_parent_id b = None → root_of (bu_id b) (bu_id b)
| root_child b p t : b ∈ n → bu_parent_id b = Some p → root_of p t → root_of (bu_id b) t.
Lemma chain_root i t ks : chain i t ks → root_of i t.
Proof. induction 1; [by apply root_top|by eapply root_child]. Qed.
Lemma chain_nonempty i t ks : chain i t ks → ks ≠ [].
Proof. intros []; [done|]. by intros [_ ?]%app_nil. Qed.
Hypothesis ids : NoDup (bu_id <$> n).
Lemma chain_fun i t ks t' ks' : chain i t ks → chain i t' ks' → t = t' ∧ ks = ks'.
Proof.
  intros H. revert t' ks'. induction H as [b Hb Hp|b p t ks Hb Hp H IH]; intros t' ks' H'; inversion H' as [c Hc Hcp E|c q ? ks2 Hc Hcp Hq E];
    subst; pose proof (same_row bu_id n _ _ ids Hc Hb E) as ->; try congruence.
  - done.
  - rewrite Hp in Hcp. injection Hcp as <-. by destruct (IH _ _ Hq) as [-> ->].
Qed.
Lemma root_of_fun i t t' : root_of i t → root_of i t' → t = t'.
Proof.
  intros H. revert t'. induction H as [b Hb Hp|b p t Hb Hp H IH]; intros t' H'; inversion H' as [c Hc Hcp E|c q ? Hc Hcp Hq E];
    subst; pose proof (same_row bu_id n _ _ ids Hc Hb E) as ->; try congruence.
  rewrite Hp in Hcp. injection Hcp as <-. by apply IH.
Qed.
End Chains.

(** ** The first segment of a path *)
Lemma split_chars_key k rest cur :
  sep ∉ k → split_chars sep cur (k ++ sep :: rest) = of_chars (reverse cur ++ k) :: split_chars sep [] rest.
Proof.
  revert cur. induction k as [|c k IH]; intros cur Hk; cbn.
  - by rewrite app_nil_r.
  - rewrite bool_decide_false by set_solver. rewrite IH by set_solver. by rewrite reverse_cons, <- app_assoc.
Qed.
Lemma split_chars_end k cur : sep ∉ k → split_chars sep cur k = [of_chars (reverse cur ++ k)].
Proof.
  revert cur. induction k as [|c k IH]; intros cur Hk; cbn; [by rewrite app_nil_r|].
  rewrite bool_decide_false by set_solver. rewrite IH by set_solver. by rewrite reverse_cons, <- app_assoc.
Qed.
Lemma top_segment_path k ks : Forall key_ok (k :: ks) → top_segment (path (k :: ks)) = k.
Proof.
  intros [Hk _]%Forall_cons. unfold top_segment, py_split. change "-"%char with sep. destruct ks as [|x ks].
  - change (path [k]) with k. rewrite split_chars_end by done. cbn. by rewrite of_chars_chars.
  - change (path (k :: x :: ks)) with (k +:+ _SEP +:+ path (x :: ks)). rewrite !chars_app. change (chars _SEP) with [sep].
    cbn [app]. rewrite split_chars_key by done. cbn. by rewrite of_chars_chars.
Qed.

(** ** The invariant *)
Record tree_ok (n : list Budget) : Prop := TreeOk {
  tree_ids : NoDup (bu_id <$> n);
  tree_keys : ∀ b, b ∈ n → is_valid_key (bu_key b) = true;
  tree_paths : ∀ b, b ∈ n → ∃ t ks, chain n (bu_id b) t ks ∧ bu_path_key b = path ks;
  tree_siblings : ∀ a b, a ∈ n → b ∈ n → bu_parent_id a = bu_parent_id b → bu_key a = bu_key b → a = b
}.
Section Tree.
Context (n : list Budget) (ok : tree_ok n).
Lemma chain_keys_ok i t ks : chain n i t ks → Forall key_ok ks.
Proof.
  assert (Hk : ∀ b, b ∈ n → Forall key_ok [bu_key b]) by (intros b Hb; apply Forall_singleton; by apply valid_key_ok, (tree_keys n ok)).
  induction 1 as [b Hb|b p t ks Hb _ _ IH]; [by apply Hk|]. apply Forall_app. split; [done|by apply Hk].
Qed.
Lemma chain_inj i j t u ks : chain n i t ks → chain n j u ks → i = j ∧ t = u.
Proof.
  intros H. revert j u. induction H as [b Hb Hp|b p t ks Hb Hp H IH]; intros j u H'.
  - inversion H' as [c Hc Hcp E1 E2 E|c q ? ls Hc Hcp Hq E1 E2 E]; subst.
    + rewrite (tree_siblings _ ok b c); [done|done|done|congruence|done].
    + apply chain_nonempty in Hq. by destruct ls as [|? []].
  - inversion H' as [c Hc Hcp E1 E2 E|c q ? ls Hc Hcp Hq E1 E2 E]; subst.
    + apply chain_nonempty in H. by destruct ks as [|? []].
    + apply app_inj_tail in E as [-> E]. destruct (IH _ _ Hq) as [-> ->]. split; [|done].
      rewrite (tree_siblings _ ok b c); [done|done|done|by rewrite Hp, Hcp|done].
Qed.
Lemma tree_path_inj a b : a ∈ n → b ∈ n → bu_path_key a = bu_path_key b → a = b.
Proof.
  intros Ha Hb E. destruct (tree_paths _ ok a Ha) as (t & ks & Hc & Ea), (tree_paths _ ok b Hb) as (u & ls & Hd & Eb).
  rewrite Ea, Eb in E. apply path_inj in E as ->; eauto using chain_keys_ok, chain_nonempty.
  destruct (chain_inj _ _ _ _ _ Hc Hd) as [Ei _]. by apply (same_row bu_id n _ _ (tree_ids _ ok)).
Qed.
Lemma chain_first i t ks : chain n i t ks → ∃ b rest, b ∈ n ∧ bu_id b = t ∧ bu_parent_id b = None ∧ ks = bu_key b :: rest.
Proof.
  induction 1 as [b Hb Hp|b p t ks Hb Hp H (c & rest & ? & ? & ? & ->)]; [by exists b, []|]. by exists c, (rest ++ [bu_key b]).
Qed.
End Tree.
Lemma top_level_root l b top : tree_ok (nodes l) → b ∈ nodes l → _top_level l b = Ok top → root_of (nodes l) (bu_id b) (bu_id top).
Proof.
  intros Hok Hb H. destruct (tree_paths _ Hok b Hb) as (t & ks & Hc & Ep). unfold _top_level in H.
  destruct (head (filter _ (nodes l))) as [r|] eqn:E; [|done]. injection H as ->.
  assert (Hr : top ∈ filter (λ c, bu_path_key c = top_segment (bu_path_key b) ∧ bu_parent_id c = None) (nodes l)).
  { destruct (filter _ (nodes l)); [done|]. injection E as ->. left. }
  apply list_elem_of_filter in Hr as [[Hp Hn] Hr].
  destruct (chain_first _ _ _ _ Hc) as (c & rest & Hcn & <- & Hcp & ->).
  rewrite Ep, top_segment_path in Hp by by eapply (chain_keys_ok _ Hok).
  assert (top = c) as ->.
  { apply (tree_path_inj _ Hok); [done..|]. rewrite Hp. destruct (tree_paths _ Hok c Hcn) as (t' & ks' & Hc' & Ep').
    rewrite Ep'. destruct (chain_fun _ (tree_ids _ Hok) _ _ _ _ _ Hc' (chain_top _ _ Hcn Hcp)) as [_ ->]. done. }
  by apply chain_root in Hc.
Qed.
Lemma top_level_total l b : tree_ok (nodes l) → b ∈ nodes l → ∃ top, _top_level l b = Ok top.
Proof.
  intros Hok Hb. destruct (tree_paths _ Hok b Hb) as (t & ks & Hc & Ep). unfold _top_level.
  destruct (chain_first _ _ _ _ Hc) as (c & rest & Hcn & <- & Hcp & ->).
  assert (Hr : c ∈ filter (λ c, bu_path_key c = top_segment (bu_path_key b) ∧ bu_parent_id c = None) (nodes l)).
  { apply list_elem_of_filter. rewrite Ep, top_segment_path by by eapply (chain_keys_ok _ Hok). split_and!; [|done..].
    destruct (tree_paths _ Hok c Hcn) as (t' & ks' & Hc' & ->).
    by destruct (chain_fun _ (tree_ids _ Hok) _ _ _ _ _ Hc' (chain_top _ _ Hcn Hcp)) as [_ ->]. }
  destruct (filter _ (nodes l)) as [|r f]; [by apply elem_of_nil in Hr|]. by exists r.
Qed.

(** ** The operations keep it *)
Lemma chain_mono (n n' : list Budget) i t ks :
  (∀ b, b ∈ n → ∃ c, c ∈ n' ∧ bu_id c = bu_id b ∧ bu_parent_id c = bu_parent_id b ∧ bu_key c = bu_key b) →
  chain n i t ks → chain n' i t ks.
Proof.
  intros Hsub. induction 1 as [b Hb Hp|b p t ks Hb Hp _ IH]; destruct (Hsub b Hb) as (c & Hc & <- & Ep & <-); rewrite <- Ep in Hp.
  - by apply chain_top.
  - by eapply chain_child.
Qed.
Lemma root_of_mono (n n' : list Budget) i t :
  (∀ b, b ∈ n → ∃ c, c ∈ n' ∧ bu_id c = bu_id b ∧ bu_parent_id c = bu_parent_id b) → root_of n i t → root_of n' i t.
Proof.
  intros Hsub. induction 1 as [b Hb Hp|b p t Hb Hp _ IH]; destruct (Hsub b Hb) as (c & Hc & <- & Ep); rewrite <- Ep in Hp.
  - by apply root_top.
  - by eapply root_child.
Qed.
Lemma tree_add n b :
  tree_ok n → bu_id b ∉ bu_id <$> n → is_valid_key (bu_key b) = true →
  (∀ a, a ∈ n → bu_parent_id a = bu_parent_id b → bu_key a ≠ bu_key b) →
  match bu_parent_id b with
  | Some p => ∃ q, q ∈ n ∧ bu_id q = p ∧ bu_path_key b = compose_path_key (Some (bu_path_key q)) (bu_key b)
  | None => bu_path_key b = bu_key b
  end → tree_ok (n ++ [b]).
Proof.
  intros Hok Hid Hv Hs Hp.
  assert (Hmono : ∀ i t ks, chain n i t ks → chain (n ++ [b]) i t ks).
  { intros i t ks. apply chain_mono. intros c Hc. exists c. split; [apply elem_of_app; by left|done]. }
  assert (Hb : b ∈ n ++ [b]) by (apply elem_of_app; right; apply list_elem_of_singleton; done).
  split.
  - rewrite fmap_app. apply NoDup_app. split; [apply Hok|]. split; [|apply NoDup_singleton].
    intros i Hi Hi'%list_elem_of_singleton. by subst.
  - intros c [Hc|Hc%list_elem_of_singleton]%elem_of_app; [by apply (tree_keys _ Hok)|by subst].
  - intros c [Hc|Hc%list_elem_of_singleton]%elem_of_app.
    + destruct (tree_paths _ Hok c Hc) as (t & ks & H & E). exists t, ks. split; [by apply Hmono|done].
    + subst c. destruct (bu_parent_id b) as [p|] eqn:Ep.
      * destruct Hp as (q & Hq & <- & E). destruct (tree_paths _ Hok q Hq) as (t & ks & H & Eq).
        exists t, (ks ++ [bu_key b]). split; [eapply chain_child; [done|done|by apply Hmono]|].
        rewrite E, Eq. apply compose_path. by eapply chain_nonempty.
      * exists (bu_id b), [bu_key b]. split; [by apply chain_top|done].
  - intros a c [Ha|Ha%list_elem_of_singleton]%elem_of_app [Hc|Hc%list_elem_of_singleton]%elem_of_app E Ek; subst.
    + by apply (tree_siblings _ Hok).
    + by destruct (Hs a Ha E).
    + by destruct (Hs c Hc (eq_sym E)).
    + done.
Qed.
Lemma tree_delete n i :
  tree_ok n → (∀ b, b ∈ n → bu_parent_id b ≠ Some i) → tree_ok (filter (λ b, bu_id b ≠ i) n).
Proof.
  intros Hok Hleaf. split.
  - eapply sublist_NoDup; [apply Hok|]. apply fmap_sublist, sublist_filter.
  - intros b [_ Hb]%list_elem_of_filter. by apply (tree_keys _ Hok).
  - intros b [Hi Hb]%list_elem_of_filter. destruct (tree_paths _ Hok b Hb) as (t & ks & H & E). exists t, ks. split; [|done].
    clear E. revert Hi. generalize (bu_id b), H. clear b Hb H. intros j H.
    induction H as [b Hb Hp|b p t ks Hb Hp H IH]; intros Hi.
    + apply chain_top; [|done]. by apply list_elem_of_filter.
    + eapply chain_child; [by apply list_elem_of_filter|done|]. apply IH. intros ->. by apply (Hleaf b Hb).
  - intros a c [_ Ha]%list_elem_of_filter [_ Hc]%list_elem_of_filter. by apply (tree_siblings _ Hok).
Qed.
Definition links (n : list Budget) : list (string * option string) := (λ b, (bu_id b, bu_parent_id b)) <$> n.
Lemma links_in (n n' : list Budget) b :
  links n' = links n → b ∈ n → ∃ c, c ∈ n' ∧ bu_id c = bu_id b ∧ bu_parent_id c = bu_parent_id b.
Proof.
  intros E Hb. assert (Hl : (bu_id b, bu_parent_id b) ∈ links n') by (rewrite E; by apply list_elem_of_fmap; exists b).
  apply list_elem_of_fmap in Hl as (c & [= -> ->] & Hc). by exists c.
Qed.
Lemma root_of_links (n n' : list Budget) i t : links n' = links n → root_of n i t → root_of n' i t.
Proof. intros E. apply root_of_mono. intros b. by apply links_in. Qed.
Definition skeleton (b : Budget) := (bu_id b, bu_parent_id b, bu_key b, bu_path_key b).
Lemma skeleton_in (k k' : list Budget) b :
  skeleton <$> k' = skeleton <$> k → b ∈ k → ∃ c, c ∈ k' ∧ skeleton c = skeleton b.
Proof.
  intros E Hb. assert (Hs : skeleton b ∈ skeleton <$> k') by (rewrite E; by apply list_elem_of_fmap_2).
  apply list_elem_of_fmap in Hs as (c & -> & Hc). by exists c.
Qed.
Lemma tree_skeleton (n n' : list Budget) : skeleton <$> n' = skeleton <$> n → tree_ok n → tree_ok n'.
Proof.
  intros E Hok. assert (Hids : NoDup (bu_id <$> n')).
  { change (NoDup ((λ b, (skeleton b).1.1.1) <$> n')). rewrite (list_fmap_compose skeleton (λ s, s.1.1.1)), E, <- list_fmap_compose.
    apply Hok. }
  assert (Hback : ∀ c, c ∈ n' → ∃ b, b ∈ n ∧ skeleton b = skeleton c) by (intros c; by apply skeleton_in).
  split; [done| | |].
  - intros c (b & Hb & [= _ _ <- _])%Hback. by apply (tree_keys _ Hok).
  - intros c (b & Hb & [= <- _ _ <-])%Hback. destruct (tree_paths _ Hok b Hb) as (t & ks & H & Ep). exists t, ks. split; [|done].
    revert H. apply chain_mono. intros d Hd. destruct (skeleton_in n n' d E Hd) as (e & He & [= ? ? ? _]). by exists e.
  - intros a c Ha Hc Ep Ek. apply (same_row bu_id n' _ _ Hids); [done..|].
    destruct (Hback a Ha) as (a' & Ha' & [= <- Ea Eka _]), (Hback c Hc) as (c' & Hc' & [= <- Ec Ekc _]).
    f_equal. apply (tree_siblings _ Hok); congruence.
Qed.

(** *** The rename of a key *)
Section Rename.
Context (n : list Budget) (ok : tree_ok n) (node : Budget) (new_key : string) (t0 : string) (pre : list string).
Hypothesis node_in : node ∈ n.
Hypothesis new_valid : is_valid_key new_key = true.
Hypothesis no_sibling : ∀ b, b ∈ n → bu_parent_id b = bu_parent_id node → bu_key b ≠ new_key.
Hypothesis node_chain : chain n (bu_id node) t0 (pre ++ [bu_key node]).
Definition old_keys : list string := pre ++ [bu_key node].
Definition new_keys : list string := pre ++ [new_key].
Definition renamed (b : Budget) : Budget :=
  if bool_decide (bu_id b = bu_id node) then set_path (path new_keys) (set_key new_key b)
  else if is_descendant_path (path old_keys) (bu_path_key b)
       then set_path (moved_path (path old_keys) (path new_keys) (bu_path_key b)) b else b.
Definition moved_keys (ks : list string) : list string :=
  if bool_decide (old_keys `prefix_of` ks) then new_keys ++ drop (length old_keys) ks else ks.
Lemma renamed_links b : bu_id (renamed b) = bu_id b ∧ bu_parent_id (renamed b) = bu_parent_id b.
Proof. unfold renamed. repeat case_if; by destruct b. Qed.
Lemma renamed_key b : bu_key (renamed b) = if bool_decide (bu_id b = bu_id node) then new_key else bu_key b.
Proof. unfold renamed. repeat case_if; by destruct b. Qed.
Lemma moved_path_app ls rest :
  ls ≠ [] → new_keys ≠ [] → rest ≠ [] → moved_path (path ls) (path new_keys) (path (ls ++ rest)) = path (new_keys ++ rest).
Proof.
  intros Hl Hn Hr. assert (Hjoin : ∀ a, a ≠ [] → path (a ++ rest) = path a +:+ _SEP +:+ path rest).
  { clear -Hr. intros a Ha. induction a as [|x [|y a] IH]; [done| |].
    - destruct rest as [|r rest]; [done|]. done.
    - change (path ((x :: y :: a) ++ rest)) with (x +:+ _SEP +:+ path ((y :: a) ++ rest)). rewrite IH by done.
      change (path (x :: y :: a)) with (x +:+ _SEP +:+ path (y :: a)). apply chars_inj. rewrite !chars_app. by rewrite <- !app_assoc. }
  unfold moved_path. rewrite !Hjoin by done. apply chars_inj. rewrite !chars_app, chars_of_chars.
  by rewrite drop_app_length.
Qed.
Lemma moved_keys_node : moved_keys old_keys = new_keys.
Proof. unfold moved_keys. rewrite bool_decide_true by done. rewrite drop_all. by rewrite app_nil_r. Qed.
Lemma prefix_snoc_inv (l k : list string) x : l `prefix_of` k ++ [x] → l `prefix_of` k ∨ l = k ++ [x].
Proof.
  intros [r Hr]. destruct r as [|y r _] using rev_ind; [right; by rewrite app_nil_r in Hr|left].
  rewrite app_assoc in Hr. apply app_inj_tail in Hr as [-> _]. by exists r.
Qed.
Lemma moved_keys_snoc ks x : old_keys ≠ ks ++ [x] → moved_keys (ks ++ [x]) = moved_keys ks ++ [x].
Proof.
  intros Hne. unfold moved_keys. destruct (decide (old_keys `prefix_of` ks)) as [Hp|Hp].
  - rewrite !bool_decide_true by (done || by apply prefix_app_r). rewrite <- app_assoc. f_equal.
    apply drop_app_le. by apply prefix_length.
  - rewrite !bool_decide_false; [done..|]. by intros [?|?]%prefix_snoc_inv.
Qed.
Lemma not_moved ks : (length ks < length old_keys)%nat → moved_keys ks = ks.
Proof. intros H. unfold moved_keys. rewrite bool_decide_false; [done|]. intros Hp%prefix_length. lia. Qed.
Lemma node_keys b t ks : b ∈ n → bu_id b = bu_id node → chain n (bu_id b) t ks → b = node ∧ ks = old_keys.
Proof.
  intros Hb E H. pose proof (same_row bu_id n _ _ (tree_ids _ ok) Hb node_in E) as ->. split; [done|].
  by destruct (chain_fun n (tree_ids _ ok) _ _ _ _ _ H node_chain).
Qed.
Lemma other_keys b t ks : bu_id b ≠ bu_id node → chain n (bu_id b) t ks → old_keys ≠ ks.
Proof. intros E H <-. by destruct (chain_inj n ok _ _ _ _ _ H node_chain). Qed.
Lemma chain_renamed i t ks : chain n i t ks → chain (renamed <$> n) i t (moved_keys ks).
Proof.
  induction 1 as [b Hb Hp|b p t ks Hb Hp H IH]; destruct (renamed_links b) as [Ei Ep]; pose proof (renamed_key b) as Ek;
    (destruct (decide (bu_id b = bu_id node)) as [E|E]; [rewrite bool_decide_true in Ek by done|rewrite bool_decide_false in Ek by done]).
  - destruct (node_keys b _ _ Hb E (chain_top n _ Hb Hp)) as [-> Eo]. rewrite Eo, moved_keys_node.
    assert (pre = []) as Epre by (unfold old_keys in Eo; by destruct pre as [|x [|]]). unfold new_keys. rewrite Epre. cbn.
    rewrite <- Ek, <- Ei. apply chain_top; [by apply list_elem_of_fmap_2|by rewrite Ep].
  - change [bu_key b] with ([] ++ [bu_key b]). rewrite moved_keys_snoc by (apply (other_keys b (bu_id b)); [done|by apply (chain_top n)]).
    rewrite not_moved by (unfold old_keys; rewrite length_app; cbn; lia). cbn.
    rewrite <- Ek, <- Ei. apply chain_top; [by apply list_elem_of_fmap_2|by rewrite Ep].
  - destruct (node_keys b _ _ Hb E (chain_child n _ _ _ _ Hb Hp H)) as [-> Eo]. rewrite Eo, moved_keys_node.
    apply app_inj_tail in Eo as [-> _]. unfold new_keys. rewrite <- Ek, <- Ei.
    eapply chain_child; [by apply list_elem_of_fmap_2|by rewrite Ep|].
    rewrite not_moved in IH by (unfold old_keys; rewrite length_app; cbn; lia). done.
  - rewrite moved_keys_snoc by (apply (other_keys b t); [done|by eapply (chain_child n)]). rewrite <- Ek, <- Ei.
    eapply chain_child; [by apply list_elem_of_fmap_2|by rewrite Ep|done].
Qed.
Lemma renamed_path b t ks : b ∈ n → chain n (bu_id b) t ks → bu_path_key b = path ks → bu_path_key (renamed b) = path (moved_keys ks).
Proof.
  intros Hb H E. assert (Hk : Forall key_ok ks) by by eapply chain_keys_ok.
  assert (Ho : Forall key_ok old_keys) by by eapply chain_keys_ok.
  assert (Ho0 : old_keys ≠ []) by by eapply chain_nonempty. assert (Hk0 : ks ≠ []) by by eapply chain_nonempty.
  unfold renamed. destruct (decide (bu_id b = bu_id node)) as [Ei|Ei].
  - rewrite bool_decide_true by done. destruct (node_keys b _ _ Hb Ei H) as [-> ->]. rewrite moved_keys_node. by destruct node.
  - rewrite bool_decide_false by done. pose proof (other_keys b _ _ Ei H) as Hne.
    pose proof (descendant_iff old_keys ks Ho Hk Ho0 Hk0) as Hd. rewrite E. unfold moved_keys.
    destruct (is_descendant_path (path old_keys) (path ks)).
    + destruct Hd as [[[rest ->] _] _]; [done|]. rewrite bool_decide_true by by apply prefix_app_r.
      rewrite drop_app_length. rewrite <- (moved_path_app old_keys rest); [by destruct b|done| |].
      * unfold new_keys. by intros [_ ?]%app_nil.
      * intros ->. by rewrite app_nil_r in Hne.
    + rewrite bool_decide_false; [done|]. intros Hp. destruct Hd as [_ Hd]. by specialize (Hd (conj Hp Hne)).
Qed.
Lemma tree_rename : tree_ok (renamed <$> n).
Proof.
  split.
  - rewrite <- list_fmap_compose. rewrite (list_fmap_ext _ bu_id); [apply ok|]. intros i b _. apply renamed_links.
  - intros c (b & -> & Hb)%list_elem_of_fmap. rewrite renamed_key. case_if; [done|]. by apply (tree_keys _ ok).
  - intros c (b & -> & Hb)%list_elem_of_fmap. destruct (tree_paths _ ok b Hb) as (t & ks & H & E).
    exists t, (moved_keys ks). destruct (renamed_links b) as [-> _]. split; [by apply chain_renamed|by eapply renamed_path].
  - intros c d (a & -> & Ha)%list_elem_of_fmap (b & -> & Hb)%list_elem_of_fmap Ep Ek.
    destruct (renamed_links a) as [_ Ea], (renamed_links b) as [_ Eb]. rewrite Ea, Eb in Ep. rewrite !renamed_key in Ek. f_equal.
    destruct (decide (bu_id a = bu_id node)) as [Ia|Ia], (decide (bu_id b = bu_id node)) as [Ib|Ib].
    + apply (same_row bu_id n _ _ (tree_ids _ ok)); congruence.
    + rewrite bool_decide_true, bool_decide_false in Ek by done.
      pose proof (same_row bu_id n _ _ (tree_ids _ ok) Ha node_in Ia) as ->. by destruct (no_sibling b Hb (eq_sym Ep)).
    + rewrite bool_decide_false, bool_decide_true in Ek by done.
      pose proof (same_row bu_id n _ _ (tree_ids _ ok) Hb node_in Ib) as ->. by destruct (no_sibling a Ha Ep).
    + rewrite !bool_decide_false in Ek by done. by apply (tree_siblings _ ok).
Qed.
End Rename.

(** *** The operations on cost centers *)
Lemma get_node_in l i b : _get_node l i = Ok b → b ∈ nodes l ∧ bu_id b = i.
Proof.
  unfold _get_node, get_or. destruct (find_by bu_id i (nodes l)) eqn:E; [|done]. intros [= ->].
  split; [by eapply find_by_elem|by eapply find_by_id].
Qed.
Lemma get_opt_node_in l o r : get_opt_node l o = Ok r → match o, r with
  | Some i, Some b => b ∈ nodes l ∧ bu_id b = i
  | None, None => True
  | _, _ => False
  end.
Proof.
  destruct o as [i|]; cbn; [|by intros [= <-]]. intros (b & Hb & [= <-])%bind_ok. by apply get_node_in.
Qed.
Lemma sibling_exists_false l parent key :
  _sibling_exists l parent key = false → ∀ b, b ∈ nodes l → bu_parent_id b = parent → bu_key b ≠ key.
Proof.
  unfold _sibling_exists. intros H b Hb Hp Hk. rewrite existsb_false in H. specialize (H b Hb). by rewrite !bool_decide_true in H.
Qed.
(** What an operation on the cost centers leaves alone. *)
Definition same_money (l l' : Ledger) : Prop :=
  bookings l' = bookings l ∧ apps l' = apps l ∧ allocs l' = allocs l ∧ invoices l' = invoices l.
Lemma create_node_ok l actor p id l' :
  create_node l actor p id = Ok l' → id ∉ bu_id <$> nodes l → tree_ok (nodes l) →
  tree_ok (nodes l') ∧ (∃ b, nodes l' = nodes l ++ [b] ∧ bu_id b = id ∧ bu_parent_id b = nc_parent_id p) ∧
  same_money l l' ∧ years l' = years l.
Proof.
  unfold create_node. intros H Hid Hok. apply bind_ok in H as (? & Hv & H). apply raise_if_ok, negb_false_iff in Hv.
  apply bind_ok in H as (parent & Hp & H). apply get_opt_node_in in Hp. apply bind_ok in H as (? & _ & H).
  apply bind_ok in H as (? & Hs & H). apply raise_if_ok in Hs. apply bind_ok in H as (? & _ & [= <-]).
  split; [|split; [by eexists|done]]. cbn. apply tree_add; [done|done|done| |].
  - intros a Ha Ea. by eapply sibling_exists_false.
  - cbn. destruct (nc_parent_id p) as [i|], parent as [q|]; try done. destruct Hp as [Hq <-]. by exists q.
Qed.
Lemma node_setattr_skeleton b f v b' : node_setattr b f v = Some b' → skeleton b' = skeleton b.
Proof.
  destruct b. unfold node_setattr. intros H.
  repeat match type of H with (if ?c then _ else _) = _ => destruct c end;
    try (apply bind_Some in H as (? & _ & H)); try (destruct v; try discriminate); by injection H as <-.
Qed.
Lemma node_setattrs_skeleton fields b b' : node_setattrs b fields = Some b' → skeleton b' = skeleton b.
Proof.
  revert b. induction fields as [|[f v] r IH]; intros b H; [by injection H as <-|]. cbn in H.
  apply bind_Some in H as (c & Hc & H). rewrite (IH _ H). by eapply node_setattr_skeleton.
Qed.
Lemma skeleton_row (n : list Budget) i b b' :
  NoDup (bu_id <$> n) → b ∈ n → bu_id b = i → skeleton b' = skeleton b →
  skeleton <$> update_row bu_id i (λ _, b') n = skeleton <$> n.
Proof.
  intros Hids Hb <- E. unfold update_row. rewrite <- list_fmap_compose. apply list_fmap_ext. intros k c Hc%list_elem_of_lookup_2.
  cbn. case_bool_decide as Hi; [|done]. by rewrite (same_row bu_id n _ _ Hids Hc Hb Hi).
Qed.
Lemma rename_ok l node k l' :
  tree_ok (nodes l) → node ∈ nodes l → _rename_key l node k = Ok l' →
  tree_ok (nodes l') ∧ links (nodes l') = links (nodes l) ∧ same_money l l' ∧ years l' = years l.
Proof.
  intros Hok Hn H. unfold _rename_key in H. apply bind_ok in H as (? & Hv & H). apply raise_if_ok, negb_false_iff in Hv.
  apply bind_ok in H as (? & Hs & H). apply raise_if_ok in Hs. apply bind_ok in H as (parent & Hp & [= <-]).
  apply get_opt_node_in in Hp. destruct (tree_paths _ Hok node Hn) as (t & ks & Hc & Eo).
  assert (∃ pre, ks = pre ++ [bu_key node] ∧ compose_path_key (bu_path_key <$> parent) k = path (pre ++ [k])) as (pre & -> & En).
  { inversion Hc as [c Hcn Hcp E|c q ? ls Hcn Hcp Hq E]; subst; pose proof (same_row bu_id _ _ _ (tree_ids _ Hok) Hcn Hn E) as ->.
    - exists []. rewrite Hcp in Hp. by destruct parent.
    - exists ls. split; [done|]. rewrite Hcp in Hp. destruct parent as [q'|]; [|done]. destruct Hp as [Hq' <-]. cbn.
      destruct (tree_paths _ Hok q' Hq') as (u & ms & Hm & ->). destruct (chain_fun _ (tree_ids _ Hok) _ _ _ _ _ Hm Hq) as [_ ->].
      apply compose_path. by eapply chain_nonempty. }
  cbn. rewrite En. rewrite Eo.
  assert (Heq : (λ b : Budget, if bool_decide (bu_id b = bu_id node) then set_path (path (pre ++ [k])) (set_key k b)
     else if is_descendant_path (path (pre ++ [bu_key node])) (bu_path_key b)
          then set_path (moved_path (path (pre ++ [bu_key node])) (path (pre ++ [k])) (bu_path_key b)) b else b) = renamed node k pre) by done.
  rewrite Heq. split; [|split; [|done]].
  - eapply tree_rename; try done. intros b Hb Ep. by eapply sibling_exists_false.
  - unfold links. cbn. rewrite <- list_fmap_compose. apply list_fmap_ext. intros j b _. cbn.
    by destruct (renamed_links node k pre b) as [-> ->].
Qed.
Lemma move_bounds_links node y y' :
  move_bounds node y = Ok y' → (λ f, (fy_id f, fy_budget_id f, fy_closed_at f)) <$> y' = (λ f, (fy_id f, fy_budget_id f, fy_closed_at f)) <$> y.
Proof.
  unfold move_bounds. intros H. apply map_res_ok in H. induction H as [|f f' y y' Hf _ IH]; [done|]. cbn. rewrite IH. f_equal.
  destruct (bool_decide _); [|by injection Hf as <-]. apply bind_ok in Hf as (b & _ & [= <-]). done.
Qed.
Definition year_links (l : Ledger) := (λ f, (fy_id f, fy_budget_id f, fy_closed_at f)) <$> years l.
Lemma update_node_ok l actor i dumped l' :
  update_node l actor i dumped = Ok l' → tree_ok (nodes l) →
  tree_ok (nodes l') ∧ links (nodes l') = links (nodes l) ∧ same_money l l' ∧ year_links l' = year_links l.
Proof.
  unfold update_node. intros H Hok. apply bind_ok in H as (node & Hn & H). apply get_node_in in Hn as [Hn Hi].
  apply bind_ok in H as (? & _ & H). apply bind_ok in H as (node' & Ha & H).
  destruct (node_setattrs node _) as [nd|] eqn:Es; [|done]. injection Ha as ->. apply node_setattrs_skeleton in Es.
  set (l1 := with_nodes (update_row bu_id i (λ _, node') (nodes l)) l) in H.
  assert (Hsk : skeleton <$> nodes l1 = skeleton <$> nodes l) by (eapply skeleton_row; try done; apply Hok).
  assert (Hok1 : tree_ok (nodes l1)) by by eapply tree_skeleton.
  assert (Hr1 : links (nodes l1) = links (nodes l)).
  { change (links (nodes l1)) with ((λ b, (skeleton b).1.1) <$> nodes l1). change (links (nodes l)) with ((λ b, (skeleton b).1.1) <$> nodes l).
    by rewrite (list_fmap_compose skeleton (λ s, s.1.1)), Hsk, <- list_fmap_compose. }
  assert (Hn1 : node' ∈ nodes l1).
  { unfold l1, update_row. cbn. apply list_elem_of_fmap. exists node. by rewrite bool_decide_true. }
  apply bind_ok in H as (l2 & H2 & H).
  assert (tree_ok (nodes l2) ∧ links (nodes l2) = links (nodes l) ∧ same_money l l2 ∧ years l2 = years l)
    as (Hok2 & Hr2 & Hm2 & Hy2).
  { revert H2. destruct (match dict_get "key" dumped with Some (PStr k) => Some k | _ => None end) as [k|]; [|by intros [= <-]].
    destruct (bool_decide (k = bu_key node)); intros H2; [by injection H2 as <-|]. apply rename_ok in H2 as (? & Hr & ? & ?); [|done|done].
    split; [done|]. split; [|done]. by rewrite Hr. }
  apply bind_ok in H as (l3 & H3 & H).
  assert (nodes l3 = nodes l2 ∧ same_money l2 l3 ∧ year_links l3 = year_links l2) as (En & Em & Ey).
  { match type of H3 with (if ?c then _ else _) = _ => revert H3; destruct c; intros H3 end; [|by injection H3 as <-].
    apply bind_ok in H3 as (y & Hy & [= <-]). split; [done|]. split; [done|]. by apply move_bounds_links in Hy. }
  apply bind_ok in H as (after & _ & [= <-]). cbn. rewrite En. split; [done|]. split; [done|].
  unfold year_links in *. rewrite Hy2 in Ey. destruct Hm2 as (? & ? & ? & ?), Em as (? & ? & ? & ?).
  split; [unfold same_money; cbn; repeat split; try congruence; unfold apps in *; cbn; congruence|done].
Qed.
Lemma delete_node_ok l actor i l' :
  delete_node l actor i = Ok l' → tree_ok (nodes l) →
  tree_ok (nodes l') ∧ (∀ j t, j ≠ i → root_of (nodes l) j t → root_of (nodes l') j t) ∧ apps l' = apps l ∧
  (∀ b, b ∈ bookings l → bk_budget_id b ≠ i) ∧ (∀ k a, apps l !! k = Some a → ap_budget_id a ≠ Some i) ∧
  (∃ gone : list string, (∀ y, y ∈ gone ↔ ∃ f, f ∈ years l ∧ fy_id f = y ∧ fy_budget_id f = i) ∧
     (∀ k a y, apps l !! k = Some a → ap_fiscal_year_id a = Some y → y ∉ gone) ∧
     bookings l' = filter (λ b, bk_budget_id b ≠ i ∧ bk_fiscal_year_id b ∉ gone) (bookings l) ∧
     years l' = filter (λ f, fy_budget_id f ≠ i) (years l) ∧ nodes l' = filter (λ b, bu_id b ≠ i) (nodes l) ∧
     allocs l' = filter (λ a, al_budget_id a ≠ i ∧ al_fiscal_year_id a ∉ gone) (allocs l)).
Proof.
  unfold delete_node. intros H Hok. apply bind_ok in H as (node & Hn & H). apply bind_ok in H as (? & Hc & H).
  apply bind_ok in H as (? & Hb & H). apply bind_ok in H as (? & Ha & H). apply bind_ok in H as (l1 & H & [= <-]).
  unfold delete_budget_row in H. apply bind_ok in H as (? & Hg & [= <-]). apply raise_if_ok in Hc, Hb, Ha, Hg.
  rewrite existsb_false in Hc. rewrite existsb_false in Hb. rewrite existsb_false in Ha. rewrite existsb_false in Hg. cbn.
  assert (Happ : ∀ (P : Application → bool), (∀ x, x ∈ snd <$> map_to_list (apps l) → P x = false) → ∀ k a, apps l !! k = Some a → P a = false).
  { intros P HP k a Hk. apply HP. apply list_elem_of_fmap. exists (k, a). split; [done|]. by apply elem_of_map_to_list. }
  split; [|split; [|split; [done|split; [|split]]]].
  - apply tree_delete; [done|]. intros b Hbn Hp. specialize (Hc b Hbn). by rewrite bool_decide_true in Hc.
  - intros j t Hj Hr. induction Hr as [b Hbn Hp|b p t Hbn Hp Hr IH].
    + apply root_top; [by apply list_elem_of_filter|done].
    + eapply root_child; [by apply list_elem_of_filter|done|]. apply IH. intros ->. specialize (Hc b Hbn). by rewrite bool_decide_true in Hc.
  - intros b Hbn E. specialize (Hb b Hbn). by rewrite bool_decide_true in Hb.
  - intros k a Hk E. pose proof (Happ _ Ha k a Hk) as F. cbn in F. by rewrite bool_decide_true in F.
  - eexists. split; [|split; [|done]].
    + intros y. rewrite list_elem_of_fmap. setoid_rewrite list_elem_of_filter. naive_solver.
    + intros k a y Hk E. pose proof (Happ _ Hg k a Hk) as F. cbn in F. rewrite E in F. by apply bool_decide_eq_false in F.
Qed.
