(* ===== verification/LedgerSteps.v ===== *)
(** The steps of the budget: every operation that writes its tables, the reverts of the audit log,
    and what each one does to the rows. *)

From stdpp Require Import gmap strings.
From S2P Require Import Prelude PyStr PyNum PyValue PyDate BudgetRules BudgetFacts FlowDb Decision Ledger Bookings LedgerFacts.

(** ** Steps *)
(** A new id is a fresh UUID; the bounds of a request are those of its schema. *)
Inductive budget_step : Ledger → Ledger → Prop :=
| step_create_node l actor p id l' :
    id ∉ bu_id <$> nodes l → (∀ a, a ∈ allocs l → al_budget_id a ≠ id) → create_node l actor p id = Ok l' → budget_step l l'
| step_update_node l actor i d l' : update_node l actor i d = Ok l' → budget_step l l'
| step_delete_node l actor i l' : delete_node l actor i = Ok l' → budget_step l l'
| step_create_year l i y a id l' : id ∉ fy_id <$> years l → create_fiscal_year l i y a id = Ok l' → budget_step l l'
| step_update_year l i f y a l' : update_fiscal_year l i f y a = Ok l' → budget_step l l'
| step_delete_year l actor i f l' : delete_fiscal_year l actor i f = Ok l' → budget_step l l'
| step_close_year l actor i f c now l' : set_fiscal_year_closed l actor i f c now = Ok l' → budget_step l l'
| step_allocate l actor i f v l' : 0 ≤ v → set_allocation l actor i f v = Ok l' → budget_step l l'
| step_assign l actor today a b y l' : assign_budget l actor today a b y = Ok l' → budget_step l l'
| step_move_year l actor a f l' : move_fiscal_year l actor a f = Ok l' → budget_step l l'
| step_book l today p actor id now l' : id ∉ bk_id <$> bookings l → book_expense l today p actor id now = Ok l' → budget_step l l'
| step_update_booking l actor today i d l' : update_expense l actor today i d = Ok l' → budget_step l l'
| step_delete_booking l actor i l' : delete_expense l actor i = Ok l' → budget_step l l'
| step_sub_booking l i v c actor id now l' :
    id ∉ bk_id <$> bookings l → create_sub_booking l i v c actor id now = Ok l' → budget_step l l'
| step_transfer l today p actor t o i now l' :
    o ∉ bk_id <$> bookings l → i ∉ bk_id <$> bookings l → o ≠ i → (∀ b, b ∈ bookings l → bk_transfer_id b ≠ Some t) →
    create_transfer l today p actor t o i now = Ok l' → budget_step l l'
| step_update_transfer l actor t d l' : update_transfer l actor t d = Ok l' → budget_step l l'
| step_delete_transfer l actor t l' : delete_transfer l actor t = Ok l' → budget_step l l'.

(** ** Effects *)
Definition other_tables (l l' : Ledger) : Prop :=
  nodes l' = nodes l ∧ years l' = years l ∧ allocs l' = allocs l ∧ apps l' = apps l.
Definition open_year (l : Ledger) (y : string) : Prop := ∀ f, find_by fy_id y (years l) = Some f → fy_closed_at f = None.
Lemma require_open_ok l y u : _require_open_fiscal_year l (Some y) = Ok u → open_year l y.
Proof.
  unfold _require_open_fiscal_year. cbn. intros H f Hf. rewrite Hf in H. apply raise_if_ok, bool_decide_eq_false in H.
  destruct (fy_closed_at f); [|done]. by destruct H.
Qed.
Lemma refuse_closed_ok f u : _refuse_closed f = Ok u → fy_closed_at f = None.
Proof. intros H%raise_if_ok%bool_decide_eq_false. destruct (fy_closed_at f); [|done]. by destruct H. Qed.
(** The fiscal year belongs to the top-level budget of the cost center. *)
Definition fits (l : Ledger) (b y : string) : Prop :=
  ∃ t f, root_of (nodes l) b t ∧ f ∈ years l ∧ fy_id f = y ∧ fy_budget_id f = t.
Lemma pick_in {T} (c : list (T * pydate * pydate)) today y : pick_fiscal_year c today = Some y → y ∈ (λ x, x.1.1) <$> c.
Proof.
  unfold pick_fiscal_year. intros H.
  assert (∃ x, x ∈ c ∧ x.1.1 = y) as (x & Hx & <-); [|apply list_elem_of_fmap; by exists x].
  assert (Hcur : ∀ r, (λ c, c.1.1) <$> filter (λ c, date_leb c.1.2 today && date_leb today c.2 = true) c = [r] → ∃ x, x ∈ c ∧ x.1.1 = r).
  { intros r E. assert (Hr : r ∈ [r]) by left. rewrite <- E in Hr. apply list_elem_of_fmap in Hr as (x & -> & [_ Hx]%list_elem_of_filter). by exists x. }
  destruct c as [|[[a d] e] [|x2 c]]; [done|injection H as ->; eexists; split; [left|done]|].
  destruct (_ <$> _) as [|r [|]] eqn:E; [done| |done]. injection H as ->. by apply Hcur.
Qed.
Lemma resolve_ok l today node o y :
  _resolve_fiscal_year l today node o = Ok y → tree_ok (nodes l) → node ∈ nodes l → NoDup (fy_id <$> years l) →
  fits l (bu_id node) y ∧ open_year l y ∧ ∀ i, o = Some i → y = i.
Proof.
  intros H Hok Hn Hids. unfold _resolve_fiscal_year in H. apply bind_ok in H as (top & Ht & H).
  pose proof (top_level_root _ _ _ Hok Hn Ht) as Hroot.
  assert (Hgoal : ∀ f, f ∈ years l → fy_budget_id f = bu_id top → fy_closed_at f = None → fits l (bu_id node) (fy_id f) ∧ open_year l (fy_id f)).
  { intros f Hf Eb Hc. split; [by exists (bu_id top), f|]. intros g Hg. by rewrite (find_by_NoDup _ _ _ Hids Hf) in Hg; injection Hg as <-. }
  destruct o as [i|].
  - apply bind_ok in H as (f & Hf & H). unfold _get_fiscal_year, get_or in Hf. destruct (find_by fy_id i (years l)) as [f'|] eqn:E; [|done].
    injection Hf as ->. apply bind_ok in H as (? & Hb & H). apply raise_if_ok, negb_false_iff, bool_decide_eq_true in Hb.
    apply bind_ok in H as (? & Hc & [= <-]). apply refuse_closed_ok in Hc.
    destruct (Hgoal f (find_by_elem _ _ _ _ E) Hb Hc) as [? ?]. split; [done|]. split; [done|].
    intros j [= <-]. by apply find_by_id in E.
  - unfold get_or in H. destruct (pick_fiscal_year _ today) as [z|] eqn:E; [|done]. injection H as ->. apply pick_in in E.
    unfold candidate_years in E. rewrite <- list_fmap_compose in E. apply list_elem_of_fmap in E as (f & -> & Hf). cbn.
    apply list_elem_of_filter in Hf as [[_ Hc] Hf]. apply elem_of_sort_by, list_elem_of_filter in Hf as [Hb Hf].
    destruct (Hgoal f Hf Hb Hc) as [? ?]. split; [done|]. split; [done|]. by intros j.
Qed.

(** *** Bookings *)
Lemma find_by_some {A} (id_of : A → string) (l : list A) x : x ∈ l → is_Some (find_by id_of (id_of x) l).
Proof.
  intros Hx. unfold find_by. assert (Hf : x ∈ filter (λ y, id_of y = id_of x) l) by by apply list_elem_of_filter.
  revert Hf. destruct (filter _ l) as [|y f]; [by intros ?%elem_of_nil|]. by exists y.
Qed.
Lemma find_booking_in l i e : find_booking l i = Ok e → find_by bk_id i (bookings l) = Some e ∧ e ∈ bookings l ∧ bk_id e = i.
Proof.
  unfold find_booking, get_or. destruct (find_by bk_id i (bookings l)) eqn:E; [|done]. intros [= ->].
  split; [done|]. split; [by eapply find_by_elem|by eapply find_by_id].
Qed.
Definition subs (bs : list Booking) (p : string) : list Booking := filter (λ b, bk_parent_expense_id b = Some p) bs.
(** The parent gets the sum of its sub-bookings. *)
Definition refresh (p : string) (bs : list Booking) : list Booking :=
  let total := zsum (bk_amount <$> subs bs p) in
  if 0 <? total then update_row bk_id p (set_amount total) bs else bs.
Lemma recompute_ok l p l' :
  _recompute_parent_amount l p = Ok l' → other_tables l l' ∧ bookings l' = refresh p (bookings l) ∧
  (0 < zsum (bk_amount <$> subs (bookings l) p) → ∀ q, q ∈ bookings l → bk_id q = p → amount_ok (zsum (bk_amount <$> subs (bookings l) p)) = true).
Proof.
  unfold _recompute_parent_amount, refresh, subs, children. set (total := zsum _). intros H. destruct (0 <? total) eqn:E.
  - apply bind_ok in H as (u & Hc & [= <-]). split; [done|]. split; [done|]. intros _ q Hq <-.
    apply raise_if_ok, andb_false_iff in Hc as [Hc|Hc]; [by apply negb_false_iff in Hc|].
    apply bool_decide_eq_false in Hc. destruct Hc. by apply find_by_some.
  - injection H as <-. split; [done|]. split; [done|]. intros Ht. apply Z.ltb_ge in E. lia.
Qed.
(** The columns that no operation on a booking changes. *)
Definition fixed_columns (b : Booking) :=
  (bk_id b, bk_fiscal_year_id b, bk_application_id b, bk_transfer_id b, bk_kind b, bk_parent_expense_id b).
Lemma setattr_fixed f v b b' :
  setattr f v b = Some b' → fixed_columns b' = fixed_columns b ∧
  (f ≠ "budget_id" → bk_budget_id b' = bk_budget_id b) ∧ (f ≠ "amount" → bk_amount b' = bk_amount b) ∧
  (amount_ok (bk_amount b) = true → amount_ok (bk_amount b') = true).
Proof.
  unfold setattr. intros H. repeat case_bool_decide; subst; try (destruct v; try discriminate);
    try (apply bind_Some in H as (c & _ & H); destruct (amount_ok c) eqn:Ea; [|done]); try (injection H as <-); try done;
    repeat case_match; try discriminate; by injection H as <-.
Qed.
Lemma setattrs_fixed changes b b' :
  setattrs changes b = Some b' → fixed_columns b' = fixed_columns b ∧
  (dict_get "budget_id" changes = None → bk_budget_id b' = bk_budget_id b) ∧
  (dict_get "amount" changes = None → bk_amount b' = bk_amount b) ∧
  (amount_ok (bk_amount b) = true → amount_ok (bk_amount b') = true).
Proof.
  revert b. induction changes as [|[f v] r IH]; intros b H; [by injection H as <-|]. cbn in H.
  apply bind_Some in H as (c & Hc & H). apply setattr_fixed in Hc as (E & Eb & Ea & Eo). destruct (IH _ H) as (E' & Eb' & Ea' & Eo').
  split; [congruence|]. cbn. split; [|split; [|by auto]]; intros Hn; repeat case_decide; try done.
  - rewrite Eb', Eb by done. done.
  - rewrite Ea', Ea by done. done.
Qed.

Lemma get_application_in l i a : _get_application l i = Ok a → apps l !! i = Some a.
Proof. unfold _get_application, get_or. destruct (apps l !! i) eqn:E; [|done]. by intros [= ->]. Qed.
(** Where a new booking gets its cost center and its year from. *)
Definition from_application (l : Ledger) (b : Booking) : Prop :=
  ∃ i a, apps l !! i = Some a ∧ ap_budget_id a = Some (bk_budget_id b) ∧ ap_fiscal_year_id a = Some (bk_fiscal_year_id b).
Definition resolved (l : Ledger) (b y : string) : Prop :=
  ∃ today node o, node ∈ nodes l ∧ bu_id node = b ∧ _resolve_fiscal_year l today node o = Ok y.
Lemma book_expense_ok l today p actor id now l' :
  book_expense l today p actor id now = Ok l' →
  other_tables l l' ∧ ∃ b, bookings l' = bookings l ++ [b] ∧ bk_id b = id ∧ bk_transfer_id b = None ∧
    bk_parent_expense_id b = None ∧ amount_ok (bk_amount b) = true ∧
    (from_application l b ∧ open_year l (bk_fiscal_year_id b) ∨ resolved l (bk_budget_id b) (bk_fiscal_year_id b)).
Proof.
  unfold book_expense. intros H. apply bind_ok in H as ([node y] & Ht & H). apply bind_ok in H as (? & _ & H).
  apply bind_ok in H as (? & Ha & [= <-]). apply raise_if_ok, negb_false_iff in Ha. split; [done|].
  eexists. split; [done|]. cbn. do 4 (split; [done|]). destruct (ec_application_id p) as [a|].
  - left. unfold _bound_target in Ht. apply bind_ok in Ht as (app & Hap & Ht). apply get_application_in in Hap.
    destruct (ap_budget_id app) as [b|] eqn:Eb; [|done]. destruct (ap_fiscal_year_id app) as [z|] eqn:Ey; [|done].
    apply bind_ok in Ht as (n & Hn & Ht). apply bind_ok in Ht as (u & Ho & [= <- <-]). apply get_node_in in Hn as [_ Hn].
    apply require_open_ok in Ho. split; [|done]. exists a, app. split; [done|]. cbn. by rewrite Eb, Ey, Hn.
  - right. unfold _standalone_target in Ht. apply bind_ok in Ht as (b & _ & Ht). apply bind_ok in Ht as (n & Hn & Ht).
    apply bind_ok in Ht as (z & Hz & [= <- <-]). apply get_node_in in Hn as [Hn _]. cbn. by exists today, n, (ec_fiscal_year_id p).
Qed.
Lemma unless_none_other f g fields : f ≠ g → dict_get f (unless_none g fields) = None.
Proof. intros Hn. unfold unless_none. repeat case_match; cbn; by rewrite ?decide_False. Qed.
Lemma dict_get_omap_other {V} k fs (g : string → option V) :
  k ∉ fs → dict_get k (omap (λ f, v ← g f; Some (f, v)) fs) = None.
Proof.
  induction fs as [|f fs IH]; [done|]. intros Hk. cbn. destruct (g f) as [v|]; cbn; [|apply IH; set_solver].
  rewrite decide_False by set_solver. apply IH. set_solver.
Qed.
Lemma changes_amount fields target : dict_get "amount" (_expense_changes fields target) = dict_get "amount" (unless_none "amount" fields).
Proof.
  unfold _expense_changes. rewrite !dict_get_app. rewrite (unless_none_other "amount" "description") by done.
  rewrite dict_get_omap_other by (unfold optional_fields; set_solver).
  destruct (dict_get "amount" (unless_none _ _)); [done|]. by destruct target.
Qed.
Lemma unless_none_empty f fields : unless_none f fields = [] → dict_get f (unless_none f fields) = None.
Proof. by intros ->. Qed.
Lemma unless_none_in f k v fields : (k, v) ∈ unless_none f fields → k = f.
Proof. unfold unless_none. repeat case_match; intros Hin; try (by apply elem_of_nil in Hin); apply list_elem_of_singleton in Hin; congruence. Qed.
Lemma changes_budget fields target v :
  ("budget_id", v) ∈ _expense_changes fields target → ∃ t, target = Some t ∧ v = PStr (bu_id t).
Proof.
  unfold _expense_changes. rewrite !elem_of_app. intros [H|[H|[H|H]]].
  - by apply unless_none_in in H.
  - by apply unless_none_in in H.
  - destruct target as [t|]; [|by apply elem_of_nil in H]. apply list_elem_of_singleton in H as [= ->]. by exists t.
  - apply list_elem_of_omap in H as (f & Hf & H). apply bind_Some in H as (w & _ & [= -> _]). exfalso. revert Hf.
    unfold optional_fields. set_solver.
Qed.
Lemma setattrs_budget changes b b' :
  setattrs changes b = Some b' → bk_budget_id b' = bk_budget_id b ∨ ("budget_id", PStr (bk_budget_id b')) ∈ changes.
Proof.
  revert b. induction changes as [|[f v] r IH]; intros b H; [left; by injection H as <-|]. cbn in H.
  apply bind_Some in H as (c & Hc & H). destruct (IH _ H) as [E|Hin]; [|right; by right].
  destruct (decide (f = "budget_id")) as [->|Hf].
  - right. unfold setattr in Hc. rewrite bool_decide_false, bool_decide_true in Hc by done.
    destruct v; try discriminate. injection Hc as <-. rewrite E. left.
  - left. rewrite E. by apply setattr_fixed in Hc as (_ & -> & _).
Qed.
Lemma resolve_explicit l today node i y : _resolve_fiscal_year l today node (Some i) = Ok y → y = i.
Proof.
  unfold _resolve_fiscal_year. intros H. apply bind_ok in H as (tp & _ & H). apply bind_ok in H as (f & Hf & H).
  apply bind_ok in H as (? & _ & H). apply bind_ok in H as (? & _ & [= <-]). unfold _get_fiscal_year, get_or in Hf.
  destruct (find_by fy_id i (years l)) eqn:E; [|done]. injection Hf as ->. by apply find_by_id in E.
Qed.
(** A booking changes its cost center only to one whose top-level budget has its year, and a
    sub-booking not at all. *)
Definition moved_ok (l : Ledger) (e e' : Booking) : Prop :=
  bk_budget_id e' = bk_budget_id e ∨
  bk_parent_expense_id e = None ∧ ∃ today node, node ∈ nodes l ∧ bu_id node = bk_budget_id e' ∧
    _resolve_fiscal_year l today node (Some (bk_fiscal_year_id e)) = Ok (bk_fiscal_year_id e).
(** The rows after the update of [e] to [e'], the sum of its parent included. *)
Definition after_update (e e' : Booking) (sets_amount : bool) (bs : list Booking) : list Booking :=
  let bs' := update_row bk_id (bk_id e) (λ _, e') bs in
  match bk_parent_expense_id e with Some p => if sets_amount then refresh p bs' else bs' | None => bs' end.
Lemma update_expense_ok l actor today i fields l' :
  update_expense l actor today i fields = Ok l' →
  other_tables l l' ∧ ∃ e e', e ∈ bookings l ∧ fixed_columns e' = fixed_columns e ∧ open_year l (bk_fiscal_year_id e) ∧
    moved_ok l e e' ∧ (amount_ok (bk_amount e) = true → amount_ok (bk_amount e') = true) ∧
    (subs (bookings l) (bk_id e) ≠ [] → bk_amount e' = bk_amount e) ∧
    (dict_mem "amount" fields = false → bk_amount e' = bk_amount e) ∧
    bookings l' = after_update e e' (dict_mem "amount" fields) (bookings l).
Proof.
  unfold update_expense. intros H. apply bind_ok in H as (e & He & H). apply find_booking_in in He as (_ & He & <-).
  apply bind_ok in H as (? & Ho & H). apply require_open_ok in Ho. apply bind_ok in H as (? & Ha & H). apply raise_if_ok in Ha.
  apply bind_ok in H as (? & Hc & H). apply raise_if_ok in Hc. apply bind_ok in H as (target & Ht & H).
  apply bind_ok in H as (e' & Hs & H). destruct (setattrs _ e) as [e1|] eqn:Es; [|done]. injection Hs as ->.
  pose proof (setattrs_budget _ _ _ Es) as Hb. apply setattrs_fixed in Es as (Ef & _ & Ea & Eo).
  apply bind_ok in H as (? & _ & H). rewrite changes_amount in Ea.
  assert (Hfin : other_tables l l' ∧ bookings l' = after_update e e' (dict_mem "amount" fields) (bookings l)).
  { unfold after_update. destruct (bk_parent_expense_id e) as [p|]; [|by injection H as <-].
    destruct (dict_mem "amount" fields); [|by injection H as <-]. by apply recompute_ok in H as (? & ? & _). }
  destruct Hfin as [Hot Hbs]. split; [done|]. exists e, e'. do 3 (split; [done|]). split_and!; [|done| | |done].
  - destruct Hb as [?|Hb]; [by left|right]. apply changes_budget in Hb as (t & -> & [= Hb]).
    destruct (dict_get "budget_id" fields) as [[| | | |b| | | | |]|] eqn:Eg; try discriminate Ht.
    apply bind_ok in Ht as (n & Hn & Ht). apply bind_ok in Ht as (y & Hy & [= <-]). apply get_node_in in Hn as [Hn _].
    pose proof (resolve_explicit _ _ _ _ _ Hy) as ->. split; [|by exists today, n].
    apply andb_false_iff in Hc as [Hc|Hc]; [apply bool_decide_eq_false in Hc; by apply eq_None_not_Some|].
    unfold dict_mem in Hc. by rewrite Eg in Hc.
  - intros Hne. apply Ea. apply andb_false_iff in Ha as [Ha|Ha].
    + apply negb_false_iff, bool_decide_eq_true in Ha. by apply unless_none_empty.
    + by apply negb_false_iff, bool_decide_eq_true in Ha.
  - intros Hm. apply Ea. unfold unless_none, dict_mem in *. by destruct (dict_get "amount" fields).
Qed.
Definition removed (ids : list string) (bs : list Booking) : list Booking := filter (λ b, is_gone ids b = false) bs.
Definition opt_refresh (p : option string) (bs : list Booking) : list Booking :=
  match p with Some p => refresh p bs | None => bs end.
(** The rows that a delete of [e] takes: its transfer, or itself. *)
Definition with_pair (bs : list Booking) (e : Booking) : list string :=
  match bk_transfer_id e with Some t => bk_id <$> filter (λ b, bk_transfer_id b = Some t) bs | None => [bk_id e] end.
Lemma delete_expense_ok l actor i l' :
  delete_expense l actor i = Ok l' →
  other_tables l l' ∧ ∃ e, e ∈ bookings l ∧ open_year l (bk_fiscal_year_id e) ∧
    bookings l' = opt_refresh (bk_parent_expense_id e) (removed (with_pair (bookings l) e) (bookings l)).
Proof.
  unfold delete_expense. intros H. apply bind_ok in H as (e & He & H). apply find_booking_in in He as (_ & He & <-).
  apply bind_ok in H as (? & Ho & H). apply require_open_ok in Ho. unfold opt_refresh.
  destruct (bk_parent_expense_id e) as [p|] eqn:Ep.
  - apply recompute_ok in H as (Hot & Hb & _). split; [exact Hot|]. exists e. rewrite Ep. split; [done|]. split; [done|]. exact Hb.
  - injection H as <-. split; [done|]. exists e. by rewrite Ep.
Qed.
Lemma create_sub_booking_ok l i v c actor id now l' :
  create_sub_booking l i v c actor id now = Ok l' →
  other_tables l l' ∧ ∃ p b, p ∈ bookings l ∧ bk_id p = i ∧ bk_parent_expense_id p = None ∧ bk_transfer_id p = None ∧
    open_year l (bk_fiscal_year_id p) ∧ bk_id b = id ∧ bk_parent_expense_id b = Some i ∧ bk_transfer_id b = None ∧
    bk_fiscal_year_id b = bk_fiscal_year_id p ∧ bk_budget_id b = bk_budget_id p ∧ bk_kind b = bk_kind p ∧
    amount_ok (bk_amount b) = true ∧ bookings l' = refresh i (bookings l ++ [b]).
Proof.
  unfold create_sub_booking. intros H. apply bind_ok in H as (p & Hp & H). unfold _subbooking_parent_or_error in Hp.
  apply bind_ok in Hp as (q & Hq & Hp). apply find_booking_in in Hq as (_ & Hq & Ei). apply bind_ok in Hp as (? & Hn & Hp).
  apply bind_ok in Hp as (? & Ht & [= <-]). apply raise_if_ok, bool_decide_eq_false, eq_None_not_Some in Hn, Ht.
  apply bind_ok in H as (? & Ho & H). apply require_open_ok in Ho. apply bind_ok in H as (? & Ha & H).
  apply raise_if_ok, negb_false_iff in Ha. apply bind_ok in H as (l1 & Hr & [= <-]). apply recompute_ok in Hr as (Hot & Hb & _).
  split; [exact Hot|]. eexists q, _. do 5 (split; [done|]). do 7 (split; [shelve|]). exact Hb. Unshelve. all: done.
Qed.
Lemma create_transfer_ok l today p actor t o i now l' :
  create_transfer l today p actor t o i now = Ok l' →
  other_tables l l' ∧ ∃ a b, bookings l' = bookings l ++ [a; b] ∧ bk_id a = o ∧ bk_id b = i ∧
    bk_transfer_id a = Some t ∧ bk_transfer_id b = Some t ∧ bk_kind a = expense ∧ bk_kind b = income ∧
    bk_amount a = bk_amount b ∧ bk_fiscal_year_id a = bk_fiscal_year_id b ∧ bk_parent_expense_id a = None ∧
    bk_parent_expense_id b = None ∧ amount_ok (bk_amount a) = true ∧
    resolved l (bk_budget_id a) (bk_fiscal_year_id a) ∧ resolved l (bk_budget_id b) (bk_fiscal_year_id b).
Proof.
  unfold create_transfer. intros H. apply bind_ok in H as (src & Hs & H). apply bind_ok in H as (dst & Hd & H).
  apply get_node_in in Hs as [Hs _], Hd as [Hd _].
  apply bind_ok in H as (y & Hy & H). apply bind_ok in H as (z & Hz & H). apply bind_ok in H as (? & E & H).
  apply raise_if_ok, negb_false_iff, bool_decide_eq_true in E. subst z. apply bind_ok in H as (? & Ha & [= <-]).
  apply raise_if_ok, negb_false_iff in Ha. split; [done|]. eexists _, _. split; [done|]. cbn. do 11 (split; [done|]).
  split; [by exists today, src, (Some (tc_fiscal_year_id p))|by exists today, dst, (Some (tc_fiscal_year_id p))].
Qed.
Lemma legs_in l t out inc :
  _legs l t = Ok (out, inc) → out ∈ bookings l ∧ inc ∈ bookings l ∧ bk_transfer_id out = Some t ∧ bk_transfer_id inc = Some t ∧
    bk_kind out = expense ∧ bk_kind inc = income.
Proof.
  unfold _legs, transfer_rows. intros H.
  assert (Hh : ∀ (k : ExpenseKind) r, head (filter (λ r, bk_kind r = k) (filter (λ b, bk_transfer_id b = Some t) (bookings l))) = Some r →
     r ∈ bookings l ∧ bk_transfer_id r = Some t ∧ bk_kind r = k).
  { intros k r E. assert (Hr : r ∈ filter (λ r, bk_kind r = k) (filter (λ b, bk_transfer_id b = Some t) (bookings l))).
    { destruct (filter (λ r, bk_kind r = k) _); [done|]. injection E as ->. left. }
    by apply list_elem_of_filter in Hr as [? [? ?]%list_elem_of_filter]. }
  destruct (head _) as [a|] eqn:Ea; [|done]. destruct (head (filter (λ r, bk_kind r = income) _)) as [b|] eqn:Eb; [|done].
  injection H as -> ->. apply Hh in Ea as (? & ? & ?), Eb as (? & ? & ?). done.
Qed.
Lemma patchable_no_budget (fields : list (string * pyval)) v : ("budget_id", v) ∉ omap (λ f, v ← dict_get f fields; Some (f, v)) _PATCHABLE.
Proof.
  intros (f & Hf & H)%list_elem_of_omap. apply bind_Some in H as (w & _ & [= -> _]). revert Hf. unfold _PATCHABLE. set_solver.
Qed.
Lemma setattrs_amount changes b c b' c' :
  setattrs changes b = Some b' → setattrs changes c = Some c' → bk_amount b = bk_amount c → bk_amount b' = bk_amount c'.
Proof.
  revert b c. induction changes as [|[f v] r IH]; intros b c H H' E; [injection H as <-; by injection H' as <-|]. cbn in H, H'.
  apply bind_Some in H as (b1 & Hb & H), H' as (c1 & Hc & H'). refine (IH _ _ H H' _).
  destruct (decide (f = "amount")) as [->|Hf].
  - unfold setattr in Hb, Hc. rewrite bool_decide_true in Hb, Hc by done. destruct v; try discriminate.
    apply bind_Some in Hb as (x & Hx & Hb), Hc as (y & Hy & Hc). rewrite Hx in Hy. injection Hy as <-.
    destruct (amount_ok x); [|done]. injection Hb as <-. by injection Hc as <-.
  - apply setattr_fixed in Hb as (_ & _ & Hb & _), Hc as (_ & _ & Hc & _). by rewrite Hb, Hc.
Qed.
Lemma update_transfer_ok l actor t fields l' :
  update_transfer l actor t fields = Ok l' →
  other_tables l l' ∧ ∃ out inc out' inc', out ∈ bookings l ∧ inc ∈ bookings l ∧ bk_transfer_id out = Some t ∧
    bk_transfer_id inc = Some t ∧ bk_kind out = expense ∧ bk_kind inc = income ∧ open_year l (bk_fiscal_year_id out) ∧
    fixed_columns out' = fixed_columns out ∧ fixed_columns inc' = fixed_columns inc ∧
    bk_budget_id out' = bk_budget_id out ∧ bk_budget_id inc' = bk_budget_id inc ∧
    (amount_ok (bk_amount out) = true → amount_ok (bk_amount out') = true) ∧
    (amount_ok (bk_amount inc) = true → amount_ok (bk_amount inc') = true) ∧
    (bk_amount out = bk_amount inc → bk_amount out' = bk_amount inc') ∧
    bookings l' = update_row bk_id (bk_id inc) (λ _, inc') (update_row bk_id (bk_id out) (λ _, out') (bookings l)).
Proof.
  unfold update_transfer. intros H. apply bind_ok in H as ([out inc] & Hl & H). apply legs_in in Hl as (Ho & Hi & To & Ti & Ko & Ki).
  apply bind_ok in H as (? & Hop & H). apply require_open_ok in Hop. apply bind_ok in H as (? & _ & H). cbn [fst snd] in *.
  apply bind_ok in H as (out' & Eo & H). apply bind_ok in H as (inc' & Ei & [= <-]).
  set (ch := omap _ _PATCHABLE) in *. destruct (setattrs ch out) as [x1|] eqn:Ex; [|done]. injection Eo as ->.
  destruct (setattrs ch inc) as [y1|] eqn:Ey; [|done]. injection Ei as ->. split; [done|]. exists out, inc, out', inc'.
  pose proof (setattrs_budget _ _ _ Ex) as [Bo|Bo]; [|by apply patchable_no_budget in Bo].
  pose proof (setattrs_budget _ _ _ Ey) as [Bi|Bi]; [|by apply patchable_no_budget in Bi].
  pose proof (setattrs_amount _ _ _ _ _ Ex Ey) as Ea.
  apply setattrs_fixed in Ex as (? & _ & _ & ?), Ey as (? & _ & _ & ?). done.
Qed.
Lemma delete_transfer_ok l actor t l' :
  delete_transfer l actor t = Ok l' →
  other_tables l l' ∧ ∃ out inc, out ∈ bookings l ∧ inc ∈ bookings l ∧ bk_transfer_id out = Some t ∧ bk_transfer_id inc = Some t ∧
    bk_kind out = expense ∧ bk_kind inc = income ∧ open_year l (bk_fiscal_year_id out) ∧
    bookings l' = removed [bk_id out; bk_id inc] (bookings l).
Proof.
  unfold delete_transfer. intros H. apply bind_ok in H as ([out inc] & Hl & H). apply legs_in in Hl as (Ho & Hi & To & Ti & Ko & Ki).
  apply bind_ok in H as (? & Hop & [= <-]). apply require_open_ok in Hop. split; [done|]. by exists out, inc.
Qed.

(** *** Years, allocations and applications *)
Lemma get_year_in l i f : _get_fiscal_year l i = Ok f → f ∈ years l ∧ fy_id f = i ∧ find_by fy_id i (years l) = Some f.
Proof.
  unfold _get_fiscal_year, get_or. destruct (find_by fy_id i (years l)) eqn:E; [|done]. intros [= ->].
  split; [by eapply find_by_elem|split; [by eapply find_by_id|done]].
Qed.
Lemma in_use_none l y :
  in_use l y = None → (∀ b, b ∈ bookings l → bk_fiscal_year_id b ≠ y) ∧ (∀ a, a ∈ allocs l → al_fiscal_year_id a ≠ y) ∧
    (∀ i a, apps l !! i = Some a → ap_fiscal_year_id a ≠ Some y).
Proof.
  unfold in_use. intros H.
  destruct (existsb (λ b, bool_decide (bk_fiscal_year_id b = y)) _) eqn:Eb; [done|].
  destruct (existsb (λ a, bool_decide (al_fiscal_year_id a = y)) _) eqn:Ea; [done|].
  destruct (existsb (λ a, bool_decide (ap_fiscal_year_id a = Some y)) _) eqn:Ep; [done|].
  rewrite existsb_false in Eb. rewrite existsb_false in Ea. rewrite existsb_false in Ep. split_and!.
  - intros b Hb E. specialize (Eb b Hb). by rewrite bool_decide_true in Eb.
  - intros a Ha E. specialize (Ea a Ha). by rewrite bool_decide_true in Ea.
  - intros i a Hi E. assert (Hin : a ∈ snd <$> map_to_list (apps l)).
    { apply list_elem_of_fmap. exists (i, a). split; [done|]. by apply elem_of_map_to_list. }
    specialize (Ep a Hin). by rewrite bool_decide_true in Ep.
Qed.
(** The links of the years that survive: id, budget and close. *)
Definition year_key (f : FiscalYear) : string * string := (fy_id f, fy_budget_id f).
Lemma update_year_ok l i y yr a l' :
  update_fiscal_year l i y yr a = Ok l' →
  nodes l' = nodes l ∧ bookings l' = bookings l ∧ allocs l' = allocs l ∧ apps l' = apps l ∧ year_links l' = year_links l.
Proof.
  unfold update_fiscal_year. intros H. apply bind_ok in H as (top & _ & H). apply bind_ok in H as (fy & _ & H).
  apply bind_ok in H as (? & _ & H). apply bind_ok in H as (? & _ & H). apply bind_ok in H as (b & _ & H).
  apply bind_ok in H as (? & _ & [= <-]). do 4 (split; [done|]). unfold year_links, update_row. cbn. rewrite <- list_fmap_compose.
  apply list_fmap_ext. intros k f _. cbn. case_bool_decide; [|done]. by destruct b as [[]|].
Qed.
Definition only_years (l l' : Ledger) : Prop :=
  nodes l' = nodes l ∧ bookings l' = bookings l ∧ allocs l' = allocs l ∧ apps l' = apps l.
Lemma create_year_ok l i y a id l' :
  create_fiscal_year l i y a id = Ok l' →
  only_years l l' ∧ ∃ f, years l' = years l ++ [f] ∧ fy_id f = id ∧ fy_closed_at f = None.
Proof.
  unfold create_fiscal_year. intros H. apply bind_ok in H as (top & _ & H). apply bind_ok in H as (b & _ & H).
  apply bind_ok in H as (? & _ & [= <-]). split; [done|]. by eexists.
Qed.
Lemma delete_year_ok l actor i y l' :
  delete_fiscal_year l actor i y = Ok l' →
  only_years l l' ∧ open_year l y ∧ years l' = filter (λ f, fy_id f ≠ y) (years l) ∧
  (∀ b, b ∈ bookings l → bk_fiscal_year_id b ≠ y) ∧ (∀ a, a ∈ allocs l → al_fiscal_year_id a ≠ y) ∧
  (∀ k a, apps l !! k = Some a → ap_fiscal_year_id a ≠ Some y).
Proof.
  unfold delete_fiscal_year. intros H. apply bind_ok in H as (top & _ & H). apply bind_ok in H as (fy & Hf & H).
  unfold _own_fiscal_year in Hf. apply bind_ok in Hf as (f & Hf & Hown). apply bind_ok in Hown as (? & _ & [= <-]).
  apply get_year_in in Hf as (_ & _ & Hf). apply bind_ok in H as (? & Hc & H). apply refuse_closed_ok in Hc.
  apply bind_ok in H as (? & Hu & [= <-]). apply raise_if_ok, bool_decide_eq_false, eq_None_not_Some in Hu.
  split; [done|]. split; [|split; [done|by apply in_use_none]]. intros g Hg. rewrite Hf in Hg. by injection Hg as <-.
Qed.
Lemma close_year_ok l actor i y c now l' :
  set_fiscal_year_closed l actor i y c now = Ok l' → only_years l l' ∧ year_key <$> years l' = year_key <$> years l.
Proof.
  unfold set_fiscal_year_closed. intros H. apply bind_ok in H as (top & _ & H). apply bind_ok in H as (fy & _ & H).
  destruct (bool_decide _); injection H as <-; [done|]. split; [done|]. unfold update_row. cbn. rewrite <- list_fmap_compose.
  apply list_fmap_ext. intros k f _. cbn. by case_bool_decide.
Qed.
Definition only_allocs (l l' : Ledger) : Prop :=
  nodes l' = nodes l ∧ years l' = years l ∧ bookings l' = bookings l ∧ apps l' = apps l.
Lemma set_allocation_ok l actor i y v l' :
  set_allocation l actor i y v = Ok l' →
  only_allocs l l' ∧ open_year l y ∧ allocs l' = allocs (put_allocation l i y v) ∧
  (∃ node, node ∈ nodes l ∧ bu_id node = i ∧
    ∀ p, bu_parent_id node = Some p →
      _children_alloc_sum l p y (Some i) + v ≤ as_amount (al_allocated <$> _allocation l p y)) ∧
  _children_alloc_sum l i y None ≤ v.
Proof.
  unfold set_allocation. intros H. apply bind_ok in H as (node & Hn & H). apply get_node_in in Hn as [Hn <-].
  apply bind_ok in H as (fy & Hf & H). apply get_year_in in Hf as (_ & _ & Hf). apply bind_ok in H as (top & _ & H).
  apply bind_ok in H as (? & _ & H). apply bind_ok in H as (? & Hc & H). apply refuse_closed_ok in Hc.
  apply bind_ok in H as (? & Hp & H). apply bind_ok in H as (? & Hd & [= <-]).
  apply raise_if_ok in Hd. unfold parent_allocation_below_children in Hd. apply Z.ltb_ge in Hd.
  split; [done|]. split; [intros g Hg; rewrite Hf in Hg; by injection Hg as <-|]. split; [done|]. split; [|done].
  exists node. split; [done|]. split; [done|]. intros p Ep. rewrite Ep in Hp. apply raise_if_ok in Hp.
  unfold children_allocation_exceeds_parent in Hp. by apply Z.ltb_ge in Hp.
Qed.
(** Only this application changes, and only its cost center, its year and its snapshot. *)
Definition app_moved (l l' : Ledger) (i : string) (a' : Application) : Prop :=
  nodes l' = nodes l ∧ years l' = years l ∧ bookings l' = bookings l ∧ allocs l' = allocs l ∧
  apps l' = alter (λ _, a') i (apps l) ∧ ap_id a' = i.
Lemma fill_snapshot_budget d a : ap_budget_id (fill_snapshot d a) = ap_budget_id a ∧ ap_fiscal_year_id (fill_snapshot d a) = ap_fiscal_year_id a ∧
  ap_id (fill_snapshot d a) = ap_id a.
Proof. unfold fill_snapshot. by repeat case_match. Qed.
Lemma require_open_opt l o u : _require_open_fiscal_year l o = Ok u → ∀ y, o = Some y → open_year l y.
Proof. intros H y ->. by eapply require_open_ok. Qed.
Lemma assign_budget_ok l actor today i b y l' :
  assign_budget l actor today i b y = Ok l' →
  ∃ a a', apps l !! i = Some a ∧ app_moved l l' (ap_id a) a' ∧ in_budget_vote_state (flow_db l) a = false ∧
    (∀ z, ap_fiscal_year_id a = Some z → open_year l z) ∧
    (ap_budget_id a' = None ∧ ap_fiscal_year_id a' = None ∨
     ∃ c z, ap_budget_id a' = Some c ∧ ap_fiscal_year_id a' = Some z ∧ resolved l c z).
Proof.
  unfold assign_budget. intros H. apply bind_ok in H as (a & Ha & H). apply get_application_in in Ha.
  apply bind_ok in H as (? & Hv & H). apply raise_if_ok in Hv. apply bind_ok in H as (? & Ho & H).
  apply bind_ok in H as (node & Hn & H). apply get_opt_node_in in Hn. apply bind_ok in H as (z & Hz & [= <-]).
  exists a. eexists. split; [done|]. split; [|split; [done|split; [by eapply require_open_opt|]]].
  { unfold app_moved, apps. cbn. do 4 (split; [done|]). destruct (fill_snapshot_budget (flow_db l) (set_assignment (bu_id <$> node) z a)) as (_ & _ & E).
    by rewrite !E. }
  destruct (fill_snapshot_budget (flow_db l) (set_assignment (bu_id <$> node) z a)) as (-> & -> & _). cbn.
  destruct node as [n|]; [right|left; by injection Hz as <-]. apply bind_ok in Hz as (w & Hw & [= <-]).
  destruct b as [b|]; [|done]. destruct Hn as [Hn <-]. exists (bu_id n), w. split; [done|]. split; [done|]. by exists today, n, y.
Qed.
Lemma move_year_ok l actor i y l' :
  move_fiscal_year l actor i y = Ok l' →
  ∃ a b node top, apps l !! i = Some a ∧ ap_budget_id a = Some b ∧ node ∈ nodes l ∧ bu_id node = b ∧
    _top_level l node = Ok top ∧ (∃ f, f ∈ years l ∧ fy_id f = y ∧ fy_budget_id f = bu_id top) ∧ open_year l y ∧
    (∀ z, ap_fiscal_year_id a = Some z → open_year l z) ∧
    app_moved l l' (ap_id a) (set_assignment (Some b) (Some y) a).
Proof.
  unfold move_fiscal_year. intros H. apply bind_ok in H as (a & Ha & H). apply get_application_in in Ha.
  apply bind_ok in H as (b & Hb & H). apply bind_ok in H as (node & Hn & H). apply get_node_in in Hn as [Hn En].
  apply bind_ok in H as (top & Ht & H). apply bind_ok in H as (fy & Hf & H). apply get_year_in in Hf as (Hfy & <- & Hf).
  apply bind_ok in H as (? & Eb & H). apply raise_if_ok, negb_false_iff, bool_decide_eq_true in Eb.
  apply bind_ok in H as (? & Ho & H). apply bind_ok in H as (? & Hc & [= <-]). apply refuse_closed_ok in Hc.
  unfold get_or in Hb. destruct (ap_budget_id a) as [c|] eqn:Ec; [|done]. injection Hb as ->.
  exists a, b, node, top. do 5 (split; [done|]). split; [by exists fy|]. split.
  { intros g Hg. rewrite Hf in Hg. by injection Hg as <-. }
  split; [by eapply require_open_opt|]. done.
Qed.

(** ** Reverts *)
Section Reverts.
Context (BudgetNodeUpdate ExpenseUpdate : list (string * pyval) → option (list (string * pyval))).
(** A revert is a step, or it deletes bookings, or it deletes an allocation. *)
Definition takes_bookings (l l' : Ledger) : Prop :=
  other_tables l l' ∧ ∃ e, e ∈ bookings l ∧ open_year l (bk_fiscal_year_id e) ∧
    (bookings l' = removed [bk_id e] (bookings l) ∨
     ∃ t, bk_transfer_id e = Some t ∧ bookings l' = removed (bk_id <$> filter (λ b, bk_transfer_id b = Some t) (bookings l)) (bookings l)).
Definition takes_allocation (l l' : Ledger) : Prop :=
  only_allocs l l' ∧ ∃ k, allocs l' = filter (λ a, alloc_key a ≠ k) (allocs l).
Lemma revert_cases l actor today e l' :
  revert_audit BudgetNodeUpdate ExpenseUpdate l actor today e = Ok l' →
  budget_step l l' ∨ takes_bookings l l' ∨ takes_allocation l l'.
Proof.
  unfold revert_audit. intros H.
  repeat match type of H with (if ?c then _ else _) = _ => destruct c end.
  - right; left. unfold _revert_expense_create in H. apply bind_ok in H as (b & Hb & H). apply bind_ok in H as (? & Ho & [= <-]).
    apply require_open_ok in Ho. unfold get_or in Hb. destruct (find_by bk_id _ _) as [c|] eqn:E; [|done]. injection Hb as ->.
    pose proof (find_by_elem _ _ _ _ E). apply find_by_id in E. split; [done|]. exists b. split; [done|]. split; [done|]. left. by rewrite E.
  - right; left. unfold _revert_transfer_create in H. apply bind_ok in H as (b & Hb & H). apply bind_ok in H as (? & Ho & [= <-]).
    apply require_open_ok in Ho. unfold get_or in Hb. destruct (head _) as [c|] eqn:E; [|done]. injection Hb as ->.
    assert (Hc : b ∈ transfer_rows l (le_target_id e)).
    { destruct (transfer_rows _ _); [done|]. injection E as ->. left. }
    apply list_elem_of_filter in Hc as [Ht Hc]. split; [done|]. exists b. split; [done|]. split; [done|]. right. by eexists.
  - left. unfold _revert_node_create in H. apply bind_ok in H as (? & _ & H). by eapply step_delete_node.
  - left. unfold _revert_node_update in H. apply bind_ok in H as (? & _ & H). apply bind_ok in H as (? & _ & H).
    apply bind_ok in H as (? & _ & H). apply bind_ok in H as (? & _ & H). by eapply step_update_node.
  - unfold _revert_allocation_set in H. apply bind_ok in H as (y & _ & H). apply bind_ok in H as (? & _ & H).
    apply bind_ok in H as (? & _ & H). apply bind_ok in H as (? & _ & H).
    assert (Hset : ∀ v, (d ← get_or (decimal_of_str (py_str v)) (raised InvalidOperation); c ← get_or (cents_of d) (raised ValueError);
       _ ← raise_if (negb ((0 <=? c) && (c <=? 999999999999))) (raised ValueError);
       set_allocation l (Some actor) (le_target_id e) y c) = Ok l' → budget_step l l').
    { intros v Hv. apply bind_ok in Hv as (? & _ & Hv). apply bind_ok in Hv as (c & _ & Hv). apply bind_ok in Hv as (? & Hc & Hv).
      apply raise_if_ok, negb_false_iff, andb_true_iff in Hc as [Hc _]. apply Z.leb_le in Hc. by eapply step_allocate. }
    destruct (dict_get "previousAllocated" _) as [v|]; [|right; right; injection H as <-; split; [done|]; by eexists].
    destruct v; try (left; by eapply Hset). right; right. injection H as <-. split; [done|]. by eexists.
  - left. unfold _revert_expense_update in H. apply bind_ok in H as (? & _ & H). apply bind_ok in H as (? & _ & H).
    apply bind_ok in H as (? & _ & H). apply bind_ok in H as (? & _ & H). by eapply step_update_booking.
  - done.
Qed.
Definition revert_step (l l' : Ledger) : Prop :=
  ∃ actor today e, revert_audit BudgetNodeUpdate ExpenseUpdate l actor today e = Ok l'.
End Reverts.
