(* ===== verification/LedgerProps.v ===== *)
(** What the operations on the budget keep: the tree of the cost centers, the fiscal year of every
    booking, the distribution of the allocations and the freeze of a closed year. *)

From stdpp Require Import gmap strings.
From S2P Require Import Prelude PyStr PyNum PyValue PyDate BudgetRules BudgetFacts FlowDb Decision Ledger Bookings LedgerFacts LedgerSteps.

Section Steps.
Context (BudgetNodeUpdate ExpenseUpdate : list (string * pyval) → option (list (string * pyval))).
(** An operation or a revert. *)
Definition any_step (l l' : Ledger) : Prop := budget_step l l' ∨ revert_step BudgetNodeUpdate ExpenseUpdate l l'.
Lemma any_step_cases l l' : any_step l l' → budget_step l l' ∨ takes_bookings l l' ∨ takes_allocation l l'.
Proof. intros [H|(actor & today & e & H)]; [by left|by eapply revert_cases]. Qed.
(** An invariant of the operations and of the deletes of a revert holds in every reachable state. *)
Lemma steps_keep (P : Ledger → Prop) :
  (∀ l l', budget_step l l' → P l → P l') → (∀ l l', takes_bookings l l' → P l → P l') →
  (∀ l l', takes_allocation l l' → P l → P l') → ∀ l l', rtc any_step l l' → P l → P l'.
Proof.
  intros Hs Hb Ha l l'. induction 1 as [l|l l1 l2 H _ IH]; [done|]. intros HP. apply IH.
  apply any_step_cases in H as [H|[H|H]]; [by eapply Hs|by eapply Hb|by eapply Ha].
Qed.

(** ** The tree *)
Lemma step_tree l l' : budget_step l l' → tree_ok (nodes l) → tree_ok (nodes l').
Proof.
  intros H Hok. destruct H.
  - by eapply create_node_ok.
  - by eapply update_node_ok.
  - by eapply delete_node_ok.
  - by apply create_year_ok in H0 as [(-> & _) _].
  - by apply update_year_ok in H as (-> & _).
  - by apply delete_year_ok in H as ((-> & _) & _).
  - by apply close_year_ok in H as ((-> & _) & _).
  - by apply set_allocation_ok in H0 as ((-> & _) & _).
  - by apply assign_budget_ok in H as (? & ? & _ & (-> & _) & _).
  - by apply move_year_ok in H as (? & ? & ? & ? & _ & _ & _ & _ & _ & _ & _ & _ & (-> & _)).
  - by apply book_expense_ok in H0 as ((-> & _) & _).
  - by apply update_expense_ok in H as ((-> & _) & _).
  - by apply delete_expense_ok in H as ((-> & _) & _).
  - by apply create_sub_booking_ok in H0 as ((-> & _) & _).
  - by apply create_transfer_ok in H3 as ((-> & _) & _).
  - by apply update_transfer_ok in H as ((-> & _) & _).
  - by apply delete_transfer_ok in H as ((-> & _) & _).
Qed.
Lemma steps_tree l l' : rtc any_step l l' → tree_ok (nodes l) → tree_ok (nodes l').
Proof.
  apply (steps_keep (λ l, tree_ok (nodes l))); [apply step_tree|by intros ? ? [(-> & _) _]|by intros ? ? [(-> & _) _]].
Qed.
(** One step up, and the ancestors of a node, itself included. *)
Definition parent_of (n : list Budget) (i p : string) : Prop := ∃ b, b ∈ n ∧ bu_id b = i ∧ bu_parent_id b = Some p.
Lemma prefix_ancestor n i t ks j u ls :
  tree_ok n → chain n i t ks → chain n j u ls → ls `prefix_of` ks → rtc (parent_of n) i j.
Proof.
  intros Hok H Hj. induction H as [b Hb Hp|b p t ks Hb Hp H IH]; intros Hpre.
  - assert (ls = [bu_key b]) as ->.
    { apply chain_nonempty in Hj. destruct ls as [|x ls]; [done|]. destruct Hpre as [r Hr]. injection Hr as <- Hr.
      symmetry in Hr. by apply app_nil in Hr as [-> _]. }
    by destruct (chain_inj n Hok _ _ _ _ _ Hj (chain_top n b Hb Hp)) as [-> _].
  - destruct (prefix_snoc_inv _ _ _ Hpre) as [Hq| ->].
    + eapply rtc_l; [by exists b|]. by apply IH.
    + by destruct (chain_inj n Hok _ _ _ _ _ Hj (chain_child n b p t ks Hb Hp H)) as [-> _].
Qed.
Lemma ancestor_prefix n i j : tree_ok n → rtc (parent_of n) i j → ∀ t ks u ls, chain n i t ks → chain n j u ls → ls `prefix_of` ks.
Proof.
  intros Hok. induction 1 as [i|i p j (b & Hb & <- & Hp) _ IH]; intros t ks u ls Hi Hj.
  - destruct (chain_fun n (tree_ids _ Hok) _ _ _ _ _ Hi Hj) as [_ ->]. done.
  - inversion Hi as [c Hc Hcp E|c q ? ms Hc Hcp Hq E]; subst; pose proof (same_row bu_id n _ _ (tree_ids _ Hok) Hc Hb E) as ->; [congruence|].
    rewrite Hp in Hcp. injection Hcp as <-. apply prefix_app_r. by eapply IH.
Qed.
(** In every state of the budget the path of a cost center tells its place: no two cost
    centers share a path, the test of a path prefix holds exactly for the ancestors by the parent
    links, and the first segment of a path names the root above.  The rename of a key, which
    rewrites the paths of a whole subtree, keeps this like every other operation. *)
Lemma paths_tell_the_tree l l' :
  tree_ok (nodes l) → rtc any_step l l' →
  NoDup (bu_path_key <$> nodes l') ∧
  (∀ a b, a ∈ nodes l' → b ∈ nodes l' →
     is_self_or_descendant_path (bu_path_key a) (bu_path_key b) = true ↔ rtc (parent_of (nodes l')) (bu_id b) (bu_id a)) ∧
  (∀ b, b ∈ nodes l' → ∃ top, _top_level l' b = Ok top ∧ root_of (nodes l') (bu_id b) (bu_id top)).
Proof.
  intros Hok0 Hs. pose proof (steps_tree _ _ Hs Hok0) as Hok. split; [|split].
  - assert (Hn : NoDup (nodes l')) by (eapply NoDup_fmap_1; apply Hok).
    apply NoDup_fmap_2_strong; [|done]. intros a b Ha Hb. by apply (tree_path_inj _ Hok).
  - intros a b Ha Hb. destruct (tree_paths _ Hok a Ha) as (t & ks & Ca & ->), (tree_paths _ Hok b Hb) as (u & ls & Cb & ->).
    rewrite path_prefix by (by eapply chain_keys_ok || by eapply chain_nonempty). split.
    + by eapply prefix_ancestor.
    + intros Hr. by eapply ancestor_prefix.
  - intros b Hb. destruct (top_level_total l' b Hok Hb) as [top Ht]. exists top. split; [done|]. by eapply top_level_root.
Qed.

(** ** The fiscal years of bookings and applications *)
Record years_ok (l : Ledger) : Prop := YearsOk {
  years_tree : tree_ok (nodes l);
  years_ids : NoDup (fy_id <$> years l);
  years_bookings : ∀ b, b ∈ bookings l → fits l (bk_budget_id b) (bk_fiscal_year_id b);
  years_apps : ∀ i a b y, apps l !! i = Some a → ap_budget_id a = Some b → ap_fiscal_year_id a = Some y → fits l b y
}.
Lemma fits_mono l l' b y :
  (∀ t, root_of (nodes l) b t → root_of (nodes l') b t) →
  (∀ f, f ∈ years l → fy_id f = y → ∃ g, g ∈ years l' ∧ year_key g = year_key f) → fits l b y → fits l' b y.
Proof.
  intros Hr Hy (t & f & Ht & Hf & Ey & Eb). destruct (Hy f Hf Ey) as (g & Hg & [= E1 E2]). exists t, g.
  split; [by apply Hr|]. split; [done|]. split; congruence.
Qed.
Lemma fits_same l l' b y : nodes l' = nodes l → year_key <$> years l' = year_key <$> years l → fits l b y → fits l' b y.
Proof.
  intros En Ey. apply fits_mono; [by rewrite En|]. intros f Hf _.
  assert (Hk : year_key f ∈ year_key <$> years l') by (rewrite Ey; by apply list_elem_of_fmap_2).
  apply list_elem_of_fmap in Hk as (g & E & Hg). by exists g.
Qed.
Lemma year_links_key l l' : year_links l' = year_links l → year_key <$> years l' = year_key <$> years l.
Proof.
  intros E. apply (f_equal (fmap (λ k, k.1))) in E. unfold year_links in E. rewrite <- !list_fmap_compose in E. exact E.
Qed.
Lemma year_key_ids l l' : year_key <$> years l' = year_key <$> years l → NoDup (fy_id <$> years l) → NoDup (fy_id <$> years l').
Proof.
  intros E H. apply (f_equal (fmap fst)) in E. rewrite <- !list_fmap_compose in E.
  replace (fy_id <$> years l') with (fst ∘ year_key <$> years l') by done. by rewrite E.
Qed.
Lemma resolved_fits l b y : years_ok l → resolved l b y → fits l b y.
Proof. intros [Ht Hi _ _] (today & node & o & Hn & <- & H). by destruct (resolve_ok _ _ _ _ _ H Ht Hn Hi). Qed.
(** Rows that keep their cost center and their year. *)
Definition placed_like (b c : Booking) : Prop := bk_budget_id b = bk_budget_id c ∧ bk_fiscal_year_id b = bk_fiscal_year_id c.
Lemma refresh_in p bs b : b ∈ refresh p bs → ∃ c, c ∈ bs ∧ fixed_columns b = fixed_columns c ∧ bk_budget_id b = bk_budget_id c.
Proof.
  unfold refresh. case_match; [|by exists b]. intros (c & Hc & [->|[_ ->]])%update_row_in; by exists c.
Qed.
Lemma opt_refresh_in p bs b : b ∈ opt_refresh p bs → ∃ c, c ∈ bs ∧ fixed_columns b = fixed_columns c ∧ bk_budget_id b = bk_budget_id c.
Proof. destruct p; [apply refresh_in|by exists b]. Qed.
Lemma after_update_in e e' s bs b :
  b ∈ after_update e e' s bs → ∃ c, (c ∈ bs ∨ c = e') ∧ fixed_columns b = fixed_columns c ∧ bk_budget_id b = bk_budget_id c.
Proof.
  unfold after_update. intros H.
  assert (∃ c, c ∈ update_row bk_id (bk_id e) (λ _, e') bs ∧ fixed_columns b = fixed_columns c ∧ bk_budget_id b = bk_budget_id c) as (c & Hc & E).
  { destruct (bk_parent_expense_id e) as [p|]; [|by exists b]. destruct s; [by apply refresh_in in H|by exists b]. }
  exists c. split; [|done]. apply update_row_in in Hc as (d & Hd & [->|[_ ->]]); auto.
Qed.
Lemma removed_in ids bs b : b ∈ removed ids bs → b ∈ bs.
Proof. by intros [_ ?]%list_elem_of_filter. Qed.
Lemma fixed_year b c : fixed_columns b = fixed_columns c → bk_fiscal_year_id b = bk_fiscal_year_id c.
Proof. by intros [= _ ? _ _ _ _]. Qed.
Lemma years_bookings_only l l' :
  years_ok l → other_tables l l' →
  (∀ b, b ∈ bookings l' → (∃ c, c ∈ bookings l ∧ placed_like b c) ∨ fits l (bk_budget_id b) (bk_fiscal_year_id b)) → years_ok l'.
Proof.
  intros [Ht Hi Hb Ha] (En & Ey & _ & Ep) H.
  assert (Hf : ∀ b y, fits l b y → fits l' b y) by (intros b y; apply fits_same; by rewrite ?Ey).
  split; rewrite ?En, ?Ey, ?Ep; try done.
  - intros b Hbn. apply Hf. destruct (H b Hbn) as [(c & Hc & -> & ->)|?]; [by apply Hb|done].
  - intros i a b y Hap Hab Hay. apply Hf. by eapply Ha.
Qed.
Lemma years_app_moved l l' i a' :
  years_ok l → app_moved l l' i a' →
  (∀ b y, ap_budget_id a' = Some b → ap_fiscal_year_id a' = Some y → fits l b y) → years_ok l'.
Proof.
  intros [Ht Hi Hb Ha] (En & Ey & Eb & _ & Ep & _) H.
  assert (Hf : ∀ b y, fits l b y → fits l' b y) by (intros b y; apply fits_same; by rewrite ?Ey).
  split; rewrite ?En, ?Ey, ?Eb; try done.
  - intros b Hbn. by apply Hf, Hb.
  - intros k a b y Hk Eb' Ey'. apply Hf. rewrite Ep in Hk. apply lookup_alter_Some in Hk as [(-> & c & Hc & ->)|[_ Hk]]; [by apply H|by eapply Ha].
Qed.
Lemma years_kept l l' :
  years_ok l → tree_ok (nodes l') → (∀ i t, root_of (nodes l) i t → root_of (nodes l') i t) →
  year_key <$> years l' = year_key <$> years l → bookings l' = bookings l → apps l' = apps l → years_ok l'.
Proof.
  intros [Ht Hi Hb Ha] Ht' Hr Ey Eb Ep. assert (Hf : ∀ b y, fits l b y → fits l' b y).
  { intros b y. apply fits_mono; [apply Hr|]. intros f Hf _.
    assert (Hk : year_key f ∈ year_key <$> years l') by (rewrite Ey; by apply list_elem_of_fmap_2).
    apply list_elem_of_fmap in Hk as (g & E & Hg). by exists g. }
  split; rewrite ?Eb, ?Ep; [done|by eapply year_key_ids|intros b Hbn; by apply Hf, Hb|].
  intros i a b y Hap Hab Hay. apply Hf. by eapply Ha.
Qed.
Lemma years_delete_node l actor i l' : delete_node l actor i = Ok l' → years_ok l → years_ok l'.
Proof.
  intros H [Ht Hi Hb Ha]. apply delete_node_ok in H as (Ht' & Hr & Ep & Hnb & Hna & gone & Hg & Hga & Eb & Ey & _ & _); [|done].
  assert (Hf : ∀ b y, b ≠ i → y ∉ gone → fits l b y → fits l' b y).
  { intros b y Hbi Hy. apply fits_mono; [intros t; by apply Hr|]. intros f Hf <-. exists f. split; [|done]. rewrite Ey.
    apply list_elem_of_filter. split; [|done]. intros E. apply Hy, Hg. by exists f. }
  split; [done|rewrite Ey; eapply sublist_NoDup; [exact Hi|apply fmap_sublist, sublist_filter]| |].
  - rewrite Eb. intros b [[Hbi Hbg] Hbn]%list_elem_of_filter. apply Hf; [done|done|by apply Hb].
  - rewrite Ep. intros k a b y Hk Eab Eay. apply Hf; [|by eapply Hga|by eapply Ha]. intros ->. by apply (Hna k a Hk).
Qed.
Lemma step_years l l' : budget_step l l' → years_ok l → years_ok l'.
Proof.
  intros H Hok. pose proof (years_tree _ Hok) as Ht. pose proof (step_tree _ _ H Ht) as Ht'. destruct H.
  - destruct (create_node_ok _ _ _ _ _ H1 H Ht) as (_ & (b & Eb & _) & (Ebk & Eap & _) & Ey).
    apply (years_kept l l'); try done; [|by rewrite Ey]. intros i t. apply root_of_mono. intros c Hc. exists c.
    rewrite Eb. split; [apply elem_of_app; by left|done].
  - destruct (update_node_ok _ _ _ _ _ H Ht) as (_ & El & (Ebk & Eap & _) & Ey).
    apply (years_kept l l'); try done; [|by apply year_links_key]. intros j t. by apply root_of_links.
  - by eapply years_delete_node.
  - apply create_year_ok in H0 as ((En & Eb & _ & Ep) & f & Ey & Ei & _). destruct Hok as [_ Hi Hb Ha].
    assert (Hf : ∀ b y, fits l b y → fits l' b y).
    { intros b z. apply fits_mono; [by rewrite En|]. intros g Hg _. exists g. rewrite Ey. split; [apply elem_of_app; by left|done]. }
    split; [done| |rewrite Eb; intros b Hbn; by apply Hf, Hb|rewrite Ep; intros k x b z Hk Hxb Hxy; apply Hf; by eapply Ha].
    rewrite Ey, fmap_app. apply NoDup_app. split; [done|]. split; [|apply NoDup_singleton].
    intros x Hx Hx'%list_elem_of_singleton. cbn in Hx'. rewrite Hx', Ei in Hx. done.
  - apply update_year_ok in H as (En & Eb & _ & Ep & Ey). apply (years_kept l l'); try done; [by rewrite En|by apply year_links_key].
  - apply delete_year_ok in H as ((En & Eb & _ & Ep) & _ & Ey & Hnb & _ & Hna). destruct Hok as [_ Hi Hb Ha].
    assert (Hf' : ∀ b y, y ≠ f → fits l b y → fits l' b y).
    { intros b y Hy. apply fits_mono; [by rewrite En|]. intros g Hg <-. exists g. rewrite Ey. by rewrite list_elem_of_filter. }
    split; [done|rewrite Ey; eapply sublist_NoDup; [exact Hi|apply fmap_sublist, sublist_filter]| |].
    + rewrite Eb. intros b Hbn. apply Hf'; [by apply Hnb|by apply Hb].
    + rewrite Ep. intros k a b y Hk Hab Hay. apply Hf'; [intros ->; by apply (Hna k a Hk)|by eapply Ha].
  - apply close_year_ok in H as ((En & Eb & _ & Ep) & Ey). apply (years_kept l l'); try done. by rewrite En.
  - apply set_allocation_ok in H0 as ((En & Ey & Eb & Ep) & _). apply (years_kept l l'); try done; by rewrite ?En, ?Ey.
  - apply assign_budget_ok in H as (x & x' & _ & Hm & _ & _ & Hf). eapply years_app_moved; [done|exact Hm|].
    intros c z Hc Hz. destruct Hf as [[Hn _]|(c' & z' & Hc' & Hz' & Hr)]; [congruence|]. rewrite Hc' in Hc. rewrite Hz' in Hz.
    injection Hc as <-. injection Hz as <-. by apply resolved_fits.
  - apply move_year_ok in H as (x & b & node & top & _ & _ & Hn & <- & Htop & (fy & Hfy & <- & Eb) & _ & _ & Hm).
    eapply years_app_moved; [done|exact Hm|]. intros c z [= <-] [= <-]. exists (bu_id top), fy.
    split; [by eapply top_level_root|done].
  - apply book_expense_ok in H0 as (Ho & b & Eb & _ & _ & _ & _ & Hf). apply (years_bookings_only l); [done|done|].
    rewrite Eb. intros c [Hc|Hc%list_elem_of_singleton]%elem_of_app; [left; by exists c|right]. subst c.
    destruct Hf as [[(i & x & Hx & Hxb & Hxy) _]|Hr]; [by eapply (years_apps _ Hok)|by apply resolved_fits].
  - apply update_expense_ok in H as (Ho & e & e' & He & Ef & _ & Hm & _ & _ & _ & Eb). apply (years_bookings_only l); [done|done|].
    rewrite Eb. intros b Hb. apply after_update_in in Hb as (c & Hc & Efb & Ebb). apply fixed_year in Efb.
    destruct Hc as [Hc|Hc]; [left; by exists c|subst c]. apply fixed_year in Ef. destruct Hm as [Hm|(_ & td & node & Hn & En & Hr)].
    + left. exists e. split; [done|]. split; congruence.
    + right. rewrite Ebb, Efb, Ef, <- En. by destruct (resolve_ok _ _ _ _ _ Hr Ht Hn (years_ids _ Hok)).
  - apply delete_expense_ok in H as (Ho & e & _ & _ & Eb). apply (years_bookings_only l); [done|done|].
    rewrite Eb. intros b Hb. apply opt_refresh_in in Hb as (c & Hc%removed_in & Ef & E). left. exists c. split; [done|].
    split; [done|by apply fixed_year].
  - apply create_sub_booking_ok in H0 as (Ho & p & b & Hp & _ & _ & _ & _ & _ & _ & _ & Ey & Ebu & _ & _ & Eb).
    apply (years_bookings_only l); [done|done|]. rewrite Eb. intros d Hd. apply refresh_in in Hd as (x & Hx & Ef & E).
    apply fixed_year in Ef. left. apply elem_of_app in Hx as [Hx|Hx%list_elem_of_singleton]; [by exists x|subst x].
    exists p. split; [done|]. split; congruence.
  - apply create_transfer_ok in H3 as (Ho & a & b & Eb & _ & _ & _ & _ & _ & _ & _ & _ & _ & _ & _ & Ra & Rb).
    apply (years_bookings_only l); [done|done|]. rewrite Eb. intros c [Hc|Hc]%elem_of_app; [left; by exists c|right].
    apply elem_of_cons in Hc as [->|Hc%list_elem_of_singleton]; [by apply resolved_fits|subst; by apply resolved_fits].
  - apply update_transfer_ok in H as (Ho & a & b & a' & b' & Ha & Hb & _ & _ & _ & _ & _ & Fa & Fb & Ba & Bb & _ & _ & _ & Eb).
    apply (years_bookings_only l); [done|done|]. rewrite Eb. intros c Hc. left. apply fixed_year in Fa, Fb.
    apply update_row_in in Hc as (x & Hx & [->|[_ ->]]); [|by exists b]. by apply update_row_in in Hx as (z & Hz & [->|[_ ->]]); [exists z|exists a].
  - apply delete_transfer_ok in H as (Ho & a & b & _ & _ & _ & _ & _ & _ & _ & Eb). apply (years_bookings_only l); [done|done|].
    rewrite Eb. intros c Hc%removed_in. left. by exists c.
Qed.
Lemma taken_years l l' : takes_bookings l l' → years_ok l → years_ok l'.
Proof.
  intros (Ho & e & _ & _ & Hb) Hk. apply (years_bookings_only l); [done|done|]. intros b Hbn. left. exists b. split; [|done].
  destruct Hb as [Hb|(t & _ & Hb)]; rewrite Hb in Hbn; by apply removed_in in Hbn.
Qed.
Lemma taken_allocation_years l l' : takes_allocation l l' → years_ok l → years_ok l'.
Proof. intros [(En & Ey & Eb & Ep) _] Hk. apply (years_kept l l'); try done; rewrite ?En, ?Ey; [apply Hk|done|done]. Qed.
(** In every state of the budget the fiscal year of a booking is a year of the top-level
    budget of its cost center, and so is the year of an application with a cost center, under
    every order of bookings, transfers, moves, assignments, renames, deletes and reverts. *)
Lemma booking_years_belong l l' :
  years_ok l → rtc any_step l l' →
  (∀ b, b ∈ bookings l' → fits l' (bk_budget_id b) (bk_fiscal_year_id b)) ∧
  (∀ i a b y, apps l' !! i = Some a → ap_budget_id a = Some b → ap_fiscal_year_id a = Some y → fits l' b y).
Proof.
  intros Hok Hs. assert (H : years_ok l').
  { revert Hs Hok. apply (steps_keep years_ok); [apply step_years|apply taken_years|apply taken_allocation_years]. }
  split; [apply H|]. intros i a b y. by apply (years_apps _ H).
Qed.
End Steps.
