(* ===== verification/AllocationFacts.v ===== *)
(** The distribution of the allocations: in every fiscal year the children of a cost center hold
    together at most what the cost center holds. *)

From stdpp Require Import gmap strings.
From S2P Require Import Prelude PyStr PyNum PyValue PyDate BudgetRules BudgetFacts FlowDb Decision Ledger Bookings LedgerFacts LedgerSteps LedgerProps.

(** What a cost center holds in a year, and what its children hold. *)
Definition held (al : list BudgetAllocation) (b y : string) : Z :=
  as_amount (al_allocated <$> head (filter (λ a, alloc_key a = (b, y)) al)).
Definition child_links (n : list Budget) (p : string) : list (string * option string) := filter (λ k, k.2 = Some p) (links n).
Definition children_hold (n : list Budget) (al : list BudgetAllocation) (p y : string) : Z :=
  zsum ((λ k, held al k.1 y) <$> child_links n p).
Record allocs_ok (l : Ledger) : Prop := AllocsOk {
  alloc_tree : tree_ok (nodes l);
  alloc_keys : NoDup (alloc_key <$> allocs l);
  alloc_sign : ∀ a, a ∈ allocs l → 0 ≤ al_allocated a;
  alloc_owner : ∀ a, a ∈ allocs l → al_budget_id a ∈ bu_id <$> nodes l;
  alloc_bound : ∀ p y, children_hold (nodes l) (allocs l) p y ≤ held (allocs l) p y
}.
Section Held.
Context (al : list BudgetAllocation).
Lemma held_none b y : (∀ a, a ∈ al → alloc_key a ≠ (b, y)) → held al b y = 0.
Proof. intros H. unfold held. rewrite filter_none; [done|exact H]. Qed.
Lemma held_nonneg b y : (∀ a, a ∈ al → 0 ≤ al_allocated a) → 0 ≤ held al b y.
Proof.
  intros H. unfold held. destruct (filter _ al) as [|a f] eqn:E; [done|]. cbn.
  assert (Ha : a ∈ filter (λ a, alloc_key a = (b, y)) al) by (rewrite E; left).
  by apply list_elem_of_filter in Ha as [_ ?%H].
Qed.
Hypothesis keys : NoDup (alloc_key <$> al).
Lemma held_in a : a ∈ al → held al (al_budget_id a) (al_fiscal_year_id a) = al_allocated a.
Proof.
  intros Ha. unfold held. assert (filter (λ x, alloc_key x = alloc_key a) al = [a]) as E.
  { revert keys Ha. induction al as [|x r IH]; intros keys Ha; [by apply elem_of_nil in Ha|].
    cbn in keys. apply NoDup_cons in keys as [Hx Hr]. rewrite filter_cons. apply elem_of_cons in Ha as [->|Ha].
    - rewrite decide_True by done. f_equal. apply filter_none. intros z Hz E. apply Hx. rewrite <- E. by apply list_elem_of_fmap_2.
    - rewrite decide_False; [by apply IH|]. intros E. apply Hx. rewrite E. by apply list_elem_of_fmap_2. }
  change (al_budget_id a, al_fiscal_year_id a) with (alloc_key a). by rewrite E.
Qed.
Lemma key_sum b y : zsum (al_allocated <$> filter (λ a, alloc_key a = (b, y)) al) = held al b y.
Proof.
  unfold held. revert keys. induction al as [|x r IH]; intros keys'; [done|]. cbn in keys'. apply NoDup_cons in keys' as [Hx Hr].
  rewrite filter_cons. case_decide as Hk; [|by apply IH]. cbn. rewrite filter_none; [cbn; lia|].
  intros z Hz E. apply Hx. rewrite Hk, <- E. by apply list_elem_of_fmap_2.
Qed.
End Held.
Lemma held_filter (P : BudgetAllocation → Prop) `{∀ x, Decision (P x)} al b y :
  (∀ a, a ∈ al → alloc_key a = (b, y) → P a) → held (filter P al) b y = held al b y.
Proof. intros HP. unfold held. by rewrite filter_sub. Qed.

(** ** The sums *)
Lemma children_sum_hold (l : Ledger) p y :
  NoDup (alloc_key <$> allocs l) → _children_alloc_sum l p y None = children_hold (nodes l) (allocs l) p y.
Proof.
  intros Hk. unfold _children_alloc_sum, children_hold, child_links, links. induction (nodes l) as [|b n IH]; [done|].
  cbn [fmap list_fmap]. rewrite !filter_cons. cbn [snd]. destruct (decide (bu_parent_id b = Some p)) as [E|E].
  - rewrite decide_True by done. cbn. rewrite IH. f_equal. by apply key_sum.
  - rewrite decide_False by tauto. exact IH.
Qed.
Lemma no_self_parent n b : tree_ok n → b ∈ n → bu_parent_id b ≠ Some (bu_id b).
Proof.
  intros Hok Hb Hp. destruct (tree_paths _ Hok b Hb) as (t & ks & Hc & _).
  inversion Hc as [c Hcn Hcp E|c q ? ls Hcn Hcp Hq E]; subst; pose proof (same_row bu_id n _ _ (tree_ids _ Hok) Hcn Hb E) as ->; [congruence|].
  rewrite Hp in Hcp. injection Hcp as <-. destruct (chain_fun n (tree_ids _ Hok) _ _ _ _ _ Hc Hq) as [_ El].
  apply (f_equal length) in El. rewrite length_app in El. cbn in El. lia.
Qed.
(** The sum over the children with one of them apart. *)
Lemma children_split n (f : string → Z) node p :
  NoDup (bu_id <$> n) → node ∈ n → bu_parent_id node = Some p →
  zsum ((λ k, f k.1) <$> child_links n p) =
  f (bu_id node) + zsum ((λ b, f (bu_id b)) <$> filter (λ b, bu_parent_id b = Some p ∧ Some (bu_id node) ≠ Some (bu_id b)) n).
Proof.
  intros Hn Hin Hp. unfold child_links, links. induction n as [|b n IH]; [by apply elem_of_nil in Hin|].
  cbn [fmap list_fmap] in *. apply NoDup_cons in Hn as [Hb Hn]. rewrite !filter_cons. cbn [snd].
  apply elem_of_cons in Hin as [<-|Hin].
  - rewrite decide_True by done. rewrite decide_False by tauto. cbn. f_equal.
    clear IH Hn. induction n as [|c n IH]; [done|]. cbn [fmap list_fmap] in *. rewrite !filter_cons. cbn [snd].
    assert (Hc : Some (bu_id node) ≠ Some (bu_id c)) by (intros [= E]; apply Hb; rewrite E; left).
    assert (Hr : bu_id node ∉ bu_id <$> n) by (intros Hr; apply Hb; by right).
    destruct (decide (bu_parent_id c = Some p)) as [E|E]; [rewrite decide_True by done; cbn; by rewrite IH|rewrite decide_False by tauto; by apply IH].
  - assert (Hne : Some (bu_id node) ≠ Some (bu_id b)) by (intros [= E]; apply Hb; rewrite <- E; by apply list_elem_of_fmap_2).
    destruct (decide (bu_parent_id b = Some p)) as [E|E].
    + rewrite decide_True by done. cbn. rewrite IH by done. lia.
    + rewrite decide_False by tauto. by apply IH.
Qed.
Lemma children_ext n (f g : string → Z) p :
  (∀ b, b ∈ n → bu_parent_id b = Some p → f (bu_id b) = g (bu_id b)) →
  zsum ((λ k, f k.1) <$> child_links n p) = zsum ((λ k, g k.1) <$> child_links n p).
Proof.
  intros H. apply zsum_map_ext. intros k [Hk (b & -> & Hb)%list_elem_of_fmap]%list_elem_of_filter. by apply H.
Qed.

(** ** The operations *)
Lemma head_nil {A} (l : list A) : head l = None → l = [].
Proof. by destruct l. Qed.
Lemma held_put l i y v b z :
  held (allocs (put_allocation l i y v)) b z = if bool_decide ((b, z) = (i, y)) then v else held (allocs l) b z.
Proof.
  unfold put_allocation, _allocation. cbn. destruct (head (filter (λ a, alloc_key a = (i, y)) (allocs l))) as [a0|] eqn:E.
  - assert (H : ∀ al, head (filter (λ a, alloc_key a = (b, z)) ((λ a, if bool_decide (alloc_key a = (i, y)) then MkAllocation i y v else a) <$> al)) =
      (λ a, if bool_decide (alloc_key a = (i, y)) then MkAllocation i y v else a) <$> head (filter (λ a, alloc_key a = (b, z)) al)).
    { induction al as [|x r IH]; [done|]. cbn [fmap list_fmap]. rewrite !filter_cons.
      assert (Hk : alloc_key (if bool_decide (alloc_key x = (i, y)) then MkAllocation i y v else x) = alloc_key x) by (case_bool_decide; [by symmetry|done]).
      destruct (decide (alloc_key x = (b, z))) as [Ex|Ex]; [by rewrite decide_True by by rewrite Hk|].
      rewrite decide_False by (by rewrite Hk). exact IH. }
    unfold held. rewrite H. case_bool_decide as Hc.
    + injection Hc as -> ->. rewrite E. cbn. assert (Ha : a0 ∈ filter (λ a, alloc_key a = (i, y)) (allocs l)).
      { by apply head_in. }
      apply list_elem_of_filter in Ha as [Ha _]. by rewrite bool_decide_true.
    + destruct (head (filter (λ a, alloc_key a = (b, z)) (allocs l))) as [a|] eqn:Eb; [|done]. cbn.
      assert (Ha : a ∈ filter (λ a, alloc_key a = (b, z)) (allocs l)).
      { by apply head_in. }
      apply list_elem_of_filter in Ha as [Ha _]. rewrite bool_decide_false; [done|]. congruence.
  - assert (Hnone : filter (λ a, alloc_key a = (i, y)) (allocs l) = []) by by apply head_nil.
    unfold held. rewrite filter_app, filter_cons, filter_nil. cbn [alloc_key al_budget_id al_fiscal_year_id].
    case_bool_decide as Hc.
    + injection Hc as -> ->. rewrite Hnone. by rewrite decide_True.
    + rewrite decide_False by (intros [= -> ->]; done). by rewrite app_nil_r.
Qed.
Lemma put_keys l i y v : NoDup (alloc_key <$> allocs l) → NoDup (alloc_key <$> allocs (put_allocation l i y v)).
Proof.
  unfold put_allocation, _allocation. intros H. cbn. destruct (head _) as [a|] eqn:E.
  - replace (alloc_key <$> ((λ a0, if bool_decide (alloc_key a0 = (i, y)) then MkAllocation i y v else a0) <$> allocs l)) with (alloc_key <$> allocs l); [done|].
    rewrite <- list_fmap_compose. apply list_fmap_ext. intros k x _. cbn. case_bool_decide; [done|done].
  - rewrite fmap_app. apply NoDup_app. split; [done|]. split; [|apply NoDup_singleton].
    intros k (x & -> & Hx)%list_elem_of_fmap Hk%list_elem_of_singleton. cbn in Hk.
    assert (Hin : x ∈ filter (λ a, alloc_key a = (i, y)) (allocs l)) by by apply list_elem_of_filter.
    revert E Hin. destruct (filter _ (allocs l)); [by intros _ ?%elem_of_nil|done].
Qed.
Lemma put_in l i y v a : a ∈ allocs (put_allocation l i y v) → a ∈ allocs l ∨ a = MkAllocation i y v.
Proof.
  unfold put_allocation. cbn. destruct (_allocation l i y).
  - intros (x & -> & Hx)%list_elem_of_fmap. case_bool_decide; auto.
  - intros [?|?%list_elem_of_singleton]%elem_of_app; auto.
Qed.
Lemma allocs_put l l' i y v :
  0 ≤ v → allocs_ok l → nodes l' = nodes l → allocs l' = allocs (put_allocation l i y v) →
  (∃ node, node ∈ nodes l ∧ bu_id node = i ∧
    ∀ p, bu_parent_id node = Some p → _children_alloc_sum l p y (Some i) + v ≤ as_amount (al_allocated <$> _allocation l p y)) →
  _children_alloc_sum l i y None ≤ v → allocs_ok l'.
Proof.
  intros Hv [Ht Hk Hs Ho Hb] En Ea (node & Hn & <- & Hup) Hdown. rewrite children_sum_hold in Hdown by done.
  split; rewrite ?En, ?Ea; [done|by apply put_keys| | |].
  - intros a [Ha| ->]%put_in; [by apply Hs|done].
  - intros a [Ha| ->]%put_in; [by apply Ho|]. cbn. by apply (list_elem_of_fmap_2 bu_id).
  - intros p z. unfold children_hold. rewrite held_put.
    destruct (decide (bu_parent_id node = Some p ∧ z = y)) as [[Hp ->]|Hnot].
    + rewrite bool_decide_false by (intros [= ->]; by eapply no_self_parent).
      rewrite (children_split _ (λ i, held (allocs (put_allocation l (bu_id node) y v)) i y) node) by (done || apply Ht).
      rewrite held_put, bool_decide_true by done. specialize (Hup p Hp). unfold _children_alloc_sum in Hup.
      rewrite Z.add_comm. etrans; [|exact Hup]. apply Z.add_le_mono_r, Z.eq_le_incl. apply zsum_map_ext.
      intros b [[_ Hne] _]%list_elem_of_filter. rewrite held_put, bool_decide_false by (intros [= E]; apply Hne; by f_equal).
      symmetry. by apply key_sum.
    + rewrite (children_ext _ (λ i, held (allocs (put_allocation l (bu_id node) y v)) i z) (λ i, held (allocs l) i z)).
      * case_bool_decide as Hc; [injection Hc as -> ->; exact Hdown|apply Hb].
      * intros b Hbn Hbp. rewrite held_put. case_bool_decide as Hc; [|done]. injection Hc as Hc1 Hc2. destruct Hnot.
        by rewrite <- (same_row bu_id _ _ _ (tree_ids _ Ht) Hbn Hn Hc1).
Qed.
Lemma allocs_same l l' : links (nodes l') = links (nodes l) → tree_ok (nodes l') → allocs l' = allocs l → allocs_ok l → allocs_ok l'.
Proof.
  intros El Ht' Ea [Ht Hk Hs Ho Hb]. split; rewrite ?Ea; try done.
  - intros a Ha. specialize (Ho a Ha). apply list_elem_of_fmap in Ho as (b & -> & Hbn).
    destruct (links_in _ _ b El Hbn) as (c & Hc & <- & _). by apply list_elem_of_fmap_2.
  - intros p y. unfold children_hold, child_links. rewrite El. apply Hb.
Qed.
Lemma zsum_filter_le {A} (f : A → Z) (P : A → Prop) `{∀ x, Decision (P x)} l :
  (∀ x, x ∈ l → 0 ≤ f x) → zsum (f <$> filter P l) ≤ zsum (f <$> l).
Proof.
  induction l as [|x r IH]; intros Hf; [done|]. rewrite filter_cons. specialize (IH (λ z Hz, Hf z (list_elem_of_further _ _ _ Hz))).
  pose proof (Hf x (list_elem_of_here _ _)). case_decide; cbn; lia.
Qed.
Lemma allocs_delete l actor i l' : delete_node l actor i = Ok l' → allocs_ok l → allocs_ok l'.
Proof.
  intros H [Ht Hk Hs Ho Hb]. pose proof (delete_node_ok _ _ _ _ H Ht) as (Ht' & _ & _ & _ & _ & gone & _ & _ & _ & _ & En & Ea).
  assert (Hheld : ∀ b y, b ≠ i → y ∉ gone → held (allocs l') b y = held (allocs l) b y).
  { intros b y Hbi Hy. rewrite Ea. apply held_filter. intros a _ [= Eb Ey]. by subst. }
  assert (Hzero : ∀ b y, y ∈ gone → held (allocs l') b y = 0).
  { intros b y Hy. rewrite Ea. apply held_none. intros a [[_ Ha] _]%list_elem_of_filter [= _ <-]. done. }
  split; [done|rewrite Ea; eapply sublist_NoDup; [exact Hk|apply fmap_sublist, sublist_filter]| | |].
  - rewrite Ea. intros a [_ ?]%list_elem_of_filter. by apply Hs.
  - rewrite Ea, En. intros a [[Hai _] Ha]%list_elem_of_filter. specialize (Ho a Ha). apply list_elem_of_fmap in Ho as (b & E & Hbn).
    rewrite E. apply list_elem_of_fmap_2, list_elem_of_filter. split; [congruence|done].
  - intros p y. unfold children_hold. destruct (decide (y ∈ gone)) as [Hy|Hy].
    + rewrite (children_ext _ (λ i, held (allocs l') i y) (λ _, 0)) by (intros; by apply Hzero). rewrite (Hzero p) by done.
      apply Z.eq_le_incl. induction (child_links (nodes l') p); [done|]. cbn. lia.
    + rewrite (children_ext _ (λ i, held (allocs l') i y) (λ i, held (allocs l) i y)).
      2:{ intros b Hbn _. apply Hheld; [|done]. rewrite En in Hbn. by apply list_elem_of_filter in Hbn as [? _]. }
      destruct (decide (p = i)) as [->|Hp].
      * assert (child_links (nodes l') i = []) as ->; [|cbn; apply held_nonneg].
        { apply filter_none. intros k (b & -> & Hbn)%list_elem_of_fmap Hbp. rewrite En in Hbn. apply list_elem_of_filter in Hbn as [_ Hbn].
          unfold delete_node in H. apply bind_ok in H as (nd & _ & H). apply bind_ok in H as (? & Hc & _). apply raise_if_ok in Hc.
          rewrite existsb_false in Hc. specialize (Hc b Hbn). by rewrite bool_decide_true in Hc. }
        rewrite Ea. intros a [_ ?]%list_elem_of_filter. by apply Hs.
      * rewrite Hheld by done. etrans; [|apply (Hb p y)]. unfold children_hold, child_links. rewrite En.
        assert (links (filter (λ b, bu_id b ≠ i) (nodes l)) = filter (λ k, k.1 ≠ i) (links (nodes l))) as ->.
        { unfold links. clear. induction (nodes l) as [|b n IH]; [done|]. cbn [fmap list_fmap]. rewrite !filter_cons. cbn [fst].
          case_decide; cbn [fmap list_fmap]; by rewrite IH. }
        rewrite list_filter_filter. rewrite (list_filter_iff _ (λ k, k.1 ≠ i ∧ k.2 = Some p)) by tauto. rewrite <- list_filter_filter.
        apply zsum_filter_le. intros k _. by apply held_nonneg.
Qed.
Lemma step_allocs l l' : budget_step l l' → allocs_ok l → allocs_ok l'.
Proof.
  intros H Hok. pose proof (alloc_tree _ Hok) as Ht. pose proof (step_tree _ _ H Ht) as Ht'.
  assert (Hsame : nodes l' = nodes l → allocs l' = allocs l → allocs_ok l').
  { intros En Ea. apply (allocs_same l); [by rewrite En|done|done|done]. }
  destruct H.
  - destruct (create_node_ok _ _ _ _ _ H1 H Ht) as (_ & (b & En & Ei & _) & (_ & _ & Ea & _) & _). destruct Hok as [_ Hk Hs Ho Hb].
    split; rewrite ?Ea; try done.
    + intros a Ha. rewrite En, fmap_app. apply elem_of_app. left. by apply Ho.
    + intros q y. etrans; [|apply (Hb q y)]. unfold children_hold, child_links, links. rewrite En, fmap_app, filter_app, fmap_app, zsum_app.
      assert (Hz : held (allocs l) id y = 0) by (apply held_none; intros a Ha [= E _]; by apply (H0 a Ha)).
      cbn [fmap list_fmap]. rewrite filter_cons, filter_nil. case_decide; cbn; [rewrite Ei, Hz|]; lia.
  - destruct (update_node_ok _ _ _ _ _ H Ht) as (_ & El & (_ & _ & Ea & _) & _). by apply (allocs_same l).
  - by eapply allocs_delete.
  - apply create_year_ok in H0 as ((? & _ & ? & _) & _). by apply Hsame.
  - apply update_year_ok in H as (? & _ & ? & _). by apply Hsame.
  - apply delete_year_ok in H as ((? & _ & ? & _) & _). by apply Hsame.
  - apply close_year_ok in H as ((? & _ & ? & _) & _). by apply Hsame.
  - apply set_allocation_ok in H0 as ((En & _) & _ & Ea & Hup & Hdown). by eapply allocs_put.
  - apply assign_budget_ok in H as (? & ? & _ & (? & _ & _ & ? & _) & _). by apply Hsame.
  - apply move_year_ok in H as (? & ? & ? & ? & _ & _ & _ & _ & _ & _ & _ & _ & (? & _ & _ & ? & _)). by apply Hsame.
  - apply book_expense_ok in H0 as ((? & _ & ? & _) & _). by apply Hsame.
  - apply update_expense_ok in H as ((? & _ & ? & _) & _). by apply Hsame.
  - apply delete_expense_ok in H as ((? & _ & ? & _) & _). by apply Hsame.
  - apply create_sub_booking_ok in H0 as ((? & _ & ? & _) & _). by apply Hsame.
  - apply create_transfer_ok in H3 as ((? & _ & ? & _) & _). by apply Hsame.
  - apply update_transfer_ok in H as ((? & _ & ? & _) & _). by apply Hsame.
  - apply delete_transfer_ok in H as ((? & _ & ? & _) & _). by apply Hsame.
Qed.
