(* ===== verification/BookingFacts.v ===== *)
(** Bookings: the sum of the sub-bookings, the pair of a transfer and the freeze of a closed year. *)

From stdpp Require Import gmap strings.
From S2P Require Import Prelude PyStr PyNum PyValue PyDate BudgetRules BudgetFacts FlowDb Decision Ledger Bookings LedgerFacts LedgerSteps LedgerProps AllocationFacts.

(** ** The shape of the rows *)
Definition transfer_of (bs : list Booking) (t : string) : list Booking := filter (λ b, bk_transfer_id b = Some t) bs.
(** A sub-booking has a parent of its year and kind that is neither a sub-booking nor part of a
    transfer; the rows of a transfer share their year. *)
Record shape_ok (bs : list Booking) : Prop := ShapeOk {
  shape_ids : NoDup (bk_id <$> bs);
  shape_parent : ∀ b p, b ∈ bs → bk_parent_expense_id b = Some p →
    ∃ q, q ∈ bs ∧ bk_id q = p ∧ bk_parent_expense_id q = None ∧ bk_transfer_id q = None ∧
      bk_fiscal_year_id q = bk_fiscal_year_id b ∧ bk_kind q = bk_kind b;
  shape_single : ∀ b p, b ∈ bs → bk_parent_expense_id b = Some p → bk_transfer_id b = None;
  shape_years : ∀ a b t, a ∈ bs → b ∈ bs → bk_transfer_id a = Some t → bk_transfer_id b = Some t →
    bk_fiscal_year_id a = bk_fiscal_year_id b
}.
Definition pairs_ok (bs : list Booking) : Prop :=
  ∀ b t, b ∈ bs → bk_transfer_id b = Some t →
    ∃ a c, transfer_of bs t = [a; c] ∧ bk_kind a = expense ∧ bk_kind c = income.
Lemma same_frame {A B} (f : A → B) (l l' : list A) x : f <$> l' = f <$> l → x ∈ l' → ∃ y, y ∈ l ∧ f y = f x.
Proof.
  intros E Hx. assert (H : f x ∈ f <$> l) by (rewrite <- E; by apply list_elem_of_fmap_2).
  apply list_elem_of_fmap in H as (y & E' & Hy). by exists y.
Qed.
Lemma frame_ids (bs bs' : list Booking) : fixed_columns <$> bs' = fixed_columns <$> bs → bk_id <$> bs' = bk_id <$> bs.
Proof. intros E. apply (f_equal (fmap (λ k, k.1.1.1.1.1))) in E. rewrite <- !list_fmap_compose in E. exact E. Qed.
Lemma shape_ext bs bs' : fixed_columns <$> bs' = fixed_columns <$> bs → shape_ok bs → shape_ok bs'.
Proof.
  intros E [Hi Hp Hs Hy]. split.
  - by rewrite (frame_ids _ _ E).
  - intros b p Hb Eb. destruct (same_frame _ _ _ _ E Hb) as (c & Hc & [= ? Ey ? ? Ek Ep]). rewrite Eb in Ep.
    destruct (Hp c p Hc Ep) as (q & Hq & Eq & Ep' & Et & Ey' & Ek'). symmetry in E.
    destruct (same_frame _ _ _ _ E Hq) as (r & Hr & [= ? ? ? ? ? ?]). exists r. split; [done|]. split_and!; congruence.
  - intros b p Hb Eb. destruct (same_frame _ _ _ _ E Hb) as (c & Hc & [= ? ? ? ? ? ?]). rewrite (Hs c p) in * by congruence. congruence.
  - intros a b t Ha Hb Ea Eb. destruct (same_frame _ _ _ _ E Ha) as (c & Hc & [= ? ? ? ? ? ?]).
    destruct (same_frame _ _ _ _ E Hb) as (d & Hd & [= ? ? ? ? ? ?]).
    assert (bk_fiscal_year_id c = bk_fiscal_year_id d) by (apply (Hy c d t); congruence). congruence.
Qed.
Lemma filter_frame {A B} (f : A → B) (P : A → Prop) `{∀ x, Decision (P x)} (l l' : list A) :
  (∀ x y, f x = f y → P x → P y) → f <$> l' = f <$> l → f <$> filter P l' = f <$> filter P l.
Proof.
  intros HP. revert l'. induction l as [|x l IH]; intros [|x' l'] E; try discriminate; [done|]. cbn in E. injection E as Ex E.
  rewrite !filter_cons. destruct (decide (P x')) as [H'|H'].
  - rewrite decide_True by by eapply HP. cbn. by rewrite Ex, (IH l').
  - rewrite decide_False; [by apply IH|]. intros Hx. apply H'. by eapply HP.
Qed.
Lemma pairs_ext bs bs' : fixed_columns <$> bs' = fixed_columns <$> bs → pairs_ok bs → pairs_ok bs'.
Proof.
  intros E H b t Hb Et. destruct (same_frame _ _ _ _ E Hb) as (c & Hc & Efc).
  assert (Etc : bk_transfer_id c = Some t) by (injection Efc; congruence).
  destruct (H c t Hc Etc) as (x & y & Exy & Kx & Ky).
  assert (Ef : fixed_columns <$> transfer_of bs' t = fixed_columns <$> transfer_of bs t).
  { apply filter_frame; [|done]. by intros u v [= _ _ _ <- _ _]. }
  rewrite Exy in Ef. destruct (transfer_of bs' t) as [|x' [|y' [|]]] eqn:El; try discriminate.
  cbn in Ef. injection Ef. intros. exists x', y'. split_and!; congruence.
Qed.
Lemma replace_frame {B} (g : Booking → B) bs e e' :
  NoDup (bk_id <$> bs) → e ∈ bs → g e' = g e → g <$> update_row bk_id (bk_id e) (λ _, e') bs = g <$> bs.
Proof. intros Hn He E. apply update_row_map. intros b Hb Ei. by rewrite E, (same_row bk_id bs b e Hn Hb He Ei). Qed.
Lemma replace_both_frame bs a b a' b' :
  NoDup (bk_id <$> bs) → a ∈ bs → b ∈ bs → fixed_columns a' = fixed_columns a → fixed_columns b' = fixed_columns b →
  fixed_columns <$> update_row bk_id (bk_id b) (λ _, b') (update_row bk_id (bk_id a) (λ _, a') bs) = fixed_columns <$> bs.
Proof.
  intros Hn Ha Hb Fa Fb. pose proof (replace_frame fixed_columns bs a a' Hn Ha Fa) as E. rewrite <- E. apply update_row_map.
  intros c Hc Ei. destruct (same_frame _ _ _ _ E Hc) as (x & Hx & Ex). rewrite Fb, <- Ex. f_equal.
  apply (same_row bk_id bs); [done|done|done|]. injection Ex. congruence.
Qed.
Lemma refresh_frame p bs : fixed_columns <$> refresh p bs = fixed_columns <$> bs.
Proof. unfold refresh. case_match; [|done]. by apply update_row_map. Qed.
Lemma opt_refresh_frame p bs : fixed_columns <$> opt_refresh p bs = fixed_columns <$> bs.
Proof. destruct p; [apply refresh_frame|done]. Qed.
Lemma after_update_frame e e' s bs :
  NoDup (bk_id <$> bs) → e ∈ bs → fixed_columns e' = fixed_columns e → fixed_columns <$> after_update e e' s bs = fixed_columns <$> bs.
Proof.
  intros Hn He E. unfold after_update. pose proof (replace_frame fixed_columns bs e e' Hn He E) as H.
  destruct (bk_parent_expense_id e); [|done]. destruct s; [|done]. by rewrite refresh_frame.
Qed.
(** A filter that keeps the parent of every sub-booking it keeps. *)
Lemma shape_filter (P : Booking → Prop) `{∀ b, Decision (P b)} bs :
  (∀ b q, b ∈ bs → q ∈ bs → bk_parent_expense_id b = Some (bk_id q) → bk_parent_expense_id q = None →
     bk_fiscal_year_id q = bk_fiscal_year_id b → P b → P q) → shape_ok bs → shape_ok (filter P bs).
Proof.
  intros HP [Hi Hp Hs Hy]. split.
  - eapply sublist_NoDup; [exact Hi|apply fmap_sublist, sublist_filter].
  - intros b p [Hb Hbs]%list_elem_of_filter Eb. destruct (Hp b p Hbs Eb) as (q & Hq & <- & Ep & Et & Ey & Ek). exists q.
    split; [|done]. apply list_elem_of_filter. split; [|done]. by eapply (HP b).
  - intros b p [_ Hb]%list_elem_of_filter. by eapply Hs.
  - intros a b t [_ Ha]%list_elem_of_filter [_ Hb]%list_elem_of_filter. by apply Hy.
Qed.
Lemma shape_removed ids bs : shape_ok bs → shape_ok (removed ids bs).
Proof.
  intros H. apply shape_filter; [|done]. intros b q Hb Hq Ep En _ Hg. unfold is_gone in *. rewrite Ep in Hg. rewrite En.
  apply orb_false_iff in Hg as [_ Hg]. by rewrite Hg.
Qed.
Lemma shape_append bs b :
  bk_id b ∉ bk_id <$> bs →
  (∀ p, bk_parent_expense_id b = Some p → bk_transfer_id b = None ∧ ∃ q, q ∈ bs ∧ bk_id q = p ∧ bk_parent_expense_id q = None ∧
     bk_transfer_id q = None ∧ bk_fiscal_year_id q = bk_fiscal_year_id b ∧ bk_kind q = bk_kind b) →
  (∀ a t, a ∈ bs → bk_transfer_id a = Some t → bk_transfer_id b = Some t → bk_fiscal_year_id a = bk_fiscal_year_id b) →
  shape_ok bs → shape_ok (bs ++ [b]).
Proof.
  intros Hid Hpar Hyr [Hi Hp Hs Hy]. split.
  - rewrite fmap_app. apply NoDup_app. split; [done|]. split; [|apply NoDup_singleton]. by intros x Hx ->%list_elem_of_singleton.
  - intros c p [Hc| ->%list_elem_of_singleton]%elem_of_app Ep.
    + destruct (Hp c p Hc Ep) as (q & Hq & H). exists q. split; [apply elem_of_app; by left|done].
    + destruct (Hpar p Ep) as (_ & q & Hq & H). exists q. split; [apply elem_of_app; by left|done].
  - intros c p [Hc| ->%list_elem_of_singleton]%elem_of_app Ep; [by eapply Hs|by apply (Hpar p)].
  - intros a c t [Ha| ->%list_elem_of_singleton]%elem_of_app [Hc| ->%list_elem_of_singleton]%elem_of_app Ea Ec; [by eapply Hy|by eapply Hyr|symmetry; by eapply Hyr|done].
Qed.

(** ** The operations keep the shape *)
Lemma shape_create bs b :
  bk_id b ∉ bk_id <$> bs → bk_transfer_id b = None → bk_parent_expense_id b = None → shape_ok bs → shape_ok (bs ++ [b]).
Proof. intros Hi Ht Hp. apply shape_append; [done| |]; [by rewrite Hp|intros; congruence]. Qed.
Lemma shape_leg bs a t :
  bk_id a ∉ bk_id <$> bs → (∀ c, c ∈ bs → bk_transfer_id c ≠ Some t) → bk_transfer_id a = Some t →
  bk_parent_expense_id a = None → shape_ok bs → shape_ok (bs ++ [a]).
Proof.
  intros Ia Ht Ta Pa. apply shape_append; [done|intros p Hp; congruence|]. intros c u Hc Ec Eu. exfalso. apply (Ht c Hc). congruence.
Qed.
Lemma shape_pair bs a b t :
  bk_id a ∉ bk_id <$> bs → bk_id b ∉ bk_id <$> bs → bk_id a ≠ bk_id b → (∀ c, c ∈ bs → bk_transfer_id c ≠ Some t) →
  bk_transfer_id a = Some t → bk_transfer_id b = Some t → bk_parent_expense_id a = None → bk_parent_expense_id b = None →
  bk_fiscal_year_id a = bk_fiscal_year_id b → shape_ok bs → shape_ok (bs ++ [a; b]).
Proof.
  intros Ia Ib Iab Ht Ta Tb Pa Pb Ey Hok. change [a; b] with ([a] ++ [b]). rewrite app_assoc. apply shape_append.
  - rewrite fmap_app. intros [Hx|Hx%list_elem_of_singleton]%elem_of_app; [done|by symmetry in Hx].
  - intros p Hp. congruence.
  - intros c u [Hc| ->%list_elem_of_singleton]%elem_of_app Ec Eb; [|done]. exfalso. apply (Ht c Hc). congruence.
  - by eapply shape_leg.
Qed.
Lemma shape_sub bs p b :
  p ∈ bs → bk_id b ∉ bk_id <$> bs → bk_parent_expense_id p = None → bk_transfer_id p = None → bk_transfer_id b = None →
  bk_parent_expense_id b = Some (bk_id p) → bk_fiscal_year_id b = bk_fiscal_year_id p → bk_kind b = bk_kind p →
  shape_ok bs → shape_ok (bs ++ [b]).
Proof.
  intros Hp Hi Pp Tp Tb Pb Ey Ek. apply shape_append; [done| |intros; congruence]. intros q Eq. split; [done|].
  exists p. split_and!; congruence.
Qed.
Lemma shape_deleted_node l actor i l' :
  delete_node l actor i = Ok l' → tree_ok (nodes l) → shape_ok (bookings l) → shape_ok (bookings l').
Proof.
  intros H Ht Hok. apply delete_node_ok in H as (_ & _ & _ & Hnb & _ & gone & _ & _ & -> & _); [|done].
  apply shape_filter; [|done]. intros b q Hb Hq _ _ E [_ Hy]. split; [by apply Hnb|by rewrite E].
Qed.
Lemma step_shape l l' : budget_step l l' → tree_ok (nodes l) → shape_ok (bookings l) → shape_ok (bookings l').
Proof.
  intros H Ht Hok. pose proof (shape_ids _ Hok) as Hn. destruct H.
  - by destruct (create_node_ok _ _ _ _ _ H1 H Ht) as (_ & _ & (-> & _) & _).
  - by destruct (update_node_ok _ _ _ _ _ H Ht) as (_ & _ & (-> & _) & _).
  - by eapply shape_deleted_node.
  - by apply create_year_ok in H0 as ((_ & -> & _) & _).
  - by apply update_year_ok in H as (_ & -> & _).
  - by apply delete_year_ok in H as ((_ & -> & _) & _).
  - by apply close_year_ok in H as ((_ & -> & _) & _).
  - by apply set_allocation_ok in H0 as ((_ & _ & -> & _) & _).
  - by apply assign_budget_ok in H as (? & ? & _ & (_ & _ & -> & _) & _).
  - by apply move_year_ok in H as (? & ? & ? & ? & _ & _ & _ & _ & _ & _ & _ & _ & (_ & _ & -> & _)).
  - apply book_expense_ok in H0 as (_ & b & -> & <- & Hb & Hp & _). by apply shape_create.
  - apply update_expense_ok in H as (_ & e & e' & He & Ef & _ & _ & _ & _ & _ & ->). eapply shape_ext; [by apply after_update_frame|done].
  - apply delete_expense_ok in H as (_ & e & _ & _ & ->). eapply shape_ext; [apply opt_refresh_frame|by apply shape_removed].
  - apply create_sub_booking_ok in H0 as (_ & p & b & Hp & <- & Pp & Tp & _ & <- & Pb & Tb & Ey & _ & Ek & _ & ->).
    eapply shape_ext; [apply refresh_frame|by eapply shape_sub].
  - apply create_transfer_ok in H3 as (_ & a & b & -> & <- & <- & Ta & Tb & _ & _ & _ & Ey & Pa & Pb & _). by eapply shape_pair.
  - apply update_transfer_ok in H as (_ & a & b & a' & b' & Ha & Hb & _ & _ & _ & _ & _ & Fa & Fb & _ & _ & _ & _ & _ & ->).
    eapply shape_ext; [by apply replace_both_frame|done].
  - apply delete_transfer_ok in H as (_ & a & b & _ & _ & _ & _ & _ & _ & _ & ->). by apply shape_removed.
Qed.

(** ** A closed year *)
Definition closed_year (l : Ledger) (y : string) : Prop := ∃ f c, find_by fy_id y (years l) = Some f ∧ fy_closed_at f = Some c.
Lemma open_not_closed l y z : closed_year l y → open_year l z → z ≠ y.
Proof. intros (f & c & Hf & Hc) Ho ->. rewrite (Ho f Hf) in Hc. done. Qed.
Definition year_rows (bs : list Booking) (y : string) : list Booking := filter (λ b, bk_fiscal_year_id b = y) bs.
Lemma year_rows_replace i f bs y :
  (∀ b, b ∈ bs → bk_id b = i → bk_fiscal_year_id b ≠ y ∧ bk_fiscal_year_id (f b) ≠ y) →
  year_rows (update_row bk_id i f bs) y = year_rows bs y.
Proof. intros H. by apply filter_replace. Qed.
Lemma year_rows_refresh p bs y : (∀ b, b ∈ bs → bk_id b = p → bk_fiscal_year_id b ≠ y) → year_rows (refresh p bs) y = year_rows bs y.
Proof. intros H. unfold refresh. case_match; [|done]. apply year_rows_replace. intros b Hb Hi. by specialize (H b Hb Hi). Qed.
Lemma year_rows_filter (P : Booking → Prop) `{∀ b, Decision (P b)} bs y :
  (∀ b, b ∈ bs → bk_fiscal_year_id b = y → P b) → year_rows (filter P bs) y = year_rows bs y.
Proof. intros HP. by apply filter_sub. Qed.
Lemma year_rows_append bs new y : (∀ b, b ∈ new → bk_fiscal_year_id b ≠ y) → year_rows (bs ++ new) y = year_rows bs y.
Proof. intros H. unfold year_rows. rewrite filter_app, (filter_none _ new) by done. apply app_nil_r. Qed.

Lemma parent_year bs e p q :
  shape_ok bs → e ∈ bs → bk_parent_expense_id e = Some p → q ∈ bs → bk_id q = p → bk_fiscal_year_id q = bk_fiscal_year_id e.
Proof.
  intros Hok He Ep Hq Eq. destruct (shape_parent _ Hok e p He Ep) as (r & Hr & Er & _ & _ & Ey & _).
  rewrite <- Ey. f_equal. apply (same_row bk_id bs); [apply Hok|done|done|congruence].
Qed.
Lemma kept_year ids bs y b :
  shape_ok bs → (∀ c, c ∈ bs → bk_id c ∈ ids → bk_fiscal_year_id c ≠ y) → b ∈ bs → bk_fiscal_year_id b = y → is_gone ids b = false.
Proof.
  intros Hok H Hb Ey. unfold is_gone. apply orb_false_iff. split; [apply bool_decide_eq_false; intros Hi; by apply (H b)|].
  destruct (bk_parent_expense_id b) as [p|] eqn:Ep; [|done]. apply bool_decide_eq_false. intros Hi.
  destruct (shape_parent _ Hok b p Hb Ep) as (q & Hq & <- & _ & _ & Eq & _). apply (H q); [done|done|congruence].
Qed.
(** The years of a deleted cost center have no bookings. *)
Lemma deleted_years_empty l actor i l' b f :
  delete_node l actor i = Ok l' → years_ok l → b ∈ bookings l → f ∈ years l → fy_budget_id f = i → bk_fiscal_year_id b ≠ fy_id f.
Proof.
  intros H Hy Hb Hf Ef E. destruct (years_bookings _ Hy b Hb) as (t & g & Ht & Hg & Eg & Et).
  rewrite E in Eg. pose proof (same_row fy_id _ _ _ (years_ids _ Hy) Hf Hg (eq_sym Eg)) as ->. rewrite Ef in Et. subst t.
  apply delete_node_ok in H as (_ & Hr & _ & Hnb & _ & gone & _ & _ & _ & _ & En & _); [|apply Hy].
  specialize (Hr _ _ (Hnb b Hb) Ht). rewrite En in Hr.
  assert (Hi : ∀ j t, root_of (filter (λ b, bu_id b ≠ i) (nodes l)) j t → t ≠ i).
  { clear. induction 1 as [b [? _]%list_elem_of_filter _|]; done. }
  by apply (Hi _ _ Hr).
Qed.
(** Rows of an open year may change or go: the rows of the year [y] stay. *)
Section OtherYear.
Context (bs : list Booking) (y : string) (Hok : shape_ok bs).
Lemma other_row e c : e ∈ bs → bk_fiscal_year_id e ≠ y → c ∈ bs → bk_id c = bk_id e → bk_fiscal_year_id c ≠ y.
Proof. intros He Hy Hc E. by rewrite (same_row bk_id bs c e (shape_ids _ Hok) Hc He E). Qed.
Lemma other_replaced e e' :
  e ∈ bs → fixed_columns e' = fixed_columns e → bk_fiscal_year_id e ≠ y →
  year_rows (update_row bk_id (bk_id e) (λ _, e') bs) y = year_rows bs y.
Proof. intros He Ef%fixed_year Hy. apply year_rows_replace. intros b Hb Ei. rewrite Ef. split; [by apply (other_row e)|done]. Qed.
Lemma other_updated e e' s :
  e ∈ bs → fixed_columns e' = fixed_columns e → bk_fiscal_year_id e ≠ y → year_rows (after_update e e' s bs) y = year_rows bs y.
Proof.
  intros He Ef Hy. unfold after_update. pose proof (other_replaced e e' He Ef Hy) as Hr.
  destruct (bk_parent_expense_id e) as [p|] eqn:Ep; [|done]. destruct s; [|done].
  rewrite year_rows_refresh; [done|]. intros b Hb Ei.
  destruct (same_frame _ _ _ _ (replace_frame fixed_columns _ e e' (shape_ids _ Hok) He Ef) Hb) as (c & Hc & [= Eid Eyr _ _ _ _]).
  rewrite <- Eyr, (parent_year bs e p c) by (done || congruence). done.
Qed.
Lemma other_pair e i :
  e ∈ bs → bk_fiscal_year_id e ≠ y → i ∈ with_pair bs e → ∀ c, c ∈ bs → bk_id c = i → bk_fiscal_year_id c ≠ y.
Proof.
  intros He Hy Hi c Hc <-. unfold with_pair in Hi. destruct (bk_transfer_id e) as [t|] eqn:Et.
  - apply list_elem_of_fmap in Hi as (d & Ed & [Td Hd]%list_elem_of_filter). apply (other_row d c); [done|by rewrite (shape_years _ Hok d e t)|done|done].
  - apply list_elem_of_singleton in Hi. by apply (other_row e).
Qed.
Lemma other_removed ids :
  (∀ i, i ∈ ids → ∀ c, c ∈ bs → bk_id c = i → bk_fiscal_year_id c ≠ y) → year_rows (removed ids bs) y = year_rows bs y.
Proof. intros H. apply year_rows_filter. intros b Hb. apply (kept_year ids bs y b Hok); [|done]. intros c Hc Hi. by eapply (H (bk_id c)). Qed.
Lemma other_deleted e :
  e ∈ bs → bk_fiscal_year_id e ≠ y →
  year_rows (opt_refresh (bk_parent_expense_id e) (removed (with_pair bs e) bs)) y = year_rows bs y.
Proof.
  intros He Hy. assert (Hr : year_rows (removed (with_pair bs e) bs) y = year_rows bs y).
  { apply other_removed. intros i Hi. by apply (other_pair e). }
  destruct (bk_parent_expense_id e) as [p|] eqn:Ep; [|done]. unfold opt_refresh. rewrite year_rows_refresh; [done|].
  intros b Hb%removed_in Ei. by rewrite (parent_year bs e p b Hok He Ep Hb Ei).
Qed.
Lemma other_sub p b :
  p ∈ bs → bk_fiscal_year_id p ≠ y → bk_fiscal_year_id b = bk_fiscal_year_id p →
  year_rows (refresh (bk_id p) (bs ++ [b])) y = year_rows bs y.
Proof.
  intros Hp Hy Ey. rewrite year_rows_refresh.
  - apply year_rows_append. by intros c ->%list_elem_of_singleton; rewrite Ey.
  - intros c [Hc| ->%list_elem_of_singleton]%elem_of_app Ei; [by apply (other_row p)|by rewrite Ey].
Qed.
Lemma other_both a b a' b' t :
  a ∈ bs → b ∈ bs → bk_transfer_id a = Some t → bk_transfer_id b = Some t → fixed_columns a' = fixed_columns a →
  fixed_columns b' = fixed_columns b → bk_fiscal_year_id a ≠ y →
  year_rows (update_row bk_id (bk_id b) (λ _, b') (update_row bk_id (bk_id a) (λ _, a') bs)) y = year_rows bs y.
Proof.
  intros Ha Hb Ta Tb Fa Fb Hy. pose proof (shape_years _ Hok a b t Ha Hb Ta Tb) as Eab.
  rewrite year_rows_replace; [by apply other_replaced|]. intros c Hc Ei. apply fixed_year in Fb.
  destruct (same_frame _ _ _ _ (replace_frame fixed_columns _ a a' (shape_ids _ Hok) Ha Fa) Hc) as (x & Hx & [= Eid Eyr _ _ _ _]).
  rewrite <- Eyr, Fb, <- Eab. split; [|done]. rewrite Eab in Hy. apply (other_row b x Hb Hy Hx). congruence.
Qed.
Lemma other_transfer_removed a b t :
  a ∈ bs → b ∈ bs → bk_transfer_id a = Some t → bk_transfer_id b = Some t → bk_fiscal_year_id a ≠ y →
  year_rows (removed [bk_id a; bk_id b] bs) y = year_rows bs y.
Proof.
  intros Ha Hb Ta Tb Hy. pose proof (shape_years _ Hok a b t Ha Hb Ta Tb) as Eab. apply other_removed.
  intros i [ -> | ->%list_elem_of_singleton ]%elem_of_cons c Hc Ei; [by apply (other_row a)|]. rewrite Eab in Hy. by apply (other_row b).
Qed.
End OtherYear.
Lemma step_year_rows l l' y :
  budget_step l l' → years_ok l → shape_ok (bookings l) → closed_year l y → year_rows (bookings l') y = year_rows (bookings l) y.
Proof.
  intros H Hy Hok Hc. pose proof (years_tree _ Hy) as Ht. pose proof (shape_ids _ Hok) as Hn.
  assert (Hop : ∀ z, open_year l z → z ≠ y) by (intros z; by apply open_not_closed).
  assert (Hres : ∀ b z, resolved l b z → z ≠ y).
  { intros b z (td & node & o & Hno & _ & Hr). apply Hop. by destruct (resolve_ok _ _ _ _ _ Hr Ht Hno (years_ids _ Hy)) as (_ & ? & _). }
  destruct H.
  - by destruct (create_node_ok _ _ _ _ _ H1 H Ht) as (_ & _ & (-> & _) & _).
  - by destruct (update_node_ok _ _ _ _ _ H Ht) as (_ & _ & (-> & _) & _).
  - pose proof (λ b f, deleted_years_empty _ _ _ _ b f H Hy) as He.
    apply delete_node_ok in H as (_ & _ & _ & Hnb & _ & gone & Hg & _ & -> & _); [|done].
    apply year_rows_filter. intros b Hb _. split; [by apply Hnb|]. intros (f & Hf & E & Ei)%Hg. by destruct (He b f Hb Hf Ei).
  - by apply create_year_ok in H0 as ((_ & -> & _) & _).
  - by apply update_year_ok in H as (_ & -> & _).
  - by apply delete_year_ok in H as ((_ & -> & _) & _).
  - by apply close_year_ok in H as ((_ & -> & _) & _).
  - by apply set_allocation_ok in H0 as ((_ & _ & -> & _) & _).
  - by apply assign_budget_ok in H as (? & ? & _ & (_ & _ & -> & _) & _).
  - by apply move_year_ok in H as (? & ? & ? & ? & _ & _ & _ & _ & _ & _ & _ & _ & (_ & _ & -> & _)).
  - apply book_expense_ok in H0 as (_ & b & -> & _ & _ & _ & _ & Hb). apply year_rows_append. intros c ->%list_elem_of_singleton.
    destruct Hb as [[_ Hb]|Hb]; [by apply Hop|by eapply Hres].
  - apply update_expense_ok in H as (_ & e & e' & He & Ef & Ho & _ & _ & _ & _ & ->). by apply other_updated; auto.
  - apply delete_expense_ok in H as (_ & e & He & Ho & ->). by apply other_deleted; auto.
  - apply create_sub_booking_ok in H0 as (_ & p & b & Hp & <- & _ & _ & Ho & _ & _ & _ & Ey & _ & _ & _ & ->).
    by apply other_sub; auto.
  - apply create_transfer_ok in H3 as (_ & a & b & -> & _ & _ & _ & _ & _ & _ & _ & _ & _ & _ & _ & Ra & Rb).
    apply year_rows_append. intros c [ -> | Hcb%list_elem_of_singleton ]%elem_of_cons; [by eapply Hres|subst; by eapply Hres].
  - apply update_transfer_ok in H as (_ & a & b & a' & b' & Ha & Hb & Ta & Tb & _ & _ & Ho & Fa & Fb & _ & _ & _ & _ & _ & ->).
    eapply other_both; eauto.
  - apply delete_transfer_ok in H as (_ & a & b & Ha & Hb & Ta & Tb & _ & _ & Ho & ->). eapply other_transfer_removed; eauto.
Qed.
(** The deletes of a revert. *)
Lemma taken_shape l l' : takes_bookings l l' → shape_ok (bookings l) → shape_ok (bookings l').
Proof. intros (_ & e & _ & _ & [->|(t & _ & ->)]); apply shape_removed. Qed.
Lemma taken_year_rows l l' y :
  takes_bookings l l' → shape_ok (bookings l) → closed_year l y → year_rows (bookings l') y = year_rows (bookings l) y.
Proof.
  intros (_ & e & He & Ho & Hb) Hok Hc. pose proof (open_not_closed _ _ _ Hc Ho) as Hy. destruct Hb as [->|(t & Et & ->)].
  - apply other_removed; [done|]. intros i ->%list_elem_of_singleton. intros c Hcb Ei. by apply (other_row _ _ Hok e c).
  - apply other_removed; [done|]. intros i Hi. apply (other_pair _ _ Hok e); [done|done|]. unfold with_pair. by rewrite Et.
Qed.

(** ** Applications and allocations of a closed year *)
Definition app_keys (l : Ledger) : Prop := ∀ i a, apps l !! i = Some a → ap_id a = i.
Definition same_year_apps (l l' : Ledger) (y : string) : Prop :=
  ∀ i a, ap_fiscal_year_id a = Some y → apps l' !! i = Some a ↔ apps l !! i = Some a.
Lemma moved_keys l l' i a : app_moved l l' i a → app_keys l → app_keys l'.
Proof.
  intros (_ & _ & _ & _ & E & Ei) Hk j b Hb. rewrite E in Hb. apply lookup_alter_Some in Hb as [(-> & c & _ & ->)|[_ Hb]]; [done|by apply Hk].
Qed.
Lemma moved_year_apps l l' i a a' y :
  apps l !! i = Some a → app_keys l → app_moved l l' (ap_id a) a' → closed_year l y →
  (∀ z, ap_fiscal_year_id a = Some z → open_year l z) → (∀ z, ap_fiscal_year_id a' = Some z → open_year l z) →
  same_year_apps l l' y.
Proof.
  intros Ha Hk (_ & _ & _ & _ & E & _) Hc Ho Ho' j b Eb. rewrite E, (Hk _ _ Ha). destruct (decide (i = j)) as [<-|Hij].
  - rewrite lookup_alter_eq, Ha. cbn. split; intros [= <-]; exfalso.
    + by apply (open_not_closed _ _ _ Hc (Ho' _ Eb)).
    + by apply (open_not_closed _ _ _ Hc (Ho _ Eb)).
  - by rewrite lookup_alter_ne.
Qed.
Definition app_step (l l' : Ledger) : Prop :=
  apps l' = apps l ∨ ∃ i a a', apps l !! i = Some a ∧ app_moved l l' (ap_id a) a' ∧
    (∀ z, ap_fiscal_year_id a = Some z → open_year l z) ∧ (∀ z, ap_fiscal_year_id a' = Some z → open_year l z).
Lemma step_apps l l' : budget_step l l' → years_ok l → app_step l l'.
Proof.
  intros H Hy. pose proof (years_tree _ Hy) as Ht. destruct H.
  - left. by destruct (create_node_ok _ _ _ _ _ H1 H Ht) as (_ & _ & (_ & ? & _) & _).
  - left. by destruct (update_node_ok _ _ _ _ _ H Ht) as (_ & _ & (_ & ? & _) & _).
  - left. by apply delete_node_ok in H as (_ & _ & ? & _).
  - left. by apply create_year_ok in H0 as ((_ & _ & _ & ?) & _).
  - left. by apply update_year_ok in H as (_ & _ & _ & ? & _).
  - left. by apply delete_year_ok in H as ((_ & _ & _ & ?) & _).
  - left. by apply close_year_ok in H as ((_ & _ & _ & ?) & _).
  - left. by apply set_allocation_ok in H0 as ((_ & _ & _ & ?) & _).
  - right. apply assign_budget_ok in H as (x & x' & Hx & Hm & _ & Ho & Hf). exists a, x, x'. split; [done|]. split; [done|].
    split; [done|]. intros z Ez. destruct Hf as [[_ Hf]|(c & w & _ & Ew & td & node & o & Hn & _ & Hr)]; [congruence|].
    rewrite Ez in Ew. injection Ew as <-. by destruct (resolve_ok _ _ _ _ _ Hr Ht Hn (years_ids _ Hy)) as (_ & ? & _).
  - right. apply move_year_ok in H as (x & b & node & top & Hx & _ & _ & _ & _ & _ & Hf & Ho & Hm).
    exists a, x, (set_assignment (Some b) (Some f) x). split; [done|]. split; [done|]. split; [done|]. by intros z [= <-].
  - left. by apply book_expense_ok in H0 as ((_ & _ & _ & ?) & _).
  - left. by apply update_expense_ok in H as ((_ & _ & _ & ?) & _).
  - left. by apply delete_expense_ok in H as ((_ & _ & _ & ?) & _).
  - left. by apply create_sub_booking_ok in H0 as ((_ & _ & _ & ?) & _).
  - left. by apply create_transfer_ok in H3 as ((_ & _ & _ & ?) & _).
  - left. by apply update_transfer_ok in H as ((_ & _ & _ & ?) & _).
  - left. by apply delete_transfer_ok in H as ((_ & _ & _ & ?) & _).
Qed.
Lemma head_filter_append {A} (P : A → Prop) `{∀ x, Decision (P x)} (l : list A) x :
  ¬ P x → head (filter P (l ++ [x])) = head (filter P l).
Proof. intros Hx. by rewrite filter_app, filter_cons, decide_False, filter_nil, app_nil_r by done. Qed.
Lemma put_other l i z v b y : z ≠ y → _allocation (put_allocation l i z v) b y = _allocation l b y.
Proof.
  intros Hz. unfold put_allocation. destruct (_allocation l i z) as [a|]; unfold _allocation at 1; cbn.
  - unfold _allocation. induction (allocs l) as [|x r IH]; [done|]. cbn [fmap list_fmap]. rewrite !filter_cons.
    destruct (bool_decide_reflect (alloc_key x = (i, z))) as [E|E].
    + rewrite decide_False by by intros [= _ ?]. rewrite decide_False by (rewrite E; by intros [= _ ?]). exact IH.
    + by destruct (decide (alloc_key x = (b, y))).
  - rewrite head_filter_append; [done|]. by intros [= _ ?].
Qed.
(** The allocation that a cost center has in a closed year stays while both are there. *)
Lemma step_allocation l l' b y :
  budget_step l l' → years_ok l → closed_year l y → b ∈ bu_id <$> nodes l' → y ∈ fy_id <$> years l' →
  _allocation l' b y = _allocation l b y.
Proof.
  intros H Hok Hc Hb Hy. pose proof (years_tree _ Hok) as Ht. assert (Hsame : allocs l' = allocs l → _allocation l' b y = _allocation l b y) by (unfold _allocation; by intros ->).
  destruct H.
  - apply Hsame. by destruct (create_node_ok _ _ _ _ _ H1 H Ht) as (_ & _ & (_ & _ & ? & _) & _).
  - apply Hsame. by destruct (update_node_ok _ _ _ _ _ H Ht) as (_ & _ & (_ & _ & ? & _) & _).
  - apply delete_node_ok in H as (_ & _ & _ & _ & _ & gone & Hg & _ & _ & Ey & En & Ea); [|done].
    unfold _allocation. rewrite Ea, filter_sub; [done|]. intros a _ [= -> ->]. rewrite En in Hb. rewrite Ey in Hy.
    apply list_elem_of_fmap in Hb as (n & -> & [? _]%list_elem_of_filter). split; [done|]. intros (f & Hf & Ef & Eb)%Hg.
    apply list_elem_of_fmap in Hy as (g & -> & [Hgb Hgy]%list_elem_of_filter).
    apply Hgb. by rewrite (same_row fy_id _ g f (years_ids _ Hok) Hgy Hf (eq_sym Ef)).
  - apply Hsame. by apply create_year_ok in H0 as ((_ & _ & ? & _) & _).
  - apply Hsame. by apply update_year_ok in H as (_ & _ & ? & _).
  - apply Hsame. by apply delete_year_ok in H as ((_ & _ & ? & _) & _).
  - apply Hsame. by apply close_year_ok in H as ((_ & _ & ? & _) & _).
  - apply set_allocation_ok in H0 as (_ & Ho & Ea & _). etrans; [|eapply put_other, open_not_closed; done].
    unfold _allocation. by rewrite Ea.
  - apply Hsame. by apply assign_budget_ok in H as (? & ? & _ & (_ & _ & _ & ? & _) & _).
  - apply Hsame. by apply move_year_ok in H as (? & ? & ? & ? & _ & _ & _ & _ & _ & _ & _ & _ & (_ & _ & _ & ? & _)).
  - apply Hsame. by apply book_expense_ok in H0 as ((_ & _ & ? & _) & _).
  - apply Hsame. by apply update_expense_ok in H as ((_ & _ & ? & _) & _).
  - apply Hsame. by apply delete_expense_ok in H as ((_ & _ & ? & _) & _).
  - apply Hsame. by apply create_sub_booking_ok in H0 as ((_ & _ & ? & _) & _).
  - apply Hsame. by apply create_transfer_ok in H3 as ((_ & _ & ? & _) & _).
  - apply Hsame. by apply update_transfer_ok in H as ((_ & _ & ? & _) & _).
  - apply Hsame. by apply delete_transfer_ok in H as ((_ & _ & ? & _) & _).
Qed.

Record books_ok (l : Ledger) : Prop := BooksOk {
  books_years : years_ok l;
  books_apps : app_keys l;
  books_shape : shape_ok (bookings l)
}.
Section Freeze.
Context (BudgetNodeUpdate ExpenseUpdate : list (string * pyval) → option (list (string * pyval))).
Lemma steps_books l l' : rtc (any_step BudgetNodeUpdate ExpenseUpdate) l l' → books_ok l → books_ok l'.
Proof.
  apply steps_keep.
  - intros k k' H [Hy Hk Hs]. split; [by eapply step_years|..|by eapply step_shape, Hs; try done; apply Hy].
    destruct (step_apps _ _ H Hy) as [E|(i & a & a' & _ & Hm & _)]; [unfold app_keys; by rewrite E|by eapply moved_keys].
  - intros k k' H [Hy Hk Hs]. split; [by eapply taken_years|..|by eapply taken_shape].
    destruct H as ((_ & _ & _ & E) & _). unfold app_keys. by rewrite E.
  - intros k k' H [Hy Hk Hs]. split; [by eapply taken_allocation_years|..]; destruct H as ((_ & _ & Eb & E) & _).
    + unfold app_keys. by rewrite E.
    + by rewrite Eb.
Qed.
End Freeze.
