(* ===== verification/SubBookingFacts.v ===== *)
(** The amounts of the bookings: a booking with sub-bookings carries their sum, a transfer is a pair
    of an expense and an income, and every amount fits its column. *)

From stdpp Require Import gmap strings.
From S2P Require Import Prelude PyStr PyNum PyValue PyDate BudgetRules BudgetFacts FormFields FlowDb Decision Ledger.
From S2P Require Import Bookings LedgerFacts LedgerSteps LedgerProps AllocationFacts BookingFacts.

Definition amounts_ok (bs : list Booking) : Prop := ∀ b, b ∈ bs → amount_ok (bk_amount b) = true.
Definition sub_total (bs : list Booking) (p : string) : Z := zsum (bk_amount <$> subs bs p).
(** Every parent but [x] carries the sum of its sub-bookings. *)
Definition sums_except (x : option string) (bs : list Booking) : Prop :=
  ∀ q, q ∈ bs → x ≠ Some (bk_id q) → subs bs (bk_id q) ≠ [] → bk_amount q = sub_total bs (bk_id q).
Definition sum_frame (b : Booking) := (bk_id b, bk_parent_expense_id b, bk_amount b).
Lemma amount_pos a : amount_ok a = true → 0 < a.
Proof. unfold amount_ok. intros [?%Z.ltb_lt _]%andb_true_iff. done. Qed.
Lemma sum_frame_subs bs bs' p : sum_frame <$> bs' = sum_frame <$> bs → sum_frame <$> subs bs' p = sum_frame <$> subs bs p.
Proof. apply filter_frame. by intros x y [= _ <- _]. Qed.
Lemma sums_ext x bs bs' : sum_frame <$> bs' = sum_frame <$> bs → sums_except x bs → sums_except x bs'.
Proof.
  intros E H q Hq Hx Hne. destruct (same_frame _ _ _ _ E Hq) as (r & Hr & [= Ei Ep Ea]). rewrite <- Ea, <- Ei in *.
  pose proof (sum_frame_subs _ _ (bk_id r) E) as Es. rewrite H; [|done|done|].
  - unfold sub_total. apply (f_equal (fmap (λ k, k.2))) in Es. rewrite <- !list_fmap_compose in Es.
    by rewrite (Es : bk_amount <$> _ = bk_amount <$> _).
  - intros Hn. rewrite Hn in Es. by apply fmap_nil_inv in Es.
Qed.
(** A parent is no sub-booking. *)
Lemma parent_top bs p q : shape_ok bs → subs bs p ≠ [] → q ∈ bs → bk_id q = p → bk_parent_expense_id q = None ∧ bk_transfer_id q = None.
Proof.
  intros Hok Hs Hq Eq. destruct (subs bs p) as [|b r] eqn:E; [done|]. assert (Hb : b ∈ subs bs p) by (rewrite E; left).
  apply list_elem_of_filter in Hb as [Ep Hb]. destruct (shape_parent _ Hok b p Hb Ep) as (x & Hx & Ex & ? & ? & _).
  rewrite (same_row bk_id bs q x (shape_ids _ Hok) Hq Hx); [done|congruence].
Qed.
Lemma sub_total_pos bs p : amounts_ok bs → subs bs p ≠ [] → 0 < sub_total bs p.
Proof.
  intros Ha Hne. unfold sub_total. assert (H : ∀ b, b ∈ subs bs p → 0 < bk_amount b).
  { intros b [_ Hb]%list_elem_of_filter. by apply amount_pos, Ha. }
  destruct (subs bs p) as [|b r]; [done|]. cbn. pose proof (H b (list_elem_of_here _ _)).
  assert (0 ≤ zsum (bk_amount <$> r)); [|lia]. assert (Hr : ∀ c, c ∈ r → 0 < bk_amount c) by (intros c Hc; apply H; by right).
  clear -Hr. induction r as [|c r IH]; [done|]. cbn. pose proof (Hr c (list_elem_of_here _ _)).
  assert (0 ≤ zsum (bk_amount <$> r)); [|lia]. apply IH. intros d Hd. apply Hr. by right.
Qed.
(** The recomputed sum settles its parent and disturbs no other. *)
Lemma refresh_sums p bs : shape_ok bs → amounts_ok bs → sums_except (Some p) bs → sums_except None (refresh p bs).
Proof.
  intros Hok Ha H. destruct (decide (subs bs p = [])) as [Hn|Hn].
  - unfold refresh. rewrite Hn. cbn. intros q Hq _ Hne. apply H; [done| |done]. intros [= ->]. done.
  - pose proof (sub_total_pos _ _ Ha Hn) as Hp. unfold refresh. unfold sub_total in Hp. rewrite (proj2 (Z.ltb_lt _ _) Hp).
    assert (Hs : ∀ r, subs (update_row bk_id p (set_amount (zsum (bk_amount <$> subs bs p))) bs) r = subs bs r).
    { intros r. apply filter_replace. intros b Hb Ei. destruct (parent_top bs p b Hok Hn Hb Ei) as [Eb _].
      by cbn; rewrite Eb. }
    intros q Hq _. rewrite Hs. unfold sub_total. rewrite Hs. apply list_elem_of_fmap in Hq as (b & -> & Hb).
    case_bool_decide as Hi; [by subst|]. intros Hne. apply H; [done| |done]. by intros [= ->].
Qed.
Lemma sums_weaken x bs : sums_except None bs → sums_except x bs.
Proof. intros H q Hq _. by apply H. Qed.
(** A new amount of one row leaves only its parent to settle. *)
Lemma replace_sums bs e e' :
  shape_ok bs → e ∈ bs → fixed_columns e' = fixed_columns e → (subs bs (bk_id e) ≠ [] → bk_amount e' = bk_amount e) →
  sums_except None bs → sums_except (bk_parent_expense_id e) (update_row bk_id (bk_id e) (λ _, e') bs).
Proof.
  intros Hok He [= Ei _ _ _ _ Ep] Hamt H q Hq Hx.
  assert (Hs : subs (update_row bk_id (bk_id e) (λ _, e') bs) (bk_id q) = subs bs (bk_id q)).
  { apply filter_replace. intros b Hb Eb. rewrite (same_row bk_id bs b e (shape_ids _ Hok) Hb He Eb), Ep. done. }
  unfold sub_total. rewrite Hs. apply list_elem_of_fmap in Hq as (b & -> & Hb). case_bool_decide as Hi; [|by apply H].
  rewrite Ei. intros Hne. rewrite Hamt by done. by apply H.
Qed.
Lemma append_sums bs b :
  shape_ok bs → bk_id b ∉ bk_id <$> bs → bk_parent_expense_id b ≠ Some (bk_id b) →
  sums_except None bs → sums_except (bk_parent_expense_id b) (bs ++ [b]).
Proof.
  intros Hok Hi Hself H q Hq Hx. unfold sub_total, subs. rewrite filter_app, filter_cons, filter_nil.
  rewrite decide_False by done. rewrite app_nil_r.
  apply elem_of_app in Hq as [Hq| ->%list_elem_of_singleton]; [by apply H|]. intros []. apply filter_none. intros c Hc Ec.
  destruct (shape_parent _ Hok c _ Hc Ec) as (d & Hd & Ed & _). apply Hi. rewrite <- Ed. by apply list_elem_of_fmap_2.
Qed.
(** A delete leaves the parents of the rows it names to settle. *)
Lemma removed_sums bs ids x :
  shape_ok bs → (∀ b, b ∈ bs → bk_id b ∈ ids → bk_parent_expense_id b = None ∨ bk_parent_expense_id b = x) →
  sums_except None bs → sums_except x (removed ids bs).
Proof.
  intros Hok Hids H q [Hg Hq]%list_elem_of_filter Hx. assert (Hs : subs (removed ids bs) (bk_id q) = subs bs (bk_id q)).
  { apply filter_sub. intros b Hb Ep. unfold is_gone in *. apply orb_false_iff in Hg as [Hg _]. apply bool_decide_eq_false in Hg.
    rewrite Ep. rewrite (bool_decide_false _ Hg), orb_false_r. apply bool_decide_eq_false. intros Hi.
    destruct (Hids b Hb Hi) as [E|E]; congruence. }
  unfold sub_total. rewrite Hs. by apply H.
Qed.

(** ** The amounts fit their column *)
Lemma amounts_replace i f bs : (∀ b, b ∈ bs → bk_id b = i → amount_ok (bk_amount (f b)) = true) → amounts_ok bs → amounts_ok (update_row bk_id i f bs).
Proof. intros Hf H b (c & Hc & [->|[Ei ->]])%update_row_in; [by apply H|by apply Hf]. Qed.
Lemma amounts_append bs new : (∀ b, b ∈ new → amount_ok (bk_amount b) = true) → amounts_ok bs → amounts_ok (bs ++ new).
Proof. intros Hn H b [Hb|Hb]%elem_of_app; auto. Qed.
Lemma amounts_filter (P : Booking → Prop) `{∀ b, Decision (P b)} bs : amounts_ok bs → amounts_ok (filter P bs).
Proof. intros Ha b [_ Hb]%list_elem_of_filter. by apply Ha. Qed.
Lemma recompute_amounts l p l' : _recompute_parent_amount l p = Ok l' → amounts_ok (bookings l) → amounts_ok (bookings l').
Proof.
  intros H Ha. apply recompute_ok in H as (_ & -> & Ht). unfold refresh. destruct (0 <? _) eqn:E; [|done].
  apply Z.ltb_lt in E. apply amounts_replace; [|done]. by apply (Ht E).
Qed.
Lemma update_expense_amounts l actor today i fields l' :
  update_expense l actor today i fields = Ok l' → amounts_ok (bookings l) → amounts_ok (bookings l').
Proof.
  unfold update_expense. intros H Ha. apply bind_ok in H as (e & He & H). apply find_booking_in in He as (_ & He & _).
  do 3 (apply bind_ok in H as (? & _ & H)). apply bind_ok in H as (target & _ & H). apply bind_ok in H as (e' & Hs & H).
  destruct (setattrs _ e) as [e1|] eqn:Es; [|done]. injection Hs as ->. apply setattrs_fixed in Es as (_ & _ & _ & Eo).
  apply bind_ok in H as (? & _ & H).
  assert (H1 : amounts_ok (update_row bk_id i (λ _, e') (bookings l))) by (apply amounts_replace; [intros; by apply Eo, Ha|done]).
  destruct (bk_parent_expense_id e); [|by injection H as <-]. destruct (dict_mem _ _); [|by injection H as <-].
  by eapply recompute_amounts.
Qed.
Lemma delete_expense_amounts l actor i l' :
  delete_expense l actor i = Ok l' → amounts_ok (bookings l) → amounts_ok (bookings l').
Proof.
  unfold delete_expense. intros H Ha. apply bind_ok in H as (e & He & H). apply bind_ok in H as (? & _ & H).
  destruct (bk_parent_expense_id e); [eapply recompute_amounts; [exact H|]|injection H as <-]; by apply amounts_filter.
Qed.
Lemma create_sub_booking_amounts l i v c actor id now l' :
  create_sub_booking l i v c actor id now = Ok l' → amounts_ok (bookings l) → amounts_ok (bookings l').
Proof.
  unfold create_sub_booking. intros H Hok. apply bind_ok in H as (p & _ & H). apply bind_ok in H as (? & _ & H).
  apply bind_ok in H as (? & Ha & H). apply raise_if_ok, negb_false_iff in Ha. apply bind_ok in H as (l1 & Hr & [= <-]).
  apply (recompute_amounts _ _ _ Hr). apply amounts_append; [|done]. by intros b ->%list_elem_of_singleton.
Qed.

(** ** Pairs *)
Lemma pairs_append bs b : bk_transfer_id b = None → pairs_ok bs → pairs_ok (bs ++ [b]).
Proof.
  intros Hb H c t [Hc| ->%list_elem_of_singleton]%elem_of_app Et; [|congruence].
  destruct (H c t Hc Et) as (x & y & E & K). exists x, y. split; [|done]. unfold transfer_of in *.
  rewrite filter_app, E, filter_cons, filter_nil, decide_False by congruence. done.
Qed.
Lemma pairs_new bs a b t :
  (∀ c, c ∈ bs → bk_transfer_id c ≠ Some t) → bk_transfer_id a = Some t → bk_transfer_id b = Some t →
  bk_kind a = expense → bk_kind b = income → pairs_ok bs → pairs_ok (bs ++ [a; b]).
Proof.
  intros Hn Ta Tb Ka Kb H c u Hc Eu. unfold transfer_of. rewrite filter_app, !filter_cons, filter_nil.
  destruct (decide (u = t)) as [->|Hu].
  - rewrite !decide_True by done. rewrite filter_none by done. by exists a, b.
  - rewrite !decide_False by congruence. rewrite app_nil_r. apply elem_of_app in Hc as [Hc|Hc]; [by apply (H c)|].
    apply elem_of_cons in Hc as [->|Hc%list_elem_of_singleton]; [congruence|subst; congruence].
Qed.
Lemma pairs_filter (P : Booking → Prop) `{∀ b, Decision (P b)} bs :
  (∀ a b t, a ∈ bs → b ∈ bs → bk_transfer_id a = Some t → bk_transfer_id b = Some t → P a → P b) → pairs_ok bs → pairs_ok (filter P bs).
Proof.
  intros HP Hbs b t [Pb Hb]%list_elem_of_filter Et. destruct (Hbs b t Hb Et) as (x & y & E & K). exists x, y. split; [|done].
  unfold transfer_of in *. rewrite filter_sub; [done|]. intros c Hc Ec. by eapply (HP b).
Qed.
Lemma pairs_removed bs ids :
  shape_ok bs → (∀ a b t, a ∈ bs → b ∈ bs → bk_transfer_id a = Some t → bk_transfer_id b = Some t → bk_id a ∈ ids → bk_id b ∈ ids) →
  pairs_ok bs → pairs_ok (removed ids bs).
Proof.
  intros Hok Hids. apply pairs_filter. intros a b t Ha Hb Ta Tb Hg.
  assert (Hp : ∀ c, c ∈ bs → bk_transfer_id c = Some t → is_gone ids c = bool_decide (bk_id c ∈ ids)).
  { intros c Hc Ec. unfold is_gone. destruct (bk_parent_expense_id c) as [p|] eqn:Ep; [|by rewrite orb_false_r].
    rewrite (shape_single _ Hok c p Hc Ep) in Ec. done. }
  rewrite Hp in Hg |- * by done. apply bool_decide_eq_false in Hg. apply bool_decide_eq_false. intros Hi. by apply Hg, (Hids b a t).
Qed.
Lemma with_pair_closed bs e a b t :
  shape_ok bs → e ∈ bs → a ∈ bs → b ∈ bs → bk_transfer_id a = Some t → bk_transfer_id b = Some t →
  bk_id a ∈ with_pair bs e → bk_id b ∈ with_pair bs e.
Proof.
  intros Hok He Ha Hb Ta Tb. unfold with_pair. destruct (bk_transfer_id e) as [u|] eqn:Eu.
  - intros (c & Ec & [Tc Hc]%list_elem_of_filter)%list_elem_of_fmap. apply list_elem_of_fmap_2, list_elem_of_filter. split; [|done].
    rewrite (same_row bk_id bs a c (shape_ids _ Hok) Ha Hc Ec) in Ta. congruence.
  - intros Ei%list_elem_of_singleton. rewrite (same_row bk_id bs a e (shape_ids _ Hok) Ha He Ei) in Ta. congruence.
Qed.

(** ** The operations *)
Record sums_ok (l : Ledger) : Prop := SumsOk {
  sums_tree : tree_ok (nodes l);
  sums_shape : shape_ok (bookings l);
  sums_pairs : pairs_ok (bookings l);
  sums_amounts : amounts_ok (bookings l);
  sums_parents : sums_except None (bookings l)
}.
Lemma subs_none bs e : shape_ok bs → e ∈ bs → is_Some (bk_transfer_id e) ∨ is_Some (bk_parent_expense_id e) → subs bs (bk_id e) = [].
Proof.
  intros Hok He Hs. destruct (decide (subs bs (bk_id e) = [])) as [|Hn]; [done|].
  destruct (parent_top bs _ e Hok Hn He eq_refl) as [E1 E2]. rewrite E1, E2 in Hs. by destruct Hs as [[]|[]].
Qed.
Lemma updated_sums bs e e' s :
  shape_ok bs → amounts_ok (update_row bk_id (bk_id e) (λ _, e') bs) → e ∈ bs → fixed_columns e' = fixed_columns e →
  (subs bs (bk_id e) ≠ [] → bk_amount e' = bk_amount e) → (s = false → bk_amount e' = bk_amount e) →
  sums_except None bs → sums_except None (after_update e e' s bs).
Proof.
  intros Hok Ha He Ef Hamt Hs H. unfold after_update. pose proof (replace_sums bs e e' Hok He Ef Hamt H) as Hr.
  destruct (bk_parent_expense_id e) as [p|] eqn:Ep; [|done]. destruct s.
  - apply refresh_sums; [|done|done]. eapply shape_ext; [|exact Hok]. by apply replace_frame; [apply Hok|..].
  - eapply sums_ext; [|exact H]. apply replace_frame; [apply Hok|done|]. unfold sum_frame. rewrite Hs by done.
    injection Ef as -> _ _ _ _ ->. done.
Qed.
Lemma deleted_sums bs e :
  shape_ok bs → amounts_ok bs → e ∈ bs → sums_except None bs →
  sums_except None (opt_refresh (bk_parent_expense_id e) (removed (with_pair bs e) bs)).
Proof.
  intros Hok Ha He H. assert (Hr : sums_except (bk_parent_expense_id e) (removed (with_pair bs e) bs)).
  { apply removed_sums; [done| |done]. intros b Hb Hi. unfold with_pair in Hi. destruct (bk_transfer_id e) as [t|] eqn:Et.
    - apply list_elem_of_fmap in Hi as (c & Ec & [Tc Hc]%list_elem_of_filter).
      rewrite (same_row bk_id bs b c (shape_ids _ Hok) Hb Hc Ec). left.
      destruct (bk_parent_expense_id c) as [p|] eqn:Ep; [|done]. rewrite (shape_single _ Hok c p Hc Ep) in Tc. done.
    - apply list_elem_of_singleton in Hi. right. by rewrite (same_row bk_id bs b e (shape_ids _ Hok) Hb He Hi). }
  destruct (bk_parent_expense_id e) as [p|]; [|done].
  apply refresh_sums; [by apply shape_removed|by apply amounts_filter|done].
Qed.
Lemma both_sums bs a b a' b' t :
  shape_ok bs → a ∈ bs → b ∈ bs → bk_transfer_id a = Some t → bk_transfer_id b = Some t → fixed_columns a' = fixed_columns a →
  fixed_columns b' = fixed_columns b → bk_id a ≠ bk_id b → sums_except None bs →
  sums_except None (update_row bk_id (bk_id b) (λ _, b') (update_row bk_id (bk_id a) (λ _, a') bs)).
Proof.
  intros Hok Ha Hb Ta Tb Fa Fb Hab H. set (bs1 := update_row bk_id (bk_id a) (λ _, a') bs).
  assert (Hpar : ∀ c, c ∈ bs → bk_transfer_id c = Some t → bk_parent_expense_id c = None).
  { intros c Hc Tc. destruct (bk_parent_expense_id c) as [p|] eqn:Ep; [|done]. rewrite (shape_single _ Hok c p Hc Ep) in Tc. done. }
  assert (Hnone : ∀ c, c ∈ bs → bk_transfer_id c = Some t → subs bs (bk_id c) = []) by (intros c Hc Tc; apply subs_none; eauto).
  assert (H1 : sums_except None bs1).
  { rewrite <- (Hpar a Ha Ta). apply replace_sums; [done|done|done| |done]. by rewrite (Hnone a). }
  assert (Hb1 : b ∈ bs1) by (apply list_elem_of_fmap; exists b; by rewrite bool_decide_false).
  assert (Hok1 : shape_ok bs1) by (eapply shape_ext; [by apply replace_frame; [apply Hok|..]|done]).
  rewrite <- (Hpar b Hb Tb). apply replace_sums; [done|done|done| |done]. rewrite subs_none; [done|done|done|eauto].
Qed.
Lemma rows_same l l' : tree_ok (nodes l') → bookings l' = bookings l → sums_ok l → sums_ok l'.
Proof. intros Ht E [_ ????]. split; by rewrite ?E. Qed.
Lemma deleted_node_sums l actor i l' : delete_node l actor i = Ok l' → sums_ok l → sums_ok l'.
Proof.
  intros H [Ht Hok Hp Ha Hs]. pose proof (shape_deleted_node _ _ _ _ H Ht Hok) as Hok'.
  apply delete_node_ok in H as (Ht' & _ & _ & Hnb & _ & gone & _ & _ & Eb & _); [|done]. rewrite Eb in Hok'.
  split; rewrite ?Eb; [done|done| |by apply amounts_filter|].
  - apply pairs_filter; [|done]. intros a b t Hain Hbin Ta Tb [_ Hg]. split; [by apply Hnb|].
    by rewrite <- (shape_years _ Hok a b t).
  - intros q [[_ Hg] Hq]%list_elem_of_filter _. unfold sub_total, subs. rewrite filter_sub; [by apply Hs|].
    intros b Hb Ep. split; [by apply Hnb|]. by rewrite <- (parent_year _ b (bk_id q) q Hok Hb Ep Hq eq_refl).
Qed.
Lemma booked_sums bs b :
  shape_ok bs → bk_id b ∉ bk_id <$> bs → bk_parent_expense_id b = None → sums_except None bs → sums_except None (bs ++ [b]).
Proof. intros Hok Hi Pb H. rewrite <- Pb. apply append_sums; [done|done|by rewrite Pb|done]. Qed.
Lemma booked_amounts bs b : amount_ok (bk_amount b) = true → amounts_ok bs → amounts_ok (bs ++ [b]).
Proof. intros Hb. apply amounts_append. by intros x ->%list_elem_of_singleton. Qed.
Lemma sub_booked_sums bs p b :
  p ∈ bs → bk_id b ∉ bk_id <$> bs → bk_parent_expense_id b = Some (bk_id p) → shape_ok bs → shape_ok (bs ++ [b]) →
  amounts_ok (bs ++ [b]) → sums_except None bs → sums_except None (refresh (bk_id p) (bs ++ [b])).
Proof.
  intros Hp Hi Pb Hok Hok' Ha H. apply refresh_sums; [done|done|]. rewrite <- Pb. apply append_sums; [done|done| |done].
  rewrite Pb. intros [= E]. apply Hi. rewrite <- E. by apply list_elem_of_fmap_2.
Qed.
Lemma transfer_booked_sums bs a b t :
  bk_id a ∉ bk_id <$> bs → bk_id b ∉ bk_id <$> bs → bk_id a ≠ bk_id b → (∀ c, c ∈ bs → bk_transfer_id c ≠ Some t) →
  bk_transfer_id a = Some t → bk_parent_expense_id a = None → bk_parent_expense_id b = None →
  shape_ok bs → sums_except None bs → sums_except None (bs ++ [a; b]).
Proof.
  intros Ia Ib Iab Ht Ta Pa Pb Hok H. change [a; b] with ([a] ++ [b]). rewrite app_assoc.
  apply booked_sums; [by eapply shape_leg| |done|by apply booked_sums].
  rewrite fmap_app. intros [Hx|Hx%list_elem_of_singleton]%elem_of_app; [done|by symmetry in Hx].
Qed.
(** The rows of a transfer have no parent, so their delete leaves no sum to settle. *)
Lemma transfer_removed_sums bs a b t :
  shape_ok bs → pairs_ok bs → a ∈ bs → b ∈ bs → bk_transfer_id a = Some t → bk_transfer_id b = Some t →
  bk_kind a = expense → bk_kind b = income → sums_except None bs →
  pairs_ok (removed [bk_id a; bk_id b] bs) ∧ sums_except None (removed [bk_id a; bk_id b] bs).
Proof.
  intros Hok Hp Ha Hb Ta Tb Ka Kb H. destruct (Hp a t Ha Ta) as (x & y & E & Kx & Ky).
  assert (Hrow : ∀ c, c ∈ bs → bk_transfer_id c = Some t → c = a ∨ c = b).
  { assert (Hxy : ∀ c, c ∈ bs → bk_transfer_id c = Some t → c = x ∨ c = y).
    { intros c Hc Tc. assert (Hin : c ∈ transfer_of bs t) by by apply list_elem_of_filter.
      rewrite E in Hin. apply elem_of_cons in Hin as [?|?%list_elem_of_singleton]; auto. }
    intros c Hc Tc. destruct (Hxy a Ha Ta) as [-> | ->]; [|congruence]. destruct (Hxy b Hb Tb) as [-> | ->]; [congruence|]. by apply Hxy. }
  assert (Hid : ∀ c, c ∈ bs → bk_id c ∈ [bk_id a; bk_id b] → c = a ∨ c = b).
  { intros c Hc [Ei|Ei%list_elem_of_singleton]%elem_of_cons; [left|right]; by apply (same_row bk_id bs _ _ (shape_ids _ Hok)). }
  split.
  - apply pairs_removed; [done| |done]. intros c d u Hc Hd Tc Td Hi.
    assert (u = t) as -> by (destruct (Hid c Hc Hi) as [-> | ->]; congruence).
    destruct (Hrow d Hd Td) as [-> | ->]; set_solver.
  - apply removed_sums; [done| |done]. intros c Hc Hi. left. destruct (bk_parent_expense_id c) as [p|] eqn:Ep; [|done].
    pose proof (shape_single _ Hok c p Hc Ep) as En. destruct (Hid c Hc Hi) as [-> | ->]; congruence.
Qed.
Lemma step_sums l l' : budget_step l l' → sums_ok l → sums_ok l'.
Proof.
  intros H Hl. pose proof Hl as [Ht Hok Hp Ha Hs]. pose proof (step_tree _ _ H Ht) as Ht'. pose proof (step_shape _ _ H Ht Hok) as Hok'.
  pose proof (shape_ids _ Hok) as Hn. destruct H.
  - apply (rows_same l); [done| |done]. by destruct (create_node_ok _ _ _ _ _ H1 H Ht) as (_ & _ & (-> & _) & _).
  - apply (rows_same l); [done| |done]. by destruct (update_node_ok _ _ _ _ _ H Ht) as (_ & _ & (-> & _) & _).
  - by eapply deleted_node_sums.
  - apply (rows_same l); [done| |done]. by apply create_year_ok in H0 as ((_ & -> & _) & _).
  - apply (rows_same l); [done| |done]. by apply update_year_ok in H as (_ & -> & _).
  - apply (rows_same l); [done| |done]. by apply delete_year_ok in H as ((_ & -> & _) & _).
  - apply (rows_same l); [done| |done]. by apply close_year_ok in H as ((_ & -> & _) & _).
  - apply (rows_same l); [done| |done]. by apply set_allocation_ok in H0 as ((_ & _ & -> & _) & _).
  - apply (rows_same l); [done| |done]. by apply assign_budget_ok in H as (? & ? & _ & (_ & _ & -> & _) & _).
  - apply (rows_same l); [done| |done]. by apply move_year_ok in H as (? & ? & ? & ? & _ & _ & _ & _ & _ & _ & _ & _ & (_ & _ & -> & _)).
  - apply book_expense_ok in H0 as (_ & b & Eb & <- & Tb & Pb & Ab & _).
    split; rewrite ?Eb; [done|by rewrite <- Eb|by apply pairs_append|by apply booked_amounts|by apply booked_sums].
  - pose proof (update_expense_amounts _ _ _ _ _ _ H Ha) as Ha'.
    apply update_expense_ok in H as (_ & e & e' & He & Ef & _ & _ & Eo & Esub & Eno & Eb).
    split; [done|done|rewrite Eb; eapply pairs_ext; [by apply after_update_frame|done]|done|].
    rewrite Eb. apply updated_sums; try done. apply amounts_replace; [|done]. intros; by apply Eo, Ha.
  - pose proof (delete_expense_amounts _ _ _ _ H Ha) as Ha'. apply delete_expense_ok in H as (_ & e & He & _ & Eb).
    split; [done|done| |done|rewrite Eb; by apply deleted_sums]. rewrite Eb. eapply pairs_ext; [apply opt_refresh_frame|].
    apply pairs_removed; [done| |done]. intros x y t. by apply with_pair_closed.
  - pose proof (create_sub_booking_amounts _ _ _ _ _ _ _ _ H0 Ha) as Ha'.
    apply create_sub_booking_ok in H0 as (_ & p & b & Hpin & <- & Pp & Tp & _ & <- & Pb & Tb & Ey & _ & Ek & Ab & Eb).
    split; [done|done| |done|]; rewrite Eb; [eapply pairs_ext; [apply refresh_frame|by apply pairs_append]|].
    apply sub_booked_sums; try done; [by eapply shape_sub|by apply booked_amounts].
  - apply create_transfer_ok in H3 as (_ & a & b & Eb & <- & <- & Ta & Tb & Ka & Kb & Eab & Ey & Pa & Pb & Aa & _).
    split; [done|done|rewrite Eb; by eapply pairs_new| |rewrite Eb; by eapply transfer_booked_sums]. rewrite Eb.
    apply amounts_append; [|done]. intros x [->|Hx%list_elem_of_singleton]%elem_of_cons; [done|subst; by rewrite <- Eab].
  - apply update_transfer_ok in H as (_ & a & b & a' & b' & Hai & Hbi & Ta & Tb & Ka & Kb & _ & Fa & Fb & _ & _ & Aa & Ab & _ & Eb).
    assert (Hab : bk_id a ≠ bk_id b) by (intros E; rewrite (same_row bk_id _ a b Hn Hai Hbi E) in Ka; congruence).
    split; [done|done|rewrite Eb; eapply pairs_ext; [by apply replace_both_frame|done]| |rewrite Eb; by eapply both_sums].
    rewrite Eb. apply amounts_replace; [intros; by apply Ab, Ha|]. apply amounts_replace; [intros; by apply Aa, Ha|done].
  - apply delete_transfer_ok in H as (_ & a & b & Hai & Hbi & Ta & Tb & Ka & Kb & _ & Eb).
    destruct (transfer_removed_sums (bookings l) a b t) as [Hp' Hs']; try done.
    split; [done|done|by rewrite Eb|rewrite Eb; by apply amounts_filter|by rewrite Eb].
Qed.
Lemma steps_sums l l' : rtc budget_step l l' → sums_ok l → sums_ok l'.
Proof. induction 1 as [|l l1 l2 H _ IH]; [done|]. intros Hok. by apply IH, (step_sums _ _ H). Qed.

(** ** A year *)
Definition no_flow : Db := MkDb (MkConfig [] [] [] [] [] [] [] [] [] [] [] [] []) ∅ ∅ [] [] [] [].
Definition empty_ledger : Ledger := MkLedger no_flow [] [] [] [] [].
Definition result (r : bres Ledger) : Ledger := match r with Ok l => l | Err _ => empty_ledger end.
Definition who : option string := Some "kasse".
Definition today : pydate := Date 2025 6 1.
Definition new_node (key : string) (parent : option string) : BudgetNodeCreate :=
  MkNodeCreate key key parent None None true None 1 1.
Definition spend (amount : Z) : ExpenseCreate := MkExpenseCreate amount expense (Some "b") (Some "y") None [].
Definition l1 := result (create_node empty_ledger who (new_node "A" None) "a").
Definition l2 := result (create_node l1 who (new_node "B" (Some "a")) "b").
Definition l3 := result (create_fiscal_year l2 "a" 2025 true "y").
Definition l4 := result (set_allocation l3 who "a" "y" 100000).
Definition l5 := result (set_allocation l4 who "b" "y" 40000).
Definition l6 := result (book_expense l5 today (spend 500) "kasse" "e" 1).
Definition l7 := result (create_sub_booking l6 "e" 300 [] "kasse" "f" 2).
Definition l8 := result (create_sub_booking l7 "e" 450 [] "kasse" "g" 3).
Definition l9 := result (create_transfer l8 today (MkTransferCreate "a" "b" "y" 1000 "move") "kasse" "t" "o" "i" 4).
Definition l10 := result (update_node l9 who "a" [("key", PStr "Z")]).
Definition l11 := result (set_fiscal_year_closed l10 who "a" "y" true 5).
Definition l12 := result (create_fiscal_year l11 "a" 2026 true "z").
Lemma all_rows {A} (P : A → Prop) `{∀ x, Decision (P x)} (l : list A) :
  forallb (λ x, bool_decide (P x)) l = true → ∀ x, x ∈ l → P x.
Proof. intros Hl x Hx. rewrite forallb_forall in Hl. specialize (Hl x). rewrite <- list_elem_of_In in Hl. by apply (bool_decide_eq_true_1 _), Hl. Qed.
Ltac new_id := refine (bool_decide_unpack _ _); vm_compute; exact I.
Ltac run := vm_compute; reflexivity.
Lemma year_steps : rtc budget_step empty_ledger l10.
Proof.
  eapply rtc_l; [apply (step_create_node _ who (new_node "A" None) "a" l1); [new_id|apply (all_rows (λ a, al_budget_id a ≠ "a")); run|run]|].
  eapply rtc_l; [apply (step_create_node _ who (new_node "B" (Some "a")) "b" l2); [new_id|apply (all_rows (λ a, al_budget_id a ≠ "b")); run|run]|].
  eapply rtc_l; [apply (step_create_year _ "a" 2025 true "y" l3); [new_id|run]|].
  eapply rtc_l; [apply (step_allocate _ who "a" "y" 100000 l4); [done|run]|].
  eapply rtc_l; [apply (step_allocate _ who "b" "y" 40000 l5); [done|run]|].
  eapply rtc_l; [apply (step_book _ today (spend 500) "kasse" "e" 1 l6); [new_id|run]|].
  eapply rtc_l; [apply (step_sub_booking _ "e" 300 [] "kasse" "f" 2 l7); [new_id|run]|].
  eapply rtc_l; [apply (step_sub_booking _ "e" 450 [] "kasse" "g" 3 l8); [new_id|run]|].
  eapply rtc_l.
  { apply (step_transfer _ today (MkTransferCreate "a" "b" "y" 1000 "move") "kasse" "t" "o" "i" 4 l9); [new_id|new_id|done|apply (all_rows (λ b, bk_transfer_id b ≠ Some "t")); run|run]. }
  apply rtc_once, (step_update_node _ who "a" [("key", PStr "Z")]). run.
Qed.
Lemma empty_tree : tree_ok (nodes empty_ledger).
Proof. split; [constructor|..]; intros; set_solver. Qed.
Lemma empty_years : years_ok empty_ledger.
Proof. split; [apply empty_tree|constructor|intros; set_solver|]. intros i a b y H. unfold apps in H. cbn in H. by rewrite lookup_empty in H. Qed.
Lemma empty_shape : shape_ok (bookings empty_ledger).
Proof. split; [constructor|..]; intros; set_solver. Qed.
Lemma empty_books : books_ok empty_ledger.
Proof. split; [apply empty_years| |apply empty_shape]. intros i a H. unfold apps in H. cbn in H. by rewrite lookup_empty in H. Qed.
Lemma empty_sums : sums_ok empty_ledger.
Proof. split; [apply empty_tree|apply empty_shape|..]; intros b; intros; set_solver. Qed.
Lemma empty_allocs : allocs_ok empty_ledger.
Proof. split; [apply empty_tree|constructor|intros; set_solver|intros; set_solver|done]. Qed.
(** The validators of a revert, which accept every patch here. *)
Definition accept (d : list (string * pyval)) : option (list (string * pyval)) := Some d.
Lemma year_any_steps : rtc (any_step accept accept) empty_ledger l10.
Proof. generalize year_steps. generalize empty_ledger l10. induction 1; [done|]. eapply rtc_l; [by left|done]. Qed.

(** ** Witnesses *)
Lemma paths_tell_the_tree_witness :
  _top_level l10 (default (MkBudget "" None None "" "" "" true None [] [] false None None 1 1) (find_by bu_id "b" (nodes l10))) =
    match find_by bu_id "a" (nodes l10) with Some b => Ok b | None => Err not_found end ∧
  (bu_path_key <$> nodes l10 = ["Z"; "Z-B"]) ∧ NoDup (bu_path_key <$> nodes l10).
Proof.
  split; [vm_compute; reflexivity|]. split; [vm_compute; reflexivity|].
  apply (paths_tell_the_tree accept accept empty_ledger l10 empty_tree year_any_steps).
Defined.
Lemma booking_years_belong_witness :
  (bk_id <$> bookings l10 = ["e"; "f"; "g"; "o"; "i"]) ∧
  ∀ b, b ∈ bookings l10 → fits l10 (bk_budget_id b) (bk_fiscal_year_id b).
Proof.
  split; [vm_compute; reflexivity|]. apply (booking_years_belong accept accept empty_ledger l10 empty_years year_any_steps).
Defined.
Lemma close_step : any_step accept accept l10 l11.
Proof. left. apply (step_close_year _ who "a" "y" true 5 l11). run. Qed.
Lemma closing_steps : rtc (any_step accept accept) empty_ledger l11.
Proof. eapply rtc_r; [apply year_any_steps|apply close_step]. Qed.
Lemma year_closed : closed_year l11 "y".
Proof. eexists _, 5. split; vm_compute; reflexivity. Qed.
Lemma next_year_step : budget_step l11 l12.
Proof. apply (step_create_year _ "a" 2026 true "z" l12); [new_id|run]. Qed.

(** ** Edges *)
(** The revert of a sub-booking leaves the old sum on its parent. *)
Example reverted_sub_booking :
  (bk_amount <$> bookings (result (revert_audit accept accept l8 "kasse" today (MkLogEntry 9 "budget_expense_create" "g" [])))) =
    [750; 300] ∧
  (bk_amount <$> bookings (result (delete_expense l8 who "g"))) = [300; 300].
Proof. vm_compute. by split. Qed.
(** The revert of a first allocation takes it out of a closed year, and from under its children. *)
Example reverted_allocation :
  let l := result (revert_audit accept accept l11 "kasse" today
             (MkLogEntry 9 "budget_allocation_set" "a"
                [("fiscalYearId", PStr "y"); ("allocated", PStr "1000.00"); ("previousAllocated", PNone)])) in
  alloc_key <$> allocs l = [("b", "y")] ∧
  set_allocation l11 who "a" "y" 0 = Err (conflict "fiscal_year_closed").
Proof. vm_compute. by split. Qed.
(** An update of one leg lets the amounts of a transfer differ. *)
Example drifted_legs :
  bk_amount <$> transfer_rows (result (update_expense l9 who today "o" [("amount", PDec (dec_money 2000))])) "t" = [2000; 1000].
Proof. by vm_compute. Qed.
(** A sub-booking stays at the cost center that its parent leaves. *)
Example left_behind :
  bk_budget_id <$> bookings (result (update_expense l8 who today "e" [("budget_id", PStr "a")])) = ["a"; "b"; "b"].
Proof. by vm_compute. Qed.
(** A year is changed through the path of another top-level budget. *)
Example foreign_year :
  let l := result (create_node l3 who (new_node "C" None) "c") in
  fy_active <$> years (result (update_fiscal_year l "c" "y" None (Some false))) = [false].
Proof. by vm_compute. Qed.
(** A transfer patch with a null amount reaches the database. *)
Example null_amount : update_transfer l9 who "t" [("amount", PNone)] = Err database.
Proof. by vm_compute. Qed.
