(* ===== verification/Todo.v ===== *)
(** The to-do boards: their tables, who reads and writes a board, and the order of the cards in a
    column ([todos/models.py], [todos/access.py], [todos/live.py], the lookups and the ranks of
    [todos/service.py], [shared/people.py]).

    A point in time is a number of seconds.  The texts compare as bytes, as the collation [C] of
    the ranks does. *)

From stdpp Require Import gmap strings.
From S2P Require Import Prelude PyStr PyNum PyValue PyDate Lexorank FlowDb Policy.

(** ** Tables *)
Inductive BoardKind := kind_gremium | kind_personal | kind_team.
#[export] Instance BoardKind_eq_dec : EqDecision BoardKind.
Proof. solve_decision. Defined.
Record TodoBoard := MkTodoBoard {
  tb_id : string;
  tb_name : string;
  tb_kind : BoardKind;
  tb_gremium_id : option string;
  tb_owner_id : option string;
  tb_permission : option string;
  tb_archive_after_days : option Z;
  tb_archived_at : option Z;
  tb_updated_at : Z
}.
Record TodoColumn := MkTodoColumn {
  tc_id : string;
  tc_board_id : string;
  tc_name : string;
  tc_position : Z;
  tc_is_done : bool
}.
Record TodoCard := MkTodoCard {
  cd_id : string;
  cd_board_id : string;
  cd_column_id : string;
  cd_rank : string;
  cd_title : string;
  cd_description_md : option string;
  cd_due_date : option pydate;
  cd_due_reminded_on : option pydate;
  cd_created_by : string;
  cd_completed_at : option Z;
  cd_archived_at : option Z;
  cd_version : Z;
  cd_created_at : Z;
  cd_updated_at : Z
}.
Record TodoLabel := MkTodoLabel { tl_id : string; tl_board_id : string; tl_name : string; tl_color : string }.
Record TodoCheckItem := MkTodoCheckItem {
  ci_id : string; ci_card_id : string; ci_text : string; ci_done : bool; ci_position : Z }.
Record TodoComment := MkTodoComment {
  cm_id : string;
  cm_card_id : string;
  cm_author_id : string;
  cm_body : string;
  cm_mentions : list string;
  cm_created_at : Z;
  cm_edited_at : option Z;
  cm_deleted_at : option Z
}.
Record TodoEvent := MkTodoEvent {
  ev_card_id : string;
  ev_actor_id : option string;
  ev_kind : string;
  ev_payload : list (string * pyval);
  ev_created_at : Z
}.
(** The kind of a link names its target column. *)
Record TodoLink := MkTodoLink {
  lk_id : string;
  lk_card_id : string;
  lk_kind : string;
  lk_target_id : string;
  lk_created_by : string;
  lk_created_at : Z
}.
Record TodoCardEvent := MkTodoCardEvent {
  ce_card_id : string;
  ce_starts_on : option pydate;
  ce_ends_on : option pydate;
  ce_place : option string;
  ce_participants : option Z;
  ce_series_id : option string
}.
Record TodoEventSeries := MkSeries { se_id : string; se_name : string; se_created_by : option string }.
Record TicketEvent := MkTicketEvent {
  te_ticket_id : string;
  te_actor_id : option string;
  te_kind : string;
  te_payload : list (string * pyval);
  te_created_at : Z
}.
Inductive MailKind := assigned | mentioned.
Record TodoMail := MkTodoMail {
  ml_kind : MailKind;
  ml_card_id : string;
  ml_recipients : list string;
  ml_actor_id : string;
  ml_excerpt : option string
}.
(** The columns of [principal] that the members of a board need. *)
Record Account := MkAccount {
  ac_id : string;
  ac_active : bool;
  ac_merged_into : option string;
  ac_oidc_groups : list string
}.
Inductive PingKind := ping_card | ping_card_removed.
#[export] Instance PingKind_eq_dec : EqDecision PingKind.
Proof. solve_decision. Defined.
Record _Touched := MkTouched { to_cards : list (string * PingKind); to_whole : bool }.
(** The tables, with the mails and the pings of the requests since the last send. *)
Record TodoDb := MkTodoDb {
  todo_conf : Config;
  roles : RoleTables;
  accounts : list Account;
  boards : list TodoBoard;
  columns : list TodoColumn;
  cards : list TodoCard;
  labels : list TodoLabel;
  card_labels : list (string * string);
  assignees : list (string * string);
  check_items : list TodoCheckItem;
  comments : list TodoComment;
  timeline : list TodoEvent;
  links : list TodoLink;
  card_events : list TodoCardEvent;
  series : list TodoEventSeries;
  ticket_events : list TicketEvent;
  outbox : list TodoMail;
  pings : list (string * _Touched)
}.
(** A card and its label, a card and its assignee. *)
Definition with_boards (x : list TodoBoard) (d : TodoDb) : TodoDb :=
  MkTodoDb (todo_conf d) (roles d) (accounts d) x (columns d) (cards d) (labels d) (card_labels d) (assignees d) (check_items d) (comments d) (timeline d) (links d) (card_events d) (series d) (ticket_events d) (outbox d) (pings d).
Definition with_columns (x : list TodoColumn) (d : TodoDb) : TodoDb :=
  MkTodoDb (todo_conf d) (roles d) (accounts d) (boards d) x (cards d) (labels d) (card_labels d) (assignees d) (check_items d) (comments d) (timeline d) (links d) (card_events d) (series d) (ticket_events d) (outbox d) (pings d).
Definition with_cards (x : list TodoCard) (d : TodoDb) : TodoDb :=
  MkTodoDb (todo_conf d) (roles d) (accounts d) (boards d) (columns d) x (labels d) (card_labels d) (assignees d) (check_items d) (comments d) (timeline d) (links d) (card_events d) (series d) (ticket_events d) (outbox d) (pings d).
Definition with_labels (x : list TodoLabel) (d : TodoDb) : TodoDb :=
  MkTodoDb (todo_conf d) (roles d) (accounts d) (boards d) (columns d) (cards d) x (card_labels d) (assignees d) (check_items d) (comments d) (timeline d) (links d) (card_events d) (series d) (ticket_events d) (outbox d) (pings d).
Definition with_card_labels (x : list (string * string)) (d : TodoDb) : TodoDb :=
  MkTodoDb (todo_conf d) (roles d) (accounts d) (boards d) (columns d) (cards d) (labels d) x (assignees d) (check_items d) (comments d) (timeline d) (links d) (card_events d) (series d) (ticket_events d) (outbox d) (pings d).
Definition with_assignees (x : list (string * string)) (d : TodoDb) : TodoDb :=
  MkTodoDb (todo_conf d) (roles d) (accounts d) (boards d) (columns d) (cards d) (labels d) (card_labels d) x (check_items d) (comments d) (timeline d) (links d) (card_events d) (series d) (ticket_events d) (outbox d) (pings d).
Definition with_check_items (x : list TodoCheckItem) (d : TodoDb) : TodoDb :=
  MkTodoDb (todo_conf d) (roles d) (accounts d) (boards d) (columns d) (cards d) (labels d) (card_labels d) (assignees d) x (comments d) (timeline d) (links d) (card_events d) (series d) (ticket_events d) (outbox d) (pings d).
Definition with_comments (x : list TodoComment) (d : TodoDb) : TodoDb :=
  MkTodoDb (todo_conf d) (roles d) (accounts d) (boards d) (columns d) (cards d) (labels d) (card_labels d) (assignees d) (check_items d) x (timeline d) (links d) (card_events d) (series d) (ticket_events d) (outbox d) (pings d).
Definition with_timeline (x : list TodoEvent) (d : TodoDb) : TodoDb :=
  MkTodoDb (todo_conf d) (roles d) (accounts d) (boards d) (columns d) (cards d) (labels d) (card_labels d) (assignees d) (check_items d) (comments d) x (links d) (card_events d) (series d) (ticket_events d) (outbox d) (pings d).
Definition with_links (x : list TodoLink) (d : TodoDb) : TodoDb :=
  MkTodoDb (todo_conf d) (roles d) (accounts d) (boards d) (columns d) (cards d) (labels d) (card_labels d) (assignees d) (check_items d) (comments d) (timeline d) x (card_events d) (series d) (ticket_events d) (outbox d) (pings d).
Definition with_card_events (x : list TodoCardEvent) (d : TodoDb) : TodoDb :=
  MkTodoDb (todo_conf d) (roles d) (accounts d) (boards d) (columns d) (cards d) (labels d) (card_labels d) (assignees d) (check_items d) (comments d) (timeline d) (links d) x (series d) (ticket_events d) (outbox d) (pings d).
Definition with_series (x : list TodoEventSeries) (d : TodoDb) : TodoDb :=
  MkTodoDb (todo_conf d) (roles d) (accounts d) (boards d) (columns d) (cards d) (labels d) (card_labels d) (assignees d) (check_items d) (comments d) (timeline d) (links d) (card_events d) x (ticket_events d) (outbox d) (pings d).
Definition with_ticket_events (x : list TicketEvent) (d : TodoDb) : TodoDb :=
  MkTodoDb (todo_conf d) (roles d) (accounts d) (boards d) (columns d) (cards d) (labels d) (card_labels d) (assignees d) (check_items d) (comments d) (timeline d) (links d) (card_events d) (series d) x (outbox d) (pings d).
Definition with_outbox (x : list TodoMail) (d : TodoDb) : TodoDb :=
  MkTodoDb (todo_conf d) (roles d) (accounts d) (boards d) (columns d) (cards d) (labels d) (card_labels d) (assignees d) (check_items d) (comments d) (timeline d) (links d) (card_events d) (series d) (ticket_events d) x (pings d).
Definition with_pings (x : list (string * _Touched)) (d : TodoDb) : TodoDb :=
  MkTodoDb (todo_conf d) (roles d) (accounts d) (boards d) (columns d) (cards d) (labels d) (card_labels d) (assignees d) (check_items d) (comments d) (timeline d) (links d) (card_events d) (series d) (ticket_events d) (outbox d) x.

(** ** Errors *)
(** [TDatabase] is a statement that a constraint refuses, or the refresh of a row that is gone;
    [TRaised] an exception of Python. *)
Inductive TodoError :=
| TNotFound
| TForbidden (code : string)
| TConflict (code : string)
| TInvalid (code : string)
| TDatabase
| TRaised (e : rank_exc).
Notation tres := (res TodoError).
Definition or_raise {A} (o : option A) (e : TodoError) : tres A := match o with Some a => Ok a | None => Err e end.

(** ** Rights *)
Definition TODO_WRITE : string := "todo.write".
Definition TODO_CONFIGURE : string := "todo.configure".
Definition TODO_ALL : string := "todo.all".
Definition TODO_READ_ALL : string := "todo.read_all".
Definition TODO_READ_KEYS : list string := [TODO_WRITE; TODO_ALL; TODO_READ_ALL].
Definition token_reads (p : Principal) : bool := existsb (scope_allows p) TODO_READ_KEYS.
Definition reads_all (p : Principal) : bool := has p TODO_ALL || has p TODO_READ_ALL.
Definition is_kind (b : TodoBoard) (k : BoardKind) : bool := bool_decide (tb_kind b = k).
Definition global_reach (b : TodoBoard) (p : Principal) : bool :=
  if is_kind b kind_personal then false
  else is_kind b kind_gremium || scope_allows p (default "" (tb_permission b)).
Definition me (d : TodoDb) (p : Principal) : option string :=
  pr_id <$> find_by pr_sub (sub p) (principals (todo_conf d)).
Definition _gremium_ids (d : TodoDb) (p : Principal) (perm : string) : GremiumScope := gremium_ids_with (todo_conf d) p perm.
Definition opt_in_scope (g : option string) (s : GremiumScope) : bool :=
  match s, g with ALL_GREMIEN, _ => true | Gremien ids, Some g => bool_decide (g ∈ ids) | _, None => false end.
Definition _native (d : TodoDb) (b : TodoBoard) (p : Principal) : bool :=
  if negb (scope_allows p TODO_WRITE) then false
  else match tb_kind b with
       | kind_gremium => opt_in_scope (tb_gremium_id b) (_gremium_ids d p TODO_WRITE)
       | kind_personal => bool_decide (is_Some (tb_owner_id b)) && bool_decide (tb_owner_id b = me d p)
       | kind_team => match tb_permission b with Some perm => has p perm | None => false end
       end.
Definition todo_can_write (d : TodoDb) (b : TodoBoard) (p : Principal) : bool :=
  if has p TODO_ALL && global_reach b p then true else _native d b p.
Definition todo_can_read (d : TodoDb) (b : TodoBoard) (p : Principal) : bool :=
  if reads_all p && global_reach b p then true else _native d b p.
Definition can_configure (d : TodoDb) (b : TodoBoard) (p : Principal) : bool :=
  if negb (scope_allows p TODO_CONFIGURE) || negb (_native d b p) then false
  else if negb (is_kind b kind_gremium) then true
  else opt_in_scope (tb_gremium_id b) (_gremium_ids d p TODO_CONFIGURE).

(** *** The boards that a principal reads, as the lists ask for them *)
Record ReadScope := MkReadScope {
  all_gremien : bool;
  rs_gremium_ids : list string;
  rs_owner_id : option string;
  team_permissions : list string;
  all_teams : bool
}.
Definition _team_permissions (d : TodoDb) (p : Principal) (native everything : bool) : list string :=
  filter (λ perm, negb (bool_decide (perm = "")) &&
                  ((native && has p perm) || (everything && scope_allows p perm)) = true)
    (omap tb_permission (filter (λ b, tb_kind b = kind_team) (boards d))).
Definition todo_scope (d : TodoDb) (p : Principal) : ReadScope :=
  let everything := reads_all p in
  let native := scope_allows p TODO_WRITE in
  let teams := everything && bool_decide (scope_permissions p = None) in
  let gremien := if native && negb everything then Some (_gremium_ids d p TODO_WRITE) else None in
  MkReadScope
    (everything || match gremien with Some ALL_GREMIEN => true | _ => false end)
    (match gremien with Some (Gremien ids) => ids | _ => [] end)
    (if native then me d p else None)
    (if negb teams && (native || everything) then _team_permissions d p native everything else [])
    teams.
Definition scope_allows_board (s : ReadScope) (b : TodoBoard) : bool :=
  match tb_kind b with
  | kind_gremium => all_gremien s || match tb_gremium_id b with Some g => bool_decide (g ∈ rs_gremium_ids s) | None => false end
  | kind_personal => bool_decide (is_Some (rs_owner_id s)) && bool_decide (tb_owner_id b = rs_owner_id s)
  | kind_team => all_teams s || match tb_permission b with Some perm => bool_decide (perm ∈ team_permissions s) | None => false end
  end.
(** The SQL condition: [NULL] is in no list. *)
Definition opt_mem (x : option string) (l : list string) : bool :=
  match x with Some x => bool_decide (x ∈ l) | None => false end.
Definition _gremium_part (s : ReadScope) (b : TodoBoard) : bool :=
  if all_gremien s then is_kind b kind_gremium else opt_mem (tb_gremium_id b) (rs_gremium_ids s).
Definition _team_part (s : ReadScope) (b : TodoBoard) : bool :=
  if all_teams s then is_kind b kind_team
  else is_kind b kind_team && opt_mem (tb_permission b) (team_permissions s).
Definition scope_condition (s : ReadScope) (b : TodoBoard) : bool :=
  _gremium_part s b ||
  match rs_owner_id s with Some o => bool_decide (tb_owner_id b = Some o) | None => false end ||
  _team_part s b.

(** *** The members of a board *)
Definition account_live (d : TodoDb) (id : string) : bool :=
  existsb (λ a, bool_decide (ac_id a = id) && ac_active a && bool_decide (ac_merged_into a = None)) (accounts d).
Definition ADMIN_ROLE_KEY : string := "admin".
Definition _holder_role_ids (t : RoleTables) (perm : string) : list string :=
  filter (λ r, existsb (λ rp, bool_decide (rp.1 = r) && bool_decide (rp.2 = perm)) (role_permissions t) ||
               existsb (λ rk, bool_decide (rk.1 = r) && bool_decide (rk.2 = ADMIN_ROLE_KEY)) (role_keys t) = true)
    (role_keys t).*1.
Definition role_holders (t : RoleTables) (rows : list Account) (perm : string) : list string :=
  let role_ids := _holder_role_ids t perm in
  let groups := (filter (λ g, g.2 ∈ role_ids) (group_mappings t)).*1 in
  ac_id <$> filter (λ a, ac_active a && bool_decide (ac_merged_into a = None) &&
      (existsb (λ r, bool_decide (r.1 = ac_id a) && bool_decide (r.2 ∈ role_ids)) (role_assignments t) ||
       existsb (λ g, bool_decide (g ∈ groups)) (ac_oidc_groups a)) = true) rows.
Definition permission_holders (d : TodoDb) (perm : string) : list string := role_holders (roles d) (accounts d) perm.
Definition member_ids (d : TodoDb) (b : TodoBoard) : list string :=
  match tb_kind b with
  | kind_personal => filter (λ i, Some i = tb_owner_id b) (pr_id <$> principals (todo_conf d))
  | kind_team => permission_holders d (default "" (tb_permission b))
  | kind_gremium =>
      filter (λ i, account_live d i = true)
        (gm_principal_id <$> filter (λ m, Some (gm_gremium_id m) = tb_gremium_id b ∧ TODO_WRITE ∈ gm_permissions m)
           (memberships (todo_conf d)))
  end.

(** ** Pings *)
Definition no_touch : _Touched := MkTouched [] false.
Definition _touched (entry : _Touched) (card_id : option string) (removed : bool) : _Touched :=
  match card_id with
  | None => MkTouched (to_cards entry) true
  | Some c =>
      if removed || negb (bool_decide (dict_get c (to_cards entry) = Some ping_card_removed))
      then MkTouched (dict_set c (if removed then ping_card_removed else ping_card) (to_cards entry)) (to_whole entry)
      else entry
  end.
Definition touch (board_id : string) (card_id : option string) (removed : bool) (boards : list (string * _Touched))
    : list (string * _Touched) :=
  dict_set board_id (_touched (default no_touch (dict_get board_id boards)) card_id removed) boards.
(** The message of one board: [None] for the board, or a card with its kind. *)
Definition _ping (entry : _Touched) : option (string * PingKind) :=
  if to_whole entry then None else match to_cards entry with [ck] => Some ck | _ => None end.
Definition messages (boards : list (string * _Touched)) : list (string * option (string * PingKind)) :=
  (λ be, (be.1, _ping be.2)) <$> boards.

(** ** Lookups *)
Definition set_touched (now : Z) (b : TodoBoard) : TodoBoard :=
  MkTodoBoard (tb_id b) (tb_name b) (tb_kind b) (tb_gremium_id b) (tb_owner_id b) (tb_permission b)
    (tb_archive_after_days b) (tb_archived_at b) now.
Definition _touch (board_id : string) (card_id : option string) (removed : bool) (now : Z) (d : TodoDb) : TodoDb :=
  with_pings (touch board_id card_id removed (pings d))
    (with_boards (update_row tb_id board_id (set_touched now) (boards d)) d).
Definition _event (card_id kind : string) (actor : option string) (payload : list (string * pyval)) (now : Z)
    (d : TodoDb) : TodoDb :=
  with_timeline (timeline d ++ [MkTodoEvent card_id actor kind payload now]) d.
Definition _actor (d : TodoDb) (p : Principal) : tres string := or_raise (me d p) TNotFound.
Definition _writable (d : TodoDb) (b : TodoBoard) (p : Principal) : tres () :=
  raise_if (negb (todo_can_write d b p)) (TForbidden "todo_write_required").
Definition _board (d : TodoDb) (board_id : string) (p : Principal) (write : bool) : tres TodoBoard :=
  b ← or_raise (find_by tb_id board_id (boards d)) TNotFound;
  _ ← raise_if (negb (todo_can_read d b p)) TNotFound;
  _ ← (if write then _writable d b p else Ok ());
  Ok b.
Definition _configurable (d : TodoDb) (board_id : string) (p : Principal) : tres TodoBoard :=
  b ← _board d board_id p false;
  _ ← raise_if (negb (can_configure d b p)) (TForbidden "todo_configure_required");
  Ok b.
Definition _card_moved : TodoError := TConflict "card_moved".
Definition card_board (d : TodoDb) (card : TodoCard) (p : Principal) (write : bool) : tres TodoBoard :=
  b ← or_raise (find_by tb_id (cd_board_id card) (boards d)) TNotFound;
  _ ← raise_if (negb (todo_can_read d b p)) TNotFound;
  _ ← (if write then _writable d b p else Ok ());
  Ok b.
(** [_card]: [known] holds the tables before the wait for the board lock, for [lock=True]. *)
Definition _card (known : option TodoDb) (d : TodoDb) (card_id : string) (p : Principal) (write : bool)
    : tres (TodoCard * TodoBoard) :=
  locked_board ← match known with
                 | Some k => c ← or_raise (find_by cd_id card_id (cards k)) TNotFound; Ok (Some (cd_board_id c))
                 | None => Ok None
                 end;
  card ← or_raise (find_by cd_id card_id (cards d)) TNotFound;
  _ ← match locked_board with
      | Some b => raise_if (negb (bool_decide (cd_board_id card = b))) _card_moved
      | None => Ok ()
      end;
  board ← card_board d card p write;
  Ok (card, board).
Definition column_leb (a b : TodoColumn) : bool :=
  (tc_position a <? tc_position b) || ((tc_position a =? tc_position b) && str_leb (tc_id a) (tc_id b)).
Definition _columns (d : TodoDb) (board_id : string) : list TodoColumn :=
  sort_by column_leb (filter (λ c, tc_board_id c = board_id) (columns d)).
Definition label_leb (a b : TodoLabel) : bool :=
  str_ltb (py_lower (tl_name a)) (py_lower (tl_name b)) ||
  (bool_decide (py_lower (tl_name a) = py_lower (tl_name b)) && str_leb (tl_id a) (tl_id b)).
Definition _labels (d : TodoDb) (board_id : string) : list TodoLabel :=
  sort_by label_leb (filter (λ l, tl_board_id l = board_id) (labels d)).
Definition card_leb (a b : TodoCard) : bool :=
  str_ltb (cd_rank a) (cd_rank b) || (bool_decide (cd_rank a = cd_rank b) && str_leb (cd_id a) (cd_id b)).
Definition is_excluded (exclude : option string) (id : string) : bool := bool_decide (exclude = Some id).
Definition _column_cards (d : TodoDb) (column_id : string) (exclude : option string) : list TodoCard :=
  sort_by card_leb
    (filter (λ c, cd_column_id c = column_id ∧ cd_archived_at c = None ∧ is_excluded exclude (cd_id c) = false) (cards d)).
Lemma excluded_none id : is_excluded None id = false.
Proof. by apply bool_decide_eq_false. Qed.
Lemma excluded_some c id : is_excluded (Some c) id = false ↔ id ≠ c.
Proof. unfold is_excluded. rewrite bool_decide_eq_false. naive_solver. Qed.
Definition _all_column_cards (d : TodoDb) (column_id : string) : list TodoCard :=
  sort_by card_leb (filter (λ c, cd_column_id c = column_id) (cards d)).
Definition _column (d : TodoDb) (board_id column_id : string) : tres TodoColumn :=
  c ← or_raise (find_by tc_id column_id (columns d)) TNotFound;
  _ ← raise_if (negb (bool_decide (tc_board_id c = board_id))) TNotFound;
  Ok c.
Definition _pick_column (cols : list TodoColumn) (column_id : option string) : tres TodoColumn :=
  match column_id with
  | None => or_raise (head cols) (TRaised (RankEscaped IndexError))
  | Some i => or_raise (head (filter (λ c, tc_id c = i) cols)) (TInvalid "column_not_on_board")
  end.

(** ** Ranks *)
Definition _rank (low high : option string) : rank_res string :=
  r ← between low high;
  _ ← raise_if (MAX_LENGTH <? Z.of_nat (length (chars r))) RankError;
  Ok r.
Fixpoint ranks_from (first : string) (count : nat) : rank_res (list string) :=
  match count with
  | O => Ok [first]
  | S n => next ← _rank (Some first) None; rest ← ranks_from next n; Ok (first :: rest)
  end.
Definition _ranks_after (last : option string) (count : nat) : rank_res (list string) :=
  match count with
  | O => Ok []
  | S n => first ← _rank last None; ranks_from first n
  end.
(** The new ranks of some cards, and whether they are a fresh order of the column. *)
Record RankPlan := MkRankPlan { rp_ranks : list (string * string); rp_respread : bool }.
Definition _respread (ordered : list string) : RankPlan := MkRankPlan (zip ordered (spread (length ordered))) true.
(** [except RankError]. *)
Definition on_rank_error {A} (r : rank_res A) (ok : A → RankPlan) (fresh : RankPlan) : tres RankPlan :=
  match r with
  | Ok a => Ok (ok a)
  | Err RankError => Ok fresh
  | Err e => Err (TRaised e)
  end.
Definition _append (live : list TodoCard) (cards : list string) : tres RankPlan :=
  on_rank_error (_ranks_after (cd_rank <$> last live) (length cards)) (λ ranks, MkRankPlan (zip cards ranks) false)
    (_respread ((cd_id <$> live) ++ cards)).
Definition _place (live : list TodoCard) (index : nat) (card : string) : tres RankPlan :=
  let low := if (0 <? index)%nat then cd_rank <$> live !! (index - 1)%nat else None in
  let high := cd_rank <$> live !! index in
  on_rank_error (_rank low high) (λ r, MkRankPlan [(card, r)] false)
    (_respread ((cd_id <$> take index live) ++ card :: (cd_id <$> drop index live))).
Definition slot_at (siblings : list TodoCard) (card_id : string) : tres nat :=
  or_raise (index_of card_id (cd_id <$> siblings)) (TInvalid "rank_neighbors_invalid").
Definition _slot (siblings : list TodoCard) (after_id before_id : option string) : tres nat :=
  match after_id, before_id with
  | Some a, Some b =>
      above ← slot_at siblings a;
      below ← slot_at siblings b;
      _ ← raise_if (negb (below =? above + 1)%nat) (TInvalid "rank_neighbors_invalid");
      Ok below
  | None, Some b => slot_at siblings b
  | Some a, None => i ← slot_at siblings a; Ok (S i)
  | None, None => Ok (length siblings)
  end.
Definition set_rank (rank : string) (at_ : option Z) (c : TodoCard) : TodoCard :=
  MkTodoCard (cd_id c) (cd_board_id c) (cd_column_id c) rank (cd_title c) (cd_description_md c) (cd_due_date c)
    (cd_due_reminded_on c) (cd_created_by c) (cd_completed_at c) (cd_archived_at c) (cd_version c) (cd_created_at c)
    (default (cd_updated_at c) at_).
Definition ranked (plan : RankPlan) (now : Z) (c : TodoCard) : TodoCard :=
  match dict_get (cd_id c) (rp_ranks plan) with
  | Some r => set_rank r (if rp_respread plan then Some now else None) c
  | None => c
  end.
Definition set_ranks (plan : RankPlan) (now : Z) (d : TodoDb) : TodoDb := with_cards (ranked plan now <$> cards d) d.
