(* ===== verification/TodoService.v ===== *)
(** The operations on the to-do boards ([todos/service.py], [todos/boards.py], [todos/merge.py],
    [todos/events.py], [todos/hooks.py], [worker/todos.py]).

    An operation is one transaction that answers with the new tables.  Where the code waits for a
    lock, [k] holds the tables before the wait and [d] the tables under the lock; every clock of a
    request shows [now].  [readable] is the read right of a link target, whose rules belong to the
    other modules. *)

From stdpp Require Import gmap strings.
From S2P Require Import Prelude PyStr PyNum PyValue PyDate Lexorank FlowDb Policy Todo.

(** ** Rows *)
Definition set_column (column_id : string) (completed : option Z) (now : Z) (c : TodoCard) : TodoCard :=
  MkTodoCard (cd_id c) (cd_board_id c) column_id (cd_rank c) (cd_title c) (cd_description_md c) (cd_due_date c)
    (cd_due_reminded_on c) (cd_created_by c) completed (cd_archived_at c) (cd_version c) (cd_created_at c) now.
Definition set_board (board_id : string) (c : TodoCard) : TodoCard :=
  MkTodoCard (cd_id c) board_id (cd_column_id c) (cd_rank c) (cd_title c) (cd_description_md c) (cd_due_date c)
    (cd_due_reminded_on c) (cd_created_by c) (cd_completed_at c) (cd_archived_at c) (cd_version c) (cd_created_at c)
    (cd_updated_at c).
Definition set_completed (completed : option Z) (now : Z) (c : TodoCard) : TodoCard :=
  set_column (cd_column_id c) completed now c.
Definition set_archived (archived completed : option Z) (now : Z) (c : TodoCard) : TodoCard :=
  MkTodoCard (cd_id c) (cd_board_id c) (cd_column_id c) (cd_rank c) (cd_title c) (cd_description_md c) (cd_due_date c)
    (cd_due_reminded_on c) (cd_created_by c) completed archived (cd_version c) (cd_created_at c) now.
Definition set_content (title : string) (description : option string) (due : option pydate) (now : Z) (c : TodoCard)
    : TodoCard :=
  MkTodoCard (cd_id c) (cd_board_id c) (cd_column_id c) (cd_rank c) title description due
    (cd_due_reminded_on c) (cd_created_by c) (cd_completed_at c) (cd_archived_at c) (cd_version c + 1)
    (cd_created_at c) now.
Definition update_card (id : string) (f : TodoCard → TodoCard) (d : TodoDb) : TodoDb :=
  with_cards (update_row cd_id id f (cards d)) d.
Definition set_done (done : bool) (c : TodoColumn) : TodoColumn :=
  MkTodoColumn (tc_id c) (tc_board_id c) (tc_name c) (tc_position c) done.
Definition set_column_name (name : string) (c : TodoColumn) : TodoColumn :=
  MkTodoColumn (tc_id c) (tc_board_id c) name (tc_position c) (tc_is_done c).
Definition set_position (position : Z) (c : TodoColumn) : TodoColumn :=
  MkTodoColumn (tc_id c) (tc_board_id c) (tc_name c) position (tc_is_done c).
Definition update_column (id : string) (f : TodoColumn → TodoColumn) (d : TodoDb) : TodoDb :=
  with_columns (update_row tc_id id f (columns d)) d.
(** [strip() or old]. *)
Definition strip_or (s old : string) : string := if bool_decide (py_strip s = "") then old else py_strip s.
Definition moved_payload (from_id from_name to_id to_name : string) : list (string * pyval) :=
  [("fromColumnId", PStr from_id); ("fromColumnName", PStr from_name);
   ("toColumnId", PStr to_id); ("toColumnName", PStr to_name)].
Definition _mail (kind : MailKind) (card_id : string) (recipients : list string) (actor : string)
    (excerpt : option string) (d : TodoDb) : TodoDb :=
  match fromkeys (filter (λ r, r ≠ actor) recipients) with
  | [] => d
  | others => with_outbox (outbox d ++ [MkTodoMail kind card_id others actor excerpt]) d
  end.
(** One [todo_done] event for every ticket that the card links. *)
Definition _write_ticket_done (card : TodoCard) (board_id : string) (actor : option string) (now : Z) (d : TodoDb)
    : TodoDb :=
  let tickets := lk_target_id <$> filter (λ l, lk_card_id l = cd_id card ∧ lk_kind l = "ticket") (links d) in
  with_ticket_events (ticket_events d ++
    ((λ t, MkTicketEvent t actor "todo_done" [("cardId", PStr (cd_id card)); ("cardTitle", PStr (cd_title card));
                                  ("boardId", PStr board_id)] now) <$> tickets)) d.
Definition link_ref (l : TodoLink) : string * string := (lk_kind l, lk_target_id l).
Definition has_link (d : TodoDb) (card_id : string) (ref : string * string) : bool :=
  existsb (λ l, bool_decide (lk_card_id l = card_id) && bool_decide (link_ref l = ref)) (links d).
Definition is_event (d : TodoDb) (card_id : string) : bool :=
  existsb (λ e, bool_decide (ce_card_id e = card_id)) (card_events d).
(** [lower()] of the labels of a board, for the match by name. *)
Definition label_of_name (labels : list TodoLabel) (name : string) : option TodoLabel :=
  last (filter (λ l, py_lower (tl_name l) = py_lower name) labels).

(** ** Boards *)
Definition DEFAULT_COLUMNS : list string := ["Offen"; "In Arbeit"; "Wartet"; "Erledigt"].
Definition PERSONAL_BOARD_NAME : string := "Meine To-Dos".
Definition add_default_columns (board_id : string) (ids : list string) (d : TodoDb) : TodoDb :=
  let last := Z.of_nat (length DEFAULT_COLUMNS) - 1 in
  with_columns (columns d ++
    imap (λ i nc, MkTodoColumn nc.2 board_id nc.1 (Z.of_nat i) (Z.of_nat i =? last)) (zip DEFAULT_COLUMNS ids)) d.
Definition ensure_gremium_board (d : TodoDb) (gremium_id name id : string) (column_ids : list string) (now : Z)
    : TodoDb * bool :=
  if existsb (λ b, bool_decide (tb_gremium_id b = Some gremium_id)) (boards d) then (d, false)
  else (add_default_columns id column_ids
          (with_boards (boards d ++ [MkTodoBoard id name kind_gremium (Some gremium_id) None None (Some 30) None now]) d), true).
Definition ensure_personal_board (d : TodoDb) (owner_id id : string) (column_ids : list string) (now : Z)
    : TodoDb * bool :=
  if existsb (λ b, bool_decide (tb_owner_id b = Some owner_id)) (boards d) then (d, false)
  else (add_default_columns id column_ids
          (with_boards (boards d ++ [MkTodoBoard id PERSONAL_BOARD_NAME kind_personal None (Some owner_id) None (Some 30) None now]) d), true).
Definition set_settings (name : string) (archive_after : option Z) (b : TodoBoard) : TodoBoard :=
  MkTodoBoard (tb_id b) name (tb_kind b) (tb_gremium_id b) (tb_owner_id b) (tb_permission b)
    archive_after (tb_archived_at b) (tb_updated_at b).
(** [archive_after_days] is [None] when the patch does not set it. *)
Definition patch_board (d : TodoDb) (p : Principal) (board_id : string) (name : option string)
    (archive_after_days : option (option Z)) (now : Z) : tres TodoDb :=
  b ← _configurable d board_id p;
  let name' := match name with Some n => strip_or n (tb_name b) | None => tb_name b end in
  let days := default (tb_archive_after_days b) archive_after_days in
  Ok (_touch board_id None false now
        (with_boards (update_row tb_id board_id (set_settings name' days) (boards d)) d)).

(** ** Columns *)
Definition add_column (d : TodoDb) (p : Principal) (board_id name id : string) (now : Z) : tres TodoDb :=
  _ ← _configurable d board_id p;
  let position := match tc_position <$> _columns d board_id with [] => 0 | x :: r => foldr Z.max x r + 1 end in
  Ok (_touch board_id None false now
        (with_columns (columns d ++ [MkTodoColumn id board_id (strip_or name name) position false]) d)).
Definition clear_done (board_id : string) (now : Z) (d : TodoDb) : TodoDb :=
  foldr (λ c d, with_cards ((λ x, if bool_decide (cd_column_id x = tc_id c) then set_completed None now x else x) <$> cards d)
                  (update_column (tc_id c) (set_done false) d))
    d (filter (λ c, tc_is_done c = true) (_columns d board_id)).
(** A card of the new done column: it is done now, and its tickets hear of it when it is live. *)
Definition enter_done (board_id actor : string) (now : Z) (d : TodoDb) (c : TodoCard) : TodoDb :=
  let done := default now (cd_completed_at c) in
  let d1 := update_card (cd_id c) (set_completed (Some done) now) d in
  if bool_decide (cd_completed_at c = None) && bool_decide (cd_archived_at c = None)
  then _write_ticket_done c board_id (Some actor) now d1 else d1.
Definition patch_column (k d : TodoDb) (p : Principal) (board_id column_id : string) (name : option string)
    (is_done : bool) (now : Z) : tres TodoDb :=
  _ ← _configurable k board_id p;
  column ← _column d board_id column_id;
  let d1 := match name with
            | Some n => update_column column_id (set_column_name (strip_or n (tc_name column))) d
            | None => d
            end in
  d2 ← (if is_done && negb (tc_is_done column) then
          actor ← _actor d p;
          let cleared := update_column column_id (set_done true) (clear_done board_id now d1) in
          Ok (foldl (enter_done board_id actor now) cleared (_all_column_cards cleared column_id))
        else Ok d1);
  Ok (_touch board_id None false now d2).
Definition set_positions (ids : list string) (d : TodoDb) : TodoDb :=
  with_columns ((λ c, match index_of (tc_id c) ids with Some i => set_position (Z.of_nat i) c | None => c end) <$> columns d) d.
Definition order_columns (d : TodoDb) (p : Principal) (board_id : string) (column_ids : list string) (now : Z) : tres TodoDb :=
  _ ← _configurable d board_id p;
  let known := tc_id <$> _columns d board_id in
  _ ← raise_if (negb (bool_decide (length column_ids = length known)) ||
                negb (forallb (λ i, bool_decide (i ∈ known)) column_ids) ||
                negb (forallb (λ i, bool_decide (i ∈ column_ids)) known)) (TInvalid "invalid");
  Ok (_touch board_id None false now (set_positions column_ids d)).
Definition into_column (column target : TodoColumn) (board_id actor : string) (now : Z) (d : TodoDb) (c : TodoCard) : TodoDb :=
  let d1 := _event (cd_id c) "moved" (Some actor)
              (moved_payload (tc_id column) (tc_name column) (tc_id target) (tc_name target)) now d in
  let enters := tc_is_done target && bool_decide (cd_completed_at c = None) in
  let d2 := update_card (cd_id c) (λ x, set_column (tc_id target) (if enters then Some now else cd_completed_at x) now x) d1 in
  if enters && bool_decide (cd_archived_at c = None) then _write_ticket_done c board_id (Some actor) now d2 else d2.
Definition delete_column (k d : TodoDb) (p : Principal) (board_id column_id : string) (move_to : option string) (now : Z)
    : tres TodoDb :=
  _ ← _configurable k board_id p;
  column ← _column d board_id column_id;
  _ ← raise_if (tc_is_done column) (TConflict "done_column_required");
  let own := _all_column_cards d column_id in
  d1 ← match own with
       | [] => Ok d
       | _ =>
           target_id ← or_raise move_to (TConflict "column_not_empty");
           target ← or_raise (find_by tc_id target_id (columns d)) (TInvalid "invalid");
           _ ← raise_if (negb (bool_decide (tc_board_id target = board_id)) || bool_decide (tc_id target = column_id))
                 (TInvalid "invalid");
           actor ← _actor d p;
           plan ← _append (_column_cards d (tc_id target) None) (cd_id <$> own);
           Ok (foldl (into_column column target board_id actor now) (set_ranks plan now d) own)
       end;
  let d2 := with_columns (filter (λ c, tc_id c ≠ column_id) (columns d1)) d1 in
  Ok (_touch board_id None false now (set_positions (tc_id <$> _columns d2 board_id) d2)).

(** ** Labels *)
Definition _label_name_taken (d : TodoDb) (board_id name : string) (exclude : option string) : bool :=
  existsb (λ l, bool_decide (tl_board_id l = board_id) && bool_decide (py_lower (tl_name l) = py_lower name) &&
                bool_decide (exclude ≠ Some (tl_id l))) (labels d).
Definition add_label (k d : TodoDb) (p : Principal) (board_id name color id : string) (now : Z) : tres TodoDb :=
  _ ← _configurable k board_id p;
  let name' := strip_or name name in
  _ ← raise_if (_label_name_taken d board_id name' None) (TConflict "label_exists");
  Ok (_touch board_id None false now (with_labels (labels d ++ [MkTodoLabel id board_id name' color]) d)).
Definition _label (d : TodoDb) (board_id label_id : string) : tres TodoLabel :=
  l ← or_raise (find_by tl_id label_id (labels d)) TNotFound;
  _ ← raise_if (negb (bool_decide (tl_board_id l = board_id))) TNotFound;
  Ok l.
Definition patch_label (d : TodoDb) (p : Principal) (board_id label_id : string) (name color : option string) (now : Z)
    : tres TodoDb :=
  _ ← _configurable d board_id p;
  l ← _label d board_id label_id;
  name' ← match name with
          | Some n => _ ← raise_if (_label_name_taken d board_id (strip_or n n) (Some label_id)) (TConflict "label_exists");
                      Ok (strip_or n n)
          | None => Ok (tl_name l)
          end;
  Ok (_touch board_id None false now
        (with_labels (update_row tl_id label_id (λ l, MkTodoLabel (tl_id l) (tl_board_id l) name' (default (tl_color l) color)) (labels d)) d)).
Definition delete_label (d : TodoDb) (p : Principal) (board_id label_id : string) (now : Z) : tres TodoDb :=
  _ ← _configurable d board_id p;
  _ ← _label d board_id label_id;
  Ok (_touch board_id None false now
        (with_card_labels (filter (λ cl, cl.2 ≠ label_id) (card_labels d))
           (with_labels (filter (λ l, tl_id l ≠ label_id) (labels d)) d))).
