(* ===== verification/TodoCards.v ===== *)
(** The operations on the cards of the to-do boards ([todos/service.py]): create, edit, move,
    transfer, complete, archive, restore, the assignees, the labels and the checklist of a card.

    The conventions are those of [TodoService].  Where the code reads before its wait for the board
    lock and checks again under the lock, [k] holds the tables before the wait. *)

From stdpp Require Import gmap strings.
From S2P Require Import Prelude PyStr PyNum PyValue PyDate Lexorank FlowDb Policy Todo TodoService.

(** ** The checks of the values of a card *)
Definition _check_assignees (d : TodoDb) (b : TodoBoard) (ids : list string) : tres () :=
  raise_if (negb (forallb (λ i, bool_decide (i ∈ member_ids d b)) ids)) (TInvalid "assignee_not_allowed").
Record EventIn := MkEventIn {
  ei_starts_on : option pydate;
  ei_ends_on : option pydate;
  ei_place : option string;
  ei_participants : option Z;
  ei_series_id : option string
}.
Definition _clean (value : option string) : option string :=
  let text := py_strip (default "" value) in if bool_decide (text = "") then None else Some text.
Definition _event_row (card_id : string) (e : EventIn) : TodoCardEvent :=
  MkTodoCardEvent card_id (ei_starts_on e) (ei_ends_on e) (_clean (ei_place e)) (ei_participants e) (ei_series_id e).
Definition end_before_start (starts ends : option pydate) : bool :=
  match ends with
  | Some e => match starts with Some s => date_ltb e s | None => true end
  | None => false
  end.
Definition _check_event (d : TodoDb) (b : TodoBoard) (e : EventIn) : tres () :=
  _ ← raise_if (is_kind b kind_personal) (TInvalid "event_personal_board");
  _ ← raise_if (end_before_start (ei_starts_on e) (ei_ends_on e)) (TInvalid "event_dates_invalid");
  match ei_series_id e with
  | Some s => raise_if (bool_decide (find_by se_id s (series d) = None)) (TInvalid "series_not_found")
  | None => Ok ()
  end.
Definition ONE_EVENT_KINDS : list string := ["application"; "expense"; "invoice"].
(** Another card that is an Event links one of [refs]. *)
Definition check_one_event (d : TodoDb) (card_id : string) (refs : list (string * string)) : tres () :=
  let by_kind := filter (λ r, r.1 ∈ ONE_EVENT_KINDS) refs in
  raise_if (existsb (λ l, bool_decide (link_ref l ∈ by_kind) && bool_decide (lk_card_id l ≠ card_id) &&
                          is_event d (lk_card_id l)) (links d)) (TConflict "event_link_taken").
Definition _new_link (id card_id : string) (ref : string * string) (actor : string) (now : Z) : TodoLink :=
  MkTodoLink id card_id ref.1 ref.2 actor now.
(** A link target that the caller does not read ([readable] is the rule of the linked module). *)
Section Cards.
Context (readable : TodoDb → string → string → Principal → bool).

(** ** Create *)
Record CardCreate := MkCardCreate {
  cc_board_id : string;
  cc_column_id : option string;
  cc_title : string;
  cc_description_md : option string;
  cc_due_date : option pydate;
  cc_assignee_ids : list string;
  cc_label_ids : list string;
  cc_links : list (string * string);
  cc_event : option EventIn
}.
Definition new_card (id board_id column_id title : string) (description : option string) (due : option pydate)
    (actor : string) (is_done : bool) (now : Z) : TodoCard :=
  MkTodoCard id board_id column_id "" title description due None actor (if is_done then Some now else None) None 1 now now.
Definition add_card (plan : RankPlan) (now : Z) (card : TodoCard) (d : TodoDb) : TodoDb :=
  set_ranks plan now (with_cards (cards d ++ [card]) d).
Definition add_assignees (card_id : string) (ids : list string) (d : TodoDb) : TodoDb :=
  with_assignees (assignees d ++ (pair card_id <$> ids)) d.
Definition add_labels (card_id : string) (ids : list string) (d : TodoDb) : TodoDb :=
  with_card_labels (card_labels d ++ (pair card_id <$> ids)) d.
(** [id], [probe] and [link_ids] are the new random ids: of the card, of the question to
    [check_one_event], of the links. *)
Definition create (k d : TodoDb) (p : Principal) (payload : CardCreate) (id probe : string) (link_ids : list string)
    (now : Z) : tres TodoDb :=
  actor ← _actor k p;
  board ← _board k (cc_board_id payload) p true;
  column ← _pick_column (_columns d (tb_id board)) (cc_column_id payload);
  let assignee_ids := fromkeys (cc_assignee_ids payload) in
  _ ← _check_assignees d board assignee_ids;
  let label_ids := fromkeys (cc_label_ids payload) in
  _ ← raise_if (negb (forallb (λ i, bool_decide (i ∈ (tl_id <$> _labels d (tb_id board)))) label_ids))
        (TInvalid "label_not_on_board");
  let refs := fromkeys (cc_links payload) in
  _ ← raise_if (negb (forallb (λ r, readable d r.1 r.2 p) refs)) (TInvalid "link_target_not_found");
  _ ← match cc_event payload with
      | Some e => _ ← _check_event d board e; check_one_event d probe refs
      | None => Ok ()
      end;
  plan ← _append (_column_cards d (tc_id column) None) [id];
  let card := new_card id (tb_id board) (tc_id column) (strip_or (cc_title payload) (cc_title payload))
                (cc_description_md payload) (cc_due_date payload) actor (tc_is_done column) now in
  let d1 := add_labels id label_ids (add_assignees id assignee_ids (add_card plan now card d)) in
  let d2 := with_links (links d1 ++ zip_with (λ i r, _new_link i id r actor now) link_ids refs) d1 in
  let d3 := match cc_event payload with
            | Some e => with_card_events (card_events d2 ++ [_event_row id e]) d2
            | None => d2
            end in
  let d4 := _event id "created" (Some actor) [] now d3 in
  let d5 := if tc_is_done column then _write_ticket_done card (tb_id board) (Some actor) now d4 else d4 in
  Ok (_mail assigned id assignee_ids actor None (_touch (tb_id board) (Some id) false now d5)).

(** ** Edit *)
(** A field that the patch does not set is [None]. *)
Record CardPatch := MkCardPatch {
  cp_version : Z;
  cp_title : option string;
  cp_description_md : option (option string);
  cp_due_date : option (option pydate)
}.
Definition date_value (x : option pydate) : pyval := match x with Some a => PStr (date_iso a) | None => PNone end.
Definition patch (k d : TodoDb) (p : Principal) (card_id : string) (payload : CardPatch) (now : Z) : tres TodoDb :=
  actor ← _actor k p;
  '(card, board) ← _card (Some k) d card_id p true;
  _ ← raise_if (negb (cp_version payload =? cd_version card)) (TConflict "card_version_conflict");
  let title := match cp_title payload with Some t => strip_or t t | None => cd_title card end in
  let description := default (cd_description_md card) (cp_description_md payload) in
  let due := default (cd_due_date card) (cp_due_date payload) in
  let renamed := negb (bool_decide (title = cd_title card)) in
  let described := negb (bool_decide (description = cd_description_md card)) in
  let redated := negb (bool_decide (due = cd_due_date card)) in
  let d1 := if renamed then _event card_id "renamed" (Some actor) [("from", PStr (cd_title card)); ("to", PStr title)] now d else d in
  let d2 := if redated
            then _event card_id "due" (Some actor) [("from", date_value (cd_due_date card)); ("to", date_value due)] now d1
            else d1 in
  Ok (if renamed || described || redated
      then _touch (tb_id board) (Some card_id) false now (update_card card_id (set_content title description due now) d2)
      else d2).

(** ** Move *)
(** [session.refresh]: the row again, under the lock. *)
Definition refresh (d : TodoDb) (card_id : string) : tres TodoCard := or_raise (find_by cd_id card_id (cards d)) TDatabase.
Definition column_name (cols : list TodoColumn) (id : string) : string := default "" (tc_name <$> find_by tc_id id cols).
Definition move (k d : TodoDb) (p : Principal) (card_id column_id : string) (before_id after_id : option string) (now : Z)
    : tres TodoDb :=
  actor ← _actor k p;
  '(_, board) ← _card None k card_id p true;
  card ← refresh d card_id;
  _ ← raise_if (negb (bool_decide (cd_board_id card = tb_id board))) _card_moved;
  let cols := _columns d (tb_id board) in
  target ← or_raise (find_by tc_id column_id cols) (TInvalid "column_not_on_board");
  let siblings := _column_cards d (tc_id target) (Some card_id) in
  slot ← _slot siblings after_id before_id;
  plan ← _place siblings slot card_id;
  let d1 := set_ranks plan now d in
  let d2 :=
    if bool_decide (tc_id target = cd_column_id card) then update_card card_id (set_completed (cd_completed_at card) now) d1
    else
      let moved := update_card card_id (set_column (tc_id target) (if tc_is_done target then Some now else None) now)
                     (_event card_id "moved" (Some actor)
                        (moved_payload (cd_column_id card) (column_name cols (cd_column_id card)) (tc_id target) (tc_name target))
                        now d1) in
      if tc_is_done target then _write_ticket_done card (tb_id board) (Some actor) now moved else moved in
  let d3 := _touch (tb_id board) (Some card_id) false now d2 in
  Ok (if rp_respread plan then _touch (tb_id board) None false now d3 else d3).

(** ** Transfer to another board *)
Definition _check_transfer_kinds (source target : TodoBoard) : tres () :=
  raise_if (negb (is_kind source kind_personal) && is_kind target kind_personal) (TForbidden "transfer_to_personal").
Definition labels_of_card (d : TodoDb) (card_id : string) : list TodoLabel :=
  sort_by label_leb (filter (λ l, (card_id, tl_id l) ∈ card_labels d) (labels d)).
Definition assignees_of (d : TodoDb) (card_id : string) : list string :=
  (filter (λ a, a.1 = card_id) (assignees d)).*2.
Definition transfer (k d : TodoDb) (p : Principal) (card_id board_id : string) (column_id before_id after_id : option string)
    (now : Z) : tres TodoDb :=
  actor ← _actor k p;
  '(_, source) ← _card None k card_id p true;
  _ ← raise_if (bool_decide (board_id = tb_id source)) (TInvalid "transfer_same_board");
  target ← _board k board_id p true;
  _ ← _check_transfer_kinds source target;
  card ← refresh d card_id;
  _ ← raise_if (negb (bool_decide (cd_board_id card = tb_id source))) _card_moved;
  _ ← raise_if (bool_decide (cd_archived_at card ≠ None)) (TConflict "card_archived");
  column ← _pick_column (_columns d (tb_id target)) column_id;
  let own_labels := labels_of_card d card_id in
  let matched := (λ l, (l, label_of_name (_labels d (tb_id target)) (tl_name l))) <$> own_labels in
  let kept := fromkeys (omap (λ m, tl_id <$> m.2) matched) in
  let dropped_labels := tl_name <$> (filter (λ m, m.2 = None) matched).*1 in
  let own := assignees_of d card_id in
  let members := member_ids d target in
  let dropped := filter (λ a, a ∉ members) (fromkeys own) in
  let claim := is_kind source kind_personal && bool_decide (own = []) && bool_decide (actor ∈ members) in
  let live := _column_cards d (tc_id column) None in
  slot ← _slot live after_id before_id;
  let d1 := with_card_labels (filter (λ cl, cl.1 ≠ card_id) (card_labels d)) d in
  let d2 := with_assignees (filter (λ a, ¬ (a.1 = card_id ∧ a.2 ∈ dropped)) (assignees d1)) d1 in
  let d3 := _event card_id "moved" (Some actor)
      (moved_payload (cd_column_id card) (column_name (columns d) (cd_column_id card)) (tc_id column) (tc_name column) ++
       [("fromBoardId", PStr (tb_id source)); ("fromBoardName", PStr (tb_name source));
        ("toBoardId", PStr (tb_id target)); ("toBoardName", PStr (tb_name target));
        ("droppedLabels", PList (PStr <$> dropped_labels)); ("droppedAssignees", PInt (Z.of_nat (length dropped)))])
      now (add_labels card_id kept d2) in
  let d4 := if claim
            then _event card_id "assigned" (Some actor) [("principalId", PStr actor); ("added", PBool true)] now
                   (add_assignees card_id [actor] d3)
            else d3 in
  plan ← _place live slot card_id;
  let completed := if tc_is_done column then Some (default now (cd_completed_at card)) else None in
  let d5 := update_card card_id (λ c, set_column (tc_id column) completed now (set_board (tb_id target) c))
              (set_ranks plan now d4) in
  let d6 := if tc_is_done column && bool_decide (cd_completed_at card = None)
            then _write_ticket_done card (tb_id target) (Some actor) now d5 else d5 in
  let d7 := _touch (tb_id target) (Some card_id) false now (_touch (tb_id source) (Some card_id) true now d6) in
  Ok (if rp_respread plan then _touch (tb_id target) None false now d7 else d7).

(** ** Complete *)
(** [complete]: whether the card moved into the done column.  [d] are the tables under the lock. *)
Definition complete (d : TodoDb) (card_id board_id actor : string) (now : Z) : tres (TodoDb * bool) :=
  card ← refresh d card_id;
  if negb (bool_decide (cd_board_id card = board_id)) then Ok (d, false) else
  let cols := _columns d board_id in
  match head (filter (λ c, tc_is_done c = true) cols) with
  | None => Ok (d, false)
  | Some done =>
      if bool_decide (cd_column_id card = tc_id done) || bool_decide (cd_archived_at card ≠ None) then Ok (d, false)
      else
        plan ← _append (_column_cards d (tc_id done) (Some card_id)) [card_id];
        let d1 := _event card_id "moved" (Some actor)
                    (moved_payload (cd_column_id card) (column_name cols (cd_column_id card)) (tc_id done) (tc_name done))
                    now (set_ranks plan now d) in
        let d2 := update_card card_id (set_column (tc_id done) (Some now) now) d1 in
        Ok (_touch board_id (Some card_id) false now (_write_ticket_done card board_id (Some actor) now d2), true)
  end.

(** ** Archive and restore *)
Definition archive_card (k d : TodoDb) (p : Principal) (card_id : string) (now : Z) : tres TodoDb :=
  actor ← _actor k p;
  '(card, board) ← _card (Some k) d card_id p true;
  Ok (if bool_decide (cd_archived_at card = None)
      then _touch (tb_id board) (Some card_id) true now
             (_event card_id "archived" (Some actor) [] now
                (update_card card_id (set_archived (Some now) (cd_completed_at card) now) d))
      else d).
Definition restore_card (k d : TodoDb) (p : Principal) (card_id : string) (now : Z) : tres TodoDb :=
  actor ← _actor k p;
  '(card, board) ← _card (Some k) d card_id p true;
  Ok (if bool_decide (cd_archived_at card ≠ None)
      then
        let in_done := match find_by tc_id (cd_column_id card) (columns d) with Some c => tc_is_done c | None => false end in
        _touch (tb_id board) (Some card_id) false now
          (_event card_id "restored" (Some actor) [] now
             (update_card card_id (set_archived None (if in_done then Some now else cd_completed_at card) now) d))
      else d).

(** ** Assignees and labels *)
Definition assigned_payload (principal_id : string) (added : bool) : list (string * pyval) :=
  [("principalId", PStr principal_id); ("added", PBool added)].
Definition add_assignee (k d : TodoDb) (p : Principal) (card_id principal_id : string) (now : Z) : tres TodoDb :=
  actor ← _actor k p;
  '(_, board) ← _card (Some k) d card_id p true;
  _ ← _check_assignees d board [principal_id];
  Ok (if bool_decide ((card_id, principal_id) ∈ assignees d) then d
      else _mail assigned card_id [principal_id] actor None
             (_touch (tb_id board) (Some card_id) false now
                (_event card_id "assigned" (Some actor) (assigned_payload principal_id true) now
                   (add_assignees card_id [principal_id] d)))).
Definition remove_assignee (k d : TodoDb) (p : Principal) (card_id principal_id : string) (now : Z) : tres TodoDb :=
  actor ← _actor k p;
  '(_, board) ← _card (Some k) d card_id p true;
  Ok (if bool_decide ((card_id, principal_id) ∈ assignees d)
      then _touch (tb_id board) (Some card_id) false now
             (_event card_id "assigned" (Some actor) (assigned_payload principal_id false) now
                (with_assignees (filter (λ a, a ≠ (card_id, principal_id)) (assignees d)) d))
      else d).
Definition add_card_label (k d : TodoDb) (p : Principal) (card_id label_id : string) (now : Z) : tres TodoDb :=
  '(_, board) ← _card (Some k) d card_id p true;
  _ ← raise_if (negb (existsb (λ l, bool_decide (tl_id l = label_id) && bool_decide (tl_board_id l = tb_id board)) (labels d)))
        (TInvalid "label_not_on_board");
  Ok (if bool_decide ((card_id, label_id) ∈ card_labels d) then d
      else _touch (tb_id board) (Some card_id) false now (add_labels card_id [label_id] d)).
Definition remove_card_label (k d : TodoDb) (p : Principal) (card_id label_id : string) (now : Z) : tres TodoDb :=
  '(_, board) ← _card (Some k) d card_id p true;
  Ok (_touch (tb_id board) (Some card_id) false now
        (with_card_labels (filter (λ cl, cl ≠ (card_id, label_id)) (card_labels d)) d)).

(** ** Checklist *)
Definition item_leb (a b : TodoCheckItem) : bool :=
  (ci_position a <? ci_position b) || ((ci_position a =? ci_position b) && str_leb (ci_id a) (ci_id b)).
Definition items_of (d : TodoDb) (card_id : string) : list TodoCheckItem :=
  sort_by item_leb (filter (λ i, ci_card_id i = card_id) (check_items d)).
Definition check_payload (action text : string) : list (string * pyval) := [("action", PStr action); ("text", PStr text)].
Definition add_check_item (k d : TodoDb) (p : Principal) (card_id text id : string) (now : Z) : tres TodoDb :=
  actor ← _actor k p;
  '(_, board) ← _card (Some k) d card_id p true;
  let position := match ci_position <$> items_of d card_id with [] => 0 | x :: r => foldr Z.max x r + 1 end in
  let value := strip_or text text in
  Ok (_touch (tb_id board) (Some card_id) false now
        (_event card_id "checklist" (Some actor) (check_payload "added" value) now
           (with_check_items (check_items d ++ [MkTodoCheckItem id card_id value false position]) d))).
Definition _check_item (d : TodoDb) (card_id item_id : string) : tres TodoCheckItem :=
  item ← or_raise (find_by ci_id item_id (check_items d)) TNotFound;
  _ ← raise_if (negb (bool_decide (ci_card_id item = card_id))) TNotFound;
  Ok item.
Definition set_item_text (text : string) (i : TodoCheckItem) : TodoCheckItem :=
  MkTodoCheckItem (ci_id i) (ci_card_id i) text (ci_done i) (ci_position i).
Definition set_item_done (done : bool) (i : TodoCheckItem) : TodoCheckItem :=
  MkTodoCheckItem (ci_id i) (ci_card_id i) (ci_text i) done (ci_position i).
Definition set_item_position (position : Z) (i : TodoCheckItem) : TodoCheckItem :=
  MkTodoCheckItem (ci_id i) (ci_card_id i) (ci_text i) (ci_done i) position.
Definition update_item (id : string) (f : TodoCheckItem → TodoCheckItem) (d : TodoDb) : TodoDb :=
  with_check_items (update_row ci_id id f (check_items d)) d.
(** The item goes to [position] among the others of its card, which close up. *)
Definition place_item (d : TodoDb) (card_id item_id : string) (position : nat) : TodoDb :=
  let others := filter (λ i, i ≠ item_id) (ci_id <$> items_of d card_id) in
  let at_ := Nat.min position (length others) in
  let order := take at_ others ++ item_id :: drop at_ others in
  with_check_items ((λ i, match index_of (ci_id i) order with Some n => set_item_position (Z.of_nat n) i | None => i end)
                      <$> check_items d) d.
Definition patch_check_item (k d : TodoDb) (p : Principal) (card_id item_id : string) (text : option string)
    (done : option bool) (position : option nat) (now : Z) : tres TodoDb :=
  actor ← _actor k p;
  '(_, board) ← _card (Some k) d card_id p true;
  item ← _check_item d card_id item_id;
  let value := match text with Some t => strip_or t t | None => ci_text item end in
  let d1 := if bool_decide (value = ci_text item) then d
            else _event card_id "checklist" (Some actor) (check_payload "renamed" value) now
                   (update_item item_id (set_item_text value) d) in
  let ticked := default (ci_done item) done in
  let d2 := if bool_decide (ticked = ci_done item) then d1
            else _event card_id "checklist" (Some actor) (check_payload (if ticked then "done" else "undone") value) now
                   (update_item item_id (set_item_done ticked) d1) in
  let d3 := match position with Some n => place_item d2 card_id item_id n | None => d2 end in
  Ok (_touch (tb_id board) (Some card_id) false now d3).
Definition delete_check_item (k d : TodoDb) (p : Principal) (card_id item_id : string) (now : Z) : tres TodoDb :=
  actor ← _actor k p;
  '(_, board) ← _card (Some k) d card_id p true;
  item ← _check_item d card_id item_id;
  Ok (_touch (tb_id board) (Some card_id) false now
        (_event card_id "checklist" (Some actor) (check_payload "removed" (ci_text item)) now
           (with_check_items (filter (λ i, ci_id i ≠ item_id) (check_items d)) d))).
End Cards.
