(* ===== verification/TodoEvents.v ===== *)
(** Links, Events, series and comments of the to-do cards, and the cards of an agenda
    ([todos/service.py], [todos/events.py]); what acts on the boards from outside: the close of a
    ticket ([todos/hooks.py]), the archive cron and the due reminder ([worker/todos.py]), the merge of
    two personal boards ([todos/merge.py]); the lists of the readable cards; and all of it as a step
    relation with its histories.

    The conventions are those of [TodoCards].  A comment carries no files here: the drafts of an
    attachment belong to the file service. *)

From stdpp Require Import gmap strings.
From S2P Require Import Prelude PyStr PyNum PyValue PyDate Lexorank FlowDb Policy Todo TodoService TodoCards.

(** ** Links *)
Definition link_payload (ref : string * string) : list (string * pyval) :=
  [("linkKind", PStr ref.1); ("targetId", PStr ref.2)].
Definition add_link_row (id card_id : string) (ref : string * string) (actor : string) (now : Z) (d : TodoDb) : TodoDb :=
  _event card_id "linked" (Some actor) (link_payload ref) now (with_links (links d ++ [_new_link id card_id ref actor now]) d).
Definition refs_of (d : TodoDb) (card_id : string) : list (string * string) :=
  link_ref <$> filter (λ l, lk_card_id l = card_id) (links d).
Section Links.
Context (readable : TodoDb → string → string → Principal → bool).

Definition add_link (k d : TodoDb) (p : Principal) (card_id kind target_id id : string) (now : Z) : tres TodoDb :=
  actor ← _actor k p;
  '(_, board) ← _card (Some k) d card_id p true;
  _ ← raise_if (bool_decide (kind = "todo") && bool_decide (target_id = card_id)) (TInvalid "link_self");
  _ ← raise_if (negb (readable d kind target_id p)) (TInvalid "link_target_not_found");
  _ ← raise_if (has_link d card_id (kind, target_id)) (TConflict "link_exists");
  _ ← (if is_event d card_id then check_one_event d card_id [(kind, target_id)] else Ok ());
  Ok (_touch (tb_id board) (Some card_id) false now (add_link_row id card_id (kind, target_id) actor now d)).
End Links.
Definition remove_link (k d : TodoDb) (p : Principal) (card_id link_id : string) (now : Z) : tres TodoDb :=
  actor ← _actor k p;
  '(_, board) ← _card (Some k) d card_id p true;
  link ← or_raise (find_by lk_id link_id (links d)) TNotFound;
  _ ← raise_if (negb (bool_decide (lk_card_id link = card_id))) TNotFound;
  Ok (_touch (tb_id board) (Some card_id) false now
        (_event card_id "unlinked" (Some actor) (link_payload (link_ref link)) now
           (with_links (filter (λ l, lk_id l ≠ link_id) (links d)) d))).

(** ** Events *)
Definition set_event_row (e : EventIn) (r : TodoCardEvent) : TodoCardEvent := _event_row (ce_card_id r) e.
Definition stamp (now : Z) (c : TodoCard) : TodoCard := set_completed (cd_completed_at c) now c.
Definition set_event (k d : TodoDb) (p : Principal) (card_id : string) (payload : EventIn) (now : Z) : tres TodoDb :=
  _ ← _actor k p;
  '(_, board) ← _card (Some k) d card_id p true;
  _ ← _check_event d board payload;
  d1 ← (if is_event d card_id
        then Ok (with_card_events (update_row ce_card_id card_id (set_event_row payload) (card_events d)) d)
        else
          _ ← check_one_event d card_id (refs_of d card_id);
          Ok (with_card_events (card_events d ++ [_event_row card_id payload]) d));
  Ok (_touch (tb_id board) (Some card_id) false now (update_card card_id (stamp now) d1)).
(** [remove_event] always raises. *)
Definition remove_event (d : TodoDb) (p : Principal) (card_id : string) : tres TodoDb :=
  _ ← _card None d card_id p true;
  _ ← raise_if (negb (is_event d card_id)) TNotFound;
  Err (TConflict "event_permanent").
Definition copy_item (card_id : string) (id : string) (i : TodoCheckItem) : TodoCheckItem :=
  MkTodoCheckItem id card_id (ci_text i) false (ci_position i).
(** The next edition of an Event: [id] and [item_ids] are the new ids. *)
Definition follow_up (k d : TodoDb) (p : Principal) (card_id id : string) (item_ids : list string) (now : Z) : tres TodoDb :=
  actor ← _actor k p;
  '(source, board) ← _card (Some k) d card_id p true;
  row ← or_raise (find_by ce_card_id card_id (card_events d)) (TInvalid "not_an_event");
  column ← or_raise (head (_columns d (tb_id board))) (TRaised (RankEscaped IndexError));
  let label_ids := (filter (λ cl, cl.1 = card_id) (card_labels d)).*2 in
  let items := items_of d card_id in
  plan ← _append (_column_cards d (tc_id column) None) [id];
  let card := new_card id (tb_id board) (tc_id column) (cd_title source) (cd_description_md source) None actor
                (tc_is_done column) now in
  let d1 := add_labels id label_ids (add_card plan now card d) in
  let d2 := with_check_items (check_items d1 ++ zip_with (copy_item id) item_ids items) d1 in
  let d3 := with_card_events (card_events d2 ++ [MkTodoCardEvent id None None (ce_place row) None (ce_series_id row)]) d2 in
  Ok (_touch (tb_id board) (Some id) false now (_event id "created" (Some actor) [] now d3)).

(** ** Series *)
Definition _shared_boards (d : TodoDb) (p : Principal) : list TodoBoard :=
  if negb (token_reads p) then []
  else filter (λ b, scope_condition (todo_scope d p) b && negb (is_kind b kind_personal) &&
                    bool_decide (tb_archived_at b = None) = true) (boards d).
Definition _writes_shared_board (d : TodoDb) (p : Principal) : bool :=
  existsb (λ b, todo_can_write d b p) (_shared_boards d p).
Definition create_series (d : TodoDb) (p : Principal) (name id : string) : tres TodoDb :=
  actor ← _actor d p;
  _ ← raise_if (negb (_writes_shared_board d p)) (TForbidden "todo_write_required");
  let value := py_strip name in
  _ ← raise_if (bool_decide (value = "")) (TInvalid "series_name_blank");
  _ ← raise_if (existsb (λ s, bool_decide (py_lower (se_name s) = py_lower value)) (series d)) (TConflict "series_exists");
  Ok (with_series (series d ++ [MkSeries id value (Some actor)]) d).

(** ** Comments *)
(** [body.split()]. *)
Fixpoint split_words (cur : list ascii) (l : list ascii) : list string :=
  let word := match cur with [] => [] | _ => [of_chars (rev cur)] end in
  match l with
  | [] => word
  | c :: r => if is_space c then word ++ split_words [] r else split_words (c :: cur) r
  end.
Definition EXCERPT_LENGTH : Z := 200.
Definition _excerpt (body : string) : string :=
  let flat := join " " (split_words [] (chars body)) in
  if py_len flat <=? EXCERPT_LENGTH then flat else py_take (Z.to_nat (EXCERPT_LENGTH - 1)) flat +:+ "…".
Definition _check_mentions (d : TodoDb) (b : TodoBoard) (mentions : list string) : tres () :=
  raise_if (negb (forallb (λ m, bool_decide (m ∈ member_ids d b)) mentions)) (TInvalid "mention_not_member").
Definition add_comment (k d : TodoDb) (p : Principal) (card_id body : string) (mentions : list string) (id : string) (now : Z)
    : tres TodoDb :=
  actor ← _actor k p;
  '(_, board) ← _card (Some k) d card_id p true;
  let wanted := fromkeys mentions in
  _ ← _check_mentions d board wanted;
  let d1 := with_comments (comments d ++ [MkTodoComment id card_id actor body wanted now None None]) d in
  Ok (_mail mentioned card_id wanted actor (Some (_excerpt body)) (_touch (tb_id board) (Some card_id) false now d1)).
Definition _own_comment (d : TodoDb) (card_id comment_id : string) (p : Principal) : tres (TodoComment * string) :=
  comment ← or_raise (find_by cm_id comment_id (comments d)) TNotFound;
  _ ← raise_if (negb (bool_decide (cm_card_id comment = card_id)) || bool_decide (cm_deleted_at comment ≠ None)) TNotFound;
  me ← or_raise (me d p) (TForbidden "not_comment_author");
  _ ← raise_if (negb (bool_decide (cm_author_id comment = me))) (TForbidden "not_comment_author");
  Ok (comment, me).
Definition set_body (body : string) (mentions : list string) (now : Z) (c : TodoComment) : TodoComment :=
  MkTodoComment (cm_id c) (cm_card_id c) (cm_author_id c) body mentions (cm_created_at c) (Some now) (cm_deleted_at c).
Definition set_deleted (now : Z) (c : TodoComment) : TodoComment :=
  MkTodoComment (cm_id c) (cm_card_id c) (cm_author_id c) (cm_body c) (cm_mentions c) (cm_created_at c) (cm_edited_at c) (Some now).
Definition edit_comment (k d : TodoDb) (p : Principal) (card_id comment_id body : string) (mentions : list string) (now : Z)
    : tres TodoDb :=
  '(_, board) ← _card (Some k) d card_id p true;
  '(comment, me) ← _own_comment d card_id comment_id p;
  let wanted := fromkeys mentions in
  _ ← _check_mentions d board wanted;
  let new := filter (λ m, m ∉ cm_mentions comment) wanted in
  Ok (_mail mentioned card_id new me (Some (_excerpt body))
        (_touch (tb_id board) (Some card_id) false now
           (with_comments (update_row cm_id comment_id (set_body body wanted now) (comments d)) d))).
Definition delete_comment (k d : TodoDb) (p : Principal) (card_id comment_id : string) (now : Z) : tres TodoDb :=
  '(_, board) ← _card (Some k) d card_id p true;
  _ ← _own_comment d card_id comment_id p;
  Ok (_touch (tb_id board) (Some card_id) false now
        (with_comments (update_row cm_id comment_id (set_deleted now) (comments d)) d)).

(** ** Cards of an agenda *)
Definition card_for_agenda (k d : TodoDb) (p : Principal) (card_id gremium_id : string) : tres TodoCard :=
  '(card, board) ← _card (Some k) d card_id p true;
  _ ← raise_if (bool_decide (cd_archived_at card ≠ None)) (TInvalid "todo_archived");
  _ ← raise_if (negb (is_kind board kind_gremium) || negb (bool_decide (tb_gremium_id board = Some gremium_id)))
        (TInvalid "todo_wrong_board");
  Ok card.
Definition link_agenda_item (d : TodoDb) (p : Principal) (card : TodoCard) (agenda_item_id id : string) (now : Z) : tres TodoDb :=
  actor ← _actor d p;
  Ok (if has_link d (cd_id card) ("agenda_item", agenda_item_id) then d
      else
        let d1 := add_link_row id (cd_id card) ("agenda_item", agenda_item_id) actor now d in
        match find_by tb_id (cd_board_id card) (boards d1) with
        | Some b => _touch (tb_id b) (Some (cd_id card)) false now d1
        | None => d1
        end).

(** ** Tickets *)
(** The rows of [join]: the board and the column of a card. *)
Definition board_of (d : TodoDb) (c : TodoCard) : option TodoBoard := find_by tb_id (cd_board_id c) (boards d).
Definition in_done (d : TodoDb) (c : TodoCard) : bool :=
  match find_by tc_id (cd_column_id c) (columns d) with Some col => tc_is_done col | None => false end.
Definition has_column (d : TodoDb) (c : TodoCard) : bool := bool_decide (is_Some (find_by tc_id (cd_column_id c) (columns d))).
Definition with_board (d : TodoDb) (cs : list TodoCard) : list (TodoCard * TodoBoard) :=
  omap (λ c, pair c <$> board_of d c) cs.
Definition created_leb (a b : TodoCard) : bool :=
  (cd_created_at a <? cd_created_at b) || ((cd_created_at a =? cd_created_at b) && str_leb (cd_id a) (cd_id b)).
Definition _open_cards (d : TodoDb) (ticket_id : string) (p : Principal) : list (TodoCard * TodoBoard) :=
  let linked := filter (λ c, has_link d (cd_id c) ("ticket", ticket_id) && bool_decide (cd_archived_at c = None) &&
                             has_column d c && negb (in_done d c) = true) (cards d) in
  filter (λ cb, todo_can_read d cb.2 p = true) (with_board d (sort_by created_leb linked)).
Definition open_count (d : TodoDb) (ticket_id : string) (p : Principal) : nat := length (_open_cards d ticket_id p).
Fixpoint complete_all (cards : list (TodoCard * TodoBoard)) (actor : string) (now : Z) (d : TodoDb) (moved : bool)
    : tres (TodoDb * bool) :=
  match cards with
  | [] => Ok (d, moved)
  | (c, b) :: r => '(d', m) ← complete d (cd_id c) (tb_id b) actor now; complete_all r actor now d' (moved || m)
  end.
(** The close of a ticket: [k] before the locks of the boards, [d] under them. *)
Definition complete_ticket (k d : TodoDb) (ticket_id : string) (p : Principal) (now : Z) : tres TodoDb :=
  let cards := filter (λ cb, todo_can_write k cb.2 p = true) (_open_cards k ticket_id p) in
  match me k p with
  | None => Ok d
  | Some actor =>
      r ← complete_all (sort_by (λ x y, str_leb (tb_id x.2) (tb_id y.2)) cards) actor now d false;
      Ok (if (r.2 : bool) then (r.1 : TodoDb) else d)
  end.
Definition readable_cards (d : TodoDb) (card_ids : list string) (p : Principal) : list string :=
  (λ cb, cd_id cb.1) <$> filter (λ cb, todo_can_read d cb.2 p = true) (with_board d (filter (λ c, cd_id c ∈ card_ids) (cards d))).

(** ** The archive cron *)
Definition BATCH : Z := 500.
Definition DAY : Z := 86400.
Definition card_due (d : TodoDb) (moment : Z) (c : TodoCard) : bool :=
  in_done d c && bool_decide (cd_archived_at c = None) &&
  match cd_completed_at c, board_of d c ≫= tb_archive_after_days with
  | Some at_, Some days => at_ <? moment - DAY * days
  | _, _ => false
  end.
Definition completed_leb (a b : TodoCard) : bool :=
  let at_ c := default 0 (cd_completed_at c) in
  (at_ a <? at_ b) || ((at_ a =? at_ b) && str_leb (cd_id a) (cd_id b)).
Definition batch {A} (l : list A) : list A := take (Z.to_nat BATCH) l.
Definition archive_one (moment : Z) (d : TodoDb) (c : TodoCard) : TodoDb :=
  _event (cd_id c) "archived" None [] moment
    (with_boards (update_row tb_id (cd_board_id c) (set_touched moment) (boards d))
       (update_card (cd_id c) (λ x, set_archived (Some moment) (cd_completed_at x) moment x) d)).
(** [skipped]: the cards that another transaction has locked ([skip_locked]). *)
Definition archive_done_todos (k d : TodoDb) (skipped : list string) (moment : Z) : TodoDb * nat :=
  let candidates := batch (sort_by completed_leb (filter (λ c, card_due k moment c = true) (cards k))) in
  let boards := filter (λ b, b ∈ (tb_id <$> boards k)) (cd_board_id <$> candidates) in
  let due := filter (λ c, card_due d moment c && bool_decide (cd_board_id c ∈ boards) &&
                          bool_decide (cd_id c ∉ skipped) = true) (cards d) in
  let rows := batch (sort_by completed_leb due) in
  (foldl (archive_one moment) d rows, length rows).

(** ** The due reminder *)
Definition DUE_HOUR : Z := 7.
Definition set_reminded (day : pydate) (c : TodoCard) : TodoCard :=
  MkTodoCard (cd_id c) (cd_board_id c) (cd_column_id c) (cd_rank c) (cd_title c) (cd_description_md c) (cd_due_date c)
    (Some day) (cd_created_by c) (cd_completed_at c) (cd_archived_at c) (cd_version c) (cd_created_at c) (cd_updated_at c).
Section Reminder.
(** The mail of a card to some people: [None] when the queue raises. *)
Context (send_todo_due : TodoCard → TodoBoard → list string → pydate → option bool).

Definition _remind_card (due : pydate) (st : TodoDb * nat) (cb : TodoCard * TodoBoard) : TodoDb * nat :=
  let recipients := filter (λ a, a ∈ member_ids st.1 cb.2) (assignees_of st.1 (cd_id cb.1)) in
  match send_todo_due cb.1 cb.2 recipients due with
  | None => st
  | Some sent => (update_card (cd_id cb.1) (set_reminded due) st.1, if sent then S st.2 else st.2)
  end.
(** [hour] and [tomorrow] of Europe/Berlin; the cards that are locked elsewhere are skipped. *)
Definition process_todo_due (d : TodoDb) (skipped : list string) (hour : Z) (tomorrow : pydate) : TodoDb * nat :=
  if hour <? DUE_HOUR then (d, 0%nat)
  else
    let due := filter (λ c, bool_decide (cd_due_date c = Some tomorrow) && bool_decide (cd_archived_at c = None) &&
                            has_column d c && negb (in_done d c) && bool_decide (cd_due_reminded_on c ≠ Some tomorrow) &&
                            bool_decide (cd_id c ∉ skipped) = true) (cards d) in
    foldl (_remind_card tomorrow) (d, 0%nat) (batch (with_board d (sort_by (λ a b, str_leb (cd_id a) (cd_id b)) due))).
End Reminder.

(** ** The merge of two personal boards *)
(** [None]: the generator of [_targets] finds no done column, which raises. *)
Definition _targets (d : TodoDb) (board_id : string) : option (string * string) :=
  let cols := _columns d board_id in
  done ← head (filter (λ c, tc_is_done c = true) cols);
  first ← head cols;
  Some (tc_id first, tc_id done).
Definition set_label_board (board_id : string) (l : TodoLabel) : TodoLabel :=
  MkTodoLabel (tl_id l) board_id (tl_name l) (tl_color l).
Definition fold_label (target : list TodoLabel) (target_id : string) (d : TodoDb) (l : TodoLabel) : TodoDb :=
  match label_of_name target (tl_name l) with
  | None => with_labels (update_row tl_id (tl_id l) (set_label_board target_id) (labels d)) d
  | Some same =>
      with_labels (filter (λ x, tl_id x ≠ tl_id l) (labels d))
        (with_card_labels ((λ cl, if bool_decide (cl.2 = tl_id l) then (cl.1, tl_id same) else cl) <$> card_labels d) d)
  end.
Definition _fold_labels (source_id target_id : string) (d : TodoDb) : TodoDb :=
  foldl (fold_label (filter (λ l, tl_board_id l = target_id) (labels d)) target_id) d
    (filter (λ l, tl_board_id l = source_id) (labels d)).
Definition last_rank (d : TodoDb) (column_id : string) : option string :=
  last (sort_by str_leb (cd_rank <$> filter (λ c, cd_column_id c = column_id) (cards d))).
Definition column_position (d : TodoDb) (c : TodoCard) : Z := default 0 (tc_position <$> find_by tc_id (cd_column_id c) (columns d)).
Definition fold_leb (d : TodoDb) (a b : TodoCard) : bool :=
  (column_position d a <? column_position d b) || ((column_position d a =? column_position d b) && card_leb a b).
Definition set_place (board_id column_id rank : string) (c : TodoCard) : TodoCard :=
  MkTodoCard (cd_id c) board_id column_id rank (cd_title c) (cd_description_md c) (cd_due_date c) (cd_due_reminded_on c)
    (cd_created_by c) (cd_completed_at c) (cd_archived_at c) (cd_version c) (cd_created_at c) (cd_updated_at c).
(** The delete of a board takes its columns, labels and cards with it. *)
Definition delete_board (board_id : string) (d : TodoDb) : TodoDb :=
  with_boards (filter (λ b, tb_id b ≠ board_id) (boards d))
    (with_columns (filter (λ c, tc_board_id c ≠ board_id) (columns d))
       (with_labels (filter (λ l, tl_board_id l ≠ board_id) (labels d))
          (with_cards (filter (λ c, cd_board_id c ≠ board_id) (cards d)) d))).
Definition fold_personal_board (d : TodoDb) (source_id target_id : string) (now : Z) : tres (TodoDb * nat) :=
  '(first, done) ← or_raise (_targets d target_id) TDatabase;
  let d1 := _fold_labels source_id target_id d in
  let moved := sort_by (fold_leb d1) (filter (λ c, cd_board_id c = source_id) (cards d1)) in
  let to := (λ c, if in_done d1 c then done else first) <$> moved in
  let last := [(first, last_rank d1 first); (done, last_rank d1 done)] in
  match _appended_ranks to last with
  | Err e => Err (TRaised e)
  | Ok ranks =>
      let d2 := foldl (λ d x, update_card x.1.1 (set_place target_id x.1.2 x.2) d) d1 (zip (zip (cd_id <$> moved) to) ranks) in
      let d3 := with_boards (update_row tb_id target_id (set_touched now) (boards d2)) d2 in
      Ok (delete_board source_id d3, length moved)
  end.

(** ** The lists of cards *)
Definition card_rows (d : TodoDb) (p : Principal) (P : TodoCard → TodoBoard → bool) : list (TodoCard * TodoBoard) :=
  filter (λ cb, P cb.1 cb.2 && scope_condition (todo_scope d p) cb.2 = true) (with_board d (cards d)).
Definition _live (c : TodoCard) : bool := bool_decide (cd_archived_at c = None).
Definition board_live (b : TodoBoard) : bool := bool_decide (tb_archived_at b = None).
Definition is_assigned (d : TodoDb) (who : string) (c : TodoCard) : bool := bool_decide ((cd_id c, who) ∈ assignees d).
Definition no_token_scope : TodoError := TForbidden "".
(** The cards of [mine], of the rows under it, of the board view and of a link target; the order
    and the columns of the answer are left out. *)
Definition mine (d : TodoDb) (p : Principal) : tres (list (TodoCard * TodoBoard)) :=
  _ ← raise_if (negb (token_reads p)) no_token_scope;
  match me d p with
  | None => Ok []
  | Some me => Ok (card_rows d p (λ c b, is_assigned d me c && _live c && has_column d c && negb (in_done d c) && board_live b))
  end.
Definition _assigned_cards (d : TodoDb) (p : Principal) : tres (list (TodoCard * TodoBoard)) :=
  _ ← raise_if (negb (token_reads p)) no_token_scope;
  match me d p with
  | None => Ok []
  | Some me => Ok (card_rows d p (λ c b, is_assigned d me c && _live c && board_live b && negb (is_kind b kind_personal)))
  end.
Definition _live_cards (d : TodoDb) (p : Principal) : tres (list (TodoCard * TodoBoard)) :=
  _ ← raise_if (negb (token_reads p)) no_token_scope;
  Ok (card_rows d p (λ c b, _live c && board_live b)).
Definition linked (d : TodoDb) (kind target_id : string) (p : Principal) : list (TodoCard * TodoBoard) :=
  if negb (token_reads p) then []
  else card_rows d p (λ c _, has_link d (cd_id c) (kind, target_id) && has_column d c && _live c).

(** A new id is a random UUID: no row names it. *)
Record fresh_card (d : TodoDb) (id : string) : Prop := {
  fresh_in_cards : id ∉ cd_id <$> cards d;
  fresh_in_labels : id ∉ (card_labels d).*1;
  fresh_in_assignees : id ∉ (assignees d).*1;
  fresh_in_items : id ∉ ci_card_id <$> check_items d;
  fresh_in_links : id ∉ lk_card_id <$> links d;
  fresh_in_events : id ∉ ce_card_id <$> card_events d
}.
Section Requests.
Context (readable : TodoDb → string → string → Principal → bool).

(** *** What a request of [p] does, with [k] an earlier state for what is read before a lock *)
Inductive board_request (k d : TodoDb) (p : Principal) : TodoDb → Prop :=
| req_patch_board b name days now d' : patch_board d p b name days now = Ok d' → board_request k d p d'
| req_add_column b name id now d' :
    id ∉ tc_id <$> columns d → add_column d p b name id now = Ok d' → board_request k d p d'
| req_patch_column b c name done now d' : patch_column k d p b c name done now = Ok d' → board_request k d p d'
| req_order_columns b ids now d' : order_columns d p b ids now = Ok d' → board_request k d p d'
| req_delete_column b c to now d' : delete_column k d p b c to now = Ok d' → board_request k d p d'
| req_add_label b name color id now d' :
    id ∉ tl_id <$> labels d → id ∉ (card_labels d).*2 → add_label k d p b name color id now = Ok d' → board_request k d p d'
| req_patch_label b l name color now d' : patch_label d p b l name color now = Ok d' → board_request k d p d'
| req_delete_label b l now d' : delete_label d p b l now = Ok d' → board_request k d p d'.
Inductive card_request (k d : TodoDb) (p : Principal) : TodoDb → Prop :=
| req_create payload id probe ids now d' :
    fresh_card d id → fresh_card d probe → create readable k d p payload id probe ids now = Ok d' → card_request k d p d'
| req_patch c payload now d' : patch k d p c payload now = Ok d' → card_request k d p d'
| req_move c col before after now d' : move k d p c col before after now = Ok d' → card_request k d p d'
| req_transfer c b col before after now d' : transfer k d p c b col before after now = Ok d' → card_request k d p d'
| req_archive c now d' : archive_card k d p c now = Ok d' → card_request k d p d'
| req_restore c now d' : restore_card k d p c now = Ok d' → card_request k d p d'
| req_add_assignee c who now d' : add_assignee k d p c who now = Ok d' → card_request k d p d'
| req_remove_assignee c who now d' : remove_assignee k d p c who now = Ok d' → card_request k d p d'
| req_add_card_label c l now d' : add_card_label k d p c l now = Ok d' → card_request k d p d'
| req_remove_card_label c l now d' : remove_card_label k d p c l now = Ok d' → card_request k d p d'
| req_add_item c text id now d' : add_check_item k d p c text id now = Ok d' → card_request k d p d'
| req_patch_item c i text done pos now d' : patch_check_item k d p c i text done pos now = Ok d' → card_request k d p d'
| req_delete_item c i now d' : delete_check_item k d p c i now = Ok d' → card_request k d p d'.
Inductive thread_request (k d : TodoDb) (p : Principal) : TodoDb → Prop :=
| req_add_link c kind target id now d' : add_link readable k d p c kind target id now = Ok d' → thread_request k d p d'
| req_remove_link c l now d' : remove_link k d p c l now = Ok d' → thread_request k d p d'
| req_set_event c payload now d' : set_event k d p c payload now = Ok d' → thread_request k d p d'
| req_remove_event c d' : remove_event d p c = Ok d' → thread_request k d p d'
| req_follow_up c id ids now d' : fresh_card d id → follow_up k d p c id ids now = Ok d' → thread_request k d p d'
| req_create_series name id d' : create_series d p name id = Ok d' → thread_request k d p d'
| req_add_comment c body mentions id now d' : add_comment k d p c body mentions id now = Ok d' → thread_request k d p d'
| req_edit_comment c m body mentions now d' : edit_comment k d p c m body mentions now = Ok d' → thread_request k d p d'
| req_delete_comment c m now d' : delete_comment k d p c m now = Ok d' → thread_request k d p d'
| req_agenda c g card item id now d' :
    card_for_agenda k d p c g = Ok card → link_agenda_item d p card item id now = Ok d' → thread_request k d p d'
| req_ticket_closed t now d' : complete_ticket k d t p now = Ok d' → thread_request k d p d'.
Definition request (k d : TodoDb) (p : Principal) (d' : TodoDb) : Prop :=
  board_request k d p d' ∨ card_request k d p d' ∨ thread_request k d p d'.

(** *** What the system does *)
Definition fresh_board (d : TodoDb) (id : string) (column_ids : list string) : Prop :=
  id ∉ tb_id <$> boards d ∧ length column_ids = length DEFAULT_COLUMNS ∧ NoDup column_ids ∧
  (∀ c, c ∈ column_ids → c ∉ tc_id <$> columns d).
(** The merge of the accounts of two personal boards; the first column of the board that stays is
    not its done column. *)
Definition mergeable (d : TodoDb) (source target : string) : Prop :=
  source ≠ target ∧ (∃ s t, s ∈ boards d ∧ t ∈ boards d ∧ tb_id s = source ∧ tb_id t = target ∧
    tb_kind s = kind_personal ∧ tb_kind t = kind_personal) ∧
  ∀ first done, _targets d target = Some (first, done) → first ≠ done.
Inductive todo_system (k d : TodoDb) : TodoDb → Prop :=
| sys_gremium_board g name id cols now :
    fresh_board d id cols → todo_system k d (ensure_gremium_board d g name id cols now).1
| sys_personal_board o id cols now :
    fresh_board d id cols → todo_system k d (ensure_personal_board d o id cols now).1
| sys_archive skipped now : todo_system k d (archive_done_todos k d skipped now).1
| sys_reminder send skipped hour tomorrow : todo_system k d (process_todo_due send d skipped hour tomorrow).1
| sys_merge source target now d' n :
    mergeable d source target → fold_personal_board d source target now = Ok (d', n) → todo_system k d d'
(** The accounts, the roles and the configuration belong to the other modules. *)
| sys_accounts c r a : todo_system k d (MkTodoDb c r a (boards d) (columns d) (cards d) (labels d) (card_labels d)
    (assignees d) (check_items d) (comments d) (timeline d) (links d) (card_events d) (series d) (ticket_events d)
    (outbox d) (pings d)).
Definition todo_step (k d d' : TodoDb) : Prop := (∃ p, request k d p d') ∨ todo_system k d d'.

(** *** Histories *)
(** Before the first board; the newest state is the head, and what a transaction reads before its
    wait is any state of the history.  The id of a deleted board does not come back. *)
Definition no_boards (d : TodoDb) : Prop :=
  boards d = [] ∧ columns d = [] ∧ cards d = [] ∧ labels d = [] ∧ card_labels d = [] ∧ links d = [] ∧ card_events d = [].
(** The primary keys that the database enforces. *)
Definition keys (d : TodoDb) : Prop :=
  NoDup (ci_id <$> check_items d) ∧ NoDup (cm_id <$> comments d) ∧ NoDup (lk_id <$> links d).
Inductive history : list TodoDb → Prop :=
| history_start d : no_boards d → keys d → history [d]
| history_step k d d' h :
    history (d :: h) → k ∈ d :: h → todo_step k d d' → keys d' →
    (∀ b s, b ∈ boards d' → tb_id b ∉ tb_id <$> boards d → s ∈ h → tb_id b ∉ tb_id <$> boards s) →
    history (d' :: d :: h).
End Requests.
