(* ===== verification/TodoCore.v ===== *)
(** What the to-do boards promise: the part of their tables that places the cards, as a state of its
    own, the steps it takes, and the invariant that they keep. *)

From stdpp Require Import gmap strings.
From S2P Require Import Prelude FlowDb Todo.

(** ** The core of the tables *)
(** A column with its board and whether it is the done column; a card with its board, its column and
    whether it is completed; a label with its board; a card with a label; the link of a card. *)
Record Core := MkCore {
  co_boards : list (string * BoardKind);
  co_columns : list (string * string * bool);
  co_cards : list (string * string * string * bool);
  co_labels : list (string * string);
  co_card_labels : list (string * string);
  co_links : list (string * (string * string));
  co_events : list string
}.
Definition set_cards (cs : list (string * string * string * bool)) (x : Core) : Core :=
  MkCore (co_boards x) (co_columns x) cs (co_labels x) (co_card_labels x) (co_links x) (co_events x).
Definition set_card_labels (ls : list (string * string)) (x : Core) : Core :=
  MkCore (co_boards x) (co_columns x) (co_cards x) (co_labels x) ls (co_links x) (co_events x).
(** The cards of [ids] take a new place. *)
Definition place_cards (ids : list string) (b col : string) (done : bool) (x : Core) : Core :=
  set_cards ((λ c, if bool_decide (c.1.1.1 ∈ ids) then (c.1.1.1, b, col, done) else c) <$> co_cards x) x.
(** The column [col] becomes the done column of the board [b]. *)
Definition pick_done (b col : string) (x : Core) : Core :=
  MkCore (co_boards x)
    ((λ c, if bool_decide (c.1.2 = b) then (c.1, bool_decide (c.1.1 = col)) else c) <$> co_columns x)
    ((λ c, if bool_decide (c.1.1.2 = b) then (c.1, bool_decide (c.1.2 = col)) else c) <$> co_cards x)
    (co_labels x) (co_card_labels x) (co_links x) (co_events x).

Definition shared_kind (kind : string) : bool := bool_decide (kind ∈ ["application"; "expense"; "invoice"]).
(** Another Event links one of [refs]. *)
Definition event_link_free (x : Core) (card : string) (refs : list (string * string)) : Prop :=
  ∀ l, l ∈ co_links x → shared_kind l.2.1 = true → l.2 ∈ refs → l.1 ∈ co_events x → l.1 = card.

Inductive core_step (x : Core) : Core → Prop :=
| core_board id kind cols :
    id ∉ (co_boards x).*1 → NoDup cols.*1 → (∀ c, c ∈ cols.*1 → c ∉ (co_columns x).*1.*1) →
    (∃ c, cols.*1 !! 3%nat = Some c ∧ ∀ n d, cols !! n = Some d → d.2 = bool_decide (n = 3%nat)) →
    core_step x (MkCore (co_boards x ++ [(id, kind)]) (co_columns x ++ ((λ c, (c.1, id, c.2)) <$> cols)) (co_cards x)
                   (co_labels x) (co_card_labels x) (co_links x) (co_events x))
| core_column id b :
    id ∉ (co_columns x).*1.*1 → b ∈ (co_boards x).*1 →
    core_step x (MkCore (co_boards x) (co_columns x ++ [(id, b, false)]) (co_cards x)
                   (co_labels x) (co_card_labels x) (co_links x) (co_events x))
| core_done b col : (col, b) ∈ (co_columns x).*1 → core_step x (pick_done b col x)
| core_drop_column col b :
    (col, b, false) ∈ co_columns x → (∀ c, c ∈ co_cards x → c.1.2 ≠ col) →
    core_step x (MkCore (co_boards x) (filter (λ c, c.1.1 ≠ col) (co_columns x)) (co_cards x)
                   (co_labels x) (co_card_labels x) (co_links x) (co_events x))
| core_new_card id b col done ls refs event :
    id ∉ (co_cards x).*1.*1.*1 → id ∉ (co_card_labels x).*1 → id ∉ (co_links x).*1 → id ∉ co_events x →
    (col, b, done) ∈ co_columns x → (∀ l, l ∈ ls → (l, b) ∈ co_labels x) →
    (event = true → (∀ kind, (b, kind) ∈ co_boards x → kind ≠ kind_personal) ∧ event_link_free x id refs) →
    core_step x (MkCore (co_boards x) (co_columns x) (co_cards x ++ [(id, b, col, done)]) (co_labels x)
                   (co_card_labels x ++ (pair id <$> ls)) (co_links x ++ (pair id <$> refs))
                   (if event then co_events x ++ [id] else co_events x))
| core_place ids b col done :
    (col, b, done) ∈ co_columns x → (∀ c, c ∈ co_cards x → c.1.1.1 ∈ ids → c.1.1.2 = b) →
    core_step x (place_cards ids b col done x)
| core_transfer id b0 b col done ls :
    (col, b, done) ∈ co_columns x → (∀ c, c ∈ co_cards x → c.1.1.1 = id → c.1.1.2 = b0) →
    (∀ k0 kind, (b0, k0) ∈ co_boards x → (b, kind) ∈ co_boards x → kind = kind_personal → k0 = kind_personal) →
    (∀ l, l ∈ ls → (l, b) ∈ co_labels x) → id ∈ (co_cards x).*1.*1.*1 →
    core_step x (set_card_labels (filter (λ cl, cl.1 ≠ id) (co_card_labels x) ++ (pair id <$> ls)) (place_cards [id] b col done x))
| core_label id b :
    id ∉ (co_labels x).*1 →
    core_step x (MkCore (co_boards x) (co_columns x) (co_cards x) (co_labels x ++ [(id, b)]) (co_card_labels x)
                   (co_links x) (co_events x))
| core_drop_label id :
    core_step x (MkCore (co_boards x) (co_columns x) (co_cards x) (filter (λ l, l.1 ≠ id) (co_labels x))
                   (filter (λ cl, cl.2 ≠ id) (co_card_labels x)) (co_links x) (co_events x))
| core_put_label id l b :
    id ∈ (filter (λ c, c.1.1.2 = b) (co_cards x)).*1.*1.*1 → (l, b) ∈ co_labels x →
    core_step x (set_card_labels (co_card_labels x ++ [(id, l)]) x)
| core_take_label id l : core_step x (set_card_labels (filter (λ cl, cl ≠ (id, l)) (co_card_labels x)) x)
| core_link id ref :
    (id ∈ co_events x → event_link_free x id [ref]) → id ∈ (co_cards x).*1.*1.*1 →
    core_step x (MkCore (co_boards x) (co_columns x) (co_cards x) (co_labels x) (co_card_labels x)
                   (co_links x ++ [(id, ref)]) (co_events x))
| core_unlink ls :
    ls ⊆ co_links x →
    core_step x (MkCore (co_boards x) (co_columns x) (co_cards x) (co_labels x) (co_card_labels x) ls (co_events x))
| core_event id b :
    id ∈ (filter (λ c, c.1.1.2 = b) (co_cards x)).*1.*1.*1 → (∀ kind, (b, kind) ∈ co_boards x → kind ≠ kind_personal) →
    event_link_free x id (filter (λ l, l.1 = id) (co_links x)).*2 →
    core_step x (MkCore (co_boards x) (co_columns x) (co_cards x) (co_labels x) (co_card_labels x)
                   (co_links x) (co_events x ++ [id]))
(** [relabel] sends the labels of the board [s] to the board [t]. *)
| core_merge s t first done ls (relabel : string → string) :
    s ≠ t → (∃ k, (s, k) ∈ co_boards x ∧ k = kind_personal) → (∃ k, (t, k) ∈ co_boards x) →
    (first, t, false) ∈ co_columns x → (done, t, true) ∈ co_columns x →
    NoDup ls.*1 →
    (∀ l b, (l, b) ∈ co_labels x → b ≠ s → relabel l = l ∧ (l, b) ∈ ls) →
    (∀ l, (l, s) ∈ co_labels x → (relabel l, t) ∈ ls) →
    (∀ l b, (l, b) ∈ ls → b ≠ s) →
    core_step x (MkCore (filter (λ b, b.1 ≠ s) (co_boards x)) (filter (λ c, c.1.2 ≠ s) (co_columns x))
      ((λ c : string * string * string * bool, if bool_decide (c.1.1.2 = s) then (c.1.1.1, t, (if (c.2 : bool) then done else first), c.2) else c) <$> co_cards x)
      ls ((λ cl, (cl.1, relabel cl.2)) <$> co_card_labels x) (co_links x) (co_events x)).

(** ** The invariant *)
Record core_ok (x : Core) : Prop := {
  core_board_ids : NoDup (co_boards x).*1;
  core_column_ids : NoDup (co_columns x).*1.*1;
  core_card_ids : NoDup (co_cards x).*1.*1.*1;
  core_label_ids : NoDup (co_labels x).*1;
  core_column_board : ∀ col b done, (col, b, done) ∈ co_columns x → b ∈ (co_boards x).*1;
  core_one_done : ∀ c c' b, (c, b, true) ∈ co_columns x → (c', b, true) ∈ co_columns x → c = c';
  core_has_done : ∀ b, b ∈ (co_boards x).*1 → ∃ c, (c, b, true) ∈ co_columns x;
  core_card_column : ∀ id b col done, (id, b, col, done) ∈ co_cards x → (col, b, done) ∈ co_columns x;
  core_card_label : ∀ id l, (id, l) ∈ co_card_labels x →
    ∃ b col done, (id, b, col, done) ∈ co_cards x ∧ (l, b) ∈ co_labels x;
  core_link_card : ∀ l, l ∈ co_links x → l.1 ∈ (co_cards x).*1.*1.*1;
  core_event_board : ∀ id, id ∈ co_events x →
    ∃ b col done kind, (id, b, col, done) ∈ co_cards x ∧ (b, kind) ∈ co_boards x ∧ kind ≠ kind_personal;
  core_one_event : ∀ l l', l ∈ co_links x → l' ∈ co_links x → shared_kind l.2.1 = true → l.2 = l'.2 →
    l.1 ∈ co_events x → l'.1 ∈ co_events x → l.1 = l'.1
}.

(** ** Every step keeps it *)
Section Steps.
Context (x : Core) (Hx : core_ok x).
#[local] Ltac same := first [exact (core_board_ids x Hx) | exact (core_column_ids x Hx) | exact (core_card_ids x Hx)
  | exact (core_label_ids x Hx) | exact (core_column_board x Hx) | exact (core_one_done x Hx) | exact (core_has_done x Hx)
  | exact (core_card_column x Hx) | exact (core_card_label x Hx) | exact (core_link_card x Hx)
  | exact (core_event_board x Hx) | exact (core_one_event x Hx)].

Lemma column_row col b done b' done' : (col, b, done) ∈ co_columns x → (col, b', done') ∈ co_columns x → b = b' ∧ done = done'.
Proof.
  intros H1 H2. assert (E : (col, b, done) = (col, b', done')); [|by injection E].
  apply (same_row (λ c, c.1.1) (co_columns x)); [|done|done|done]. pose proof (core_column_ids x Hx) as H. by rewrite <- list_fmap_compose in H.
Qed.
Lemma card_row (c c' : string * string * string * bool) : c ∈ co_cards x → c' ∈ co_cards x → c.1.1.1 = c'.1.1.1 → c = c'.
Proof.
  intros H1 H2 E. apply (same_row (λ c, c.1.1.1) (co_cards x)); [|done|done|done].
  pose proof (core_card_ids x Hx) as H. by rewrite <- !list_fmap_compose in H.
Qed.
Lemma board_row b k k' : (b, k) ∈ co_boards x → (b, k') ∈ co_boards x → k = k'.
Proof.
  intros H1 H2. assert (E : (b, k) = (b, k')); [|by injection E].
  apply (same_row (λ c, c.1) (co_boards x)); [apply core_board_ids, Hx|done|done|done].
Qed.
Lemma label_row l b b' : (l, b) ∈ co_labels x → (l, b') ∈ co_labels x → b = b'.
Proof.
  intros H1 H2. assert (E : (l, b) = (l, b')); [|by injection E].
  apply (same_row (λ c, c.1) (co_labels x)); [apply core_label_ids, Hx|done|done|done].
Qed.
Lemma card_id_in id b col done : (id, b, col, done) ∈ co_cards x → id ∈ (co_cards x).*1.*1.*1.
Proof. intros H. apply (list_elem_of_fmap_2 fst _ (id, b)), (list_elem_of_fmap_2 fst _ (id, b, col)), (list_elem_of_fmap_2 fst _ _ H). Qed.
Lemma card_of_id id : id ∈ (co_cards x).*1.*1.*1 → ∃ b col done, (id, b, col, done) ∈ co_cards x.
Proof.
  intros ([i b] & -> & ([[i' b'] col] & -> & ([[[i'' b''] col''] dn] & -> & H)%list_elem_of_fmap)%list_elem_of_fmap)%list_elem_of_fmap. eauto.
Qed.
Lemma board_of_column col b done : (col, b, done) ∈ co_columns x → ∃ k, (b, k) ∈ co_boards x.
Proof. intros H%(core_column_board x Hx). apply list_elem_of_fmap in H as ([? k] & -> & ?). eauto. Qed.
Lemma fst_in {A B} (l : list (A * B)) a b : (a, b) ∈ l → a ∈ l.*1.
Proof. intros H. by apply (list_elem_of_fmap_2 fst _ _ H). Qed.

Lemma step_board id kind cols :
  id ∉ (co_boards x).*1 → NoDup cols.*1 → (∀ c, c ∈ cols.*1 → c ∉ (co_columns x).*1.*1) →
  (∃ c, cols.*1 !! 3%nat = Some c ∧ ∀ n d, cols !! n = Some d → d.2 = bool_decide (n = 3%nat)) →
  core_ok (MkCore (co_boards x ++ [(id, kind)]) (co_columns x ++ ((λ c, (c.1, id, c.2)) <$> cols)) (co_cards x)
             (co_labels x) (co_card_labels x) (co_links x) (co_events x)).
Proof.
  intros Hid Hnd Hnew (c3 & Hc3 & Hlast).
  assert (Hin : ∀ c b dn, (c, b, dn) ∈ co_columns x ++ ((λ c, (c.1, id, c.2)) <$> cols) ↔
            (c, b, dn) ∈ co_columns x ∨ (b = id ∧ (c, dn) ∈ cols)).
  { intros c b dn. rewrite elem_of_app, list_elem_of_fmap. split; [|].
    - intros [H|([c' d'] & E & H)]; [by left|]. injection E as -> -> ->. by right.
    - intros [H|[-> H]]; [by left|]. right. by exists (c, dn). }
  assert (Hold : ∀ c b dn, (c, b, dn) ∈ co_columns x → b ≠ id).
  { intros c b dn H ->. apply Hid. by apply (core_column_board x Hx c id dn). }
  assert (Ec : ((λ c, (c.1, id, c.2)) <$> cols).*1.*1 = cols.*1).
  { clear. induction cols as [|[c d] l IH]; [done|]. cbn. by rewrite IH. }
  split; cbn [co_boards co_columns co_cards co_labels co_card_labels co_links co_events]; try same.
  - rewrite fmap_app. apply NoDup_app. split; [apply core_board_ids, Hx|]. split; [|apply NoDup_singleton].
    intros b Hb ->%list_elem_of_singleton. by apply Hid.
  - rewrite !fmap_app, Ec. apply NoDup_app. split; [apply core_column_ids, Hx|]. split; [|done].
    intros c Hc Hc'. by apply (Hnew c).
  - intros c b dn [H|[-> _]]%Hin; rewrite fmap_app, elem_of_app; [left; by apply (core_column_board x Hx c b dn)|right; by left].
  - intros c c' b [H|[-> H]]%Hin [H'|[Eb H']]%Hin.
    + by apply (core_one_done x Hx c c' b).
    + subst b. by apply Hold in H.
    + by apply Hold in H'.
    + apply list_elem_of_lookup in H as [n H], H' as [m H']. pose proof (Hlast n _ H) as E1. pose proof (Hlast m _ H') as E2.
      cbn in E1, E2. symmetry in E1, E2. apply bool_decide_eq_true in E1, E2. subst. congruence.
  - intros b. rewrite fmap_app, elem_of_app. intros [H|H%list_elem_of_singleton].
    + destruct (core_has_done x Hx b H) as [c Hc]. exists c. apply Hin. by left.
    + cbn in H. subst b. exists c3. apply Hin. right. split; [done|]. rewrite list_lookup_fmap in Hc3.
      destruct (cols !! 3%nat) as [[c d]|] eqn:E; [|done]. injection Hc3 as ->. pose proof (Hlast _ _ E) as Ed. cbn in Ed. subst d.
      by apply list_elem_of_lookup_2 in E.
  - intros i b col dn H%(core_card_column x Hx). apply Hin. by left.
  - intros i (b & col & dn & k & H1 & H2 & H3)%(core_event_board x Hx). exists b, col, dn, k.
    split; [done|]. split; [|done]. apply elem_of_app. by left.
Qed.
Lemma step_column id b :
  id ∉ (co_columns x).*1.*1 → b ∈ (co_boards x).*1 →
  core_ok (MkCore (co_boards x) (co_columns x ++ [(id, b, false)]) (co_cards x)
             (co_labels x) (co_card_labels x) (co_links x) (co_events x)).
Proof.
  intros Hid Hb.
  assert (Hin : ∀ c b' dn, (c, b', dn) ∈ co_columns x ++ [(id, b, false)] ↔
            (c, b', dn) ∈ co_columns x ∨ (c, b', dn) = (id, b, false)).
  { intros. by rewrite elem_of_app, list_elem_of_singleton. }
  split; cbn [co_boards co_columns co_cards co_labels co_card_labels co_links co_events]; try same.
  - rewrite !fmap_app. apply NoDup_app. split; [apply core_column_ids, Hx|]. split; [|apply NoDup_singleton].
    intros c Hc ->%list_elem_of_singleton. by apply Hid.
  - intros c b' dn [H|[= -> -> ->]]%Hin; [by apply (core_column_board x Hx c b' dn)|done].
  - intros c c' b' [H|[=]]%Hin [H'|[=]]%Hin. by apply (core_one_done x Hx c c' b').
  - intros b' H. destruct (core_has_done x Hx b' H) as [c Hc]. exists c. apply Hin. by left.
  - intros i b' col dn H%(core_card_column x Hx). apply Hin. by left.
Qed.
Lemma step_done b col : (col, b) ∈ (co_columns x).*1 → core_ok (pick_done b col x).
Proof.
  intros Hcol.
  assert (Hin : ∀ c b' dn, (c, b', dn) ∈ co_columns (pick_done b col x) ↔
            ∃ d, (c, b', d) ∈ co_columns x ∧ dn = if bool_decide (b' = b) then bool_decide (c = col) else d).
  { intros c b' dn. cbn [pick_done co_columns]. rewrite list_elem_of_fmap. split.
    - intros ([[c' b''] d] & E & H). cbn in E. exists d. case_bool_decide; injection E as -> -> ->; [by rewrite (bool_decide_true (b'' = b))|by rewrite (bool_decide_false (b'' = b))].
    - intros (d & H & ->). exists (c, b', d). split; [|done]. cbn. by case_bool_decide. }
  assert (Hcards : ∀ i b' c dn, (i, b', c, dn) ∈ co_cards (pick_done b col x) ↔
            ∃ d, (i, b', c, d) ∈ co_cards x ∧ dn = if bool_decide (b' = b) then bool_decide (c = col) else d).
  { intros i b' c dn. cbn [pick_done co_cards]. rewrite list_elem_of_fmap. split.
    - intros ([[[i' b''] c'] d] & E & H). cbn in E. exists d. case_bool_decide; injection E as -> -> -> ->; [by rewrite (bool_decide_true (b'' = b))|by rewrite (bool_decide_false (b'' = b))].
    - intros (d & H & ->). exists (i, b', c, d). split; [|done]. cbn. by case_bool_decide. }
  assert (Ec : (co_columns (pick_done b col x)).*1 = (co_columns x).*1).
  { cbn. rewrite <- list_fmap_compose. apply list_fmap_ext. intros ? c _. cbn. by case_bool_decide. }
  assert (Ek : (co_cards (pick_done b col x)).*1 = (co_cards x).*1).
  { cbn. rewrite <- list_fmap_compose. apply list_fmap_ext. intros ? c _. cbn. by case_bool_decide. }
  split; try same.
  - rewrite Ec. apply core_column_ids, Hx.
  - rewrite Ek. apply core_card_ids, Hx.
  - intros c b' dn (d & H & _)%Hin. by apply (core_column_board x Hx c b' d).
  - intros c c' b' (d & H & E)%Hin (d' & H' & E')%Hin. case_bool_decide.
    + symmetry in E, E'. apply bool_decide_eq_true in E, E'. by subst.
    + subst d d'. by apply (core_one_done x Hx c c' b').
  - intros b' H. destruct (decide (b' = b)) as [->|Hne].
    + exists col. apply list_elem_of_fmap in Hcol as ([[c b'] d] & [= -> ->] & Hc). apply Hin. exists d. by rewrite !bool_decide_true.
    + destruct (core_has_done x Hx b' H) as [c Hc]. exists c. apply Hin. exists true. by rewrite bool_decide_false.
  - intros i b' c dn (d & H & ->)%Hcards. apply (core_card_column x Hx) in H. apply Hin. by exists d.
  - intros i l (b' & c & d & H & Hl)%(core_card_label x Hx). eexists b', c, _. split; [apply Hcards; by exists d|done].
  - intros l H%(core_link_card x Hx). by rewrite Ek.
  - intros i (b' & c & d & k & H & Hk)%(core_event_board x Hx). eexists b', c, _, k. split; [apply Hcards; by exists d|done].
Qed.

#[local] Ltac fields := cbn [co_boards co_columns co_cards co_labels co_card_labels co_links co_events
  set_cards set_card_labels place_cards].
Lemma step_drop_column col b :
  (col, b, false) ∈ co_columns x → (∀ c, c ∈ co_cards x → c.1.2 ≠ col) →
  core_ok (MkCore (co_boards x) (filter (λ c, c.1.1 ≠ col) (co_columns x)) (co_cards x)
             (co_labels x) (co_card_labels x) (co_links x) (co_events x)).
Proof.
  intros Hcol Hfree. split; fields; try same.
  - rewrite <- list_fmap_compose. pose proof (core_column_ids x Hx) as H. rewrite <- list_fmap_compose in H.
    eapply sublist_NoDup; [exact H|apply fmap_sublist, sublist_filter].
  - intros c b' dn [_ H]%list_elem_of_filter. by apply (core_column_board x Hx c b' dn).
  - intros c c' b' [_ H]%list_elem_of_filter [_ H']%list_elem_of_filter. by apply (core_one_done x Hx c c' b').
  - intros b' H. destruct (core_has_done x Hx b' H) as [c Hc]. exists c. apply list_elem_of_filter. split; [|done].
    cbn. intros ->. by destruct (column_row _ _ _ _ _ Hc Hcol).
  - intros i b' c dn H. apply list_elem_of_filter. split; [by apply (Hfree _ H)|by apply (core_card_column x Hx i)].
Qed.
(** The cards after [place_cards]. *)
Lemma placed_in ids b col dn i b' c' dn' :
  (i, b', c', dn') ∈ co_cards (place_cards ids b col dn x) ↔
  (i ∉ ids ∧ (i, b', c', dn') ∈ co_cards x) ∨ (i ∈ ids ∧ i ∈ (co_cards x).*1.*1.*1 ∧ (b', c', dn') = (b, col, dn)).
Proof.
  fields. rewrite list_elem_of_fmap. split.
  - intros ([[[j bj] cj] dj] & E & H). cbn in E. case_bool_decide as Hj; injection E as -> -> -> ->; [right|by left].
    split; [done|]. split; [by eapply card_id_in|done].
  - intros [[Hi H]|(Hi & (bj & cj & dj & H)%card_of_id & [= -> -> ->])]; eexists; (split; [|exact H]); cbn.
    + by rewrite bool_decide_false.
    + by rewrite bool_decide_true.
Qed.
Lemma placed_ids ids b col dn : (co_cards (place_cards ids b col dn x)).*1.*1.*1 = (co_cards x).*1.*1.*1.
Proof. fields. rewrite <- !list_fmap_compose. apply list_fmap_ext. intros ? c _. cbn. by case_bool_decide. Qed.
Lemma step_relocate ids b col dn ls :
  (col, b, dn) ∈ co_columns x →
  (∀ i, i ∈ ids → i ∈ co_events x → ∀ kind, (b, kind) ∈ co_boards x → kind ≠ kind_personal) →
  (∀ i l, (i, l) ∈ ls → ∃ b' c' dn', (i, b', c', dn') ∈ co_cards (place_cards ids b col dn x) ∧ (l, b') ∈ co_labels x) →
  core_ok (set_card_labels ls (place_cards ids b col dn x)).
Proof.
  intros Hcol Hev Hls. split; try same.
  - pose proof (placed_ids ids b col dn) as E. cbn [set_card_labels co_cards] in *. rewrite E. apply core_card_ids, Hx.
  - intros i b' c' dn' [[_ H]|(_ & _ & [= -> -> ->])]%placed_in; [by apply (core_card_column x Hx i)|done].
  - done.
  - intros l H%(core_link_card x Hx). pose proof (placed_ids ids b col dn) as E. cbn [set_card_labels co_cards] in *. by rewrite E.
  - intros i H. destruct (core_event_board x Hx i H) as (b' & c' & dn' & k & Hc & Hb & Hk). destruct (decide (i ∈ ids)) as [Hi|Hi].
    + destruct (board_of_column _ _ _ Hcol) as [k' Hk']. exists b, col, dn, k'. split; [|split; [done|by apply (Hev i)]].
      apply placed_in. right. split; [done|]. split; [by eapply card_id_in|done].
    + exists b', c', dn', k. split; [|done]. apply placed_in. by left.
Qed.
Lemma step_place ids b col dn :
  (col, b, dn) ∈ co_columns x → (∀ c, c ∈ co_cards x → c.1.1.1 ∈ ids → c.1.1.2 = b) → core_ok (place_cards ids b col dn x).
Proof.
  intros Hcol Hids. change (core_ok (set_card_labels (co_card_labels x) (place_cards ids b col dn x))).
  apply step_relocate; [done| |].
  - intros i Hi (b' & c' & dn' & k & Hc & Hb & Hk)%(core_event_board x Hx) kind Hkind.
    pose proof (Hids _ Hc Hi) as E. cbn in E. subst b'. by rewrite (board_row _ _ _ Hkind Hb).
  - intros i l (b' & c' & dn' & Hc & Hl)%(core_card_label x Hx). destruct (decide (i ∈ ids)) as [Hi|Hi].
    + pose proof (Hids _ Hc Hi) as E. cbn in E. subst b'. exists b, col, dn. split; [|done]. apply placed_in. right.
      split; [done|]. split; [by eapply card_id_in|done].
    + exists b', c', dn'. split; [|done]. apply placed_in. by left.
Qed.
Lemma step_transfer id b0 b col dn ls :
  (col, b, dn) ∈ co_columns x → (∀ c, c ∈ co_cards x → c.1.1.1 = id → c.1.1.2 = b0) →
  (∀ k0 kind, (b0, k0) ∈ co_boards x → (b, kind) ∈ co_boards x → kind = kind_personal → k0 = kind_personal) →
  (∀ l, l ∈ ls → (l, b) ∈ co_labels x) → id ∈ (co_cards x).*1.*1.*1 →
  core_ok (set_card_labels (filter (λ cl, cl.1 ≠ id) (co_card_labels x) ++ (pair id <$> ls)) (place_cards [id] b col dn x)).
Proof.
  intros Hcol Hid Hkinds Hls Hin. apply step_relocate; [done| |].
  - intros i ->%list_elem_of_singleton (b' & c' & dn' & k & Hc & Hb & Hk)%(core_event_board x Hx) kind Hkind ->.
    pose proof (Hid _ Hc eq_refl) as E. cbn in E. subst b'. by apply Hk, (Hkinds k kind_personal).
  - intros i l [[Hi (b' & c' & dn' & Hc & Hl)%(core_card_label x Hx)]%list_elem_of_filter|(l' & [= -> ->] & Hl)%list_elem_of_fmap]%elem_of_app.
    + exists b', c', dn'. split; [|done]. apply placed_in. left. split; [by intros ->%list_elem_of_singleton|done].
    + exists b, col, dn. split; [|by apply Hls]. apply placed_in. right. split; [by left|done].
Qed.
Lemma step_new_card id b col dn ls refs (event : bool) :
  id ∉ (co_cards x).*1.*1.*1 → id ∉ (co_card_labels x).*1 → id ∉ (co_links x).*1 → id ∉ co_events x →
  (col, b, dn) ∈ co_columns x → (∀ l, l ∈ ls → (l, b) ∈ co_labels x) →
  (event = true → (∀ kind, (b, kind) ∈ co_boards x → kind ≠ kind_personal) ∧ event_link_free x id refs) →
  core_ok (MkCore (co_boards x) (co_columns x) (co_cards x ++ [(id, b, col, dn)]) (co_labels x)
             (co_card_labels x ++ (pair id <$> ls)) (co_links x ++ (pair id <$> refs))
             (if event then co_events x ++ [id] else co_events x)).
Proof.
  intros Hid _ Hlk Hev Hcol Hls Hevent.
  assert (Hold : ∀ c, c ∈ co_cards x → c ∈ co_cards x ++ [(id, b, col, dn)]) by (intros; apply elem_of_app; by left).
  assert (Hnew : (id, b, col, dn) ∈ co_cards x ++ [(id, b, col, dn)]) by (apply elem_of_app; right; by left).
  assert (Hevs : ∀ i, i ∈ (if event then co_events x ++ [id] else co_events x) → i ∈ co_events x ∨ (event = true ∧ i = id)).
  { intros i. destruct event; [|by left]. intros [H|H%list_elem_of_singleton]%elem_of_app; [by left|by right]. }
  split; fields; try same.
  - rewrite !fmap_app. apply NoDup_app. split; [apply core_card_ids, Hx|]. split; [|apply NoDup_singleton].
    intros i Hi ->%list_elem_of_singleton. by apply Hid.
  - intros i b' c' dn' [H|[= -> -> -> ->]%list_elem_of_singleton]%elem_of_app; [by apply (core_card_column x Hx i)|done].
  - intros i l [(b' & c' & dn' & Hc & Hl)%(core_card_label x Hx)|(l' & [= -> ->] & Hl)%list_elem_of_fmap]%elem_of_app.
    + exists b', c', dn'. split; [by apply Hold|done].
    + exists b, col, dn. split; [done|by apply Hls].
  - intros l. rewrite !fmap_app, !elem_of_app. intros [H%(core_link_card x Hx)|(r & -> & _)%list_elem_of_fmap]; [by left|right; by left].
  - intros i [(b' & c' & dn' & k & Hc & Hb)%(core_event_board x Hx)|[E ->]]%Hevs.
    + exists b', c', dn', k. split; [by apply Hold|done].
    + destruct (Hevent E) as [Hk _]. destruct (board_of_column _ _ _ Hcol) as [k' Hk']. exists b, col, dn, k'. eauto.
  - assert (Hsplit : ∀ l, l ∈ co_links x ++ (pair id <$> refs) → l ∈ co_links x ∧ l.1 ≠ id ∨ (l.1 = id ∧ l.2 ∈ refs)).
    { intros l [H|(r & -> & Hr)%list_elem_of_fmap]%elem_of_app; [left|by right]. split; [done|]. intros E. apply Hlk. rewrite <- E.
      by apply list_elem_of_fmap_2. }
    assert (Hne : ∀ i, i ≠ id → i ∈ (if event then co_events x ++ [id] else co_events x) → i ∈ co_events x).
    { intros i Hi [H|[_ ->]]%Hevs; done. }
    assert (Hyes : id ∈ (if event then co_events x ++ [id] else co_events x) → event_link_free x id refs).
    { intros [H|[H _]]%Hevs; [done|by apply Hevent]. }
    intros l l' [[H Hi]|[E Hr]]%Hsplit [[H' Hi']|[E' Hr']]%Hsplit Hk Hl He He'.
    + apply (core_one_event x Hx); auto.
    + rewrite E' in He'. rewrite E'. apply (Hyes He' l); [done|done|by rewrite Hl|auto].
    + rewrite E in He. rewrite E. symmetry. apply (Hyes He l'); [done|by rewrite <- Hl|by rewrite <- Hl|auto].
    + by rewrite E, E'.
Qed.

(** The steps that leave the boards, the columns and the cards alone. *)
Lemma step_labels ls cls :
  NoDup ls.*1 → (∀ i l, (i, l) ∈ cls → ∃ b col dn, (i, b, col, dn) ∈ co_cards x ∧ (l, b) ∈ ls) →
  core_ok (MkCore (co_boards x) (co_columns x) (co_cards x) ls cls (co_links x) (co_events x)).
Proof. intros H1 H2. split; fields; try same; done. Qed.
Lemma step_links lks evs :
  (∀ l, l ∈ lks → l.1 ∈ (co_cards x).*1.*1.*1) →
  (∀ i, i ∈ evs → ∃ b col dn kind, (i, b, col, dn) ∈ co_cards x ∧ (b, kind) ∈ co_boards x ∧ kind ≠ kind_personal) →
  (∀ l l', l ∈ lks → l' ∈ lks → shared_kind l.2.1 = true → l.2 = l'.2 → l.1 ∈ evs → l'.1 ∈ evs → l.1 = l'.1) →
  core_ok (MkCore (co_boards x) (co_columns x) (co_cards x) (co_labels x) (co_card_labels x) lks evs).
Proof. intros H1 H2 H3. split; fields; try same; done. Qed.
Lemma step_label id b :
  id ∉ (co_labels x).*1 →
  core_ok (MkCore (co_boards x) (co_columns x) (co_cards x) (co_labels x ++ [(id, b)]) (co_card_labels x) (co_links x) (co_events x)).
Proof.
  intros H. apply step_labels.
  - rewrite fmap_app. apply NoDup_app. split; [apply core_label_ids, Hx|]. split; [|apply NoDup_singleton].
    intros i Hi ->%list_elem_of_singleton. by apply H.
  - intros i l (b' & c & d & Hc & Hl)%(core_card_label x Hx). exists b', c, d. split; [done|]. apply elem_of_app. by left.
Qed.
Lemma step_drop_label id :
  core_ok (MkCore (co_boards x) (co_columns x) (co_cards x) (filter (λ l, l.1 ≠ id) (co_labels x))
             (filter (λ cl, cl.2 ≠ id) (co_card_labels x)) (co_links x) (co_events x)).
Proof.
  apply step_labels.
  - eapply sublist_NoDup; [apply (core_label_ids x Hx)|apply fmap_sublist, sublist_filter].
  - intros i l [Hi (b & c & d & Hc & Hl)%(core_card_label x Hx)]%list_elem_of_filter. exists b, c, d. split; [done|].
    by apply list_elem_of_filter.
Qed.
Lemma on_board id b : id ∈ (filter (λ c, c.1.1.2 = b) (co_cards x)).*1.*1.*1 → ∃ col dn, (id, b, col, dn) ∈ co_cards x.
Proof.
  intros ([i b'] & -> & ([[i' b''] col] & -> & ([[[i'' b3] col'] d] & -> & [E H]%list_elem_of_filter)%list_elem_of_fmap)%list_elem_of_fmap)%list_elem_of_fmap.
  cbn in E. subst b3. eauto.
Qed.
Lemma step_put_label id l b :
  id ∈ (filter (λ c, c.1.1.2 = b) (co_cards x)).*1.*1.*1 → (l, b) ∈ co_labels x →
  core_ok (set_card_labels (co_card_labels x ++ [(id, l)]) x).
Proof.
  intros (col & d & Hc)%on_board Hl. apply step_labels; [apply core_label_ids, Hx|].
  intros i l' [H%(core_card_label x Hx)|[= -> ->]%list_elem_of_singleton]%elem_of_app; [done|by exists b, col, d].
Qed.
Lemma step_take_label id l : core_ok (set_card_labels (filter (λ cl, cl ≠ (id, l)) (co_card_labels x)) x).
Proof.
  apply step_labels; [apply core_label_ids, Hx|]. intros i l' [_ H%(core_card_label x Hx)]%list_elem_of_filter. done.
Qed.
Lemma step_link id ref :
  (id ∈ co_events x → event_link_free x id [ref]) → id ∈ (co_cards x).*1.*1.*1 →
  core_ok (MkCore (co_boards x) (co_columns x) (co_cards x) (co_labels x) (co_card_labels x)
             (co_links x ++ [(id, ref)]) (co_events x)).
Proof.
  intros Hf Hid. apply step_links.
  - intros l [H%(core_link_card x Hx)| ->%list_elem_of_singleton]%elem_of_app; done.
  - apply core_event_board, Hx.
  - intros l l' [H| ->%list_elem_of_singleton]%elem_of_app [H'| ->%list_elem_of_singleton]%elem_of_app Hk E He He'; cbn [fst snd] in *.
    + by apply (core_one_event x Hx).
    + apply (Hf He' l); [done|done|rewrite E; by left|done].
    + symmetry. apply (Hf He l'); [done|by rewrite <- E|rewrite <- E; by left|done].
    + done.
Qed.
Lemma step_unlink ls :
  ls ⊆ co_links x →
  core_ok (MkCore (co_boards x) (co_columns x) (co_cards x) (co_labels x) (co_card_labels x) ls (co_events x)).
Proof.
  intros H. apply step_links; [intros l Hl; apply (core_link_card x Hx), H, Hl|apply core_event_board, Hx|].
  intros l l' Hl Hl'. apply (core_one_event x Hx); by apply H.
Qed.
Lemma step_event id b :
  id ∈ (filter (λ c, c.1.1.2 = b) (co_cards x)).*1.*1.*1 → (∀ kind, (b, kind) ∈ co_boards x → kind ≠ kind_personal) →
  event_link_free x id (filter (λ l, l.1 = id) (co_links x)).*2 →
  core_ok (MkCore (co_boards x) (co_columns x) (co_cards x) (co_labels x) (co_card_labels x) (co_links x) (co_events x ++ [id])).
Proof.
  intros (col & d & Hc)%on_board Hk Hf. apply step_links; [apply core_link_card, Hx| |].
  - intros i [H%(core_event_board x Hx)| ->%list_elem_of_singleton]%elem_of_app; [done|].
    destruct (board_of_column _ _ _ (core_card_column x Hx _ _ _ _ Hc)) as [k Hb]. exists b, col, d, k. eauto.
  - assert (Hone : ∀ l l', l ∈ co_links x → l' ∈ co_links x → shared_kind l.2.1 = true → l.2 = l'.2 →
              l.1 ∈ co_events x → l'.1 = id → l.1 = l'.1).
    { intros l l' Hl Hl' Hs E He E'. rewrite E'. apply (Hf l); [done|done| |done]. rewrite E. apply list_elem_of_fmap_2.
      by apply list_elem_of_filter. }
    intros l l' Hl Hl' Hs E [He|He%list_elem_of_singleton]%elem_of_app [He'|He'%list_elem_of_singleton]%elem_of_app.
    + by apply (core_one_event x Hx).
    + by apply Hone.
    + symmetry. apply Hone; [done|done|by rewrite <- E|done|done|done].
    + congruence.
Qed.
Lemma step_merge s t first dc ls (relabel : string → string) :
  s ≠ t → (∃ k, (s, k) ∈ co_boards x ∧ k = kind_personal) → (∃ k, (t, k) ∈ co_boards x) →
  (first, t, false) ∈ co_columns x → (dc, t, true) ∈ co_columns x →
  NoDup ls.*1 →
  (∀ l b, (l, b) ∈ co_labels x → b ≠ s → relabel l = l ∧ (l, b) ∈ ls) →
  (∀ l, (l, s) ∈ co_labels x → (relabel l, t) ∈ ls) →
  core_ok (MkCore (filter (λ b, b.1 ≠ s) (co_boards x)) (filter (λ c, c.1.2 ≠ s) (co_columns x))
    ((λ c : string * string * string * bool,
        if bool_decide (c.1.1.2 = s) then (c.1.1.1, t, (if (c.2 : bool) then dc else first), c.2) else c) <$> co_cards x)
    ls ((λ cl, (cl.1, relabel cl.2)) <$> co_card_labels x) (co_links x) (co_events x)).
Proof.
  intros Hst (ks & Hs & ->) Ht Hf Hd Hnd Hl1 Hl2.
  set (g := λ c : string * string * string * bool, if bool_decide (c.1.1.2 = s) then (c.1.1.1, t, (if c.2 then dc else first), c.2) else c).
  assert (Hg : ∀ i b col d, (i, b, col, d) ∈ co_cards x → b ≠ s → (i, b, col, d) ∈ g <$> co_cards x).
  { intros i b col d H Hb. apply list_elem_of_fmap. exists (i, b, col, d). split; [|done]. unfold g. by rewrite bool_decide_false. }
  assert (Hgs : ∀ i col d, (i, s, col, d) ∈ co_cards x → (i, t, (if (d : bool) then dc else first), d) ∈ g <$> co_cards x).
  { intros i col d H. apply list_elem_of_fmap. exists (i, s, col, d). split; [|done]. unfold g. by rewrite bool_decide_true. }
  assert (Hin : ∀ (i b col : string) (d : bool), (i, b, col, d) ∈ g <$> co_cards x →
     (b ≠ s ∧ (i, b, col, d) ∈ co_cards x) ∨ (b = t ∧ col = (if d then dc else first) ∧ ∃ col', (i, s, col', d) ∈ co_cards x)).
  { intros i b col d ([[[j bj] cj] dj] & E & H)%list_elem_of_fmap. unfold g in E. cbn in E. case_bool_decide as Hb; injection E as -> -> -> ->.
    - subst bj. right. eauto.
    - by left. }
  assert (Eids : (g <$> co_cards x).*1.*1.*1 = (co_cards x).*1.*1.*1).
  { rewrite <- !list_fmap_compose. apply list_fmap_ext. intros ? c _. unfold g. cbn. by case_bool_decide. }
  split; fields.
  - eapply sublist_NoDup; [apply (core_board_ids x Hx)|apply fmap_sublist, sublist_filter].
  - rewrite <- list_fmap_compose. pose proof (core_column_ids x Hx) as H. rewrite <- list_fmap_compose in H.
    eapply sublist_NoDup; [exact H|apply fmap_sublist, sublist_filter].
  - rewrite Eids. apply core_card_ids, Hx.
  - done.
  - intros col b d [Hb H%(core_column_board x Hx)]%list_elem_of_filter. apply list_elem_of_fmap in H as ([b' k] & -> & H).
    apply (list_elem_of_fmap_2 fst _ (b', k)). by apply list_elem_of_filter.
  - intros c c' b [_ H]%list_elem_of_filter [_ H']%list_elem_of_filter. by apply (core_one_done x Hx c c' b).
  - intros b ([b' k] & -> & [Hb H%fst_in]%list_elem_of_filter)%list_elem_of_fmap. destruct (core_has_done x Hx b' H) as [c Hc].
    exists c. by apply list_elem_of_filter.
  - intros i b col d [[Hb H%(core_card_column x Hx)]|(-> & -> & col' & H)]%Hin; apply list_elem_of_filter; [done|].
    split; [cbn; congruence|]. by destruct d.
  - intros i l ([i' l'] & [= -> ->] & (b & col & d & Hc & Hl)%(core_card_label x Hx))%list_elem_of_fmap. destruct (decide (b = s)) as [->|Hb].
    + eexists t, _, d. split; [by eapply Hgs|by apply Hl2].
    + destruct (Hl1 _ _ Hl Hb) as [-> Hl']. exists b, col, d. split; [by apply Hg|done].
  - intros l H%(core_link_card x Hx). by rewrite Eids.
  - intros i (b & col & d & k & Hc & Hb & Hk)%(core_event_board x Hx). assert (b ≠ s) by (intros ->; by apply Hk, (board_row s)).
    exists b, col, d, k. split; [by apply Hg|]. split; [by apply list_elem_of_filter|done].
  - apply core_one_event, Hx.
Qed.
End Steps.
Lemma core_step_ok x x' : core_ok x → core_step x x' → core_ok x'.
Proof.
  intros Hx Hs. inversion Hs; subst.
  - by apply step_board.
  - by apply step_column.
  - by apply step_done.
  - by apply (step_drop_column x Hx col b).
  - by apply step_new_card.
  - by apply step_place.
  - by apply (step_transfer x Hx id b0).
  - by apply step_label.
  - by apply step_drop_label.
  - by apply (step_put_label x Hx id l b).
  - by apply step_take_label.
  - by apply step_link.
  - by apply step_unlink.
  - by apply (step_event x Hx id b).
  - by apply step_merge.
Qed.
Lemma core_steps_ok x x' : core_ok x → rtc core_step x x' → core_ok x'.
Proof. intros Hx Hs. induction Hs as [|y z w Hyz _ IH]; [done|]. apply IH. by eapply core_step_ok. Qed.
