(* ===== verification/TodoSim.v ===== *)
(** The operations on the to-do boards act on the core of the tables as the steps of [TodoCore]. *)

From stdpp Require Import gmap strings.
From S2P Require Import Prelude PyStr PyNum PyValue PyDate Lexorank FlowDb Policy Todo TodoService TodoCards TodoEvents TodoCore.

(** ** The core of the tables *)
Definition card_core (c : TodoCard) : string * string * string * bool :=
  (cd_id c, cd_board_id c, cd_column_id c, bool_decide (cd_completed_at c ≠ None)).
Definition column_core (c : TodoColumn) : string * string * bool := (tc_id c, tc_board_id c, tc_is_done c).
Definition core (d : TodoDb) : Core :=
  MkCore ((λ b, (tb_id b, tb_kind b)) <$> boards d) (column_core <$> columns d) (card_core <$> cards d)
    ((λ l, (tl_id l, tl_board_id l)) <$> labels d) (card_labels d) ((λ l, (lk_card_id l, link_ref l)) <$> links d)
    (ce_card_id <$> card_events d).
Create HintDb core.

Lemma core_touch b c r now d : core (_touch b c r now d) = core d.
Proof. unfold core, _touch. cbn. by rewrite update_row_map. Qed.
Lemma core_timeline c kind a payload now d : core (_event c kind a payload now d) = core d.
Proof. done. Qed.
Lemma core_mail kind c rs a e d : core (_mail kind c rs a e d) = core d.
Proof. unfold _mail. by destruct (fromkeys _). Qed.
Lemma core_ticket_done c b a now d : core (_write_ticket_done c b a now d) = core d.
Proof. done. Qed.
Lemma core_with_assignees x d : core (with_assignees x d) = core d.
Proof. done. Qed.
Lemma core_with_check_items x d : core (with_check_items x d) = core d.
Proof. done. Qed.
Lemma core_with_comments x d : core (with_comments x d) = core d.
Proof. done. Qed.
Lemma core_with_series x d : core (with_series x d) = core d.
Proof. done. Qed.
Lemma core_set_ranks plan now d : core (set_ranks plan now d) = core d.
Proof.
  unfold core, set_ranks. cbn. f_equal. rewrite <- list_fmap_compose. apply list_fmap_ext. intros ? c _. cbn.
  unfold ranked. by destruct (dict_get _ _).
Qed.
Lemma core_add_assignees c ids d : core (add_assignees c ids d) = core d.
Proof. done. Qed.
Lemma core_update_item id f d : core (update_item id f d) = core d.
Proof. done. Qed.
Lemma core_place_item c i n d : core (place_item d c i n) = core d.
Proof. done. Qed.
#[export] Hint Rewrite core_touch core_timeline core_mail core_ticket_done core_with_assignees core_with_check_items
  core_with_comments core_with_series core_set_ranks core_add_assignees core_update_item core_place_item : core.

(** A change of the cards with one id. *)
Lemma update_row_ext {A B} (id_of : A → string) (g : A → B) (i : string) (f : A → A) (rows : list A) (h : B → B) :
  (∀ x, x ∈ rows → id_of x = i → g (f x) = h (g x)) →
  g <$> update_row id_of i f rows = (λ x, if bool_decide (id_of x = i) then h (g x) else g x) <$> rows.
Proof.
  intros H. unfold update_row. rewrite <- list_fmap_compose. apply list_fmap_ext. intros n x Hx. cbn.
  apply list_elem_of_lookup_2 in Hx. repeat case_bool_decide; try done. by apply H.
Qed.
Lemma core_update_card_same id f d :
  (∀ c, c ∈ cards d → cd_id c = id → card_core (f c) = card_core c) → core (update_card id f d) = core d.
Proof.
  intros H. unfold core, update_card. cbn. f_equal. rewrite (update_row_ext _ _ _ _ _ (λ x, x) H).
  apply list_fmap_ext. intros n c _. by case_bool_decide.
Qed.
Lemma core_update_card id f b col done d :
  (∀ c, c ∈ cards d → cd_id c = id → card_core (f c) = (id, b, col, done)) →
  core (update_card id f d) = place_cards [id] b col done (core d).
Proof.
  intros H. unfold core, update_card, place_cards, set_cards. cbn. f_equal.
  rewrite (update_row_ext _ _ _ _ _ (λ _, (id, b, col, done)) H), <- list_fmap_compose. apply list_fmap_ext. intros n c _. cbn.
  case_bool_decide as E; [|rewrite bool_decide_false by (by intros ?%list_elem_of_singleton); done].
  rewrite bool_decide_true by (subst; by left). by subst.
Qed.
Lemma core_update_column id f d :
  (∀ c, column_core (f c) = column_core c) → core (update_column id f d) = core d.
Proof. intros H. unfold core, update_column. cbn. by rewrite update_row_map. Qed.
Lemma core_set_positions ids d : core (set_positions ids d) = core d.
Proof.
  unfold core, set_positions. cbn. f_equal. rewrite <- list_fmap_compose. apply list_fmap_ext. intros ? c _. cbn.
  by destruct (index_of _ _).
Qed.
#[export] Hint Rewrite core_set_positions : core.

(** ** What the lookups find *)
Lemma or_raise_ok {A} (o : option A) e a : or_raise o e = Ok a ↔ o = Some a.
Proof. destruct o; cbn; naive_solver. Qed.
Lemma board_found d id p w b :
  _board d id p w = Ok b →
  b ∈ boards d ∧ tb_id b = id ∧ todo_can_read d b p = true ∧ (w = true → todo_can_write d b p = true).
Proof.
  unfold _board. intros (b' & Hb%or_raise_ok & (? & Hr%raise_if_ok & (? & Hw & [= ->])%bind_ok)%bind_ok)%bind_ok.
  split; [by apply find_by_elem in Hb|]. split; [by apply find_by_id in Hb|]. split; [by apply negb_false_iff in Hr|].
  intros ->. unfold _writable in Hw. apply raise_if_ok in Hw. by apply negb_false_iff in Hw.
Qed.
Lemma configurable_found d id p b :
  _configurable d id p = Ok b → b ∈ boards d ∧ tb_id b = id ∧ can_configure d b p = true.
Proof.
  unfold _configurable. intros (b' & (Hb & Hi & _)%board_found & (? & Hc%raise_if_ok & [= ->])%bind_ok)%bind_ok.
  by apply negb_false_iff in Hc.
Qed.
Lemma card_found known d id p w c b :
  _card known d id p w = Ok (c, b) →
  c ∈ cards d ∧ cd_id c = id ∧ b ∈ boards d ∧ tb_id b = cd_board_id c ∧ todo_can_read d b p = true ∧
  (w = true → todo_can_write d b p = true).
Proof.
  unfold _card. intros (lk & _ & (c' & Hc%or_raise_ok & (? & _ & (b' & Hb & [= -> ->])%bind_ok)%bind_ok)%bind_ok)%bind_ok.
  split; [by apply find_by_elem in Hc|]. split; [by apply find_by_id in Hc|]. unfold card_board in Hb.
  apply bind_ok in Hb as (b' & Hb%or_raise_ok & (? & Hr%raise_if_ok & (? & Hw & [= ->])%bind_ok)%bind_ok).
  split; [by apply find_by_elem in Hb|]. split; [by apply find_by_id in Hb|]. split; [by apply negb_false_iff in Hr|].
  intros ->. unfold _writable in Hw. apply raise_if_ok in Hw. by apply negb_false_iff in Hw.
Qed.
Lemma columns_in d b c : c ∈ _columns d b ↔ c ∈ columns d ∧ tc_board_id c = b.
Proof. unfold _columns. rewrite elem_of_sort_by, list_elem_of_filter. naive_solver. Qed.
Lemma column_found d b id c : _column d b id = Ok c → c ∈ columns d ∧ tc_id c = id ∧ tc_board_id c = b.
Proof.
  unfold _column. intros (c' & Hc%or_raise_ok & (? & Hb%raise_if_ok & [= ->])%bind_ok)%bind_ok.
  apply negb_false_iff, bool_decide_eq_true in Hb. split; [by apply find_by_elem in Hc|]. split; [by apply find_by_id in Hc|done].
Qed.
Lemma picked_in cols id c : _pick_column cols id = Ok c → c ∈ cols.
Proof.
  unfold _pick_column. destruct id as [i|]; intros H%or_raise_ok%head_in; [|done]. by apply list_elem_of_filter in H as [_ ?].
Qed.
Lemma labels_in d b l : l ∈ _labels d b ↔ l ∈ labels d ∧ tl_board_id l = b.
Proof. unfold _labels. rewrite elem_of_sort_by, list_elem_of_filter. naive_solver. Qed.
Lemma all_column_cards_in d col c : c ∈ _all_column_cards d col ↔ c ∈ cards d ∧ cd_column_id c = col.
Proof. unfold _all_column_cards. rewrite elem_of_sort_by, list_elem_of_filter. naive_solver. Qed.

(** *** The same in the core *)
Lemma column_in_core c d : c ∈ columns d → (tc_id c, tc_board_id c, tc_is_done c) ∈ co_columns (core d).
Proof. intros H. by apply (list_elem_of_fmap_2 column_core). Qed.
Lemma card_in_core c d : c ∈ cards d → card_core c ∈ co_cards (core d).
Proof. intros H. by apply (list_elem_of_fmap_2 card_core). Qed.
Lemma board_in_core b d : b ∈ boards d → (tb_id b, tb_kind b) ∈ co_boards (core d).
Proof. intros H. by apply (list_elem_of_fmap_2 (λ b, (tb_id b, tb_kind b))). Qed.
Lemma label_in_core l d : l ∈ labels d → (tl_id l, tl_board_id l) ∈ co_labels (core d).
Proof. intros H. by apply (list_elem_of_fmap_2 (λ l, (tl_id l, tl_board_id l))). Qed.
Lemma core_card_inv i b col dn d :
  (i, b, col, dn) ∈ co_cards (core d) →
  ∃ c, c ∈ cards d ∧ cd_id c = i ∧ cd_board_id c = b ∧ cd_column_id c = col ∧ dn = bool_decide (cd_completed_at c ≠ None).
Proof. intros (c & [= -> -> -> ->] & H)%list_elem_of_fmap. by exists c. Qed.
Lemma core_card_ids_eq d : (co_cards (core d)).*1.*1.*1 = cd_id <$> cards d.
Proof. cbn. by rewrite <- !list_fmap_compose. Qed.
Lemma core_column_ids_eq d : (co_columns (core d)).*1.*1 = tc_id <$> columns d.
Proof. cbn. by rewrite <- !list_fmap_compose. Qed.
Section Rows.
Context (d : TodoDb) (Hok : core_ok (core d)).
Lemma same_card c c' : c ∈ cards d → c' ∈ cards d → cd_id c = cd_id c' → c = c'.
Proof. apply same_row. rewrite <- core_card_ids_eq. apply core_card_ids, Hok. Qed.
Lemma same_column c c' : c ∈ columns d → c' ∈ columns d → tc_id c = tc_id c' → c = c'.
Proof. apply same_row. rewrite <- core_column_ids_eq. apply core_column_ids, Hok. Qed.
Lemma same_board b b' : b ∈ boards d → b' ∈ boards d → tb_id b = tb_id b' → b = b'.
Proof.
  apply same_row. pose proof (core_board_ids _ Hok) as H. cbn in H. by rewrite <- list_fmap_compose in H.
Qed.
(** The column of a card. *)
Lemma column_of_card c : c ∈ cards d →
  ∃ col, col ∈ columns d ∧ tc_id col = cd_column_id c ∧ tc_board_id col = cd_board_id c ∧
    tc_is_done col = bool_decide (cd_completed_at c ≠ None).
Proof.
  intros H%card_in_core%(core_card_column _ Hok). cbn in H. apply list_elem_of_fmap in H as (col & E & Hc).
  unfold column_core in E. injection E as E1 E2 E3. by exists col.
Qed.
End Rows.

(** ** Boards and columns *)
Notation core_steps := (rtc core_step).
(** The identity of the boards does not change: [k] is an earlier state. *)
Definition boards_agree (k d : TodoDb) : Prop :=
  ∀ b kind, b ∈ boards k → (tb_id b, kind) ∈ co_boards (core d) → kind = tb_kind b.
Ltac binds H := repeat (first
  [ apply bind_ok in H as (? & ? & H)
  | match type of H with Ok _ = Ok _ => injection H as H end ]).
Lemma one_step x y : core_step x y → core_steps x y.
Proof. apply rtc_once. Qed.

Lemma sim_patch_board d p b n days now d' : patch_board d p b n days now = Ok d' → core d' = core d.
Proof.
  unfold patch_board. intros H. binds H. subst. autorewrite with core. unfold core. cbn. by rewrite update_row_map.
Qed.
Lemma sim_add_column d p b n id now d' :
  id ∉ tc_id <$> columns d → add_column d p b n id now = Ok d' → core_step (core d) (core d').
Proof.
  unfold add_column. intros Hid H. apply bind_ok in H as (bd & (Hb & <- & _)%configurable_found & [= <-]).
  autorewrite with core. unfold core at 2. cbn. rewrite fmap_app. apply core_column; [by rewrite core_column_ids_eq|].
  apply board_in_core in Hb. by apply (list_elem_of_fmap_2 fst _ (tb_id bd, tb_kind bd)).
Qed.
Lemma sim_order_columns d p b ids now d' : order_columns d p b ids now = Ok d' → core d' = core d.
Proof. unfold order_columns. intros H. binds H. subst. by autorewrite with core. Qed.
Lemma sim_add_label k d p b n c id now d' :
  id ∉ tl_id <$> labels d → add_label k d p b n c id now = Ok d' → core_step (core d) (core d').
Proof.
  unfold add_label. intros Hid H. binds H. subst. autorewrite with core. unfold core at 2. cbn. rewrite fmap_app.
  apply core_label. cbn. by rewrite <- list_fmap_compose.
Qed.
Lemma sim_patch_label d p b l n c now d' : patch_label d p b l n c now = Ok d' → core d' = core d.
Proof. unfold patch_label. intros H. binds H. subst. autorewrite with core. unfold core. cbn. by rewrite update_row_map. Qed.
Lemma fmap_filter {A B} (f : A → B) (P : B → Prop) `{∀ x, Decision (P x)} (l : list A) :
  f <$> filter (λ x, P (f x)) l = filter P (f <$> l).
Proof. induction l as [|x l IH]; [done|]. rewrite fmap_cons, !filter_cons.
  case_decide; [rewrite fmap_cons|]; by rewrite IH.
Qed.
Lemma sim_delete_label d p b l now d' : delete_label d p b l now = Ok d' → core_step (core d) (core d').
Proof.
  unfold delete_label. intros H. binds H. subst. autorewrite with core. unfold core at 2. cbn.
  replace (_ <$> filter _ (labels d)) with (filter (λ x, x.1 ≠ l) (co_labels (core d))); [apply core_drop_label|].
  symmetry. exact (fmap_filter (λ l, (tl_id l, tl_board_id l)) (λ x, x.1 ≠ l) (labels d)).
Qed.
Lemma sim_default_columns d b kind ids :
  fresh_board d (tb_id b) ids → tb_kind b = kind →
  core_step (core d) (core (add_default_columns (tb_id b) ids (with_boards (boards d ++ [b]) d))).
Proof.
  intros (Hb & Hlen & Hnd & Hnew) Hk. destruct ids as [|i0 [|i1 [|i2 [|i3 [|]]]]]; try done.
  set (cols := [(i0, false); (i1, false); (i2, false); (i3, true)]).
  assert (E : core (add_default_columns (tb_id b) [i0; i1; i2; i3] (with_boards (boards d ++ [b]) d)) =
    MkCore (co_boards (core d) ++ [(tb_id b, kind)]) (co_columns (core d) ++ ((λ c, (c.1, tb_id b, c.2)) <$> cols))
      (co_cards (core d)) (co_labels (core d)) (co_card_labels (core d)) (co_links (core d)) (co_events (core d))).
  { unfold core. cbn -[fmap app]. rewrite !fmap_app. cbn. by rewrite Hk. }
  rewrite E. apply core_board.
  - cbn. by rewrite <- list_fmap_compose.
  - done.
  - intros c Hc. rewrite core_column_ids_eq. by apply Hnew.
  - exists i3. split; [done|]. intros [|[|[|[|n]]]] c; [by intros [= <-]..|done].
Qed.
Lemma sim_gremium_board d g n id cols now :
  fresh_board d id cols → core_steps (core d) (core (ensure_gremium_board d g n id cols now).1).
Proof.
  intros H. unfold ensure_gremium_board. destruct (existsb _ _); cbn [fst]; [constructor|]. apply one_step.
  by apply (sim_default_columns d (MkTodoBoard id n kind_gremium (Some g) None None (Some 30) None now) kind_gremium).
Qed.
Lemma sim_personal_board d o id cols now :
  fresh_board d id cols → core_steps (core d) (core (ensure_personal_board d o id cols now).1).
Proof.
  intros H. unfold ensure_personal_board. destruct (existsb _ _); cbn [fst]; [constructor|]. apply one_step.
  by apply (sim_default_columns d (MkTodoBoard id PERSONAL_BOARD_NAME kind_personal None (Some o) None (Some 30) None now) kind_personal).
Qed.

(** *** The done column *)
Definition undone (ids : list string) (x : Core) : Core :=
  MkCore (co_boards x) ((λ c, if bool_decide (c.1.1 ∈ ids) then (c.1, false) else c) <$> co_columns x)
    ((λ c, if bool_decide (c.1.2 ∈ ids) then (c.1, false) else c) <$> co_cards x)
    (co_labels x) (co_card_labels x) (co_links x) (co_events x).
Definition finished (ids : list string) (x : Core) : Core :=
  set_cards ((λ c, if bool_decide (c.1.1.1 ∈ ids) then (c.1, true) else c) <$> co_cards x) x.
Lemma undone_cons i ids x : undone (i :: ids) x = undone [i] (undone ids x).
Proof.
  unfold undone. cbn. f_equal; rewrite <- list_fmap_compose; apply list_fmap_ext; intros ? c _; cbn;
    repeat case_bool_decide; cbn in *; set_solver.
Qed.
Lemma finished_cons i ids x : finished (i :: ids) x = finished ids (finished [i] x).
Proof.
  unfold finished, set_cards. cbn. f_equal. rewrite <- list_fmap_compose. apply list_fmap_ext. intros ? c _. cbn.
  repeat case_bool_decide; cbn in *; set_solver.
Qed.
Lemma place_cards_cons i ids b col dn x : place_cards (i :: ids) b col dn x = place_cards ids b col dn (place_cards [i] b col dn x).
Proof.
  unfold place_cards, set_cards. cbn. f_equal. rewrite <- list_fmap_compose. apply list_fmap_ext. intros ? c _. cbn.
  repeat case_bool_decide; cbn in *; set_solver.
Qed.
Lemma core_clear_one c now d :
  core (with_cards ((λ x, if bool_decide (cd_column_id x = tc_id c) then set_completed None now x else x) <$> cards d)
          (update_column (tc_id c) (set_done false) d)) = undone [tc_id c] (core d).
Proof.
  unfold core, undone, update_column, update_row. cbn. f_equal; rewrite <- !list_fmap_compose; apply list_fmap_ext; intros ? x _; cbn;
    repeat case_bool_decide; unfold column_core, card_core in *; cbn in *; set_solver.
Qed.
Lemma core_clear b now d :
  core (clear_done b now d) = undone (tc_id <$> filter (λ c, tc_is_done c = true) (_columns d b)) (core d).
Proof.
  unfold clear_done. generalize (filter (λ c, tc_is_done c = true) (_columns d b)). intros l.
  induction l as [|c l IH]; cbn [foldr].
  - unfold undone, core. cbn. f_equal; rewrite <- list_fmap_compose; apply list_fmap_ext; intros ? c _; cbn;
      case_bool_decide; set_solver.
  - by rewrite core_clear_one, IH, fmap_cons, (undone_cons (tc_id c) (tc_id <$> l)).
Qed.
Lemma core_enter_one b actor now d c : core (enter_done b actor now d c) = finished [cd_id c] (core d).
Proof.
  unfold enter_done. transitivity (core (update_card (cd_id c) (set_completed (Some (default now (cd_completed_at c))) now) d)).
  { case_match; by autorewrite with core. }
  unfold core, finished, set_cards, update_card, update_row. cbn. f_equal. rewrite <- !list_fmap_compose. apply list_fmap_ext. intros ? x _. cbn.
  repeat case_bool_decide; unfold card_core in *; cbn in *; set_solver.
Qed.
Lemma core_enter b actor now l : ∀ d, core (foldl (enter_done b actor now) d l) = finished (cd_id <$> l) (core d).
Proof.
  induction l as [|c l IH]; intros d; cbn [foldl].
  - unfold finished, set_cards, core. cbn. f_equal. rewrite <- list_fmap_compose. apply list_fmap_ext. intros ? c _. cbn.
    case_bool_decide; set_solver.
  - by rewrite IH, core_enter_one, fmap_cons, (finished_cons (cd_id c) (cd_id <$> l)).
Qed.
Lemma core_set_done id d :
  core (update_column id (set_done true) d) =
  MkCore (co_boards (core d)) ((λ c, if bool_decide (c.1.1 = id) then (c.1, true) else c) <$> co_columns (core d)) (co_cards (core d))
    (co_labels (core d)) (co_card_labels (core d)) (co_links (core d)) (co_events (core d)).
Proof.
  unfold core, update_column, update_row. cbn. f_equal. rewrite <- !list_fmap_compose. apply list_fmap_ext. intros ? c _. cbn.
  by repeat case_bool_decide.
Qed.
Lemma core_cards_columns d d' : core d' = core d → (λ c, (cd_id c, cd_column_id c)) <$> cards d' = (λ c, (cd_id c, cd_column_id c)) <$> cards d.
Proof.
  intros E%(f_equal co_cards). cbn in E. apply (f_equal (fmap (λ c : string * string * string * bool, (c.1.1.1, c.1.2)))) in E.
  by rewrite <- !list_fmap_compose in E.
Qed.
(** The old done columns lose their mark with their cards, the new one and its cards get it. *)
Lemma core_pick_done b col now d :
  core_ok (core d) → col ∈ columns d → tc_board_id col = b →
  finished (cd_id <$> filter (λ c, cd_column_id c = tc_id col) (cards d))
    (core (update_column (tc_id col) (set_done true) (clear_done b now d))) = pick_done b (tc_id col) (core d).
Proof.
  intros Hok Hcol Hb. rewrite core_set_done, core_clear. unfold finished, set_cards, pick_done. cbn.
  assert (Hdone : ∀ c, c ∈ columns d → tc_id c ∈ tc_id <$> filter (λ c, tc_is_done c = true) (_columns d b) ↔
            tc_board_id c = b ∧ tc_is_done c = true).
  { intros c Hc. rewrite list_elem_of_fmap. setoid_rewrite list_elem_of_filter. setoid_rewrite columns_in. split.
    - intros (c' & E & H1 & H2 & H3). by rewrite (same_column d Hok c c' Hc H2 E).
    - intros [H1 H2]. by exists c. }
  f_equal; rewrite <- !list_fmap_compose; apply list_fmap_ext; intros n c Hc%list_elem_of_lookup_2; cbn.
  - rewrite (bool_decide_ext _ _ (Hdone c Hc)).
    assert (tc_id c = tc_id col → tc_board_id c = b) by (intros E; by rewrite (same_column d Hok c col Hc Hcol E)).
    unfold column_core. destruct (tc_is_done c); repeat case_bool_decide; cbn in *; repeat case_bool_decide; naive_solver.
  - destruct (column_of_card d Hok c Hc) as (cc & Hcc & E1 & E2 & E3). unfold card_core. rewrite <- E1, <- E2, <- E3. cbn.
    rewrite (bool_decide_ext _ _ (Hdone cc Hcc)).
    assert (Hown : cd_id c ∈ cd_id <$> filter (λ c, cd_column_id c = tc_id col) (cards d) ↔ tc_id cc = tc_id col).
    { rewrite list_elem_of_fmap. setoid_rewrite list_elem_of_filter. split.
      - intros (c' & E & H1 & H2). rewrite E1, <- H1. f_equal. by apply (same_card d Hok).
      - intros E. exists c. by rewrite <- E1. }
    assert (tc_id cc = tc_id col → tc_board_id cc = b) by (intros E; by rewrite (same_column d Hok cc col Hcc Hcol E)).
    destruct (tc_is_done cc); repeat case_bool_decide; cbn in *; repeat case_bool_decide; naive_solver.
Qed.
Lemma core_rename column_id name d : core (update_column column_id (set_column_name name) d) = core d.
Proof. by apply core_update_column. Qed.
Lemma own_ids (l l' : list TodoCard) (P : string → Prop) `{∀ x, Decision (P x)} :
  (λ c, (cd_id c, cd_column_id c)) <$> l = (λ c, (cd_id c, cd_column_id c)) <$> l' →
  cd_id <$> filter (λ c, P (cd_column_id c)) l = cd_id <$> filter (λ c, P (cd_column_id c)) l'.
Proof.
  revert l'. induction l as [|c l IH]; intros [|c' l'] E; try done. cbn in E. injection E as E1 E2 E3.
  rewrite !filter_cons, E2. case_decide; [rewrite !fmap_cons, E1; f_equal|]; by apply IH.
Qed.
Lemma finished_perm ids ids' x : (∀ i, i ∈ ids ↔ i ∈ ids') → finished ids x = finished ids' x.
Proof.
  intros H. unfold finished. f_equal. apply list_fmap_ext. intros ? c _. by rewrite (bool_decide_ext _ _ (H c.1.1.1)).
Qed.
Lemma columns_of_cleared b col now d :
  (λ c, (cd_id c, cd_column_id c)) <$> cards (update_column col (set_done true) (clear_done b now d)) =
  (λ c, (cd_id c, cd_column_id c)) <$> cards d.
Proof.
  cbn. unfold clear_done. induction (filter _ _) as [|c l IH]; [done|]. cbn [foldr]. cbn [cards with_cards]. rewrite <- IH.
  rewrite <- list_fmap_compose. apply list_fmap_ext. intros ? x _. cbn. by case_bool_decide.
Qed.
Lemma sim_patch_column k d p b c n dn now d' :
  core_ok (core d) → patch_column k d p b c n dn now = Ok d' → core_steps (core d) (core d').
Proof.
  intros Hok. unfold patch_column. intros (bd & _ & (col & (Hcol & <- & Hb)%column_found & (d2 & H2 & [= <-])%bind_ok)%bind_ok)%bind_ok.
  rewrite core_touch. set (d1 := match n with Some _ => _ | None => d end) in H2.
  assert (E1 : core d1 = core d) by (subst d1; destruct n; [apply core_rename|done]).
  destruct (dn && negb (tc_is_done col)); [|injection H2 as <-; by rewrite E1].
  apply bind_ok in H2 as (actor & _ & [= <-]). rewrite core_enter. apply one_step.
  assert (Hcol1 : ∃ col1, col1 ∈ columns d1 ∧ tc_id col1 = tc_id col ∧ tc_board_id col1 = b).
  { pose proof (column_in_core _ _ Hcol) as H. rewrite <- E1 in H. apply list_elem_of_fmap in H as (col1 & E & H1).
    unfold column_core in E. injection E as E2 E3 _. exists col1. by rewrite <- Hb. }
  destruct Hcol1 as (col1 & H1 & Hid & Hb1). rewrite <- Hid.
  rewrite (finished_perm _ (cd_id <$> filter (λ c, cd_column_id c = tc_id col1) (cards d1))).
  - rewrite (core_pick_done b col1 now d1); [|by rewrite E1|done|done]. rewrite E1. apply core_done.
    pose proof (column_in_core _ _ H1) as H. rewrite E1, Hb1 in H. by apply (list_elem_of_fmap_2 fst) in H.
  - intros i.
    assert (Eo : cd_id <$> filter (λ c, cd_column_id c = tc_id col1) (cards (update_column (tc_id col1) (set_done true) (clear_done b now d1))) =
                 cd_id <$> filter (λ c, cd_column_id c = tc_id col1) (cards d1))
      by exact (own_ids _ _ (λ c, c = tc_id col1) (columns_of_cleared b (tc_id col1) now d1)).
    rewrite <- Eo, !list_elem_of_fmap.
    setoid_rewrite all_column_cards_in. setoid_rewrite list_elem_of_filter. naive_solver.
Qed.

(** *** The cards of a deleted column *)
Lemma ranked_frame plan now c :
  cd_id (ranked plan now c) = cd_id c ∧ cd_board_id (ranked plan now c) = cd_board_id c ∧
  cd_column_id (ranked plan now c) = cd_column_id c ∧ cd_completed_at (ranked plan now c) = cd_completed_at c.
Proof. unfold ranked. by destruct (dict_get _ _). Qed.
Lemma ranked_in plan now (l : list TodoCard) x :
  x ∈ ranked plan now <$> l → ∃ y, y ∈ l ∧ cd_id x = cd_id y ∧ cd_board_id x = cd_board_id y ∧
    cd_column_id x = cd_column_id y ∧ cd_completed_at x = cd_completed_at y.
Proof. intros (y & -> & Hy)%list_elem_of_fmap. exists y. split; [done|apply ranked_frame]. Qed.
Lemma into_column_one col target b actor now d c :
  cd_completed_at c = None →
  (∀ x, x ∈ cards d → cd_id x = cd_id c → cd_board_id x = b ∧ (tc_is_done target = false → cd_completed_at x = None)) →
  core (into_column col target b actor now d c) = place_cards [cd_id c] b (tc_id target) (tc_is_done target) (core d) ∧
  ∀ x, x ∈ cards (into_column col target b actor now d c) → ∃ y, y ∈ cards d ∧ cd_id x = cd_id y ∧ cd_board_id x = cd_board_id y ∧
    (cd_completed_at y = None → tc_is_done target = false → cd_completed_at x = None).
Proof.
  intros Hc Hx. unfold into_column. rewrite (bool_decide_true (cd_completed_at c = None)) by done. rewrite andb_true_r.
  split.
  - match goal with |- core (if ?g then _ else ?d2) = _ => transitivity (core d2); [by destruct g; autorewrite with core|] end.
    etransitivity; [apply core_update_card; intros x H E|done]. destruct (Hx x H E) as [Eb Ec].
    unfold card_core. cbn. rewrite Eb, E. destruct (tc_is_done target); [done|]. rewrite Ec by done. done.
  - intros x H. assert (H' : x ∈ update_row cd_id (cd_id c) (λ x, set_column (tc_id target) (if tc_is_done target then Some now else cd_completed_at x) now x) (cards d)).
    { by destruct (tc_is_done target && _). }
    apply update_row_in in H' as (y & Hy & [-> |[E ->]]); exists y; split_and!; try done.
    cbn. intros ? ->. done.
Qed.
Lemma into_column_all col target b actor now own : ∀ d,
  (∀ c, c ∈ own → cd_completed_at c = None) →
  (∀ x, x ∈ cards d → cd_id x ∈ cd_id <$> own → cd_board_id x = b ∧ (tc_is_done target = false → cd_completed_at x = None)) →
  core (foldl (into_column col target b actor now) d own) =
  place_cards (cd_id <$> own) b (tc_id target) (tc_is_done target) (core d).
Proof.
  induction own as [|c own IH]; intros d Hown Hx; cbn [foldl].
  - unfold place_cards, set_cards, core. cbn. f_equal. rewrite <- list_fmap_compose. by apply list_fmap_ext.
  - destruct (into_column_one col target b actor now d c) as [E Hin]; [apply Hown; by left|intros x H Ex; apply Hx; [done|]; rewrite fmap_cons, Ex; by left|].
    rewrite IH, E, fmap_cons, (place_cards_cons (cd_id c) (cd_id <$> own)); [done|intros; apply Hown; by right|].
    intros x (y & Hy & E1 & E2 & E3)%Hin Hi. rewrite E2. destruct (Hx y Hy) as [? Hn]; [rewrite <- E1, fmap_cons; by right|].
    split; [done|]. auto.
Qed.
Lemma columns_set_positions ids d : column_core <$> columns (set_positions ids d) = column_core <$> columns d.
Proof. pose proof (core_set_positions ids d) as E. by apply (f_equal co_columns) in E. Qed.
Lemma sim_drop d col :
  (tc_id col, tc_board_id col, false) ∈ co_columns (core d) → (∀ c, c ∈ cards d → cd_column_id c ≠ tc_id col) →
  core_step (core d) (core (with_columns (filter (λ c, tc_id c ≠ tc_id col) (columns d)) d)).
Proof.
  intros Hcol Hfree. unfold core at 2. cbn.
  replace (column_core <$> filter _ (columns d)) with (filter (λ c, c.1.1 ≠ tc_id col) (co_columns (core d))).
  - apply (core_drop_column (core d) (tc_id col) (tc_board_id col)); [done|]. intros c (x & -> & Hx)%list_elem_of_fmap. by apply Hfree.
  - symmetry. exact (fmap_filter column_core (λ c, c.1.1 ≠ tc_id col) (columns d)).
Qed.
Lemma sim_delete_column k d p b c to now d' :
  core_ok (core d) → delete_column k d p b c to now = Ok d' → core_steps (core d) (core d').
Proof.
  intros Hok. unfold delete_column.
  intros (bd & _ & (col & (Hcol & <- & Hb)%column_found & (u1 & Hdone%raise_if_ok & (d1 & H1 & [= <-])%bind_ok)%bind_ok)%bind_ok)%bind_ok.
  rewrite core_touch, core_set_positions.
  assert (Hc : (tc_id col, tc_board_id col, false) ∈ co_columns (core d)) by (rewrite <- Hdone; by apply column_in_core).
  assert (Hown : ∀ x, x ∈ _all_column_cards d (tc_id col) → cd_completed_at x = None ∧ cd_board_id x = b).
  { intros x [Hx E]%all_column_cards_in. destruct (column_of_card d Hok x Hx) as (cc & Hcc & E1 & E2 & E3).
    assert (cc = col) as -> by (apply (same_column d Hok); congruence). split; [|congruence]. rewrite Hdone in E3. symmetry in E3.
    apply bool_decide_eq_false in E3. destruct (cd_completed_at x); [by destruct E3|done]. }
  destruct (_all_column_cards d (tc_id col)) as [|o own] eqn:Eown.
  { injection H1 as <-. apply one_step, sim_drop; [done|]. intros x Hx E.
    assert (Hin : x ∈ _all_column_cards d (tc_id col)) by (by apply all_column_cards_in). rewrite Eown in Hin. by apply not_elem_of_nil in Hin. }
  apply bind_ok in H1 as (tid & _ & (target & Ht%or_raise_ok & (u2 & Htb%raise_if_ok & (actor & _ & (plan & _ & H1)%bind_ok)%bind_ok)%bind_ok)%bind_ok).
  apply orb_false_iff in Htb as [Htb%negb_false_iff%bool_decide_eq_true Hne%bool_decide_eq_false]. apply find_by_elem in Ht.
  set (ow := o :: own) in *. set (d0 := set_ranks plan now d) in *.
  assert (d1 = foldl (into_column col target b actor now) d0 ow) as -> by congruence. clear H1.
  assert (E : core (foldl (into_column col target b actor now) d0 ow) =
     place_cards (cd_id <$> ow) b (tc_id target) (tc_is_done target) (core d)).
  { rewrite into_column_all; [unfold d0; by rewrite core_set_ranks|intros; by apply Hown|]. intros x (y & Hy & E1 & E2 & _ & E3)%ranked_in Hi. rewrite E1 in Hi.
    apply list_elem_of_fmap in Hi as (z & Ez & Hz). destruct (Hown z Hz) as [Hz1 Hz2]. rewrite <- Eown in Hz. apply all_column_cards_in in Hz as [Hz _].
    rewrite (same_card d Hok y z Hy Hz Ez) in E2, E3. split; congruence. }
  eapply rtc_l; [apply (core_place (core d) (cd_id <$> ow) b (tc_id target) (tc_is_done target))|].
  - rewrite <- Htb. by apply column_in_core.
  - intros x (y & -> & Hy)%list_elem_of_fmap Hi. change (cd_id y ∈ cd_id <$> ow) in Hi. change (cd_board_id y = b). apply list_elem_of_fmap in Hi as (z & Ez & Hz). destruct (Hown z Hz) as [_ Hz2].
    rewrite <- Eown in Hz. apply all_column_cards_in in Hz as [Hz _]. by rewrite (same_card d Hok y z Hy Hz Ez).
  - rewrite <- E. apply one_step, sim_drop; [by rewrite E|].
    intros x Hx Ex. apply card_in_core in Hx. rewrite E in Hx. unfold card_core in Hx. apply placed_in in Hx as [[Hi H]|(_ & _ & [= _ E2 _])].
    + apply core_card_inv in H as (y & Hy & E1 & _ & E3 & _). apply Hi. rewrite <- E1. apply list_elem_of_fmap_2. rewrite <- Eown.
      apply all_column_cards_in. split; [done|congruence].
    + congruence.
Qed.

(** ** Cards *)
Lemma is_event_in d c : is_event d c = true ↔ c ∈ co_events (core d).
Proof.
  unfold is_event. rewrite existsb_exists. cbn. rewrite list_elem_of_fmap. setoid_rewrite list_elem_of_In. split.
  - intros (e & He & E%bool_decide_eq_true). by exists e.
  - intros (e & -> & He). exists e. by rewrite bool_decide_true.
Qed.
Lemma one_event_free d card refs u : check_one_event d card refs = Ok u → event_link_free (core d) card refs.
Proof.
  unfold check_one_event. intros H%raise_if_ok. rewrite existsb_false in H. intros l Hl Hk Hr He.
  apply list_elem_of_fmap in Hl as (lk & -> & Hlk). cbn [fst snd] in *. specialize (H lk Hlk).
  destruct (decide (lk_card_id lk = card)) as [|Hne]; [done|]. exfalso.
  apply is_event_in in He. rewrite He, andb_true_r in H. rewrite (bool_decide_true (lk_card_id lk ≠ card)) in H by done.
  rewrite andb_true_r in H. apply bool_decide_eq_false in H. apply H. apply list_elem_of_filter. split; [|done].
  by apply bool_decide_eq_true in Hk.
Qed.
Lemma column_in_board d b col : col ∈ _columns d b → (tc_id col, b, tc_is_done col) ∈ co_columns (core d).
Proof. intros [H <-]%columns_in. by apply column_in_core. Qed.
Lemma core_add_labels c ids d : core (add_labels c ids d) = set_card_labels (co_card_labels (core d) ++ (pair c <$> ids)) (core d).
Proof. done. Qed.
Lemma core_add_card plan now c d : core (add_card plan now c d) = set_cards (co_cards (core d) ++ [card_core c]) (core d).
Proof. unfold add_card. rewrite core_set_ranks. unfold core, set_cards. cbn. by rewrite fmap_app. Qed.
Lemma zip_refs (ids : list string) (id actor : string) (now : Z) (refs : list (string * string)) :
  (λ l, (lk_card_id l, link_ref l)) <$> zip_with (λ i r, _new_link i id r actor now) ids refs = pair id <$> (zip ids refs).*2.
Proof. revert refs. induction ids as [|i ids IH]; intros [|[r1 r2] refs]; try done. cbn. by rewrite IH. Qed.
Lemma zip_snd_in {A B} (l : list A) (k : list B) x : x ∈ (zip l k).*2 → x ∈ k.
Proof.
  revert k. induction l as [|y l IH]; intros [|z k]; cbn; try (by intros ?%not_elem_of_nil).
  intros [->|H]%elem_of_cons; [left|right; by apply IH].
Qed.
Lemma personal_board b : is_kind b kind_personal = false → tb_kind b ≠ kind_personal.
Proof. by intros H%bool_decide_eq_false. Qed.
Lemma fresh_not_event d id : fresh_card d id → id ∉ co_events (core d).
Proof. intros []. done. Qed.
Lemma fresh_not_link d id : fresh_card d id → id ∉ (co_links (core d)).*1.
Proof. intros []. cbn. by rewrite <- list_fmap_compose. Qed.
Lemma ranked_core plan now (l : list TodoCard) : card_core <$> (ranked plan now <$> l) = card_core <$> l.
Proof. rewrite <- list_fmap_compose. apply list_fmap_ext. intros ? c _. cbn. unfold ranked. by destruct (dict_get _ _). Qed.
Lemma sim_create readable k d p payload id probe ids now d' :
  boards_agree k d → fresh_card d id → fresh_card d probe →
  create readable k d p payload id probe ids now = Ok d' → core_step (core d) (core d').
Proof.
  intros Hk Hid Hprobe. unfold create.
  intros (actor & _ & (b & (Hb & _)%board_found & (col & Hcol%picked_in & (u1 & _ & (u2 & Hlab%raise_if_ok & (u3 & _ &
    (u4 & Hev & (plan & _ & [= <-])%bind_ok)%bind_ok)%bind_ok)%bind_ok)%bind_ok)%bind_ok)%bind_ok)%bind_ok.
  rewrite core_mail, core_touch. set (refs := fromkeys (cc_links payload)) in *. set (lids := fromkeys (cc_label_ids payload)) in *.
  assert (Hls : ∀ l, l ∈ lids → (l, tb_id b) ∈ co_labels (core d)).
  { intros l Hl. pose proof (not_all_in _ _ _ Hlab Hl) as H. apply bool_decide_eq_true, list_elem_of_fmap in H as (lb & -> & [Hlb <-]%labels_in).
    by apply label_in_core. }
  assert (Hfree : ∀ e, cc_event payload = Some e →
      (∀ kind, (tb_id b, kind) ∈ co_boards (core d) → kind ≠ kind_personal) ∧ event_link_free (core d) id (zip ids refs).*2).
  { intros e E. rewrite E in Hev. apply bind_ok in Hev as (u & (v & Hp%raise_if_ok & _)%bind_ok & Hone%one_event_free). split.
    - intros kind ->%(Hk b); [by apply personal_board|done].
    - intros l Hl Hs Hr He. exfalso. apply (fresh_not_link d probe Hprobe). apply list_elem_of_fmap. exists l. split; [|done].
      symmetry. apply (Hone l Hl Hs); [by eapply zip_snd_in|done]. }
  assert (E : ∀ x y : TodoDb, core (if tc_is_done col then _write_ticket_done (new_card id (tb_id b) (tc_id col)
      (strip_or (cc_title payload) (cc_title payload)) (cc_description_md payload) (cc_due_date payload) actor (tc_is_done col) now)
      (tb_id b) (Some actor) now x else x) = core x) by (intros; by destruct (tc_is_done col)).
  rewrite E, core_timeline by done.
  eassert (Hstep : core_step (core d) _) by (apply (core_new_card (core d) id (tb_id b) (tc_id col) (tc_is_done col) lids (zip ids refs).*2
      (match cc_event payload with Some _ => true | None => false end)); [rewrite core_card_ids_eq; apply Hid|apply Hid|by apply fresh_not_link|
      by apply fresh_not_event|by apply column_in_board|done|]; destruct (cc_event payload) as [e|]; [intros _; by eapply Hfree|done]).
  match goal with |- core_step _ ?y => match type of Hstep with core_step _ ?z => replace y with z; [exact Hstep|] end end.
  assert (Er : card_core <$> (ranked plan now <$> (cards d ++ [new_card id (tb_id b) (tc_id col) (strip_or (cc_title payload) (cc_title payload))
     (cc_description_md payload) (cc_due_date payload) actor (tc_is_done col) now])) =
     (card_core <$> cards d) ++ [(id, tb_id b, tc_id col, tc_is_done col)]).
  { rewrite ranked_core, fmap_app. unfold card_core. cbn. by destruct (tc_is_done col). }
  rewrite !fmap_app in Er. unfold core. destruct (cc_event payload) as [e|]; cbn -[fmap new_card]; rewrite ?fmap_app, ?zip_refs; f_equal; symmetry; exact Er.
Qed.
Lemma refreshed d id c : refresh d id = Ok c → c ∈ cards d ∧ cd_id c = id.
Proof. unfold refresh. intros H%or_raise_ok. split; [by apply find_by_elem in H|by apply find_by_id in H]. Qed.
Section CardSteps.
Context (k d : TodoDb) (Hok : core_ok (core d)).

Lemma card_is id c : c ∈ cards d → cd_id c = id → ∀ x, x ∈ cards d → cd_id x = id → x = c.
Proof. intros Hc <- x Hx E. by apply (same_card d Hok). Qed.
Lemma sim_patch p c payload now d' : patch k d p c payload now = Ok d' → core d' = core d.
Proof.
  unfold patch. intros (actor & _ & ([card b] & (Hc & Hid & _)%card_found & (u & _ & [= <-])%bind_ok)%bind_ok)%bind_ok.
  set (d1 := if negb (bool_decide (_ = cd_title card)) then _ else d). set (d2 := if negb (bool_decide (_ = cd_due_date card)) then _ else d1).
  assert (E : core d2 = core d ∧ cards d2 = cards d) by (subst d2 d1; by repeat case_match).
  destruct E as [E1 E2]. case_match; [|done]. rewrite core_touch, core_update_card_same; [done|]. rewrite E2. intros x Hx Ex.
  by rewrite (card_is c card Hc Hid x Hx Ex).
Qed.
Lemma sim_archive p c now d' : archive_card k d p c now = Ok d' → core d' = core d.
Proof.
  unfold archive_card. intros (actor & _ & ([card b] & (Hc & Hid & _)%card_found & [= <-])%bind_ok)%bind_ok. case_match; [|done].
  rewrite core_touch, core_timeline, core_update_card_same; [done|]. intros x Hx Ex. by rewrite (card_is c card Hc Hid x Hx Ex).
Qed.
Lemma in_done_card c : c ∈ cards d → in_done d c = bool_decide (cd_completed_at c ≠ None).
Proof.
  intros Hc. destruct (column_of_card d Hok c Hc) as (col & Hcol & E1 & E2 & <-). unfold in_done. rewrite <- E1.
  rewrite (find_by_NoDup tc_id (columns d) col); [done| |done]. rewrite <- core_column_ids_eq. apply core_column_ids, Hok.
Qed.
Lemma sim_restore p c now d' : restore_card k d p c now = Ok d' → core d' = core d.
Proof.
  unfold restore_card. intros (actor & _ & ([card b] & (Hc & Hid & _)%card_found & [= <-])%bind_ok)%bind_ok. case_match; [|done].
  rewrite core_touch, core_timeline, core_update_card_same; [done|]. intros x Hx Ex. rewrite (card_is c card Hc Hid x Hx Ex).
  pose proof (in_done_card card Hc) as Hd. unfold in_done in Hd. rewrite Hd. unfold card_core. cbn. by destruct (cd_completed_at card).
Qed.
Lemma sim_move p c col before after now d' : move k d p c col before after now = Ok d' → core_steps (core d) (core d').
Proof.
  unfold move. intros (actor & _ & ([c0 b] & _ & (card & [Hc Hid]%refreshed & (u & Hb%raise_if_ok & (target & Ht%or_raise_ok &
    (slot & _ & (plan & _ & [= <-])%bind_ok)%bind_ok)%bind_ok)%bind_ok)%bind_ok)%bind_ok)%bind_ok.
  apply negb_false_iff, bool_decide_eq_true in Hb. apply find_by_elem in Ht.
  match goal with |- core_steps _ (core (if _ then _touch _ _ _ _ (_touch _ _ _ _ ?x) else _)) => set (d2 := x) end.
  assert (E : core d2 = core d ∨ core d2 = place_cards [c] (tb_id b) (tc_id target) (tc_is_done target) (core d)).
  { subst d2. destruct (bool_decide _) eqn:E.
    - left. rewrite core_update_card_same; [apply core_set_ranks|]. intros x (y & Hy & E1 & E2 & E3 & E4)%ranked_in Ex.
      rewrite E1 in Ex. rewrite (card_is c card Hc Hid y Hy Ex) in E4. unfold card_core. cbn. by rewrite E4.
    - right. match goal with |- core (if _ then _write_ticket_done _ _ _ _ ?x else _) = _ => transitivity (core x); [by destruct (tc_is_done target)|] end.
      rewrite (core_update_card c _ (tb_id b) (tc_id target) (tc_is_done target)); [by rewrite core_timeline, core_set_ranks|].
      intros x (y & Hy & E1 & E2 & _)%ranked_in Ex.
      unfold card_core. cbn. rewrite Ex, E2. rewrite E1 in Ex. rewrite (card_is c card Hc Hid y Hy Ex), Hb. by destruct (tc_is_done target). }
  assert (Et : core (if rp_respread plan then _touch (tb_id b) None false now (_touch (tb_id b) (Some c) false now d2)
                     else _touch (tb_id b) (Some c) false now d2) = core d2) by (destruct (rp_respread plan); by rewrite ?core_touch).
  rewrite Et. destruct E as [-> | ->]; [constructor|]. apply one_step, core_place; [by apply column_in_board|].
  intros x (y & -> & Hy)%list_elem_of_fmap Ey%list_elem_of_singleton. cbn. by rewrite (card_is c card Hc Hid y Hy Ey).
Qed.
Lemma sim_complete c b actor now d' m : complete d c b actor now = Ok (d', m) → core_steps (core d) (core d').
Proof.
  unfold complete. intros (card & [Hc Hid]%refreshed & H)%bind_ok. destruct (negb _) eqn:Hb; [injection H as <- <-; constructor|].
  apply negb_false_iff, bool_decide_eq_true in Hb. destruct (head _) as [done_col|] eqn:Hh; [|injection H as <- <-; constructor].
  apply head_in, list_elem_of_filter in Hh as [Hdone Hcol]. destruct (_ || _); [injection H as <- <-; constructor|].
  apply bind_ok in H as (plan & _ & [= <- <-]). rewrite core_touch, core_ticket_done.
  rewrite (core_update_card c _ b (tc_id done_col) true); [rewrite core_timeline, core_set_ranks|].
  - apply one_step, core_place; [rewrite <- Hdone; by apply column_in_board|].
    intros x (y & -> & Hy)%list_elem_of_fmap Ey%list_elem_of_singleton. cbn. by rewrite (card_is c card Hc Hid y Hy Ey).
  - intros x (y & Hy & E1 & E2 & _)%ranked_in Ex.
    unfold card_core. cbn. rewrite Ex, E2. rewrite E1 in Ex. by rewrite (card_is c card Hc Hid y Hy Ex), Hb.
Qed.
Lemma last_in {A} (l : list A) x : last l = Some x → x ∈ l.
Proof. intros H. apply list_elem_of_lookup. exists (Nat.pred (length l)). by rewrite <- last_lookup. Qed.
Lemma sim_transfer p c b col before after now d' :
  boards_agree k d → transfer k d p c b col before after now = Ok d' → core_step (core d) (core d').
Proof.
  intros Hk. unfold transfer.
  intros (actor & _ & ([c0 source] & (_ & _ & Hs & _)%card_found & (u1 & _ & (target & (Ht & <- & _)%board_found & (u2 & Hkinds%raise_if_ok &
    (card & [Hc Hid]%refreshed & (u3 & Hb%raise_if_ok & (u4 & _ & (column & Hcol%picked_in & (slot & _ & (plan & _ & [= <-])%bind_ok)
    %bind_ok)%bind_ok)%bind_ok)%bind_ok)%bind_ok)%bind_ok)%bind_ok)%bind_ok)%bind_ok)%bind_ok.
  apply negb_false_iff, bool_decide_eq_true in Hb.
  set (kept := fromkeys (omap _ _)). set (dropped := filter (λ a, a ∉ _) _).
  assert (Hstep : core_step (core d) (set_card_labels (filter (λ cl, cl.1 ≠ c) (co_card_labels (core d)) ++ (pair c <$> kept))
     (place_cards [c] (tb_id target) (tc_id column) (tc_is_done column) (core d)))).
  { apply (core_transfer (core d) c (tb_id source) (tb_id target) (tc_id column) (tc_is_done column) kept).
    - by apply column_in_board.
    - intros x (y & -> & Hy)%list_elem_of_fmap Ey. cbn. by rewrite (card_is c card Hc Hid y Hy Ey).
    - intros k0 kind E1%(Hk source) E2%(Hk target) ->; [|done..]. unfold is_kind in Hkinds. rewrite <- E2, <- E1 in Hkinds.
      rewrite (bool_decide_true (kind_personal = kind_personal)), andb_true_r in Hkinds by done.
      by apply negb_false_iff, bool_decide_eq_true in Hkinds.
    - intros l. unfold kept. rewrite elem_of_fromkeys, list_elem_of_omap. intros ([lb m] & (x & [= _ ->] & _)%list_elem_of_fmap & Hm).
      cbn in Hm. destruct (label_of_name _ _) as [lb'|] eqn:El; [|done]. injection Hm as <-. unfold label_of_name in El.
      apply last_in, list_elem_of_filter in El as [_ [Hl <-]%labels_in]. by apply label_in_core.
    - rewrite core_card_ids_eq, <- Hid. by apply list_elem_of_fmap_2. }
  match goal with |- core_step _ ?y => match type of Hstep with core_step _ ?z => replace y with z; [exact Hstep|] end end.
  symmetry. clearbody dropped kept.
  assert (Hc1 : ∀ x : TodoCard, cd_id x = c → card_core (set_column (tc_id column)
     (if tc_is_done column then Some (default now (cd_completed_at card)) else None) now (set_board (tb_id target) x)) =
     (c, tb_id target, tc_id column, tc_is_done column)).
  { intros x Ex. unfold card_core. cbn. rewrite Ex. by destruct (tc_is_done column). }
  destruct (rp_respread plan), (tc_is_done column && _), (_ && bool_decide (actor ∈ _)); rewrite ?core_touch, ?core_ticket_done;
    (rewrite (core_update_card c _ (tb_id target) (tc_id column) (tc_is_done column)); [by rewrite core_set_ranks|intros x _; apply Hc1]).
Qed.
End CardSteps.
Lemma sim_add_assignee k d p c who now d' : add_assignee k d p c who now = Ok d' → core d' = core d.
Proof.
  unfold add_assignee. intros H. binds H. destruct x0 as [card b]. binds H. subst. case_match; [done|].
  by rewrite core_mail, core_touch.
Qed.
Lemma sim_remove_assignee k d p c who now d' : remove_assignee k d p c who now = Ok d' → core d' = core d.
Proof. unfold remove_assignee. intros H. binds H. destruct x0 as [card b]. binds H. subst. case_match; [by rewrite core_touch|done]. Qed.
Lemma on_board_core d c b : c ∈ cards d → tb_id b = cd_board_id c → cd_id c ∈ (filter (λ c, c.1.1.2 = tb_id b) (co_cards (core d))).*1.*1.*1.
Proof.
  intros Hc E. rewrite <- !list_fmap_compose. apply list_elem_of_fmap. exists (card_core c). split; [done|].
  apply list_elem_of_filter. split; [done|by apply card_in_core].
Qed.
Lemma sim_add_card_label k d p c l now d' : add_card_label k d p c l now = Ok d' → core_steps (core d) (core d').
Proof.
  unfold add_card_label. intros ([card b] & (Hc & <- & _ & Hb & _)%card_found & (u & Hl%raise_if_ok & [= <-])%bind_ok)%bind_ok.
  case_match; [constructor|]. rewrite core_touch. apply one_step.
  apply negb_false_iff, existsb_exists in Hl as (lb & Hlb%list_elem_of_In & [<-%bool_decide_eq_true E%bool_decide_eq_true]%andb_prop).
  apply (core_put_label (core d) (cd_id card) (tl_id lb) (tb_id b)); [by apply on_board_core|]. rewrite <- E. by apply label_in_core.
Qed.
Lemma sim_remove_card_label k d p c l now d' : remove_card_label k d p c l now = Ok d' → core_step (core d) (core d').
Proof.
  unfold remove_card_label. intros ([card b] & _ & [= <-])%bind_ok. rewrite core_touch. apply (core_take_label (core d) c l).
Qed.
Lemma sim_add_item k d p c t id now d' : add_check_item k d p c t id now = Ok d' → core d' = core d.
Proof. unfold add_check_item. intros H. binds H. destruct x0 as [card b]. binds H. subst. by rewrite core_touch. Qed.
Lemma sim_patch_item k d p c i t dn pos now d' : patch_check_item k d p c i t dn pos now = Ok d' → core d' = core d.
Proof.
  unfold patch_check_item. intros H. binds H. destruct x0 as [card b]. binds H. subst. rewrite core_touch. by repeat case_match.
Qed.
Lemma sim_delete_item k d p c i now d' : delete_check_item k d p c i now = Ok d' → core d' = core d.
Proof. unfold delete_check_item. intros H. binds H. destruct x0 as [card b]. binds H. subst. by rewrite core_touch. Qed.

(** ** Links, Events, comments *)
Lemma sim_link_row id c ref actor now d :
  c ∈ cd_id <$> cards d → (c ∈ co_events (core d) → event_link_free (core d) c [ref]) →
  core_step (core d) (core (add_link_row id c ref actor now d)).
Proof.
  intros Hc Hf. unfold add_link_row. rewrite core_timeline. destruct ref as [r1 r2].
  replace (core (with_links _ d)) with (MkCore (co_boards (core d)) (co_columns (core d)) (co_cards (core d)) (co_labels (core d))
    (co_card_labels (core d)) (co_links (core d) ++ [(c, (r1, r2))]) (co_events (core d))) by (unfold core; cbn; by rewrite fmap_app).
  apply core_link; [done|by rewrite core_card_ids_eq].
Qed.
Lemma sim_add_link readable k d p c kind t id now d' : add_link readable k d p c kind t id now = Ok d' → core_step (core d) (core d').
Proof.
  unfold add_link. intros (actor & _ & ([card b] & (Hc & <- & _)%card_found & (u1 & _ & (u2 & _ & (u3 & _ & (u4 & He & [= <-])
    %bind_ok)%bind_ok)%bind_ok)%bind_ok)%bind_ok)%bind_ok.
  rewrite core_touch. apply sim_link_row; [by apply list_elem_of_fmap_2|]. intros H%is_event_in. rewrite H in He. by eapply one_event_free.
Qed.
Lemma sim_remove_link k d p c l now d' : remove_link k d p c l now = Ok d' → core_step (core d) (core d').
Proof.
  unfold remove_link. intros (actor & _ & ([card b] & _ & (lk & _ & (u & _ & [= <-])%bind_ok)%bind_ok)%bind_ok)%bind_ok.
  rewrite core_touch, core_timeline. apply (core_unlink (core d)).
  intros x (y & -> & [_ Hy]%list_elem_of_filter)%list_elem_of_fmap. by apply (list_elem_of_fmap_2 (λ l, (lk_card_id l, link_ref l))).
Qed.
Lemma sim_set_event k d p c payload now d' : core_ok (core d) → set_event k d p c payload now = Ok d' → core_steps (core d) (core d').
Proof.
  intros Hok. unfold set_event.
  intros (actor & _ & ([card b] & (Hc & <- & Hb & Eb & _)%card_found & (u1 & (u2 & Hp%raise_if_ok & _)%bind_ok & (d1 & H1 & [= <-])
    %bind_ok)%bind_ok)%bind_ok)%bind_ok.
  assert (Hcards : cards d1 = cards d) by (destruct (is_event d (cd_id card)); binds H1; by subst).
  rewrite core_touch, core_update_card_same; [|rewrite Hcards; intros x Hx Ex; unfold stamp, set_completed; by rewrite (same_card d Hok x card Hx Hc Ex)].
  destruct (is_event d (cd_id card)) eqn:He; binds H1; subst d1.
  - match goal with |- core_steps _ ?y => replace y with (core d) end; [constructor|]. unfold core. cbn. by rewrite update_row_map.
  - match goal with |- core_steps _ ?y => replace y with (MkCore (co_boards (core d)) (co_columns (core d)) (co_cards (core d)) (co_labels (core d)) (co_card_labels (core d))
      (co_links (core d)) (co_events (core d) ++ [cd_id card])) by (unfold core; cbn; by rewrite fmap_app) end.
    apply one_step, (core_event (core d) (cd_id card) (tb_id b)); [by apply on_board_core| |].
    + intros kind Hk ->. apply (personal_board b Hp). apply (list_elem_of_fmap (λ b, (tb_id b, tb_kind b))) in Hk as (b' & [= E1 E2] & Hb').
      rewrite E2. f_equal. by apply (same_board d Hok).
    + match goal with H : check_one_event _ _ _ = Ok _ |- _ => apply one_event_free in H; unfold refs_of in H; rename H into Hone end.
      replace (filter _ _).*2 with (link_ref <$> filter (λ l, lk_card_id l = cd_id card) (links d)); [done|].
      pose proof (fmap_filter (λ l, (lk_card_id l, link_ref l)) (λ l, l.1 = cd_id card) (links d)) as E.
      apply (f_equal (fmap snd)) in E. rewrite <- list_fmap_compose in E. exact E.
Qed.
Lemma sim_follow_up k d p c id ids now d' :
  core_ok (core d) → fresh_card d id → follow_up k d p c id ids now = Ok d' → core_step (core d) (core d').
Proof.
  intros Hok Hid. unfold follow_up.
  intros (actor & _ & ([card b] & (Hc & <- & Hb & Eb & _)%card_found & (row & Hrow%or_raise_ok & (col & Hcol%or_raise_ok%head_in & (plan & _ & [= <-])
    %bind_ok)%bind_ok)%bind_ok)%bind_ok)%bind_ok.
  rewrite core_touch, core_timeline. set (lids := (filter _ (card_labels d)).*2).
  assert (Hev : cd_id card ∈ co_events (core d)).
  { apply find_by_id in Hrow as E. rewrite <- E. by apply (list_elem_of_fmap_2 ce_card_id), (find_by_elem ce_card_id (cd_id card)). }
  assert (Hstep : core_step (core d) (MkCore (co_boards (core d)) (co_columns (core d)) (co_cards (core d) ++ [(id, tb_id b, tc_id col, tc_is_done col)])
     (co_labels (core d)) (co_card_labels (core d) ++ (pair id <$> lids)) (co_links (core d) ++ (pair id <$> [])) (co_events (core d) ++ [id]))).
  { apply (core_new_card (core d) id (tb_id b) (tc_id col) (tc_is_done col) lids [] true).
    - rewrite core_card_ids_eq. apply Hid.
    - apply Hid.
    - by apply fresh_not_link.
    - by apply fresh_not_event.
    - by apply column_in_board.
    - intros l ([i l'] & -> & [E Hl]%list_elem_of_filter)%list_elem_of_fmap. cbn in E. subst i.
      destruct (core_card_label _ Hok _ _ Hl) as (b' & c' & dn & Hc' & Hl').
      apply core_card_inv in Hc' as (x & Hx & E1 & E2 & _). cbn. rewrite Eb, <- (same_card d Hok x card Hx Hc E1), E2. done.
    - intros _. split; [|by intros l _ _ ?%not_elem_of_nil]. intros kind Hk ->.
      destruct (core_event_board _ Hok _ Hev) as (b' & c' & dn & k' & Hc' & Hb' & Hk').
      apply core_card_inv in Hc' as (x & Hx & E1 & E2 & _). rewrite (same_card d Hok x card Hx Hc E1) in E2. rewrite <- E2, <- Eb in Hb'.
      by rewrite (board_row _ Hok _ _ _ Hb' Hk) in Hk'. }
  match goal with |- core_step _ ?y => match type of Hstep with core_step _ ?z => replace y with z; [exact Hstep|] end end.
  assert (Er : card_core <$> (ranked plan now <$> (cards d ++ [new_card id (tb_id b) (tc_id col) (cd_title card)
     (cd_description_md card) None actor (tc_is_done col) now])) = (card_core <$> cards d) ++ [(id, tb_id b, tc_id col, tc_is_done col)]).
  { rewrite ranked_core, fmap_app. unfold card_core. cbn. by destruct (tc_is_done col). }
  rewrite !fmap_app in Er. unfold core. cbn -[fmap new_card]. rewrite ?fmap_app, app_nil_r. f_equal. symmetry. exact Er.
Qed.
Lemma sim_create_series d p n id d' : create_series d p n id = Ok d' → core d' = core d.
Proof. unfold create_series. intros H. binds H. by subst. Qed.
Lemma sim_add_comment k d p c body ms id now d' : add_comment k d p c body ms id now = Ok d' → core d' = core d.
Proof. unfold add_comment. intros H. binds H. destruct x0 as [card b]. binds H. subst. by rewrite core_mail, core_touch. Qed.
Lemma sim_edit_comment k d p c m body ms now d' : edit_comment k d p c m body ms now = Ok d' → core d' = core d.
Proof.
  unfold edit_comment. intros ([card b] & _ & H)%bind_ok. apply bind_ok in H as ([cm me] & _ & H). binds H. subst.
  by rewrite core_mail, core_touch.
Qed.
Lemma sim_delete_comment k d p c m now d' : delete_comment k d p c m now = Ok d' → core d' = core d.
Proof. unfold delete_comment. intros ([card b] & _ & H)%bind_ok. binds H. subst. by rewrite core_touch. Qed.
Lemma sim_agenda k d p c g card item id now d' :
  card_for_agenda k d p c g = Ok card → link_agenda_item d p card item id now = Ok d' → core_steps (core d) (core d').
Proof.
  unfold card_for_agenda, link_agenda_item.
  intros ([c0 b] & (Hc & _)%card_found & (u1 & _ & (u2 & _ & [= ->])%bind_ok)%bind_ok)%bind_ok (actor & _ & [= <-])%bind_ok.
  case_match; [constructor|]. set (d1 := add_link_row _ _ _ _ _ _).
  assert (E : core_step (core d) (core d1)).
  { apply sim_link_row; [by apply list_elem_of_fmap_2|]. intros _ l Hl Hk E%list_elem_of_singleton. by rewrite E in Hk. }
  apply one_step. case_match; [by rewrite core_touch|done].
Qed.
