(* ===== verification/TodoMerge.v ===== *)
(** The merge of two personal boards, the close of a ticket and the crons act on the core as steps of
    [TodoCore]; the invariant of every history. *)

From stdpp Require Import gmap strings.
From S2P Require Import Prelude PyStr PyNum PyValue PyDate Lexorank FlowDb Policy Todo TodoService TodoCards TodoEvents TodoCore TodoSim.

(** ** Tickets and crons *)
Lemma sim_complete_all l actor now : ∀ d m d' m',
  core_ok (core d) → complete_all l actor now d m = Ok (d', m') → core_steps (core d) (core d').
Proof.
  induction l as [|[c b] l IH]; intros d m d' m' Hok H; cbn [complete_all] in H; [injection H as <- <-; constructor|].
  apply bind_ok in H as ([d1 m1] & H1 & H). apply (sim_complete d Hok) in H1. etransitivity; [exact H1|].
  eapply IH; [|exact H]. by eapply core_steps_ok.
Qed.
Lemma sim_complete_ticket k d t p now d' : core_ok (core d) → complete_ticket k d t p now = Ok d' → core_steps (core d) (core d').
Proof.
  intros Hok. unfold complete_ticket. destruct (me k p) as [actor|]; [|intros [= <-]; constructor].
  intros ([d1 m] & H%sim_complete_all & [= <-])%bind_ok; [|done]. cbn. by destruct m; [|constructor].
Qed.
Lemma core_archive_one m d c : core (archive_one m d c) = core d.
Proof.
  unfold archive_one. rewrite core_timeline. transitivity (core (update_card (cd_id c) (λ x, set_archived (Some m) (cd_completed_at x) m x) d)).
  - unfold core. cbn. by rewrite update_row_map.
  - by apply core_update_card_same.
Qed.
Lemma sim_archive_cron k d skipped m : core (archive_done_todos k d skipped m).1 = core d.
Proof.
  unfold archive_done_todos. cbn [fst]. generalize (batch (sort_by completed_leb (filter (λ c,
    card_due d m c && bool_decide (cd_board_id c ∈ filter (λ b, b ∈ (tb_id <$> boards k)) (cd_board_id <$>
      batch (sort_by completed_leb (filter (λ c, card_due k m c = true) (cards k))))) && bool_decide (cd_id c ∉ skipped) = true) (cards d)))).
  intros l. revert d. induction l as [|c l IH]; intros d; [done|]. cbn [foldl]. by rewrite IH, core_archive_one.
Qed.
Lemma sim_reminder send d skipped hour tomorrow : core (process_todo_due send d skipped hour tomorrow).1 = core d.
Proof.
  unfold process_todo_due. destruct (hour <? DUE_HOUR); [done|]. generalize (batch (with_board d (sort_by (λ a b, str_leb (cd_id a) (cd_id b))
    (filter (λ c, bool_decide (cd_due_date c = Some tomorrow) && bool_decide (cd_archived_at c = None) &&
       has_column d c && negb (in_done d c) && bool_decide (cd_due_reminded_on c ≠ Some tomorrow) &&
       bool_decide (cd_id c ∉ skipped) = true) (cards d))))).
  intros l. generalize 0%nat. revert d. induction l as [|[c b] l IH]; intros d n; [done|]. cbn [foldl]. unfold _remind_card at 2. cbn [fst snd].
  destruct (send c b _ _) as [sent|]; [|by rewrite IH]. rewrite IH. by apply core_update_card_same.
Qed.

(** ** The labels of the merged board *)
Section Labels.
Context (target : list TodoLabel) (t : string).
Definition new_label (l : list TodoLabel) (x : TodoLabel) : option TodoLabel :=
  match find_by tl_id (tl_id x) l with
  | Some y => match label_of_name target (tl_name y) with Some _ => None | None => Some (set_label_board t x) end
  | None => Some x
  end.
Definition relabelled (l : list TodoLabel) (i : string) : string :=
  match find_by tl_id i l with
  | Some y => match label_of_name target (tl_name y) with Some same => tl_id same | None => i end
  | None => i
  end.
Lemma find_by_cons {A} (id_of : A → string) i x (l : list A) :
  find_by id_of i (x :: l) = if decide (id_of x = i) then Some x else find_by id_of i l.
Proof. unfold find_by. rewrite filter_cons. by case_decide. Qed.
Lemma find_by_None {A} (id_of : A → string) i (l : list A) : i ∉ id_of <$> l → find_by id_of i l = None.
Proof.
  induction l as [|x l IH]; [done|]. rewrite fmap_cons, not_elem_of_cons, find_by_cons. intros [H1 H2].
  rewrite decide_False by done. by apply IH.
Qed.
Lemma labels_folded l : ∀ d,
  NoDup (tl_id <$> l) → (∀ x, x ∈ target → tl_id x ∉ tl_id <$> l) →
  labels (foldl (fold_label target t) d l) = omap (new_label l) (labels d) ∧
  card_labels (foldl (fold_label target t) d l) = (λ cl, (cl.1, relabelled l cl.2)) <$> card_labels d.
Proof.
  induction l as [|y l IH]; intros d Hnd Hdis; cbn [foldl].
  - split; [|rewrite <- (list_fmap_id (card_labels d)) at 1; apply list_fmap_ext; by intros ? [? ?] _].
    induction (labels d) as [|x r IH']; [done|]. cbn. by rewrite <- IH'.
  - apply NoDup_cons in Hnd as [Hy Hnd]. destruct (IH (fold_label target t d y)) as [E1 E2]; [done| |].
    { intros x Hx Hi. apply (Hdis x Hx). by right. }
    rewrite E1, E2. clear E1 E2 IH. unfold fold_label. destruct (label_of_name target (tl_name y)) as [same|] eqn:El.
    + split; cbn.
      * induction (labels d) as [|x r IH]; [done|]. rewrite filter_cons. unfold new_label at 2. cbn. rewrite find_by_cons.
        destruct (decide (tl_id y = tl_id x)) as [E|Hne].
        { rewrite decide_False by (by intros []). by rewrite El, IH. }
        rewrite decide_True by congruence. cbn. rewrite IH. unfold new_label at 1. done.
      * rewrite <- list_fmap_compose. apply list_fmap_ext. intros ? [c i] _. cbn. unfold relabelled. rewrite find_by_cons.
        destruct (decide (tl_id y = i)) as [<-|Hne]; [|by rewrite bool_decide_false]. rewrite bool_decide_true by done. cbn.
        rewrite El, find_by_None; [done|]. intros Hi. apply (Hdis same); [|by right]. unfold label_of_name in El. by apply last_in, list_elem_of_filter in El as [_ ?].
    + split; cbn.
      * unfold update_row. induction (labels d) as [|x r IH]; [done|]. cbn. rewrite IH. unfold new_label. rewrite find_by_cons.
        destruct (decide (tl_id y = tl_id x)) as [E|Hne]; [|by rewrite bool_decide_false].
        rewrite bool_decide_true by done. cbn. rewrite El, find_by_None; [done|]. by rewrite <- E.
      * apply list_fmap_ext. intros ? [c i] _. cbn. unfold relabelled. rewrite find_by_cons. case_decide as E; [|done].
        rewrite El, <- E, find_by_None; done.
Qed.
Lemma folded_frame l : ∀ d, let d' := foldl (fold_label target t) d l in
  cards d' = cards d ∧ columns d' = columns d ∧ boards d' = boards d ∧ links d' = links d ∧ card_events d' = card_events d.
Proof.
  induction l as [|y l IH]; intros d; [done|]. cbn [foldl]. destruct (IH (fold_label target t d y)) as (-> & -> & -> & -> & ->).
  unfold fold_label. by destruct (label_of_name _ _).
Qed.
End Labels.

(** ** Its cards *)
Section Cards.
Context (t : string).
Definition put (c : TodoCard) (x : string * string * string) : TodoCard :=
  if bool_decide (cd_id c = x.1.1) then set_place t x.1.2 x.2 c else c.
Lemma put_frame l : ∀ d, let d' := foldl (λ d x, update_card x.1.1 (set_place t x.1.2 x.2) d) d l in
  cards d' = (λ c, foldl put c l) <$> cards d ∧ columns d' = columns d ∧ boards d' = boards d ∧ labels d' = labels d ∧
  card_labels d' = card_labels d ∧ links d' = links d ∧ card_events d' = card_events d.
Proof.
  induction l as [|x l IH]; intros d; cbn [foldl].
  - split; [|done]. cbn. by rewrite list_fmap_id.
  - destruct (IH (update_card x.1.1 (set_place t x.1.2 x.2) d)) as (-> & H). split; [|done].
    unfold update_card, update_row. cbn. rewrite <- list_fmap_compose. apply list_fmap_ext. intros ? c _. done.
Qed.
Lemma put_id c x : cd_id (put c x) = cd_id c.
Proof. unfold put. by case_bool_decide. Qed.
Lemma put_none l : ∀ c, cd_id c ∉ l.*1.*1 → foldl put c l = c.
Proof.
  induction l as [|x l IH]; intros c H; [done|]. cbn in *. apply not_elem_of_cons in H as [H1 H2].
  unfold put at 2. rewrite bool_decide_false by done. by apply IH.
Qed.
Lemma put_core l : ∀ c col r, NoDup l.*1.*1 → ((cd_id c, col), r) ∈ l →
  card_core (foldl put c l) = (cd_id c, t, col, bool_decide (cd_completed_at c ≠ None)).
Proof.
  induction l as [|x l IH]; intros c col r Hnd H; [by apply not_elem_of_nil in H|]. cbn in *. apply NoDup_cons in Hnd as [Hx Hnd].
  apply elem_of_cons in H as [<-|H]; cbn in *.
  - rewrite put_none; [|by rewrite put_id]. unfold put. cbn. by rewrite bool_decide_true.
  - assert (Hi : cd_id c ∈ l.*1.*1) by (apply list_elem_of_fmap; exists (cd_id c, col); split; [done|apply list_elem_of_fmap; by exists (cd_id c, col, r)]).
    unfold put at 2. rewrite bool_decide_false by (by intros E; rewrite E in Hi). by apply (IH c col r).
Qed.
End Cards.
Lemma lookup_all_length {V} (d : list (nat * V)) l ys : lookup_all d l = Ok ys → length ys = length l.
Proof.
  revert ys. induction l as [|i l IH]; cbn; intros ys H; [by injection H as <-|]. destruct (nat_get i d); [|done].
  apply bind_ok in H as (r & Hr & [= <-]). cbn. by rewrite (IH r).
Qed.
Lemma appended_length to last ranks : _appended_ranks to last = Ok ranks → length ranks = length to.
Proof.
  unfold _appended_ranks. intros (r & _ & H)%bind_ok. apply lookup_all_length in H. by rewrite H, length_seq.
Qed.
Lemma new_label_ids target t l (k : list TodoLabel) : (tl_id <$> omap (new_label target t l) k) `sublist_of` (tl_id <$> k).
Proof.
  induction k as [|x k IH]; [done|]. cbn. destruct (new_label target t l x) as [y|] eqn:E; cbn; [|by apply sublist_cons].
  assert (tl_id y = tl_id x) as -> by (unfold new_label in E; repeat case_match; by simplify_eq). by apply sublist_skip.
Qed.
Lemma label_ids d : core_ok (core d) → NoDup (tl_id <$> labels d).
Proof. intros Hok. pose proof (core_label_ids _ Hok) as H. cbn in H. by rewrite <- list_fmap_compose in H. Qed.
Section Merge.
Context (d : TodoDb) (Hok : core_ok (core d)) (s t : string) (Hst : s ≠ t).
Definition sources : list TodoLabel := filter (λ l, tl_board_id l = s) (labels d).
Definition targets : list TodoLabel := filter (λ l, tl_board_id l = t) (labels d).

Lemma not_source x : x ∈ labels d → tl_board_id x ≠ s → find_by tl_id (tl_id x) sources = None.
Proof.
  intros Hx Hb. apply find_by_None. intros (y & E & [Hy Hin]%list_elem_of_filter)%list_elem_of_fmap.
  by rewrite (same_row tl_id _ x y (label_ids d Hok) Hx Hin E) in Hb.
Qed.
Lemma source_found x : x ∈ labels d → tl_board_id x = s → find_by tl_id (tl_id x) sources = Some x.
Proof.
  intros Hx Hb. apply find_by_NoDup; [|by apply list_elem_of_filter]. eapply sublist_NoDup; [apply (label_ids d Hok)|].
  apply fmap_sublist, sublist_filter.
Qed.
Definition merged_labels : list (string * string) :=
  (λ l, (tl_id l, tl_board_id l)) <$> filter (λ l, tl_board_id l ≠ s) (omap (new_label targets t sources) (labels d)).
Lemma merged_ids : NoDup merged_labels.*1.
Proof.
  unfold merged_labels. rewrite <- list_fmap_compose. eapply sublist_NoDup; [|apply fmap_sublist, sublist_filter].
  eapply sublist_NoDup; [apply (label_ids d Hok)|apply new_label_ids].
Qed.
Lemma merged_other l b : (l, b) ∈ co_labels (core d) → b ≠ s → relabelled targets sources l = l ∧ (l, b) ∈ merged_labels.
Proof.
  intros (x & [= -> ->] & Hx)%list_elem_of_fmap Hb. pose proof (not_source x Hx Hb) as E. unfold relabelled. rewrite E. split; [done|].
  apply (list_elem_of_fmap_2 (λ l, (tl_id l, tl_board_id l))). apply list_elem_of_filter. split; [done|].
  apply list_elem_of_omap. exists x. unfold new_label. by rewrite E.
Qed.
Lemma merged_source l : (l, s) ∈ co_labels (core d) → (relabelled targets sources l, t) ∈ merged_labels.
Proof.
  intros (x & [= -> Hb] & Hx)%list_elem_of_fmap. pose proof (source_found x Hx (eq_sym Hb)) as E. unfold relabelled. rewrite E.
  destruct (label_of_name targets (tl_name x)) as [same|] eqn:El.
  - apply merged_other; [|done]. unfold label_of_name in El. apply last_in, list_elem_of_filter in El as [_ [<- Hs]%list_elem_of_filter].
    by apply label_in_core.
  - apply (list_elem_of_fmap (λ l, (tl_id l, tl_board_id l))). exists (set_label_board t x). split; [done|]. apply list_elem_of_filter.
    split; [done|]. apply list_elem_of_omap. exists x. unfold new_label. by rewrite E, El.
Qed.

(** The cards of the source go to the first column or to the done column of the target. *)
Lemma moved_cards (first dc : string) (moved : list TodoCard) (ranks : list string) :
  moved ≡ₚ filter (λ c, cd_board_id c = s) (cards d) → length ranks = length moved →
  let l := zip (zip (cd_id <$> moved) ((λ c, if in_done d c then dc else first) <$> moved)) ranks in
  card_core <$> ((λ c, foldl (put t) c l) <$> cards d) =
  (λ c, if bool_decide (cd_board_id c = s)
        then (cd_id c, t, if bool_decide (cd_completed_at c ≠ None) then dc else first, bool_decide (cd_completed_at c ≠ None))
        else card_core c) <$> cards d.
Proof.
  intros Hm Hlen l. assert (Hids : l.*1.*1 = cd_id <$> moved).
  { unfold l. rewrite fst_zip by (rewrite length_zip, !length_fmap; lia). by rewrite fst_zip by (by rewrite !length_fmap). }
  assert (Hnd : NoDup l.*1.*1).
  { rewrite Hids, Hm. eapply sublist_NoDup; [|apply fmap_sublist, sublist_filter]. rewrite <- core_card_ids_eq. apply core_card_ids, Hok. }
  rewrite <- list_fmap_compose. apply list_fmap_ext. intros n c Hc%list_elem_of_lookup_2. cbn. case_bool_decide as Hb.
  - assert (Hcm : c ∈ moved) by (rewrite Hm; by apply list_elem_of_filter). apply list_elem_of_lookup in Hcm as [i Hi].
    destruct (lookup_lt_is_Some_2 ranks i) as [r Hr]; [rewrite Hlen; by eapply lookup_lt_Some|].
    assert (Hin : (cd_id c, if in_done d c then dc else first, r) ∈ l).
    { apply list_elem_of_lookup. exists i. unfold l. apply lookup_zip_with_Some. exists (cd_id c, if in_done d c then dc else first), r.
      split; [done|]. split; [|done]. apply lookup_zip_with_Some. eexists _, _. split; [done|]. by rewrite !list_lookup_fmap, Hi. }
    rewrite (put_core t l c _ r Hnd Hin), (in_done_card d Hok c Hc). done.
  - rewrite put_none; [done|]. rewrite Hids. intros (c' & E & Hc')%list_elem_of_fmap. rewrite Hm in Hc'.
    apply list_elem_of_filter in Hc' as [Hs Hc']. by rewrite (same_card d Hok c c' Hc Hc' E) in Hb.
Qed.
End Merge.
Lemma core_delete_board b d :
  core (delete_board b d) =
  MkCore (filter (λ x, x.1 ≠ b) (co_boards (core d))) (filter (λ c, c.1.2 ≠ b) (co_columns (core d)))
    (filter (λ c, c.1.1.2 ≠ b) (co_cards (core d))) ((λ l, (tl_id l, tl_board_id l)) <$> filter (λ l, tl_board_id l ≠ b) (labels d))
    (co_card_labels (core d)) (co_links (core d)) (co_events (core d)).
Proof.
  unfold core, delete_board. cbn. f_equal.
  - exact (fmap_filter (λ b, (tb_id b, tb_kind b)) (λ x, x.1 ≠ b) (boards d)).
  - exact (fmap_filter column_core (λ c, c.1.2 ≠ b) (columns d)).
  - exact (fmap_filter card_core (λ c, c.1.1.2 ≠ b) (cards d)).
Qed.
Lemma sim_merge d s t now d' n :
  core_ok (core d) → mergeable d s t → fold_personal_board d s t now = Ok (d', n) → core_step (core d) (core d').
Proof.
  intros Hok (Hst & (sb & tb & Hsb & Htb & <- & <- & Hks & Hkt) & Hfirst). unfold fold_personal_board.
  intros ([first dc] & Ht%or_raise_ok & H)%bind_ok. specialize (Hfirst _ _ Ht). unfold _targets in Ht.
  apply bind_Some in Ht as (dcol & Hd%head_in & (fcol & Hf%head_in & [= <- <-])%bind_Some).
  apply list_elem_of_filter in Hd as [Hdone Hd]. apply column_in_board in Hd, Hf.
  set (d1 := _fold_labels (tb_id sb) (tb_id tb) d) in H.
  destruct (folded_frame (targets d (tb_id tb)) (tb_id tb) (sources d (tb_id sb)) d) as (E1 & E2 & E3 & E4 & E5).
  destruct (labels_folded (targets d (tb_id tb)) (tb_id tb) (sources d (tb_id sb)) d) as [E6 E7].
  { eapply sublist_NoDup; [apply (label_ids d Hok)|apply fmap_sublist, sublist_filter]. }
  { intros x [Hx Hin]%list_elem_of_filter (y & E & [Hy Hin']%list_elem_of_filter)%list_elem_of_fmap.
    rewrite (same_row tl_id _ x y (label_ids d Hok) Hin Hin' E) in Hx. congruence. }
  change (foldl _ d (sources d (tb_id sb))) with d1 in E1, E2, E3, E4, E5, E6, E7.
  assert (Ein : ∀ c, in_done d1 c = in_done d c) by (intros; unfold in_done; by rewrite E2).
  set (moved := sort_by (fold_leb d1) (filter (λ c, cd_board_id c = tb_id sb) (cards d1))) in H.
  destruct (_appended_ranks _ _) as [ranks|] eqn:Er; [|done]. apply appended_length in Er. rewrite length_fmap in Er. injection H as <- <-.
  destruct (put_frame (tb_id tb) (zip (zip (cd_id <$> moved) ((λ c, if in_done d1 c then tc_id dcol else tc_id fcol) <$> moved)) ranks) d1)
    as (F1 & F2 & F3 & F4 & F5 & F6 & F7).
  match type of F1 with cards ?x = _ => set (d2 := x) in * end.
  pose proof (moved_cards d Hok (tb_id sb) (tb_id tb) (tc_id fcol) (tc_id dcol) moved ranks) as Hmv.
  cbn zeta in Hmv. specialize (Hmv ltac:(unfold moved; rewrite E1; apply sort_by_Permutation) Er).
  assert (Hcards : co_cards (core d2) = (λ c : string * string * string * bool, if bool_decide (c.1.1.2 = tb_id sb)
      then (c.1.1.1, tb_id tb, (if (c.2 : bool) then tc_id dcol else tc_id fcol), c.2) else c) <$> co_cards (core d)).
  { cbn [core co_cards]. rewrite F1, E1.
    assert (Eg : (λ c, if in_done d1 c then tc_id dcol else tc_id fcol) <$> moved = (λ c, if in_done d c then tc_id dcol else tc_id fcol) <$> moved)
      by (apply list_fmap_ext; intros ? c _; by rewrite Ein).
    rewrite Eg, Hmv, <- list_fmap_compose. by apply list_fmap_ext. }
  assert (Hstep : core_step (core d) (core (delete_board (tb_id sb) d2))).
  { rewrite core_delete_board, F4, E6. fold (merged_labels d (tb_id sb) (tb_id tb)).
    replace (filter _ (co_cards (core d2))) with (co_cards (core d2)).
    2: { symmetry. apply filter_all, Forall_forall. rewrite Hcards. intros c (x & -> & _)%list_elem_of_fmap. by case_bool_decide. }
    rewrite Hcards. cbn [core co_boards co_columns co_card_labels co_links co_events]. rewrite F3, E3, F2, E2, F5, E7, F6, E4, F7, E5.
    apply (core_merge (core d) (tb_id sb) (tb_id tb) (tc_id fcol) (tc_id dcol) (merged_labels d (tb_id sb) (tb_id tb))
      (relabelled (targets d (tb_id tb)) (sources d (tb_id sb)))); [done| | | | | | | |].
    - exists (tb_kind sb). split; [by apply board_in_core|done].
    - exists (tb_kind tb). by apply board_in_core.
    - destruct (tc_is_done fcol) eqn:Ed; [|done]. exfalso. apply Hfirst. rewrite <- Hdone in Ed.
      apply (core_one_done _ Hok _ _ (tb_id tb)); congruence.
    - congruence.
    - apply merged_ids, Hok.
    - intros l b. by apply merged_other.
    - intros l. by apply merged_source.
    - intros l b (x & [= -> ->] & [Hx _]%list_elem_of_filter)%list_elem_of_fmap. done. }
  match goal with |- core_step _ ?y => replace y with (core (delete_board (tb_id sb) d2)); [exact Hstep|] end.
  rewrite !core_delete_board. f_equal. f_equal. cbn. by rewrite update_row_map.
Qed.

(** ** No request creates, deletes or retypes a board *)
Definition board_ids (d : TodoDb) : list (string * BoardKind) := co_boards (core d).
Lemma ids_touch b c r now d : board_ids (_touch b c r now d) = board_ids d.
Proof. unfold board_ids. by rewrite core_touch. Qed.
Lemma ids_mail kind c rs a e d : board_ids (_mail kind c rs a e d) = board_ids d.
Proof. unfold board_ids. by rewrite core_mail. Qed.
Lemma ids_foldl {A} (f : TodoDb → A → TodoDb) l : (∀ d x, board_ids (f d x) = board_ids d) → ∀ d, board_ids (foldl f d l) = board_ids d.
Proof. intros H. induction l as [|x l IH]; intros d; [done|]. cbn [foldl]. by rewrite IH, H. Qed.
Lemma ids_foldr {A} (f : A → TodoDb → TodoDb) l : (∀ d x, board_ids (f x d) = board_ids d) → ∀ d, board_ids (foldr f d l) = board_ids d.
Proof. intros H. induction l as [|x l IH]; intros d; [done|]. cbn [foldr]. by rewrite H, IH. Qed.
Ltac unbind H := repeat (first
  [ apply bind_ok in H as (? & ? & H)
  | match type of H with context [let (_, _) := ?x in _] => destruct x end
  | match type of H with Ok _ = Ok _ => injection H as H end ]).
Ltac same_boards := let H := fresh in intros H; unbind H; subst; rewrite ?ids_mail, ?ids_touch; repeat case_match; rewrite ?ids_mail, ?ids_touch; try done.
Lemma ids_complete d c b actor now d' m : complete d c b actor now = Ok (d', m) → board_ids d' = board_ids d.
Proof.
  unfold complete. intros (card & _ & H)%bind_ok. destruct (negb _); [by injection H as <- <-|]. destruct (head _); [|by injection H as <- <-].
  destruct (_ || _); [by injection H as <- <-|]. apply bind_ok in H as (plan & _ & [= <- <-]). by rewrite ids_touch.
Qed.
Lemma ids_complete_all l actor now : ∀ d m d' m', complete_all l actor now d m = Ok (d', m') → board_ids d' = board_ids d.
Proof.
  induction l as [|[c b] l IH]; intros d m d' m' H; cbn [complete_all] in H; [by injection H as <- <-|].
  apply bind_ok in H as ([d1 m1] & H1 & H). rewrite (IH _ _ _ _ H). by eapply ids_complete.
Qed.
Lemma board_request_ids k d p d' : board_request k d p d' → board_ids d' = board_ids d.
Proof.
  intros []; match goal with H : _ = Ok _ |- _ => revert H end.
  - intros H%sim_patch_board. unfold board_ids. by rewrite H.
  - unfold add_column. same_boards.
  - unfold patch_column. intros H. unbind H. subst. rewrite ids_touch. case_match; [|by match goal with H : Ok _ = Ok _ |- _ => injection H as <- end; repeat case_match].
    match goal with H : (_ ≫= _) = Ok _ |- _ => apply bind_ok in H as (? & _ & [= <-]) end.
    rewrite ids_foldl; [|intros; unfold enter_done; by repeat case_match]. unfold board_ids. rewrite core_set_done. cbn.
    unfold clear_done.
    match goal with |- (_ <$> boards (foldr ?f ?a ?l)) = _ => change (board_ids (foldr f a l) = board_ids d) end.
    rewrite ids_foldr; [by repeat case_match|done].
  - intros H%sim_order_columns. unfold board_ids. by rewrite H.
  - unfold delete_column. intros H. unbind H. subst. rewrite ids_touch.
    match goal with H : (match ?l with _ => _ end) = Ok _ |- _ => destruct l; [by injection H as <-|]; unbind H; subst end.
    match goal with |- board_ids (set_positions _ (with_columns _ ?x)) = _ => change (board_ids x = board_ids d) end.
    rewrite ids_foldl; intros; unfold into_column; by repeat case_match.
  - unfold add_label. same_boards.
  - intros H%sim_patch_label. unfold board_ids. by rewrite H.
  - unfold delete_label. same_boards.
Qed.
Lemma card_request_ids readable k d p d' : card_request readable k d p d' → board_ids d' = board_ids d.
Proof.
  intros []; match goal with H : _ = Ok _ |- _ => revert H end.
  - unfold create. same_boards.
  - unfold patch. same_boards.
  - unfold move. same_boards.
  - unfold transfer. same_boards.
  - unfold archive_card. same_boards.
  - unfold restore_card. same_boards.
  - unfold add_assignee. same_boards.
  - unfold remove_assignee. same_boards.
  - unfold add_card_label. same_boards.
  - unfold remove_card_label. same_boards.
  - unfold add_check_item. same_boards.
  - unfold patch_check_item. same_boards.
  - unfold delete_check_item. same_boards.
Qed.
Lemma thread_request_ids readable k d p d' : thread_request readable k d p d' → board_ids d' = board_ids d.
Proof.
  intros []; match goal with H : _ = Ok _ |- _ => revert H end.
  - unfold add_link. same_boards.
  - unfold remove_link. same_boards.
  - unfold set_event. intros H. unbind H. subst. rewrite ids_touch. case_match; match goal with H : _ = Ok _ |- _ => unbind H; by subst end.
  - unfold remove_event. intros H. by unbind H.
  - unfold follow_up. same_boards.
  - unfold create_series. same_boards.
  - unfold add_comment. same_boards.
  - unfold edit_comment. same_boards.
  - unfold delete_comment. same_boards.
  - unfold link_agenda_item. same_boards.
  - unfold complete_ticket. destruct (me k p); [|by intros [= <-]]. intros ([d1 m] & H%ids_complete_all & [= <-])%bind_ok. by destruct m.
Qed.
Lemma request_ids readable k d p d' : request readable k d p d' → board_ids d' = board_ids d.
Proof. intros [H|[H|H]]; [by eapply board_request_ids|by eapply card_request_ids|by eapply thread_request_ids]. Qed.

(** ** Histories *)
Section Histories.
Context (readable : TodoDb → string → string → Principal → bool).

Lemma request_sim k d p d' : boards_agree k d → core_ok (core d) → request readable k d p d' → core_steps (core d) (core d').
Proof.
  intros Hk Hok [[]|[[]|[]]]; match goal with H : _ = Ok _ |- _ => revert H end.
  - intros Hq%sim_patch_board. by rewrite Hq.
  - intros Hq%sim_add_column; [by apply one_step|done].
  - by apply sim_patch_column.
  - intros Hq%sim_order_columns. by rewrite Hq.
  - by apply sim_delete_column.
  - intros Hq%sim_add_label; [by apply one_step|done].
  - intros Hq%sim_patch_label. by rewrite Hq.
  - intros Hq%sim_delete_label. by apply one_step.
  - intros Hq. apply one_step. refine (sim_create _ _ _ _ _ _ _ _ _ _ Hk _ _ Hq); assumption.
  - intros Hq%sim_patch; [by rewrite Hq|done].
  - by apply sim_move.
  - intros Hq. apply one_step. exact (sim_transfer k d Hok _ _ _ _ _ _ _ _ Hk Hq).
  - intros Hq%sim_archive; [by rewrite Hq|done].
  - intros Hq%sim_restore; [by rewrite Hq|done].
  - intros Hq%sim_add_assignee. by rewrite Hq.
  - intros Hq%sim_remove_assignee. by rewrite Hq.
  - by apply sim_add_card_label.
  - intros Hq%sim_remove_card_label. by apply one_step.
  - intros Hq%sim_add_item. by rewrite Hq.
  - intros Hq%sim_patch_item. by rewrite Hq.
  - intros Hq%sim_delete_item. by rewrite Hq.
  - intros Hq%sim_add_link. by apply one_step.
  - intros Hq%sim_remove_link. by apply one_step.
  - by apply sim_set_event.
  - unfold remove_event. intros Hq. by unbind Hq.
  - intros Hq%sim_follow_up; [by apply one_step|done|done].
  - intros Hq%sim_create_series. by rewrite Hq.
  - intros Hq%sim_add_comment. by rewrite Hq.
  - intros Hq%sim_edit_comment. by rewrite Hq.
  - intros Hq%sim_delete_comment. by rewrite Hq.
  - intros Hq. by eapply sim_agenda.
  - by apply sim_complete_ticket.
Qed.
Lemma system_sim k d d' : core_ok (core d) → todo_system k d d' → core_steps (core d) (core d').
Proof.
  intros Hok []; [by apply sim_gremium_board|by apply sim_personal_board|by rewrite sim_archive_cron|by rewrite sim_reminder| |done].
  apply one_step. by eapply sim_merge.
Qed.
Lemma new_board_ids (l : list TodoBoard) b x :
  x ∈ (λ b, (tb_id b, tb_kind b)) <$> (l ++ [b]) → x ∈ (λ b, (tb_id b, tb_kind b)) <$> l ∨ x.1 = tb_id b.
Proof. rewrite fmap_app, elem_of_app. intros [H|H%list_elem_of_singleton]; [by left|right; by subst]. Qed.
Lemma system_ids k d d' x : todo_system k d d' → x ∈ board_ids d' → x ∈ board_ids d ∨ x.1 ∉ (board_ids d).*1.
Proof.
  intros [g n id cols now H|o id cols now H|skipped now|send skipped hour tomorrow|s t now d1 n Hm Hf|c r a]; unfold board_ids.
  - unfold ensure_gremium_board. case_match; [by left|]. intros [?|E]%new_board_ids; [by left|right]. rewrite E. cbn.
    rewrite <- list_fmap_compose. apply H.
  - unfold ensure_personal_board. case_match; [by left|]. intros [?|E]%new_board_ids; [by left|right]. rewrite E. cbn.
    rewrite <- list_fmap_compose. apply H.
  - rewrite sim_archive_cron. by left.
  - rewrite sim_reminder. by left.
  - unfold fold_personal_board in Hf. apply bind_ok in Hf as ([first dn] & _ & Hf). destruct (_appended_ranks _ _); [|done].
    injection Hf as <- _. rewrite core_delete_board. cbn [co_boards]. intros [_ Hx]%list_elem_of_filter. left.
    match type of Hx with _ ∈ co_boards (core (with_boards _ (foldl _ (_fold_labels s t d) ?l))) =>
      destruct (put_frame t l (_fold_labels s t d)) as (_ & _ & E & _) end.
    destruct (folded_frame (targets d t) t (sources d s) d) as (_ & _ & E' & _).
    cbn in Hx. rewrite update_row_map in Hx by done. change (boards (_fold_labels s t d) = boards d) in E'. by rewrite E, E' in Hx.
  - by left.
Qed.
Lemma no_boards_ok d : no_boards d → core_ok (core d).
Proof.
  intros (H1 & H2 & H3 & H4 & H5 & H6 & H7). unfold core. rewrite H1, H2, H3, H4, H5, H6, H7. cbn.
  split; cbn; try apply NoDup_nil_2; intros; by match goal with H : _ ∈ [] |- _ => apply not_elem_of_nil in H end.
Qed.
Lemma agree_self d : core_ok (core d) → boards_agree d d.
Proof. intros Hok b kind Hb%board_in_core Hk. by apply (board_row _ Hok (tb_id b)). Qed.
Lemma history_ok h :
  history readable h → match h with [] => True | d :: r => core_ok (core d) ∧ keys d ∧ ∀ s, s ∈ h → boards_agree s d end.
Proof.
  induction 1 as [d Hd Hkeys|k d d' h H (Hok & _ & Hag) Hk Hs Hkeys Hnew].
  - pose proof (no_boards_ok d Hd) as Hok. split; [done|]. split; [done|]. intros s ->%list_elem_of_singleton. by apply agree_self.
  - assert (Hok' : core_ok (core d')).
    { eapply core_steps_ok; [exact Hok|]. destruct Hs as [[p Hp]|Hp]; [by eapply (request_sim k d p); [apply Hag| |]|by eapply system_sim]. }
    split; [done|]. split; [done|]. intros s [->|Hin]%elem_of_cons b kind Hb Hkind; [by apply (agree_self d')|].
    assert (Hids : (tb_id b, kind) ∈ board_ids d ∨ tb_id b ∉ (board_ids d).*1).
    { destruct Hs as [[p Hp%request_ids]|Hp]; [left; by rewrite <- Hp|by apply (system_ids k d d' (tb_id b, kind))]. }
    destruct Hids as [Hd|Hd]; [by apply (Hag s)|]. exfalso.
    apply list_elem_of_fmap in Hkind as (b' & [= E _] & Hb'). rewrite E in Hd. unfold board_ids in Hd. cbn in Hd. rewrite <- list_fmap_compose in Hd.
    apply elem_of_cons in Hin as [->|Hin].
    + apply Hd. rewrite <- E. by apply (list_elem_of_fmap_2 tb_id).
    + apply (Hnew b' s Hb' Hd Hin). rewrite <- E. by apply list_elem_of_fmap_2.
Qed.
End Histories.
