(* ===== verification/TodoRights.v ===== *)
(** Who changes a board: a request leaves every board alone that its author does not write. *)

From stdpp Require Import gmap strings.
From S2P Require Import Prelude PyStr PyNum PyValue PyDate Lexorank FlowDb Policy Todo TodoService TodoCards TodoEvents TodoCore TodoSim TodoMerge.

(** ** A board with all that is on it *)
Definition ids_on (b : string) (d : TodoDb) : list string := cd_id <$> filter (λ c, cd_board_id c = b) (cards d).
Record BoardView := MkView {
  v_board : list TodoBoard;
  v_columns : list TodoColumn;
  v_labels : list TodoLabel;
  v_cards : list TodoCard;
  v_card_labels : list (string * string);
  v_assignees : list (string * string);
  v_items : list TodoCheckItem;
  v_comments : list TodoComment;
  v_timeline : list TodoEvent;
  v_links : list TodoLink;
  v_events : list TodoCardEvent
}.
Definition rows_of {A} (key : A → string) (ids : list string) (l : list A) : list A := filter (λ x, key x ∈ ids) l.
Definition board_view (b : string) (d : TodoDb) : BoardView :=
  let ids := ids_on b d in
  MkView (filter (λ x, tb_id x = b) (boards d)) (filter (λ x, tc_board_id x = b) (columns d))
    (filter (λ x, tl_board_id x = b) (labels d)) (filter (λ x, cd_board_id x = b) (cards d))
    (rows_of fst ids (card_labels d)) (rows_of fst ids (assignees d)) (rows_of ci_card_id ids (check_items d))
    (rows_of cm_card_id ids (comments d)) (rows_of ev_card_id ids (timeline d)) (rows_of lk_card_id ids (links d))
    (rows_of ce_card_id ids (card_events d)).

Lemma filter_add {A} (P : A → Prop) `{∀ x, Decision (P x)} (l new : list A) :
  (∀ x, x ∈ new → ¬ P x) → filter P (l ++ new) = filter P l.
Proof. intros Hn. rewrite filter_app, (filter_none P new) by done. by rewrite app_nil_r. Qed.
Lemma rows_add {A} (key : A → string) ids (l new : list A) : (∀ x, x ∈ new → key x ∉ ids) → rows_of key ids (l ++ new) = rows_of key ids l.
Proof. apply filter_add. Qed.
Lemma rows_keep {A} (key : A → string) ids (P : A → Prop) `{∀ x, Decision (P x)} (l : list A) :
  (∀ x, x ∈ l → key x ∈ ids → P x) → rows_of key ids (filter P l) = rows_of key ids l.
Proof. apply filter_sub. Qed.
Lemma rows_update {A} {id_of : A → string} (key : A → string) ids i f (l : list A) :
  (∀ x, x ∈ l → id_of x = i → key x ∉ ids ∧ key (f x) ∉ ids) → rows_of key ids (update_row id_of i f l) = rows_of key ids l.
Proof. apply (filter_replace (λ x, key x ∈ ids)). Qed.

(** ** What leaves the view of a board alone *)
Section View.
Context (b : string).
Notation same d d' := (board_view b d' = board_view b d).

Lemma view_touch b0 c r now d : b0 ≠ b → same d (_touch b0 c r now d).
Proof.
  intros Hb. unfold board_view, _touch, ids_on. cbn. f_equal. apply filter_replace. intros x _ Ex. cbn. rewrite Ex. done.
Qed.
Lemma view_mail kind c rs a e d : same d (_mail kind c rs a e d).
Proof. unfold _mail. by destruct (fromkeys _). Qed.
Lemma view_event c kind a payload now d : c ∉ ids_on b d → same d (_event c kind a payload now d).
Proof. intros Hc. unfold board_view, ids_on. cbn. f_equal. apply rows_add. by intros x ->%list_elem_of_singleton. Qed.
Lemma view_ticket_done c b0 a now d : same d (_write_ticket_done c b0 a now d).
Proof. done. Qed.
Lemma view_boards x d : filter (λ x, tb_id x = b) x = filter (λ x, tb_id x = b) (boards d) → same d (with_boards x d).
Proof. intros E. unfold board_view, ids_on. cbn. by rewrite E. Qed.
Lemma view_columns x d : filter (λ x, tc_board_id x = b) x = filter (λ x, tc_board_id x = b) (columns d) → same d (with_columns x d).
Proof. intros E. unfold board_view, ids_on. cbn. by rewrite E. Qed.
Lemma view_labels x d : filter (λ x, tl_board_id x = b) x = filter (λ x, tl_board_id x = b) (labels d) → same d (with_labels x d).
Proof. intros E. unfold board_view, ids_on. cbn. by rewrite E. Qed.
Lemma view_cards x d : filter (λ x, cd_board_id x = b) x = filter (λ x, cd_board_id x = b) (cards d) → same d (with_cards x d).
Proof. intros E. unfold board_view, ids_on. cbn. by rewrite E. Qed.
Lemma view_card_labels x d : rows_of fst (ids_on b d) x = rows_of fst (ids_on b d) (card_labels d) → same d (with_card_labels x d).
Proof. intros E. unfold board_view. f_equal; exact E. Qed.
Lemma view_assignees x d : rows_of fst (ids_on b d) x = rows_of fst (ids_on b d) (assignees d) → same d (with_assignees x d).
Proof. intros E. unfold board_view. f_equal; exact E. Qed.
Lemma view_items x d : rows_of ci_card_id (ids_on b d) x = rows_of ci_card_id (ids_on b d) (check_items d) → same d (with_check_items x d).
Proof. intros E. unfold board_view. f_equal; exact E. Qed.
Lemma view_comments x d : rows_of cm_card_id (ids_on b d) x = rows_of cm_card_id (ids_on b d) (comments d) → same d (with_comments x d).
Proof. intros E. unfold board_view. f_equal; exact E. Qed.
Lemma view_links x d : rows_of lk_card_id (ids_on b d) x = rows_of lk_card_id (ids_on b d) (links d) → same d (with_links x d).
Proof. intros E. unfold board_view. f_equal; exact E. Qed.
Lemma view_card_events x d : rows_of ce_card_id (ids_on b d) x = rows_of ce_card_id (ids_on b d) (card_events d) → same d (with_card_events x d).
Proof. intros E. unfold board_view. f_equal; exact E. Qed.
Lemma view_series x d : same d (with_series x d).
Proof. done. Qed.
Lemma view_ids d d' : same d d' → ids_on b d' = ids_on b d.
Proof. intros E%(f_equal v_cards). cbn in E. unfold ids_on. by rewrite E. Qed.
Lemma not_on d c : c ∉ ids_on b d ↔ ∀ x, x ∈ cards d → cd_id x = c → cd_board_id x ≠ b.
Proof.
  unfold ids_on. rewrite list_elem_of_fmap. setoid_rewrite list_elem_of_filter. naive_solver.
Qed.
Lemma view_update_card id f d :
  id ∉ ids_on b d → (∀ x, cd_board_id (f x) = cd_board_id x ∨ cd_board_id (f x) ≠ b) → same d (update_card id f d).
Proof.
  intros Hid Hf. apply view_cards. apply filter_replace. intros x Hx Ex. rewrite not_on in Hid. specialize (Hid x Hx Ex).
  split; [done|]. by destruct (Hf x) as [-> |].
Qed.
Lemma dict_get_in {A} i (x : A) (l : list (string * A)) : dict_get i l = Some x → i ∈ l.*1.
Proof.
  induction l as [|[j y] l IH]; [done|]. cbn. case_decide as E; [subst; by left|]. intros H. right. by apply IH.
Qed.
Lemma view_ranks plan now d : (∀ i, i ∈ (rp_ranks plan).*1 → i ∉ ids_on b d) → same d (set_ranks plan now d).
Proof.
  intros Hp. apply view_cards. assert (H : ∀ x, x ∈ cards d → cd_board_id x = b → ranked plan now x = x).
  { intros x Hx Eb. unfold ranked. destruct (dict_get _ _) eqn:E; [|done]. apply dict_get_in, Hp in E. rewrite not_on in E. by destruct (E x Hx eq_refl). }
  induction (cards d) as [|x l IH]; [done|]. rewrite fmap_cons, !filter_cons. rewrite IH by (intros; apply H; [by right|done]).
  destruct (decide (cd_board_id x = b)) as [E|E].
  - rewrite (H x) by (done || by left). by rewrite decide_True.
  - rewrite decide_False; [done|]. by destruct (ranked_frame plan now x) as (_ & -> & _).
Qed.

(** *** The same along an operation: [d] before it, [x] inside it *)
Definition kept (d x : TodoDb) : Prop := board_view b x = board_view b d.
Lemma kept_refl d : kept d d.
Proof. done. Qed.
Lemma kept_if d (g : bool) x y : kept d x → kept d y → kept d (if g then x else y).
Proof. by destruct g. Qed.
Lemma kept_ids d x : kept d x → ids_on b x = ids_on b d.
Proof. apply view_ids. Qed.
Lemma kept_touch d x b0 c r now : b0 ≠ b → kept d x → kept d (_touch b0 c r now x).
Proof. intros Hb H. unfold kept. by rewrite view_touch. Qed.
Lemma kept_mail d x kind c rs a e : kept d x → kept d (_mail kind c rs a e x).
Proof. intros H. unfold kept. by rewrite view_mail. Qed.
Lemma kept_event d x c kind a payload now : c ∉ ids_on b d → kept d x → kept d (_event c kind a payload now x).
Proof. intros Hc H. unfold kept. rewrite view_event; [done|by rewrite (kept_ids d x)]. Qed.
Lemma kept_ticket_done d x c b0 a now : kept d x → kept d (_write_ticket_done c b0 a now x).
Proof. done. Qed.
Lemma kept_update_card d x id f :
  id ∉ ids_on b d → (∀ y, cd_board_id (f y) = cd_board_id y ∨ cd_board_id (f y) ≠ b) → kept d x → kept d (update_card id f x).
Proof. intros Hc Hf H. unfold kept. rewrite view_update_card; [done|by rewrite (kept_ids d x)|done]. Qed.
Lemma kept_ranks d x plan now : (∀ i, i ∈ (rp_ranks plan).*1 → i ∉ ids_on b d) → kept d x → kept d (set_ranks plan now x).
Proof. intros Hp H. unfold kept. rewrite view_ranks; [done|by rewrite (kept_ids d x)]. Qed.
Lemma kept_add_card d x plan now c :
  cd_board_id c ≠ b → (∀ i, i ∈ (rp_ranks plan).*1 → i ∉ ids_on b d) → kept d x → kept d (add_card plan now c x).
Proof.
  intros Hc Hp H. apply kept_ranks; [done|]. unfold kept. rewrite view_cards; [done|]. apply filter_add. by intros y ->%list_elem_of_singleton.
Qed.
Lemma kept_add_labels d x c ls : c ∉ ids_on b d → kept d x → kept d (add_labels c ls x).
Proof.
  intros Hc H. unfold kept. unfold add_labels. rewrite view_card_labels; [done|]. rewrite (kept_ids d x H). apply rows_add.
  by intros y (l & -> & _)%list_elem_of_fmap.
Qed.
Lemma kept_add_assignees d x c ls : c ∉ ids_on b d → kept d x → kept d (add_assignees c ls x).
Proof.
  intros Hc H. unfold kept. unfold add_assignees. rewrite view_assignees; [done|]. rewrite (kept_ids d x H). apply rows_add.
  by intros y (l & -> & _)%list_elem_of_fmap.
Qed.
Lemma kept_card_labels d x l : rows_of fst (ids_on b d) l = rows_of fst (ids_on b d) (card_labels x) → kept d x → kept d (with_card_labels l x).
Proof. intros E H. unfold kept. rewrite view_card_labels; [done|by rewrite (kept_ids d x H)]. Qed.
Lemma kept_assignees d x l : rows_of fst (ids_on b d) l = rows_of fst (ids_on b d) (assignees x) → kept d x → kept d (with_assignees l x).
Proof. intros E H. unfold kept. rewrite view_assignees; [done|by rewrite (kept_ids d x H)]. Qed.
Lemma kept_items d x l :
  rows_of ci_card_id (ids_on b d) l = rows_of ci_card_id (ids_on b d) (check_items x) → kept d x → kept d (with_check_items l x).
Proof. intros E H. unfold kept. rewrite view_items; [done|by rewrite (kept_ids d x H)]. Qed.
Lemma kept_comments d x l :
  rows_of cm_card_id (ids_on b d) l = rows_of cm_card_id (ids_on b d) (comments x) → kept d x → kept d (with_comments l x).
Proof. intros E H. unfold kept. rewrite view_comments; [done|by rewrite (kept_ids d x H)]. Qed.
Lemma kept_links d x l : rows_of lk_card_id (ids_on b d) l = rows_of lk_card_id (ids_on b d) (links x) → kept d x → kept d (with_links l x).
Proof. intros E H. unfold kept. rewrite view_links; [done|by rewrite (kept_ids d x H)]. Qed.
Lemma kept_card_events d x l :
  rows_of ce_card_id (ids_on b d) l = rows_of ce_card_id (ids_on b d) (card_events x) → kept d x → kept d (with_card_events l x).
Proof. intros E H. unfold kept. rewrite view_card_events; [done|by rewrite (kept_ids d x H)]. Qed.
Lemma kept_boards d x l : filter (λ x, tb_id x = b) l = filter (λ x, tb_id x = b) (boards x) → kept d x → kept d (with_boards l x).
Proof. intros E H. unfold kept. by rewrite view_boards. Qed.
Lemma kept_columns d x l :
  filter (λ x, tc_board_id x = b) l = filter (λ x, tc_board_id x = b) (columns x) → kept d x → kept d (with_columns l x).
Proof. intros E H. unfold kept. by rewrite view_columns. Qed.
Lemma kept_labels d x l : filter (λ x, tl_board_id x = b) l = filter (λ x, tl_board_id x = b) (labels x) → kept d x → kept d (with_labels l x).
Proof. intros E H. unfold kept. by rewrite view_labels. Qed.
Lemma kept_series d x l : kept d x → kept d (with_series l x).
Proof. done. Qed.
End View.
Create HintDb kept.
#[export] Hint Resolve kept_refl kept_if kept_touch kept_mail kept_event kept_ticket_done kept_ranks kept_add_card kept_add_labels
  kept_add_assignees kept_series : kept.

(** ** The rights of the author *)
Definition writes (d : TodoDb) (p : Principal) (b : string) : Prop := ∃ x, x ∈ boards d ∧ tb_id x = b ∧ todo_can_write d x p = true.
Lemma configure_writes d x p : can_configure d x p = true → todo_can_write d x p = true.
Proof.
  unfold can_configure, todo_can_write. intros H. destruct (has p TODO_ALL && global_reach x p); [done|].
  destruct (_native d x p); [done|]. by destruct (scope_allows p TODO_CONFIGURE).
Qed.
Lemma zip_fst_in {A B} (l : list A) (k : list B) x : x ∈ (zip l k).*1 → x ∈ l.
Proof.
  revert k. induction l as [|y l IH]; intros [|z k]; cbn; try (by intros ?%not_elem_of_nil).
  intros [->|H]%elem_of_cons; [left|right; by eapply IH].
Qed.
Lemma append_ids live new plan : _append live new = Ok plan → ∀ i, i ∈ (rp_ranks plan).*1 → i ∈ new ∨ i ∈ cd_id <$> live.
Proof.
  unfold _append, on_rank_error. destruct (_ranks_after _ _) as [r|[]]; intros [= <-] i Hi; cbn in Hi; apply zip_fst_in in Hi; [by left|].
  apply elem_of_app in Hi as [?|?]; [by right|by left].
Qed.
Lemma place_ids live n c plan : _place live n c = Ok plan → ∀ i, i ∈ (rp_ranks plan).*1 → i = c ∨ i ∈ cd_id <$> live.
Proof.
  unfold _place, on_rank_error. destruct (_rank _ _) as [r|[]]; intros [= <-] i Hi; cbn [rp_ranks] in Hi.
  - left. cbn in Hi. by apply list_elem_of_singleton in Hi.
  - apply zip_fst_in, elem_of_app in Hi as [Hi|[->|Hi]%elem_of_cons]; [right|by left|right];
      apply list_elem_of_fmap in Hi as (x & -> & Hx); apply list_elem_of_fmap_2;
      rewrite <- (take_drop n live); apply elem_of_app; [by left|by right].
Qed.
Lemma off_board p b x y : x ∈ boards y → todo_can_write y x p = true → ¬ writes y p b → tb_id x ≠ b.
Proof. intros Hx Hw Hn <-. apply Hn. by exists x. Qed.
Section Rights.
Context (k d : TodoDb) (p : Principal) (b : string).
Context (Hok : core_ok (core d)) (Hkeys : keys d) (Hk : ¬ writes k p b) (Hd : ¬ writes d p b).
Notation kept := (kept b).

Lemma off_card c : c ∈ cards d → cd_board_id c ≠ b → cd_id c ∉ ids_on b d.
Proof. intros Hc Hb. apply not_on. intros x Hx E. by rewrite (same_card d Hok x c Hx Hc E). Qed.
(** The card of a locked lookup is on another board. *)
Lemma locked_off known c card bd :
  _card known d c p true = Ok (card, bd) →
  card ∈ cards d ∧ cd_id card = c ∧ bd ∈ boards d ∧ tb_id bd = cd_board_id card ∧ tb_id bd ≠ b ∧ c ∉ ids_on b d.
Proof.
  intros (Hc & <- & Hb & E & _ & Hw)%card_found. assert (tb_id bd ≠ b) by (apply (off_board p b bd d); [done|by apply Hw|done]).
  split_and!; try done. apply off_card; [done|congruence].
Qed.
Lemma configured_off x y b0 : _configurable y b0 p = Ok x → ¬ writes y p b → b0 ≠ b.
Proof. intros (Hx & <- & Hc)%configurable_found Hn. apply (off_board p b x y); [done|by apply configure_writes|done]. Qed.
Lemma column_cards_in col x e : x ∈ _column_cards d col e → x ∈ cards d ∧ cd_column_id x = col.
Proof. unfold _column_cards. rewrite elem_of_sort_by, list_elem_of_filter. naive_solver. Qed.
(** The cards of a column of another board. *)
Lemma off_column col x : col ∈ columns d → tc_board_id col ≠ b → x ∈ cards d → cd_column_id x = tc_id col → cd_id x ∉ ids_on b d.
Proof.
  intros Hcol Hb Hx E. apply off_card; [done|]. destruct (column_of_card d Hok x Hx) as (c & Hc & E1 & E2 & _).
  rewrite <- E2. by rewrite (same_column d Hok c col Hc Hcol) by congruence.
Qed.
Lemma off_live col e i : col ∈ columns d → tc_board_id col ≠ b → i ∈ cd_id <$> _column_cards d (tc_id col) e → i ∉ ids_on b d.
Proof. intros Hcol Hb (x & -> & [Hx E]%column_cards_in)%list_elem_of_fmap. by apply (off_column col). Qed.
Lemma off_append col e new plan : col ∈ columns d → tc_board_id col ≠ b → (∀ i, i ∈ new → i ∉ ids_on b d) →
  _append (_column_cards d (tc_id col) e) new = Ok plan → ∀ i, i ∈ (rp_ranks plan).*1 → i ∉ ids_on b d.
Proof. intros Hcol Hb Hn Hp i [Hi|Hi]%(append_ids _ _ _ Hp); [by apply Hn|by apply (off_live col e)]. Qed.
Lemma off_place col e n c plan : col ∈ columns d → tc_board_id col ≠ b → c ∉ ids_on b d →
  _place (_column_cards d (tc_id col) e) n c = Ok plan → ∀ i, i ∈ (rp_ranks plan).*1 → i ∉ ids_on b d.
Proof. intros Hcol Hb Hn Hp i [->|Hi]%(place_ids _ _ _ _ Hp); [done|by apply (off_live col e)]. Qed.
Lemma fresh_off id : fresh_card d id → id ∉ ids_on b d.
Proof. intros [H _ _ _ _ _] (x & -> & [_ Hx]%list_elem_of_filter)%list_elem_of_fmap. by apply H, list_elem_of_fmap_2. Qed.

(** *** Boards, columns, labels *)
Lemma kept_patch_board b0 n days now d' : patch_board d p b0 n days now = Ok d' → kept d d'.
Proof.
  unfold patch_board. intros (x & Hx & [= <-])%bind_ok. apply configured_off in Hx as Hb; [|done].
  apply kept_touch; [done|]. apply kept_boards; [|done]. apply filter_replace. intros y _ Ey. cbn. by rewrite Ey.
Qed.
Lemma kept_add_column b0 n id now d' : add_column d p b0 n id now = Ok d' → kept d d'.
Proof.
  unfold add_column. intros (x & Hx & [= <-])%bind_ok. apply configured_off in Hx as Hb; [|done].
  apply kept_touch; [done|]. apply kept_columns; [|done]. apply filter_add. by intros y ->%list_elem_of_singleton.
Qed.
Lemma kept_update_column (x : TodoDb) col f :
  (∀ c, c ∈ columns x → tc_id c = col → tc_board_id c ≠ b ∧ tc_board_id (f c) ≠ b) → kept d x → kept d (update_column col f x).
Proof. intros Hf H. apply kept_columns; [|done]. by apply filter_replace. Qed.
Lemma kept_positions x ids : (∀ c, c ∈ columns x → tc_id c ∈ ids → tc_board_id c ≠ b) → kept d x → kept d (set_positions ids x).
Proof.
  intros Hf H. apply kept_columns; [|done]. induction (columns x) as [|c l IH]; [done|]. rewrite fmap_cons, !filter_cons.
  rewrite IH by (intros y Hy; apply Hf; by right). destruct (index_of (tc_id c) ids) as [i|] eqn:E; [|done].
  assert (tc_board_id c ≠ b) by (apply Hf; [by left|]; apply index_of_Some in E; by apply list_elem_of_lookup_2 in E).
  by rewrite !decide_False.
Qed.
Lemma kept_order b0 ids now d' : order_columns d p b0 ids now = Ok d' → kept d d'.
Proof.
  unfold order_columns. intros (x & Hx & (u & Hi%raise_if_ok & [= <-])%bind_ok)%bind_ok. apply configured_off in Hx as Hb; [|done].
  apply kept_touch; [done|]. apply kept_positions; [|done]. intros c Hc Hin.
  apply orb_false_iff in Hi as [[_ Hi]%orb_false_iff _]. pose proof (not_all_in _ _ _ Hi Hin) as Hm. apply bool_decide_eq_true in Hm.
  apply list_elem_of_fmap in Hm as (c' & E & [Hc' <-]%columns_in). by rewrite (same_column d Hok c c' Hc Hc' E).
Qed.
Lemma kept_add_label b0 n c id now d' : add_label k d p b0 n c id now = Ok d' → kept d d'.
Proof.
  unfold add_label. intros (x & Hx & (u & _ & [= <-])%bind_ok)%bind_ok. apply configured_off in Hx as Hb; [|done].
  apply kept_touch; [done|]. apply kept_labels; [|done]. apply filter_add. by intros y ->%list_elem_of_singleton.
Qed.
Lemma label_found l b0 x : _label d b0 l = Ok x → x ∈ labels d ∧ tl_id x = l ∧ tl_board_id x = b0.
Proof.
  unfold _label. intros (y & Hy%or_raise_ok & (u & Hb%raise_if_ok & [= ->])%bind_ok)%bind_ok.
  apply negb_false_iff, bool_decide_eq_true in Hb. split; [by apply find_by_elem in Hy|]. split; [by apply find_by_id in Hy|done].
Qed.
Lemma same_label x y : x ∈ labels d → y ∈ labels d → tl_id x = tl_id y → x = y.
Proof. apply same_row, label_ids, Hok. Qed.
Lemma kept_patch_label b0 l n c now d' : patch_label d p b0 l n c now = Ok d' → kept d d'.
Proof.
  unfold patch_label. intros (x & Hx & (lb & (Hlb & <- & <-)%label_found & (n' & _ & [= <-])%bind_ok)%bind_ok)%bind_ok.
  apply configured_off in Hx as Hb; [|done]. apply kept_touch; [done|]. apply kept_labels; [|done]. apply filter_replace.
  intros y Hy E. cbn. by rewrite (same_label y lb Hy Hlb E).
Qed.
Lemma kept_delete_label b0 l now d' : delete_label d p b0 l now = Ok d' → kept d d'.
Proof.
  unfold delete_label. intros (x & Hx & (lb & (Hlb & <- & <-)%label_found & [= <-])%bind_ok)%bind_ok.
  apply configured_off in Hx as Hb; [|done]. apply kept_touch; [done|]. apply kept_card_labels; [|apply kept_labels; [|done]].
  - apply rows_keep. intros [i l] Hil Hi El. cbn in Hi, El. subst l.
    destruct (core_card_label _ Hok i (tl_id lb) Hil) as (b' & col & dn & Hc & Hl).
    apply core_card_inv in Hc as (card & Hc & E1 & E2 & _).
    apply list_elem_of_fmap in Hl as (lb' & [= E3 E4] & Hlb'). rewrite (same_label lb' lb Hlb' Hlb) in E4 by done.
    revert Hi. rewrite <- E1. apply off_card; [done|congruence].
  - apply filter_sub. intros y Hy Eb E. rewrite (same_label y lb Hy Hlb E) in Eb. done.
Qed.
Lemma kept_clear (x : TodoDb) b0 now : b0 ≠ b → (∀ c, c ∈ cards x → cd_board_id c = b → ∀ col, col ∈ columns x → tc_board_id col = b0 → cd_column_id c ≠ tc_id col) →
  NoDup (tc_id <$> columns x) → kept d x → kept d (clear_done b0 now x).
Proof.
  intros Hb Hc Hids H. unfold clear_done.
  assert (Hl : ∀ c, c ∈ filter (λ c, tc_is_done c = true) (_columns x b0) → c ∈ columns x ∧ tc_board_id c = b0)
    by (intros c [_ ?%columns_in]%list_elem_of_filter; done).
  assert (Hinv : ∀ l, (∀ c, c ∈ l → c ∈ columns x ∧ tc_board_id c = b0) →
    let y := foldr (λ c d, with_cards ((λ x, if bool_decide (cd_column_id x = tc_id c) then set_completed None now x else x) <$> cards d)
                  (update_column (tc_id c) (set_done false) d)) x l in
    kept d y ∧ (λ c, (cd_board_id c, cd_column_id c)) <$> cards y = (λ c, (cd_board_id c, cd_column_id c)) <$> cards x ∧
    (λ c, (tc_id c, tc_board_id c)) <$> columns y = (λ c, (tc_id c, tc_board_id c)) <$> columns x).
  { induction l as [|c l IH]; intros Hin; [done|]. cbn [foldr]. destruct IH as (H1 & H2 & H3); [intros; apply Hin; by right|].
    set (y := foldr _ x l) in *. destruct (Hin c) as [Hcx Hcb]; [by left|]. split_and!.
    - unfold kept. rewrite view_cards; [|cbn].
      + apply kept_update_column; [|done]. intros e He Ee. assert (Ee2 : (tc_id e, tc_board_id e) ∈ (λ c, (tc_id c, tc_board_id c)) <$> columns x)
          by (rewrite <- H3; by apply (list_elem_of_fmap_2 (λ c, (tc_id c, tc_board_id c)))).
        apply list_elem_of_fmap in Ee2 as (e' & [= E1 E2] & He'). rewrite (same_row tc_id _ e' c Hids He' Hcx) in E2 by congruence.
        split; cbn; congruence.
      + assert (Hall : ∀ z, z ∈ cards y → cd_board_id z = b → cd_column_id z ≠ tc_id c).
        { intros z Hz Ez. assert (Hz2 : (cd_board_id z, cd_column_id z) ∈ (λ c, (cd_board_id c, cd_column_id c)) <$> cards x)
            by (rewrite <- H2; by apply (list_elem_of_fmap_2 (λ c, (cd_board_id c, cd_column_id c)))).
          apply list_elem_of_fmap in Hz2 as (z' & [= E1 E2] & Hz'). rewrite E2. apply (Hc z' Hz'); [congruence|done|done]. }
        clear H1 H2. induction (cards y) as [|z r IHr]; [done|]. rewrite fmap_cons, !filter_cons, IHr by (intros; apply Hall; [by right|done]).
        case_bool_decide as Ez; [|done]. rewrite !decide_False; [done| |]; cbn; intros Eb; (destruct (Hall z); [by left|done|done]).
    - cbn. rewrite <- H2, <- list_fmap_compose. apply list_fmap_ext. intros ? z _. cbn. by case_bool_decide.
    - cbn. rewrite <- H3. by apply update_row_map. }
  by apply Hinv.
Qed.
Lemma kept_foldl {A} (f : TodoDb → A → TodoDb) (l : list A) :
  (∀ y x, x ∈ l → kept d y → kept d (f y x)) → ∀ y, kept d y → kept d (foldl f y l).
Proof.
  induction l as [|x l IH]; intros Hf y H; [done|]. cbn [foldl]. apply IH; [intros; apply Hf; [by right|done]|]. apply Hf; [by left|done].
Qed.
Lemma kept_patch_column b0 c n dn now d' : patch_column k d p b0 c n dn now = Ok d' → kept d d'.
Proof.
  unfold patch_column. intros (bd & Hbd & (col & (Hcol & <- & Hb)%column_found & (d2 & H2 & [= <-])%bind_ok)%bind_ok)%bind_ok.
  apply configured_off in Hbd as Hne; [|done]. apply kept_touch; [done|].
  assert (Hone : ∀ e, e ∈ columns d → tc_id e = tc_id col → tc_board_id e ≠ b) by (intros e He Ee; rewrite (same_column d Hok e col He Hcol Ee); congruence).
  set (d1 := match n with Some _ => _ | None => d end) in H2.
  assert (H1 : kept d d1) by (subst d1; destruct n; [|done]; apply kept_update_column; [intros e He Ee; split; [by apply Hone|cbn; by apply Hone]|done]).
  assert (Ek : cards d1 = cards d) by (subst d1; by destruct n).
  assert (Ec : (λ c, (tc_id c, tc_board_id c)) <$> columns d1 = (λ c, (tc_id c, tc_board_id c)) <$> columns d)
    by (subst d1; destruct n; [|done]; cbn; by apply update_row_map).
  assert (Hcols : ∀ e, e ∈ columns d1 → ∃ e', e' ∈ columns d ∧ tc_id e' = tc_id e ∧ tc_board_id e' = tc_board_id e).
  { intros e He%(list_elem_of_fmap_2 (λ c, (tc_id c, tc_board_id c))). rewrite Ec in He. apply list_elem_of_fmap in He as (e' & [= E1 E2] & He'). by exists e'. }
  destruct (dn && negb (tc_is_done col)); [|by injection H2 as <-].
  apply bind_ok in H2 as (actor & _ & [= <-]). set (cleared := update_column _ _ _).
  pose proof (columns_of_cleared b0 (tc_id col) now d1) as Ecl.
  assert (Hclear : kept d cleared).
  { apply kept_update_column.
    - intros e He Ee. assert (Hx : tc_board_id e ≠ b); [|done].
      assert (Hin : (tc_id e, tc_board_id e) ∈ (λ c, (tc_id c, tc_board_id c)) <$> columns (clear_done b0 now d1)) by (by apply (list_elem_of_fmap_2 (λ c, (tc_id c, tc_board_id c)))).
      assert (E3 : (λ c, (tc_id c, tc_board_id c)) <$> columns (clear_done b0 now d1) = (λ c, (tc_id c, tc_board_id c)) <$> columns d1).
      { unfold clear_done. induction (filter _ _) as [|x l IH]; [done|]. cbn [foldr]. rewrite <- IH. cbn. by apply update_row_map. }
      rewrite E3, Ec in Hin. apply list_elem_of_fmap in Hin as (e' & [= E1 E2] & He'). rewrite E2. apply Hone; congruence.
    - apply kept_clear; [done| | |done].
      + rewrite Ek. intros x Hx Ex e (e' & He' & E1 & E2)%Hcols Eb E4. apply (off_column e' x He'); [congruence|done|congruence|].
        apply list_elem_of_fmap. exists x. split; [done|]. by apply list_elem_of_filter.
      + apply (f_equal (fmap fst)) in Ec. rewrite <- !list_fmap_compose in Ec. cbn in Ec. change (tc_id <$> columns d1 = tc_id <$> columns d) in Ec.
        rewrite Ec, <- core_column_ids_eq. apply core_column_ids, Hok. }
  apply kept_foldl; [|done]. intros y x [Hx Ex]%all_column_cards_in Hy.
  assert (Hoff : cd_id x ∉ ids_on b d).
  { assert (Hin : (cd_id x, cd_column_id x) ∈ (λ c, (cd_id c, cd_column_id c)) <$> cards cleared) by (by apply (list_elem_of_fmap_2 (λ c, (cd_id c, cd_column_id c)))).
    unfold cleared in Hin. rewrite Ecl, Ek in Hin. apply list_elem_of_fmap in Hin as (x' & [= E1 E2] & Hx'). rewrite E1.
    apply (off_column col x' Hcol); congruence. }
  unfold enter_done. apply kept_if; [apply kept_ticket_done|]; (apply kept_update_card; [done|by left|done]).
Qed.
Lemma kept_delete_column b0 c to now d' : delete_column k d p b0 c to now = Ok d' → kept d d'.
Proof.
  unfold delete_column. intros (bd & Hbd & (col & (Hcol & <- & Hb)%column_found & (u & Hdone & (d1 & H1 & [= <-])%bind_ok)%bind_ok)%bind_ok)%bind_ok.
  apply configured_off in Hbd as Hne; [|done]. apply kept_touch; [done|].
  assert (Hk1 : kept d d1 ∧ columns d1 = columns d).
  { destruct (_all_column_cards d (tc_id col)) as [|o own] eqn:Eown; [by injection H1 as <-|].
    apply bind_ok in H1 as (tid & _ & (target & Ht%or_raise_ok%find_by_elem & (u2 & Htb%raise_if_ok & (actor & _ & (plan & Hplan & H1)%bind_ok)%bind_ok)%bind_ok)%bind_ok).
    apply orb_false_iff in Htb as [Htb%negb_false_iff%bool_decide_eq_true _].
    assert (Hoff : ∀ x, x ∈ o :: own → cd_id x ∉ ids_on b d).
    { intros x Hx. rewrite <- Eown in Hx. apply all_column_cards_in in Hx as [Hx Ex]. apply (off_column col); congruence. }
    assert (Hd1 : d1 = foldl (into_column col target b0 actor now) (set_ranks plan now d) (o :: own)) by congruence. rewrite Hd1. split.
    - apply kept_foldl.
      + intros y x Hx Hy. specialize (Hoff x Hx). unfold into_column.
        apply kept_if; [apply kept_ticket_done|]; (apply kept_update_card; [done|by left|by apply kept_event]).
      + apply kept_ranks; [|done]. apply (off_append target None (cd_id <$> o :: own) plan Ht); [congruence| |exact Hplan].
        intros i (x & -> & Hx)%list_elem_of_fmap. by apply Hoff.
    - change (columns d) with (columns (set_ranks plan now d)). generalize (set_ranks plan now d). clear.
      induction (o :: own) as [|x l IH]; intros y; [done|]. cbn [foldl]. rewrite IH. unfold into_column. by case_match. }
  destruct Hk1 as [Hk1 Ec]. apply kept_positions.
  - intros e He (e' & E & [He' Eb]%columns_in)%list_elem_of_fmap. cbn [with_columns columns] in He, He'. rewrite Ec in He, He'.
    apply list_elem_of_filter in He as [_ He], He' as [_ He']. rewrite (same_column d Hok e e' He He' E). congruence.
  - apply kept_columns; [|done]. apply filter_sub. intros e He Eb E. rewrite Ec in He. rewrite (same_column d Hok e col He Hcol E) in Eb. congruence.
Qed.

(** *** Cards *)
Lemma kept_new_links x l c ids refs actor now : c ∉ ids_on b d → l = links x → kept d x →
  kept d (with_links (l ++ zip_with (λ i r, _new_link i c r actor now) ids refs) x).
Proof.
  intros Hc -> H. apply kept_links; [|done]. apply rows_add. intros y Hy. apply list_elem_of_lookup in Hy as [n Hy].
  apply lookup_zip_with_Some in Hy as (i & r & -> & _). done.
Qed.
Lemma kept_new_event x l e : ce_card_id e ∉ ids_on b d → l = card_events x → kept d x → kept d (with_card_events (l ++ [e]) x).
Proof. intros He -> H. apply kept_card_events; [|done]. apply rows_add. by intros y ->%list_elem_of_singleton. Qed.
Lemma kept_create readable payload id probe ids now d' :
  fresh_card d id → create readable k d p payload id probe ids now = Ok d' → kept d d'.
Proof.
  intros Hid. apply fresh_off in Hid as Hoff. unfold create.
  intros (actor & _ & (bd & (Hb & _ & _ & Hw)%board_found & (col & Hcol%picked_in & (u1 & _ & (u2 & _ & (u3 & _ &
    (u4 & _ & (plan & Hplan & [= <-])%bind_ok)%bind_ok)%bind_ok)%bind_ok)%bind_ok)%bind_ok)%bind_ok)%bind_ok.
  assert (Hne : tb_id bd ≠ b) by (apply (off_board p b bd k); [done|by apply Hw|done]). apply columns_in in Hcol as [Hcol Ecol].
  assert (Hp : ∀ i, i ∈ (rp_ranks plan).*1 → i ∉ ids_on b d).
  { apply (off_append col None [id] plan Hcol); [congruence|by intros i ->%list_elem_of_singleton|done]. }
  apply kept_mail, kept_touch; [done|]. apply kept_if; [apply kept_ticket_done|]; (apply kept_event; [done|]);
    destruct (cc_event payload); try (apply kept_new_event; [done|done|]); (apply kept_new_links; [done|done|]); eauto 10 with kept.
Qed.
Lemma kept_patch c payload now d' : patch k d p c payload now = Ok d' → kept d d'.
Proof.
  unfold patch. intros (actor & _ & ([card bd] & (Hc & <- & Hb & E & Hne & Hoff)%locked_off & (u & _ & [= <-])%bind_ok)%bind_ok)%bind_ok.
  apply kept_if; [apply kept_touch; [done|]; apply kept_update_card; [done|by left|]|]; repeat apply kept_if; eauto 10 with kept.
Qed.
Lemma known_off c c0 bd : _card None k c p true = Ok (c0, bd) → tb_id bd ≠ b.
Proof. intros (_ & _ & Hb & _ & _ & Hw)%card_found. apply (off_board p b bd k); [done|by apply Hw|done]. Qed.
Lemma kept_move c col before after now d' : move k d p c col before after now = Ok d' → kept d d'.
Proof.
  unfold move. intros (actor & _ & ([c0 bd] & Hbd%known_off & (card & [Hc Hid]%refreshed & (u & Hb%raise_if_ok & (target & Ht%or_raise_ok &
    (slot & _ & (plan & Hplan & [= <-])%bind_ok)%bind_ok)%bind_ok)%bind_ok)%bind_ok)%bind_ok)%bind_ok.
  apply negb_false_iff, bool_decide_eq_true in Hb. apply find_by_elem, columns_in in Ht as [Ht Eb].
  assert (Hoff : c ∉ ids_on b d) by (rewrite <- Hid; apply off_card; [done|congruence]).
  assert (Hp : ∀ i, i ∈ (rp_ranks plan).*1 → i ∉ ids_on b d) by (apply (off_place target (Some c) slot c plan Ht); [congruence|done|done]).
  match goal with |- kept d (if _ then _touch _ _ _ _ (_touch _ _ _ _ ?x) else _) => assert (Hx : kept d x); [|apply kept_if; eauto with kept] end.
  apply kept_if; [apply kept_update_card; [done|by left|by apply kept_ranks]|].
  apply kept_if; [apply kept_ticket_done|]; (apply kept_update_card; [done|by left|apply kept_event; [done|by apply kept_ranks]]).
Qed.
Lemma kept_transfer c b1 col before after now d' : transfer k d p c b1 col before after now = Ok d' → kept d d'.
Proof.
  unfold transfer.
  intros (actor & _ & ([c0 source] & Hs%known_off & (u1 & _ & (target & (Ht & _ & _ & Hw)%board_found & (u2 & _ &
    (card & [Hc Hid]%refreshed & (u3 & Hb%raise_if_ok & (u4 & _ & (column & Hcol%picked_in & (slot & _ & (plan & Hplan & [= <-])%bind_ok)
    %bind_ok)%bind_ok)%bind_ok)%bind_ok)%bind_ok)%bind_ok)%bind_ok)%bind_ok)%bind_ok)%bind_ok.
  apply negb_false_iff, bool_decide_eq_true in Hb. apply columns_in in Hcol as [Hcol Ecol].
  assert (Htb : tb_id target ≠ b) by (apply (off_board p b target k); [done|by apply Hw|done]).
  assert (Hoff : c ∉ ids_on b d) by (rewrite <- Hid; apply off_card; [done|congruence]).
  assert (Hp : ∀ i, i ∈ (rp_ranks plan).*1 → i ∉ ids_on b d) by (apply (off_place column None slot c plan Hcol); [congruence|done|done]).
  match goal with |- kept d (if _ then _touch _ _ _ _ (_touch _ _ _ _ (_touch _ _ _ _ ?x)) else _) =>
    assert (Hx : kept d x); [|apply kept_if; eauto with kept] end.
  apply kept_if; [apply kept_ticket_done|]; (apply kept_update_card; [done|by right|apply kept_ranks; [done|]]); apply kept_if;
    try (apply kept_event; [done|]; apply kept_add_assignees; [done|]); (apply kept_event; [done|]; apply kept_add_labels; [done|];
    apply kept_assignees; [|apply kept_card_labels; [|done]]; apply rows_keep; intros x _ Hx; [intros [E _]|intros E]; by rewrite E in Hx).
Qed.
Lemma kept_archive c now d' : archive_card k d p c now = Ok d' → kept d d'.
Proof.
  unfold archive_card. intros (actor & _ & ([card bd] & (Hc & Hid & _ & _ & Hne & Hoff)%locked_off & [= <-])%bind_ok)%bind_ok.
  apply kept_if; [|done]. apply kept_touch; [done|]. apply kept_event; [done|]. apply kept_update_card; [done|by left|done].
Qed.
Lemma kept_restore c now d' : restore_card k d p c now = Ok d' → kept d d'.
Proof.
  unfold restore_card. intros (actor & _ & ([card bd] & (Hc & Hid & _ & _ & Hne & Hoff)%locked_off & [= <-])%bind_ok)%bind_ok.
  apply kept_if; [|done]. apply kept_touch; [done|]. apply kept_event; [done|]. apply kept_update_card; [done|by left|done].
Qed.
Lemma kept_add_assignee c who now d' : add_assignee k d p c who now = Ok d' → kept d d'.
Proof.
  unfold add_assignee. intros (actor & _ & ([card bd] & (Hc & Hid & _ & _ & Hne & Hoff)%locked_off & (u & _ & [= <-])%bind_ok)%bind_ok)%bind_ok.
  eauto 10 with kept.
Qed.
Lemma kept_remove_assignee c who now d' : remove_assignee k d p c who now = Ok d' → kept d d'.
Proof.
  unfold remove_assignee. intros (actor & _ & ([card bd] & (Hc & Hid & _ & _ & Hne & Hoff)%locked_off & [= <-])%bind_ok)%bind_ok.
  apply kept_if; [|done]. apply kept_touch; [done|]. apply kept_event; [done|]. apply kept_assignees; [|done].
  apply rows_keep. intros x _ Hx ->. done.
Qed.
Lemma kept_add_card_label c l now d' : add_card_label k d p c l now = Ok d' → kept d d'.
Proof.
  unfold add_card_label. intros ([card bd] & (Hc & Hid & _ & _ & Hne & Hoff)%locked_off & (u & _ & [= <-])%bind_ok)%bind_ok.
  eauto 10 with kept.
Qed.
Lemma kept_remove_card_label c l now d' : remove_card_label k d p c l now = Ok d' → kept d d'.
Proof.
  unfold remove_card_label. intros ([card bd] & (Hc & Hid & _ & _ & Hne & Hoff)%locked_off & [= <-])%bind_ok.
  apply kept_touch; [done|]. apply kept_card_labels; [|done]. apply rows_keep. intros x _ Hx ->. done.
Qed.
Lemma kept_add_item c t id now d' : add_check_item k d p c t id now = Ok d' → kept d d'.
Proof.
  unfold add_check_item. intros (actor & _ & ([card bd] & (Hc & Hid & _ & _ & Hne & Hoff)%locked_off & [= <-])%bind_ok)%bind_ok.
  apply kept_touch; [done|]. apply kept_event; [done|]. apply kept_items; [|done]. apply rows_add. by intros x ->%list_elem_of_singleton.
Qed.
Lemma item_found c i x : _check_item d c i = Ok x → x ∈ check_items d ∧ ci_id x = i ∧ ci_card_id x = c.
Proof.
  unfold _check_item. intros (y & Hy%or_raise_ok & (u & Hb%raise_if_ok & [= ->])%bind_ok)%bind_ok.
  apply negb_false_iff, bool_decide_eq_true in Hb. split; [by apply find_by_elem in Hy|]. split; [by apply find_by_id in Hy|done].
Qed.
Lemma item_on c it x : it ∈ check_items d → ci_card_id it = c → c ∉ ids_on b d → x ∈ check_items d → ci_id x = ci_id it → ci_card_id x ∉ ids_on b d.
Proof. intros Hit <- Hc Hx E. by rewrite (same_row ci_id (check_items d) x it (proj1 Hkeys) Hx Hit E). Qed.
Lemma kept_update_item (x : TodoDb) c it f :
  it ∈ check_items d → ci_card_id it = c → c ∉ ids_on b d → (∀ y, ci_card_id (f y) = ci_card_id y) →
  (∀ y, y ∈ check_items x → ∃ z, z ∈ check_items d ∧ ci_id z = ci_id y ∧ ci_card_id z = ci_card_id y) →
  kept d x → kept d (update_item (ci_id it) f x).
Proof.
  intros Hit Hc Hoff Hf Hx H. apply kept_items; [|done]. apply rows_update. intros y (z & Hz & E1 & E2)%Hx E. rewrite Hf, <- E2.
  split; apply (item_on c it); congruence.
Qed.
Lemma kept_place_item (x : TodoDb) c it n :
  it ∈ check_items d → ci_card_id it = c → c ∉ ids_on b d →
  (∀ y, y ∈ check_items x → ∃ z, z ∈ check_items d ∧ ci_id z = ci_id y ∧ ci_card_id z = ci_card_id y) →
  kept d x → kept d (place_item x c (ci_id it) n).
Proof.
  intros Hit Hc Hoff Hx H. apply kept_items; [|done]. unfold rows_of.
  set (order := take _ _ ++ _). assert (Ho : ∀ y, y ∈ check_items x → ci_id y ∈ order → ci_card_id y ∉ ids_on b d).
  { intros y Hy Hin. destruct (Hx y Hy) as (z & Hz & E1 & E2). rewrite <- E2.
    assert (Hw : ∃ w, w ∈ check_items d ∧ ci_card_id w = c ∧ ci_id w = ci_id y).
    { assert (Hc2 : ci_id y ∈ ci_id it :: filter (λ i, i ≠ ci_id it) (ci_id <$> items_of x c)).
      { unfold order in Hin. set (others := filter _ _) in *. rewrite <- (take_drop (Nat.min n (length others)) others).
        revert Hin. rewrite !elem_of_app, !elem_of_cons, elem_of_app. tauto. }
      apply elem_of_cons in Hc2 as [E|[_ Hc2]%list_elem_of_filter]; [by exists it|]. apply list_elem_of_fmap in Hc2 as (v & E & Hv).
      unfold items_of in Hv. apply elem_of_sort_by, list_elem_of_filter in Hv as [Ev Hv]. destruct (Hx v Hv) as (w & Hw & F1 & F2).
      exists w. split; [done|]. split; congruence. }
    destruct Hw as (w & Hw & Ew & Ei). apply (item_on c w); congruence. }
  clear Hx H. induction (check_items x) as [|y l IH]; [done|]. rewrite fmap_cons, !filter_cons, IH by (intros; apply Ho; [by right|done]).
  destruct (index_of (ci_id y) order) as [i|] eqn:E; [|done]. apply index_of_Some, list_elem_of_lookup_2 in E.
  assert (ci_card_id y ∉ ids_on b d) by (apply Ho; [by left|done]). by rewrite !decide_False.
Qed.
Definition items_from (x : TodoDb) : Prop :=
  ∀ y, y ∈ check_items x → ∃ z, z ∈ check_items d ∧ ci_id z = ci_id y ∧ ci_card_id z = ci_card_id y.
Lemma items_from_update (x : TodoDb) i f : (∀ y, ci_id (f y) = ci_id y ∧ ci_card_id (f y) = ci_card_id y) → items_from x → items_from (update_item i f x).
Proof.
  intros Hf Hx y (z & Hz & [-> |[_ ->]])%update_row_in; [by apply Hx|]. destruct (Hx z Hz) as (w & Hw & E1 & E2).
  destruct (Hf z) as [F1 F2]. exists w. rewrite F1, F2. done.
Qed.
Lemma kept_patch_item c i t dn pos now d' : patch_check_item k d p c i t dn pos now = Ok d' → kept d d'.
Proof.
  unfold patch_check_item.
  intros (actor & _ & ([card bd] & (Hc & Hid & _ & _ & Hne & Hoff)%locked_off & (it & (Hit & <- & Hic)%item_found & [= <-])%bind_ok)%bind_ok)%bind_ok.
  apply kept_touch; [done|].
  set (d1 := if bool_decide (_ = ci_text it) then d else _). set (d2 := if bool_decide (_ = ci_done it) then d1 else _).
  assert (H1 : kept d d1 ∧ items_from d1).
  { subst d1. case_match; [split; [done|intros y Hy; by exists y]|]. split; [apply kept_event; [done|]; apply (kept_update_item d c it); try done|].
    - intros y Hy. by exists y.
    - apply items_from_update; [done|]. intros y Hy. by exists y. }
  assert (H2 : kept d d2 ∧ items_from d2).
  { subst d2. case_match; [done|]. split; [apply kept_event; [done|]; apply (kept_update_item d1 c it); try done; apply H1|].
    apply items_from_update; [done|apply H1]. }
  destruct pos as [n|]; [|apply H2]. apply (kept_place_item d2 c it); try done; apply H2.
Qed.
Lemma kept_delete_item c i now d' : delete_check_item k d p c i now = Ok d' → kept d d'.
Proof.
  unfold delete_check_item.
  intros (actor & _ & ([card bd] & (Hc & Hid & _ & _ & Hne & Hoff)%locked_off & (it & (Hit & <- & Hic)%item_found & [= <-])%bind_ok)%bind_ok)%bind_ok.
  apply kept_touch; [done|]. apply kept_event; [done|]. apply kept_items; [|done]. apply rows_keep. intros x Hx Hin E.
  by apply (item_on c it x Hit Hic Hoff Hx E).
Qed.

(** *** Links, Events, comments *)
Lemma kept_link_row x id c ref actor now : c ∉ ids_on b d → kept d x → kept d (add_link_row id c ref actor now x).
Proof.
  intros Hc H. apply kept_event; [done|]. apply kept_links; [|done]. apply rows_add. by intros y ->%list_elem_of_singleton.
Qed.
Lemma kept_add_link readable c kind t id now d' : add_link readable k d p c kind t id now = Ok d' → kept d d'.
Proof.
  unfold add_link. intros (actor & _ & ([card bd] & (Hc & Hid & _ & _ & Hne & Hoff)%locked_off & (u1 & _ & (u2 & _ & (u3 & _ & (u4 & _ & [= <-])
    %bind_ok)%bind_ok)%bind_ok)%bind_ok)%bind_ok)%bind_ok.
  apply kept_touch; [done|]. by apply kept_link_row.
Qed.
Lemma kept_remove_link c l now d' : remove_link k d p c l now = Ok d' → kept d d'.
Proof.
  unfold remove_link. intros (actor & _ & ([card bd] & (Hc & Hid & _ & _ & Hne & Hoff)%locked_off & (lk & Hlk%or_raise_ok & (u & Hl%raise_if_ok & [= <-])
    %bind_ok)%bind_ok)%bind_ok)%bind_ok.
  apply negb_false_iff, bool_decide_eq_true in Hl. apply find_by_id in Hlk as Ei. apply find_by_elem in Hlk.
  apply kept_touch; [done|]. apply kept_event; [done|]. apply kept_links; [|done]. apply rows_keep. intros x Hx Hin E.
  rewrite (same_row lk_id (links d) x lk (proj2 (proj2 Hkeys)) Hx Hlk) in Hin by congruence. congruence.
Qed.
Lemma kept_set_event c payload now d' : set_event k d p c payload now = Ok d' → kept d d'.
Proof.
  unfold set_event. intros (actor & _ & ([card bd] & (Hc & Hid & _ & _ & Hne & Hoff)%locked_off & (u1 & _ & (d1 & H1 & [= <-])
    %bind_ok)%bind_ok)%bind_ok)%bind_ok.
  apply kept_touch; [done|]. apply kept_update_card; [done|by left|]. destruct (is_event d c).
  - injection H1 as <-. apply kept_card_events; [|done]. apply rows_update. intros x _ Ex. cbn. by rewrite Ex.
  - apply bind_ok in H1 as (u2 & _ & [= <-]). by apply kept_new_event.
Qed.
Lemma kept_follow_up c id ids now d' : fresh_card d id → follow_up k d p c id ids now = Ok d' → kept d d'.
Proof.
  intros Hid. apply fresh_off in Hid as Hoff. unfold follow_up.
  intros (actor & _ & ([card bd] & (Hc & _ & _ & _ & Hne & _)%locked_off & (row & _ & (col & Hcol%or_raise_ok%head_in & (plan & Hplan & [= <-])
    %bind_ok)%bind_ok)%bind_ok)%bind_ok)%bind_ok.
  apply columns_in in Hcol as [Hcol Ecol].
  assert (Hp : ∀ i, i ∈ (rp_ranks plan).*1 → i ∉ ids_on b d).
  { apply (off_append col None [id] plan Hcol); [congruence|by intros i ->%list_elem_of_singleton|done]. }
  apply kept_touch; [done|]. apply kept_event; [done|]. apply kept_new_event; [done|done|]. apply kept_items.
  - apply rows_add. intros x Hx. apply list_elem_of_lookup in Hx as [n Hx]. apply lookup_zip_with_Some in Hx as (i & it & -> & _). done.
  - apply kept_add_labels; [done|]. by apply kept_add_card.
Qed.
Lemma kept_create_series n id d' : create_series d p n id = Ok d' → kept d d'.
Proof. unfold create_series. intros H. unbind H. by subst. Qed.
Lemma comment_found c m cm me : _own_comment d c m p = Ok (cm, me) → cm ∈ comments d ∧ cm_id cm = m ∧ cm_card_id cm = c.
Proof.
  unfold _own_comment. intros (x & Hx%or_raise_ok & (u & Hb%raise_if_ok & (me' & _ & (u2 & _ & [= -> _])%bind_ok)%bind_ok)%bind_ok)%bind_ok.
  apply orb_false_iff in Hb as [Hb%negb_false_iff%bool_decide_eq_true _].
  split; [by apply find_by_elem in Hx|]. split; [by apply find_by_id in Hx|done].
Qed.
Lemma kept_update_comment cm f : cm ∈ comments d → cm_card_id cm ∉ ids_on b d → (∀ y, cm_card_id (f y) = cm_card_id y) →
  kept d (with_comments (update_row cm_id (cm_id cm) f (comments d)) d).
Proof.
  intros Hcm Hoff Hf. apply kept_comments; [|done]. apply rows_update. intros x Hx E. rewrite Hf.
  by rewrite (same_row cm_id (comments d) x cm (proj1 (proj2 Hkeys)) Hx Hcm E).
Qed.
Lemma kept_add_comment c body ms id now d' : add_comment k d p c body ms id now = Ok d' → kept d d'.
Proof.
  unfold add_comment. intros (actor & _ & ([card bd] & (Hc & Hid & _ & _ & Hne & Hoff)%locked_off & (u & _ & [= <-])%bind_ok)%bind_ok)%bind_ok.
  apply kept_mail, kept_touch; [done|]. apply kept_comments; [|done]. apply rows_add. by intros y ->%list_elem_of_singleton.
Qed.
Lemma kept_edit_comment c m body ms now d' : edit_comment k d p c m body ms now = Ok d' → kept d d'.
Proof.
  unfold edit_comment. intros ([card bd] & (Hc & Hid & _ & _ & Hne & Hoff)%locked_off & ([cm me] & (Hcm & <- & Ec)%comment_found & (u & _ & [= <-])%bind_ok)%bind_ok)%bind_ok.
  apply kept_mail, kept_touch; [done|]. apply kept_update_comment; [done|by rewrite Ec|done].
Qed.
Lemma kept_delete_comment c m now d' : delete_comment k d p c m now = Ok d' → kept d d'.
Proof.
  unfold delete_comment. intros ([card bd] & (Hc & Hid & _ & _ & Hne & Hoff)%locked_off & ([cm me] & (Hcm & <- & Ec)%comment_found & [= <-])%bind_ok)%bind_ok.
  apply kept_touch; [done|]. apply kept_update_comment; [done|by rewrite Ec|done].
Qed.
Lemma kept_agenda c g card item id now d' :
  card_for_agenda k d p c g = Ok card → link_agenda_item d p card item id now = Ok d' → kept d d'.
Proof.
  unfold card_for_agenda, link_agenda_item.
  intros ([c0 bd] & (Hc & Hid & Hbd & Eb & Hne & Hoff)%locked_off & (u1 & _ & (u2 & _ & [= ->])%bind_ok)%bind_ok)%bind_ok (actor & _ & [= <-])%bind_ok.
  apply kept_if; [done|]. rewrite <- Hid in Hoff. destruct (find_by tb_id (cd_board_id card) _) as [x|] eqn:Ex; [|by apply kept_link_row].
  apply kept_touch; [apply find_by_id in Ex; congruence|by apply kept_link_row].
Qed.
Lemma kept_complete c b0 actor now d' m : b0 ≠ b → complete d c b0 actor now = Ok (d', m) → kept d d'.
Proof.
  intros Hb0. unfold complete. intros (card & [Hc Hid]%refreshed & H)%bind_ok. destruct (negb _) eqn:Hb; [by injection H as <- _|].
  apply negb_false_iff, bool_decide_eq_true in Hb. destruct (head _) as [dc|] eqn:Hh; [|by injection H as <- _].
  apply head_in, list_elem_of_filter in Hh as [_ [Hcol Ecol]%columns_in]. destruct (_ || _); [by injection H as <- _|].
  apply bind_ok in H as (plan & Hplan & [= <- _]).
  assert (Hoff : c ∉ ids_on b d) by (rewrite <- Hid; apply off_card; [done|congruence]).
  assert (Hp : ∀ i, i ∈ (rp_ranks plan).*1 → i ∉ ids_on b d).
  { apply (off_append dc (Some c) [c] plan Hcol); [congruence|by intros i ->%list_elem_of_singleton|done]. }
  apply kept_touch; [done|]. apply kept_ticket_done, kept_update_card; [done|by left|]. apply kept_event; [done|]. by apply kept_ranks.
Qed.
End Rights.
Lemma kept_complete_all b l actor now : ∀ d m d' m',
  core_ok (core d) → (∀ cb, cb ∈ l → tb_id cb.2 ≠ b) → complete_all l actor now d m = Ok (d', m') → kept b d d'.
Proof.
  induction l as [|[c x] l IH]; intros d m d' m' Hok Hl H; cbn [complete_all] in H; [by injection H as <- _|].
  apply bind_ok in H as ([d1 m1] & H1 & H). pose proof (sim_complete d Hok _ _ _ _ _ _ H1) as Hs.
  apply (kept_complete d b Hok) in H1; [|apply (Hl (c, x)); by left].
  unfold kept in *. rewrite <- H1. eapply IH; [by eapply core_steps_ok|intros; apply Hl; by right|exact H].
Qed.
Lemma kept_complete_ticket k d p b t now d' :
  core_ok (core d) → ¬ writes k p b → complete_ticket k d t p now = Ok d' → kept b d d'.
Proof.
  intros Hok Hk. unfold complete_ticket. destruct (me k p) as [actor|]; [|by intros [= <-]].
  intros ([d1 m] & H & [= <-])%bind_ok. cbn [fst snd]. apply kept_if; [|done]. eapply kept_complete_all; [done| |exact H].
  intros [c x] [Hw Hin]%elem_of_sort_by%list_elem_of_filter. unfold _open_cards in Hin. apply list_elem_of_filter in Hin as [_ Hin].
  unfold with_board in Hin. apply list_elem_of_omap in Hin as (c' & _ & Hx). destruct (board_of k c') as [x'|] eqn:Eb; [|done].
  injection Hx as -> ->. unfold board_of in Eb. apply find_by_elem in Eb. by apply (off_board p b x k).
Qed.
(** The lemma of the operation at its equation, which fixes the states. *)
Ltac use lem := match goal with H : _ = Ok _ |- _ => eapply lem in H; [exact H|eassumption..] end.
(** A request leaves every board alone that its author does not write. *)
Lemma request_kept readable k d p b d' :
  core_ok (core d) → keys d → ¬ writes k p b → ¬ writes d p b → request readable k d p d' → kept b d d'.
Proof.
  intros Hok Hkeys Hk Hd [[]|[[]|[]]].
  - use kept_patch_board.
  - use kept_add_column.
  - use kept_patch_column.
  - use kept_order.
  - use kept_delete_column.
  - use kept_add_label.
  - use kept_patch_label.
  - use kept_delete_label.
  - use kept_create.
  - use kept_patch.
  - use kept_move.
  - use kept_transfer.
  - use kept_archive.
  - use kept_restore.
  - use kept_add_assignee.
  - use kept_remove_assignee.
  - use kept_add_card_label.
  - use kept_remove_card_label.
  - use kept_add_item.
  - use kept_patch_item.
  - use kept_delete_item.
  - use kept_add_link.
  - use kept_remove_link.
  - use kept_set_event.
  - match goal with H : remove_event _ _ _ = _ |- _ => unfold remove_event in H; by unbind H end.
  - use kept_follow_up.
  - use kept_create_series.
  - use kept_add_comment.
  - use kept_edit_comment.
  - use kept_delete_comment.
  - match goal with H : link_agenda_item _ _ _ _ _ _ = _ |- _ => eapply kept_agenda in H; [exact H|eassumption..] end.
  - use kept_complete_ticket.
Qed.
