(* ===== verification/TodoOrder.v ===== *)
(** Where a move puts a card: the order of the cards in a column before and after it. *)

From stdpp Require Import gmap strings.
From S2P Require Import Prelude PyStr PyNum PyValue PyDate Lexorank LexorankFacts FlowDb Policy Todo TodoService TodoCards TodoEvents TodoCore TodoSim TodoMerge TodoRights.

(** ** The order of the cards *)
Lemma card_leb_total a b : card_leb a b = true ∨ card_leb b a = true.
Proof.
  unfold card_leb. destruct (decide (cd_rank a = cd_rank b)) as [E|E].
  - rewrite E, str_ltb_irrefl, !bool_decide_true by done. cbn. unfold str_leb.
    destruct (decide (cd_id a = cd_id b)) as [->|Hne]; [left; by rewrite str_ltb_irrefl|].
    destruct (str_ltb_total _ _ Hne) as [H|H].
    + left. destruct (str_ltb (cd_id b) (cd_id a)) eqn:E'; [|done]. pose proof (str_ltb_trans _ _ _ H E') as Hx. by rewrite str_ltb_irrefl in Hx.
    + right. destruct (str_ltb (cd_id a) (cd_id b)) eqn:E'; [|done]. pose proof (str_ltb_trans _ _ _ H E') as Hx. by rewrite str_ltb_irrefl in Hx.
  - destruct (str_ltb_total _ _ E) as [->| ->]; [by left|by right].
Qed.
Lemma str_leb_antisym s t : str_leb s t = true → str_leb t s = true → s = t.
Proof.
  unfold str_leb. intros H1%negb_true_iff H2%negb_true_iff. destruct (decide (s = t)) as [|Hne]; [done|].
  destruct (str_ltb_total _ _ Hne); congruence.
Qed.
Lemma ltb_leb s t : str_ltb s t = true → str_leb s t = true.
Proof.
  intros H. unfold str_leb. destruct (str_ltb t s) eqn:E; [|done]. pose proof (str_ltb_trans _ _ _ H E) as Hx. by rewrite str_ltb_irrefl in Hx.
Qed.
Lemma leb_ltb_trans s t u : str_leb s t = true → str_ltb t u = true → str_ltb s u = true.
Proof.
  unfold str_leb. intros H1%negb_true_iff H2. destruct (decide (s = t)) as [->|Hne]; [done|].
  destruct (str_ltb_total _ _ Hne) as [H|H]; [by eapply str_ltb_trans|congruence].
Qed.
Lemma ltb_leb_trans s t u : str_ltb s t = true → str_leb t u = true → str_ltb s u = true.
Proof.
  unfold str_leb. intros H1 H2%negb_true_iff. destruct (decide (t = u)) as [<-|Hne]; [done|].
  destruct (str_ltb_total _ _ Hne) as [H|H]; [by eapply str_ltb_trans|congruence].
Qed.
Lemma leb_trans s t u : str_leb s t = true → str_leb t u = true → str_leb s u = true.
Proof.
  intros H1 H2. destruct (decide (t = u)) as [<-|Hne]; [done|]. destruct (str_ltb_total _ _ Hne) as [H|H].
  - apply ltb_leb. by eapply leb_ltb_trans.
  - unfold str_leb in H2. by rewrite H in H2.
Qed.
Lemma card_leb_rank a b : card_leb a b = true → str_leb (cd_rank a) (cd_rank b) = true.
Proof.
  unfold card_leb. intros [H|[E _]%andb_prop]%orb_prop; [by apply ltb_leb|]. apply bool_decide_eq_true in E. rewrite E.
  unfold str_leb. by rewrite str_ltb_irrefl.
Qed.
Lemma rank_card_leb a b : str_ltb (cd_rank a) (cd_rank b) = true → card_leb a b = true.
Proof. unfold card_leb. by intros ->. Qed.
Lemma card_leb_trans a b c : card_leb a b = true → card_leb b c = true → card_leb a c = true.
Proof.
  intros H1 H2. pose proof (card_leb_rank _ _ H1) as R1. pose proof (card_leb_rank _ _ H2) as R2. unfold card_leb in *.
  destruct (decide (cd_rank a = cd_rank b)) as [E1|E1].
  - rewrite E1 in *. rewrite str_ltb_irrefl, bool_decide_true in H1 by done. cbn in H1.
    apply orb_prop in H2 as [H2|[H2 H3]%andb_prop]; [by rewrite H2|]. rewrite H2, (leb_trans _ _ _ H1 H3). by rewrite orb_true_r.
  - assert (str_ltb (cd_rank a) (cd_rank b) = true) as Hlt by (destruct (str_ltb_total _ _ E1) as [H|H]; [done|by unfold str_leb in R1; rewrite H in R1]).
    by rewrite (ltb_leb_trans _ _ _ Hlt R2).
Qed.
Lemma card_leb_antisym a b : card_leb a b = true → card_leb b a = true → cd_id a = cd_id b.
Proof.
  intros H1 H2. assert (E : cd_rank a = cd_rank b) by (by apply str_leb_antisym; apply card_leb_rank).
  unfold card_leb in *. rewrite E, str_ltb_irrefl, bool_decide_true in * by done. cbn in *. by apply str_leb_antisym.
Qed.
Lemma sorted_cards l : StronglySorted (λ a b, card_leb a b = true) (sort_by card_leb l).
Proof. apply sort_by_sorted; [apply card_leb_total|apply card_leb_trans]. Qed.
(** Cards of different ids in order are the result of their sort. *)
Lemma sort_unique l l' :
  NoDup (cd_id <$> l') → StronglySorted (λ a b, card_leb a b = true) l' → l ≡ₚ l' → sort_by card_leb l = l'.
Proof.
  intros Hnd Hs Hp. apply (StronglySorted_unique_strong (λ a b, card_leb a b = true)).
  - intros a b Ha Hb H1 H2. apply (same_row cd_id l' a b Hnd); [|done|by apply card_leb_antisym].
    rewrite elem_of_sort_by in Ha. by rewrite <- Hp.
  - apply sorted_cards.
  - done.
  - by rewrite sort_by_Permutation.
Qed.

(** ** A new rank at a place *)
Lemma sorted_app (l l' : list TodoCard) :
  StronglySorted (λ a b, card_leb a b = true) l → StronglySorted (λ a b, card_leb a b = true) l' →
  (∀ x y, x ∈ l → y ∈ l' → card_leb x y = true) → StronglySorted (λ a b, card_leb a b = true) (l ++ l').
Proof.
  intros Hl Hl' H. induction Hl as [|x l Hs IH Hx]; [done|]. cbn. constructor.
  - apply IH. intros; apply H; [by right|done].
  - apply Forall_app. split; [done|]. apply Forall_forall. intros y Hy. apply H; [by left|done].
Qed.
Lemma sorted_ranks (l : list TodoCard) : ascending (cd_rank <$> l) → StronglySorted (λ a b, card_leb a b = true) l.
Proof.
  induction l as [|x l IH]; intros H; [constructor|]. inversion H as [|? ? Hs Hx]; subst. constructor; [by apply IH|].
  apply Forall_forall. intros y Hy. rewrite Forall_forall in Hx. apply rank_card_leb, Hx. by apply list_elem_of_fmap_2.
Qed.
Lemma dict_get_zip (ids rs : list string) i r : NoDup ids → (i, r) ∈ zip ids rs → dict_get i (zip ids rs) = Some r.
Proof.
  revert rs. induction ids as [|j ids IH]; intros [|s rs] Hnd H; cbn in *; try by apply not_elem_of_nil in H.
  apply NoDup_cons in Hnd as [Hj Hnd]. apply elem_of_cons in H as [[= -> ->]|H]; [by rewrite decide_True|].
  assert (i ∈ ids) by (apply (list_elem_of_fmap_2 fst) in H; cbn in H; revert H; generalize ids rs; clear;
    induction ids as [|a l IHl]; intros [|b rs] H; cbn in H; try (by apply not_elem_of_nil in H); apply elem_of_cons in H as [->|H]; [left|right; by eapply IHl]).
  rewrite decide_False by (by intros ->). by apply IH.
Qed.
Lemma ranked_zip now (l : list TodoCard) (rs : list string) :
  NoDup (cd_id <$> l) → length rs = length l →
  cd_rank <$> (ranked (MkRankPlan (zip (cd_id <$> l) rs) true) now <$> l) = rs.
Proof.
  intros Hnd Hlen. apply list_eq_same_length with (n := length l); [done|by rewrite !length_fmap|].
  intros i x y Hi Hx Hy. rewrite !list_lookup_fmap in Hx. destruct (l !! i) as [c|] eqn:Ec; [|done]. cbn in Hx. injection Hx as <-.
  unfold ranked. cbn [rp_ranks rp_respread]. rewrite (dict_get_zip _ _ _ y); [done|done|].
  apply list_elem_of_lookup. exists i. apply lookup_zip_with_Some. exists (cd_id c), y. split; [done|]. split; [|done]. by rewrite list_lookup_fmap, Ec.
Qed.
Lemma between_result low high : (∃ s, between low high = Ok s ∧ below low s ∧ above high s) ∨ between low high = Err RankError.
Proof. destruct (between_cases low high) as [[_ (s & Hs & _ & Hl & Hh)]|[_ H]]; [left; by exists s|by right]. Qed.
Lemma rank_result low high : (∃ s, _rank low high = Ok s ∧ below low s ∧ above high s) ∨ _rank low high = Err RankError.
Proof.
  unfold _rank. destruct (between_result low high) as [(s & -> & H)| ->]; [|by right]. rewrite bind_Ok_l. destruct (MAX_LENGTH <? _); [by right|].
  left. by exists s.
Qed.
(** A card gets a place among the cards of a column in every case, and the column is in order after it. *)
Section Place.
Context (live : list TodoCard) (n : nat) (x : TodoCard) (now : Z).
Context (Hs : StronglySorted (λ a b, card_leb a b = true) live) (Hn : (n ≤ length live)%nat).
Context (Hnd : NoDup (cd_id <$> live)) (Hx : cd_id x ∉ cd_id <$> live).

Lemma placed_once plan r : rp_ranks plan = [(cd_id x, r)] → rp_respread plan = false →
  below (if (0 <? n)%nat then cd_rank <$> live !! (n - 1)%nat else None) r → above (cd_rank <$> live !! n) r →
  StronglySorted (λ a b, card_leb a b = true)
    ((ranked plan now <$> take n live) ++ ranked plan now x :: (ranked plan now <$> drop n live)).
Proof.
  intros Hp Hf Hlow Hhigh.
  assert (Hother : ∀ l : list TodoCard, (∀ y, y ∈ l → y ∈ live) → ranked plan now <$> l = l).
  { intros l Hl. rewrite <- (list_fmap_id l) at 2. apply list_fmap_ext. intros i y Hy%list_elem_of_lookup_2. unfold ranked. rewrite Hp. cbn.
    rewrite decide_False; [done|]. intros E. apply Hx. rewrite <- E. by apply list_elem_of_fmap_2, Hl. }
  assert (Hxr : cd_rank (ranked plan now x) = r) by (unfold ranked; rewrite Hp; cbn; by rewrite decide_True).
  rewrite !Hother; [|intros y Hy; rewrite <- (take_drop n live); apply elem_of_app; by right|intros y Hy; rewrite <- (take_drop n live); apply elem_of_app; by left].
  assert (Hsplit := Hs). rewrite <- (take_drop n live) in Hsplit. apply StronglySorted_app in Hsplit as (Hcross & Hs1 & Hs2).
  apply sorted_app; [done| |].
  - constructor; [done|]. apply Forall_forall. intros y Hy. apply rank_card_leb. rewrite Hxr.
    destruct (drop n live) as [|z rest] eqn:Ed; [by apply not_elem_of_nil in Hy|].
    assert (Hz : live !! n = Some z) by (rewrite <- (Nat.add_0_r n), <- lookup_drop; by rewrite Ed). rewrite Hz in Hhigh. cbn in Hhigh.
    apply elem_of_cons in Hy as [->|Hy]; [done|]. apply (ltb_leb_trans _ (cd_rank z)); [done|]. apply card_leb_rank.
    inversion Hs2 as [|? ? _ Hz2]; subst. rewrite Forall_forall in Hz2. by apply Hz2.
  - intros y z Hy Hz. assert (Hyx : str_ltb (cd_rank y) r = true).
    { apply list_elem_of_lookup in Hy as [i Hi]. apply lookup_take_Some in Hi as [Hi Hlt].
      assert (Hn0 : (0 <? n)%nat = true) by (apply Nat.ltb_lt; lia). rewrite Hn0 in Hlow.
      destruct (lookup_lt_is_Some_2 live (n - 1)) as [w Hw]; [lia|]. rewrite Hw in Hlow. cbn in Hlow.
      destruct (decide (i = n - 1)%nat) as [->|Hne]; [congruence|]. apply (leb_ltb_trans _ (cd_rank w)); [|done]. apply card_leb_rank.
      apply (StronglySorted_lookup (λ a b, card_leb a b = true) live i (n - 1)); [done|done|done|lia]. }
    apply elem_of_cons in Hz as [->|Hz]; [by apply rank_card_leb; rewrite Hxr|]. by apply Hcross.
Qed.
Lemma placed_fresh plan :
  plan = _respread ((cd_id <$> take n live) ++ cd_id x :: (cd_id <$> drop n live)) →
  StronglySorted (λ a b, card_leb a b = true)
    ((ranked plan now <$> take n live) ++ ranked plan now x :: (ranked plan now <$> drop n live)).
Proof.
  intros ->. set (order := take n live ++ x :: drop n live).
  assert (Eo : (cd_id <$> take n live) ++ cd_id x :: (cd_id <$> drop n live) = cd_id <$> order) by (unfold order; by rewrite fmap_app, fmap_cons).
  rewrite Eo. unfold _respread. rewrite length_fmap. destruct (spread_spec (length order)) as (Hl & _ & Ha).
  assert (Hno : NoDup (cd_id <$> order)).
  { assert (Hp : cd_id <$> order ≡ₚ cd_id x :: (cd_id <$> live)) by (unfold order; rewrite <- Permutation_middle, take_drop; done).
    rewrite Hp. by constructor. }
  pose proof (ranked_zip now order (spread (length order)) Hno Hl) as Hr.
  rewrite <- fmap_cons, <- fmap_app. fold order. apply sorted_ranks. by rewrite Hr.
Qed.
Lemma place_total : ∃ plan, _place live n (cd_id x) = Ok plan.
Proof. unfold _place, on_rank_error. destruct (rank_result (if (0 <? n)%nat then cd_rank <$> live !! (n - 1)%nat else None) (cd_rank <$> live !! n)) as [(s & -> & _)| ->]; eauto. Qed.
Lemma place_in_order plan : _place live n (cd_id x) = Ok plan →
  StronglySorted (λ a b, card_leb a b = true)
    ((ranked plan now <$> take n live) ++ ranked plan now x :: (ranked plan now <$> drop n live)).
Proof.
  unfold _place, on_rank_error. destruct (rank_result (if (0 <? n)%nat then cd_rank <$> live !! (n - 1)%nat else None) (cd_rank <$> live !! n))
    as [(s & -> & Hl & Hh)| ->]; intros [= <-].
  - by apply (placed_once _ s).
  - by apply placed_fresh.
Qed.
End Place.

(** ** A move *)
Lemma sorted_same_keys (l l' : list TodoCard) :
  (λ x, (cd_rank x, cd_id x)) <$> l = (λ x, (cd_rank x, cd_id x)) <$> l' →
  StronglySorted (λ a b, card_leb a b = true) l → StronglySorted (λ a b, card_leb a b = true) l'.
Proof.
  revert l'. induction l as [|x l IH]; intros [|x' l'] E Hs; try done. cbn in E. injection E as E1 E2 E.
  inversion Hs as [|? ? Hs1 Hx]; subst. constructor; [by apply IH|]. apply Forall_forall. intros y' Hy'.
  assert (Hk : (cd_rank y', cd_id y') ∈ (λ x, (cd_rank x, cd_id x)) <$> l) by (rewrite E; by apply (list_elem_of_fmap_2 (λ x, (cd_rank x, cd_id x)))).
  apply list_elem_of_fmap in Hk as (y & [= F1 F2] & Hy). rewrite Forall_forall in Hx. specialize (Hx y Hy).
  unfold card_leb in *. by rewrite <- E1, <- E2, F1, F2.
Qed.
Lemma filter_sorted {A} (R : A → A → Prop) (P : A → Prop) `{∀ x, Decision (P x)} (l : list A) : StronglySorted R l → StronglySorted R (filter P l).
Proof.
  induction 1 as [|x l Hs IH Hx]; [constructor|]. rewrite filter_cons. case_decide; [|done]. constructor; [done|].
  apply Forall_forall. intros y [_ Hy]%list_elem_of_filter. rewrite Forall_forall in Hx. by apply Hx.
Qed.
Lemma ids_filter (P : TodoCard → Prop) `{∀ x, Decision (P x)} (l : list TodoCard) : NoDup (cd_id <$> l) → NoDup (cd_id <$> filter P l).
Proof. intros H'. eapply sublist_NoDup; [exact H'|apply fmap_sublist, sublist_filter]. Qed.
Lemma sort_filter (P : TodoCard → Prop) `{∀ x, Decision (P x)} (l : list TodoCard) :
  NoDup (cd_id <$> l) → sort_by card_leb (filter P l) = filter P (sort_by card_leb l).
Proof.
  intros Hnd. assert (E : filter P l ≡ₚ filter P (sort_by card_leb l)) by (by rewrite sort_by_Permutation). apply sort_unique.
  - rewrite <- E. by apply ids_filter.
  - apply filter_sorted, sorted_cards.
  - done.
Qed.
(** Without [c], the column is what the move calls the siblings. *)
Lemma siblings_filter d col c : NoDup (cd_id <$> cards d) →
  _column_cards d col (Some c) = filter (λ x, cd_id x ≠ c) (_column_cards d col None).
Proof.
  intros Hnd. unfold _column_cards. rewrite <- sort_filter by by apply ids_filter. f_equal. rewrite list_filter_filter.
  apply list_filter_iff. intros x. rewrite excluded_some. pose proof (excluded_none (cd_id x)). tauto.
Qed.
Lemma ranked_archived plan now c : cd_archived_at (ranked plan now c) = cd_archived_at c.
Proof. unfold ranked. by destruct (dict_get _ _). Qed.

Section Move.
Context (d : TodoDb) (Hok : core_ok (core d)).
Definition moved_card (plan : RankPlan) (c col : string) (completed : option Z) (now : Z) (y : TodoCard) : TodoCard :=
  if bool_decide (cd_id y = c) then set_column col completed now (ranked plan now y) else ranked plan now y.
Lemma move_shape k p c col before after now d' :
  move k d p c col before after now = Ok d' →
  ∃ card target slot plan completed, card ∈ cards d ∧ cd_id card = c ∧ target ∈ columns d ∧ tc_id target = col ∧
    _slot (_column_cards d col (Some c)) after before = Ok slot ∧ _place (_column_cards d col (Some c)) slot c = Ok plan ∧
    cards d' = moved_card plan c col completed now <$> cards d.
Proof.
  unfold move. intros (actor & _ & ([c0 b] & _ & (card & [Hc Hid]%refreshed & (u & Hb%raise_if_ok & (target & Ht%or_raise_ok &
    (slot & Hslot & (plan & Hplan & [= <-])%bind_ok)%bind_ok)%bind_ok)%bind_ok)%bind_ok)%bind_ok)%bind_ok.
  apply find_by_id in Ht as Hti. apply find_by_elem, columns_in in Ht as [Ht _]. rewrite Hti in Hslot, Hplan. clear Hb.
  exists card, target, slot, plan, (if bool_decide (tc_id target = cd_column_id card) then cd_completed_at card
    else if tc_is_done target then Some now else None).
  split_and!; [done..|].
  match goal with |- cards (if _ then _touch _ _ _ _ (_touch _ _ _ _ ?x) else _) = _ => transitivity (cards x); [by destruct (rp_respread plan)|] end.
  destruct (bool_decide (tc_id target = cd_column_id card)) eqn:E; [apply bool_decide_eq_true in E|].
  - unfold update_card, set_ranks, update_row. cbn. rewrite <- list_fmap_compose. apply list_fmap_ext. intros i y Hy%list_elem_of_lookup_2. cbn.
    unfold moved_card. destruct (ranked_frame plan now y) as (-> & _ & Ecol & _). case_bool_decide as Ey; [|done].
    unfold set_completed. rewrite Ecol, (card_is d Hok c card Hc Hid y Hy Ey). congruence.
  - transitivity (cards (update_card c (set_column (tc_id target) (if tc_is_done target then Some now else None) now)
        (_event c "moved" (Some actor) (moved_payload (cd_column_id card) (column_name (_columns d (tb_id b)) (cd_column_id card)) (tc_id target) (tc_name target)) now (set_ranks plan now d))));
      [by destruct (tc_is_done target)|].
    unfold update_card, set_ranks, update_row. cbn. rewrite <- list_fmap_compose. apply list_fmap_ext. intros i y _. cbn.
    unfold moved_card. destruct (ranked_frame plan now y) as (-> & _). by rewrite Hti.
Qed.
Lemma slot_facts (l : list TodoCard) after before n : _slot l after before = Ok n → NoDup (cd_id <$> l) →
  (n ≤ length l)%nat ∧ (∀ a, after = Some a → last (cd_id <$> take n l) = Some a) ∧
  (∀ x, before = Some x → head (cd_id <$> drop n l) = Some x) ∧ (after = None → before = None → n = length l).
Proof.
  intros H Hnd.
  assert (Hat : ∀ i n, slot_at l i = Ok n → (n < length l)%nat ∧ last (cd_id <$> take (S n) l) = Some i ∧ head (cd_id <$> drop n l) = Some i).
  { intros i m Hm. unfold slot_at in Hm. apply or_raise_ok, index_of_Some in Hm. rewrite list_lookup_fmap in Hm.
    destruct (l !! m) as [x|] eqn:Ex; [|done]. cbn in Hm. injection Hm as <-. split; [by eapply lookup_lt_Some|]. split.
    - rewrite (take_S_r _ _ _ Ex), fmap_app. apply last_snoc.
    - by rewrite (drop_S _ _ _ Ex). }
  unfold _slot in H. destruct after as [a|], before as [x|].
  - apply bind_ok in H as (i & Hi & (j & Hj & (u & Hij%raise_if_ok & [= <-])%bind_ok)%bind_ok).
    apply negb_false_iff, Nat.eqb_eq in Hij. destruct (Hat _ _ Hi) as (_ & Ha & _), (Hat _ _ Hj) as (Hlt & _ & Hx). subst j. rewrite Nat.add_1_r in *.
    split; [lia|]. split; [by intros ? [= <-]|]. split; [by intros ? [= <-]|done].
  - apply bind_ok in H as (i & Hi & [= <-]). destruct (Hat _ _ Hi) as (Hlt & Ha & _). split; [lia|]. split; [by intros ? [= <-]|done].
  - destruct (Hat _ _ H) as (Hlt & _ & Hx). split; [lia|]. split; [done|]. split; [by intros ? [= <-]|done].
  - injection H as <-. done.
Qed.

Lemma card_ids_nodup : NoDup (cd_id <$> cards d).
Proof. rewrite <- core_card_ids_eq. apply core_card_ids, Hok. Qed.
Lemma moved_id plan c col completed now y : cd_id (moved_card plan c col completed now y) = cd_id y.
Proof. unfold moved_card. destruct (ranked_frame plan now y) as (E & _). case_bool_decide; [exact E|done]. Qed.
(** The target column holds the siblings with the card at its slot. *)
Lemma target_column plan card col completed now n :
  let c := cd_id card in let siblings := _column_cards d col (Some c) in
  card ∈ cards d → cd_archived_at card = None → (n ≤ length siblings)%nat → _place siblings n c = Ok plan →
  let g := moved_card plan c col completed now in
  sort_by card_leb (filter (λ y, cd_column_id y = col ∧ cd_archived_at y = None ∧ is_excluded None (cd_id y) = false) (g <$> cards d)) =
  (g <$> take n siblings) ++ g card :: (g <$> drop n siblings).
Proof.
  intros c siblings Hc Ha Hn Hp g.
  assert (Hsib : ∀ y, y ∈ siblings ↔ y ∈ cards d ∧ cd_column_id y = col ∧ cd_archived_at y = None ∧ cd_id y ≠ c).
  { intros y. unfold siblings, _column_cards. rewrite elem_of_sort_by, list_elem_of_filter, excluded_some. tauto. }
  assert (Hnd : NoDup (cd_id <$> siblings)).
  { unfold siblings, _column_cards. rewrite sort_by_Permutation. apply ids_filter, card_ids_nodup. }
  assert (Hcs : cd_id card ∉ cd_id <$> siblings) by (intros (y & E & Hy)%list_elem_of_fmap; apply Hsib in Hy as (_ & _ & _ & Hy); apply Hy; symmetry; exact E).
  assert (Hg : ∀ l : list TodoCard, (λ x, (cd_rank x, cd_id x)) <$> (g <$> l) = (λ x, (cd_rank x, cd_id x)) <$> (ranked plan now <$> l)).
  { intros l. rewrite <- !list_fmap_compose. apply list_fmap_ext. intros i y _. unfold compose, g, moved_card. by destruct (bool_decide _). }
  assert (Hin : ∀ y, y ∈ take n siblings ++ card :: drop n siblings ↔ y = card ∨ y ∈ siblings).
  { intros y. rewrite <- (take_drop n siblings) at 3. rewrite !elem_of_app, elem_of_cons. tauto. }
  rewrite <- fmap_cons, <- fmap_app. set (L := take n siblings ++ card :: drop n siblings) in *.
  assert (HL : NoDup (cd_id <$> (g <$> L))).
  { rewrite <- list_fmap_compose. erewrite (list_fmap_ext _ cd_id L); [|intros; apply moved_id]. unfold L. rewrite <- Permutation_middle, take_drop. by constructor. }
  apply sort_unique; [done| |].
  - unfold L. rewrite fmap_app, fmap_cons. eapply sorted_same_keys; [|by apply (place_in_order siblings n card now (sorted_cards _) Hn Hnd Hcs plan)].
    rewrite !fmap_app, !fmap_cons. pose proof (Hg [card]) as Hg1. cbn in Hg1. injection Hg1 as E1 E2.
    rewrite !Hg. unfold g at 1 2. unfold g in E1, E2. by rewrite E1, E2.
  - apply NoDup_Permutation.
    + apply NoDup_fmap_1 with (f := cd_id). apply ids_filter. rewrite <- list_fmap_compose.
      erewrite (list_fmap_ext _ cd_id (cards d)); [apply card_ids_nodup|intros; apply moved_id].
    + by apply (NoDup_fmap_1 cd_id).
    + intros y'. rewrite list_elem_of_filter, !list_elem_of_fmap. setoid_rewrite Hin. split.
      * intros ((E1 & E2 & _) & y & -> & Hy). exists y. split; [done|]. destruct (decide (cd_id y = c)) as [E|E]; [left; by apply (same_card d Hok)|right].
        apply Hsib. unfold g, moved_card in E1, E2. rewrite bool_decide_false in E1, E2 by done.
        destruct (ranked_frame plan now y) as (_ & _ & E3 & _). rewrite ranked_archived in E2. by rewrite E3 in E1.
      * intros (y & -> & [->|Hy%Hsib]).
        -- split; [|by exists card]. unfold g, moved_card. rewrite bool_decide_true by done. cbn. by rewrite ranked_archived.
        -- destruct Hy as (Hy & E1 & E2 & E3). split; [|by exists y]. unfold g, moved_card. rewrite bool_decide_false by done.
           destruct (ranked_frame plan now y) as (_ & _ & E4 & _). by rewrite ranked_archived, E4.
Qed.
(** The other columns lose the card and keep their order. *)
Lemma other_column plan c col completed now n col' :
  _place (_column_cards d col (Some c)) n c = Ok plan → col' ≠ col →
  let g := moved_card plan c col completed now in
  cd_id <$> sort_by card_leb (filter (λ y, cd_column_id y = col' ∧ cd_archived_at y = None ∧ is_excluded None (cd_id y) = false) (g <$> cards d)) =
  filter (λ i, i ≠ c) (cd_id <$> _column_cards d col' None).
Proof.
  intros Hp Hne g.
  assert (E : filter (λ y, cd_column_id y = col' ∧ cd_archived_at y = None ∧ is_excluded None (cd_id y) = false) (g <$> cards d) =
              filter (λ y, cd_id y ≠ c) (filter (λ y, cd_column_id y = col' ∧ cd_archived_at y = None ∧ is_excluded None (cd_id y) = false) (cards d))).
  { assert (Hg : ∀ y, y ∈ cards d → cd_id y ≠ c → cd_column_id y = col' → g y = y).
    { intros y Hy Hc Ey. unfold g, moved_card. rewrite bool_decide_false by done. unfold ranked.
      destruct (dict_get (cd_id y) (rp_ranks plan)) as [r|] eqn:Er; [|done]. exfalso.
      assert (Hi : cd_id y ∈ (rp_ranks plan).*1) by (apply dict_get_in in Er; done).
      apply (place_ids _ _ _ _ Hp) in Hi as [|Hi]; [done|]. apply list_elem_of_fmap in Hi as (z & Ez & [Hz Ec]%column_cards_in).
      rewrite (same_card d Hok y z Hy Hz Ez) in Ey. congruence. }
    induction (cards d) as [|y l IH]; [done|]. rewrite fmap_cons, !(filter_cons _ _ l), filter_cons, IH by (intros; apply Hg; [by right|done|done]).
    destruct (decide (cd_id y = c)) as [Ec|Ec].
    - rewrite decide_False; [|unfold g, moved_card; rewrite bool_decide_true by done; cbn; naive_solver].
      case_decide; [rewrite filter_cons, decide_False by naive_solver|]; done.
    - destruct (decide (cd_column_id y = col')) as [Ey|Ey].
      + rewrite (Hg y) by (done || by left). case_decide; [|done]. by rewrite filter_cons, decide_True.
      + rewrite decide_False; [by rewrite decide_False by (intros (? & _); done)|]. unfold g, moved_card. rewrite bool_decide_false by done.
        destruct (ranked_frame plan now y) as (_ & _ & -> & _). naive_solver. }
  rewrite E, sort_filter by apply ids_filter, card_ids_nodup. exact (fmap_filter cd_id (λ i, i ≠ c) _).
Qed.
End Move.
