(* ===== verification/TodoProps.v ===== *)
(** What the to-do boards guarantee, and these guarantees at a concrete history, with the merge of two
    personal boards whose first column is the done column. *)

From stdpp Require Import gmap strings.
From S2P Require Import Prelude PyStr PyNum PyValue PyDate Lexorank LexorankFacts FlowDb Policy Todo TodoService.
From S2P Require Import TodoCards TodoEvents TodoCore TodoSim TodoMerge TodoRights TodoOrder.

(** ** The state in every history *)
Section Histories.
Context (readable : TodoDb → string → string → Principal → bool).


(** In every history an application, a booking or an invoice is linked by at most one Event, and no
    card of a personal board is an Event. *)
Lemma one_event_per_element h d :
  history readable (d :: h) →
  (∀ l l', l ∈ links d → l' ∈ links d → lk_kind l ∈ ONE_EVENT_KINDS → link_ref l = link_ref l' →
     is_event d (lk_card_id l) = true → is_event d (lk_card_id l') = true → lk_card_id l = lk_card_id l') ∧
  (∀ c b, c ∈ cards d → b ∈ boards d → cd_board_id c = tb_id b → is_event d (cd_id c) = true → tb_kind b ≠ kind_personal).
Proof.
  intros [Hok _]%history_ok. split.
  - intros l l' Hl Hl' Hk E He He'. apply (core_one_event _ Hok (lk_card_id l, link_ref l) (lk_card_id l', link_ref l')).
    + by apply (list_elem_of_fmap_2 (λ l, (lk_card_id l, link_ref l))).
    + by apply (list_elem_of_fmap_2 (λ l, (lk_card_id l, link_ref l))).
    + by apply bool_decide_eq_true.
    + done.
    + by apply is_event_in.
    + by apply is_event_in.
  - intros c b Hc Hb E He%is_event_in Hk. destruct (core_event_board _ Hok _ He) as (b' & col & dn & k & Hc' & Hb' & Hne).
    apply core_card_inv in Hc' as (c' & Hc' & E1 & <- & _). rewrite (same_card d Hok c' c Hc' Hc E1), E in Hb'.
    apply board_in_core in Hb. by rewrite (board_row _ Hok _ _ _ Hb' Hb) in Hne.
Qed.

(** C28: a request changes nothing of a board - its row, its columns, its labels, its cards and what is
    on them - that its author writes neither before the wait for a lock nor under the lock. *)
Theorem foreign_board_untouched h d k p d' b :
  history readable (d :: h) → k ∈ d :: h → request readable k d p d' →
  (∀ s x, s = k ∨ s = d → x ∈ boards s → tb_id x = b → todo_can_write s x p = false) →
  board_view b d' = board_view b d.
Proof.
  intros Hh _ Hr Hno. apply history_ok in Hh as (Hok & Hkeys & _).
  apply (request_kept readable k d p b d' Hok Hkeys); [| |done]; intros (x & Hx & Eb & Hw).
  - rewrite (Hno k x) in Hw; [done|by left|done|done].
  - rewrite (Hno d x) in Hw; [done|by right|done|done].
Qed.

(** C29: a move puts the card between the neighbours that the caller names, or at the end of the
    column, and keeps the order of all other cards of the board, also when the ranks run out. *)
Theorem move_places_card h d k p c col before after now d' card :
  history readable (d :: h) → move k d p c col before after now = Ok d' →
  card ∈ cards d → cd_id card = c → cd_archived_at card = None →
  let column x col := cd_id <$> _column_cards x col None in
  (∃ above below, column d' col = above ++ c :: below ∧ above ++ below = filter (λ i, i ≠ c) (column d col) ∧
     (∀ a, after = Some a → last above = Some a) ∧ (∀ x, before = Some x → head below = Some x) ∧
     (after = None → before = None → below = [])) ∧
  (∀ other, other ≠ col → column d' other = filter (λ i, i ≠ c) (column d other)).
Proof.
  intros [Hok _]%history_ok Hm Hc <- Ha. cbn zeta.
  destruct (move_shape d Hok k p _ _ _ _ _ _ Hm) as (card' & target & n & plan & completed & _ & _ & _ & _ & Hslot & Hp & E).
  pose proof (card_ids_nodup d Hok) as Hids.
  assert (Hnd : NoDup (cd_id <$> _column_cards d col (Some (cd_id card))))
    by (unfold _column_cards; rewrite sort_by_Permutation; by apply ids_filter).
  destruct (slot_facts _ _ _ _ Hslot Hnd) as (Hn & Hafter & Hbefore & Hend).
  assert (Hg : ∀ l : list TodoCard, cd_id <$> (moved_card plan (cd_id card) col completed now <$> l) = cd_id <$> l)
    by (intros l; rewrite <- list_fmap_compose; apply list_fmap_ext; intros; apply moved_id).
  split.
  - exists (cd_id <$> take n (_column_cards d col (Some (cd_id card)))), (cd_id <$> drop n (_column_cards d col (Some (cd_id card)))).
    split_and!; [|rewrite <- fmap_app, take_drop, (siblings_filter d col (cd_id card) Hids); exact (fmap_filter cd_id (λ i, i ≠ cd_id card) _)|done|done|].
    + unfold _column_cards at 1. rewrite E, (target_column d Hok plan card col completed now n Hc Ha Hn Hp).
      by rewrite fmap_app, fmap_cons, !Hg, moved_id.
    + intros H1 H2. rewrite (Hend H1 H2), drop_ge; done.
  - intros other Hne. unfold _column_cards at 1. rewrite E. by apply (other_column d Hok plan _ _ _ _ n).
Qed.
End Histories.

(** ** Who reads a board *)
(** The check constraint of the table, and a team permission that is not empty. *)
Definition board_shape (b : TodoBoard) : Prop :=
  match tb_kind b with
  | kind_gremium => tb_gremium_id b ≠ None ∧ tb_owner_id b = None ∧ tb_permission b = None
  | kind_personal => tb_owner_id b ≠ None ∧ tb_gremium_id b = None ∧ tb_permission b = None
  | kind_team => tb_permission b ≠ None ∧ tb_permission b ≠ Some "" ∧ tb_gremium_id b = None ∧ tb_owner_id b = None
  end.
Lemma has_scope p perm : has p perm = true → scope_allows p perm = true.
Proof. unfold has, scope_allows. destruct (scope_permissions p) as [s|]; [|done]. by destruct (bool_decide (perm ∈ s)). Qed.
Lemma no_token_reads p : token_reads p = false → reads_all p = false ∧ scope_allows p TODO_WRITE = false.
Proof.
  unfold token_reads, TODO_READ_KEYS. cbn. rewrite orb_false_r. intros [H1 [H2 H3]%orb_false_iff]%orb_false_iff. split; [|done].
  unfold reads_all. destruct (has p TODO_ALL) eqn:E1; [apply has_scope in E1; congruence|].
  destruct (has p TODO_READ_ALL) eqn:E2; [apply has_scope in E2; congruence|done].
Qed.
Lemma team_permission_in d p native everything b perm :
  b ∈ boards d → tb_kind b = kind_team → tb_permission b = Some perm → perm ≠ "" →
  bool_decide (perm ∈ _team_permissions d p native everything) = (native && has p perm) || (everything && scope_allows p perm).
Proof.
  intros Hb Hk Hp Hne. apply eq_true_iff_eq. rewrite bool_decide_eq_true. unfold _team_permissions. rewrite list_elem_of_filter. split.
  - intros [[_ H]%andb_prop _]. exact H.
  - intros ->. split; [by rewrite bool_decide_false|]. apply list_elem_of_omap. exists b. split; [|done]. by apply list_elem_of_filter.
Qed.
Lemma scope_is_read d p b : b ∈ boards d → board_shape b → scope_allows_board (todo_scope d p) b = todo_can_read d b p.
Proof.
  intros Hb Hs. unfold scope_allows_board, todo_can_read, board_shape, todo_scope, _native, global_reach, is_kind, opt_in_scope in *.
  destruct (tb_kind b) eqn:Ek; cbn.
  - destruct (tb_gremium_id b) as [g|] eqn:Eg; [|by destruct Hs]. destruct (reads_all p) eqn:Er; cbn; [done|]. rewrite ?andb_true_r.
    destruct (scope_allows p TODO_WRITE); cbn; [|by rewrite bool_decide_false by apply not_elem_of_nil].
    destruct (_gremium_ids d p TODO_WRITE); cbn; [done|]. done.
  - rewrite andb_false_r. destruct (scope_allows p TODO_WRITE); cbn; [|done].
    destruct (tb_owner_id b) as [o|] eqn:Eo; [|by destruct Hs]. destruct (me d p) as [m|]; cbn; [done|]. by rewrite bool_decide_false.
  - destruct (tb_permission b) as [perm|] eqn:Ep; [|by destruct Hs]. destruct Hs as (_ & Hne & _). assert (perm ≠ "") by congruence.
    cbn. destruct (reads_all p) eqn:Er; cbn.
    + destruct (scope_permissions p) as [s|] eqn:Es; cbn.
      * rewrite orb_true_r, (team_permission_in d p _ true b perm) by done. cbn.
        destruct (scope_allows p perm); [by rewrite orb_true_r|]. rewrite orb_false_r. by destruct (scope_allows p TODO_WRITE).
      * assert (scope_allows p perm = true) as -> by (unfold scope_allows; by rewrite Es). done.
    + destruct (scope_allows p TODO_WRITE) eqn:Ew; cbn.
      * rewrite (team_permission_in d p true false b perm) by done. cbn. by rewrite orb_false_r.
      * by rewrite bool_decide_false by apply not_elem_of_nil.
Qed.
Lemma condition_is_allows d p b : board_shape b → scope_condition (todo_scope d p) b = scope_allows_board (todo_scope d p) b.
Proof.
  intros Hs. generalize (todo_scope d p). intros s. unfold scope_condition, scope_allows_board, board_shape, _gremium_part, _team_part, is_kind in *.
  destruct (tb_kind b) eqn:Ek; cbn.
  - destruct Hs as (_ & -> & ->). destruct (all_gremien s), (all_teams s), (rs_owner_id s); cbn; rewrite ?orb_false_r; done.
  - destruct Hs as (Ho & -> & ->). destruct (all_gremien s), (all_teams s), (rs_owner_id s); cbn; rewrite ?orb_false_r; done.
  - destruct Hs as (_ & _ & -> & ->). destruct (all_gremien s), (all_teams s), (rs_owner_id s); cbn; rewrite ?orb_false_r; done.
Qed.
(** The condition of the lists, the same rule on one board and the check of a single read agree on
    every board; a token without a to-do scope reads no board, and a personal board has no reader
    but its owner, whatever the global keys of the others. *)
Lemma read_rules_agree d p b :
  b ∈ boards d → board_shape b →
  scope_condition (todo_scope d p) b = todo_can_read d b p ∧
  scope_allows_board (todo_scope d p) b = todo_can_read d b p ∧
  (token_reads p = false → todo_can_read d b p = false) ∧
  (tb_kind b = kind_personal → todo_can_read d b p = true → tb_owner_id b = me d p).
Proof.
  intros Hb Hs. pose proof (scope_is_read d p b Hb Hs) as E. split; [by rewrite condition_is_allows|]. split; [done|]. split.
  - intros [H1 H2]%no_token_reads. unfold todo_can_read, _native. by rewrite H1, H2.
  - intros Hk. unfold todo_can_read, _native, global_reach, is_kind. rewrite Hk, bool_decide_true by done. rewrite andb_false_r.
    destruct (scope_allows p TODO_WRITE); [|done]. cbn. intros [_ H]%andb_prop. by apply bool_decide_eq_true in H.
Qed.

(** ** The archive cron *)
Lemma archived_cards m l : ∀ d, cards (foldl (archive_one m) d l) =
  (λ c, if bool_decide (cd_id c ∈ cd_id <$> l) then set_archived (Some m) (cd_completed_at c) m c else c) <$> cards d.
Proof.
  induction l as [|x l IH]; intros d; cbn [foldl].
  - rewrite <- (list_fmap_id (cards d)) at 1. apply list_fmap_ext. intros i c _. case_bool_decide as E; [by apply not_elem_of_nil in E|done].
  - rewrite IH. cbn. unfold update_row. rewrite <- list_fmap_compose. apply list_fmap_ext. intros i c _. cbn.
    destruct (decide (cd_id c = cd_id x)) as [E|E].
    + rewrite (bool_decide_true (cd_id c = cd_id x)) by done. rewrite (bool_decide_true (cd_id c ∈ cd_id x :: (cd_id <$> l))) by (rewrite E; by left).
      by case_bool_decide.
    + rewrite (bool_decide_false (cd_id c = cd_id x)) by done.
      rewrite (bool_decide_ext (cd_id c ∈ cd_id x :: (cd_id <$> l)) (cd_id c ∈ cd_id <$> l)); [done|]. rewrite elem_of_cons. tauto.
Qed.
Lemma batch_in {A} (l : list A) x : x ∈ batch l → x ∈ l.
Proof. unfold batch. intros H. rewrite <- (take_drop (Z.to_nat BATCH) l). apply elem_of_app. by left. Qed.
Lemma batch_all {A} (l : list A) : Z.of_nat (length l) ≤ BATCH → batch l = l.
Proof. intros H. unfold batch. apply take_ge. unfold BATCH in *. lia. Qed.
(** A card that the archive takes: live, in the done column, completed longer ago than its board allows. *)
Definition overdue (d : TodoDb) (now : Z) (c : TodoCard) : Prop :=
  in_done d c = true ∧ cd_archived_at c = None ∧
  ∃ at_ b days, cd_completed_at c = Some at_ ∧ board_of d c = Some b ∧ tb_archive_after_days b = Some days ∧ at_ + DAY * days < now.
Lemma card_due_spec d now c : card_due d now c = true ↔ overdue d now c.
Proof.
  unfold card_due, overdue. rewrite !andb_true_iff, bool_decide_eq_true. destruct (cd_completed_at c) as [at_|]; cbn.
  - destruct (board_of d c) as [b|]; cbn.
    + destruct (tb_archive_after_days b) as [days|] eqn:E.
      * split.
        -- intros [[H1 H2] H3%Z.ltb_lt]. split_and!; [done|done|]. exists at_, b, days. split_and!; [done..|lia].
        -- intros (H1 & H2 & a & b' & n & [= <-] & [= <-] & En & H). assert (n = days) as -> by congruence.
           split; [done|]. apply Z.ltb_lt. lia.
      * split; [by intros [_ H]|]. intros (_ & _ & a & b' & n & _ & [= <-] & En & _). congruence.
    + split; [by intros [_ H]|]. intros (_ & _ & a & b' & n & _ & H & _). done.
  - split; [by intros [_ H]|]. intros (_ & _ & a & b' & n & H & _). done.
Qed.
(** The archive cron archives nothing but live cards that stay completed in the done column longer
    than their board allows, it changes no other card, and while no more than a batch is due and
    nothing is locked it archives all of them; a card restored at [t] is not due again before the
    limit of its board has passed from [t] on. *)
Lemma cron_archives_due readable h d k skipped now :
  history readable (d :: h) →
  (∀ c', c' ∈ cards (archive_done_todos k d skipped now).1 → ∃ c, c ∈ cards d ∧
     (c' = c ∨ overdue d now c ∧ cd_id c ∉ skipped ∧ c' = set_archived (Some now) (cd_completed_at c) now c)) ∧
  (k = d → skipped = [] → Z.of_nat (length (filter (λ c, card_due d now c = true) (cards d))) ≤ BATCH →
     ∀ c, c ∈ cards d → cd_board_id c ∈ tb_id <$> boards d → overdue d now c →
     set_archived (Some now) (cd_completed_at c) now c ∈ cards (archive_done_todos k d skipped now).1) ∧
  (∀ p c t card d' m days b, restore_card k d p c t = Ok d' → card ∈ cards d' → cd_id card = c →
     (∃ old, old ∈ cards d ∧ cd_id old = c ∧ cd_archived_at old ≠ None) →
     board_of d' card = Some b → tb_archive_after_days b = Some days → overdue d' m card → t + DAY * days < m).
Proof.
  intros [Hok _]%history_ok. split; [|split].
  - intros c'. unfold archive_done_todos. cbn [fst]. rewrite archived_cards. intros (c & -> & Hc)%list_elem_of_fmap. exists c. split; [done|].
    case_bool_decide as Hi; [right|by left]. apply list_elem_of_fmap in Hi as (r & Er & Hr%batch_in). apply elem_of_sort_by, list_elem_of_filter in Hr as [Hdue Hr].
    rewrite <- (same_card d Hok c r Hc Hr Er) in Hdue. apply andb_prop in Hdue as [[Hdue _]%andb_prop Hs%bool_decide_eq_true]. by apply card_due_spec in Hdue.
  - intros -> -> Hlen c Hc Hb Hdue%card_due_spec. unfold archive_done_todos. cbn [fst]. rewrite archived_cards. apply list_elem_of_fmap. exists c. split; [|done].
    rewrite bool_decide_true; [done|]. apply list_elem_of_fmap_2. rewrite !batch_all; [| |etransitivity; [|exact Hlen]].
    + apply elem_of_sort_by, list_elem_of_filter. split; [|done]. rewrite Hdue. cbn. rewrite bool_decide_true; [by rewrite bool_decide_true by apply not_elem_of_nil|].
      apply list_elem_of_filter. split; [done|]. apply list_elem_of_fmap_2, elem_of_sort_by. by apply list_elem_of_filter.
    + by rewrite length_sort_by.
    + rewrite length_sort_by. apply inj_le. match goal with |- (length (filter ?Q _) ≤ _)%nat => rewrite <- (filter_sub (λ c, card_due d now c = true) Q) end.
      * apply length_filter.
      * intros x _ [[H _]%andb_prop _]%andb_prop. exact H.
  - intros p c t card d' m days b Hr Hcard Hid (old & Hold & Eo & Ha) Hb Hdays Hdue%card_due_spec. unfold restore_card in Hr.
    apply bind_ok in Hr as (actor & _ & ([card0 bd] & (Hc0 & Hid0 & _)%card_found & [= <-])%bind_ok).
    rewrite (card_is d Hok c card0 Hc0 Hid0 old Hold Eo) in Ha. rewrite bool_decide_true in Hcard, Hb, Hdue by done.
    unfold card_due in Hdue. rewrite Hb in Hdue. cbn [mbind option_bind] in Hdue. rewrite Hdays in Hdue.
    apply andb_prop in Hdue as [[Hin _]%andb_prop Hlt]. cbn in Hcard. apply list_elem_of_fmap in Hcard as (y & -> & Hy).
    assert (y = card0) as -> by (apply (card_is d Hok c card0 Hc0 Hid0 y Hy); revert Hid; by case_bool_decide).
    rewrite bool_decide_true in Hlt, Hin by done. change (in_done d card0 = true) in Hin. unfold in_done in Hin. cbn in Hlt. rewrite Hin in Hlt. cbn in Hlt. lia.
Qed.

(** Two members of one Gremium, who write to-dos in it. *)
Definition todo_config : Config :=
  MkConfig [] [] [] [] [] [MkPrincipalRow "u1" "s1" None None; MkPrincipalRow "u2" "s2" None None]
    [MkMembership "g" "u1" ["todo.write"]; MkMembership "g" "u2" ["todo.write"]] [] [] [] [] [] [].
Definition alice : Principal := MkPrincipal "s1" [] [] [] None.
Definition bob : Principal := MkPrincipal "s2" [] [] [] None.
Definition all_readable (d : TodoDb) (kind target : string) (p : Principal) : bool := true.
Definition e0 : TodoDb := MkTodoDb todo_config (MkRoleTables [] [] [] [])
  [MkAccount "u1" true None []; MkAccount "u2" true None []] [] [] [] [] [] [] [] [] [] [] [] [] [] [] [].
Definition e1 : TodoDb := (ensure_gremium_board e0 "g" "Gremium" "b" ["o"; "w"; "v"; "d"] 10).1.
Definition e2 : TodoDb := (ensure_personal_board e1 "u1" "p" ["o1"; "w1"; "v1"; "d1"] 11).1.
Definition unwrap (d : TodoDb) (r : tres TodoDb) : TodoDb := match r with Ok x => x | Err _ => d end.
Definition festival : CardCreate :=
  MkCardCreate "b" None "Festival" None None ["u2"] [] [("application", "a1")] (Some (MkEventIn None None None None None)).
Definition plain (title : string) : CardCreate := MkCardCreate "b" None title None None [] [] [] None.
Definition e3 : TodoDb := unwrap e2 (create all_readable e2 e2 alice festival "c1" "x" ["l1"] 12).
Definition e4 : TodoDb := unwrap e3 (create all_readable e3 e3 bob (plain "Plakate") "c2" "x" [] 13).
Definition e5 : TodoDb := unwrap e4 (create all_readable e4 e4 alice (plain "Raum") "c3" "x" [] 14).
(** Bob puts the third card between the first and the second, then the first into the done column. *)
Definition e6 : TodoDb := unwrap e5 (move e5 e5 bob "c3" "o" (Some "c2") (Some "c1") 15).
Definition e7 : TodoDb := unwrap e6 (move e6 e6 bob "c1" "d" None None 16).

Lemma fresh_by d id :
  bool_decide (id ∈ (cd_id <$> cards d) ++ (card_labels d).*1 ++ (assignees d).*1 ++ (ci_card_id <$> check_items d) ++
    (lk_card_id <$> links d) ++ (ce_card_id <$> card_events d)) = false → fresh_card d id.
Proof. intros H%bool_decide_eq_false. rewrite !elem_of_app in H. split; tauto. Qed.
(** The conditions of a history as a check. *)
Definition new_ids_ok (d d' : TodoDb) (h : list TodoDb) : bool :=
  bool_decide (NoDup (ci_id <$> check_items d')) && bool_decide (NoDup (cm_id <$> comments d')) &&
  bool_decide (NoDup (lk_id <$> links d')) &&
  forallb (λ b, bool_decide (tb_id b ∈ tb_id <$> boards d) ||
                forallb (λ s, bool_decide (tb_id b ∉ tb_id <$> boards s)) h) (boards d').
Lemma history_by r k d d' h :
  history r (d :: h) → k ∈ d :: h → todo_step r k d d' → new_ids_ok d d' h = true → history r (d' :: d :: h).
Proof.
  intros Hh Hk Hs [[[H1%bool_decide_eq_true H2%bool_decide_eq_true]%andb_prop H3%bool_decide_eq_true]%andb_prop H4]%andb_prop.
  apply (history_step r k); [done|done|done|done|]. intros b s Hb Hn Hin. rewrite forallb_forall in H4. specialize (H4 b).
  apply orb_prop in H4 as [H4%bool_decide_eq_true|H4]; [done| |by apply list_elem_of_In]. rewrite forallb_forall in H4.
  apply (bool_decide_eq_true_1 (tb_id b ∉ tb_id <$> boards s)), H4. by apply list_elem_of_In.
Qed.
Lemma fresh_board_by d id cols :
  bool_decide (id ∈ tb_id <$> boards d) = false → length cols = 4%nat → bool_decide (NoDup cols) = true →
  forallb (λ c, bool_decide (c ∉ tc_id <$> columns d)) cols = true → fresh_board d id cols.
Proof.
  intros H1%bool_decide_eq_false H2 H3%bool_decide_eq_true H4. split_and!; [done|done|done|]. intros c Hc. rewrite forallb_forall in H4.
  apply (bool_decide_eq_true_1 (c ∉ tc_id <$> columns d)), H4. by apply list_elem_of_In.
Qed.
Lemma history_2 : history all_readable [e2; e1; e0].
Proof.
  apply (history_by _ e1); [|by left| |done].
  - apply (history_by _ e0); [|by left| |done].
    + apply history_start; [done|]. split_and!; apply NoDup_nil_2.
    + right. apply sys_gremium_board. by apply fresh_board_by.
  - right. apply sys_personal_board. by apply fresh_board_by.
Qed.
Lemma history_5 : history all_readable [e5; e4; e3; e2; e1; e0].
Proof.
  apply (history_by _ e4); [|by left| |done].
  - apply (history_by _ e3); [|by left| |done].
    + apply (history_by _ e2); [apply history_2|by left| |done].
      left. exists alice. right. left. apply (req_create _ _ _ _ festival "c1" "x" ["l1"] 12); [by apply fresh_by|by apply fresh_by|vm_compute; reflexivity].
    + left. exists bob. right. left. apply (req_create _ _ _ _ (plain "Plakate") "c2" "x" [] 13); [by apply fresh_by|by apply fresh_by|vm_compute; reflexivity].
  - left. exists alice. right. left. apply (req_create _ _ _ _ (plain "Raum") "c3" "x" [] 14); [by apply fresh_by|by apply fresh_by|vm_compute; reflexivity].
Qed.
Lemma bob_moves_3 : move e5 e5 bob "c3" "o" (Some "c2") (Some "c1") 15 = Ok e6.
Proof. vm_compute. reflexivity. Qed.
Lemma bob_moves_1 : move e6 e6 bob "c1" "d" None None 16 = Ok e7.
Proof. vm_compute. reflexivity. Qed.
Lemma history_7 : history all_readable [e7; e6; e5; e4; e3; e2; e1; e0].
Proof.
  apply (history_by _ e6); [|by left| |done].
  - apply (history_by _ e5); [apply history_5|by left| |done]. left. exists bob. right. left.
    eapply req_move. apply bob_moves_3.
  - left. exists bob. right. left. eapply req_move. apply bob_moves_1.
Qed.
Example order_after : cd_id <$> _column_cards e6 "o" None = ["c1"; "c3"; "c2"].
Proof. vm_compute. reflexivity. Qed.

(** ** The guarantees at this history *)
Definition card_1 : TodoCard :=
  MkTodoCard "c1" "b" "o" "i" "Festival" None None None "u1" None None 1 12 12.
(** The move of Bob leaves the personal board of Alice alone. *)
Lemma bob_off_p s x : s = e5 ∨ s = e5 → x ∈ boards s → tb_id x = "p" → todo_can_write s x bob = false.
Proof.
  intros Hs Hx E. assert (s = e5) as -> by (by destruct Hs).
  assert (H : forallb (λ x, negb (bool_decide (tb_id x = "p")) || negb (todo_can_write e5 x bob)) (boards e5) = true) by (vm_compute; reflexivity).
  rewrite forallb_forall in H. specialize (H x). apply negb_true_iff.
  apply orb_prop in H as [H|H]; [by rewrite bool_decide_true in H|done|by apply list_elem_of_In].
Qed.
Lemma foreign_board_untouched_witness : history all_readable [e5; e4; e3; e2; e1; e0] ∧ board_view "p" e6 = board_view "p" e5.
Proof.
  split; [apply history_5|]. apply (foreign_board_untouched all_readable [e4; e3; e2; e1; e0] e5 e5 bob e6 "p" history_5).
  - left.
  - right. left. eapply req_move. apply bob_moves_3.
  - apply bob_off_p.
Defined.
Definition card_3 : TodoCard := default card_1 (find_by cd_id "c3" (cards e5)).
Lemma move_places_card_witness : history all_readable [e5; e4; e3; e2; e1; e0] ∧
  (∃ above below, cd_id <$> _column_cards e6 "o" None = above ++ "c3" :: below ∧
     above ++ below = filter (λ i, i ≠ "c3") (cd_id <$> _column_cards e5 "o" None) ∧
     (∀ a, Some "c1" = Some a → last above = Some a) ∧ (∀ x, Some "c2" = Some x → head below = Some x) ∧
     (Some "c1" = None → Some "c2" = None → below = [])).
Proof.
  split; [apply history_5|].
  apply (move_places_card all_readable [e4; e3; e2; e1; e0] e5 e5 bob "c3" "o" (Some "c2") (Some "c1") 15 e6 card_3 history_5 bob_moves_3);
    [|reflexivity|reflexivity].
  refine (list_elem_of_lookup_2 _ 2 _ _). vm_compute. reflexivity.
Defined.
(** A month later the cron archives the finished card. *)
Example cron_archives_one : (archive_done_todos e7 e7 [] 2700000).2 = 1%nat ∧ (archive_done_todos e7 e7 [] 2500000).2 = 0%nat.
Proof. vm_compute. done. Qed.

(** ** The merge into a board whose first column is the done column *)
Definition merged_from : TodoDb :=
  with_cards [MkTodoCard "c" "s" "s1" "i" "Offen" None None None "u2" None None 1 0 0]
    (with_columns [MkTodoColumn "t1" "t" "Erledigt" 0 true; MkTodoColumn "t2" "t" "Offen" 1 false;
                   MkTodoColumn "s1" "s" "Offen" 0 false; MkTodoColumn "s2" "s" "Erledigt" 1 true]
       (with_boards [MkTodoBoard "t" "T" kind_personal None (Some "u1") None (Some 30) None 0;
                     MkTodoBoard "s" "S" kind_personal None (Some "u2") None (Some 30) None 0] e0)).
(** The open card lands in the done column without a completion time, so the archive never takes it
    and its tickets never hear of it. *)
Example merge_finishes_open_card :
  match fold_personal_board merged_from "s" "t" 20 with
  | Ok (d, _) => (λ c, (cd_column_id c, in_done d c, cd_completed_at c)) <$> cards d = [("t1", true, None)]
  | Err _ => False
  end.
Proof. vm_compute. reflexivity. Qed.
