(* ===== verification/Files.v ===== *)
(** Draft uploads and the files of tickets and messages ([files/models.py], [files/drafts.py],
    [files/service.py], [src/backend/worker/files_drafts.py]): upload with its quota, check and bind,
    delete, purge, the result of a scan, the removal with an anonymization.

    The bytes of a file, the object storage and the scanner are left out: [upload] takes the name,
    the type and the size that the validation gave, and the new token, id and storage key.  A time
    is a number of microseconds. *)

From stdpp Require Import gmap strings.
From S2P Require Import Prelude PyStr PyNum PyValue Sha256 FlowDb.

(** ** The tables *)
(** The columns [application_id], ..., [draft_token_hash]: the CHECK of the table lets exactly one be set. *)
Inductive FileOwner :=
| of_application (id : string)
| of_ticket (id : string)
| of_ticket_note (id : string)
| of_todo_comment (id : string)
| of_comment (id : string)
| of_draft (draft_token_hash : string).
#[export] Instance FileOwner_eq_dec : EqDecision FileOwner.
Proof. solve_decision. Defined.
Record FileRow := MkFile {
  fl_id : string;
  fl_owner : FileOwner;
  fl_field_key : option string;
  fl_filename : string;
  fl_mime : string;
  fl_size : Z;
  fl_storage_key : option string;
  fl_scanned : bool;
  fl_scan_result : option string
}.
Record FileDb := MkFileDb {
  file_rows : list FileRow;
  (** [attachment_draft_token]: the hash and its end. *)
  draft_tokens : list (string * Z);
  file_log : list AuditEntry
}.
Definition with_files (l : list FileRow) (d : FileDb) : FileDb := MkFileDb l (draft_tokens d) (file_log d).
Definition with_tokens (l : list (string * Z)) (d : FileDb) : FileDb := MkFileDb (file_rows d) l (file_log d).
Definition file_audit (e : AuditEntry) (d : FileDb) : FileDb := MkFileDb (file_rows d) (draft_tokens d) (file_log d ++ [e]).
Definition update_file (id : string) (f : FileRow → FileRow) (d : FileDb) : FileDb := with_files (update_row fl_id id f (file_rows d)) d.
Definition set_owner (o : FileOwner) (x : FileRow) : FileRow :=
  MkFile (fl_id x) o (fl_field_key x) (fl_filename x) (fl_mime x) (fl_size x) (fl_storage_key x) (fl_scanned x) (fl_scan_result x).
Definition is_draft (hash : string) (x : FileRow) : bool := bool_decide (fl_owner x = of_draft hash).

Inductive FileError :=
| FNotFound
| FInvalid (err_code : string)
| FTooLarge (err_code : string).
Notation fileres := (res FileError).
Definition DRAFT_TOKEN_INVALID : string := "draft_token_invalid".
Definition DRAFT_ATTACHMENTS_MISSING : string := "draft_attachments_missing".
Definition DRAFT_QUOTA_EXCEEDED : string := "draft_quota_exceeded".
Definition SCAN_RESULT_CLEAN : string := "clean".
(** [attachment_draft_*] of the settings. *)
Record DraftSettings := MkDraftSettings { draft_ttl_days : Z; draft_max_files : Z; draft_max_bytes : Z; magic_link_secret : string }.

(** ** Audit data *)
Definition _owner_data (o : FileOwner) : list (string * pyval) :=
  match o with
  | of_application i => [("application_id", PStr i)]
  | of_ticket i => [("ticket_id", PStr i)]
  | of_ticket_note i => [("ticket_note_id", PStr i)]
  | of_todo_comment i => [("todo_comment_id", PStr i)]
  | of_comment i => [("comment_id", PStr i)]
  | of_draft _ => [("draft", PBool true)]
  end.
Definition upload_audit_data (x : FileRow) : list (string * pyval) :=
  _owner_data (fl_owner x) ++
  [("hasFieldKey", PBool (bool_decide (is_Some (fl_field_key x)))); ("mime", PStr (fl_mime x)); ("size", PInt (fl_size x))].

(** ** Draft tokens *)
Definition hash_draft_token (token pepper : string) : string := hmac_sha256 pepper token.
#[global] Arguments hash_draft_token : simpl never.
Definition token_end (d : FileDb) (hash : string) : option Z := snd <$> find_by fst hash (draft_tokens d).
Definition _token_alive (d : FileDb) (hash : string) (now : Z) : bool :=
  match token_end d hash with Some e => now <? e | None => false end.
Definition token_is_valid (d : FileDb) (s : DraftSettings) (token : string) (now : Z) : bool :=
  _token_alive d (hash_draft_token token (magic_link_secret s)) now.
Definition _is_usable (x : FileRow) (expires_at : option Z) (now : Z) : bool :=
  match expires_at with
  | None => false
  | Some e =>
      if e <=? now then false
      else match fl_storage_key x with
           | None => false
           | Some _ => negb (fl_scanned x && negb (bool_decide (fl_scan_result x ∈ [None; Some SCAN_RESULT_CLEAN])))
           end
  end.

(** ** Upload and delete of a draft *)
Definition drafts_of (d : FileDb) (hash : string) : list FileRow := filter (λ x, is_draft hash x = true) (file_rows d).
Definition total_size (l : list FileRow) : Z := foldr Z.add 0 (fl_size <$> l).
Definition _check_quota (d : FileDb) (s : DraftSettings) (hash : string) (size : Z) : fileres () :=
  _ ← raise_if (draft_max_files s <? Z.of_nat (length (drafts_of d hash)) + 1) (FTooLarge DRAFT_QUOTA_EXCEEDED);
  raise_if (draft_max_bytes s <? total_size (drafts_of d hash) + size) (FTooLarge DRAFT_QUOTA_EXCEEDED).
(** [INSERT ... ON CONFLICT DO UPDATE]. *)
Definition put_token (hash : string) (expires_at : Z) (d : FileDb) : FileDb :=
  if bool_decide (is_Some (token_end d hash))
  then with_tokens (update_row fst hash (λ t, (t.1, expires_at)) (draft_tokens d)) d
  else with_tokens (draft_tokens d ++ [(hash, expires_at)]) d.
Definition DAY_MICROS : Z := 86400 * 1000000.
(** [token]: the token of the caller, [new_token] the one that a first upload issues. *)
Definition upload (d : FileDb) (s : DraftSettings) (token : option string) (new_token : string) (filename mime : string) (size : Z)
    (by_ : string) (field_key : option string) (id storage_key : string) (now : Z) : fileres (FileDb * string) :=
  let plain := default new_token token in
  let hash := hash_draft_token plain (magic_link_secret s) in
  _ ← raise_if (bool_decide (is_Some token) && negb (_token_alive d hash now)) (FInvalid DRAFT_TOKEN_INVALID);
  _ ← _check_quota d s hash size;
  let row := MkFile id (of_draft hash) field_key filename mime size (Some storage_key) false None in
  let d1 := put_token hash (now + draft_ttl_days s * DAY_MICROS) d in
  Ok (file_audit (MkAudit (Some by_) "attachment_upload" "attachment" id (upload_audit_data row))
        (with_files (file_rows d1 ++ [row]) d1), plain).
Definition delete_draft (d : FileDb) (s : DraftSettings) (id token actor : string) : fileres FileDb :=
  let mine x := bool_decide (fl_id x = id) && is_draft (hash_draft_token token (magic_link_secret s)) x in
  _ ← raise_if (negb (existsb mine (file_rows d))) FNotFound;
  Ok (file_audit (MkAudit (Some actor) "attachment_delete" "attachment" id [("draft", PBool true)])
        (with_files (filter (λ x, mine x = false) (file_rows d)) d)).

(** ** Check and bind *)
(** The rows are locked until the end of the transaction. *)
Definition check_drafts (d : FileDb) (attachment_ids : list string) (token pepper : string) (now : Z) : fileres () :=
  let hash := hash_draft_token token pepper in
  let rows := filter (λ x, fl_id x ∈ attachment_ids ∧ is_draft hash x = true) (file_rows d) in
  let usable := fl_id <$> filter (λ x, _is_usable x (token_end d hash) now = true) rows in
  let missing := filter (λ i, i ∉ usable) (fromkeys attachment_ids) in
  raise_if (negb (bool_decide (missing = []))) (FInvalid DRAFT_ATTACHMENTS_MISSING).
Definition bind_drafts (attachment_ids : list string) (token pepper : string) (owner : FileOwner) (d : FileDb) : FileDb :=
  let hash := hash_draft_token token pepper in
  with_files ((λ x, if bool_decide (fl_id x ∈ attachment_ids) && is_draft hash x then set_owner owner x else x) <$> file_rows d) d.
(** A missing or empty token is falsy. *)
Definition given (token : option string) : option string :=
  match token with Some t => if bool_decide (t = "") then None else Some t | None => None end.
Definition check_message_drafts (d : FileDb) (attachment_ids : list string) (token : option string) (pepper : string) (now : Z)
    : fileres (option string) :=
  match attachment_ids with
  | [] => Ok None
  | _ =>
      match given token with
      | None => Err (FInvalid "validation_error")
      | Some t => _ ← check_drafts d attachment_ids t pepper now; Ok (Some t)
      end
  end.

(** ** Removal *)
Definition _drop_rows (drop : FileRow → bool) (actor : string) (d : FileDb) : FileDb :=
  let gone := sort_by (λ a b, str_leb (fl_id a) (fl_id b)) (filter (λ x, drop x = true) (file_rows d)) in
  MkFileDb (filter (λ x, drop x = false) (file_rows d)) (draft_tokens d)
    (file_log d ++ ((λ x, MkAudit (Some actor) "attachment_delete" "attachment" (fl_id x) (_owner_data (fl_owner x))) <$> gone)).
Definition delete_for_messages (owners : list FileOwner) (actor : string) (d : FileDb) : FileDb :=
  _drop_rows (λ x, bool_decide (fl_owner x ∈ owners)) actor d.
(** [note_ids]: the notes of the ticket, the deleted ones too. *)
Definition delete_for_ticket (ticket_id : string) (note_ids : list string) (actor : string) (d : FileDb) : FileDb :=
  _drop_rows (λ x, bool_decide (fl_owner x = of_ticket ticket_id) || bool_decide (fl_owner x ∈ of_ticket_note <$> note_ids)) actor d.

(** ** The purge *)
Definition PURGE_BATCH : nat := 500.
Definition draft_due (d : FileDb) (now : Z) (x : FileRow) : option Z :=
  match fl_owner x with
  | of_draft h => match token_end d h with Some e => if e <=? now then Some e else None | None => None end
  | _ => None
  end.
(** [skipped]: the rows that another transaction holds. *)
Definition _purge_batch (d : FileDb) (skipped : list string) (now : Z) : FileDb * nat :=
  let due := omap (λ x, (λ e, (e, fl_id x)) <$> draft_due d now x) (filter (λ x, fl_id x ∉ skipped) (file_rows d)) in
  let batch := snd <$> take PURGE_BATCH (sort_by (λ a b, a.1 <=? b.1) due) in
  (with_files (filter (λ x, fl_id x ∉ batch) (file_rows d)) d, length batch).
Definition _purge_tokens (d : FileDb) (now : Z) : FileDb :=
  with_tokens (filter (λ t, ¬ (t.2 ≤ now ∧ drafts_of d t.1 = [])) (draft_tokens d)) d.

(** ** The scan *)
Record ScanVerdict := MkVerdict { clean : bool; signature : option string }.
Definition _signature (v : ScanVerdict) : string :=
  match signature v with Some s => if bool_decide (s = "") then "unknown" else s | None => "unknown" end.
Definition _record_verdict (v : ScanVerdict) (x : FileRow) : FileRow :=
  MkFile (fl_id x) (fl_owner x) (fl_field_key x) (fl_filename x) (fl_mime x) (fl_size x)
    (if clean v then fl_storage_key x else None) true (Some (if clean v then SCAN_RESULT_CLEAN else _signature v)).
Definition finalize_scan (d : FileDb) (id : string) (v : ScanVerdict) (actor : string) : FileDb * bool :=
  match find_by fl_id id (file_rows d) with
  | None => (d, false)
  | Some x =>
      let d1 := update_file id (_record_verdict v) d in
      (if clean v then d1
       else file_audit (MkAudit (Some actor) "attachment_quarantine" "attachment" id
              (_owner_data (fl_owner x) ++ [("signature", PStr (_signature v))])) d1, true)
  end.

(** ** The files on the wire *)
Inductive ScanState := scanning | scan_clean | quarantined.
Record MessageAttachmentOut := MkMessageAttachment {
  ma_id : string; ma_filename : string; ma_mime : string; ma_size : Z; ma_scan_state : ScanState
}.
Definition _scan_state (x : FileRow) : ScanState :=
  if negb (fl_scanned x) then scanning
  else if bool_decide (fl_scan_result x = Some "clean") && bool_decide (is_Some (fl_storage_key x)) then scan_clean else quarantined.
Definition message_attachment_out (x : FileRow) : MessageAttachmentOut :=
  MkMessageAttachment (fl_id x) (fl_filename x) (fl_mime x) (fl_size x) (_scan_state x).
(** Oldest first: the order of the rows. *)
Definition message_attachments (d : FileDb) (owner : FileOwner) : list MessageAttachmentOut :=
  message_attachment_out <$> filter (λ x, fl_owner x = owner) (file_rows d).
Record AttachmentOut := MkAttachmentOut { ao_id : string; ao_filename : string; ao_mime : string; ao_size : Z; ao_scanned : bool }.
Definition _attachment_out (x : FileRow) : AttachmentOut := MkAttachmentOut (fl_id x) (fl_filename x) (fl_mime x) (fl_size x) (fl_scanned x).
Definition list_for_ticket (d : FileDb) (ticket_id : string) : list AttachmentOut :=
  _attachment_out <$> filter (λ x, fl_owner x = of_ticket ticket_id) (file_rows d).
