(* ===== verification/Tickets.v ===== *)
(** Tickets ([tickets/service.py], [tickets/models.py]): report, change, notes, the view of the team
    and the view of the reporter, blocked senders, anonymization; the retention cron
    ([src/backend/worker/tickets.py]) and the erasure of a reporter ([privacy/service.py]).

    The tickets stand on the tables of the to-do boards ([todo]: accounts, roles, the timeline of the
    tickets) and of the files.  An operation that locks no row reads the tables [k] and writes the
    columns that it changes in [d]; one that locks the row of the ticket takes [d] alone.  [now] is
    the clock, the ids of new rows are arguments. *)

From stdpp Require Import gmap strings.
From S2P Require Import Prelude PyStr PyNum PyValue PyDate Lexorank FlowDb Decision Policy Todo TodoService TodoCards TodoEvents Files.

(** ** The tables *)
Inductive TicketKind := bug | question | idea.
Inductive TicketStatus := new | in_progress | done_ | rejected_.
Inductive NoteVisibility := internal | public.
#[export] Instance TicketKind_eq_dec : EqDecision TicketKind.
Proof. solve_decision. Defined.
#[export] Instance TicketStatus_eq_dec : EqDecision TicketStatus.
Proof. solve_decision. Defined.
#[export] Instance NoteVisibility_eq_dec : EqDecision NoteVisibility.
Proof. solve_decision. Defined.
Definition kind_text (k : TicketKind) : string := match k with bug => "bug" | question => "question" | idea => "idea" end.
Definition status_text (s : TicketStatus) : string :=
  match s with new => "new" | in_progress => "in_progress" | done_ => "done" | rejected_ => "rejected" end.
Definition CLOSED_STATUSES : list TicketStatus := [done_; rejected_].
Definition is_closed (s : TicketStatus) : bool := bool_decide (s ∈ CLOSED_STATUSES).
Record Ticket := MkTicket {
  tk_id : string;
  tk_number : Z;
  tk_kind : TicketKind;
  tk_title : string;
  tk_body : string;
  tk_status : TicketStatus;
  tk_reporter_principal_id : option string;
  tk_reporter_email : option string;
  tk_assignee_id : option string;
  tk_duplicate_of_id : option string;
  tk_context : list (string * pyval);
  tk_closed_at : option Z;
  tk_anonymized_at : option Z;
  tk_created_at : Z;
  tk_updated_at : Z
}.
Record TicketNote := MkNote {
  tn_id : string;
  tn_ticket_id : string;
  tn_author_id : option string;
  tn_body : string;
  tn_visibility : NoteVisibility;
  tn_mentions : list string;
  tn_created_at : Z;
  tn_edited_at : option Z;
  tn_deleted_at : option Z
}.
(** What a block targets; the CHECK of the table lets exactly one column be set. *)
Inductive BlockTarget := to_principal (id : string) | to_email (address : string).
#[export] Instance BlockTarget_eq_dec : EqDecision BlockTarget.
Proof. solve_decision. Defined.
Record TicketSenderBlock := MkBlock {
  sb_id : string;
  sb_target : BlockTarget;
  sb_source_ticket_id : option string;
  sb_created_by : option string;
  sb_created_at : Z;
  sb_hit_count : Z;
  sb_last_hit_at : option Z
}.
Record TicketDb := MkTicketDb {
  todo : TodoDb;
  files : FileDb;
  tickets : list Ticket;
  notes : list TicketNote;
  blocks : list TicketSenderBlock;
  (** The last value of [ticket_number_seq]. *)
  number_seq : Z
}.
Definition with_todo (x : TodoDb) (d : TicketDb) : TicketDb := MkTicketDb x (files d) (tickets d) (notes d) (blocks d) (number_seq d).
Definition with_file_db (x : FileDb) (d : TicketDb) : TicketDb := MkTicketDb (todo d) x (tickets d) (notes d) (blocks d) (number_seq d).
Definition with_tickets (x : list Ticket) (d : TicketDb) : TicketDb := MkTicketDb (todo d) (files d) x (notes d) (blocks d) (number_seq d).
Definition with_notes (x : list TicketNote) (d : TicketDb) : TicketDb := MkTicketDb (todo d) (files d) (tickets d) x (blocks d) (number_seq d).
Definition with_blocks (x : list TicketSenderBlock) (d : TicketDb) : TicketDb := MkTicketDb (todo d) (files d) (tickets d) (notes d) x (number_seq d).
Definition with_seq (x : Z) (d : TicketDb) : TicketDb := MkTicketDb (todo d) (files d) (tickets d) (notes d) (blocks d) x.
Definition update_ticket (id : string) (f : Ticket → Ticket) (d : TicketDb) : TicketDb := with_tickets (update_row tk_id id f (tickets d)) d.
Definition update_note (id : string) (f : TicketNote → TicketNote) (d : TicketDb) : TicketDb := with_notes (update_row tn_id id f (notes d)) d.
Definition with_timeline (l : list TicketEvent) (d : TicketDb) : TicketDb := with_todo (with_ticket_events l (todo d)) d.
Definition people (d : TicketDb) : list PrincipalRow := principals (todo_conf (todo d)).

Inductive TicketError :=
| TkNotFound
| TkForbidden (err_code : string)
| TkConflict (err_code : string)
| TkInvalid (err_code : string)
| TkFiles (e : FileError)
| TkTodo (e : TodoError)
| TkDatabase.
Notation tkres := (res TicketError).
Definition or_ticket {A} (o : option A) (e : TicketError) : tkres A := match o with Some a => Ok a | None => Err e end.
Definition of_files {A} (r : fileres A) : tkres A := match r with Ok a => Ok a | Err e => Err (TkFiles e) end.

(** ** Row updates *)
Definition set_state (status : TicketStatus) (closed : option Z) (duplicate : option string) (t : Ticket) : Ticket :=
  MkTicket (tk_id t) (tk_number t) (tk_kind t) (tk_title t) (tk_body t) status (tk_reporter_principal_id t) (tk_reporter_email t)
    (tk_assignee_id t) duplicate (tk_context t) closed (tk_anonymized_at t) (tk_created_at t) (tk_updated_at t).
Definition set_assignee (a : option string) (t : Ticket) : Ticket :=
  MkTicket (tk_id t) (tk_number t) (tk_kind t) (tk_title t) (tk_body t) (tk_status t) (tk_reporter_principal_id t)
    (tk_reporter_email t) a (tk_duplicate_of_id t) (tk_context t) (tk_closed_at t) (tk_anonymized_at t) (tk_created_at t) (tk_updated_at t).
Definition set_kind (k : TicketKind) (t : Ticket) : Ticket :=
  MkTicket (tk_id t) (tk_number t) k (tk_title t) (tk_body t) (tk_status t) (tk_reporter_principal_id t) (tk_reporter_email t)
    (tk_assignee_id t) (tk_duplicate_of_id t) (tk_context t) (tk_closed_at t) (tk_anonymized_at t) (tk_created_at t) (tk_updated_at t).
Definition set_updated (now : Z) (t : Ticket) : Ticket :=
  MkTicket (tk_id t) (tk_number t) (tk_kind t) (tk_title t) (tk_body t) (tk_status t) (tk_reporter_principal_id t)
    (tk_reporter_email t) (tk_assignee_id t) (tk_duplicate_of_id t) (tk_context t) (tk_closed_at t) (tk_anonymized_at t) (tk_created_at t) now.
(** The ORM writes [updated_at] with every [UPDATE] of the row. *)
Definition set_anonymized (moment now : Z) (t : Ticket) : Ticket :=
  MkTicket (tk_id t) (tk_number t) (tk_kind t) (tk_title t) (tk_body t) (tk_status t) None None
    (tk_assignee_id t) (tk_duplicate_of_id t) [] (tk_closed_at t) (Some moment) (tk_created_at t) now.
Definition set_note (body : string) (mentions : list string) (edited deleted : option Z) (n : TicketNote) : TicketNote :=
  MkNote (tn_id n) (tn_ticket_id n) (tn_author_id n) body (tn_visibility n) mentions (tn_created_at n) edited deleted.
Definition set_author (a : option string) (n : TicketNote) : TicketNote :=
  MkNote (tn_id n) (tn_ticket_id n) a (tn_body n) (tn_visibility n) (tn_mentions n) (tn_created_at n) (tn_edited_at n) (tn_deleted_at n).
Definition hit (now : Z) (b : TicketSenderBlock) : TicketSenderBlock :=
  MkBlock (sb_id b) (sb_target b) (sb_source_ticket_id b) (sb_created_by b) (sb_created_at b) (sb_hit_count b + 1) (Some now).

(** ** Numbers and people *)
Definition TICKET_MANAGE : string := "ticket.manage".
Definition normalize_email (value : string) : string := py_lower (py_strip value).
(** [f"T-{number:04d}"] of a number that is not negative. *)
Definition format_number (number : Z) : string := "T-" +:+ pad 4 (int_str number).
Definition _get (d : TicketDb) (ticket_id : string) : tkres Ticket := or_ticket (find_by tk_id ticket_id (tickets d)) TkNotFound.
Definition principal_id_of (d : TicketDb) (s : string) : option string := pr_id <$> find_by pr_sub s (people d).
Definition ticket_managers (d : TicketDb) : list string := permission_holders (todo d) TICKET_MANAGE.
Definition email_of (d : TicketDb) (id : string) : option string := find_by pr_id id (people d) ≫= pr_email.
(** A citext compare. *)
Definition same_address (a b : string) : bool := bool_decide (py_lower a = py_lower b).
Definition reporter_address (d : TicketDb) (t : Ticket) : option string :=
  match tk_reporter_principal_id t with None => tk_reporter_email t | Some p => email_of d p end.
Definition _event (ticket_id kind : string) (actor : option string) (payload : list (string * pyval)) (now : Z) (d : TicketDb) : TicketDb :=
  with_timeline (ticket_events (todo d) ++ [MkTicketEvent ticket_id actor kind payload now]) d.

(** ** Blocked senders *)
Definition SENDER_UNKNOWN : string := "ticket_sender_unknown".
Definition SENDER_IS_SELF : string := "sender_is_self".
Definition TICKET_ANONYMIZED : string := "ticket_anonymized".
Definition SENDER_BLOCKED : string := "sender_blocked".
Definition _account_condition (d : TicketDb) (reporter_id : string) (b : TicketSenderBlock) : bool :=
  match sb_target b with
  | to_principal p => bool_decide (p = reporter_id)
  | to_email a => bool_decide (Some a = py_lower <$> email_of d reporter_id)
  end.
Definition _email_condition (d : TicketDb) (address : string) (b : TicketSenderBlock) : bool :=
  match sb_target b with
  | to_email a => bool_decide (a = address)
  | to_principal p => existsb (λ r, bool_decide (pr_id r = p) && match pr_email r with Some e => same_address e address | None => false end) (people d)
  end.
Definition _target_condition (d : TicketDb) (target : BlockTarget) : TicketSenderBlock → bool :=
  match target with to_principal p => _account_condition d p | to_email a => _email_condition d a end.
Definition _sender_condition (d : TicketDb) (reporter_id email : option string) : option (TicketSenderBlock → bool) :=
  match reporter_id, given email with
  | Some account, _ => Some (_account_condition d account)
  | None, Some address => Some (_email_condition d (normalize_email address))
  | None, None => None
  end.
Definition matching_block (d : TicketDb) (reporter_id email : option string) : option string :=
  cond ← _sender_condition d reporter_id email;
  sb_id <$> head (sort_by (λ a b, sb_created_at a <=? sb_created_at b) (filter (λ b, cond b = true) (blocks d))).
Definition block_target (t : Ticket) : option BlockTarget :=
  match tk_anonymized_at t, tk_reporter_principal_id t, given (tk_reporter_email t) with
  | None, Some account, _ => Some (to_principal account)
  | None, None, Some address => Some (to_email (normalize_email address))
  | _, _, _ => None
  end.
Definition _sender_blocked (d : TicketDb) (t : Ticket) : bool :=
  match block_target t with None => false | Some target => existsb (_target_condition d target) (blocks d) end.
Definition _sender_target (t : Ticket) : tkres BlockTarget := or_ticket (block_target t) (TkConflict SENDER_UNKNOWN).
Definition _is_self (d : TicketDb) (target : BlockTarget) (me : option string) : bool :=
  match target with
  | to_principal account => bool_decide (Some account = me)
  | to_email address => match me ≫= email_of d with Some own => bool_decide (normalize_email own = address) | None => false end
  end.
Definition block_sender (k d : TicketDb) (ticket_id : string) (p : Principal) (id : string) (now : Z) : tkres TicketDb :=
  t ← _get k ticket_id;
  target ← _sender_target t;
  let me := principal_id_of k (sub p) in
  _ ← raise_if (_is_self k target me) (TkInvalid SENDER_IS_SELF);
  Ok (if existsb (λ b, bool_decide (sb_target b = target)) (blocks d) then d
      else with_blocks (blocks d ++ [MkBlock id target (Some ticket_id) me now 0 None]) d).
Definition unblock_sender (k d : TicketDb) (ticket_id : string) : tkres TicketDb :=
  t ← _get k ticket_id;
  target ← _sender_target t;
  Ok (with_blocks (filter (λ b, _target_condition d target b = false) (blocks d)) d).
Definition delete_block (d : TicketDb) (block_id : string) : tkres TicketDb :=
  _ ← raise_if (bool_decide (find_by sb_id block_id (blocks d) = None)) TkNotFound;
  Ok (with_blocks (filter (λ b, sb_id b ≠ block_id) (blocks d)) d).

(** ** The report *)
Record TicketCreate := MkTicketCreate {
  tc_kind : TicketKind;
  tc_title : string;
  tc_body : string;
  (** The fields of the context that are set. *)
  tc_context : list (string * pyval);
  tc_attachment_ids : list string;
  tc_draft_token : option string
}.
Inductive Reported := stored (t : Ticket) | swallowed (number : Z).
Definition strip_or (s : string) : string := if bool_decide (py_strip s = "") then s else py_strip s.
Definition _swallow (d : TicketDb) (block_id : string) (now : Z) : TicketDb * Reported :=
  (with_seq (number_seq d + 1) (with_blocks (update_row sb_id block_id (hit now) (blocks d)) d), swallowed (number_seq d + 1)).
Definition check_report_files (d : TicketDb) (payload : TicketCreate) (pepper : string) (now : Z) : tkres () :=
  match tc_attachment_ids payload, given (tc_draft_token payload) with
  | [], _ => Ok ()
  | _, None => Err (TkInvalid "validation_error")
  | ids, Some token => of_files (check_drafts (files d) ids token pepper now)
  end.
Definition bind_report_files (payload : TicketCreate) (pepper : string) (ticket_id : string) (d : TicketDb) : TicketDb :=
  match tc_attachment_ids payload, given (tc_draft_token payload) with
  | [], _ | _, None => d
  | ids, Some token => with_file_db (bind_drafts ids token pepper (of_ticket ticket_id) (files d)) d
  end.
Definition new_ticket (payload : TicketCreate) (reporter_id email : option string) (id : string) (number now : Z) : Ticket :=
  MkTicket id number (tc_kind payload) (strip_or (tc_title payload)) (tc_body payload) new reporter_id
    (match reporter_id with Some _ => None | None => email end) None None (tc_context payload) None None now now.
Definition create_ticket (k d : TicketDb) (payload : TicketCreate) (reporter_id email : option string) (pepper id : string) (now : Z)
    : tkres (TicketDb * Reported) :=
  _ ← check_report_files d payload pepper now;
  match matching_block k reporter_id email with
  | Some block => Ok (_swallow d block now)
  | None =>
      _ ← raise_if (bool_decide (reporter_id = None) && bool_decide (email = None)) TkDatabase;
      let t := new_ticket payload reporter_id email id (number_seq d + 1) now in
      let d1 := with_seq (number_seq d + 1) (with_tickets (tickets d ++ [t]) d) in
      let d2 := bind_report_files payload pepper id d1 in
      Ok (_event id "created" reporter_id
            [("confirmationSent", PBool (bool_decide (is_Some (reporter_address d2 t))))] now d2, stored t)
  end.

(** ** The change *)
Record TicketPatch := MkTicketPatch {
  tp_status : option TicketStatus;
  (** A field in [model_fields_set] is [Some], also with the value null. *)
  tp_assignee_id : option (option string);
  tp_kind : option TicketKind;
  tp_duplicate_of_id : option string;
  tp_complete_todos : bool
}.
Definition _duplicate_target (k : TicketDb) (t : Ticket) (payload : TicketPatch) : tkres (option Ticket) :=
  match tp_duplicate_of_id payload with
  | None => Ok None
  | Some other =>
      x ← or_ticket (if bool_decide (tp_status payload = Some rejected_) && negb (bool_decide (other = tk_id t))
                     then find_by tk_id other (tickets k) else None) (TkInvalid "duplicate_invalid");
      Ok (Some x)
  end.
Definition check_ticket_patch (k : TicketDb) (payload : TicketPatch) : tkres () :=
  _ ← raise_if (tp_complete_todos payload && negb (match tp_status payload with Some s => is_closed s | None => false end))
        (TkInvalid "validation_error");
  match tp_assignee_id payload with
  | Some (Some a) => raise_if (negb (bool_decide (a ∈ ticket_managers k))) (TkInvalid "assignee_not_allowed")
  | _ => Ok ()
  end.
(** [_set_status] on the row. *)
Definition next_state (s : TicketStatus) (duplicate : option Ticket) (now : Z) (t : Ticket) : Ticket :=
  set_state s (if negb (is_closed s) then None else if negb (is_closed (tk_status t)) then Some now else tk_closed_at t)
    (tk_id <$> duplicate) t.
Definition status_event (t : Ticket) (s : TicketStatus) (duplicate : option Ticket) : list (string * pyval) :=
  [("from", PStr (status_text (tk_status t))); ("to", PStr (status_text s))] ++
  match duplicate with Some x => [("duplicateOf", PStr (format_number (tk_number x)))] | None => [] end.
(** The row after the change, and the events. *)
Definition plan_patch (t : Ticket) (payload : TicketPatch) (duplicate : option Ticket) (now : Z)
    : Ticket * list (string * list (string * pyval)) :=
  let new_status := s ← tp_status payload; if negb (bool_decide (s = tk_status t)) || bool_decide (is_Some duplicate) then Some s else None in
  let new_assignee := a ← tp_assignee_id payload; if bool_decide (a = tk_assignee_id t) then None else Some a in
  let new_kind := x ← tp_kind payload; if bool_decide (x = tk_kind t) then None else Some x in
  let t1 := match new_status with Some s => next_state s duplicate now t | None => t end in
  let t2 := match new_assignee with Some a => set_assignee a t1 | None => t1 end in
  let t3 := match new_kind with Some x => set_kind x t2 | None => t2 end in
  let events :=
    match new_status with Some s => [("status", status_event t s duplicate)] | None => [] end ++
    match new_assignee with
    | Some a => [("assignee", [("from", str_or_none (tk_assignee_id t)); ("to", str_or_none a)])]
    | None => []
    end ++
    match new_kind with
    | Some x => [("kind", [("from", PStr (kind_text (tk_kind t))); ("to", PStr (kind_text x))])]
    | None => []
    end in
  (match events with [] => t3 | _ => set_updated now t3 end, events).
(** The [UPDATE] of the columns that the change set. *)
Definition write_ticket (old new_ stored : Ticket) : Ticket :=
  set_updated (if_changed (tk_updated_at old) (tk_updated_at new_) (tk_updated_at stored))
    (set_kind (if_changed (tk_kind old) (tk_kind new_) (tk_kind stored))
      (set_assignee (if_changed (tk_assignee_id old) (tk_assignee_id new_) (tk_assignee_id stored))
        (set_state (if_changed (tk_status old) (tk_status new_) (tk_status stored))
           (if_changed (tk_closed_at old) (tk_closed_at new_) (tk_closed_at stored))
           (if_changed (tk_duplicate_of_id old) (tk_duplicate_of_id new_) (tk_duplicate_of_id stored)) stored))).
Definition write_events (ticket_id : string) (actor : option string) (events : list (string * list (string * pyval))) (now : Z)
    (d : TicketDb) : TicketDb :=
  foldl (λ d e, _event ticket_id e.1 actor e.2 now d) d events.
Definition patch_ticket (k d : TicketDb) (ticket_id : string) (payload : TicketPatch) (p : Principal) (now : Z) : tkres TicketDb :=
  t ← _get k ticket_id;
  duplicate ← _duplicate_target k t payload;
  _ ← check_ticket_patch k payload;
  let '(t', events) := plan_patch t payload duplicate now in
  Ok (write_events ticket_id (principal_id_of k (sub p)) events now (update_ticket ticket_id (write_ticket t t') d)).
(** [completeTodos], after the commit of the change. *)
Definition complete_todos (k d : TicketDb) (ticket_id : string) (payload : TicketPatch) (p : Principal) (now : Z) : tkres TicketDb :=
  if tp_complete_todos payload
  then match complete_ticket (todo k) (todo d) ticket_id p now with Ok x => Ok (with_todo x d) | Err e => Err (TkTodo e) end
  else Ok d.

(** ** Notes *)
Record PersonRef := MkPerson { pe_id : option string; pe_name : option string }.
Definition DELETED_PERSON : PersonRef := MkPerson None None.
(** [a or b] of two optional texts. *)
Definition text_or (a b : option string) : option string := match given a with Some x => Some x | None => b end.
Definition person_of (id : string) (name email : option string) : PersonRef :=
  match given (text_or name email) with Some n => MkPerson (Some id) (Some n) | None => DELETED_PERSON end.
Definition person (d : TicketDb) (id : option string) : PersonRef :=
  match id ≫= λ i, find_by pr_id i (people d) with
  | Some r => person_of (pr_id r) (pr_display_name r) (pr_email r)
  | None => DELETED_PERSON
  end.
Definition person_leb (a b : PersonRef) : bool :=
  let name x := py_lower (default "" (pe_name x)) in let id x := default "" (pe_id x) in
  str_ltb (name a) (name b) || (bool_decide (name a = name b) && str_leb (id a) (id b)).
Definition ticket_assignees (d : TicketDb) : list PersonRef :=
  sort_by person_leb (filter (λ x, is_Some (pe_id x)) ((λ i, person d (Some i)) <$> ticket_managers d)).
Definition unique_mentions (ids : list string) : list string := fromkeys ids.
Definition new_mentions (wanted before : list string) : list string := filter (λ i, i ∉ before) wanted.
Definition _checked_mentions (k : TicketDb) (mentions before : list string) : tkres (list string) :=
  let wanted := unique_mentions mentions in
  let allowed := omap pe_id (ticket_assignees k) in
  _ ← raise_if (negb (bool_decide (Forall (λ i, i ∈ allowed) (new_mentions wanted before)))) (TkInvalid "mention_not_member");
  Ok wanted.
Definition _require_account (k : TicketDb) (p : Principal) : tkres string := or_ticket (principal_id_of k (sub p)) TkNotFound.
Record NoteCreate := MkNoteCreate {
  nt_body : string;
  nt_visibility : NoteVisibility;
  nt_attachment_ids : list string;
  nt_draft_token : option string;
  nt_mentions : list string
}.
(** [t] is the ticket that the caller read. *)
Definition _insert_note (d : TicketDb) (t : Ticket) (author : string) (payload : NoteCreate) (mentions : list string) (pepper id : string)
    (now : Z) : tkres TicketDb :=
  let ids := nt_attachment_ids payload in
  _ ← raise_if (negb (bool_decide (ids = [])) && bool_decide (is_Some (tk_anonymized_at t))) (TkInvalid TICKET_ANONYMIZED);
  token ← of_files (check_message_drafts (files d) ids (nt_draft_token payload) pepper now);
  let note := MkNote id (tk_id t) (Some author) (nt_body payload) (nt_visibility payload) mentions now None None in
  let d1 := with_notes (notes d ++ [note]) d in
  let d2 := match token with
            | Some x => with_file_db (bind_drafts ids x pepper (of_ticket_note id) (files d1)) d1
            | None => d1
            end in
  Ok (update_ticket (tk_id t) (set_updated now) d2).
Definition add_note (k d : TicketDb) (ticket_id : string) (payload : NoteCreate) (p : Principal) (pepper id : string) (now : Z)
    : tkres TicketDb :=
  t ← _get (if bool_decide (nt_attachment_ids payload = []) then k else d) ticket_id;
  author ← _require_account k p;
  wanted ← _checked_mentions k (nt_mentions payload) [];
  _insert_note d t author payload wanted pepper id now.
Definition _own_note (k : TicketDb) (ticket_id note_id : string) (p : Principal) : tkres (TicketNote * string) :=
  n ← or_ticket (find_by tn_id note_id (notes k)) TkNotFound;
  _ ← raise_if (negb (bool_decide (tn_ticket_id n = ticket_id)) || bool_decide (is_Some (tn_deleted_at n))) TkNotFound;
  match principal_id_of k (sub p) with
  | Some me => if bool_decide (tn_author_id n = Some me) then Ok (n, me) else Err (TkForbidden "not_note_author")
  | None => Err (TkForbidden "not_note_author")
  end.
Definition write_note (old : TicketNote) (body : string) (mentions : option (list string)) (now : Z) (d : TicketDb) : TicketDb :=
  update_note (tn_id old)
    (λ n, set_note (if_changed (tn_body old) body (tn_body n))
            (match mentions with Some m => if_changed (tn_mentions old) m (tn_mentions n) | None => tn_mentions n end)
            (Some now) (tn_deleted_at n) n) d.
(** The result has the mentions that the edit added. *)
Definition edit_note (k d : TicketDb) (ticket_id note_id body : string) (p : Principal) (mentions : option (list string)) (now : Z)
    : tkres (TicketDb * list string) :=
  '(n, _) ← _own_note k ticket_id note_id p;
  wanted ← match mentions with
           | Some m => w ← _checked_mentions k m (tn_mentions n); Ok (Some w)
           | None => Ok None
           end;
  Ok (write_note n body wanted now d,
      match wanted with Some w => new_mentions w (tn_mentions n) | None => [] end).
Definition delete_note (k d : TicketDb) (ticket_id note_id : string) (p : Principal) (now : Z) : tkres TicketDb :=
  '(n, _) ← _own_note k ticket_id note_id p;
  let d1 := update_note note_id (λ n, set_note (tn_body n) (tn_mentions n) (tn_edited_at n) (Some now) n) d in
  Ok (with_file_db (delete_for_messages [of_ticket_note note_id] (sub p) (files d1)) d1).

(** ** The reporter *)
Definition _reporter_ticket (d : TicketDb) (ticket_id : string) (p : Principal) : tkres (Ticket * string) :=
  me ← or_ticket (principal_id_of d (sub p)) TkNotFound;
  t ← _get d ticket_id;
  _ ← raise_if (bool_decide (is_Some (tk_anonymized_at t)) || negb (bool_decide (tk_reporter_principal_id t = Some me))) TkNotFound;
  Ok (t, me).
Definition _reporter_note (d : TicketDb) (t : Ticket) (note_id : string) (p : Principal) : tkres TicketNote :=
  visible ← or_ticket (find_by tn_id note_id (notes d)) TkNotFound;
  _ ← raise_if (negb (bool_decide (tn_visibility visible = public))) TkNotFound;
  '(n, _) ← _own_note d (tk_id t) note_id p;
  Ok n.
Definition reporter_add_note (d : TicketDb) (ticket_id body : string) (attachment_ids : list string) (draft_token : option string)
    (p : Principal) (pepper id : string) (now : Z) : tkres TicketDb :=
  '(t, me) ← _reporter_ticket d ticket_id p;
  _ ← raise_if (_sender_blocked d t) (TkForbidden SENDER_BLOCKED);
  _insert_note d t me (MkNoteCreate body public attachment_ids draft_token []) [] pepper id now.
Definition reporter_edit_note (d : TicketDb) (ticket_id note_id body : string) (p : Principal) (now : Z) : tkres TicketDb :=
  '(t, _) ← _reporter_ticket d ticket_id p;
  n ← _reporter_note d t note_id p;
  _ ← raise_if (_sender_blocked d t) (TkForbidden SENDER_BLOCKED);
  Ok (write_note n body None now d).
Definition reporter_delete_note (k d : TicketDb) (ticket_id note_id : string) (p : Principal) (now : Z) : tkres TicketDb :=
  '(t, _) ← _reporter_ticket k ticket_id p;
  _ ← _reporter_note k t note_id p;
  delete_note k d (tk_id t) note_id p now.
Definition has_reported_tickets (d : TicketDb) (s : string) : bool :=
  match principal_id_of d s with
  | None => false
  | Some me => existsb (λ t, bool_decide (tk_reporter_principal_id t = Some me) && bool_decide (tk_anonymized_at t = None)) (tickets d)
  end.
Definition reporter_reads_file (d : TicketDb) (p : Principal) (owner : FileOwner) : bool :=
  match principal_id_of d (sub p) with
  | None => false
  | Some me =>
      let own i := existsb (λ t, bool_decide (tk_id t = i) && bool_decide (tk_reporter_principal_id t = Some me) &&
                                 bool_decide (tk_anonymized_at t = None)) (tickets d) in
      match owner with
      | of_ticket i => own i
      | of_ticket_note i => existsb (λ n, bool_decide (tn_id n = i) && bool_decide (tn_deleted_at n = None) &&
                                          bool_decide (tn_visibility n = public) && own (tn_ticket_id n)) (notes d)
      | _ => false
      end
  end.

(** ** Anonymization *)
Definition note_ids (d : TicketDb) (ticket_id : string) : list string := tn_id <$> filter (λ n, tn_ticket_id n = ticket_id) (notes d).
Definition forget_author (t : Ticket) (n : TicketNote) : TicketNote :=
  if bool_decide (tn_ticket_id n = tk_id t) && bool_decide (is_Some (tk_reporter_principal_id t)) &&
     bool_decide (tn_author_id n = tk_reporter_principal_id t) && bool_decide (tn_visibility n = public)
  then set_author None n else n.
Definition forget_actor (ticket_id : string) (e : TicketEvent) : TicketEvent :=
  if bool_decide (te_ticket_id e = ticket_id) && bool_decide (te_kind e = "created")
  then MkTicketEvent (te_ticket_id e) None (te_kind e) (te_payload e) (te_created_at e) else e.
(** [moment]: the value of [anonymized_at] at the commit. *)
Definition anonymize (t : Ticket) (actor : string) (moment now : Z) (d : TicketDb) : TicketDb :=
  let d1 := with_file_db (delete_for_ticket (tk_id t) (note_ids d (tk_id t)) actor (files d)) d in
  let d2 := with_notes (forget_author t <$> notes d1) d1 in
  let d3 := with_timeline (forget_actor (tk_id t) <$> ticket_events (todo d2)) d2 in
  update_ticket (tk_id t) (set_anonymized moment now) d3.
(** *** The retention cron: [cutoff] is the clock minus the months of the site config. *)
Definition ticket_due (cutoff : Z) (t : Ticket) : bool :=
  bool_decide (tk_anonymized_at t = None) && match tk_closed_at t with Some c => c <? cutoff | None => false end.
Definition _due (k : TicketDb) (cutoff : option Z) : list string :=
  match cutoff with
  | None => []
  | Some c => tk_id <$> sort_by (λ a b, default 0 (tk_closed_at a) <=? default 0 (tk_closed_at b))
                (filter (λ t, ticket_due c t = true) (tickets k))
  end.
Definition RETENTION : string := "system:retention".
Definition _anonymize_one (d : TicketDb) (ticket_id : string) (moment now : Z) : TicketDb * bool :=
  match find_by tk_id ticket_id (tickets d) with
  | None => (d, false)
  | Some t =>
      if bool_decide (is_Some (tk_anonymized_at t)) then (d, false)
      else
        let d1 := anonymize t RETENTION moment now d in
        (with_file_db (file_audit (MkAudit (Some RETENTION) "anonymization" "ticket" ticket_id []) (files d1)) d1, true)
  end.
(** Each ticket has a transaction of its own; [clock] gives its time. *)
Fixpoint anonymize_all (ids : list string) (moment : Z) (clock : string → Z) (d : TicketDb) : TicketDb * nat :=
  match ids with
  | [] => (d, 0%nat)
  | i :: r => let '(d1, b) := _anonymize_one d i moment (clock i) in
              let '(d2, n) := anonymize_all r moment clock d1 in (d2, (if b then S n else n)%nat)
  end.
Definition anonymize_tickets (k d : TicketDb) (cutoff : option Z) (moment : Z) (clock : string → Z) : TicketDb * nat :=
  anonymize_all (_due k cutoff) moment clock d.
(** *** The erasure of a reporter *)
Definition reported_by (principal_id email : option string) (t : Ticket) : bool :=
  match principal_id with Some i => bool_decide (tk_reporter_principal_id t = Some i) | None => false end ||
  match given email, tk_reporter_email t with Some e, Some a => same_address a e | _, _ => false end.
Definition anonymize_reported_tickets (d : TicketDb) (actor : string) (principal_id email : option string) (now : Z) : TicketDb * nat :=
  let reported := sort_by (λ a b, str_leb (tk_id a) (tk_id b))
                    (filter (λ t, reported_by principal_id email t && bool_decide (tk_anonymized_at t = None) = true) (tickets d)) in
  (foldl (λ d t, anonymize t actor now now d) d reported, length reported).
Definition block_of_person (principal_id email : option string) (b : TicketSenderBlock) : bool :=
  match sb_target b with
  | to_principal p => bool_decide (Some p = principal_id)
  | to_email a => bool_decide (Some a = normalize_email <$> given email)
  end.
Definition erase_sender_blocks (principal_id email : option string) (d : TicketDb) : TicketDb :=
  with_blocks (filter (λ b, block_of_person principal_id email b = false) (blocks d)) d.
Definition sender_blocks_of (d : TicketDb) (principal_id : option string) (email : string) : list TicketSenderBlock :=
  let mine b := match sb_target b with
                | to_principal p => bool_decide (Some p = principal_id)
                | to_email a => bool_decide (a = normalize_email email)
                end in
  sort_by (λ a b, (sb_created_at a <? sb_created_at b) || ((sb_created_at a =? sb_created_at b) && str_leb (sb_id a) (sb_id b)))
    (filter (λ b, mine b = true) (blocks d)).

(** ** The lists *)
Definition all_digits (l : list ascii) : bool := forallb is_digit l.
(** [_NUMBER_RE], with [int] of the group. *)
Definition named_number (term : string) : option Z :=
  let l := chars (py_lower term) in
  let digits := match l with
                | "t"%char :: "-"%char :: r => r
                | "t"%char :: r => r
                | r => r
                end in
  let short := drop_while (λ c, bool_decide (c = "0"%char)) digits in
  if negb (bool_decide (digits = [])) && all_digits digits && (length short <=? 9)%nat
  then Some (foldl (λ n c, n * 10 + digit_val c) 0 short) else None.
(** [ILIKE] with an escaped pattern; NULL matches nothing. *)
Definition contains_term (term : string) (text : option string) : bool :=
  match text with Some x => str_contains (py_lower term) (py_lower x) | None => false end.
Definition _search_filter (term : string) (texts : list (option string)) (t : Ticket) : bool :=
  bool_decide (term = "") || existsb (contains_term term) texts || bool_decide (named_number term = Some (tk_number t)).
Inductive AssigneeFilter := is_me | is_none | is_person (id : string).
Definition _assignee_filter (a : option AssigneeFilter) (me : option string) (t : Ticket) : bool :=
  match a with
  | None => true
  | Some is_none => bool_decide (tk_assignee_id t = None)
  | Some is_me => bool_decide (tk_assignee_id t = me)
  | Some (is_person i) => bool_decide (tk_assignee_id t = Some i)
  end.
Definition _status_kind_filter (statuses : list TicketStatus) (kinds : list TicketKind) (t : Ticket) : bool :=
  (bool_decide (statuses = []) || bool_decide (tk_status t ∈ statuses)) && (bool_decide (kinds = []) || bool_decide (tk_kind t ∈ kinds)).
Definition newest_leb (a b : Ticket) : bool :=
  (tk_created_at b <? tk_created_at a) || ((tk_created_at a =? tk_created_at b) && (tk_number b <=? tk_number a)).
Definition reporter_row (d : TicketDb) (t : Ticket) : option PrincipalRow :=
  tk_reporter_principal_id t ≫= λ p, find_by pr_id p (people d).
Definition team_texts (d : TicketDb) (t : Ticket) : list (option string) :=
  [Some (tk_title t); Some (tk_body t); tk_reporter_email t; reporter_row d t ≫= pr_display_name; reporter_row d t ≫= pr_email].
Record TicketReporter := MkReporter { rp_principal_id : option string; rp_display_name : option string; rp_email : option string; rp_anonymized : bool }.
Definition _reporter (d : TicketDb) (t : Ticket) : TicketReporter :=
  if bool_decide (is_Some (tk_anonymized_at t)) then MkReporter None None None true
  else match tk_reporter_principal_id t with
       | None => MkReporter None None (tk_reporter_email t) false
       | Some p => MkReporter (pe_id (person d (Some p))) (pe_name (person d (Some p))) (email_of d p) false
       end.
Record TicketListItem := MkItem {
  ti_id : string; ti_number : string; ti_kind : TicketKind; ti_title : string; ti_status : TicketStatus;
  ti_reporter : TicketReporter; ti_assignee : option PersonRef; ti_created_at : Z; ti_updated_at : Z
}.
Definition _list_item (d : TicketDb) (t : Ticket) : TicketListItem :=
  MkItem (tk_id t) (format_number (tk_number t)) (tk_kind t) (tk_title t) (tk_status t) (_reporter d t)
    ((λ a, person d (Some a)) <$> tk_assignee_id t) (tk_created_at t) (tk_updated_at t).
(** A page: the rows and the count of all of them. *)
Definition page {A B} (f : A → B) (l : list A) (limit offset : nat) : list B * nat := (f <$> take limit (drop offset l), length l).
Definition list_tickets (d : TicketDb) (statuses : list TicketStatus) (kinds : list TicketKind) (assignee : option AssigneeFilter)
    (me : option string) (q : option string) (limit offset : nat) : list TicketListItem * nat :=
  page (_list_item d)
    (sort_by newest_leb
       (filter (λ t, _status_kind_filter statuses kinds t && _assignee_filter assignee me t &&
                     _search_filter (py_strip (default "" q)) (team_texts d t) t = true) (tickets d))) limit offset.
Definition counts (d : TicketDb) (s : TicketStatus) : nat := length (filter (λ t, tk_status t = s) (tickets d)).
Record ReporterTicketItem := MkReporterItem {
  ri_id : string; ri_number : string; ri_kind : TicketKind; ri_title : string; ri_status : TicketStatus; ri_created_at : Z; ri_updated_at : Z
}.
Definition _reporter_item (t : Ticket) : ReporterTicketItem :=
  MkReporterItem (tk_id t) (format_number (tk_number t)) (tk_kind t) (tk_title t) (tk_status t) (tk_created_at t) (tk_updated_at t).
Definition reporter_list (d : TicketDb) (me : string) (statuses : list TicketStatus) (kinds : list TicketKind) (q : option string)
    (limit offset : nat) : list ReporterTicketItem * nat :=
  page _reporter_item
    (sort_by newest_leb
       (filter (λ t, bool_decide (tk_reporter_principal_id t = Some me) && bool_decide (tk_anonymized_at t = None) &&
                     _status_kind_filter statuses kinds t &&
                     _search_filter (py_strip (default "" q)) [Some (tk_title t); Some (tk_body t)] t = true) (tickets d))) limit offset.

(** ** The detail *)
Record TicketNoteOut := MkNoteOut {
  no_id : string; no_author : PersonRef; no_body : string; no_at : Z; no_edited_at : option Z; no_is_own : bool;
  no_attachments : list MessageAttachmentOut; no_visibility : NoteVisibility; no_from_reporter : bool; no_mentions : list PersonRef
}.
Definition _reporter_view_author (d : TicketDb) (author_id : string) (me : option string) : PersonRef :=
  match find_by pr_id author_id (people d) with
  | Some r => MkPerson (if bool_decide (Some author_id = me) then Some author_id else None) (pr_display_name r)
  | None => MkPerson None None
  end.
Definition _note_row (d : TicketDb) (t : Ticket) (me : option string) (for_reporter : bool) (n : TicketNote) : TicketNoteOut :=
  MkNoteOut (tn_id n)
    (match tn_author_id n with
     | Some a => if for_reporter then _reporter_view_author d a me else person d (Some a)
     | None => DELETED_PERSON
     end)
    (tn_body n) (tn_created_at n) (tn_edited_at n)
    (bool_decide (is_Some me) && bool_decide (tn_author_id n = me))
    (message_attachments (files d) (of_ticket_note (tn_id n))) (tn_visibility n)
    (bool_decide (is_Some (tn_author_id n)) && bool_decide (tn_author_id n = tk_reporter_principal_id t))
    (if for_reporter then [] else (λ i, person d (Some i)) <$> tn_mentions n).
Definition note_leb (a b : TicketNote) : bool :=
  (tn_created_at a <? tn_created_at b) || ((tn_created_at a =? tn_created_at b) && str_leb (tn_id a) (tn_id b)).
Definition live_notes (d : TicketDb) (ticket_id : string) : list TicketNote :=
  filter (λ n, tn_ticket_id n = ticket_id ∧ tn_deleted_at n = None) (notes d).
(** The events have no id here: two events of one moment keep the order of the inserts. *)
Definition event_leb (a b : TicketEvent) : bool := te_created_at a <=? te_created_at b.
Definition events_of (d : TicketDb) (ticket_id : string) : list TicketEvent :=
  sort_by event_leb (filter (λ e, te_ticket_id e = ticket_id) (ticket_events (todo d))).
Definition status_events_of (d : TicketDb) (ticket_id : string) : list TicketEvent :=
  sort_by event_leb (filter (λ e, te_ticket_id e = ticket_id ∧ te_kind e = "status") (ticket_events (todo d))).
Record ReporterTicketDetail := MkReporterDetail {
  rd_item : ReporterTicketItem; rd_body : string; rd_attachments : list AttachmentOut; rd_notes : list TicketNoteOut;
  (** The time and the payload. *)
  rd_events : list (Z * list (string * pyval));
  rd_closed_at : option Z; rd_can_reply : bool
}.
Definition reporter_event (e : TicketEvent) : Z * list (string * pyval) :=
  (te_created_at e, filter (λ kv, kv.1 ∈ ["from"; "to"]) (te_payload e)).
Definition reporter_detail (d : TicketDb) (ticket_id : string) (p : Principal) : tkres ReporterTicketDetail :=
  '(t, me) ← _reporter_ticket d ticket_id p;
  Ok (MkReporterDetail (_reporter_item t) (tk_body t) (list_for_ticket (files d) (tk_id t))
        (_note_row d t (Some me) true <$> sort_by note_leb (filter (λ n, tn_visibility n = public) (live_notes d (tk_id t))))
        (reporter_event <$> status_events_of d (tk_id t))
        (tk_closed_at t) (negb (_sender_blocked d t))).
Record TicketEventOut := MkEventOut { eo_kind : string; eo_actor : option PersonRef; eo_at : Z; eo_payload : list (string * pyval) }.
Definition person_json (x : PersonRef) : pyval :=
  PDict [("principalId", str_or_none (pe_id x)); ("displayName", str_or_none (pe_name x))].
Definition _person_json (d : TicketDb) (raw : option pyval) : pyval :=
  match raw with Some (PStr i) => person_json (person d (Some i)) | _ => PNone end.
Definition _event_payload (d : TicketDb) (readable : list string) (e : TicketEvent) : list (string * pyval) :=
  let payload := te_payload e in
  if bool_decide (te_kind e = "todo_done")
  then match dict_get "cardId" payload with
       | Some (PStr c) => if bool_decide (c ∈ readable) then payload else dict_set "cardTitle" PNone payload
       | _ => dict_set "cardTitle" PNone payload
       end
  else if bool_decide (te_kind e = "assignee")
  then dict_set "to" (_person_json d (dict_get "to" payload)) (dict_set "from" (_person_json d (dict_get "from" payload)) payload)
  else payload.
Definition _event_out (d : TicketDb) (readable : list string) (e : TicketEvent) : TicketEventOut :=
  MkEventOut (te_kind e) ((λ a, person d (Some a)) <$> te_actor_id e) (te_created_at e) (_event_payload d readable e).
Definition done_cards (events : list TicketEvent) : list string :=
  omap (λ e, if bool_decide (te_kind e = "todo_done")
             then match dict_get "cardId" (te_payload e) with Some (PStr c) => Some c | _ => None end else None) events.
Definition _readable_cards (d : TicketDb) (events : list TicketEvent) (p : Principal) : list string :=
  readable_cards (todo d) (done_cards events) p.
(** [contextTarget] is left out. *)
Record TicketDetail := MkDetail {
  dt_item : TicketListItem; dt_body : string; dt_context : list (string * pyval); dt_attachments : list AttachmentOut;
  dt_notes : list TicketNoteOut; dt_events : list TicketEventOut; dt_duplicate_of : option (string * string);
  dt_open_todo_count : nat; dt_closed_at : option Z; dt_anonymized_at : option Z; dt_sender_blocked : bool
}.
Definition detail (d : TicketDb) (ticket_id : string) (p : Principal) : tkres TicketDetail :=
  t ← _get d ticket_id;
  let me := principal_id_of d (sub p) in
  let events := events_of d (tk_id t) in
  let duplicate := tk_duplicate_of_id t ≫= λ i, find_by tk_id i (tickets d) in
  Ok (MkDetail (_list_item d t) (tk_body t) (tk_context t) (list_for_ticket (files d) (tk_id t))
        (_note_row d t me false <$> sort_by note_leb (live_notes d (tk_id t)))
        (_event_out d (_readable_cards d events p) <$> events)
        ((λ x, (tk_id x, format_number (tk_number x))) <$> duplicate)
        (open_count (todo d) (tk_id t) p) (tk_closed_at t) (tk_anonymized_at t) (_sender_blocked d t)).
(** *** The blocked senders *)
Record TicketBlockedSender := MkBlocked {
  bs_id : string; bs_person : option PersonRef; bs_email : option string; bs_blocked_by : option PersonRef; bs_blocked_at : Z;
  bs_source_ticket : option (string * string); bs_hit_count : Z; bs_last_hit_at : option Z
}.
Definition _blocked_sender (d : TicketDb) (b : TicketSenderBlock) : TicketBlockedSender :=
  MkBlocked (sb_id b)
    (match sb_target b with to_principal p => Some (person d (Some p)) | to_email _ => None end)
    (match sb_target b with to_principal p => email_of d p | to_email a => Some a end)
    ((λ i, person d (Some i)) <$> sb_created_by b) (sb_created_at b)
    (t ← (sb_source_ticket_id b ≫= λ i, find_by tk_id i (tickets d)); Some (tk_id t, format_number (tk_number t)))
    (sb_hit_count b) (sb_last_hit_at b).
Definition blocked_senders (d : TicketDb) : list TicketBlockedSender :=
  _blocked_sender d <$>
    sort_by (λ a b, (sb_created_at b <? sb_created_at a) || ((sb_created_at a =? sb_created_at b) && str_leb (sb_id a) (sb_id b))) (blocks d).
