(* ===== verification/TicketFacts.v ===== *)
(** The tickets keep what they promise: an anonymized ticket has no personal data under any order of
    the transactions; the view of the reporter holds no data of the team; a sender block holds back
    exactly the reports of its sender; the routes of the reporter do not tell that a ticket exists;
    the retention cron. *)

From stdpp Require Import gmap strings.
From S2P Require Import Prelude PyStr PyNum PyValue PyDate FlowDb Policy Todo TodoService TodoCards TodoEvents Sha256 Files Tickets.

(** ** The personal data of the tickets *)
Record Sender := MkSender {
  sn_id : string; sn_number : Z; sn_account : option string; sn_email : option string;
  sn_context : list (string * pyval); sn_gone : bool
}.
Definition sender (t : Ticket) : Sender :=
  MkSender (tk_id t) (tk_number t) (tk_reporter_principal_id t) (tk_reporter_email t) (tk_context t)
    (bool_decide (is_Some (tk_anonymized_at t))).
Definition created_by (l : list TicketEvent) : list (string * option string) :=
  (λ e, (te_ticket_id e, te_actor_id e)) <$> filter (λ e, te_kind e = "created") l.
Record View := MkView {
  vw_senders : list Sender;
  vw_notes : list (string * string);
  vw_owners : list FileOwner;
  vw_created : list (string * option string);
  vw_seq : Z
}.
Definition view (d : TicketDb) : View :=
  MkView (sender <$> tickets d) ((λ n, (tn_id n, tn_ticket_id n)) <$> notes d) (fl_owner <$> file_rows (files d))
    (created_by (ticket_events (todo d))) (number_seq d).
(** A ticket that is not anonymized; a file may belong to such a ticket only. *)
Definition live (v : View) (i : string) : Prop := ∃ s, s ∈ vw_senders v ∧ sn_id s = i ∧ sn_gone s = false.
Definition live_owner (v : View) (o : FileOwner) : Prop :=
  match o with
  | of_ticket i => live v i
  | of_ticket_note n => ∃ i, (n, i) ∈ vw_notes v ∧ live v i
  | _ => True
  end.
Definition one_sender (s : Sender) : Prop := is_Some (sn_account s) ↔ sn_email s = None.
Definition sender_ok (s : Sender) : Prop :=
  if sn_gone s then sn_account s = None ∧ sn_email s = None ∧ sn_context s = [] else one_sender s.

(** ** The moves of the transactions *)
Definition put_notes (l : list (string * string)) (v : View) : View := MkView (vw_senders v) l (vw_owners v) (vw_created v) (vw_seq v).
Definition put_owners (l : list FileOwner) (v : View) : View := MkView (vw_senders v) (vw_notes v) l (vw_created v) (vw_seq v).
Definition put_seq (z : Z) (v : View) : View := MkView (vw_senders v) (vw_notes v) (vw_owners v) (vw_created v) z.
Definition report (s : Sender) (v : View) : View :=
  MkView (vw_senders v ++ [s]) (vw_notes v) (vw_owners v) (vw_created v ++ [(sn_id s, sn_account s)]) (vw_seq v + 1).
Definition owned (v : View) (i : string) (o : FileOwner) : Prop :=
  match o with of_ticket j => j = i | of_ticket_note n => (n, i) ∈ vw_notes v | _ => False end.
#[export] Instance owned_dec v i o : Decision (owned v i o).
Proof. destruct o; cbn; apply _. Defined.
Definition forget_sender (i : string) (s : Sender) : Sender :=
  if bool_decide (sn_id s = i) then MkSender (sn_id s) (sn_number s) None None [] true else s.
Definition forget (i : string) (v : View) : View :=
  MkView (forget_sender i <$> vw_senders v) (vw_notes v) (filter (λ o, ¬ owned v i o) (vw_owners v))
    ((λ c, if bool_decide (c.1 = i) then (c.1, None) else c) <$> vw_created v) (vw_seq v).
Inductive move (v : View) : View → Prop :=
| mv_number : move v (put_seq (vw_seq v + 1) v)
| mv_note id i : id ∉ (vw_notes v).*1 → move v (put_notes (vw_notes v ++ [(id, i)]) v)
| mv_files l : (∀ o, o ∈ l → o ∈ vw_owners v ∨ live_owner v o) → move v (put_owners l v)
| mv_report s : sn_id s ∉ sn_id <$> vw_senders v → sn_number s = vw_seq v + 1 → sn_gone s = false → one_sender s → move v (report s v)
| mv_forget i : move v (forget i v).
Record view_ok (v : View) : Prop := MkOk {
  ok_ids : NoDup (sn_id <$> vw_senders v);
  ok_numbers : NoDup (sn_number <$> vw_senders v);
  ok_seq : Forall (λ s, sn_number s ≤ vw_seq v) (vw_senders v);
  ok_notes : NoDup (vw_notes v).*1;
  ok_senders : Forall sender_ok (vw_senders v);
  ok_owners : ∀ o, o ∈ vw_owners v → live_owner v o;
  ok_created : ∀ i a, (i, Some a) ∈ vw_created v → live v i
}.

Lemma live_mono v w o :
  (∀ i, live v i → live w i) → (∀ x, x ∈ vw_notes v → x ∈ vw_notes w) → live_owner v o → live_owner w o.
Proof. intros Hl Hn. destruct o; cbn; [done|by apply Hl| |done..]. intros (i & Hi & Hv). exists i. auto. Qed.
Lemma forget_other v i s : s ∈ vw_senders v → sn_id s ≠ i → s ∈ vw_senders (forget i v).
Proof. intros Hs Hne. apply list_elem_of_fmap. exists s. split; [|done]. unfold forget_sender. by rewrite bool_decide_false. Qed.
Lemma forget_live v i j : live v j → j ≠ i → live (forget i v) j.
Proof. intros (s & Hs & <- & Hg) Hne. exists s. split; [by apply forget_other|done]. Qed.
Lemma forget_keys {A} (key : Sender → A) v i :
  (∀ s, key (forget_sender i s) = key s) → key <$> vw_senders (forget i v) = key <$> vw_senders v.
Proof. intros H. cbn. rewrite <- list_fmap_compose. apply list_fmap_ext. intros n s _. apply H. Qed.
Lemma forget_ok v i : view_ok v → view_ok (forget i v).
Proof.
  intros [Hi Hn Hq Hk Hs Ho Hc].
  assert (Eid : ∀ s, sn_id (forget_sender i s) = sn_id s) by (intros s; unfold forget_sender; by case_bool_decide).
  assert (Enr : ∀ s, sn_number (forget_sender i s) = sn_number s) by (intros s; unfold forget_sender; by case_bool_decide).
  split; [by rewrite forget_keys|by rewrite forget_keys| | done| | |].
  - cbn. rewrite Forall_fmap. eapply Forall_impl; [exact Hq|]. intros s. cbn. by rewrite Enr.
  - cbn. rewrite Forall_fmap. eapply Forall_impl; [exact Hs|]. intros s H. cbn. unfold forget_sender. by case_bool_decide.
  - intros o [Hno Hin]%list_elem_of_filter. specialize (Ho o Hin). destruct o; cbn in *; [done|by apply forget_live| |done..].
    destruct Ho as (j & Hj & Hl). exists j. split; [done|]. apply forget_live; [done|]. by intros ->.
  - intros j a (c & E & Hin)%list_elem_of_fmap. cbn in E. case_bool_decide as Hne; [done|]. subst c. apply forget_live; [by eapply Hc|done].
Qed.
Lemma report_ok v s :
  sn_id s ∉ sn_id <$> vw_senders v → sn_number s = vw_seq v + 1 → sn_gone s = false → one_sender s → view_ok v → view_ok (report s v).
Proof.
  intros Hf Hs Hg H1 [Hi Hn Hq Hk Hok Ho Hc].
  assert (Hl : ∀ i, live v i → live (report s v) i) by (intros i (x & Hx & Hr); exists x; split; [apply elem_of_app; by left|done]).
  split; cbn.
  - rewrite fmap_app. apply NoDup_app. split; [done|]. split; [|apply NoDup_singleton]. intros x Hx ->%list_elem_of_singleton. done.
  - rewrite fmap_app. apply NoDup_app. split; [done|]. split; [|apply NoDup_singleton].
    intros x (y & -> & Hy)%list_elem_of_fmap E%list_elem_of_singleton. rewrite Forall_forall in Hq. specialize (Hq y Hy). cbn in Hq. lia.
  - apply Forall_app. split; [|apply Forall_singleton; lia]. eapply Forall_impl; [exact Hq|]. cbn. lia.
  - done.
  - apply Forall_app. split; [done|]. apply Forall_singleton. unfold sender_ok. by rewrite Hg.
  - intros o Hin. eapply live_mono; [exact Hl| |by apply Ho]. done.
  - intros i a [Hin|[= -> _]%list_elem_of_singleton]%elem_of_app; [by eapply Hl, Hc|]. exists s. split; [|done]. apply elem_of_app. right. left.
Qed.
Lemma view_move_ok v w : move v w → view_ok v → view_ok w.
Proof.
  intros [|id i Hf|l Hl|s Hf Hs Hg H1|i] Hok; [| | |by apply report_ok|by apply forget_ok]; destruct Hok as [Hi Hn Hq Hk Hs Ho Hc].
  - split; try done. eapply Forall_impl; [exact Hq|]. cbn. lia.
  - split; try done; cbn.
    + rewrite fmap_app. apply NoDup_app. split; [done|]. split; [|apply NoDup_singleton]. intros x Hx ->%list_elem_of_singleton. done.
    + intros o Hin. eapply live_mono; [| |by apply Ho]; [done|]. intros x Hx. cbn. apply elem_of_app. by left.
  - split; try done; cbn. intros o Hin. by destruct (Hl o Hin) as [?%Ho|?].
Qed.
Lemma moves_ok v w : rtc move v w → view_ok v → view_ok w.
Proof. induction 1; eauto using view_move_ok. Qed.
(** A ticket stays, and an anonymized one stays anonymized. *)
Lemma move_gone v w i : move v w → (∃ s, s ∈ vw_senders v ∧ sn_id s = i ∧ sn_gone s = true) → ∃ s, s ∈ vw_senders w ∧ sn_id s = i ∧ sn_gone s = true.
Proof.
  intros [|id j _|l _|x _ _ _ _|j] (s & Hs & <- & Hg); try (exists s; by eauto).
  - exists s. split; [apply elem_of_app; by left|done].
  - exists (forget_sender j s). split; [by apply list_elem_of_fmap_2|]. unfold forget_sender. by case_bool_decide.
Qed.
Lemma moves_gone v w i : rtc move v w → (∃ s, s ∈ vw_senders v ∧ sn_id s = i ∧ sn_gone s = true) → ∃ s, s ∈ vw_senders w ∧ sn_id s = i ∧ sn_gone s = true.
Proof. induction 1; eauto using move_gone. Qed.

(** ** The transactions *)
Definition fresh_ticket (d : TicketDb) (id : string) : Prop := id ∉ tk_id <$> tickets d.
Definition fresh_note (d : TicketDb) (id : string) : Prop := id ∉ tn_id <$> notes d.
(** A request of the team or of a report; [k] are the tables that it read before its writes. *)
Inductive team_request (k d : TicketDb) : TicketDb → Prop :=
| rq_report payload reporter email pepper id now d' r :
    fresh_ticket d id → create_ticket k d payload reporter email pepper id now = Ok (d', r) → team_request k d d'
| rq_patch ticket payload p now d' : patch_ticket k d ticket payload p now = Ok d' → team_request k d d'
| rq_todos ticket payload p now d' : complete_todos k d ticket payload p now = Ok d' → team_request k d d'
| rq_note ticket payload p pepper id now d' :
    fresh_note d id → add_note k d ticket payload p pepper id now = Ok d' → team_request k d d'
| rq_edit ticket note body p mentions now d' l : edit_note k d ticket note body p mentions now = Ok (d', l) → team_request k d d'
| rq_delete ticket note p now d' : delete_note k d ticket note p now = Ok d' → team_request k d d'
| rq_block ticket p id now d' : block_sender k d ticket p id now = Ok d' → team_request k d d'
| rq_unblock ticket d' : unblock_sender k d ticket = Ok d' → team_request k d d'
| rq_lift block d' : delete_block d block = Ok d' → team_request k d d'.
(** A request of the reporter. *)
Inductive reporter_request (k d : TicketDb) : TicketDb → Prop :=
| rr_note ticket body ids token p pepper id now d' :
    fresh_note d id → reporter_add_note d ticket body ids token p pepper id now = Ok d' → reporter_request k d d'
| rr_edit ticket note body p now d' : reporter_edit_note d ticket note body p now = Ok d' → reporter_request k d d'
| rr_delete ticket note p now d' : reporter_delete_note k d ticket note p now = Ok d' → reporter_request k d d'.
(** One ticket of a run of the cron, an erasure, the drafts, the scans, the boards. *)
Inductive system_step (d : TicketDb) : TicketDb → Prop :=
| sy_retention id moment now : system_step d (_anonymize_one d id moment now).1
| sy_erasure actor account email now : system_step d (anonymize_reported_tickets d actor account email now).1
| sy_unblock account email : system_step d (erase_sender_blocks account email d)
| sy_upload s token new_token name mime size by_ key id storage now x t :
    upload (files d) s token new_token name mime size by_ key id storage now = Ok (x, t) → system_step d (with_file_db x d)
| sy_delete_draft s id token actor x : delete_draft (files d) s id token actor = Ok x → system_step d (with_file_db x d)
| sy_purge skipped now : system_step d (with_file_db (_purge_batch (files d) skipped now).1 d)
| sy_purge_tokens now : system_step d (with_file_db (_purge_tokens (files d) now) d)
| sy_scan id v actor : system_step d (with_file_db (finalize_scan (files d) id v actor).1 d)
(** The to-do boards, the accounts and the roles: they add [todo_done] events only. *)
| sy_boards x new :
    ticket_events x = ticket_events (todo d) ++ new → Forall (λ e, te_kind e = "todo_done") new → system_step d (with_todo x d).
Definition ticket_step (d d' : TicketDb) : Prop :=
  ∃ k, team_request k d d' ∨ reporter_request k d d' ∨ system_step d d'.
Definition no_tickets (d : TicketDb) : Prop :=
  tickets d = [] ∧ notes d = [] ∧ ticket_events (todo d) = [] ∧
  ∀ x, x ∈ file_rows (files d) → match fl_owner x with of_ticket _ | of_ticket_note _ => False | _ => True end.
Definition reached (d : TicketDb) : Prop := ∃ d0, no_tickets d0 ∧ rtc ticket_step d0 d.

(** ** Every transaction is a run of moves *)
Lemma view_update_ticket i f d : (∀ t, sender (f t) = sender t) → view (update_ticket i f d) = view d.
Proof. intros H. unfold view. cbn. by rewrite (update_row_map tk_id sender) by auto. Qed.
Lemma view_update_note i f d : (∀ n, tn_id (f n) = tn_id n ∧ tn_ticket_id (f n) = tn_ticket_id n) → view (update_note i f d) = view d.
Proof.
  intros H. unfold view. cbn. rewrite (update_row_map tn_id (λ n, (tn_id n, tn_ticket_id n))); [done|].
  intros n _ _. by destruct (H n) as [-> ->].
Qed.
Lemma created_app l new : Forall (λ e, te_kind e ≠ "created") new → created_by (l ++ new) = created_by l.
Proof. intros H. rewrite Forall_forall in H. unfold created_by. rewrite filter_app, (filter_none _ new) by apply H. by rewrite app_nil_r. Qed.
Lemma view_ticket_event i kind a payload now d : kind ≠ "created" → view (_event i kind a payload now d) = view d.
Proof. intros H. unfold view. f_equal. by apply created_app, Forall_singleton. Qed.
Lemma view_events i a now l d : Forall (λ e, e.1 ≠ "created") l → view (write_events i a l now d) = view d.
Proof.
  revert d. induction l as [|e l IH]; intros d H; [done|]. apply Forall_cons in H as [He H].
  change (write_events i a (e :: l) now d) with (write_events i a l now (_event i e.1 a e.2 now d)). rewrite (IH _ H). by apply view_ticket_event.
Qed.
Lemma move_with_files x d :
  (∀ o, o ∈ fl_owner <$> file_rows x → o ∈ fl_owner <$> file_rows (files d) ∨ live_owner (view d) o) →
  rtc move (view d) (view (with_file_db x d)).
Proof. intros H. apply rtc_once. by apply (mv_files (view d)). Qed.
(** Files that go, or that keep their owner. *)
Lemma move_fewer_files x d :
  (∀ o, o ∈ fl_owner <$> file_rows x → o ∈ fl_owner <$> file_rows (files d)) → rtc move (view d) (view (with_file_db x d)).
Proof. intros H. apply move_with_files. auto. Qed.
Lemma owners_filter (P : FileRow → Prop) `{∀ x, Decision (P x)} (l : list FileRow) o : o ∈ fl_owner <$> filter P l → o ∈ fl_owner <$> l.
Proof. intros (x & -> & [_ Hx]%list_elem_of_filter)%list_elem_of_fmap. by apply list_elem_of_fmap_2. Qed.
Lemma move_drop drop actor d : rtc move (view d) (view (with_file_db (_drop_rows drop actor (files d)) d)).
Proof. apply move_fewer_files. intros o. apply owners_filter. Qed.
Lemma move_bind ids token pepper owner d :
  live_owner (view d) owner → rtc move (view d) (view (with_file_db (bind_drafts ids token pepper owner (files d)) d)).
Proof.
  intros Hl. apply move_with_files. intros o (x & -> & (y & -> & Hy)%list_elem_of_fmap)%list_elem_of_fmap.
  case_match; [by right|left]. by apply list_elem_of_fmap_2.
Qed.
Lemma get_ticket_ok d i t : _get d i = Ok t → t ∈ tickets d ∧ tk_id t = i.
Proof.
  unfold _get, or_ticket. destruct (find_by _ _ _) eqn:E; [|done]. intros [= ->].
  split; [by eapply find_by_elem|by eapply find_by_id].
Qed.
Lemma live_ticket d t : t ∈ tickets d → tk_anonymized_at t = None → live (view d) (tk_id t).
Proof. intros Ht Ha. exists (sender t). split; [by apply list_elem_of_fmap_2|]. cbn. by rewrite Ha. Qed.

(** *** Reports and notes *)
Lemma report_moves k d payload reporter email pepper id now d' r :
  fresh_ticket d id → create_ticket k d payload reporter email pepper id now = Ok (d', r) → rtc move (view d) (view d').
Proof.
  intros Hf H. unfold create_ticket in H. apply bind_ok in H as (_ & _ & H). destruct (matching_block _ _ _).
  { apply Ok_inj in H as [= <- <-]. apply rtc_once. apply (mv_number (view d)). }
  apply bind_ok in H as (_ & Hb%raise_if_ok & H). cbn zeta in H. set (t := new_ticket _ _ _ _ _ _) in H.
  set (d1 := with_seq _ _) in H. apply Ok_inj in H as [= <- <-].
  set (s := sender t). set (d2 := _event id "created" reporter [] now d1).
  assert (Hd : move (view d) (view d2)).
  { assert (E : view d2 = report s (view d)).
    { unfold view, report. cbn. f_equal; [by rewrite fmap_app|]. unfold created_by. by rewrite filter_app, fmap_app. }
    rewrite E. apply mv_report; [|done..|].
    - cbn. by rewrite <- list_fmap_compose.
    - unfold one_sender. cbn. destruct reporter, email; cbn in *; naive_solver. }
  eapply rtc_l; [exact Hd|].
  assert (Hl : live (view d2) id) by (apply (live_ticket d2 t); [apply elem_of_app; right; left|done]).
  assert (Hv : ∀ x payload', view (_event id "created" reporter payload' now (with_file_db x d1)) = view (with_file_db x d2)).
  { intros x payload'. unfold view. cbn. f_equal. unfold created_by. by rewrite !filter_app, !fmap_app. }
  unfold bind_report_files. destruct (tc_attachment_ids payload) as [|a l]; [by rewrite (Hv (files d1))|].
  destruct (given _) as [token|]; [|by rewrite (Hv (files d1))]. rewrite Hv. by apply (move_bind _ _ _ (of_ticket id) d2).
Qed.
Lemma insert_note_moves d t author payload mentions pepper id now d' :
  fresh_note d id → (nt_attachment_ids payload ≠ [] → t ∈ tickets d) →
  _insert_note d t author payload mentions pepper id now = Ok d' → rtc move (view d) (view d').
Proof.
  intros Hf Ht H. unfold _insert_note in H. apply bind_ok in H as (_ & Ha%raise_if_ok & H). apply bind_ok in H as (token & Htk & H).
  cbn zeta in H. set (d1 := with_notes _ _) in H. apply Ok_inj in H as <-. rewrite view_update_ticket by done.
  assert (Hm : move (view d) (view d1)).
  { replace (view d1) with (put_notes (vw_notes (view d) ++ [(id, tk_id t)]) (view d)).
    - apply mv_note. cbn. by rewrite <- list_fmap_compose.
    - unfold view, put_notes. cbn. by rewrite fmap_app. }
  eapply rtc_l; [exact Hm|]. destruct token as [x|]; [|done]. apply move_bind. cbn. exists (tk_id t).
  assert (Hne : nt_attachment_ids payload ≠ []) by (intros E; rewrite E in Htk; done).
  split; [rewrite fmap_app; apply elem_of_app; right; left|].
  apply (live_ticket d1 t); [by apply Ht|]. rewrite (bool_decide_false (nt_attachment_ids payload = [])) in Ha by done.
  cbn in Ha. bool_prop. destruct (tk_anonymized_at t); [by destruct Ha|done].
Qed.

(** *** An anonymization *)
Lemma owners_dropped d i : 
  fl_owner <$> filter (λ x, bool_decide (fl_owner x = of_ticket i) || bool_decide (fl_owner x ∈ of_ticket_note <$> note_ids d i) = false)
    (file_rows (files d)) = filter (λ o, ¬ owned (view d) i o) (fl_owner <$> file_rows (files d)).
Proof.
  assert (Hn : ∀ n, (n, i) ∈ vw_notes (view d) ↔ of_ticket_note n ∈ of_ticket_note <$> note_ids d i).
  { intros n. cbn. unfold note_ids. rewrite !list_elem_of_fmap. split.
    - intros (x & [= -> ->] & Hx). exists (tn_id x). split; [done|]. apply list_elem_of_fmap_2. by apply list_elem_of_filter.
    - intros (m & [= ->] & (x & -> & [<- Hx]%list_elem_of_filter)%list_elem_of_fmap). by exists x. }
  induction (file_rows (files d)) as [|x l IH]; [done|]. rewrite fmap_cons, !filter_cons.
  assert (E : bool_decide (fl_owner x = of_ticket i) || bool_decide (fl_owner x ∈ of_ticket_note <$> note_ids d i) = false ↔ ¬ owned (view d) i (fl_owner x)).
  { rewrite orb_false_iff, !bool_decide_eq_false. destruct (fl_owner x); cbn [owned]; rewrite <- ?Hn.
    2: { split; [intros [H _] ->; done|]. intros H. split; [congruence|]. by intros (? & ? & _)%list_elem_of_fmap. }
    2: { split; [by intros [_ H]|]. by intros H. }
    all: split; [by intros _ ?|intros _]; (split; [done|]); by intros (? & ? & _)%list_elem_of_fmap. }
  destruct (decide (¬ owned (view d) i (fl_owner x))) as [H|H].
  - rewrite decide_True by by apply E. by rewrite fmap_cons, IH.
  - rewrite decide_False by by rewrite E. done.
Qed.
Lemma created_forget i l :
  created_by (forget_actor i <$> l) = (λ c, if bool_decide (c.1 = i) then (c.1, None) else c) <$> created_by l.
Proof.
  assert (Ek : ∀ e, te_kind (forget_actor i e) = te_kind e) by (intros e; unfold forget_actor; by case_match).
  unfold created_by. induction l as [|e l IH]; [done|]. rewrite fmap_cons, !filter_cons.
  destruct (decide (te_kind e = "created")) as [E|E].
  - rewrite decide_True by by rewrite Ek. rewrite !fmap_cons, IH. f_equal. unfold forget_actor.
    rewrite (bool_decide_true (te_kind e = "created")), andb_true_r by done. cbn. by case_bool_decide.
  - rewrite decide_False by by rewrite Ek. done.
Qed.
Lemma view_anonymize t actor moment now d : view (anonymize t actor moment now d) = forget (tk_id t) (view d).
Proof.
  unfold view, forget, anonymize. cbn. f_equal.
  - unfold update_row. rewrite <- !list_fmap_compose. apply list_fmap_ext. intros n x _. unfold forget_sender. cbn. by case_bool_decide.
  - rewrite <- list_fmap_compose. apply list_fmap_ext. intros n x _. cbn. unfold forget_author. by case_match.
  - apply (owners_dropped d).
  - apply created_forget.
Qed.
Lemma anonymize_one_moves id moment now d : rtc move (view d) (view (_anonymize_one d id moment now).1).
Proof.
  unfold _anonymize_one. destruct (find_by _ _ _) as [t|] eqn:Et; [|done]. case_bool_decide; [done|].
  apply rtc_once. change (move (view d) (view (anonymize t RETENTION moment now d))). rewrite view_anonymize. constructor.
Qed.
Lemma erasure_moves actor account email now d : rtc move (view d) (view (anonymize_reported_tickets d actor account email now).1).
Proof.
  unfold anonymize_reported_tickets. cbn. generalize (sort_by (λ a b, str_leb (tk_id a) (tk_id b))
    (filter (λ t, reported_by account email t && bool_decide (tk_anonymized_at t = None) = true) (tickets d))).
  intros l. revert d. induction l as [|t l IH]; intros d; [done|]. cbn. eapply rtc_l; [|apply IH]. rewrite view_anonymize. constructor.
Qed.
(** *** The boards *)
Definition adds_done (x y : TodoDb) : Prop := ∃ new, ticket_events y = ticket_events x ++ new ∧ Forall (λ e, te_kind e = "todo_done") new.
Lemma adds_done_trans x y z : adds_done x y → adds_done y z → adds_done x z.
Proof.
  intros (l & El & Hl) (m & Em & Hm). exists (l ++ m). rewrite Em, El, app_assoc. split; [done|]. by apply Forall_app.
Qed.
Lemma adds_done_none x y : ticket_events y = ticket_events x → adds_done x y.
Proof. intros E. exists []. by rewrite E, app_nil_r. Qed.
Lemma complete_done d c b actor now d' m : complete d c b actor now = Ok (d', m) → adds_done d d'.
Proof.
  unfold complete. intros (card & _ & H)%bind_ok. destruct (negb _); [apply Ok_inj in H as [= <- <-]; by apply adds_done_none|].
  destruct (head _); [|apply Ok_inj in H as [= <- <-]; by apply adds_done_none].
  destruct (_ || _); [apply Ok_inj in H as [= <- <-]; by apply adds_done_none|]. apply bind_ok in H as (plan & _ & H).
  apply Ok_inj in H as [= <- <-]. unfold adds_done. eexists. split; [reflexivity|].
  apply Forall_fmap, Forall_true. done.
Qed.
Lemma complete_all_done l actor now : ∀ d m d' m', complete_all l actor now d m = Ok (d', m') → adds_done d d'.
Proof.
  induction l as [|[c b] l IH]; intros d m d' m' H; cbn [complete_all] in H; [injection H as <- <-; by apply adds_done_none|].
  apply bind_ok in H as ([d1 m1] & H1%complete_done & H%IH). by eapply adds_done_trans.
Qed.
Lemma complete_ticket_done k d ticket p now d' : complete_ticket k d ticket p now = Ok d' → adds_done d d'.
Proof.
  unfold complete_ticket. destruct (me k p); [|intros [= <-]; by apply adds_done_none].
  intros ([d1 m] & H%complete_all_done & H')%bind_ok. destruct m; injection H' as <-; [done|by apply adds_done_none].
Qed.
Lemma view_with_boards x d : adds_done (todo d) x → view (with_todo x d) = view d.
Proof.
  intros (new & E & H). unfold view. cbn. rewrite E, created_app; [done|].
  eapply Forall_impl; [exact H|]. intros e He. cbn in *. by rewrite He.
Qed.

(** *** The transactions *)
Lemma sender_write t t' s : sender (write_ticket t t' s) = sender s.
Proof. reflexivity. Qed.
Lemma plan_events t payload x now : Forall (λ e, e.1 ≠ "created") (plan_patch t payload x now).2.
Proof.
  unfold plan_patch. cbn. rewrite !Forall_app. split; [|split]; case_match; try done; by apply Forall_singleton.
Qed.
Lemma patch_view k d ticket payload p now d' : patch_ticket k d ticket payload p now = Ok d' → view d' = view d.
Proof.
  unfold patch_ticket. intros (t & _ & H)%bind_ok. apply bind_ok in H as (x & _ & H). apply bind_ok in H as (_ & _ & H).
  pose proof (plan_events t payload x now) as He. destruct (plan_patch t payload x now) as [t' events]. apply Ok_inj in H as <-.
  rewrite view_events by done. by apply view_update_ticket.
Qed.
Lemma note_write_view old body mentions now d : view (write_note old body mentions now d) = view d.
Proof. by apply view_update_note. Qed.
Lemma delete_note_moves k d ticket note p now d' : delete_note k d ticket note p now = Ok d' → rtc move (view d) (view d').
Proof.
  unfold delete_note. intros ([n me] & _ & H)%bind_ok. apply Ok_inj in H as <-.
  set (d1 := update_note note _ d). rewrite <- (view_update_note note (λ n, set_note (tn_body n) (tn_mentions n) (tn_edited_at n) (Some now) n) d) by done.
  apply (move_drop _ _ d1).
Qed.
Lemma team_moves k d d' : team_request k d d' → rtc move (view d) (view d').
Proof.
  intros [payload reporter email pepper id now d1 r Hf H|ticket payload p now d1 H|ticket payload p now d1 H
    |ticket payload p pepper id now d1 Hf H|ticket note body p mentions now d1 l H|ticket note p now d1 H|ticket p id now d1 H
    |ticket d1 H|block d1 H].
  - by eapply report_moves.
  - by rewrite (patch_view _ _ _ _ _ _ _ H).
  - unfold complete_todos in H. destruct (tp_complete_todos payload); [|by apply Ok_inj in H as <-].
    destruct (complete_ticket _ _ _ _ _) as [x|] eqn:E; [|done]. apply Ok_inj in H as <-.
    apply complete_ticket_done in E. by rewrite view_with_boards.
  - unfold add_note in H. apply bind_ok in H as (t & Ht & H). apply bind_ok in H as (a & _ & H). apply bind_ok in H as (w & _ & H).
    eapply insert_note_moves; [exact Hf| |exact H]. intros Hne. rewrite bool_decide_false in Ht by done. by apply get_ticket_ok in Ht as [? _].
  - unfold edit_note in H. apply bind_ok in H as ([n me] & _ & H). apply bind_ok in H as (w & _ & H). apply Ok_inj in H as [= <- _].
    by rewrite note_write_view.
  - by eapply delete_note_moves.
  - unfold block_sender in H. apply bind_ok in H as (t & _ & H). apply bind_ok in H as (x & _ & H). apply bind_ok in H as (_ & _ & H).
    apply Ok_inj in H as <-. by case_match.
  - unfold unblock_sender in H. apply bind_ok in H as (t & _ & H). apply bind_ok in H as (x & _ & H). by apply Ok_inj in H as <-.
  - unfold delete_block in H. apply bind_ok in H as (_ & _ & H). by apply Ok_inj in H as <-.
Qed.
Lemma reporter_ticket_ok d i p t me :
  _reporter_ticket d i p = Ok (t, me) →
  t ∈ tickets d ∧ tk_id t = i ∧ tk_anonymized_at t = None ∧ tk_reporter_principal_id t = Some me ∧ principal_id_of d (sub p) = Some me.
Proof.
  unfold _reporter_ticket. destruct (principal_id_of d (sub p)) as [x|] eqn:Ep; [|done]. cbn.
  intros (y & [Hy Ei]%get_ticket_ok & H)%bind_ok. apply bind_ok in H as (_ & Hb%raise_if_ok & H). apply Ok_inj in H as [= -> ->]. bool_prop.
  destruct (tk_anonymized_at t) eqn:Ea; [exfalso; eauto|done].
Qed.
Lemma reporter_moves k d d' : reporter_request k d d' → rtc move (view d) (view d').
Proof.
  intros [ticket body ids token p pepper id now d1 Hf H|ticket note body p now d1 H|ticket note p now d1 H].
  - unfold reporter_add_note in H. apply bind_ok in H as ([t me] & (Ht & _)%reporter_ticket_ok & H). apply bind_ok in H as (_ & _ & H).
    by eapply insert_note_moves.
  - unfold reporter_edit_note in H. apply bind_ok in H as ([t me] & _ & H). apply bind_ok in H as (n & _ & H).
    apply bind_ok in H as (_ & _ & H). apply Ok_inj in H as <-. by rewrite note_write_view.
  - unfold reporter_delete_note in H. apply bind_ok in H as ([t me] & _ & H). apply bind_ok in H as (n & _ & H). by eapply delete_note_moves.
Qed.
Lemma put_token_rows h e x : file_rows (put_token h e x) = file_rows x.
Proof. unfold put_token. by case_match. Qed.
Lemma system_moves d d' : system_step d d' → rtc move (view d) (view d').
Proof.
  intros [id moment now|actor account email now|account email|s token new_token name mime size by_ key id storage now x t H|s id token actor x H
    |skipped now|now|id v actor|x new E H].
  - apply anonymize_one_moves.
  - apply erasure_moves.
  - done.
  - unfold upload in H. apply bind_ok in H as (_ & _ & H). apply bind_ok in H as (_ & _ & H). apply Ok_inj in H as [= <- _].
    apply move_with_files. intros o. cbn. rewrite put_token_rows, fmap_app. intros [Ho|Ho%list_elem_of_singleton]%elem_of_app; [by left|right]. by subst o.
  - unfold delete_draft in H. apply bind_ok in H as (_ & _ & H). apply Ok_inj in H as <-. apply move_fewer_files. intros o. apply owners_filter.
  - apply move_fewer_files. intros o. apply owners_filter.
  - by apply move_fewer_files.
  - apply move_fewer_files. intros o. unfold finalize_scan. destruct (find_by _ _ _); [|done]. cbn. destruct (clean v); cbn; by rewrite (update_row_map fl_id fl_owner).
  - by rewrite (view_with_boards x d) by by exists new.
Qed.
Lemma ticket_step_moves d d' : ticket_step d d' → rtc move (view d) (view d').
Proof. intros (k & [H|[H|H]]); [by eapply team_moves|by eapply reporter_moves|by eapply system_moves]. Qed.
Lemma steps_moves d d' : rtc ticket_step d d' → rtc move (view d) (view d').
Proof. induction 1; [done|]. by etrans; [apply ticket_step_moves|]. Qed.
Lemma reached_view_ok d : reached d → view_ok (view d).
Proof.
  intros (d0 & (Ht & Hn & He & Hf) & H). eapply moves_ok; [by apply steps_moves|]. unfold view. rewrite Ht, Hn, He.
  split; cbn; try constructor.
  - intros o (x & -> & Hx)%list_elem_of_fmap. specialize (Hf x Hx). by destruct (fl_owner x).
  - by intros i a ?%not_elem_of_nil.
Qed.

(** ** No personal data on an anonymized ticket *)
Definition no_personal_data (d : TicketDb) (t : Ticket) : Prop :=
  tk_reporter_principal_id t = None ∧ tk_reporter_email t = None ∧ tk_context t = [] ∧
  (∀ x, x ∈ file_rows (files d) → fl_owner x ≠ of_ticket (tk_id t)) ∧
  (∀ x n, x ∈ file_rows (files d) → n ∈ notes d → tn_ticket_id n = tk_id t → fl_owner x ≠ of_ticket_note (tn_id n)) ∧
  (∀ e, e ∈ ticket_events (todo d) → te_ticket_id e = tk_id t → te_kind e = "created" → te_actor_id e = None).
Lemma gone_clean d t : view_ok (view d) → t ∈ tickets d → is_Some (tk_anonymized_at t) → no_personal_data d t.
Proof.
  intros [Hi _ _ Hk Hs Ho Hc] Ht Ha.
  assert (Hst : sender t ∈ vw_senders (view d)) by by apply list_elem_of_fmap_2.
  assert (Hl : ¬ live (view d) (tk_id t)).
  { intros (s & Hin & E & Hg). assert (s = sender t) as -> by by eapply (same_row sn_id). cbn in Hg. by rewrite bool_decide_true in Hg. }
  rewrite Forall_forall in Hs. specialize (Hs _ Hst). unfold sender_ok in Hs. cbn in Hs. rewrite bool_decide_true in Hs by done.
  destruct Hs as (H1 & H2 & H3). repeat split; try done.
  - intros x Hx E. apply Hl, (Ho (of_ticket (tk_id t))). rewrite <- E. by apply list_elem_of_fmap_2.
  - intros x n Hx Hn En E. destruct (Ho (of_ticket_note (tn_id n))) as (i & Hin & Hli); [rewrite <- E; by apply list_elem_of_fmap_2|].
    assert (i = tk_id t) as ->; [|done]. rewrite <- En.
    assert (Hp : (tn_id n, tn_ticket_id n) ∈ vw_notes (view d)) by (apply list_elem_of_fmap; by exists n).
    by injection (same_row fst _ _ _ Hk Hin Hp eq_refl).
  - intros e He Et Ek. destruct (te_actor_id e) as [a|] eqn:Ea; [|done]. destruct Hl. rewrite <- Et. apply (Hc _ a).
    apply list_elem_of_fmap. exists e. rewrite Ea. split; [done|]. by apply list_elem_of_filter.
Qed.
(** C22: once a ticket is anonymized, no transaction, in any order and with any old reads, gives it
    back a reporter, an address, a context, a file, or the actor of its report. *)
Theorem anonymized_stays_clean d d' t :
  reached d → rtc ticket_step d d' → t ∈ tickets d → is_Some (tk_anonymized_at t) →
  ∃ t', t' ∈ tickets d' ∧ tk_id t' = tk_id t ∧ is_Some (tk_anonymized_at t') ∧ no_personal_data d' t'.
Proof.
  intros Hr Hs Ht Ha. assert (Hok : view_ok (view d')) by (eapply moves_ok; [by apply steps_moves|by apply reached_view_ok]).
  destruct (moves_gone _ _ (tk_id t) (steps_moves _ _ Hs)) as (s & (t' & -> & Ht')%list_elem_of_fmap & E & Hg).
  { exists (sender t). split; [by apply list_elem_of_fmap_2|]. split; [done|]. cbn. by apply bool_decide_true. }
  cbn in E, Hg. bool_prop. exists t'. repeat split; try done; by eapply gone_clean.
Qed.

(** ** Sender blocks *)
Definition report_of (d : TicketDb) (t : Ticket) (payload : TicketCreate) (pepper id : string) (now : Z) : tkres (TicketDb * Reported) :=
  create_ticket d d payload (tk_reporter_principal_id t) (tk_reporter_email t) pepper id now.
Definition held_back (d d' : TicketDb) (r : Reported) : Prop :=
  r = swallowed (number_seq d + 1) ∧ number_seq d' = number_seq d + 1 ∧
  todo d' = todo d ∧ files d' = files d ∧ tickets d' = tickets d ∧ notes d' = notes d.
Definition accepted (d d' : TicketDb) (r : Reported) : Prop :=
  ∃ x, r = stored x ∧ tk_number x = number_seq d + 1 ∧ tickets d' = tickets d ++ [x].
Lemma sort_by_nil {A} (leb : A → A → bool) l : sort_by leb l = [] → l = [].
Proof. intros H. apply Permutation_nil_r. rewrite <- H. symmetry. apply sort_by_Permutation. Qed.
Lemma matching_block_spec d account email :
  matching_block d account email = None ↔
  match _sender_condition d account email with None => True | Some c => existsb c (blocks d) = false end.
Proof.
  unfold matching_block. destruct (_sender_condition d account email) as [c|]; [|done]. cbn. rewrite fmap_None, head_None, existsb_false. split.
  - intros H%sort_by_nil b Hb. destruct (c b) eqn:E; [|done]. assert (Hin : b ∈ filter (λ b, c b = true) (blocks d)) by by apply list_elem_of_filter.
    rewrite H in Hin. by apply not_elem_of_nil in Hin.
  - intros H. rewrite (filter_none (λ b, c b = true)); [done|]. intros b Hb. by rewrite (H b Hb).
Qed.
Lemma condition_of_ticket d t :
  tk_anonymized_at t = None → one_sender (sender t) →
  _sender_condition d (tk_reporter_principal_id t) (tk_reporter_email t) = _target_condition d <$> block_target t.
Proof.
  unfold _sender_condition, block_target. intros -> _. destruct (tk_reporter_principal_id t); [done|]. by destruct (given (tk_reporter_email t)).
Qed.
Lemma blocked_report d t :
  tk_anonymized_at t = None → one_sender (sender t) →
  _sender_blocked d t = negb (bool_decide (matching_block d (tk_reporter_principal_id t) (tk_reporter_email t) = None)).
Proof.
  intros Ha H1. unfold _sender_blocked. pose proof (matching_block_spec d (tk_reporter_principal_id t) (tk_reporter_email t)) as H.
  rewrite condition_of_ticket in H by done. destruct (block_target t) as [target|]; cbn in H.
  - destruct (existsb _ _); [rewrite bool_decide_false|rewrite bool_decide_true]; naive_solver.
  - by rewrite bool_decide_true by by apply H.
Qed.
Lemma target_matches d target b : sb_target b = target → _target_condition d target b = true.
Proof.
  intros E. destruct target; cbn; unfold _account_condition, _email_condition; rewrite E; by apply bool_decide_true.
Qed.
(** The flag of a ticket tells exactly whether a new report of its sender is held back; a report
    that is held back takes the number that an accepted one takes and writes nothing else; a block of
    the ticket sets the flag and an unblock clears it. *)
Lemma sender_block_agrees d t :
  reached d → t ∈ tickets d → tk_anonymized_at t = None →
  (∀ payload pepper id now d' r, report_of d t payload pepper id now = Ok (d', r) →
     if _sender_blocked d t then held_back d d' r else accepted d d' r) ∧
  (∀ p id now d', block_sender d d (tk_id t) p id now = Ok d' → _sender_blocked d' t = true) ∧
  (∀ d', unblock_sender d d (tk_id t) = Ok d' → _sender_blocked d' t = false).
Proof.
  intros Hok%reached_view_ok Ht Ha. assert (Hst : sender t ∈ vw_senders (view d)) by by apply list_elem_of_fmap_2.
  assert (H1 : one_sender (sender t)).
  { pose proof (ok_senders _ Hok) as Hs. rewrite Forall_forall in Hs. specialize (Hs _ Hst). unfold sender_ok in Hs. cbn in Hs. by rewrite Ha in Hs. }
  assert (Hnd : NoDup (tk_id <$> tickets d)) by (pose proof (ok_ids _ Hok) as H; cbn in H; by rewrite <- list_fmap_compose in H).
  assert (Hg : _get d (tk_id t) = Ok t) by (unfold _get; by rewrite (find_by_NoDup tk_id)). split; [|split].
  - intros payload pepper id now d' r H. unfold report_of, create_ticket in H. apply bind_ok in H as (_ & _ & H).
    rewrite (blocked_report d t) by done. destruct (matching_block _ _ _) as [b|].
    + rewrite bool_decide_false by done. by apply Ok_inj in H as [= <- <-].
    + rewrite bool_decide_true by done. apply bind_ok in H as (_ & _ & H). apply Ok_inj in H as [= <- <-].
      eexists. split; [done|]. split; [done|]. cbn. unfold bind_report_files. by repeat case_match.
  - intros p id now d' H. unfold block_sender in H. rewrite Hg in H. cbn in H. unfold _sender_target, or_ticket in H. unfold _sender_blocked.
    destruct (block_target t) as [target|]; [|done]. cbn in H. apply bind_ok in H as (_ & _ & H). apply Ok_inj in H as <-. apply existsb_exists.
    destruct (existsb _ (blocks d)) eqn:Eb.
    + apply existsb_exists in Eb as (b & Hb & E). bool_prop. exists b. split; [done|]. by apply target_matches.
    + eexists. split; [cbn; apply in_or_app; right; by left|]. by apply target_matches.
  - intros d' H. unfold unblock_sender in H. rewrite Hg in H. cbn in H. unfold _sender_target, or_ticket in H. unfold _sender_blocked.
    destruct (block_target t) as [target|]; [|done]. cbn in H. injection H as <-. apply existsb_false.
    intros b [Hb _]%list_elem_of_filter. by destruct target.
Qed.

(** ** The routes of the reporter *)
Definition is_reporter (d : TicketDb) (i : string) (p : Principal) : Prop :=
  ∃ t me, t ∈ tickets d ∧ tk_id t = i ∧ tk_anonymized_at t = None ∧ tk_reporter_principal_id t = Some me ∧ principal_id_of d (sub p) = Some me.
Lemma reporter_ticket_err d i p : ¬ is_reporter d i p → _reporter_ticket d i p = Err TkNotFound.
Proof.
  intros H. unfold _reporter_ticket. destruct (principal_id_of d (sub p)) as [me|] eqn:Ep; [|done]. cbn.
  destruct (_get d i) as [t|] eqn:Et; cbn.
  - apply get_ticket_ok in Et as [Ht Ei]. destruct (bool_decide _ || _) eqn:Eb; [done|]. bool_prop. destruct H. exists t, me.
    repeat split; try done. destruct (tk_anonymized_at t); [exfalso; eauto|done].
  - unfold _get, or_ticket in Et. destruct (find_by _ _ _); congruence.
Qed.
Lemma reporter_ticket_found d i p : NoDup (tk_id <$> tickets d) → is_reporter d i p → ∃ t me, _reporter_ticket d i p = Ok (t, me).
Proof.
  intros Hnd (t & me & Ht & <- & Ha & Hr & Hp). exists t, me. unfold _reporter_ticket. rewrite Hp. cbn. unfold _get.
  rewrite (find_by_NoDup tk_id) by done. cbn. rewrite Ha, Hr, (bool_decide_false (is_Some None)) by by intros [].
  by rewrite bool_decide_true.
Qed.
(** A caller who did not report the ticket gets one and the same error from every route of the
    reporter, whether the ticket exists, is anonymized or belongs to another account, and neither its
    files nor its row; the reporter gets the detail. *)
Lemma reporter_routes_hide d i p :
  reached d →
  (is_reporter d i p → is_Some (match reporter_detail d i p with Ok v => Some v | Err _ => None end)) ∧
  (¬ is_reporter d i p →
    reporter_detail d i p = Err TkNotFound ∧
    (∀ body ids token pepper id now, reporter_add_note d i body ids token p pepper id now = Err TkNotFound) ∧
    (∀ note body now, reporter_edit_note d i note body p now = Err TkNotFound) ∧
    (∀ x note now, reporter_delete_note d x i note p now = Err TkNotFound) ∧
    reporter_reads_file d p (of_ticket i) = false ∧
    (∀ n, n ∈ notes d → tn_ticket_id n = i → reporter_reads_file d p (of_ticket_note (tn_id n)) = false)).
Proof.
  intros Hok%reached_view_ok. assert (Hnd : NoDup (tk_id <$> tickets d)) by (pose proof (ok_ids _ Hok) as H; cbn in H; by rewrite <- list_fmap_compose in H).
  split.
  - intros (t & me & H)%reporter_ticket_found; [|done]. unfold reporter_detail. rewrite H. cbn. eauto.
  - intros Hn. pose proof (reporter_ticket_err _ _ _ Hn) as He.
    assert (Hown : ∀ me, principal_id_of d (sub p) = Some me → existsb (λ t, bool_decide (tk_id t = i) &&
      bool_decide (tk_reporter_principal_id t = Some me) && bool_decide (tk_anonymized_at t = None)) (tickets d) = false).
    { intros me Hme. apply existsb_false. intros t Ht. destruct (_ && _) eqn:E; [|done]. bool_prop. destruct Hn. by exists t, me. }
    repeat split; intros.
    + unfold reporter_detail. by rewrite He.
    + unfold reporter_add_note. by rewrite He.
    + unfold reporter_edit_note. by rewrite He.
    + unfold reporter_delete_note. by rewrite He.
    + unfold reporter_reads_file. destruct (principal_id_of d (sub p)); [by apply Hown|done].
    + unfold reporter_reads_file. destruct (principal_id_of d (sub p)) as [me|]; [|done]. apply existsb_false. intros m Hm.
      destruct (bool_decide (tn_id m = tn_id n)) eqn:Em; [|done]. bool_prop.
      assert (m = n) as -> by (eapply (same_row tn_id); try done; pose proof (ok_notes _ Hok) as Hk; cbn in Hk; by rewrite <- list_fmap_compose in Hk).
      subst i. rewrite Hown by done. by rewrite andb_false_r.
Qed.

(** ** What the reporter sees *)
(** The tables without the data of the team: this ticket, its public notes and its status changes;
    of the people the names of the authors of these notes and the address of the reporter [me]. *)
Definition shown_note (i : string) (n : TicketNote) : Prop := (tn_ticket_id n = i ∧ tn_deleted_at n = None) ∧ tn_visibility n = public.
Definition shown_owner (d : TicketDb) (i : string) (o : FileOwner) : Prop :=
  match o with of_ticket j => j = i | of_ticket_note n => n ∈ tn_id <$> filter (shown_note i) (notes d) | _ => False end.
#[export] Instance shown_owner_dec d i o : Decision (shown_owner d i o).
Proof. destruct o; cbn; apply _. Defined.
Definition redact_ticket (t : Ticket) : Ticket :=
  MkTicket (tk_id t) (tk_number t) (tk_kind t) (tk_title t) (tk_body t) (tk_status t) (tk_reporter_principal_id t) None
    None None [] (tk_closed_at t) (tk_anonymized_at t) (tk_created_at t) (tk_updated_at t).
Definition redact_note (n : TicketNote) : TicketNote :=
  MkNote (tn_id n) (tn_ticket_id n) (tn_author_id n) (tn_body n) (tn_visibility n) [] (tn_created_at n) (tn_edited_at n) (tn_deleted_at n).
Definition redact_event (e : TicketEvent) : TicketEvent :=
  MkTicketEvent (te_ticket_id e) None (te_kind e) (filter (λ kv, kv.1 ∈ ["from"; "to"]) (te_payload e)) (te_created_at e).
Definition redact_file (x : FileRow) : FileRow :=
  MkFile (fl_id x) (fl_owner x) None (fl_filename x) (fl_mime x) (fl_size x) ((λ _, "") <$> fl_storage_key x) (fl_scanned x)
    (if bool_decide (fl_scan_result x = Some "clean") then Some "clean" else None).
Definition redact_person (authors : list (option string)) (me : option string) (r : PrincipalRow) : PrincipalRow :=
  MkPrincipalRow (pr_id r) (pr_sub r) (if bool_decide (Some (pr_id r) ∈ authors) then pr_display_name r else None)
    (if bool_decide (Some (pr_id r) = me) then pr_email r else None).
Definition redact_block (b : TicketSenderBlock) : TicketSenderBlock := MkBlock "" (sb_target b) None None 0 0 None.
Definition redact (i : string) (me : option string) (d : TicketDb) : TicketDb :=
  let seen := filter (shown_note i) (notes d) in
  MkTicketDb
    (MkTodoDb (MkConfig [] [] [] [] [] (redact_person (tn_author_id <$> seen) me <$> people d) [] [] [] [] [] [] [])
       (MkRoleTables [] [] [] []) [] [] [] [] [] [] [] [] [] [] [] [] []
       (redact_event <$> filter (λ e, te_ticket_id e = i ∧ te_kind e = "status") (ticket_events (todo d))) [] [])
    (MkFileDb (redact_file <$> filter (λ x, shown_owner d i (fl_owner x)) (file_rows (files d))) [] [])
    (redact_ticket <$> filter (λ t, tk_id t = i) (tickets d)) (redact_note <$> seen) (redact_block <$> blocks d) 0.

Lemma sort_by_fmap {A B} (f : A → B) (le : A → A → bool) (leb : B → B → bool) l :
  (∀ x y, leb (f x) (f y) = le x y) → sort_by leb (f <$> l) = f <$> sort_by le l.
Proof.
  intros H. induction l as [|x l IH]; [done|]. rewrite fmap_cons. cbn. rewrite IH. clear IH.
  induction (sort_by le l) as [|y r IH]; [done|]. rewrite fmap_cons. cbn. rewrite H. case_match; [done|]. by rewrite IH.
Qed.
Lemma filter_fmap_comm {A B} (f : A → B) (P : B → Prop) (Q : A → Prop) `{∀ x, Decision (P x)} `{∀ x, Decision (Q x)} (l : list A) :
  (∀ x, P (f x) ↔ Q x) → filter P (f <$> l) = f <$> filter Q l.
Proof.
  intros E. induction l as [|x l IH]; [done|]. rewrite fmap_cons, !filter_cons, IH. by destruct (decide (Q x)), (decide (P (f x))); naive_solver.
Qed.
(** A view [g] of the rows [Q] does not depend on what [f] and the filter [P] remove. *)
Lemma seen_rows {A B} (f : A → A) (g : A → B) (P Q : A → Prop) `{∀ x, Decision (P x)} `{∀ x, Decision (Q x)} (l : list A) :
  (∀ x, x ∈ l → Q x → P x) → (∀ x, Q (f x) ↔ Q x) → (∀ x, g (f x) = g x) → g <$> filter Q (f <$> filter P l) = g <$> filter Q l.
Proof.
  intros HP HQ Hg. rewrite (filter_fmap_comm f Q Q) by done. rewrite (filter_sub P Q) by done. rewrite <- list_fmap_compose.
  apply list_fmap_ext. intros n x _. apply Hg.
Qed.
Lemma find_fmap {A B} (id_of : A → string) (key : B → string) (f : A → B) i l :
  (∀ x, key (f x) = id_of x) → find_by key i (f <$> l) = f <$> find_by id_of i l.
Proof.
  intros H. unfold find_by. rewrite (filter_fmap_comm f _ (λ x, id_of x = i)) by (intros x; by rewrite H). by destruct (filter _ l).
Qed.
Lemma find_filtered {A} (id_of : A → string) i l : find_by id_of i (filter (λ x, id_of x = i) l) = find_by id_of i l.
Proof. unfold find_by. by rewrite (filter_sub (λ x, id_of x = i)). Qed.
Lemma redact_principal i me d s : principal_id_of (redact i me d) s = principal_id_of d s.
Proof. unfold principal_id_of. cbn. rewrite (find_fmap pr_sub) by done. rewrite <- option_fmap_compose. by apply option_fmap_ext. Qed.
Section Blind.
Context (d : TicketDb) (i : string) (me : string).
Notation r := (redact i (Some me) d).
Lemma redact_address : email_of r me = email_of d me.
Proof.
  unfold email_of. cbn. rewrite (find_fmap pr_id) by done. destruct (find_by pr_id me (people d)) as [x|] eqn:E; [|done].
  apply find_by_id in E. cbn. rewrite E. by rewrite bool_decide_true.
Qed.
Lemma redact_blocked t : tk_anonymized_at t = None → tk_reporter_principal_id t = Some me → _sender_blocked r (redact_ticket t) = _sender_blocked d t.
Proof.
  intros Ha Hr. unfold _sender_blocked, block_target. cbn. rewrite Ha, Hr. cbn. unfold _account_condition. rewrite redact_address.
  induction (blocks d) as [|b l IH]; [done|]. rewrite fmap_cons. cbn. by rewrite IH.
Qed.
Lemma redact_row n t : shown_note i n → n ∈ notes d → _note_row r (redact_ticket t) (Some me) true (redact_note n) = _note_row d t (Some me) true n.
Proof.
  intros Hs Hn. unfold _note_row. cbn. f_equal.
  - destruct (tn_author_id n) as [a|] eqn:Ea; [|done]. unfold _reporter_view_author. cbn. rewrite (find_fmap pr_id) by done.
    destruct (find_by pr_id a (people d)) as [x|] eqn:Ex; [|done]. cbn. rewrite (bool_decide_true (Some (pr_id x) ∈ _)); [done|].
    apply find_by_id in Ex. rewrite Ex, <- Ea. apply list_elem_of_fmap_2. by apply list_elem_of_filter.
  - unfold message_attachments. cbn. apply seen_rows; [|done|].
    + intros x _ ->. cbn. apply list_elem_of_fmap_2. by apply list_elem_of_filter.
    + intros x. unfold message_attachment_out, _scan_state. cbn. f_equal. destruct (fl_scanned x); [|done]. cbn.
      by destruct (bool_decide (fl_scan_result x = Some "clean")), (fl_storage_key x).
Qed.
Lemma redact_notes : sort_by note_leb (filter (λ n, tn_visibility n = public) (live_notes r i)) =
  redact_note <$> sort_by note_leb (filter (λ n, tn_visibility n = public) (live_notes d i)).
Proof.
  rewrite <- (sort_by_fmap redact_note note_leb note_leb) by done. f_equal. unfold live_notes. cbn.
  rewrite !list_filter_filter. rewrite (filter_fmap_comm redact_note _ (shown_note i)) by (unfold shown_note; cbn; naive_solver).
  rewrite (filter_sub (shown_note i) (shown_note i)) by done. f_equal. apply list_filter_iff. unfold shown_note. naive_solver.
Qed.
Lemma redact_events : reporter_event <$> status_events_of r i = reporter_event <$> status_events_of d i.
Proof.
  unfold status_events_of. cbn. rewrite (filter_fmap_comm redact_event _ (λ e, te_ticket_id e = i ∧ te_kind e = "status")) by done.
  rewrite (filter_sub (λ e, te_ticket_id e = i ∧ te_kind e = "status")) by done.
  rewrite (sort_by_fmap redact_event event_leb event_leb), <- list_fmap_compose by done. apply list_fmap_ext. intros n e _.
  unfold reporter_event. cbn. by rewrite list_filter_filter_l.
Qed.
Lemma redact_reporter_ticket p :
  principal_id_of d (sub p) = Some me →
  _reporter_ticket r i p = match _reporter_ticket d i p with Ok (t, m) => Ok (redact_ticket t, m) | Err e => Err e end.
Proof.
  intros Hp. unfold _reporter_ticket. rewrite redact_principal, Hp. cbn. unfold _get. cbn.
  rewrite (find_fmap tk_id) by done. rewrite find_filtered. destruct (find_by tk_id i (tickets d)) as [t|]; [|done]. cbn.
  by destruct (_ || _).
Qed.
End Blind.

(** ** The retention cron *)
Definition due_at (cutoff : option Z) (t : Ticket) : bool := match cutoff with Some c => ticket_due c t | None => false end.
Definition open_row (t : Ticket) : bool := bool_decide (tk_anonymized_at t = None).
Definition swept (ids : list string) (moment : Z) (clock : string → Z) (t : Ticket) : Ticket :=
  if bool_decide (tk_id t ∈ ids) && open_row t then set_anonymized moment (clock (tk_id t)) t else t.
Lemma rows_kept {A} (f : A → A) (l : list A) : (∀ x, x ∈ l → f x = x) → l = f <$> l.
Proof.
  intros H. rewrite <- (list_fmap_id l) at 1. apply list_fmap_ext. intros n x Hx%list_elem_of_lookup_2. symmetry. by apply H.
Qed.
Lemma one_swept d i moment clock :
  NoDup (tk_id <$> tickets d) →
  tickets (_anonymize_one d i moment (clock i)).1 = swept [i] moment clock <$> tickets d ∧
  (_anonymize_one d i moment (clock i)).2 = existsb (λ t, bool_decide (tk_id t = i) && open_row t) (tickets d).
Proof.
  intros Hnd. unfold _anonymize_one. destruct (find_by tk_id i (tickets d)) as [t|] eqn:Et.
  - pose proof (find_by_elem _ _ _ _ Et) as Ht. apply find_by_id in Et as <-.
    assert (Hu : ∀ x, x ∈ tickets d → tk_id x = tk_id t → x = t) by (intros x Hx E; by eapply (same_row tk_id)).
    case_bool_decide as Ha.
    + split; [|symmetry; apply existsb_false].
      * apply rows_kept. intros x Hx. unfold swept, open_row.
        destruct (bool_decide (tk_id x ∈ [tk_id t])) eqn:E; [|done]. bool_prop. apply list_elem_of_singleton in E. rewrite (Hu x Hx E).
        by rewrite bool_decide_false by by destruct Ha as [? ->].
      * intros x Hx. destruct (_ && _) eqn:E; [|done]. unfold open_row in E. bool_prop. rewrite (Hu x Hx) in * by done. by destruct Ha; congruence.
    + apply eq_None_not_Some in Ha. assert (Ho : open_row t = true) by (unfold open_row; by rewrite Ha).
      split; [|symmetry; apply existsb_exists].
      * cbn. unfold update_row. apply list_fmap_ext. intros n x Hx%list_elem_of_lookup_2. unfold swept. case_bool_decide as E.
        -- rewrite (Hu x Hx E), Ho. by rewrite bool_decide_true by by apply list_elem_of_singleton.
        -- rewrite (bool_decide_false (tk_id x ∈ _)); [done|]. by rewrite list_elem_of_singleton.
      * exists t. split; [by apply list_elem_of_In|]. by rewrite Ho, bool_decide_true.
  - assert (Hno : ∀ x, x ∈ tickets d → tk_id x ≠ i) by (intros x Hx <-; by rewrite (find_by_NoDup tk_id) in Et).
    split; [|symmetry; apply existsb_false; intros x Hx; by rewrite bool_decide_false by by apply Hno].
    apply rows_kept. intros x Hx. unfold swept.
    rewrite bool_decide_false; [done|]. rewrite list_elem_of_singleton. by apply Hno.
Qed.
Lemma all_swept ids moment clock : ∀ d,
  NoDup (tk_id <$> tickets d) → NoDup ids → (∀ i, i ∈ ids → ∃ t, t ∈ tickets d ∧ tk_id t = i ∧ open_row t = true) →
  tickets (anonymize_all ids moment clock d).1 = swept ids moment clock <$> tickets d ∧ (anonymize_all ids moment clock d).2 = length ids.
Proof.
  induction ids as [|i ids IH]; intros d Hnd Hids Hin.
  - split; [|done]. apply rows_kept. intros x _. unfold swept. by rewrite bool_decide_false by set_solver.
  - apply NoDup_cons in Hids as [Hi Hids]. cbn. destruct (one_swept d i moment clock Hnd) as [E1 E2].
    destruct (_anonymize_one d i moment (clock i)) as [d1 b]. cbn in E1, E2.
    assert (Eid : tk_id <$> tickets d1 = tk_id <$> tickets d).
    { rewrite E1, <- list_fmap_compose. apply list_fmap_ext. intros n x _. unfold swept. cbn. by case_match. }
    destruct (IH d1) as [E3 E4]; [by rewrite Eid|done| |].
    { intros j Hj. destruct (Hin j) as (t & Ht & <- & Ho); [by right|]. exists t. split; [|done]. rewrite E1. apply list_elem_of_fmap. exists t.
      split; [|done]. unfold swept. rewrite bool_decide_false; [done|]. rewrite list_elem_of_singleton. by intros E; rewrite E in Hj. }
    destruct (anonymize_all ids moment clock d1) as [d2 n]. cbn in *. split.
    + rewrite E3, E1, <- list_fmap_compose. apply list_fmap_ext. intros k x _. unfold swept, open_row. cbn.
      destruct (bool_decide (tk_id x ∈ [i])) eqn:Ei; bool_prop.
      * apply list_elem_of_singleton in Ei. rewrite (bool_decide_true (tk_id x ∈ i :: ids)) by (rewrite Ei; left).
        destruct (bool_decide (tk_anonymized_at x = None)) eqn:Ea; cbn; [by rewrite andb_false_r|]. by rewrite Ea, andb_false_r.
      * cbn. erewrite (bool_decide_ext (tk_id x ∈ ids)); [done|]. rewrite elem_of_cons. rewrite list_elem_of_singleton in Ei. naive_solver.
    + destruct (Hin i) as (t & Ht & Et & Ho); [left|]. assert (b = true) as ->; [|congruence]. rewrite E2. apply existsb_exists. exists t.
      split; [by apply list_elem_of_In|]. by rewrite Et, Ho, bool_decide_true.
Qed.
Lemma due_row k cutoff i : i ∈ _due k cutoff ↔ ∃ t, t ∈ tickets k ∧ tk_id t = i ∧ due_at cutoff t = true.
Proof.
  unfold _due, due_at. destruct cutoff as [c|]; [|split; [by intros ?%not_elem_of_nil|by intros (? & _ & _ & ?)]].
  rewrite list_elem_of_fmap. setoid_rewrite elem_of_sort_by. setoid_rewrite list_elem_of_filter. naive_solver.
Qed.
Lemma due_NoDup k cutoff : NoDup (tk_id <$> tickets k) → NoDup (_due k cutoff) ∧ length (_due k cutoff) = length (filter (λ t, due_at cutoff t = true) (tickets k)).
Proof.
  intros Hnd. unfold _due, due_at. destruct cutoff as [c|].
  - rewrite length_fmap, length_sort_by. split; [|done]. rewrite sort_by_Permutation. by apply keys_filter.
  - split; [constructor|]. by rewrite filter_none.
Qed.
(** A run of the cron that nothing interrupts anonymizes exactly the tickets that are past their
    retention, each with the moment of the run, returns their number, and leaves nothing for a second
    run. *)
Lemma retention_exact d cutoff moment clock :
  reached d →
  tickets (anonymize_tickets d d cutoff moment clock).1 =
    (λ t, if due_at cutoff t then set_anonymized moment (clock (tk_id t)) t else t) <$> tickets d ∧
  (anonymize_tickets d d cutoff moment clock).2 = length (filter (λ t, due_at cutoff t = true) (tickets d)) ∧
  let d' := (anonymize_tickets d d cutoff moment clock).1 in
  ∀ moment2 clock2, anonymize_tickets d' d' cutoff moment2 clock2 = (d', 0%nat).
Proof.
  intros Hok%reached_view_ok. assert (Hnd : NoDup (tk_id <$> tickets d)) by (pose proof (ok_ids _ Hok) as H; cbn in H; by rewrite <- list_fmap_compose in H).
  destruct (due_NoDup d cutoff Hnd) as [Hdue Hlen].
  assert (Hopen : ∀ t, due_at cutoff t = true → open_row t = true) by (unfold due_at, ticket_due; destruct cutoff; [|done]; intros t E; bool_prop; by apply bool_decide_true).
  destruct (all_swept (_due d cutoff) moment clock d Hnd Hdue) as [E1 E2].
  { intros i (t & Ht & E & Hd)%due_row. exists t. auto. }
  assert (Et : tickets (anonymize_tickets d d cutoff moment clock).1 =
    (λ t, if due_at cutoff t then set_anonymized moment (clock (tk_id t)) t else t) <$> tickets d).
  { unfold anonymize_tickets. rewrite E1. apply list_fmap_ext. intros n t Ht%list_elem_of_lookup_2. unfold swept.
    destruct (due_at cutoff t) eqn:Ed.
    - rewrite bool_decide_true by (apply due_row; eauto). by rewrite (Hopen t Ed).
    - rewrite bool_decide_false; [done|]. intros (x & Hx & E & Hd)%due_row. rewrite (same_row tk_id _ _ _ Hnd Hx Ht E) in Hd. congruence. }
  split; [done|]. split; [unfold anonymize_tickets; congruence|]. cbn zeta. intros moment2 clock2. unfold anonymize_tickets at 1.
  replace (_due _ cutoff) with (@nil string); [done|]. symmetry. apply list_nil_subseteq. intros i (t & Ht & _ & Hd)%due_row. exfalso.
  rewrite Et in Ht. apply list_elem_of_fmap in Ht as (x & -> & _). apply Hopen in Hd as Ho. destruct (due_at cutoff x) eqn:Ex; [|congruence].
  unfold open_row in Ho. cbn in Ho. bool_prop. done.
Qed.

(** ** A history *)
(** Anna reports with a file; Bob manages the tickets. *)
Definition people_of_w : Config :=
  MkConfig [] [] [] [] [] [MkPrincipalRow "u1" "s1" (Some "Anna") (Some "a@x.de"); MkPrincipalRow "u2" "s2" (Some "Bob") (Some "b@x.de")]
    [] [] [] [] [] [] [].
Definition anna : Principal := MkPrincipal "s1" [] [] [] None.
Definition bob : Principal := MkPrincipal "s2" [] [] [] None.
Definition w0 : TicketDb :=
  MkTicketDb (MkTodoDb people_of_w (MkRoleTables [("u2", "r")] [] [("r", TICKET_MANAGE)] [("r", "tickets")])
      [MkAccount "u1" true None []; MkAccount "u2" true None []] [] [] [] [] [] [] [] [] [] [] [] [] [] [] [])
    (MkFileDb [] [] []) [] [] [] 0.
Definition after {A} (d : TicketDb) (r : res A TicketDb) : TicketDb := match r with Ok x => x | Err _ => d end.
Lemma result_after {A} d (r : res A TicketDb) : is_ok r = true → r = Ok (after d r).
Proof. by destruct r. Qed.
Definition pepper : string := "p".
Definition draft_settings : DraftSettings := MkDraftSettings 7 5 1000000 pepper.
Definition w1 : TicketDb :=
  match upload (files w0) draft_settings None "tok" "shot.png" "image/png" 900 "s1" None "f1" "key" 10 with Ok (x, _) => with_file_db x w0 | Err _ => w0 end.
Definition first_report : TicketCreate := MkTicketCreate bug " Fehler " "Es geht nicht." [("route", PStr "/todos")] ["f1"] (Some "tok").
Definition w2 : TicketDb := match create_ticket w1 w1 first_report (Some "u1") None pepper "t1" 20 with Ok (x, _) => x | Err _ => w1 end.
Definition w3 : TicketDb := after w2 (add_note w2 w2 "t1" (MkNoteCreate "Wer kann das?" internal [] None ["u2"]) bob pepper "n1" 30).
Definition w4 : TicketDb := after w3 (reporter_add_note w3 "t1" "Noch immer." [] None anna pepper "n2" 40).
(** Bob blocks Anna and lifts the block again; a report between is held back. *)
Definition w5 : TicketDb := after w4 (block_sender w4 w4 "t1" bob "b1" 50).
Definition second_report : TicketCreate := MkTicketCreate idea "Mehr" "Bitte." [] [] None.
Definition w6 : TicketDb := match create_ticket w5 w5 second_report (Some "u1") None pepper "t2" 60 with Ok (x, _) => x | Err _ => w5 end.
Definition w7 : TicketDb := after w6 (unblock_sender w6 w6 "t1").
Definition set_to (s : TicketStatus) : TicketPatch := MkTicketPatch (Some s) None None None false.
Definition w8 : TicketDb := after w7 (patch_ticket w7 w7 "t1" (set_to done_) bob 70).
Definition no_clock (i : string) : Z := 901.
Definition w9 : TicketDb := (_anonymize_one w8 "t1" 900 901).1.
(** Bob read the ticket before the cron and writes his note after it. *)
Definition w10 : TicketDb := after w9 (add_note w8 w9 "t1" (MkNoteCreate "Fertig." public [] None []) bob pepper "n3" 910).
Definition row_of_w (d : TicketDb) : Ticket := default (new_ticket first_report None None "" 0 0) (find_by tk_id "t1" (tickets d)).
Example the_ticket :
  (λ d, (tk_status (row_of_w d), tk_reporter_principal_id (row_of_w d), tk_closed_at (row_of_w d), number_seq d, length (file_rows (files d)))) <$> [w2; w6; w8; w10] =
  [(new, Some "u1", None, 1, 1%nat); (new, Some "u1", None, 2, 1%nat); (done_, Some "u1", Some 70, 2, 1%nat); (done_, None, Some 70, 2, 0%nat)].
Proof. vm_compute. reflexivity. Qed.
Example the_reporter_view :
  match reporter_detail w4 "t1" anna with
  | Ok v => Some ((λ n, (no_body n, pe_name (no_author n))) <$> rd_notes v, ri_number (rd_item v), rd_can_reply v)
  | Err _ => None
  end = Some ([("Noch immer.", Some "Anna")], "T-0001", true).
Proof. vm_compute. reflexivity. Qed.
(** Two patches that both read the open ticket: the ticket is in progress and has a closing time. *)
Definition raced : TicketDb := after w8 (patch_ticket w7 w8 "t1" (set_to in_progress) bob 71).
Example open_ticket_with_closing_time : tk_status (row_of_w raced) = in_progress ∧ tk_closed_at (row_of_w raced) = Some 70 ∧ _due raced (Some 80) = ["t1"].
Proof. vm_compute. done. Qed.
(** A ticket that was reopened after the cron listed it. *)
Definition reopened : TicketDb := after w8 (patch_ticket w8 w8 "t1" (set_to in_progress) bob 72).
Example reopened_ticket_anonymized :
  _due reopened (Some 80) = [] ∧ tk_anonymized_at (row_of_w (anonymize_tickets w8 reopened (Some 80) 900 no_clock).1) = Some 900 ∧
  tk_status (row_of_w (anonymize_tickets w8 reopened (Some 80) 900 no_clock).1) = in_progress.
Proof. vm_compute. done. Qed.

(** *** The history is reached *)
Lemma reach_ticket_step d d' : reached d → ticket_step d d' → reached d'.
Proof. intros (d0 & H0 & Hr) Hs. exists d0. split; [done|]. by eapply rtc_r. Qed.
Lemma reach_team k d d' : reached d → team_request k d d' → reached d'.
Proof. intros Hr Hs. eapply reach_ticket_step; [done|]. exists k. by left. Qed.
Lemma created_as k d payload reporter email id now d' r :
  create_ticket k d payload reporter email pepper id now = Ok (d', r) → bool_decide (id ∈ tk_id <$> tickets d) = false → team_request k d d'.
Proof. intros H Hf. bool_prop. by eapply rq_report. Qed.
Lemma reached_w2 : reached w2.
Proof.
  apply (reach_team w1 w1).
  - apply (reach_ticket_step w0).
    + exists w0. split; [|done]. repeat split. by intros x ?%not_elem_of_nil.
    + exists w0. do 2 right. eapply (sy_upload w0 draft_settings None "tok" "shot.png" "image/png" 900 "s1" None "f1" "key" 10 (files w1) "tok").
      vm_compute. reflexivity.
  - eapply (created_as _ _ first_report (Some "u1") None "t1" 20); [vm_compute; reflexivity|reflexivity].
Qed.
Lemma reached_w4 : reached w4.
Proof.
  apply (reach_ticket_step w3); [apply (reach_team w2 w2)|].
  - exact reached_w2.
  - apply (rq_note _ _ "t1" (MkNoteCreate "Wer kann das?" internal [] None ["u2"]) bob pepper "n1" 30).
    + apply (bool_decide_eq_false (_ ∈ _)). vm_compute. reflexivity.
    + apply result_after. vm_compute. reflexivity.
  - exists w3. right. left. apply (rr_note _ _ "t1" "Noch immer." [] None anna pepper "n2" 40).
    + apply (bool_decide_eq_false (_ ∈ _)). vm_compute. reflexivity.
    + apply result_after. vm_compute. reflexivity.
Qed.
Lemma reached_w8 : reached w8.
Proof.
  apply (reach_team w7 w7); [apply (reach_team w6 w6); [apply (reach_team w5 w5); [apply (reach_team w4 w4)|]|]|].
  - exact reached_w4.
  - apply (rq_block _ _ "t1" bob "b1" 50). apply result_after. vm_compute. reflexivity.
  - eapply (created_as _ _ second_report (Some "u1") None "t2" 60); [vm_compute; reflexivity|]. vm_compute. reflexivity.
  - apply (rq_unblock _ _ "t1"). apply result_after. vm_compute. reflexivity.
  - apply (rq_patch _ _ "t1" (set_to done_) bob 70). apply result_after. vm_compute. reflexivity.
Qed.
Lemma step_w9 : ticket_step w8 w9.
Proof. exists w8. do 2 right. constructor. Qed.
Lemma step_w10 : ticket_step w9 w10.
Proof.
  exists w8. left. apply (rq_note _ _ "t1" (MkNoteCreate "Fertig." public [] None []) bob pepper "n3" 910).
  - apply (bool_decide_eq_false (_ ∈ _)). vm_compute. reflexivity.
  - apply result_after. vm_compute. reflexivity.
Qed.
Lemma row_in d : bool_decide (is_Some (find_by tk_id "t1" (tickets d))) = true → row_of_w d ∈ tickets d.
Proof. unfold row_of_w. intros [t E]%bool_decide_eq_true. rewrite E. by eapply find_by_elem. Qed.

(** *** Witnesses *)
Lemma anonymized_stays_clean_witness : ∃ t, t ∈ tickets w10 ∧ tk_id t = "t1" ∧ is_Some (tk_anonymized_at t) ∧ no_personal_data w10 t.
Proof.
  apply (anonymized_stays_clean w9 w10 (row_of_w w9)).
  - exact (reach_ticket_step _ _ reached_w8 step_w9).
  - exact (rtc_once _ _ step_w10).
  - apply row_in. vm_compute. reflexivity.
  - exists 900. vm_compute. reflexivity.
Defined.
