(* ===== verification/VoteWrites.v ===== *)
(** What the operations on votes write in a room, as the meetings need it: the meetings and the guests
    stay, agenda items are only added to meetings that are not closed, a vote keeps its meeting and its
    agenda item, a new vote belongs to a meeting that is not closed, and a vote only opens while its
    meeting is live. *)

From stdpp Require Import gmap strings.
From S2P Require Import Prelude PyStr PyNum PyValue VoteConfigs Tally Election FlowDb Decision FlowEngine FlowEngineFacts Policy Room.
From S2P Require Import Delegations DelegationService VoteRows VoteService VoteClose VoteSpec VoteServiceFacts DelegationFacts.

(** ** The relation *)
Definition meeting_in (P : string → Prop) (r : RoomDb) (id : string) : Prop :=
  ∃ m, meeting_by_id r id = Some m ∧ P (me_status m).
Definition runs (s : string) : Prop := s ≠ "planned" ∧ s ≠ "closed".
Definition unclosed (s : string) : Prop := s ≠ "closed".
Definition has_item (r : RoomDb) (item meeting : string) : Prop :=
  ∃ a, a ∈ agenda_items (flow_db r) ∧ ai_id a = item ∧ ai_meeting_id a = meeting.
Definition vote_item (v : Vote) : option string := vb_agenda_item_id (vo_body v).
(** The row [id] of the vote table in [r'], against [r]: what is new needs its meeting. *)
Record vote_from (r r' : RoomDb) (id : string) (v' : Vote) : Prop := {
  vf_meeting m : vo_meeting_id v' = Some m →
    (∃ v, votes (flow_db r) !! id = Some v ∧ vo_meeting_id v = Some m) ∨ meeting_in unclosed r m;
  vf_open m : vo_meeting_id v' = Some m → vote_status v' = open →
    (∃ v, votes (flow_db r) !! id = Some v ∧ vo_meeting_id v = Some m ∧ vote_status v = open) ∨ meeting_in runs r m;
  vf_draft m : vo_meeting_id v' = Some m → vote_status v' = draft →
    (∃ v, votes (flow_db r) !! id = Some v ∧ vo_meeting_id v = Some m ∧ vote_status v = draft) ∨ meeting_in unclosed r m;
  vf_item m i : vo_meeting_id v' = Some m → vote_item v' = Some i →
    (∃ v, votes (flow_db r) !! id = Some v ∧ vo_meeting_id v = Some m ∧ vote_item v = Some i) ∨ has_item r' i m
}.
Record room_write (r r' : RoomDb) : Prop := {
  rw_cfg : cfg r' = cfg r;
  rw_guests : guests r' = guests r;
  rw_items : ∃ new, agenda_items (flow_db r') = agenda_items (flow_db r) ++ new ∧
               Forall (λ i, meeting_in unclosed r (ai_meeting_id i)) new;
  rw_votes : ∀ id v', votes (flow_db r') !! id = Some v' → vote_from r r' id v'
}.
Lemma meeting_in_cfg P r r' m : cfg r' = cfg r → meeting_in P r' m ↔ meeting_in P r m.
Proof. unfold meeting_in, meeting_by_id. by intros ->. Qed.
Lemma has_item_grows r r' new i m : agenda_items (flow_db r') = agenda_items (flow_db r) ++ new → has_item r i m → has_item r' i m.
Proof. intros E (a & Ha & H). exists a. split; [|done]. rewrite E. apply elem_of_app. by left. Qed.
(** A row that keeps its meeting, its item and its status. *)
Lemma vote_from_row r r' id v v' :
  votes (flow_db r) !! id = Some v → vo_meeting_id v' = vo_meeting_id v → vote_item v' = vote_item v →
  (vote_status v' = open → vote_status v = open) → (vote_status v' = draft → vote_status v = draft) → vote_from r r' id v'.
Proof. intros Hv Em Ei Ho Hd. split; intros; left; exists v; rewrite <- ?Em, <- ?Ei; auto. Qed.
#[export] Instance room_write_preorder : PreOrder room_write.
Proof.
  split.
  - intros r. split; [done|done|exists []; by rewrite app_nil_r|]. intros id v Hv. by apply (vote_from_row _ _ _ v).
  - intros a b c [C1 G1 (n1 & E1 & F1) V1] [C2 G2 (n2 & E2 & F2) V2]. split; [congruence|congruence| |].
    + exists (n1 ++ n2). rewrite E2, E1, app_assoc. split; [done|]. apply Forall_app. split; [done|].
      eapply Forall_impl; [exact F2|]. intros i. by apply meeting_in_cfg.
    + intros id v' [M2 O2 D2 I2]%V2. assert (Hc : ∀ P m, meeting_in P b m → meeting_in P a m) by (intros P m; by apply meeting_in_cfg).
      split.
      * intros m [(v & Hv & Hm)|H]%M2; [|auto]. by apply (vf_meeting _ _ _ _ (V1 _ _ Hv) m).
      * intros m Hm Hs. destruct (O2 m Hm Hs) as [(v & Hv & Hm' & Ho)|H]; [|auto]. by apply (vf_open _ _ _ _ (V1 _ _ Hv) m).
      * intros m Hm Hs. destruct (D2 m Hm Hs) as [(v & Hv & Hm' & Ho)|H]; [|auto]. by apply (vf_draft _ _ _ _ (V1 _ _ Hv) m).
      * intros m i Hm Hs. destruct (I2 m i Hm Hs) as [(v & Hv & Hm' & Ho)|H]; [|auto]. destruct (vf_item _ _ _ _ (V1 _ _ Hv) m i Hm' Ho) as [H|H]; [by left|right].
        by eapply has_item_grows.
Qed.

(** ** The single writes *)
(** A write that leaves the tables of the meetings and the rows of the votes alone. *)
Lemma same_write r r' :
  cfg r' = cfg r → guests r' = guests r → agenda_items (flow_db r') = agenda_items (flow_db r) →
  votes (flow_db r') = votes (flow_db r) → room_write r r'.
Proof.
  intros Hc Hg Hi Hv. split; [done|done|exists []; by rewrite app_nil_r|]. intros id v'. rewrite Hv. intros H.
  by apply (vote_from_row _ _ _ v').
Qed.
Lemma audit_write actor action id data r : room_write r (vote_audit actor action id data r).
Proof. by apply same_write. Qed.
Lemma put_write id v v' r :
  votes (flow_db r) !! id = Some v → vo_meeting_id v' = vo_meeting_id v → vote_item v' = vote_item v →
  (vote_status v' = open → vote_status v = open ∨ ∀ m, vo_meeting_id v = Some m → meeting_in runs r m) →
  (vote_status v' = draft → vote_status v = draft) → room_write r (put_vote id v' r).
Proof.
  intros Hv Em Ei Ho Hd. split; [done|done|exists []; by rewrite app_nil_r|]. intros i w.
  cbn [votes put_vote flow_db with_flow with_votes]. destruct (decide (i = id)) as [->|Hne].
  - rewrite lookup_insert_eq. intros [= <-]. split; rewrite ?Em, ?Ei; intros; [left; eauto| |left; eauto|left; eauto].
    destruct (Ho ltac:(done)) as [H1|H1]; [left; eauto|right; auto].
  - rewrite lookup_insert_ne by done. intros H. by apply (vote_from_row _ _ _ w).
Qed.
(** Rows whose view keeps the meeting, the item and the status, or turns to an ended status. *)
Lemma views_write r r' :
  cfg r' = cfg r → guests r' = guests r → agenda_items (flow_db r') = agenda_items (flow_db r) →
  (∀ id v', votes (flow_db r') !! id = Some v' → ∃ v, votes (flow_db r) !! id = Some v ∧
     vo_meeting_id v' = vo_meeting_id v ∧ vote_item v' = vote_item v ∧
     (vote_status v' = vote_status v ∨ vote_status v' = cancelled ∨ vote_status v' = closed)) → room_write r r'.
Proof.
  intros Hc Hg Hi Hv. split; [done|done|exists []; by rewrite app_nil_r|]. intros id v' (v & H & Em & Ei & Hs)%Hv.
  apply (vote_from_row _ _ _ v); [done|done|done| |]; intros E; rewrite E in Hs; by destruct Hs as [?|[?|?]].
Qed.
(** The same for the database of the flow engine, which may add items. *)
Definition kept_view (v v' : view) : Prop := v'.2 = v.2 ∧ (v'.1.1.2 = v.1.1.2 ∨ v'.1.1.2 = cancelled).
Lemma flow_write r x :
  conf x = conf (flow_db r) →
  (∃ new, agenda_items x = agenda_items (flow_db r) ++ new ∧ Forall (λ i, meeting_in unclosed r (ai_meeting_id i)) new) →
  (∀ id v', votes x !! id = Some v' → ∃ v, votes (flow_db r) !! id = Some v ∧ kept_view (vview v) (vview v')) →
  room_write r (with_flow x r).
Proof.
  intros Hc Hi Hv. split; [done|done|done|]. intros id v' (v & H & E & Hs)%Hv. cbn in E, Hs. injection E as _ _ _ _ Em Eb.
  apply (vote_from_row _ _ _ v); [done|done|unfold vote_item; by rewrite Eb| |]; intros E; rewrite E in Hs; by destruct Hs.
Qed.

(** ** The flow engine *)
Lemma move_agenda m d d1 : move_application m d = Some d1 → agenda_items d1 = agenda_items d.
Proof. unfold move_application. destruct (applications d !! _); [|done]. by destruct (_ && _); intros [= <-]. Qed.
Lemma cancelled_agenda now actor reason l d :
  agenda_items (foldl (λ d id, match votes d !! id with Some v => _mark_cancelled d id v now actor reason | None => d end) d l)
    = agenda_items d.
Proof. revert d. induction l as [|i l IH]; intros d; [done|]. cbn. rewrite IH. by destruct (votes d !! i). Qed.
Lemma cancel_agenda d app now actor l e d' ids : cancel_for_application d app now actor l e = (d', ids) → agenda_items d' = agenda_items d.
Proof. unfold cancel_for_application. intros [= <- _]. apply cancelled_agenda. Qed.
Lemma swap_agenda app redo ev actor now d : agenda_items (swap_decisions app redo ev actor now d).1 = agenda_items d.
Proof.
  unfold swap_decisions, redo_decision_swap, revert_decision_for_event, _swap, update_opt.
  repeat case_match; simplify_eq; cbn; repeat case_match; done.
Qed.
Lemma decision_agenda old app a fresh d : agenda_items (write_decision old app a fresh d) = agenda_items d.
Proof. unfold write_decision. by destruct (fa_decision a). Qed.
(** New items of meetings that are not closed. *)
Definition added_items (d d' : Db) : Prop :=
  ∃ new, agenda_items d' = agenda_items d ++ new ∧
    Forall (λ i, ∃ m, find_by me_id (ai_meeting_id i) (meetings (conf d)) = Some m ∧ unclosed (me_status m)) new.
Lemma added_none d d' : agenda_items d' = agenda_items d → added_items d d'.
Proof. intros H. exists []. by rewrite app_nil_r. Qed.
Lemma add_in_tx_adds m app np actor item now d d' b : add_in_tx m app np actor item now d = Ok (d', b) → added_items d d'.
Proof.
  unfold add_in_tx. destruct (meeting_of d m) as [me|] eqn:Em; [|done]. intros (_ & Ho%raise_if_ok & H)%bind_ok.
  destruct (applications d !! app); [|done]. apply bind_ok in H as (_ & _ & H).
  destruct (existsb _ _); simplify_eq; [by apply added_none|]. eexists [_]. split; [done|]. apply Forall_singleton.
  exists me. split; [done|]. apply negb_false_iff, bool_decide_eq_true in Ho. intros E. rewrite E in Ho. set_solver.
Qed.
Lemma to_agenda_adds app a fresh d d' : _add_to_agenda_in_tx app a fresh d = Ok d' → added_items d d'.
Proof.
  unfold _add_to_agenda_in_tx. destruct (fa_meeting_id a); [|intros [= ->]; by apply added_none].
  destruct (add_in_tx _ _ _ _ _ _ _) as [[d1 b]|] eqn:E; [|done]. intros [= ->]. by eapply add_in_tx_adds.
Qed.
Lemma write_direct_agenda c d m actor note fresh d' ids :
  write_direct c d m actor note fresh = Ok (d', ids) → agenda_items d' = agenda_items d.
Proof.
  unfold write_direct. destruct (move_application m d) as [d1|] eqn:E; [|done]. cbn zeta. intros H%Ok_inj.
  apply cancel_agenda in H. rewrite H. by apply move_agenda in E.
Qed.
Lemma write_fire_agenda d p a fresh d' s : write_fire d p a fresh = Ok (d', s) → added_items d d'.
Proof.
  unfold write_fire. cbn zeta. destruct (move_application _ d) as [d1|] eqn:E; [|done]. intros H.
  destruct (if bool_decide _ then _ else _) as [d2 ids] eqn:Ec. apply bind_ok in H as (d3 & Ha%to_agenda_adds & [= <- _]).
  assert (E2 : agenda_items d2 = agenda_items d ∧ conf d2 = conf d).
  { pose proof (move_votes _ _ _ E) as [_ Hc]. apply move_agenda in E. case_bool_decide.
    - split; [apply cancel_agenda in Ec; by rewrite Ec|]. apply keeps_cancelled in Ec. by rewrite (keeps_conf _ _ Ec).
    - injection Ec as <- _. done. }
  destruct E2 as [E2 Hc], Ha as (new & En & Hn). rewrite decision_agenda in En. cbn in En. exists new. rewrite En, E2. split; [done|].
  pose proof (keeps_write_decision (pl_old_approved p) (mv_app (pl_move p)) a fresh
                (audit_record (fire_audit (pl_move p) (pl_transition p) a (fr_event_id fresh)) d2)) as Hk.
  rewrite (keeps_conf _ _ Hk) in Hn. cbn in Hn. by rewrite Hc in Hn.
Qed.
Lemma status_change_agenda can b d0 d d' m : FlowEngineFacts.status_change can b d0 d d' m → added_items d d'.
Proof.
  intros [u0 u ? ? p a fresh u1 s _ H|u0 u ? ? ? m0 pr note fresh u1 ids _ H|u0 u ? ? ? m0 actor aid ev redo note fresh u1 ids _ H].
  - by eapply write_fire_agenda.
  - unfold write_force in H. apply bind_ok in H as ([x i] & H%write_direct_agenda & [= <- _]). by apply added_none.
  - unfold write_revert in H. apply bind_ok in H as ([x i] & H%write_direct_agenda & H2).
    destruct (swap_decisions _ _ _ _ _ _) as [y sw] eqn:E. injection H2 as <- _. apply added_none. cbn.
    rewrite <- H. rewrite <- (swap_agenda (mv_app m0) redo ev actor (fr_now fresh) x). by rewrite E.
Qed.
Lemma status_change_write can b d0 r x m : FlowEngineFacts.status_change can b d0 (flow_db r) x m → room_write r (with_flow x r).
Proof.
  intros H. apply flow_write.
  - apply (moved_conf m). by eapply status_change_moved.
  - apply status_change_agenda in H as (new & E & Hn). exists new. split; [done|]. exact Hn.
  - apply status_change_votes in H as (ids & _ & Hc). intros id v' Hv'. specialize (Hc id). rewrite Hv' in Hc.
    destruct (votes (flow_db r) !! id) as [v|]; [|by case_decide]. exists v. split; [done|].
    cbn [fmap option_fmap option_map] in Hc. case_decide; apply (inj Some) in Hc; rewrite Hc; split; auto.
Qed.

(** ** Create, edit and open *)
Lemma lock_live_ok d m item planned_ok :
  _lock_live_meeting d m item planned_ok = Ok () →
  meeting_in unclosed d m ∧ (planned_ok = false → meeting_in runs d m) ∧ (∀ i, item = Some i → has_item d i m).
Proof.
  unfold _lock_live_meeting, get_meeting. destruct (meeting_by_id d m) as [me|] eqn:Em; [|done]. rewrite bind_Ok_l.
  intros (_ & Hp%raise_if_ok & H)%bind_ok. apply bind_ok in H as (_ & Hc%raise_if_ok & H). bool_prop.
  split; [by exists me|]. split.
  - intros ->. rewrite andb_true_r in Hp. bool_prop. by exists me.
  - intros i ->. apply raise_if_ok, negb_false_iff, existsb_exists in H as (a & Ha & E). bool_prop. exists a.
    split; [by apply list_elem_of_In|done].
Qed.
Lemma insert_write d app m item payload vid actor now :
  votes (flow_db d) !! vid = None →
  (∀ me, m = Some me → meeting_in unclosed d me ∧ ∀ i, item = Some i → has_item d i me) →
  room_write d (_insert d app m item payload vid actor now).
Proof.
  intros Hn Hm. assert (Hp : room_write d (put_vote vid (draft_vote app m item payload now) d)).
  { split; [done|done|exists []; by rewrite app_nil_r|]. intros i w. cbn [votes put_vote flow_db with_flow with_votes].
    destruct (decide (i = vid)) as [->|Hne]; [rewrite lookup_insert_eq; intros [= <-]|
      rewrite lookup_insert_ne by done; intros H; by apply (vote_from_row _ _ _ w)].
    split; cbn; try done; intros me.
    - intros [Hu _]%Hm. by right.
    - intros [Hu _]%Hm. by right.
    - intros j [_ Hi]%Hm Hj. right. by apply Hi. }
  unfold _insert. cbn zeta. destruct (vc_config payload); [exact Hp|exact Hp|]. etransitivity; [exact Hp|apply audit_write].
Qed.
Lemma create_vote_write d app payload p vid now d' :
  votes (flow_db d) !! vid = None → create_vote d app payload p vid now = Ok d' → room_write d d'.
Proof. intros Hn H. unfold create_vote in H. inv_ok. by apply insert_write. Qed.
Lemma create_internal_write d app payload m item ok actor vid now d' :
  votes (flow_db d) !! vid = None → create_internal d app payload m item ok actor vid now = Ok d' → room_write d d'.
Proof.
  intros Hn H. unfold create_internal in H. apply bind_ok in H as (_ & _ & H). apply bind_ok in H as ([] & Hl & H).
  apply bind_ok in H as (_ & _ & H). apply Ok_inj in H as <-. apply insert_write; [done|]. intros me ->.
  by apply lock_live_ok in Hl as (Hu & _ & Hi).
Qed.
Lemma open_vote_write d vid now actor n d' : open_vote d vid now actor n = Ok d' → room_write d d'.
Proof.
  intros H. unfold open_vote in H. apply bind_ok in H as ([] & Hl & H). apply bind_ok in H as (v & Hv & H). inv_vote.
  etransitivity; [|apply audit_write]. apply (put_write _ v); [done|done|done| |done].
  intros _. right. intros m Em. rewrite Hv in Hl. cbn in Hl. rewrite Em in Hl. apply lock_live_ok in Hl as (_ & Hr & _). auto.
Qed.
Lemma create_poll_write d payload p now vid d' :
  votes (flow_db d) !! vid = None → create_poll d payload p now vid = Ok d' → room_write d d'.
Proof.
  intros Hn Hp. unfold create_poll in Hp. inv_ok. set (d1 := _insert d None None None _ vid _ now) in *.
  assert (Hb : room_write d d1) by (by apply insert_write).
  destruct (pc_draft payload); [by simplify_eq|]. etransitivity; [exact Hb|]. by eapply open_vote_write.
Qed.
Lemma update_draft_write d vid payload m actor d' : update_draft d vid payload m actor = Ok d' → room_write d d'.
Proof.
  intros H. unfold update_draft in H. apply bind_ok in H as (v & Hv & H). inv_vote.
  etransitivity; [|apply audit_write]. apply (put_write _ v); try done. by left.
Qed.
Lemma patch_write d vid payload p now d' : patch d vid payload p now = Ok d' → room_write d d'.
Proof.
  intros Hp. unfold patch in Hp. apply bind_ok in Hp as (v & Hv%get_vote_ok & Hp). do 3 apply bind_ok in Hp as (? & _ & Hp).
  apply bind_ok in Hp as (c & Hc & Hp). apply bind_ok in Hp as (q & _ & Hp). apply bind_ok in Hp as (nc & _ & Hp).
  apply bind_ok in Hp as (? & _ & Hp). apply Ok_inj in Hp as <-. etransitivity; [|apply audit_write].
  apply (put_write _ v); try done. by left.
Qed.

(** ** Cast *)
Definition room_same (d d' : RoomDb) : Prop :=
  cfg d' = cfg d ∧ guests d' = guests d ∧ agenda_items (flow_db d') = agenda_items (flow_db d) ∧
  votes (flow_db d') = votes (flow_db d).
Lemma room_same_write d d' : room_same d d' → room_write d d'.
Proof. intros (? & ? & ? & ?). by apply same_write. Qed.
Lemma room_same_trans a b c : room_same a b → room_same b c → room_same a c.
Proof. unfold room_same. intros. destruct_and!. repeat split; congruence. Qed.
Lemma release_room d m id s : room_same d (release_pool_seat d m id s).1.
Proof. unfold release_pool_seat. by case_match. Qed.
Lemma join_room d m s d' : join_meeting d m s = Ok d' → room_same d d'.
Proof.
  cbn. unfold mark_present_on_cast. intros (me & _ & H)%bind_ok.
  eapply (room_same_trans _ (release_pool_seat_of d m s).1).
  { unfold release_pool_seat_of. destruct (principal_by_sub d s); [apply release_room|done]. }
  repeat case_match; simplify_eq; try done; unfold _write; by case_match.
Qed.
Lemma voter_room d p v as_delegation row s d' : _voter d p v as_delegation row = Ok (s, d') → room_same d d'.
Proof.
  unfold _voter, _represented_voter. destruct (rights_check _ _ _ _) as [blocked delegator].
  destruct as_delegation; [|intros Hv; inv_ok; by simplify_eq]. destruct delegator; [by intros [= <- <-]|].
  cbn. destruct (claim_pool_seat _ _ _ _ _) as [[s' d1]|] eqn:E; [|done]. intros [= <- <-].
  unfold claim_pool_seat in E. repeat case_match; by simplify_eq.
Qed.
Lemma cast_secret_write d vid s c d' : _cast_secret d vid s c = Ok d' → room_same d d'.
Proof. unfold _cast_secret. case_bool_decide; [done|]. by intros [= <-]. Qed.
Lemma cast_vote_write d vid p choice now as_delegation row d' :
  cast_vote d vid p choice now as_delegation row = Ok d' → room_write d d'.
Proof.
  intros Hc. apply room_same_write. unfold cast_vote in Hc. apply bind_ok in Hc as (v & _ & Hc).
  do 3 (apply bind_ok in Hc as (? & _ & Hc)). apply bind_ok in Hc as ([s d1] & Hv%voter_room & Hc).
  apply bind_ok in Hc as (st & _ & Hc). cbn zeta in Hc. apply bind_ok in Hc as (d2 & Hj & Hc%cast_secret_write).
  eapply room_same_trans; [exact Hv|]. eapply room_same_trans; [|exact Hc].
  destruct as_delegation.
  - destruct (vo_meeting_id v); by apply Ok_inj in Hj as <-.
  - destruct (vo_meeting_id v); [by apply join_room in Hj|by apply Ok_inj in Hj as <-].
Qed.
Lemma cast_guest_room d vid g choice now d' : cast_guest d vid g choice now = Ok d' → room_same d d'.
Proof.
  intros Hc. unfold cast_guest in Hc. apply bind_ok in Hc as (v & _ & Hc). do 3 (apply bind_ok in Hc as (? & _ & Hc)).
  apply bind_ok in Hc as (st & _ & Hc). apply cast_secret_write in Hc. by eapply room_same_trans.
Qed.

(** ** Cancel *)
(** Rows with a kept view, whose status stays or ends. *)
Lemma kept_views_write r r' :
  cfg r' = cfg r → guests r' = guests r → agenda_items (flow_db r') = agenda_items (flow_db r) →
  (∀ id v', votes (flow_db r') !! id = Some v' → ∃ v, votes (flow_db r) !! id = Some v ∧ kept_view (vview v) (vview v')) →
  room_write r r'.
Proof.
  intros Hc Hg Hi Hv. apply views_write; [done|done|done|]. intros id v' (v & H & E & Hs)%Hv. exists v. split; [done|].
  cbn in E, Hs. injection E as _ _ _ _ Em Eb. unfold vote_item. rewrite Em, Eb. naive_solver.
Qed.
Lemma cancelled_write d x ids :
  conf x = conf (flow_db d) → agenda_items x = agenda_items (flow_db d) → cancelled_in (flow_db d) x ids →
  room_write d (with_flow x d).
Proof.
  intros Hc Hi Hv. apply kept_views_write; [done|done|done|]. intros id v' H. specialize (Hv id). cbn in H. rewrite H in Hv.
  destruct (votes (flow_db d) !! id) as [v|]; [|by case_decide]. exists v. split; [done|]. cbn in Hv.
  case_decide; apply (inj Some) in Hv; rewrite Hv; split; auto.
Qed.
Lemma cancel_write d vid now actor d' : cancel d vid now actor = Ok d' → room_write d d'.
Proof.
  intros H. unfold cancel in H. inv_vote. unfold room_mark_cancelled. apply (cancelled_write _ _ [vid]); [done|done|].
  intros i. rewrite mark_cancelled_view. destruct (decide (i = vid)) as [->|Hne].
  - rewrite decide_True by set_solver. match goal with H : votes _ !! vid = Some _ |- _ => by rewrite H end.
  - by rewrite decide_False by set_solver.
Qed.
Lemma cancelled_conf now actor reason l d :
  conf (foldl (λ d id, match votes d !! id with Some v => _mark_cancelled d id v now actor reason | None => d end) d l) = conf d.
Proof. revert d. induction l as [|i l IH]; intros d; [done|]. cbn. rewrite IH. by destruct (votes d !! i). Qed.
Lemma cancel_drafts_write d m now actor reason : room_write d (cancel_drafts_for_meeting d m now actor reason).1.
Proof.
  unfold cancel_drafts_for_meeting. cbn [fst]. rewrite cancel_fold_flow.
  eapply cancelled_write; [apply cancelled_conf|apply cancelled_agenda|]. intros i. apply (cancel_all_view (λ _ _ _, true)).
Qed.

(** ** Close *)
Lemma record_proposal_write d vid v app p fresh d' o :
  _record_proposal d vid v app p fresh = Ok (d', o) → room_same d d'.
Proof.
  unfold _record_proposal. destruct (vb_proposal _); [|by intros [= <- _]]. intros (a & _ & H)%bind_ok.
  apply bind_ok in H as (e & _ & H). by injection H as <- _.
Qed.
Lemma try_stage_write d app branch p note vid fresh d' s :
  _try_stage d app branch p note vid fresh = Ok (d', s) → room_write d d'.
Proof.
  unfold _try_stage. destruct (stage_branch _ _ _ _ _ _ _ _) as [[x st]|e] eqn:E.
  - intros H. injection H as <- _. unfold stage_branch in E. apply bind_ok in E as ([t|] & _ & E); [|done].
    unfold stage_fire in E. apply bind_ok in E as (pl & Hp & Hw).
    eapply status_change_write. by eapply change_fire.
  - by destruct e; intros [= <- _].
Qed.
Lemma stage_branch_write d vid v app branch p note decide_it fresh d' s o :
  _stage_branch d vid v app branch p note decide_it fresh = Ok (d', s, o) → room_write d d'.
Proof.
  intros Hs. unfold _stage_branch in Hs. cbn zeta in Hs. apply bind_ok in Hs as ([d1 dec] & H1 & Hs).
  apply bind_ok in Hs as ([d2 st] & H2 & Hs).
  assert (room_write d d1) as ->.
  { destruct (_ && _); [by apply record_proposal_write, room_same_write in H1|by simplify_eq]. }
  assert (room_write d1 d2) as ->.
  { destruct (vote_gremium_mismatch d v); [by simplify_eq|]. by eapply try_stage_write. }
  destruct st; simplify_eq; [done|]. apply audit_write.
Qed.
Lemma link_branch_write d vid s o : room_write d (link_branch d vid s o).
Proof.
  unfold link_branch. destruct s as [s|]; [|done].
  set (d1 := match votes _ !! vid with Some v => _ | None => d end).
  assert (room_write d d1) as ->.
  { unfold d1. destruct (votes (flow_db d) !! vid) as [v|] eqn:Ev; [|done]. apply (put_write _ v); try done. by left. }
  destruct o; [|done]. by apply same_write.
Qed.
Lemma closed_write d vid v c res er pr t :
  votes (flow_db d) !! vid = Some v → room_write d (put_vote vid (closed_vote (_fix_attendance d vid v c) res er pr t) d).
Proof.
  intros Hv. apply (put_write _ v); try done; unfold _fix_attendance, vote_item; by destruct (vo_meeting_id v) eqn:E.
Qed.
Lemma close_vote_write d vid p now clock fresh d' out :
  close_vote d vid p now clock fresh = Ok (d', out) → room_write d d'.
Proof.
  intros Hc. unfold close_vote in Hc. apply bind_ok in Hc as (v & Hv%get_vote_ok & Hc). apply bind_ok in Hc as (u & _ & Hc).
  destruct (v_kind (vo_row v)).
  - unfold _close_motion in Hc. cbn zeta in Hc. apply bind_ok in Hc as (o & _ & Hc).
    apply bind_ok in Hc as (_ & _ & Hc). apply bind_ok in Hc as ([[d1 st] dec] & Hb & Hc). injection Hc as <- _.
    etransitivity; [|apply link_branch_write]. etransitivity; [by apply (closed_write d vid v)|]. etransitivity; [apply audit_write|].
    destruct (vo_application_id _); [by eapply stage_branch_write|]. injection Hb as <- _ _. done.
  - unfold _close_election in Hc. cbn zeta in Hc. apply bind_ok in Hc as (o & _ & Hc). apply bind_ok in Hc as (_ & _ & Hc).
    injection Hc as <- _. etransitivity; [by apply (closed_write d vid v)|apply audit_write].
  - unfold _close_poll in Hc. cbn zeta in Hc. apply bind_ok in Hc as (o & _ & Hc).
    injection Hc as <- _. etransitivity; [by apply (closed_write d vid v)|apply audit_write].
Qed.

(** ** Delete *)
(** What stays of the votes after a delete. *)
Lemma deleted_lookup d vid v actor reason i w :
  votes (flow_db (_delete_audited d vid v actor reason)) !! i = Some w →
  i ≠ vid ∧ ∃ w0, votes (flow_db d) !! i = Some w0 ∧ vo_meeting_id w = vo_meeting_id w0 ∧ vote_item w = vote_item w0 ∧
    vote_status w = vote_status w0.
Proof.
  unfold _delete_audited, delete_row. cbn [flow_db with_flow with_ballots votes vote_audit room_audit audit_record with_votes].
  rewrite lookup_fmap, fmap_Some. intros (w1 & (Hne & H)%lookup_delete_Some & ->). split; [done|].
  pose proof (release_link_view vid (vo_row v) (votes (flow_db d)) i) as E. rewrite H in E. cbn in E.
  destruct (votes (flow_db d) !! i) as [w0|]; [|done]. apply (inj Some) in E. injection E as _ Es _ _ _ _ _ Em Eb.
  exists w0. unfold vote_item, vote_status in *. rewrite <- Em, <- Eb, <- Es. done.
Qed.
Lemma deleted_write d vid v actor reason : room_write d (_delete_audited d vid v actor reason).
Proof.
  apply views_write; [done|done|done|]. intros i w (_ & w0 & H & E1 & E2 & E3)%deleted_lookup. exists w0. auto.
Qed.
Lemma delete_all_write rows d actor reason : room_write d (delete_all d rows actor reason).
Proof.
  revert d. induction rows as [|[i v] rows IH]; intros d; [done|]. etransitivity; [apply (deleted_write d i v)|apply IH].
Qed.
Lemma delete_vote_write d vid m actor d' : delete_vote d vid m actor = Ok d' → room_write d d'.
Proof. intros H. unfold delete_vote in H. inv_vote. apply deleted_write. Qed.
Lemma delete_standalone_write d vid actor d' : delete_standalone d vid actor = Ok d' → room_write d d'.
Proof. intros H. unfold delete_standalone in H. inv_vote. apply deleted_write. Qed.
Lemma delete_item_write d item actor may d' ids : delete_for_agenda_item d item actor may = Ok (d', ids) → room_write d d'.
Proof.
  unfold delete_for_agenda_item. cbn zeta. intros (_ & _ & H)%bind_ok. apply bind_ok in H as (_ & _ & H).
  injection H as <- _. apply delete_all_write.
Qed.
Lemma delete_meeting_write d m actor d' ids : delete_for_meeting d m actor = Ok (d', ids) → room_write d d'.
Proof.
  unfold delete_for_meeting, delete_locked_votes. cbn zeta. intros (_ & _ & H)%bind_ok. injection H as <- _.
  etransitivity; [|apply delete_all_write]. by apply same_write.
Qed.

(** ** The lot *)
Lemma draw_lot_write d vid who name now choose audits db' :
  service_draw_lot (MkElectionDb (vo_row <$> votes (flow_db d)) audits) vid who name now choose = Ok db' →
  room_write d (with_rows (votes_table db') d).
Proof.
  unfold service_draw_lot, _closed_election. cbn [votes_table lot_audits]. rewrite lookup_fmap. intros Hd.
  apply bind_ok in Hd as ([row res] & Hrow & Hd). destruct (votes (flow_db d) !! vid) as [v|] eqn:Hv; [|done]. cbn in Hrow.
  destruct (v_election_result (vo_row v)); [|done]. destruct (negb _ || _) eqn:Hg; [done|]. simplify_eq. bool_prop.
  destruct (er_lot res); [|done]. destruct (drawn _); [done|]. destruct (draw_lot _ _ _); [|done]. simplify_eq. cbn [votes_table].
  apply views_write; [done|done|done|]. intros i w. cbn [votes with_rows flow_db with_flow with_votes]. rewrite map_lookup_imap.
  destruct (votes (flow_db d) !! i) as [u|] eqn:Eu; [|done]. cbn. intros Hw. apply (inj Some) in Hw as <-. exists u.
  destruct (decide (i = vid)) as [->|Hne].
  - rewrite lookup_insert_eq. rewrite Hv in Eu. injection Eu as <-. repeat split; try done. right. right. by cbn.
  - rewrite lookup_insert_ne, lookup_fmap, Eu by done. cbn. destruct u. auto.
Qed.

(** ** The operations *)
(** A transaction of the votes; [VoteServiceFacts.vote_step] without the others. *)
Inductive vote_op : RoomDb → RoomDb → Prop :=
| o_create d app payload p vid now d' :
    votes (flow_db d) !! vid = None → VoteConfig_valid (cr_config payload) = true →
    create_vote d app payload p vid now = Ok d' → vote_op d d'
| o_create_internal d app payload m item ok actor vid now d' :
    votes (flow_db d) !! vid = None → config_ok (vc_config payload) →
    create_internal d app payload m item ok actor vid now = Ok d' → vote_op d d'
| o_create_poll d payload p now vid d' :
    votes (flow_db d) !! vid = None → create_poll d payload p now vid = Ok d' → vote_op d d'
| o_update_draft d vid payload m actor d' :
    config_ok (vc_config payload) → update_draft d vid payload m actor = Ok d' → vote_op d d'
| o_patch d vid payload p now d' : patch d vid payload p now = Ok d' → vote_op d d'
| o_open d vid now actor n d' : open_vote d vid now actor n = Ok d' → vote_op d d'
| o_cast d vid p choice now as_delegation row d' :
    cast_vote d vid p choice now as_delegation row = Ok d' → vote_op d d'
| o_cancel d vid now actor d' : cancel d vid now actor = Ok d' → vote_op d d'
| o_close d vid p now clock fresh d' out : close_vote d vid p now clock fresh = Ok (d', out) → vote_op d d'
| o_delete d vid m actor d' : delete_vote d vid m actor = Ok d' → vote_op d d'
| o_delete_standalone d vid actor d' : delete_standalone d vid actor = Ok d' → vote_op d d'
| o_status can b d d0 x m : FlowEngineFacts.status_change can b d0 (flow_db d) x m → vote_op d (with_flow x d)
| o_lot d vid who name now choose audits db' :
    service_draw_lot (MkElectionDb (vo_row <$> votes (flow_db d)) audits) vid who name now choose = Ok db' →
    vote_op d (with_rows (votes_table db') d).
Lemma vote_op_write d d' : vote_op d d' → room_write d d'.
Proof.
  destruct 1; eauto using create_vote_write, create_internal_write, create_poll_write, update_draft_write, patch_write,
    open_vote_write, cast_vote_write, cancel_write, close_vote_write, delete_vote_write, delete_standalone_write,
    status_change_write, draw_lot_write.
Qed.
Lemma vote_op_step d d' : vote_op d d' → vote_step d d'.
Proof.
  destruct 1; [eapply s_create|eapply s_create_internal|eapply s_create_poll|eapply s_update_draft|eapply s_patch|eapply s_open
    |eapply s_cast|eapply s_cancel|eapply s_close|eapply s_delete|eapply s_delete_standalone|eapply s_status|eapply s_lot]; eassumption.
Qed.
