(* ===== verification/Meetings.v ===== *)
(** The tables of the meetings ([livevote/models.py]): a meeting, its agenda, its guests, the periods
    of its protocol keeper; the row updates, the lookups, the open window ([livevote/open_window.py]).

    The meetings, the agenda and the guests are tables of the room ([Room.RoomDb]), so the votes, the
    delegations and the flow engine see them; this state adds the periods, the status of the
    protocol of each meeting and the settings.  A time is a number of microseconds. *)

From stdpp Require Import gmap strings.
From S2P Require Import Prelude PyStr PyNum PyValue PyDate VoteConfigs Tally Election FlowDb Decision FlowEngine Policy Room.

(** ** Errors *)
Inductive MeetingError :=
| MBadRequest
| MUnauthorized (err_code : string)
| MForbidden (err_code : string)
| MNotFound (err_code : string)
| MConflict (err_code : string)
| MInvalid (err_code : string)
| MRateLimited (err_code : string) (retry_after : Z)
(** An error of the voting service. *)
| MVoting (e : FlowError)
(** A constraint of the database. *)
| MDatabase.
Notation mres := (res MeetingError).
Definition or_meeting {A} (o : option A) (e : MeetingError) : mres A := match o with Some a => Ok a | None => Err e end.
Definition of_voting {A} (r : fres A) : mres A := match r with Ok a => Ok a | Err e => Err (MVoting e) end.

(** ** The state *)
(** A running period has a start and no end, a planned one no start. *)
Record ProtocolKeeperPeriod := MkPeriod {
  pk_id : string;
  pk_meeting_id : string;
  pk_principal_id : string;
  pk_from_at : option Z;
  pk_to_at : option Z;
  pk_from_agenda_item_id : option string;
  pk_to_agenda_item_id : option string
}.
Record MeetingSettings := MkMeetingSettings { open_lead_minutes : Z; confirm_lead_minutes : Z }.
Record MeetingDb := MkMeetingDb {
  room : RoomDb;
  keeper_periods : list ProtocolKeeperPeriod;
  (** The meeting and the status of its protocol. *)
  protocols : list (string * string);
  meeting_settings : option MeetingSettings
}.
Definition with_room (r : RoomDb) (d : MeetingDb) : MeetingDb :=
  MkMeetingDb r (keeper_periods d) (protocols d) (meeting_settings d).
Definition with_periods (l : list ProtocolKeeperPeriod) (d : MeetingDb) : MeetingDb :=
  MkMeetingDb (room d) l (protocols d) (meeting_settings d).
Definition with_settings (s : option MeetingSettings) (d : MeetingDb) : MeetingDb :=
  MkMeetingDb (room d) (keeper_periods d) (protocols d) s.
Definition with_config (c : Config) (r : RoomDb) : RoomDb :=
  let x := flow_db r in
  with_flow (MkDb c (applications x) (votes x) (status_events x) (decisions x) (agenda_items x) (audit x)) r.
Definition config_meetings (l : list Meeting) (c : Config) : Config :=
  MkConfig (states c) (transitions c) (budgets c) (accepted_keys c) (gremium_rows c) (principals c) (memberships c)
    (allocations c) (expenses c) (attachments c) (application_types c) (form_fields c) l.
Definition room_guests (l : list MeetingGuest) (r : RoomDb) : RoomDb :=
  MkRoomDb (flow_db r) (delegations r) (substitutes r) (attendance r) l (voted_markers r) (secret_ballots r).
Definition with_guests (l : list MeetingGuest) (d : MeetingDb) : MeetingDb := with_room (room_guests l (room d)) d.
Definition meeting_rows (d : MeetingDb) : list Meeting := meetings (cfg (room d)).
Definition with_meetings (l : list Meeting) (d : MeetingDb) : MeetingDb :=
  with_room (with_config (config_meetings l (cfg (room d))) (room d)) d.
Definition items (d : MeetingDb) : list AgendaItem := agenda_items (flow_db (room d)).
Definition with_items (l : list AgendaItem) (d : MeetingDb) : MeetingDb :=
  with_room (with_flow (with_agenda l (flow_db (room d))) (room d)) d.
Definition update_meeting (id : string) (f : Meeting → Meeting) (d : MeetingDb) : MeetingDb :=
  with_meetings (update_row me_id id f (meeting_rows d)) d.
Definition update_item (id : string) (f : AgendaItem → AgendaItem) (d : MeetingDb) : MeetingDb :=
  with_items (update_row ai_id id f (items d)) d.
Definition update_guest (id : string) (f : MeetingGuest → MeetingGuest) (d : MeetingDb) : MeetingDb :=
  with_guests (update_row mg_id id f (guests (room d))) d.
Definition update_period (id : string) (f : ProtocolKeeperPeriod → ProtocolKeeperPeriod) (d : MeetingDb) : MeetingDb :=
  with_periods (update_row pk_id id f (keeper_periods d)) d.
Definition meeting_audit (actor : option string) (action meeting_id : string) (data : list (string * pyval))
    (d : MeetingDb) : MeetingDb :=
  with_room (room_audit (MkAudit actor action "meeting" meeting_id data) (room d)) d.

(** ** Row updates *)
Definition set_status (status : string) (started closed : option Z) (m : Meeting) : Meeting :=
  MkMeeting (me_id m) status (me_gremium_id m) (me_protokollant_id m) (me_start m) (me_title m) (me_date m)
    (me_start_time m) (me_end_time m) started closed (me_active_application_id m) (me_current_agenda_item_id m)
    (me_created_by m) (me_public_join m) (me_guests_mode m) (me_join_code m).
Definition set_planning (title : string) (date : option pydate) (start_time end_time start : option Z) (m : Meeting) : Meeting :=
  MkMeeting (me_id m) (me_status m) (me_gremium_id m) (me_protokollant_id m) start title date start_time end_time
    (me_started_at m) (me_closed_at m) (me_active_application_id m) (me_current_agenda_item_id m) (me_created_by m)
    (me_public_join m) (me_guests_mode m) (me_join_code m).
Definition set_keeper (keeper : option string) (m : Meeting) : Meeting :=
  MkMeeting (me_id m) (me_status m) (me_gremium_id m) keeper (me_start m) (me_title m) (me_date m) (me_start_time m)
    (me_end_time m) (me_started_at m) (me_closed_at m) (me_active_application_id m) (me_current_agenda_item_id m)
    (me_created_by m) (me_public_join m) (me_guests_mode m) (me_join_code m).
Definition set_shown (active current : option string) (m : Meeting) : Meeting :=
  MkMeeting (me_id m) (me_status m) (me_gremium_id m) (me_protokollant_id m) (me_start m) (me_title m) (me_date m)
    (me_start_time m) (me_end_time m) (me_started_at m) (me_closed_at m) active current (me_created_by m)
    (me_public_join m) (me_guests_mode m) (me_join_code m).
Definition set_public (public : bool) (mode : string) (code : option string) (m : Meeting) : Meeting :=
  MkMeeting (me_id m) (me_status m) (me_gremium_id m) (me_protokollant_id m) (me_start m) (me_title m) (me_date m)
    (me_start_time m) (me_end_time m) (me_started_at m) (me_closed_at m) (me_active_application_id m)
    (me_current_agenda_item_id m) (me_created_by m) public mode code.
Definition set_item (position : Z) (non_public : bool) (title body : option string) (done : option Z) (i : AgendaItem) : AgendaItem :=
  MkAgendaItem (ai_id i) (ai_meeting_id i) (ai_application_id i) position non_public title (ai_todo_id i) body done
    (ai_created_at i).
Definition end_period (at_ : Z) (item : option string) (p : ProtocolKeeperPeriod) : ProtocolKeeperPeriod :=
  MkPeriod (pk_id p) (pk_meeting_id p) (pk_principal_id p) (pk_from_at p) (Some at_) (pk_from_agenda_item_id p) item.
Definition start_period (at_ : Z) (item : option string) (p : ProtocolKeeperPeriod) : ProtocolKeeperPeriod :=
  MkPeriod (pk_id p) (pk_meeting_id p) (pk_principal_id p) (Some at_) (pk_to_at p) item (pk_to_agenda_item_id p).

(** ** Lookups *)
Definition meeting_row (d : MeetingDb) (id : string) : option Meeting := find_by me_id id (meeting_rows d).
Definition _get (d : MeetingDb) (id : string) : mres Meeting := or_meeting (meeting_row d id) (MNotFound "not_found").
Definition find_item (d : MeetingDb) (meeting_id item_id : string) : option AgendaItem :=
  find_by ai_id item_id (filter (λ i, ai_meeting_id i = meeting_id) (items d)).
Definition protocol_status (d : MeetingDb) (meeting_id : string) : option string :=
  snd <$> find_by fst meeting_id (protocols d).
(** [open_vote]. *)
Definition open_vote_of (d : MeetingDb) (meeting_id : string) : bool :=
  existsb (λ kv, bool_decide (vo_meeting_id kv.2 = Some meeting_id) && bool_decide (vote_status kv.2 = open))
    (map_to_list (votes (flow_db (room d)))).
(** [agenda_order]. *)
Definition agenda_leb (a b : AgendaItem) : bool :=
  (ai_position a <? ai_position b) ||
  ((ai_position a =? ai_position b) &&
   ((ai_created_at a <? ai_created_at b) ||
    ((ai_created_at a =? ai_created_at b) && str_leb (ai_id a) (ai_id b)))).
Definition agenda (d : MeetingDb) (meeting_id : string) : list AgendaItem :=
  sort_by agenda_leb (filter (λ i, ai_meeting_id i = meeting_id) (items d)).
Definition _agenda_ids (d : MeetingDb) (meeting_id : string) : list string := ai_id <$> agenda d meeting_id.

(** ** The open window *)
Definition MINUTE : Z := 60 * 1000000.
Definition DEFAULT_OPEN_LEAD_MINUTES : Z := 60.
Definition DEFAULT_CONFIRM_LEAD_MINUTES : Z := 10.
Definition MAX_LEAD_MINUTES : Z := 10080.
Definition _defaults : MeetingSettings := MkMeetingSettings DEFAULT_OPEN_LEAD_MINUTES DEFAULT_CONFIRM_LEAD_MINUTES.
Definition load_meeting_settings (d : MeetingDb) : MeetingSettings := default _defaults (meeting_settings d).
Record OpenWindow := MkOpenWindow { opens_at : Z; confirm_until : Z }.
Definition open_window (m : Meeting) (s : MeetingSettings) : option OpenWindow :=
  if negb (bool_decide (me_status m = "planned")) then None
  else (λ start, MkOpenWindow (start - MINUTE * open_lead_minutes s) (start - MINUTE * confirm_lead_minutes s)) <$> me_start m.
Definition check_open (window : option OpenWindow) (now : Z) (confirmed : bool) : mres () :=
  match window with
  | None => Ok ()
  | Some w =>
      _ ← raise_if (now <? opens_at w) (MConflict "meeting_too_early");
      raise_if ((now <? confirm_until w) && negb confirmed) (MConflict "early_open_unconfirmed")
  end.
(** [MeetingSettingsService.update]; the schema bounds the values. *)
Definition update_settings (d : MeetingDb) (open_lead confirm_lead : Z) (actor : string) : mres MeetingDb :=
  _ ← raise_if (open_lead <? confirm_lead) (MInvalid "validation_error");
  let row := load_meeting_settings d in
  _ ← raise_if (negb ((0 <=? open_lead) && (open_lead <=? MAX_LEAD_MINUTES) && (0 <=? confirm_lead))) MDatabase;
  Ok (with_room (room_audit (MkAudit (Some actor) "config_change" "meeting_settings" "1"
          [("openLeadMinutes", PDict [("from", PInt (open_lead_minutes row)); ("to", PInt open_lead)]);
           ("confirmLeadMinutes", PDict [("from", PInt (confirm_lead_minutes row)); ("to", PInt confirm_lead)])]) (room d))
        (with_settings (Some (MkMeetingSettings open_lead confirm_lead)) d)).
