(* ===== verification/Agenda.v ===== *)
(** The agenda of a meeting ([livevote/agenda_service.py]) and its routes ([livevote/router.py]).

    Add and remove lock the row of the meeting.  The other operations read without a lock: they
    take the tables of their reads ([k]) and of their writes ([d]), and a row that is gone by then
    is an error of the database.  [now] is the clock, [id] the id of a new row. *)

From stdpp Require Import gmap strings.
From S2P Require Import Prelude PyStr PyNum PyValue Guards VoteConfigs Tally Election FlowDb Decision FlowEngine Policy Room.
From S2P Require Import VoteRows VoteService VoteClose Meetings.

Definition title_of (data : list (string * pyval)) : option string :=
  match get_or_none "title" data with
  | PStr t => if bool_decide (py_strip t = "") then None else Some (py_strip t)
  | _ => None
  end.
Definition application_of (d : MeetingDb) (id : string) : option Application := applications (flow_db (room d)) !! id.
Definition _assert_agenda_open (m : Meeting) : mres () :=
  raise_if (negb (bool_decide (me_status m ∈ _AGENDA_OPEN))) (MConflict "meeting_closed").
Definition _assert_minutes_open (d : MeetingDb) (m : Meeting) : mres () :=
  if bool_decide (me_status m = "closed")
  then raise_if (negb (bool_decide (protocol_status d (me_id m) = Some "draft"))) (MConflict "protocol_locked")
  else Ok ().
Definition agenda_audit (actor : option string) (action : string) (i : AgendaItem) (extra : list (string * pyval))
    (d : MeetingDb) : MeetingDb :=
  meeting_audit actor action (ai_meeting_id i)
    ([("agendaItemId", PStr (ai_id i)); ("applicationId", str_or_none (ai_application_id i))] ++ extra) d.
Definition item (d : MeetingDb) (meeting_id item_id : string) : mres AgendaItem :=
  or_meeting (find_item d meeting_id item_id) (MNotFound "not_found").
(** The [UPDATE] of a row that an earlier statement read. *)
Definition write_item (id : string) (f : AgendaItem → AgendaItem) (d : MeetingDb) : mres MeetingDb :=
  _ ← raise_if (bool_decide (find_by ai_id id (items d) = None)) MDatabase;
  Ok (update_item id f d).

(** ** The text of an item *)
Definition _own_title (d : MeetingDb) (row : AgendaItem) (title : string) : option string :=
  match ai_application_id row with
  | None => Some title
  | Some a =>
      match application_of d a with
      | Some app => if bool_decide (Some title = title_of (data_of app)) then None else Some title
      | None => Some title
      end
  end.
Definition _has_guest_vote (d : MeetingDb) (item_id : string) : bool :=
  existsb (λ kv, bool_decide (vb_agenda_item_id (vo_body kv.2) = Some item_id) && in_record kv.2 &&
                 guests_vote (vote_config kv.2)) (map_to_list (votes (flow_db (room d)))).
(** The columns that an edit changes, [None] for a column that it leaves alone. *)
Record ItemEdit := MkItemEdit {
  ie_body : option string;
  ie_title : option (option string);
  ie_non_public : option bool
}.
Definition edit_item (e : ItemEdit) (i : AgendaItem) : AgendaItem :=
  set_item (ai_position i) (default (ai_non_public i) (ie_non_public e)) (default (ai_title i) (ie_title e))
    (match ie_body e with Some b => Some b | None => ai_body i end) (ai_done_at i) i.
Definition changed_if {A} (b : bool) (x : A) : option A := if b then Some x else None.
Definition changed_fields (closed : bool) (e : ItemEdit) : list string :=
  (if bool_decide (is_Some (ie_body e)) && closed then ["body"] else []) ++
  (if bool_decide (is_Some (ie_title e)) then ["title"] else []) ++
  (if bool_decide (is_Some (ie_non_public e)) then ["nonPublic"] else []).
Definition plan_edit (k : MeetingDb) (row : AgendaItem) (body title : option string) (non_public : option bool) : ItemEdit :=
  let own := match title with Some t => _own_title k row (py_strip t) | None => ai_title row end in
  MkItemEdit (b ← body; changed_if (negb (bool_decide (Some b = ai_body row))) b)
    (changed_if (negb (bool_decide (own = ai_title row))) own)
    (n ← non_public; changed_if (negb (bool_decide (n = ai_non_public row))) n).
Definition set_body (k d : MeetingDb) (meeting_id item_id : string) (body title : option string)
    (non_public : option bool) (actor : option string) : mres MeetingDb :=
  m ← _get k meeting_id;
  row ← item k meeting_id item_id;
  _ ← (if bool_decide (is_Some title) then _assert_agenda_open m else Ok ());
  _ ← (if bool_decide (is_Some body) || bool_decide (is_Some non_public) then _assert_minutes_open k m else Ok ());
  let e := plan_edit k row body title non_public in
  _ ← raise_if (bool_decide (ie_non_public e = Some true) && _has_guest_vote k item_id) (MConflict "guests_vote_on_item");
  let fields := changed_fields (bool_decide (me_status m = "closed")) e in
  d1 ← (if bool_decide (ie_body e = None) && bool_decide (ie_title e = None) && bool_decide (ie_non_public e = None)
        then Ok d else write_item item_id (edit_item e) d);
  Ok (match fields with
      | [] => d1
      | _ => agenda_audit actor "agenda_item_update" row [("fields", PList (PStr <$> fields))] d1
      end).

(** ** The done mark *)
Definition set_done_at (at_ : option Z) (i : AgendaItem) : AgendaItem :=
  set_item (ai_position i) (ai_non_public i) (ai_title i) (ai_body i) at_ i.
Definition set_done_in_tx (k d : MeetingDb) (m : Meeting) (item_id : string) (done : bool) (actor : string)
    (via : option string) (now : Z) : mres MeetingDb :=
  row ← item k (me_id m) item_id;
  _ ← _assert_minutes_open k m;
  if bool_decide (done = bool_decide (is_Some (ai_done_at row))) then Ok d
  else
    d1 ← write_item item_id (set_done_at (if done then Some now else None)) d;
    Ok (agenda_audit (Some actor) (if done then "agenda_item_done" else "agenda_item_reopened") row
          (match via with Some v => [("via", PStr v)] | None => [] end) d1).
Definition set_done (k d : MeetingDb) (meeting_id item_id : string) (done : bool) (actor : string) (now : Z) : mres MeetingDb :=
  m ← _get k meeting_id;
  set_done_in_tx k d m item_id done actor None now.

(** ** The order *)
Definition set_position (p : Z) (i : AgendaItem) : AgendaItem :=
  set_item p (ai_non_public i) (ai_title i) (ai_body i) (ai_done_at i) i.
(** The position that the last assignment gives; an id that is named twice takes its last place. *)
Fixpoint last_index (id : string) (ids : list string) (n : Z) : option Z :=
  match ids with
  | [] => None
  | x :: r => match last_index id r (n + 1) with
              | Some p => Some p
              | None => if bool_decide (x = id) then Some n else None
              end
  end.
Definition moved_items (k : MeetingDb) (meeting_id : string) (known : list string) : list (string * Z) :=
  omap (λ i, p ← last_index (ai_id i) known 0; if bool_decide (p = ai_position i) then None else Some (ai_id i, p))
    (filter (λ i, ai_meeting_id i = meeting_id) (items k)).
Fixpoint write_positions (l : list (string * Z)) (d : MeetingDb) : mres MeetingDb :=
  match l with
  | [] => Ok d
  | (id, p) :: r => d1 ← write_item id (set_position p) d; write_positions r d1
  end.
Definition reorder (k d : MeetingDb) (meeting_id : string) (item_ids : list string) (actor : option string) : mres MeetingDb :=
  m ← _get k meeting_id;
  _ ← _assert_agenda_open m;
  let known := filter (λ i, is_Some (find_item k meeting_id i)) item_ids in
  d1 ← write_positions (moved_items k meeting_id known) d;
  Ok (meeting_audit actor "agenda_reorder" meeting_id [("itemIds", PList (PStr <$> known))] d1).

(** ** Add and remove *)
Definition assignable (d : MeetingDb) (meeting_id : string) : mres (list string) :=
  m ← _get d meeting_id;
  let existing := omap ai_application_id (filter (λ i, ai_meeting_id i = meeting_id) (items d)) in
  Ok (ap_id <$> filter (λ a, ap_vote_gremium_id a = Some (me_gremium_id m) ∧ ap_id a ∉ existing)
        (map_to_list (applications (flow_db (room d)))).*2).
Definition next_position (d : MeetingDb) (meeting_id : string) : Z := _next_position (flow_db (room d)) meeting_id.
Definition insert_item (actor : option string) (i : AgendaItem) (extra : list (string * pyval)) (d : MeetingDb) : MeetingDb :=
  agenda_audit actor "agenda_item_add" i ([("nonPublic", PBool (ai_non_public i))] ++ extra) (with_items (items d ++ [i]) d).
Definition _add_freetext (d : MeetingDb) (meeting_id title : string) (non_public : bool) (actor : option string) (id : string)
    (now : Z) : MeetingDb :=
  insert_item actor (MkAgendaItem id meeting_id None (next_position d meeting_id) non_public (Some title) None None None now) [] d.
(** [AgendaService.add_in_tx]; the part for an application is [FlowEngine.add_in_tx]. *)
Definition add_item_in_tx (d : MeetingDb) (meeting_id : string) (application_id title : option string) (non_public : bool)
    (actor : option string) (id : string) (now : Z) : mres (MeetingDb * bool) :=
  m ← _get d meeting_id;
  _ ← _assert_agenda_open m;
  match title with
  | Some t => Ok (_add_freetext d meeting_id (py_strip t) non_public actor id now, true)
  | None =>
      a ← or_meeting application_id (MNotFound "not_found");
      '(x, added) ← of_voting (add_in_tx meeting_id a non_public actor id now (flow_db (room d)));
      Ok (with_room (with_flow x (room d)) d, added)
  end.
Definition add_item (d : MeetingDb) (meeting_id : string) (application_id title : option string) (non_public : bool)
    (actor : option string) (id : string) (now : Z) : mres MeetingDb :=
  '(d1, _) ← add_item_in_tx d meeting_id application_id title non_public actor id now;
  Ok d1.
(** [title.strip() or title]. *)
Definition strip_or_self (s : string) : string := if bool_decide (py_strip s = "") then s else py_strip s.
Definition add_todo_in_tx (d : MeetingDb) (meeting_id todo_id title : string) (non_public : bool) (actor : option string)
    (id : string) (now : Z) : mres MeetingDb :=
  m ← _get d meeting_id;
  _ ← _assert_agenda_open m;
  _ ← raise_if (existsb (λ i, bool_decide (ai_meeting_id i = meeting_id) && bool_decide (ai_todo_id i = Some todo_id)) (items d))
        (MConflict "todo_already_on_agenda");
  Ok (insert_item actor
        (MkAgendaItem id meeting_id None (next_position d meeting_id) non_public (Some (strip_or_self title)) (Some todo_id) None None now)
        [("todoId", PStr todo_id)] d).
(** The [DELETE] of an item: the columns that refer to it become null. *)
Definition forget_item (id : string) (o : option string) : option string := if bool_decide (o = Some id) then None else o.
Definition unlink_meeting (id : string) (m : Meeting) : Meeting :=
  set_shown (me_active_application_id m) (forget_item id (me_current_agenda_item_id m)) m.
Definition unlink_period (id : string) (p : ProtocolKeeperPeriod) : ProtocolKeeperPeriod :=
  MkPeriod (pk_id p) (pk_meeting_id p) (pk_principal_id p) (pk_from_at p) (pk_to_at p)
    (forget_item id (pk_from_agenda_item_id p)) (forget_item id (pk_to_agenda_item_id p)).
Definition delete_item (id : string) (d : MeetingDb) : MeetingDb :=
  with_periods (unlink_period id <$> keeper_periods d)
    (with_meetings (unlink_meeting id <$> meeting_rows d) (with_items (filter (λ i, ai_id i ≠ id) (items d)) d)).
Definition remove (d : MeetingDb) (meeting_id item_id actor : string) (may_delete_votes : bool) : mres MeetingDb :=
  m ← _get d meeting_id;
  _ ← _assert_agenda_open m;
  match find_item d meeting_id item_id with
  | None => Ok d
  | Some row =>
      '(r, deleted) ← of_voting (delete_for_agenda_item (room d) item_id actor may_delete_votes);
      Ok (delete_item item_id
            (agenda_audit (Some actor) "agenda_item_remove" row [("deletedVoteIds", PList (PStr <$> deleted))] (with_room r d)))
  end.

(** ** The list *)
Record AgendaItemOut := MkItemOut {
  io_id : string;
  io_application_id : option string;
  io_todo_id : option string;
  io_title : option string;
  io_application_title : option string;
  io_body : option string;
  io_position : Z;
  io_non_public : bool;
  io_done_at : option Z;
  io_amount : option Z
}.
Definition app_title (d : MeetingDb) (application_id : option string) : option string :=
  app ← application_id ≫= application_of d; title_of (data_of app).
(** [own or other]: an empty own title gives way too. *)
Definition title_or (own other : option string) : option string :=
  match own with Some t => if bool_decide (t = "") then other else Some t | None => other end.
Definition _item_out (d : MeetingDb) (i : AgendaItem) : AgendaItemOut :=
  let at_ := app_title d (ai_application_id i) in
  MkItemOut (ai_id i) (ai_application_id i) (ai_todo_id i) (title_or (ai_title i) at_) at_ (ai_body i) (ai_position i)
    (ai_non_public i) (ai_done_at i) ((ai_application_id i ≫= application_of d) ≫= ap_amount).
Definition list_agenda (d : MeetingDb) (meeting_id : string) : mres (list AgendaItemOut) :=
  _ ← _get d meeting_id;
  Ok (_item_out d <$> agenda d meeting_id).

(** ** The routes *)
Definition editor (k : MeetingDb) (meeting_id : string) (p : Principal) : mres Meeting :=
  m ← _get k meeting_id;
  _ ← raise_if (negb (can_write (room k) m p)) (MForbidden "forbidden");
  Ok m.
Definition _assert_live_minutes_writer (k : MeetingDb) (m : Meeting) (p : Principal) : mres () :=
  raise_if (bool_decide (me_status m = "live") && bool_decide (is_Some (me_protokollant_id m)) &&
            negb (_is_protokollant (room k) m p)) (MForbidden "not_protokollant").
Definition set_agenda_body (k d : MeetingDb) (p : Principal) (meeting_id item_id : string) (body title : option string)
    (non_public : option bool) : mres MeetingDb :=
  m ← editor k meeting_id p;
  _ ← (if bool_decide (is_Some body) then _assert_live_minutes_writer k m p else Ok ());
  set_body k d meeting_id item_id body title non_public (Some (sub p)).
Definition set_agenda_done (k d : MeetingDb) (p : Principal) (meeting_id item_id : string) (done : bool) (now : Z) : mres MeetingDb :=
  m ← editor k meeting_id p;
  _ ← _assert_live_minutes_writer k m p;
  set_done k d meeting_id item_id done (sub p) now.
Definition reorder_agenda (k d : MeetingDb) (p : Principal) (meeting_id : string) (item_ids : list string) : mres MeetingDb :=
  _ ← editor k meeting_id p;
  reorder k d meeting_id item_ids (Some (sub p)).
(** [add_agenda_item] for an application or a text, and for a card that [card_for_agenda] gave. *)
Definition add_agenda_item (k d : MeetingDb) (p : Principal) (meeting_id : string) (application_id title : option string)
    (non_public : bool) (id : string) (now : Z) : mres MeetingDb :=
  _ ← editor k meeting_id p;
  add_item d meeting_id application_id title non_public (Some (sub p)) id now.
Definition add_agenda_todo (k d : MeetingDb) (p : Principal) (meeting_id todo_id title : string) (non_public : bool)
    (id : string) (now : Z) : mres MeetingDb :=
  _ ← editor k meeting_id p;
  add_todo_in_tx d meeting_id todo_id title non_public (Some (sub p)) id now.
Definition remove_agenda_item (k d : MeetingDb) (p : Principal) (meeting_id item_id : string) : mres MeetingDb :=
  m ← editor k meeting_id p;
  remove d meeting_id item_id (sub p) (can_manage_votes (room k) m p).
