(* ===== verification/Guests.v ===== *)
(** The guests of a public meeting ([livevote/guests.py]): the join code, the requests, the decisions
    of the lead, and what a device does with its token.

    The random codes, the random token and the id of a new row are arguments; the broadcasts are
    left out.  The lead operations and the join lock the row of the meeting and the operations of
    a device lock the row of the guest, so each one is one step. *)

From Stdlib Require Import SpecFloat.
From stdpp Require Import gmap strings.
From S2P Require Import Prelude PyStr PyNum PyValue Sha256 VoteConfigs Tally Election FlowDb Decision FlowEngine Policy Room.
From S2P Require Import VoteRows VoteService Meetings.

(** ** Codes and tokens *)
Definition CODE_ALPHABET : string := "ABCDEFGHJKMNPQRSTUVWXYZ23456789".
Definition CODE_LENGTH : nat := 6.
Definition RETRY_AFTER : Z := 180 * 1000000.
Definition _SEEN_INTERVAL : Z := 60 * 1000000.
Definition _CODE_ATTEMPTS : nat := 20.
(** [picks]: the indices that [secrets.choice] draws. *)
Definition new_join_code (picks : nat → nat) : string :=
  of_chars ((λ i, nth (picks i mod length (chars CODE_ALPHABET)) (chars CODE_ALPHABET) "A"%char) <$> seq 0 CODE_LENGTH).
Definition normalize_code (code : string) : string :=
  of_chars (filter (λ c, c ∉ [" "; "-"]%char) (chars (py_upper code))).
Definition token_hash (token : string) : string := sha256 token.

(** ** Lookups *)
Definition guest_rows (d : MeetingDb) : list MeetingGuest := guests (room d).
Definition guests_of (d : MeetingDb) (meeting_id : string) : list MeetingGuest :=
  filter (λ g, mg_meeting_id g = meeting_id) (guest_rows d).
Definition _guest (d : MeetingDb) (meeting_id guest_id : string) : mres MeetingGuest :=
  or_meeting (find_by mg_id guest_id (guests_of d meeting_id)) (MNotFound "guest_not_found").
Definition _assert_open (m : Meeting) : mres () :=
  _ ← raise_if (bool_decide (me_status m = "closed")) (MConflict "meeting_closed");
  raise_if (negb (me_public_join m)) (MConflict "meeting_not_public").
Definition _principal_id (d : MeetingDb) (s : string) : option string := pr_id <$> principal_by_sub (room d) s.
Definition guest_audit (action actor : string) (m : Meeting) (data : list (string * pyval)) (d : MeetingDb) : MeetingDb :=
  meeting_audit (Some actor) action (me_id m)
    ([("meetingId", PStr (me_id m)); ("gremiumId", PStr (me_gremium_id m))] ++ data) d.
(** The rows of [counts]: the guests with a status. *)
Definition count_guests (d : MeetingDb) (meeting_id status : string) : Z :=
  Z.of_nat (length (filter (λ g, mg_status g = status) (guests_of d meeting_id))).
Definition counts (d : MeetingDb) (meeting_id : string) : Z * Z :=
  (count_guests d meeting_id "admitted", count_guests d meeting_id "pending").
Definition attended_count (d : MeetingDb) (meeting_id : string) : Z :=
  Z.of_nat (length (filter (λ g, is_Some (mg_admitted_at g)) (guests_of d meeting_id))).

(** ** Row updates *)
Definition set_guest (status : string) (name token : option string) (requested : Z) (decided : option Z)
    (by_ : option string) (admitted : option Z) (g : MeetingGuest) : MeetingGuest :=
  MkGuest (mg_id g) (mg_meeting_id g) status (mg_seq g) name token requested decided by_ admitted (mg_last_seen_at g).
Definition decided_as (status : string) (now : Z) (by_ : option string) (g : MeetingGuest) : MeetingGuest :=
  set_guest status (mg_display_name g) (mg_token_hash g) (mg_requested_at g) (Some now) by_
    (if bool_decide (status = "admitted") then Some now else mg_admitted_at g) g.
Definition set_name (name : option string) (g : MeetingGuest) : MeetingGuest :=
  set_guest (mg_status g) name (mg_token_hash g) (mg_requested_at g) (mg_decided_at g) (mg_decided_by g) (mg_admitted_at g) g.
Definition set_token (token : option string) (g : MeetingGuest) : MeetingGuest :=
  set_guest (mg_status g) (mg_display_name g) token (mg_requested_at g) (mg_decided_at g) (mg_decided_by g) (mg_admitted_at g) g.
Definition set_seq (n : Z) (g : MeetingGuest) : MeetingGuest :=
  MkGuest (mg_id g) (mg_meeting_id g) (mg_status g) n None None (mg_requested_at g) (mg_decided_at g)
    (mg_decided_by g) (mg_admitted_at g) (mg_last_seen_at g).
Definition set_seen (now : Z) (g : MeetingGuest) : MeetingGuest :=
  MkGuest (mg_id g) (mg_meeting_id g) (mg_status g) (mg_seq g) (mg_display_name g) (mg_token_hash g) (mg_requested_at g)
    (mg_decided_at g) (mg_decided_by g) (mg_admitted_at g) (Some now).
(** Leaving: a request or a seat ends, the name and the token go. *)
Definition left_at (now : Z) (g : MeetingGuest) : MeetingGuest :=
  let ends := bool_decide (mg_status g ∈ ["pending"; "admitted"]) in
  set_guest (if ends then "left" else mg_status g) None None (mg_requested_at g)
    (if ends then Some now else mg_decided_at g) (mg_decided_by g) (mg_admitted_at g) g.

(** ** The join code *)
Section Codes.
(** The draws of [new_join_code]. *)
Context (draws : nat → string).
Definition code_taken (d : MeetingDb) (code : string) : bool :=
  existsb (λ m, bool_decide (me_join_code m = Some code) && negb (bool_decide (me_status m = "closed"))) (meeting_rows d).
Definition _free_code (d : MeetingDb) : mres string :=
  or_meeting (head (filter (λ c, code_taken d c = false) (draws <$> seq 0 _CODE_ATTEMPTS))) (MConflict "join_code_exhausted").
(** A code that is free in this state passes the unique index, so the outer loop runs once. *)
Definition assign_code (d : MeetingDb) (meeting_id : string) : mres MeetingDb :=
  code ← _free_code d;
  Ok (update_meeting meeting_id (λ m, set_public (me_public_join m) (me_guests_mode m) (Some code) m) d).
Definition ensure_code (d : MeetingDb) (m : Meeting) : mres MeetingDb :=
  match me_join_code m with Some _ => Ok d | None => assign_code d (me_id m) end.

(** ** Bulk changes *)
Definition is_pending (meeting_id : string) (g : MeetingGuest) : bool :=
  bool_decide (mg_meeting_id g = meeting_id) && bool_decide (mg_status g = "pending").
Definition _void_pending (d : MeetingDb) (meeting_id : string) : MeetingDb * Z :=
  (with_guests (filter (λ g, is_pending meeting_id g = false) (guest_rows d)) d,
   count_guests d meeting_id "pending").
Definition switch_off (d : MeetingDb) (meeting_id actor_sub : string) (now : Z) : MeetingDb :=
  let '(d1, _) := _void_pending d meeting_id in
  let actor := _principal_id d actor_sub in
  with_guests ((λ g, if bool_decide (mg_meeting_id g = meeting_id) && bool_decide (mg_status g = "admitted")
                     then decided_as "removed" now actor g else g) <$> guest_rows d1) d1.
Definition purge_on_close (d : MeetingDb) (meeting_id : string) : MeetingDb :=
  with_guests ((λ g, if bool_decide (mg_meeting_id g = meeting_id) then set_token None (set_name None g) else g) <$>
               filter (λ g, ¬ (mg_meeting_id g = meeting_id ∧ mg_admitted_at g = None)) (guest_rows d)) d.
(** [admitted_at.asc().nulls_last(), requested_at, id]. *)
Definition admission_leb (a b : MeetingGuest) : bool :=
  match mg_admitted_at a, mg_admitted_at b with
  | Some x, Some y => (x <? y) || ((x =? y) && ((mg_requested_at a <? mg_requested_at b) ||
                       ((mg_requested_at a =? mg_requested_at b) && str_leb (mg_id a) (mg_id b))))
  | Some _, None => true
  | None, Some _ => false
  | None, None => (mg_requested_at a <? mg_requested_at b) ||
                  ((mg_requested_at a =? mg_requested_at b) && str_leb (mg_id a) (mg_id b))
  end.
Definition pseudonymize (d : MeetingDb) (meeting_id : string) : MeetingDb * Z :=
  let order := mg_id <$> sort_by admission_leb (guests_of d meeting_id) in
  (with_guests ((λ g, match (if bool_decide (mg_meeting_id g = meeting_id) then index_of (mg_id g) order else None) with
                      | Some n => set_seq (Z.of_nat n + 1) g
                      | None => g
                      end) <$> guest_rows d) d,
   Z.of_nat (length order)).

(** ** The lead *)
Definition _decide (d : MeetingDb) (meeting_id guest_id actor_sub expect to action : string) (now : Z) : mres MeetingDb :=
  m ← _get d meeting_id;
  _ ← _assert_open m;
  g ← _guest d meeting_id guest_id;
  _ ← raise_if (negb (bool_decide (mg_status g = expect)))
        (MConflict (if bool_decide (expect = "pending") then "guest_not_pending" else "guest_not_admitted"));
  Ok (guest_audit action actor_sub m [("guestId", PStr guest_id)]
        (update_guest guest_id (decided_as to now (_principal_id d actor_sub)) d)).
Definition admit_guest (d : MeetingDb) (meeting_id guest_id actor_sub : string) (now : Z) : mres MeetingDb :=
  _decide d meeting_id guest_id actor_sub "pending" "admitted" "guest_admitted" now.
Definition reject (d : MeetingDb) (meeting_id guest_id actor_sub : string) (now : Z) : mres MeetingDb :=
  _decide d meeting_id guest_id actor_sub "pending" "rejected" "guest_rejected" now.
Definition remove_guest (d : MeetingDb) (meeting_id guest_id actor_sub : string) (now : Z) : mres MeetingDb :=
  _decide d meeting_id guest_id actor_sub "admitted" "removed" "guest_removed" now.
Definition rename (d : MeetingDb) (meeting_id guest_id name actor_sub : string) : mres MeetingDb :=
  m ← _get d meeting_id;
  _ ← _assert_open m;
  g ← _guest d meeting_id guest_id;
  _ ← raise_if (bool_decide (mg_display_name g = None)) (MConflict "guest_pseudonymized");
  Ok (guest_audit "guest_renamed" actor_sub m [("guestId", PStr guest_id)]
        (update_guest guest_id (set_name (Some name)) d)).
Definition requested_leb (a b : MeetingGuest) : bool :=
  (mg_requested_at a <? mg_requested_at b) || ((mg_requested_at a =? mg_requested_at b) && (mg_seq a <=? mg_seq b)).
Definition admit_all (d : MeetingDb) (meeting_id actor_sub : string) (now : Z) : mres MeetingDb :=
  m ← _get d meeting_id;
  _ ← _assert_open m;
  let waiting := sort_by requested_leb (filter (λ g, is_pending meeting_id g = true) (guest_rows d)) in
  let d1 := with_guests ((λ g, if is_pending meeting_id g then decided_as "admitted" now (_principal_id d actor_sub) g else g)
                           <$> guest_rows d) d in
  Ok (match waiting with
      | [] => d1
      | _ => guest_audit "guest_admit_all" actor_sub m
               [("count", PInt (Z.of_nat (length waiting))); ("guestIds", PList (PStr ∘ mg_id <$> waiting))] d1
      end).
Definition rotate (d : MeetingDb) (meeting_id actor_sub : string) : mres MeetingDb :=
  m ← _get d meeting_id;
  _ ← _assert_open m;
  d1 ← assign_code d meeting_id;
  let '(d2, voided) := _void_pending d1 meeting_id in
  Ok (guest_audit "meeting_join_code_rotated" actor_sub m [("voidedRequests", PInt voided)] d2).
End Codes.
(** [list]: the open requests first, then by the admission or the request. *)
Definition listed_leb (a b : MeetingGuest) : bool :=
  let late g := negb (bool_decide (mg_status g = "pending")) in
  let at_ g := default (mg_requested_at g) (mg_admitted_at g) in
  (negb (late a) && late b) ||
  (bool_decide (late a = late b) && ((at_ a <? at_ b) || ((at_ a =? at_ b) && (mg_seq a <=? mg_seq b)))).
Definition list_guests (d : MeetingDb) (meeting_id : string) : mres (list MeetingGuest) :=
  _ ← _get d meeting_id;
  Ok (sort_by listed_leb (guests_of d meeting_id)).
Definition join_link (d : MeetingDb) (meeting_id : string) : mres string :=
  m ← _get d meeting_id;
  _ ← raise_if (negb (me_public_join m)) (MConflict "meeting_not_public");
  or_meeting (me_join_code m) (MConflict "meeting_not_public").

(** ** A device *)
Definition meeting_by_code (d : MeetingDb) (code : string) : mres Meeting :=
  or_meeting (head (filter (λ m, me_join_code m = Some (normalize_code code) ∧ me_status m ≠ "closed" ∧
                                 me_public_join m = true) (meeting_rows d))) (MNotFound "join_code_unknown").
Definition member_meeting_id (d : MeetingDb) (code : string) : mres string :=
  m ← or_meeting (head (filter (λ m, me_join_code m = Some (normalize_code code) ∧ me_status m ≠ "closed") (meeting_rows d)))
        (MNotFound "join_code_unknown");
  Ok (me_id m).
Definition has_token (token : option string) : option string :=
  match token with Some t => if bool_decide (t = "") then None else Some t | None => None end.
Definition _by_token (d : MeetingDb) (token : option string) : option MeetingGuest :=
  t ← has_token token; head (filter (λ g, mg_token_hash g = Some (token_hash t)) (guest_rows d)).
(** [int(f)] of a finite float. *)
Definition float_int (f : float) : Z :=
  match f with
  | S754_finite s m e =>
      let n := if 0 <=? e then Zpos m * 2 ^ e else Zpos m / 2 ^ (- e) in if s then - n else n
  | _ => 0
  end.
(** [total_seconds()]. *)
Definition total_seconds (micros : Z) : float :=
  fdiv (default S754_nan (float_of_int micros)) (default S754_nan (float_of_int 1000000)).
Definition _retry_after (g : MeetingGuest) (now : Z) : option Z :=
  match mg_decided_at g with
  | Some at_ =>
      if bool_decide (mg_status g ∈ ["rejected"; "removed"])
      then Some (Z.max 0 (float_int (fadd (total_seconds (at_ + RETRY_AFTER - now)) (float_of_decimal false 999 (-3)))))
      else None
  | None => None
  end.
Definition _check_retry (g : MeetingGuest) (now : Z) : mres () :=
  match _retry_after g now with
  | Some wait => raise_if (negb (wait =? 0)) (MRateLimited "retry_later" wait)
  | None => Ok ()
  end.
Definition _rejoin (d : MeetingDb) (existing : MeetingGuest) (name : string) (now : Z) : mres MeetingDb :=
  _ ← raise_if (bool_decide (mg_status existing = "admitted")) (MConflict "already_admitted");
  _ ← _check_retry existing now;
  Ok (update_guest (mg_id existing)
        (λ g, set_guest "pending" (Some name) (mg_token_hash g) now None None (mg_admitted_at g) g) d).
Definition _release_old (d : MeetingDb) (m : Meeting) (existing : option MeetingGuest) (now : Z) : mres MeetingDb :=
  match existing with
  | None => Ok d
  | Some g =>
      let here := bool_decide (mg_meeting_id g = me_id m) in
      let moves := negb here && bool_decide (mg_status g ∈ ["pending"; "admitted"]) in
      _ ← (if here then _check_retry g now else Ok ());
      Ok (update_guest (mg_id g) (λ g, if moves then left_at now g else set_token None g) d)
  end.
Definition next_seq (d : MeetingDb) (meeting_id : string) : Z :=
  foldl Z.max 0 (mg_seq <$> guests_of d meeting_id) + 1.
(** [new_token]: the token that the device gets. *)
Definition _join_new (d : MeetingDb) (m : Meeting) (existing : option MeetingGuest) (name : string) (now : Z)
    (id new_token : string) : mres MeetingDb :=
  d1 ← _release_old d m existing now;
  _ ← raise_if (existsb (λ g, bool_decide (mg_token_hash g = Some (token_hash new_token))) (guest_rows d1)) MDatabase;
  Ok (with_guests (guest_rows d1 ++
        [MkGuest id (me_id m) "pending" (next_seq d1 (me_id m)) (Some name) (Some (token_hash new_token)) now None None None
           (Some now)]) d1).
Definition join (d : MeetingDb) (code name : string) (token : option string) (now : Z) (id new_token : string)
    : mres (MeetingDb * option string) :=
  m ← meeting_by_code d code;
  match _by_token d token with
  | Some g =>
      if bool_decide (mg_meeting_id g = me_id m) && bool_decide (mg_status g ∈ ["pending"; "admitted"; "rejected"])
      then d1 ← _rejoin d g name now; Ok (d1, None)
      else d1 ← _join_new d m (Some g) name now id new_token; Ok (d1, Some new_token)
  | None => d1 ← _join_new d m None name now id new_token; Ok (d1, Some new_token)
  end.
Definition resolve (d : MeetingDb) (code : string) (token : option string) : mres (Meeting * MeetingGuest) :=
  _ ← or_meeting (has_token token) (MUnauthorized "guest_token_missing");
  g ← or_meeting (_by_token d token) (MNotFound "guest_not_found");
  m ← _get d (mg_meeting_id g);
  _ ← raise_if (negb (bool_decide (me_join_code m = Some (normalize_code code))) && negb (bool_decide (mg_status g = "admitted")))
        (MNotFound "guest_not_found");
  _ ← raise_if (negb (me_public_join m)) (MNotFound "meeting_not_public");
  Ok (m, g).
(** [me] without the view: it notes the visit once in a minute. *)
Definition visit (d : MeetingDb) (code : string) (token : option string) (now : Z) : mres (MeetingDb * MeetingGuest) :=
  '(_, g) ← resolve d code token;
  let due := match mg_last_seen_at g with None => true | Some t => _SEEN_INTERVAL <=? now - t end in
  Ok (if due then update_guest (mg_id g) (set_seen now) d else d, g).
Definition rename_self (d : MeetingDb) (code : string) (token : option string) (name : string) : mres MeetingDb :=
  '(_, g) ← resolve d code token;
  _ ← raise_if (negb (bool_decide (mg_status g = "pending"))) (MConflict "guest_not_pending");
  Ok (update_guest (mg_id g) (set_name (Some name)) d).
Definition leave (d : MeetingDb) (code : string) (token : option string) (now : Z) : mres MeetingDb :=
  '(_, g) ← resolve d code token;
  Ok (update_guest (mg_id g) (left_at now) d).
Definition _public_item (d : MeetingDb) (item_id : option string) : bool :=
  match item_id ≫= (λ i, find_by ai_id i (items d)) with Some i => negb (ai_non_public i) | None => false end.
Definition vote_is_public (d : MeetingDb) (vote_id meeting_id : string) : bool :=
  match votes (flow_db (room d)) !! vote_id with
  | Some v => bool_decide (vo_meeting_id v = Some meeting_id) && _public_item d (vb_agenda_item_id (vo_body v))
  | None => false
  end.
Definition cast (d : MeetingDb) (code : string) (token : option string) (vote_id : string) (choice : Ballot) (now : Z)
    : mres MeetingDb :=
  '(m, g) ← resolve d code token;
  _ ← raise_if (negb (bool_decide (mg_status g = "admitted"))) (MForbidden "guest_not_admitted");
  _ ← raise_if (negb (bool_decide (me_guests_mode m = "vote"))) (MForbidden "guests_watch_only");
  v ← or_meeting (votes (flow_db (room d)) !! vote_id) (MNotFound "not_found");
  _ ← raise_if (negb (bool_decide (vo_meeting_id v = Some (me_id m))) || negb (_public_item d (vb_agenda_item_id (vo_body v))))
        (MNotFound "not_found");
  r ← of_voting (cast_guest (room d) vote_id (mg_id g) choice now);
  Ok (with_room r d).
