(* ===== verification/Lifecycle.v ===== *)
(** The periods of the protocol keeper ([livevote/service/handover.py], [livevote/keepers.py]): who
    may keep the minutes, the running and the planned period, the handover and the activation of a
    plan by a move of the agenda item.  The life of a meeting ([livevote/service/lifecycle.py]):
    create, patch (planned, live, closed) and delete.

    Every operation on the periods runs under the lock of the row of the meeting, and so does a patch
    that touches the status, the current item, the protokollant or the public participation.  [id] is
    the id of a new period, [now] the time of the transaction, [planned_start] gives the moment of a
    local date and time ([planned_start_utc] with the zone of the server), [draws] the random codes. *)

From stdpp Require Import gmap strings.
From S2P Require Import Prelude PyStr PyNum PyValue PyDate VoteConfigs Tally Election FlowDb Decision FlowEngine.
From S2P Require Import Policy Room VoteRows VoteService VoteClose Meetings Agenda Guests.

(** ** Who keeps the minutes *)
Definition KEEPER_PERMISSION : string := "protocol.write".
(** The members of the Gremium with the permissions of their roles. *)
Definition member_permissions (d : MeetingDb) (gremium_id : string) : list (string * list string) :=
  let rows := filter (λ m, gm_gremium_id m = gremium_id) (memberships (cfg (room d))) in
  (λ pid, (pid, mjoin (gm_permissions <$> filter (λ m, gm_principal_id m = pid) rows))) <$> fromkeys (gm_principal_id <$> rows).
Definition keeper_principal_ids (d : MeetingDb) (gremium_id : string) : list string :=
  fst <$> filter (λ m, KEEPER_PERMISSION ∈ m.2) (member_permissions d gremium_id).
Definition check_keeper (d : MeetingDb) (gremium_id principal_id : string) : mres PrincipalRow :=
  row ← or_meeting (principal_by_id (room d) principal_id) (MNotFound "not_found");
  _ ← raise_if (negb (bool_decide (gremium_id ∈ gremium_member_ids (cfg (room d)) (pr_sub row)))) (MForbidden "forbidden");
  _ ← raise_if (negb (bool_decide (principal_id ∈ keeper_principal_ids d gremium_id))) (MInvalid "protokollant_needs_protocol_write");
  Ok row.
Definition _is_valid_keeper (d : MeetingDb) (gremium_id principal_id : string) : bool :=
  is_ok (check_keeper d gremium_id principal_id).
Definition can_hand_over (d : MeetingDb) (m : Meeting) (p : Principal) : bool :=
  can_manage (room d) (me_gremium_id m) p || (scope_allows p KEEPER_PERMISSION && _is_protokollant (room d) m p).

(** ** Periods *)
Definition is_planned (p : ProtocolKeeperPeriod) : bool := bool_decide (pk_from_at p = None).
Definition is_running (p : ProtocolKeeperPeriod) : bool :=
  bool_decide (is_Some (pk_from_at p)) && bool_decide (pk_to_at p = None).
Definition _period (d : MeetingDb) (meeting_id : string) (planned : bool) : option ProtocolKeeperPeriod :=
  head (filter (λ p, pk_meeting_id p = meeting_id ∧ (if planned then is_planned p else is_running p) = true) (keeper_periods d)).
(** The [INSERT]: one running and one planned period of a meeting at most. *)
Definition add_period (p : ProtocolKeeperPeriod) (d : MeetingDb) : mres MeetingDb :=
  _ ← raise_if (is_planned p && bool_decide (is_Some (_period d (pk_meeting_id p) true)) ||
                is_running p && bool_decide (is_Some (_period d (pk_meeting_id p) false))) MDatabase;
  Ok (with_periods (keeper_periods d ++ [p]) d).
Definition _end_running (d : MeetingDb) (m : Meeting) (now : Z) (to_item : option string) : MeetingDb :=
  match _period d (me_id m) false with
  | None => d
  | Some p => update_period (pk_id p) (end_period (Z.max now (default now (pk_from_at p))) to_item) d
  end.
Definition _drop_planned (d : MeetingDb) (meeting_id : string) : MeetingDb * option ProtocolKeeperPeriod :=
  match _period d meeting_id true with
  | None => (d, None)
  | Some p => (with_periods (filter (λ q, pk_id q ≠ pk_id p) (keeper_periods d)) d, Some p)
  end.
Definition running_period (id : string) (m : Meeting) (principal_id : string) (now : Z) : ProtocolKeeperPeriod :=
  MkPeriod id (me_id m) principal_id (Some now) None (me_current_agenda_item_id m) None.
Definition open_first_period (d : MeetingDb) (m : Meeting) (id : string) (now : Z) : mres MeetingDb :=
  match me_protokollant_id m with
  | None => Ok d
  | Some keeper =>
      if bool_decide (is_Some (_period d (me_id m) false)) then Ok d
      else add_period (running_period id m keeper now) d
  end.
Definition close_periods (d : MeetingDb) (m : Meeting) (now : Z) : MeetingDb :=
  (_drop_planned (_end_running d m now (me_current_agenda_item_id m)) (me_id m)).1.
Definition set_keeper_of (id keeper : string) (d : MeetingDb) : MeetingDb := update_meeting id (set_keeper (Some keeper)) d.
Definition switch_now (d : MeetingDb) (m : Meeting) (principal_id id : string) (now : Z) : mres MeetingDb :=
  let d1 := (_drop_planned d (me_id m)).1 in
  let d2 := _end_running d1 m now (me_current_agenda_item_id m) in
  d3 ← add_period (running_period id m principal_id now) d2;
  Ok (set_keeper_of (me_id m) principal_id d3).
Definition _audit_handover (m : Meeting) (actor mode : string) (previous target : option string) (d : MeetingDb) : MeetingDb :=
  meeting_audit (Some actor) "protokollant_handover" (me_id m)
    [("gremiumId", PStr (me_gremium_id m)); ("mode", PStr mode); ("from", str_or_none previous); ("to", str_or_none target);
     ("agendaItemId", str_or_none (me_current_agenda_item_id m))] d.
(** The new item is after the old one in the agenda; [ValueError] when it is not on the agenda. *)
Definition is_forward (order : list string) (old_item : option string) (new_item : string) : mres bool :=
  match old_item with
  | None => Ok true
  | Some o =>
      match index_of o order with
      | None => Ok true
      | Some i => j ← or_meeting (index_of new_item order) MDatabase; Ok (i <? j)%nat
      end
  end.
(** [m] is the meeting after the move: [new_item] is its current item. *)
Definition activate_planned (d : MeetingDb) (m : Meeting) (old_item new_item : option string) (actor : string) (now : Z)
    : mres (MeetingDb * bool) :=
  match new_item, _period d (me_id m) true with
  | Some new, Some planned =>
      if bool_decide (old_item = Some new) then Ok (d, false)
      else
        forward ← is_forward (_agenda_ids d (me_id m)) old_item new;
        if negb forward then Ok (d, false)
        else if negb (_is_valid_keeper d (me_gremium_id m) (pk_principal_id planned)) then
          Ok (_audit_handover m actor "cancel" (me_protokollant_id m) (Some (pk_principal_id planned))
                (_drop_planned d (me_id m)).1, false)
        else
          let d1 := _end_running d m now old_item in
          let d2 := set_keeper_of (me_id m) (pk_principal_id planned)
                      (update_period (pk_id planned) (start_period now (Some new)) d1) in
          Ok (_audit_handover m actor "activate" (me_protokollant_id m) (Some (pk_principal_id planned)) d2, true)
  | _, _ => Ok (d, false)
  end.

(** ** The routes *)
Definition _live_for_handover (d : MeetingDb) (meeting_id : string) (p : Principal) : mres Meeting :=
  m ← _get d meeting_id;
  _ ← raise_if (negb (can_hand_over d m p)) (MForbidden "forbidden");
  _ ← raise_if (negb (bool_decide (me_status m = "live"))) (MConflict "meeting_not_live");
  Ok m.
Inductive HandoverMode := hand_now | hand_next_item.
Definition mode_text (mode : HandoverMode) : string := match mode with hand_now => "now" | hand_next_item => "next_item" end.
Definition hand_over (d : MeetingDb) (meeting_id target : string) (mode : HandoverMode) (p : Principal) (id : string) (now : Z)
    : mres MeetingDb :=
  m ← _live_for_handover d meeting_id p;
  _ ← check_keeper d (me_gremium_id m) target;
  _ ← raise_if (bool_decide (Some target = me_protokollant_id m)) (MConflict "already_protokollant");
  d1 ← match mode with
       | hand_now => switch_now d m target id now
       | hand_next_item =>
           let order := _agenda_ids d meeting_id in
           _ ← raise_if (bool_decide (order = []) ||
                         (bool_decide (is_Some (me_current_agenda_item_id m)) &&
                          bool_decide (me_current_agenda_item_id m = last order))) (MConflict "no_next_item");
           add_period (MkPeriod id meeting_id target None None None None) (_drop_planned d meeting_id).1
       end;
  Ok (_audit_handover m (sub p) (mode_text mode) (me_protokollant_id m) (Some target) d1).
Definition cancel_handover (d : MeetingDb) (meeting_id : string) (p : Principal) : mres MeetingDb :=
  m ← _live_for_handover d meeting_id p;
  let '(d1, planned) := _drop_planned d meeting_id in
  q ← or_meeting planned (MNotFound "no_planned_handover");
  Ok (_audit_handover m (sub p) "cancel" (me_protokollant_id m) (Some (pk_principal_id q)) d1).

Definition _TRANSITIONS : list (string * string) := [("planned", "live"); ("live", "closed")].
(** [str(time)]. *)
Definition time_text (t : Z) : string :=
  time_iso (t / 1000000) +:+ (if t mod 1000000 =? 0 then "" else "." +:+ pad 6 (int_str (t mod 1000000))).
Definition _snapshot (m : Meeting) : list (string * option string) :=
  [("status", Some (me_status m)); ("title", Some (me_title m)); ("date", date_iso <$> me_date m);
   ("startTime", time_text <$> me_start_time m); ("endTime", time_text <$> me_end_time m);
   ("protokollantId", me_protokollant_id m)].
Definition snapshot_value (s : list (string * option string)) : list (string * pyval) := (λ kv, (kv.1, str_or_none kv.2)) <$> s.
(** The changed values of a patch. *)
Definition changes (before after : list (string * option string)) : list (string * pyval) :=
  omap (λ ab : (string * option string) * (string * option string),
          if bool_decide (ab.1.2 = ab.2.2) then None
          else Some (ab.2.1, PDict [("from", str_or_none ab.1.2); ("to", str_or_none ab.2.2)])) (zip before after).

Definition audit_changes (m : Meeting) (before after : list (string * option string)) (actor : string) (d : MeetingDb) : MeetingDb :=
  match changes before after with
  | [] => d
  | c => meeting_audit (Some actor) "meeting_update" (me_id m)
           [("gremiumId", PStr (me_gremium_id m)); ("changes", PDict c)] d
  end.

(** ** Payloads *)
Record MeetingCreate := MkMeetingCreate {
  cm_gremium_id : string;
  cm_title : string;
  cm_date : pydate;
  cm_start_time : Z;
  cm_end_time : option Z;
  cm_protokollant_id : option string;
  cm_public_join : bool;
  cm_guests_mode : string
}.
(** A field in [model_fields_set] is [Some], also with the value null. *)
Record MeetingPatch := MkMeetingPatch {
  mp_active_application_id : option string;
  mp_current_agenda_item_id : option (option string);
  mp_complete_agenda_item_id : option string;
  mp_status : option string;
  mp_title : option string;
  mp_date : option (option pydate);
  mp_start_time : option (option Z);
  mp_end_time : option (option Z);
  mp_protokollant_id : option (option string);
  mp_public_join : option bool;
  mp_guests_mode : option string;
  mp_confirm_early : bool
}.
Definition sent {A} (o : option A) : bool := bool_decide (is_Some o).
Definition wants_public (p : MeetingPatch) : bool := sent (mp_public_join p) || sent (mp_guests_mode p).
Definition wants_manage (p : MeetingPatch) : bool :=
  sent (mp_title p) || sent (mp_date p) || sent (mp_start_time p) || sent (mp_end_time p) || sent (mp_protokollant_id p) ||
  wants_public p.
Definition wants_write (p : MeetingPatch) : bool := sent (mp_status p) || sent (mp_active_application_id p).
Definition wants_now (p : MeetingPatch) : bool := sent (mp_current_agenda_item_id p).

(** ** Public participation *)
Definition gremium_has_quorum (d : MeetingDb) (gremium_id : string) : bool :=
  match gremium_by_id (room d) gremium_id with Some g => sent (gr_quorum_percent g) | None => false end.
Definition _assert_public_join_allowed (d : MeetingDb) (gremium_id : string) : mres () :=
  raise_if (gremium_has_quorum d gremium_id) (MInvalid "public_join_needs_no_quorum").
Definition _guest_vote_open (d : MeetingDb) (meeting_id : string) : bool :=
  existsb (λ kv, bool_decide (vo_meeting_id kv.2 = Some meeting_id) && bool_decide (vote_status kv.2 = open) &&
                 guests_vote (vote_config kv.2)) (map_to_list (votes (flow_db (room d)))).
Definition _protocol_final (d : MeetingDb) (meeting_id : string) : bool :=
  bool_decide (protocol_status d meeting_id = Some "final").

Section Lifecycle.
Context (planned_start : option pydate → option Z → option Z) (draws : nat → string).

Definition _resolve_protokollant (d : MeetingDb) (gremium_id : string) (keeper : option string) : mres (option string) :=
  match keeper with None => Ok None | Some k => _ ← check_keeper d gremium_id k; Ok (Some k) end.
(** ** Create *)
Definition new_meeting (id : string) (payload : MeetingCreate) (keeper : option string) (actor : string) : Meeting :=
  MkMeeting id "planned" (cm_gremium_id payload) keeper
    (planned_start (Some (cm_date payload)) (Some (cm_start_time payload))) (cm_title payload) (Some (cm_date payload))
    (Some (cm_start_time payload)) (cm_end_time payload) None None None None (Some actor) (cm_public_join payload)
    (cm_guests_mode payload) None.
Definition create_meeting (d : MeetingDb) (payload : MeetingCreate) (p : Principal) (id : string) : mres MeetingDb :=
  _ ← raise_if (negb (can_manage (room d) (cm_gremium_id payload) p)) (MForbidden "forbidden");
  keeper ← _resolve_protokollant d (cm_gremium_id payload) (cm_protokollant_id payload);
  _ ← (if cm_public_join payload then _assert_public_join_allowed d (cm_gremium_id payload) else Ok ());
  _ ← raise_if (negb (bool_decide (cm_gremium_id payload ∈ gremien (cfg (room d)))) || sent (meeting_row d id)) MDatabase;
  let m := new_meeting id payload keeper (sub p) in
  let d1 := with_meetings (meeting_rows d ++ [m]) d in
  d2 ← (if cm_public_join payload then ensure_code draws d1 m else Ok d1);
  Ok (meeting_audit (Some (sub p)) "meeting_create" id
        ([("gremiumId", PStr (cm_gremium_id payload))] ++ snapshot_value (_snapshot m) ++
         [("publicJoin", PBool (cm_public_join payload)); ("guestsMode", PStr (cm_guests_mode payload))]) d2).

(** ** The parts of a patch *)
Definition _apply_public (d : MeetingDb) (m : Meeting) (payload : MeetingPatch) (p : Principal) (now : Z) : mres MeetingDb :=
  let new_public := default (me_public_join m) (mp_public_join payload) in
  let new_mode := default (me_guests_mode m) (mp_guests_mode payload) in
  if bool_decide (new_public = me_public_join m) && bool_decide (new_mode = me_guests_mode m) then Ok d
  else
    _ ← raise_if (bool_decide (me_guests_mode m = "vote") && bool_decide (new_mode = "watch") && _guest_vote_open d (me_id m))
          (MConflict "guest_vote_open");
    _ ← (if new_public && negb (me_public_join m) then _assert_public_join_allowed d (me_gremium_id m) else Ok ());
    let d1 := update_meeting (me_id m) (set_public new_public new_mode (me_join_code m)) d in
    d2 ← (if new_public then ensure_code draws d1 m else Ok d1);
    let d3 := if me_public_join m && negb new_public then switch_off d2 (me_id m) (sub p) now else d2 in
    Ok (meeting_audit (Some (sub p)) "meeting_public_join_changed" (me_id m)
          [("gremiumId", PStr (me_gremium_id m));
           ("publicJoin", PDict [("from", PBool (me_public_join m)); ("to", PBool new_public)]);
           ("guestsMode", PDict [("from", PStr (me_guests_mode m)); ("to", PStr new_mode)])] d3).
Definition _move_current (d : MeetingDb) (m : Meeting) (item_id : option string) (p : Principal) (now : Z)
    : mres (MeetingDb * bool) :=
  let d1 := update_meeting (me_id m) (set_shown (me_active_application_id m) item_id) d in
  if bool_decide (me_status m = "live")
  then activate_planned d1 (set_shown (me_active_application_id m) item_id m) (me_current_agenda_item_id m) item_id (sub p) now
  else Ok (d1, false).
Definition _change_protokollant (d : MeetingDb) (m : Meeting) (payload : MeetingPatch) (p : Principal) (id : string) (now : Z)
    : mres (MeetingDb * bool) :=
  match mp_protokollant_id payload with
  | None => Ok (d, false)
  | Some keeper =>
      if bool_decide (keeper = me_protokollant_id m) then Ok (d, false)
      else
        _ ← raise_if (_protocol_final d (me_id m)) (MConflict "protocol_finalized");
        if bool_decide (me_status m = "live") then
          k ← or_meeting keeper (MConflict "protokollant_required");
          _ ← check_keeper d (me_gremium_id m) k;
          d1 ← switch_now d m k id now;
          Ok (_audit_handover m (sub p) "now" (me_protokollant_id m) (Some k) d1, true)
        else
          k ← _resolve_protokollant d (me_gremium_id m) keeper;
          Ok (update_meeting (me_id m) (set_keeper k) d, false)
  end.
Definition _close (d : MeetingDb) (m : Meeting) (actor : string) (now : Z) : MeetingDb :=
  let d1 := close_periods d m now in
  let d2 := update_meeting (me_id m) (set_status (me_status m) (me_started_at m) (Some now)) d1 in
  let d3 := with_room (cancel_drafts_for_meeting (room d2) (me_id m) now (Some actor) "meeting_closed").1 d2 in
  purge_on_close d3 (me_id m).
Definition patch_planning (payload : MeetingPatch) (m : Meeting) : Meeting :=
  let date := default (me_date m) (mp_date payload) in
  let start := default (me_start_time m) (mp_start_time payload) in
  set_planning (default (me_title m) (mp_title payload)) date start (default (me_end_time m) (mp_end_time payload))
    (planned_start date start) m.
Definition times_ordered (payload : MeetingPatch) (m : Meeting) : bool :=
  match me_start_time m, me_end_time m with
  | Some s, Some e => negb (sent (mp_start_time payload) || sent (mp_end_time payload)) || (s <? e)
  | _, _ => true
  end.

(** ** Patch *)
(** The rights and the state that a patch needs. *)
Definition check_patch (d : MeetingDb) (m : Meeting) (payload : MeetingPatch) (p : Principal) : mres () :=
  _ ← raise_if (wants_manage payload && negb (can_manage (room d) (me_gremium_id m) p)) (MForbidden "forbidden");
  _ ← raise_if (wants_write payload && negb (can_write (room d) m p)) (MForbidden "forbidden");
  _ ← raise_if (wants_now payload && negb (can_set_current_item (room d) m p)) (MForbidden "forbidden");
  _ ← raise_if (wants_now payload && bool_decide (me_status m = "closed")) (MConflict "meeting_closed");
  _ ← match mp_current_agenda_item_id payload with
      | Some (Some i) => raise_if (bool_decide (find_item d (me_id m) i = None)) (MNotFound "not_found")
      | _ => Ok ()
      end;
  _ ← raise_if (sent (mp_complete_agenda_item_id payload) && negb (can_mark_done (room d) m p)) (MForbidden "forbidden");
  Ok ().
Definition status_change (m : Meeting) (payload : MeetingPatch) : option string :=
  match mp_status payload with
  | Some s => if bool_decide (s = me_status m) then None else Some s
  | None => None
  end.
Definition check_status (d : MeetingDb) (m : Meeting) (payload : MeetingPatch) : mres () :=
  match status_change m payload with
  | None => Ok ()
  | Some s =>
      _ ← raise_if (negb (bool_decide ((me_status m, s) ∈ _TRANSITIONS))) (MConflict "invalid_status_transition");
      raise_if (bool_decide (s = "closed") && open_vote_of d (me_id m)) (MConflict "open_vote")
  end.
(** The row of the meeting after the earlier writes of the transaction. *)
Definition current (d : MeetingDb) (m : Meeting) : Meeting := default m (meeting_row d (me_id m)).
(** The writes before the change of the protokollant. *)
Definition patch_fields (d : MeetingDb) (m : Meeting) (payload : MeetingPatch) (p : Principal) (now : Z) : mres (MeetingDb * bool) :=
  let id := me_id m in
  _ ← raise_if (match mp_active_application_id payload with
                | Some a => bool_decide (application_of d a = None)
                | None => false
                end) MDatabase;
  let d1 := match mp_active_application_id payload with
            | Some a => update_meeting id (λ m, set_shown (Some a) (me_current_agenda_item_id m) m) d
            | None => d
            end in
  '(d2, moved) ← match mp_current_agenda_item_id payload with
                 | Some i => _move_current d1 (current d1 m) i p now
                 | None => Ok (d1, false)
                 end;
  d3 ← match mp_complete_agenda_item_id payload with
       | Some i => set_done_in_tx d2 d2 (current d2 m) i true (sub p) (Some "next") now
       | None => Ok d2
       end;
  let d4 := update_meeting id (patch_planning payload) d3 in
  _ ← raise_if (negb (times_ordered payload (current d4 m))) MBadRequest;
  Ok (d4, moved).
(** The start: the status is written last. *)
Definition go_live (d : MeetingDb) (m : Meeting) (id : string) (now : Z) : mres MeetingDb :=
  _ ← raise_if (negb (sent (me_protokollant_id m))) (MConflict "protokollant_missing");
  let started := default now (me_started_at m) in
  let d1 := update_meeting (me_id m) (set_status (me_status m) (Some started) (me_closed_at m)) d in
  open_first_period d1 m id now.
Definition patch_locked (d : MeetingDb) (meeting_id : string) (payload : MeetingPatch) (p : Principal) (id : string) (now : Z)
    : mres MeetingDb :=
  m ← _get d meeting_id;
  _ ← check_patch d m payload p;
  _ ← check_status d m payload;
  _ ← raise_if (bool_decide (me_status m = "closed") && wants_manage payload) (MConflict "meeting_closed");
  let going_live := bool_decide (status_change m payload = Some "live") in
  let closing := bool_decide (status_change m payload = Some "closed") in
  _ ← (if going_live then check_open (open_window m (load_meeting_settings d)) now (mp_confirm_early payload) else Ok ());
  d1 ← (if wants_public payload then _apply_public d m payload p now else Ok d);
  '(d2, moved) ← patch_fields d1 (current d1 m) payload p now;
  '(d3, switched) ← _change_protokollant d2 (current d2 m) payload p id now;
  d4 ← (if going_live then go_live d3 (current d3 m) id now else Ok d3);
  let d5 := if closing then _close d4 (current d4 m) (sub p) now else d4 in
  let d6 := match mp_status payload with
            | Some s => update_meeting meeting_id (λ m, set_status s (me_started_at m) (me_closed_at m) m) d5
            | None => d5
            end in
  let before := _snapshot m in
  let after := (λ kv, if (moved || switched) && bool_decide (kv.1 = "protokollantId") then (kv.1, me_protokollant_id m) else kv)
                 <$> _snapshot (current d6 m) in
  Ok (audit_changes m before after (sub p) d6).
(** A patch without the lock: it reads the row in [k] and writes the columns that it changed in [d]. *)
Definition needs_lock (payload : MeetingPatch) : bool :=
  sent (mp_status payload) || wants_now payload || sent (mp_protokollant_id payload) || wants_public payload.
Definition write_planning (old new : Meeting) (m : Meeting) : Meeting :=
  let date := if_changed (me_date old) (me_date new) (me_date m) in
  let start := if_changed (me_start_time old) (me_start_time new) (me_start_time m) in
  set_shown (if_changed (me_active_application_id old) (me_active_application_id new) (me_active_application_id m))
    (me_current_agenda_item_id m)
    (set_planning (if_changed (me_title old) (me_title new) (me_title m)) date start
       (if_changed (me_end_time old) (me_end_time new) (me_end_time m)) (planned_start date start) m).
Definition patch_unlocked (k d : MeetingDb) (meeting_id : string) (payload : MeetingPatch) (p : Principal) : mres MeetingDb :=
  m ← _get k meeting_id;
  _ ← check_patch k m payload p;
  _ ← raise_if (bool_decide (me_status m = "closed") && wants_manage payload) (MConflict "meeting_closed");
  let active := match mp_active_application_id payload with Some a => Some a | None => me_active_application_id m end in
  let m' := set_shown active (me_current_agenda_item_id m) (patch_planning payload m) in
  _ ← raise_if (negb (times_ordered payload m')) MBadRequest;
  _ ← raise_if (negb (sent (meeting_row d meeting_id)) ||
                match mp_active_application_id payload with
                | Some a => bool_decide (application_of d a = None)
                | None => false
                end) MDatabase;
  Ok (audit_changes m (_snapshot m) (_snapshot m') (sub p) (update_meeting meeting_id (write_planning m m') d)).
Definition patch_meeting (k d : MeetingDb) (meeting_id : string) (payload : MeetingPatch) (p : Principal) (id : string)
    (now : Z) : mres MeetingDb :=
  if needs_lock payload then patch_locked d meeting_id payload p id now else patch_unlocked k d meeting_id payload p.
End Lifecycle.

(** ** Delete *)
Definition check_deletable (d : MeetingDb) (m : Meeting) (p : Principal) : mres bool :=
  let finalized := _protocol_final d (me_id m) in
  _ ← raise_if (finalized && negb (has p "meeting.delete_finalized")) (MForbidden "meeting_finalized");
  _ ← raise_if (open_vote_of d (me_id m)) (MConflict "open_vote");
  Ok finalized.
(** The row goes with its agenda, attendance, guests, delegations, periods and protocol. *)
Definition drop_meeting (id : string) (d : MeetingDb) : MeetingDb :=
  let r := room d in
  let d1 := with_meetings (filter (λ m, me_id m ≠ id) (meeting_rows d))
              (with_items (filter (λ i, ai_meeting_id i ≠ id) (items d)) d) in
  let r1 := room d1 in
  MkMeetingDb
    (MkRoomDb (flow_db r1) (filter (λ x, dl_meeting_id x ≠ id) (delegations r1)) (substitutes r1)
       (filter (λ a, mt_meeting_id a ≠ id) (attendance r1)) (filter (λ g, mg_meeting_id g ≠ id) (guests r1))
       (voted_markers r1) (secret_ballots r1))
    (filter (λ q, pk_meeting_id q ≠ id) (keeper_periods d)) (filter (λ q, q.1 ≠ id) (protocols d)) (meeting_settings d).
Definition write_delete (d : MeetingDb) (m : Meeting) (p : Principal) (finalized : bool) (deleted_votes : list string)
    (reason : option string) : MeetingDb :=
  drop_meeting (me_id m)
    (meeting_audit (Some (sub p)) "meeting_delete" (me_id m)
       ([("title", PStr (me_title m)); ("gremiumId", PStr (me_gremium_id m)); ("finalizedProtocol", PBool finalized);
         ("deletedVotes", PInt (Z.of_nat (length deleted_votes))); ("deletedVoteIds", PList (PStr <$> deleted_votes))] ++
        match reason with Some t => [("reason", PStr t)] | None => [] end) d).
Definition delete_locked (d : MeetingDb) (m : Meeting) (p : Principal) : mres MeetingDb :=
  finalized ← check_deletable d m p;
  '(r, deleted) ← of_voting (delete_for_meeting (room d) (me_id m) (sub p));
  Ok (write_delete (with_room r d) m p finalized deleted None).
Definition delete_meeting (d : MeetingDb) (meeting_id : string) (p : Principal) : mres MeetingDb :=
  m ← _get d meeting_id;
  _ ← raise_if (negb (can_manage (room d) (me_gremium_id m) p)) (MForbidden "forbidden");
  delete_locked d m p.
(** [_can_delete]: the flag of the view of a meeting. *)
Definition _can_delete (d : MeetingDb) (m : Meeting) (p : Principal) : bool :=
  can_manage (room d) (me_gremium_id m) p && (negb (_protocol_final d (me_id m)) || has p "meeting.delete_finalized").
