(* ===== verification/MeetingCore.v ===== *)
(** What the meetings promise: their tables as a state of its own, the moves that it makes, and the
    invariants that the moves keep.  [MeetingSim] shows that every operation is a run of moves. *)

From stdpp Require Import gmap strings.
From S2P Require Import Prelude PyNum PyValue PyDate VoteConfigs Tally Election FlowDb Decision Policy Room Meetings Agenda Guests Lifecycle.

(** ** The core of the tables *)
(** A vote with its meeting, its agenda item and its status. *)
Notation vrow := (option string * option string * VoteStatus)%type.
Record MCore := MkMCore {
  mc_rows : list Meeting;
  mc_periods : list ProtocolKeeperPeriod;
  mc_items : list AgendaItem;
  mc_guests : list MeetingGuest;
  mc_votes : gmap string vrow;
  mc_protocols : list (string * string)
}.
Definition put_rows (l : list Meeting) (c : MCore) : MCore :=
  MkMCore l (mc_periods c) (mc_items c) (mc_guests c) (mc_votes c) (mc_protocols c).
Definition put_periods (l : list ProtocolKeeperPeriod) (c : MCore) : MCore :=
  MkMCore (mc_rows c) l (mc_items c) (mc_guests c) (mc_votes c) (mc_protocols c).
Definition put_items (l : list AgendaItem) (c : MCore) : MCore :=
  MkMCore (mc_rows c) (mc_periods c) l (mc_guests c) (mc_votes c) (mc_protocols c).
Definition put_guests (l : list MeetingGuest) (c : MCore) : MCore :=
  MkMCore (mc_rows c) (mc_periods c) (mc_items c) l (mc_votes c) (mc_protocols c).
Definition put_votes (v : gmap string vrow) (c : MCore) : MCore :=
  MkMCore (mc_rows c) (mc_periods c) (mc_items c) (mc_guests c) v (mc_protocols c).
Definition put_protocols (l : list (string * string)) (c : MCore) : MCore :=
  MkMCore (mc_rows c) (mc_periods c) (mc_items c) (mc_guests c) (mc_votes c) l.
Definition on_row (id : string) (f : Meeting → Meeting) (c : MCore) : MCore := put_rows (update_row me_id id f (mc_rows c)) c.
Definition row_of (c : MCore) (m : Meeting) : Prop := m ∈ mc_rows c.
Definition item_of (l : list AgendaItem) (item meeting : string) : Prop :=
  ∃ a, a ∈ l ∧ ai_id a = item ∧ ai_meeting_id a = meeting.

(** ** The invariants *)
(** *** The life of a meeting *)
Definition life (m : Meeting) : Prop :=
  (me_status m = "planned" ∧ me_started_at m = None ∧ me_closed_at m = None) ∨
  (me_status m = "live" ∧ is_Some (me_started_at m) ∧ me_closed_at m = None) ∨
  (me_status m = "closed" ∧ is_Some (me_started_at m) ∧ is_Some (me_closed_at m)).
Record life_ok (l : list Meeting) : Prop := {
  lo_ids : NoDup (me_id <$> l);
  lo_life : Forall life l
}.

(** *** The keepers of the minutes *)
(** A live meeting has one running period, of its protokollant, and at most one planned period; no
    other meeting has either. *)
Definition kview (m : Meeting) : string * string * option string := (me_id m, me_status m, me_protokollant_id m).
Record keyed (ps : list ProtocolKeeperPeriod) : Prop := {
  ky_ids : NoDup (pk_id <$> ps);
  ky_running p q : p ∈ ps → q ∈ ps → pk_meeting_id p = pk_meeting_id q → is_running p = true → is_running q = true → p = q;
  ky_planned p q : p ∈ ps → q ∈ ps → pk_meeting_id p = pk_meeting_id q → is_planned p = true → is_planned q = true → p = q;
  ky_times p t : p ∈ ps → pk_to_at p = Some t → ∃ s, pk_from_at p = Some s ∧ s ≤ t
}.
Record keepers_ok (V : list (string * string * option string)) (ps : list ProtocolKeeperPeriod) : Prop := {
  ko_keyed : keyed ps;
  ko_meeting p : p ∈ ps → pk_meeting_id p ∈ V.*1.*1;
  ko_planned p : p ∈ ps → is_planned p = true → ∃ k, (pk_meeting_id p, "live", k) ∈ V;
  ko_running p : p ∈ ps → is_running p = true → (pk_meeting_id p, "live", Some (pk_principal_id p)) ∈ V;
  ko_live id k : (id, "live", k) ∈ V → ∃ p, p ∈ ps ∧ pk_meeting_id p = id ∧ is_running p = true
}.

(** *** The item on the screen *)
Definition cview (m : Meeting) : string * option string := (me_id m, me_current_agenda_item_id m).
Definition iview (i : AgendaItem) : string * string := (ai_id i, ai_meeting_id i).
Record current_ok (V : list (string * option string)) (I : list (string * string)) : Prop := {
  co_ids : NoDup I.*1;
  co_item id i : (id, Some i) ∈ V → (i, id) ∈ I
}.

(** *** The guests *)
Definition gview (m : Meeting) : string * string * bool := (me_id m, me_status m, me_public_join m).
(** A guest of a meeting with this status that is public or not. *)
Record guest_fine (status : string) (public : bool) (g : MeetingGuest) : Prop := {
  gf_status : mg_status g ∈ ["pending"; "admitted"; "rejected"; "removed"; "left"];
  gf_waits : mg_status g ∈ ["pending"; "rejected"] → mg_admitted_at g = None;
  gf_admitted : mg_status g ∈ ["admitted"; "removed"] → is_Some (mg_admitted_at g);
  gf_public : mg_status g ∈ ["pending"; "admitted"] → public = true;
  gf_name : mg_display_name g = None → mg_token_hash g = None;
  gf_left : mg_status g = "left" → mg_display_name g = None;
  gf_closed : status = "closed" → is_Some (mg_admitted_at g) ∧ mg_display_name g = None
}.
Record guests_ok (V : list (string * string * bool)) (gs : list MeetingGuest) : Prop := {
  go_ids : NoDup (mg_id <$> gs);
  go_tokens g h t : g ∈ gs → h ∈ gs → mg_token_hash g = Some t → mg_token_hash h = Some t → g = h;
  go_numbers g h : g ∈ gs → h ∈ gs → mg_meeting_id g = mg_meeting_id h → mg_seq g = mg_seq h → g = h;
  go_fine g : g ∈ gs → ∃ s p, (mg_meeting_id g, s, p) ∈ V ∧ guest_fine s p g
}.

(** *** The join codes *)
Definition jview (m : Meeting) : string * string * bool * option string :=
  (me_id m, me_status m, me_public_join m, me_join_code m).
Record codes_ok (V : list (string * string * bool * option string)) : Prop := {
  jo_public id s c : (id, s, true, c) ∈ V → is_Some c;
  jo_unique id s p id' s' p' c :
    (id, s, p, Some c) ∈ V → (id', s', p', Some c) ∈ V → s ≠ "closed" → s' ≠ "closed" → id = id'
}.

(** *** The votes *)
Definition sview (m : Meeting) : string * string := (me_id m, me_status m).
Record votes_ok (V : list (string * string)) (I : list (string * string)) (vs : gmap string vrow) : Prop := {
  vk_meeting id m i s : vs !! id = Some (Some m, i, s) → m ∈ V.*1;
  vk_open id m i : vs !! id = Some (Some m, i, open) → (m, "live") ∈ V;
  vk_draft id m i : vs !! id = Some (Some m, i, draft) → ∃ st, (m, st) ∈ V ∧ st ≠ "closed";
  vk_item id m i s : vs !! id = Some (Some m, Some i, s) → (i, m) ∈ I
}.

Record mcore_ok (c : MCore) : Prop := {
  ok_life : life_ok (mc_rows c);
  ok_keepers : keepers_ok (kview <$> mc_rows c) (mc_periods c);
  ok_current : current_ok (cview <$> mc_rows c) (iview <$> mc_items c);
  ok_guests : guests_ok (gview <$> mc_rows c) (mc_guests c);
  ok_codes : codes_ok (jview <$> mc_rows c);
  ok_votes : votes_ok (sview <$> mc_rows c) (iview <$> mc_items c) (mc_votes c)
}.

(** ** The moves *)
(** What the periods of a meeting go through. *)
Definition without_planned (id : string) (ps : list ProtocolKeeperPeriod) : list ProtocolKeeperPeriod :=
  filter (λ p, ¬ (pk_meeting_id p = id ∧ is_planned p = true)) ps.
Definition ended (id : string) (now : Z) (item : option string) (ps : list ProtocolKeeperPeriod) : list ProtocolKeeperPeriod :=
  (λ p, if bool_decide (pk_meeting_id p = id) && is_running p
        then end_period (Z.max now (default now (pk_from_at p))) item p else p) <$> ps.
(** The guests of a meeting after its public participation or the meeting ended. *)
Definition let_go (id : string) (now : Z) (by_ : option string) (gs : list MeetingGuest) : list MeetingGuest :=
  (λ g, if bool_decide (mg_meeting_id g = id) && bool_decide (mg_status g = "admitted") then decided_as "removed" now by_ g else g)
    <$> filter (λ g, is_pending id g = false) gs.
Definition purged (id : string) (gs : list MeetingGuest) : list MeetingGuest :=
  (λ g, if bool_decide (mg_meeting_id g = id) then set_token None (set_name None g) else g) <$>
    filter (λ g, ¬ (mg_meeting_id g = id ∧ mg_admitted_at g = None)) gs.
Definition drafts_ended (id : string) (v : vrow) : vrow :=
  if bool_decide (v.1.1 = Some id) && bool_decide (v.2 = draft) then (v.1, cancelled) else v.
(** The columns of a row that no request but a move of its own writes. *)
Definition same_life (m m' : Meeting) : Prop :=
  kview m' = kview m ∧ cview m' = cview m ∧ jview m' = jview m ∧ me_started_at m' = me_started_at m ∧ me_closed_at m' = me_closed_at m ∧
  me_gremium_id m' = me_gremium_id m ∧ me_guests_mode m' = me_guests_mode m ∧ me_created_by m' = me_created_by m.
(** The planning that a closed meeting keeps. *)
Definition plan_of (m : Meeting) : string * option pydate * option Z * option Z :=
  (me_title m, me_date m, me_start_time m, me_end_time m).
Definition free_code (l : list Meeting) (id code : string) : Prop :=
  ∀ m, m ∈ l → me_join_code m = Some code → me_id m ≠ id → me_status m = "closed".
Definition item_text_only (i i' : AgendaItem) : Prop :=
  ai_id i' = ai_id i ∧ ai_meeting_id i' = ai_meeting_id i ∧ ai_application_id i' = ai_application_id i ∧ ai_todo_id i' = ai_todo_id i ∧
  ai_created_at i' = ai_created_at i.
(** A closed meeting keeps the order and the titles, and without a protocol in draft the whole item. *)
Definition minutes_rule (c : MCore) (i i' : AgendaItem) : Prop :=
  ∀ m, m ∈ mc_rows c → me_id m = ai_meeting_id i → me_status m = "closed" →
    ai_position i' = ai_position i ∧ ai_title i' = ai_title i ∧
    (snd <$> find_by fst (me_id m) (mc_protocols c) ≠ Some "draft" → i' = i).

(** A row of the vote table against the rows before a transaction of the votes, as [VoteWrites.vote_from]. *)
Record vote_moves (c : MCore) (new_items : list AgendaItem) (id : string) (v : vrow) : Prop := {
  vm_meeting m : v.1.1 = Some m →
    (∃ u, mc_votes c !! id = Some u ∧ u.1.1 = Some m) ∨ ∃ r, r ∈ mc_rows c ∧ me_id r = m ∧ me_status r ≠ "closed";
  vm_open m : v.1.1 = Some m → v.2 = open →
    (∃ u, mc_votes c !! id = Some u ∧ u.1.1 = Some m ∧ u.2 = open) ∨ ∃ r, r ∈ mc_rows c ∧ me_id r = m ∧ me_status r = "live";
  vm_draft m : v.1.1 = Some m → v.2 = draft →
    (∃ u, mc_votes c !! id = Some u ∧ u.1.1 = Some m ∧ u.2 = draft) ∨ ∃ r, r ∈ mc_rows c ∧ me_id r = m ∧ me_status r ≠ "closed";
  vm_item m i : v.1 = (Some m, Some i) →
    (∃ u, mc_votes c !! id = Some u ∧ u.1 = (Some m, Some i)) ∨ (i, m) ∈ iview <$> new_items
}.
(** Moves that leave every meeting in its status.  [fresh]: the request saw the state that it writes. *)
Inductive quiet (fresh : bool) (c : MCore) : MCore → Prop :=
| q_row id f :
    (∀ m, same_life m (f m)) →
    (fresh = true → ∀ m, m ∈ mc_rows c → me_id m = id → me_status m = "closed" → plan_of (f m) = plan_of m) →
    quiet fresh c (on_row id f c)
| q_current m active item :
    m ∈ mc_rows c → me_status m ≠ "closed" → (∀ i, item = Some i → (i, me_id m) ∈ iview <$> mc_items c) →
    quiet fresh c (on_row (me_id m) (set_shown active item) c)
| q_keeper m k :
    m ∈ mc_rows c → me_status m = "planned" → quiet fresh c (on_row (me_id m) (set_keeper k) c)
| q_public m public mode code :
    m ∈ mc_rows c → me_status m ≠ "closed" → (public = true → is_Some code) → (me_public_join m = true → public = true) →
    (∀ x, code = Some x → me_join_code m = Some x ∨ free_code (mc_rows c) (me_id m) x) →
    quiet fresh c (on_row (me_id m) (set_public public mode code) c)
| q_private m mode code now by_ :
    m ∈ mc_rows c → me_status m ≠ "closed" → code = me_join_code m →
    quiet fresh c (put_guests (let_go (me_id m) now by_ (mc_guests c)) (on_row (me_id m) (set_public false mode code) c))
| q_plan m p :
    m ∈ mc_rows c → me_status m = "live" → pk_id p ∉ pk_id <$> mc_periods c → pk_meeting_id p = me_id m → is_planned p = true →
    pk_to_at p = None →
    quiet fresh c (put_periods (without_planned (me_id m) (mc_periods c) ++ [p]) c)
| q_drop_plan id : quiet fresh c (put_periods (without_planned id (mc_periods c)) c)
| q_switch m p now item :
    m ∈ mc_rows c → me_status m = "live" → pk_id p ∉ pk_id <$> mc_periods c → pk_meeting_id p = me_id m → is_running p = true →
    quiet fresh c (put_periods (ended (me_id m) now item (without_planned (me_id m) (mc_periods c)) ++ [p])
                     (on_row (me_id m) (set_keeper (Some (pk_principal_id p))) c))
| q_activate m p now old new :
    m ∈ mc_rows c → me_status m = "live" → p ∈ mc_periods c → pk_meeting_id p = me_id m → is_planned p = true →
    quiet fresh c (put_periods (update_row pk_id (pk_id p) (start_period now new) (ended (me_id m) now old (mc_periods c)))
                     (on_row (me_id m) (set_keeper (Some (pk_principal_id p))) c))
| q_item_add i :
    ai_id i ∉ ai_id <$> mc_items c → (∃ m, m ∈ mc_rows c ∧ me_id m = ai_meeting_id i ∧ me_status m ≠ "closed") →
    quiet fresh c (put_items (mc_items c ++ [i]) c)
| q_item id f :
    (∀ i, item_text_only i (f i)) → (fresh = true → ∀ i, i ∈ mc_items c → ai_id i = id → minutes_rule c i (f i)) →
    quiet fresh c (put_items (update_row ai_id id f (mc_items c)) c)
| q_item_remove id m :
    m ∈ mc_rows c → me_status m ≠ "closed" → (id, me_id m) ∈ iview <$> mc_items c →
    quiet fresh c (put_votes (filter (λ kv, kv.2.1.2 ≠ Some id) (mc_votes c))
      (put_periods (unlink_period id <$> mc_periods c)
        (put_items (filter (λ i, ai_id i ≠ id) (mc_items c)) (put_rows (unlink_meeting id <$> mc_rows c) c))))
| q_join m g :
    m ∈ mc_rows c → me_status m ≠ "closed" → me_public_join m = true → mg_meeting_id g = me_id m → mg_status g = "pending" →
    mg_admitted_at g = None → is_Some (mg_display_name g) → mg_id g ∉ mg_id <$> mc_guests c →
    (∀ h, h ∈ mc_guests c → mg_token_hash h ≠ mg_token_hash g) →
    (∀ h, h ∈ mc_guests c → mg_meeting_id h = mg_meeting_id g → mg_seq h < mg_seq g) →
    quiet fresh c (put_guests (mc_guests c ++ [g]) c)
| q_guests (P : MeetingGuest → Prop) `{∀ g, Decision (P g)} f :
    (∀ g, mg_id (f g) = mg_id g ∧ mg_meeting_id (f g) = mg_meeting_id g ∧ mg_seq (f g) = mg_seq g) →
    (∀ g, mg_token_hash (f g) = mg_token_hash g ∨ mg_token_hash (f g) = None) →
    (∀ m g, m ∈ mc_rows c → g ∈ mc_guests c → mg_meeting_id g = me_id m →
       guest_fine (me_status m) (me_public_join m) g → guest_fine (me_status m) (me_public_join m) (f g)) →
    quiet fresh c (put_guests (f <$> filter P (mc_guests c)) c)
| q_renumber id f :
    (∀ g, g ∈ mc_guests c → mg_meeting_id g ≠ id → f g = g) →
    (∀ g, g ∈ mc_guests c → mg_meeting_id g = id → ∃ n, f g = set_seq n g) →
    (∀ g h, g ∈ mc_guests c → h ∈ mc_guests c → mg_meeting_id g = id → mg_meeting_id h = id → mg_seq (f g) = mg_seq (f h) → g = h) →
    quiet fresh c (put_guests (f <$> mc_guests c) c)
| q_room new vs :
    NoDup (ai_id <$> mc_items c ++ new) →
    Forall (λ i, ∃ m, m ∈ mc_rows c ∧ me_id m = ai_meeting_id i ∧ me_status m ≠ "closed") new →
    (∀ id v, vs !! id = Some v → vote_moves c (mc_items c ++ new) id v) →
    quiet fresh c (put_votes vs (put_items (mc_items c ++ new) c)).

Definition no_open_vote (c : MCore) (id : string) : Prop := ∀ v i, mc_votes c !! v ≠ Some (Some id, i, open).
(** The moves that add a meeting, that change its status or remove it. *)
Inductive meeting_move (c : MCore) : MCore → Prop :=
| m_create m :
    me_id m ∉ me_id <$> mc_rows c → me_status m = "planned" → me_started_at m = None → me_closed_at m = None →
    me_current_agenda_item_id m = None → (me_public_join m = true → is_Some (me_join_code m)) →
    (∀ x, me_join_code m = Some x → free_code (mc_rows c) (me_id m) x) →
    meeting_move c (put_rows (mc_rows c ++ [m]) c)
| m_live m p started :
    m ∈ mc_rows c → me_status m = "planned" → me_protokollant_id m = Some (pk_principal_id p) →
    pk_id p ∉ pk_id <$> mc_periods c → pk_meeting_id p = me_id m → is_running p = true →
    meeting_move c (put_periods (mc_periods c ++ [p]) (on_row (me_id m) (set_status "live" (Some started) None) c))
| m_close m now item :
    m ∈ mc_rows c → me_status m = "live" → no_open_vote c (me_id m) →
    meeting_move c
      (put_guests (purged (me_id m) (mc_guests c))
        (put_votes (drafts_ended (me_id m) <$> mc_votes c)
          (put_periods (without_planned (me_id m) (ended (me_id m) now item (mc_periods c)))
            (on_row (me_id m) (set_status "closed" (me_started_at m) (Some now)) c))))
| m_delete id :
    no_open_vote c id →
    meeting_move c
      (MkMCore (filter (λ m, me_id m ≠ id) (mc_rows c)) (filter (λ p, pk_meeting_id p ≠ id) (mc_periods c))
        (filter (λ i, ai_meeting_id i ≠ id) (mc_items c)) (filter (λ g, mg_meeting_id g ≠ id) (mc_guests c))
        (filter (λ kv, kv.2.1.1 ≠ Some id) (mc_votes c)) (filter (λ q, q.1 ≠ id) (mc_protocols c))).

(** A transaction: at most one such move between quiet ones. *)
Definition run (fresh : bool) (c c' : MCore) : Prop :=
  ∃ c1 c2, rtc (quiet fresh) c c1 ∧ (c2 = c1 ∨ meeting_move c1 c2) ∧ rtc (quiet fresh) c2 c'.

