(* ===== verification/MeetingInv.v ===== *)
(** Every move of the meetings keeps their invariants. *)

From stdpp Require Import gmap strings.
From S2P Require Import Prelude PyNum PyValue PyDate VoteConfigs Tally Election FlowDb Decision Policy Room Meetings Agenda Guests Lifecycle MeetingCore.

(** ** Periods *)
Lemma elem_without id ps p : p ∈ without_planned id ps ↔ p ∈ ps ∧ ¬ (pk_meeting_id p = id ∧ is_planned p = true).
Proof. unfold without_planned. rewrite list_elem_of_filter. tauto. Qed.
Lemma planned_running p : is_planned p = true → is_running p = false.
Proof. unfold is_planned, is_running. intros H%bool_decide_eq_true. rewrite H. by case_bool_decide. Qed.
Lemma end_period_kind at_ item p :
  is_running p = true → is_running (end_period at_ item p) = false ∧ is_planned (end_period at_ item p) = false.
Proof.
  unfold is_running, is_planned, end_period. cbn. intros H. bool_prop. split.
  - by rewrite andb_false_r.
  - apply bool_decide_eq_false. intros E. rewrite E in *. by destruct H.
Qed.
(** A period after the running one of a meeting ended: the old one, or one that is neither running nor planned. *)
Lemma elem_ended id now item ps p :
  p ∈ ended id now item ps →
  (p ∈ ps ∧ ¬ (pk_meeting_id p = id ∧ is_running p = true)) ∨
  (∃ q, q ∈ ps ∧ p = end_period (Z.max now (default now (pk_from_at q))) item q ∧ pk_meeting_id p = id ∧
        is_running q = true ∧ is_running p = false ∧ is_planned p = false).
Proof.
  intros (q & -> & Hq)%list_elem_of_fmap. destruct (bool_decide (pk_meeting_id q = id)) eqn:E; cbn; [destruct (is_running q) eqn:Er|].
  - right. exists q. apply bool_decide_eq_true in E. repeat split; try done; by apply end_period_kind.
  - left. split; [done|]. intros [_ H]. congruence.
  - left. split; [done|]. intros [H _]. by apply bool_decide_eq_false in E.
Qed.
Lemma ended_keeps id now item ps p :
  p ∈ ps → ¬ (pk_meeting_id p = id ∧ is_running p = true) → p ∈ ended id now item ps.
Proof.
  intros Hp Hn. apply list_elem_of_fmap. exists p. split; [|done]. destruct (bool_decide _) eqn:E; cbn; [|done].
  apply bool_decide_eq_true in E. destruct (is_running p); [|done]. by destruct Hn.
Qed.
Lemma ended_ids id now item ps : pk_id <$> ended id now item ps = pk_id <$> ps.
Proof. unfold ended. rewrite <- list_fmap_compose. apply list_fmap_ext. intros n p _. cbn. by destruct (_ && _). Qed.
Lemma keyed_without id ps : keyed ps → keyed (without_planned id ps).
Proof.
  intros [H1 H2 H3 H4]. split.
  - by apply keys_filter.
  - intros p q [Hp _]%elem_without [Hq _]%elem_without. auto.
  - intros p q [Hp _]%elem_without [Hq _]%elem_without. auto.
  - intros p t [Hp _]%elem_without. auto.
Qed.
Lemma keyed_ended id now item ps : keyed ps → keyed (ended id now item ps).
Proof.
  intros [H1 H2 H3 H4]. split.
  - by rewrite ended_ids.
  - intros p q [[Hp _]|(? & _ & _ & _ & _ & E & _)]%elem_ended [[Hq _]|(? & _ & _ & _ & _ & E' & _)]%elem_ended; auto; congruence.
  - intros p q [[Hp _]|(? & _ & _ & _ & _ & _ & E)]%elem_ended [[Hq _]|(? & _ & _ & _ & _ & _ & E')]%elem_ended; auto; congruence.
  - intros p t [[Hp _]|(q & Hq & -> & _ & Hr & _)]%elem_ended; [auto|]. cbn. intros [= <-].
    unfold is_running in Hr. bool_prop. destruct (pk_from_at q) as [s|]; [|by destruct H]. exists s. cbn. split; [done|lia].
Qed.
Lemma keyed_add ps p :
  keyed ps → pk_id p ∉ pk_id <$> ps → (is_running p = true → ∀ q, q ∈ ps → pk_meeting_id q = pk_meeting_id p → is_running q = false) →
  (is_planned p = true → ∀ q, q ∈ ps → pk_meeting_id q = pk_meeting_id p → is_planned q = false) → pk_to_at p = None → keyed (ps ++ [p]).
Proof.
  intros [H1 H2 H3 H4] Hn Hr Hp Ht. split.
  - rewrite fmap_app. apply NoDup_app. split; [done|]. split; [|apply NoDup_singleton]. intros i Hi ->%list_elem_of_singleton. by apply Hn.
  - intros a b [Ha| ->%list_elem_of_singleton]%elem_of_app [Hb| ->%list_elem_of_singleton]%elem_of_app E Ra Rb; [auto| | |done].
    + by rewrite (Hr Rb a Ha E) in Ra.
    + by rewrite (Hr Ra b Hb (eq_sym E)) in Rb.
  - intros a b [Ha| ->%list_elem_of_singleton]%elem_of_app [Hb| ->%list_elem_of_singleton]%elem_of_app E Ra Rb; [auto| | |done].
    + by rewrite (Hp Rb a Ha E) in Ra.
    + by rewrite (Hp Ra b Hb (eq_sym E)) in Rb.
  - intros a t [Ha| ->%list_elem_of_singleton]%elem_of_app; [auto|]. by rewrite Ht.
Qed.
Lemma keyed_map f ps :
  (∀ p, pk_id (f p) = pk_id p ∧ pk_meeting_id (f p) = pk_meeting_id p ∧ pk_from_at (f p) = pk_from_at p ∧ pk_to_at (f p) = pk_to_at p) →
  keyed ps → keyed (f <$> ps).
Proof.
  intros Hf [H1 H2 H3 H4].
  assert (Hr : ∀ p, is_running (f p) = is_running p ∧ is_planned (f p) = is_planned p).
  { intros p. destruct (Hf p) as (_ & _ & E1 & E2). unfold is_running, is_planned. by rewrite E1, E2. }
  split.
  - rewrite <- list_fmap_compose. replace (pk_id ∘ f <$> ps) with (pk_id <$> ps); [done|]. apply list_fmap_ext. intros ? p _. cbn. by destruct (Hf p) as [-> _].
  - intros p q (p0 & -> & Hp)%list_elem_of_fmap (q0 & -> & Hq)%list_elem_of_fmap E Rp Rq. f_equal. destruct (Hf p0) as (_ & E1 & _), (Hf q0) as (_ & E2 & _).
    destruct (Hr p0) as [E3 _], (Hr q0) as [E4 _]. apply H2; congruence.
  - intros p q (p0 & -> & Hp)%list_elem_of_fmap (q0 & -> & Hq)%list_elem_of_fmap E Rp Rq. f_equal. destruct (Hf p0) as (_ & E1 & _), (Hf q0) as (_ & E2 & _).
    destruct (Hr p0) as [_ E3], (Hr q0) as [_ E4]. apply H3; congruence.
  - intros p t (p0 & -> & Hp)%list_elem_of_fmap. destruct (Hf p0) as (_ & _ & -> & ->). auto.
Qed.
(** ** The keepers *)
Lemma elem_key (V : list (string * string * option string)) id : id ∈ V.*1.*1 ↔ ∃ v, v ∈ V ∧ v.1.1 = id.
Proof.
  rewrite list_elem_of_fmap. split.
  - intros (x & -> & (v & -> & Hv)%list_elem_of_fmap). eauto.
  - intros (v & Hv & <-). exists v.1. split; [done|]. by apply list_elem_of_fmap_2.
Qed.
(** Only the live meetings and their keepers count. *)
Lemma keepers_rows V V' ps :
  (∀ id, id ∈ V.*1.*1 → id ∈ V'.*1.*1) → (∀ id k, (id, "live", k) ∈ V' ↔ (id, "live", k) ∈ V) → keepers_ok V ps → keepers_ok V' ps.
Proof.
  intros Hi Hl [H1 H2 H3 H4 H5]. split; [done|auto| | |].
  - intros p Hp Hq. destruct (H3 p Hp Hq) as [k Hk]. exists k. by apply Hl.
  - intros p Hp Hq. by apply Hl, H4.
  - intros id k Hk%Hl. eauto.
Qed.
(** Only one meeting changes. *)
Lemma keepers_local V V' ps ps' id :
  (∀ v, v.1.1 ≠ id → v ∈ V' ↔ v ∈ V) → (∀ p, pk_meeting_id p ≠ id → p ∈ ps' ↔ p ∈ ps) → keyed ps' →
  id ∈ V'.*1.*1 →
  (∀ p, p ∈ ps' → pk_meeting_id p = id → is_planned p = true → ∃ k, (id, "live", k) ∈ V') →
  (∀ p, p ∈ ps' → pk_meeting_id p = id → is_running p = true → (id, "live", Some (pk_principal_id p)) ∈ V') →
  (∀ k, (id, "live", k) ∈ V' → ∃ p, p ∈ ps' ∧ pk_meeting_id p = id ∧ is_running p = true) →
  keepers_ok V ps → keepers_ok V' ps'.
Proof.
  intros HV Hps Hk Hid Hp Hr Hl [H1 H2 H3 H4 H5]. split; [done| | | |].
  - intros p Hin. destruct (decide (pk_meeting_id p = id)) as [->|Hne]; [done|].
    apply Hps in Hin; [|done]. apply H2, elem_key in Hin as (v & Hv & E). apply elem_key. exists v. split; [|done].
    apply HV; [|done]. congruence.
  - intros p Hin Hpl. destruct (decide (pk_meeting_id p = id)) as [E|Hne]; [rewrite E; eauto|].
    apply Hps in Hin; [|done]. destruct (H3 p Hin Hpl) as [k Hk']. exists k. by apply HV.
  - intros p Hin Hru. destruct (decide (pk_meeting_id p = id)) as [E|Hne]; [rewrite E; eauto|].
    apply Hps in Hin; [|done]. apply HV; [done|]. auto.
  - intros i k Hik. destruct (decide (i = id)) as [->|Hne]; [eauto|]. apply HV in Hik; [|done].
    destruct (H5 i k Hik) as (p & Hin & E & R). exists p. split; [|done]. apply Hps; [congruence|done].
Qed.

(** ** The pieces of the invariant *)
Lemma life_update l id f :
  (∀ x, me_id (f x) = me_id x) → (∀ x, x ∈ l → me_id x = id → life x → life (f x)) → life_ok l → life_ok (update_row me_id id f l).
Proof.
  intros Hi Hf [H1 H2]. split; [by rewrite update_row_map|]. rewrite Forall_forall in H2 |- *.
  intros x (y & Hy & [-> |[E ->]])%update_row_in; auto.
Qed.
Lemma guests_rows V V' gs :
  (∀ id s p g, g ∈ gs → mg_meeting_id g = id → (id, s, p) ∈ V → guest_fine s p g → ∃ s' p', (id, s', p') ∈ V' ∧ guest_fine s' p' g) →
  guests_ok V gs → guests_ok V' gs.
Proof. intros HV [H1 H2 H3 H4]. split; [done|done|done|]. intros g Hg. destruct (H4 g Hg) as (s & p & Hv & Hf). by eapply HV. Qed.
(** The guests after a map over a part of them. *)
Lemma guests_map V V' (P : MeetingGuest → Prop) `{∀ g, Decision (P g)} f gs :
  (∀ g, mg_id (f g) = mg_id g ∧ mg_meeting_id (f g) = mg_meeting_id g ∧ mg_seq (f g) = mg_seq g) →
  (∀ g, mg_token_hash (f g) = mg_token_hash g ∨ mg_token_hash (f g) = None) →
  (∀ g s p, g ∈ gs → P g → (mg_meeting_id g, s, p) ∈ V → guest_fine s p g → ∃ s' p', (mg_meeting_id g, s', p') ∈ V' ∧ guest_fine s' p' (f g)) →
  guests_ok V gs → guests_ok V' (f <$> filter P gs).
Proof.
  intros Hf Ht HV [H1 H2 H3 H4]. split.
  - rewrite <- list_fmap_compose. replace (mg_id ∘ f <$> filter P gs) with (mg_id <$> filter P gs); [by apply keys_filter|].
    apply list_fmap_ext. intros ? g _. cbn. by destruct (Hf g) as [-> _].
  - intros g h t (g0 & -> & [_ Hg]%list_elem_of_filter)%list_elem_of_fmap (h0 & -> & [_ Hh]%list_elem_of_filter)%list_elem_of_fmap Eg Eh.
    f_equal. destruct (Ht g0) as [E1|E1], (Ht h0) as [E2|E2]; rewrite E1 in Eg; rewrite E2 in Eh; try done. by eapply H2.
  - intros g h (g0 & -> & [_ Hg]%list_elem_of_filter)%list_elem_of_fmap (h0 & -> & [_ Hh]%list_elem_of_filter)%list_elem_of_fmap Em En.
    f_equal. destruct (Hf g0) as (_ & E1 & E2), (Hf h0) as (_ & E3 & E4). apply H3; congruence.
  - intros g (g0 & -> & [HP Hg]%list_elem_of_filter)%list_elem_of_fmap. destruct (H4 g0 Hg) as (s & p & Hv & Hfi).
    destruct (Hf g0) as (_ & -> & _). by eapply HV.
Qed.
Lemma votes_rows V V' I vs :
  (∀ id, id ∈ V.*1 → id ∈ V'.*1) → (∀ id, (id, "live") ∈ V → (id, "live") ∈ V') →
  (∀ id s, (id, s) ∈ V → s ≠ "closed" → ∃ s', (id, s') ∈ V' ∧ s' ≠ "closed") → votes_ok V I vs → votes_ok V' I vs.
Proof. intros Hi Hl Hs [H1 H2 H3 H4]. split; [eauto|eauto| |done]. intros id m i (st & Hst & Hne)%H3. eauto. Qed.
Lemma votes_sub V I I' vs vs' :
  (∀ id v, vs' !! id = Some v → vs !! id = Some v) → (∀ id m i s, vs' !! id = Some (Some m, Some i, s) → (i, m) ∈ I → (i, m) ∈ I') →
  votes_ok V I vs → votes_ok V I' vs'.
Proof. intros Hv HI [H1 H2 H3 H4]. split; eauto. Qed.
Lemma current_items V I I' :
  NoDup I'.*1 → (∀ id i, (id, Some i) ∈ V → (i, id) ∈ I → (i, id) ∈ I') → current_ok V I → current_ok V I'.
Proof. intros Hn HI [H1 H2]. split; [done|]. eauto. Qed.
Lemma item_ids (l : list AgendaItem) : (iview <$> l).*1 = ai_id <$> l.
Proof. by rewrite <- list_fmap_compose. Qed.

(** ** The moves *)
Section Moves.
Context (c : MCore) (Hc : mcore_ok c).
Lemma row_unique m m' : m ∈ mc_rows c → m' ∈ mc_rows c → me_id m = me_id m' → m = m'.
Proof. intros. by apply (same_row me_id (mc_rows c)); [apply ok_life|..]. Qed.
Lemma view_in {B} (g : Meeting → B) m : m ∈ mc_rows c → g m ∈ g <$> mc_rows c.
Proof. apply list_elem_of_fmap_2. Qed.
(** A change of one row that keeps the views. *)
Lemma ok_same_views id f :
  (∀ x, me_id (f x) = me_id x) → (∀ x, x ∈ mc_rows c → me_id x = id → life x → life (f x)) →
  (∀ x, x ∈ mc_rows c → me_id x = id → kview (f x) = kview x ∧ cview (f x) = cview x ∧ jview (f x) = jview x) → mcore_ok (on_row id f c).
Proof.
  intros Hi Hl Hv. destruct Hc as [H1 H2 H3 H4 H5 H6].
  assert (Hg : ∀ x, x ∈ mc_rows c → me_id x = id → gview (f x) = gview x ∧ sview (f x) = sview x).
  { intros x Hx E. destruct (Hv x Hx E) as (_ & _ & E3). unfold gview, sview. by injection E3 as -> -> -> _. }
  split; cbn [mc_rows mc_periods mc_items mc_guests mc_votes on_row put_rows]; [by apply life_update|..];
    rewrite update_row_map; try done; intros x Hx E; first [by destruct (Hg x Hx E)|by destruct (Hv x Hx E) as (? & ? & ?)].
Qed.
Lemma ok_row id f : (∀ m, same_life m (f m)) → mcore_ok (on_row id f c).
Proof.
  intros Hf. apply ok_same_views.
  - intros x. destruct (Hf x) as (E & _). by injection E.
  - intros x _ _ Hx. destruct (Hf x) as (E & _ & _ & E1 & E2 & _). unfold life in *. injection E as _ -> _. by rewrite E1, E2.
  - intros x _ _. by destruct (Hf x) as (? & ? & ? & _).
Qed.
Lemma ok_shown m active item :
  m ∈ mc_rows c → (∀ i, item = Some i → (i, me_id m) ∈ iview <$> mc_items c) → mcore_ok (on_row (me_id m) (set_shown active item) c).
Proof.
  intros Hm Hi. destruct Hc as [H1 H2 H3 H4 H5 H6].
  split; cbn [mc_rows mc_periods mc_items mc_guests mc_votes on_row put_rows]; [by apply life_update|..].
  all: try (rewrite update_row_map; done). split; [apply H3|]. intros id i Hv.
  apply (elem_update_view me_id fst) in Hv as [[Hv _]|Hv]; [by apply H3| |done|apply H1|done]. injection Hv as -> E. by apply Hi.
Qed.
Lemma ok_keeper m k : m ∈ mc_rows c → me_status m = "planned" → mcore_ok (on_row (me_id m) (set_keeper k) c).
Proof.
  intros Hm Hs. destruct Hc as [H1 H2 H3 H4 H5 H6].
  split; cbn [mc_rows mc_periods mc_items mc_guests mc_votes on_row put_rows]; [by apply life_update|..].
  all: try (rewrite update_row_map; done). eapply keepers_rows; [| |exact H2].
  - intros id. rewrite <- !list_fmap_compose. by rewrite update_row_map.
  - intros id k'. rewrite (elem_update_view me_id (λ v, v.1.1)); [|done|apply H1|done]. split.
    + intros [[Hv _]|E]; [done|]. injection E as _ E _. cbn in E. congruence.
    + intros Hv. left. split; [done|]. cbn. intros ->. apply list_elem_of_fmap in Hv as (x & E & Hx). injection E as E1 E2 _.
      rewrite (row_unique m x) in Hs by done. congruence.
Qed.
(** *** Public participation *)
Lemma fine_public s p p' g : (p = true → p' = true) → guest_fine s p g → guest_fine s p' g.
Proof. intros Hp [H1 H2 H3 H4 H5 H6 H7]. split; auto. Qed.
Lemma codes_update m public mode code :
  m ∈ mc_rows c → (public = true → is_Some code) →
  (∀ x, code = Some x → me_join_code m = Some x ∨ free_code (mc_rows c) (me_id m) x) →
  codes_ok (jview <$> update_row me_id (me_id m) (set_public public mode code) (mc_rows c)).
Proof.
  intros Hm Hp Hx. destruct (ok_codes c Hc) as [H1 H2].
  assert (Hv : ∀ v, v ∈ jview <$> update_row me_id (me_id m) (set_public public mode code) (mc_rows c) →
            (v ∈ jview <$> mc_rows c ∧ v.1.1.1 ≠ me_id m) ∨ v = (me_id m, me_status m, public, code)).
  { intros v Hv. apply (elem_update_view me_id (λ v, v.1.1.1)) in Hv; [done|done|apply Hc|done]. }
  assert (Hother : ∀ id s p x, (id, s, p, Some x) ∈ jview <$> mc_rows c → id ≠ me_id m → code = Some x → s ≠ "closed" →
            me_status m = "closed").
  { intros id s p x Hin Hne E Hs. destruct (Hx x E) as [E'|Hfree].
    - destruct (decide (me_status m = "closed")) as [|Hn]; [done|]. destruct Hne. eapply H2; [exact Hin| |exact Hs|exact Hn].
      rewrite <- E'. by apply (view_in jview m).
    - apply list_elem_of_fmap in Hin as (y & Ey & Hy). injection Ey as -> -> _ Ec. by destruct Hs; apply Hfree. }
  split.
  - intros id s x [[Hin _]|E]%Hv; [eauto|]. injection E as _ _ <- ->. auto.
  - intros id s p id' s' p' x [[Hi Hni]|E]%Hv [[Hj Hnj]|E']%Hv Hs Hs'.
    + eauto.
    + injection E' as -> -> -> Ec. by specialize (Hother _ _ _ _ Hi Hni (eq_sym Ec) Hs).
    + injection E as -> -> -> Ec. by specialize (Hother _ _ _ _ Hj Hnj (eq_sym Ec) Hs').
    + by injection E as -> _ _ _; injection E' as -> _ _ _.
Qed.
Lemma ok_public m public mode code :
  m ∈ mc_rows c → (public = true → is_Some code) → (me_public_join m = true → public = true) →
  (∀ x, code = Some x → me_join_code m = Some x ∨ free_code (mc_rows c) (me_id m) x) →
  mcore_ok (on_row (me_id m) (set_public public mode code) c).
Proof.
  intros Hm Hp Hpub Hx. destruct Hc as [H1 H2 H3 H4 H5 H6].
  split; cbn [mc_rows mc_periods mc_items mc_guests mc_votes on_row put_rows]; [by apply life_update|..].
  all: try (rewrite update_row_map; done). 2: by apply codes_update.
  eapply guests_rows; [|exact H4].
  intros id s p g _ _ Hin Hf. apply list_elem_of_fmap in Hin as (y & E & Hy). injection E as -> -> ->.
  destruct (decide (me_id y = me_id m)) as [E|Hne].
  - assert (y = m) as -> by (by apply row_unique). exists (me_status m), public. split; [|by eapply fine_public].
    apply (elem_update_view me_id (λ v, v.1.1)); [done|apply H1|done|by right].
  - exists (me_status y), (me_public_join y). split; [|done].
    apply (elem_update_view me_id (λ v, v.1.1)); [done|apply H1|done|left]. split; [by apply (view_in gview)|done].
Qed.
Lemma ok_private m mode now by_ :
  m ∈ mc_rows c → me_status m ≠ "closed" →
  mcore_ok (put_guests (let_go (me_id m) now by_ (mc_guests c)) (on_row (me_id m) (set_public false mode (me_join_code m)) c)).
Proof.
  intros Hm Hs. destruct Hc as [H1 H2 H3 H4 H5 H6].
  split; cbn [mc_rows mc_periods mc_items mc_guests mc_votes on_row put_rows put_guests]; [by apply life_update|..].
  all: try (rewrite update_row_map; done). 2: { apply codes_update; [done|done|by left]. }
  eapply guests_map; [..|exact H4].
  - intros g. by destruct (_ && _).
  - intros g. left. by destruct (_ && _).
  - intros g s p Hg Hpe Hin Hf. apply list_elem_of_fmap in Hin as (y & E & Hy). injection E as E -> ->. cbn.
    destruct (decide (me_id y = me_id m)) as [Ey|Hne].
    + assert (y = m) as -> by (by apply row_unique). rewrite E. exists (me_status m), false. split.
      { apply (elem_update_view me_id (λ v, v.1.1)); [done|apply H1|done|by right]. }
      unfold is_pending in Hpe. rewrite E in Hpe. rewrite bool_decide_true in Hpe by done. cbn in Hpe. apply bool_decide_eq_false in Hpe.
      rewrite bool_decide_true by done. cbn. destruct Hf as [F1 F2 F3 F4 F5 F6 F7].
      case_bool_decide as Ha; [|split; try done; set_solver].
      rewrite Ha in F3. split; cbn; try done; try set_solver.
    + exists (me_status y), (me_public_join y). rewrite E. split.
      { apply (elem_update_view me_id (λ v, v.1.1)); [done|apply H1|done|left]. split; [by apply (view_in gview)|done]. }
      by rewrite bool_decide_false.
Qed.

(** *** Keepers *)
Lemma ok_periods ps : keepers_ok (kview <$> mc_rows c) ps → mcore_ok (put_periods ps c).
Proof. intros H. by destruct Hc; split. Qed.
Lemma live_view m : m ∈ mc_rows c → me_status m = "live" → (me_id m, "live", me_protokollant_id m) ∈ kview <$> mc_rows c.
Proof. intros Hm Hs. rewrite <- Hs. by apply (view_in kview m). Qed.
Lemma live_keeper m k : m ∈ mc_rows c → (me_id m, "live", k) ∈ kview <$> mc_rows c → k = me_protokollant_id m.
Proof.
  intros Hm H. apply list_elem_of_fmap in H as (y & E & Hy). injection E as E1 _ ->. by rewrite (row_unique m y).
Qed.
Lemma keepers_without id : keepers_ok (kview <$> mc_rows c) (without_planned id (mc_periods c)).
Proof.
  destruct (ok_keepers c Hc) as [H1 H2 H3 H4 H5]. split.
  - by apply keyed_without.
  - intros p [Hp _]%elem_without. auto.
  - intros p [Hp _]%elem_without. auto.
  - intros p [Hp _]%elem_without. auto.
  - intros id' k Hk. destruct (H5 _ _ Hk) as (p & Hp & E & Hr). exists p. split; [|done]. apply elem_without. split; [done|].
    intros [_ Hpl%planned_running]. congruence.
Qed.
Lemma ok_plan m p :
  m ∈ mc_rows c → me_status m = "live" → pk_id p ∉ pk_id <$> mc_periods c → pk_meeting_id p = me_id m → is_planned p = true →
  pk_to_at p = None → mcore_ok (put_periods (without_planned (me_id m) (mc_periods c) ++ [p]) c).
Proof.
  intros Hm Hs Hn Hp Hpl Ht. apply ok_periods. destruct (keepers_without (me_id m)) as [H1 H2 H3 H4 H5].
  pose proof (live_view m Hm Hs) as Hl.
  split.
  - apply keyed_add; [done| | | |done].
    + intros (q & E & [Hq _]%elem_without)%list_elem_of_fmap. apply Hn. rewrite E. by apply list_elem_of_fmap_2.
    + rewrite (planned_running p) by done. done.
    + intros _ q [_ Hq]%elem_without E. destruct (is_planned q); [|done]. destruct Hq. by rewrite E, Hp.
  - intros q [Hq| ->%list_elem_of_singleton]%elem_of_app; [auto|]. rewrite Hp. apply elem_key. eexists. split; [exact Hl|done].
  - intros q [Hq| ->%list_elem_of_singleton]%elem_of_app; [auto|]. rewrite Hp. eauto.
  - intros q [Hq| ->%list_elem_of_singleton]%elem_of_app; [auto|]. by rewrite (planned_running p).
  - intros id k Hk. destruct (H5 id k Hk) as (q & Hq & ?). exists q. rewrite elem_of_app. auto.
Qed.
(** A live row and its periods change: the new periods of the meeting have one running, of the new keeper. *)
Lemma ok_handover m k ps :
  m ∈ mc_rows c → me_status m = "live" → keyed ps → (∀ p, pk_meeting_id p ≠ me_id m → p ∈ ps ↔ p ∈ mc_periods c) →
  (∃ p, p ∈ ps ∧ pk_meeting_id p = me_id m ∧ is_running p = true ∧ k = pk_principal_id p) →
  mcore_ok (put_periods ps (on_row (me_id m) (set_keeper (Some k)) c)).
Proof.
  intros Hm Hs Hk Hps (p & Hp & Em & Hr & ->). destruct Hc as [H1 H2 H3 H4 H5 H6].
  split; cbn [mc_rows mc_periods mc_items mc_guests mc_votes on_row put_rows put_periods]; [by apply life_update|..].
  all: try (rewrite update_row_map; done).
  assert (Hv : ∀ v, v ∈ kview <$> update_row me_id (me_id m) (set_keeper (Some (pk_principal_id p))) (mc_rows c) ↔
            (v ∈ kview <$> mc_rows c ∧ v.1.1 ≠ me_id m) ∨ v = (me_id m, "live", Some (pk_principal_id p))).
  { intros v. rewrite (elem_update_view me_id (λ v, v.1.1)); [|done|apply H1|done]. unfold kview at 2. cbn. by rewrite Hs. }
  eapply (keepers_local _ _ _ _ (me_id m)); [| |done| | | | |exact H2].
  - intros v Hne. rewrite Hv. split; [intros [[]| ->]; done|by left].
  - done.
  - apply elem_key. eexists. split; [apply Hv; by right|done].
  - intros q _ _ _. eexists. apply Hv. by right.
  - intros q Hq Eq Hrq. apply Hv. right. do 2 f_equal. by rewrite (ky_running _ Hk q p) by (try done; congruence).
  - intros k _. by exists p.
Qed.
Lemma ok_switch m p now item :
  m ∈ mc_rows c → me_status m = "live" → pk_id p ∉ pk_id <$> mc_periods c → pk_meeting_id p = me_id m → is_running p = true →
  mcore_ok (put_periods (ended (me_id m) now item (without_planned (me_id m) (mc_periods c)) ++ [p])
              (on_row (me_id m) (set_keeper (Some (pk_principal_id p))) c)).
Proof.
  intros Hm Hs Hn Hp Hr. pose proof (ok_keepers c Hc) as Hk. apply ok_handover; [done|done| | |].
  - apply keyed_add; [apply keyed_ended, keyed_without, Hk| | | |].
    + rewrite ended_ids. intros (q & E & [Hq _]%elem_without)%list_elem_of_fmap. apply Hn. rewrite E. by apply list_elem_of_fmap_2.
    + intros _ q [[Hq Hnr]|(? & _ & _ & _ & _ & ? & _)]%elem_ended E; [|done]. destruct (is_running q); [|done]. destruct Hnr. by rewrite E, Hp.
    + intros Hpl. by rewrite planned_running in Hr.
    + unfold is_running in Hr. by bool_prop.
  - intros q Hne. rewrite elem_of_app, list_elem_of_singleton. split.
    + intros [[[[Hq _]%elem_without _]|(? & _ & _ & E & _)]%elem_ended| ->]; [done|congruence|congruence].
    + intros Hq. left. apply ended_keeps; [|by intros []]. apply elem_without. split; [done|]. by intros [].
  - exists p. rewrite elem_of_app, list_elem_of_singleton. auto.
Qed.
Lemma ok_activate m p now old new :
  m ∈ mc_rows c → me_status m = "live" → p ∈ mc_periods c → pk_meeting_id p = me_id m → is_planned p = true →
  mcore_ok (put_periods (update_row pk_id (pk_id p) (start_period now new) (ended (me_id m) now old (mc_periods c)))
              (on_row (me_id m) (set_keeper (Some (pk_principal_id p))) c)).
Proof.
  intros Hm Hs Hp Em Hpl. pose proof (ok_keepers c Hc) as Hk. pose proof (keyed_ended (me_id m) now old _ (ko_keyed _ _ Hk)) as He.
  assert (Hpe : p ∈ ended (me_id m) now old (mc_periods c)).
  { apply ended_keeps; [done|]. intros [_ Hr]. by rewrite planned_running in Hr. }
  assert (Hin : ∀ q, q ∈ update_row pk_id (pk_id p) (start_period now new) (ended (me_id m) now old (mc_periods c)) ↔
            (q ∈ ended (me_id m) now old (mc_periods c) ∧ pk_id q ≠ pk_id p) ∨ q = start_period now new p).
  { intros q. by apply (elem_update_row pk_id); [apply He|]. }
  assert (Hto : pk_to_at p = None).
  { destruct (pk_to_at p) as [t|] eqn:E; [|done]. destruct (ky_times _ (ko_keyed _ _ Hk) p t Hp E) as (s & Hf & _).
    unfold is_planned in Hpl. bool_prop. congruence. }
  assert (Hrun : is_running (start_period now new p) = true) by (unfold is_running; cbn; by rewrite Hto).
  apply ok_handover; [done|done| | |].
  - split.
    + rewrite update_row_map by done. apply He.
    + intros a b [[Ha Hna]| ->]%Hin [[Hb Hnb]| ->]%Hin E Ra Rb; [by apply (ky_running _ He)| | |done].
      * apply elem_ended in Ha as [[_ Ha]|(? & _ & _ & _ & _ & ? & _)]; [|congruence]. destruct Ha. split; [|done]. cbn in E. congruence.
      * apply elem_ended in Hb as [[_ Hb]|(? & _ & _ & _ & _ & ? & _)]; [|congruence]. destruct Hb. split; [|done]. cbn in E. congruence.
    + assert (Hns : is_planned (start_period now new p) = false) by (by apply bool_decide_eq_false).
      intros a b [[Ha Hna]| ->]%Hin [[Hb Hnb]| ->]%Hin E Ra Rb; [by apply (ky_planned _ He)|congruence|congruence|done].
    + intros a t [[Ha _]| ->]%Hin Et; [by apply (ky_times _ He)|]. cbn in Et. congruence.
  - intros q Hne. rewrite Hin. split.
    + intros [[[[Hq _]|(? & _ & _ & E & _)]%elem_ended _]| ->]; [done|congruence|by destruct Hne].
    + intros Hq. left. split; [apply ended_keeps; [done|by intros []]|]. intros E. destruct Hne.
      rewrite (same_row pk_id (mc_periods c) q p); [done|apply Hk|done|done|done].
  - exists (start_period now new p). split; [apply Hin; by right|done].
Qed.

(** *** The agenda *)
Lemma ok_item_add i : ai_id i ∉ ai_id <$> mc_items c → mcore_ok (put_items (mc_items c ++ [i]) c).
Proof.
  intros Hn. destruct Hc as [H1 H2 H3 H4 H5 H6]. split; cbn [mc_rows mc_periods mc_items mc_guests mc_votes put_items]; try done.
  - eapply current_items; [| |exact H3].
    + rewrite item_ids, fmap_app. apply NoDup_app. split; [rewrite <- item_ids; apply H3|]. split; [|apply NoDup_singleton].
      intros x Hx ->%list_elem_of_singleton. by apply Hn.
    + intros id j _ Hj. rewrite fmap_app. apply elem_of_app. by left.
  - eapply votes_sub; [| |exact H6]; [done|]. intros v m j s _ Hj. rewrite fmap_app. apply elem_of_app. by left.
Qed.
Lemma ok_item id f : (∀ i, item_text_only i (f i)) → mcore_ok (put_items (update_row ai_id id f (mc_items c)) c).
Proof.
  intros Hf. destruct Hc as [H1 H2 H3 H4 H5 H6].
  assert (E : iview <$> update_row ai_id id f (mc_items c) = iview <$> mc_items c).
  { apply update_row_map. intros i _ _. destruct (Hf i) as (E1 & E2 & _). unfold iview. by rewrite E1, E2. }
  split; cbn [mc_rows mc_periods mc_items mc_guests mc_votes put_items]; rewrite ?E; done.
Qed.
(** An item belongs to one meeting. *)
Lemma item_once id m m' : (id, m) ∈ iview <$> mc_items c → (id, m') ∈ iview <$> mc_items c → m = m'.
Proof.
  intros H1 H2. assert (E : (id, m) = (id, m')); [|by injection E].
  apply (same_row fst (iview <$> mc_items c)); [apply (ok_current c Hc)|done|done|done].
Qed.
Lemma ok_item_remove id :
  mcore_ok (put_votes (filter (λ kv, kv.2.1.2 ≠ Some id) (mc_votes c))
      (put_periods (unlink_period id <$> mc_periods c)
        (put_items (filter (λ i, ai_id i ≠ id) (mc_items c)) (put_rows (unlink_meeting id <$> mc_rows c) c)))).
Proof.
  destruct Hc as [H1 H2 H3 H4 H5 H6].
  assert (Hkeep : ∀ i m, (i, m) ∈ iview <$> mc_items c → i ≠ id → (i, m) ∈ iview <$> filter (λ i, ai_id i ≠ id) (mc_items c)).
  { intros i m (a & E & Ha)%list_elem_of_fmap Hne. apply list_elem_of_fmap. exists a. split; [done|]. apply list_elem_of_filter.
    injection E as -> _. done. }
  assert (Hview : ∀ {B} (g : Meeting → B), (∀ m a b, g (set_shown a b m) = g m) → g <$> (unlink_meeting id <$> mc_rows c) = g <$> mc_rows c).
  { intros B g Hg. rewrite <- list_fmap_compose. apply list_fmap_ext. intros n m _. cbn. apply Hg. }
  split; cbn [mc_rows mc_periods mc_items mc_guests mc_votes put_votes put_periods put_items put_rows];
    try (by rewrite Hview).
  - split; [rewrite Hview; [apply H1|done]|]. apply Forall_fmap. eapply Forall_impl; [apply H1|]. intros m Hm. exact Hm.
  - rewrite Hview by done. destruct H2 as [K1 K2 K3 K4 K5]. split.
    + by apply keyed_map.
    + intros p (q & -> & Hq)%list_elem_of_fmap. exact (K2 q Hq).
    + intros p (q & -> & Hq)%list_elem_of_fmap Hp. exact (K3 q Hq Hp).
    + intros p (q & -> & Hq)%list_elem_of_fmap Hp. exact (K4 q Hq Hp).
    + intros i k Hk. destruct (K5 i k Hk) as (p & Hp & E & R). exists (unlink_period id p). split; [by apply list_elem_of_fmap_2|done].
  - split; [rewrite item_ids; apply keys_filter; rewrite <- item_ids; apply H3|]. intros m i Hv.
    rewrite <- list_fmap_compose in Hv. apply list_elem_of_fmap in Hv as (y & E & Hy). injection E as -> E.
    unfold forget_item in E. case_bool_decide as Ed; [done|]. apply Hkeep; [|congruence]. apply H3. rewrite E. by apply (view_in cview).
  - rewrite Hview by done. eapply votes_sub; [| |exact H6].
    + by intros v w [? _]%map_lookup_filter_Some.
    + intros v m i s [_ Hne]%map_lookup_filter_Some Hi. cbn in Hne. apply Hkeep; [done|congruence].
Qed.

(** *** The guests *)
Lemma ok_guests_map (P : MeetingGuest → Prop) `{∀ g, Decision (P g)} f :
  (∀ g, mg_id (f g) = mg_id g ∧ mg_meeting_id (f g) = mg_meeting_id g ∧ mg_seq (f g) = mg_seq g) →
  (∀ g, mg_token_hash (f g) = mg_token_hash g ∨ mg_token_hash (f g) = None) →
  (∀ m g, m ∈ mc_rows c → g ∈ mc_guests c → mg_meeting_id g = me_id m →
     guest_fine (me_status m) (me_public_join m) g → guest_fine (me_status m) (me_public_join m) (f g)) →
  mcore_ok (put_guests (f <$> filter P (mc_guests c)) c).
Proof.
  intros Hf Ht Hg. destruct Hc as [H1 H2 H3 H4 H5 H6]. split; try done. cbn [mc_rows mc_guests put_guests].
  eapply guests_map; [done|done| |exact H4]. intros g s p Hin _ Hv Hfi. exists s, p. split; [done|].
  apply list_elem_of_fmap in Hv as (y & E & Hy). injection E as E -> ->. by apply Hg.
Qed.
Lemma ok_join m g :
  m ∈ mc_rows c → me_status m ≠ "closed" → me_public_join m = true → mg_meeting_id g = me_id m → mg_status g = "pending" →
  mg_admitted_at g = None → is_Some (mg_display_name g) → mg_id g ∉ mg_id <$> mc_guests c →
  (∀ h, h ∈ mc_guests c → mg_token_hash h ≠ mg_token_hash g) →
  (∀ h, h ∈ mc_guests c → mg_meeting_id h = mg_meeting_id g → mg_seq h < mg_seq g) →
  mcore_ok (put_guests (mc_guests c ++ [g]) c).
Proof.
  intros Hm Hs Hp Eg Est Ead [x Hname] Hid Htok Hseq. destruct Hc as [H1 H2 H3 H4 H5 H6]. split; try done.
  cbn [mc_rows mc_guests put_guests]. destruct H4 as [G1 G2 G3 G4]. split.
  - rewrite fmap_app. apply NoDup_app. split; [done|]. split; [|apply NoDup_singleton]. intros i Hi ->%list_elem_of_singleton. by apply Hid.
  - intros a b t [Ha| ->%list_elem_of_singleton]%elem_of_app [Hb| ->%list_elem_of_singleton]%elem_of_app Ea Eb; [eauto| | |done].
    + by destruct (Htok a Ha); rewrite Ea, Eb.
    + by destruct (Htok b Hb); rewrite Ea, Eb.
  - intros a b [Ha| ->%list_elem_of_singleton]%elem_of_app [Hb| ->%list_elem_of_singleton]%elem_of_app Ea Eb; [eauto| | |done].
    + pose proof (Hseq a Ha Ea). lia.
    + pose proof (Hseq b Hb (eq_sym Ea)). lia.
  - intros a [Ha| ->%list_elem_of_singleton]%elem_of_app; [auto|]. exists (me_status m), (me_public_join m).
    rewrite Eg. split; [by apply (view_in gview)|]. split; rewrite ?Est; try done; [set_solver|set_solver|congruence].
Qed.
Lemma ok_renumber id f :
  (∀ g, g ∈ mc_guests c → mg_meeting_id g ≠ id → f g = g) →
  (∀ g, g ∈ mc_guests c → mg_meeting_id g = id → ∃ n, f g = set_seq n g) →
  (∀ g h, g ∈ mc_guests c → h ∈ mc_guests c → mg_meeting_id g = id → mg_meeting_id h = id → mg_seq (f g) = mg_seq (f h) → g = h) →
  mcore_ok (put_guests (f <$> mc_guests c) c).
Proof.
  intros Ho Hn Hu. destruct Hc as [H1 H2 H3 H4 H5 H6]. split; try done. cbn [mc_rows mc_guests put_guests].
  assert (Hcase : ∀ g, g ∈ mc_guests c → f g = g ∧ mg_meeting_id g ≠ id ∨ mg_meeting_id g = id ∧ ∃ n, f g = set_seq n g).
  { intros g Hg. destruct (decide (mg_meeting_id g = id)); auto. }
  assert (Hkey : ∀ g, g ∈ mc_guests c → mg_id (f g) = mg_id g ∧ mg_meeting_id (f g) = mg_meeting_id g).
  { intros g Hg. destruct (Hcase g Hg) as [[-> _]|(_ & n & ->)]; done. }
  destruct H4 as [G1 G2 G3 G4]. split.
  - rewrite <- list_fmap_compose. replace (mg_id ∘ f <$> mc_guests c) with (mg_id <$> mc_guests c); [done|].
    apply list_fmap_ext. intros ? g Hg%list_elem_of_lookup_2. cbn. by destruct (Hkey g Hg) as [-> _].
  - intros g h t (a & -> & Ha)%list_elem_of_fmap (b & -> & Hb)%list_elem_of_fmap Ea Eb. f_equal.
    destruct (Hcase a Ha) as [[Fa _]|(_ & n & Fa)]; rewrite Fa in Ea; [|done]. destruct (Hcase b Hb) as [[Fb _]|(_ & n & Fb)]; rewrite Fb in Eb; [|done]. eauto.
  - intros g h (a & -> & Ha)%list_elem_of_fmap (b & -> & Hb)%list_elem_of_fmap Em En. f_equal.
    destruct (Hkey a Ha) as [_ Ka], (Hkey b Hb) as [_ Kb]. rewrite Ka, Kb in Em.
    destruct (decide (mg_meeting_id a = id)) as [E|Hne]; [apply Hu; congruence|]. rewrite (Ho a), (Ho b) in En by (try done; congruence). eauto.
  - intros g (a & -> & Ha)%list_elem_of_fmap. destruct (Hkey a Ha) as [_ ->]. destruct (G4 a Ha) as (s & p & Hv & Hf). exists s, p.
    split; [done|]. destruct (Hcase a Ha) as [[-> _]|(_ & n & ->)]; [done|]. destruct Hf as [F1 F2 F3 F4 F5 F6 F7]. split; cbn; try done.
    intros E. by destruct (F7 E).
Qed.

(** *** The votes *)
Lemma ok_room new vs :
  NoDup (ai_id <$> mc_items c ++ new) → (∀ id v, vs !! id = Some v → vote_moves c (mc_items c ++ new) id v) →
  mcore_ok (put_votes vs (put_items (mc_items c ++ new) c)).
Proof.
  intros Hnd Hv. destruct Hc as [H1 H2 H3 H4 H5 H6]. split; cbn [mc_rows mc_periods mc_items mc_guests mc_votes put_votes put_items]; try done.
  - eapply current_items; [by rewrite item_ids| |exact H3]. intros id i _ Hi. rewrite fmap_app. apply elem_of_app. by left.
  - assert (Hrow : ∀ r, r ∈ mc_rows c → (me_id r, me_status r) ∈ sview <$> mc_rows c) by (intros r; apply (view_in sview)).
    destruct H6 as [V1 V2 V3 V4]. split.
    + intros id m i s Hid. destruct (vm_meeting _ _ _ _ (Hv id _ Hid) m eq_refl) as [([[m' i'] s'] & Hu & E)|(r & Hr & <- & _)].
      * cbn in E. subst m'. eauto.
      * apply Hrow in Hr. by apply (list_elem_of_fmap_2 fst) in Hr.
    + intros id m i Hid. destruct (vm_open _ _ _ _ (Hv id _ Hid) m eq_refl eq_refl) as [([[m' i'] s'] & Hu & E & Es)|(r & Hr & <- & Es)].
      * cbn in E, Es. subst. eauto.
      * rewrite <- Es. by apply Hrow.
    + intros id m i Hid. destruct (vm_draft _ _ _ _ (Hv id _ Hid) m eq_refl eq_refl) as [([[m' i'] s'] & Hu & E & Es)|(r & Hr & <- & Es)].
      * cbn in E, Es. subst. eauto.
      * exists (me_status r). auto.
    + intros id m i s Hid. destruct (vm_item _ _ _ _ (Hv id _ Hid) m i eq_refl) as [([[m' i'] s'] & Hu & E)|H]; [|done].
      injection E as -> ->. rewrite fmap_app. apply elem_of_app. left. eauto.
Qed.
Lemma ok_protocols l : mcore_ok (MkMCore (mc_rows c) (mc_periods c) (mc_items c) (mc_guests c) (mc_votes c) l).
Proof. by destruct Hc. Qed.
Lemma quiet_ok fresh c' : quiet fresh c c' → mcore_ok c'.
Proof.
  destruct 1; [by apply ok_row|by apply ok_shown|by apply ok_keeper|by apply ok_public|subst; by apply ok_private|by apply ok_plan
    |apply ok_periods, keepers_without|by apply ok_switch|by apply ok_activate|by apply ok_item_add|by apply ok_item|apply ok_item_remove
    |by eapply ok_join|by apply ok_guests_map|by eapply ok_renumber|by apply ok_room].
Qed.

(** *** The life of a meeting *)
Lemma ok_create m :
  me_id m ∉ me_id <$> mc_rows c → me_status m = "planned" → me_started_at m = None → me_closed_at m = None →
  me_current_agenda_item_id m = None → (me_public_join m = true → is_Some (me_join_code m)) →
  (∀ x, me_join_code m = Some x → free_code (mc_rows c) (me_id m) x) → mcore_ok (put_rows (mc_rows c ++ [m]) c).
Proof.
  intros Hn Hs Hst Hcl Hcu Hp Hx. destruct Hc as [H1 H2 H3 H4 H5 H6].
  assert (Hv : ∀ {B} (g : Meeting → B) v, v ∈ g <$> mc_rows c ++ [m] ↔ v ∈ g <$> mc_rows c ∨ v = g m).
  { intros B g v. rewrite fmap_app, elem_of_app. change (g <$> [m]) with [g m]. by rewrite list_elem_of_singleton. }
  assert (Hne : ∀ x, x ∈ mc_rows c → me_id x ≠ me_id m) by (intros x Hx' E; apply Hn; rewrite <- E; by apply list_elem_of_fmap_2).
  split; cbn [mc_rows mc_periods mc_items mc_guests mc_votes put_rows].
  - destruct H1 as [L1 L2]. split; [|apply Forall_app; split; [done|apply Forall_singleton; by left]].
    rewrite fmap_app. apply NoDup_app. split; [done|]. split; [|apply NoDup_singleton]. intros i Hi ->%list_elem_of_singleton. done.
  - eapply keepers_rows; [| |exact H2].
    + intros id. rewrite !fmap_app, elem_of_app. by left.
    + intros id k. rewrite Hv. split; [|by left]. intros [|E]; [done|]. injection E as _ E _. congruence.
  - split; [apply H3|]. intros id i [Hi|E]%Hv; [by apply H3|]. injection E as _ E. congruence.
  - eapply guests_rows; [|exact H4]. intros id s p g _ _ Hi Hf. exists s, p. split; [|done]. apply Hv. by left.
  - destruct H5 as [J1 J2]. split.
    + intros id s x [Hi|E]%Hv; [eauto|]. injection E as _ _ E ->. by apply Hp.
    + assert (Hfree : ∀ id s p x, (id, s, p, Some x) ∈ jview <$> mc_rows c → me_join_code m = Some x → s = "closed").
      { intros id s p x Hi E. apply list_elem_of_fmap in Hi as (y & Ey & Hy). injection Ey as _ -> _ Ec. apply (Hx x E y); auto. }
      intros id s p id' s' p' x [Hi|E]%Hv [Hj|E']%Hv Hsi Hsj; [eauto| | |].
      * injection E' as _ _ _ Ec. by rewrite (Hfree _ _ _ _ Hi (eq_sym Ec)) in Hsi.
      * injection E as _ _ _ Ec. by rewrite (Hfree _ _ _ _ Hj (eq_sym Ec)) in Hsj.
      * by injection E as -> _ _ _; injection E' as -> _ _ _.
  - eapply votes_rows; [| | |exact H6].
    + intros id. rewrite fmap_app, fmap_app, elem_of_app. by left.
    + intros id Hi. apply Hv. by left.
    + intros id s Hi Hne'. exists s. split; [|done]. apply Hv. by left.
Qed.
(** A planned or a live row moves on. *)
Lemma view_status m status started closed_ {B} (key : B → string) (g : Meeting → B) v :
  (∀ x, key (g x) = me_id x) → m ∈ mc_rows c →
  v ∈ g <$> update_row me_id (me_id m) (set_status status started closed_) (mc_rows c) ↔
    (v ∈ g <$> mc_rows c ∧ key v ≠ me_id m) ∨ v = g (set_status status started closed_ m).
Proof. intros Hk Hm. apply (elem_update_view me_id key); [done|apply Hc|done]. Qed.
(** A planned meeting has no open period. *)
Lemma planned_none m q :
  m ∈ mc_rows c → me_status m = "planned" → q ∈ mc_periods c → pk_meeting_id q = me_id m → is_running q = false ∧ is_planned q = false.
Proof.
  intros Hm Hs Hq E. assert (Hnot : ∀ k, (me_id m, "live", k) ∉ kview <$> mc_rows c).
  { intros k (y & Ey & Hy)%list_elem_of_fmap. injection Ey as E1 E2 _. rewrite (row_unique m y) in Hs by done. congruence. }
  pose proof (ok_keepers c Hc) as H2. split.
  - destruct (is_running q) eqn:R; [|done]. pose proof (ko_running _ _ H2 q Hq R) as Hv. rewrite E in Hv. by apply Hnot in Hv.
  - destruct (is_planned q) eqn:R; [|done]. destruct (ko_planned _ _ H2 q Hq R) as [k Hv]. rewrite E in Hv. by apply Hnot in Hv.
Qed.
Section Live.
Context (m : Meeting) (started : Z) (Hm : m ∈ mc_rows c) (Hs : me_status m = "planned").
Let rows' := update_row me_id (me_id m) (set_status "live" (Some started) None) (mc_rows c).
Lemma live_keepers p :
  me_protokollant_id m = Some (pk_principal_id p) → pk_id p ∉ pk_id <$> mc_periods c → pk_meeting_id p = me_id m → is_running p = true →
  keepers_ok (kview <$> rows') (mc_periods c ++ [p]).
Proof.
  intros Hk Hn Ep Hr. pose proof (λ q, planned_none m q Hm Hs) as Hnone. pose proof (ok_keepers c Hc) as H2.
  eapply (keepers_local _ _ _ _ (me_id m)); [| | | | | | |exact H2].
  - intros v Hne. unfold rows'. rewrite (view_status m _ _ _ (λ v, v.1.1)) by done. split; [intros [[]| ->]; done|by left].
  - intros q Hne. rewrite elem_of_app, list_elem_of_singleton. split; [intros [|E]; [done|congruence]|by left].
  - apply keyed_add; [apply H2|done| | |].
    + intros _ q Hq E. by apply Hnone; [|congruence].
    + intros Hpl. by rewrite (planned_running p) in Hr.
    + unfold is_running in Hr. by bool_prop.
  - apply elem_key. eexists. split; [apply (view_status m _ _ _ (λ v, v.1.1)); [done|done|by right]|done].
  - intros q [Hq| ->%list_elem_of_singleton]%elem_of_app E Hpl; [by destruct (Hnone q Hq E); congruence|by rewrite (planned_running p) in Hr].
  - intros q [Hq| ->%list_elem_of_singleton]%elem_of_app E Hrq; [by destruct (Hnone q Hq E); congruence|].
    apply (view_status m _ _ _ (λ v, v.1.1)); [done|done|right]. unfold kview. cbn. by rewrite Hk.
  - intros k _. exists p. rewrite elem_of_app, list_elem_of_singleton. auto.
Qed.
Lemma live_guests : guests_ok (gview <$> rows') (mc_guests c).
Proof.
  eapply guests_rows; [|apply Hc]. intros id s q g _ _ Hi Hf. destruct (decide (id = me_id m)) as [->|Hne].
  - apply list_elem_of_fmap in Hi as (y & E & Hy). injection E as E -> ->. exists "live", (me_public_join m). split.
    + apply (view_status m _ _ _ (λ v, v.1.1)); [done|done|by right].
    + rewrite (row_unique m y) by done. destruct Hf as [F1 F2 F3 F4 F5 F6 F7]. by split.
  - exists s, q. split; [|done]. apply (view_status m _ _ _ (λ v, v.1.1)); [done|done|by left].
Qed.
Lemma live_votes : votes_ok (sview <$> rows') (iview <$> mc_items c) (mc_votes c).
Proof.
  eapply votes_rows; [| | |apply Hc].
  - intros id. unfold rows'. by rewrite <- !list_fmap_compose, update_row_map.
  - intros id Hi. apply (view_status m _ _ _ fst); [done|done|left]. split; [done|]. cbn. intros ->.
    apply list_elem_of_fmap in Hi as (y & E & Hy). injection E as E1 E2. rewrite (row_unique m y) in Hs by done. congruence.
  - intros id s Hi Hne. destruct (decide (id = me_id m)) as [->|Hni].
    + exists "live". split; [|done]. apply (view_status m _ _ _ fst); [done|done|by right].
    + exists s. split; [|done]. apply (view_status m _ _ _ fst); [done|done|by left].
Qed.
End Live.
(** The codes after a change of a status: a meeting that is not closed was not closed before. *)
Lemma status_codes m status started closed_ :
  m ∈ mc_rows c → me_status m ≠ "closed" →
  codes_ok (jview <$> update_row me_id (me_id m) (set_status status started closed_) (mc_rows c)).
Proof.
  intros Hm Hs. destruct (ok_codes c Hc) as [J1 J2].
  assert (Hold : ∀ id s q x, (id, s, q, x) ∈ jview <$> update_row me_id (me_id m) (set_status status started closed_) (mc_rows c) →
            ∃ s0, (id, s0, q, x) ∈ jview <$> mc_rows c ∧ (s ≠ "closed" → s0 ≠ "closed")).
  { intros id s q x [[Hi _]|E]%(view_status m _ _ _ (λ v, v.1.1.1)); [eauto| |done|done]. injection E as -> -> -> ->.
    exists (me_status m). split; [by apply (view_in jview)|done]. }
  split.
  - intros id s x (s0 & Hi & _)%Hold. eauto.
  - intros id s q id' s' q' x (s0 & Hi & E)%Hold (s1 & Hj & E')%Hold N N'. eauto.
Qed.
Lemma ok_live m p started :
  m ∈ mc_rows c → me_status m = "planned" → me_protokollant_id m = Some (pk_principal_id p) →
  pk_id p ∉ pk_id <$> mc_periods c → pk_meeting_id p = me_id m → is_running p = true →
  mcore_ok (put_periods (mc_periods c ++ [p]) (on_row (me_id m) (set_status "live" (Some started) None) c)).
Proof.
  intros Hm Hs Hk Hn Ep Hr. split; cbn [mc_rows mc_periods mc_items mc_guests mc_votes on_row put_rows put_periods].
  - apply life_update; [done| |apply Hc]. intros x _ _ _. right. left. done.
  - by apply live_keepers.
  - rewrite update_row_map by done. apply Hc.
  - by apply live_guests.
  - apply status_codes; [done|]. by rewrite Hs.
  - by apply live_votes.
Qed.

(** The close. *)
Section Close.
Context (m : Meeting) (now : Z) (item : option string).
Context (Hm : m ∈ mc_rows c) (Hs : me_status m = "live") (Hno : no_open_vote c (me_id m)).
Let rows' := update_row me_id (me_id m) (set_status "closed" (me_started_at m) (Some now)) (mc_rows c).
Lemma close_view {B} (key : B → string) (g : Meeting → B) v :
  (∀ x, key (g x) = me_id x) →
  v ∈ g <$> rows' ↔ (v ∈ g <$> mc_rows c ∧ key v ≠ me_id m) ∨ v = g (set_status "closed" (me_started_at m) (Some now) m).
Proof. intros Hk. by apply view_status. Qed.
Lemma close_keepers : keepers_ok (kview <$> rows') (without_planned (me_id m) (ended (me_id m) now item (mc_periods c))).
Proof.
  pose proof (ok_keepers c Hc) as H2.
  assert (Hgone : ∀ q, q ∈ without_planned (me_id m) (ended (me_id m) now item (mc_periods c)) → pk_meeting_id q = me_id m →
            is_running q = false ∧ is_planned q = false).
  { intros q [[[Hq Hn]|(? & _ & _ & _ & _ & ? & ?)]%elem_ended Hp]%elem_without E; [|done].
    split; [destruct (is_running q)|destruct (is_planned q)]; naive_solver. }
  eapply (keepers_local _ _ _ _ (me_id m)); [| | | | | | |exact H2].
  - intros v Hne. rewrite (close_view (λ v, v.1.1)) by done. split; [intros [[]| ->]; done|by left].
  - intros q Hne. rewrite elem_without. split.
    + intros [[[Hq _]|(? & _ & _ & E & _)]%elem_ended _]; [done|congruence].
    + intros Hq. split; [apply ended_keeps; [done|by intros []]|by intros []].
  - apply keyed_without, keyed_ended, H2.
  - apply elem_key. eexists. split; [apply (close_view (λ v, v.1.1)); [done|by right]|done].
  - intros q Hq E Hp. by destruct (Hgone q Hq E); congruence.
  - intros q Hq E Hp. by destruct (Hgone q Hq E); congruence.
  - intros k [[_ Hne]|E]%(close_view (λ v, v.1.1)); done.
Qed.
Lemma close_guests : guests_ok (gview <$> rows') (purged (me_id m) (mc_guests c)).
Proof.
  eapply guests_map; [..|apply Hc].
  - intros g. by destruct (bool_decide _).
  - intros g. destruct (bool_decide _); [by right|by left].
  - intros g s p Hg HP Hi Hf. destruct (decide (mg_meeting_id g = me_id m)) as [E|Hne].
    + rewrite bool_decide_true by done. exists "closed", (me_public_join m). split.
      { apply (close_view (λ v, v.1.1)); [done|]. right. unfold gview. cbn. by rewrite E. }
      apply list_elem_of_fmap in Hi as (y & Ey & Hy). injection Ey as Ey -> ->.
      assert (y = m) as -> by (apply row_unique; congruence). destruct Hf as [F1 F2 F3 F4 F5 F6 F7]. split; cbn; try done. intros _.
      split; [|done]. destruct (mg_admitted_at g); [by eexists|]. by destruct HP.
    + rewrite bool_decide_false by done. exists s, p. split; [|done]. apply (close_view (λ v, v.1.1)); [done|by left].
Qed.
Lemma close_votes : votes_ok (sview <$> rows') (iview <$> mc_items c) (drafts_ended (me_id m) <$> mc_votes c).
Proof.
  destruct (ok_votes c Hc) as [V1 V2 V3 V4].
  assert (Hv : ∀ id m' i s, (drafts_ended (me_id m) <$> mc_votes c) !! id = Some (Some m', i, s) →
            ∃ s0, mc_votes c !! id = Some (Some m', i, s0) ∧ (s = open → s0 = open ∧ m' ≠ me_id m) ∧ (s = draft → s0 = draft ∧ m' ≠ me_id m)).
  { intros id m' i s. rewrite lookup_fmap, fmap_Some. intros ([[m0 i0] s0] & Hl & E). unfold drafts_ended in E. cbn in E.
    destruct (bool_decide (m0 = Some (me_id m)) && bool_decide (s0 = draft)) eqn:Eb; injection E as E1 E2 E3; subst; exists s0; split; try done.
    split; intros ->; (split; [done|]); intros ->; [by eapply (Hno id)|]. by rewrite !bool_decide_true in Eb. }
  split.
  - intros id m' i s (s0 & Hl & _)%Hv. unfold rows'. rewrite <- list_fmap_compose, update_row_map, list_fmap_compose by done. eauto.
  - intros id m' i (s0 & Hl & Ho & _)%Hv. destruct (Ho eq_refl) as [-> Hne]. apply (close_view fst); [done|left]. split; [eauto|done].
  - intros id m' i (s0 & Hl & _ & Ho)%Hv. destruct (Ho eq_refl) as [-> Hne]. destruct (V3 _ _ _ Hl) as (st & Hst & Hn). exists st. split; [|done].
    apply (close_view fst); [done|by left].
  - intros id m' i s (s0 & Hl & _)%Hv. eauto.
Qed.
Lemma ok_close :
  mcore_ok (put_guests (purged (me_id m) (mc_guests c))
        (put_votes (drafts_ended (me_id m) <$> mc_votes c)
          (put_periods (without_planned (me_id m) (ended (me_id m) now item (mc_periods c)))
            (on_row (me_id m) (set_status "closed" (me_started_at m) (Some now)) c)))).
Proof.
  split; cbn [mc_rows mc_periods mc_items mc_guests mc_votes on_row put_rows put_periods put_guests put_votes].
  - assert (Hl : life m) by (eapply Forall_forall; [apply Hc|done]).
    apply life_update; [done| |apply Hc]. intros x _ _ _. right. right. split; [done|]. cbn. split; [|by eexists].
    destruct Hl as [(E & _)|[(_ & E & _)|(E & _)]]; [congruence|done|congruence].
  - apply close_keepers.
  - rewrite update_row_map by done. apply Hc.
  - apply close_guests.
  - apply status_codes; [done|]. by rewrite Hs.
  - apply close_votes.
Qed.
End Close.

(** The delete of a meeting: what belongs to the others stays. *)
Section Delete.
Context (id : string).
Let rows' := filter (λ m, me_id m ≠ id) (mc_rows c).
Lemma delete_view {B} (key : B → string) (g : Meeting → B) v :
  (∀ x, key (g x) = me_id x) → v ∈ g <$> rows' ↔ v ∈ g <$> mc_rows c ∧ key v ≠ id.
Proof.
  intros Hk. unfold rows'. rewrite !list_elem_of_fmap. split.
  - intros (x & -> & [Hn Hx]%list_elem_of_filter). rewrite Hk. eauto.
  - intros ((x & -> & Hx) & Hn). rewrite Hk in Hn. exists x. rewrite list_elem_of_filter. auto.
Qed.
Lemma delete_keepers : keepers_ok (kview <$> rows') (filter (λ p, pk_meeting_id p ≠ id) (mc_periods c)).
Proof.
  destruct (ok_keepers c Hc) as [[K1 K2 K3 K4] H2 H3 H4 H5].
  assert (Hin : ∀ p, p ∈ filter (λ p, pk_meeting_id p ≠ id) (mc_periods c) → p ∈ mc_periods c ∧ pk_meeting_id p ≠ id).
  { intros p Hp%list_elem_of_filter. tauto. }
  split.
  - split; [by apply keys_filter| | |]; intros; repeat match goal with H : _ ∈ filter _ _ |- _ => apply Hin in H as [? _] end; eauto.
  - intros p [Hp Hn]%Hin. apply elem_key. destruct (proj1 (elem_key _ _) (H2 p Hp)) as (v & Hv & E). exists v. split; [|done].
    apply (delete_view (λ v, v.1.1)); [done|]. by rewrite E.
  - intros p [Hp Hn]%Hin Hpl. destruct (H3 p Hp Hpl) as [k Hk]. exists k. by apply (delete_view (λ v, v.1.1)).
  - intros p [Hp Hn]%Hin Hr. apply (delete_view (λ v, v.1.1)); [done|]. auto.
  - intros i k [Hk Hn]%(delete_view (λ v, v.1.1)); [|done]. destruct (H5 i k Hk) as (p & Hp & <- & R). exists p.
    rewrite list_elem_of_filter. auto.
Qed.
Lemma delete_item_kept i m :
  (i, m) ∈ iview <$> mc_items c → m ≠ id → (i, m) ∈ iview <$> filter (λ i, ai_meeting_id i ≠ id) (mc_items c).
Proof.
  intros (a & E & Ha)%list_elem_of_fmap Hn. injection E as -> ->. apply list_elem_of_fmap. exists a.
  rewrite list_elem_of_filter. done.
Qed.
Lemma delete_guests : guests_ok (gview <$> rows') (filter (λ g, mg_meeting_id g ≠ id) (mc_guests c)).
Proof.
  rewrite <- (list_fmap_id (filter _ (mc_guests c))). eapply guests_map; [done|by left| |apply Hc].
  intros g s p Hg Hn Hi Hf. exists s, p. split; [|done]. by apply (delete_view (λ v, v.1.1)).
Qed.
Lemma delete_codes : codes_ok (jview <$> rows').
Proof.
  destruct (ok_codes c Hc) as [J1 J2]. split.
  - intros i s x [H _]%(delete_view (λ v, v.1.1.1)); [eauto|done].
  - intros i s p i' s' p' x [H _]%(delete_view (λ v, v.1.1.1)) [H' _]%(delete_view (λ v, v.1.1.1)); [eauto|done..].
Qed.
Lemma delete_votes :
  votes_ok (sview <$> rows') (iview <$> filter (λ i, ai_meeting_id i ≠ id) (mc_items c)) (filter (λ kv, kv.2.1.1 ≠ Some id) (mc_votes c)).
Proof.
  destruct (ok_votes c Hc) as [V1 V2 V3 V4]. split.
  - intros v m i s [Hv Hn]%map_lookup_filter_Some. cbn in Hn. specialize (V1 _ _ _ _ Hv). apply list_elem_of_fmap in V1 as (x & -> & Hx).
    apply list_elem_of_fmap. exists x. split; [done|]. apply (delete_view fst); [done|]. split; [done|congruence].
  - intros v m i [Hv Hn]%map_lookup_filter_Some. cbn in Hn. apply (delete_view fst); [done|]. split; [eauto|cbn; congruence].
  - intros v m i [Hv Hn]%map_lookup_filter_Some. cbn in Hn. destruct (V3 _ _ _ Hv) as (st & Hst & Hne). exists st. split; [|done].
    apply (delete_view fst); [done|]. split; [done|cbn; congruence].
  - intros v m i s [Hv Hn]%map_lookup_filter_Some. cbn in Hn. apply delete_item_kept; [eauto|congruence].
Qed.
Lemma ok_delete :
  mcore_ok (MkMCore rows' (filter (λ p, pk_meeting_id p ≠ id) (mc_periods c)) (filter (λ i, ai_meeting_id i ≠ id) (mc_items c))
              (filter (λ g, mg_meeting_id g ≠ id) (mc_guests c)) (filter (λ kv, kv.2.1.1 ≠ Some id) (mc_votes c))
              (filter (λ q, q.1 ≠ id) (mc_protocols c))).
Proof.
  split; cbn [mc_rows mc_periods mc_items mc_guests mc_votes].
  - destruct (ok_life c Hc) as [L1 L2]. split; [by apply keys_filter|]. rewrite Forall_forall in L2 |- *.
    intros x [_ Hx]%list_elem_of_filter. auto.
  - apply delete_keepers.
  - destruct (ok_current c Hc) as [C1 C2]. split; [rewrite item_ids; apply keys_filter; by rewrite <- item_ids|].
    intros m i [Hv Hn]%(delete_view fst); [|done]. apply delete_item_kept; auto.
  - apply delete_guests.
  - apply delete_codes.
  - apply delete_votes.
Qed.
End Delete.
Lemma move_ok c' : meeting_move c c' → mcore_ok c'.
Proof.
  destruct 1; [by apply ok_create|by apply ok_live|by apply ok_close|apply ok_delete].
Qed.
End Moves.
Lemma quiets_ok fresh c c' : rtc (quiet fresh) c c' → mcore_ok c → mcore_ok c'.
Proof. induction 1; eauto using quiet_ok. Qed.
Lemma run_ok fresh c c' : run fresh c c' → mcore_ok c → mcore_ok c'.
Proof.
  intros (c1 & c2 & H1 & H2 & H3) Hok. eapply quiets_ok; [exact H3|]. destruct H2 as [-> |H2]; [by eapply quiets_ok|].
  eapply move_ok; [|exact H2]. by eapply quiets_ok.
Qed.
