(* ===== verification/MeetingSim.v ===== *)
(** The operations on the agenda, the keepers and the guests are runs of the moves of [MeetingCore] on
    the core of their tables. *)

From stdpp Require Import gmap strings.
From S2P Require Import Prelude PyStr PyNum PyValue PyDate VoteConfigs Tally Election FlowDb Decision FlowEngine.
From S2P Require Import FlowEngineFacts Policy Room VoteRows VoteService VoteClose VoteServiceFacts Sha256 VoteWrites.
From S2P Require Import Meetings Agenda Guests Lifecycle MeetingCore MeetingInv.

(** ** The core *)
Definition vcore (v : Vote) : option string * option string * VoteStatus := (vo_meeting_id v, vote_item v, vote_status v).
Definition core (d : MeetingDb) : MCore :=
  MkMCore (meeting_rows d) (keeper_periods d) (items d) (guest_rows d) (vcore <$> votes (flow_db (room d))) (protocols d).
Definition quiets (fresh : bool) (d d' : MeetingDb) : Prop := rtc (quiet fresh) (core d) (core d').
Definition moves (fresh : bool) (d d' : MeetingDb) : Prop := run fresh (core d) (core d').
Notation tables_ok d := (mcore_ok (core d)).
#[export] Instance quiets_preorder fresh : PreOrder (quiets fresh).
Proof. unfold quiets. split; [intros d; apply rtc_refl|intros a b c H1 H2; by etransitivity]. Qed.
Lemma quiets_same fresh d d' : core d' = core d → quiets fresh d d'.
Proof. unfold quiets. by intros ->. Qed.
Lemma quiets_one fresh d d' : quiet fresh (core d) (core d') → quiets fresh d d'.
Proof. apply rtc_once. Qed.
Lemma quiets_moves fresh d d' : quiets fresh d d' → moves fresh d d'.
Proof. intros H. exists (core d), (core d). auto using rtc_refl. Qed.
#[export] Instance moves_refl fresh : Reflexive (moves fresh).
Proof. intros d. by apply quiets_moves. Qed.
Lemma moves_one fresh d d' : meeting_move (core d) (core d') → moves fresh d d'.
Proof. intros H. exists (core d), (core d'). auto using rtc_refl. Qed.
Lemma moves_after fresh d d1 d' : quiets fresh d d1 → moves fresh d1 d' → moves fresh d d'.
Proof. intros H (c1 & c2 & H1 & H2). exists c1, c2. split; [by etransitivity|done]. Qed.
Lemma moves_before fresh d d1 d' : moves fresh d d1 → quiets fresh d1 d' → moves fresh d d'.
Proof. intros (c1 & c2 & H1 & H2 & H3) H. exists c1, c2. split; [done|]. split; [done|]. by etransitivity. Qed.
Lemma moves_keep fresh d d' : moves fresh d d' → tables_ok d → tables_ok d'.
Proof. apply run_ok. Qed.
Lemma quiets_keep fresh d d' : quiets fresh d d' → tables_ok d → tables_ok d'.
Proof. apply quiets_ok. Qed.

(** ** What the lookups find *)
Lemma or_meeting_ok {A} (o : option A) e a : or_meeting o e = Ok a ↔ o = Some a.
Proof. destruct o; cbn; split; congruence. Qed.
Lemma get_ok d id m : _get d id = Ok m → m ∈ mc_rows (core d) ∧ me_id m = id.
Proof. intros H%or_meeting_ok. split; [by apply find_by_elem in H|by apply find_by_id in H]. Qed.
Lemma find_item_ok d meeting id i : find_item d meeting id = Some i → i ∈ mc_items (core d) ∧ ai_id i = id ∧ ai_meeting_id i = meeting.
Proof.
  intros H. apply find_by_id in H as E. apply find_by_elem, list_elem_of_filter in H as [Hm Hi]. done.
Qed.
Lemma agenda_open m u : _assert_agenda_open m = Ok u → me_status m ≠ "closed".
Proof. intros H%raise_if_ok. bool_prop. intros E. rewrite E in H. set_solver. Qed.
Lemma minutes_open d m u :
  _assert_minutes_open d m = Ok u → me_status m = "closed" → snd <$> find_by fst (me_id m) (protocols d) = Some "draft".
Proof. unfold _assert_minutes_open. intros H E. rewrite bool_decide_true in H by done. apply raise_if_ok in H. by bool_prop. Qed.
Lemma the_row d m m' : tables_ok d → m ∈ mc_rows (core d) → m' ∈ mc_rows (core d) → me_id m = me_id m' → m = m'.
Proof. intros H. by apply row_unique. Qed.

(** ** The agenda *)
(** A write of one item: its text, and while the meeting is not closed also its place. *)
Lemma write_item_moves fresh id f d d' :
  (∀ i, item_text_only i (f i)) → (fresh = true → ∀ i, i ∈ items d → ai_id i = id → minutes_rule (core d) i (f i)) →
  write_item id f d = Ok d' → quiets fresh d d'.
Proof.
  intros Hf Hm H. unfold write_item in H. apply bind_ok in H as (_ & _ & H). apply Ok_inj in H as <-.
  apply quiets_one. by apply (q_item fresh (core d) id f).
Qed.
(** The meeting of an item that a request saw. *)
Lemma seen_item d m meeting id row i :
  tables_ok d → _get d meeting = Ok m → item d meeting id = Ok row → i ∈ items d → ai_id i = id →
  i = row ∧ ai_meeting_id i = me_id m ∧ (∀ x, x ∈ mc_rows (core d) → me_id x = ai_meeting_id i → x = m).
Proof.
  intros Hok [Hm Em]%get_ok (Hr & Ei & Er)%or_meeting_ok%find_item_ok Hi E.
  assert (i = row) as ->.
  { apply (same_row ai_id (items d)); [|done|done|congruence]. rewrite <- item_ids. apply Hok. }
  split; [done|]. split; [congruence|]. intros x Hx Ex. apply (the_row d); [done|done|done|congruence].
Qed.
Lemma set_body_moves fresh k d meeting id body title np actor d' :
  tables_ok d → (fresh = true → k = d) → set_body k d meeting id body title np actor = Ok d' → quiets fresh d d'.
Proof.
  intros Hok Hk H. unfold set_body in H. apply bind_ok in H as (m & Hm & H). apply bind_ok in H as (row & Hrow & H).
  apply bind_ok in H as (u1 & Ht & H). apply bind_ok in H as (u2 & Hb & H). cbn zeta in H. remember (plan_edit k row body title np) as e eqn:He.
  apply bind_ok in H as (_ & _ & H). apply bind_ok in H as (d1 & Hw & H). transitivity d1.
  - destruct (_ && _) eqn:Eno in Hw; [by apply Ok_inj in Hw as <-|]. eapply write_item_moves; [| |exact Hw]; [done|].
    intros Hf i Hi E. specialize (Hk Hf) as ->. destruct (seen_item _ _ _ _ _ _ Hok Hm Hrow Hi E) as (-> & Em & Hu).
    intros x Hx Ex Hcl. rewrite (Hu x Hx Ex) in *. split; [done|].
    assert (title = None) as ->. { destruct title; [|done]. by apply agenda_open in Ht. }
    assert (Et : ie_title e = None) by (rewrite He; cbn; by rewrite bool_decide_true).
    split; [cbn; by rewrite Et|]. intros Hp. destruct Hp.
    destruct (bool_decide (is_Some body) || bool_decide (is_Some np)) eqn:Esent; [by eapply minutes_open|].
    exfalso. rewrite Et in Eno. destruct body, np; try discriminate Esent. by rewrite He in Eno.
  - destruct (changed_fields _ _); apply Ok_inj in H as <-; [done|]. by apply quiets_same.
Qed.
Lemma set_done_moves fresh k d m id done_ actor via now d' meeting :
  tables_ok d → (fresh = true → _get d meeting = Ok m ∧ k = d) → me_id m = meeting →
  set_done_in_tx k d m id done_ actor via now = Ok d' → quiets fresh d d'.
Proof.
  intros Hok Hk Em H. unfold set_done_in_tx in H. apply bind_ok in H as (row & Hrow & H). apply bind_ok in H as (u & Hmin & H).
  destruct (bool_decide _); [by apply Ok_inj in H as <-|]. apply bind_ok in H as (d1 & Hw & H). transitivity d1.
  - eapply write_item_moves; [| |exact Hw]; [done|]. intros Hf i Hi E. destruct (Hk Hf) as [Hm ->].
    rewrite Em in Hrow. destruct (seen_item _ _ _ _ _ _ Hok Hm Hrow Hi E) as (-> & Emi & Hu).
    intros x Hx Ex Hcl. rewrite (Hu x Hx Ex) in *. split; [done|]. split; [done|]. intros Hp. destruct Hp. by eapply minutes_open.
  - apply Ok_inj in H as <-. by apply quiets_same.
Qed.
Lemma write_positions_moves fresh l d d' :
  (fresh = true → ∀ i m, i ∈ items d → ai_id i ∈ l.*1 → m ∈ meeting_rows d → me_id m = ai_meeting_id i → me_status m ≠ "closed") →
  write_positions l d = Ok d' → quiets fresh d d'.
Proof.
  revert d. induction l as [|[id p] l IH]; intros d Hopen H; cbn in H; [by apply Ok_inj in H as <-|].
  apply bind_ok in H as (d1 & Hw & H). transitivity d1.
  - eapply write_item_moves; [| |exact Hw]; [done|]. intros Hf i Hi E m Hm Em Hcl. destruct (Hopen Hf i m Hi); [|done|done|done].
    rewrite E. by left.
  - apply IH; [|done]. intros Hf i m Hi Hin Hm. unfold write_item in Hw. apply bind_ok in Hw as (_ & _ & Hw). apply Ok_inj in Hw as <-.
    apply update_row_in in Hi as (j & Hj & Hij). assert (E : ai_id i = ai_id j ∧ ai_meeting_id i = ai_meeting_id j) by (destruct Hij as [-> |[_ ->]]; done).
    destruct E as [E1 E2]. rewrite E2. apply (Hopen Hf j m); [done| |done]. rewrite <- E1. by right.
Qed.
Lemma reorder_moves fresh k d meeting ids actor d' :
  tables_ok d → (fresh = true → k = d) → reorder k d meeting ids actor = Ok d' → quiets fresh d d'.
Proof.
  intros Hok Hk H. unfold reorder in H. apply bind_ok in H as (m & Hm & H). apply bind_ok in H as (u & Ho & H). cbn zeta in H.
  apply bind_ok in H as (d1 & Hw & H). apply Ok_inj in H as <-. transitivity d1; [|by apply quiets_same].
  eapply write_positions_moves; [|exact Hw]. intros Hf i x Hi Hin Hx Ex. specialize (Hk Hf) as ->.
  apply get_ok in Hm as [Hm Em]. apply agenda_open in Ho.
  assert (Hj : ∃ j, j ∈ items d ∧ ai_id j = ai_id i ∧ ai_meeting_id j = meeting).
  { apply list_elem_of_fmap in Hin as ([a p] & Ea & Hin). unfold moved_items in Hin. apply list_elem_of_omap in Hin as (j & Hj & E).
    apply list_elem_of_filter in Hj as [Ej Hj]. destruct (last_index _ _ _); [|done]. cbn in E. destruct (bool_decide _); [done|].
    injection E as E _. exists j. split; [done|]. split; [|done]. cbn in Ea. congruence. }
  destruct Hj as (j & Hj & E1 & E2). assert (j = i) as ->.
  { apply (same_row ai_id (items d)); [|done|done|done]. rewrite <- item_ids. apply Hok. }
  assert (x = m) as -> by (apply (the_row d); [done|done|done|congruence]). done.
Qed.
Lemma add_item_moves fresh d meeting app title np actor id now d' b :
  tables_ok d → id ∉ ai_id <$> items d → add_item_in_tx d meeting app title np actor id now = Ok (d', b) → quiets fresh d d'.
Proof.
  intros Hok Hid H. unfold add_item_in_tx in H. apply bind_ok in H as (m & [Hm Em]%get_ok & H). apply bind_ok in H as (u & Ho%agenda_open & H).
  destruct title as [t|].
  - injection H as <- _. apply quiets_one. by apply q_item_add; [|exists m].
  - apply bind_ok in H as (a & _ & H). apply bind_ok in H as ([x added] & Ha & H). injection H as <- _.
    unfold of_voting in Ha. destruct (add_in_tx _ _ _ _ _ _ _) as [[x' added']|] eqn:E; [|done]. injection Ha as -> ->.
    unfold add_in_tx in E. destruct (meeting_of _ meeting); [|done]. apply bind_ok in E as (_ & _ & E).
    destruct (applications _ !! a); [|done]. apply bind_ok in E as (_ & _ & E).
    destruct (existsb _ _); injection E as <- _; [by apply quiets_same|]. apply quiets_one. by apply q_item_add; [|exists m].
Qed.
Lemma add_todo_moves fresh d meeting todo title np actor id now d' :
  tables_ok d → id ∉ ai_id <$> items d → add_todo_in_tx d meeting todo title np actor id now = Ok d' → quiets fresh d d'.
Proof.
  intros Hok Hid H. unfold add_todo_in_tx in H. apply bind_ok in H as (m & [Hm Em]%get_ok & H). apply bind_ok in H as (u & Ho%agenda_open & H).
  apply bind_ok in H as (_ & _ & H). apply Ok_inj in H as <-. apply quiets_one. by apply q_item_add; [|exists m].
Qed.
(** The votes after the delete of some. *)
Lemma core_deleted d vid v actor reason :
  vcore <$> votes (flow_db (_delete_audited d vid v actor reason)) = delete vid (vcore <$> votes (flow_db d)).
Proof.
  apply map_eq. intros i. rewrite lookup_fmap. destruct (decide (i = vid)) as [->|Hne].
  - rewrite lookup_delete_eq. destruct (votes (flow_db (_delete_audited _ _ _ _ _)) !! vid) eqn:E; [|done]. by apply deleted_lookup in E as [].
  - rewrite lookup_delete_ne, lookup_fmap by done.
    pose proof (release_link_view vid (vo_row v) (votes (flow_db d)) i) as E.
    unfold _delete_audited, delete_row. cbn [flow_db with_flow with_ballots votes vote_audit room_audit audit_record with_votes].
    rewrite lookup_fmap, lookup_delete_ne by done. destruct (release_link _ _ _ !! i) as [w|], (votes (flow_db d) !! i) as [w0|]; try done.
    cbn in E |- *. apply (inj Some) in E. injection E as _ Es _ _ _ _ _ Em Eb. unfold vcore, vote_item, vote_status in *. cbn.
    by rewrite Em, Eb, Es.
Qed.
Lemma core_delete_all rows d actor reason i :
  (vcore <$> votes (flow_db (delete_all d rows actor reason))) !! i =
    if decide (i ∈ rows.*1) then None else (vcore <$> votes (flow_db d)) !! i.
Proof.
  revert d. induction rows as [|[j v] rows IH]; intros d; [by rewrite decide_False by apply not_elem_of_nil|].
  change (delete_all d ((j, v) :: rows) actor reason) with (delete_all (_delete_audited d j v actor reason) rows actor reason).
  rewrite IH, core_deleted, fmap_cons. cbn [fst]. destruct (decide (i ∈ rows.*1)) as [Hin|Hin].
  - by rewrite decide_True by (by right).
  - destruct (decide (i = j)) as [->|Hne]; [by rewrite lookup_delete_eq, decide_True by left|].
    rewrite lookup_delete_ne by done. rewrite decide_False by (rewrite elem_of_cons; tauto). done.
Qed.
Lemma delete_all_same rows d actor reason :
  cfg (delete_all d rows actor reason) = cfg d ∧ guests (delete_all d rows actor reason) = guests d ∧
  agenda_items (flow_db (delete_all d rows actor reason)) = agenda_items (flow_db d).
Proof.
  revert d. induction rows as [|[j v] rows IH]; intros d; [done|].
  change (delete_all d ((j, v) :: rows) actor reason) with (delete_all (_delete_audited d j v actor reason) rows actor reason).
  by destruct (IH (_delete_audited d j v actor reason)) as (-> & -> & ->).
Qed.
(** The rows that a delete picks by a part of their core. *)
Lemma core_delete_where (P : option string * option string * VoteStatus → Prop) `{∀ v, Decision (P v)} leb d d1 rows actor reason :
  votes (flow_db d1) = votes (flow_db d) →
  rows = sort_by leb (filter (λ kv, P (vcore kv.2)) (map_to_list (votes (flow_db d)))) →
  vcore <$> votes (flow_db (delete_all d1 rows actor reason)) = filter (λ kv, ¬ P kv.2) (vcore <$> votes (flow_db d)).
Proof.
  intros Ev ->. apply map_eq. intros i. apply option_eq. intros w. rewrite core_delete_all, Ev, map_lookup_filter_Some, !lookup_fmap.
  cbn. assert (Hrow : ∀ v, votes (flow_db d) !! i = Some v →
    i ∈ (sort_by leb (filter (λ kv, P (vcore kv.2)) (map_to_list (votes (flow_db d))))).*1 ↔ P (vcore v)).
  { intros v E. rewrite list_elem_of_fmap. split.
    - intros ([j u] & -> & Hj%sort_filter_elem). destruct Hj as [Hj HP]. cbn in Hj, E. rewrite E in Hj. by injection Hj as ->.
    - intros HP. exists (i, v). split; [done|]. apply elem_of_sort_by, list_elem_of_filter. split; [done|]. by apply elem_of_map_to_list. }
  destruct (votes (flow_db d) !! i) as [v|]; cbn; [|by case_decide; naive_solver].
  specialize (Hrow v eq_refl). case_decide as Hin; rewrite Hrow in Hin; split.
  - done.
  - intros [[= <-] HP]. done.
  - intros [= <-]. done.
  - by intros [].
Qed.
Lemma remove_moves fresh d meeting id actor may d' :
  tables_ok d → remove d meeting id actor may = Ok d' → quiets fresh d d'.
Proof.
  intros Hok H. unfold remove in H. apply bind_ok in H as (m & [Hm Em]%get_ok & H). apply bind_ok in H as (u & Ho%agenda_open & H).
  destruct (find_item d meeting id) as [row|] eqn:Er; [|by apply Ok_inj in H as <-]. apply find_item_ok in Er as (Hr & Ei & Emr).
  apply bind_ok in H as ([r deleted] & Hd & H). apply Ok_inj in H as <-.
  unfold of_voting in Hd. destruct (delete_for_agenda_item _ _ _ _) as [[r' ids]|] eqn:E; [|done]. injection Hd as -> ->.
  unfold delete_for_agenda_item in E. cbn zeta in E. set (rows := sort_by _ _) in E. apply bind_ok in E as (_ & _ & E). apply bind_ok in E as (_ & _ & E).
  injection E as <- _. destruct (delete_all_same rows (room d) actor None) as (E1 & E2 & E3).
  apply quiets_one. match goal with |- quiet _ _ ?x => replace x with
    (put_votes (filter (λ kv, kv.2.1.2 ≠ Some id) (mc_votes (core d)))
      (put_periods (unlink_period id <$> mc_periods (core d))
        (put_items (filter (λ i, ai_id i ≠ id) (mc_items (core d))) (put_rows (unlink_meeting id <$> mc_rows (core d)) (core d))))) end.
  - apply (q_item_remove _ _ _ m); [done|done|]. apply list_elem_of_fmap. exists row. split; [|done]. unfold iview. congruence.
  - pose proof (core_delete_where (λ v, v.1.2 = Some id) by_created (room d) (room d) rows actor None eq_refl eq_refl) as Ev.
    symmetry. unfold core, put_votes, put_periods, put_items, put_rows.
    change (votes (flow_db (room (delete_item id _)))) with (votes (flow_db (delete_all (room d) rows actor None))). rewrite Ev.
    unfold delete_item, agenda_audit, meeting_audit, items, meeting_rows, guest_rows.
    unfold cfg in *. f_equal; cbn; [by rewrite E1|by rewrite E3|done].
Qed.

(** ** The keepers *)
Lemma period_ok d id planned p :
  _period d id planned = Some p →
  p ∈ keeper_periods d ∧ pk_meeting_id p = id ∧ (if planned then is_planned p else is_running p) = true.
Proof. unfold _period. intros H%head_in%list_elem_of_filter. tauto. Qed.
Lemma period_none d id planned q :
  _period d id planned = None → q ∈ keeper_periods d → pk_meeting_id q = id → (if planned then is_planned q else is_running q) = false.
Proof.
  unfold _period. intros H Hq E. destruct (filter _ _) as [|x l] eqn:Ef; [|done].
  destruct (if planned then _ else _) eqn:Ek; [|done]. exfalso. apply (not_elem_of_nil q). rewrite <- Ef. by apply list_elem_of_filter.
Qed.
(** Two filters that agree on the elements. *)
Lemma filter_agrees {A} (P Q : A → Prop) `{∀ x, Decision (P x)} `{∀ x, Decision (Q x)} (l : list A) :
  (∀ x, x ∈ l → P x ↔ Q x) → filter P l = filter Q l.
Proof.
  induction l as [|x l IH]; intros Hl; [done|]. rewrite !filter_cons. rewrite IH by (intros y Hy; apply Hl; by right).
  assert (P x ↔ Q x) by (apply Hl; left). repeat case_decide; tauto.
Qed.
Lemma drop_planned_core d id :
  keyed (keeper_periods d) → core (_drop_planned d id).1 = put_periods (without_planned id (keeper_periods d)) (core d).
Proof.
  intros [K1 K2 K3 K4]. unfold _drop_planned, without_planned. destruct (_period d id true) as [p|] eqn:E; cbn.
  - apply period_ok in E as (Hp & Em & Hpl). unfold core, put_periods. cbn. f_equal. apply filter_agrees. intros q Hq. split.
    + intros Hne [Eq Hqp]. apply Hne. f_equal. apply K3; [done|done|congruence|done|done].
    + intros Hn E. apply Hn. by rewrite (same_row pk_id (keeper_periods d) q p).
  - unfold core, put_periods. cbn. f_equal. symmetry. apply filter_all, Forall_forall. intros q Hq [Eq Hqp].
    by rewrite (period_none d id true q) in Hqp.
Qed.
Lemma end_running_core d m now item :
  keyed (keeper_periods d) → core (_end_running d m now item) = put_periods (ended (me_id m) now item (keeper_periods d)) (core d).
Proof.
  intros [K1 K2 K3 K4]. unfold _end_running. destruct (_period d (me_id m) false) as [p|] eqn:E.
  - apply period_ok in E as (Hp & Em & Hr). unfold core, put_periods, update_period, update_row, ended. cbn. f_equal.
    apply list_fmap_ext. intros n q Hq%list_elem_of_lookup_2. destruct (decide (pk_id q = pk_id p)) as [Ei|Hne].
    + assert (q = p) as -> by (by apply (same_row pk_id (keeper_periods d))). by rewrite !bool_decide_true, Hr.
    + rewrite bool_decide_false by done. destruct (bool_decide (pk_meeting_id q = me_id m)) eqn:Eq; [|done]. cbn.
      destruct (is_running q) eqn:Rq; [|done]. apply bool_decide_eq_true in Eq. destruct Hne. f_equal. apply K2; [done|done|congruence|done|done].
  - unfold core, put_periods, ended. cbn. f_equal. rewrite <- (list_fmap_id (keeper_periods d)) at 1. apply list_fmap_ext.
    intros n q Hq%list_elem_of_lookup_2. destruct (bool_decide (pk_meeting_id q = me_id m)) eqn:Eq; [|done]. apply bool_decide_eq_true in Eq.
    by rewrite (period_none d (me_id m) false q).
Qed.
Lemma add_period_core p d d' : add_period p d = Ok d' → core d' = put_periods (keeper_periods d ++ [p]) (core d).
Proof. unfold add_period. intros (_ & _ & H)%bind_ok. by apply Ok_inj in H as <-. Qed.
(** A fresh period. *)
Definition new_period (d : MeetingDb) (id : string) : Prop := id ∉ pk_id <$> keeper_periods d.
Lemma switch_moves fresh d m keeper id now d' :
  tables_ok d → m ∈ meeting_rows d → me_status m = "live" → new_period d id → switch_now d m keeper id now = Ok d' → quiets fresh d d'.
Proof.
  intros Hok Hm Hs Hid H. unfold switch_now in H. cbn zeta in H. apply bind_ok in H as (d3 & Ha%add_period_core & H). apply Ok_inj in H as <-.
  pose proof (ko_keyed _ _ (ok_keepers _ Hok)) as Hk.
  assert (E1 : core (_drop_planned d (me_id m)).1 = put_periods (without_planned (me_id m) (keeper_periods d)) (core d)) by (by apply drop_planned_core).
  set (d1 := (_drop_planned d (me_id m)).1) in *. assert (Ep : keeper_periods d1 = without_planned (me_id m) (keeper_periods d)) by (exact (f_equal mc_periods E1)).
  assert (E2 : core (_end_running d1 m now (me_current_agenda_item_id m)) =
            put_periods (ended (me_id m) now (me_current_agenda_item_id m) (without_planned (me_id m) (keeper_periods d))) (core d)).
  { rewrite end_running_core by (rewrite Ep; by apply keyed_without). by rewrite Ep, E1. }
  set (d2 := _end_running _ _ _ _) in *. assert (Ep2 := f_equal mc_periods E2). cbn in Ep2.
  apply quiets_one. replace (core (set_keeper_of (me_id m) keeper d3)) with (on_row (me_id m) (set_keeper (Some keeper)) (core d3)) by done.
  rewrite Ha, E2, Ep2. by apply (q_switch _ (core d) m (running_period id m keeper now) now (me_current_agenda_item_id m)).
Qed.
Lemma plan_moves fresh d m p d' :
  tables_ok d → m ∈ meeting_rows d → me_status m = "live" → new_period d (pk_id p) → pk_meeting_id p = me_id m → is_planned p = true →
  pk_to_at p = None → add_period p (_drop_planned d (me_id m)).1 = Ok d' → quiets fresh d d'.
Proof.
  intros Hok Hm Hs Hid Em Hp Ht H%add_period_core. pose proof (ko_keyed _ _ (ok_keepers _ Hok)) as Hk.
  pose proof (drop_planned_core d (me_id m) Hk) as E1. pose proof (f_equal mc_periods E1) as Ep. cbn in Ep.
  apply quiets_one. rewrite H, E1, Ep. by apply (q_plan _ (core d) m).
Qed.
Lemma drop_plan_moves fresh d id : tables_ok d → quiets fresh d (_drop_planned d id).1.
Proof.
  intros Hok. apply quiets_one. rewrite drop_planned_core by apply Hok. apply (q_drop_plan _ (core d)).
Qed.
Lemma live_for_handover d id p m : _live_for_handover d id p = Ok m → m ∈ meeting_rows d ∧ me_id m = id ∧ me_status m = "live".
Proof.
  unfold _live_for_handover. intros (m' & [Hm Em]%get_ok & H)%bind_ok. apply bind_ok in H as (_ & _ & H).
  apply bind_ok in H as (_ & Hs%raise_if_ok & H). apply Ok_inj in H as <-. by bool_prop.
Qed.
Lemma hand_over_moves fresh d meeting target mode p id now d' :
  tables_ok d → new_period d id → hand_over d meeting target mode p id now = Ok d' → quiets fresh d d'.
Proof.
  intros Hok Hid H. unfold hand_over in H. apply bind_ok in H as (m & (Hm & <- & Hs)%live_for_handover & H).
  do 2 apply bind_ok in H as (? & _ & H). apply bind_ok in H as (d1 & Hd & H). apply Ok_inj in H as <-.
  transitivity d1; [|by apply quiets_same]. destruct mode.
  - exact (switch_moves fresh d m target id now d1 Hok Hm Hs Hid Hd).
  - cbn zeta in Hd. apply bind_ok in Hd as (_ & _ & Hd).
    by eapply (plan_moves fresh d m (MkPeriod id (me_id m) target None None None None)).
Qed.
Lemma cancel_handover_moves fresh d meeting p d' :
  tables_ok d → cancel_handover d meeting p = Ok d' → quiets fresh d d'.
Proof.
  intros Hok H. unfold cancel_handover in H. apply bind_ok in H as (m & _ & H). destruct (_drop_planned d meeting) as [d1 pl] eqn:E.
  apply bind_ok in H as (q & _ & H). apply Ok_inj in H as <-. transitivity d1; [|by apply quiets_same].
  replace d1 with (_drop_planned d meeting).1 by (by rewrite E). by apply drop_plan_moves.
Qed.
(** [m]: the meeting after the move of the item. *)
Lemma activate_moves fresh d m old new actor now d' b :
  tables_ok d → m ∈ meeting_rows d → me_status m = "live" → activate_planned d m old new actor now = Ok (d', b) → quiets fresh d d'.
Proof.
  intros Hok Hm Hs H. unfold activate_planned in H. destruct new as [new|]; [|by injection H as <- _].
  destruct (_period d (me_id m) true) as [p|] eqn:Ep; [|by injection H as <- _]. case_bool_decide; [by injection H as <- _|].
  apply bind_ok in H as (fwd & _ & H). destruct (negb fwd); [by injection H as <- _|].
  destruct (negb _); injection H as <- _.
  - transitivity (_drop_planned d (me_id m)).1; [by apply drop_plan_moves|by apply quiets_same].
  - apply period_ok in Ep as (Hp & Em & Hpl). apply quiets_one.
    set (d1 := _end_running d m now old). assert (E1 : core d1 = put_periods (ended (me_id m) now old (keeper_periods d)) (core d)).
    { apply end_running_core, Hok. }
    pose proof (f_equal mc_periods E1) as Ep. cbn in Ep.
    change (quiet fresh (core d) (put_periods (update_row pk_id (pk_id p) (start_period now (Some new)) (keeper_periods d1))
                                    (on_row (me_id m) (set_keeper (Some (pk_principal_id p))) (core d1)))).
    rewrite Ep, E1. by apply (q_activate _ (core d) m p now old (Some new)).
Qed.

(** ** One guest *)
(** A change of the guest with one id that its invariant allows. *)
Lemma guest_moves fresh d id f :
  (∀ g, mg_id (f g) = mg_id g ∧ mg_meeting_id (f g) = mg_meeting_id g ∧ mg_seq (f g) = mg_seq g) →
  (∀ g, mg_token_hash (f g) = mg_token_hash g ∨ mg_token_hash (f g) = None) →
  (∀ m g, m ∈ meeting_rows d → g ∈ guest_rows d → mg_id g = id → mg_meeting_id g = me_id m →
     guest_fine (me_status m) (me_public_join m) g → guest_fine (me_status m) (me_public_join m) (f g)) →
  quiets fresh d (update_guest id f d).
Proof.
  intros Hf Ht Hg. apply quiets_one.
  assert (E : core (update_guest id f d) =
    put_guests ((λ g, if bool_decide (mg_id g = id) then f g else g) <$> filter (λ _, True) (mc_guests (core d))) (core d)).
  { unfold core, put_guests, update_guest. cbn. f_equal. by rewrite filter_all by (by apply Forall_forall). }
  rewrite E. apply (q_guests _ (core d) (λ _, True)).
  - intros g. by destruct (bool_decide _).
  - intros g. destruct (bool_decide _); [apply Ht|by left].
  - intros m g Hm Hgin Em Hfi. case_bool_decide; [by apply Hg|done].
Qed.
Lemma guest_ok d meeting id g : _guest d meeting id = Ok g → g ∈ guest_rows d ∧ mg_id g = id ∧ mg_meeting_id g = meeting.
Proof. unfold _guest. intros H%or_meeting_ok. apply find_by_id in H as E. apply find_by_elem, list_elem_of_filter in H as [Em Hg]. done. Qed.
Lemma assert_open_ok m u : _assert_open m = Ok u → me_status m ≠ "closed" ∧ me_public_join m = true.
Proof. unfold _assert_open. intros (_ & H1%raise_if_ok & H2)%bind_ok. apply raise_if_ok in H2. by bool_prop. Qed.
Lemma the_guest d g h : tables_ok d → g ∈ guest_rows d → h ∈ guest_rows d → mg_id g = mg_id h → g = h.
Proof. intros Hok. apply (same_row mg_id (guest_rows d)). apply Hok. Qed.
(** The decisions that the lead may take. *)
Lemma decided_fine s g expect to now by_ :
  s ≠ "closed" → mg_status g = expect →
  (expect, to) ∈ [("pending", "admitted"); ("pending", "rejected"); ("admitted", "removed")] →
  guest_fine s true g → guest_fine s true (decided_as to now by_ g).
Proof.
  intros Hs Hst Hto [F1 F2 F3 F4 F5 F6 F7]. rewrite Hst in *.
  repeat (apply elem_of_cons in Hto as [E|Hto]; [injection E as -> ->|]); [..|by apply not_elem_of_nil in Hto];
    (split; cbn; try done; try set_solver).
Qed.
Lemma decide_moves fresh d meeting guest actor expect to action now d' :
  tables_ok d → (expect, to) ∈ [("pending", "admitted"); ("pending", "rejected"); ("admitted", "removed")] →
  _decide d meeting guest actor expect to action now = Ok d' → quiets fresh d d'.
Proof.
  intros Hok Hto H. unfold _decide in H. apply bind_ok in H as (m & [Hm Em]%get_ok & H). apply bind_ok in H as (u & [Ho Hp]%assert_open_ok & H).
  apply bind_ok in H as (g & (Hg & Eg & Emg)%guest_ok & H). apply bind_ok in H as (_ & Hst%raise_if_ok & H). apply Ok_inj in H as <-. bool_prop.
  etransitivity; [|by apply quiets_same]. apply guest_moves; [done|by left|]. intros x h Hx Hh Ei Emh.
  assert (h = g) as -> by (apply (the_guest d); try done; congruence). assert (x = m) as -> by (apply (the_row d); try done; congruence).
  rewrite Hp. by apply (decided_fine _ _ expect).
Qed.
Lemma rename_moves fresh d meeting guest name actor d' :
  tables_ok d → rename d meeting guest name actor = Ok d' → quiets fresh d d'.
Proof.
  intros Hok H. unfold rename in H. apply bind_ok in H as (m & [Hm Em]%get_ok & H). apply bind_ok in H as (u & [Ho Hp]%assert_open_ok & H).
  apply bind_ok in H as (g & (Hg & Eg & Emg)%guest_ok & H). apply bind_ok in H as (_ & Hn%raise_if_ok & H). apply Ok_inj in H as <-. bool_prop.
  etransitivity; [|by apply quiets_same]. apply guest_moves; [done|by left|]. intros x h Hx Hh Ei Emh.
  assert (h = g) as -> by (apply (the_guest d); try done; congruence). assert (x = m) as -> by (apply (the_row d); try done; congruence).
  intros [F1 F2 F3 F4 F5 F6 F7]. split; cbn; try done. intros E. by apply F6 in E.
Qed.

(** ** All the waiting guests *)
Lemma admit_all_moves fresh d meeting actor now d' : tables_ok d → admit_all d meeting actor now = Ok d' → quiets fresh d d'.
Proof.
  intros Hok H. unfold admit_all in H. apply bind_ok in H as (m & [Hm Em]%get_ok & H). apply bind_ok in H as (u & [Ho Hp]%assert_open_ok & H).
  cbn zeta in H. set (d1 := with_guests _ d) in H. transitivity d1.
  - apply quiets_one. unfold d1. set (f := λ g, if is_pending meeting g then _ else g).
    assert (E : core (with_guests (f <$> guest_rows d) d) = put_guests (f <$> filter (λ _, True) (mc_guests (core d))) (core d)).
    { unfold core, put_guests. cbn. f_equal. by rewrite filter_all by (by apply Forall_forall). }
    rewrite E. apply (q_guests _ (core d) (λ _, True)); subst f; cbn beta.
    + intros g. by destruct (is_pending _ _).
    + intros g. left. by destruct (is_pending _ _).
    + intros x g Hx Hg Emg. destruct (is_pending meeting g) eqn:Ep; [|done]. unfold is_pending in Ep. bool_prop.
      assert (x = m) as -> by (apply (the_row d); try done; congruence). rewrite Hp. apply (decided_fine _ _ "pending"); [done|done|set_solver].
  - destruct (sort_by _ _); apply Ok_inj in H as <-; [done|by apply quiets_same].
Qed.
Lemma void_moves fresh d meeting : quiets fresh d (_void_pending d meeting).1.
Proof.
  apply quiets_one. cbn [fst _void_pending].
  assert (E : core (with_guests (filter (λ g, is_pending meeting g = false) (guest_rows d)) d) =
    put_guests ((λ g, g) <$> filter (λ g, is_pending meeting g = false) (mc_guests (core d))) (core d)).
  { unfold core, put_guests. cbn. f_equal. by rewrite list_fmap_id. }
  rewrite E. apply (q_guests _ (core d)); [done|by left|done].
Qed.

(** ** The codes *)
Lemma free_code_ok draws d c id : _free_code draws d = Ok c → free_code (meeting_rows d) id c.
Proof.
  unfold _free_code. intros H%or_meeting_ok%head_in%list_elem_of_filter. destruct H as [H _]. intros m Hm Hc _.
  unfold code_taken in H. apply existsb_false with (x := m) in H; [|done]. rewrite bool_decide_true in H by done. cbn in H. by bool_prop.
Qed.
Lemma assign_code_core draws d m d' :
  tables_ok d → m ∈ meeting_rows d → assign_code draws d (me_id m) = Ok d' →
  ∃ c, free_code (meeting_rows d) (me_id m) c ∧
    core d' = on_row (me_id m) (set_public (me_public_join m) (me_guests_mode m) (Some c)) (core d).
Proof.
  intros Hok Hm H. unfold assign_code in H. apply bind_ok in H as (c & Hc & H). apply Ok_inj in H as <-. exists c.
  split; [by eapply free_code_ok|]. unfold core, on_row, put_rows. cbn. f_equal. apply update_row_same. intros x Hx E.
  by rewrite (the_row d x m).
Qed.
Lemma rotate_moves fresh draws d meeting actor d' : tables_ok d → rotate draws d meeting actor = Ok d' → quiets fresh d d'.
Proof.
  intros Hok H. unfold rotate in H. apply bind_ok in H as (m & [Hm <-]%get_ok & H). apply bind_ok in H as (u & [Ho Hp]%assert_open_ok & H).
  apply bind_ok in H as (d1 & Hd & H). destruct (_void_pending d1 (me_id m)) as [d2 n] eqn:Ev. apply Ok_inj in H as <-.
  transitivity d1; [|transitivity d2; [|by apply quiets_same]].
  - destruct (assign_code_core _ _ _ _ Hok Hm Hd) as (c & Hc & E). apply quiets_one. rewrite E.
    apply (q_public _ (core d) m); [done|done|by eexists|by rewrite Hp|]. intros x [= <-]. by right.
  - replace d2 with (_void_pending d1 (me_id m)).1 by (by rewrite Ev). apply void_moves.
Qed.

(** ** A device *)
Lemma resolve_guest_ok d code token m g :
  resolve d code token = Ok (m, g) →
  g ∈ guest_rows d ∧ m ∈ meeting_rows d ∧ me_id m = mg_meeting_id g ∧ me_public_join m = true ∧ is_Some (mg_token_hash g) ∧
  (me_join_code m = Some (normalize_code code) ∨ mg_status g = "admitted").
Proof.
  unfold resolve. intros (t & _ & H)%bind_ok. apply bind_ok in H as (g' & Hg%or_meeting_ok & H).
  apply bind_ok in H as (m' & [Hm Em]%get_ok & H). apply bind_ok in H as (_ & Hc%raise_if_ok & H). apply bind_ok in H as (_ & Hp%raise_if_ok & H).
  injection H as -> ->. bool_prop. unfold _by_token in Hg. destruct (has_token token) as [t'|]; [|done]. cbn in Hg.
  apply head_in, list_elem_of_filter in Hg as [Et Hg]. do 4 (split; [done|]). split; [by eexists|].
  apply andb_false_iff in Hc as [Hc|Hc]; bool_prop; auto.
Qed.
(** A device that still has its token belongs to a meeting that is not closed. *)
Lemma token_open d g m :
  tables_ok d → g ∈ guest_rows d → m ∈ meeting_rows d → me_id m = mg_meeting_id g → is_Some (mg_token_hash g) →
  me_status m ≠ "closed" ∧ guest_fine (me_status m) (me_public_join m) g.
Proof.
  intros Hok Hg Hm Em [t Ht]. destruct (go_fine _ _ (ok_guests _ Hok) g Hg) as (s & p & Hv & Hf).
  apply list_elem_of_fmap in Hv as (y & E & Hy). injection E as E1 -> ->.
  assert (y = m) as -> by (apply (the_row d); try done; congruence). split; [|done].
  intros Hcl. destruct (gf_closed _ _ _ Hf Hcl) as [_ Hn]. apply (gf_name _ _ _ Hf) in Hn. congruence.
Qed.
Lemma seen_fine s p g now : guest_fine s p g → guest_fine s p (set_seen now g).
Proof. by intros []. Qed.
Lemma left_fine s p g now : guest_fine s p g → guest_fine s p (left_at now g).
Proof.
  intros [F1 F2 F3 F4 F5 F6 F7]. unfold left_at. case_bool_decide as E; cbn; split; cbn; try done; try set_solver.
Qed.
Lemma visit_moves fresh d code token now d' g : tables_ok d → visit d code token now = Ok (d', g) → quiets fresh d d'.
Proof.
  intros Hok H. unfold visit in H. apply bind_ok in H as ([m g'] & Hr & H). injection H as <- _.
  case_if; [|done].
  apply guest_moves; [done|by left|]. intros x h _ _ _ _. apply seen_fine.
Qed.
Lemma rename_self_moves fresh d code token name d' : tables_ok d → rename_self d code token name = Ok d' → quiets fresh d d'.
Proof.
  intros Hok H. unfold rename_self in H. apply bind_ok in H as ([m g] & (Hg & Hm & Em & Hp & Ht & _)%resolve_guest_ok & H).
  apply bind_ok in H as (_ & Hs%raise_if_ok & H). apply Ok_inj in H as <-. bool_prop. apply guest_moves; [done|by left|].
  intros x h Hx Hh Ei Emh. assert (h = g) as -> by (by apply (the_guest d)).
  assert (x = m) as -> by (apply (the_row d); try done; congruence). intros [F1 F2 F3 F4 F5 F6 F7].
  split; cbn; try done; [by rewrite Hs|]. intros Hcl. by destruct (token_open d g m Hok Hg Hm Em Ht).
Qed.
Lemma leave_moves fresh d code token now d' : tables_ok d → leave d code token now = Ok d' → quiets fresh d d'.
Proof.
  intros Hok H. unfold leave in H. apply bind_ok in H as ([m g] & _ & H). apply Ok_inj in H as <-.
  apply guest_moves; [by intros g'; unfold left_at; destruct (bool_decide _)|by right|]. intros x h _ _ _ _. apply left_fine.
Qed.
Lemma meeting_by_code_ok d code m :
  meeting_by_code d code = Ok m → m ∈ meeting_rows d ∧ me_join_code m = Some (normalize_code code) ∧ me_status m ≠ "closed" ∧ me_public_join m = true.
Proof. unfold meeting_by_code. intros H%or_meeting_ok%head_in%list_elem_of_filter. tauto. Qed.
Lemma next_seq_above d meeting h : h ∈ guest_rows d → mg_meeting_id h = meeting → mg_seq h < next_seq d meeting.
Proof.
  intros Hh E. unfold next_seq. assert (Hin : mg_seq h ∈ mg_seq <$> guests_of d meeting).
  { apply list_elem_of_fmap_2. by apply list_elem_of_filter. }
  assert (Hmax : ∀ l a x, x ∈ l ∨ x ≤ a → x ≤ foldl Z.max a l).
  { intros l. induction l as [|y l IH]; intros a x [Hx|Hx]; cbn; [by apply not_elem_of_nil in Hx|done| |].
    - apply IH. apply elem_of_cons in Hx as [->|Hx]; [right; lia|by left].
    - apply IH. right. lia. }
  specialize (Hmax _ 0 _ (or_introl Hin)). lia.
Qed.
Lemma release_old_moves fresh d m existing now d' : _release_old d m existing now = Ok d' → quiets fresh d d'.
Proof.
  unfold _release_old. destruct existing as [g|]; [|intros H; by apply Ok_inj in H as <-]. cbn zeta. intros (u & _ & H)%bind_ok.
  apply Ok_inj in H as <-. apply guest_moves.
  - intros h. destruct (_ && _); [|done]. unfold left_at. by destruct (bool_decide _).
  - intros h. right. by destruct (_ && _).
  - intros x h _ _ _ _ Hf. destruct (_ && _); [by apply left_fine|]. destruct Hf as [F1 F2 F3 F4 F5 F6 F7]. by split.
Qed.
Lemma release_old_kept d m existing now d' :
  _release_old d m existing now = Ok d' → meeting_rows d' = meeting_rows d ∧ mg_id <$> guest_rows d' = mg_id <$> guest_rows d.
Proof.
  unfold _release_old. destruct existing as [g|]; [|intros H; by apply Ok_inj in H as <-]. cbn zeta. intros (u & _ & H)%bind_ok.
  apply Ok_inj in H as <-. split; [done|]. apply update_row_map. intros h _ _. destruct (_ && _); [|done]. unfold left_at. by destruct (bool_decide _).
Qed.
Lemma join_moves fresh d code name token now id new_token d' t :
  tables_ok d → id ∉ mg_id <$> guest_rows d → join d code name token now id new_token = Ok (d', t) → quiets fresh d d'.
Proof.
  intros Hok Hid H. unfold join in H. apply bind_ok in H as (m & (Hm & Hc & Hs & Hp)%meeting_by_code_ok & H).
  assert (Hnew : ∀ existing d1, _join_new d m existing name now id new_token = Ok d1 → quiets fresh d d1).
  { intros existing d1 Hj. unfold _join_new in Hj. apply bind_ok in Hj as (d0 & Hr & Hj). apply bind_ok in Hj as (_ & Hu%raise_if_ok & Hj).
    apply Ok_inj in Hj as <-. pose proof (release_old_kept _ _ _ _ _ Hr) as [Er Ei]. transitivity d0; [by eapply release_old_moves|].
    apply quiets_one. apply (q_join _ (core d0) m); [change (m ∈ meeting_rows d0); by rewrite Er|done|done|done|done|done|by eexists| | |].
    - change (id ∉ mg_id <$> guest_rows d0). by rewrite Ei.
    - intros h Hh E. apply existsb_false with (x := h) in Hu; [|done]. bool_prop. by apply Hu.
    - intros h Hh E. by apply next_seq_above. }
  destruct (_by_token d token) as [g|] eqn:Eg; [destruct (_ && _) eqn:Eh|]; apply bind_ok in H as (d1 & Hj & H); injection H as <- _; [|by eauto..].
  bool_prop. unfold _rejoin in Hj. apply bind_ok in Hj as (_ & Ha%raise_if_ok & Hj). apply bind_ok in Hj as (_ & _ & Hj). apply Ok_inj in Hj as <-.
  bool_prop. unfold _by_token in Eg. destruct (has_token token); [|done]. cbn in Eg. apply head_in, list_elem_of_filter in Eg as [_ Hg].
  apply guest_moves; [done|by left|]. intros x h Hx Hh Ei Emh. assert (h = g) as -> by (by apply (the_guest d)).
  assert (x = m) as -> by (apply (the_row d); try done; congruence). intros [F1 F2 F3 F4 F5 F6 F7]. split; cbn; try done; try set_solver.
Qed.
(** The ballot of a guest. *)
Lemma guest_cast_moves fresh d code token vote choice now d' : cast d code token vote choice now = Ok d' → quiets fresh d d'.
Proof.
  intros H. unfold cast in H. apply bind_ok in H as ([m g] & _ & H). do 2 apply bind_ok in H as (? & _ & H). apply bind_ok in H as (v & _ & H).
  apply bind_ok in H as (? & _ & H). apply bind_ok in H as (r & Hr & H). apply Ok_inj in H as <-. unfold of_voting in Hr.
  destruct (cast_guest _ _ _ _ _) as [r'|] eqn:E; [|done]. injection Hr as ->. apply cast_guest_room in E as (E1 & E2 & E3 & E4).
  apply quiets_same. unfold core, meeting_rows, items, guest_rows. cbn. by rewrite E1, E2, E3, E4.
Qed.

(** ** The pseudonyms of a finished protocol *)
Lemma index_of_inj {A} `{EqDecision A} (l : list A) x y n : index_of x l = Some n → index_of y l = Some n → x = y.
Proof. intros H1%index_of_Some H2%index_of_Some. congruence. Qed.
Lemma pseudonymize_moves fresh d meeting : tables_ok d → quiets fresh d (pseudonymize d meeting).1.
Proof.
  intros Hok. apply quiets_one. cbn [fst pseudonymize]. set (order := mg_id <$> sort_by admission_leb (guests_of d meeting)).
  match goal with |- context [with_guests (?f <$> guest_rows d) d] => set (num := f) end.
  change (quiet fresh (core d) (put_guests (num <$> mc_guests (core d)) (core d))).
  assert (Hin : ∀ g, g ∈ guest_rows d → mg_meeting_id g = meeting → is_Some (index_of (mg_id g) order)).
  { intros g Hg E. apply index_of_elem, list_elem_of_fmap_2, elem_of_sort_by. by apply list_elem_of_filter. }
  assert (Hnum : ∀ g, g ∈ guest_rows d → mg_meeting_id g = meeting → ∃ n, index_of (mg_id g) order = Some n ∧ num g = set_seq (Z.of_nat n + 1) g).
  { intros g Hg E. destruct (Hin g Hg E) as [n En]. exists n. split; [done|]. unfold num. rewrite bool_decide_true by done. by rewrite En. }
  apply (q_renumber _ (core d) meeting num).
  - intros g _ Hne. unfold num. by rewrite bool_decide_false.
  - intros g Hg E. destruct (Hnum g Hg E) as (n & _ & ->). eauto.
  - intros g h Hg Hh Eg Eh E. destruct (Hnum g Hg Eg) as (n & Hn & Fn), (Hnum h Hh Eh) as (k & Hk & Fk). rewrite Fn, Fk in E. cbn in E.
    assert (n = k) as -> by lia. apply (the_guest d); try done. by eapply index_of_inj.
Qed.
