(* ===== verification/LifeSim.v ===== *)
(** The life of a meeting, its patch included, is a run of the moves of [MeetingCore]. *)

From stdpp Require Import gmap strings.
From S2P Require Import Prelude PyStr PyNum PyValue PyDate VoteConfigs Tally Election FlowDb Decision FlowEngine FlowEngineFacts Policy Room.
From S2P Require Import VoteRows VoteService VoteClose VoteServiceFacts VoteWrites Meetings Agenda Guests Lifecycle MeetingCore MeetingInv MeetingSim.

(** ** The row of a request through its transaction *)
Definition same_stage (m m' : Meeting) : Prop :=
  me_id m' = me_id m ∧ me_status m' = me_status m ∧ me_started_at m' = me_started_at m ∧ me_closed_at m' = me_closed_at m.
Lemma same_life_stage m m' : same_life m m' → same_stage m m'.
Proof. intros (E & _ & _ & E1 & E2 & _). injection E as E3 E4 _. done. Qed.
Lemma on_row_stage c id f m :
  (∀ x, x ∈ mc_rows c → me_id x = id → same_stage x (f x)) → m ∈ mc_rows c → ∃ m', m' ∈ mc_rows (on_row id f c) ∧ same_stage m m'.
Proof.
  intros Hf Hm. exists (if bool_decide (me_id m = id) then f m else m). split.
  - apply list_elem_of_fmap. by exists m.
  - case_bool_decide; [by apply Hf|done].
Qed.
Lemma quiet_stage fresh c c' m : quiet fresh c c' → m ∈ mc_rows c → ∃ m', m' ∈ mc_rows c' ∧ same_stage m m'.
Proof.
  destruct 1; intros Hin; try (by exists m);
    try (match goal with |- context [on_row ?i ?f ?x] =>
           destruct (on_row_stage x i f m) as (m' & Hm' & Es); [done || (intros; by apply same_life_stage)|done|by exists m'] end).
  exists (unlink_meeting id m). split; [|done]. cbn. by apply list_elem_of_fmap_2.
Qed.
Record at_stage (m : Meeting) (d : MeetingDb) : Prop := {
  as_ok : tables_ok d;
  as_row : current d m ∈ meeting_rows d;
  as_same : same_stage m (current d m)
}.
Lemma stage_row d m m' : tables_ok d → m' ∈ meeting_rows d → same_stage m m' → at_stage m d.
Proof.
  intros Hok Hm Es. assert (E : current d m = m').
  { unfold current, meeting_row. destruct Es as (<- & _). by rewrite (find_by_NoDup me_id (meeting_rows d) m') by (done || apply Hok). }
  by split; rewrite ?E.
Qed.
Lemma stage_start d m : tables_ok d → m ∈ meeting_rows d → at_stage m d.
Proof. intros Hok Hm. by apply (stage_row d m m). Qed.
Lemma stage_quiets fresh d d' m : quiets fresh d d' → at_stage m d → at_stage m d'.
Proof.
  intros Hq [Hok Hrow Hs]. assert (H : ∃ m', m' ∈ mc_rows (core d') ∧ same_stage m m').
  { unfold quiets in Hq. clear Hok. change (current d m ∈ mc_rows (core d)) in Hrow. revert Hrow Hs. generalize (current d m).
    induction Hq as [c|c1 c2 c3 H12 _ IH]; intros x Hrow Hs; [by exists x|].
    destruct (quiet_stage _ _ _ _ H12 Hrow) as (y & Hy & Ey). apply (IH y); [done|]. unfold same_stage in *. intuition congruence. }
  destruct H as (m' & Hm' & Es). apply (stage_row _ _ m'); [by eapply quiets_keep|done|done].
Qed.
(** What a patch leaves alone before its status. *)
Record kept (d d' : MeetingDb) : Prop := {
  kp_votes : votes (flow_db (room d')) = votes (flow_db (room d));
  kp_items : iview <$> items d' = iview <$> items d;
  kp_periods i : i ∈ pk_id <$> keeper_periods d' → i ∈ pk_id <$> keeper_periods d
}.
#[export] Instance kept_preorder : PreOrder kept.
Proof. split; [done|]. intros a b c [H1 H2 H3] [H4 H5 H6]. split; [congruence|congruence|auto]. Qed.
Lemma kept_audit a action id data d d' : kept d d' → kept d (meeting_audit a action id data d').
Proof. by intros []. Qed.
Lemma kept_same d d' :
  votes (flow_db (room d')) = votes (flow_db (room d)) → iview <$> items d' = iview <$> items d → keeper_periods d' = keeper_periods d → kept d d'.
Proof. intros H1 H2 H3. split; [done|done|]. by rewrite H3. Qed.

(** ** Public participation *)
(** The row and the code that it may get, as one write. *)
Lemma ensure_core draws public mode d m d2 :
  tables_ok d → m ∈ meeting_rows d →
  ensure_code draws (update_meeting (me_id m) (set_public public mode (me_join_code m)) d) m = Ok d2 →
  kept d d2 ∧ ∃ c, (me_join_code m = Some c ∨ free_code (meeting_rows d) (me_id m) c) ∧
    core d2 = on_row (me_id m) (set_public public mode (Some c)) (core d).
Proof.
  intros Hok Hm H. unfold ensure_code in H. destruct (me_join_code m) as [c|] eqn:Ec.
  - apply Ok_inj in H as <-. split; [done|]. exists c. split; [by left|done].
  - unfold assign_code in H. apply bind_ok in H as (c & Hc%(free_code_ok _ _ _ (me_id m)) & H). apply Ok_inj in H as <-. split; [done|].
    exists c. split.
    + right. intros x Hx Ex Hne. apply (Hc x); [|done|done]. unfold update_meeting. cbn.
      apply (elem_update_row me_id); [apply Hok|done|by left].
    + unfold core, on_row, put_rows. cbn. f_equal.
      exact (update_row_twice me_id (me_id m) (set_public public mode None)
               (λ x, set_public (me_public_join x) (me_guests_mode x) (Some c) x) (meeting_rows d) (λ _, eq_refl)).
Qed.
Lemma apply_public_moves fresh draws d m payload p now d' :
  tables_ok d → m ∈ meeting_rows d → me_status m ≠ "closed" → _apply_public draws d m payload p now = Ok d' → quiets fresh d d' ∧ kept d d'.
Proof.
  intros Hok Hm Hs H. unfold _apply_public in H. cbn zeta in H. destruct (_ && _) in H; [by apply Ok_inj in H as <-|].
  set (np := default (me_public_join m) (mp_public_join payload)) in *. set (nm := default (me_guests_mode m) (mp_guests_mode payload)) in *.
  do 2 apply bind_ok in H as (? & _ & H). apply bind_ok in H as (d2 & He & H). apply Ok_inj in H as <-.
  destruct np eqn:Enp.
  - destruct (ensure_core draws true nm d m d2 Hok Hm He) as (Hk & c & Hc & E). rewrite andb_false_r. split; [|by apply kept_audit].
    transitivity d2; [|by apply quiets_same]. apply quiets_one. rewrite E.
    apply (q_public _ (core d) m); [done|done|by eexists|done|]. by intros y [= <-].
  - apply Ok_inj in He as <-. rewrite andb_true_r. destruct (me_public_join m) eqn:Ep.
    + split; [|done]. etransitivity; [|by apply quiets_same]. apply quiets_one.
      apply (q_private fresh (core d) m nm _ now (_principal_id (update_meeting (me_id m) (set_public false nm (me_join_code m)) d) (sub p))); done.
    + split; [|done]. etransitivity; [|by apply quiets_same]. apply quiets_one.
      apply (q_public _ (core d) m); [done|done|done|congruence|]. intros y Ex. by left.
Qed.

(** ** The fields *)
Lemma drop_planned_kept d id : kept d (_drop_planned d id).1.
Proof.
  unfold _drop_planned. destruct (_period d id true); [|done]. split; [done|done|]. cbn. intros x (q & -> & [_ Hq]%list_elem_of_filter)%list_elem_of_fmap.
  by apply list_elem_of_fmap_2.
Qed.
Lemma end_running_kept d m now item : kept d (_end_running d m now item).
Proof. unfold _end_running. destruct (_period _ _ _); [|done]. split; [done|done|]. cbn. intros x. by rewrite update_row_map. Qed.
Lemma move_current_moves fresh d m i p now d' b :
  tables_ok d → m ∈ meeting_rows d → me_status m ≠ "closed" → (∀ x, i = Some x → (x, me_id m) ∈ iview <$> items d) →
  _move_current d m i p now = Ok (d', b) → quiets fresh d d' ∧ kept d d'.
Proof.
  intros Hok Hm Hs Hi H. unfold _move_current in H. cbn zeta in H. set (d1 := update_meeting _ _ d) in H.
  assert (H1 : quiets fresh d d1) by (by apply quiets_one, (q_current _ (core d) m)).
  assert (Hok1 : tables_ok d1) by (by eapply quiets_keep).
  case_bool_decide as Hl.
  - set (m1 := set_shown (me_active_application_id m) i m) in *.
    assert (Hm1 : m1 ∈ meeting_rows d1) by (unfold d1; apply (elem_update_row me_id); [apply Hok|done|by right]).
    split; [transitivity d1; [done|]; by eapply (activate_moves fresh d1 m1)|]. transitivity d1; [done|].
    unfold activate_planned in H. destruct i as [new|]; [|by injection H as <- _]. destruct (_period d1 _ true); [|by injection H as <- _].
    case_bool_decide; [by injection H as <- _|]. apply bind_ok in H as (fwd & _ & H). destruct (negb fwd); [by injection H as <- _|].
    destruct (negb _); injection H as <- _; apply kept_audit; [apply drop_planned_kept|].
    etransitivity; [apply (end_running_kept d1 m1 now (me_current_agenda_item_id m))|]. split; [done|done|]. intros x. cbn. by rewrite update_row_map.
  - injection H as <- _. by split.
Qed.
Lemma write_done_kept k d m id done_ actor via now d' : set_done_in_tx k d m id done_ actor via now = Ok d' → kept d d'.
Proof.
  unfold set_done_in_tx. intros (row & _ & H)%bind_ok. apply bind_ok in H as (_ & _ & H). destruct (bool_decide _); [by apply Ok_inj in H as <-|].
  apply bind_ok in H as (d1 & Hw & H). apply Ok_inj in H as <-. unfold write_item in Hw. apply bind_ok in Hw as (_ & _ & Hw).
  apply Ok_inj in Hw as <-. apply kept_same; [done| |done]. by apply update_row_map.
Qed.
Section Patch.
Context (planned_start : option pydate → option Z → option Z).
Lemma planning_moves fresh payload d m :
  tables_ok d → m ∈ meeting_rows d → (me_status m = "closed" → wants_manage payload = false) →
  quiets fresh d (update_meeting (me_id m) (patch_planning planned_start payload) d).
Proof.
  intros Hok Hm Hw. apply quiets_one. apply (q_row _ (core d)); [by intros []|]. intros _ x Hx E Hcl.
  assert (x = m) as -> by (by apply (the_row d)). specialize (Hw Hcl). unfold wants_manage, sent in Hw. bool_prop.
  unfold plan_of, patch_planning. cbn. destruct (mp_title payload), (mp_date payload), (mp_start_time payload), (mp_end_time payload); try done;
    exfalso; by match goal with H : ¬ is_Some (Some _) |- _ => destruct H end.
Qed.
Lemma patch_fields_moves fresh d m payload p now d' b :
  at_stage m d → (me_status m = "closed" → wants_manage payload = false ∧ wants_now payload = false) →
  (∀ x, mp_current_agenda_item_id payload = Some (Some x) → (x, me_id m) ∈ iview <$> items d) →
  patch_fields planned_start d m payload p now = Ok (d', b) → quiets fresh d d' ∧ kept d d'.
Proof.
  intros Hst Hcl Hi H. unfold patch_fields in H. apply bind_ok in H as (_ & _ & H). cbn zeta in H.
  set (d1 := match mp_active_application_id payload with Some a => _ | None => d end) in H.
  assert (H1 : quiets fresh d d1 ∧ kept d d1).
  { unfold d1. destruct (mp_active_application_id payload) as [a|]; [|done]. split; [|done]. apply quiets_one.
    apply (q_row _ (core d)); by intros []. }
  assert (Hst1 : at_stage m d1) by (by eapply stage_quiets; [apply H1|]).
  apply bind_ok in H as ([d2 mv] & Hc & H).
  assert (H2 : quiets fresh d1 d2 ∧ kept d1 d2).
  { destruct (mp_current_agenda_item_id payload) as [i|] eqn:Ei; [|by injection Hc as <- _].
    destruct Hst1 as [Hok1 Hrow1 (E1 & E2 & _)]. eapply (move_current_moves fresh d1 (current d1 m)); [done|done| | |exact Hc].
    - rewrite E2. intros E. destruct (Hcl E) as [_ Hn]. unfold wants_now, sent in Hn. rewrite Ei in Hn. bool_prop. by destruct Hn.
    - intros x ->. destruct H1 as [_ [_ Eit _]]. rewrite Eit, E1. by apply Hi. }
  assert (Hst2 : at_stage m d2) by (by eapply stage_quiets; [apply H2|]).
  apply bind_ok in H as (d3 & Hd & H).
  assert (H3 : quiets fresh d2 d3 ∧ kept d2 d3).
  { destruct (mp_complete_agenda_item_id payload) as [i|]; [|by apply Ok_inj in Hd as <-].
    split; [|by eapply write_done_kept]. destruct Hst2 as [Hok2 Hrow2 _]. eapply set_done_moves; [done| |done|exact Hd].
    intros _. split; [|done]. unfold _get, meeting_row. rewrite (find_by_NoDup me_id (meeting_rows d2)); [done|apply Hok2|done]. }
  assert (Hst3 : at_stage m d3) by (by eapply stage_quiets; [apply H3|]).
  apply bind_ok in H as (_ & _ & H). injection H as <- _. split.
  - etransitivity; [apply H1|]. etransitivity; [apply H2|]. etransitivity; [apply H3|]. destruct Hst3 as [Hok3 Hrow3 (E1 & E2 & _)].
    rewrite <- E1. apply planning_moves; [done|done|]. rewrite E2. intros E. by apply Hcl.
  - etransitivity; [apply H1|]. etransitivity; [apply H2|]. etransitivity; [apply H3|]. done.
Qed.
End Patch.

(** ** The protokollant *)
Lemma change_protokollant_moves fresh d m payload p id now d' b :
  tables_ok d → m ∈ meeting_rows d → new_period d id → (me_status m = "closed" → wants_manage payload = false) →
  _change_protokollant d m payload p id now = Ok (d', b) →
  quiets fresh d d' ∧ votes (flow_db (room d')) = votes (flow_db (room d)) ∧ (me_status m = "planned" → keeper_periods d' = keeper_periods d).
Proof.
  intros Hok Hm Hid Hcl H. unfold _change_protokollant in H. destruct (mp_protokollant_id payload) as [keeper|] eqn:Ek; [|by injection H as <- _].
  case_bool_decide; [by injection H as <- _|]. apply bind_ok in H as (_ & _ & H). case_bool_decide as Hl.
  - apply bind_ok in H as (k & _ & H). apply bind_ok in H as (_ & _ & H). apply bind_ok in H as (d1 & Hd & H). injection H as <- _. split.
    + transitivity d1; [by eapply switch_moves|by apply quiets_same].
    + split; [|congruence]. unfold switch_now in Hd. cbn zeta in Hd. apply bind_ok in Hd as (d3 & Ha & Hd). apply Ok_inj in Hd as <-.
      unfold add_period in Ha. apply bind_ok in Ha as (_ & _ & Ha). apply Ok_inj in Ha as <-.
      transitivity (votes (flow_db (room (_drop_planned d (me_id m)).1))); [|apply drop_planned_kept].
      exact (kp_votes _ _ (end_running_kept (_drop_planned d (me_id m)).1 m now (me_current_agenda_item_id m))).
  - apply bind_ok in H as (k & _ & H). injection H as <- _. split; [|done]. apply quiets_one. apply (q_keeper _ (core d) m); [done|].
    assert (Hlife : life m) by (eapply Forall_forall; [apply Hok|done]).
    destruct Hlife as [[E _]|[[E _]|[E _]]]; [done|done|]. specialize (Hcl E). unfold wants_manage, sent in Hcl. rewrite Ek in Hcl.
    bool_prop. exfalso. by match goal with H : ¬ is_Some (Some _) |- _ => destruct H end.
Qed.

(** ** The start *)
Definition finish_status (id s : string) (d : MeetingDb) : MeetingDb :=
  update_meeting id (λ m, set_status s (me_started_at m) (me_closed_at m) m) d.
Lemma go_live_moves fresh d m id now d' :
  tables_ok d → m ∈ meeting_rows d → me_status m = "planned" → new_period d id → go_live d m id now = Ok d' →
  moves fresh d (finish_status (me_id m) "live" d').
Proof.
  intros Hok Hm Hs Hid H. unfold go_live in H. apply bind_ok in H as (_ & Hk%raise_if_ok & H). cbn zeta in H. bool_prop.
  destruct (me_protokollant_id m) as [k|] eqn:Ek; [|done]. unfold open_first_period in H. rewrite Ek in H.
  set (started := default now (me_started_at m)) in H. set (d1 := update_meeting _ _ d) in H.
  assert (Hnone : _period d1 (me_id m) false = None).
  { destruct (_period d1 (me_id m) false) as [q|] eqn:E; [|done]. apply period_ok in E as (Hq & Eq & Hr).
    destruct (planned_none (core d) Hok m q Hm Hs Hq Eq) as [Hr' _]. cbn in Hr. congruence. }
  rewrite Hnone in H. rewrite bool_decide_false in H by by intros []. apply add_period_core in H.
  assert (Hcl : me_closed_at m = None).
  { assert (Hlife : life m) by (eapply Forall_forall; [apply Hok|done]). destruct Hlife as [(_ & _ & E)|[(E & _)|(E & _)]]; [done|congruence|congruence]. }
  apply moves_one. match goal with |- meeting_move _ ?x =>
    replace x with (put_periods (keeper_periods d ++ [running_period id m k now]) (on_row (me_id m) (set_status "live" (Some started) None) (core d))) end.
  - by apply (m_live (core d) m (running_period id m k now)).
  - unfold finish_status. change (core (update_meeting (me_id m) ?f d')) with (on_row (me_id m) f (core d')). rewrite H.
    unfold d1, on_row, put_periods, put_rows, core. cbn. f_equal. rewrite Hs, Hcl. symmetry.
    exact (update_row_twice me_id (me_id m) (set_status "planned" (Some started) None)
             (λ x, set_status "live" (me_started_at x) (me_closed_at x) x) (meeting_rows d) (λ _, eq_refl)).
Qed.

(** ** The close *)
Lemma open_vote_none d id : open_vote_of d id = false → no_open_vote (core d) id.
Proof.
  unfold open_vote_of. intros H v i E. cbn in E. rewrite lookup_fmap, fmap_Some in E. destruct E as (x & Hx & E). injection E as Em _ Es.
  apply existsb_false with (x := (v, x)) in H; [|by apply elem_of_map_to_list]. cbn in H. rewrite <- Em, <- Es in H. by rewrite !bool_decide_true in H.
Qed.
Lemma core_cancel_drafts r id now actor reason :
  let r' := (cancel_drafts_for_meeting r id now actor reason).1 in
  vcore <$> votes (flow_db r') = drafts_ended id <$> (vcore <$> votes (flow_db r)) ∧ cfg r' = cfg r ∧ guests r' = guests r ∧
  agenda_items (flow_db r') = agenda_items (flow_db r).
Proof.
  unfold cancel_drafts_for_meeting. cbn [fst]. rewrite cancel_fold_flow. set (ids := (filter _ _).*1).
  split; [|split; [apply cancelled_conf|split; [done|apply cancelled_agenda]]].
  apply map_eq. intros v. rewrite !lookup_fmap. cbn [flow_db with_flow].
  pose proof (cancel_all_view (λ _ _ _, true) now actor reason ids (flow_db r) v) as E.
  assert (Hin : ∀ x, votes (flow_db r) !! v = Some x → v ∈ ids ↔ vo_meeting_id x = Some id ∧ vote_status x = draft).
  { intros x Hx. unfold ids. rewrite list_elem_of_fmap. split.
    - intros ([v' y] & -> & [Hs [Hy Hm]%sort_filter_elem]%list_elem_of_filter). cbn in *. rewrite Hx in Hy. by injection Hy as ->.
    - intros [Hm Hs]. exists (v, x). split; [done|]. apply list_elem_of_filter. split; [done|]. apply elem_of_sort_by, list_elem_of_filter.
      split; [done|]. by apply elem_of_map_to_list. }
  match goal with |- context [foldl ?f (flow_db r) ids] => set (x' := foldl f (flow_db r) ids) in * end.
  destruct (votes (flow_db r) !! v) as [x|]; cbn in E |- *.
  - specialize (Hin x eq_refl). destruct (votes x' !! v) as [y|]; [|by case_decide]. cbn in E |- *. f_equal.
    unfold drafts_ended, vcore. cbn. case_decide as Hv; apply (inj Some) in E; injection E as _ Es _ _ _ _ _ Em Eb.
    + apply Hin in Hv as [H1 H2]. rewrite !bool_decide_true by done. cbn. unfold vote_item. by rewrite Em, Eb, Es.
    + rewrite <- bool_decide_and, bool_decide_false by tauto. unfold vote_item. by rewrite Em, Eb, Es.
  - destruct (votes x' !! v); [by case_decide|done].
Qed.
Lemma core_with_room r d :
  cfg r = cfg (room d) → guests r = guests (room d) → agenda_items (flow_db r) = agenda_items (flow_db (room d)) →
  core (with_room r d) = put_votes (vcore <$> votes (flow_db r)) (core d).
Proof. intros E1 E2 E3. unfold core, put_votes, meeting_rows, items, guest_rows. cbn. by rewrite E1, E2, E3. Qed.
Lemma close_moves fresh d m actor now :
  tables_ok d → m ∈ meeting_rows d → me_status m = "live" → no_open_vote (core d) (me_id m) →
  moves fresh d (finish_status (me_id m) "closed" (_close d m actor now)).
Proof.
  intros Hok Hm Hs Hno. unfold _close. cbn zeta. set (item := me_current_agenda_item_id m).
  assert (E1 : core (close_periods d m now) = put_periods (without_planned (me_id m) (ended (me_id m) now item (keeper_periods d))) (core d)).
  { unfold close_periods. fold item. pose proof (end_running_core d m now item (ko_keyed _ _ (ok_keepers _ Hok))) as E.
    pose proof (f_equal mc_periods E) as Ep. cbn in Ep. rewrite drop_planned_core; rewrite Ep; [by rewrite E|]. apply keyed_ended, Hok. }
  set (d1 := close_periods d m now) in *.
  set (d2 := update_meeting (me_id m) (set_status (me_status m) (me_started_at m) (Some now)) d1).
  assert (E2 : core d2 = on_row (me_id m) (set_status "live" (me_started_at m) (Some now)) (core d1)) by (unfold d2; by rewrite Hs).
  destruct (core_cancel_drafts (room d2) (me_id m) now (Some actor) "meeting_closed") as (Ev & Ec & Eg & Ei).
  set (r := (cancel_drafts_for_meeting _ _ _ _ _).1) in *.
  apply moves_one. match goal with |- meeting_move _ ?x => replace x with
    (put_guests (purged (me_id m) (mc_guests (core d)))
        (put_votes (drafts_ended (me_id m) <$> mc_votes (core d))
          (put_periods (without_planned (me_id m) (ended (me_id m) now item (keeper_periods d)))
            (on_row (me_id m) (set_status "closed" (me_started_at m) (Some now)) (core d))))) end.
  - by apply (m_close (core d) m now item).
  - unfold finish_status, purge_on_close.
    match goal with |- _ = core (update_meeting ?i ?f (with_guests ?l ?x)) =>
      change (core (update_meeting i f (with_guests l x))) with (on_row i f (put_guests (purged (me_id m) (guest_rows x)) (core x))) end.
    assert (E3 : core (with_room r d2) = put_votes (drafts_ended (me_id m) <$> mc_votes (core d1)) (core d2)) by (rewrite core_with_room; [by rewrite Ev|done..]).
    assert (Egr : guest_rows (with_room r d2) = mc_guests (core d)) by (change (guests r = mc_guests (core d)); rewrite Eg; exact (f_equal mc_guests E1)).
    rewrite Egr, E3, E2, E1. unfold on_row, put_guests, put_votes, put_periods, put_rows. cbn. f_equal. symmetry.
    exact (update_row_twice me_id (me_id m) (set_status "live" (me_started_at m) (Some now))
             (λ x, set_status "closed" (me_started_at x) (me_closed_at x) x) (meeting_rows d) (λ _, eq_refl)).
Qed.

(** ** The patch *)
Section PatchSim.
Context (planned_start : option pydate → option Z → option Z) (draws : nat → string).
Lemma status_kept d m s :
  at_stage m d → s = me_status m → core (finish_status (me_id m) s d) = core d.
Proof.
  intros [Hok Hrow (Ei & Es & _)] ->. unfold finish_status, core. cbn. f_equal. apply update_row_id. intros x Hx E.
  assert (x = current d m) as -> by (apply (the_row d); try done; congruence). rewrite <- Es. by destruct (current d m).
Qed.
Lemma check_current d m payload p u x :
  check_patch d m payload p = Ok u → mp_current_agenda_item_id payload = Some (Some x) → (x, me_id m) ∈ iview <$> items d.
Proof.
  intros H E. unfold check_patch in H. do 4 apply bind_ok in H as (? & _ & H). apply bind_ok in H as (u1 & Hi & _). rewrite E in Hi.
  apply raise_if_ok in Hi. bool_prop. destruct (find_item d (me_id m) x) as [a|] eqn:Ea; [|done].
  apply find_item_ok in Ea as (Ha & E1 & E2). apply list_elem_of_fmap. exists a. unfold iview. rewrite E1, E2. done.
Qed.
Lemma check_now d m payload p u : check_patch d m payload p = Ok u → me_status m = "closed" → wants_now payload = false.
Proof.
  intros H E. unfold check_patch in H. do 3 apply bind_ok in H as (? & _ & H). apply bind_ok in H as (u1 & Hi%raise_if_ok & _).
  rewrite E in Hi. rewrite bool_decide_true in Hi by done. by rewrite andb_true_r in Hi.
Qed.
Lemma audit_changes_core m b a actor d : core (audit_changes m b a actor d) = core d.
Proof. unfold audit_changes. by destruct (changes b a). Qed.
Lemma status_change_ok d m payload s :
  check_status d m payload = Ok () → status_change m payload = Some s → (me_status m = "planned" ∧ s = "live") ∨
    (me_status m = "live" ∧ s = "closed" ∧ open_vote_of d (me_id m) = false).
Proof.
  intros H E. unfold check_status in H. rewrite E in H. apply bind_ok in H as (_ & Ht%raise_if_ok & H). apply raise_if_ok in H. bool_prop.
  unfold _TRANSITIONS in Ht. repeat (apply elem_of_cons in Ht as [Et|Ht]; [injection Et as E1 E2|]); [auto| |by apply not_elem_of_nil in Ht].
  right. subst s. rewrite bool_decide_true in H by done. auto.
Qed.
(** The last writes of a patch, after the start: the close and the status. *)
Definition last_writes (m : Meeting) (payload : MeetingPatch) (actor : string) (now : Z) (d : MeetingDb) : MeetingDb :=
  let d5 := if bool_decide (status_change m payload = Some "closed") then _close d (current d m) actor now else d in
  match mp_status payload with Some s => finish_status (me_id m) s d5 | None => d5 end.
Lemma patch_status fresh d0 d3 d4 m payload actor id now :
  at_stage m d3 → votes (flow_db (room d3)) = votes (flow_db (room d0)) → (me_status m = "planned" → new_period d3 id) →
  check_status d0 m payload = Ok () →
  (if bool_decide (status_change m payload = Some "live") then go_live d3 (current d3 m) id now else Ok d3) = Ok d4 →
  moves fresh d3 (last_writes m payload actor now d4).
Proof.
  intros Hst Hkept Hid Hch H. pose proof Hst as [Hok Hrow (Ei & Es & _)]. unfold last_writes.
  destruct (status_change m payload) as [s|] eqn:E.
  - destruct (status_change_ok d0 m payload s Hch E) as [[Em ->]|(Em & -> & Hno)]; unfold status_change in E;
      destruct (mp_status payload) as [s'|]; try done; case_bool_decide; try done; injection E as ->.
    + rewrite bool_decide_true in H by done. rewrite bool_decide_false by done. rewrite <- Ei.
      apply (go_live_moves fresh d3 (current d3 m) id now d4); [done|done|congruence|auto|done].
    + rewrite bool_decide_false in H by done. apply Ok_inj in H as <-. rewrite bool_decide_true by done. rewrite <- Ei.
      apply close_moves; [done|done|congruence|]. rewrite Ei. apply open_vote_none in Hno. intros v i. cbn. rewrite Hkept. apply Hno.
  - rewrite bool_decide_false in H by done. apply Ok_inj in H as <-. rewrite bool_decide_false by done.
    unfold status_change in E. destruct (mp_status payload) as [s'|]; [|done]. case_bool_decide as Eq; [|done].
    apply quiets_moves, quiets_same. by apply status_kept.
Qed.
(** A patch: the checks on the row that it saw, quiet writes, then the start or the last writes. *)
Record patch_stages (fresh : bool) (d : MeetingDb) (m : Meeting) (payload : MeetingPatch) (p : Principal) (id : string) (now : Z)
    (d3 d4 d' : MeetingDb) : Prop := {
  ps_row : m ∈ meeting_rows d;
  ps_patch : check_patch d m payload p = Ok ();
  ps_status : check_status d m payload = Ok ();
  ps_window : status_change m payload = Some "live" →
    check_open (open_window m (load_meeting_settings d)) now (mp_confirm_early payload) = Ok ();
  ps_quiets : quiets fresh d d3;
  ps_stage : at_stage m d3;
  ps_votes : votes (flow_db (room d3)) = votes (flow_db (room d));
  ps_period : me_status m = "planned" → new_period d3 id;
  ps_start : (if bool_decide (status_change m payload = Some "live") then go_live d3 (current d3 m) id now else Ok d3) = Ok d4;
  ps_core : core d' = core (last_writes m payload (sub p) now d4)
}.
Lemma patch_locked_stages fresh d meeting payload p id now d' :
  tables_ok d → new_period d id → patch_locked planned_start draws d meeting payload p id now = Ok d' →
  ∃ m d3 d4, me_id m = meeting ∧ patch_stages fresh d m payload p id now d3 d4 d'.
Proof.
  intros Hok Hid H. unfold patch_locked in H. apply bind_ok in H as (m & [Hm <-]%get_ok & H). apply bind_ok in H as ([] & Hcp & H).
  apply bind_ok in H as ([] & Hcs & H). apply bind_ok in H as (_ & Hman%raise_if_ok & H). cbn zeta in H. apply bind_ok in H as ([] & Hwin & H).
  assert (Hcl : me_status m = "closed" → wants_manage payload = false).
  { intros E. rewrite bool_decide_true in Hman by done. by apply andb_false_iff in Hman as [|]. }
  apply bind_ok in H as (d1 & H1 & H). apply bind_ok in H as ([d2 mv] & H2 & H). apply bind_ok in H as ([d3 sw] & H3 & H).
  apply bind_ok in H as (d4 & H4 & H). apply Ok_inj in H as <-.
  pose proof (stage_start d m Hok Hm) as Hst.
  assert (H1' : quiets fresh d d1 ∧ kept d d1).
  { destruct (wants_public payload) eqn:Ew; [|by apply Ok_inj in H1 as <-].
    eapply apply_public_moves; [done|done| |exact H1]. intros E. specialize (Hcl E). unfold wants_manage in Hcl. bool_prop. congruence. }
  destruct H1' as [Q1 K1]. pose proof (stage_quiets _ _ _ _ Q1 Hst) as Hst1. pose proof Hst1 as [Hok1 Hr1 (Ei1 & Es1 & _)].
  assert (H2' : quiets fresh d1 d2 ∧ kept d1 d2).
  { eapply patch_fields_moves; [by apply stage_start| | |exact H2].
    - rewrite Es1. intros E. split; [auto|by eapply check_now].
    - intros x Ex. rewrite Ei1, (kp_items _ _ K1). by eapply check_current. }
  destruct H2' as [Q2 K2]. pose proof (stage_quiets _ _ _ _ Q2 Hst1) as Hst2. pose proof Hst2 as [Hok2 Hr2 (Ei2 & Es2 & _)].
  assert (Hid2 : new_period d2 id) by (intros Hin; apply Hid, (kp_periods _ _ K1), (kp_periods _ _ K2), Hin).
  destruct (change_protokollant_moves fresh d2 (current d2 m) payload p id now d3 sw Hok2 Hr2 Hid2) as (Q3 & V3 & P3);
    [rewrite Es2; exact Hcl|exact H3|].
  pose proof (stage_quiets _ _ _ _ Q3 Hst2) as Hst3.
  exists m, d3, d4. split; [done|]. split; [done|done|done| | |done| | |exact H4|apply audit_changes_core].
  - intros E. by rewrite bool_decide_true in Hwin.
  - etransitivity; [exact Q1|]. by etransitivity.
  - rewrite V3, (kp_votes _ _ K2). apply K1.
  - intros E. unfold new_period. rewrite P3 by congruence. exact Hid2.
Qed.
Lemma patch_locked_moves fresh d meeting payload p id now d' :
  tables_ok d → new_period d id → patch_locked planned_start draws d meeting payload p id now = Ok d' → moves fresh d d'.
Proof.
  intros Hok Hid H. destruct (patch_locked_stages fresh _ _ _ _ _ _ _ Hok Hid H) as (m & d3 & d4 & _ & [_ _ Hcs _ Hq Hst Hv Hp Hgo Hd]).
  eapply moves_after; [exact Hq|]. unfold moves. rewrite Hd. by eapply patch_status.
Qed.
(** The rows after a patch: only its own row gets a status. *)
Definition row_change (id : string) (d d' : MeetingDb) (keeps : Prop) : Prop :=
  ∃ F, meeting_rows d' = update_row me_id id F (meeting_rows d) ∧ (∀ x, me_id (F x) = me_id x) ∧ (keeps → ∀ x, F x = x).
Lemma row_change_none id d d' keeps : meeting_rows d' = meeting_rows d → row_change id d d' keeps.
Proof. intros E. exists (λ x, x). split; [|done]. by rewrite E, update_row_id. Qed.
Lemma row_change_trans id d d1 d' k1 k2 : row_change id d d1 k1 → row_change id d1 d' k2 → row_change id d d' (k1 ∧ k2).
Proof.
  intros (F & E1 & I1 & K1) (G & E2 & I2 & K2). exists (λ x, G (F x)). split; [by rewrite E2, E1, update_row_twice|].
  split; [intros x; by rewrite I2|]. intros [H1 H2] x. by rewrite K1, K2.
Qed.
Lemma go_live_rows d m id now d' : go_live d m id now = Ok d' → row_change (me_id m) d d' False.
Proof.
  intros H. unfold go_live in H. apply bind_ok in H as (_ & _ & H). cbn zeta in H. unfold open_first_period in H.
  set (G := set_status _ _ _) in H. exists G. split; [|done].
  destruct (me_protokollant_id m); [|by apply Ok_inj in H as <-]. destruct (bool_decide _); [by apply Ok_inj in H as <-|].
  apply add_period_core in H. exact (f_equal mc_rows H).
Qed.
Lemma close_rows d m actor now : row_change (me_id m) d (_close d m actor now) False.
Proof.
  exists (set_status (me_status m) (me_started_at m) (Some now)). split; [|done]. unfold _close. cbn zeta.
  set (d2 := update_meeting _ _ _). destruct (core_cancel_drafts (room d2) (me_id m) now (Some actor) "meeting_closed") as (_ & Ec & _).
  set (r := (cancel_drafts_for_meeting _ _ _ _ _).1) in *.
  transitivity (meeting_rows d2); [unfold meeting_rows; cbn; exact (f_equal meetings Ec)|].
  transitivity (update_row me_id (me_id m) (set_status (me_status m) (me_started_at m) (Some now)) (meeting_rows (close_periods d m now))); [done|].
  f_equal. unfold close_periods, _drop_planned, _end_running. by repeat case_match.
Qed.
Lemma patch_rows (d3 d4 : MeetingDb) m payload actor now id :
  at_stage m d3 → (if bool_decide (status_change m payload = Some "live") then go_live d3 (current d3 m) id now else Ok d3) = Ok d4 →
  ∃ F, meeting_rows (last_writes m payload actor now d4) = update_row me_id (me_id m) F (meeting_rows d3) ∧ (∀ x, me_id (F x) = me_id x) ∧
    (mp_status payload = None → ∀ x, F x = x) ∧ (∀ s, mp_status payload = Some s → ∀ x, me_status (F x) = s).
Proof.
  intros Hst Hgo. pose proof Hst as [_ _ (Ei & _)].
  assert (H4 : row_change (me_id m) d3 d4 (mp_status payload = None)).
  { case_bool_decide as E; [|apply Ok_inj in Hgo as <-; by apply row_change_none].
    destruct (go_live_rows _ _ _ _ _ Hgo) as (F & E1 & E2 & _). rewrite Ei in E1. exists F. split; [done|]. split; [done|].
    intros En. unfold status_change in E. by rewrite En in E. }
  assert (H5 : row_change (me_id m) d4 (if bool_decide (status_change m payload = Some "closed") then _close d4 (current d4 m) actor now else d4)
                 (mp_status payload = None)).
  { destruct (bool_decide (status_change m payload = Some "closed")) eqn:E; [apply bool_decide_eq_true in E|by apply row_change_none].
    assert (Ei4 : me_id (current d4 m) = me_id m).
    { unfold current. destruct (meeting_row d4 (me_id m)) as [x|] eqn:Ex; [by apply find_by_id in Ex|done]. }
    destruct (close_rows d4 (current d4 m) actor now) as (F & E1 & E2 & _). rewrite Ei4 in E1. exists F. split; [done|]. split; [done|].
    intros En. unfold status_change in E. by rewrite En in E. }
  destruct (row_change_trans _ _ _ _ _ _ H4 H5) as (F & E1 & E2 & E3). unfold last_writes.
  destruct (mp_status payload) as [s|] eqn:Es; cbn zeta.
  - exists (λ x, set_status s (me_started_at (F x)) (me_closed_at (F x)) (F x)). split; [|split; [exact E2|split; [done|]]].
    + unfold finish_status. clear Hgo. set (d5 := if bool_decide _ then _ else _) in *.
      transitivity (update_row me_id (me_id m) (λ x, set_status s (me_started_at x) (me_closed_at x) x) (meeting_rows d5)); [done|].
      by rewrite E1, update_row_twice.
    + by intros s' [= ->].
  - exists F. split; [done|]. split; [done|]. split; [|done]. intros _. by apply E3.
Qed.
Lemma patch_unlocked_moves fresh k d meeting payload p d' :
  tables_ok d → (fresh = true → k = d) → patch_unlocked planned_start k d meeting payload p = Ok d' → quiets fresh d d'.
Proof.
  intros Hok Hk H. unfold patch_unlocked in H. apply bind_ok in H as (m & Hm & H). apply bind_ok in H as (_ & _ & H).
  apply bind_ok in H as (_ & Hman%raise_if_ok & H). cbn zeta in H. do 2 apply bind_ok in H as (? & _ & H). apply Ok_inj in H as <-.
  etransitivity; [|apply quiets_same, audit_changes_core]. apply quiets_one.
  apply (q_row _ (core d)); [by intros []|]. intros Hf y Hy E Hcl. specialize (Hk Hf) as ->. apply get_ok in Hm as [Hm Em].
  assert (y = m) as -> by (apply (the_row d); try done; congruence). rewrite bool_decide_true in Hman by done. cbn in Hman.
  unfold wants_manage, sent in Hman. bool_prop. unfold plan_of, write_planning, patch_planning, if_changed. cbn.
  destruct (mp_title payload), (mp_date payload), (mp_start_time payload), (mp_end_time payload); cbn;
    try (by rewrite !bool_decide_true by done); exfalso; by match goal with H : ¬ is_Some (Some _) |- _ => destruct H end.
Qed.
End PatchSim.

(** ** Create and delete *)
Lemma row_none d id : meeting_row d id = None → id ∉ me_id <$> meeting_rows d.
Proof.
  intros H (x & -> & Hx)%list_elem_of_fmap. unfold meeting_row, find_by in H. destruct (filter _ _) as [|y l] eqn:E; [|done].
  apply (not_elem_of_nil x). rewrite <- E. by apply list_elem_of_filter.
Qed.
Lemma update_new (l : list Meeting) m f :
  me_id m ∉ me_id <$> l → update_row me_id (me_id m) f (l ++ [m]) = l ++ [f m].
Proof.
  intros Hn. unfold update_row. rewrite fmap_app. change (?g <$> [m]) with [g m]. cbn beta. rewrite (bool_decide_true (me_id m = me_id m)) by done. f_equal.
  rewrite <- (list_fmap_id l) at 2. apply list_fmap_ext. intros n x Hx%list_elem_of_lookup_2. rewrite bool_decide_false; [done|].
  intros E. apply Hn. rewrite <- E. by apply list_elem_of_fmap_2.
Qed.
(** A create adds a row, a delete takes one with all that belongs to it. *)
Definition adds_row (c c' : MCore) : Prop :=
  ∃ m, me_id m ∉ me_id <$> mc_rows c ∧ c' = put_rows (mc_rows c ++ [m]) c ∧ meeting_move c c'.
Definition drops_row (id : string) (c c' : MCore) : Prop :=
  mc_rows c' = filter (λ y, me_id y ≠ id) (mc_rows c) ∧ meeting_move c c'.
Lemma create_adds planned_start draws d payload p id d' :
  create_meeting planned_start draws d payload p id = Ok d' → adds_row (core d) (core d').
Proof.
  intros H. unfold create_meeting in H. apply bind_ok in H as (_ & _ & H). apply bind_ok in H as (keeper & _ & H). apply bind_ok in H as (_ & _ & H).
  apply bind_ok in H as (_ & Hid%raise_if_ok & H). cbn zeta in H. set (m := new_meeting _ _ _ _ _) in H. apply bind_ok in H as (d2 & Hc & H).
  apply Ok_inj in H as <-. apply orb_false_iff in Hid as [_ Hid]. unfold sent in Hid. bool_prop.
  assert (Hnew : me_id m ∉ me_id <$> meeting_rows d).
  { apply row_none. change (meeting_row d id = None). destruct (meeting_row d id); [|done]. by destruct Hid. }
  change (adds_row (core d) (core d2)). destruct (cm_public_join payload) eqn:Ep.
  - unfold ensure_code in Hc. cbn in Hc. unfold assign_code in Hc. apply bind_ok in Hc as (c & Hfree & Hc). apply Ok_inj in Hc as <-.
    apply (free_code_ok _ _ _ id) in Hfree.
    exists (set_public (me_public_join m) (me_guests_mode m) (Some c) m). split; [exact Hnew|].
    match goal with |- ?x = _ ∧ _ =>
      replace x with (put_rows (mc_rows (core d) ++ [set_public (me_public_join m) (me_guests_mode m) (Some c) m]) (core d)) end.
    + split; [done|]. apply (m_create (core d)); try done. intros x [= <-] y Hy Ey Hne. apply (Hfree y); [|done|done].
      change (y ∈ meeting_rows d ++ [m]). apply elem_of_app. by left.
    + unfold core, put_rows. cbn. f_equal. symmetry.
      exact (update_new (meeting_rows d) m (λ m, set_public (me_public_join m) (me_guests_mode m) (Some c) m) Hnew).
  - apply Ok_inj in Hc as <-. exists m. split; [exact Hnew|]. split; [done|]. apply (m_create (core d)); try done. cbn. congruence.
Qed.
Lemma delete_drops d meeting p d' : delete_meeting d meeting p = Ok d' → drops_row meeting (core d) (core d').
Proof.
  intros H. unfold delete_meeting in H. apply bind_ok in H as (m & [Hm <-]%get_ok & H). apply bind_ok in H as (_ & _ & H).
  unfold delete_locked in H. apply bind_ok in H as (fin & Hdel & H). apply bind_ok in H as ([r ids] & Hv & H). apply Ok_inj in H as <-.
  unfold check_deletable in Hdel. apply bind_ok in Hdel as (_ & _ & Hdel). apply bind_ok in Hdel as (_ & Hno%raise_if_ok & _).
  unfold of_voting in Hv. destruct (delete_for_meeting _ _ _) as [[r' ids']|] eqn:E; [|done]. injection Hv as -> ->.
  unfold delete_for_meeting, delete_locked_votes in E. cbn zeta in E. apply bind_ok in E as (_ & _ & E). injection E as <- _.
  match goal with |- context [delete_all ?x _ _ _] => set (r0 := x) end.
  destruct (delete_all_same (meeting_votes (room d) (me_id m)) r0 (sub p) (Some "meeting_deleted")) as (E1 & E2 & E3).
  pose proof (core_delete_where (λ v, v.1.1 = Some (me_id m)) by_created (room d) r0 (meeting_votes (room d) (me_id m)) (sub p)
                (Some "meeting_deleted") eq_refl eq_refl) as Ev.
  set (r := delete_all _ _ _ _) in *. match goal with |- drops_row _ _ ?x => replace x with
    (MkMCore (filter (λ y, me_id y ≠ me_id m) (mc_rows (core d))) (filter (λ q, pk_meeting_id q ≠ me_id m) (mc_periods (core d)))
        (filter (λ i, ai_meeting_id i ≠ me_id m) (mc_items (core d))) (filter (λ g, mg_meeting_id g ≠ me_id m) (mc_guests (core d)))
        (filter (λ kv, kv.2.1.1 ≠ Some (me_id m)) (mc_votes (core d))) (filter (λ q, q.1 ≠ me_id m) (mc_protocols (core d)))) end.
  - split; [done|]. apply (m_delete (core d)). by apply open_vote_none.
  - symmetry. unfold core. match goal with |- MkMCore _ _ _ _ (vcore <$> votes (flow_db (room ?x))) _ = _ =>
      change (votes (flow_db (room x))) with (votes (flow_db r)) end.
    rewrite Ev. unfold write_delete, drop_meeting, meeting_rows, items, guest_rows. unfold cfg in *. f_equal; cbn; by rewrite ?E1, ?E2, ?E3.
Qed.
Lemma settings_same d a b actor d' : update_settings d a b actor = Ok d' → core d' = core d.
Proof. unfold update_settings. intros (_ & _ & H)%bind_ok. apply bind_ok in H as (_ & _ & H). by apply Ok_inj in H as <-. Qed.
