(* ===== verification/MeetingSteps.v ===== *)
(** The transactions that write the tables of the meetings as a step relation: the requests of a
    principal ([livevote/router.py]), of a device ([livevote/public_router.py]), and of the rest of
    the program.  A request reads the tables [k] before it writes the tables [d].  Every step is a run
    of moves, and only a patch changes the status of a meeting. *)

From stdpp Require Import gmap strings.
From S2P Require Import Prelude PyStr PyNum PyValue PyDate VoteConfigs Tally Election FlowDb Decision FlowEngine.
From S2P Require Import FlowEngineFacts Policy Room Delegations VoteRows VoteService VoteClose VoteServiceFacts.
From S2P Require Import Sha256 VoteWrites Meetings Agenda Guests Lifecycle MeetingCore MeetingInv MeetingSim.
From S2P Require Import LifeSim.

(** [_require_manage]: the lead of the Gremium. *)
Definition _require_manage (k : MeetingDb) (meeting_id : string) (p : Principal) : mres () :=
  m ← _get k meeting_id;
  raise_if (negb (can_manage (room k) (me_gremium_id m) p)) (MForbidden "forbidden").
Definition as_lead {A} (k : MeetingDb) (meeting_id : string) (p : Principal) (c : mres A) : mres A :=
  _ ← _require_manage k meeting_id p; c.
(** An identifier of a new row is a random UUID. *)
Definition fresh_item (d : MeetingDb) (id : string) : Prop := id ∉ ai_id <$> items d.
Definition fresh_period (d : MeetingDb) (id : string) : Prop := id ∉ pk_id <$> keeper_periods d.
Definition fresh_guest (d : MeetingDb) (id : string) : Prop := id ∉ mg_id <$> guest_rows d.

Section Steps.
Context (planned_start : option pydate → option Z → option Z).
(** *** The meeting *)
Inductive life_request (k d : MeetingDb) (p : Principal) : MeetingDb → Prop :=
| rq_create draws payload id d' : create_meeting planned_start draws d payload p id = Ok d' → life_request k d p d'
| rq_patch draws meeting payload id now d' :
    fresh_period d id → patch_meeting planned_start draws k d meeting payload p id now = Ok d' → life_request k d p d'
| rq_delete meeting d' : delete_meeting d meeting p = Ok d' → life_request k d p d'
| rq_hand_over meeting target mode id now d' :
    fresh_period d id → hand_over d meeting target mode p id now = Ok d' → life_request k d p d'
| rq_cancel_handover meeting d' : cancel_handover d meeting p = Ok d' → life_request k d p d'
| rq_settings open_lead confirm_lead d' : update_settings d open_lead confirm_lead (sub p) = Ok d' → life_request k d p d'.
(** *** The agenda *)
Inductive agenda_request (k d : MeetingDb) (p : Principal) : MeetingDb → Prop :=
| rq_body meeting item body title non_public d' :
    set_agenda_body k d p meeting item body title non_public = Ok d' → agenda_request k d p d'
| rq_done meeting item done_ now d' : set_agenda_done k d p meeting item done_ now = Ok d' → agenda_request k d p d'
| rq_order meeting ids d' : reorder_agenda k d p meeting ids = Ok d' → agenda_request k d p d'
| rq_add_item meeting application title non_public id now d' :
    fresh_item d id → add_agenda_item k d p meeting application title non_public id now = Ok d' → agenda_request k d p d'
| rq_add_todo meeting todo title non_public id now d' :
    fresh_item d id → add_agenda_todo k d p meeting todo title non_public id now = Ok d' → agenda_request k d p d'
| rq_remove_item meeting item d' : remove_agenda_item k d p meeting item = Ok d' → agenda_request k d p d'.
(** *** The guests *)
Inductive guest_request (k d : MeetingDb) (p : Principal) : MeetingDb → Prop :=
| rq_admit meeting guest now d' : as_lead k meeting p (admit_guest d meeting guest (sub p) now) = Ok d' → guest_request k d p d'
| rq_reject meeting guest now d' : as_lead k meeting p (reject d meeting guest (sub p) now) = Ok d' → guest_request k d p d'
| rq_remove meeting guest now d' : as_lead k meeting p (remove_guest d meeting guest (sub p) now) = Ok d' → guest_request k d p d'
| rq_rename meeting guest name d' : as_lead k meeting p (rename d meeting guest name (sub p)) = Ok d' → guest_request k d p d'
| rq_admit_all meeting now d' : as_lead k meeting p (admit_all d meeting (sub p) now) = Ok d' → guest_request k d p d'
| rq_rotate draws meeting d' : as_lead k meeting p (rotate draws d meeting (sub p)) = Ok d' → guest_request k d p d'.
Definition meeting_request (k d : MeetingDb) (p : Principal) (d' : MeetingDb) : Prop :=
  life_request k d p d' ∨ agenda_request k d p d' ∨ guest_request k d p d'.
(** *** A device *)
Inductive device_request (d : MeetingDb) : MeetingDb → Prop :=
| dv_join code name token now id new_token d' t :
    fresh_guest d id → join d code name token now id new_token = Ok (d', t) → device_request d d'
| dv_visit code token now d' g : visit d code token now = Ok (d', g) → device_request d d'
| dv_rename code token name d' : rename_self d code token name = Ok d' → device_request d d'
| dv_leave code token now d' : leave d code token now = Ok d' → device_request d d'
| dv_cast code token vote choice now d' : cast d code token vote choice now = Ok d' → device_request d d'.
(** *** The rest of the program *)
(** The tables that only the meetings write. *)
Definition same_meetings (d d' : MeetingDb) : Prop :=
  meeting_rows d' = meeting_rows d ∧ keeper_periods d' = keeper_periods d ∧ items d' = items d ∧
  guest_rows d' = guest_rows d ∧ votes (flow_db (room d')) = votes (flow_db (room d)).
(** The finalization of the minutes ([ProtocolService.start_finalize]) on these tables: the guests get
    their pseudonyms.  The publication of the protocol is not part of the state. *)
Definition start_finalize (d : MeetingDb) (meeting_id : string) : mres MeetingDb :=
  status ← or_meeting (protocol_status d meeting_id) (MNotFound "not_found");
  m ← _get d meeting_id;
  _ ← raise_if (negb (bool_decide (me_status m = "closed"))) (MConflict "meeting_not_closed");
  _ ← raise_if (negb (bool_decide (status = "draft"))) (MConflict "protocol_not_draft");
  let d1 := MkMeetingDb (room d) (keeper_periods d) (update_row fst meeting_id (λ q, (q.1, "rendering")) (protocols d)) (meeting_settings d) in
  Ok (pseudonymize d1 meeting_id).1.
Inductive system_step (d : MeetingDb) : MeetingDb → Prop :=
(** A transaction of the votes or the flow engine; the agenda has a primary key. *)
| sy_votes r : vote_op (room d) r → NoDup (ai_id <$> agenda_items (flow_db r)) → system_step d (with_room r d)
| sy_finalize meeting d' : start_finalize d meeting = Ok d' → system_step d d'
(** Anything else: accounts, roles, delegations, the attendance, the protocols. *)
| sy_other d' : same_meetings d d' → system_step d d'.

(** [k] is any tables: the reads may be old. *)
Inductive meeting_step (k d : MeetingDb) : MeetingDb → Prop :=
| ms_request p d' : meeting_request k d p d' → meeting_step k d d'
| ms_device d' : device_request d d' → meeting_step k d d'
| ms_system d' : system_step d d' → meeting_step k d d'.
Definition some_step (d d' : MeetingDb) : Prop := ∃ k, meeting_step k d d'.
(** A program without meetings, and what it reaches. *)
Definition no_meetings (d : MeetingDb) : Prop :=
  meeting_rows d = [] ∧ keeper_periods d = [] ∧ items d = [] ∧ guest_rows d = [] ∧
  ∀ id v, votes (flow_db (room d)) !! id = Some v → vo_meeting_id v = None.
Definition reached (d : MeetingDb) : Prop := ∃ d0, no_meetings d0 ∧ rtc some_step d0 d.
End Steps.

(** ** Every step is a run of moves *)
Section Steps.
Context (planned_start : option pydate → option Z → option Z) (fresh : bool).
Lemma as_lead_ok {A} k meeting p (c : mres A) a : as_lead k meeting p c = Ok a → c = Ok a.
Proof. unfold as_lead. by intros (_ & _ & H)%bind_ok. Qed.
(** The requests on the life of a meeting: a patch, a create, a delete, or quiet ones. *)
Lemma life_request_cases k d p d' :
  tables_ok d → life_request planned_start k d p d' →
  (∃ draws meeting payload id now, fresh_period d id ∧ patch_meeting planned_start draws k d meeting payload p id now = Ok d') ∨
  adds_row (core d) (core d') ∨ (∃ meeting, drops_row meeting (core d) (core d')) ∨ quiets fresh d d'.
Proof.
  intros Hok. destruct 1 as [draws payload id d' H|draws meeting payload id now d' Hid H|meeting d' H|meeting target mode id now d' Hid H|meeting d' H|a b d' H].
  - right. left. by eapply create_adds.
  - left. eauto 10.
  - do 2 right. left. exists meeting. by eapply delete_drops.
  - do 3 right. by eapply hand_over_moves.
  - do 3 right. by eapply cancel_handover_moves.
  - do 3 right. apply quiets_same. by eapply settings_same.
Qed.
Lemma life_request_moves k d p d' :
  tables_ok d → (fresh = true → k = d) → life_request planned_start k d p d' → moves fresh d d'.
Proof.
  intros Hok Hk [(draws & meeting & payload & id & now & Hid & H)|[(m & _ & _ & H)|[(meeting & _ & H)|H]]]%life_request_cases; [| | | |done].
  - unfold patch_meeting in H. destruct (needs_lock payload); [by eapply patch_locked_moves|by apply quiets_moves; eapply patch_unlocked_moves].
  - by apply moves_one.
  - by apply moves_one.
  - by apply quiets_moves.
Qed.
Lemma editor_ok k meeting p m : editor k meeting p = Ok m → _get k meeting = Ok m.
Proof. unfold editor. intros (x & Hx & H)%bind_ok. apply bind_ok in H as (_ & _ & H). by apply Ok_inj in H as <-. Qed.
Lemma agenda_request_quiets k d p d' :
  tables_ok d → (fresh = true → k = d) → agenda_request k d p d' → quiets fresh d d'.
Proof.
  intros Hok Hk Hr. destruct Hr as [meeting id body title np d' H|meeting id dn now d' H|meeting ids d' H
    |meeting app title np id now d' Hid H|meeting todo title np id now d' Hid H|meeting id d' H].
  - unfold set_agenda_body in H. apply bind_ok in H as (m & _ & H). apply bind_ok in H as (_ & _ & H). by eapply set_body_moves.
  - unfold set_agenda_done in H. apply bind_ok in H as (m0 & _ & H). apply bind_ok in H as (_ & _ & H). unfold set_done in H.
    apply bind_ok in H as (m & Hm & H). pose proof (get_ok _ _ _ Hm) as [_ Em]. eapply set_done_moves; [done| |exact Em|exact H].
    intros Hf. specialize (Hk Hf). by subst k.
  - unfold reorder_agenda in H. apply bind_ok in H as (_ & _ & H). by eapply reorder_moves.
  - unfold add_agenda_item, add_item in H. apply bind_ok in H as (_ & _ & H). apply bind_ok in H as ([d1 b] & Ha & H).
    apply Ok_inj in H as <-. by eapply add_item_moves.
  - unfold add_agenda_todo in H. apply bind_ok in H as (_ & _ & H). by eapply add_todo_moves.
  - unfold remove_agenda_item in H. apply bind_ok in H as (m & _ & H). by eapply remove_moves.
Qed.
Lemma guest_request_quiets k d p d' : tables_ok d → guest_request k d p d' → quiets fresh d d'.
Proof.
  intros Hok Hr. destruct Hr; repeat match goal with H : as_lead _ _ _ _ = Ok _ |- _ => apply as_lead_ok in H end.
  - eapply decide_moves; [done| |done]. set_solver.
  - eapply decide_moves; [done| |done]. set_solver.
  - eapply decide_moves; [done| |done]. set_solver.
  - by eapply rename_moves.
  - by eapply admit_all_moves.
  - by eapply rotate_moves.
Qed.
Lemma device_request_quiets d d' : tables_ok d → device_request d d' → quiets fresh d d'.
Proof.
  intros Hok Hr. destruct Hr; [by eapply join_moves|by eapply visit_moves|by eapply rename_self_moves|by eapply leave_moves
    |by eapply guest_cast_moves].
Qed.
Lemma votes_quiets d r : tables_ok d → room_write (room d) r → NoDup (ai_id <$> agenda_items (flow_db r)) → quiets fresh d (with_room r d).
Proof.
  intros Hok [Hc Hg (new & Hi & Hnew) Hv] Hnd. apply quiets_one.
  assert (Hrow : ∀ P m, meeting_in P (room d) m → ∃ x, x ∈ meeting_rows d ∧ me_id x = m ∧ P (me_status x)).
  { intros P m (x & Hx & HP). exists x. split; [by apply find_by_elem in Hx|]. split; [by apply find_by_id in Hx|done]. }
  replace (core (with_room r d)) with (put_votes (vcore <$> votes (flow_db r)) (put_items (mc_items (core d) ++ new) (core d))).
  2: { unfold core, put_votes, put_items, meeting_rows, items, guest_rows. cbn. by rewrite Hc, Hg, Hi. }
  apply (q_room _ (core d)).
  - change (mc_items (core d)) with (agenda_items (flow_db (room d))). by rewrite <- Hi.
  - eapply Forall_impl; [exact Hnew|]. intros i. apply Hrow.
  - intros id v. rewrite lookup_fmap, fmap_Some. intros (x & Hx & ->). destruct (Hv id x Hx) as [V1 V2 V3 V4].
    assert (Hold : ∀ (P : vrow → Prop), (∃ w, votes (flow_db (room d)) !! id = Some w ∧ P (vcore w)) → ∃ u, mc_votes (core d) !! id = Some u ∧ P u).
    { intros P (w & Hw & HP). exists (vcore w). cbn. by rewrite lookup_fmap, Hw. }
    split; cbn.
    + intros m [H|H]%V1; [left; by apply (Hold (λ u, u.1.1 = Some m))|right; by apply (Hrow unclosed)].
    + intros m Hm Hs. destruct (V2 m Hm Hs) as [H|(y & Hy & E & Hr)%Hrow]; [left; by apply (Hold (λ u, u.1.1 = Some m ∧ u.2 = open))|].
      right. exists y. split; [done|]. split; [done|].
      assert (Hl : life y) by (eapply Forall_forall; [apply Hok|done]). destruct Hr as [Hr1 Hr2].
      destruct Hl as [[El _]|[[El _]|[El _]]]; [by destruct Hr1|done|by destruct Hr2].
    + intros m Hm Hs. destruct (V3 m Hm Hs) as [H|H]; [left; by apply (Hold (λ u, u.1.1 = Some m ∧ u.2 = draft))|right; by apply (Hrow unclosed)].
    + intros m i E. injection E as Em Ei. destruct (V4 m i Em Ei) as [H|(a & Ha & E1 & E2)].
      * left. destruct H as (w & Hw & E1 & E2). apply (Hold (λ u, u.1 = (Some m, Some i))). exists w. unfold vcore. cbn. by rewrite E1, E2.
      * right. apply list_elem_of_fmap. exists a. rewrite Hi in Ha. unfold iview. by rewrite E1, E2.
Qed.
(** A write of the protocols. *)
Definition protocol_write (d d1 : MeetingDb) : Prop := core d1 = put_protocols (protocols d1) (core d).
Lemma protocol_write_ok d d1 : protocol_write d d1 → tables_ok d → tables_ok d1.
Proof. intros -> H. by apply ok_protocols. Qed.
Lemma protocol_write_rows d d1 : protocol_write d d1 → meeting_rows d1 = meeting_rows d.
Proof. intros H. exact (f_equal mc_rows H). Qed.
(** It makes no protocol a draft again. *)
Definition no_new_draft (d d1 : MeetingDb) : Prop :=
  ∀ id, protocol_status d id ≠ Some "draft" → protocol_status d1 id ≠ Some "draft".
Lemma finalize_moves d meeting d' :
  tables_ok d → start_finalize d meeting = Ok d' → ∃ d1, protocol_write d d1 ∧ no_new_draft d d1 ∧ quiets fresh d1 d'.
Proof.
  intros Hok H. unfold start_finalize in H. apply bind_ok in H as (st & Hst%or_meeting_ok & H). apply bind_ok in H as (m & _ & H).
  apply bind_ok in H as (? & _ & H). apply bind_ok in H as (? & Hd%raise_if_ok & H). bool_prop. subst st.
  cbn zeta in H. set (d1 := MkMeetingDb _ _ _ _) in H. apply Ok_inj in H as <-. exists d1.
  split; [done|]. split; [|by apply pseudonymize_moves, (protocol_write_ok d)].
  intros i Hi. assert (Hne : i ≠ meeting) by (intros ->; done). unfold d1, protocol_status. cbn.
  by rewrite find_by_other.
Qed.
(** The rest of the program: the votes, the finalization of the minutes, or a write of the protocols. *)
Lemma system_step_cases d d' :
  tables_ok d → system_step d d' →
  ∃ d1, protocol_write d d1 ∧ (core d' = core d1 ∨ no_new_draft d d1 ∧ quiets fresh d1 d').
Proof.
  intros Hok. destruct 1 as [r Hv Hnd|meeting d' H|d' (E1 & E2 & E3 & E4 & E5)].
  - exists d. split; [done|]. right. split; [by intros id|]. apply votes_quiets; [done|by apply vote_op_write|done].
  - apply finalize_moves in H as (d1 & H1 & H2 & H3); [|done]. exists d1. auto.
  - exists d'. split; [|by left]. unfold protocol_write, put_protocols, core. cbn. by rewrite E1, E2, E3, E4, E5.
Qed.
(** A step writes the protocols first, or it is a run of moves. *)
Lemma step_moves k d d' :
  tables_ok d → (fresh = true → k = d) → meeting_step planned_start k d d' →
  moves fresh d d' ∨ ∃ d1, protocol_write d d1 ∧ (core d' = core d1 ∨ no_new_draft d d1 ∧ quiets fresh d1 d').
Proof.
  intros Hok Hk. destruct 1 as [p d' [H|[H|H]]|d' H|d' H]; [left..|right].
  - by eapply life_request_moves.
  - apply quiets_moves. by eapply agenda_request_quiets.
  - apply quiets_moves. by eapply guest_request_quiets.
  - apply quiets_moves. by apply device_request_quiets.
  - by apply system_step_cases.
Qed.
Lemma step_keeps k d d' : tables_ok d → (fresh = true → k = d) → meeting_step planned_start k d d' → tables_ok d'.
Proof.
  intros Hok Hk H. destruct (step_moves _ _ _ Hok Hk H) as [Hm|(d1 & Hw & [-> |[_ Hq]])]; [by eapply moves_keep|..].
  - by eapply protocol_write_ok.
  - eapply quiets_keep; [exact Hq|]. by eapply protocol_write_ok.
Qed.
End Steps.
Lemma no_meetings_ok d : no_meetings d → tables_ok d.
Proof.
  intros (E1 & E2 & E3 & E4 & E5). unfold core. rewrite E1, E2, E3, E4. split; cbn.
  - split; constructor.
  - split; [split|..]; try (intros; by match goal with H : _ ∈ [] |- _ => apply not_elem_of_nil in H end). constructor.
  - split; [constructor|]. by intros id i H%not_elem_of_nil.
  - split; try (intros; by match goal with H : _ ∈ [] |- _ => apply not_elem_of_nil in H end). constructor.
  - split; intros; by match goal with H : _ ∈ [] |- _ => apply not_elem_of_nil in H end.
  - assert (Hn : ∀ id m i s, (vcore <$> votes (flow_db (room d))) !! id ≠ Some (Some m, i, s)).
    { intros id m i s. rewrite lookup_fmap, fmap_Some. intros (v & Hv & E). injection E as E _ _. by rewrite (E5 id v Hv) in E. }
    split; intros; by match goal with H : (vcore <$> _) !! _ = _ |- _ => apply Hn in H end.
Qed.
Lemma reached_ok planned_start d : reached planned_start d → tables_ok d.
Proof.
  intros (d0 & H0%no_meetings_ok & Hr). induction Hr as [d|a b c (k & Hk) _ IH]; [done|]. apply IH.
  eapply (step_keeps planned_start false); [done|discriminate|exact Hk].
Qed.

(** ** Who starts and ends a meeting *)
Lemma quiets_row fresh d d' m m' :
  tables_ok d → quiets fresh d d' → m ∈ meeting_rows d → m' ∈ meeting_rows d' → me_id m' = me_id m → same_stage m m'.
Proof.
  intros Hok Hq Hm Hm' E. pose proof (stage_quiets _ _ _ _ Hq (stage_start d m Hok Hm)) as [Hok' Hrow Hs].
  by rewrite (the_row d' m' (current d' m) Hok' Hm' Hrow) by (destruct Hs; congruence).
Qed.
Lemma row_other d m m' : tables_ok d → m ∈ meeting_rows d → m' ∈ meeting_rows d → me_id m' = me_id m → me_status m' = me_status m.
Proof. intros Hok Hm Hm' E. by rewrite (the_row d m' m). Qed.
Lemma check_patch_write d m payload p : check_patch d m payload p = Ok () → is_Some (mp_status payload) → can_write (room d) m p = true.
Proof.
  intros H Hs. unfold check_patch in H. apply bind_ok in H as (_ & _ & H). apply bind_ok in H as (_ & Hw%raise_if_ok & _).
  unfold wants_write, sent in Hw. rewrite bool_decide_true in Hw by done. cbn in Hw. by apply negb_false_iff in Hw.
Qed.
Section Reached.
Context (planned_start : option pydate → option Z → option Z).
(** What a patch needs to change a status. *)
Definition status_rule (d : MeetingDb) (m : Meeting) (payload : MeetingPatch) (now : Z) (s : string) : Prop :=
  (me_status m = "planned" ∧ s = "live" ∧ check_open (open_window m (load_meeting_settings d)) now (mp_confirm_early payload) = Ok ()) ∨
  (me_status m = "live" ∧ s = "closed" ∧ open_vote_of d (me_id m) = false).
Lemma patch_status_rule draws d meeting payload p id now d' m m' :
  tables_ok d → fresh_period d id → patch_locked planned_start draws d meeting payload p id now = Ok d' →
  m ∈ meeting_rows d → m' ∈ meeting_rows d' → me_id m' = me_id m → me_status m' ≠ me_status m →
  me_id m = meeting ∧ can_write (room d) m p = true ∧ status_rule d m payload now (me_status m').
Proof.
  intros Hok Hid H Hm Hm' E Hne. destruct (patch_locked_stages planned_start draws false _ _ _ _ _ _ _ Hok Hid H) as (m0 & d3 & d4 & <- & [Hm0 Hcp Hcs Hwin Hq Hst _ _ Hgo Hd]).
  destruct (patch_rows d3 d4 m0 payload (sub p) now id Hst Hgo) as (F & EF & IF & NF & SF).
  assert (Er : meeting_rows d' = update_row me_id (me_id m0) F (meeting_rows d3)) by (rewrite <- EF; exact (f_equal mc_rows Hd)).
  rewrite Er in Hm'. apply update_row_in in Hm' as (y & Hy & Hcase).
  assert (Ey : me_id y = me_id m) by (destruct Hcase as [-> |[_ ->]]; [done|by rewrite IF in E]).
  pose proof (quiets_row _ _ _ _ _ Hok Hq Hm Hy Ey) as (_ & Es & _).
  destruct Hcase as [-> |[Ei ->]]; [congruence|]. assert (m0 = m) as -> by (apply (the_row d); [done|done|done|congruence]).
  split; [done|]. destruct (mp_status payload) as [s|] eqn:Ep; [|by rewrite NF in Hne].
  rewrite (SF s eq_refl) in Hne |- *. split; [eapply check_patch_write; [done|by rewrite Ep]|].
  assert (Ec : status_change m payload = Some s) by (unfold status_change; rewrite Ep; by rewrite bool_decide_false).
  destruct (status_change_ok d m payload s Hcs Ec) as [[E1 ->]|(E1 & -> & E2)]; [left|right]; auto.
Qed.
(** C19: a meeting is planned, then live, then closed: a request changes the status only as a patch of
    that meeting by a principal who may write in it; it starts a planned meeting in its window, with a
    keeper of the minutes, and it closes a live one without an open vote.  No other request, no device,
    no vote and no other part of the program changes the status of a meeting. *)
Theorem status_changes_by_patch k d d' m m' :
  reached planned_start d → meeting_step planned_start k d d' →
  m ∈ meeting_rows d → m' ∈ meeting_rows d' → me_id m' = me_id m → me_status m' ≠ me_status m →
  ∃ p draws payload id now, patch_locked planned_start draws d (me_id m) payload p id now = Ok d' ∧
    can_write (room d) m p = true ∧ status_rule d m payload now (me_status m') ∧
    (me_status m' = "live" → is_Some (me_protokollant_id m')).
Proof.
  intros Hr%reached_ok Hst Hm Hm' E Hne. assert (Hq : ¬ quiets false d d').
  { intros Hq. by destruct (quiets_row _ _ _ _ _ Hr Hq Hm Hm' E) as (_ & ? & _). }
  assert (Hok' : tables_ok d') by (eapply (step_keeps planned_start false); [done|discriminate|exact Hst]).
  destruct Hst as [p d' [H|[H|H]]|d' H|d' H].
  - apply (life_request_cases planned_start false) in H; [|done]. destruct H as [(draws & meeting & payload & id & now & Hid & H)|[(x & Hx & Ec & _)|[(meeting & Ec & _)|H]]].
    + unfold patch_meeting in H. destruct (needs_lock payload); [|destruct Hq; eapply patch_unlocked_moves; [done|discriminate|exact H]].
      destruct (patch_status_rule _ _ _ _ _ _ _ _ _ _ Hr Hid H Hm Hm' E Hne) as (<- & Hw & Hrule). exists p, draws, payload, id, now.
      split; [done|]. split; [done|]. split; [done|]. intros El.
      destruct (ko_live _ _ (ok_keepers _ Hok') (me_id m') (me_protokollant_id m')) as (q & Hq' & Eq & Rq).
      { by apply live_view. }
      apply (ko_running _ _ (ok_keepers _ Hok')) in Rq; [|done]. rewrite Eq in Rq. apply live_keeper in Rq; [|done|done]. by rewrite <- Rq.
    + apply (f_equal mc_rows) in Ec. cbn in Ec. rewrite Ec in Hm'. apply elem_of_app in Hm' as [Hm'| -> %list_elem_of_singleton].
      * destruct Hne. by apply (row_other d).
      * destruct Hx. rewrite E. by apply list_elem_of_fmap_2.
    + change (mc_rows (core d')) with (meeting_rows d') in Ec. rewrite Ec in Hm'. apply list_elem_of_filter in Hm' as [_ Hm']. destruct Hne. by apply (row_other d).
    + done.
  - destruct Hq. eapply agenda_request_quiets; [done|discriminate|exact H].
  - destruct Hq. by eapply guest_request_quiets.
  - destruct Hq. by apply device_request_quiets.
  - apply (system_step_cases false) in H as (d1 & Hw & H); [|done]. pose proof (protocol_write_ok _ _ Hw Hr) as Hok1.
    rewrite <- (protocol_write_rows _ _ Hw) in Hm. assert (Hq1 : quiets false d1 d') by (destruct H as [H|[_ H]]; [by apply quiets_same|done]).
    by destruct (quiets_row _ _ _ _ _ Hok1 Hq1 Hm Hm' E) as (_ & ? & _).
Qed.
End Reached.
