(* ===== verification/MeetingFacts.v ===== *)
(** What the life of a meeting guarantees in every state that the program reaches. *)

From stdpp Require Import gmap strings.
From S2P Require Import Prelude PyStr PyNum PyValue PyDate Sha256 VoteConfigs Tally Election FlowDb Decision FlowEngine FlowEngineFacts Policy Room.
From S2P Require Import VoteRows VoteService VoteClose VoteServiceFacts VoteWrites Meetings Agenda Guests Lifecycle MeetingCore MeetingInv.
From S2P Require Import MeetingSim LifeSim MeetingSteps.

(** ** A closed meeting *)
Lemma filter_implied {A} (P Q : A → Prop) `{∀ x, Decision (P x)} `{∀ x, Decision (Q x)} (l : list A) :
  (∀ x, x ∈ l → P x → Q x) → filter P (filter Q l) = filter P l.
Proof.
  induction l as [|x l IH]; intros Hl; [done|]. rewrite !filter_cons. rewrite <- IH by (intros y Hy; apply Hl; by right).
  pose proof (Hl x (list_elem_of_here _ _)) as Hx. destruct (decide (Q x)).
  - rewrite filter_cons. by destruct (decide (P x)).
  - destruct (decide (P x)); [tauto|done].
Qed.
Lemma filter_one {A B} (key : A → B) (P : A → Prop) `{∀ x, Decision (P x)} (l : list A) x :
  NoDup (key <$> l) → x ∈ filter P l → (∀ y, y ∈ filter P l → y = x) → filter P l = [x].
Proof.
  intros Hnd Hx Hu. apply NoDup_fmap_1, (NoDup_filter P) in Hnd. revert Hnd Hx Hu. generalize (filter P l). intros [|a r] Hnd Hx Hu.
  - by apply not_elem_of_nil in Hx.
  - assert (a = x) as -> by (apply Hu; left). f_equal. destruct r as [|b r]; [done|]. apply NoDup_cons in Hnd as [Hn _]. destruct Hn.
    rewrite (Hu b) by (right; left). left.
Qed.
Lemma head_filter {A} (P : A → Prop) `{∀ x, Decision (P x)} (l : list A) x : head (filter P l) = Some x → x ∈ l ∧ P x.
Proof.
  intros E. assert (Hx : x ∈ filter P l) by (destruct (filter P l); [done|]; injection E as ->; left).
  apply list_elem_of_filter in Hx. tauto.
Qed.
Definition agenda_rows (id : string) (c : MCore) : list AgendaItem := filter (λ i, ai_meeting_id i = id) (mc_items c).
Definition placed (i : AgendaItem) : string * Z * option string := (ai_id i, ai_position i, ai_title i).
(** What a closed meeting keeps: its row but for the application on the screen, the order and the
    titles of its agenda, and the whole agenda when its protocol is not a draft. *)
Record frozen (m : Meeting) (c c' : MCore) : Prop := {
  fz_row : ∃ m', m' ∈ mc_rows c' ∧ kview m' = kview m ∧ cview m' = cview m ∧ jview m' = jview m ∧ plan_of m' = plan_of m ∧
             me_closed_at m' = me_closed_at m;
  fz_agenda : placed <$> agenda_rows (me_id m) c' = placed <$> agenda_rows (me_id m) c;
  fz_minutes : snd <$> find_by fst (me_id m) (mc_protocols c) ≠ Some "draft" → agenda_rows (me_id m) c' = agenda_rows (me_id m) c
}.
Definition stays_frozen (m : Meeting) (c c' : MCore) : Prop :=
  mc_protocols c' = mc_protocols c ∧ frozen m c c'.
Lemma frozen_row m c c' m' :
  m' ∈ mc_rows c' → kview m' = kview m → cview m' = cview m → jview m' = jview m → plan_of m' = plan_of m → me_closed_at m' = me_closed_at m →
  agenda_rows (me_id m) c' = agenda_rows (me_id m) c → frozen m c c'.
Proof. intros Hm H1 H2 H3 H4 H5 Ha. split; [by exists m'|by rewrite Ha|done]. Qed.
Section Quiet.
Context (c : MCore) (Hc : mcore_ok c) (m : Meeting) (Hm : m ∈ mc_rows c) (Hcl : me_status m = "closed").
Lemma frozen_same c' : m ∈ mc_rows c' → agenda_rows (me_id m) c' = agenda_rows (me_id m) c → frozen m c c'.
Proof. intros Hm' Ha. by apply (frozen_row m c c' m). Qed.
Lemma other_meeting x : x ∈ mc_rows c → me_status x ≠ "closed" → me_id m ≠ me_id x.
Proof. intros Hx Hs E. apply Hs. by rewrite <- (row_unique c Hc m x). Qed.
Lemma row_stays x f : x ∈ mc_rows c → me_status x ≠ "closed" → m ∈ mc_rows (on_row (me_id x) f c).
Proof.
  intros Hx Hs. apply (elem_update_row me_id); [apply Hc|done|]. left. split; [done|by apply other_meeting].
Qed.
Lemma agenda_add l new : agenda_rows (me_id m) (put_items l c) = agenda_rows (me_id m) c →
  Forall (λ i, ∃ x, x ∈ mc_rows c ∧ me_id x = ai_meeting_id i ∧ me_status x ≠ "closed") new →
  agenda_rows (me_id m) (put_items (l ++ new) c) = agenda_rows (me_id m) c.
Proof.
  intros Hl Hnew. unfold agenda_rows in *. cbn in *. rewrite filter_app, Hl. rewrite <- (app_nil_r (filter _ (mc_items c))) at 2. f_equal.
  induction Hnew as [|i l' (x & Hx & E & Hs) _ IH]; [done|]. rewrite filter_cons, IH. apply decide_False. intros E'.
  apply (other_meeting x Hx Hs). congruence.
Qed.
Lemma agenda_write id f :
  (∀ i, item_text_only i (f i)) → (∀ i, i ∈ mc_items c → ai_id i = id → minutes_rule c i (f i)) →
  frozen m c (put_items (update_row ai_id id f (mc_items c)) c).
Proof.
  intros Hf Hr. set (g := λ i, if bool_decide (ai_id i = id) then f i else i).
  assert (Hg : agenda_rows (me_id m) (put_items (update_row ai_id id f (mc_items c)) c) = g <$> agenda_rows (me_id m) c).
  { clear Hr. unfold agenda_rows, update_row. cbn. induction (mc_items c) as [|i l IH]; [done|]. rewrite fmap_cons, !filter_cons, IH.
    assert (E : ai_meeting_id (if bool_decide (ai_id i = id) then f i else i) = ai_meeting_id i) by (case_bool_decide; [apply Hf|done]).
    rewrite E. by destruct (decide (ai_meeting_id i = me_id m)). }
  assert (Hrule : ∀ i, i ∈ agenda_rows (me_id m) c → placed (g i) = placed i ∧
            (snd <$> find_by fst (me_id m) (mc_protocols c) ≠ Some "draft" → g i = i)).
  { intros i [Em Hi]%list_elem_of_filter. unfold g. case_bool_decide as Ei; [|done].
    destruct (Hr i Hi Ei m Hm) as (E1 & E2 & E3); [done|done|]. split; [|done]. unfold placed. destruct (Hf i) as [-> _]. congruence. }
  split.
  - by exists m.
  - rewrite Hg, <- list_fmap_compose. apply list_fmap_ext. intros n i Hi%list_elem_of_lookup_2. by apply Hrule.
  - intros Hp. rewrite Hg. rewrite <- (list_fmap_id (agenda_rows _ _)) at 2. apply list_fmap_ext. intros n i Hi%list_elem_of_lookup_2.
    by apply Hrule.
Qed.
Lemma agenda_remove id x :
  x ∈ mc_rows c → me_status x ≠ "closed" → (id, me_id x) ∈ iview <$> mc_items c →
  (∃ m', m' ∈ unlink_meeting id <$> mc_rows c ∧ kview m' = kview m ∧ cview m' = cview m ∧ jview m' = jview m ∧ plan_of m' = plan_of m ∧
     me_closed_at m' = me_closed_at m) ∧
  filter (λ i, ai_meeting_id i = me_id m) (filter (λ i, ai_id i ≠ id) (mc_items c)) = agenda_rows (me_id m) c.
Proof.
  intros Hx Hs Hi. pose proof (other_meeting x Hx Hs) as Hne. destruct (ok_current c Hc) as [C1 C2].
  assert (Hall : ∀ k, (id, k) ∈ iview <$> mc_items c → k = me_id x).
  { intros k Hk. assert (E : (id, k) = (id, me_id x)) by (by apply (same_row fst (iview <$> mc_items c))). by injection E. }
  split.
  - exists (unlink_meeting id m). split; [by apply list_elem_of_fmap_2|]. split; [done|]. split; [|done].
    unfold cview, unlink_meeting, forget_item. cbn. case_bool_decide as E; [|done]. destruct Hne. apply Hall, C2. rewrite <- E.
    by apply (list_elem_of_fmap_2 cview).
  - unfold agenda_rows. apply filter_implied. intros i Hii Em Ei. apply Hne. rewrite <- Em. apply Hall. rewrite <- Ei.
    by apply (list_elem_of_fmap_2 iview).
Qed.
End Quiet.
Lemma quiet_frozen c c' m :
  mcore_ok c → m ∈ mc_rows c → me_status m = "closed" → quiet true c c' → stays_frozen m c c'.
Proof.
  intros Hc Hm Hcl Hq. split; [by destruct Hq|].
  destruct Hq; try (apply frozen_same; try done; cbn; by try apply (row_stays c Hc m Hm Hcl)).
  - set (g := λ x, if bool_decide (me_id x = id) then f x else x).
    assert (Hg : g m ∈ mc_rows (on_row id f c)) by (by apply list_elem_of_fmap_2).
    apply (frozen_row m c _ (g m)); try done; unfold g; case_bool_decide as E; try done; try (by destruct (H m) as (? & ? & ? & ? & ? & ?)).
    by apply H0.
  - apply frozen_same; [|done]. apply (row_stays c Hc m Hm Hcl); [done|by rewrite H0].
  - apply frozen_same; [|done]. apply (row_stays c Hc m Hm Hcl); [done|by rewrite H0].
  - apply frozen_same; [|done]. apply (row_stays c Hc m Hm Hcl); [done|by rewrite H0].
  - apply frozen_same; [done|]. apply (agenda_add c Hc m Hm Hcl); [done|]. by apply Forall_singleton.
  - apply agenda_write; auto.
  - destruct (agenda_remove c Hc m Hm Hcl id m0) as [(m' & ? & ? & ? & ? & ? & ?) Ha]; [done|done|done|]. by apply (frozen_row m c _ m').
  - apply frozen_same; [done|]. by apply (agenda_add c Hc m Hm Hcl).
Qed.
(** Moves of others, and several moves. *)
Lemma frozen_closed m m' : kview m' = kview m → me_id m' = me_id m ∧ me_status m' = me_status m.
Proof. intros E. by injection E. Qed.
Lemma stays_trans m c c1 c' :
  stays_frozen m c c1 → (∀ m1, m1 ∈ mc_rows c1 → kview m1 = kview m → stays_frozen m1 c1 c') → stays_frozen m c c'.
Proof.
  intros [P1 [(m1 & Hm1 & E1 & E2 & E3 & E4 & E5) A1 F1]] H2. destruct (H2 m1 Hm1 E1) as [P2 [(m2 & Hm2 & G1 & G2 & G3 & G4 & G5) A2 F2]].
  apply frozen_closed in E1 as Ei. destruct Ei as [Ei _]. rewrite Ei in A2, F2. split; [congruence|]. split.
  - exists m2. repeat split; congruence.
  - congruence.
  - intros Hp. rewrite F2, F1 by (rewrite ?P1; done). done.
Qed.
Lemma quiets_frozen c c' m :
  mcore_ok c → m ∈ mc_rows c → me_status m = "closed" → rtc (quiet true) c c' → stays_frozen m c c'.
Proof.
  intros Hc Hm Hcl Hq. revert m Hm Hcl. induction Hq as [c|c c1 c' H1 H2 IH]; intros m Hm Hcl.
  - split; [done|]. by apply frozen_same.
  - apply (stays_trans m c c1); [by apply quiet_frozen|]. intros m1 Hm1 [_ E]%frozen_closed. apply IH; [by eapply quiet_ok|done|congruence].
Qed.
Lemma quiets_ids fresh c c' : rtc (quiet fresh) c c' → me_id <$> mc_rows c' = me_id <$> mc_rows c.
Proof.
  induction 1 as [c|c c1 c' H1 _ IH]; [done|]. rewrite IH. destruct H1; try done; cbn; try (by apply update_row_map);
    try (by rewrite <- list_fmap_compose). apply update_row_map. intros x. by destruct (H x) as (E & _); injection E.
Qed.
Lemma move_frozen c c' m :
  mcore_ok c → m ∈ mc_rows c → me_status m = "closed" → meeting_move c c' →
  me_id m ∉ me_id <$> mc_rows c' ∨ frozen m c c' ∧ find_by fst (me_id m) (mc_protocols c') = find_by fst (me_id m) (mc_protocols c).
Proof.
  intros Hc Hm Hcl Hmv. destruct Hmv as [x|x p started Hx Hs|x now item Hx Hs|id Hno].
  - right. split; [|done]. apply frozen_same; [|done]. cbn. set_solver.
  - right. split; [|done]. apply frozen_same; [|done]. apply (row_stays c Hc m Hm Hcl); [done|by rewrite Hs].
  - right. split; [|done]. apply frozen_same; [|done]. apply (row_stays c Hc m Hm Hcl); [done|by rewrite Hs].
  - destruct (decide (me_id m = id)) as [<-|Hne]; [left|right]; cbn.
    + by intros (y & E & [Hy _]%list_elem_of_filter)%list_elem_of_fmap.
    + split.
      * apply frozen_same; [by apply list_elem_of_filter|]. unfold agenda_rows. cbn. apply filter_implied. congruence.
      * unfold find_by. f_equal. apply filter_implied. intros q _ ->. done.
Qed.
Lemma run_frozen c c' m :
  mcore_ok c → m ∈ mc_rows c → me_status m = "closed" → run true c c' → me_id m ∉ me_id <$> mc_rows c' ∨ frozen m c c'.
Proof.
  intros Hc Hm Hcl (c1 & c2 & H1 & H2 & H3). pose proof (quiets_frozen _ _ _ Hc Hm Hcl H1) as F1. pose proof (quiets_ok _ _ _ H1 Hc) as Hc1.
  destruct H2 as [-> |H2].
  { right. apply (stays_trans m c c1); [done|]. intros m1 Hm1 [_ E]%frozen_closed. apply quiets_frozen; [done|done|congruence|done]. }
  destruct F1 as [P1 [(m1 & Hm1 & E1 & E2 & E3 & E4 & E5) A1 G1]]. destruct (frozen_closed _ _ E1) as [Ei Es].
  pose proof (move_ok _ Hc1 _ H2) as Hc2. rewrite (quiets_ids _ _ _ H3), <- Ei.
  destruct (move_frozen c1 c2 m1 Hc1 Hm1 ltac:(congruence) H2) as [Hgone|[[(m2 & Hm2 & K1 & K2 & K3 & K4 & K5) A2 G2] P2]]; [by left|right].
  destruct (frozen_closed _ _ K1) as [Ki Ks].
  destruct (quiets_frozen c2 c' m2 Hc2 Hm2 ltac:(congruence) H3) as [P3 [(m3 & Hm3 & L1 & L2 & L3 & L4 & L5) A3 G3]].
  rewrite Ki, Ei in A3, G3. rewrite Ei in P2, A2, G2. split.
  - exists m3. repeat split; congruence.
  - congruence.
  - intros Hp. rewrite G3, G2, G1; [done|done|by rewrite P1|by rewrite P2, P1].
Qed.

Section Reached.
Context (planned_start : option pydate → option Z → option Z).
(** A live meeting has exactly one running period of a keeper of the minutes, and it is the one of
    its protokollant; a meeting that is not live has no running and no planned period, and each of
    its periods has a start not after its end. *)
Lemma live_meeting_keeper d m :
  reached planned_start d → m ∈ meeting_rows d →
  let periods := filter (λ p, pk_meeting_id p = me_id m) (keeper_periods d) in
  if bool_decide (me_status m = "live")
  then ∃ p, filter (λ p, is_running p = true) periods = [p] ∧ me_protokollant_id m = Some (pk_principal_id p)
  else ∀ p, p ∈ periods → ∃ s t, pk_from_at p = Some s ∧ pk_to_at p = Some t ∧ s ≤ t.
Proof.
  intros Hr%reached_ok Hm periods. pose proof (ok_keepers _ Hr) as [[K1 K2 K3 K4] _ Hpl Hrun Hlive]. case_bool_decide as Es.
  - destruct (Hlive (me_id m) (me_protokollant_id m)) as (p & Hp & Ep & Rp); [by apply live_view|]. exists p. split.
    + apply (filter_one pk_id); [subst periods; apply keys_filter, K1|..].
      * apply list_elem_of_filter. split; [done|]. by apply list_elem_of_filter.
      * intros q [Rq [Eq Hq]%list_elem_of_filter]%list_elem_of_filter. apply (K2 q p); [done|done|congruence|done|done].
    + symmetry. apply (live_keeper (core d)); [done|done|]. rewrite <- Ep. by apply Hrun.
  - intros p [Ep Hp]%list_elem_of_filter.
    assert (Hno : ∀ k, (pk_meeting_id p, "live", k) ∉ kview <$> mc_rows (core d)).
    { intros k H. apply list_elem_of_fmap in H as (x & E & Hx). injection E as E1 E2 _. apply Es. rewrite E2.
      f_equal. apply (the_row d); [done|done|done|congruence]. }
    destruct (pk_from_at p) as [s|] eqn:Ef; [|destruct (Hpl p Hp) as (k & H); [by apply bool_decide_eq_true|by apply Hno in H]].
    destruct (pk_to_at p) as [t|] eqn:Et; [|exfalso; eapply Hno, Hrun; [done|]; unfold is_running; by rewrite Ef, Et].
    destruct (K4 p t Hp Et) as (s' & E & Hle). exists s, t. by simplify_eq.
Qed.
(** C20: a vote of a meeting is a vote of a meeting that exists; it is open only while the meeting is
    live and a draft only until the meeting is closed, and its agenda item is on the agenda of that
    meeting: no close, no delete and no removal of an item leaves a vote behind. *)
Theorem votes_follow_meeting d id v m :
  reached planned_start d → votes (flow_db (room d)) !! id = Some v → vo_meeting_id v = Some m →
  ∃ r, meeting_row d m = Some r ∧
    (vote_status v = open → me_status r = "live") ∧ (vote_status v = draft → me_status r ≠ "closed") ∧
    (∀ i, vote_item v = Some i → is_Some (find_item d m i)).
Proof.
  intros Hr%reached_ok Hv Em. pose proof (ok_votes _ Hr) as [V1 V2 V3 V4]. pose proof (ok_life _ Hr) as [Hids _].
  assert (Hc : mc_votes (core d) !! id = Some (Some m, vote_item v, vote_status v)).
  { cbn. rewrite lookup_fmap, Hv. unfold vcore. by rewrite <- Em. }
  assert (Hrow : ∀ s, (m, s) ∈ sview <$> mc_rows (core d) → ∃ r, meeting_row d m = Some r ∧ me_status r = s).
  { intros s (r & E & Hin)%list_elem_of_fmap. injection E as -> ->. exists r. split; [|done]. by apply find_by_NoDup. }
  apply V1 in Hc as Hm. apply list_elem_of_fmap in Hm as ([m' s] & E & Hs). cbn in E. subst m'.
  destruct (Hrow s Hs) as (r & Er & _).
  exists r. split; [done|]. split; [|split].
  - intros Es. rewrite Es in Hc. destruct (Hrow "live") as (x & Ex & Hx); [by eapply V2|]. by simplify_eq.
  - intros Es. rewrite Es in Hc. destruct (V3 _ _ _ Hc) as (st & (x & Ex & Hx)%Hrow & Hne). by simplify_eq.
  - intros i Ei. rewrite Ei in Hc. apply V4 in Hc as (a & E & Ha)%list_elem_of_fmap. injection E as -> ->. unfold find_item.
    exists a. apply find_by_NoDup; [|by apply list_elem_of_filter]. apply keys_filter. rewrite <- item_ids. apply Hr.
Qed.
(** C21: after the close of a meeting no guest is identified: every guest that is left was admitted and
    has neither a name nor a token. Before it only a public meeting has waiting or admitted guests, a
    guest who left has neither name nor token, and no two guests have a token in common or a number
    in the same meeting. *)
Theorem guests_private d g :
  reached planned_start d → g ∈ guest_rows d →
  ∃ m, meeting_row d (mg_meeting_id g) = Some m ∧
    (me_status m = "closed" → is_Some (mg_admitted_at g) ∧ mg_display_name g = None ∧ mg_token_hash g = None) ∧
    (mg_status g ∈ ["pending"; "admitted"] → me_public_join m = true) ∧
    (mg_status g = "left" → mg_display_name g = None ∧ mg_token_hash g = None) ∧
    (∀ h, h ∈ guest_rows d → h ≠ g → mg_token_hash h = mg_token_hash g → mg_token_hash g = None) ∧
    (∀ h, h ∈ guest_rows d → h ≠ g → mg_meeting_id h = mg_meeting_id g → mg_seq h ≠ mg_seq g).
Proof.
  intros Hr%reached_ok Hg. pose proof (ok_guests _ Hr) as [_ G2 G3 G4]. pose proof (ok_life _ Hr) as [Hids _].
  destruct (G4 g Hg) as (s & p & (m & E & Hm)%list_elem_of_fmap & [_ _ _ F4 F5 F6 F7]). injection E as Ei -> ->.
  exists m. rewrite Ei. split; [by apply find_by_NoDup|]. split.
  - intros Hcl. destruct (F7 Hcl). auto.
  - split; [done|]. split; [auto|]. split.
    + intros h Hh Hne Ht. destruct (mg_token_hash g) as [t|] eqn:Eg; [|done]. destruct Hne. by apply (G2 h g _ Hh Hg Ht).
    + intros h Hh Hne Em Es. apply Hne. by apply G3; [| |congruence|].
Qed.
(** A join code leads to one meeting: when [meeting_by_code] finds a meeting, the meeting is public
    and not closed and no other meeting that is not closed has this code; and a public meeting that
    is not closed is found by its code when the code is in normal form. *)
Lemma join_code_unique d code :
  reached planned_start d →
  (∀ m, meeting_by_code d code = Ok m → me_public_join m = true ∧ me_status m ≠ "closed" ∧
     ∀ m', m' ∈ meeting_rows d → me_join_code m' = Some (normalize_code code) → me_status m' ≠ "closed" → m' = m) ∧
  (∀ m, m ∈ meeting_rows d → me_public_join m = true → me_status m ≠ "closed" →
     ∃ c, me_join_code m = Some c ∧ (normalize_code code = c → meeting_by_code d code = Ok m)).
Proof.
  intros Hr%reached_ok. pose proof (ok_codes _ Hr) as [J1 J2].
  assert (Hone : ∀ m m' c, m ∈ meeting_rows d → m' ∈ meeting_rows d → me_join_code m = Some c → me_join_code m' = Some c →
            me_status m ≠ "closed" → me_status m' ≠ "closed" → m' = m).
  { intros m m' c Hm Hm' E E' Hs Hs'. apply (the_row d); [done|done|done|]. symmetry.
    apply (J2 (me_id m) (me_status m) (me_public_join m) (me_id m') (me_status m') (me_public_join m') c); [| |done|done].
    - rewrite <- E. by apply (list_elem_of_fmap_2 jview).
    - rewrite <- E'. by apply (list_elem_of_fmap_2 jview). }
  unfold meeting_by_code. split.
  - intros m (Hm & (E & Hs & Hp))%or_meeting_ok%head_filter. split; [done|]. split; [done|]. intros m' Hm' E' Hs'. by apply (Hone m m' _ Hm Hm' E E').
  - intros m Hm Hp Hs. destruct (J1 (me_id m) (me_status m) (me_join_code m)) as [c Ec].
    { rewrite <- Hp. by apply (list_elem_of_fmap_2 jview). }
    exists c. split; [done|]. intros <-. apply or_meeting_ok. destruct (head _) as [m'|] eqn:Eh.
    + apply head_filter in Eh as (Hm' & E' & Hs' & _). f_equal. by apply (Hone m m' _ Hm Hm' Ec E').
    + exfalso. destruct (filter _ _) as [|x l] eqn:Ef; [|done]. apply (not_elem_of_nil m). rewrite <- Ef. by apply list_elem_of_filter.
Qed.
End Reached.

(** ** A concrete meeting *)
(** Alice leads the Gremium, Bob may write its minutes. *)
Definition council : Config :=
  MkConfig [] [] [] [] [MkGremium "g" true false 60 None]
    [MkPrincipalRow "p1" "alice" None None; MkPrincipalRow "p2" "bob" None None]
    [MkMembership "g" "p1" ["session.manage"; "protocol.write"; "vote.cast"]; MkMembership "g" "p2" ["protocol.write"]] [] [] [] [] [] [].
Definition lead : Principal := MkPrincipal "alice" [] [] [] None.
Definition writer : Principal := MkPrincipal "bob" [] [] [] None.
Definition at_noon (date : option pydate) (time : option Z) : option Z := Some 0.
Definition codes (n : nat) : string := "ABC234".
Definition s0 : MeetingDb := MkMeetingDb (MkRoomDb (MkDb council ∅ ∅ [] [] [] []) [] [] [] [] [] []) [] [] None.
Definition then_ (d : MeetingDb) (r : mres MeetingDb) : MeetingDb := match r with Ok x => x | Err _ => d end.
Lemma then_ok d r : is_ok r = true → r = Ok (then_ d r).
Proof. by destruct r. Qed.
Definition no_patch : MeetingPatch := MkMeetingPatch None None None None None None None None None None None true.
Definition with_status (s : string) : MeetingPatch := MkMeetingPatch None None None (Some s) None None None None None None None true.
Definition with_title (t : string) : MeetingPatch := MkMeetingPatch None None None None (Some t) None None None None None None false.
(** Alice creates a public meeting and starts it, puts an item on the agenda, opens a vote on it. *)
Definition s1 : MeetingDb :=
  then_ s0 (create_meeting at_noon codes s0 (MkMeetingCreate "g" "Sitzung" (Date 2026 3 1) 0 None (Some "p1") true "vote") lead "m").
Definition s2 : MeetingDb := then_ s1 (patch_meeting at_noon codes s1 s1 "m" (with_status "live") lead "k1" 5).
Definition s3 : MeetingDb := then_ s2 (add_agenda_item s2 s2 lead "m" None (Some "Haushalt") false "i1" 6).
Definition motion_rules : VoteConfig := MkVoteConfig ["yes"; "no"; "abstain"] simple None true false rejected false.
Definition motion_payload : VoteCreateInternal :=
  MkVoteCreateInternal (MotionRules motion_rules) "g" (Some "Beschluss?") None 1 None 1 None None None None None.
Definition put_room (d : MeetingDb) (r : fres RoomDb) : MeetingDb := match r with Ok x => with_room x d | Err _ => d end.
Definition s4 : MeetingDb := put_room s3 (create_internal (room s3) None motion_payload (Some "m") (Some "i1") false None "v" 7).
Definition s5 : MeetingDb := put_room s4 (open_vote (room s4) "v" 8 None None).
(** A guest asks, Alice lets the guest in and hands the minutes to Bob. *)
Definition s6 : MeetingDb := match join s5 "abc-234" "Gast" None 9 "q" "secret" with Ok (d, _) => d | Err _ => s5 end.
Definition s7 : MeetingDb := then_ s6 (admit_guest s6 "m" "q" "alice" 10).
Definition s8 : MeetingDb := then_ s7 (hand_over s7 "m" "p2" hand_now lead "k2" 11).
(** The vote is cancelled, the meeting closed; its protocol is a draft, and Bob edits an item. *)
Definition s9 : MeetingDb := put_room s8 (cancel (room s8) "v" 12 None).
Definition s10 : MeetingDb := then_ s9 (patch_meeting at_noon codes s9 s9 "m" (with_status "closed") lead "k3" 13).
Definition s11 : MeetingDb := MkMeetingDb (room s10) (keeper_periods s10) [("m", "draft")] None.
Definition s12 : MeetingDb := then_ s11 (set_agenda_body s11 s11 writer "m" "i1" (Some "Angenommen.") None None).
Definition row_of_m (d : MeetingDb) : Meeting := default (new_meeting at_noon "" (MkMeetingCreate "" "" (Date 1 1 1) 0 None None false "") None "") (meeting_row d "m").
Example the_history :
  (λ d, (me_status (row_of_m d), me_protokollant_id (row_of_m d), length (keeper_periods d), mg_status <$> guest_rows d)) <$> [s1; s2; s6; s8; s10] =
  [("planned", Some "p1", 0%nat, []); ("live", Some "p1", 1%nat, []); ("live", Some "p1", 1%nat, ["pending"]);
   ("live", Some "p2", 2%nat, ["admitted"]); ("closed", Some "p2", 2%nat, ["admitted"])].
Proof. vm_compute. reflexivity. Qed.
Example the_item : ai_body <$> items s12 = [Some "Angenommen."].
Proof. vm_compute. reflexivity. Qed.
Lemma reach_step f d d' k : reached f d → meeting_step f k d d' → reached f d'.
Proof. intros (d0 & H0 & Hr) Hs. exists d0. split; [done|]. eapply rtc_r; [done|]. by exists k. Qed.
(** Steps of the history: a computation shows that an operation succeeds and that an id is new. *)
Lemma vote_step_ok f d k r :
  reached f d → (∀ x, r = Ok x → vote_op (room d) x) → is_ok r = true → bool_decide (NoDup (ai_id <$> items (put_room d r))) = true →
  reached f (put_room d r) ∧ meeting_step f k d (put_room d r).
Proof.
  intros Hd Hop Hr Hnd%bool_decide_eq_true. destruct r as [x|]; [|done].
  assert (H : ∀ k, meeting_step f k d (put_room d (Ok x))) by (intros k'; by apply ms_system, sy_votes; [apply Hop|]).
  split; [by apply (reach_step f d _ k)|done].
Qed.
Ltac compute_step := eapply then_ok; vm_compute; reflexivity.
Ltac compute_fresh := apply (bool_decide_unpack _); vm_compute; exact I.
Lemma step_1_2 : reached at_noon s1 ∧ meeting_step at_noon s1 s1 s2.
Proof.
  split.
  - apply (reach_step _ s0 _ s0); [exists s0; split; [by repeat split|apply rtc_refl]|]. eapply ms_request. left. eapply rq_create. compute_step.
  - eapply ms_request. left. eapply (rq_patch _ _ _ _ codes "m" _ "k1"); [compute_fresh|compute_step].
Qed.
Lemma reached_4 : reached at_noon s4.
Proof.
  destruct step_1_2 as [H1 H2]. assert (H3 : reached at_noon s3).
  { apply (reach_step _ s2 _ s2); [by apply (reach_step _ s1 _ s1)|]. eapply ms_request. right. left.
    eapply (rq_add_item _ _ _ "m" None _ _ "i1" 6); [compute_fresh|compute_step]. }
  apply (vote_step_ok _ s3 s3); [done| |vm_compute; reflexivity|vm_compute; reflexivity].
  intros x Hx. eapply o_create_internal; [|..|exact Hx]; vm_compute; reflexivity.
Qed.
Lemma reached_5 : reached at_noon s5.
Proof.
  apply (vote_step_ok _ s4 s4); [apply reached_4| |vm_compute; reflexivity|vm_compute; reflexivity].
  intros x Hx. by eapply o_open.
Qed.
Lemma reached_8 : reached at_noon s7 ∧ reached at_noon s8.
Proof.
  assert (H6 : reached at_noon s6).
  { apply (reach_step _ s5 _ s5); [apply reached_5|]. eapply ms_device. eapply (dv_join _ "abc-234" "Gast" None 9 "q" "secret" _ (Some "secret")).
    - compute_fresh.
    - unfold s6. destruct (join _ _ _ _ _ _ _) as [[d t]|] eqn:E; [|by vm_compute in E]. vm_compute in E. by injection E as <- <-. }
  assert (H7 : reached at_noon s7).
  { apply (reach_step _ s6 _ s6); [done|]. apply (ms_request _ _ _ lead). right. right. eapply (rq_admit _ _ _ "m" "q" 10). compute_step. }
  split; [done|]. apply (reach_step _ s7 _ s7); [done|]. apply (ms_request _ _ _ lead). left.
  eapply (rq_hand_over _ _ _ _ "m" "p2" hand_now "k2" 11); [compute_fresh|compute_step].
Qed.
Lemma reached_10 : reached at_noon s10.
Proof.
  assert (H9 : reached at_noon s9).
  { apply (vote_step_ok _ s8 s8); [apply reached_8| |vm_compute; reflexivity|vm_compute; reflexivity]. intros x Hx. by eapply o_cancel. }
  apply (reach_step _ s9 _ s9); [done|]. apply (ms_request _ _ _ lead). left.
  eapply (rq_patch _ _ _ _ codes "m" _ "k3"); [compute_fresh|compute_step].
Qed.
Lemma same_with_protocols d l x : same_meetings d (MkMeetingDb (room d) (keeper_periods d) l x).
Proof. done. Qed.
Lemma step_11_12 : reached at_noon s11 ∧ meeting_step at_noon s11 s11 s12.
Proof.
  split.
  - apply (reach_step _ s10 _ s10); [apply reached_10|]. apply ms_system, sy_other. apply (same_with_protocols s10).
  - apply (ms_request _ _ _ writer). right. left. eapply rq_body. compute_step.
Qed.
Lemma in_rows d : bool_decide (is_Some (meeting_row d "m")) = true → row_of_m d ∈ meeting_rows d.
Proof. intros [m Hm]%bool_decide_eq_true. unfold row_of_m. rewrite Hm. by apply find_by_elem in Hm. Qed.

(** ** Witnesses *)
Lemma status_changes_by_patch_witness :
  ∃ p draws payload id now, patch_locked at_noon draws s1 "m" payload p id now = Ok s2 ∧ can_write (room s1) (row_of_m s1) p = true.
Proof.
  destruct (status_changes_by_patch at_noon s1 s1 s2 (row_of_m s1) (row_of_m s2)) as (p & draws & payload & id & now & H1 & H2 & _).
  - apply step_1_2.
  - apply step_1_2.
  - apply in_rows. vm_compute. reflexivity.
  - apply in_rows. vm_compute. reflexivity.
  - vm_compute. reflexivity.
  - vm_compute. discriminate.
  - exists p, draws, payload, id, now. split; [exact H1|exact H2].
Defined.
Lemma votes_follow_meeting_witness : ∃ v r, votes (flow_db (room s5)) !! "v" = Some v ∧ meeting_row s5 "m" = Some r ∧ me_status r = "live".
Proof.
  destruct (votes (flow_db (room s5)) !! "v") as [v|] eqn:E; [|vm_compute in E; discriminate E].
  destruct (votes_follow_meeting at_noon s5 "v" v "m" reached_5 E) as (r & H1 & H2 & _).
  - vm_compute in E. injection E as <-. reflexivity.
  - exists v, r. split; [reflexivity|]. split; [exact H1|]. apply H2. vm_compute in E. injection E as <-. reflexivity.
Defined.
Lemma guests_private_witness : ∃ g, g ∈ guest_rows s10 ∧ is_Some (mg_admitted_at g) ∧ mg_display_name g = None ∧ mg_token_hash g = None.
Proof.
  destruct (guest_rows s10) as [|g l] eqn:E; [vm_compute in E; discriminate E|].
  assert (Hg : g ∈ guest_rows s10) by (rewrite E; left). exists g. split; [left|].
  destruct (guests_private at_noon s10 g reached_10 Hg) as (m & Hm & Hcl & _). apply Hcl.
  vm_compute in E. injection E as <- _. vm_compute in Hm. injection Hm as <-. reflexivity.
Defined.
(** A patch of the title takes no lock: with a read from before the close it still writes the row. *)
Example stale_patch_writes_closed_meeting :
  ∃ d', patch_meeting at_noon codes s9 s10 "m" (with_title "Neu") lead "k4" 14 = Ok d' ∧
    me_status (row_of_m d') = "closed" ∧ me_title (row_of_m s10) = "Sitzung" ∧ me_title (row_of_m d') = "Neu".
Proof. eexists. split; [vm_compute; reflexivity|]. vm_compute. done. Qed.
