(* ===== verification/AppAccess.v ===== *)
(** Applications: the tables of their service, who reads and edits one ([applications/access.py],
    [applications/router.py]), the list and its read scope, the open tasks ([service/listing.py]) and
    the persons whom a comment may mention ([applications/mentions.py]).

    The rows of [application] that the flow engine reads are in [room]; [app_columns] has the other
    columns.  The full text functions of the database are parameters.  Two rows with the same sort key
    keep the order of the table. *)

From Stdlib Require Import QArith_base.
From stdpp Require Import gmap strings.
From S2P Require Import Prelude PyStr PyNum PyValue PyDate Tally Election FormFields BudgetRules FlowDb Decision Ledger Todo Files Tickets.
From S2P Require Import FlowEngine Policy Room Delegations VoteRows VoteService.
Local Open Scope Z_scope.

(** ** The tables *)
Record AppColumns := MkAppColumns {
  apc_currency : option string;
  apc_lang : option string;
  apc_created_at : Z;
  apc_archived_at : option Z;
  apc_captured_by : option string;
  apc_capture_intake : option string;
  apc_received_on : option pydate
}.
(** [an_application_id] is unique. *)
Record Applicant := MkApplicant {
  an_application_id : string;
  an_email : option string;
  an_name : option string;
  an_anonymized_at : option Z
}.
Record FieldChange := MkChange { fc_old : pyval; fc_new : pyval }.
Record DataDiff := MkDiff {
  added : list (string * pyval);
  removed : list (string * pyval);
  changed : list (string * FieldChange)
}.
Record SubmissionVersion := MkVersion {
  sv_application_id : string;
  sv_version : Z;
  sv_data : list (string * pyval);
  sv_changed_by : option string;
  sv_at : Z;
  sv_diff : option DataDiff
}.
Inductive AuthorKind := by_principal | by_applicant.
#[export] Instance AuthorKind_eq_dec : EqDecision AuthorKind.
Proof. solve_decision. Defined.
Record Comment := MkComment {
  co_id : string;
  co_application_id : string;
  co_author : option string;
  co_author_kind : AuthorKind;
  co_body : string;
  co_visibility : NoteVisibility;
  co_mentions : list string;
  co_at : Z
}.
(** [magic_link] and [applicant_session], without the digests of their tokens. *)
Record MagicLink := MkMagicLink { mk_id : string; mk_application_id : string; mk_expires_at : option Z }.
Record ApplicantSession := MkApplicantSession { as_id : string; as_application_id : string; as_revoked_at : option Z }.
(** A form version with its fields in their order. *)
Record FormVersion := MkFormVersion { vn_id : string; vn_application_type_id : string; vn_fields : list FormFieldDef }.
Record ApplicationType := MkApplicationType {
  ty_id : string;
  ty_gremium_id : option string;
  ty_has_budget : bool;
  ty_active_form_version_id : option string
}.
Record AppDb := MkAppDb {
  room : RoomDb;
  cost_centers : list Budget;
  app_columns : gmap string AppColumns;
  applicants : list Applicant;
  submission_versions : list SubmissionVersion;
  app_comments : list Comment;
  magic_links : list MagicLink;
  applicant_sessions : list ApplicantSession;
  form_versions : list FormVersion;
  app_types : list ApplicationType;
  (** The flow version with [active]. *)
  active_flow : option string;
  (** The [at] of each status event. *)
  event_times : list (string * Z);
  gremium_names : list (string * string);
  app_roles : RoleTables;
  app_accounts : list Account;
  app_files : FileDb
}.
Definition engine (d : AppDb) : Db := flow_db (room d).
Definition get_application (d : AppDb) (id : string) : option Application := applications (engine d) !! id.

Inductive AppError :=
| ANotFound
| AForbidden
| AUnauthorized
| AConflict (err_code : string)
| AInvalid (err_code : string)
| AFiles (e : FileError)
| AFlow (e : FlowError)
| ADatabase
| ARaised (e : pyexc).
Notation ares := (res AppError).

(** ** Access to one application *)
Definition READ_PERMISSION : string := "application.read".
Definition MANAGE_PERMISSION : string := "application.manage".
Definition READ_ALL_PERMISSION : string := "application.read_all".
Definition EDIT_ANY_PERMISSION : string := "application.edit_any".
Definition TRANSITION_PERMISSION : string := "application.transition".
Definition MEMBER_PERMISSIONS : list string := [MANAGE_PERMISSION; TRANSITION_PERMISSION; EDIT_ANY_PERMISSION].
Inductive AccessVia := via_permission | via_applicant | via_owner | via_committee.
#[export] Instance AccessVia_eq_dec : EqDecision AccessVia.
Proof. solve_decision. Defined.
(** [acs_applicant] is the application that the magic link of the applicant names. *)
Record Access := MkAccess {
  acs_application_id : string;
  acs_principal : option Principal;
  acs_applicant : option string;
  acs_via : AccessVia
}.
Definition is_member_principal (p : Principal) : bool := existsb (has p) MEMBER_PERMISSIONS.
Definition _owner_as_applicant (a : Access) : bool :=
  match acs_via a, acs_principal a with via_owner, Some p => negb (is_member_principal p) | _, _ => false end.
Definition can_see_internal (a : Access) : bool := bool_decide (is_Some (acs_principal a)) && negb (_owner_as_applicant a).
Definition is_owning_applicant (a : Access) : bool := bool_decide (is_Some (acs_applicant a)).
Definition is_applicant_view (a : Access) : bool := is_owning_applicant a || _owner_as_applicant a.
Definition author_kind (a : Access) : AuthorKind := match acs_principal a with Some _ => by_principal | None => by_applicant end.
Definition APPLICANT_ACTOR : string := "applicant".
Definition actor (a : Access) : string := match acs_principal a with Some p => sub p | None => APPLICANT_ACTOR end.

Definition resolve_access (id : string) (principal : option Principal) (applicant : option string) (perm : string) : ares Access :=
  match principal, applicant with
  | Some p, _ => if has p perm then Ok (MkAccess id (Some p) None via_permission) else Err AForbidden
  | None, Some a => if bool_decide (a = id) then Ok (MkAccess id None (Some a) via_applicant) else Err AForbidden
  | None, None => Err AUnauthorized
  end.
Definition _is_creator (d : AppDb) (id : string) (p : Principal) : bool :=
  match get_application d id ≫= ap_created_by with Some s => bool_decide (s = sub p) | None => false end.
(** [BudgetTreeService.can_view_node]. *)
Definition path_prefixes (path : string) : list string := prefixes_of [] (py_split "-" path).
Definition can_view_node (d : AppDb) (budget_id : string) (gremien : list string) : ares bool :=
  match gremien with
  | [] => Ok false
  | _ =>
      match find_by bu_id budget_id (cost_centers d) with
      | None => Err ANotFound
      | Some node =>
          Ok (existsb (λ b, opt_mem (bu_view_gremium_id b) gremien)
                (filter (λ b, bu_path_key b ∈ path_prefixes (bu_path_key node)) (cost_centers d)))
      end
  end.
(** [Vote JOIN Meeting]. *)
Definition vote_meeting (d : AppDb) (v : Vote) : option Meeting := vo_meeting_id v ≫= meeting_by_id (room d).
Definition app_votes (d : AppDb) (id : string) : list (string * Vote) :=
  filter (λ kv, vo_application_id kv.2 = Some id) (map_to_list (votes (engine d))).
Definition voted_by (d : AppDb) (id : string) (gremien : list string) : bool :=
  existsb (λ kv, opt_mem (me_gremium_id <$> vote_meeting d kv.2) gremien) (app_votes d id).
Definition _committee_can_read (d : AppDb) (id : string) (p : Principal) : ares bool :=
  let gremien := gremium_reader_ids (room d) (sub p) in
  if bool_decide (gremien = []) then Ok false
  else
    let row := get_application d id in
    if opt_mem (row ≫= ap_vote_gremium_id) gremien then Ok true
    else
      seen ← match row ≫= ap_budget_id with Some b => can_view_node d b gremien | None => Ok false end;
      Ok (seen || voted_by d id gremien).
Definition committee_gremium_ids (d : AppDb) (id : string) : list string :=
  match get_application d id with
  | None => []
  | Some row =>
      let node := ap_budget_id row ≫= λ b, find_by bu_id b (cost_centers d) in
      let views := match node with
                   | Some n => omap bu_view_gremium_id
                                 (filter (λ b, bu_path_key b ∈ path_prefixes (bu_path_key n)) (cost_centers d))
                   | None => []
                   end in
      match ap_vote_gremium_id row with Some g => [g] | None => [] end ++ views ++
      omap (λ kv, me_gremium_id <$> vote_meeting d kv.2) (app_votes d id)
  end.
Definition _resolve_with_creator (d : AppDb) (id : string) (principal : option Principal) (applicant : option string) (perm : string)
    : ares Access :=
  match resolve_access id principal applicant perm, principal with
  | Err AForbidden, Some p => if _is_creator d id p then Ok (MkAccess id (Some p) None via_owner) else Err AForbidden
  | r, _ => r
  end.
Definition holds (principal : option Principal) (perm : string) : bool :=
  match principal with Some p => has p perm | None => false end.
Definition resolve_app_read (d : AppDb) (id : string) (principal : option Principal) (applicant : option string) : ares Access :=
  if holds principal READ_ALL_PERMISSION then Ok (MkAccess id principal None via_permission)
  else
    match resolve_access id principal applicant READ_PERMISSION, principal with
    | Err AForbidden, Some p =>
        seen ← _committee_can_read d id p;
        if seen : bool then Ok (MkAccess id (Some p) None via_committee)
        else if _is_creator d id p then Ok (MkAccess id (Some p) None via_owner)
        else Err AForbidden
    | r, _ => r
    end.
Definition require_app_edit (d : AppDb) (id : string) (principal : option Principal) (applicant : option string) : ares Access :=
  if holds principal EDIT_ANY_PERMISSION then Ok (MkAccess id principal None via_permission)
  else _resolve_with_creator d id principal applicant MANAGE_PERMISSION.
Definition require_app_applicant (d : AppDb) (id : string) (principal : option Principal) (applicant : option string) : ares Access :=
  access ← require_app_edit d id principal applicant;
  match acs_applicant access, acs_principal access with
  | Some _, _ => Ok access
  | None, Some p => if _is_creator d id p then Ok access else Err AForbidden
  | None, None => Err AForbidden
  end.
Definition principal_reads_all (p : Principal) : bool := has p READ_PERMISSION || has p READ_ALL_PERMISSION.
Definition principal_reads_pii (p : Principal) : bool := principal_reads_all p.
Definition can_read_pii (d : AppDb) (a : Access) : bool :=
  match acs_applicant a, acs_principal a with
  | Some _, _ => true
  | None, None => false
  | None, Some p => bool_decide (acs_via a = via_owner) || principal_reads_pii p || _is_creator d (acs_application_id a) p
  end.
Definition pii_keys_for_type (d : AppDb) (type_id : string) : list string :=
  key <$> filter (λ f, is_pii f = true) (concat (vn_fields <$> filter (λ v, vn_application_type_id v = type_id) (form_versions d))).
Definition hidden_pii_keys (d : AppDb) (a : Access) : list string :=
  if can_read_pii d a then []
  else match get_application d (acs_application_id a) with
       | Some app => pii_keys_for_type d (ap_type_id app)
       | None => []
       end.

(** ** The read scope of the list *)
(** [LIKE]: [%] is any text, [_] any character; a backslash quotes the next one. *)
Definition percent : ascii := char 37.
Definition underscore : ascii := char 95.
Fixpoint like_chars (pattern : list ascii) : list ascii → bool :=
  match pattern with
  | [] => λ s, match s with [] => true | _ => false end
  | c :: p =>
      if bool_decide (c = percent) then
        fix any s := like_chars p s || match s with [] => false | _ :: r => any r end
      else if bool_decide (c = underscore) then λ s, match s with [] => false | _ :: r => like_chars p r end
      else if bool_decide (c = backslash) then
        match p with
        | q :: p' => λ s, match s with [] => false | x :: r => bool_decide (x = q) && like_chars p' r end
        | [] => λ _, false
        end
      else λ s, match s with [] => false | x :: r => bool_decide (x = c) && like_chars p r end
  end.
Definition sql_like (s pattern : string) : bool := like_chars (chars pattern) (chars s).
Definition in_subtree (root : string) (b : Budget) : bool :=
  bool_decide (bu_path_key b = root) || sql_like (bu_path_key b) (root +:+ "-%").
(** [budget_id IN (SELECT id FROM budget WHERE ...)]. *)
Definition budget_in (d : AppDb) (p : Budget → bool) (a : Application) : bool :=
  opt_mem (ap_budget_id a) (bu_id <$> filter (λ b, p b = true) (cost_centers d)).
Definition _view_subtrees (d : AppDb) (root_paths : list string) : Application → bool :=
  budget_in d (λ b, existsb (λ rp, in_subtree rp b) root_paths).
Definition _committee_read_clauses (d : AppDb) (s : string) : list (Application → bool) :=
  let member_ids := gremium_reader_ids (room d) s in
  if bool_decide (member_ids = []) then []
  else
    let root_paths := bu_path_key <$> filter (λ b, opt_mem (bu_view_gremium_id b) member_ids = true) (cost_centers d) in
    (if bool_decide (root_paths = []) then [] else [_view_subtrees d root_paths]) ++
    [λ a, opt_mem (ap_vote_gremium_id a) member_ids; λ a, voted_by d (ap_id a) member_ids].
(** [None] is no limit. *)
Definition _read_scope (d : AppDb) (owner_sub committee_sub : option string) : option (Application → bool) :=
  let owner := match owner_sub with Some s => [λ a, bool_decide (ap_created_by a = Some s)] | None => [] end in
  let committee := match committee_sub with Some s => _committee_read_clauses d s | None => [] end in
  match owner ++ committee with [] => None | clauses => Some (λ a, existsb (λ c, c a) clauses) end.
Definition read_scope_for (d : AppDb) (p : Principal) : option (Application → bool) :=
  if principal_reads_all p then None else _read_scope d (Some (sub p)) (Some (sub p)).
Definition in_read_scope (scope : option (Application → bool)) (a : Application) : bool :=
  match scope with None => true | Some f => f a end.

(** ** The list *)
Record ListQuery := MkListQuery {
  lq_state_ids : list string;
  lq_gremium_id : option string;
  lq_type_id : option string;
  lq_budget_id : option string;
  lq_q : option string;
  lq_archived : option bool;
  lq_amount_min : option decimal;
  lq_amount_max : option decimal;
  lq_created_from : option pydate;
  lq_created_to : option pydate;
  lq_sort : string;
  lq_order : string;
  lq_limit : nat;
  lq_offset : nat
}.
Record ApplicationListItem := MkListItem {
  li_id : string;
  li_type_id : string;
  li_title : option string;
  li_state : option State;
  li_gremium_id : option string;
  li_amount : option Z;
  li_approved_amount : option Z;
  li_currency : option string;
  li_created_at : Z;
  li_archived_at : option Z;
  li_state_since : Z
}.
Definition _title_of (data : list (string * pyval)) : option string :=
  match dict_get "title" data with Some (PStr s) => given (Some (py_strip s)) | _ => None end.
Definition created_at (d : AppDb) (id : string) : Z := match app_columns d !! id with Some c => apc_created_at c | None => 0 end.
Definition archived_at (d : AppDb) (id : string) : option Z := app_columns d !! id ≫= apc_archived_at.
(** [max(status_event.at)], the time of the creation without an event. *)
Definition state_since (d : AppDb) (id : string) : Z :=
  let times := omap (λ e, if bool_decide (ev_application_id e = id) then snd <$> find_by fst (ev_id e) (event_times d) else None)
                 (status_events (engine d)) in
  match times with [] => created_at d id | t :: r => foldl Z.max t r end.
Definition _get_state (d : AppDb) (id : option string) : option State := id ≫= state_of (engine d).
Definition _list_item (d : AppDb) (a : Application) (archived : option Z) : ApplicationListItem :=
  MkListItem (ap_id a) (ap_type_id a) (_title_of (data_of a)) (_get_state d (ap_current_state_id a)) (ap_gremium_id a)
    (ap_amount a) (ap_approved_amount a) (app_columns d !! ap_id a ≫= apc_currency) (created_at d (ap_id a)) archived
    (state_since d (ap_id a)).
Definition _without_keys {A} (data : list (string * A)) (keys : list string) : list (string * A) :=
  filter (λ kv, kv.1 ∉ keys) data.
Definition _all_pii_keys (d : AppDb) : list string :=
  key <$> filter (λ f, is_pii f = true) (concat (vn_fields <$> form_versions d)).
Definition _archived_filter (archived : option bool) (at_ : option Z) : bool :=
  match archived with None => true | Some b => bool_decide (b = bool_decide (is_Some at_)) end.
Definition _budget_scope (d : AppDb) (id : option string) (a : Application) : bool :=
  match id with
  | None => true
  | Some b =>
      match find_by bu_id b (cost_centers d) with
      | None => false
      | Some node => budget_in d (in_subtree (bu_path_key node)) a
      end
  end.
Definition is_or_all {A} `{EqDecision A} (wanted : option A) (x : option A) : bool :=
  match wanted with None => true | Some _ => bool_decide (x = wanted) end.
Definition amount_at_least (bound : option decimal) (amount : option Z) : bool :=
  match bound, amount with
  | None, _ => true
  | Some _, None => false
  | Some m, Some c => negb (bool_decide (dec_compare (dec_money c) m = Lt))
  end.
Definition amount_at_most (bound : option decimal) (amount : option Z) : bool :=
  match bound, amount with
  | None, _ => true
  | Some _, None => false
  | Some m, Some c => negb (bool_decide (dec_compare (dec_money c) m = Gt))
  end.
(** Midnight UTC in microseconds since 1970. *)
Definition midnight (day : pydate) : Z := (toordinal day - 719163) * DAY_MICROS.
(** The end of [created_to], or the [OverflowError] of the last day of the calendar. *)
Definition created_before (day : option pydate) : ares (option Z) :=
  match day with
  | None => Ok None
  | Some x => match next_day x with Some y => Ok (Some (midnight y)) | None => Err (ARaised OverflowError) end
  end.
Definition _sort_key (d : AppDb) (sort : string) (a : Application) : option Z :=
  if bool_decide (sort = "amount") then ap_amount a
  else Some (if bool_decide (sort = "stateSince") then state_since d (ap_id a) else created_at d (ap_id a)).
(** Ascending or descending, [NULLS LAST]. *)
Definition key_leb (order : string) (a b : option Z) : bool :=
  match a, b with
  | Some x, Some y => if bool_decide (order = "asc") then x <=? y else y <=? x
  | _, None => true
  | None, Some _ => false
  end.
Definition all_applications (d : AppDb) : list Application :=
  omap (get_application d) (elements (dom (applications (engine d)))).

Section Search.
(** [app_search_text(jsonb)] of the database and [word_similarity] of pg_trgm. *)
Variable app_search_text : list (string * pyval) → string.
Variable word_similarity : string → string → Q.

Definition THRESHOLD : Q := 3 # 10.
(** [hidden_keys]: the keys that leave the data before the search; the creator keeps all. *)
Definition _search_text (hidden_keys : list string) (owner_sub : option string) (a : Application) : string :=
  if bool_decide (hidden_keys = []) || (bool_decide (is_Some owner_sub) && bool_decide (ap_created_by a = owner_sub))
  then app_search_text (data_of a) else app_search_text (_without_keys (data_of a) hidden_keys).
Definition search_rank (d : AppDb) (q : string) (hide_pii : bool) (owner_sub : option string) (a : Application) : Q :=
  word_similarity (py_strip q) (_search_text (if hide_pii then _all_pii_keys d else []) owner_sub a).
Definition search_of (q : option string) : option string :=
  match q with Some s => if bool_decide (py_strip s = "") then None else Some s | None => None end.
Definition list_filter (d : AppDb) (lq : ListQuery) (owner_sub committee_sub : option string) (hide_pii : bool) (before : option Z)
    (a : Application) : bool :=
  ap_email_confirmed a && in_read_scope (_read_scope d owner_sub committee_sub) a &&
  _archived_filter (lq_archived lq) (archived_at d (ap_id a)) &&
  (bool_decide (lq_state_ids lq = []) || opt_mem (ap_current_state_id a) (lq_state_ids lq)) &&
  is_or_all (lq_gremium_id lq) (ap_gremium_id a) && is_or_all (lq_type_id lq) (Some (ap_type_id a)) &&
  _budget_scope d (lq_budget_id lq) a &&
  match search_of (lq_q lq) with
  | Some q => negb (Qle_bool (search_rank d q hide_pii owner_sub a) THRESHOLD)
  | None => true
  end &&
  amount_at_least (lq_amount_min lq) (ap_amount a) && amount_at_most (lq_amount_max lq) (ap_amount a) &&
  match lq_created_from lq with Some x => midnight x <=? created_at d (ap_id a) | None => true end &&
  match before with Some t => created_at d (ap_id a) <? t | None => true end.
Definition list_leb (d : AppDb) (lq : ListQuery) (owner_sub : option string) (hide_pii : bool) (a b : Application) : bool :=
  let by_key := key_leb (lq_order lq) (_sort_key d (lq_sort lq) a) (_sort_key d (lq_sort lq) b) in
  match search_of (lq_q lq) with
  | Some q =>
      let ra := search_rank d q hide_pii owner_sub a in let rb := search_rank d q hide_pii owner_sub b in
      negb (Qle_bool ra rb) || (Qle_bool rb ra && by_key)
  | None => by_key
  end.
(** The page and the number of all hits. *)
Definition list_applications (d : AppDb) (lq : ListQuery) (owner_sub committee_sub : option string) (hide_pii : bool)
    : ares (list ApplicationListItem * Z) :=
  before ← created_before (lq_created_to lq);
  let rows := filter (λ a, list_filter d lq owner_sub committee_sub hide_pii before a = true) (all_applications d) in
  let page := take (lq_limit lq) (drop (lq_offset lq) (sort_by (list_leb d lq owner_sub hide_pii) rows)) in
  Ok ((λ a, _list_item d a (archived_at d (ap_id a))) <$> page, Z.of_nat (length rows)).
(** [GET /applications]. *)
Definition list_applications_route (d : AppDb) (p : Principal) (lq : ListQuery) (mine : bool) : ares (list ApplicationListItem * Z) :=
  let can_read := principal_reads_all p in
  let restricted := negb can_read && negb mine in
  list_applications d lq (if mine || negb can_read then Some (sub p) else None) (if restricted then Some (sub p) else None)
    (negb can_read).
End Search.

(** ** The open tasks *)
Definition flow_step {A} (r : fres A) : ares A := match r with Ok a => Ok a | Err e => Err (AFlow e) end.
Definition open_votes (d : AppDb) (id : string) : list (string * Vote) :=
  filter (λ kv, vote_status kv.2 = open) (app_votes d id).
Definition manual_exit (d : AppDb) (a : Application) : bool :=
  existsb (λ t, bool_decide (tr_flow_version_id t = ap_flow_version_id a) &&
                bool_decide (Some (tr_from_state_id t) = ap_current_state_id a) && tr_requires_action t &&
                negb (tr_automatic t) && bool_decide (tr_branch t = None)) (transitions (conf (engine d))).
Definition _task_filters (d : AppDb) (p : Principal) (can_transition : bool) (a : Application) : bool :=
  bool_decide (is_Some (_get_state d (ap_current_state_id a))) && ap_email_confirmed a && in_read_scope (read_scope_for d p) a &&
  (negb (bool_decide (open_votes d (ap_id a) = [])) ||
   (manual_exit d a && (can_transition || bool_decide (ap_created_by a = Some (sub p))))).

Section Tasks.
Context `{VotingRights}.
Definition _casts_in_open_vote (d : AppDb) (id : string) (p : Principal) (now : Z) : bool :=
  existsb (λ kv, can_still_cast (room d) kv.1 kv.2 p now) (open_votes d id).
Definition _fires_task_transition (d : AppDb) (a : Application) (p : Principal) (can_transition : bool) : ares bool :=
  listed ← if can_transition then flow_step (available_transitions (engine d) (ap_id a) p true) else Ok [];
  if existsb to_requires_action listed then Ok true
  else if bool_decide (ap_created_by a = Some (sub p)) then
    own ← flow_step (available_applicant_transitions (engine d) (ap_id a) true);
    Ok (existsb to_requires_action own)
  else Ok false.
Definition is_task (d : AppDb) (p : Principal) (now : Z) (a : Application) : ares bool :=
  if _casts_in_open_vote d (ap_id a) p now then Ok true
  else _fires_task_transition d a p (has p TRANSITION_PERMISSION).
Fixpoint keep_tasks (f : Application → ares bool) (l : list Application) : ares (list Application) :=
  match l with
  | [] => Ok []
  | a :: r => b ← f a; rest ← keep_tasks f r; Ok (if b : bool then a :: rest else rest)
  end.
Definition list_tasks (d : AppDb) (p : Principal) (now : Z) : ares (list ApplicationListItem) :=
  let rows := sort_by (λ a b, created_at d (ap_id b) <=? created_at d (ap_id a))
                (filter (λ a, _task_filters d p (has p TRANSITION_PERMISSION) a = true) (all_applications d)) in
  tasks ← keep_tasks (is_task d p now) rows;
  Ok (map (λ a, _list_item d a None) tasks).
End Tasks.

(** ** The persons whom a comment may mention *)
Definition account_row (d : AppDb) (id : string) : option PrincipalRow := principal_by_id (room d) id.
Definition holders_of (d : AppDb) (perm : string) : list string := role_holders (app_roles d) (app_accounts d) perm.
Definition live_account (d : AppDb) (id : string) : bool :=
  existsb (λ a, bool_decide (ac_id a = id) && ac_active a && bool_decide (ac_merged_into a = None)) (app_accounts d).
Definition _committee_members (d : AppDb) (gremien : list string) : list string :=
  filter (λ i, live_account d i = true)
    (gm_principal_id <$> filter (λ m, gm_gremium_id m ∈ gremien) (memberships (cfg (room d)))).
Definition _creator_as_member (d : AppDb) (id : string) : list string :=
  match (get_application d id ≫= ap_created_by) ≫= principal_by_sub (room d) with
  | None => []
  | Some row =>
      match filter (λ perm, pr_id row ∈ holders_of d perm) MEMBER_PERMISSIONS with
      | [] => []
      | _ => [pr_id row]
      end
  end.
Definition mentionable_people (d : AppDb) (id : string) : list PersonRef :=
  let ids := holders_of d READ_PERMISSION ++ holders_of d READ_ALL_PERMISSION ++
             _committee_members d (committee_gremium_ids d id) ++ _creator_as_member d id in
  let refs := omap (λ i, (λ r, person_of (pr_id r) (pr_display_name r) (pr_email r)) <$> account_row d i) (fromkeys ids) in
  sort_by person_leb (filter (λ x, is_Some (pe_id x)) refs).
Definition mentionable_ids (d : AppDb) (id : string) : list string := omap pe_id (mentionable_people d id).
