(* ===== verification/AppService.v ===== *)
(** The application service ([applications/service/]): detail, timeline, versions and comments as a
    reader gets them ([service_base.py], [reads.py]), edits with their diff ([diff.py], [edits.py]),
    archive, delete, comments ([comments.py]), anonymization ([anonymize.py]), create and capture
    ([create.py], [on_behalf.py]).

    An operation that locks no row reads the tables [k] and writes the columns that it changes in [d];
    one that locks the row of the application takes [d] alone.  An error leaves the tables as they were.
    [now] is the clock, the ids of new rows are arguments. *)

From stdpp Require Import gmap strings.
From S2P Require Import Prelude PyStr PyNum PyValue PyDate Tally Election FormFields FormValidation BudgetRules FlowDb Decision.
From S2P Require Import FlowEngine Policy Room Delegations VoteRows VoteService VoteClose Ledger Todo Files Tickets Meetings Agenda AppAccess.
Local Open Scope Z_scope.

(** ** Row updates *)
Definition with_room (x : RoomDb) (d : AppDb) : AppDb :=
  MkAppDb x (cost_centers d) (app_columns d) (applicants d) (submission_versions d) (app_comments d) (magic_links d)
    (applicant_sessions d) (form_versions d) (app_types d) (active_flow d) (event_times d) (gremium_names d) (app_roles d) (app_accounts d) (app_files d).
Definition with_engine (x : Db) (d : AppDb) : AppDb := with_room (Room.with_flow x (AppAccess.room d)) d.
Definition with_app_columns (x : gmap string AppColumns) (d : AppDb) : AppDb :=
  MkAppDb (AppAccess.room d) (cost_centers d) x (applicants d) (submission_versions d) (app_comments d) (magic_links d)
    (applicant_sessions d) (form_versions d) (app_types d) (active_flow d) (event_times d) (gremium_names d) (app_roles d) (app_accounts d) (app_files d).
Definition with_applicants (x : list Applicant) (d : AppDb) : AppDb :=
  MkAppDb (AppAccess.room d) (cost_centers d) (app_columns d) x (submission_versions d) (app_comments d) (magic_links d)
    (applicant_sessions d) (form_versions d) (app_types d) (active_flow d) (event_times d) (gremium_names d) (app_roles d) (app_accounts d) (app_files d).
Definition with_versions (x : list SubmissionVersion) (d : AppDb) : AppDb :=
  MkAppDb (AppAccess.room d) (cost_centers d) (app_columns d) (applicants d) x (app_comments d) (magic_links d)
    (applicant_sessions d) (form_versions d) (app_types d) (active_flow d) (event_times d) (gremium_names d) (app_roles d) (app_accounts d) (app_files d).
Definition with_app_comments (x : list Comment) (d : AppDb) : AppDb :=
  MkAppDb (AppAccess.room d) (cost_centers d) (app_columns d) (applicants d) (submission_versions d) x (magic_links d)
    (applicant_sessions d) (form_versions d) (app_types d) (active_flow d) (event_times d) (gremium_names d) (app_roles d) (app_accounts d) (app_files d).
Definition with_links (x : list MagicLink) (y : list ApplicantSession) (d : AppDb) : AppDb :=
  MkAppDb (AppAccess.room d) (cost_centers d) (app_columns d) (applicants d) (submission_versions d) (app_comments d) x y
    (form_versions d) (app_types d) (active_flow d) (event_times d) (gremium_names d) (app_roles d) (app_accounts d) (app_files d).
Definition with_event_times (x : list (string * Z)) (d : AppDb) : AppDb :=
  MkAppDb (AppAccess.room d) (cost_centers d) (app_columns d) (applicants d) (submission_versions d) (app_comments d) (magic_links d)
    (applicant_sessions d) (form_versions d) (app_types d) (active_flow d) x (gremium_names d) (app_roles d) (app_accounts d) (app_files d).
Definition with_app_files (x : FileDb) (d : AppDb) : AppDb :=
  MkAppDb (AppAccess.room d) (cost_centers d) (app_columns d) (applicants d) (submission_versions d) (app_comments d) (magic_links d)
    (applicant_sessions d) (form_versions d) (app_types d) (active_flow d) (event_times d) (gremium_names d) (app_roles d) (app_accounts d) x.
Definition update_app (id : string) (f : Application → Application) (d : AppDb) : AppDb :=
  with_engine (update_application id f (engine d)) d.
Definition app_audit (e : AuditEntry) (d : AppDb) : AppDb := with_engine (audit_record e (engine d)) d.
Definition set_data (data : pyval) (amount : option Z) (a : Application) : Application :=
  MkApplication (ap_id a) (ap_type_id a) (ap_form_version_id a) (ap_flow_version_id a) (ap_current_state_id a) (ap_budget_id a)
    (ap_fiscal_year_id a) (ap_gremium_id a) (ap_vote_gremium_id a) amount (ap_approved_amount a) data (ap_created_by a)
    (ap_email_confirmed a).
Definition set_currency (c : option string) (x : AppColumns) : AppColumns :=
  MkAppColumns c (apc_lang x) (apc_created_at x) (apc_archived_at x) (apc_captured_by x) (apc_capture_intake x) (apc_received_on x).
Definition set_archived_at (t : option Z) (x : AppColumns) : AppColumns :=
  MkAppColumns (apc_currency x) (apc_lang x) (apc_created_at x) t (apc_captured_by x) (apc_capture_intake x) (apc_received_on x).
Definition set_intake (i : option string) (x : AppColumns) : AppColumns :=
  MkAppColumns (apc_currency x) (apc_lang x) (apc_created_at x) (apc_archived_at x) (apc_captured_by x) i (apc_received_on x).
Definition update_columns (id : string) (f : AppColumns → AppColumns) (d : AppDb) : AppDb :=
  with_app_columns (alter f id (app_columns d)) d.
Definition of_app_files {A} (r : fileres A) : ares A := match r with Ok a => Ok a | Err e => Err (AFiles e) end.

(** ** Lookups *)
Definition _get_app (d : AppDb) (id : string) (allow_unconfirmed : bool) : ares Application :=
  match get_application d id with
  | None => Err ANotFound
  | Some a => if negb allow_unconfirmed && negb (ap_email_confirmed a) then Err ANotFound else Ok a
  end.
Definition versions_of (d : AppDb) (id : string) : list SubmissionVersion :=
  filter (λ v, sv_application_id v = id) (submission_versions d).
Definition _current_version (d : AppDb) (id : string) : Z := foldr Z.max 0 (sv_version <$> versions_of d id).
Definition _pinned_fields (d : AppDb) (a : Application) : list FormFieldDef :=
  match find_by vn_id (ap_form_version_id a) (form_versions d) with Some v => vn_fields v | None => [] end.
Definition applicant_of (d : AppDb) (id : string) : option Applicant := find_by an_application_id id (applicants d).

(** ** The diff *)
Definition compute_diff (old new : list (string * pyval)) : DataDiff :=
  MkDiff (filter (λ kv, dict_mem kv.1 old = false) new) (filter (λ kv, dict_mem kv.1 new = false) old)
    (omap (λ kv, match dict_get kv.1 new with
                 | Some v => if py_eqb kv.2 v then None else Some (kv.1, MkChange kv.2 v)
                 | None => None
                 end) old).
Definition diff_keys (x : DataDiff) : list string := (added x).*1 ++ (removed x).*1 ++ (changed x).*1.
Definition is_empty_diff (x : DataDiff) : bool := bool_decide (diff_keys x = []).
Definition _scrub_diff (x : DataDiff) (keys : list string) : DataDiff :=
  MkDiff (_without_keys (added x) keys) (_without_keys (removed x) keys) (_without_keys (changed x) keys).
(** [sorted({...})]. *)
Definition sorted_keys (l : list string) : list string := sort_by str_leb (fromkeys l).

(** ** Actors *)
Inductive ActorOut :=
| actor_principal (display_name principal_id : string)
| actor_applicant
| actor_system (key : string)
| actor_gremium (display_name : option string)
| actor_deleted.
Definition legacy (x : ActorOut) (raw : string) : option string :=
  match x with
  | actor_principal name _ => Some name
  | actor_gremium name => name
  | actor_applicant | actor_system _ => Some raw
  | actor_deleted => None
  end.
(** [value.partition(":")]. *)
Definition system_actor_key (value : string) : option string :=
  match py_split ":" value with
  | head :: rest => if bool_decide (head = "system") then Some (default "auto" (given (Some (join ":" rest)))) else None
  | [] => None
  end.
Definition _gremium_actor (d : AppDb) (a : Application) : option string := ap_gremium_id a ≫= λ g, dict_get g (gremium_names d).
(** [refs_by_sub]: a merged account shows the account that it was merged into. *)
Definition _author_ref (d : AppDb) (s : string) : option (string * string) :=
  match principal_by_sub (AppAccess.room d) s with
  | None => None
  | Some row =>
      let target := (find_by ac_id (pr_id row) (app_accounts d) ≫= ac_merged_into) ≫= account_row d in
      let shown := default row target in
      (λ n, (n, pr_id shown)) <$> given (text_or (pr_display_name shown) (pr_email shown))
  end.
(** [casefold] of an address. *)
Definition same_person (a b : option string) : bool :=
  match given a, given b with Some x, Some y => bool_decide (py_lower x = py_lower y) | _, _ => false end.
Definition _applicant_actors (d : AppDb) (a : Application) (magic_link_view : bool) : list string :=
  match ap_created_by a with
  | None => [APPLICANT_ACTOR]
  | Some s =>
      if negb magic_link_view then [APPLICANT_ACTOR; s]
      else if same_person (principal_by_sub (AppAccess.room d) s ≫= pr_email) (applicant_of d (ap_id a) ≫= an_email)
           then [APPLICANT_ACTOR; s] else [APPLICANT_ACTOR]
  end.
Definition _actor_out (value : string) (gremium : option ActorOut) (ref : option (string * string)) : ActorOut :=
  match gremium, system_actor_key value, ref with
  | Some shown, _, _ => shown
  | None, k, r =>
      if bool_decide (value = APPLICANT_ACTOR) then actor_applicant
      else match k, r with
           | Some k, _ => actor_system k
           | None, Some (name, pid) => actor_principal name pid
           | None, None => actor_deleted
           end
  end.
Definition _resolve_actor (d : AppDb) (a : Application) (applicant_view magic_link_view : bool) (value : string) : ActorOut :=
  let hidden := applicant_view && negb (bool_decide (value ∈ _applicant_actors d a magic_link_view)) in
  _actor_out value (if hidden then Some (actor_gremium (_gremium_actor d a)) else None) (_author_ref d value).
Definition resolve_actor (d : AppDb) (a : Application) (applicant_view magic_link_view : bool) (value : option string)
    : option ActorOut :=
  _resolve_actor d a applicant_view magic_link_view <$> given value.
Definition legacy_of (info : option ActorOut) (value : option string) : option string :=
  match info, given value with Some x, Some v => legacy x v | _, _ => None end.

(** ** The detail *)
Record ApplicantOut := MkApplicantOut { ao_email : option string; ao_name : option string; ao_anonymized : bool }.
Record CaptureOut := MkCaptureOut {
  cp_captured_by : ActorOut;
  cp_captured_at : Z;
  cp_received_on : option pydate;
  cp_intake : option string
}.
Record DecisionOut := MkDecisionOut {
  do_requested_amount : option Z;
  do_approved_amount : option Z;
  do_amount_deviates : bool;
  do_conditions : list string;
  do_decided_at : Z;
  do_vote_id : option string;
  do_gremium_name : option string;
  do_meeting_title : option string;
  do_agenda_position : option Z
}.
Record ApplicationOut := MkApplicationOut {
  out_application : Application;
  out_columns : option AppColumns;
  out_state : option State;
  out_data : list (string * pyval);
  out_version : Z;
  out_applicant : option ApplicantOut;
  out_can_edit : bool;
  out_can_edit_locked : bool;
  out_is_owner : bool;
  out_state_since : Z;
  out_hidden_keys : list string;
  out_capture : option CaptureOut;
  out_decision : option DecisionOut
}.
(** The columns of the row that the answer copies: all but [data], the creator and the capture. *)
Definition shown_columns (a : Application) : Application :=
  MkApplication (ap_id a) (ap_type_id a) (ap_form_version_id a) (ap_flow_version_id a) (ap_current_state_id a) (ap_budget_id a)
    (ap_fiscal_year_id a) (ap_gremium_id a) (ap_vote_gremium_id a) (ap_amount a) (ap_approved_amount a) PNone None
    (ap_email_confirmed a).
Definition shown_extra (x : AppColumns) : AppColumns :=
  MkAppColumns (apc_currency x) (apc_lang x) (apc_created_at x) (apc_archived_at x) None None None.
(** [_agenda_position]: the number of an item on the agenda of its meeting, from 1. *)
Definition _agenda_position (d : AppDb) (meeting_id item_id : string) : option Z :=
  let order := sort_by agenda_leb (filter (λ i, ai_meeting_id i = meeting_id) (agenda_items (engine d))) in
  (λ ni, Z.of_nat (S ni.1)) <$> list_find (λ i, ai_id i = item_id) order.
(** [decision_source]: the Gremium, the title of the meeting and the agenda number. *)
Definition decision_source (d : AppDb) (a : Application) (row : ApplicationDecision) : option string * option string * option Z :=
  let vote := de_vote_id row ≫= λ v, votes (engine d) !! v in
  let meeting := vote ≫= vote_meeting d in
  let gremium := match vote, meeting with
                 | None, _ => ap_gremium_id a
                 | Some _, Some m => Some (me_gremium_id m)
                 | Some v, None => parse_uuid (vo_eligible_group v)
                 end in
  let position := match vote with
                  | Some v => match vo_meeting_id v, vb_agenda_item_id (vo_body v) with
                              | Some m, Some i => _agenda_position d m i
                              | _, _ => None
                              end
                  | None => None
                  end in
  (gremium ≫= λ g, dict_get g (gremium_names d), me_title <$> meeting, position).
Definition _decision_out (d : AppDb) (a : Application) (applicant_view : bool) : option DecisionOut :=
  (λ row,
     let '(gremium, title, position) := decision_source d a row in
     MkDecisionOut (ap_amount a) (de_approved_amount row) (amount_deviates (ap_amount a) (de_approved_amount row))
       (de_conditions row) (de_decided_at row) (if applicant_view then None else de_vote_id row) gremium
       (if applicant_view then None else title) (if applicant_view then None else position))
  <$> valid_decision (engine d) (ap_id a).
Definition _capture_out (d : AppDb) (a : Application) (applicant_view magic_link_view : bool) : option CaptureOut :=
  c ← app_columns d !! ap_id a;
  who ← apc_captured_by c;
  Some (MkCaptureOut (_resolve_actor d a applicant_view magic_link_view who) (apc_created_at c) (apc_received_on c) (apc_capture_intake c)).
Record OutFlags := MkOutFlags {
  include_pii : bool;
  can_edit : bool;
  can_edit_locked : bool;
  is_owner : bool;
  strip_pii_fields : bool;
  applicant_view : bool;
  magic_link_view : bool
}.
Definition _to_out (d : AppDb) (a : Application) (f : OutFlags) : ApplicationOut :=
  let hidden := if strip_pii_fields f then pii_keys_for_type d (ap_type_id a) else [] in
  MkApplicationOut (shown_columns a) (shown_extra <$> app_columns d !! ap_id a) (_get_state d (ap_current_state_id a))
    (_without_keys (data_of a) hidden) (_current_version d (ap_id a))
    (if include_pii f
     then (λ r, MkApplicantOut (an_email r) (an_name r) (bool_decide (is_Some (an_anonymized_at r)))) <$> applicant_of d (ap_id a)
     else None)
    (can_edit f) (can_edit_locked f) (is_owner f) (state_since d (ap_id a)) (sorted_keys hidden)
    (_capture_out d a (applicant_view f) (magic_link_view f)) (_decision_out d a (applicant_view f)).
(** [GET /applications/{id}]. *)
Definition get_application_route (d : AppDb) (access : Access) : ares ApplicationOut :=
  let principal := acs_principal access in
  let pii := can_read_pii d access in
  a ← _get_app d (acs_application_id access) (is_owning_applicant access);
  let owner := bool_decide (is_Some principal) && bool_decide (ap_created_by a = sub <$> principal) in
  let edits_any := holds principal EDIT_ANY_PERMISSION in
  Ok (_to_out d a (MkOutFlags (bool_decide (is_Some principal) && pii) (holds principal MANAGE_PERMISSION || edits_any || owner)
                     edits_any owner (negb pii) (is_applicant_view access) (is_owning_applicant access))).

(** ** The timeline *)
Record TimelineEventOut := MkTimelineEvent {
  te_from_state_id : option string;
  te_to_state_id : string;
  te_to_state : option State;
  te_actor : option string;
  te_actor_info : option ActorOut;
  te_at : option Z;
  te_note : option string;
  te_vote_id : option string;
  te_vote_deleted : bool;
  te_decision : option (option Z * option Z * bool * nat)
}.
Definition event_time (d : AppDb) (e : StatusEvent) : option Z := snd <$> find_by fst (ev_id e) (event_times d).
Definition decision_of_event (d : AppDb) (id : string) (e : StatusEvent) : option ApplicationDecision :=
  last (filter (λ r, de_application_id r = id ∧ de_status_event_id r = Some (ev_id e)) (decisions (engine d))).
Definition _event_out (d : AppDb) (a : Application) (applicant_view magic_link_view : bool) (e : StatusEvent) : TimelineEventOut :=
  let info := resolve_actor d a applicant_view magic_link_view (ev_actor e) in
  MkTimelineEvent (ev_from_state_id e) (ev_to_state_id e) (_get_state d (Some (ev_to_state_id e))) (legacy_of info (ev_actor e)) info
    (event_time d e) (ev_note e) (if applicant_view then None else ev_vote_id e)
    (startswith (default "" (ev_note e)) "vote:" && bool_decide (ev_vote_id e = None))
    ((λ r, (ap_amount a, de_approved_amount r, amount_deviates (ap_amount a) (de_approved_amount r), length (de_conditions r)))
       <$> decision_of_event d (ap_id a) e).
Definition timeline (d : AppDb) (id : string) (allow_unconfirmed applicant_view magic_link_view : bool) : ares (list TimelineEventOut) :=
  a ← _get_app d id allow_unconfirmed;
  let rows := sort_by (λ x y, default 0 (event_time d x) <=? default 0 (event_time d y))
                (filter (λ e, ev_application_id e = id) (status_events (engine d))) in
  Ok (map (_event_out d a applicant_view magic_link_view) rows).

(** ** The version history *)
Record VersionOut := MkVersionOut {
  ver_version : Z;
  ver_data : option (list (string * pyval));
  ver_diff : option DataDiff;
  ver_changed_keys : list string;
  ver_changed_by : option string;
  ver_changed_by_info : option ActorOut;
  ver_at : Z
}.
Definition _version_out (row : SubmissionVersion) (info : option ActorOut) (hidden : list string) (applicant_view : bool) : VersionOut :=
  let diff := (λ x, _scrub_diff x hidden) <$> sv_diff row in
  MkVersionOut (sv_version row) (if applicant_view then None else Some (_without_keys (sv_data row) hidden))
    (if applicant_view then None else diff) (sorted_keys (match diff with Some x => diff_keys x | None => [] end))
    (legacy_of info (sv_changed_by row)) info (sv_at row).
Definition versions (d : AppDb) (id : string) (allow_unconfirmed applicant_view magic_link_view strip_pii : bool)
    : ares (list VersionOut) :=
  a ← _get_app d id allow_unconfirmed;
  let hidden := if strip_pii then pii_keys_for_type d (ap_type_id a) else [] in
  let rows := sort_by (λ x y, sv_version x <=? sv_version y) (versions_of d id) in
  Ok (map (λ r, _version_out r (resolve_actor d a applicant_view magic_link_view (sv_changed_by r)) hidden applicant_view) rows).
Definition get_versions_route (d : AppDb) (access : Access) : ares (list VersionOut) :=
  versions d (acs_application_id access) (is_owning_applicant access) (is_applicant_view access) (is_owning_applicant access)
    (negb (can_read_pii d access)).

(** ** The comments *)
Record CommentOut := MkCommentOut {
  cm_id : string;
  cm_author : option string;
  cm_author_kind : AuthorKind;
  cm_author_info : ActorOut;
  cm_body : string;
  cm_visibility : NoteVisibility;
  cm_at : Z;
  cm_is_own : bool;
  cm_attachments : list MessageAttachmentOut;
  cm_mentions : list PersonRef
}.
Definition is_comment_author (author : option string) (kind : AuthorKind) (viewer_sub : option string) (viewer_is_applicant : bool) : bool :=
  match kind with
  | by_principal => bool_decide (is_Some viewer_sub) && bool_decide (author = viewer_sub)
  | by_applicant => viewer_is_applicant
  end.
(** A stored value that is no UUID drops out. *)
Definition mention_ids (raw : list string) : list string := omap parse_uuid raw.
Definition person_ref (d : AppDb) (id : string) : PersonRef :=
  match account_row d id with Some r => person_of (pr_id r) (pr_display_name r) (pr_email r) | None => DELETED_PERSON end.
Definition _mention_refs (d : AppDb) (applicant_view : bool) (c : Comment) : list PersonRef :=
  if applicant_view then [] else person_ref d <$> mention_ids (co_mentions c).
Definition _comment_files (d : AppDb) (id : string) : list MessageAttachmentOut := message_attachments (app_files d) (of_comment id).
Definition nameless_author (kind : AuthorKind) : ActorOut := match kind with by_applicant => actor_applicant | by_principal => actor_deleted end.
Definition comment_info (d : AppDb) (a : Application) (applicant_view magic_link_view : bool) (c : Comment) : ActorOut :=
  default (nameless_author (co_author_kind c)) (resolve_actor d a applicant_view magic_link_view (co_author c)).
Definition comment_out (d : AppDb) (info : ActorOut) (is_own applicant_view : bool) (c : Comment) : CommentOut :=
  MkCommentOut (co_id c) (given (co_author c) ≫= legacy info) (co_author_kind c) info (co_body c) (co_visibility c) (co_at c) is_own
    (_comment_files d (co_id c)) (_mention_refs d applicant_view c).
Definition list_comments (d : AppDb) (id : string) (include_internal allow_unconfirmed : bool) (viewer_sub : option string)
    (viewer_is_applicant applicant_view : bool) : ares (list CommentOut) :=
  a ← _get_app d id allow_unconfirmed;
  let rows := sort_by (λ x y, co_at x <=? co_at y)
                (filter (λ c, co_application_id c = id ∧ (include_internal = true ∨ co_visibility c = public)) (app_comments d)) in
  Ok (map (λ c, comment_out d (comment_info d a applicant_view viewer_is_applicant c)
                  (is_comment_author (co_author c) (co_author_kind c) viewer_sub viewer_is_applicant) applicant_view c) rows).
Definition list_comments_route (d : AppDb) (access : Access) : ares (list CommentOut) :=
  list_comments d (acs_application_id access) (can_see_internal access) (is_owning_applicant access) (sub <$> acs_principal access)
    (is_owning_applicant access) (is_applicant_view access).
Definition list_mentionable_route (d : AppDb) (access : Access) : ares (list PersonRef) :=
  _ ← raise_if (negb (can_see_internal access)) AForbidden;
  _ ← _get_app d (acs_application_id access) false;
  Ok (mentionable_people d (acs_application_id access)).

(** ** Writing comments *)
Definition _checked_mentions (k : AppDb) (id : string) (mentions : list string) (may_mention : bool) (visibility : NoteVisibility)
    (before : list string) : ares (list string) :=
  let wanted := unique_mentions mentions in
  if bool_decide (wanted = []) then Ok wanted
  else
    _ ← raise_if (negb may_mention || bool_decide (visibility = public)) (AInvalid "mention_not_member");
    _ ← raise_if (negb (bool_decide (Forall (λ i, i ∈ mentionable_ids k id) (new_mentions wanted before)))) (AInvalid "mention_not_member");
    Ok wanted.
Definition _is_anonymized (d : AppDb) (id : string) : bool := bool_decide (is_Some (applicant_of d id ≫= an_anonymized_at)).
Record CommentCreate := MkCommentCreate {
  cc_body : string;
  cc_visibility : NoteVisibility;
  cc_attachment_ids : list string;
  cc_draft_token : option string;
  cc_mentions : list string
}.
Definition insert_comment (c : Comment) (d : AppDb) : ares AppDb :=
  _ ← raise_if (negb (bool_decide (is_Some (get_application d (co_application_id c))))) ADatabase;
  Ok (with_app_comments (app_comments d ++ [c]) d).
(** The result has the added mentions. *)
Definition add_comment (k d : AppDb) (access : Access) (payload : CommentCreate) (pepper id : string) (now : Z)
    : ares (AppDb * CommentOut * list string) :=
  let app_id := acs_application_id access in
  let ids := cc_attachment_ids payload in
  let may_mention := can_see_internal access in
  _ ← raise_if (bool_decide (cc_visibility payload = internal) && negb may_mention) AForbidden;
  a ← _get_app (if bool_decide (ids = []) then k else d) app_id (is_owning_applicant access);
  _ ← raise_if (negb (bool_decide (ids = [])) && _is_anonymized d app_id) (AInvalid "application_anonymized");
  wanted ← _checked_mentions k app_id (cc_mentions payload) may_mention (cc_visibility payload) [];
  token ← of_app_files (check_message_drafts (app_files d) ids (cc_draft_token payload) pepper now);
  let c := MkComment id app_id (sub <$> acs_principal access) (author_kind access) (cc_body payload) (cc_visibility payload) wanted now in
  d1 ← insert_comment c d;
  let d2 := match token with
            | Some t => with_app_files (bind_drafts ids t pepper (of_comment id) (app_files d1)) d1
            | None => d1
            end in
  Ok (d2, comment_out d2 (comment_info d2 a false false c) true (negb may_mention) c, wanted).
Definition _get_comment (d : AppDb) (app_id comment_id : string) : ares Comment :=
  match find_by co_id comment_id (filter (λ c, co_application_id c = app_id) (app_comments d)) with
  | Some c => Ok c
  | None => Err ANotFound
  end.
Definition _assert_may_write (c : Comment) (access : Access) : ares () :=
  raise_if (negb (holds (acs_principal access) MANAGE_PERMISSION ||
                  is_comment_author (co_author c) (co_author_kind c) (sub <$> acs_principal access) (is_owning_applicant access)))
    AForbidden.
Definition kind_name (k : AuthorKind) : string := match k with by_principal => "principal" | by_applicant => "applicant" end.
Definition visibility_name (v : NoteVisibility) : string := match v with internal => "internal" | public => "public" end.
Definition _audit_comment (c : Comment) (action who : string) : AuditEntry :=
  MkAudit (Some who) action "comment" (co_id c)
    [("applicationId", PStr (co_application_id c)); ("authorKind", PStr (kind_name (co_author_kind c)));
     ("visibility", PStr (visibility_name (co_visibility c)))].
Definition set_comment (body : string) (mentions : list string) (c : Comment) : Comment :=
  MkComment (co_id c) (co_application_id c) (co_author c) (co_author_kind c) body (co_visibility c) mentions (co_at c).
Definition comment_exists (d : AppDb) (id : string) : bool := existsb (λ c, bool_decide (co_id c = id)) (app_comments d).
Definition update_comment (k d : AppDb) (access : Access) (comment_id body : string) (mentions : option (list string))
    : ares (AppDb * CommentOut * list string) :=
  let app_id := acs_application_id access in
  let may_mention := can_see_internal access in
  a ← _get_app k app_id (is_owning_applicant access);
  c ← _get_comment k app_id comment_id;
  _ ← _assert_may_write c access;
  let before := mention_ids (co_mentions c) in
  wanted ← match mentions with
           | Some m => w ← _checked_mentions k app_id m may_mention (co_visibility c) before; Ok (Some w)
           | None => Ok None
           end;
  let added := match wanted with Some w => new_mentions w before | None => [] end in
  let c' := set_comment body (default (co_mentions c) wanted) c in
  let dirty := negb (bool_decide (body = co_body c) && bool_decide (co_mentions c' = co_mentions c)) in
  _ ← raise_if (dirty && negb (comment_exists d comment_id)) ADatabase;
  let d1 := app_audit (_audit_comment c "comment_update" (actor access))
              (with_app_comments
                 (update_row co_id comment_id
                    (λ x, set_comment (if_changed (co_body c) body (co_body x)) (if_changed (co_mentions c) (co_mentions c') (co_mentions x)) x)
                    (app_comments d)) d) in
  Ok (d1, comment_out d1 (comment_info d1 a false false c')
            (is_comment_author (co_author c) (co_author_kind c) (sub <$> acs_principal access) (is_owning_applicant access))
            (negb may_mention) c', added).
Definition delete_comment (k d : AppDb) (access : Access) (comment_id : string) : ares AppDb :=
  let app_id := acs_application_id access in
  _ ← _get_app k app_id (is_owning_applicant access);
  c ← _get_comment k app_id comment_id;
  _ ← _assert_may_write c access;
  _ ← raise_if (negb (comment_exists d comment_id)) ADatabase;
  Ok (app_audit (_audit_comment c "comment_delete" (actor access))
        (with_app_comments (filter (λ x, co_id x ≠ comment_id) (app_comments d))
           (with_app_files (delete_for_messages [of_comment comment_id] (actor access) (app_files d)) d))).

(** ** Editing the data *)
Definition _with_stored_pii (sent stored : list (string * pyval)) (keys : list string) : list (string * pyval) :=
  dict_merge (_without_keys sent keys) (filter (λ kv, kv.1 ∈ keys) stored).
Definition _whitelist (fields : list FormFieldDef) (data : list (string * pyval)) : list (string * pyval) :=
  filter (λ kv, kv.1 ∈ key <$> fields) data.
Definition lift_py {A} (r : res pyexc A) : ares A := match r with Ok a => Ok a | Err e => Err (ARaised e) end.
Definition _amount_currency (fields : list FormFieldDef) (data : list (string * pyval)) : ares (option decimal * option string) :=
  promoted ← lift_py (extract_promoted fields data);
  match dict_get "amount" promoted with
  | None | Some PNone => Ok (None, None)
  | Some (PDec x) => Ok (Some x, Some "EUR")
  | Some v => match decimal_of_str (py_str v) with
              | Some x => Ok (Some x, Some "EUR")
              | None => Err (ARaised InvalidOperation)
              end
  end.
(** A finite amount in its [Numeric(12, 2)] column, rounded half away from zero; a larger one is refused. *)
Definition half_away (c k : Z) : Z := Z.sgn c * ((Z.abs c + 10 ^ k / 2) / 10 ^ k).
Definition numeric_column (x : decimal) : ares Z :=
  match x with
  | DFin c e =>
      let cents := if -2 <=? e then c * 10 ^ (e + 2) else half_away c (-2 - e) in
      if Z.abs cents <? 10 ^ 12 then Ok cents else Err ADatabase
  | _ => Err ADatabase
  end.
Definition amount_column (x : option decimal) : ares (option Z) :=
  match x with None => Ok None | Some a => c ← numeric_column a; Ok (Some c) end.
Definition edit_fields (d : AppDb) (a : Application) : list FormFieldDef :=
  let pinned := _pinned_fields d a in
  if existsb (λ f, bool_decide (key f = SYSTEM_TITLE_KEY)) pinned then pinned else system_title_field :: pinned.
Definition type_context (d : AppDb) (type_id : string) : list (string * pyval) :=
  [("has_budget", PBool (match find_by ty_id type_id (app_types d) with Some t => ty_has_budget t | None => false end))].
(** [new < approved]. *)
Definition below (x : decimal) (cents : Z) : ares bool := lift_py (dec_ord is_lt x (dec_money cents)).
Definition check_requested (amount : option decimal) (approved : option Z) : ares () :=
  match approved with
  | None => Ok ()
  | Some c =>
      low ← match amount with None => Ok true | Some x => below x c end;
      raise_if low (AInvalid CODE_AMOUNT_EXCEEDS)
  end.
(** The edit as it is written: the new data, the amount and its currency, the version and the diff. *)
Record Edit := MkEdit {
  ed_data : list (string * pyval);
  ed_amount : option Z;
  ed_currency : option string;
  ed_version : SubmissionVersion;
  ed_changed : list string
}.
Definition write_edit (old : Application) (old_currency : option string) (e : Edit) (d : AppDb) : ares AppDb :=
  let id := sv_application_id (ed_version e) in
  _ ← raise_if (existsb (λ v, bool_decide (sv_version v = sv_version (ed_version e))) (versions_of d id)) ADatabase;
  _ ← raise_if (negb (bool_decide (is_Some (get_application d id)))) ADatabase;
  let d1 := with_versions (submission_versions d ++ [ed_version e]) d in
  let data x := if py_eqb (PDict (data_of old)) (PDict (ed_data e)) then ap_data x else PDict (ed_data e) in
  let d2 := update_app id (λ x, set_data (data x) (if_changed (ap_amount old) (ed_amount e) (ap_amount x)) x) d1 in
  let d3 := update_columns id (λ x, set_currency (if_changed old_currency (ed_currency e) (apc_currency x)) x) d2 in
  Ok (app_audit (MkAudit (sv_changed_by (ed_version e)) "application_update" "application" id
                   [("version", PInt (sv_version (ed_version e))); ("changedFields", PList (PStr <$> ed_changed e))]) d3).

Section Edits.
Context (full_match : string → string → option bool).

(** [forgiven]: the keys whose errors do not count. *)
Definition check_answers (fields : list FormFieldDef) (data context : list (string * pyval)) (forgiven : list string) : ares () :=
  match validate_answers full_match fields data context with
  | Ok _ => Ok ()
  | Err (AnswerValidationError errs) => raise_if (negb (bool_decide (filter (λ e, fe_field e ∉ forgiven) errs = []))) (AInvalid "validation_error")
  | Err (FormDefinitionError _) => Err (AInvalid "form_definition")
  | Err (FormEscaped e) => Err (ARaised e)
  end.
Definition plan_edit (k : AppDb) (id : string) (data : list (string * pyval)) (changed_by : string)
    (bypass_state_lock allow_unconfirmed preserve_pii : bool) (now : Z) : ares (Application * Edit) :=
  a ← _get_app k id allow_unconfirmed;
  _ ← raise_if (match _get_state k (ap_current_state_id a) with
                | Some s => negb (st_edit_allowed s) && negb bypass_state_lock
                | None => false
                end) (AConflict "application_locked");
  let fields := edit_fields k a in
  let pii_keys := if preserve_pii then pii_keys_for_type k (ap_type_id a) else [] in
  let sent := if preserve_pii then _with_stored_pii data (data_of a) pii_keys else data in
  let clean := _whitelist fields sent in
  _ ← check_answers fields clean (type_context k (ap_type_id a)) pii_keys;
  '(amount, currency) ← _amount_currency fields clean;
  _ ← check_requested amount (ap_approved_amount a);
  cents ← amount_column amount;
  let diff := compute_diff (data_of a) clean in
  Ok (a, MkEdit clean cents currency
           (MkVersion id (_current_version k id + 1) clean (Some changed_by) now (if is_empty_diff diff then None else Some diff))
           (sorted_keys (diff_keys diff))).
Definition patch (k d : AppDb) (id : string) (data : list (string * pyval)) (changed_by : string)
    (bypass_state_lock allow_unconfirmed preserve_pii : bool) (now : Z) : ares (AppDb * ApplicationOut) :=
  '(a, e) ← plan_edit k id data changed_by bypass_state_lock allow_unconfirmed preserve_pii now;
  d1 ← write_edit a (app_columns k !! id ≫= apc_currency) e d;
  match get_application d1 id with
  | Some x => Ok (d1, _to_out d1 x (MkOutFlags false false false false preserve_pii false false))
  | None => Err ADatabase
  end.
(** [PATCH /applications/{id}]. *)
Definition patch_application_route (k d : AppDb) (access : Access) (data : list (string * pyval)) (now : Z) : ares (AppDb * ApplicationOut) :=
  patch k d (acs_application_id access) data (actor access) (holds (acs_principal access) EDIT_ANY_PERMISSION)
    (is_owning_applicant access) (negb (can_read_pii k access)) now.
End Edits.

(** ** Archive and delete *)
Definition row_refs (a : Application) : list (string * pyval) :=
  [("typeId", PStr (ap_type_id a)); ("gremiumId", str_or_none (ap_gremium_id a)); ("currentStateId", str_or_none (ap_current_state_id a))].
Definition expire_links (id : string) (now : Z) (d : AppDb) : AppDb :=
  with_links
    ((λ l, if bool_decide (mk_application_id l = id) && match mk_expires_at l with None => true | Some t => now <? t end
           then MkMagicLink (mk_id l) (mk_application_id l) (Some now) else l) <$> magic_links d)
    (applicant_sessions d) d.
Definition out_of (d : AppDb) (id : string) (strip : bool) : ares ApplicationOut :=
  match get_application d id with
  | Some x => Ok (_to_out d x (MkOutFlags false false false false strip false false))
  | None => Err ADatabase
  end.
Definition set_archived (k d : AppDb) (id : string) (archived : bool) (who : option string) (strip : bool) (now : Z)
    : ares (AppDb * ApplicationOut) :=
  a ← _get_app k id true;
  if bool_decide (bool_decide (is_Some (archived_at k id)) = archived) then
    out ← out_of k id strip; Ok (d, out)
  else
    _ ← raise_if (negb (bool_decide (is_Some (get_application d id)))) ADatabase;
    let d1 := app_audit (MkAudit who (if archived then "application_archive" else "application_unarchive") "application" id (row_refs a)) d in
    let d2 := if archived then expire_links id now d1 else d1 in
    let d3 := update_columns id (set_archived_at (if archived then Some now else None)) d2 in
    out ← out_of d3 id strip;
    Ok (d3, out).
(** The columns that refer to the application become null, or their row goes with it. *)
Definition forget_application (id : string) (m : Meeting) : Meeting :=
  set_shown (forget_item id (me_active_application_id m)) (me_current_agenda_item_id m) m.
Definition forget_items (ids : list string) (o : option string) : option string := foldr forget_item o ids.
Definition forget_vote_items (ids : list string) (v : Vote) : Vote :=
  let b := vo_body v in
  VoteRows.with_body
    (MkVoteBody (forget_items ids (vb_agenda_item_id b)) (vb_question b) (vb_config b) (vb_proposal b) (vb_eligible_count b)
       (vb_opens_at b) (vb_closes_at b) (vb_result_branch_transition_id b) (vb_present_members b) (vb_present_guests b) (vb_round b)
       (vb_poll_result b) (vb_reminded_at b) (vb_repeat_of_id b) (vb_attempt b)) v.
Definition set_meetings (l : list Meeting) (c : Config) : Config :=
  MkConfig (states c) (transitions c) (budgets c) (accepted_keys c) (gremium_rows c) (principals c) (memberships c) (allocations c)
    (expenses c) (attachments c) (application_types c) (form_fields c) l.
Definition cascade_engine (id : string) (x : Db) : Db :=
  let gone := ai_id <$> filter (λ i, ai_application_id i = Some id) (agenda_items x) in
  let meeting m := set_shown (me_active_application_id m) (forget_items gone (me_current_agenda_item_id m)) (forget_application id m) in
  MkDb (set_meetings (meeting <$> meetings (conf x)) (conf x)) (delete id (applications x)) (forget_vote_items gone <$> votes x)
    (filter (λ e, ev_application_id e ≠ id) (status_events x)) (filter (λ r, de_application_id r ≠ id) (decisions x))
    (filter (λ i, ai_application_id i ≠ Some id) (agenda_items x)) (audit x).
Definition comment_ids (d : AppDb) (id : string) : list string := co_id <$> filter (λ c, co_application_id c = id) (app_comments d).
(** The rows of the files go, without an audit entry and without their objects. *)
Definition drop_file_rows (d : AppDb) (id : string) : FileDb :=
  with_files (filter (λ x, fl_owner x ∉ of_application id :: (of_comment <$> comment_ids d id)) (file_rows (app_files d))) (app_files d).
Definition cascade (id : string) (d : AppDb) : AppDb :=
  let r1 := foldl (λ r v, delete_row v r) (AppAccess.room d) (app_votes d id).*1 in
  let r2 := Room.with_flow (cascade_engine id (Room.flow_db r1)) r1 in
  MkAppDb r2 (cost_centers d) (delete id (app_columns d)) (filter (λ x, an_application_id x ≠ id) (applicants d))
    (filter (λ v, sv_application_id v ≠ id) (submission_versions d)) (filter (λ c, co_application_id c ≠ id) (app_comments d))
    (filter (λ l, mk_application_id l ≠ id) (magic_links d)) (filter (λ s, as_application_id s ≠ id) (applicant_sessions d))
    (form_versions d) (app_types d) (active_flow d) (event_times d) (gremium_names d) (app_roles d) (app_accounts d) (drop_file_rows d id).
Definition delete_application (k d : AppDb) (id : string) (who : option string) : ares AppDb :=
  a ← _get_app k id true;
  _ ← raise_if (negb (bool_decide (is_Some (get_application d id)))) ADatabase;
  Ok (cascade id
        (app_audit
           (MkAudit who "application_delete" "application" id
              (row_refs a ++ [("fiscalYearId", str_or_none (ap_fiscal_year_id a)); ("budgetId", str_or_none (ap_budget_id a));
                              ("versionCount", PInt (Z.of_nat (length (versions_of k id))))])) d)).

(** ** Anonymization *)
Definition ANONYMIZED_BODY : string := "[anonymisiert]".
Definition erased_keys (d : AppDb) (a : Application) : list string :=
  (key <$> filter (λ f, is_pii f = true) (_pinned_fields d a)) ++ pii_keys_for_type d (ap_type_id a).
Definition strip_version (keys : list string) (v : SubmissionVersion) : SubmissionVersion :=
  MkVersion (sv_application_id v) (sv_version v) (_without_keys (sv_data v) keys) (sv_changed_by v) (sv_at v)
    ((λ x, _scrub_diff x keys) <$> sv_diff v).
Definition delete_for_application (d : AppDb) (id who : string) : FileDb :=
  _drop_rows (λ x, bool_decide (fl_owner x ∈ of_application id :: (of_comment <$> comment_ids d id))) who (app_files d).
(** [objects]: the call has the object storage. *)
Definition anonymize (d : AppDb) (id who : string) (objects : bool) (now : Z) : ares AppDb :=
  a ← _get_app d id true;
  let keys := erased_keys d a in
  let d1 := with_applicants (update_row an_application_id id (λ r, MkApplicant (an_application_id r) None None (Some now)) (applicants d)) d in
  let d2 := update_columns id (set_intake None) d1 in
  let d3 := update_app id (λ x, set_data (PDict (_without_keys (data_of x) keys)) (ap_amount x) x) d2 in
  let d4 := with_versions ((λ v, if bool_decide (sv_application_id v = id) then strip_version keys v else v) <$> submission_versions d) d3 in
  let d5 := with_app_comments
              ((λ c, if bool_decide (co_application_id c = id) && bool_decide (co_author_kind c = by_applicant)
                     then set_comment ANONYMIZED_BODY (co_mentions c) c else c) <$> app_comments d) d4 in
  let d6 := with_links (filter (λ l, mk_application_id l ≠ id) (magic_links d))
              ((λ s, if bool_decide (as_application_id s = id) && bool_decide (as_revoked_at s = None)
                     then MkApplicantSession (as_id s) (as_application_id s) (Some now) else s) <$> applicant_sessions d) d5 in
  Ok (with_app_files (if objects then delete_for_application d id who else drop_file_rows d id) d6).

(** ** Create *)
Record ApplicationCreate := MkApplicationCreate {
  cr_type_id : string;
  cr_data : list (string * pyval);
  cr_applicant_email : string;
  cr_applicant_name : option string;
  cr_lang : string;
  cr_attachment_ids : list string;
  cr_draft_token : option string
}.
Record Capture := MkCapture {
  ca_owner_sub : option string;
  ca_applicant_principal_id : option string;
  ca_received_on : pydate;
  ca_intake : option string;
  ca_matched_by_email : bool
}.
Definition _resolve_flow_version_id (d : AppDb) : ares string :=
  match active_flow d with Some f => Ok f | None => Err ANotFound end.
Definition _initial_state (d : AppDb) (flow_version_id : string) : ares State :=
  match filter (λ s, st_flow_version_id s = flow_version_id ∧ st_is_initial s = true) (states (conf (engine d))) with
  | [s] => Ok s
  | [] => Err ANotFound
  | _ => Err ADatabase
  end.
Definition _file_values (value : pyval) : list pyval := match value with PStr _ => [value] | PList l => l | _ => [] end.
Definition _file_refs (fields : list FormFieldDef) (data : list (string * pyval)) : list (string * string) :=
  concat ((λ f, omap (λ v, match v with PStr s => (λ x, (key f, x)) <$> given (Some s) | _ => None end) (_file_values (answer_of data f)))
            <$> of_type FFile fields).
(** [None]: no draft to bind. *)
Definition _check_drafts (d : AppDb) (p : ApplicationCreate) (fields : list FormFieldDef) (clean : list (string * pyval)) (pepper : string)
    (now : Z) : ares (option string) :=
  match cr_attachment_ids p, cr_draft_token p with
  | [], None => Ok None
  | _, None => Err (AInvalid "validation_error")
  | ids, Some token =>
      let foreign := filter (λ r, opt_mem (parse_uuid r.2) ids = false) (_file_refs fields clean) in
      _ ← raise_if (negb (bool_decide (foreign = []))) (AInvalid DRAFT_ATTACHMENTS_MISSING);
      _ ← match ids with [] => Ok () | _ => of_app_files (check_drafts (app_files d) ids token pepper now) end;
      Ok (Some token)
  end.
Definition iso (x : pydate) : pyval := PStr (date_iso x).
Definition capture_audit (who id : string) (c : Capture) : AuditEntry :=
  MkAudit (Some who) "application_create_on_behalf" "application" id
    [("applicantKind", PStr (match given (ca_owner_sub c) with Some _ => "principal" | None => "guest" end));
     ("applicantPrincipalId", str_or_none (ca_applicant_principal_id c)); ("receivedOn", iso (ca_received_on c));
     ("intake", PBool (bool_decide (is_Some (ca_intake c)))); ("matchedByEmail", PBool (ca_matched_by_email c))].
(** The ids of the new rows: the application, the first event. *)
Record NewIds := MkNewIds { ni_application : string; ni_event : string }.
Definition reads_meeting (d : AppDb) (x : Db) (meeting_id : string) (p : Principal) : bool :=
  is_ok (assert_can_read (Room.with_flow x (AppAccess.room d)) meeting_id p).
(** The events without a time get the time of the transaction. *)
Definition stamp_events (now : Z) (d : AppDb) : AppDb :=
  with_event_times
    (event_times d ++ ((λ e, (ev_id e, now)) <$> filter (λ e, ev_id e ∉ (event_times d).*1) (status_events (engine d)))) d.

Section Create.
Context (full_match : string → string → option bool).

(** The application, the applicant, version 1, the first event and the audit entries. *)
Definition store (p : ApplicationCreate) (t : ApplicationType) (form flow_version : string) (initial : State) (clean : list (string * pyval))
    (amount : option Z) (currency : option string) (who : string) (confirmed : bool) (capture : option Capture) (ids : NewIds) (now : Z)
    (d : AppDb) : AppDb :=
  let id := ni_application ids in
  let owner := match capture with Some c => ca_owner_sub c | None => if bool_decide (who = APPLICANT_ACTOR) then None else Some who end in
  let row := MkApplication id (ty_id t) form flow_version (Some (st_id initial)) None None (ty_gremium_id t)
               (resolve_vote_gremium (engine d) (Some initial) None) amount None (PDict clean) owner confirmed in
  let cols := MkAppColumns currency (Some (cr_lang p)) now None (match capture with Some _ => Some who | None => None end)
                (capture ≫= ca_intake) (ca_received_on <$> capture) in
  let x := engine d in
  let x1 := MkDb (conf x) (<[id := row]> (applications x)) (votes x)
              (status_events x ++ [MkStatusEvent (ni_event ids) id None (st_id initial) None (Some who) None None]) (decisions x)
              (agenda_items x) (audit x) in
  let x2 := audit_record
              (MkAudit (Some who) "application_create" "application" id
                 [("typeId", PStr (ty_id t)); ("gremiumId", str_or_none (ty_gremium_id t)); ("initialStateId", PStr (st_id initial));
                  ("emailConfirmed", PBool confirmed); ("attachments", PInt (Z.of_nat (length (fromkeys (cr_attachment_ids p)))))]) x1 in
  let x3 := match capture with Some c => audit_record (capture_audit who id c) x2 | None => x2 end in
  with_versions (submission_versions d ++ [MkVersion id 1 clean (Some who) now None])
    (with_applicants (applicants d ++ [MkApplicant id (Some (cr_applicant_email p)) (cr_applicant_name p) None])
       (with_app_columns (<[id := cols]> (app_columns d)) (with_engine x3 d))).
(** The first transaction: up to the commit before the flow starts. *)
Definition submit (d : AppDb) (p : ApplicationCreate) (who : string) (email_confirmed : option bool) (pepper : string)
    (capture : option Capture) (ids : NewIds) (now : Z) : ares AppDb :=
  match find_by ty_id (cr_type_id p) (app_types d) with
  | None => Err ANotFound
  | Some t =>
      flow_version ← _resolve_flow_version_id d;
      form ← match ty_active_form_version_id t with Some f => Ok f | None => Err ANotFound end;
      let type_fields := match find_by vn_id form (form_versions d) with Some v => vn_fields v | None => [] end in
      let fields := concat (s_fields <$> effective_form type_fields) in
      _ ← check_answers full_match fields (cr_data p) [("has_budget", PBool (ty_has_budget t))] [];
      let confirmed := default (negb (bool_decide (who = APPLICANT_ACTOR))) email_confirmed in
      initial ← _initial_state d flow_version;
      let clean := _whitelist fields (cr_data p) in
      '(amount, currency) ← _amount_currency fields clean;
      token ← _check_drafts d p fields clean pepper now;
      cents ← amount_column amount;
      _ ← raise_if (bool_decide (is_Some (get_application d (ni_application ids)))) ADatabase;
      let d1 := store p t form flow_version initial clean cents currency who confirmed capture ids now d in
      let d2 := match token with
                | Some x => with_app_files (bind_drafts (cr_attachment_ids p) x pepper (of_application (ni_application ids)) (app_files d1)) d1
                | None => d1
                end in
      Ok (stamp_events now d2)
  end.
(** The flow of a confirmed application starts in a second transaction. *)
Definition create (d : AppDb) (p : ApplicationCreate) (who : string) (email_confirmed : option bool) (pepper : string)
    (capture : option Capture) (ids : NewIds) (fresh : Fresh) (now : Z) : ares AppDb :=
  d1 ← submit d p who email_confirmed pepper capture ids now;
  match get_application d1 (ni_application ids) with
  | Some a =>
      if ap_email_confirmed a
      then match start_confirmed (reads_meeting d1) (engine d1) (ni_application ids) fresh with
           | Ok (x, _, _) => Ok (stamp_events now (with_engine x d1))
           | Err e => Err (AFlow e)
           end
      else Ok d1
  | None => Ok d1
  end.
(** [POST /applications], with the e-mail and the display name of the account. *)
Definition create_application_route (d : AppDb) (p : ApplicationCreate) (payload_email : option string)
    (account : option (Principal * option string * option string)) (pepper : string) (ids : NewIds) (fresh : Fresh) (now : Z) : ares AppDb :=
  let account_email := account ≫= λ a, a.1.2 in
  match given (match given payload_email with Some e => Some e | None => account_email end) with
  | None => Err (AInvalid "validation_error")
  | Some email =>
      let name := match given (cr_applicant_name p), account with None, Some a => a.2 | _, _ => cr_applicant_name p end in
      let confirmed := match account_email with Some e => bool_decide (py_lower e = py_lower email) | None => false end in
      let filled := MkApplicationCreate (cr_type_id p) (cr_data p) email name (cr_lang p) (cr_attachment_ids p) (cr_draft_token p) in
      create d filled (match account with Some a => sub a.1.1 | None => APPLICANT_ACTOR end) (Some confirmed) pepper None ids fresh now
  end.

(** ** Capture on behalf of an applicant *)
Record OnBehalfCreate := MkOnBehalfCreate {
  ob_create : ApplicationCreate;
  ob_applicant_principal_id : option string;
  ob_received_on : option pydate;
  ob_intake : option string
}.
Definition RECEIVED_ON_MAX_AGE_DAYS : Z := 365.
Record _ResolvedApplicant := MkResolved {
  ra_principal_id : option string;
  ra_owner_sub : option string;
  ra_email : string;
  ra_name : option string;
  ra_matched_by_email : bool
}.
Definition active_row (d : AppDb) (id : string) : bool :=
  existsb (λ a, bool_decide (ac_id a = id) && ac_active a) (app_accounts d).
Definition _resolve_applicant (d : AppDb) (p : OnBehalfCreate) : ares _ResolvedApplicant :=
  match ob_applicant_principal_id p with
  | Some id =>
      match account_row d id with
      | Some r =>
          match given (pr_email r) with
          | Some e => if active_row d id then Ok (MkResolved (Some id) (Some (pr_sub r)) e (pr_display_name r) false)
                      else Err (AInvalid "applicant_unavailable")
          | None => Err (AInvalid "applicant_unavailable")
          end
      | None => Err (AInvalid "applicant_unavailable")
      end
  | None =>
      let email := cr_applicant_email (ob_create p) in
      let guest := MkResolved None None email (given (Some (py_strip (default "" (cr_applicant_name (ob_create p)))))) false in
      let matches r := match pr_email r with Some e => same_address e email | None => false end && active_row d (pr_id r) in
      match filter (λ r, matches r = true) (principals (cfg (AppAccess.room d))) with
      | r :: _ => match given (pr_email r) with
                  | Some e => Ok (MkResolved (Some (pr_id r)) (Some (pr_sub r)) e (pr_display_name r) true)
                  | None => Ok guest
                  end
      | [] => Ok guest
      end
  end.
Definition create_on_behalf (d : AppDb) (p : OnBehalfCreate) (who : string) (today : pydate) (pepper : string) (ids : NewIds) (fresh : Fresh)
    (now : Z) : ares AppDb :=
  let received := default today (ob_received_on p) in
  _ ← raise_if (date_ltb today received) (AInvalid "received_on_in_future");
  _ ← raise_if (toordinal received <? toordinal today - RECEIVED_ON_MAX_AGE_DAYS) (AInvalid "received_on_too_old");
  r ← _resolve_applicant d p;
  let c := ob_create p in
  create d (MkApplicationCreate (cr_type_id c) (cr_data c) (ra_email r) (given (ra_name r)) (cr_lang c) (cr_attachment_ids c) (cr_draft_token c))
    who (Some true) pepper
    (Some (MkCapture (ra_owner_sub r) (ra_principal_id r) received (given (py_strip <$> ob_intake p)) (ra_matched_by_email r)))
    ids fresh now.
End Create.
