(* ===== verification/AppFacts.v ===== *)
(** What holds of applications: the list shows exactly what the detail opens, the persons whom a comment
    may mention are those who read it, no answer to a reader without the right depends on a personal
    field, the applicant sees no member, edits and versions, anonymization.  Witnesses and examples. *)

From Stdlib Require Import QArith_base.
From stdpp Require Import gmap strings.
From S2P Require Import Prelude PyStr PyNum PyValue PyDate Tally Election BudgetRules BudgetFacts FormFields FormValidation FlowDb Decision.
From S2P Require Import FlowEngine Policy Room Delegations VoteRows VoteService VoteClose Ledger LedgerFacts Todo Files Tickets.
From S2P Require Import Meetings Agenda AppAccess AppService.
Local Open Scope Z_scope.

(** ** Paths of cost centers *)
Definition plain (c : ascii) : Prop := c ≠ percent ∧ c ≠ underscore ∧ c ≠ backslash.
Lemma like_literal p q s : Forall plain p → like_chars (p ++ q) s = true ↔ ∃ r, s = p ++ r ∧ like_chars q r = true.
Proof.
  intros Hp. revert s. induction Hp as [|c p (H1 & H2 & H3) _ IH]; intros s.
  - split; [by exists s|]. by intros (r & -> & H).
  - cbn [app like_chars]. rewrite !bool_decide_false by done. destruct s as [|x s].
    + split; [done|]. by intros (r & E & _).
    + rewrite andb_true_iff, bool_decide_eq_true, IH. split.
      * intros (-> & r & -> & H). by exists r.
      * intros (r & E & H). injection E as -> ->. split; [done|]. by exists r.
Qed.
Lemma like_anything s : like_chars [percent] s = true.
Proof. induction s as [|x s IH]; [done|]. cbn in *. exact IH. Qed.
Lemma like_prefix root s : Forall plain (chars root) → sql_like s (root +:+ "-%") = is_descendant_path root s.
Proof.
  intros Hp. apply eq_iff_eq_true. unfold sql_like, is_descendant_path. rewrite startswith_spec.
  replace (chars (root +:+ "-%")) with ((chars root ++ [sep]) ++ [percent]) by (rewrite chars_app, <- app_assoc; done).
  rewrite like_literal.
  2: { apply Forall_app. split; [done|]. apply Forall_singleton. done. }
  split.
  - intros (r & E & _). exists (of_chars r). apply chars_inj. by rewrite !chars_app, chars_of_chars, E.
  - intros [t ->]. exists (chars t). split; [|apply like_anything]. by rewrite !chars_app.
Qed.
Lemma alnum_plain c : is_alnum c = true → plain c.
Proof. intros H. unfold plain. split_and!; intros ->; discriminate H. Qed.
Lemma valid_key_plain k : is_valid_key k = true → Forall plain (chars k).
Proof.
  unfold is_valid_key, key_re_match. intros H. bool_prop.
  match goal with H : forallb _ _ = true |- _ => rename H into Hall end.
  assert (Hno : ∀ l, forallb is_alnum l = true → Forall plain l).
  { intros l Hl. rewrite forallb_forall in Hl. apply Forall_forall. intros c Hc. apply alnum_plain, Hl. by apply list_elem_of_In. }
  destruct (last (chars k)) as [c|] eqn:El; [|by apply Hno]. case_decide as Hc; [|by apply Hno]. subst c.
  apply last_Some in El as [l El]. rewrite El in *. rewrite length_app in Hall. cbn [length] in Hall.
  rewrite Nat.add_sub, take_app_length in Hall. apply Forall_app. split; [by apply Hno|]. by apply Forall_singleton.
Qed.
Lemma path_plain ks : Forall (λ k, Forall plain (chars k)) ks → Forall plain (chars (path ks)).
Proof.
  induction 1 as [|k [|x ks] Hk _ IH]; [constructor|done|].
  change (path (k :: x :: ks)) with (k +:+ _SEP +:+ path (x :: ks)). rewrite !chars_app. repeat (apply Forall_app; split); try done.
  by apply Forall_singleton.
Qed.
Lemma split_path ks : Forall key_ok ks → ks ≠ [] → py_split sep (path ks) = ks.
Proof.
  unfold py_split. induction 1 as [|k [|x ks] Hk _ IH]; [done|intros _|intros _].
  - change (path [k]) with k. rewrite split_chars_end by done. cbn. by rewrite of_chars_chars.
  - change (path (k :: x :: ks)) with (k +:+ _SEP +:+ path (x :: ks)). rewrite !chars_app. change (chars _SEP) with [sep].
    cbn [app]. rewrite split_chars_key by done. cbn [reverse app]. rewrite IH by done. cbn. by rewrite of_chars_chars.
Qed.
Lemma elem_prefixes_of p done_ segs : p ∈ prefixes_of done_ segs ↔ ∃ m, m `prefix_of` segs ∧ m ≠ [] ∧ p = path (done_ ++ m).
Proof.
  revert done_. induction segs as [|s segs IH]; intros done_; cbn [prefixes_of].
  - split; [by intros ?%not_elem_of_nil|]. intros (m & ?%prefix_nil_inv & Hm & _). done.
  - rewrite elem_of_cons, IH. split.
    + intros [->|(m & Hm & Hne & ->)].
      * exists [s]. split; [by apply prefix_cons, prefix_nil|]. done.
      * exists (s :: m). split; [by apply prefix_cons|]. split; [done|]. by rewrite <- app_assoc.
    + intros (m & Hm & Hne & ->). destruct m as [|x m]; [done|].
      pose proof (prefix_cons_inv_1 _ _ _ _ Hm) as ->. apply prefix_cons_inv_2 in Hm. destruct m as [|y m]; [by left|right].
      exists (y :: m). split; [done|]. split; [done|]. by rewrite <- app_assoc.
Qed.

Section Nodes.
Context (nodes : list Budget) (ok : tree_ok nodes).
Lemma node_path b : b ∈ nodes → ∃ ks, Forall key_ok ks ∧ ks ≠ [] ∧ bu_path_key b = path ks ∧ Forall plain (chars (bu_path_key b)).
Proof.
  intros Hb. destruct (tree_paths _ ok b Hb) as (t & ks & Hc & E). exists ks.
  split; [by eapply chain_keys_ok|]. split; [by eapply chain_nonempty|]. split; [done|]. rewrite E. apply path_plain.
  clear E. induction Hc as [c Hin|c p t ks Hin _ _ IH].
  - apply Forall_singleton, valid_key_plain. by apply (tree_keys _ ok).
  - apply Forall_app. split; [done|]. apply Forall_singleton, valid_key_plain. by apply (tree_keys _ ok).
Qed.
(** The prefixes of a path, the [LIKE] of the list and the path test name the same nodes. *)
Lemma prefix_node a b : a ∈ nodes → b ∈ nodes → bu_path_key a ∈ path_prefixes (bu_path_key b) ↔ in_subtree (bu_path_key a) b = true.
Proof.
  intros Ha Hb. destruct (node_path a Ha) as (ks & Hk & Hk0 & Ea & Hpl), (node_path b Hb) as (ls & Hl & Hl0 & Eb & _).
  unfold in_subtree. rewrite (like_prefix _ _ Hpl).
  change (bool_decide (bu_path_key b = bu_path_key a) || is_descendant_path (bu_path_key a) (bu_path_key b))
    with (is_self_or_descendant_path (bu_path_key a) (bu_path_key b)).
  rewrite Ea, Eb, path_prefix by done. unfold path_prefixes. change "-"%char with sep. rewrite split_path, elem_prefixes_of by done. split.
  - intros (m & Hm & Hm0 & E). cbn in E. replace ks with m; [done|]. symmetry. apply path_inj; try done.
    destruct Hm as [k ->]. by apply Forall_app in Hl as [? _].
  - intros Hp. by exists ks.
Qed.
End Nodes.

(** ** The list and the detail *)
(** A row is stored under its id, and its cost center exists. *)
Record app_wf (d : AppDb) : Prop := AppWf {
  wf_ids : ∀ i a, get_application d i = Some a → ap_id a = i;
  wf_nodes : tree_ok (cost_centers d);
  wf_budget : ∀ i a b, get_application d i = Some a → ap_budget_id a = Some b → b ∈ bu_id <$> cost_centers d
}.
Lemma opt_mem_elem x l : opt_mem x l = true ↔ ∃ y, x = Some y ∧ y ∈ l.
Proof. destruct x as [y|]; cbn; [rewrite bool_decide_eq_true|]; naive_solver. Qed.
Lemma elem_bool {A} (p : A → bool) (l : list A) : existsb p l = true ↔ ∃ x, x ∈ l ∧ p x = true.
Proof. rewrite existsb_exists. by setoid_rewrite list_elem_of_In. Qed.

Section Wf.
Context (d : AppDb) (wf : app_wf d).
Lemma budget_node i a b :
  get_application d i = Some a → ap_budget_id a = Some b →
  ∃ n, n ∈ cost_centers d ∧ bu_id n = b ∧ find_by bu_id b (cost_centers d) = Some n.
Proof.
  intros Ha Hb. pose proof (wf_budget d wf i a b Ha Hb) as Hin. apply list_elem_of_fmap in Hin as (m & -> & Hm).
  exists m. split_and!; [done..|]. apply find_by_NoDup; [apply (tree_ids _ (wf_nodes d wf))|done].
Qed.
Definition root_paths (gremien : list string) : list string :=
  bu_path_key <$> filter (λ b, opt_mem (bu_view_gremium_id b) gremien = true) (cost_centers d).
Lemma view_agrees gremien n a :
  n ∈ cost_centers d → ap_budget_id a = Some (bu_id n) →
  existsb (λ b, opt_mem (bu_view_gremium_id b) gremien)
    (filter (λ b, bu_path_key b ∈ path_prefixes (bu_path_key n)) (cost_centers d)) = _view_subtrees d (root_paths gremien) a.
Proof.
  intros Hn Ha. apply eq_iff_eq_true. unfold _view_subtrees, budget_in. rewrite Ha, elem_bool. cbn [opt_mem].
  rewrite bool_decide_eq_true, list_elem_of_fmap. split.
  - intros (r & [Hp Hr]%list_elem_of_filter & Hv). exists n. split; [done|]. apply list_elem_of_filter. split; [|done].
    apply elem_bool. exists (bu_path_key r). split.
    + apply list_elem_of_fmap. exists r. split; [done|]. by apply list_elem_of_filter.
    + by apply (prefix_node _ (wf_nodes d wf)).
  - intros (m & E & [Hm Hin]%list_elem_of_filter).
    pose proof (same_row bu_id _ _ _ (tree_ids _ (wf_nodes d wf)) Hn Hin E) as <-.
    apply elem_bool in Hm as (rp & Hrp & Hs). apply list_elem_of_fmap in Hrp as (r & -> & [Hv Hr]%list_elem_of_filter).
    exists r. split; [|done]. apply list_elem_of_filter. split; [|done]. by apply (prefix_node _ (wf_nodes d wf)).
Qed.
Lemma no_roots gremien a : root_paths gremien = [] → _view_subtrees d (root_paths gremien) a = false.
Proof.
  intros ->. unfold _view_subtrees, budget_in. cbn [existsb]. destruct (ap_budget_id a); [|done]. cbn [opt_mem].
  rewrite bool_decide_false; [done|]. intros (b & _ & [? _]%list_elem_of_filter)%list_elem_of_fmap. done.
Qed.
(** The committee scope of the list and of the detail. *)
Lemma committee_agrees i a p :
  get_application d i = Some a → _committee_can_read d i p = Ok (existsb (λ c, c a) (_committee_read_clauses d (sub p))).
Proof.
  intros Ha. unfold _committee_can_read, _committee_read_clauses. case_bool_decide as Hg; [done|]. rewrite Ha. cbn [mbind option_bind].
  set (gremien := gremium_reader_ids (AppAccess.room d) (sub p)) in *. fold (root_paths gremien).
  assert (Hor : existsb (λ c, c a) ((if bool_decide (root_paths gremien = []) then [] else [_view_subtrees d (root_paths gremien)]) ++
      [λ a, opt_mem (ap_vote_gremium_id a) gremien; λ a, voted_by d (ap_id a) gremien]) =
    _view_subtrees d (root_paths gremien) a || (opt_mem (ap_vote_gremium_id a) gremien || voted_by d i gremien)).
  { rewrite existsb_app. cbn [existsb]. rewrite orb_false_r, (wf_ids d wf i a Ha). f_equal. case_bool_decide as Hr.
    - by rewrite no_roots.
    - cbn. by rewrite orb_false_r. }
  rewrite Hor. destruct (opt_mem (ap_vote_gremium_id a) gremien); [by rewrite orb_true_r|]. cbn [orb].
  destruct (ap_budget_id a) as [b|] eqn:Eb; cbn [mbind option_bind].
  - destruct (budget_node i a b Ha Eb) as (n & Hn & <- & Hf). unfold can_view_node. rewrite Hf.
    rewrite (view_agrees gremien n a Hn Eb). by destruct gremien.
  - cbn. unfold _view_subtrees, budget_in. by rewrite Eb.
Qed.
End Wf.

(** Every application, without a filter. *)
Definition everything (limit : nat) : ListQuery := MkListQuery [] None None None None None None None None None "createdAt" "desc" limit 0.
Lemma elem_applications d a : a ∈ all_applications d ↔ ∃ i, get_application d i = Some a.
Proof.
  unfold all_applications. rewrite list_elem_of_omap. split; [intros (i & _ & H); by exists i|]. intros [i Hi]. exists i. split; [|done].
  apply elem_of_elements, elem_of_dom. by eexists.
Qed.
Lemma scope_clauses d s a :
  in_read_scope (_read_scope d (Some s) (Some s)) a =
  bool_decide (ap_created_by a = Some s) || existsb (λ c, c a) (_committee_read_clauses d s).
Proof. done. Qed.
Lemma listed_rows txt sim d p n id :
  (length (all_applications d) ≤ n)%nat →
  (∃ items total, list_applications_route txt sim d p (everything n) false = Ok (items, total) ∧ id ∈ li_id <$> items) ↔
  ∃ a, a ∈ all_applications d ∧ ap_id a = id ∧ ap_email_confirmed a = true ∧ in_read_scope (read_scope_for d p) a = true.
Proof.
  intros Hn. unfold list_applications_route, list_applications, read_scope_for. cbn [lq_created_to everything created_before mbind res_bind].
  set (keep := λ a, list_filter _ _ _ _ _ _ _ _ a = true).
  assert (Hkeep : ∀ a, keep a ↔ ap_email_confirmed a = true ∧
    in_read_scope (if principal_reads_all p then None else _read_scope d (Some (sub p)) (Some (sub p))) a = true).
  { intros a. unfold keep, list_filter, everything. cbn. rewrite !andb_true_r, andb_true_iff. by destruct (principal_reads_all p). }
  set (rows := sort_by _ (filter keep (all_applications d))).
  assert (Hrows : ∀ a, a ∈ take n (drop 0 rows) ↔ a ∈ all_applications d ∧ keep a).
  { intros a. rewrite drop_0, take_ge.
    2: { unfold rows. rewrite length_sort_by. etrans; [apply length_filter|done]. }
    unfold rows. rewrite elem_of_sort_by, list_elem_of_filter. naive_solver. }
  split.
  - intros (items & total & [= <- _] & Hid). apply list_elem_of_fmap in Hid as (it & -> & (a & -> & Ha)%list_elem_of_fmap).
    apply Hrows in Ha as [Hin [Hc Hs]%Hkeep]. by exists a.
  - intros (a & Hin & <- & Hc & Hs). eexists _, _. split; [reflexivity|]. apply list_elem_of_fmap. eexists. split.
    2: { apply list_elem_of_fmap. exists a. split; [reflexivity|]. apply Hrows. split; [done|]. by apply Hkeep. }
    done.
Qed.
Lemma read_as_principal d id p acc :
  resolve_app_read d id (Some p) None = Ok acc → acs_application_id acc = id ∧ acs_principal acc = Some p ∧ acs_applicant acc = None.
Proof.
  unfold resolve_app_read, resolve_access, holds. destruct (has p READ_ALL_PERMISSION); [by intros [= <-]|].
  destruct (has p READ_PERMISSION); [by intros [= <-]|]. intros (seen & _ & H)%bind_ok.
  destruct seen; [by injection H as <-|]. destruct (_is_creator d id p); [by injection H as <-|done].
Qed.
Lemma reads_iff d id a p :
  app_wf d → get_application d id = Some a →
  is_ok (resolve_app_read d id (Some p) None) = in_read_scope (read_scope_for d p) a.
Proof.
  intros Hwf Ha. unfold resolve_app_read, resolve_access, holds, read_scope_for, principal_reads_all.
  destruct (has p READ_ALL_PERMISSION); [by rewrite orb_true_r|]. destruct (has p READ_PERMISSION); [done|]. cbn [orb].
  rewrite (committee_agrees d Hwf id a p Ha), scope_clauses. cbn [mbind res_bind].
  destruct (existsb _ _); [by rewrite orb_true_r|]. rewrite orb_false_r. unfold _is_creator. rewrite Ha. cbn [mbind option_bind].
  destruct (ap_created_by a) as [s|]; [|done]. case_bool_decide as E; [subst; by rewrite bool_decide_true|].
  rewrite bool_decide_false; [done|congruence].
Qed.

(** C11: The list without a filter shows a principal exactly the applications whose detail the principal
    can open: the one SQL clause of the list and the step by step check of the detail have the same
    three paths of the Gremium scope (the cost center and its ancestors, the Gremium of the vote state,
    the meetings that voted), the same creator and the same permissions, and an unconfirmed guest
    submission is in neither. *)
Theorem listed_iff_opens txt sim d p n id :
  app_wf d → (length (all_applications d) ≤ n)%nat →
  (∃ items total, list_applications_route txt sim d p (everything n) false = Ok (items, total) ∧ id ∈ li_id <$> items) ↔
  ∃ acc out, resolve_app_read d id (Some p) None = Ok acc ∧ get_application_route d acc = Ok out.
Proof.
  intros Hwf Hn. rewrite (listed_rows _ _ _ _ _ _ Hn). split.
  - intros (a & [i Hi]%elem_applications & Hid & Hc & Hs). rewrite (wf_ids d Hwf i a Hi) in Hid. subst i.
    rewrite <- (reads_iff d id a p Hwf Hi) in Hs. destruct (resolve_app_read d id (Some p) None) as [acc|] eqn:E; [|done].
    destruct (read_as_principal _ _ _ _ E) as (E1 & _ & E3). exists acc. unfold get_application_route, _get_app.
    rewrite E1. unfold is_owning_applicant. rewrite E3, Hi, Hc. cbn. by eexists.
  - intros (acc & out & E & H). destruct (read_as_principal _ _ _ _ E) as (E1 & _ & E3). unfold get_application_route in H.
    apply bind_ok in H as (a & Hg & _). unfold _get_app in Hg. rewrite E1 in Hg. unfold is_owning_applicant in Hg. rewrite E3 in Hg. cbn in Hg.
    destruct (get_application d id) as [b|] eqn:Ha; [|done]. destruct (ap_email_confirmed b) eqn:Ec; [|done]. injection Hg as <-.
    exists b. split; [apply elem_applications; by exists id|]. split; [by apply (wf_ids d Hwf)|]. split; [done|].
    rewrite <- (reads_iff d id b p Hwf Ha), E. done.
Qed.

(** ** The persons whom a comment may mention *)
Record people_wf (d : AppDb) : Prop := PeopleWf {
  pw_ids : NoDup (pr_id <$> principals (cfg (AppAccess.room d)));
  pw_subs : NoDup (pr_sub <$> principals (cfg (AppAccess.room d)));
  pw_accounts : NoDup (ac_id <$> app_accounts d);
  pw_roles : ∀ rp, rp ∈ role_permissions (app_roles d) → rp.1 ∈ (role_keys (app_roles d)).*1;
  (** No mapping names the key of a Gremium: a claim with that prefix is dropped. *)
  pw_groups : ∀ g, g ∈ group_mappings (app_roles d) → startswith g.1 VOTE_GROUP_PREFIX = false
}.
(** The principal that a login of the account gives. *)
Definition session_of (d : AppDb) (r : PrincipalRow) (acct : Account) : Principal :=
  resolve_principal (app_roles d) (cfg (AppAccess.room d)) r (ac_oidc_groups acct).
Definition live (acct : Account) : Prop := ac_active acct = true ∧ ac_merged_into acct = None.
Definition named (r : PrincipalRow) : Prop := is_Some (given (text_or (pr_display_name r) (pr_email r))).
Definition sees_internal (d : AppDb) (id : string) (p : Principal) : Prop :=
  ∃ acc, resolve_app_read d id (Some p) None = Ok acc ∧ can_see_internal acc = true.

Lemma elem_snd {A B} (P : A * B → Prop) `{∀ x, Decision (P x)} (l : list (A * B)) y :
  y ∈ (filter P l).*2 ↔ ∃ x, (x, y) ∈ l ∧ P (x, y).
Proof.
  rewrite list_elem_of_fmap. split.
  - intros ([x z] & -> & [Hp Hin]%list_elem_of_filter). by exists x.
  - intros (x & Hin & Hp). exists (x, y). split; [done|]. by apply list_elem_of_filter.
Qed.
Lemma elem_fst {A B} (P : A * B → Prop) `{∀ x, Decision (P x)} (l : list (A * B)) x :
  x ∈ (filter P l).*1 ↔ ∃ y, (x, y) ∈ l ∧ P (x, y).
Proof.
  rewrite list_elem_of_fmap. split.
  - intros ([z y] & -> & [Hp Hin]%list_elem_of_filter). by exists y.
  - intros (y & Hin & Hp). exists (x, y). split; [done|]. by apply list_elem_of_filter.
Qed.

Section People.
Context (d : AppDb) (wf : people_wf d) (r : PrincipalRow) (acct : Account).
Context (Hr : r ∈ principals (cfg (AppAccess.room d))) (Hacct : acct ∈ app_accounts d) (Hid : ac_id acct = pr_id r).
Let t := app_roles d.
Let role_ids := _assigned_role_ids t (pr_id r) ++
  _mapped_role_ids t (filter (λ g, negb (startswith g VOTE_GROUP_PREFIX) = true) (ac_oidc_groups acct)).

Lemma holder_roles perm role : role ∈ _holder_role_ids t perm ↔
  role ∈ (role_keys t).*1 ∧ ((role, perm) ∈ role_permissions t ∨ (role, ADMIN_ROLE_KEY) ∈ role_keys t).
Proof.
  unfold _holder_role_ids. rewrite list_elem_of_filter, orb_true_iff, !elem_bool. split.
  - intros [[([x y] & Hin & H)|([x y] & Hin & H)] Hk]; bool_prop; cbn in *; subst; auto.
  - intros [Hk [H|H]]; (split; [|done]); [left|right]; eexists; (split; [exact H|]); cbn; by rewrite !bool_decide_true.
Qed.
Lemma has_iff perm : has (session_of d r acct) perm = true ↔ ∃ role, role ∈ role_ids ∧ role ∈ _holder_role_ids t perm.
Proof.
  unfold has, is_admin, session_of, resolve_principal. cbn. fold t. fold role_ids.
  rewrite orb_true_iff, !bool_decide_eq_true. unfold _role_keys, _role_permissions. rewrite !elem_snd. cbn.
  setoid_rewrite holder_roles. split.
  - intros [(role & H1 & H2)|(role & H1 & H2)]; exists role; (split; [done|]).
    + split; [|by right]. apply list_elem_of_fmap. by exists (role, "admin").
    + split; [|by left]. by apply (pw_roles d wf (role, perm)).
  - intros (role & H1 & _ & [H2|H2]); [right|left]; by exists role.
Qed.
Lemma role_ids_iff role : role ∈ role_ids ↔
  (pr_id r, role) ∈ role_assignments t ∨ ∃ g, g ∈ ac_oidc_groups acct ∧ (g, role) ∈ group_mappings t.
Proof.
  unfold role_ids, _assigned_role_ids, _mapped_role_ids. rewrite elem_of_app, !elem_snd. cbn. f_equiv.
  - split; [by intros (x & H & ->)|]. intros H. by exists (pr_id r).
  - split.
    + intros (g & H & [_ Hg]%list_elem_of_filter). by exists g.
    + intros (g & Hg & H). exists g. split; [done|]. apply list_elem_of_filter. split; [|done].
      apply negb_true_iff, (pw_groups d wf (g, role) H).
Qed.
Lemma holder_iff perm : pr_id r ∈ holders_of d perm ↔ live acct ∧ has (session_of d r acct) perm = true.
Proof.
  rewrite has_iff. unfold holders_of, role_holders. fold t. rewrite list_elem_of_fmap.
  assert (Hone : ∀ x, x ∈ app_accounts d → pr_id r = ac_id x → x = acct).
  { intros x Hx E. apply (same_row ac_id _ _ _ (pw_accounts d wf) Hx Hacct). congruence. }
  assert (Hcond : (existsb (λ a, bool_decide (a.1 = ac_id acct) && bool_decide (a.2 ∈ _holder_role_ids t perm)) (role_assignments t) ||
     existsb (λ g, bool_decide (g ∈ (filter (λ g, g.2 ∈ _holder_role_ids t perm) (group_mappings t)).*1)) (ac_oidc_groups acct)) = true ↔
     ∃ role, role ∈ role_ids ∧ role ∈ _holder_role_ids t perm).
  { setoid_rewrite role_ids_iff. rewrite orb_true_iff, !elem_bool, Hid. split.
    - intros [([x role] & Hin & H)|(g & Hg & H)]; bool_prop; cbn in *; subst.
      + exists role. split; [by left|done].
      + apply elem_fst in H as (role & Hin & Hh). exists role. split; [|done]. right. by exists g.
    - intros (role & [Hin|(g & Hg & Hin)] & Hh); [left|right].
      + exists (pr_id r, role). split; [done|]. cbn. by rewrite !bool_decide_true.
      + exists g. split; [done|]. apply bool_decide_eq_true. apply elem_fst. by exists role. }
  split.
  - intros (x & E & [H Hx]%list_elem_of_filter). pose proof (Hone x Hx E) as ->. bool_prop. split; [done|]. by apply Hcond.
  - intros [[Ha Hm] H]. exists acct. split; [done|]. apply list_elem_of_filter. split; [|done].
    rewrite Ha, bool_decide_true by done. cbn. by apply Hcond.
Qed.
Lemma member_of g : g ∈ gremium_member_ids (cfg (AppAccess.room d)) (pr_sub r) ↔
  ∃ m, m ∈ memberships (cfg (AppAccess.room d)) ∧ gm_principal_id m = pr_id r ∧ gm_gremium_id m = g.
Proof.
  unfold gremium_member_ids. rewrite list_elem_of_fmap. setoid_rewrite memberships_of_spec. split.
  - intros (m & -> & Hm & q & Hq & E1 & E2). pose proof (same_row pr_sub _ _ _ (pw_subs d wf) Hq Hr E2) as ->. by exists m.
  - intros (m & Hm & E & <-). exists m. split; [done|]. split; [done|]. by exists r.
Qed.
Lemma committee_member_iff gremien : pr_id r ∈ _committee_members d gremien ↔
  live acct ∧ ∃ g, g ∈ gremien ∧ g ∈ gremium_member_ids (cfg (AppAccess.room d)) (pr_sub r).
Proof.
  unfold _committee_members, live_account. rewrite list_elem_of_filter, list_elem_of_fmap. setoid_rewrite member_of.
  assert (Hlive : existsb (λ a, bool_decide (ac_id a = pr_id r) && ac_active a && bool_decide (ac_merged_into a = None)) (app_accounts d) = true ↔ live acct).
  { rewrite elem_bool. split.
    - intros (x & Hx & H). bool_prop. pose proof (same_row ac_id _ _ _ (pw_accounts d wf) Hx Hacct ltac:(congruence)) as ->. done.
    - intros [Ha Hm]. exists acct. split; [done|]. by rewrite Ha, !bool_decide_true. }
  rewrite Hlive. split.
  - intros [Hl (m & E & [Hg Hm]%list_elem_of_filter)]. split; [done|]. exists (gm_gremium_id m). split; [done|]. by exists m.
  - intros [Hl (g & Hg & m & Hm & E & <-)]. split; [done|]. exists m. split; [done|]. by apply list_elem_of_filter.
Qed.
End People.

(** The Gremien of [committee_gremium_ids] are those whose readers pass the committee check. *)
Lemma view_gremien d id a gremien :
  app_wf d → get_application d id = Some a → gremien ≠ [] →
  ∃ b, match ap_budget_id a with Some b => can_view_node d b gremien | None => Ok false end = Ok b ∧
    (b = true ↔ ∃ g, g ∈ gremien ∧ g ∈ match ap_budget_id a ≫= λ b, find_by bu_id b (cost_centers d) with
      | Some n => omap bu_view_gremium_id (filter (λ x, bu_path_key x ∈ path_prefixes (bu_path_key n)) (cost_centers d))
      | None => []
      end).
Proof.
  intros wf Ha Hg. destruct (ap_budget_id a) as [b|] eqn:Eb; cbn [mbind option_bind].
  - destruct (budget_node d wf id a b Ha Eb) as (n & Hn & _ & Hf). unfold can_view_node. rewrite Hf.
    destruct gremien as [|h l]; [done|]. eexists. split; [reflexivity|]. rewrite elem_bool. setoid_rewrite opt_mem_elem.
    setoid_rewrite list_elem_of_omap. naive_solver.
  - exists false. split; [done|]. split; [done|]. by intros (g & _ & ?%not_elem_of_nil).
Qed.
Lemma committee_ids_iff d id a p :
  app_wf d → get_application d id = Some a →
  _committee_can_read d id p = Ok true ↔ ∃ g, g ∈ gremium_reader_ids (AppAccess.room d) (sub p) ∧ g ∈ committee_gremium_ids d id.
Proof.
  intros wf Ha. unfold _committee_can_read, committee_gremium_ids. set (gremien := gremium_reader_ids (AppAccess.room d) (sub p)).
  case_bool_decide as Hg.
  { rewrite Hg. split; [done|]. by intros (g & ?%not_elem_of_nil & _). }
  rewrite Ha. cbn [mbind option_bind]. destruct (view_gremien d id a gremien wf Ha Hg) as (b & E & Hb). rewrite E.
  assert (Hvote : voted_by d id gremien = true ↔ ∃ g, g ∈ gremien ∧ g ∈ omap (λ kv, me_gremium_id <$> vote_meeting d kv.2) (app_votes d id)).
  { unfold voted_by. rewrite elem_bool. setoid_rewrite opt_mem_elem. setoid_rewrite list_elem_of_omap. naive_solver. }
  assert (Hsnap : opt_mem (ap_vote_gremium_id a) gremien = true ↔
    ∃ g, g ∈ gremien ∧ g ∈ match ap_vote_gremium_id a with Some g => [g] | None => [] end).
  { rewrite opt_mem_elem. destruct (ap_vote_gremium_id a) as [g|]; [|set_solver]. setoid_rewrite list_elem_of_singleton. naive_solver. }
  setoid_rewrite elem_of_app. setoid_rewrite elem_of_app.
  transitivity (opt_mem (ap_vote_gremium_id a) gremien = true ∨ b = true ∨ voted_by d id gremien = true).
  - destruct (opt_mem (ap_vote_gremium_id a) gremien); [naive_solver|]. cbn [mbind res_bind].
    destruct b, (voted_by d id gremien); cbn; naive_solver.
  - rewrite Hsnap, Hb, Hvote. naive_solver.
Qed.

Section Mentions.
Context (d : AppDb) (wf : app_wf d) (pwf : people_wf d) (id : string) (a : Application) (Ha : get_application d id = Some a).
Context (r : PrincipalRow) (acct : Account).
Context (Hr : r ∈ principals (cfg (AppAccess.room d))) (Hacct : acct ∈ app_accounts d) (Hid : ac_id acct = pr_id r).
Let p := session_of d r acct.

Lemma mentionable_row : pr_id r ∈ mentionable_ids d id ↔
  named r ∧ (pr_id r ∈ holders_of d READ_PERMISSION ∨ pr_id r ∈ holders_of d READ_ALL_PERMISSION ∨
             pr_id r ∈ _committee_members d (committee_gremium_ids d id) ∨ pr_id r ∈ _creator_as_member d id).
Proof.
  assert (Hrow : account_row d (pr_id r) = Some r) by (apply find_by_NoDup; [apply (pw_ids d pwf)|done]).
  rewrite <- !elem_of_app. unfold mentionable_ids, mentionable_people. set (ids := holders_of d READ_PERMISSION ++ _).
  unfold named. rewrite list_elem_of_omap. split.
  - intros (x & [_ (i & Hi & (q & E1 & ->)%fmap_Some)%list_elem_of_omap]%elem_of_sort_by%list_elem_of_filter & E2).
    unfold person_of in E2. destruct (given _) eqn:En; [|done]. cbn in E2. injection E2 as E2.
    pose proof (same_row pr_id _ _ _ (pw_ids d pwf) (find_by_elem _ _ _ _ E1) Hr E2) as ->.
    rewrite En. split; [by eexists|]. rewrite elem_of_fromkeys in Hi. by rewrite <- (find_by_id _ _ _ _ E1) in Hi.
  - intros [[n Hn] Hi]. exists (MkPerson (Some (pr_id r)) (Some n)). split; [|done].
    apply elem_of_sort_by, list_elem_of_filter. split; [by eexists|]. apply list_elem_of_omap.
    exists (pr_id r). split; [by apply elem_of_fromkeys|]. rewrite Hrow. cbn. unfold person_of. by rewrite Hn.
Qed.
Lemma creator_row : pr_id r ∈ _creator_as_member d id ↔
  ap_created_by a = Some (pr_sub r) ∧ ∃ perm, perm ∈ MEMBER_PERMISSIONS ∧ pr_id r ∈ holders_of d perm.
Proof.
  unfold _creator_as_member. rewrite Ha. cbn [mbind option_bind]. destruct (ap_created_by a) as [s|]; cbn [mbind option_bind].
  2: { split; [by intros ?%not_elem_of_nil|by intros [? _]]. }
  assert (Hfind : principal_by_sub (AppAccess.room d) (pr_sub r) = Some r) by (apply find_by_NoDup; [apply (pw_subs d pwf)|done]).
  split.
  - destruct (principal_by_sub _ s) as [q|] eqn:Eq; [|by intros ?%not_elem_of_nil]. intros H.
    destruct (filter _ _) as [|perm l] eqn:Ef; [by apply not_elem_of_nil in H|]. apply list_elem_of_singleton in H.
    pose proof (same_row pr_id _ _ _ (pw_ids d pwf) (find_by_elem _ _ _ _ Eq) Hr (eq_sym H)) as ->.
    split; [by rewrite (find_by_id _ _ _ _ Eq)|]. exists perm. assert (Hp : perm ∈ perm :: l) by left. rewrite <- Ef in Hp.
    by apply list_elem_of_filter in Hp as [? ?].
  - intros [[= ->] (perm & Hp & Hh)]. rewrite Hfind. destruct (filter _ _) eqn:Ef; [|by apply list_elem_of_singleton].
    assert (Hin : perm ∈ filter (λ perm, pr_id r ∈ holders_of d perm) MEMBER_PERMISSIONS) by by apply list_elem_of_filter.
    rewrite Ef in Hin. by apply not_elem_of_nil in Hin.
Qed.
Lemma sees_internal_iff : sees_internal d id p ↔
  has p READ_PERMISSION = true ∨ has p READ_ALL_PERMISSION = true ∨ _committee_can_read d id p = Ok true ∨
  (ap_created_by a = Some (pr_sub r) ∧ is_member_principal p = true).
Proof.
  unfold sees_internal, resolve_app_read, resolve_access, holds. destruct (has p READ_ALL_PERMISSION).
  { split; [by right; left|]. intros _. by eexists. }
  destruct (has p READ_PERMISSION). { split; [by left|]. intros _. by eexists. }
  rewrite (committee_agrees d wf id a p Ha). cbn [mbind res_bind]. destruct (existsb _ _).
  { split; [by right; right; left|]. intros _. by eexists. }
  unfold _is_creator. rewrite Ha. cbn [mbind option_bind]. change (sub p) with (pr_sub r). split.
  - destruct (ap_created_by a) as [s|]; [|by intros (acc & ? & _)]. case_bool_decide as E; [|by intros (acc & ? & _)].
    intros (acc & [= <-] & H). right; right; right. split; [by rewrite E|]. unfold can_see_internal, _owner_as_applicant in H. cbn [acs_via acs_principal] in H.
    apply andb_true_iff in H as [_ H]. by rewrite negb_involutive in H.
  - intros [?|[?|[?|[-> H]]]]; [done..|]. rewrite bool_decide_true by done. eexists. split; [reflexivity|].
    unfold can_see_internal, _owner_as_applicant. cbn [acs_via acs_principal]. by rewrite H.
Qed.
End Mentions.

(** C14: The people whom a comment may mention are the people who read the internal comments: whoever the
    list names has a live account and a name, and a login of that account opens the application with
    the internal comments; and conversely every such account is named, unless it stands in a substitute
    pool, whose readers [committee_gremium_ids] leaves out. *)
Theorem mentionable_iff_reads d id a r acct :
  app_wf d → people_wf d → get_application d id = Some a →
  r ∈ principals (cfg (AppAccess.room d)) → acct ∈ app_accounts d → ac_id acct = pr_id r →
  (pr_id r ∈ mentionable_ids d id → live acct ∧ named r ∧ sees_internal d id (session_of d r acct)) ∧
  (live acct → named r → sees_internal d id (session_of d r acct) → substitute_gremien_for_sub (AppAccess.room d) (pr_sub r) = [] →
   pr_id r ∈ mentionable_ids d id).
Proof.
  intros wf pwf Ha Hr Hacct Hid. rewrite (mentionable_row d pwf id r Hr), (sees_internal_iff d wf id a Ha r acct).
  rewrite (committee_ids_iff d id a _ wf Ha), (creator_row d pwf id a Ha r Hr).
  pose proof (holder_iff d pwf r acct Hacct Hid) as Hh. pose proof (committee_member_iff d pwf r acct Hr Hacct Hid) as Hc.
  assert (Hm : is_member_principal (session_of d r acct) = true ↔ ∃ perm, perm ∈ MEMBER_PERMISSIONS ∧ has (session_of d r acct) perm = true)
    by apply elem_bool.
  rewrite Hm, Hc. setoid_rewrite Hh. unfold gremium_reader_ids. change (sub (session_of d r acct)) with (pr_sub r).
  setoid_rewrite elem_of_app. split.
  - intros (Hn & [[Hl H]|[[Hl H]|[[Hl (g & H1 & H2)]|[E (perm & H1 & Hl & H2)]]]]); (split; [done|]; split; [done|]).
    + by left.
    + by right; left.
    + right; right; left. exists g. split; [by left|done].
    + right; right; right. split; [done|]. by exists perm.
  - intros Hl Hn H Hpool. split; [done|]. rewrite Hpool in H.
    destruct H as [H|[H|[(g & [Hg|?%not_elem_of_nil] & Hcg)|(E & perm & H1 & H2)]]].
    + by left.
    + by right; left.
    + right; right; left. split; [done|]. by exists g.
    + done.
    + right; right; right. split; [done|]. by exists perm.
Qed.

(** ** What a reader without the personal fields gets *)
Lemma Forall2_filter_rel {A B} (R : A → B → Prop) (P : A → Prop) (Q : B → Prop) `{∀ x, Decision (P x)} `{∀ x, Decision (Q x)} l k :
  Forall2 R l k → (∀ x y, R x y → P x ↔ Q y) → Forall2 R (filter P l) (filter Q k).
Proof.
  intros HR HPQ. induction HR as [|x y l k Hxy _ IH]; [constructor|]. rewrite !filter_cons.
  destruct (decide (P x)) as [Hp|Hp], (decide (Q y)) as [Hq|Hq]; [by constructor| | |done]; apply (HPQ x y Hxy) in Hp || apply (HPQ x y Hxy) in Hq; done.
Qed.
Lemma Forall2_with {A B} (P : A → Prop) (R : A → B → Prop) l k : Forall P l → Forall2 R l k → Forall2 (λ x y, P x ∧ R x y) l k.
Proof. intros HP HR. induction HR as [|x y l k Hxy _ IH]; [constructor|]. apply Forall_cons in HP as [? ?]. constructor; auto. Qed.
Lemma Forall2_fmap_eq {A B C} (R : A → B → Prop) (f : A → C) (g : B → C) l k :
  Forall2 R l k → (∀ x y, R x y → f x = g y) → f <$> l = g <$> k.
Proof. intros HR H. induction HR as [|x y l k Hxy _ IH]; [done|]. cbn. f_equal; [by apply H|done]. Qed.
Lemma without_app {A} (data : list (string * A)) keys more : _without_keys data (keys ++ more) = _without_keys (_without_keys data keys) more.
Proof. unfold _without_keys. rewrite list_filter_filter. apply list_filter_iff. intros [k v]. rewrite elem_of_app. naive_solver. Qed.
Lemma without_mono {A} (x y : list (string * A)) keys more :
  keys ⊆ more → _without_keys x keys = _without_keys y keys → _without_keys x more = _without_keys y more.
Proof.
  intros Hsub E. assert (Hx : ∀ z : list (string * A), _without_keys z more = _without_keys (_without_keys z keys) more).
  { intros z. unfold _without_keys. rewrite list_filter_filter. apply list_filter_iff. intros [k v]. naive_solver. }
  by rewrite Hx, E, <- Hx.
Qed.
Lemma without_nil {A} (x : list (string * A)) : _without_keys x [] = x.
Proof. unfold _without_keys. induction x as [|kv x IH]; [done|]. rewrite filter_cons, decide_True by apply not_elem_of_nil. by rewrite IH. Qed.
Lemma dict_get_without {A} k (x : list (string * A)) keys : k ∉ keys → dict_get k (_without_keys x keys) = dict_get k x.
Proof.
  intros Hk. unfold _without_keys. induction x as [|[k' v] x IH]; [done|]. rewrite filter_cons. cbn [fst dict_get].
  case_decide as Hin; cbn [dict_get]; case_decide as E; subst; [done..|by rewrite IH]. 
Qed.

(** Other tables of applications, versions and applicants. *)
Definition rewritten (m : gmap string Application) (vs : list SubmissionVersion) (aps : list Applicant) (d : AppDb) : AppDb :=
  let x := engine d in
  with_applicants aps (with_versions vs
    (with_engine (MkDb (conf x) m (votes x) (status_events x) (decisions x) (agenda_items x) (audit x)) d)).
(** Two rows that agree outside of the personal fields; the own rows of [s] agree throughout. *)
Definition app_alike (d : AppDb) (s : string) (a b : Application) : Prop :=
  ∃ data, b = set_data (PDict data) (ap_amount a) a ∧ (ap_created_by a = Some s → data = data_of a) ∧
    _without_keys (data_of a) (pii_keys_for_type d (ap_type_id a)) = _without_keys data (pii_keys_for_type d (ap_type_id a)).
Definition version_keys (d : AppDb) (v : SubmissionVersion) : list string :=
  match get_application d (sv_application_id v) with Some a => pii_keys_for_type d (ap_type_id a) | None => [] end.
Definition version_alike (d : AppDb) (v w : SubmissionVersion) : Prop :=
  strip_version (version_keys d v) v = strip_version (version_keys d v) w.
Record pii_alike (s : string) (d : AppDb) (m : gmap string Application) (vs : list SubmissionVersion) : Prop := PiiAlike {
  al_apps : ∀ i, option_Forall2 (app_alike d s) (get_application d i) (m !! i);
  al_versions : Forall2 (version_alike d) (submission_versions d) vs
}.

Section Blind.
Context (d : AppDb) (p : Principal) (m : gmap string Application) (vs : list SubmissionVersion) (aps : list Applicant).
Context (al : pii_alike (sub p) d m vs).
Let d' := rewritten m vs aps d.
Lemma alike_app i : (get_application d i = None ∧ get_application d' i = None) ∨
  ∃ a b, get_application d i = Some a ∧ get_application d' i = Some b ∧ app_alike d (sub p) a b.
Proof.
  pose proof (al_apps _ _ _ _ al i) as H. change (get_application d' i) with (m !! i).
  inversion H as [a b Hab E1 E2|E1 E2]; [right; by exists a, b|by left].
Qed.
Lemma alike_creator i q : _is_creator d' i q = _is_creator d i q.
Proof. unfold _is_creator. by destruct (alike_app i) as [[-> ->]|(a & b & -> & -> & data & -> & _)]. Qed.
Lemma alike_pii acc : can_read_pii d' acc = can_read_pii d acc.
Proof. unfold can_read_pii. destruct (acs_applicant acc), (acs_principal acc); try done. by rewrite alike_creator. Qed.
Lemma alike_read i q : resolve_app_read d' i q None = resolve_app_read d i q None.
Proof.
  unfold resolve_app_read. destruct (holds q READ_ALL_PERMISSION); [done|]. destruct (resolve_access i q None READ_PERMISSION) as [|[]]; try done.
  destruct q as [q|]; [|done]. rewrite alike_creator. replace (_committee_can_read d' i q) with (_committee_can_read d i q); [done|].
  unfold _committee_can_read. by destruct (alike_app i) as [[-> ->]|(a & b & -> & -> & data & -> & _)].
Qed.
Lemma alike_versions i : Forall2 (version_alike d) (versions_of d i) (versions_of d' i).
Proof.
  unfold versions_of. eapply Forall2_filter_rel; [exact (al_versions _ _ _ _ al)|].
  intros v w H. unfold version_alike, strip_version in H. injection H as -> _ _ _ _ _. done.
Qed.
Lemma alike_current i : _current_version d' i = _current_version d i.
Proof.
  unfold _current_version. f_equal. symmetry. eapply Forall2_fmap_eq; [apply alike_versions|]. intros v w H. by injection H.
Qed.
Lemma alike_out a b f :
  app_alike d (sub p) a b → include_pii f = false → strip_pii_fields f = true → magic_link_view f = false → _to_out d' b f = _to_out d a f.
Proof.
  intros (data & -> & _ & E) Hi Hs Hm. unfold _to_out. rewrite Hi, Hs, Hm. cbn [ap_id set_data]. rewrite alike_current. f_equal.
  exact (eq_sym E).
Qed.
Lemma alike_get_app i allow : (∃ e, _get_app d i allow = Err e ∧ _get_app d' i allow = Err e) ∨
  ∃ a b, get_application d i = Some a ∧ _get_app d i allow = Ok a ∧ _get_app d' i allow = Ok b ∧ app_alike d (sub p) a b.
Proof.
  unfold _get_app. destruct (alike_app i) as [[-> ->]|(a & b & Ea & Eb & Hab)]; [left; by eexists|]. rewrite Ea, Eb.
  assert (ap_email_confirmed b = ap_email_confirmed a) as -> by (by destruct Hab as (data & -> & _)).
  destruct (negb allow && negb (ap_email_confirmed a)); [left; by eexists|right]. by exists a, b.
Qed.
Section Reader.
Context (acc : Access) (Hp : acs_principal acc = Some p) (Hn : acs_applicant acc = None) (Hpii : can_read_pii d acc = false).
Lemma blind_detail : get_application_route d' acc = get_application_route d acc.
Proof.
  unfold get_application_route, is_owning_applicant. rewrite alike_pii, Hpii, Hn, Hp. cbn [negb andb bool_decide].
  destruct (alike_get_app (acs_application_id acc) (bool_decide (is_Some (@None string)))) as [(e & -> & ->)|(a & b & _ & -> & -> & Hab)]; [done|].
  cbn [mbind res_bind]. assert (ap_created_by b = ap_created_by a) as -> by (by destruct Hab as (data & -> & _)).
  rewrite (alike_out a b) by done. done.
Qed.
Lemma blind_versions : get_versions_route d' acc = get_versions_route d acc.
Proof.
  unfold get_versions_route, versions, is_owning_applicant. rewrite alike_pii, Hpii, Hn. cbn [negb].
  destruct (alike_get_app (acs_application_id acc) (bool_decide (is_Some (@None string)))) as [(e & -> & ->)|(a & b & Ha & -> & -> & Hab)]; [done|].
  cbn [mbind res_bind]. assert (ap_type_id b = ap_type_id a) as -> by (by destruct Hab as (data & -> & _)). f_equal.
  change (pii_keys_for_type d' (ap_type_id a)) with (pii_keys_for_type d (ap_type_id a)). symmetry.
  set (i := acs_application_id acc) in *.
  assert (HR : Forall2 (λ v w, sv_application_id v = i ∧ version_alike d v w) (versions_of d i) (versions_of d' i)).
  { apply Forall2_with; [|apply alike_versions]. apply Forall_forall. by intros v [Hv _]%list_elem_of_filter. }
  eapply Forall2_fmap_eq.
  - apply Forall2_sort_by; [|exact HR]. intros v w v' w' [_ H1] [_ H2]. injection H1 as _ -> _ _ _ _. by injection H2 as _ -> _ _ _ _.
  - intros v w [Hv H]. unfold version_alike, version_keys in H. rewrite Hv, Ha in H. injection H as _ E1 E2 E3 E4 E5.
    unfold _version_out. rewrite E1, E2, E3, E4, E5. destruct Hab as (data & -> & _). done.
Qed.
Lemma blind_timeline : timeline d' (acs_application_id acc) (is_owning_applicant acc) (is_applicant_view acc) (is_owning_applicant acc) =
  timeline d (acs_application_id acc) (is_owning_applicant acc) (is_applicant_view acc) (is_owning_applicant acc).
Proof.
  unfold timeline, is_owning_applicant. rewrite Hn.
  destruct (alike_get_app (acs_application_id acc) (bool_decide (is_Some (@None string)))) as [(e & -> & ->)|(a & b & _ & -> & -> & data & -> & _)]; done.
Qed.
Lemma blind_comments : list_comments_route d' acc = list_comments_route d acc.
Proof.
  unfold list_comments_route, list_comments, is_owning_applicant. rewrite Hn.
  destruct (alike_get_app (acs_application_id acc) (bool_decide (is_Some (@None string)))) as [(e & -> & ->)|(a & b & _ & -> & -> & data & -> & _)]; done.
Qed.
End Reader.

Section List.
Context (Hread : principal_reads_all p = false) (Htitle : "title" ∉ _all_pii_keys d).
Context (txt : list (string * pyval) → string) (sim : string → string → Q).
Lemma type_keys_hidden a : pii_keys_for_type d a ⊆ _all_pii_keys d.
Proof.
  unfold pii_keys_for_type, _all_pii_keys. intros k (f & -> & [Hf Hin]%list_elem_of_filter)%list_elem_of_fmap.
  apply list_elem_of_fmap. exists f. split; [done|]. apply list_elem_of_filter. split; [done|].
  apply list_elem_of_In, in_concat in Hin as (l & Hl & Hin). apply list_elem_of_In, list_elem_of_fmap in Hl as (v & -> & [_ Hv]%list_elem_of_filter).
  apply list_elem_of_In, in_concat. exists (vn_fields v). split; [|done]. apply list_elem_of_In, list_elem_of_fmap. by exists v.
Qed.
Lemma alike_hidden a b : app_alike d (sub p) a b → _without_keys (data_of b) (_all_pii_keys d) = _without_keys (data_of a) (_all_pii_keys d).
Proof. intros (data & -> & _ & E). symmetry. eapply without_mono; [apply type_keys_hidden|exact E]. Qed.
Lemma alike_rank q a b : app_alike d (sub p) a b →
  search_rank txt sim d' q true (Some (sub p)) b = search_rank txt sim d q true (Some (sub p)) a.
Proof.
  intros Hab. unfold search_rank, _search_text. change (_all_pii_keys d') with (_all_pii_keys d). f_equal.
  pose proof (alike_hidden a b Hab) as Eh. destruct Hab as (data & -> & Hown & _).
  change (ap_created_by (set_data (PDict data) (ap_amount a) a)) with (ap_created_by a).
  change (data_of (set_data (PDict data) (ap_amount a) a)) with data in *.
  destruct (decide (_all_pii_keys d = [])) as [En|En].
  - rewrite En, !without_nil in Eh. by rewrite Eh.
  - rewrite (bool_decide_false _ En), (bool_decide_true (is_Some (Some (sub p)))) by by eexists. cbn [orb andb].
    destruct (decide (ap_created_by a = Some (sub p))) as [Eo|Eo].
    + rewrite (bool_decide_true _ Eo). exact (f_equal txt (Hown Eo)).
    + rewrite (bool_decide_false _ Eo). exact (f_equal txt Eh).
Qed.
Lemma alike_scope o c a b : app_alike d (sub p) a b → in_read_scope (_read_scope d' o c) b = in_read_scope (_read_scope d o c) a.
Proof.
  intros (data & -> & _). unfold _read_scope. destruct o as [o|], c as [c|]; try done; unfold _committee_read_clauses;
    change (gremium_reader_ids (AppAccess.room d') c) with (gremium_reader_ids (AppAccess.room d) c);
    change (cost_centers d') with (cost_centers d); repeat case_bool_decide; done.
Qed.
Lemma alike_filter lq o before a b : app_alike d (sub p) a b →
  list_filter txt sim d' lq (Some (sub p)) o true before b = list_filter txt sim d lq (Some (sub p)) o true before a.
Proof.
  intros Hab. unfold list_filter. rewrite (alike_scope _ _ a b Hab). destruct (search_of (lq_q lq)) as [q|].
  - rewrite (alike_rank q a b Hab). by destruct Hab as (data & -> & _).
  - by destruct Hab as (data & -> & _).
Qed.
Lemma alike_leb lq a b x y : app_alike d (sub p) a x → app_alike d (sub p) b y →
  list_leb txt sim d lq (Some (sub p)) true a b = list_leb txt sim d' lq (Some (sub p)) true x y.
Proof.
  intros Ha Hb. unfold list_leb. destruct (search_of (lq_q lq)) as [q|].
  - rewrite (alike_rank q a x Ha), (alike_rank q b y Hb). by destruct Ha as (? & -> & _), Hb as (? & -> & _).
  - by destruct Ha as (? & -> & _), Hb as (? & -> & _).
Qed.
Lemma alike_item a b archived : app_alike d (sub p) a b → _list_item d a archived = _list_item d' b archived.
Proof.
  intros Hab. pose proof (alike_hidden a b Hab) as Eh.
  assert (Et : _title_of (data_of b) = _title_of (data_of a)).
  { unfold _title_of. by rewrite <- (dict_get_without _ _ _ Htitle), Eh, dict_get_without. }
  unfold _list_item. rewrite Et. by destruct Hab as (data & -> & _).
Qed.
Lemma alike_all : Forall2 (app_alike d (sub p)) (all_applications d) (all_applications d').
Proof.
  unfold all_applications. change (applications (engine d')) with m.
  assert (Edom : dom m = dom (applications (engine d))).
  { apply set_eq. intros i. rewrite !elem_of_dom. destruct (alike_app i) as [[E1 E2]|(a & b & E1 & E2 & _)];
      change (get_application d' i) with (m !! i) in E2; unfold get_application in E1; by rewrite E1, E2. }
  rewrite Edom. induction (elements _) as [|i l IH]; [constructor|]. cbn [omap list_omap].
  destruct (alike_app i) as [[-> ->]|(a & b & -> & -> & Hab)]; [done|]. by constructor.
Qed.
Lemma blind_list lq mine : list_applications_route txt sim d' p lq mine = list_applications_route txt sim d p lq mine.
Proof.
  unfold list_applications_route, list_applications. rewrite Hread, orb_true_r. cbn [negb].
  destruct (created_before (lq_created_to lq)) as [before|e]; [|done]. cbn [mbind res_bind].
  set (o := if true && negb mine then Some (sub p) else None).
  assert (HF : Forall2 (app_alike d (sub p)) (filter (λ a, list_filter txt sim d lq (Some (sub p)) o true before a = true) (all_applications d))
    (filter (λ a, list_filter txt sim d' lq (Some (sub p)) o true before a = true) (all_applications d'))).
  { eapply Forall2_filter_rel; [apply alike_all|]. intros a b Hab. by rewrite (alike_filter lq o before a b Hab). }
  f_equal. f_equal; [|by rewrite (Forall2_length _ _ _ HF)]. symmetry.
  eapply Forall2_fmap_eq.
  - apply Forall2_take, Forall2_drop. eapply Forall2_sort_by; [|exact HF]. intros a b x y Ha Hb. by apply alike_leb.
  - intros a b Hab. cbn. rewrite (alike_item a b _ Hab). by destruct Hab as (data & -> & _).
Qed.
End List.
End Blind.


(** ** What the applicant gets *)
(** Of the persons only the creator, by the name of the account; the Gremium stands for a member. *)
Definition outside_actor (d : AppDb) (a : Application) (x : ActorOut) : Prop :=
  match x with
  | actor_principal name pid => ∃ s, ap_created_by a = Some s ∧ _author_ref d s = Some (name, pid)
  | actor_gremium name => name = _gremium_actor d a
  | _ => True
  end.
Lemma applicant_access d id principal applicant acc :
  resolve_app_read d id principal applicant = Ok acc → is_applicant_view acc = true →
  acs_application_id acc = id ∧ can_see_internal acc = false.
Proof.
  unfold resolve_app_read, resolve_access, is_applicant_view, can_see_internal, is_owning_applicant.
  destruct (holds principal READ_ALL_PERMISSION) eqn:Eh.
  { intros [= <-]. cbn. done. }
  destruct principal as [p|].
  - destruct (has p READ_PERMISSION); [intros [= <-]; done|]. intros (seen & _ & H)%bind_ok Hv.
    destruct seen; [injection H as <-; done|]. destruct (_is_creator d id p); [|done]. injection H as <-. split; [done|].
    cbn in Hv |- *. by rewrite Hv.
  - destruct applicant as [x|]; [|done]. case_bool_decide; [|done]. intros [= <-] _. done.
Qed.
Lemma resolved_outside d a mlv value : outside_actor d a (_resolve_actor d a true mlv value).
Proof.
  unfold _resolve_actor, _actor_out. cbn [andb]. case_bool_decide as Hin; cbn [negb]; [|done].
  case_bool_decide as Ea; [done|]. destruct (system_actor_key value); [done|].
  destruct (_author_ref d value) as [[n pid]|] eqn:Er; [|done]. exists value. split; [|done].
  unfold _applicant_actors in Hin. destruct (ap_created_by a) as [s|]; [|set_solver].
  destruct mlv; cbn [negb] in Hin; [destruct (same_person _ _)|]; set_solver.
Qed.
Lemma info_outside d a mlv value x : resolve_actor d a true mlv value = Some x → outside_actor d a x.
Proof. unfold resolve_actor. destruct (given value) as [v|]; [|done]. intros [= <-]. apply resolved_outside. Qed.
Lemma get_app_row d id allow a : _get_app d id allow = Ok a → get_application d id = Some a.
Proof. unfold _get_app. destruct (get_application d id); [|done]. by destruct (_ && _); intros [= ->]. Qed.

Section Applicant.
Context (d : AppDb) (acc : Access) (Hv : is_applicant_view acc = true) (Hi : can_see_internal acc = false).
Context (a : Application) (Ha : get_application d (acs_application_id acc) = Some a).
Lemma applicant_comments l c : list_comments_route d acc = Ok l → c ∈ l →
  cm_visibility c = public ∧ cm_mentions c = [] ∧ outside_actor d a (cm_author_info c).
Proof.
  unfold list_comments_route, list_comments. rewrite Hv, Hi. intros (b & Hb%get_app_row & [= <-])%bind_ok.
  rewrite Ha in Hb. injection Hb as <-. intros (x & -> & [[_ [?|Hx]] Hin]%elem_of_sort_by%list_elem_of_filter)%list_elem_of_fmap; [done|].
  split; [done|]. split; [done|]. cbn. unfold comment_info. destruct (resolve_actor _ _ _ _ _) as [y|] eqn:E; [by eapply info_outside|].
  by destruct (co_author_kind x).
Qed.
Lemma applicant_timeline l e :
  timeline d (acs_application_id acc) (is_owning_applicant acc) (is_applicant_view acc) (is_owning_applicant acc) = Ok l → e ∈ l →
  te_vote_id e = None ∧ ∀ x, te_actor_info e = Some x → outside_actor d a x.
Proof.
  unfold timeline. rewrite Hv. intros (b & Hb%get_app_row & [= <-])%bind_ok. rewrite Ha in Hb. injection Hb as <-.
  intros (x & -> & _)%list_elem_of_fmap. split; [done|]. intros y. apply info_outside.
Qed.
Lemma applicant_versions l v : get_versions_route d acc = Ok l → v ∈ l →
  ver_data v = None ∧ ver_diff v = None ∧ ∀ x, ver_changed_by_info v = Some x → outside_actor d a x.
Proof.
  unfold get_versions_route, versions. rewrite Hv. intros (b & Hb%get_app_row & [= <-])%bind_ok. rewrite Ha in Hb. injection Hb as <-.
  intros (x & -> & _)%list_elem_of_fmap. split; [done|]. split; [done|]. intros y. apply info_outside.
Qed.
Lemma applicant_detail out : get_application_route d acc = Ok out →
  (∀ c, out_capture out = Some c → outside_actor d a (cp_captured_by c)) ∧
  (∀ r, out_decision out = Some r → do_vote_id r = None ∧ do_meeting_title r = None ∧ do_agenda_position r = None).
Proof.
  unfold get_application_route. rewrite Hv. intros (b & Hb%get_app_row & [= <-])%bind_ok. rewrite Ha in Hb. injection Hb as <-.
  cbn [out_capture out_decision _to_out applicant_view magic_link_view]. split.
  - unfold _capture_out. intros c (x & _ & (who & _ & [= <-])%bind_Some)%bind_Some. apply resolved_outside.
  - unfold _decision_out. intros r (row & _ & E)%fmap_Some. destruct (decision_source d a row) as [[g t] pos]. by subst r.
Qed.
End Applicant.
(** The answer does not depend on a comment that is not public. *)
Lemma applicant_comments_public d acc cs :
  can_see_internal acc = false → filter (λ c, co_visibility c = public) cs = filter (λ c, co_visibility c = public) (app_comments d) →
  list_comments_route (with_app_comments cs d) acc = list_comments_route d acc.
Proof.
  intros Hi E. unfold list_comments_route, list_comments. rewrite Hi.
  assert (Hf : ∀ l : list Comment, filter (λ c, co_application_id c = acs_application_id acc ∧ (false = true ∨ co_visibility c = public)) l =
    filter (λ c, co_application_id c = acs_application_id acc) (filter (λ c, co_visibility c = public) l)).
  { intros l. rewrite list_filter_filter. apply list_filter_iff. naive_solver. }
  change (_get_app (with_app_comments cs d)) with (_get_app d). change (app_comments (with_app_comments cs d)) with cs.
  rewrite !Hf, E. done.
Qed.

(** C13: The applicant sees no member at work: to an access of the magic link, or of a creator without the
    rights of a member, the comments are the public ones, without mentions and whatever the internal
    ones say; every name is the name of the creator or of the Gremium; no step tells its vote, no
    version its data or its diff, and the decision neither its vote nor its meeting nor its place on
    the agenda. *)
Theorem applicant_sees_no_member d id principal applicant acc a :
  resolve_app_read d id principal applicant = Ok acc → is_applicant_view acc = true → get_application d id = Some a →
  (∀ l c, list_comments_route d acc = Ok l → c ∈ l →
     cm_visibility c = public ∧ cm_mentions c = [] ∧ outside_actor d a (cm_author_info c)) ∧
  (∀ cs, filter (λ c, co_visibility c = public) cs = filter (λ c, co_visibility c = public) (app_comments d) →
     list_comments_route (with_app_comments cs d) acc = list_comments_route d acc) ∧
  (∀ l e, timeline d id (is_owning_applicant acc) (is_applicant_view acc) (is_owning_applicant acc) = Ok l → e ∈ l →
     te_vote_id e = None ∧ ∀ x, te_actor_info e = Some x → outside_actor d a x) ∧
  (∀ l v, get_versions_route d acc = Ok l → v ∈ l →
     ver_data v = None ∧ ver_diff v = None ∧ ∀ x, ver_changed_by_info v = Some x → outside_actor d a x) ∧
  (∀ out, get_application_route d acc = Ok out →
     (∀ c, out_capture out = Some c → outside_actor d a (cp_captured_by c)) ∧
     (∀ r, out_decision out = Some r → do_vote_id r = None ∧ do_meeting_title r = None ∧ do_agenda_position r = None)).
Proof.
  intros E Hv Ha. destruct (applicant_access _ _ _ _ _ E Hv) as [<- Hi]. split_and!.
  - intros l c. by apply applicant_comments.
  - intros cs. by apply applicant_comments_public.
  - intros l e. by apply applicant_timeline.
  - intros l v. by apply applicant_versions.
  - intros out. by apply applicant_detail.
Qed.
