(* ===== verification/AppEdits.v ===== *)
(** What the writers of applications promise: the versions of an application are numbered without a gap
    in every history, also when an edit reads an old state; what a successful edit has checked and
    written; what an anonymization leaves.  Witnesses and examples for the applications. *)

From Stdlib Require Import QArith_base.
From stdpp Require Import gmap strings.
From S2P Require Import Prelude PyStr PyNum PyValue PyDate Tally Election BudgetRules BudgetFacts FormFields FormValidation FlowDb Decision.
From S2P Require Import FlowEngine FlowEngineFacts Policy Room Delegations VoteRows VoteService VoteClose Ledger LedgerFacts Todo Files Tickets.
From S2P Require Import Meetings Agenda AppAccess AppService AppFacts.
Local Open Scope Z_scope.

(** ** What a writer does to the versions *)
Definition numbers (d : AppDb) (id : string) : list Z := sv_version <$> versions_of d id.
Definition stored (d : AppDb) (id : string) : bool := bool_decide (is_Some (get_application d id)).
(** The abstract effect of one operation: [next] are the numbers that it can add, [new] the applications. *)
Inductive version_effect (next : string → Z → Prop) (new : string → Prop) (d d' : AppDb) : Prop :=
| no_version : (∀ i, stored d' i = stored d i ∧ numbers d' i = numbers d i) → version_effect next new d d'
| next_version i n :
    (∀ j, stored d' j = stored d j ∧ numbers d' j = numbers d j ++ (if bool_decide (j = i) then [n] else [])) →
    stored d i = true → n ∉ numbers d i → next i n → version_effect next new d d'
| first_version i :
    (∀ j, stored d' j = stored d j || bool_decide (j = i)) →
    (∀ j, numbers d' j = numbers d j ++ (if bool_decide (j = i) then [1] else [])) →
    stored d i = false → new i → version_effect next new d d'
| no_more i :
    (∀ j, stored d' j = stored d j && negb (bool_decide (j = i))) →
    (∀ j, numbers d' j = if bool_decide (j = i) then [] else numbers d j) → version_effect next new d d'.
Definition no_next (i : string) (n : Z) : Prop := False.
Definition no_new (i : string) : Prop := False.
(** The number that an edit of [id] gives after it has read [k]. *)
Definition after_read (k : AppDb) (id i : string) (n : Z) : Prop := i = id ∧ stored k id = true ∧ n = _current_version k id + 1.

Lemma same_tables d d' :
  submission_versions d' = submission_versions d → (∀ i, stored d' i = stored d i) → version_effect no_next no_new d d'.
Proof. intros E H. apply no_version. intros i. split; [done|]. unfold numbers, versions_of. by rewrite E. Qed.
Lemma stored_update i f d j : stored (update_app i f d) j = stored d j.
Proof.
  unfold stored, get_application, update_app, update_application. cbn. apply bool_decide_ext.
  rewrite lookup_alter. case_decide; [subst; by destruct (applications _ !! j); cbn; rewrite ?is_Some_alt|done].
Qed.
Lemma numbers_app d d' v j :
  submission_versions d' = submission_versions d ++ [v] →
  numbers d' j = numbers d j ++ (if bool_decide (j = sv_application_id v) then [sv_version v] else []).
Proof.
  intros E. unfold numbers, versions_of. rewrite E, filter_app, fmap_app. f_equal. rewrite filter_cons, filter_nil.
  case_decide as H; [subst; by rewrite bool_decide_true|]. rewrite bool_decide_false; [done|congruence].
Qed.
Lemma elem_numbers d id n :
  n ∈ numbers d id ↔ existsb (λ v, bool_decide (sv_version v = n)) (versions_of d id) = true.
Proof.
  unfold numbers. rewrite elem_bool, list_elem_of_fmap. split; intros (v & H1 & H2).
  - exists v. split; [done|]. by apply bool_decide_eq_true.
  - apply bool_decide_eq_true in H2. by exists v.
Qed.
(** The flow engine adds and removes no application. *)
Lemma moved_stored m x x' i : moved m x x' → is_Some (applications x' !! i) ↔ is_Some (applications x !! i).
Proof.
  intros [(row & Hrow & _ & _ & Hr) Ho _ _]. destruct (decide (i = ap_id (mv_app m))) as [->|Hi].
  - rewrite <- (fmap_is_Some core), Hr, Hrow. split; by eexists.
  - by rewrite <- (fmap_is_Some core), (Ho i Hi), fmap_is_Some.
Qed.
Lemma start_stored can x id fresh x' s l i :
  start_confirmed can x id fresh = Ok (x', s, l) → is_Some (applications x' !! i) ↔ is_Some (applications x !! i).
Proof.
  unfold start_confirmed. intros (app & _ & H)%bind_ok. destruct (ap_current_state_id app); [|by injection H as <- _ _].
  destruct (auto_advance can x id _SYSTEM fresh) as [[[d' st]|]|e] eqn:E; [|by injection H as <- _ _..].
  assert (Hd : is_Some (applications d' !! i) ↔ is_Some (applications x !! i)).
  { unfold auto_advance in E. apply bind_ok in E as (b & _ & E). destruct (ap_current_state_id b); [|done]. match type of E with (if ?c then _ else _) = _ => destruct c end; [done|].
    apply bind_ok in E as (ctx & _ & E). apply bind_ok in E as ([t|] & _ & E); [|done]. apply bind_ok in E as (f & E & [= ->]).
    unfold fire, stage_fire in E. apply bind_ok in E as (pl & _ & E). eapply moved_stored, write_fire_moved, E. }
  destruct (after_commit st); by injection H as <- _ _.
Qed.
Lemma start_numbers d1 d2 x :
  (∀ i, is_Some (applications x !! i) ↔ is_Some (get_application d1 i)) → submission_versions d2 = submission_versions d1 →
  applications (engine d2) = applications x → ∀ i, stored d2 i = stored d1 i ∧ numbers d2 i = numbers d1 i.
Proof.
  intros H Ev Ea i. unfold numbers, versions_of. rewrite Ev. split; [|done]. unfold stored, get_application. rewrite Ea. by apply bool_decide_ext.
Qed.

(** ** The operations *)
Lemma written_version a cur e d d' :
  write_edit a cur e d = Ok d' →
  let id := sv_application_id (ed_version e) in let n := sv_version (ed_version e) in
  n ∉ numbers d id ∧ stored d id = true ∧ (∀ j, stored d' j = stored d j) ∧
  ∀ j, numbers d' j = numbers d j ++ (if bool_decide (j = id) then [n] else []).
Proof.
  unfold write_edit. intros (_ & H1%raise_if_ok & H)%bind_ok. apply bind_ok in H as (_ & H2%raise_if_ok & [= <-]).
  apply negb_false_iff in H2. split; [by rewrite elem_numbers, H1|]. split; [done|]. split; intros j; [|by apply numbers_app].
  match goal with |- stored (app_audit _ (update_columns _ _ ?x)) j = _ => change (stored x j = stored d j) end. by rewrite stored_update.
Qed.
Lemma edit_effect a cur e d d' :
  write_edit a cur e d = Ok d' →
  version_effect (λ i n, i = sv_application_id (ed_version e) ∧ n = sv_version (ed_version e)) no_new d d'.
Proof. intros (H1 & H2 & Hs & Hn)%written_version. by eapply next_version. Qed.
Lemma plan_version fm k id data who b u p now a e :
  plan_edit fm k id data who b u p now = Ok (a, e) →
  get_application k id = Some a ∧ sv_application_id (ed_version e) = id ∧ sv_version (ed_version e) = _current_version k id + 1.
Proof.
  unfold plan_edit. intros (x & Hx%get_app_row & H)%bind_ok. apply bind_ok in H as (_ & _ & H). apply bind_ok in H as (_ & _ & H).
  apply bind_ok in H as ([am cur] & _ & H). apply bind_ok in H as (_ & _ & H). apply bind_ok in H as (c & _ & H).
  injection H as <- <-. done.
Qed.
Lemma patch_effect fm k d id data who b u p now d' out :
  patch fm k d id data who b u p now = Ok (d', out) → version_effect (after_read k id) no_new d d'.
Proof.
  unfold patch. intros ([a e] & (Ha & Ei & En)%plan_version & H)%bind_ok. apply bind_ok in H as (d1 & H1%edit_effect & H).
  destruct (get_application d1 id); [|done]. injection H as <- _. rewrite Ei, En in H1.
  destruct H1 as [Hs|i n Hs ? ? [-> ->]|i ? ? ? []|i Hs Hn]; [by apply no_version| |by eapply no_more].
  eapply next_version; [done..|]. split; [done|]. split; [|done]. unfold stored. by rewrite Ha.
Qed.
Lemma store_effect p t form fl initial clean amount cur who conf cap ids now d d' :
  stored d (ni_application ids) = false →
  submission_versions d' = submission_versions (store p t form fl initial clean amount cur who conf cap ids now d) →
  (∀ i, stored d' i = stored (store p t form fl initial clean amount cur who conf cap ids now d) i) →
  version_effect no_next (λ i, i = ni_application ids) d d'.
Proof.
  intros Hn Ev Es. apply (first_version _ _ _ _ (ni_application ids)); [| |done|done].
  - intros j. rewrite Es. unfold stored, get_application, store. destruct cap as [c|]; cbn -[lookup insert]; rewrite lookup_insert; case_decide as Ej.
    1,3: rewrite (bool_decide_true (is_Some _)) by (by eexists); subst; by rewrite (bool_decide_true (_ = _)), orb_true_r.
    1,2: rewrite (bool_decide_false (j = _)) by congruence; by rewrite orb_false_r.
  - intros j. apply (numbers_app d d' (MkVersion (ni_application ids) 1 clean (Some who) now None)). exact Ev.
Qed.
Lemma submit_effect fm d p who conf pepper cap ids now d' :
  submit fm d p who conf pepper cap ids now = Ok d' → version_effect no_next (λ i, i = ni_application ids) d d'.
Proof.
  unfold submit. destruct (find_by _ _ _) as [t|]; [|done]. intros (fl & _ & H)%bind_ok. apply bind_ok in H as (form & _ & H).
  apply bind_ok in H as (_ & _ & H). apply bind_ok in H as (initial & _ & H). apply bind_ok in H as ([am cur] & _ & H).
  apply bind_ok in H as (token & _ & H). apply bind_ok in H as (cents & _ & H). apply bind_ok in H as (_ & Hn%raise_if_ok & [= <-]).
  eapply store_effect; [exact Hn|by destruct token|]. intros i. by destruct token.
Qed.
Lemma create_effect fm d p who conf pepper cap ids fresh now d' :
  create fm d p who conf pepper cap ids fresh now = Ok d' → version_effect no_next (λ i, i = ni_application ids) d d'.
Proof.
  unfold create. intros (d1 & H1 & H)%bind_ok. assert (Hid : d1 = d' ∨ ∀ i, stored d' i = stored d1 i ∧ numbers d' i = numbers d1 i).
  { destruct (get_application d1 _) as [a|]; [|left; congruence]. destruct (ap_email_confirmed a); [|left; congruence].
    destruct (start_confirmed _ _ _ _) as [[[x s] l]|e] eqn:E; [|done]. injection H as <-. right. eapply start_numbers; [|done..].
    intros i. by eapply start_stored. }
  apply submit_effect in H1. destruct Hid as [->|Hid]; [done|].
  assert (Es : ∀ i, stored d' i = stored d1 i) by apply Hid. assert (En : ∀ i, numbers d' i = numbers d1 i) by apply Hid.
  destruct H1 as [Hs|i n Hs ? ? []|i Hs Hn ? ?|i Hs Hn].
  - apply no_version. intros j. rewrite Es, En. apply Hs.
  - apply (first_version _ _ _ _ i); [| |done|done]; intros j; rewrite ?Es, ?En; auto.
  - apply (no_more _ _ _ _ i); intros j; rewrite ?Es, ?En; auto.
Qed.
Lemma route_effect fm d p mail account pepper ids fresh now d' :
  create_application_route fm d p mail account pepper ids fresh now = Ok d' → version_effect no_next (λ i, i = ni_application ids) d d'.
Proof. unfold create_application_route. destruct (given _); [|done]. apply create_effect. Qed.
Lemma on_behalf_effect fm d p who today pepper ids fresh now d' :
  create_on_behalf fm d p who today pepper ids fresh now = Ok d' → version_effect no_next (λ i, i = ni_application ids) d d'.
Proof.
  unfold create_on_behalf. intros (_ & _ & H)%bind_ok. apply bind_ok in H as (_ & _ & H). apply bind_ok in H as (r & _ & H).
  by eapply create_effect.
Qed.
Lemma foldl_delete_row vs (r : RoomDb) : applications (Room.flow_db (foldl (λ r v, delete_row v r) r vs)) = applications (Room.flow_db r).
Proof. revert r. induction vs as [|v vs IH]; intros r; [done|]. cbn [foldl]. by rewrite IH. Qed.
Lemma cascade_effect id d d0 : submission_versions d0 = submission_versions d → (∀ i, stored d0 i = stored d i) →
  version_effect no_next no_new d (cascade id d0).
Proof.
  intros Ev Es. apply (no_more _ _ _ _ id).
  - intros j. rewrite <- Es. unfold stored, get_application, engine, cascade. cbn -[lookup delete foldl].
    rewrite foldl_delete_row, lookup_delete. case_decide as E.
    + subst. rewrite (bool_decide_true (j = j)), andb_false_r by done. by rewrite bool_decide_false by by intros [? ?].
    + by rewrite (bool_decide_false (j = id)), andb_true_r by congruence.
  - intros j. unfold numbers, versions_of, cascade. cbn. rewrite Ev, list_filter_filter. case_bool_decide as E.
    + subst. replace (filter _ _) with (@nil SubmissionVersion); [done|]. symmetry. apply elem_of_nil_inv.
      by intros v [[? ?] _]%list_elem_of_filter.
    + f_equal. apply list_filter_iff. intros v. naive_solver.
Qed.
Lemma delete_effect k d id who d' : delete_application k d id who = Ok d' → version_effect no_next no_new d d'.
Proof. unfold delete_application. intros (a & _ & H)%bind_ok. apply bind_ok in H as (_ & _ & [= <-]). by apply cascade_effect. Qed.
Lemma anonymize_effect d id who objects now d' : anonymize d id who objects now = Ok d' → version_effect no_next no_new d d'.
Proof.
  unfold anonymize. intros (a & _ & [= <-])%bind_ok. apply no_version. intros i. split.
  - match goal with |- context [update_app id ?f ?x] => transitivity (stored (update_app id f x) i) end; [by destruct objects|].
    by rewrite stored_update.
  - unfold numbers, versions_of.
    match goal with |- context [with_versions (?g <$> _)] => assert (Hg : ∀ v, sv_version (g v) = sv_version v ∧ sv_application_id (g v) = sv_application_id v) by (intros v; by case_bool_decide) end.
    destruct objects; cbn [submission_versions with_app_files with_links with_app_comments with_versions];
      (induction (submission_versions d) as [|v l IH]; [done|]; rewrite fmap_cons, !filter_cons, (proj2 (Hg v)); case_decide; [|done];
       rewrite !fmap_cons, (proj1 (Hg v)); by f_equal).
Qed.
Lemma archive_effect k d id archived who strip now d' out : set_archived k d id archived who strip now = Ok (d', out) → version_effect no_next no_new d d'.
Proof.
  unfold set_archived. intros (a & _ & H)%bind_ok. case_bool_decide.
  - apply bind_ok in H as (o & _ & [= <- _]). by apply same_tables.
  - apply bind_ok in H as (_ & _ & H). apply bind_ok in H as (o & _ & [= <- _]). apply same_tables; by destruct archived.
Qed.
Lemma add_comment_effect k d acc payload pepper id now d' out added :
  add_comment k d acc payload pepper id now = Ok (d', out, added) → version_effect no_next no_new d d'.
Proof.
  unfold add_comment. intros (_ & _ & H)%bind_ok. apply bind_ok in H as (a & _ & H). apply bind_ok in H as (_ & _ & H).
  apply bind_ok in H as (w & _ & H). apply bind_ok in H as (token & _ & H). apply bind_ok in H as (d1 & H1 & [= <- _ _]).
  unfold insert_comment in H1. apply bind_ok in H1 as (_ & _ & [= <-]). apply same_tables; by destruct token.
Qed.
Lemma update_comment_effect k d acc cid body mentions d' out added :
  update_comment k d acc cid body mentions = Ok (d', out, added) → version_effect no_next no_new d d'.
Proof.
  unfold update_comment. intros (a & _ & H)%bind_ok. do 4 (apply bind_ok in H as (? & _ & H)). injection H as <- _ _. by apply same_tables.
Qed.
Lemma delete_comment_effect k d acc cid d' : delete_comment k d acc cid = Ok d' → version_effect no_next no_new d d'.
Proof. unfold delete_comment. intros (a & _ & H)%bind_ok. do 3 (apply bind_ok in H as (? & _ & H)). injection H as <-. by apply same_tables. Qed.

(** ** Histories *)
(** The states of a run, the last one first.  An operation that locks no row can read any earlier state.
    A new application has an id that no earlier state has. *)
Inductive app_run (fm : string → string → option bool) : list AppDb → Prop :=
| run_start d : submission_versions d = [] → (∀ i, get_application d i = None) → app_run fm [d]
| run_create d h p mail account pepper ids fresh now d' :
    app_run fm (d :: h) → (∀ k, k ∈ d :: h → get_application k (ni_application ids) = None) →
    create_application_route fm d p mail account pepper ids fresh now = Ok d' → app_run fm (d' :: d :: h)
| run_on_behalf d h p who today pepper ids fresh now d' :
    app_run fm (d :: h) → (∀ k, k ∈ d :: h → get_application k (ni_application ids) = None) →
    create_on_behalf fm d p who today pepper ids fresh now = Ok d' → app_run fm (d' :: d :: h)
| run_patch d h k acc data now d' out :
    app_run fm (d :: h) → k ∈ d :: h → patch_application_route fm k d acc data now = Ok (d', out) → app_run fm (d' :: d :: h)
| run_archive d h k id archived who strip now d' out :
    app_run fm (d :: h) → k ∈ d :: h → set_archived k d id archived who strip now = Ok (d', out) → app_run fm (d' :: d :: h)
| run_delete d h k id who d' :
    app_run fm (d :: h) → k ∈ d :: h → delete_application k d id who = Ok d' → app_run fm (d' :: d :: h)
| run_anonymize d h id who objects now d' :
    app_run fm (d :: h) → anonymize d id who objects now = Ok d' → app_run fm (d' :: d :: h)
| run_add_comment d h k acc payload pepper id now d' out added :
    app_run fm (d :: h) → k ∈ d :: h → add_comment k d acc payload pepper id now = Ok (d', out, added) → app_run fm (d' :: d :: h)
| run_update_comment d h k acc cid body mentions d' out added :
    app_run fm (d :: h) → k ∈ d :: h → update_comment k d acc cid body mentions = Ok (d', out, added) → app_run fm (d' :: d :: h)
| run_delete_comment d h k acc cid d' :
    app_run fm (d :: h) → k ∈ d :: h → delete_comment k d acc cid = Ok d' → app_run fm (d' :: d :: h)
(** The other components write neither the versions nor the set of the applications. *)
| run_other d h d' :
    app_run fm (d :: h) → submission_versions d' = submission_versions d → (∀ i, is_Some (get_application d' i) ↔ is_Some (get_application d i)) →
    app_run fm (d' :: d :: h).

(** The numbers are 1, 2, ... and an application has a version exactly while it is stored. *)
Definition numbered (d : AppDb) : Prop :=
  ∀ i, numbers d i = seqZ 1 (Z.of_nat (length (numbers d i))) ∧ (stored d i = true ↔ numbers d i ≠ []).
Definition grown (k d : AppDb) : Prop := ∀ i, stored k i = true → stored d i = true → (length (numbers k i) ≤ length (numbers d i))%nat.
Lemma max_seq n : foldr Z.max 0 (seqZ 1 (Z.of_nat n)) = Z.of_nat n.
Proof.
  assert (H : ∀ m, (0 ≤ m)%Z → foldr Z.max m (seqZ 1 (Z.of_nat n)) = Z.max m (Z.of_nat n)); [|rewrite H; lia].
  induction n as [|n IH]; intros m Hm; [by rewrite Z.max_l by lia|]. rewrite seqZ_S, foldr_app. cbn [foldr].
  rewrite IH by lia. lia.
Qed.
Lemma current_numbered d i : numbered d → _current_version d i = Z.of_nat (length (numbers d i)).
Proof. intros H. unfold _current_version. fold (numbers d i). rewrite (proj1 (H i)) at 1. apply max_seq. Qed.
Lemma next_seq n m : Z.of_nat m + 1 ∉ seqZ 1 (Z.of_nat n) → (m ≤ n)%nat → m = n.
Proof. rewrite elem_of_seqZ. lia. Qed.
Lemma numbered_app (l : list Z) n :
  l = seqZ 1 (Z.of_nat (length l)) → n = Z.of_nat (length l) + 1 → l ++ [n] = seqZ 1 (Z.of_nat (length (l ++ [n]))).
Proof. intros E ->. rewrite length_app. cbn [length]. rewrite Nat.add_1_r, seqZ_S. rewrite <- E. do 2 f_equal. lia. Qed.

Section Step.
Context (h : list AppDb) (d d' : AppDb) (next : string → Z → Prop) (new : string → Prop).
Context (Hnum : ∀ k, k ∈ d :: h → numbered k) (Hgrown : ∀ k, k ∈ d :: h → grown k d).
Context (Hnext : ∀ i n, next i n → ∃ k, k ∈ d :: h ∧ stored k i = true ∧ n = _current_version k i + 1).
Context (Hnew : ∀ i, new i → ∀ k, k ∈ d :: h → stored k i = false).
Lemma effect_next i n : stored d i = true → n ∉ numbers d i → next i n → n = Z.of_nat (length (numbers d i)) + 1.
Proof.
  intros Hs Hn (k & Hk & Hsk & ->)%Hnext. rewrite (current_numbered _ _ (Hnum k Hk)) in *. f_equal. f_equal.
  apply next_seq; [|by apply Hgrown]. by rewrite <- (proj1 (Hnum d (list_elem_of_here _ _) i)).
Qed.
Lemma effect_numbered : version_effect next new d d' → numbered d'.
Proof.
  pose proof (Hnum d (list_elem_of_here _ _)) as Hd. intros [Hs|i n Hs H1 H2 H3|i Hs Hn H1 H2|i Hs Hn] j.
  - destruct (Hs j) as [-> ->]. apply Hd.
  - destruct (Hs j) as [-> ->]. case_bool_decide as Ej; [|rewrite app_nil_r; apply Hd]. subst j. split.
    + apply numbered_app; [apply Hd|]. by apply effect_next.
    + rewrite H1. split; [by intros _ [_ ?]%app_nil|done].
  - rewrite Hs, Hn. case_bool_decide as Ej; [|rewrite app_nil_r, orb_false_r; apply Hd]. subst j. rewrite orb_true_r.
    destruct (numbers d i) eqn:E; [done|]. exfalso. assert (stored d i = true) by (apply Hd; by rewrite E). congruence.
  - rewrite Hs, Hn. case_bool_decide as Ej; cbn [negb]; [|rewrite andb_true_r; apply Hd]. by rewrite andb_false_r.
Qed.
Lemma effect_grown k : version_effect next new d d' → k ∈ d' :: d :: h → grown k d'.
Proof.
  intros Hv [->|Hk]%elem_of_cons; [by intros i _ _|]. intros j Hj. specialize (Hgrown k Hk j Hj).
  destruct Hv as [Hs|i n Hs H1 H2 H3|i Hs Hn H1 H2|i Hs Hn].
  - by destruct (Hs j) as [-> ->].
  - destruct (Hs j) as [-> ->]. rewrite length_app. intros H. specialize (Hgrown H). lia.
  - rewrite Hs, Hn. case_bool_decide as Ej; [|rewrite orb_false_r, app_nil_r; done]. subst j. by rewrite (Hnew i H2 k Hk) in Hj.
  - rewrite Hs, Hn. case_bool_decide; cbn [negb]; [by rewrite andb_false_r|by rewrite andb_true_r].
Qed.
End Step.

Lemma stored_none d i : get_application d i = None → stored d i = false.
Proof. intros H. unfold stored. rewrite H. by apply bool_decide_false; intros [? ?]. Qed.
(** Each step of a run has an effect whose number comes from a state of the run. *)
Lemma run_effect fm d d' h :
  app_run fm (d' :: d :: h) →
  app_run fm (d :: h) ∧ ∃ next new, version_effect next new d d' ∧
    (∀ i n, next i n → ∃ k, k ∈ d :: h ∧ stored k i = true ∧ n = _current_version k i + 1) ∧
    (∀ i, new i → ∀ k, k ∈ d :: h → stored k i = false).
Proof.
  assert (H0 : version_effect no_next no_new d d' → ∃ next new, version_effect next new d d' ∧
    (∀ i n, next i n → ∃ k, k ∈ d :: h ∧ stored k i = true ∧ n = _current_version k i + 1) ∧
    (∀ i, new i → ∀ k, k ∈ d :: h → stored k i = false)) by (intros H; exists no_next, no_new; by split_and!).
  assert (H1 : ∀ x, (∀ k, k ∈ d :: h → get_application k x = None) → version_effect no_next (λ i, i = x) d d' → ∃ next new, version_effect next new d d' ∧
    (∀ i n, next i n → ∃ k, k ∈ d :: h ∧ stored k i = true ∧ n = _current_version k i + 1) ∧
    (∀ i, new i → ∀ k, k ∈ d :: h → stored k i = false)).
  { intros x Hx H. exists no_next, (λ i, i = x). split_and!; [done|done|]. intros i -> k Hk. by apply stored_none, Hx. }
  inversion 1; subst; (split; [done|]).
  - eapply H1; [done|]. by eapply route_effect.
  - eapply H1; [done|]. by eapply on_behalf_effect.
  - unfold patch_application_route in *. exists (after_read k (acs_application_id acc)), no_new. split_and!; [by eapply patch_effect| |done].
    intros i n (-> & Hs & ->). by exists k.
  - apply H0. by eapply archive_effect.
  - apply H0. by eapply delete_effect.
  - apply H0. by eapply anonymize_effect.
  - apply H0. by eapply add_comment_effect.
  - apply H0. by eapply update_comment_effect.
  - apply H0. by eapply delete_comment_effect.
  - apply H0, same_tables; [done|]. intros i. by apply bool_decide_ext.
Qed.
Lemma run_inv fm h d : app_run fm (d :: h) → (∀ k, k ∈ d :: h → numbered k) ∧ ∀ k, k ∈ d :: h → grown k d.
Proof.
  revert d. induction h as [|d0 h IH]; intros d H.
  - inversion H as [x Hv Ha| | | | | | | | | | ]; subst. split; intros k ->%list_elem_of_singleton; [|by intros i _ _].
    intros i. unfold numbers, versions_of. rewrite Hv. split; [done|]. rewrite stored_none by done. done.
  - apply run_effect in H as (H & next & new & Hv & Hnext & Hnew). destruct (IH _ H) as [Hnum Hg]. split.
    + intros k [->|Hk]%elem_of_cons; [|by apply Hnum]. by eapply effect_numbered.
    + intros k Hk. by eapply effect_grown.
Qed.


(** ** One edit *)
Lemma dict_get_filter {A} (P : string → Prop) (Q : string * A → Prop) `{∀ k, Decision (P k)} `{∀ x, Decision (Q x)} k l :
  (∀ kv, Q kv ↔ P kv.1) → dict_get k (filter Q l) = if decide (P k) then dict_get k l else None.
Proof.
  intros HQ. induction l as [|[k' v] l IH]; [by case_decide|]. rewrite filter_cons. cbn [fst dict_get]. specialize (HQ (k', v)). cbn in HQ.
  destruct (decide (Q (k', v))) as [H'|H'], (decide (k = k')) as [->|E]; cbn [dict_get]; rewrite ?decide_True, ?decide_False by tauto;
    try done; by rewrite IH, ?decide_False by tauto.
Qed.
Lemma NoDup_filter_keys {A} (P : string * A → Prop) `{∀ k, Decision (P k)} (l : list (string * A)) : NoDup l.*1 → NoDup (filter P l).*1.
Proof. intros Hn. eapply sublist_NoDup; [done|]. apply fmap_sublist, sublist_filter. Qed.
Lemma dict_set_keys {A} k (v : A) l : (dict_set k v l).*1 = if decide (k ∈ l.*1) then l.*1 else l.*1 ++ [k].
Proof.
  induction l as [|[k' w] l IH]; [done|]. cbn. destruct (decide (k = k')) as [->|E].
  - rewrite decide_True by set_solver. done.
  - cbn. rewrite IH. destruct (decide (k ∈ l.*1)) as [H|H].
    + rewrite decide_True by set_solver. done.
    + rewrite decide_False by set_solver. done.
Qed.
Lemma NoDup_merge {A} (b a : list (string * A)) : NoDup a.*1 → NoDup (dict_merge a b).*1.
Proof.
  unfold dict_merge. revert a. induction b as [|[k v] b IH]; intros a Ha; [done|]. cbn. apply IH. rewrite dict_set_keys.
  case_decide as H; [done|]. apply NoDup_app. split; [done|]. split; [set_solver|]. apply NoDup_singleton.
Qed.
Lemma get_with_stored k sent stored_ keys :
  NoDup stored_.*1 → dict_get k (_with_stored_pii sent stored_ keys) = if decide (k ∈ keys) then dict_get k stored_ else dict_get k sent.
Proof.
  intros H. unfold _with_stored_pii, _without_keys. rewrite dict_get_merge by (by apply NoDup_filter_keys).
  rewrite (dict_get_filter (A := pyval) (λ k, k ∈ keys) (λ kv, kv.1 ∈ keys)), (dict_get_filter (A := pyval) (λ k, k ∉ keys) (λ kv, kv.1 ∉ keys)) by done. repeat case_decide; try done. by destruct (dict_get k stored_).
Qed.
Lemma get_whitelist k fields data : dict_get k (_whitelist fields data) = if decide (k ∈ key <$> fields) then dict_get k data else None.
Proof. unfold _whitelist. by rewrite (dict_get_filter (A := pyval) (λ k, k ∈ key <$> fields) (λ kv, kv.1 ∈ key <$> fields)) by done. Qed.
Lemma whitelist_keys fields data : (_whitelist fields data).*1 ⊆ key <$> fields.
Proof. intros k (kv & -> & [H _]%list_elem_of_filter)%list_elem_of_fmap. done. Qed.

(** The recorded difference leads from the old to the new data. *)
Definition apply_diff (old : list (string * pyval)) (x : DataDiff) : list (string * pyval) :=
  omap (λ kv, if dict_mem kv.1 (removed x) then None
              else Some (kv.1, match dict_get kv.1 (changed x) with Some c => fc_new c | None => kv.2 end)) old ++ added x.
Definition same_value (x y : option pyval) : Prop := option_Forall2 (λ v w, v = w ∨ py_eqb v w = true) x y.
Lemma dict_get_omap {A B} k (f : string → A → option B) (l : list (string * A)) :
  NoDup l.*1 → dict_get k (omap (λ kv, (λ b, (kv.1, b)) <$> f kv.1 kv.2) l) = dict_get k l ≫= f k.
Proof.
  set (g := λ kv : string * A, _). induction l as [|[k' v] l IH]; [done|]. intros Hn. rewrite fmap_cons in Hn.
  apply NoDup_cons in Hn as [Hk Hn]. cbn [fst] in Hk. specialize (IH Hn). cbn [dict_get].
  change (omap g ((k', v) :: l)) with (match g (k', v) with Some y => y :: omap g l | None => omap g l end).
  unfold g at 1. cbn [fst snd]. destruct (decide (k = k')) as [->|E].
  - cbn [mbind option_bind]. destruct (f k' v) as [b|] eqn:Ef; cbn [fmap option_fmap option_map dict_get].
    + by rewrite decide_True.
    + apply dict_get_None in Hk. by rewrite IH, Hk.
  - destruct (f k' v) as [b|]; cbn [fmap option_fmap option_map dict_get]; [rewrite decide_False by done|]; exact IH.
Qed.
Lemma get_changed k old new : NoDup old.*1 →
  dict_get k (changed (compute_diff old new)) =
    dict_get k old ≫= λ v, dict_get k new ≫= λ w, if py_eqb v w then None else Some (MkChange v w).
Proof.
  intros H. cbn [changed compute_diff]. rewrite <- (dict_get_omap k (λ k v, dict_get k new ≫= λ w, if py_eqb v w then None else Some (MkChange v w)) old H).
  f_equal. apply list_omap_ext. apply Forall_Forall2_diag, Forall_forall. intros [k' v] _. cbn. destruct (dict_get k' new) as [w|]; [|done].
  cbn. by destruct (py_eqb v w).
Qed.
Lemma diff_replays old new k : NoDup old.*1 → same_value (dict_get k (apply_diff old (compute_diff old new))) (dict_get k new).
Proof.
  intros Hn. unfold apply_diff. rewrite dict_get_app.
  set (x := compute_diff old new).
  replace (omap _ old) with (omap (λ kv, (λ b : pyval, (kv.1, b)) <$> (if dict_mem kv.1 (removed x) then None
    else Some match dict_get kv.1 (changed x) with Some c => fc_new c | None => kv.2 end)) old)
    by (apply list_omap_ext, Forall_Forall2_diag, Forall_forall; intros [k' v] _; cbn; by case_match).
  rewrite (dict_get_omap k (λ k v, if dict_mem k (removed x) then None else Some match dict_get k (changed x) with Some c => fc_new c | None => v end) old Hn).
  subst x. cbn beta. rewrite get_changed by done. unfold dict_mem at 1. cbn [removed added compute_diff].
  rewrite (dict_get_filter (A := pyval) (λ k, dict_mem k new = false) (λ kv, dict_mem kv.1 new = false)),
    (dict_get_filter (A := pyval) (λ k, dict_mem k old = false) (λ kv, dict_mem kv.1 old = false)) by done. unfold dict_mem.
  destruct (dict_get k old) as [v|] eqn:Eo, (dict_get k new) as [w|] eqn:En; cbn; rewrite ?decide_True, ?decide_False by done; cbn; rewrite ?Eo, ?En; cbn.
  - constructor. destruct (py_eqb v w) eqn:E; cbn; [by right|by left].
  - constructor.
  - constructor. by left.
  - constructor.
Qed.
Lemma empty_diff x : is_empty_diff x = true → x = MkDiff [] [] [].
Proof.
  unfold is_empty_diff, diff_keys. rewrite bool_decide_eq_true. intros [H1 [H2 H3]%app_nil]%app_nil.
  destruct x as [l m n]. cbn in *. by apply fmap_nil_inv in H1 as ->, H2 as ->, H3 as ->.
Qed.
(** The rounded amount does not fall below a bound in cents that the amount reaches. *)
Lemma half_away_ge c k a : 0 < k → a * 10 ^ k ≤ c → a ≤ half_away c k.
Proof.
  intros Hk Hc. unfold half_away. assert (Hp : 0 < 10 ^ k) by (apply Z.pow_pos_nonneg; lia).
  assert (Hh : 10 ^ k / 2 < 10 ^ k) by (apply Z.div_lt; lia). assert (Hq : 0 ≤ 10 ^ k / 2) by (apply Z.div_pos; lia).
  destruct (Z.sgn_spec c) as [[H ->]|[[H ->]|[H ->]]].
  - rewrite Z.mul_1_l, Z.abs_eq by lia. apply Z.div_le_lower_bound; nia.
  - rewrite Z.mul_0_l. subst c. nia.
  - rewrite Z.abs_neq by lia. assert (E : (- c + 10 ^ k / 2) / 10 ^ k ≤ - a); [|lia].
    apply Z.lt_succ_r. apply Z.div_lt_upper_bound; nia.
Qed.
Lemma amount_covers x cents r : below x cents = Ok false → numeric_column x = Ok r → cents ≤ r.
Proof.
  unfold below, lift_py, dec_ord, numeric_column. destruct (dec_has_nan _ _); [done|]. destruct x as [c e| |]; [|done..].
  intros [= H]. destruct (_ <? 10 ^ 12); [|done]. intros [= <-]. unfold dec_compare, dec_money, dec_align in H.
  case_match eqn:E.
  - apply Z.leb_le in E. rewrite Z.min_r, Z.sub_diag, Z.mul_1_r in H by lia. replace (e - -2) with (e + 2) in H by lia.
    unfold is_lt in H. destruct (Z.compare_spec (c * 10 ^ (e + 2)) cents); [lia|done|lia].
  - apply Z.leb_gt in E. rewrite Z.min_l, Z.sub_diag, Z.mul_1_r in H by lia. apply half_away_ge; [lia|].
    unfold is_lt in H. destruct (Z.compare_spec c (cents * 10 ^ (-2 - e))); [lia|done|lia].
Qed.
Lemma checked_amount amount approved cents c :
  check_requested amount (Some c) = approved → approved = Ok () → amount_column amount = Ok cents → ∃ r, cents = Some r ∧ c ≤ r.
Proof.
  intros <- H Hc. unfold check_requested in H. destruct amount as [x|]; [|done]. apply bind_ok in H as (low & Hl & ->%raise_if_ok).
  cbn [amount_column] in Hc. apply bind_ok in Hc as (r & Hr & [= <-]). exists r. split; [done|]. by eapply amount_covers.
Qed.

(** What an edit is, in the words of its inputs. *)
Lemma plan_spec fm k id data who bypass u p now a e :
  plan_edit fm k id data who bypass u p now = Ok (a, e) → NoDup (data_of a).*1 →
  get_application k id = Some a ∧ sv_application_id (ed_version e) = id ∧ sv_changed_by (ed_version e) = Some who ∧
  ed_data e = sv_data (ed_version e) ∧
  (∀ s, _get_state k (ap_current_state_id a) = Some s → st_edit_allowed s = true ∨ bypass = true) ∧
  (ed_data e).*1 ⊆ key <$> edit_fields k a ∧
  (∀ x, same_value (dict_get x (apply_diff (data_of a) (default (MkDiff [] [] []) (sv_diff (ed_version e))))) (dict_get x (ed_data e))) ∧
  (p = true → ∀ x, x ∈ pii_keys_for_type k (ap_type_id a) → x ∈ key <$> edit_fields k a → dict_get x (ed_data e) = dict_get x (data_of a)) ∧
  (∀ c, ap_approved_amount a = Some c → ∃ r, ed_amount e = Some r ∧ c ≤ r).
Proof.
  unfold plan_edit. intros (x & Hx%get_app_row & H)%bind_ok Hn. apply bind_ok in H as (_ & Hlock%raise_if_ok & H). apply bind_ok in H as (_ & _ & H).
  apply bind_ok in H as ([am cur] & _ & H). apply bind_ok in H as ([] & Hr & H). apply bind_ok in H as (c & Hc & H).
  injection H as <- <-. cbn [ed_version ed_data ed_amount sv_application_id sv_changed_by sv_diff sv_data]. split_and!; try done.
  - intros s Hs. rewrite Hs in Hlock. apply andb_false_iff in Hlock as [?%negb_false_iff|?%negb_false_iff]; auto.
  - apply whitelist_keys.
  - intros y. match goal with |- context [compute_diff ?o ?n] => pose proof (diff_replays o n y Hn) as Hd; destruct (is_empty_diff (compute_diff o n)) eqn:E end.
    + apply empty_diff in E. by rewrite E in Hd.
    + done.
  - intros -> y Hy Hk. rewrite get_whitelist, decide_True by done. by rewrite get_with_stored, decide_True by done.
  - intros ap Hap. rewrite Hap in Hr. by eapply checked_amount.
Qed.
Lemma written_row a cur e d d' id :
  write_edit a cur e d = Ok d' → sv_application_id (ed_version e) = id → get_application d id = Some a →
  ∃ a', get_application d' id = Some a' ∧ ap_approved_amount a' = ap_approved_amount a ∧ ap_amount a' = ed_amount e ∧
    (data_of a' = ed_data e ∨ data_of a' = data_of a ∧ py_eqb (PDict (data_of a)) (PDict (ed_data e)) = true).
Proof.
  unfold write_edit. intros (_ & _ & H)%bind_ok Hid Ha. apply bind_ok in H as (_ & _ & [= <-]). rewrite Hid.
  match goal with |- context [update_app id ?g _] => set (f := g) end.
  assert (E : ∀ x, get_application (update_app id f x) id = f <$> get_application x id) by (intros x; apply lookup_alter_eq).
  match goal with |- context [update_app id f ?x] => specialize (E x); exists (f a) end.
  split; [etrans; [exact E|]; by change (f <$> get_application d id = Some (f a)); rewrite Ha|]. clear E. subst f.
  split; [done|]. split.
  - cbn [ap_amount set_data]. unfold if_changed. by case_bool_decide.
  - match goal with |- context [if ?c then ap_data a else _] => change c with (py_eqb (PDict (data_of a)) (PDict (ed_data e))) end.
    destruct (py_eqb (PDict (data_of a)) (PDict (ed_data e))); [right|left]; done.
Qed.

(** C16: What a committed edit has checked and written: the state lets the applicant edit or the editor may
    always; only fields of the form are stored; the recorded difference leads from the old data to the
    new ones; an editor without the right to personal fields has changed none of them and gets none
    back; and, read and written in one state, the row has the data of the new version and an amount
    that still covers the approved one. *)
Theorem edit_written fm k d acc data now d' out a :
  NoDup (data_of a).*1 → get_application k (acs_application_id acc) = Some a →
  patch_application_route fm k d acc data now = Ok (d', out) →
  ∃ v, submission_versions d' = submission_versions d ++ [v] ∧ sv_application_id v = acs_application_id acc ∧ sv_changed_by v = Some (actor acc) ∧
    (∀ s, _get_state k (ap_current_state_id a) = Some s → st_edit_allowed s = true ∨ holds (acs_principal acc) EDIT_ANY_PERMISSION = true) ∧
    (sv_data v).*1 ⊆ key <$> edit_fields k a ∧
    (∀ x, same_value (dict_get x (apply_diff (data_of a) (default (MkDiff [] [] []) (sv_diff v)))) (dict_get x (sv_data v))) ∧
    (can_read_pii k acc = false →
      (∀ x, x ∈ pii_keys_for_type k (ap_type_id a) → x ∈ key <$> edit_fields k a → dict_get x (sv_data v) = dict_get x (data_of a)) ∧
      (∀ x, x ∈ pii_keys_for_type d' (ap_type_id (out_application out)) → x ∉ (out_data out).*1)) ∧
    (k = d → ∃ a', get_application d' (acs_application_id acc) = Some a' ∧
      (data_of a' = sv_data v ∨ data_of a' = data_of a ∧ py_eqb (PDict (data_of a)) (PDict (sv_data v)) = true) ∧
      ∀ c, ap_approved_amount a = Some c → ap_approved_amount a' = Some c ∧ ∃ r, ap_amount a' = Some r ∧ c ≤ r).
Proof.
  intros Hn Ha H. unfold patch_application_route, patch in H. apply bind_ok in H as ([b e] & Hp & H).
  apply bind_ok in H as (d1 & Hw & H). destruct (get_application d1 _) as [row|] eqn:Erow; [|done]. injection H as -> <-.
  assert (b = a) as -> by (apply plan_version in Hp as (Hb & _); congruence).
  destruct (plan_spec _ _ _ _ _ _ _ _ _ _ _ Hp Hn) as (_ & Hi & Hwho & Hd & Hlock & Hkeys & Hdiff & Hpii & Ham).
  exists (ed_version e). rewrite <- Hd. split_and!; try done.
  - unfold write_edit in Hw. apply bind_ok in Hw as (_ & _ & Hw). by apply bind_ok in Hw as (_ & _ & [= <-]).
  - intros Hr. rewrite Hr in *. cbn [negb] in *. split; [by apply Hpii|]. cbn. intros x Hx (kv & -> & [Hk _]%list_elem_of_filter)%list_elem_of_fmap. done.
  - intros ->. destruct (written_row _ _ _ _ _ _ Hw Hi Ha) as (a' & Ha' & E1 & E2 & E3). exists a'. split; [done|]. split; [done|].
    intros c Hc. rewrite E1, E2. split; [done|]. by apply Ham.
Qed.

(** ** Anonymization *)
Lemma filter_map_other {A} (id_of : A → string) (f : A → A) (id j : string) (rows : list A) :
  j ≠ id → (∀ x, id_of (f x) = id_of x) → (∀ x, id_of x ≠ id → f x = x) →
  filter (λ x, id_of x = j) (f <$> rows) = filter (λ x, id_of x = j) rows.
Proof.
  intros Hj Hi Hf. induction rows as [|x rows IH]; [done|]. rewrite fmap_cons, !filter_cons, IH, Hi.
  case_decide as E; [|done]. by rewrite Hf by congruence.
Qed.
Lemma filter_drop_other {A} (id_of : A → string) (id j : string) (rows : list A) :
  j ≠ id → filter (λ x, id_of x = j) (filter (λ x, id_of x ≠ id) rows) = filter (λ x, id_of x = j) rows.
Proof. intros Hj. rewrite list_filter_filter. apply list_filter_iff. intros x. naive_solver. Qed.
(** The rows of one application. *)
Record AppRows := MkAppRows {
  ar_row : option Application;
  ar_columns : option AppColumns;
  ar_applicants : list Applicant;
  ar_versions : list SubmissionVersion;
  ar_comments : list Comment;
  ar_links : list MagicLink;
  ar_sessions : list ApplicantSession
}.
Definition rows_of (d : AppDb) (id : string) : AppRows :=
  MkAppRows (get_application d id) (app_columns d !! id) (filter (λ x, an_application_id x = id) (applicants d)) (versions_of d id)
    (filter (λ c, co_application_id c = id) (app_comments d)) (filter (λ l, mk_application_id l = id) (magic_links d))
    (filter (λ s, as_application_id s = id) (applicant_sessions d)).
(** What is left of one application. *)
Record anonymous (keys : list string) (now : Z) (a : Application) (x : AppRows) : Prop := {
  an_row : ar_row x = Some (set_data (PDict (_without_keys (data_of a) keys)) (ap_amount a) a);
  an_columns : ∀ c, ar_columns x = Some c → apc_capture_intake c = None;
  an_persons : ∀ r, r ∈ ar_applicants x → an_email r = None ∧ an_name r = None ∧ an_anonymized_at r = Some now;
  an_versions : ∀ v k, v ∈ ar_versions x → k ∈ keys → k ∉ (sv_data v).*1 ∧ ∀ y, sv_diff v = Some y → k ∉ diff_keys y;
  an_comments : ∀ c, c ∈ ar_comments x → co_author_kind c = by_applicant → co_body c = ANONYMIZED_BODY;
  an_links : ar_links x = [];
  an_sessions : ∀ s, s ∈ ar_sessions x → is_Some (as_revoked_at s)
}.
Lemma without_absent {A} (l : list (string * A)) keys k : k ∈ keys → k ∉ (_without_keys l keys).*1.
Proof. intros Hk (kv & -> & [H _]%list_elem_of_filter)%list_elem_of_fmap. done. Qed.

Section Anonymize.
Context (d : AppDb) (id who : string) (objects : bool) (now : Z) (a : Application) (Ha : get_application d id = Some a).
Context (d' : AppDb) (H : anonymize d id who objects now = Ok d').
Lemma anonymize_id : _get_app d id true = Ok a.
Proof. unfold _get_app. by rewrite Ha. Qed.
Lemma anonymized_app j : get_application d' j =
  if decide (j = id) then Some (set_data (PDict (_without_keys (data_of a) (erased_keys d a))) (ap_amount a) a) else get_application d j.
Proof.
  unfold anonymize in H. rewrite anonymize_id in H. cbn [mbind res_bind] in H. injection H as <-.
  match goal with |- context [update_app id ?g ?y] => set (f := g); set (z := y) end.
  transitivity (get_application (update_app id f z) j); [done|].
  unfold get_application, update_app, update_application, with_engine, engine. cbn -[alter lookup]. rewrite lookup_alter.
  case_decide as E1; case_decide as E2; try congruence. subst j.
  change (f <$> get_application d id = Some (set_data (PDict (_without_keys (data_of a) (erased_keys d a))) (ap_amount a) a)). by rewrite Ha.
Qed.
Lemma anonymized_others j : j ≠ id → rows_of d' j = rows_of d j.
Proof.
  intros Hj. pose proof (anonymized_app j) as Ej. rewrite decide_False in Ej by done.
  unfold rows_of. rewrite Ej. clear Ej. unfold anonymize in H. rewrite anonymize_id in H. cbn [mbind res_bind] in H. injection H as <-.
  unfold versions_of. cbn -[filter alter lookup fmap update_row]. f_equal.
  - by apply lookup_alter_ne.
  - apply (filter_map_other an_application_id _ id); [done|intros x; by case_bool_decide|intros x Hx; by rewrite bool_decide_false].
  - apply (filter_map_other sv_application_id _ id); [done|intros x; by case_bool_decide|intros x Hx; by rewrite bool_decide_false].
  - apply (filter_map_other co_application_id _ id); [done|intros x; by case_match|intros x Hx; by rewrite bool_decide_false].
  - by apply filter_drop_other.
  - apply (filter_map_other as_application_id _ id); [done|intros x; by case_match|intros x Hx; by rewrite bool_decide_false].
Qed.
Lemma anonymized_files x : x ∈ file_rows (app_files d') ↔
  x ∈ file_rows (app_files d) ∧ fl_owner x ∉ of_application id :: (of_comment <$> comment_ids d id).
Proof.
  unfold anonymize in H. rewrite anonymize_id in H. cbn [mbind res_bind] in H. injection H as <-. cbn [app_files with_app_files].
  destruct objects; cbn -[filter]; rewrite list_elem_of_filter; [rewrite bool_decide_eq_false|]; tauto.
Qed.
Lemma anonymized_own : anonymous (erased_keys d a) now a (rows_of d' id).
Proof.
  pose proof (anonymized_app id) as Ei. rewrite decide_True in Ei by done. split; [exact Ei|..]; clear Ei;
    unfold anonymize in H; rewrite anonymize_id in H; cbn [mbind res_bind] in H; injection H as <-.
  - intros c. cbn -[alter lookup]. rewrite lookup_alter_eq. by intros (x & _ & ->)%fmap_Some.
  - intros r [Hr (x & -> & _)%list_elem_of_fmap]%list_elem_of_filter. case_bool_decide as E; [done|]. by destruct E.
  - intros v k [Hv (x & -> & _)%list_elem_of_fmap]%list_elem_of_filter Hk. case_bool_decide as E; [|done]. split; [by apply without_absent|].
    intros y (z & _ & ->)%fmap_Some. unfold diff_keys, _scrub_diff. cbn. rewrite !not_elem_of_app. split_and!; by apply without_absent.
  - intros c [Hc (x & -> & _)%list_elem_of_fmap]%list_elem_of_filter. case_match eqn:E; [done|]. intros Hk.
    rewrite !bool_decide_true in E by done. done.
  - cbn. apply elem_of_nil_inv. by intros l [? [? _]%list_elem_of_filter]%list_elem_of_filter.
  - intros s [Hs (x & -> & _)%list_elem_of_fmap]%list_elem_of_filter. case_match eqn:E; [by eexists|].
    destruct (as_revoked_at x) eqn:Er; [by eexists|]. rewrite !bool_decide_true in E by done. done.
Qed.
End Anonymize.

(** C17: An anonymization leaves nothing of the applicant: no field that any form version of the type marks
    as personal is in the data, in a stored version or in a stored difference, the row of the applicant
    has neither address nor name, the intake note is gone, what the applicant commented is blanked, no
    magic link is left and no session is live, and the files of the application and of its comments are
    gone.  The rows of every other application, and the other files, stay as they are. *)
Theorem anonymization_erases d id who objects now a d' :
  get_application d id = Some a → anonymize d id who objects now = Ok d' →
  pii_keys_for_type d (ap_type_id a) ⊆ erased_keys d a ∧ anonymous (erased_keys d a) now a (rows_of d' id) ∧
  (∀ x, x ∈ file_rows (app_files d') ↔
    x ∈ file_rows (app_files d) ∧ fl_owner x ≠ of_application id ∧
    ∀ c, c ∈ app_comments d → co_application_id c = id → fl_owner x ≠ of_comment (co_id c)) ∧
  ∀ j, j ≠ id → rows_of d' j = rows_of d j.
Proof.
  intros Ha H. split_and!.
  - intros k Hk. apply elem_of_app. by right.
  - by eapply anonymized_own.
  - intros x. rewrite (anonymized_files _ _ _ _ _ _ Ha _ H). f_equiv. rewrite not_elem_of_cons. f_equiv. split.
    + intros Hn c Hc Hi E. apply Hn, list_elem_of_fmap. exists (co_id c). split; [done|]. apply list_elem_of_fmap. exists c. split; [done|].
      by apply list_elem_of_filter.
    + intros Hn (i & E & (c & -> & [Hi Hc]%list_elem_of_filter)%list_elem_of_fmap)%list_elem_of_fmap. by apply (Hn c).
  - intros j. by eapply anonymized_others.
Qed.

(** ** A concrete office *)
(** Alice applies, Bob sits in the Gremium that sees the cost center, Carol reads all applications. *)
Definition account_field : FormFieldDef := MkField "account" FText [] [] false None None None None true false None.
Definition sum_field : FormFieldDef := MkField "sum" FCurrency [] [] true None None None None false true (Some "amount").
Definition office_conf : Config :=
  MkConfig [MkState "draft" "flow" "draft" "normal" (PDict []) true true] [] [] [] [MkGremium "g" true false 60 None]
    [MkPrincipalRow "p1" "alice" (Some "Alice") (Some "alice@x.de"); MkPrincipalRow "p2" "bob" (Some "Bob") (Some "bob@x.de");
     MkPrincipalRow "p3" "carol" (Some "Carol") None]
    [MkMembership "g" "p2" ["vote.cast"]] [] [] [] [] [] [].
Definition office_roles : RoleTables :=
  MkRoleTables [("p3", "r1")] [] [("r1", READ_PERMISSION); ("r1", EDIT_ANY_PERMISSION)] [("r1", "office")].
Definition office_top : Budget := MkBudget "b0" None None "VS" "VS" "Verfasste" true None [] [] false (Some "g") None 1 1.
Definition office_sub : Budget := MkBudget "b1" (Some "b0") None "10" "VS-10" "Kultur" true None [] [] false None None 1 1.
Definition office_nodes : list Budget := [office_top; office_sub].
Definition office : AppDb :=
  MkAppDb (MkRoomDb (MkDb office_conf ∅ ∅ [] [] [] []) [] [] [] [] [] []) office_nodes ∅ [] [] [] [] []
    [MkFormVersion "f1" "t1" [account_field; sum_field]] [MkApplicationType "t1" None true (Some "f1")] (Some "flow") [] [("g", "AStA")]
    office_roles [MkAccount "p1" true None []; MkAccount "p2" true None []; MkAccount "p3" true None []] (MkFileDb [] [] []).
Definition any_text (p s : string) : option bool := Some true.
Definition alice : Principal := MkPrincipal "alice" [] [] [] None.
Definition bob : Principal := MkPrincipal "bob" [] [] [] None.
Definition carol : Principal := session_of office (MkPrincipalRow "p3" "carol" (Some "Carol") None) (MkAccount "p3" true None []).
Definition alice_account : option (Principal * option string * option string) := Some (alice, Some "alice@x.de", Some "Alice").
Definition concert (sum : Z) (account : string) : list (string * pyval) :=
  [("title", PStr "Konzert"); ("account", PStr account); ("sum", PInt sum)].
Definition request : ApplicationCreate := MkApplicationCreate "t1" (concert 500 "DE12") "" None "de" [] None.
Definition new_ids : NewIds := MkNewIds "a" "e1".
Definition no_fresh : Fresh := MkFresh "x" "x" "x" 0.
Definition and_then (d : AppDb) (r : ares AppDb) : AppDb := match r with Ok x => x | Err _ => d end.
Lemma and_then_ok d r : is_ok r = true → r = Ok (and_then d r).
Proof. by destruct r. Qed.
Definition o1 : AppDb := and_then office (create_application_route any_text office request None alice_account "pepper" new_ids no_fresh 1).
(** The budget office assigns the cost center; Dave may edit but not read personal fields; Carol anonymizes. *)
Definition set_budget (b : string) (a : Application) : Application :=
  MkApplication (ap_id a) (ap_type_id a) (ap_form_version_id a) (ap_flow_version_id a) (ap_current_state_id a) (Some b)
    (ap_fiscal_year_id a) (ap_gremium_id a) (ap_vote_gremium_id a) (ap_amount a) (ap_approved_amount a) (ap_data a) (ap_created_by a)
    (ap_email_confirmed a).
Definition o2 : AppDb := update_app "a" (set_budget "b1") o1.
Definition dave : Principal := MkPrincipal "dave" [] [EDIT_ANY_PERMISSION] [] None.
Definition daves : Access := MkAccess "a" (Some dave) None via_permission.
Definition bobs : Access := MkAccess "a" (Some bob) None via_committee.
Definition guests_link : Access := MkAccess "a" None (Some "a") via_applicant.
Definition daves_edit : ares (AppDb * ApplicationOut) := patch_application_route any_text o2 o2 daves (concert 600 "XX") 5.
Definition o3 : AppDb := and_then o2 (r ← daves_edit; Ok r.1).
Definition o4 : AppDb := and_then o3 (anonymize o3 "a" "carol" false 9).
Definition row_of (d : AppDb) : Application := default (MkApplication "" "" "" "" None None None None None None None PNone None false) (get_application d "a").
Example office_story :
  (data_of (row_of o1), data_of (row_of o3), data_of (row_of o4), sv_version <$> submission_versions o4) =
  (concert 500 "DE12", [("title", PStr "Konzert"); ("sum", PInt 600); ("account", PStr "DE12")], [("title", PStr "Konzert"); ("sum", PInt 600)], [1; 2]).
Proof. vm_compute. reflexivity. Qed.
Example bob_reads :
  (resolve_app_read o2 "a" (Some bob) None, (λ o, (out_data o, out_hidden_keys o)) <$> match get_application_route o2 bobs with Ok o => Some o | Err _ => None end) =
  (Ok bobs, Some ([("title", PStr "Konzert"); ("sum", PInt 500)], ["account"])).
Proof. vm_compute. reflexivity. Qed.

Lemma stored_iff d d' i : stored d' i = stored d i → is_Some (get_application d' i) ↔ is_Some (get_application d i).
Proof. unfold stored. intros E. by rewrite <- (bool_decide_eq_true (is_Some (get_application d' i))), E, bool_decide_eq_true. Qed.
Lemma run_update fm d h i f : app_run fm (d :: h) → app_run fm (update_app i f d :: d :: h).
Proof. intros H. eapply run_other; [exact H|done|]. intros j. apply stored_iff, stored_update. Qed.
Lemma one_row d f i b : applications (engine d) = <["a" := f]> ∅ → get_application d i = Some b → i = "a" ∧ b = f.
Proof. unfold get_application. intros -> [[<- <-]|[_ ?%lookup_empty_Some]]%lookup_insert_Some; done. Qed.
Lemma office_tree : tree_ok office_nodes.
Proof.
  assert (Ht : chain office_nodes "b0" "b0" ["VS"]) by (apply (chain_top _ office_top); [left|done]).
  split.
  - apply (bool_decide_unpack _). vm_compute. exact I.
  - apply Forall_forall. by repeat constructor.
  - intros b [->|[->|?%not_elem_of_nil]%elem_of_cons]%elem_of_cons; [by exists "b0", ["VS"]| |done].
    exists "b0", ["VS"; "10"]. split; [|done]. apply (chain_child office_nodes office_sub "b0" "b0" ["VS"]); [by right; left|done|done].
  - intros a b [->|[->|?%not_elem_of_nil]%elem_of_cons]%elem_of_cons [->|[->|?%not_elem_of_nil]%elem_of_cons]%elem_of_cons; done.
Qed.
Lemma office_rows : applications (engine o2) = <["a" := row_of o2]> ∅.
Proof. vm_compute. reflexivity. Qed.
Lemma office_wf : app_wf o2.
Proof.
  split.
  - intros i a [-> ->]%(one_row _ _ _ _ office_rows). vm_compute. reflexivity.
  - exact office_tree.
  - intros i a b [-> ->]%(one_row _ _ _ _ office_rows). intros E. vm_compute in E. injection E as <-. vm_compute. right. left.
Qed.
Lemma office_people : people_wf o2.
Proof.
  split; try (apply (bool_decide_unpack _); vm_compute; exact I).
  - apply Forall_forall. repeat constructor; set_solver.
  - apply Forall_forall. constructor.
Qed.
Lemma listed_iff_opens_witness :
  ∃ items total, list_applications_route (λ _, "") (λ _ _, 0%Q) o2 bob (everything 5) false = Ok (items, total) ∧ "a" ∈ li_id <$> items.
Proof.
  apply (listed_iff_opens (λ _, "") (λ _ _, 0%Q) o2 bob 5 "a"); [exact office_wf|vm_compute; lia|]. exists bobs. eexists.
  split; [vm_compute; reflexivity|vm_compute; reflexivity].
Defined.
Lemma mentionable_iff_reads_witness :
  let r := MkPrincipalRow "p2" "bob" (Some "Bob") (Some "bob@x.de") in let acct := MkAccount "p2" true None [] in
  live acct ∧ named r ∧ sees_internal o2 "a" (session_of o2 r acct).
Proof.
  apply (mentionable_iff_reads o2 "a" (row_of o2) (MkPrincipalRow "p2" "bob" (Some "Bob") (Some "bob@x.de")) (MkAccount "p2" true None [])
    office_wf office_people ltac:(vm_compute; reflexivity)); [by right; left|by right; left|done|]. vm_compute. left.
Defined.
(** Another account number in the data and in the version. *)
Definition other_apps : gmap string Application := <["a" := set_data (PDict (concert 500 "DE99")) (Some 50000) (row_of o2)]> ∅.
Definition other_versions : list SubmissionVersion :=
  (λ v, MkVersion (sv_application_id v) (sv_version v) (concert 500 "DE99") (sv_changed_by v) (sv_at v) (sv_diff v)) <$> submission_versions o2.
Lemma office_alike : pii_alike "bob" o2 other_apps other_versions.
Proof.
  split.
  - intros i. unfold get_application. rewrite office_rows. unfold other_apps. destruct (decide (i = "a")) as [->|Hi].
    + rewrite !lookup_insert_eq. constructor. exists (concert 500 "DE99"). split; [vm_compute; reflexivity|].
      split; [intros E; vm_compute in E; discriminate E|vm_compute; reflexivity].
    + rewrite !lookup_insert_ne by done. rewrite !lookup_empty. constructor.
  - vm_compute. repeat constructor.
Qed.
Lemma applicant_sees_no_member_witness :
  ∃ l, get_versions_route o3 guests_link = Ok l ∧ length l = 2%nat ∧ ∀ v, v ∈ l → ver_data v = None ∧ ver_diff v = None.
Proof.
  destruct (applicant_sees_no_member o3 "a" None (Some "a") guests_link (row_of o3)) as (_ & _ & _ & H & _);
    [vm_compute; reflexivity..|].
  eexists. split; [vm_compute; reflexivity|]. split; [reflexivity|]. intros v Hv.
  destruct (H _ v ltac:(vm_compute; reflexivity) Hv) as (H1 & H2 & _). split; [exact H1|exact H2].
Defined.
Lemma office_run : app_run any_text [o3; o2; o1; office].
Proof.
  assert (H1 : app_run any_text [o1; office]).
  { eapply run_create; [by apply run_start| |apply and_then_ok; vm_compute; reflexivity].
    intros k ->%list_elem_of_singleton. vm_compute. reflexivity. }
  assert (H2 : app_run any_text [o2; o1; office]) by exact (run_update _ _ _ _ _ H1).
  destruct daves_edit as [[d out]|e] eqn:E; [|vm_compute in E; discriminate E].
  replace o3 with d by (unfold o3; by rewrite E). eapply run_patch; [exact H2|by left|exact E].
Qed.
Lemma edit_written_witness :
  match daves_edit with
  | Ok (d, out) => ∃ v, submission_versions d = submission_versions o2 ++ [v] ∧ dict_get "account" (sv_data v) = dict_get "account" (data_of (row_of o2))
  | Err _ => False
  end.
Proof.
  destruct daves_edit as [[d out]|e] eqn:E; [|vm_compute in E; discriminate E].
  destruct (edit_written any_text o2 o2 daves (concert 600 "XX") 5 d out (row_of o2)) as (v & H1 & _ & _ & _ & _ & _ & H & _);
    [apply (bool_decide_unpack _); vm_compute; exact I|vm_compute; reflexivity|exact E|].
  exists v. split; [exact H1|]. destruct (H ltac:(vm_compute; reflexivity)) as [H2 _].
  apply (H2 "account"); [vm_compute; left|vm_compute; right; left].
Defined.
Lemma anonymization_erases_witness :
  anonymous ["account"; "account"] 9 (row_of o3) (rows_of o4 "a") ∧ rows_of o4 "b" = rows_of o3 "b".
Proof.
  destruct (anonymization_erases o3 "a" "carol" false 9 (row_of o3) o4) as (_ & H1 & _ & H2);
    [vm_compute; reflexivity|apply and_then_ok; vm_compute; reflexivity|]. split; [exact H1|]. by apply H2.
Defined.

(** ** Where the code departs from its documentation *)
Definition write_of {A} (r : ares (AppDb * A)) : ares AppDb := p ← r; Ok p.1.
(** The second of two edits from one version fails in the database: the audit entry flushes before the
    block that would turn the double number into [concurrent_update]. *)
Example second_edit_fails : write_of (patch_application_route any_text o2 o3 daves (concert 700 "XX") 6) = Err ADatabase.
Proof. vm_compute. reflexivity. Qed.
(** An edit that has read the data before an anonymization brings the personal field back. *)
Definition o2_anonymous : AppDb := and_then o2 (anonymize o2 "a" "carol" false 9).
Example personal_field_returns :
  (dict_get "account" (data_of (row_of o2_anonymous)),
   dict_get "account" (data_of (row_of (and_then o2_anonymous (write_of (patch_application_route any_text o2 o2_anonymous daves (concert 600 "XX") 10)))))) =
  (None, Some (PStr "DE12")).
Proof. vm_compute. reflexivity. Qed.
(** A substitute of the pool reads the internal comments and cannot be mentioned. *)
Definition with_pool (l : list DelegationSubstitute) (d : AppDb) : AppDb := with_room (with_substitutes l (AppAccess.room d)) d.
Definition no_role : Principal := MkPrincipal "carol" [] [] [] None.
Example pool_reads_unmentioned :
  let d := with_pool [MkSubstitute "ds" "g" None "p3" None] o2 in
  (resolve_app_read d "a" (Some no_role) None, bool_decide ("p3" ∈ _committee_members d (committee_gremium_ids d "a"))) =
  (Ok (MkAccess "a" (Some no_role) None via_committee), false).
Proof. vm_compute. reflexivity. Qed.
(** A title that its form marks as personal is in the list of a reader from whom the detail hides it. *)
Definition personal_title : FormFieldDef := MkField "title" FText [] [] true None None None None true false None.
Definition titled : AppDb :=
  MkAppDb (AppAccess.room o2) (cost_centers o2) (app_columns o2) (applicants o2) (submission_versions o2) (app_comments o2) (magic_links o2)
    (applicant_sessions o2) [MkFormVersion "f1" "t1" [personal_title; account_field; sum_field]] (app_types o2) (active_flow o2) (event_times o2)
    (gremium_names o2) (app_roles o2) (app_accounts o2) (app_files o2).
Example listed_title :
  (match list_applications_route (λ _, "") (λ _ _, 0%Q) titled bob (everything 5) false with Ok (l, _) => li_title <$> l | Err _ => [] end,
   match get_application_route titled bobs with Ok o => out_data o | Err _ => [] end) = ([Some "Konzert"], [("sum", PInt 500)]).
Proof. vm_compute. reflexivity. Qed.
(** The form accepts an amount that its column refuses. *)
Example amount_too_large : write_of (patch_application_route any_text o2 o2 daves (concert (10 ^ 10) "XX") 6) = Err ADatabase.
Proof. vm_compute. reflexivity. Qed.
